(* ===== verification/_CoqProject ===== *)
-Q . S2P
Prelude.v
QdmaErrors.v
QdmaList.v
ResourceMgmt.v
ResourceInv.v
ResourceSys.v
ResourceProps.v
ResourceView.v
Mmio.v
Text.v
CLayout.v
Contexts.v
Fields.v
Indirect.v
IndirectMem.v
Codec.v
Access.v
EqdmaCtxt.v
SoftCtxt.v
S80Ctxt.v
Formats.v
CtxtProps.v
Csr.v
EqdmaCsr.v
SoftCsr.v
S80Csr.v
CsrProps.v
RegTables.v
EqdmaRegs.v
S80Regs.v
EqdmaRegInfo.v
S80RegInfo.v
RegList.v
RegDump.v
RegDumpProps.v
HwErrs.v
EqdmaErrs.v
SoftErrs.v
S80Errs.v
HwErrsProps.v
MboxMsg.v
MboxHw.v
MboxPf.v
MboxInv.v
MboxProps.v
MboxFlows.v
MboxLimits.v
HwTable.v
HwTableProps.v
Descq.v
DescqFill.v
DescqPass.v
DescqInv.v
DescqProps.v
C2h.v
C2hRead.v
C2hCntr.v
C2hCmpl.v
C2hChan.v
C2hPool.v
C2hLimits.v
MemoryApi.v
ReconicReg.v
Reconic.v
RdmaApi.v
ReconicProps.v
RdmaProps.v
DrvData.v
DrvCtxt.v
DrvVf.v
DrvCtxtProps.v
DrvThread.v
DrvQueue.v
DrvLife.v
DrvRings.v
DrvStates.v
DrvStart.v
DrvLimits.v
