(* ===== verification/Prelude.v ===== *)
(** * RecoNIC: a model of its host software and the theorems that make it correct

    RecoNIC is an RDMA-capable network card with programmable compute blocks.  This library
    models the C software that runs on the host, from the source under [src/RecoNIC]:

    - the hardware access library of the QDMA driver, in the kernel
      ([drivers/onic-driver/libqdma/qdma_access]), the driver's descriptor queues and the calls
      that add, start, stop and remove them ([drivers/onic-driver/libqdma]);
    - the user-space library that applications link against ([lib]).

    ** How the program is put together

    A QDMA core moves data between host and card through queues.  The physical function
    owns the core.  Virtual functions ask it, with messages through mailbox registers, for
    queues and for the contexts of their queues to be set up.  The physical function keeps
    track of who owns which queue (the resource manager, on linked lists) and carries the
    requests out through a table of functions, which one of three hardware access
    libraries fills in: EQDMA, soft QDMA and hard QDMA.  These pack the contexts
    into words and write them with indirect register commands, and access the
    other registers of the core directly.

    The driver moves data through the rings of these queues: it turns the scatter-gather lists of
    requests into descriptors, rings a doorbell of the access library, and completes requests as the
    engine reports how far it has read.  A client adds a queue, configures it, starts it, which
    allocates its rings and has its contexts written, stops it and removes it.

    In user space, the RDMA library places buffers in device or host memory, sets the
    address translation windows of the AXI bridge and programs the RDMA engine
    through memory-mapped registers: protection domains, queue pairs, work
    queue elements, doorbells, completions, recovery.  Bulk data goes through a
    character device.

    ** The files, and what they model

    Shared foundations.
    - Prelude: machine integers ([u8] .. [i64], with wrap-around written out), lists
      updated by index, the predicates [is_u8] .. [is_u64], automation.
    - QdmaErrors ([qdma_access_errors.h], [qdma_platform.c]): the error codes, [neg], and
      the translation to [errno].
    - Mmio ([control_api.c], register reads and writes of [qdma_platform.h]): the monad [M] of code
      that accesses registers.  The state of a run has the history of accesses, newest
      first; a device ([MmioDevice]) is a function from histories to the value read next,
      so that nothing about the hardware is assumed unless a theorem says so.  Outcomes
      are [Ret], [Exit] (exit or a failed assert), [Crash] (undefined behaviour) and [Hang] (no
      end within the fuel).
    - CLayout: a C object as the integer of its bytes, a member as a run of bits
      ([cfield]), reading and assigning as [fld] and [put].  Unions and casts between
      structures and words are then what they are in memory.

    Queues and their owners.
    - QdmaList ([qdma_list.c], [qdma_list.h]): the lists, on a heap of pointers.
    - ResourceMgmt ([qdma_resource_mgmt.c]): the resource manager.  Its static variables
      are [rm_state]; each entry point is a function on it, with the outcomes of the
      coming allocations in the state.
    - ResourceInv, ResourceSys, ResourceProps, ResourceView: its invariant, reachable states
      ([rm_reachable], by any sequence of calls), its properties, what one function sees.

    Contexts and registers.
    - Contexts ([qdma_access_common.h], [qdma_access_export.h]): the structures.
    - Fields, Indirect, Access, Csr ([qdma_access_common.h], [qdma_access_common.c] and the steps
      the three libraries share): masked fields, polling, indirect commands, the skeletons of
      the functions on contexts and on global registers.
    - EqdmaCtxt, EqdmaCsr ([eqdma_soft_access.c]), SoftCtxt, SoftCsr ([qdma_soft_access.c]),
      S80Ctxt, S80Csr ([qdma_s80_hard_access.c]): the three libraries, with the masks and
      addresses of their headers.
    - RegTables, EqdmaRegs, S80Regs, EqdmaRegInfo, S80RegInfo ([*_reg.h], [*_reg_dump.c]): the
      tables of registers, with the names and masks of their fields.
    - RegList (the functions [*_read_reg_list]): what a virtual function may read of them.
    - Text, RegDump ([dump_reg], [*_dump_config_regs], [*_dump_reg_info] and their parts): registers
      printed into a buffer of the caller; RegDumpProps: what is printed.
    - HwErrs ([*_hw_error_process], [*_hw_error_enable]), EqdmaErrs, SoftErrs, S80Errs (the tables
      [*_hw_err_info]): interrupts of hardware errors; HwErrsProps: what the handlers write.
    - IndirectMem: the interface [ContextMemory], what a device does with the indirect
      commands, and an implementation of it ([memory_device]).
    - Codec, Formats: packing and unpacking as linear functions of bits, and the bits of each
      member that each format keeps; the interface is the class [GoodCodec].
    - CtxtProps, CsrProps: the properties of the libraries' functions.

    The mailbox.
    - MboxMsg, MboxHw, MboxPf ([qdma_mbox_protocol.c]): messages, mailbox registers, and the
      handler of the physical function.  A call through the table of functions is a value
      of [hw_call] that the state records; what it returns is the interface [HwAccess].
    - MboxInv: a program logic for the handler; MboxProps, MboxFlows, MboxLimits: its
      properties, requests from one end to the other, and where it falls short.
    - HwTable ([qdma_hw_access_init]), HwTableProps: the table filled in by each library, as an
      instance of [HwAccess], and what follows for the mailbox on a device that keeps
      contexts.

    Descriptor queues.
    - Descq ([qdma_descq.c], [qdma_descq.h], and the functions of [libqdma_export.c] that submit
      requests): a queue ([qdma_descq]) with its ring, its lists of requests and its credits; the
      functions that fill the ring, handle completions and submit requests.  The engine is the
      interface [DmaEngine].
    - DescqFill: the loops that fill the ring, for any way of making one descriptor;
      DescqPass: what a pass over a request puts into the ring, for both kinds of queues.
    - DescqInv: the invariant of a queue ([queue_ok]) and the relation [progress]; DescqProps:
      histories of a queue, and where the code does something else.

    Streams from the card.
    - C2h ([qdma_st_c2h.c], and what [qdma_descq.c], [qdma_regs.c] and [libqdma_export.c] do for such
      queues): a queue ([c2h_descq]) with its free list ([qdma_flq]: pool of pages, ring of buffers), its
      completion ring and its waiting requests.  Pages and copies are logs.  The card, the
      allocators and the callbacks are the interface [C2hEngine].
    - C2hRead: copying from the ring to a request ([st_c2h_read_run]), and giving buffers back;
      C2hCmpl: taking entries of the completion ring ([rxq], [process_run]); C2hChan: where the
      card writes ([landed]), the invariant [chan] and histories of calls.
    - C2hCntr: the counter threshold that adapts to the load, and configuring a queue; C2hPool: the
      account of references and mappings ([pool]); C2hLimits: where the code does something else.

    The driver's interface.
    - DrvData ([libqdma_export.h], [qdma_descq.h], [xdev.h]): configurations as C objects, the members
      of a queue that its life concerns ([qdma_descq]), the device ([xlnx_dma_dev]), and the calls
      of the table of functions ([drv_call], with the interface [DrvAccess]).
    - DrvCtxt ([qdma_context.c] of the physical function): making contexts out of a configuration,
      clearing, writing and reading them; DrvVf (the other half of [qdma_context.c], and the requests in
      [qdma_device.c], [qdma_regs.c] and [libqdma_export.c]): the same for a virtual function, through
      its mailbox (class [VfMailbox]).  DrvCtxtProps: that the two do the same.
    - DrvThread ([qdma_thread.c]): which processor or thread serves a queue.
    - DrvQueue, DrvLife ([libqdma_export.c], [qdma_device.c], [qdma_descq.c], [qdma_regs.c], [qdma_intr.c]
      of the physical function): the state of a device ([drv]) and the calls on queues.  The kernel is
      the interface [DrvKernel], what it is asked for is logged ([kernel_event]); the buffers of
      a stream are the interface [FreeList], of which [c2h_free_list] is the instance made from C2h.
    - DrvRings: an account of the memory for rings ([outstanding]) and triples over it for all these
      operations; DrvStates: histories of calls; DrvStart: starting a queue; DrvLimits: where the
      code does something else.

    User space.
    - ReconicReg ([reconic_reg.h]): the register map.
    - MemoryApi ([memory_api.c]): bulk transfers over the system calls (class [CharDevice]).
    - Reconic, ReconicProps ([reconic.c], [control_api.c], [auxiliary.c]): the device, buffers,
      bridge windows, compute commands.
    - RdmaApi, RdmaProps ([rdma_api.c]): the RDMA library.

    ** What the theorems show

    - Queues have one owner.  In every state reachable without wrap-around ([call_ok]), memory
      exhaustion included, no queue is in range for two functions; while memory lasts, every queue is held
      exactly once; a resize has the outcome its caller is told, and, for a function with no queue
      active, succeeds when it can (ResourceProps); calls for one function are invisible to the
      others (ResourceView).
    - The mailbox keeps functions apart.  A message changes the resource manager only in the
      name of its sender, and only contexts of the sender's queues, its entry of the function map and the
      interrupt rings it names, unless it drops a completion context alone (MboxProps); with any of the
      three libraries behind the table, on a device that keeps contexts, the contexts of all other
      queues stay as they were in the memory of the device (HwTableProps).  Every request
      is answered, but for a function map the hardware refuses; a request for queues and the setting up of a queue are followed from one
      end to the other (MboxProps, MboxFlows).
    - Contexts reach the device and come back.  The indirect commands implement a memory
      (IndirectMem); unpacking gives back what the format has room for, but for two members the
      EQDMA's library misreads (CtxtProps); tables of global registers, doorbells, register lists and the
      clearing of the memory stay in their bounds (CsrProps, RegList).
    - Data goes where it belongs.  The descriptors of a request transfer each of its bytes once, in
      order, between its places in host memory and on the card, and do not overwrite descriptors the
      engine has not read (DescqPass); over any sequence of submissions (of requests that are [submittable])
      and services no request is lost or
      overtaken, and what the engine has read gets completed, without error (DescqProps).
    - Streams arrive.  A queue that receives a stream is a channel: what the card writes, at the addresses in
      its descriptors, is copied to the places requests ask for, in order and each byte once, whatever
      comes first, as long as the card's buffers are where the driver takes them to be
      ([told_where]; C2hChan, and C2hLimits for a buffer that is not); the
      count of buffers of a packet is right (C2hCmpl), the threshold stays within its table (C2hCntr),
      and no page is lost or given back twice by allocating and freeing (C2hPool).
    - Queues have a life.  Over any history of calls, whatever fails, the memory for rings is that
      of the queues that are online, and every call moves one queue along its own arrow, if adds give
      an index (DrvStates); starting a queue that is polled makes exactly the calls that set it up (DrvStart), and a virtual
      function's queue is set up by the same ones (DrvCtxtProps); queues of one index are
      compatible (DrvRings), and their handles lead back to them (DrvStates).
    - Registers printed are registers read: the fields in the text make up the value, and the
      dump fits its buffer (RegDumpProps).  Of hardware errors exactly those seen are acknowledged,
      and enabling all of them sets the masks of their groups and no other register (HwErrsProps).
    - The pointer operations of the lists are the operations on the lists they represent
      (QdmaList).
    - Loops end: polling (IndirectMem), iteration over a list that is being changed (QdmaList),
      handling a queue (DescqProps, C2hChan), waiting for completions, and, as a defect, the one that does not end (RdmaProps).
    - Buffers do not overlap and the bridge translates their addresses back (ReconicProps);
      the RDMA library writes the registers of an object and no others, with the values of
      its arguments (RdmaProps, queue pairs from number 1 on); transfers are complete or report an error (MemoryApi).
    - Where the code does less than it means to, a theorem or lemma says so (MboxLimits, and lemmas of
      the other files); they are the findings of the manifest.

    ** Bounds and fuel

    Loops over counters are structural.  Polling loops of the kernel have the bound of the code
    ([poll_rounds]: the timeout over the interval).  Loops of the RDMA library that wait for the
    hardware without a bound take fuel and end in [Hang] without it; theorems about them either
    hold for every fuel beyond a number that is part of the statement, or show that no
    fuel is enough.  Handling a descriptor queue takes fuel for the bytes that wait: every turn
    of its loop writes a descriptor for at least one of them.  The copying loops of a stream have
    fuel for the buffers and pieces there are, which is shown to be enough; giving buffers back for use
    again needs none.  The calls of the driver's interface loop over the queues and vectors there are;
    that the numbers of a device fit their types is part of [well_shaped].  The search for a bit in a mask has one turn for each bit, and the dump of
    a list of registers one for each row and one more.

    ** What is not modelled

    - Locks: every entry point that takes one is atomic here (the resource manager, an indirect
      command, a descriptor queue).  Interleavings of mailbox messages are sequences of handler runs.
    - Logging, the functions that print contexts into text buffers, and the detection of the
      hardware version.
    - Of the descriptor queues: descriptors filled by user logic ([fp_bypass_desc_fill]),
      the statistics of [ping_pong_en], reading the completion
      ring into a buffer of the caller.  What the kernel does while a caller sleeps is an argument.
    - Of the driver's interface: the text that a call leaves in the buffer of its caller, opening and
      closing devices, and the calls of a virtual function's driver other than those of DrvVf.  Adding
      a queue without giving an index, which enables another queue (DrvLimits), is modelled but
      is not a step of the histories ([index_given]).  While a queue that is being stopped waits for its
      requests the kernel may change it ([while_waiting]); that it leaves its state, configuration
      and rings alone is the hypothesis [others_keep_queue].  Taking a queue off a list that it
      is not on does nothing here.
    - The other parts of libqdma around the access library: the bodies of kernel threads and interrupt
      handlers, sysfs, debugfs; the network driver; the example programs.
    - Opening and mapping devices, huge pages, and the parsing of addresses in user space.
    - The hardware: it is a parameter, constrained by [ContextMemory], [engine_ok], [arrived] or by hypotheses of a theorem
      where what it does matters. *)

From Stdlib Require Export ZArith Lia Bool.
From stdpp Require Export prelude.

Declare Scope reconic_scope.
Delimit Scope reconic_scope with reconic.

Local Open Scope Z_scope.

(** ** Machine integers

    A C integer of width [w] is a [Z]; every operation of the source that can
    leave the range is followed by one of these conversions.  [u8] .. [u64]
    are conversions to [uint8_t] .. [uint64_t]; [i8], [i32] and [i64]
    are the two's-complement conversions of gcc to [char], [int] and [long]. *)

Definition u8 (z : Z) : Z := z mod 256.
Definition u16 (z : Z) : Z := z mod 65536.
Definition u32 (z : Z) : Z := z mod 4294967296.
Definition u64 (z : Z) : Z := z mod 18446744073709551616.
Definition i8 (z : Z) : Z := if u8 z <? 128 then u8 z else u8 z - 256.
Definition i32 (z : Z) : Z := if u32 z <? 2147483648 then u32 z else u32 z - 4294967296.
Definition i64 (z : Z) : Z :=
  if u64 z <? 9223372036854775808 then u64 z else u64 z - 18446744073709551616.

Definition is_u8 (z : Z) : Prop := 0 <= z < 256.
Definition is_u16 (z : Z) : Prop := 0 <= z < 65536.
Definition is_u32 (z : Z) : Prop := 0 <= z < 4294967296.
Definition is_u64 (z : Z) : Prop := 0 <= z < 18446744073709551616.
Definition is_i32 (z : Z) : Prop := -2147483648 <= z < 2147483648.

Lemma u8_small z : is_u8 z -> u8 z = z.
Proof. apply Z.mod_small. Qed.
Lemma u16_small z : is_u16 z -> u16 z = z.
Proof. apply Z.mod_small. Qed.
Lemma u32_small z : is_u32 z -> u32 z = z.
Proof. apply Z.mod_small. Qed.
Lemma u64_small z : is_u64 z -> u64 z = z.
Proof. apply Z.mod_small. Qed.
Lemma u8_range z : is_u8 (u8 z).
Proof. apply Z.mod_pos_bound; lia. Qed.
Lemma u16_range z : is_u16 (u16 z).
Proof. apply Z.mod_pos_bound; lia. Qed.
Lemma u32_range z : is_u32 (u32 z).
Proof. apply Z.mod_pos_bound; lia. Qed.
Lemma u64_range z : is_u64 (u64 z).
Proof. apply Z.mod_pos_bound; lia. Qed.

Lemma i32_small z : is_i32 z -> i32 z = z.
Proof.
  unfold is_i32, i32, u32. intros H.
  destruct (Z.ltb_spec (z mod 4294967296) 2147483648); Z.div_mod_to_equations; lia.
Qed.

Lemma i64_small z : -9223372036854775808 <= z < 9223372036854775808 -> i64 z = z.
Proof.
  unfold i64, u64. intros H.
  destruct (Z.ltb_spec (z mod 18446744073709551616) 9223372036854775808);
    Z.div_mod_to_equations; lia.
Qed.

Lemma i32_range z : is_i32 (i32 z).
Proof.
  unfold is_i32, i32. pose proof (u32_range z) as H; unfold is_u32 in H.
  destruct (Z.ltb_spec (u32 z) 2147483648); lia.
Qed.

Lemma i32_u32 z : i32 (u32 z) = i32 z.
Proof. unfold i32, u32. by rewrite Zmod_mod. Qed.

Lemma u32_idem z : u32 (u32 z) = u32 z.
Proof. apply Zmod_mod. Qed.

Create HintDb reconic.
#[export] Hint Resolve u8_range u16_range u32_range u64_range i32_range : reconic.

Create Rewrite HintDb wraps.
#[export] Hint Rewrite u32_idem i32_u32 : wraps.

(** [unwrap_ints] removes every conversion whose argument [lia] can see to be
    in range. *)
Ltac in_range := unfold is_u8, is_u16, is_u32, is_u64, is_i32 in *; lia.

Ltac unwrap_ints :=
  repeat match goal with
  | |- context [u8 ?z] => rewrite (u8_small z) by in_range
  | |- context [u16 ?z] => rewrite (u16_small z) by in_range
  | |- context [u32 ?z] => rewrite (u32_small z) by in_range
  | |- context [u64 ?z] => rewrite (u64_small z) by in_range
  | |- context [i32 ?z] => rewrite (i32_small z) by in_range
  | |- context [i64 ?z] => rewrite (i64_small z) by in_range
  end.

Ltac unwrap_ints_in H :=
  repeat match type of H with
  | context [u8 ?z] => rewrite (u8_small z) in H by in_range
  | context [u16 ?z] => rewrite (u16_small z) in H by in_range
  | context [u32 ?z] => rewrite (u32_small z) in H by in_range
  | context [u64 ?z] => rewrite (u64_small z) in H by in_range
  | context [i32 ?z] => rewrite (i32_small z) in H by in_range
  end.

(** [zbool] turns the boolean comparisons of a hypothesis or goal into
    propositions. *)
Ltac zbool :=
  repeat match goal with
  | H : (_ && _)%bool = true |- _ => apply andb_true_iff in H as [? ?]
  | H : (_ || _)%bool = false |- _ => apply orb_false_iff in H as [? ?]
  | H : (_ =? _) = true |- _ => apply Z.eqb_eq in H
  | H : (_ =? _) = false |- _ => apply Z.eqb_neq in H
  | H : (_ <? _) = true |- _ => apply Z.ltb_lt in H
  | H : (_ <? _) = false |- _ => apply Z.ltb_ge in H
  | H : (_ <=? _) = true |- _ => apply Z.leb_le in H
  | H : (_ <=? _) = false |- _ => apply Z.leb_gt in H
  end.

(** [case_if] splits on the first conditional of the goal and keeps the
    test. *)
Ltac case_if :=
  match goal with
  | |- context [if ?b then _ else _] =>
      lazymatch b with
      | context [if _ then _ else _] => fail
      | _ => let E := fresh "E" in destruct b eqn:E; zbool
      end
  end.

(** ** Bit fields

    Masking with a block of ones is taking a remainder or a multiple. *)

Section bits.
Implicit Types (x y k m : Z).

Lemma land_low x k : 0 <= k -> Z.land x (Z.ones k) = x mod 2 ^ k.
Proof. apply Z.land_ones. Qed.

Lemma land_field x k m :
  0 <= k -> 0 <= m ->
  Z.land x (Z.shiftl (Z.ones m) k) = (x / 2 ^ k) mod 2 ^ m * 2 ^ k.
Proof.
  intros Hk Hm. rewrite <- Z.land_ones, <- Z.shiftr_div_pow2, <- Z.shiftl_mul_pow2 by done.
  apply Z.bits_inj'. intros n Hn. rewrite Z.land_spec.
  destruct (Z.lt_ge_cases n k).
  - rewrite !Z.shiftl_spec_low by lia. by rewrite andb_false_r.
  - rewrite !Z.shiftl_spec, Z.land_spec, Z.shiftr_spec by lia.
    by replace (n - k + k) with n by lia.
Qed.

(** A disjoint union of bits is a sum. *)
Lemma lor_add x y k : 0 <= k -> 0 <= y < 2 ^ k -> Z.lor (x * 2 ^ k) y = x * 2 ^ k + y.
Proof.
  intros Hk Hy. rewrite <- Z.shiftl_mul_pow2 by lia.
  rewrite <- Z.lxor_lor, <- Z.add_nocarry_lxor; [done| |];
  (apply Z.bits_inj'; intros n Hn; rewrite Z.land_spec, Z.bits_0;
   destruct (Z.lt_ge_cases n k);
   [by rewrite Z.shiftl_spec_low by lia
   |rewrite andb_comm; replace y with (y mod 2 ^ k) by (apply Z.mod_small; lia);
    by rewrite Z.mod_pow2_bits_high by lia]).
Qed.
End bits.

(** ** Positions in a list

    A pointer into one of the driver's linked lists is the position of the
    node it points to. *)

(** [find_pos p l] is the position of the first element of [l] that
    satisfies [p]. *)
Fixpoint find_pos {A} (p : A -> bool) (l : list A) : option nat :=
  match l with
  | [] => None
  | x :: l' => if p x then Some O else S <$> find_pos p l'
  end.

(** [insert_at i x l] puts [x] just before position [i]. *)
Definition insert_at {A} (i : nat) (x : A) (l : list A) : list A :=
  take i l ++ x :: drop i l.

Section find_pos.
Context {A : Type}.
Implicit Types (l : list A) (p : A -> bool).

Lemma find_pos_Some p l i :
  find_pos p l = Some i ->
  exists x, l !! i = Some x /\ p x = true /\
    forall j y, (j < i)%nat -> l !! j = Some y -> p y = false.
Proof.
  revert i; induction l as [|a l IH]; intros i H; simpl in H; [done|].
  destruct (p a) eqn:Ha.
  - injection H as <-. exists a. split_and!; try done. intros; lia.
  - destruct (find_pos p l) as [k|] eqn:E; [|done]. injection H as <-.
    destruct (IH k eq_refl) as (x & ? & ? & Hmin). exists x. split_and!; try done.
    intros [|j] y Hj Hy; simpl in Hy; [congruence|]. apply (Hmin j); [lia|done].
Qed.

Lemma find_pos_None p l :
  find_pos p l = None -> forall x, x ∈ l -> p x = false.
Proof.
  induction l as [|a l IH]; simpl; intros H x Hx.
  { by apply not_elem_of_nil in Hx. }
  destruct (p a) eqn:Ha; [done|].
  destruct (find_pos p l) eqn:E; [done|].
  apply elem_of_cons in Hx as [->|Hx]; auto.
Qed.

Lemma find_pos_is_Some p l x :
  x ∈ l -> p x = true -> exists i, find_pos p l = Some i.
Proof.
  intros Hx Hp. destruct (find_pos p l) eqn:E; [eauto|].
  by rewrite (find_pos_None _ _ E _ Hx) in Hp.
Qed.

Lemma insert_at_app i x l1 l2 :
  i = length l1 -> insert_at i x (l1 ++ l2) = l1 ++ x :: l2.
Proof. intros ->. unfold insert_at. by rewrite take_app_length, drop_app_length. Qed.
End find_pos.

#[export] Hint Resolve insert_at_app : reconic.

(** Updates at a position. *)
Lemma delete_of_insert {A} (l : list A) i x : delete i (<[i := x]> l) = delete i l.
Proof. revert i; induction l as [|y l IH]; intros [|i]; simpl; try done. by f_equal. Qed.

Lemma alter_as_insert {A} (f : A -> A) (l : list A) i x :
  l !! i = Some x -> alter f i l = <[i := f x]> l.
Proof.
  revert i; induction l as [|y l IH]; intros [|i]; simpl; try done; [by intros [= ->]|].
  intros H. f_equal. by apply IH.
Qed.

(** ** Sequences of transitions *)

Section star.
Context {S : Type} (R : S -> S -> Prop).

Inductive star : S -> S -> Prop :=
| star_refl s : star s s
| star_step s1 s2 s3 : star s1 s2 -> R s2 s3 -> star s1 s3.

(** An inductive invariant holds in every reachable state. *)
Lemma star_invariant (P : S -> Prop) :
  (forall s s', P s -> R s s' -> P s') ->
  forall s s', star s s' -> P s -> P s'.
Proof. intros Hstep s s' Hs. induction Hs; eauto. Qed.
End star.
