(* ===== verification/QdmaErrors.v ===== *)
(** * QdmaErrors: the error codes of the QDMA access library

    [qdma_access_errors.h] numbers the library's errors; a function returns the
    negated number.  [qdma_platform.c] translates them to Linux errno values. *)

From S2P Require Import Prelude.
Local Open Scope Z_scope.

Inductive qdma_access_error_codes :=
| QDMA_SUCCESS
| QDMA_ERR_INV_PARAM
| QDMA_ERR_NO_MEM
| QDMA_ERR_HWACC_BUSY_TIMEOUT
| QDMA_ERR_HWACC_INV_CONFIG_BAR
| QDMA_ERR_HWACC_NO_PEND_LEGCY_INTR
| QDMA_ERR_HWACC_BAR_NOT_FOUND
| QDMA_ERR_HWACC_FEATURE_NOT_SUPPORTED
| QDMA_ERR_RM_RES_EXISTS
| QDMA_ERR_RM_RES_NOT_EXISTS
| QDMA_ERR_RM_DEV_EXISTS
| QDMA_ERR_RM_DEV_NOT_EXISTS
| QDMA_ERR_RM_NO_QUEUES_LEFT
| QDMA_ERR_RM_QMAX_CONF_REJECTED
| QDMA_ERR_MBOX_FMAP_WR_FAILED
| QDMA_ERR_MBOX_NUM_QUEUES
| QDMA_ERR_MBOX_INV_QID
| QDMA_ERR_MBOX_INV_RINGSZ
| QDMA_ERR_MBOX_INV_BUFSZ
| QDMA_ERR_MBOX_INV_CNTR_TH
| QDMA_ERR_MBOX_INV_TMR_TH
| QDMA_ERR_MBOX_INV_MSG
| QDMA_ERR_MBOX_SEND_BUSY
| QDMA_ERR_MBOX_NO_MSG_IN
| QDMA_ERR_MBOX_REG_READ_FAILED
| QDMA_ERR_MBOX_ALL_ZERO_MSG.

#[export] Instance qdma_access_error_codes_eq_dec : EqDecision qdma_access_error_codes.
Proof. solve_decision. Defined.

(** The value of the C enumerator. *)
Definition err_code (e : qdma_access_error_codes) : Z :=
  match e with
  | QDMA_SUCCESS => 0
  | QDMA_ERR_INV_PARAM => 1
  | QDMA_ERR_NO_MEM => 2
  | QDMA_ERR_HWACC_BUSY_TIMEOUT => 3
  | QDMA_ERR_HWACC_INV_CONFIG_BAR => 4
  | QDMA_ERR_HWACC_NO_PEND_LEGCY_INTR => 5
  | QDMA_ERR_HWACC_BAR_NOT_FOUND => 6
  | QDMA_ERR_HWACC_FEATURE_NOT_SUPPORTED => 7
  | QDMA_ERR_RM_RES_EXISTS => 8
  | QDMA_ERR_RM_RES_NOT_EXISTS => 9
  | QDMA_ERR_RM_DEV_EXISTS => 10
  | QDMA_ERR_RM_DEV_NOT_EXISTS => 11
  | QDMA_ERR_RM_NO_QUEUES_LEFT => 12
  | QDMA_ERR_RM_QMAX_CONF_REJECTED => 13
  | QDMA_ERR_MBOX_FMAP_WR_FAILED => 14
  | QDMA_ERR_MBOX_NUM_QUEUES => 15
  | QDMA_ERR_MBOX_INV_QID => 16
  | QDMA_ERR_MBOX_INV_RINGSZ => 17
  | QDMA_ERR_MBOX_INV_BUFSZ => 18
  | QDMA_ERR_MBOX_INV_CNTR_TH => 19
  | QDMA_ERR_MBOX_INV_TMR_TH => 20
  | QDMA_ERR_MBOX_INV_MSG => 21
  | QDMA_ERR_MBOX_SEND_BUSY => 22
  | QDMA_ERR_MBOX_NO_MSG_IN => 23
  | QDMA_ERR_MBOX_REG_READ_FAILED => 24
  | QDMA_ERR_MBOX_ALL_ZERO_MSG => 25
  end.

(** [-QDMA_ERR_..], as the functions return it. *)
Definition neg (e : qdma_access_error_codes) : Z := - err_code e.

Lemma err_code_inj e1 e2 : err_code e1 = err_code e2 -> e1 = e2.
Proof. destruct e1, e2; simpl; congruence || lia. Qed.

Lemma err_code_range e : 0 <= err_code e <= 25.
Proof. destruct e; simpl; lia. Qed.

(** Linux errno values used by the translation table. *)
Definition EPERM : Z := 1.
Definition EIO : Z := 5.
Definition ENOMEM : Z := 12.
Definition EBUSY : Z := 16.
Definition EINVAL : Z := 22.

(** [error_code_map_list[]], row by row. *)
Definition error_code_map_list : list (qdma_access_error_codes * Z) :=
  [ (QDMA_SUCCESS, 0); (QDMA_ERR_INV_PARAM, EINVAL); (QDMA_ERR_NO_MEM, ENOMEM);
    (QDMA_ERR_HWACC_BUSY_TIMEOUT, EBUSY); (QDMA_ERR_HWACC_INV_CONFIG_BAR, EINVAL);
    (QDMA_ERR_HWACC_NO_PEND_LEGCY_INTR, EINVAL); (QDMA_ERR_HWACC_BAR_NOT_FOUND, EINVAL);
    (QDMA_ERR_HWACC_FEATURE_NOT_SUPPORTED, EINVAL);
    (QDMA_ERR_RM_RES_EXISTS, EPERM); (QDMA_ERR_RM_RES_NOT_EXISTS, EINVAL);
    (QDMA_ERR_RM_DEV_EXISTS, EPERM); (QDMA_ERR_RM_DEV_NOT_EXISTS, EINVAL);
    (QDMA_ERR_RM_NO_QUEUES_LEFT, EPERM); (QDMA_ERR_RM_QMAX_CONF_REJECTED, EPERM);
    (QDMA_ERR_MBOX_FMAP_WR_FAILED, EIO); (QDMA_ERR_MBOX_NUM_QUEUES, EINVAL);
    (QDMA_ERR_MBOX_INV_QID, EINVAL); (QDMA_ERR_MBOX_INV_RINGSZ, EINVAL);
    (QDMA_ERR_MBOX_INV_BUFSZ, EINVAL); (QDMA_ERR_MBOX_INV_CNTR_TH, EINVAL);
    (QDMA_ERR_MBOX_INV_TMR_TH, EINVAL); (QDMA_ERR_MBOX_INV_MSG, EINVAL);
    (QDMA_ERR_MBOX_SEND_BUSY, EBUSY); (QDMA_ERR_MBOX_NO_MSG_IN, EINVAL);
    (QDMA_ERR_MBOX_REG_READ_FAILED, EIO); (QDMA_ERR_MBOX_ALL_ZERO_MSG, EINVAL) ].

(** The table is indexed by the negated code; an index outside the array has
    no value. *)
Definition qdma_get_err_code (acc_err_code : Z) : option Z :=
  let acc_err_code := acc_err_code * -1 in
  if acc_err_code <? 0 then None
  else '(_, e) ← error_code_map_list !! Z.to_nat acc_err_code; Some (- e).

(** The row of the table an error selects is the row labelled with it, so every
    error of the library is translated, to a negative errno, and only success to
    zero. *)
Lemma error_code_map_row e :
  exists errno, error_code_map_list !! Z.to_nat (err_code e) = Some (e, errno) /\
    (e = QDMA_SUCCESS <-> errno = 0) /\ 0 <= errno.
Proof. destruct e; eexists; (split; [reflexivity|]); split; try split; (done || discriminate || lia). Qed.
