(* ===== verification/QdmaList.v ===== *)
(** * QdmaList: the intrusive doubly-linked lists of [qdma_list.c]

    The list nodes live in a heap that maps an address to a [qdma_list_head];
    address [0] is [NULL].  Each operation performs the loads and stores of
    the C body in their order, so aliasing between the arguments is what the
    heap makes of it; reading or writing an address with no node is a fault
    ([None]).  [is_dll h head ns] says that the nodes [ns] hang off [head] in
    this order, as a well-linked circular list.  The theorems say that each
    operation is the corresponding operation on [ns], and that the
    [qdma_list_for_each_safe] loop visits every node even when its body
    unlinks the node it is visiting. *)

From stdpp Require Import prelude gmap.
From S2P Require Import Prelude.

Abbreviation addr := nat.
Definition NULL : addr := 0%nat.

Record qdma_list_head := mk_head { prev : addr; next : addr; priv : addr }.

Abbreviation heap := (gmap addr qdma_list_head).

Definition set_prev (p : addr) (n : qdma_list_head) := mk_head p (next n) (priv n).
Definition set_next (p : addr) (n : qdma_list_head) := mk_head (prev n) p (priv n).

Definition load (h : heap) (a : addr) : option qdma_list_head :=
  if Nat.eqb a NULL then None else h !! a.
Definition store (f : qdma_list_head -> qdma_list_head) (a : addr) (h : heap) : option heap :=
  n ← load h a; Some (<[a := f n]> h).

Definition load_prev h a : option addr := prev <$> load h a.
Definition load_next h a : option addr := next <$> load h a.

(** [head->prev = head->next = head], for a non-NULL head. *)
Definition qdma_list_init_head (head : addr) (h : heap) : option heap :=
  if Nat.eqb head NULL then Some h
  else h1 ← store (set_next head) head h;
       store (set_prev head) head h1.

Definition qdma_list_add_tail (node head : addr) (h : heap) : option heap :=
  p ← load_prev h head;
  h1 ← store (set_next node) p h;
  h2 ← store (set_next head) node h1;
  q ← load_prev h2 head;
  h3 ← store (set_prev q) node h2;
  store (set_prev node) head h3.

Definition qdma_list_insert_before (new_node node : addr) (h : heap) : option heap :=
  p ← load_prev h node;
  h1 ← store (set_next new_node) p h;
  q ← load_prev h1 node;
  h2 ← store (set_prev q) new_node h1;
  h3 ← store (set_next node) new_node h2;
  store (set_prev new_node) node h3.

Definition qdma_list_insert_after (new_node node : addr) (h : heap) : option heap :=
  h1 ← store (set_prev node) new_node h;
  n ← load_next h1 node;
  h2 ← store (set_next n) new_node h1;
  n' ← load_next h2 node;
  h3 ← store (set_prev new_node) n' h2;
  store (set_next new_node) node h3.

Definition qdma_list_del (node : addr) (h : heap) : option heap :=
  if Nat.eqb node NULL then Some h
  else
    p ← load_prev h node;
    h1 ← (if Nat.eqb p NULL then Some h
          else n ← load_next h node; store (set_next n) p h);
    n ← load_next h1 node;
    if Nat.eqb n NULL then Some h1
    else p' ← load_prev h1 node; store (set_prev p') n h1.

Definition qdma_list_is_last_entry (entry head : addr) (h : heap) : option bool :=
  n ← load_next h entry; Some (Nat.eqb n head).
Definition qdma_list_is_empty (head : addr) (h : heap) : option bool :=
  n ← load_next h head; Some (Nat.eqb n head).

(** The loop [for (pos = head->next, n = pos->next; pos != head; pos = n, n =
    pos->next) body(pos)], with the [n] of the next round read before the
    body runs; [fuel] bounds the number of tests of the condition.  The result
    carries the visited nodes. *)
Fixpoint for_each_from (fuel : nat) (body : addr -> heap -> option heap)
    (pos n head : addr) (h : heap) : option (list addr * heap) :=
  match fuel with
  | O => None
  | S fuel' =>
      if Nat.eqb pos head then Some ([], h)
      else h1 ← body pos h;
           n' ← load_next h1 n;
           '(vs, h2) ← for_each_from fuel' body n n' head h1;
           Some (pos :: vs, h2)
  end.

Definition qdma_list_for_each_safe (fuel : nat) (body : addr -> heap -> option heap)
    (head : addr) (h : heap) : option (list addr * heap) :=
  pos ← load_next h head;
  n ← load_next h pos;
  for_each_from fuel body pos n head h.

(** ** Well-linked lists *)

(** [a] and [b] are neighbours: [a->next == b] and [b->prev == a]. *)
Definition linked (h : heap) (a b : addr) : Prop :=
  load_next h a = Some b /\ load_prev h b = Some a.

Fixpoint chain (h : heap) (a : addr) (l : list addr) (b : addr) : Prop :=
  match l with
  | [] => linked h a b
  | x :: l' => linked h a x /\ chain h x l' b
  end.

Definition is_dll (h : heap) (head : addr) (ns : list addr) : Prop :=
  NoDup (head :: ns) /\ chain h head ns head.

(** ** The heap primitives *)

Section heap_lemmas.
Implicit Types (h : heap) (a b c : addr).

Lemma load_Some_ne h a n : load h a = Some n -> a <> NULL.
Proof. unfold load. case (Nat.eqb_spec a NULL); congruence. Qed.

Lemma load_store f a h h' :
  store f a h = Some h' ->
  load h' a = f <$> load h a /\ (forall b, b <> a -> load h' b = load h b).
Proof.
  unfold store, load. case (Nat.eqb_spec a NULL) as [->|Ha]; simpl; [done|].
  destruct (h !! a) as [n|] eqn:E; simpl; [|done]. intros [= <-].
  split; [by rewrite lookup_insert_eq|].
  intros b Hb. case (Nat.eqb_spec b NULL); [done|]. by rewrite lookup_insert_ne.
Qed.

Lemma store_total f a h n : load h a = Some n -> exists h', store f a h = Some h'.
Proof. intros H. unfold store. rewrite H. simpl. eauto. Qed.

Lemma load_next_Some h a b : load_next h a = Some b ->
  exists n, load h a = Some n /\ next n = b.
Proof. unfold load_next. destruct (load h a); simpl; naive_solver. Qed.
Lemma load_prev_Some h a b : load_prev h a = Some b ->
  exists n, load h a = Some n /\ prev n = b.
Proof. unfold load_prev. destruct (load h a); simpl; naive_solver. Qed.

(** What a store to [next] or [prev] does to the two loads. *)
Lemma set_next_spec a v h h' :
  store (set_next v) a h = Some h' ->
  load_next h' a = Some v /\
  (forall b, b <> a -> load_next h' b = load_next h b) /\
  (forall b, load_prev h' b = load_prev h b) /\
  (forall b, is_Some (load h b) -> is_Some (load h' b)).
Proof.
  intros H. pose proof (load_store _ _ _ _ H) as [Ha Hb].
  unfold store in H. destruct (load h a) as [n|] eqn:E; [|done].
  unfold load_next, load_prev. split_and!.
  - by rewrite Ha.
  - intros b ?. by rewrite Hb.
  - intros b. destruct (decide (b = a)) as [->|]; [by rewrite Ha, E|by rewrite Hb].
  - intros b. destruct (decide (b = a)) as [->|]; [by rewrite Ha|by rewrite Hb].
Qed.

Lemma set_prev_spec a v h h' :
  store (set_prev v) a h = Some h' ->
  load_prev h' a = Some v /\
  (forall b, b <> a -> load_prev h' b = load_prev h b) /\
  (forall b, load_next h' b = load_next h b) /\
  (forall b, is_Some (load h b) -> is_Some (load h' b)).
Proof.
  intros H. pose proof (load_store _ _ _ _ H) as [Ha Hb].
  unfold store in H. destruct (load h a) as [n|] eqn:E; [|done].
  unfold load_next, load_prev. split_and!.
  - by rewrite Ha.
  - intros b ?. by rewrite Hb.
  - intros b. destruct (decide (b = a)) as [->|]; [by rewrite Ha, E|by rewrite Hb].
  - intros b. destruct (decide (b = a)) as [->|]; [by rewrite Ha|by rewrite Hb].
Qed.

Lemma linked_load h a b : linked h a b -> is_Some (load h a) /\ is_Some (load h b).
Proof.
  intros [(n & -> & _)%load_next_Some (m & -> & _)%load_prev_Some]. eauto.
Qed.
End heap_lemmas.

(** ** Surgery on a chain *)

(** The last node of [l1], or the head; the first node of [l2], or the head. *)
Definition pred_of (head : addr) (l1 : list addr) : addr := List.last l1 head.
Definition succ_of (head : addr) (l2 : list addr) : addr := List.hd head l2.

Arguments pred_of : simpl never.

(** [x] put between the neighbours [p] and [s]; [x] taken out. *)
Definition spliced (h h' : heap) (p x s : addr) : Prop :=
  linked h' p x /\ linked h' x s /\
  (forall c, c <> p -> c <> x -> load_next h' c = load_next h c) /\
  (forall c, c <> s -> c <> x -> load_prev h' c = load_prev h c).
Definition unspliced (h h' : heap) (p s : addr) : Prop :=
  linked h' p s /\
  (forall c, c <> p -> load_next h' c = load_next h c) /\
  (forall c, c <> s -> load_prev h' c = load_prev h c).

Section chain_lemmas.
Implicit Types (h : heap) (a b p s x : addr) (l : list addr).

Lemma chain_app h a l1 x l2 b :
  chain h a (l1 ++ x :: l2) b <-> chain h a l1 x /\ chain h x l2 b.
Proof.
  revert a; induction l1 as [|y l1 IH]; intros a; simpl; [tauto|].
  rewrite IH. tauto.
Qed.

Lemma last_default (z a b : addr) l : List.last (z :: l) a = List.last (z :: l) b.
Proof. revert z. induction l as [|w l IH]; intros z; [done|]. apply (IH w). Qed.

Lemma pred_of_cons a y l : pred_of a (y :: l) = pred_of y l.
Proof. unfold pred_of. destruct l as [|z l]; [done|]. simpl. apply (last_default z). Qed.

Lemma pred_of_elem a l : pred_of a l ∈ a :: l.
Proof.
  revert a. induction l as [|y l IH]; intros a; [left|].
  rewrite pred_of_cons. apply list_elem_of_further, IH.
Qed.

(** A chain mentions only the [next] of its sources and the [prev] of its
    targets; [chain_left] redirects its last link, [chain_right] its first. *)
Lemma chain_left h h' a l b x :
  chain h a l b -> NoDup (a :: l) ->
  (forall c, c ∈ a :: l -> c <> pred_of a l -> load_next h' c = load_next h c) ->
  (forall c, c ∈ l -> load_prev h' c = load_prev h c) ->
  linked h' (pred_of a l) x -> chain h' a l x.
Proof.
  revert a. induction l as [|y l IH]; intros a Hc Hnd Hn Hp Hl; simpl in *; [done|].
  destruct Hc as [[Hay Hya] Hc]. apply NoDup_cons in Hnd as [Ha Hnd].
  pose proof (pred_of_elem y l). rewrite pred_of_cons in *. split.
  - split; [rewrite Hn|rewrite Hp]; set_solver.
  - apply IH; try done; intros; [apply Hn|apply Hp]; set_solver.
Qed.

Lemma chain_right h h' a x l b :
  chain h a l b -> NoDup (l ++ [b]) ->
  (forall c, c ∈ l -> load_next h' c = load_next h c) ->
  (forall c, c ∈ l ++ [b] -> c <> succ_of b l -> load_prev h' c = load_prev h c) ->
  linked h' x (succ_of b l) -> chain h' x l b.
Proof.
  assert (forall h h' a l b, chain h a l b ->
    (forall c, c ∈ a :: l -> load_next h' c = load_next h c) ->
    (forall c, c ∈ l ++ [b] -> load_prev h' c = load_prev h c) -> chain h' a l b) as Hframe.
  { clear. intros h h' a l b. revert a. induction l as [|y l IH]; intros a; simpl.
    - intros [Hab Hba] Hn Hp. split; [rewrite Hn|rewrite Hp]; set_solver.
    - intros [[Hab Hba] Hc] Hn Hp. split.
      + split; [rewrite Hn|rewrite Hp]; set_solver.
      + apply IH; set_solver. }
  destruct l as [|y l]; simpl; intros Hc Hnd Hn Hp Hl; [done|].
  apply NoDup_cons in Hnd as [Hy Hnd]. destruct Hc as [_ Hc]. split; [done|].
  apply (Hframe h); [done|done|]. intros c Hcin. apply Hp; set_solver.
Qed.

Lemma pred_of_in a l : pred_of a l = a /\ l = [] \/ pred_of a l ∈ l.
Proof.
  destruct l as [|y l]; [by left|right]. rewrite pred_of_cons. apply pred_of_elem.
Qed.

Lemma succ_of_in a l : succ_of a l = a /\ l = [] \/ succ_of a l ∈ l.
Proof. destruct l; [by left|right; left]. Qed.

Lemma chain_linked h a l1 l2 b :
  chain h a (l1 ++ l2) b -> linked h (pred_of a l1) (succ_of b l2).
Proof.
  revert a. induction l1 as [|y l1 IH]; intros a; simpl.
  - destruct l2; simpl; naive_solver.
  - intros [_ Hc]. rewrite pred_of_cons. by apply IH.
Qed.

Lemma dll_linked h head l1 l2 :
  is_dll h head (l1 ++ l2) -> linked h (pred_of head l1) (succ_of head l2).
Proof. intros [_ Hc]. by apply chain_linked. Qed.

(** Any chain ends where it is told to. *)
Lemma chain_split h a l1 l2 b :
  chain h a (l1 ++ l2) b -> chain h a l1 (succ_of b l2) /\ chain h (pred_of a l1) l2 b.
Proof.
  intros Hc. split.
  - destruct l2 as [|x l2]; simpl; [by rewrite app_nil_r in Hc|].
    by apply chain_app in Hc as [? _].
  - revert a Hc. induction l1 as [|y l1 IH]; intros a Hc; simpl in *; [done|].
    destruct Hc as [_ Hc]. rewrite pred_of_cons. by apply IH.
Qed.

Lemma ring_NoDup head l1 l2 x :
  NoDup (head :: l1 ++ x :: l2) <-> NoDup (head :: l1 ++ l2) /\ x ∉ head :: l1 ++ l2.
Proof.
  rewrite <- (Permutation_middle l1 l2 x). rewrite (Permutation_swap x head), NoDup_cons.
  tauto.
Qed.

Lemma splice_dll h h' head l1 x l2 :
  is_dll h head (l1 ++ l2) -> x ∉ head :: l1 ++ l2 ->
  spliced h h' (pred_of head l1) x (succ_of head l2) ->
  is_dll h' head (l1 ++ x :: l2).
Proof.
  intros [Hnd Hc] Hx (Hpx & Hxs & Hn & Hp). split; [by apply ring_NoDup|].
  destruct (chain_split _ _ _ _ _ Hc) as [Hc1 Hc2].
  apply NoDup_cons in Hnd as [Hh Hnd]. apply NoDup_app in Hnd as (Hnd1 & Hd & Hnd2).
  pose proof (pred_of_in head l1) as Hpi. pose proof (succ_of_in head l2) as Hsi.
  apply chain_app. split.
  - apply (chain_left h _ _ _ (succ_of head l2)); [done|constructor; set_solver| | |done].
    + intros c ??. apply Hn; set_solver.
    + intros c ?. apply Hp; set_solver.
  - apply (chain_right h _ (pred_of head l1)); [done| | | |done].
    + rewrite <- Permutation_cons_append. constructor; set_solver.
    + intros c ?. apply Hn; set_solver.
    + intros c ??. apply Hp; set_solver.
Qed.

Lemma unsplice_dll h h' head l1 x l2 :
  is_dll h head (l1 ++ x :: l2) ->
  unspliced h h' (pred_of head l1) (succ_of head l2) ->
  is_dll h' head (l1 ++ l2).
Proof.
  intros [Hnd Hc] (Hps & Hn & Hp). apply ring_NoDup in Hnd as [Hnd Hx].
  split; [done|]. apply chain_app in Hc as [Hc1 Hc2].
  apply NoDup_cons in Hnd as [Hh Hnd]. apply NoDup_app in Hnd as (Hnd1 & Hd & Hnd2).
  pose proof (pred_of_in head l1) as Hpi. pose proof (succ_of_in head l2) as Hsi.
  assert (chain h' head l1 (succ_of head l2)) as H1.
  { apply (chain_left h _ _ _ x); [done|constructor; set_solver| | |done].
    - intros c ??. apply Hn; set_solver.
    - intros c ?. apply Hp; set_solver. }
  destruct l2 as [|y l2]; [by rewrite app_nil_r|].
  apply chain_app. split; [done|]. destruct Hc2 as [_ Hc2].
  apply NoDup_cons in Hnd2 as [Hy Hnd2]. apply not_elem_of_app in Hh as [Hh1 Hh2].
  apply not_elem_of_cons in Hh2 as [Hhy Hh2].
  apply (chain_right h _ y); [done| | | |].
  - rewrite <- Permutation_cons_append. by constructor.
  - intros c ?. apply Hn; set_solver.
  - intros c ??. apply Hp; set_solver.
  - pose proof (chain_linked h y [] l2 head Hc2) as [Ha Hb].
    split; [rewrite Hn|rewrite Hp]; try done; simpl in *.
    + intros ->. destruct Hpi as [[E _]|Hin]; [congruence|]. apply (Hd _ Hin). left.
    + intros E. destruct (succ_of_in head l2) as [[E' _]|Hin]; congruence.
Qed.
End chain_lemmas.

(** ** The operations *)

(** [do_store H as h' Hs] performs the next store of the goal, whose target
    [H] shows to be allocated; [Hs] is what the store does. *)
Ltac do_store H spec h' Hs :=
  match goal with
  | |- context [store (?g ?v) ?a ?h] =>
      let n := fresh "n" in let E := fresh "E" in let Hst := fresh "Hst" in
      let Hload := fresh "Hload" in
      assert (is_Some (load h a)) as Hload by (by eauto using H);
      destruct Hload as [n E]; destruct (store_total (g v) a h n E) as [h' Hst];
      rewrite Hst; simpl; pose proof (spec a v h h' Hst) as Hs; clear Hst E n
  end.

Section operations.
Implicit Types (h : heap) (p s x : addr).

Lemma insert_before_splices h p s x :
  linked h p s -> is_Some (load h x) -> x <> p -> x <> s ->
  exists h', qdma_list_insert_before x s h = Some h' /\ spliced h h' p x s.
Proof.
  intros Hl Hx Hxp Hxs. destruct (linked_load _ _ _ Hl) as [Hp Hs].
  destruct Hl as [Hn Hv]. unfold qdma_list_insert_before. rewrite Hv; simpl.
  do_store Hp set_next_spec h1 H1. destruct H1 as (A1 & A2 & A3 & A4).
  rewrite A3, Hv; simpl.
  do_store A4 set_prev_spec h2 H2. destruct H2 as (B1 & B2 & B3 & B4).
  do_store A4 set_next_spec h3 H3. destruct H3 as (C1 & C2 & C3 & C4).
  do_store A4 set_prev_spec h4 H4. destruct H4 as (D1 & D2 & D3 & D4).
  eexists; split; [done|]. unfold spliced, linked. split_and!; try split.
  - rewrite D3, C2, B3; auto.
  - rewrite D2, C3; auto.
  - rewrite D3; auto.
  - done.
  - intros c ??. rewrite D3, C2, B3, A2; auto.
  - intros c ??. rewrite D2, C3, B2, A3; auto.
Qed.

Lemma add_tail_splices h p s x :
  linked h p s -> is_Some (load h x) -> x <> p -> x <> s ->
  exists h', qdma_list_add_tail x s h = Some h' /\ spliced h h' p x s.
Proof.
  intros Hl Hx Hxp Hxs. destruct (linked_load _ _ _ Hl) as [Hp Hs].
  destruct Hl as [Hn Hv]. unfold qdma_list_add_tail. rewrite Hv; simpl.
  do_store Hp set_next_spec h1 H1. destruct H1 as (A1 & A2 & A3 & A4).
  do_store A4 set_next_spec h2 H2. destruct H2 as (B1 & B2 & B3 & B4).
  rewrite B3, A3, Hv; simpl.
  do_store A4 set_prev_spec h3 H3. destruct H3 as (C1 & C2 & C3 & C4).
  do_store A4 set_prev_spec h4 H4. destruct H4 as (D1 & D2 & D3 & D4).
  eexists; split; [done|]. unfold spliced, linked. split_and!; try split.
  - rewrite D3, C3, B2; auto.
  - rewrite D2; auto.
  - rewrite D3, C3; auto.
  - done.
  - intros c ??. rewrite D3, C3, B2, A2; auto.
  - intros c ??. rewrite D2, C2, B3, A3; auto.
Qed.

Lemma insert_after_splices h p s x :
  linked h p s -> is_Some (load h x) -> x <> p -> x <> s ->
  exists h', qdma_list_insert_after x p h = Some h' /\ spliced h h' p x s.
Proof.
  intros Hl Hx Hxp Hxs. destruct (linked_load _ _ _ Hl) as [Hp Hs].
  destruct Hl as [Hn Hv]. unfold qdma_list_insert_after.
  do_store Hx set_prev_spec h1 H1. destruct H1 as (A1 & A2 & A3 & A4).
  rewrite A3, Hn; simpl.
  do_store A4 set_next_spec h2 H2. destruct H2 as (B1 & B2 & B3 & B4).
  rewrite B2, A3, Hn by auto; simpl.
  do_store A4 set_prev_spec h3 H3. destruct H3 as (C1 & C2 & C3 & C4).
  do_store A4 set_next_spec h4 H4. destruct H4 as (D1 & D2 & D3 & D4).
  eexists; split; [done|]. unfold spliced, linked. split_and!; try split.
  - done.
  - rewrite D3, C2, B3; auto.
  - rewrite D2, C3; auto.
  - rewrite D3; auto.
  - intros c ??. rewrite D2, C3, B2, A3; auto.
  - intros c ??. rewrite D3, C2, B3, A2; auto.
Qed.

Lemma del_unsplices h p x s :
  linked h p x -> linked h x s ->
  exists h', qdma_list_del x h = Some h' /\ unspliced h h' p s.
Proof.
  intros Hl1 Hl2. destruct (linked_load _ _ _ Hl1) as [Hp Hx].
  destruct (linked_load _ _ _ Hl2) as [_ Hs].
  destruct Hl1 as [Hpn Hxv], Hl2 as [Hxn Hsv].
  assert (Hx0 : x <> NULL) by (destruct Hx as [? E]; apply (load_Some_ne _ _ _ E)).
  assert (Hp0 : p <> NULL) by (destruct Hp as [? E]; apply (load_Some_ne _ _ _ E)).
  assert (Hs0 : s <> NULL) by (destruct Hs as [? E]; apply (load_Some_ne _ _ _ E)).
  unfold qdma_list_del. rewrite (proj2 (Nat.eqb_neq x NULL)) by done.
  rewrite Hxv; simpl. rewrite (proj2 (Nat.eqb_neq p NULL)), Hxn by done; simpl.
  do_store Hp set_next_spec h1 H1. destruct H1 as (A1 & A2 & A3 & A4).
  assert (load_next h1 x = Some s) as Hxn1.
  { destruct (decide (x = p)) as [->|]; [congruence|by rewrite A2]. }
  rewrite Hxn1; simpl. rewrite (proj2 (Nat.eqb_neq s NULL)) by done.
  rewrite A3, Hxv; simpl.
  do_store A4 set_prev_spec h2 H2. destruct H2 as (B1 & B2 & B3 & B4).
  eexists; split; [done|]. unfold unspliced, linked. split_and!; try split.
  - by rewrite B3.
  - done.
  - intros c ?. rewrite B3, A2; auto.
  - intros c ?. rewrite B2, A3; auto.
Qed.
End operations.

(** ** The abstract list

    The operations on [ns] that the pointer operations implement. *)

Section refinement.
Implicit Types (h : heap) (head x : addr) (l ns : list addr).

(** The ring around an allocated node that is not in it. *)
Lemma fresh_ne head l1 l2 x :
  x ∉ head :: l1 ++ l2 -> x <> pred_of head l1 /\ x <> succ_of head l2.
Proof.
  intros Hx. pose proof (pred_of_elem head l1) as Hp. pose proof (succ_of_in head l2) as Hs.
  split; intros ->; apply Hx; [set_solver|]. destruct Hs as [[-> ->]|Hs]; set_solver.
Qed.

(** C26. inserting an allocated node that is not yet on the list puts it, and
    nothing else, at the named place: before a list node, after a list node,
    or at the end when the reference node is the head. *)
Theorem insert_refines h head l1 l2 x :
  is_dll h head (l1 ++ l2) -> is_Some (load h x) -> x ∉ head :: l1 ++ l2 ->
  (exists h', qdma_list_insert_before x (succ_of head l2) h = Some h' /\
              is_dll h' head (l1 ++ x :: l2)) /\
  (exists h', qdma_list_insert_after x (pred_of head l1) h = Some h' /\
              is_dll h' head (l1 ++ x :: l2)) /\
  (l2 = [] -> exists h', qdma_list_add_tail x head h = Some h' /\
              is_dll h' head (l1 ++ [x])).
Proof.
  intros Hd Hx Hin. destruct (fresh_ne _ _ _ _ Hin) as [Hp Hs].
  pose proof (dll_linked _ _ _ _ Hd) as Hl.
  split_and!; [| |intros ->].
  - destruct (insert_before_splices _ _ _ _ Hl Hx Hp Hs) as (h' & ? & ?).
    eauto using splice_dll.
  - destruct (insert_after_splices _ _ _ _ Hl Hx Hp Hs) as (h' & ? & ?).
    eauto using splice_dll.
  - destruct (add_tail_splices _ _ _ _ Hl Hx Hp Hs) as (h' & ? & ?).
    eauto using splice_dll.
Qed.

(** Unlinking a node of the list removes exactly that node. *)
Lemma del_refines h head l1 x l2 :
  is_dll h head (l1 ++ x :: l2) ->
  exists h', qdma_list_del x h = Some h' /\ is_dll h' head (l1 ++ l2).
Proof.
  intros Hd. pose proof (dll_linked _ _ l1 (x :: l2) Hd) as Hl1.
  assert (is_dll h head ((l1 ++ [x]) ++ l2)) as Hd' by by rewrite <- app_assoc.
  pose proof (dll_linked _ _ _ _ Hd') as Hl2. unfold pred_of in Hl2.
  rewrite List.last_last in Hl2.
  destruct (del_unsplices _ _ _ _ Hl1 Hl2) as (h' & ? & ?). eauto using unsplice_dll.
Qed.

(** [qdma_list_is_empty] and [qdma_list_is_last_entry] on a list. *)
Lemma is_empty_refines h head ns :
  is_dll h head ns -> qdma_list_is_empty head h = Some (bool_decide (ns = [])).
Proof.
  intros Hd. destruct (dll_linked h head [] ns Hd) as [Hn _].
  unfold qdma_list_is_empty. change (pred_of head []) with head in Hn. rewrite Hn; simpl.
  destruct ns as [|y ns]; simpl; [by rewrite Nat.eqb_refl|].
  destruct Hd as [[Hh _]%NoDup_cons _]. f_equal. apply Nat.eqb_neq. set_solver.
Qed.

Definition unlink_unless (keep : addr -> bool) (pos : addr) (h : heap) : option heap :=
  if keep pos then Some h else qdma_list_del pos h.

Lemma for_each_from_unlinks keep fuel h head visited rest n :
  is_dll h head (visited ++ rest) ->
  load_next h (succ_of head rest) = Some n -> (length rest < fuel)%nat ->
  exists h', for_each_from fuel (unlink_unless keep) (succ_of head rest) n head h
               = Some (rest, h') /\
             is_dll h' head (visited ++ List.filter keep rest).
Proof.
  revert fuel h visited n. induction rest as [|x rest IH];
    intros fuel h visited n Hd Hn Hf; (destruct fuel as [|fuel]; [simpl in Hf; lia|]).
  { simpl. rewrite Nat.eqb_refl. rewrite app_nil_r in *. eauto. }
  assert (is_dll h head ((visited ++ [x]) ++ rest)) as Hd' by by rewrite <- app_assoc.
  destruct (dll_linked _ _ _ _ Hd') as [Hxn _]. unfold pred_of in Hxn.
  rewrite List.last_last in Hxn. simpl in Hn. rewrite Hn in Hxn. injection Hxn as ->.
  simpl. rewrite (proj2 (Nat.eqb_neq x head)).
  2: { destruct Hd as [[Hh _]%NoDup_cons _]. set_solver. }
  assert (exists h1, unlink_unless keep x h = Some h1 /\
            is_dll h1 head ((visited ++ List.filter keep [x]) ++ rest)) as (h1 & E1 & Hd1).
  { unfold unlink_unless. simpl. destruct (keep x); [by eauto|].
    destruct (del_refines _ _ _ _ _ Hd) as (h1 & ? & ?). exists h1.
    rewrite app_nil_r. eauto. }
  rewrite E1; simpl.
  destruct (dll_linked _ _ _ _ Hd1) as [_ Hv].
  assert (exists n', load_next h1 (succ_of head rest) = Some n') as [n' Hn'].
  { apply load_prev_Some in Hv as (m & Em & _). unfold load_next. rewrite Em. simpl. eauto. }
  rewrite Hn'; simpl.
  destruct (IH fuel h1 _ n' Hd1 Hn' ltac:(simpl in Hf; lia)) as (h' & E' & Hd'').
  rewrite E'; simpl. exists h'. split; [done|].
  rewrite <- app_assoc in Hd''. simpl in Hd''.
  by destruct (keep x).
Qed.

(** the safe traversal.  A [qdma_list_for_each_safe] loop whose body may
    unlink the entry it is visiting (whichever entries it chooses)
    terminates within one test of the condition more than there are entries,
    visits all entries in list order, and leaves the entries it did not
    unlink, still well linked. *)
Theorem for_each_safe_visits_all keep fuel h head ns :
  is_dll h head ns -> (length ns < fuel)%nat ->
  exists h', qdma_list_for_each_safe fuel (unlink_unless keep) head h = Some (ns, h') /\
             is_dll h' head (List.filter keep ns).
Proof.
  intros Hd Hf. destruct (dll_linked h head [] ns Hd) as [Hn Hv].
  change (pred_of head []) with head in Hn.
  unfold qdma_list_for_each_safe. rewrite Hn; simpl.
  apply load_prev_Some in Hv as (m & Em & _).
  assert (load_next h (succ_of head ns) = Some (next m)) as Hn'
    by (unfold load_next; by rewrite Em).
  rewrite Hn'; simpl. by apply (for_each_from_unlinks keep fuel h head [] ns).
Qed.
End refinement.

(** A heap with a head at [1] and nodes [2], [3], [4], of which [2], [3] are on
    the list. *)
Definition heap_example : heap :=
  <[1%nat := mk_head 3 2 0]> (<[2%nat := mk_head 1 3 0]>
    (<[3%nat := mk_head 2 1 0]> (<[4%nat := mk_head 0 0 0]> ∅))).

Lemma heap_example_dll : is_dll heap_example 1%nat [2%nat; 3%nat].
Proof.
  split; [apply (bool_decide_unpack _); vm_compute; exact I|].
  repeat split; vm_compute; reflexivity.
Qed.

Lemma insert_refines_witness :
  exists h', qdma_list_add_tail 4%nat 1%nat heap_example = Some h' /\
             is_dll h' 1%nat ([2%nat; 3%nat] ++ [4%nat]).
Proof.
  apply (insert_refines heap_example 1%nat [2%nat; 3%nat] [] 4%nat); [..|reflexivity].
  - exact heap_example_dll.
  - vm_compute. eexists; reflexivity.
  - apply (bool_decide_unpack _). vm_compute. exact I.
Defined.

Lemma for_each_safe_visits_all_witness :
  exists h', qdma_list_for_each_safe 3 (unlink_unless (fun a => Nat.eqb a 3)) 1%nat heap_example
               = Some ([2%nat; 3%nat], h') /\
             is_dll h' 1%nat [3%nat].
Proof.
  apply (for_each_safe_visits_all (fun a => Nat.eqb a 3) 3 heap_example 1%nat [2%nat; 3%nat]).
  - exact heap_example_dll.
  - simpl. lia.
Defined.
