(* ===== verification/ResourceMgmt.v ===== *)
(** * ResourceMgmt: the queue resource manager ([qdma_resource_mgmt.c])

    A master resource owns the hardware queues [[qbase, qbase + total_q)] of a
    board; the functions on the board (device entries) borrow contiguous ranges
    from it, and the ranges nobody holds sit in a free list kept sorted by base.

    A linked list of the source is a Coq list and a pointer into one is the
    position of the node (QdmaList relates the pointer operations to those on
    lists).  The static variables of the file are the fields of [rm_state]; its
    [allocs] field holds the verdicts of the coming [qdma_calloc] calls, so that
    out-of-memory paths are part of the model.  Every entry point takes
    [qdma_resource_lock], so the model runs entry points one after the other. *)

From S2P Require Import Prelude QdmaErrors.
Local Open Scope Z_scope.

(** ** State *)

Record qdma_resource_entry := mk_entry { qbase : Z; total_q : Z }.

Record qdma_dev_entry := mk_dev {
  func_id : Z;
  active_h2c_qcnt : Z;
  active_c2h_qcnt : Z;
  active_cmpt_qcnt : Z;
  entry : qdma_resource_entry }.

Record qdma_resource_master := mk_master {
  dma_device_index : Z;
  pci_bus_start : Z;
  pci_bus_end : Z;
  rm_total_q : Z;
  rm_qbase : Z;
  dev_list : list qdma_dev_entry;
  free_list : list qdma_resource_entry;
  active_qcnt : Z }.

Record rm_state := mk_rm {
  master_resource_list : list qdma_resource_master;
  rm_index : Z;                       (* the static [index] *)
  allocs : list bool }.

Definition rm_init : rm_state := mk_rm [] 0 [].

Inductive qdma_dev_q_type :=
| QDMA_DEV_Q_TYPE_H2C | QDMA_DEV_Q_TYPE_C2H | QDMA_DEV_Q_TYPE_CMPT | QDMA_DEV_Q_TYPE_MAX.

Inductive qdma_dev_q_range := QDMA_DEV_Q_IN_RANGE | QDMA_DEV_Q_OUT_OF_RANGE.

#[export] Instance qdma_resource_entry_eq_dec : EqDecision qdma_resource_entry.
Proof. solve_decision. Defined.
#[export] Instance qdma_dev_q_range_eq_dec : EqDecision qdma_dev_q_range.
Proof. solve_decision. Defined.

Definition set_entry (e : qdma_resource_entry) (d : qdma_dev_entry) : qdma_dev_entry :=
  mk_dev (func_id d) (active_h2c_qcnt d) (active_c2h_qcnt d) (active_cmpt_qcnt d) e.
Definition set_counts (h c w : Z) (d : qdma_dev_entry) : qdma_dev_entry :=
  mk_dev (func_id d) h c w (entry d).
Definition set_lists (ds : list qdma_dev_entry) (fl : list qdma_resource_entry)
    (m : qdma_resource_master) : qdma_resource_master :=
  mk_master (dma_device_index m) (pci_bus_start m) (pci_bus_end m) (rm_total_q m)
    (rm_qbase m) ds fl (active_qcnt m).
Definition set_active (n : Z) (m : qdma_resource_master) : qdma_resource_master :=
  mk_master (dma_device_index m) (pci_bus_start m) (pci_bus_end m) (rm_total_q m)
    (rm_qbase m) (dev_list m) (free_list m) n.
Definition set_masters (ms : list qdma_resource_master) (st : rm_state) : rm_state :=
  mk_rm ms (rm_index st) (allocs st).
Definition set_allocs (al : list bool) (st : rm_state) : rm_state :=
  mk_rm (master_resource_list st) (rm_index st) al.

(** [qdma_calloc] returns NULL when the kernel says so; past the recorded
    verdicts it succeeds. *)
Definition qdma_calloc (al : list bool) : bool * list bool :=
  match al with
  | [] => (true, [])
  | b :: al' => (b, al')
  end.

(** ** Lookups *)

Definition qdma_find_master_resource_entry (bus_start bus_end : Z) (st : rm_state) : option nat :=
  find_pos (fun q_resource => (pci_bus_start q_resource =? bus_start) &&
                              (pci_bus_end q_resource =? bus_end))
    (master_resource_list st).

Definition qdma_get_master_resource_entry (dma_index : Z) (st : rm_state) : option nat :=
  find_pos (fun q_resource => dma_device_index q_resource =? dma_index)
    (master_resource_list st).

(** The positions of the master and of the device entry in it. *)
Definition qdma_get_dev_entry (dma_index fid : Z) (st : rm_state) : option (nat * nat) :=
  i ← qdma_get_master_resource_entry dma_index st;
  m ← master_resource_list st !! i;
  j ← find_pos (fun dev_entry => func_id dev_entry =? fid) (dev_list m);
  Some (i, j).

(** ** The free list *)

Definition qdma_free_entry_create (q_base total : Z) (al : list bool)
    : option qdma_resource_entry * list bool :=
  let '(ok, al) := qdma_calloc al in
  if ok then (Some (mk_entry q_base total), al) else (None, al).

(** The insertion loop: put [new_node] before the first node with a larger
    base, at the tail when there is none. *)
Fixpoint insert_free (new_node : qdma_resource_entry) (l : list qdma_resource_entry)
    : list qdma_resource_entry :=
  match l with
  | [] => []
  | node :: l' =>
      if qbase node >? qbase new_node then new_node :: node :: l'
      else match l' with
           | [] => [node; new_node]
           | _ => node :: insert_free new_node l'
           end
  end.

(** The de-fragmentation loop, [streach_node] being the node other nodes are
    merged into. *)
Fixpoint defrag_from (streach_node : qdma_resource_entry) (l : list qdma_resource_entry)
    : list qdma_resource_entry :=
  match l with
  | [] => [streach_node]
  | node :: l' =>
      if u32 (qbase streach_node + total_q streach_node) =? u32 (qbase node)
      then defrag_from (mk_entry (qbase streach_node)
                          (u32 (total_q streach_node + total_q node))) l'
      else streach_node :: defrag_from node l'
  end.

Definition defrag (l : list qdma_resource_entry) : list qdma_resource_entry :=
  match l with
  | [] => []
  | node :: l' => defrag_from node l'
  end.

Definition no_entry : qdma_resource_entry := mk_entry (-1) 0.

Definition qdma_submit_to_free_list (dev_entry : qdma_dev_entry)
    (fl : list qdma_resource_entry) (al : list bool)
    : qdma_dev_entry * list qdma_resource_entry * list bool :=
  if total_q (entry dev_entry) =? 0 then (dev_entry, fl, al)
  else
    match qdma_free_entry_create (qbase (entry dev_entry)) (total_q (entry dev_entry)) al with
    | (None, al) => (dev_entry, fl, al)
    | (Some new_node, al) =>
        let fl := match fl with
                  | [] => [new_node]
                  | _ => insert_free new_node fl
                  end in
        (set_entry no_entry dev_entry, defrag fl, al)
    end.

(** The best-fit loop: the last node, among the smallest ones, that holds at
    least [qmax] queues. *)
Fixpoint best_fit (qmax : Z) (i : nat) (best_fit_node : option (nat * qdma_resource_entry))
    (l : list qdma_resource_entry) : option (nat * qdma_resource_entry) :=
  match l with
  | [] => best_fit_node
  | node :: l' =>
      let best :=
        if total_q node >=? qmax
        then match best_fit_node with
             | None => Some (i, node)
             | Some (_, b) => if total_q b >=? total_q node then Some (i, node) else best_fit_node
             end
        else best_fit_node in
      best_fit qmax (S i) best l'
  end.

(** [fragment_free_list]: cut [[base, base + qmax)] out of the node at
    position [i]; the result is the position of the cut-out node. *)
Definition fragment_free_list (qmax base : Z) (i : nat) (node : qdma_resource_entry)
    (fl : list qdma_resource_entry) (al : list bool)
    : option nat * list qdma_resource_entry * list bool :=
  let nb := qbase node in
  let nt := total_q node in
  if (base =? nb) && (qmax =? nt) then (Some i, fl, al)
  else if (base =? nb) && negb (qmax =? nt) then
    let lqbase := i32 (nb + qmax) in
    let lqmax := u32 (nt - qmax) in
    match qdma_free_entry_create lqbase lqmax al with
    | (None, al) => (None, fl, al)
    | (Some new_entry, al) =>
        (Some i, insert_at (S i) new_entry (<[i := mk_entry nb (u32 (nt - lqmax))]> fl), al)
    end
  else if (base >? nb) && (u32 (base + qmax) =? u32 (nb + nt)) then
    let lqbase := nb in
    let lqmax := u32 (base - nb) in
    match qdma_free_entry_create lqbase lqmax al with
    | (None, al) => (None, fl, al)
    | (Some new_entry, al) =>
        (Some (S i), insert_at i new_entry (<[i := mk_entry base qmax]> fl), al)
    end
  else
    let lqbase := nb in
    let lqmax := u32 (base - nb) in
    match qdma_free_entry_create lqbase lqmax al with
    | (None, al) => (None, fl, al)
    | (Some new_entry, al) =>
        let nt := u32 (nt - lqmax) in
        let fl := insert_at i new_entry (<[i := mk_entry base nt]> fl) in
        let lqbase := i32 (base + qmax) in
        let lqmax := u32 (nt - qmax) in
        match qdma_free_entry_create lqbase lqmax al with
        | (None, al) => (None, fl, al)
        | (Some new_entry, al) =>
            (Some (S i), insert_at (S (S i)) new_entry (<[S i := mk_entry base qmax]> fl), al)
        end
    end.

(** Does [node] hold the requested range?  The sums are computed in
    [uint32_t], as C does for [int + uint32_t]. *)
Definition holds (qmax base : Z) (node : qdma_resource_entry) : bool :=
  (base >=? qbase node) && (u32 (qbase node + total_q node) >=? u32 (base + qmax)).

Definition qdma_get_resource_node (qmax base : Z) (fl : list qdma_resource_entry)
    (al : list bool) : option nat * list qdma_resource_entry * list bool :=
  let honoured := if base >=? 0 then find_pos (holds qmax base) fl else None in
  match honoured with
  | Some i =>
      match fl !! i with
      | Some node => fragment_free_list qmax base i node fl al
      | None => (None, fl, al)
      end
  | None =>
      match best_fit qmax 0 None fl with
      | Some (i, node) => fragment_free_list qmax (qbase node) i node fl al
      | None => (None, fl, al)
      end
  end.

Definition qdma_request_q_resource (dev_entry : qdma_dev_entry) (new_qmax new_qbase : Z)
    (fl : list qdma_resource_entry) (al : list bool)
    : Z * qdma_dev_entry * list qdma_resource_entry * list bool :=
  let qmax := total_q (entry dev_entry) in
  let base := qbase (entry dev_entry) in
  let '(dev_entry, fl, al) := qdma_submit_to_free_list dev_entry fl al in
  if new_qmax =? 0 then (0, dev_entry, fl, al)
  else
    let '(free_entry_node, fl, al) := qdma_get_resource_node new_qmax new_qbase fl al in
    let '(rv, free_entry_node, fl, al) :=
      match free_entry_node with
      | Some i => (0, Some i, fl, al)
      | None =>
          let '(free_entry_node, fl, al) := qdma_get_resource_node qmax base fl al in
          (neg QDMA_ERR_RM_NO_QUEUES_LEFT, free_entry_node, fl, al)
      end in
    match free_entry_node with
    | None => (rv, set_entry no_entry dev_entry, fl, al)
    | Some i =>
        match fl !! i with
        | Some node => (rv, set_entry node dev_entry, delete i fl, al)
        | None => (rv, dev_entry, fl, al)
        end
    end.

(** ** The entry points *)

(** Updating a master, or a device entry of a master, in place. *)
Definition upd_master (i : nat) (f : qdma_resource_master -> qdma_resource_master)
    (st : rm_state) : rm_state :=
  set_masters (alter f i (master_resource_list st)) st.

Definition upd_dev (j : nat) (f : qdma_dev_entry -> qdma_dev_entry)
    (m : qdma_resource_master) : qdma_resource_master :=
  set_lists (alter f j (dev_list m)) (free_list m) m.

(** Returns the code, [*dma_device_index] and the state. *)
Definition qdma_master_resource_create (bus_start bus_end q_base total : Z) (st : rm_state)
    : Z * Z * rm_state :=
  match qdma_find_master_resource_entry bus_start bus_end st ≫=
        (fun i => master_resource_list st !! i) with
  | Some q_resource => (neg QDMA_ERR_RM_RES_EXISTS, dma_device_index q_resource, st)
  | None =>
      let index := u32 (rm_index st) in
      let '(ok, al) := qdma_calloc (allocs st) in
      if negb ok then (neg QDMA_ERR_NO_MEM, index, set_allocs al st)
      else
        let '(ok, al) := qdma_calloc al in
        if negb ok then (neg QDMA_ERR_NO_MEM, index, set_allocs al st)
        else
          let q_resource :=
            mk_master index bus_start bus_end total q_base [] [mk_entry q_base total] 0 in
          (0, index,
           mk_rm (master_resource_list st ++ [q_resource]) (i32 (rm_index st + 1)) al)
  end.

Definition qdma_master_resource_destroy (dma_index : Z) (st : rm_state) : rm_state :=
  match qdma_get_master_resource_entry dma_index st with
  | None => st
  | Some i =>
      match master_resource_list st !! i with
      | None => st
      | Some q_resource =>
          match dev_list q_resource with
          | [] => set_masters (delete i (master_resource_list st)) st
          | _ => st
          end
      end
  end.

Definition new_dev_entry (fid : Z) : qdma_dev_entry := mk_dev fid 0 0 0 no_entry.

Definition qdma_dev_entry_create (dma_index fid : Z) (st : rm_state) : Z * rm_state :=
  match qdma_get_master_resource_entry dma_index st with
  | None => (neg QDMA_ERR_RM_RES_NOT_EXISTS, st)
  | Some i =>
      match qdma_get_dev_entry dma_index fid st with
      | Some _ => (neg QDMA_ERR_RM_DEV_EXISTS, st)
      | None =>
          let '(ok, al) := qdma_calloc (allocs st) in
          if negb ok then (neg QDMA_ERR_NO_MEM, set_allocs al st)
          else (0, upd_master i (fun m => set_lists (dev_list m ++ [new_dev_entry fid])
                                            (free_list m) m) (set_allocs al st))
      end
  end.

(** The second component of a device position, with its master and entry. *)
Definition with_dev {A} (dma_index fid : Z) (st : rm_state) (no_master no_dev : A)
    (f : nat -> nat -> qdma_resource_master -> qdma_dev_entry -> A) : A :=
  match qdma_get_master_resource_entry dma_index st with
  | None => no_master
  | Some _ =>
      match qdma_get_dev_entry dma_index fid st with
      | None => no_dev
      | Some (i, j) =>
          match master_resource_list st !! i with
          | None => no_dev
          | Some m => match dev_list m !! j with
                      | None => no_dev
                      | Some d => f i j m d
                      end
          end
      end
  end.

Definition qdma_dev_entry_destroy (dma_index fid : Z) (st : rm_state) : rm_state :=
  with_dev dma_index fid st st st (fun i j m d =>
    let '(_, fl, al) := qdma_submit_to_free_list d (free_list m) (allocs st) in
    upd_master i (fun m => set_lists (delete j (dev_list m)) fl m) (set_allocs al st)).

(** [qmax] and [*qbase] in; the code, [*qbase] and the state out. *)
Definition qdma_dev_update (dma_index fid qmax base : Z) (st : rm_state) : Z * Z * rm_state :=
  with_dev dma_index fid st
    (neg QDMA_ERR_RM_RES_NOT_EXISTS, base, st) (neg QDMA_ERR_RM_DEV_NOT_EXISTS, base, st)
    (fun i j m d =>
       if negb (active_h2c_qcnt d =? 0) || negb (active_c2h_qcnt d =? 0)
          || negb (active_cmpt_qcnt d =? 0)
       then (neg QDMA_ERR_RM_QMAX_CONF_REJECTED, base, st)
       else
         let '(rv, d', fl, al) :=
           qdma_request_q_resource d qmax base (free_list m) (allocs st) in
         (rv, qbase (entry d'),
          upd_master i (fun m => set_lists (<[j := d']> (dev_list m)) fl m)
            (set_allocs al st))).

(** The code and, on success, the pair of [*qbase] and [*qmax]. *)
Definition qdma_dev_qinfo_get (dma_index fid : Z) (st : rm_state) : Z * option (Z * Z) :=
  with_dev dma_index fid st
    (neg QDMA_ERR_RM_RES_NOT_EXISTS, None) (neg QDMA_ERR_RM_DEV_NOT_EXISTS, None)
    (fun _ _ _ d => (0, Some (qbase (entry d), total_q (entry d)))).

Definition qdma_dev_is_queue_in_range (dma_index fid qid_hw : Z) (st : rm_state)
    : qdma_dev_q_range :=
  with_dev dma_index fid st QDMA_DEV_Q_OUT_OF_RANGE QDMA_DEV_Q_OUT_OF_RANGE
    (fun _ _ _ d =>
       let qmax := u32 (qbase (entry d) + total_q (entry d)) in
       if negb (total_q (entry d) =? 0) && (qid_hw <? qmax) && (i32 qid_hw >=? qbase (entry d))
       then QDMA_DEV_Q_IN_RANGE else QDMA_DEV_Q_OUT_OF_RANGE).

Definition active_of (q_type : qdma_dev_q_type) (d : qdma_dev_entry) : option Z :=
  match q_type with
  | QDMA_DEV_Q_TYPE_H2C => Some (active_h2c_qcnt d)
  | QDMA_DEV_Q_TYPE_C2H => Some (active_c2h_qcnt d)
  | QDMA_DEV_Q_TYPE_CMPT => Some (active_cmpt_qcnt d)
  | QDMA_DEV_Q_TYPE_MAX => None
  end.

Definition set_active_of (q_type : qdma_dev_q_type) (n : Z) (d : qdma_dev_entry)
    : qdma_dev_entry :=
  match q_type with
  | QDMA_DEV_Q_TYPE_H2C => set_counts n (active_c2h_qcnt d) (active_cmpt_qcnt d) d
  | QDMA_DEV_Q_TYPE_C2H => set_counts (active_h2c_qcnt d) n (active_cmpt_qcnt d) d
  | QDMA_DEV_Q_TYPE_CMPT => set_counts (active_h2c_qcnt d) (active_c2h_qcnt d) n d
  | QDMA_DEV_Q_TYPE_MAX => d
  end.

Definition qdma_dev_increment_active_queue (dma_index fid : Z) (q_type : qdma_dev_q_type)
    (st : rm_state) : Z * rm_state :=
  with_dev dma_index fid st
    (neg QDMA_ERR_RM_RES_NOT_EXISTS, st) (neg QDMA_ERR_RM_DEV_NOT_EXISTS, st)
    (fun i j m d =>
       match active_of q_type d with
       | None => (neg QDMA_ERR_RM_DEV_NOT_EXISTS, st)
       | Some n =>
           if total_q (entry d) <? u32 (n + 1) then (neg QDMA_ERR_RM_NO_QUEUES_LEFT, st)
           else (0, upd_master i (fun m => set_active (u32 (active_qcnt m + 1))
                                      (upd_dev j (set_active_of q_type (u32 (n + 1))) m)) st)
       end).

(** The counter of the function is guarded against zero; the counter of the
    master is not. *)
Definition qdma_dev_decrement_active_queue (dma_index fid : Z) (q_type : qdma_dev_q_type)
    (st : rm_state) : Z * rm_state :=
  with_dev dma_index fid st
    (neg QDMA_ERR_RM_RES_NOT_EXISTS, st) (neg QDMA_ERR_RM_DEV_NOT_EXISTS, st)
    (fun i j m d =>
       let dec (m : qdma_resource_master) := set_active (u32 (active_qcnt m - 1)) m in
       match active_of q_type d with
       | None => (neg QDMA_ERR_RM_DEV_NOT_EXISTS, upd_master i dec st)
       | Some n =>
           let n' := if n =? 0 then n else n - 1 in
           (0, upd_master i (fun m => dec (upd_dev j (set_active_of q_type n') m)) st)
       end).

Definition qdma_get_active_queue_count (dma_index : Z) (st : rm_state) : Z :=
  match qdma_get_master_resource_entry dma_index st ≫=
        (fun i => master_resource_list st !! i) with
  | None => 0
  | Some m => active_qcnt m
  end.

Definition qdma_get_device_active_queue_count (dma_index fid : Z) (q_type : qdma_dev_q_type)
    (st : rm_state) : Z :=
  with_dev dma_index fid st
    (neg QDMA_ERR_RM_RES_NOT_EXISTS) (neg QDMA_ERR_RM_DEV_NOT_EXISTS)
    (fun _ _ _ d => i32 (default 0 (active_of q_type d))).
