(* ===== verification/ResourceInv.v ===== *)
(** * ResourceInv: correctness of the queue resource manager

    Every hardware queue has at most one owner (a function or the free list);
    when memory does not run out it has exactly one.  The invariant
    [master_wf] and the per-operation lemmas below carry the theorems about the
    entry points of ResourceMgmt. *)

From S2P Require Import Prelude QdmaErrors ResourceMgmt.
Local Open Scope Z_scope.

Definition ends (e : qdma_resource_entry) : Z := qbase e + total_q e.

Definition covers (q : Z) (e : qdma_resource_entry) : bool :=
  (qbase e <=? q) && (q <? ends e).

(** The number of entries of [l] that own queue [q]. *)
Definition owners (l : list qdma_resource_entry) (q : Z) : nat :=
  length (List.filter (covers q) l).

(** The free list: sorted by base, non-empty and pairwise disjoint ranges
    inside [[lo, hi)]. *)
Fixpoint free_ok (lo : Z) (l : list qdma_resource_entry) (hi : Z) : Prop :=
  match l with
  | [] => lo <= hi
  | e :: l' => lo <= qbase e /\ 0 < total_q e /\ free_ok (ends e) l' hi
  end.

(** The range of a function: none, or inside [[lo, hi)]. *)
Definition dev_ok (lo hi : Z) (e : qdma_resource_entry) : Prop :=
  0 <= total_q e /\ -1 <= qbase e < 2147483648 /\
  (0 < total_q e -> lo <= qbase e /\ ends e <= hi).

Definition allocs_ok (al : list bool) : Prop := Forall (eq true) al.

(** ** Counting owners *)

Section owners_lemmas.
Implicit Types (e : qdma_resource_entry) (l : list qdma_resource_entry) (q : Z).

Lemma owners_cons e l q : owners (e :: l) q = (Nat.b2n (covers q e) + owners l q)%nat.
Proof. unfold owners. simpl. by destruct (covers q e). Qed.

Lemma owners_app l1 l2 q : owners (l1 ++ l2) q = (owners l1 q + owners l2 q)%nat.
Proof. unfold owners. by rewrite List.filter_app, length_app. Qed.

Lemma owners_perm l1 l2 q : l1 ≡ₚ l2 -> owners l1 q = owners l2 q.
Proof.
  induction 1 as [|e l1 l2 _ IH|e1 e2 l|l1 l2 l3 _ IH1 _ IH2]; rewrite ?owners_cons; lia.
Qed.

Lemma covers_true q e : covers q e = true <-> qbase e <= q < ends e.
Proof. unfold covers. rewrite andb_true_iff, Z.leb_le, Z.ltb_lt. tauto. Qed.

Lemma covers_empty q e : total_q e = 0 -> covers q e = false.
Proof.
  intros H. destruct (covers q e) eqn:E; [|done]. apply covers_true in E.
  unfold ends in E. lia.
Qed.

Lemma owners_elem e l q : e ∈ l -> covers q e = true -> (0 < owners l q)%nat.
Proof.
  intros Hin Hc. induction Hin as [|? ? ? ? IH]; rewrite owners_cons;
    [rewrite Hc; simpl|specialize (IH Hc)]; lia.
Qed.
End owners_lemmas.

(** [count_owners] turns a goal or hypothesis about owners of built-up lists
    into arithmetic on [covers]. *)
Ltac count_owners :=
  rewrite ?owners_app, ?owners_cons in *; simpl in *.

(** Boolean cover tests as arithmetic. *)
Lemma covers_b2n_split q b t1 t2 :
  0 <= t1 -> 0 <= t2 ->
  Nat.b2n (covers q (mk_entry b (t1 + t2))) =
  (Nat.b2n (covers q (mk_entry b t1)) + Nat.b2n (covers q (mk_entry (b + t1) t2)))%nat.
Proof.
  intros. unfold covers, ends; simpl.
  repeat match goal with
  | |- context [?a <=? ?b] => destruct (Z.leb_spec a b)
  | |- context [?a <? ?b] => destruct (Z.ltb_spec a b)
  end; simpl; lia.
Qed.

(** ** The free list *)

Section free_list.
Implicit Types (e node : qdma_resource_entry) (l fl : list qdma_resource_entry) (lo hi q : Z).

Lemma free_ok_le l lo hi : free_ok lo l hi -> lo <= hi.
Proof.
  revert lo. induction l as [|e l IH]; intros lo; simpl; [lia|].
  intros (? & ? & Hl). specialize (IH _ Hl). unfold ends in *. lia.
Qed.

Lemma free_ok_weaken l lo lo' hi : free_ok lo l hi -> lo' <= lo -> free_ok lo' l hi.
Proof. destruct l; simpl; intuition lia. Qed.

Lemma free_ok_app l1 l2 lo hi :
  free_ok lo (l1 ++ l2) hi <-> exists mid, free_ok lo l1 mid /\ free_ok mid l2 hi.
Proof.
  revert lo. induction l1 as [|e l1 IH]; intros lo; simpl.
  - split; [intros H; exists lo; split; [lia|done]|].
    intros (mid & ? & ?). eauto using free_ok_weaken.
  - rewrite IH. naive_solver.
Qed.

Lemma free_ok_elem l lo hi e :
  free_ok lo l hi -> e ∈ l -> 0 < total_q e /\ lo <= qbase e /\ ends e <= hi.
Proof.
  intros Hl He. apply list_elem_of_split in He as (l1 & l2 & ->).
  apply free_ok_app in Hl as (mid & H1 & H2). simpl in H2. destruct H2 as (? & ? & H2).
  apply free_ok_le in H1, H2. lia.
Qed.

Lemma free_ok_owned l lo hi q :
  free_ok lo l hi -> (0 < owners l q)%nat -> lo <= q < hi.
Proof.
  revert lo. induction l as [|e l IH]; intros lo; [unfold owners; simpl; lia|].
  intros (Hlo & Ht & Hl). rewrite owners_cons. destruct (covers q e) eqn:E; simpl.
  - intros _. apply covers_true in E. apply free_ok_le in Hl. lia.
  - intros H. specialize (IH _ Hl H). unfold ends in *. lia.
Qed.

Lemma free_ok_owners_le l lo hi q : free_ok lo l hi -> (owners l q <= 1)%nat.
Proof.
  revert lo. induction l as [|e l IH]; intros lo; [unfold owners; simpl; lia|].
  intros (Hlo & Ht & Hl). rewrite owners_cons. specialize (IH _ Hl).
  destruct (covers q e) eqn:E; simpl; [|lia]. apply covers_true in E.
  destruct (owners l q) eqn:Eo; [lia|].
  pose proof (free_ok_owned l _ _ q Hl). lia.
Qed.

(** Inserting a range nobody in the list owns. *)
Lemma insert_free_perm e l : l <> [] -> insert_free e l ≡ₚ e :: l.
Proof.
  induction l as [|n l IH]; [done|]. intros _. simpl. case_if; [done|].
  destruct l as [|n' l]; [apply Permutation_swap|].
  rewrite IH by done. apply Permutation_swap.
Qed.

Lemma insert_free_ok e l lo hi :
  l <> [] -> free_ok lo l hi -> 0 < total_q e -> lo <= qbase e -> ends e <= hi ->
  (forall q, covers q e = true -> owners l q = 0%nat) ->
  free_ok lo (insert_free e l) hi.
Proof.
  revert lo. induction l as [|n l IH]; intros lo Hne Hl Ht Hlo Hhi Hdis; [done|].
  destruct Hl as (Hn & Htn & Hl). simpl. case_if.
  - assert (ends e <= qbase n).
    { destruct (Z.le_gt_cases (ends e) (qbase n)) as [|Hgt]; [done|exfalso].
      assert (covers (qbase n) e = true) as Hc by (apply covers_true; lia).
      specialize (Hdis _ Hc). rewrite owners_cons in Hdis.
      assert (covers (qbase n) n = true) as Hc' by (apply covers_true; unfold ends in *; lia).
      rewrite Hc' in Hdis. simpl in Hdis. lia. }
    simpl. split_and!; try done.
  - assert (ends n <= qbase e).
    { destruct (Z.le_gt_cases (ends n) (qbase e)) as [|Hgt]; [done|exfalso].
      assert (covers (qbase e) e = true) as Hc by (apply covers_true; unfold ends in *; lia).
      specialize (Hdis _ Hc). rewrite owners_cons in Hdis.
      assert (covers (qbase e) n = true) as Hc' by (apply covers_true; lia).
      rewrite Hc' in Hdis. simpl in Hdis. lia. }
    destruct l as [|n' l]; [simpl in *; split_and!; auto|].
    simpl (free_ok lo _ hi). split_and!; [done..|].
    apply IH; try done. intros q Hq. specialize (Hdis q Hq).
    rewrite owners_cons in Hdis. lia.
Qed.

(** De-fragmentation keeps the order and the owners. *)
Lemma defrag_from_spec s l lo hi :
  0 <= lo -> hi < 2147483648 -> free_ok lo (s :: l) hi ->
  free_ok lo (defrag_from s l) hi /\
  forall q, owners (defrag_from s l) q = owners (s :: l) q.
Proof.
  revert s lo. induction l as [|n l IH]; intros s lo Hlo Hhi Hl; [done|].
  destruct Hl as (Hs & Hts & Hn & Htn & Hl). pose proof (free_ok_le _ _ _ Hl).
  simpl. unfold ends in *. case_if.
  - rewrite (u32_small (qbase s + _)), (u32_small (qbase n)) in E by in_range.
    rewrite (u32_small (total_q s + _)) by in_range.
    destruct (IH (mk_entry (qbase s) (total_q s + total_q n)) lo) as [Hok Ho]; [done..| |].
    { simpl. unfold ends; simpl. split_and!; try lia.
      apply (free_ok_weaken _ _ _ _ Hl). lia. }
    split; [done|]. intros q. rewrite Ho. rewrite !owners_cons.
    rewrite covers_b2n_split by lia. rewrite E.
    destruct s, n; simpl in *; lia.
  - destruct (IH n (qbase s + total_q s)) as [Hok Ho]; [lia|done|by split_and!|].
    split; [by split_and!|]. intros q. rewrite owners_cons, Ho, !owners_cons. lia.
Qed.

Lemma defrag_spec l lo hi :
  0 <= lo -> hi < 2147483648 -> free_ok lo l hi ->
  free_ok lo (defrag l) hi /\ forall q, owners (defrag l) q = owners l q.
Proof. destruct l as [|s l]; [done|]. apply defrag_from_spec. Qed.
End free_list.

(** Every node ends up inside a node of the de-fragmented list. *)
Definition inside (e n : qdma_resource_entry) : Prop := qbase n <= qbase e /\ ends e <= ends n.

Lemma defrag_from_inside s l lo hi e :
  0 <= lo -> hi < 2147483648 -> free_ok lo (s :: l) hi -> e ∈ s :: l ->
  exists n, n ∈ defrag_from s l /\ inside e n.
Proof.
  unfold inside. revert e s lo. induction l as [|n l IH]; intros e s lo Hlo Hhi Hl He.
  { apply list_elem_of_singleton in He as ->. exists s. split; [by left|lia]. }
  destruct Hl as (Hs & Hts & Hn & Htn & Hl). pose proof (free_ok_le _ _ _ Hl).
  simpl. unfold ends in *. case_if.
  - rewrite (u32_small (qbase s + _)), (u32_small (qbase n)) in E by in_range.
    rewrite (u32_small (total_q s + _)) by in_range.
    assert (free_ok lo (mk_entry (qbase s) (total_q s + total_q n) :: l) hi) as Hok.
    { simpl. unfold ends; simpl. split_and!; try lia. apply (free_ok_weaken _ _ _ _ Hl). lia. }
    apply elem_of_cons in He as [->|[->|He]%elem_of_cons].
    1, 2: destruct (IH _ _ lo Hlo Hhi Hok ltac:(left)) as (m & ? & ? & ?); exists m;
      simpl in *; split; [done|lia].
    apply (IH _ _ lo Hlo Hhi Hok). by right.
  - apply elem_of_cons in He as [->|He]; [exists s; split; [left|lia]|].
    destruct (IH e n (qbase s + total_q s)) as (m & ? & ?); [lia|done|by split_and!|done|].
    exists m. split; [by right|done].
Qed.

(** ** Allocation verdicts *)

Lemma calloc_ok al b al' :
  qdma_calloc al = (b, al') -> allocs_ok al -> b = true /\ allocs_ok al'.
Proof.
  unfold qdma_calloc, allocs_ok. destruct al as [|x al]; intros [= <- <-]; [done|].
  intros [<- ?]%Forall_cons. done.
Qed.

Lemma free_entry_create_spec b t al r al' :
  qdma_free_entry_create b t al = (r, al') ->
  (r = None \/ r = Some (mk_entry b t)) /\
  (allocs_ok al -> r = Some (mk_entry b t) /\ allocs_ok al').
Proof.
  unfold qdma_free_entry_create. destruct (qdma_calloc al) as [ok al1] eqn:E.
  intros H. destruct ok; injection H as <- <-; (split; [by auto|]); intros Hok;
    by destruct (calloc_ok _ _ _ E Hok).
Qed.

(** ** Giving a range back *)

Section submit.
Context (lo hi : Z) (Hlo : 0 <= lo) (Hhi : hi < 2147483648).

Lemma submit_spec d fl al d' fl' al' :
  qdma_submit_to_free_list d fl al = (d', fl', al') ->
  free_ok lo fl hi -> dev_ok lo hi (entry d) ->
  (forall q, covers q (entry d) = true -> owners fl q = 0%nat) ->
  (d' = d /\ fl' = fl \/
   d' = set_entry no_entry d /\ 0 < total_q (entry d) /\
   free_ok lo fl' hi /\
   (forall q, owners fl' q = (Nat.b2n (covers q (entry d)) + owners fl q)%nat)) /\
  (allocs_ok al -> allocs_ok al' /\ total_q (entry d') = 0).
Proof.
  unfold qdma_submit_to_free_list. intros H Hfl (Ht & Hb & Hin) Hdis. revert H.
  case_if; [intros [= <- <- <-]; auto|]. specialize (Hin ltac:(lia)).
  destruct (qdma_free_entry_create _ _ al) as [[new|] al1] eqn:Ec; intros H;
    apply free_entry_create_spec in Ec as [Hnew Hal]; injection H as <- <- <-.
  2: { split; [by left|]. intros Hok. by destruct (Hal Hok). }
  destruct Hnew as [|[= ->]]; [done|]. split; [right|intros Hok; by destruct (Hal Hok)].
  set (fl1 := match fl with [] => _ | _ => _ end).
  assert (free_ok lo fl1 hi /\
          forall q, owners fl1 q = (Nat.b2n (covers q (entry d)) + owners fl q)%nat)
    as [Hok1 Ho1].
  { destruct (entry d) as [b t]. simpl in *. unfold ends in *; simpl in *.
    destruct fl as [|n fl]; subst fl1.
    { split; [simpl; unfold ends; simpl; lia|intros q; by rewrite owners_cons]. }
    split; [apply insert_free_ok; unfold ends; simpl; try done; lia|].
    intros q. rewrite (owners_perm _ (mk_entry b t :: n :: fl)) by by apply insert_free_perm.
    by rewrite owners_cons. }
  destruct (defrag_spec fl1 lo hi Hlo Hhi Hok1) as [Hok2 Ho2].
  split_and!; [done|lia|done|]. intros q. by rewrite Ho2.
Qed.
End submit.

(** ** Choosing a node *)

Section best_fit.
Implicit Types (n : qdma_resource_entry) (l : list qdma_resource_entry).

(** The best-fit scan, for a scan that starts at position [i] with a best node
    so far. *)
Lemma best_fit_spec qmax i b l :
  (forall k n, b = Some (k, n) -> qmax <= total_q n) ->
  match best_fit qmax i b l with
  | None => b = None /\ forall n, n ∈ l -> total_q n < qmax
  | Some (k, n) =>
      qmax <= total_q n /\
      (forall n', n' ∈ l -> qmax <= total_q n' -> total_q n <= total_q n') /\
      (forall k' n', b = Some (k', n') -> total_q n <= total_q n') /\
      (b = Some (k, n) \/ (i <= k)%nat /\ l !! (k - i)%nat = Some n)
  end.
Proof.
  revert i b. induction l as [|x l IH]; intros i b Hb; simpl.
  { destruct b as [[k n]|]; [|split; [done|intros n []%not_elem_of_nil]].
    split_and!; [by eapply Hb|intros n' []%not_elem_of_nil|intros k' n' [= <- <-]; lia|by left]. }
  set (b' := if _ >=? _ then _ else _).
  assert (Hb' : (b' = b /\ (total_q x < qmax \/ exists k n, b = Some (k, n) /\ total_q n < total_q x)) \/
                (b' = Some (i, x) /\ qmax <= total_q x /\
                 forall k n, b = Some (k, n) -> total_q x <= total_q n)).
  { subst b'. rewrite Z.geb_leb. destruct (Z.leb_spec qmax (total_q x)); [|by left; auto].
    destruct b as [[k n]|]; [|by right; split_and!; auto].
    rewrite Z.geb_leb. destruct (Z.leb_spec (total_q x) (total_q n)).
    - right. split_and!; auto. intros ?? [= <- <-]. done.
    - left. split; [done|]. right. eauto. }
  specialize (IH (S i) b').
  destruct (best_fit qmax (S i) b' l) as [[k n]|].
  - destruct IH as (Hq & Hmin & Hbmin & Hpos).
    { destruct Hb' as [[-> _]|(-> & ? & _)]; [done|intros ?? [= <- <-]; done]. }
    destruct Hb' as [[-> Hx]|(-> & Hx & Hxb)].
    + split_and!; [done| |done|].
      * intros n' [->|Hn']%elem_of_cons Hq'; [|by apply Hmin].
        destruct Hx as [|(k0 & n0 & -> & ?)]; [lia|]. specialize (Hbmin _ _ eq_refl). lia.
      * destruct Hpos as [|[? ?]]; [by left|right]. split; [lia|].
        replace (k - i)%nat with (S (k - S i)) by lia. done.
    + specialize (Hbmin _ _ eq_refl). split_and!; [done| | |].
      * intros n' [->|Hn']%elem_of_cons Hq'; [lia|by apply Hmin].
      * intros k' n' Hn'. specialize (Hxb _ _ Hn'). lia.
      * right. destruct Hpos as [[= <- <-]|[? ?]]; [by rewrite Nat.sub_diag|].
        split; [lia|]. replace (k - i)%nat with (S (k - S i)) by lia. done.
  - destruct IH as [Hb0 Hl].
    { destruct Hb' as [[-> _]|(-> & ? & _)]; [done|intros ?? [= <- <-]; done]. }
    destruct Hb' as [[-> Hx]|(-> & ? & _)]; [|done]. split; [done|].
    intros n' [->|Hn']%elem_of_cons; [|by apply Hl].
    destruct Hx as [|(k0 & n0 & -> & ?)]; done.
Qed.

Lemma best_fit_Some qmax l k n :
  best_fit qmax 0 None l = Some (k, n) ->
  l !! k = Some n /\ qmax <= total_q n /\
  forall n', n' ∈ l -> qmax <= total_q n' -> total_q n <= total_q n'.
Proof.
  intros E. pose proof (best_fit_spec qmax 0 None l) as H. rewrite E in H.
  destruct H as (? & ? & _ & [|[_ ?]]); [done|done|]. by rewrite Nat.sub_0_r in *.
Qed.

Lemma best_fit_None qmax l :
  best_fit qmax 0 None l = None -> forall n, n ∈ l -> total_q n < qmax.
Proof.
  intros E. pose proof (best_fit_spec qmax 0 None l) as H. rewrite E in H.
  by destruct H as [_ H].
Qed.
End best_fit.

(** ** Cutting a range out of a node *)

Lemma insert_middle {A} (l1 l2 : list A) (x y : A) i :
  i = length l1 -> <[i := y]> (l1 ++ x :: l2) = l1 ++ y :: l2.
Proof. intros ->. by rewrite insert_app_r_alt, Nat.sub_diag by done. Qed.

Lemma insert_at_succ {A} (l1 l2 : list A) (x y : A) i :
  i = length l1 -> insert_at (S i) x (l1 ++ y :: l2) = l1 ++ y :: x :: l2.
Proof.
  intros ->. rewrite (cons_middle y), (app_assoc l1).
  rewrite insert_at_app by (rewrite length_app; simpl; lia). by rewrite <- app_assoc.
Qed.

(** What cutting [[base, base + qmax)] out of the free list must give: the
    cut-out node at position [k], the rest still a free list, and no queue won
    or lost; or, when memory ran out, a free list with the same owners. *)
Definition cut_ok (lo hi qmax base : Z) (fl : list qdma_resource_entry)
    (r : option nat) (fl' : list qdma_resource_entry) : Prop :=
  match r with
  | Some k =>
      fl' !! k = Some (mk_entry base qmax) /\ free_ok lo (delete k fl') hi /\
      forall q, (owners (delete k fl') q + Nat.b2n (covers q (mk_entry base qmax)))%nat
                = owners fl q
  | None => free_ok lo fl' hi /\ forall q, owners fl' q = owners fl q
  end.

(** The three-way split of a range, as owners. *)
Lemma covers_split3 q b t b1 t1 :
  b <= b1 -> 0 <= t1 -> b1 + t1 <= b + t ->
  Nat.b2n (covers q (mk_entry b t)) =
  (Nat.b2n (covers q (mk_entry b (b1 - b))) + Nat.b2n (covers q (mk_entry b1 t1)) +
   Nat.b2n (covers q (mk_entry (b1 + t1) (b + t - (b1 + t1)))))%nat.
Proof.
  intros. replace t with ((b1 - b) + (t1 + (b + t - (b1 + t1)))) at 1 by lia.
  rewrite !covers_b2n_split by lia. replace (b + (b1 - b)) with b1 by lia. lia.
Qed.

Section cut.
Context (lo hi : Z) (Hlo : 0 <= lo) (Hhi : hi < 2147483648).
Context (l1 l2 : list qdma_resource_entry) (nb nt base qmax : Z).
Let node := mk_entry nb nt.
Let fl := l1 ++ node :: l2.

(** A list obtained by replacing [node] by the pieces [left], the cut-out
    range and [right]; empty pieces are absent. *)
Lemma cut_pieces left right (r : option nat) fl' :
  free_ok lo fl hi -> nb <= base -> 0 <= qmax -> base + qmax <= nb + nt ->
  (left = [] /\ base = nb \/ left = [mk_entry nb (base - nb)] /\ nb < base) ->
  (right = [] /\ base + qmax = nb + nt \/
   right = [mk_entry (base + qmax) (nb + nt - (base + qmax))] /\ base + qmax < nb + nt) ->
  r = Some (length (l1 ++ left)) ->
  fl' = (l1 ++ left) ++ mk_entry base qmax :: right ++ l2 ->
  cut_ok lo hi qmax base fl r fl'.
Proof.
  intros Hfl Hb Hq He Hleft Hright -> ->. unfold cut_ok.
  rewrite delete_middle. split; [by apply list_lookup_middle|].
  subst fl. apply free_ok_app in Hfl as (mid & H1 & Hm & Ht & H2).
  unfold ends in *; simpl in *. pose proof (free_ok_le _ _ _ H2).
  assert (Hr : free_ok (base + qmax) (right ++ l2) hi).
  { destruct Hright as [[-> E]|[-> E]]; simpl; unfold ends; simpl.
    - apply (free_ok_weaken _ (nb + nt)); [done|lia].
    - split_and!; [lia..|]. apply (free_ok_weaken _ (nb + nt)); [done|lia]. }
  split.
  - rewrite <- app_assoc. apply free_ok_app. exists mid. split; [done|].
    destruct Hleft as [[-> E]|[-> E]]; simpl; unfold ends; simpl.
    + apply (free_ok_weaken _ (base + qmax)); [done|lia].
    + split_and!; [done|lia|]. apply (free_ok_weaken _ (base + qmax)); [done|lia].
  - intros q. rewrite !owners_app, owners_cons.
    pose proof (covers_split3 q nb nt base qmax Hb Hq He) as Hs. fold node in Hs.
    assert (owners left q = Nat.b2n (covers q (mk_entry nb (base - nb)))) as ->.
    { destruct Hleft as [[-> E]|[-> E]]; [rewrite covers_empty; simpl; [done|lia]|].
      rewrite owners_cons. unfold owners; simpl; lia. }
    assert (owners right q =
            Nat.b2n (covers q (mk_entry (base + qmax) (nb + nt - (base + qmax))))) as ->.
    { destruct Hright as [[-> E]|[-> E]]; [rewrite covers_empty; simpl; [done|lia]|].
      rewrite owners_cons. unfold owners; simpl; lia. }
    lia.
Qed.
End cut.

Section fragment.
Context (lo hi : Z) (Hlo : 0 <= lo) (Hhi : hi < 2147483648).

Lemma node_split_ok l1 nb nt l2 base :
  free_ok lo (l1 ++ mk_entry nb nt :: l2) hi -> nb < base < nb + nt ->
  free_ok lo (l1 ++ mk_entry nb (base - nb) :: mk_entry base (nt - (base - nb)) :: l2) hi /\
  forall q, owners (l1 ++ mk_entry nb (base - nb) :: mk_entry base (nt - (base - nb)) :: l2) q
            = owners (l1 ++ mk_entry nb nt :: l2) q.
Proof.
  intros Hfl Hb. apply free_ok_app in Hfl as (mid & H1 & Hm & Ht & H2).
  unfold ends in *; simpl in *. split.
  - apply free_ok_app. exists mid. split; [done|]. simpl. unfold ends; simpl.
    split_and!; try lia. apply (free_ok_weaken _ (nb + nt)); [done|lia].
  - intros q. rewrite !owners_app, !owners_cons.
    replace nt with ((base - nb) + (nt - (base - nb))) at 2 by lia.
    rewrite covers_b2n_split by lia. replace (nb + (base - nb)) with base by lia. lia.
Qed.

Lemma fragment_spec qmax base i node fl al r fl' al' :
  fragment_free_list qmax base i node fl al = (r, fl', al') ->
  fl !! i = Some node -> free_ok lo fl hi ->
  qbase node <= base -> 0 <= qmax -> base + qmax <= ends node ->
  cut_ok lo hi qmax base fl r fl' /\ (allocs_ok al -> is_Some r /\ allocs_ok al').
Proof.
  intros H Hi Hfl Hb Hq He.
  destruct (free_ok_elem _ _ _ _ Hfl (list_elem_of_lookup_2 _ _ _ Hi)) as (Htn & Hbn & Hen).
  apply list_elem_of_split_length in Hi as (l1 & l2 & -> & ->).
  destruct node as [nb nt]. unfold ends in *; simpl in *.
  unfold fragment_free_list in H; simpl in H. revert H.
  destruct (Z.eqb_spec base nb) as [->|Hne]; simpl.
  - destruct (Z.eqb_spec qmax nt) as [->|Hne']; simpl.
    + intros [= <- <- <-]. split; [|by eauto].
      eapply (cut_pieces lo hi l1 l2 nb nt nb nt [] []); rewrite ?app_nil_r; eauto; lia.
    + destruct (qdma_free_entry_create _ _ al) as [[new|] al1] eqn:Ec; intros [= <- <- <-];
        apply free_entry_create_spec in Ec as [Hnew Hal].
      2: { split; [by split|]. intros Hok. by destruct (Hal Hok). }
      destruct Hnew as [|[= ->]]; [done|]. split; [|intros Hok; destruct (Hal Hok); by eauto].
      unwrap_ints. rewrite insert_middle, insert_at_succ by done.
      eapply (cut_pieces lo hi l1 l2 nb nt nb qmax [] [mk_entry (nb + qmax) (nt - qmax)]);
        eauto; try lia.
      * right. split; [|lia]. do 2 f_equal. lia.
      * by rewrite app_nil_r.
      * rewrite app_nil_r. simpl. do 3 f_equal. lia.
  - rewrite Z.gtb_ltb. destruct (Z.ltb_spec nb base); [simpl|lia].
    rewrite (u32_small (base + qmax)), (u32_small (nb + nt)), (u32_small (base - nb)) by in_range.
    destruct (Z.eqb_spec (base + qmax) (nb + nt)) as [Heq|Hneq].
    + destruct (qdma_free_entry_create _ _ al) as [[new|] al1] eqn:Ec; intros [= <- <- <-];
        apply free_entry_create_spec in Ec as [Hnew Hal].
      2: { split; [by split|]. intros Hok. by destruct (Hal Hok). }
      destruct Hnew as [|[= ->]]; [done|]. split; [|intros Hok; destruct (Hal Hok); by eauto].
      rewrite insert_middle, insert_at_app by done.
      eapply (cut_pieces lo hi l1 l2 nb nt base qmax [mk_entry nb (base - nb)] []);
        eauto; try lia.
      * by rewrite length_app, Nat.add_comm.
      * by rewrite <- app_assoc.
    + destruct (qdma_free_entry_create _ _ al) as [[new|] al1] eqn:Ec; simpl.
      2: { intros [= <- <- <-]. apply free_entry_create_spec in Ec as [Hnew Hal].
           split; [by split|]. intros Hok. by destruct (Hal Hok). }
      apply free_entry_create_spec in Ec as [[|[= ->]] Hal]; [done|].
      rewrite (u32_small (nt - _)), insert_middle, insert_at_app by (done || in_range).
      destruct (node_split_ok l1 nb nt l2 base) as [Hs1 Hs2]; [done|lia|].
      destruct (qdma_free_entry_create _ _ al1) as [[new|] al2] eqn:Ec; intros [= <- <- <-];
        apply free_entry_create_spec in Ec as [Hnew Hal2].
      2: { split; [by split|]. intros Hok. destruct (Hal Hok) as [_ Hok1].
           by destruct (Hal2 Hok1). }
      destruct Hnew as [|[= ->]]; [done|].
      split; [|intros Hok; destruct (Hal Hok) as [_ Hok1]; destruct (Hal2 Hok1); by eauto].
      rewrite i32_small, u32_small by in_range.
      rewrite (cons_middle (mk_entry nb (base - nb))), (app_assoc l1 [mk_entry nb (base - nb)]).
      rewrite insert_middle, insert_at_succ by (rewrite length_app; simpl; lia).
      eapply (cut_pieces lo hi l1 l2 nb nt base qmax [mk_entry nb (base - nb)]
                [mk_entry (base + qmax) (nt - (base - nb) - qmax)]); eauto; try lia.
      * right. split; [|lia]. do 2 f_equal. lia.
      * rewrite length_app; simpl. f_equal. lia.
Qed.
End fragment.

(** ** Finding and cutting *)

Section request.
Context (lo hi : Z) (Hlo : 0 <= lo) (Hhi : hi < 2147483648).

Lemma holds_spec qmax base fl n :
  free_ok lo fl hi -> n ∈ fl -> 0 <= base -> 0 <= qmax -> base + qmax < 4294967296 ->
  holds qmax base n = true <-> qbase n <= base /\ base + qmax <= ends n.
Proof.
  intros Hfl Hn Hb Hq Hw. destruct (free_ok_elem _ _ _ _ Hfl Hn) as (? & ? & ?).
  unfold holds, ends in *. rewrite !u32_small by in_range.
  rewrite !Z.geb_leb, andb_true_iff, !Z.leb_le. tauto.
Qed.

(** A free list offers [[base, base + qmax)] when one node contains it. *)
Definition offered (qmax base : Z) (fl : list qdma_resource_entry) : Prop :=
  exists n, n ∈ fl /\ qbase n <= base /\ base + qmax <= ends n.

Lemma get_resource_node_spec qmax base fl al r fl' al' :
  qdma_get_resource_node qmax base fl al = (r, fl', al') ->
  free_ok lo fl hi -> 0 <= qmax -> base + qmax < 4294967296 ->
  exists base',
    cut_ok lo hi qmax base' fl r fl' /\
    (is_Some r -> lo <= base' /\ base' + qmax <= hi) /\
    (0 <= base -> offered qmax base fl -> base' = base) /\
    (allocs_ok al -> allocs_ok al' /\
       (r = None -> fl' = fl /\ (forall n, n ∈ fl -> total_q n < qmax) /\
                    ~ (0 <= base /\ offered qmax base fl))).
Proof.
  intros H Hfl Hq Hw. unfold qdma_get_resource_node in H.
  destruct (if base >=? 0 then find_pos (holds qmax base) fl else None) as [i|] eqn:Eh.
  - destruct (Z.geb_spec base 0) as [Hb|]; [|done].
    apply find_pos_Some in Eh as (n & Hi & Hn & _). rewrite Hi in H.
    pose proof (list_elem_of_lookup_2 _ _ _ Hi) as Hin.
    apply (holds_spec qmax base fl n Hfl Hin) in Hn as [? ?]; [|lia..].
    destruct (free_ok_elem _ _ _ _ Hfl Hin) as (? & ? & ?).
    destruct (fragment_spec lo hi Hlo Hhi _ _ _ _ _ _ _ _ _ H Hi Hfl) as [Hc Ha]; [done..|].
    exists base. split_and!; [done|lia|done|].
    intros Hok. destruct (Ha Hok) as [[k ->] ?]. by split.
  - assert (Hno : ~ (0 <= base /\ offered qmax base fl)).
    { intros [Hb (n & Hn & ? & ?)]. rewrite Z.geb_leb, (proj2 (Z.leb_le 0 base) Hb) in Eh.
      pose proof (find_pos_None _ _ Eh n Hn) as Hf.
      by rewrite (proj2 (holds_spec qmax base fl n Hfl Hn Hb Hq Hw)) in Hf. }
    destruct (best_fit qmax 0 None fl) as [[i n]|] eqn:Eb.
    + apply best_fit_Some in Eb as (Hi & Hn & _).
      destruct (free_ok_elem _ _ _ _ Hfl (list_elem_of_lookup_2 _ _ _ Hi)) as (? & ? & ?).
      assert (qbase n + qmax <= ends n) by (unfold ends; lia).
      destruct (fragment_spec lo hi Hlo Hhi _ _ _ _ _ _ _ _ _ H Hi Hfl) as [Hc Ha]; [lia..|].
      exists (qbase n). split_and!; [done|lia|by intros; destruct Hno|].
      intros Hok. destruct (Ha Hok) as [[k ->] ?]. by split.
    + injection H as <- <- <-. exists base. split_and!.
      * by split.
      * by intros [? ?].
      * done.
      * intros Hok. split; [done|]. intros _. split_and!; [done| |done]. by apply best_fit_None.
Qed.

(** The owners of the free list and of one function together. *)
Definition joint (fl : list qdma_resource_entry) (d : qdma_dev_entry) (q : Z) : nat :=
  (owners fl q + Nat.b2n (covers q (entry d)))%nat.

Definition disjoint (fl : list qdma_resource_entry) (d : qdma_dev_entry) : Prop :=
  forall q, covers q (entry d) = true -> owners fl q = 0%nat.

(** What an operation on a function may do to it: its queues and those of the
    free list stay a free list and a range of the board, nobody gains a queue
    twice, and nothing is lost as long as memory lasts ([mem]). *)
Definition step_ok (mem : Prop) (d : qdma_dev_entry) (fl : list qdma_resource_entry)
    (d' : qdma_dev_entry) (fl' : list qdma_resource_entry) : Prop :=
  free_ok lo fl' hi /\ dev_ok lo hi (entry d') /\
  (forall q, (joint fl' d' q <= joint fl d q)%nat) /\
  (mem -> forall q, joint fl' d' q = joint fl d q).

Lemma dev_ok_none : dev_ok lo hi no_entry.
Proof using. unfold dev_ok; simpl. lia. Qed.

Lemma dev_ok_cut qmax base :
  0 <= qmax < 4294967296 -> lo <= base -> base + qmax <= hi -> dev_ok lo hi (mk_entry base qmax).
Proof. unfold dev_ok, ends; simpl. lia. Qed.

Lemma step_ok_trans mem d1 fl1 d2 fl2 d3 fl3 :
  step_ok mem d1 fl1 d2 fl2 -> step_ok mem d2 fl2 d3 fl3 -> step_ok mem d1 fl1 d3 fl3.
Proof using.
  intros (_ & _ & H1 & A1) (F2 & D2 & H2 & A2). split_and!; [done|done| |].
  - intros q. etransitivity; [apply H2|apply H1].
  - intros Hm q. by rewrite A2, A1.
Qed.

Lemma submit_step d fl al d' fl' al' :
  qdma_submit_to_free_list d fl al = (d', fl', al') ->
  free_ok lo fl hi -> dev_ok lo hi (entry d) -> disjoint fl d ->
  step_ok True d fl d' fl' /\ d' = set_entry (entry d') d /\
  (allocs_ok al -> allocs_ok al' /\ total_q (entry d') = 0).
Proof.
  intros H Hfl Hd Hdis.
  destruct (submit_spec lo hi Hlo Hhi _ _ _ _ _ _ H Hfl Hd Hdis) as [Hcase Hal].
  split_and!; [|by destruct Hcase as [[-> _]|[-> _]]; destruct d|done].
  destruct Hcase as [[-> ->]|(-> & Ht & Hfl' & Ho)]; [by split_and!|].
  assert (forall q, joint fl' (set_entry no_entry d) q = joint fl d q) as Hj.
  { intros q. unfold joint. rewrite Ho. simpl. rewrite (covers_empty q no_entry) by done.
    simpl. lia. }
  split_and!; [done|apply dev_ok_none|intros q; by rewrite Hj|done].
Qed.

(** One attempt to take a range, by a function whose own range the free list
    took back unless memory ran out. *)
Lemma attempt_step (mem : Prop) qmax base d fl al r fl' al' :
  qdma_get_resource_node qmax base fl al = (r, fl', al') ->
  free_ok lo fl hi -> dev_ok lo hi (entry d) -> 0 <= qmax < 4294967296 ->
  base + qmax < 4294967296 -> (mem -> allocs_ok al /\ total_q (entry d) = 0) ->
  match r with
  | Some k => exists node, fl' !! k = Some node /\ total_q node = qmax /\
      (0 <= base -> offered qmax base fl -> qbase node = base) /\
      step_ok mem d fl (set_entry node d) (delete k fl') /\ (mem -> allocs_ok al')
  | None => step_ok mem d fl d fl' /\ step_ok mem d fl (set_entry no_entry d) fl' /\
      (mem -> allocs_ok al' /\ fl' = fl /\
        (forall n, n ∈ fl -> total_q n < qmax) /\ ~ (0 <= base /\ offered qmax base fl))
  end.
Proof.
  intros H Hfl Hd Hq Hw Hm.
  destruct (get_resource_node_spec _ _ _ _ _ _ _ H Hfl) as
    (base' & Hcut & Hin & Hhon & Hal); [lia..|].
  destruct r as [k|].
  - destruct (Hin ltac:(eauto)) as [? ?].
    exists (mk_entry base' qmax). destruct Hcut as (Hk & Hf & Ho). split_and!; [done..| |].
    + split_and!; [done|by apply dev_ok_cut| |]; unfold joint; simpl.
      * intros q. rewrite Ho. lia.
      * intros [_ Ht]%Hm q. rewrite Ho, (covers_empty q (entry d)) by done. simpl; lia.
    + intros [Hok _]%Hm. by apply Hal.
  - destruct Hcut as [Hfl' Ho]. split_and!.
    + split_and!; [done..| |]; unfold joint; [intros q; by rewrite Ho|].
      intros _ q. by rewrite Ho.
    + split_and!; [done|apply dev_ok_none| |]; unfold joint; simpl.
      * intros q. rewrite Ho, (covers_empty q no_entry) by done. simpl; lia.
      * intros [_ Ht]%Hm q. by rewrite Ho, !covers_empty.
    + intros [Hok _]%Hm. destruct (Hal Hok) as [? Hn]. specialize (Hn eq_refl). tauto.
Qed.

Lemma submit_inside d fl al d' fl' al' :
  qdma_submit_to_free_list d fl al = (d', fl', al') -> allocs_ok al ->
  free_ok lo fl hi -> dev_ok lo hi (entry d) -> disjoint fl d -> 0 < total_q (entry d) ->
  offered (total_q (entry d)) (qbase (entry d)) fl'.
Proof.
  unfold qdma_submit_to_free_list, disjoint.
  intros H Hok Hfl (Ht & Hb & Hin) Hdis Hpos.
  rewrite (proj2 (Z.eqb_neq _ _)) in H by lia. specialize (Hin Hpos).
  destruct (qdma_free_entry_create _ _ al) as [r al1] eqn:Ec.
  apply free_entry_create_spec in Ec as [_ Hal]. destruct (Hal Hok) as [-> _].
  injection H as <- <- <-. destruct (entry d) as [b t]. unfold ends in *; simpl in *.
  destruct fl as [|n fl].
  { exists (mk_entry b t). split; [by left|]. unfold ends; simpl; lia. }
  assert (free_ok lo (insert_free (mk_entry b t) (n :: fl)) hi) as Hok1.
  { apply insert_free_ok; [done|exact Hfl|simpl; lia|simpl; lia| |exact Hdis]. unfold ends; simpl. lia. }
  pose proof (insert_free_perm (mk_entry b t) (n :: fl) ltac:(done)) as Hp.
  destruct (insert_free (mk_entry b t) (n :: fl)) as [|s l] eqn:Ei;
    [by apply Permutation_nil_cons in Hp|].
  apply (defrag_from_inside s l lo hi (mk_entry b t)); [done..|]. rewrite Hp. left.
Qed.

(** The outcome of a request. *)
Lemma request_spec d nq nb fl al rv d' fl' al' :
  qdma_request_q_resource d nq nb fl al = (rv, d', fl', al') ->
  free_ok lo fl hi -> dev_ok lo hi (entry d) -> disjoint fl d ->
  0 <= nq < 4294967296 -> nb + nq < 4294967296 ->
  step_ok (allocs_ok al) d fl d' fl' /\ d' = set_entry (entry d') d /\
  (rv = 0 -> 0 < nq -> total_q (entry d') = nq) /\
  (rv = 0 \/ rv = neg QDMA_ERR_RM_NO_QUEUES_LEFT) /\
  (allocs_ok al -> allocs_ok al' /\
     (rv = 0 -> total_q (entry d') = nq) /\
     (rv <> 0 -> total_q (entry d') = total_q (entry d)) /\
     (rv <> 0 -> 0 < total_q (entry d) -> entry d' = entry d)).
Proof.
  unfold qdma_request_q_resource. intros H Hfl Hd Hdis Hnq Hw.
  destruct (qdma_submit_to_free_list d fl al) as [[d1 fl1] al1] eqn:Es.
  pose proof (submit_step _ _ _ _ _ _ Es Hfl Hd Hdis) as (S1 & Hd1 & A1).
  pose proof (submit_inside _ _ _ _ _ _ Es) as Hoff.
  assert (step_ok (allocs_ok al) d fl d1 fl1) as S1' by (destruct S1 as (?&?&?&?); by split_and!; auto).
  destruct S1 as (Hfl1 & Hdev1 & _ & _).
  revert H. case_if.
  { intros [= <- <- <- <-]. split_and!; [done|done|lia|by left|].
    intros Hok; destruct (A1 Hok) as [? Ht]. split_and!; [done|lia|done..]. }
  destruct (qdma_get_resource_node nq nb fl1 al1) as [[r fl2] al2] eqn:Eg.
  pose proof (attempt_step (allocs_ok al) _ _ _ _ _ _ _ _ Eg Hfl1 Hdev1 Hnq Hw A1) as Hat.
  destruct r as [k|].
  { destruct Hat as (node & Hk & Ht & _ & S2 & A2). rewrite Hk. intros [= <- <- <- <-].
    split_and!; [by eapply step_ok_trans|by rewrite Hd1; destruct d1|done|by left|].
    intros Hok. by split_and!; auto. }
  destruct Hat as (S2 & S2' & A2).
  destruct (qdma_get_resource_node _ _ fl2 al2) as [[r fl3] al3] eqn:Eg2.
  assert (0 <= total_q (entry d) < 4294967296 /\
          qbase (entry d) + total_q (entry d) < 4294967296) as [Hq' Hw'].
  { destruct Hd as (? & ? & Hin). unfold ends in *.
    destruct (Z.ltb_spec 0 (total_q (entry d))); [specialize (Hin ltac:(done))|]; lia. }
  pose proof (attempt_step (allocs_ok al) _ _ d1 _ _ _ _ _ Eg2 (proj1 S2) Hdev1 Hq' Hw') as Hat.
  specialize (Hat ltac:(intros Hok; split; [by apply A2|by apply A1])).
  assert (neg QDMA_ERR_RM_NO_QUEUES_LEFT <> 0) as Hne by done.
  destruct r as [k|].
  - destruct Hat as (node & Hk & Ht & Hat & S3 & A3). rewrite Hk. intros [= <- <- <- <-].
    split_and!; [exact (step_ok_trans _ _ _ _ _ _ _ S1' (step_ok_trans _ _ _ _ _ _ _ S2 S3))
                |by rewrite Hd1; destruct d1|done|by right|].
    intros Hok. split_and!; [by auto|done|done|].
    intros _ Hpos. destruct (A2 Hok) as (_ & -> & _). simpl.
    assert (qbase node = qbase (entry d)) as Hb.
    { apply Hat; [destruct Hd as (? & ? & Hd); specialize (Hd Hpos); lia|by apply Hoff]. }
    destruct node, (entry d); simpl in *; congruence.
  - destruct Hat as (S3 & S3' & A3). intros [= <- <- <- <-].
    split_and!; [exact (step_ok_trans _ _ _ _ _ _ _ S1' (step_ok_trans _ _ _ _ _ _ _ S2 S3'))
                |by rewrite Hd1; destruct d1|done|by right|].
    intros Hok. destruct (A2 Hok) as (Hok2 & -> & _ & _). destruct (A3 Hok) as (? & _ & Hn & Ho).
    simpl. destruct (decide (0 < total_q (entry d))) as [Hpos|].
    + exfalso. apply Ho. split; [destruct Hd as (? & ? & Hd); specialize (Hd Hpos); lia|].
      by apply Hoff.
    + split_and!; [done|done|lia|lia].
Qed.
End request.
