(* ===== verification/ResourceSys.v ===== *)
(** * ResourceSys: the resource manager as a system

    The invariant of a master resource, its preservation by every entry point
    of ResourceMgmt, and reachability: a state is reachable when some sequence
    of entry points, each with arguments the driver may pass, leads to it from
    the initial state. *)

From S2P Require Import Prelude QdmaErrors ResourceMgmt ResourceInv.
Local Open Scope Z_scope.

(** ** Positions of a master and of a function *)

Definition dev_at (dma_index fid : Z) (st : rm_state) (i j : nat)
    (m : qdma_resource_master) (d : qdma_dev_entry) : Prop :=
  qdma_get_dev_entry dma_index fid st = Some (i, j) /\
  master_resource_list st !! i = Some m /\ dev_list m !! j = Some d.

Section lookups.
Implicit Types (st : rm_state) (m : qdma_resource_master) (d : qdma_dev_entry).

Lemma dev_at_ids idx fid st i j m d :
  dev_at idx fid st i j m d ->
  qdma_get_master_resource_entry idx st = Some i /\
  dma_device_index m = idx /\ func_id d = fid.
Proof.
  unfold dev_at, qdma_get_dev_entry. intros (H & Hm & Hd).
  destruct (qdma_get_master_resource_entry idx st) as [i'|] eqn:Ei; [|done].
  simpl in H. destruct (master_resource_list st !! i') as [m'|] eqn:Em'; [|done].
  simpl in H. destruct (find_pos _ (dev_list m')) as [j'|] eqn:Ej; [|done].
  injection H as -> ->. rewrite Hm in Em'. injection Em' as <-.
  apply find_pos_Some in Ei as (m1 & Hm1 & Hi%Z.eqb_eq & _).
  apply find_pos_Some in Ej as (d1 & Hd1 & Hf%Z.eqb_eq & _). split_and!; congruence.
Qed.

Lemma get_dev_entry_at idx fid st i j :
  qdma_get_dev_entry idx fid st = Some (i, j) -> exists m d, dev_at idx fid st i j m d.
Proof.
  unfold dev_at. intros H. rewrite H. unfold qdma_get_dev_entry in H.
  destruct (qdma_get_master_resource_entry idx st) as [i'|]; [|done].
  simpl in H. destruct (master_resource_list st !! i') as [m'|] eqn:Em'; [|done].
  simpl in H. destruct (find_pos _ (dev_list m')) as [j'|] eqn:Ej; [|done].
  injection H as -> ->. apply find_pos_Some in Ej as (d & Hd & _). eauto 10.
Qed.

Lemma with_dev_at {A} idx fid st (nm nd : A) f i j m d :
  dev_at idx fid st i j m d -> with_dev idx fid st nm nd f = f i j m d.
Proof.
  intros Hat. pose proof (dev_at_ids _ _ _ _ _ _ _ Hat) as (Hi & _).
  destruct Hat as (H & Hm & Hd). unfold with_dev. by rewrite Hi, H, Hm, Hd.
Qed.

(** Case analysis on an entry point that starts by looking a function up. *)
Lemma with_dev_elim {A} (P : A -> Prop) idx fid st (nm nd : A) f :
  P nm -> P nd -> (forall i j m d, dev_at idx fid st i j m d -> P (f i j m d)) ->
  P (with_dev idx fid st nm nd f).
Proof.
  intros Hnm Hnd Hf.
  destruct (qdma_get_dev_entry idx fid st) as [[i j]|] eqn:E.
  - destruct (get_dev_entry_at _ _ _ _ _ E) as (m & d & Hat).
    rewrite (with_dev_at _ _ _ _ _ _ _ _ _ _ Hat). by apply Hf.
  - unfold with_dev. rewrite E. by destruct (qdma_get_master_resource_entry idx st).
Qed.
End lookups.

(** ** The invariant *)

(** Owners of a queue on a board: the free list and the functions. *)
Definition owners_of (m : qdma_resource_master) (q : Z) : nat :=
  (owners (free_list m) q + owners (entry <$> dev_list m) q)%nat.

Definition master_lo (m : qdma_resource_master) : Z := rm_qbase m.
Definition master_hi (m : qdma_resource_master) : Z := rm_qbase m + rm_total_q m.

(** The number of active queues of every type is bounded by the number of
    queues the function holds. *)
Definition counts_ok (d : qdma_dev_entry) : Prop :=
  0 <= active_h2c_qcnt d <= total_q (entry d) /\
  0 <= active_c2h_qcnt d <= total_q (entry d) /\
  0 <= active_cmpt_qcnt d <= total_q (entry d).

Record master_wf (m : qdma_resource_master) : Prop := {
  wf_bounds : 0 <= master_lo m <= master_hi m /\ master_hi m < 2147483648;
  wf_free : free_ok (master_lo m) (free_list m) (master_hi m);
  wf_devs : Forall (fun d => dev_ok (master_lo m) (master_hi m) (entry d)) (dev_list m);
  wf_counts : Forall counts_ok (dev_list m);
  wf_ids : NoDup (func_id <$> dev_list m);
  wf_owners : forall q, (owners_of m q <= 1)%nat }.

(** No queue of the board is lost. *)
Definition conserved (m : qdma_resource_master) : Prop :=
  forall q, master_lo m <= q < master_hi m -> owners_of m q = 1%nat.

Section owners_positions.
Implicit Types (l : list qdma_resource_entry) (ds : list qdma_dev_entry).

Lemma owners_delete l j e q :
  l !! j = Some e -> owners l q = (Nat.b2n (covers q e) + owners (delete j l) q)%nat.
Proof. intros H. by rewrite (owners_perm _ _ _ (delete_Permutation _ _ _ H)), owners_cons. Qed.

Lemma owners_devs_delete ds j d q :
  ds !! j = Some d ->
  owners (entry <$> ds) q =
  (Nat.b2n (covers q (entry d)) + owners (entry <$> delete j ds) q)%nat.
Proof.
  intros H. rewrite (owners_delete _ j (entry d)) by by rewrite list_lookup_fmap, H.
  by rewrite list_fmap_delete.
Qed.

Lemma owners_devs_insert ds j d d' q :
  ds !! j = Some d ->
  (owners (entry <$> <[j := d']> ds) q + Nat.b2n (covers q (entry d)))%nat =
  (owners (entry <$> ds) q + Nat.b2n (covers q (entry d')))%nat.
Proof.
  intros H. rewrite (owners_devs_delete ds j d) by done.
  rewrite (owners_devs_delete (<[j := d']> ds) j d')
    by (apply list_lookup_insert_eq; by eapply lookup_lt_Some).
  rewrite delete_of_insert. lia.
Qed.

Lemma func_ids_insert ds j d d' :
  ds !! j = Some d -> func_id d' = func_id d ->
  func_id <$> <[j := d']> ds = func_id <$> ds.
Proof.
  intros H Hf. rewrite list_fmap_insert, Hf. apply list_insert_id.
  by rewrite list_lookup_fmap, H.
Qed.
End owners_positions.

Lemma NoDup_delete {A} (l : list A) i : NoDup l -> NoDup (delete i l).
Proof.
  revert i; induction l as [|x l IH]; intros [|i]; simpl; try done; intros Hl;
    apply NoDup_cons in Hl as [Hx Hl]; [done|].
  apply NoDup_cons. split; [|by apply IH]. intros Hin. apply Hx.
  by apply (elem_of_sublist (delete i l)); [|apply sublist_delete].
Qed.

(** ** Changing a function of a board *)

Section master_steps.
Context (m : qdma_resource_master) (j : nat) (d : qdma_dev_entry).
Context (Hm : master_wf m) (Hj : dev_list m !! j = Some d).

Lemma master_disjoint : disjoint (free_list m) d.
Proof.
  intros q Hq. pose proof (wf_owners m Hm q) as H. unfold owners_of in H.
  rewrite (owners_devs_delete _ _ _ _ Hj), Hq in H. simpl in H. lia.
Qed.

Lemma master_dev_ok : dev_ok (master_lo m) (master_hi m) (entry d).
Proof. exact (Forall_lookup_1 _ _ _ _ (wf_devs m Hm) Hj). Qed.

Lemma master_counts_ok : counts_ok d.
Proof. exact (Forall_lookup_1 _ _ _ _ (wf_counts m Hm) Hj). Qed.

(** The function changes its range and the free list follows. *)
Lemma master_update mem d' fl' :
  step_ok (master_lo m) (master_hi m) mem d (free_list m) d' fl' ->
  func_id d' = func_id d -> counts_ok d' ->
  let m' := set_lists (<[j := d']> (dev_list m)) fl' m in
  master_wf m' /\ (mem -> conserved m -> conserved m').
Proof.
  intros (Hfl & Hd & Hle & Heq) Hf Hc m'. destruct Hm as [B F D C I O].
  assert (forall q, owners_of m' q + joint (free_list m) d q =
                    owners_of m q + joint fl' d' q)%nat as Ho.
  { intros q. unfold owners_of, joint; simpl.
    pose proof (owners_devs_insert _ _ _ d' q Hj). lia. }
  split; [split; simpl; try done|].
  - by apply Forall_insert.
  - by apply Forall_insert.
  - by erewrite func_ids_insert.
  - intros q. specialize (O q). specialize (Ho q). specialize (Hle q). lia.
  - intros Hmem Hcons q Hq. specialize (Hcons q Hq). specialize (Ho q).
    specialize (Heq Hmem q). lia.
Qed.

(** The function leaves the board and the free list follows. *)
Lemma master_remove (mem : Prop) d' fl' :
  step_ok (master_lo m) (master_hi m) mem d (free_list m) d' fl' ->
  (mem -> total_q (entry d') = 0) ->
  let m' := set_lists (delete j (dev_list m)) fl' m in
  master_wf m' /\ (mem -> conserved m -> conserved m').
Proof.
  intros (Hfl & Hd & Hle & Heq) Hz m'. destruct Hm as [B F D C I O].
  assert (forall q, owners_of m' q + joint (free_list m) d q + Nat.b2n (covers q (entry d')) =
                    owners_of m q + joint fl' d' q)%nat as Ho.
  { intros q. unfold owners_of, joint; simpl.
    pose proof (owners_devs_delete _ _ _ q Hj). lia. }
  split; [split; simpl; try done|].
  - by apply Forall_delete.
  - by apply Forall_delete.
  - rewrite list_fmap_delete. by apply NoDup_delete.
  - intros q. specialize (O q). specialize (Ho q). specialize (Hle q). lia.
  - intros Hmem Hcons q Hq. specialize (Hcons q Hq). specialize (Ho q).
    specialize (Heq Hmem q). rewrite (covers_empty q (entry d')) in Ho by auto. simpl in Ho. lia.
Qed.
End master_steps.

(** The system invariant; [mem] says that memory has not run out. *)
Definition rm_inv (mem : Prop) (st : rm_state) : Prop :=
  Forall master_wf (master_resource_list st) /\
  (mem -> allocs_ok (allocs st) /\ Forall conserved (master_resource_list st)).

Section inv_steps.
Context (mem : Prop).
Implicit Types (st : rm_state) (m : qdma_resource_master).

(** Replacing one board. *)
Lemma rm_inv_upd st i m f al :
  rm_inv mem st -> master_resource_list st !! i = Some m ->
  (mem -> allocs_ok al) -> master_wf (f m) -> (mem -> conserved m -> conserved (f m)) ->
  rm_inv mem (upd_master i f (set_allocs al st)).
Proof.
  intros [Hwf Hc] Hm Hal Hw Hc'. unfold upd_master, rm_inv; simpl.
  split; [|intros Hmem; split; [by auto|]]; apply Forall_alter; try done.
  - intros x Hx. rewrite Hm in Hx. by injection Hx as <-.
  - by apply Hc.
  - intros x Hx Hcx. rewrite Hm in Hx. injection Hx as <-. by apply Hc'.
Qed.

Lemma rm_inv_at st idx fid i j m d :
  rm_inv mem st -> dev_at idx fid st i j m d -> master_wf m /\ (mem -> conserved m).
Proof.
  intros [Hwf Hc] (_ & Hm & _). split; [exact (Forall_lookup_1 _ _ _ _ Hwf Hm)|].
  intros Hmem. destruct (Hc Hmem) as [_ Hcons]. exact (Forall_lookup_1 _ _ _ _ Hcons Hm).
Qed.

Lemma rm_inv_allocs st al : rm_inv mem st -> (mem -> allocs_ok al) -> rm_inv mem (set_allocs al st).
Proof. intros [? Hc] Hal. split; [done|]. intros Hmem. split; [by auto|by apply Hc]. Qed.

Lemma dev_update_inv st idx fid qmax base :
  rm_inv mem st -> 0 <= qmax < 4294967296 -> base + qmax < 4294967296 ->
  rm_inv mem (qdma_dev_update idx fid qmax base st).2.
Proof.
  intros Hinv Hq Hw. unfold qdma_dev_update. apply with_dev_elim; [done..|].
  intros i j m d Hat. case_if; [done|].
  destruct (qdma_request_q_resource _ _ _ _ _) as [[[rv d'] fl] al] eqn:E. simpl.
  destruct (rm_inv_at _ _ _ _ _ _ _ Hinv Hat) as [Hm Hcons].
  destruct Hat as (_ & Hi & Hj). destruct (wf_bounds m Hm) as [? ?].
  destruct (request_spec (master_lo m) (master_hi m) ltac:(lia) ltac:(lia) _ _ _ _ _ _ _ _ _ E
              (wf_free m Hm) (master_dev_ok m j d Hm Hj) (master_disjoint m j d Hm Hj) Hq Hw)
    as (Hstep & Hd' & _ & _ & Hal).
  assert (mem -> allocs_ok (allocs st)) as Hok by (intros Hmem; by apply Hinv).
  destruct (master_update m j d Hm Hj (allocs_ok (allocs st)) d' fl Hstep) as [Hw' Hc'].
  - by rewrite Hd'.
  - rewrite Hd'. destruct Hstep as (_ & (Ht & _) & _).
    repeat match goal with
    | H : negb _ = false |- _ => apply negb_false_iff in H
    | H : (_ || _)%bool = false |- _ => apply orb_false_iff in H as [? ?]
    end. zbool. unfold counts_ok; simpl. lia.
  - eapply rm_inv_upd; eauto. intros Hmem. by apply Hal, Hok.
Qed.

Lemma dev_destroy_inv st idx fid :
  rm_inv mem st -> rm_inv mem (qdma_dev_entry_destroy idx fid st).
Proof.
  intros Hinv. unfold qdma_dev_entry_destroy. apply with_dev_elim; [done..|].
  intros i j m d Hat. destruct (qdma_submit_to_free_list _ _ _) as [[d' fl] al] eqn:E.
  destruct (rm_inv_at _ _ _ _ _ _ _ Hinv Hat) as [Hm Hcons].
  destruct Hat as (_ & Hi & Hj). destruct (wf_bounds m Hm) as [? ?].
  destruct (submit_step (master_lo m) (master_hi m) ltac:(lia) ltac:(lia) _ _ _ _ _ _ E
              (wf_free m Hm) (master_dev_ok m j d Hm Hj) (master_disjoint m j d Hm Hj))
    as (Hstep & Hd' & Hal).
  assert (mem -> allocs_ok (allocs st)) as Hok by (intros Hmem; by apply Hinv).
  destruct (master_remove m j d Hm Hj mem d' fl) as [Hw' Hc'].
  - destruct Hstep as (? & ? & ? & ?). split_and!; auto.
  - intros Hmem. by apply Hal, Hok.
  - eapply rm_inv_upd; eauto. intros Hmem. by apply Hal, Hok.
Qed.

(** Changing only the counters of a function. *)
Lemma set_active_of_entry t n d : entry (set_active_of t n d) = entry d.
Proof. by destruct t. Qed.

Lemma set_active_wf n m : master_wf m -> master_wf (set_active n m).
Proof. by intros []. Qed.

Lemma count_update_inv st idx fid i j m d g n :
  rm_inv mem st -> dev_at idx fid st i j m d ->
  entry (g d) = entry d -> func_id (g d) = func_id d -> counts_ok (g d) ->
  rm_inv mem (upd_master i (fun m => set_active (n m) (upd_dev j g m)) st).
Proof.
  intros Hinv Hat He Hf Hc. destruct (rm_inv_at _ _ _ _ _ _ _ Hinv Hat) as [Hm _].
  destruct Hat as (_ & Hi & Hj).
  destruct (master_update m j d Hm Hj True (g d) (free_list m)) as [Hw' Hc']; [|done..|].
  { split_and!; [apply Hm|rewrite He; by apply (master_dev_ok m j)|..];
      intros; unfold joint; by rewrite He. }
  destruct st as [ms ix al].
  apply (rm_inv_upd (mk_rm ms ix al) i m _ al); [done|done|intros; by apply Hinv|..];
    unfold upd_dev; rewrite (alter_as_insert _ _ _ _ Hj).
  - by apply set_active_wf.
  - intros _ Hcons. exact (Hc' I Hcons).
Qed.

Lemma set_active_of_counts t n k d :
  counts_ok d -> active_of t d = Some k -> 0 <= n <= total_q (entry d) ->
  counts_ok (set_active_of t n d).
Proof. unfold counts_ok. destruct t; simpl; intros ? [= <-] ?; lia. Qed.

Lemma set_active_of_id t n d : func_id (set_active_of t n d) = func_id d.
Proof. by destruct t. Qed.

Lemma increment_inv st idx fid t :
  rm_inv mem st -> rm_inv mem (qdma_dev_increment_active_queue idx fid t st).2.
Proof.
  intros Hinv. unfold qdma_dev_increment_active_queue. apply with_dev_elim; [done..|].
  intros i j m d Hat. destruct (active_of t d) as [n|] eqn:En; [|done]. case_if; [done|]. simpl.
  destruct (rm_inv_at _ _ _ _ _ _ _ Hinv Hat) as [Hm _].
  eapply count_update_inv;
    [done|exact Hat|apply set_active_of_entry|apply set_active_of_id|].
  eapply set_active_of_counts; [|done|pose proof (u32_range (n + 1)); in_range].
  destruct Hat as (_ & _ & Hj). by eapply master_counts_ok.
Qed.

Lemma decrement_inv st idx fid t :
  rm_inv mem st -> rm_inv mem (qdma_dev_decrement_active_queue idx fid t st).2.
Proof.
  intros Hinv. unfold qdma_dev_decrement_active_queue. apply with_dev_elim; [done..|].
  intros i j m d Hat. destruct (rm_inv_at _ _ _ _ _ _ _ Hinv Hat) as [Hm Hcons].
  destruct (active_of t d) as [n|] eqn:En; simpl.
  - apply (count_update_inv st idx fid i j m d (set_active_of t (if n =? 0 then n else n - 1))
             (fun m => u32 (active_qcnt m - 1)));
      [done|done|apply set_active_of_entry|apply set_active_of_id|].
    destruct Hat as (_ & _ & Hj). pose proof (master_counts_ok m j d Hm Hj) as Hc.
    eapply set_active_of_counts; [done|done|].
    unfold counts_ok in Hc. destruct t; simplify_eq/=; case_if; lia.
  - destruct st as [ms ix al], Hat as (_ & Hi & _).
    apply (rm_inv_upd (mk_rm ms ix al) i m _ al); [done|done|by intros; apply Hinv| |done].
    by apply set_active_wf.
Qed.

Lemma new_dev_counts fid : counts_ok (new_dev_entry fid).
Proof. unfold counts_ok; simpl; lia. Qed.

Lemma dev_create_inv st idx fid :
  rm_inv mem st -> rm_inv mem (qdma_dev_entry_create idx fid st).2.
Proof.
  intros Hinv. unfold qdma_dev_entry_create.
  destruct (qdma_get_master_resource_entry idx st) as [i|] eqn:Ei; [|done].
  destruct (qdma_get_dev_entry idx fid st) as [p|] eqn:Ep; [done|].
  destruct (qdma_calloc (allocs st)) as [ok al] eqn:Ec.
  assert (mem -> allocs_ok al) as Hal
    by (intros Hmem; apply (calloc_ok _ _ _ Ec), Hinv, Hmem).
  destruct ok; simpl; [|by apply rm_inv_allocs].
  destruct (find_pos_Some _ _ _ Ei) as (m & Hi & _).
  pose proof (Forall_lookup_1 _ _ _ _ (proj1 Hinv) Hi) as Hm.
  assert (forall q, owners_of (set_lists (dev_list m ++ [new_dev_entry fid]) (free_list m) m) q
                    = owners_of m q) as Ho.
  { intros q. unfold owners_of; simpl. rewrite fmap_app, owners_app. simpl.
    rewrite owners_cons, (covers_empty q no_entry) by done. unfold owners; simpl. lia. }
  apply (rm_inv_upd st i m _ al Hinv Hi Hal).
  - destruct Hm as [B F D C I O]. split; try done; simpl.
    + apply Forall_app_2; [done|]. apply Forall_singleton, dev_ok_none.
    + apply Forall_app_2; [done|]. apply Forall_singleton, new_dev_counts.
    + rewrite fmap_app. apply NoDup_app. split_and!; [done| |apply NoDup_singleton].
      intros x Hx Hn%list_elem_of_singleton. simpl in Hn; subst x.
      apply list_elem_of_fmap in Hx as (d & -> & Hd).
      unfold qdma_get_dev_entry in Ep. rewrite Ei in Ep; simpl in Ep. rewrite Hi in Ep; simpl in Ep.
      destruct (find_pos _ _) eqn:Ef in Ep; [done|].
      pose proof (find_pos_None _ _ Ef d Hd) as H. simpl in H. by rewrite Z.eqb_refl in H.
    + intros q. rewrite Ho. apply O.
  - intros _ Hc q Hq. rewrite Ho. by apply Hc.
Qed.

Lemma new_master_wf idx bs be qb tot :
  0 <= qb -> 0 < tot -> qb + tot < 2147483648 ->
  let m := mk_master idx bs be tot qb [] [mk_entry qb tot] 0 in master_wf m /\ conserved m.
Proof.
  intros Hqb Ht Hs m. assert (forall q, owners_of m q = Nat.b2n (covers q (mk_entry qb tot))) as Ho.
  { intros q. unfold owners_of, m; simpl. rewrite owners_cons. unfold owners; simpl. lia. }
  split; [split; unfold master_lo, master_hi; simpl; unfold ends; simpl; try lia|].
  - constructor.
  - constructor.
  - constructor.
  - intros q. rewrite Ho. destruct (covers q _); simpl; lia.
  - intros q Hq. rewrite Ho. rewrite (proj2 (covers_true _ _)); [done|].
    unfold master_lo, master_hi, ends in *; simpl in *. lia.
Qed.

Lemma master_create_inv st bs be qb tot :
  rm_inv mem st -> 0 <= qb -> 0 < tot -> qb + tot < 2147483648 ->
  rm_inv mem (qdma_master_resource_create bs be qb tot st).2.
Proof.
  intros Hinv Hqb Ht Hs. unfold qdma_master_resource_create.
  destruct (_ ≫= _); [done|].
  destruct (qdma_calloc (allocs st)) as [ok al] eqn:Ec.
  assert (mem -> allocs_ok al) as Hal
    by (intros Hmem; apply (calloc_ok _ _ _ Ec), Hinv, Hmem).
  destruct ok; simpl; [|by apply rm_inv_allocs].
  destruct (qdma_calloc al) as [ok al1] eqn:Ec1.
  assert (mem -> allocs_ok al1) as Hal1
    by (intros Hmem; apply (calloc_ok _ _ _ Ec1), Hal, Hmem).
  destruct ok; simpl; [|by apply rm_inv_allocs].
  destruct (new_master_wf (u32 (rm_index st)) bs be qb tot) as [Hw Hc]; [done..|].
  split; simpl; [apply Forall_app_2; [apply Hinv|by apply Forall_singleton]|].
  intros Hmem. split; [by apply Hal1|].
  apply Forall_app_2; [by apply Hinv|by apply Forall_singleton].
Qed.

Lemma master_destroy_inv st idx :
  rm_inv mem st -> rm_inv mem (qdma_master_resource_destroy idx st).
Proof.
  intros Hinv. unfold qdma_master_resource_destroy.
  destruct (qdma_get_master_resource_entry idx st) as [i|]; [|done].
  destruct (master_resource_list st !! i) as [m|]; [|done].
  destruct (dev_list m); [|done]. destruct Hinv as [Hw Hc].
  split; simpl; [by apply Forall_delete|].
  intros Hmem. split; [by apply Hc|]. by apply Forall_delete, Hc.
Qed.
End inv_steps.

(** ** Sequences of calls *)

Inductive rm_call :=
| CreateMaster (bus_start bus_end q_base total : Z)
| DestroyMaster (dma_index : Z)
| CreateDev (dma_index fid : Z)
| DestroyDev (dma_index fid : Z)
| UpdateDev (dma_index fid qmax base : Z)
| IncrementActive (dma_index fid : Z) (t : qdma_dev_q_type)
| DecrementActive (dma_index fid : Z) (t : qdma_dev_q_type).

Definition rm_exec (c : rm_call) (st : rm_state) : rm_state :=
  match c with
  | CreateMaster bs be qb tot => (qdma_master_resource_create bs be qb tot st).2
  | DestroyMaster idx => qdma_master_resource_destroy idx st
  | CreateDev idx fid => (qdma_dev_entry_create idx fid st).2
  | DestroyDev idx fid => qdma_dev_entry_destroy idx fid st
  | UpdateDev idx fid qmax base => (qdma_dev_update idx fid qmax base st).2
  | IncrementActive idx fid t => (qdma_dev_increment_active_queue idx fid t st).2
  | DecrementActive idx fid t => (qdma_dev_decrement_active_queue idx fid t st).2
  end.

(** Arguments without wrap-around: a board has queue numbers that fit an [int],
    and the end of a requested range fits [uint32_t]. *)
Definition call_ok (c : rm_call) : Prop :=
  match c with
  | CreateMaster _ _ qb tot => 0 <= qb /\ 0 < tot /\ qb + tot < 2147483648
  | UpdateDev _ _ qmax base => 0 <= qmax < 4294967296 /\ base + qmax < 4294967296
  | _ => True
  end.

Inductive rm_step : rm_state -> rm_state -> Prop :=
| rm_step_call c st : call_ok c -> rm_step st (rm_exec c st).

(** Reachable from the initial state, memory giving the verdicts [al]. *)
Definition rm_reachable (al : list bool) : rm_state -> Prop :=
  star rm_step (set_allocs al rm_init).

Lemma rm_exec_inv mem c st : call_ok c -> rm_inv mem st -> rm_inv mem (rm_exec c st).
Proof.
  destruct c; simpl; intros Hc Hinv.
  - apply master_create_inv; tauto.
  - by apply master_destroy_inv.
  - by apply dev_create_inv.
  - by apply dev_destroy_inv.
  - apply dev_update_inv; tauto.
  - by apply increment_inv.
  - by apply decrement_inv.
Qed.

Lemma reachable_inv al st : rm_reachable al st -> rm_inv (allocs_ok al) st.
Proof.
  intros Hr. refine (star_invariant rm_step (rm_inv (allocs_ok al)) _ _ _ Hr _).
  - intros s s' Hs Hstep. destruct Hstep. by apply rm_exec_inv.
  - by split.
Qed.
