(* ===== verification/ResourceProps.v ===== *)
(** * ResourceProps: what the resource manager guarantees

    The theorems about the entry points of ResourceMgmt, in reachable states:
    isolation of the functions, conservation of the queues, the outcome and the
    completeness of a resize, its frame, and the counters of active queues. *)

From S2P Require Import Prelude QdmaErrors ResourceMgmt ResourceInv ResourceSys.
Local Open Scope Z_scope.

(** ** De-fragmented lists *)

(** No two ranges of the list touch, and the first one starts after [lim]. *)
Fixpoint spaced (lim : Z) (l : list qdma_resource_entry) : Prop :=
  match l with
  | [] => True
  | e :: l' => lim < qbase e /\ spaced (ends e) l'
  end.

Section spaced.
Implicit Types (l fl : list qdma_resource_entry) (lo hi lim q b n : Z).

Lemma defrag_from_spaced s l lo hi lim :
  0 <= lo -> hi < 2147483648 -> free_ok lo (s :: l) hi -> lim < qbase s ->
  spaced lim (defrag_from s l).
Proof.
  revert s lo lim. induction l as [|n l IH]; intros s lo lim Hlo Hhi Hl Hlim; [done|].
  destruct Hl as (Hs & Hts & Hn & Htn & Hl). pose proof (free_ok_le _ _ _ Hl).
  simpl. unfold ends in *. case_if;
    rewrite (u32_small (qbase s + _)), (u32_small (qbase n)) in E by in_range.
  - rewrite (u32_small (total_q s + _)) by in_range.
    apply (IH (mk_entry (qbase s) (total_q s + total_q n)) lo); [done..| |done].
    simpl. unfold ends; simpl. split_and!; try lia. apply (free_ok_weaken _ _ _ _ Hl). lia.
  - split; [done|]. apply (IH n (qbase s + total_q s)); [lia|done|by split_and!|].
    unfold ends. lia.
Qed.

Lemma spaced_owned l lim lo hi q :
  free_ok lo l hi -> spaced lim l -> (0 < owners l q)%nat -> lim < q.
Proof.
  revert lim lo. induction l as [|e l IH]; intros lim lo; [unfold owners; simpl; lia|].
  intros (Hlo & Ht & Hl) (Hlim & Hs) Ho. rewrite owners_cons in Ho.
  destruct (covers q e) eqn:E; [apply covers_true in E; lia|].
  specialize (IH _ _ Hl Hs Ho). unfold ends in *. lia.
Qed.

(** In a de-fragmented list a run of free queues lies in one node. *)
Lemma run_offered l lim lo hi n b :
  free_ok lo l hi -> spaced lim l -> 0 < n ->
  (forall q, b <= q < b + n -> (0 < owners l q)%nat) -> offered n b l.
Proof.
  revert lim lo. induction l as [|e l IH]; intros lim lo Hl Hs Hn Hrun.
  { specialize (Hrun b ltac:(lia)). unfold owners in Hrun. simpl in Hrun. lia. }
  destruct Hl as (Hlo & Ht & Hl), Hs as (Hlim & Hs).
  destruct (covers b e) eqn:E.
  - apply covers_true in E. exists e. split; [by left|].
    destruct (Z.le_gt_cases (b + n) (ends e)) as [|Hgt]; [lia|exfalso].
    specialize (Hrun (ends e) ltac:(lia)). rewrite owners_cons in Hrun.
    replace (covers (ends e) e) with false in Hrun by
      (symmetry; apply not_true_iff_false; rewrite covers_true; lia).
    pose proof (spaced_owned _ _ _ _ _ Hl Hs Hrun). lia.
  - assert (forall q, b <= q < b + n -> (0 < owners l q)%nat) as Hrun'.
    { pose proof (Hrun b ltac:(lia)) as Hb. rewrite owners_cons, E in Hb.
      pose proof (spaced_owned _ _ _ _ _ Hl Hs Hb).
      intros q Hq. specialize (Hrun q Hq). rewrite owners_cons in Hrun.
      replace (covers q e) with false in Hrun; [done|].
      symmetry. apply not_true_iff_false. rewrite covers_true. lia. }
    destruct (IH _ _ Hl Hs Hn Hrun') as (x & Hx & ?). exists x. split; [by right|done].
Qed.

Lemma submit_spaced d fl al d' fl' al' lo hi :
  qdma_submit_to_free_list d fl al = (d', fl', al') -> allocs_ok al ->
  0 <= lo -> hi < 2147483648 ->
  free_ok lo fl hi -> dev_ok lo hi (entry d) -> disjoint fl d -> 0 < total_q (entry d) ->
  spaced (-1) fl'.
Proof.
  unfold qdma_submit_to_free_list, disjoint.
  intros H Hok Hlo Hhi Hfl (Ht & Hb & Hin) Hdis Hpos.
  rewrite (proj2 (Z.eqb_neq _ _)) in H by lia. specialize (Hin Hpos).
  destruct (qdma_free_entry_create _ _ al) as [r al1] eqn:Ec.
  apply free_entry_create_spec in Ec as [_ Hal]. destruct (Hal Hok) as [-> _].
  injection H as <- <- <-. destruct (entry d) as [b t]. unfold ends in *; simpl in *.
  destruct fl as [|n fl]; [simpl; lia|].
  assert (free_ok lo (insert_free (mk_entry b t) (n :: fl)) hi) as Hok1.
  { apply insert_free_ok; [done|exact Hfl|simpl; lia|simpl; lia| |exact Hdis].
    unfold ends; simpl. lia. }
  destruct (insert_free (mk_entry b t) (n :: fl)) as [|s l]; [done|].
  apply (defrag_from_spaced s l lo hi); [done..|]. destruct Hok1. lia.
Qed.
End spaced.

(** A run of [n] queues from [b] that are free or the function's own. *)
Definition available (fl : list qdma_resource_entry) (d : qdma_dev_entry) (b n : Z) : Prop :=
  forall q, b <= q < b + n -> (0 < joint fl d q)%nat.

Section complete.
Context (lo hi : Z) (Hlo : 0 <= lo) (Hhi : hi < 2147483648).

Lemma request_complete d nq nb fl al rv d' fl' al' :
  qdma_request_q_resource d nq nb fl al = (rv, d', fl', al') ->
  free_ok lo fl hi -> dev_ok lo hi (entry d) -> disjoint fl d ->
  0 < nq < 4294967296 -> nb + nq < 4294967296 -> allocs_ok al -> 0 < total_q (entry d) ->
  (rv = 0 <-> exists b, available fl d b nq) /\
  (0 <= nb -> available fl d nb nq -> qbase (entry d') = nb).
Proof.
  intros H Hfl Hd Hdis Hnq Hw Hok Hpos.
  destruct (request_spec lo hi Hlo Hhi _ _ _ _ _ _ _ _ _ H Hfl Hd Hdis) as
    ((_ & _ & _ & Heq) & _ & _ & _ & Hmem); [lia|lia|].
  destruct (Hmem Hok) as (_ & Hrv0 & _). specialize (Heq Hok). revert H.
  unfold qdma_request_q_resource.
  destruct (qdma_submit_to_free_list d fl al) as [[d1 fl1] al1] eqn:Es.
  pose proof (submit_step lo hi Hlo Hhi _ _ _ _ _ _ Es Hfl Hd Hdis) as
    ((Hfl1 & Hdev1 & _ & Ho) & _ & A1).
  pose proof (submit_spaced _ _ _ _ _ _ _ _ Es Hok Hlo Hhi Hfl Hd Hdis Hpos) as Hsp.
  rewrite (proj2 (Z.eqb_neq nq 0)) by lia.
  destruct (A1 Hok) as [Hok1 Ht1].
  assert (forall b, available fl d b nq -> offered nq b fl1) as Hoff.
  { intros b Hb. apply (run_offered _ _ _ _ _ _ Hfl1 Hsp); [lia|]. intros q Hq.
    specialize (Hb q Hq). rewrite <- (Ho I q) in Hb. unfold joint in Hb.
    rewrite covers_empty in Hb by done. simpl in Hb. lia. }
  destruct (qdma_get_resource_node nq nb fl1 al1) as [[r fl2] al2] eqn:Eg.
  pose proof (attempt_step lo hi Hlo Hhi True _ _ d1 _ _ _ _ _ Eg Hfl1 Hdev1
                ltac:(lia) Hw (fun _ => conj Hok1 Ht1)) as Hat.
  destruct r as [k|].
  - destruct Hat as (node & Hk & Ht & Hhon & _). rewrite Hk. intros [= <- <- <- <-].
    simpl in *. split; [split; [intros _|done]|by auto].
    exists (qbase node). intros q Hq. rewrite <- Heq. unfold joint; simpl.
    rewrite (proj2 (covers_true q node)) by (unfold ends; lia). simpl. lia.
  - destruct Hat as (_ & _ & Hnone). destruct (Hnone I) as (_ & _ & Hsmall & Hno).
    intros Hrest. assert (rv <> 0) as Hne.
    { destruct (qdma_get_resource_node _ _ fl2 al2) as [[[k|] fl3] al3];
        [destruct (fl3 !! k)|]; by injection Hrest as <- <- <- <-. }
    split; [split; [done|]|].
    + intros [b (n & Hn & ? & ?)%Hoff]. specialize (Hsmall n Hn). unfold ends in *. lia.
    + intros Hnb Hav%Hoff. by destruct Hno.
Qed.
End complete.

(** ** Looking functions up after a change *)

Section lookup_frame.
Implicit Types (st : rm_state) (m : qdma_resource_master) (d : qdma_dev_entry).

Lemma find_pos_fmap {A B} (f : A -> B) (p : B -> bool) l :
  find_pos (fun x => p (f x)) l = find_pos p (f <$> l).
Proof. induction l as [|x l IH]; simpl; [done|]. by rewrite IH. Qed.

Lemma get_master_upd st i f m al idx :
  master_resource_list st !! i = Some m -> dma_device_index (f m) = dma_device_index m ->
  qdma_get_master_resource_entry idx (upd_master i f (set_allocs al st)) =
  qdma_get_master_resource_entry idx st.
Proof.
  intros Hi Hx. unfold qdma_get_master_resource_entry; simpl.
  rewrite !(find_pos_fmap dma_device_index (fun x => x =? idx)).
  rewrite (alter_as_insert _ _ _ _ Hi), list_fmap_insert, Hx.
  by rewrite list_insert_id by by rewrite list_lookup_fmap, Hi.
Qed.

Lemma get_dev_upd st i f m al idx fid :
  master_resource_list st !! i = Some m -> dma_device_index (f m) = dma_device_index m ->
  func_id <$> dev_list (f m) = func_id <$> dev_list m ->
  qdma_get_dev_entry idx fid (upd_master i f (set_allocs al st)) = qdma_get_dev_entry idx fid st.
Proof.
  intros Hi Hx Hids. unfold qdma_get_dev_entry. rewrite (get_master_upd _ _ _ m) by done.
  destruct (qdma_get_master_resource_entry idx st) as [i'|]; [|done]. simpl.
  rewrite (alter_as_insert _ _ _ _ Hi).
  destruct (decide (i' = i)) as [->|].
  - rewrite list_lookup_insert_eq by (by eapply lookup_lt_Some). rewrite Hi. simpl.
    by rewrite !(find_pos_fmap func_id (fun x => x =? fid)), Hids.
  - by rewrite list_lookup_insert_ne by done.
Qed.

(** The function at a position after its board was changed there. *)
Lemma dev_at_upd st i j f m d d' al idx fid :
  dev_at idx fid st i j m d -> dma_device_index (f m) = dma_device_index m ->
  dev_list (f m) = <[j := d']> (dev_list m) -> func_id d' = func_id d ->
  dev_at idx fid (upd_master i f (set_allocs al st)) i j (f m) d'.
Proof.
  intros (Hg & Hi & Hj) Hx Hl Hf. split_and!; simpl.
  - rewrite (get_dev_upd _ _ _ m); [done..|]. by rewrite Hl, (func_ids_insert _ _ d).
  - rewrite (alter_as_insert _ _ _ _ Hi). apply list_lookup_insert_eq. by eapply lookup_lt_Some.
  - rewrite Hl. apply list_lookup_insert_eq. by eapply lookup_lt_Some.
Qed.

(** Every other function is where it was. *)
Lemma with_dev_frame {A} st i j f m d d' al idx fid idx' fid' (nm nd : A) g :
  dev_at idx fid st i j m d -> dma_device_index (f m) = dma_device_index m ->
  dev_list (f m) = <[j := d']> (dev_list m) -> func_id d' = func_id d ->
  (idx', fid') <> (idx, fid) ->
  with_dev idx' fid' (upd_master i f (set_allocs al st)) nm nd (fun _ _ _ d => g d) =
  with_dev idx' fid' st nm nd (fun _ _ _ d => g d).
Proof.
  intros Hat Hx Hl Hf Hne. pose proof (dev_at_ids _ _ _ _ _ _ _ Hat) as (Hidx & _ & Hfid).
  destruct Hat as (Hg & Hi & Hj). unfold with_dev.
  rewrite (get_master_upd _ _ _ m), (get_dev_upd _ _ _ m)
    by (try done; by rewrite Hl, (func_ids_insert _ _ d)).
  destruct (qdma_get_master_resource_entry idx' st) as [i0|] eqn:Ei; [|done].
  destruct (qdma_get_dev_entry idx' fid' st) as [[i' j']|] eqn:Ep; [|done].
  destruct (get_dev_entry_at _ _ _ _ _ Ep) as (m' & d1 & Hat').
  pose proof (dev_at_ids _ _ _ _ _ _ _ Hat') as (Hidx' & Hmi' & Hfid').
  destruct Hat' as (_ & Hi' & Hj'). simpl. rewrite (alter_as_insert _ _ _ _ Hi).
  destruct (decide (i' = i)) as [->|]; [|by rewrite list_lookup_insert_ne].
  rewrite list_lookup_insert_eq by (by eapply lookup_lt_Some).
  rewrite Hi in *. simplify_eq. rewrite Hl, list_lookup_insert_ne; [done|].
  intros ->. rewrite Hj in Hj'. simplify_eq. apply Hne. f_equal.
  apply find_pos_Some in Hidx as (mm & ? & E%Z.eqb_eq & _). congruence.
Qed.
End lookup_frame.

(** ** Properties of reachable states *)

Definition idle (d : qdma_dev_entry) : Prop :=
  active_h2c_qcnt d = 0 /\ active_c2h_qcnt d = 0 /\ active_cmpt_qcnt d = 0.

Lemma idle_test d :
  idle d <->
  (negb (active_h2c_qcnt d =? 0) || negb (active_c2h_qcnt d =? 0)
   || negb (active_cmpt_qcnt d =? 0))%bool = false.
Proof. unfold idle. rewrite !orb_false_iff, !negb_false_iff, !Z.eqb_eq. tauto. Qed.

Lemma reachable_at al st idx fid i j m d :
  rm_reachable al st -> dev_at idx fid st i j m d -> master_wf m /\ dev_list m !! j = Some d.
Proof.
  intros Hr Hat. destruct (rm_inv_at _ _ _ _ _ _ _ _ (reachable_inv _ _ Hr) Hat) as [? _].
  split; [done|apply Hat].
Qed.

(** In range means inside the function's range. *)
Lemma in_range_covers lo hi d q :
  0 <= lo -> hi < 2147483648 -> dev_ok lo hi (entry d) -> is_u32 q ->
  negb (total_q (entry d) =? 0) && (q <? u32 (qbase (entry d) + total_q (entry d)))
    && (i32 q >=? qbase (entry d)) = covers q (entry d).
Proof.
  intros Hlo Hhi (Ht & Hb & Hin) Hq. unfold covers, ends in *.
  destruct (Z.eqb_spec (total_q (entry d)) 0) as [->|]; simpl.
  { symmetry. apply not_true_iff_false. rewrite andb_true_iff, Z.leb_le, Z.ltb_lt. lia. }
  specialize (Hin ltac:(lia)). rewrite u32_small by in_range.
  destruct (Z.ltb_spec q (qbase (entry d) + total_q (entry d))); simpl; [|by rewrite andb_false_r].
  rewrite i32_small by in_range. rewrite Z.geb_leb, andb_true_r. done.
Qed.

Lemma wf_lo m : master_wf m -> 0 <= master_lo m.
Proof. intros []. lia. Qed.
Lemma wf_hi m : master_wf m -> master_hi m < 2147483648.
Proof. intros []. lia. Qed.

Lemma is_in_range_at al st idx fid q :
  rm_reachable al st -> is_u32 q ->
  qdma_dev_is_queue_in_range idx fid q st = QDMA_DEV_Q_IN_RANGE ->
  exists i j m d, dev_at idx fid st i j m d /\ covers q (entry d) = true.
Proof.
  intros Hr Hq. unfold qdma_dev_is_queue_in_range. apply with_dev_elim; [done..|].
  intros i j m d Hat. destruct (reachable_at _ _ _ _ _ _ _ _ Hr Hat) as [Hm Hj]. cbv zeta.
  rewrite (in_range_covers _ _ _ _ (wf_lo m Hm) (wf_hi m Hm) (master_dev_ok m j d Hm Hj) Hq).
  destruct (covers q (entry d)) eqn:E; [|done]. intros _. eauto 10.
Qed.

(** Two positions of a board that own the same queue are the same. *)
Lemma owner_unique m j j' d d' q :
  master_wf m -> dev_list m !! j = Some d -> dev_list m !! j' = Some d' ->
  covers q (entry d) = true -> covers q (entry d') = true -> j = j'.
Proof.
  intros Hm Hj Hj' Hc Hc'. destruct (decide (j = j')) as [|Hne]; [done|exfalso].
  pose proof (wf_owners m Hm q) as H. unfold owners_of in H.
  rewrite (owners_devs_delete _ _ _ _ Hj), Hc in H. simpl in H.
  assert (0 < owners (entry <$> delete j (dev_list m)) q)%nat; [|lia].
  apply (owners_elem (entry d')); [|done]. apply list_elem_of_fmap. exists d'. split; [done|].
  destruct (Nat.lt_total j' j) as [Hlt|[->|Hlt]]; [|done|].
  - apply (list_elem_of_lookup_2 _ j'). by rewrite list_lookup_delete_lt.
  - apply (list_elem_of_lookup_2 _ (pred j')). rewrite list_lookup_delete_ge by lia.
    by replace (S (pred j')) with j' by lia.
Qed.

(** A queue in range for a function is out of range for the others. *)
Lemma in_range_exclusive al st idx fid q :
  rm_reachable al st -> is_u32 q ->
  qdma_dev_is_queue_in_range idx fid q st = QDMA_DEV_Q_IN_RANGE ->
  forall fid', fid' <> fid ->
    qdma_dev_is_queue_in_range idx fid' q st = QDMA_DEV_Q_OUT_OF_RANGE.
Proof.
  intros Hr Hq Hin fid' Hne.
  destruct (qdma_dev_is_queue_in_range idx fid' q st) eqn:Hin'; [exfalso|done].
  destruct (is_in_range_at _ _ _ _ _ Hr Hq Hin) as (i & j & m & d & Hat & Hc).
  destruct (is_in_range_at _ _ _ _ _ Hr Hq Hin') as (i' & j' & m' & d' & Hat' & Hc').
  destruct (reachable_at _ _ _ _ _ _ _ _ Hr Hat) as [Hm Hj].
  destruct (reachable_at _ _ _ _ _ _ _ _ Hr Hat') as [Hm' Hj'].
  destruct (dev_at_ids _ _ _ _ _ _ _ Hat) as (Hi & _ & Hf).
  destruct (dev_at_ids _ _ _ _ _ _ _ Hat') as (Hi' & _ & Hf').
  destruct Hat as (_ & Hmi & _), Hat' as (_ & Hmi' & _). simplify_eq.
  pose proof (owner_unique m j j' d d' q Hm Hj Hj' Hc Hc') as <-. simplify_eq.
Qed.

(** C1. Isolation: in every state that calls without wrap-around can reach ([call_ok]: requests for queues
    whose base and number add up to less than 2^32, boards whose queues are numbered by an [int]), even one
    where memory ran out, no hardware queue of a board is in range for two functions.  Without the condition
    this is false: see [request_end_wraps]. *)
Theorem queue_isolation al st idx fid fid' q :
  rm_reachable al st -> is_u32 q -> fid <> fid' ->
  qdma_dev_is_queue_in_range idx fid q st = QDMA_DEV_Q_IN_RANGE ->
  qdma_dev_is_queue_in_range idx fid' q st = QDMA_DEV_Q_OUT_OF_RANGE.
Proof. intros Hr Hq Hne Hin. by eapply in_range_exclusive. Qed.

(** C3. Conservation: as long as memory lasts, every hardware queue of every board is held by exactly one
    function or by the free list, whatever the sequence of calls without wrap-around ([call_ok]: requests
    for queues whose base and number add up to less than 2^32, boards whose queues are numbered by an [int];
    see [request_end_wraps]); and the board's bookkeeping is well-formed. *)
Theorem queues_conserved al st :
  rm_reachable al st -> allocs_ok al ->
  Forall master_wf (master_resource_list st) /\ Forall conserved (master_resource_list st).
Proof. intros [Hw Hc]%reachable_inv Hok. split; [done|]. by apply Hc. Qed.

Section update_cases.
Context (al : list bool) (st : rm_state) (idx fid : Z) (i j : nat).
Context (m : qdma_resource_master) (d : qdma_dev_entry) (qmax base rv b : Z) (st' : rm_state).
Context (Hr : rm_reachable al st) (Hal : allocs_ok al) (Hat : dev_at idx fid st i j m d).
Context (Hq : 0 <= qmax < 4294967296) (Hw : base + qmax < 4294967296).
Context (E : qdma_dev_update idx fid qmax base st = (rv, b, st')).

Lemma dev_update_busy :
  ~ idle d -> rv = neg QDMA_ERR_RM_QMAX_CONF_REJECTED /\ b = base /\ st' = st.
Proof.
  revert E. unfold qdma_dev_update. rewrite (with_dev_at _ _ _ _ _ _ _ _ _ _ Hat).
  destruct (_ || _)%bool eqn:Eb; [by intros [= <- <- <-]|].
  intros _ Hi. by apply idle_test in Eb.
Qed.

Lemma dev_update_idle :
  idle d ->
  -1 <= b < 2147483648 /\
  (rv = 0 /\ qdma_dev_qinfo_get idx fid st' = (0, Some (b, qmax)) \/
   rv = neg QDMA_ERR_RM_NO_QUEUES_LEFT /\
   qdma_dev_qinfo_get idx fid st' = (0, Some (b, total_q (entry d))) /\
   (0 < total_q (entry d) -> b = qbase (entry d))).
Proof.
  intros Hi%idle_test. revert E. destruct (reachable_at _ _ _ _ _ _ _ _ Hr Hat) as [Hm Hj].
  unfold qdma_dev_update. rewrite (with_dev_at _ _ _ _ _ _ _ _ _ _ Hat), Hi.
  destruct (qdma_request_q_resource _ _ _ _ _) as [[[rv' d'] fl] al'] eqn:Eq. intros [= -> <- <-].
  destruct (request_spec _ _ (wf_lo m Hm) (wf_hi m Hm) _ _ _ _ _ _ _ _ _ Eq (wf_free m Hm)
              (master_dev_ok m j d Hm Hj) (master_disjoint m j d Hm Hj) Hq Hw)
    as (Hs & Hd' & _ & Hrv & Hmem).
  destruct Hmem as (_ & H0 & H1 & H2); [by apply (reachable_inv _ _ Hr)|].
  split; [by destruct Hs as (_ & (_ & ? & _) & _)|].
  assert (dev_at idx fid (upd_master i (fun m => set_lists (<[j := d']> (dev_list m)) fl m)
                            (set_allocs al' st)) i j
            (set_lists (<[j := d']> (dev_list m)) fl m) d') as Hat'.
  { apply (dev_at_upd _ _ _ (fun m => set_lists (<[j := d']> (dev_list m)) fl m) m d); try done.
    by rewrite Hd'. }
  unfold qdma_dev_qinfo_get. rewrite (with_dev_at _ _ _ _ _ _ _ _ _ _ Hat').
  destruct Hrv as [-> | ->]; [left|right].
  - by rewrite H0.
  - rewrite H1 by done. split_and!; [done|done|]. intros Hp. by rewrite H2.
Qed.
End update_cases.

(** Outcome of a resize by a function with no active queue: it succeeds and
    the function holds exactly the requested number of queues from the base
    reported back, or there are no queues left and the function keeps the
    range it had; a function with active queues is refused and nothing
    changes. *)
Theorem dev_update_outcome al st idx fid i j m d qmax base rv b st' :
  rm_reachable al st -> allocs_ok al -> dev_at idx fid st i j m d ->
  0 <= qmax < 4294967296 -> base + qmax < 4294967296 ->
  qdma_dev_update idx fid qmax base st = (rv, b, st') ->
  (~ idle d -> rv = neg QDMA_ERR_RM_QMAX_CONF_REJECTED /\ b = base /\ st' = st) /\
  (idle d ->
     rv = 0 /\ qdma_dev_qinfo_get idx fid st' = (0, Some (b, qmax)) \/
     rv = neg QDMA_ERR_RM_NO_QUEUES_LEFT /\
     qdma_dev_qinfo_get idx fid st' = (0, Some (b, total_q (entry d))) /\
     (0 < total_q (entry d) -> b = qbase (entry d))).
Proof.
  intros Hr Hal Hat Hq Hw E. split; [by eapply dev_update_busy|].
  intros Hi. by eapply dev_update_idle.
Qed.

(** C11. Completeness of a resize: a function that holds queues and has none active, asking for at least one
    queue, while memory lasts and with base and number that add up to less than 2^32, gets [qmax] queues
    exactly when some run of [qmax] consecutive queues is free or its own; and when the requested base
    starts such a run, it gets exactly that run.  So neither fragmentation of the free list nor the
    function's own queues stand in the way. *)
Theorem dev_update_complete al st idx fid i j m d qmax base rv b st' :
  rm_reachable al st -> allocs_ok al -> dev_at idx fid st i j m d -> idle d ->
  0 < total_q (entry d) -> 0 < qmax < 4294967296 -> base + qmax < 4294967296 ->
  qdma_dev_update idx fid qmax base st = (rv, b, st') ->
  (rv = 0 <-> exists b0, available (free_list m) d b0 qmax) /\
  (0 <= base -> available (free_list m) d base qmax -> rv = 0 /\ b = base).
Proof.
  intros Hr Hal Hat Hidle Hpos Hq Hw. destruct (reachable_at _ _ _ _ _ _ _ _ Hr Hat) as [Hm Hj].
  unfold qdma_dev_update. rewrite (with_dev_at _ _ _ _ _ _ _ _ _ _ Hat).
  rewrite (proj1 (idle_test d) Hidle).
  destruct (qdma_request_q_resource _ _ _ _ _) as [[[rv' d'] fl] al'] eqn:E.
  intros [= <- <- <-].
  destruct (request_complete _ _ (wf_lo m Hm) (wf_hi m Hm) _ _ _ _ _ _ _ _ _ E (wf_free m Hm)
              (master_dev_ok m j d Hm Hj) (master_disjoint m j d Hm Hj) Hq Hw) as [H1 H2];
    [by apply (reachable_inv _ _ Hr)|done|].
  split; [done|]. intros Hb Hav. split; [|by apply H2]. apply H1. by exists base.
Qed.

(** Removing a function gives its queues back: afterwards the board does not
    know the function, and every queue it held is in the free list. *)
Theorem dev_destroy_returns_queues al st idx fid i j m d q :
  rm_reachable al st -> allocs_ok al -> dev_at idx fid st i j m d ->
  covers q (entry d) = true ->
  let st' := qdma_dev_entry_destroy idx fid st in
  qdma_dev_qinfo_get idx fid st' = (neg QDMA_ERR_RM_DEV_NOT_EXISTS, None) /\
  exists m', master_resource_list st' !! i = Some m' /\ owners (free_list m') q = 1%nat.
Proof.
  intros Hr Hal Hat Hc st'. destruct (reachable_at _ _ _ _ _ _ _ _ Hr Hat) as [Hm Hj].
  pose proof (dev_at_ids _ _ _ _ _ _ _ Hat) as (Hidx & Hmi & Hf).
  subst st'. unfold qdma_dev_entry_destroy. rewrite (with_dev_at _ _ _ _ _ _ _ _ _ _ Hat).
  destruct (qdma_submit_to_free_list _ _ _) as [[d' fl] al'] eqn:E.
  destruct (submit_step _ _ (wf_lo m Hm) (wf_hi m Hm) _ _ _ _ _ _ E (wf_free m Hm)
              (master_dev_ok m j d Hm Hj) (master_disjoint m j d Hm Hj))
    as ((_ & _ & _ & Heq) & _ & Hmem).
  destruct Hmem as [_ Ht]; [by apply (reachable_inv _ _ Hr)|].
  destruct Hat as (_ & Hi & _). split.
  - unfold qdma_dev_qinfo_get, with_dev, qdma_get_dev_entry.
    rewrite (get_master_upd _ _ _ m) by done. rewrite Hidx. simpl.
    rewrite (alter_as_insert _ _ _ _ Hi), list_lookup_insert_eq by (by eapply lookup_lt_Some).
    simpl. destruct (find_pos _ _) as [k|] eqn:Ek; [exfalso|done].
    apply find_pos_Some in Ek as (d2 & Hd2 & Hf2%Z.eqb_eq & _).
    pose proof (wf_ids m Hm) as Hn.
    rewrite (delete_Permutation _ _ _ Hj) in Hn. simpl in Hn. apply NoDup_cons in Hn as [Hn _].
    apply Hn. rewrite Hf, <- Hf2. apply list_elem_of_fmap. exists d2. split; [done|].
    by eapply list_elem_of_lookup_2.
  - simpl. rewrite (alter_as_insert _ _ _ _ Hi), list_lookup_insert_eq by (by eapply lookup_lt_Some).
    eexists. split; [done|]. simpl. specialize (Heq I q). unfold joint in Heq.
    rewrite (covers_empty q (entry d')), Hc in Heq by done. simpl in Heq.
    rewrite (master_disjoint m j d Hm Hj q Hc) in Heq. lia.
Qed.

(** The counter of active queues of a function never passes the number of
    queues it holds: an increment is granted below that bound, and refused at
    it with the state unchanged. *)
Theorem increment_guarded al st idx fid i j m d t n rv st' :
  rm_reachable al st -> dev_at idx fid st i j m d -> active_of t d = Some n ->
  qdma_dev_increment_active_queue idx fid t st = (rv, st') ->
  n <= total_q (entry d) /\
  (n < total_q (entry d) ->
     rv = 0 /\ qdma_get_device_active_queue_count idx fid t st' = n + 1) /\
  (total_q (entry d) <= n -> rv = neg QDMA_ERR_RM_NO_QUEUES_LEFT /\ st' = st).
Proof.
  intros Hr Hat Hn. destruct (reachable_at _ _ _ _ _ _ _ _ Hr Hat) as [Hm Hj].
  pose proof (master_counts_ok m j d Hm Hj) as Hc.
  pose proof (master_dev_ok m j d Hm Hj) as (Ht & Hb & Hin).
  pose proof (wf_lo m Hm). pose proof (wf_hi m Hm).
  assert (0 <= n <= total_q (entry d) /\ total_q (entry d) < 2147483648) as [Hn0 Ht'].
  { split; [unfold counts_ok in Hc; destruct t; simplify_eq/=; lia|].
    destruct (Z.ltb_spec 0 (total_q (entry d))); [specialize (Hin ltac:(done)); unfold ends in *|]; lia. }
  unfold qdma_dev_increment_active_queue.
  rewrite (with_dev_at _ _ _ _ _ _ _ _ _ _ Hat), Hn.
  rewrite (u32_small (n + 1)) by in_range.
  destruct (Z.ltb_spec (total_q (entry d)) (n + 1)); intros [= <- <-];
    (split; [lia|split; [intros Hlt|intros Hge]]); try lia; [done|].
  split; [done|]. destruct st as [ms ix al0].
  pose proof (dev_at_upd _ _ _ (fun m => set_active (u32 (active_qcnt m + 1))
                (upd_dev j (set_active_of t (n + 1)) m)) _ _ (set_active_of t (n + 1) d) al0 _ _ Hat)
    as Hat'.
  unfold qdma_get_device_active_queue_count.
  erewrite with_dev_at; [|apply Hat'; try done].
  - destruct t; simplify_eq/=; by rewrite i32_small by in_range.
  - simpl. by apply alter_as_insert.
  - apply set_active_of_id.
Qed.

(** Decrementing an active-queue counter that is already zero succeeds and
    leaves the function's counter at zero, but the counter of the board is
    decremented all the same, so that it wraps around below zero. *)
Theorem decrement_at_zero idx fid st i j m d t :
  dev_at idx fid st i j m d -> active_of t d = Some 0 ->
  let '(rv, st') := qdma_dev_decrement_active_queue idx fid t st in
  rv = 0 /\ qdma_get_device_active_queue_count idx fid t st' = 0 /\
  qdma_get_active_queue_count idx st' = u32 (qdma_get_active_queue_count idx st - 1) /\
  (qdma_get_active_queue_count idx st = 0 ->
   qdma_get_active_queue_count idx st' = 4294967295).
Proof.
  intros Hat Hn. unfold qdma_dev_decrement_active_queue.
  rewrite (with_dev_at _ _ _ _ _ _ _ _ _ _ Hat), Hn. simpl. destruct st as [ms ix al].
  pose proof (dev_at_upd _ _ _ (fun m => set_active (u32 (active_qcnt m - 1))
                (upd_dev j (set_active_of t 0) m)) _ _ (set_active_of t 0 d) al _ _ Hat)
    as Hat'.
  specialize (Hat' eq_refl (alter_as_insert _ _ _ _ (proj2 (proj2 Hat))) (set_active_of_id _ _ _)).
  assert (forall st i j m d, dev_at idx fid st i j m d ->
            qdma_get_active_queue_count idx st = active_qcnt m) as Hcount.
  { intros st0 i0 j0 m0 d0 Hat0. pose proof (dev_at_ids _ _ _ _ _ _ _ Hat0) as (Hi & _).
    unfold qdma_get_active_queue_count. rewrite Hi. simpl. by rewrite (proj1 (proj2 Hat0)). }
  change (upd_master i (fun m => set_active (u32 (active_qcnt m - 1))
            (upd_dev j (set_active_of t 0) m)) (mk_rm ms ix al))
    with (upd_master i (fun m => set_active (u32 (active_qcnt m - 1))
            (upd_dev j (set_active_of t 0) m)) (set_allocs al (mk_rm ms ix al))).
  rewrite (Hcount _ _ _ _ _ Hat').
  split; [done|]. split_and!.
  - unfold qdma_get_device_active_queue_count. rewrite (with_dev_at _ _ _ _ _ _ _ _ _ _ Hat').
    by destruct t; simplify_eq/=.
  - by rewrite (Hcount _ _ _ _ _ Hat).
  - rewrite (Hcount _ _ _ _ _ Hat). simpl. by intros ->.
Qed.

(** Best fit: a request without a preferred base is cut from the start of a
    smallest free range that is large enough; the rest of the free list stays
    sorted and disjoint and exactly the cut-out queues leave it; without such a
    range nothing is cut. *)
Theorem request_best_fit lo hi qmax base fl al r fl' al' :
  0 <= lo -> hi < 2147483648 -> free_ok lo fl hi -> allocs_ok al -> base < 0 -> 0 <= qmax ->
  qdma_get_resource_node qmax base fl al = (r, fl', al') ->
  match r with
  | None => fl' = fl /\ forall n, n ∈ fl -> total_q n < qmax
  | Some k => exists n, n ∈ fl /\ qmax <= total_q n /\
      (forall n', n' ∈ fl -> qmax <= total_q n' -> total_q n <= total_q n') /\
      fl' !! k = Some (mk_entry (qbase n) qmax) /\ free_ok lo (delete k fl') hi /\
      forall q, owners fl q =
        (owners (delete k fl') q + Nat.b2n (covers q (mk_entry (qbase n) qmax)))%nat
  end.
Proof.
  intros Hlo Hhi Hfl Hok Hb Hq. unfold qdma_get_resource_node.
  rewrite Z.geb_leb, (proj2 (Z.leb_gt 0 base)) by lia.
  destruct (best_fit qmax 0 None fl) as [[i n]|] eqn:E.
  - intros H. apply best_fit_Some in E as (Hi & Hn & Hmin).
    destruct (fragment_spec lo hi Hlo Hhi _ _ _ _ _ _ _ _ _ H Hi Hfl) as [Hc Ha];
      [lia|lia|unfold ends; lia|].
    destruct (Ha Hok) as [[k ->] _]. destruct Hc as (Hk & Hd & Ho).
    exists n. split_and!; try done. by eapply list_elem_of_lookup_2.
  - intros [= <- <- <-]. split; [done|]. by apply best_fit_None.
Qed.

(** ** Concrete runs *)

Definition rm_run (al : list bool) (cs : list rm_call) : rm_state :=
  fold_left (fun st c => rm_exec c st) cs (set_allocs al rm_init).

Lemma rm_run_reachable al cs : Forall call_ok cs -> rm_reachable al (rm_run al cs).
Proof.
  unfold rm_run, rm_reachable. set (s0 := set_allocs al rm_init). intros Hcs.
  assert (star rm_step s0 s0) as Hs by constructor. revert Hs. generalize s0 at 2 4 as s.
  induction Hcs as [|c cs Hc _ IH]; intros s Hs; [done|]. simpl. apply IH.
  econstructor; [exact Hs|by constructor].
Qed.

(** A board with queues 0 to 511 and functions 4, 5 and 6. *)
Definition board_512 : list rm_call :=
  [CreateMaster 1 2 0 512; CreateDev 0 4; CreateDev 0 5; CreateDev 0 6].

(** The sum of a requested base and size wraps around in [uint32_t]: a
    request for 2^32 - 50 queues from queue 100 on a board of 512 queues is
    granted, and afterwards queue 60 is in range for two other functions. *)
Theorem request_end_wraps :
  let st1 := rm_run [] board_512 in
  let '(rv, b, st2) := qdma_dev_update 0 4 4294967246 100 st1 in
  let st3 := rm_exec (UpdateDev 0 6 462 (-1)) (rm_exec (UpdateDev 0 5 100 (-1)) st2) in
  rv = 0 /\ qdma_dev_qinfo_get 0 4 st2 = (0, Some (100, 4294967246)) /\
  qdma_dev_is_queue_in_range 0 5 60 st3 = QDMA_DEV_Q_IN_RANGE /\
  qdma_dev_is_queue_in_range 0 6 60 st3 = QDMA_DEV_Q_IN_RANGE.
Proof. vm_compute. by repeat split. Qed.

(** Functions 4, 5 and 6 on a board of ten queues; function 4 asks in vain
    twice. *)
Definition vain_requests : list rm_call :=
  [CreateMaster 1 2 0 10; CreateDev 0 4; CreateDev 0 5; CreateDev 0 6;
   UpdateDev 0 5 4 0; UpdateDev 0 6 2 4; UpdateDev 0 4 11 (-1);
   UpdateDev 0 6 0 (-1); UpdateDev 0 4 11 (-1)].

(** A refused request of a function without queues cuts the free list: six
    adjacent free queues end up as two ranges, and a request for five of them
    is then refused. *)
Theorem vain_request_fragments :
  let st := rm_run [] vain_requests in
  Forall call_ok vain_requests /\
  free_list <$> master_resource_list st = [[mk_entry 4 2; mk_entry 6 4]] /\
  (qdma_dev_update 0 6 5 (-1) st).1.1 = neg QDMA_ERR_RM_NO_QUEUES_LEFT.
Proof. split; [repeat constructor; simpl; lia|]. by vm_compute. Qed.

(** ** Witnesses *)

Definition sample_calls : list rm_call :=
  board_512 ++ [UpdateDev 0 4 64 0; UpdateDev 0 5 32 (-1); UpdateDev 0 6 16 100;
                IncrementActive 0 5 QDMA_DEV_Q_TYPE_H2C].

Definition sample_state : rm_state := rm_run [] sample_calls.

Lemma sample_reachable : rm_reachable [] sample_state.
Proof. apply rm_run_reachable. repeat constructor; simpl; lia. Qed.

(** The master and function of the sample state, by position. *)
Definition sample_master : qdma_resource_master :=
  default (mk_master 0 0 0 0 0 [] [] 0) (master_resource_list sample_state !! 0%nat).
Definition sample_dev (j : nat) : qdma_dev_entry :=
  default (new_dev_entry 0) (dev_list sample_master !! j).

Lemma sample_at j fid :
  (j, fid) ∈ [(0%nat, 4); (1%nat, 5); (2%nat, 6)] ->
  dev_at 0 fid sample_state 0 j sample_master (sample_dev j).
Proof.
  intros H. rewrite !elem_of_cons in H.
  destruct H as [H|[H|[H|[]%not_elem_of_nil]]]; injection H as -> ->; by vm_compute.
Qed.

Lemma queue_isolation_witness :
  qdma_dev_is_queue_in_range 0 6 110 sample_state = QDMA_DEV_Q_IN_RANGE /\
  qdma_dev_is_queue_in_range 0 4 110 sample_state = QDMA_DEV_Q_OUT_OF_RANGE.
Proof.
  split; [by vm_compute|].
  apply (queue_isolation [] sample_state 0 6 4 110 sample_reachable);
    [unfold is_u32; lia|lia|by vm_compute].
Defined.

Lemma queues_conserved_witness :
  Forall master_wf (master_resource_list sample_state) /\
  Forall conserved (master_resource_list sample_state).
Proof. apply (queues_conserved [] sample_state sample_reachable). constructor. Defined.

Lemma dev_update_outcome_witness :
  qdma_dev_update 0 6 8 200 sample_state
    = (0, 200, (qdma_dev_update 0 6 8 200 sample_state).2) /\
  qdma_dev_qinfo_get 0 6 (qdma_dev_update 0 6 8 200 sample_state).2 = (0, Some (200, 8)).
Proof.
  split; [by vm_compute|].
  destruct (dev_update_outcome [] sample_state 0 6 0 2 sample_master (sample_dev 2) 8 200
    0 200 _ sample_reachable (Forall_nil_2 _) (sample_at 2 6 ltac:(set_solver))
    ltac:(lia) ltac:(lia) ltac:(by vm_compute)) as [_ H].
  destruct H as [[_ H]|[H _]]; [by vm_compute|exact H|done].
Defined.

Lemma dev_update_complete_witness :
  (qdma_dev_update 0 6 8 200 sample_state).1.1 = 0 <->
  exists b0, available (free_list sample_master) (sample_dev 2) b0 8.
Proof.
  apply (dev_update_complete [] sample_state 0 6 0 2 sample_master (sample_dev 2) 8 200
    _ 200 (qdma_dev_update 0 6 8 200 sample_state).2 sample_reachable (Forall_nil_2 _)
    (sample_at 2 6 ltac:(set_solver)));
    [by vm_compute|by vm_compute|lia|lia|by vm_compute].
Defined.

Lemma dev_destroy_returns_queues_witness :
  covers 110 (entry (sample_dev 2)) = true /\
  qdma_dev_qinfo_get 0 6 (qdma_dev_entry_destroy 0 6 sample_state)
    = (neg QDMA_ERR_RM_DEV_NOT_EXISTS, None).
Proof.
  split; [by vm_compute|].
  apply (dev_destroy_returns_queues [] sample_state 0 6 0 2 sample_master (sample_dev 2) 110
    sample_reachable (Forall_nil_2 _) (sample_at 2 6 ltac:(set_solver))). by vm_compute.
Defined.

Lemma increment_guarded_witness :
  1 <= total_q (entry (sample_dev 1)) /\
  (1 < total_q (entry (sample_dev 1)) ->
     (qdma_dev_increment_active_queue 0 5 QDMA_DEV_Q_TYPE_H2C sample_state).1 = 0 /\
     qdma_get_device_active_queue_count 0 5 QDMA_DEV_Q_TYPE_H2C
       (qdma_dev_increment_active_queue 0 5 QDMA_DEV_Q_TYPE_H2C sample_state).2 = 1 + 1).
Proof.
  destruct (increment_guarded [] sample_state 0 5 0 1 sample_master (sample_dev 1)
    QDMA_DEV_Q_TYPE_H2C 1 _ _ sample_reachable (sample_at 1 5 ltac:(set_solver)) eq_refl
    (surjective_pairing _)) as (H1 & H2 & _). by split.
Defined.

Lemma decrement_at_zero_witness :
  qdma_get_device_active_queue_count 0 6 QDMA_DEV_Q_TYPE_C2H
    (qdma_dev_decrement_active_queue 0 6 QDMA_DEV_Q_TYPE_C2H sample_state).2 = 0.
Proof.
  pose proof (decrement_at_zero 0 6 sample_state 0 2 sample_master (sample_dev 2)
    QDMA_DEV_Q_TYPE_C2H (sample_at 2 6 ltac:(set_solver)) eq_refl) as H.
  destruct (qdma_dev_decrement_active_queue 0 6 QDMA_DEV_Q_TYPE_C2H sample_state) as [rv st'].
  by destruct H as (_ & H & _).
Defined.

Lemma request_best_fit_witness :
  exists n, n ∈ [mk_entry 0 10; mk_entry 20 4; mk_entry 40 6] /\ 3 <= total_q n /\
    qbase n = 20.
Proof.
  destruct (request_best_fit 0 100 3 (-1) [mk_entry 0 10; mk_entry 20 4; mk_entry 40 6] []
    (Some 1%nat) [mk_entry 0 10; mk_entry 20 3; mk_entry 23 1; mk_entry 40 6] [])
    as (n & Hn & Hq & _ & Hk & _);
    [lia|lia|by vm_compute|constructor|lia|lia|by vm_compute|].
  exists n. split_and!; [done|done|]. by injection Hk.
Defined.
