(* ===== verification/ResourceView.v ===== *)
(** * ResourceView: what a function sees of the resource manager

    Every query of the resource manager about a function depends on its entry
    only, [dev_view].  A call made for one function does not change the view
    of another one.  The mailbox handler (MboxPf) makes calls for the sender of a
    message only, and gets its isolation from here. *)

From S2P Require Import Prelude QdmaErrors ResourceMgmt ResourceInv ResourceSys ResourceProps.
Local Open Scope Z_scope.

Definition dev_find (fid : Z) (ds : list qdma_dev_entry) : option qdma_dev_entry :=
  List.find (fun d => func_id d =? fid) ds.

(** [None] when the board does not exist, [Some None] when the function does
    not. *)
Definition dev_view (idx fid : Z) (st : rm_state) : option (option qdma_dev_entry) :=
  match qdma_get_master_resource_entry idx st ≫= (fun i => master_resource_list st !! i) with
  | None => None
  | Some m => Some (dev_find fid (dev_list m))
  end.

Section find.
Implicit Types (ds : list qdma_dev_entry).

Lemma find_pos_find {A} (p : A -> bool) l :
  (j ← find_pos p l; l !! j) = List.find p l.
Proof.
  induction l as [|x l IH]; simpl; [done|]. destruct (p x); [done|].
  rewrite <- IH. by destruct (find_pos p l).
Qed.

Lemma dev_find_app fid ds d : func_id d <> fid -> dev_find fid (ds ++ [d]) = dev_find fid ds.
Proof.
  intros Hd. induction ds as [|x ds IH]; simpl.
  - by rewrite (proj2 (Z.eqb_neq _ _)).
  - by destruct (func_id x =? fid).
Qed.

Lemma dev_find_delete fid ds j d :
  ds !! j = Some d -> func_id d <> fid -> dev_find fid (delete j ds) = dev_find fid ds.
Proof.
  intros Hj Hd. revert j Hj. induction ds as [|x ds IH]; intros [|j] Hj; simpl in *; [done..| |].
  - injection Hj as ->. by rewrite (proj2 (Z.eqb_neq _ _)).
  - destruct (func_id x =? fid); [done|]. by apply IH.
Qed.

Lemma dev_find_insert fid ds j d d' :
  ds !! j = Some d -> func_id d <> fid -> func_id d' = func_id d ->
  dev_find fid (<[j := d']> ds) = dev_find fid ds.
Proof.
  intros Hj Hd Hd'. revert j Hj.
  induction ds as [|x ds IH]; intros [|j] Hj; simpl in *; [done..| |].
  - injection Hj as ->. by rewrite Hd', (proj2 (Z.eqb_neq _ _)).
  - destruct (func_id x =? fid); [done|]. by apply IH.
Qed.
End find.

Section view.
Implicit Types (st : rm_state) (m : qdma_resource_master).

Lemma with_dev_view {A} idx fid st (nm nd : A) (g : qdma_dev_entry -> A) :
  with_dev idx fid st nm nd (fun _ _ _ d => g d) =
  match dev_view idx fid st with
  | None => nm
  | Some None => nd
  | Some (Some d) => g d
  end.
Proof.
  unfold with_dev, dev_view, qdma_get_dev_entry, dev_find.
  destruct (qdma_get_master_resource_entry idx st) as [i|] eqn:Ei; simpl; [|done].
  destruct (find_pos_Some _ _ _ Ei) as (m & Hm & _). rewrite Hm; simpl.
  rewrite <- find_pos_find. destruct (find_pos _ _) as [j|]; simpl; [|done].
  rewrite Hm. by destruct (dev_list m !! j).
Qed.

(** The view is all that the queries depend on. *)
Lemma qinfo_view idx fid st st' :
  dev_view idx fid st' = dev_view idx fid st ->
  qdma_dev_qinfo_get idx fid st' = qdma_dev_qinfo_get idx fid st.
Proof. intros H. unfold qdma_dev_qinfo_get. by rewrite !with_dev_view, H. Qed.

Lemma in_range_view idx fid q st st' :
  dev_view idx fid st' = dev_view idx fid st ->
  qdma_dev_is_queue_in_range idx fid q st' = qdma_dev_is_queue_in_range idx fid q st.
Proof. intros H. unfold qdma_dev_is_queue_in_range. by rewrite !with_dev_view, H. Qed.

Lemma active_view idx fid t st st' :
  dev_view idx fid st' = dev_view idx fid st ->
  qdma_get_device_active_queue_count idx fid t st' =
  qdma_get_device_active_queue_count idx fid t st.
Proof. intros H. unfold qdma_get_device_active_queue_count. by rewrite !with_dev_view, H. Qed.

(** Changing one board, in a way that does not concern function [fid']. *)
Lemma dev_view_upd st i m f al idx fid' :
  master_resource_list st !! i = Some m -> dma_device_index (f m) = dma_device_index m ->
  dev_find fid' (dev_list (f m)) = dev_find fid' (dev_list m) ->
  dev_view idx fid' (upd_master i f (set_allocs al st)) = dev_view idx fid' st.
Proof.
  intros Hi Hx Hf. unfold dev_view. rewrite (get_master_upd _ _ _ m) by done.
  destruct (qdma_get_master_resource_entry idx st) as [i'|]; [|done]. simpl.
  rewrite (alter_as_insert _ _ _ _ Hi). destruct (decide (i' = i)) as [->|].
  - rewrite list_lookup_insert_eq by (by eapply lookup_lt_Some). by rewrite Hi, Hf.
  - by rewrite list_lookup_insert_ne.
Qed.

(** The same, when the entry at position [j] is replaced. *)
Lemma dev_view_insert st idx fid i j m d f al idx' fid' d' :
  dev_at idx fid st i j m d -> (idx', fid') <> (idx, fid) ->
  dma_device_index (f m) = dma_device_index m ->
  dev_list (f m) = <[j := d']> (dev_list m) -> func_id d' = func_id d ->
  dev_view idx' fid' (upd_master i f (set_allocs al st)) = dev_view idx' fid' st.
Proof.
  intros Hat Hne Hx Hl Hd. unfold dev_view.
  pose proof (with_dev_frame st i j f m d d' al idx fid idx' fid' None (Some None)
                (fun d => Some (Some d)) Hat Hx Hl Hd Hne) as H.
  rewrite !with_dev_view in H. unfold dev_view in H. revert H.
  destruct (_ ≫= _) as [m1|]; destruct (_ ≫= _) as [m2|]; repeat destruct (dev_find _ _); congruence.
Qed.
End view.

(** ** Calls made for one function of one board *)

Definition call_by (idx fid : Z) (c : rm_call) : Prop :=
  match c with
  | CreateMaster _ _ _ _ | DestroyMaster _ => False
  | CreateDev i f | DestroyDev i f | UpdateDev i f _ _
  | IncrementActive i f _ | DecrementActive i f _ => i = idx /\ f = fid
  end.

Section call_by.
Context (idx fid idx' fid' : Z) (Hne : (idx', fid') <> (idx, fid)).
Implicit Types (st : rm_state).

Lemma request_func_id d n b fl al rv d' fl' al' :
  qdma_request_q_resource d n b fl al = (rv, d', fl', al') -> func_id d' = func_id d.
Proof.
  unfold qdma_request_q_resource, qdma_submit_to_free_list, set_entry.
  repeat case_match; intros; by simplify_eq/=.
Qed.

Lemma create_view st :
  dev_view idx' fid' (qdma_dev_entry_create idx fid st).2 = dev_view idx' fid' st.
Proof.
  unfold qdma_dev_entry_create.
  destruct (qdma_get_master_resource_entry idx st) as [i|] eqn:Ei; [|done].
  destruct (qdma_get_dev_entry idx fid st); [done|].
  destruct (qdma_calloc (allocs st)) as [[] al]; simpl; [|done].
  destruct (find_pos_Some _ _ _ Ei) as (m & Hi & Hm%Z.eqb_eq & _).
  destruct (decide (idx' = idx)) as [->|Hi'].
  - apply (dev_view_upd _ _ m); [done|done|]. simpl. apply dev_find_app. simpl. congruence.
  - unfold dev_view. rewrite (get_master_upd _ _ _ m) by done.
    destruct (qdma_get_master_resource_entry idx' st) as [i'|] eqn:Ei'; [|done]. simpl.
    rewrite (alter_as_insert _ _ _ _ Hi), list_lookup_insert_ne; [done|]. intros ->.
    destruct (find_pos_Some _ _ _ Ei') as (m' & ? & ?%Z.eqb_eq & _). congruence.
Qed.

Lemma destroy_view st :
  dev_view idx' fid' (qdma_dev_entry_destroy idx fid st) = dev_view idx' fid' st.
Proof.
  unfold qdma_dev_entry_destroy. apply with_dev_elim; [done..|]. intros i j m d Hat.
  destruct (qdma_submit_to_free_list _ _ _) as [[d' fl] al].
  pose proof (dev_at_ids _ _ _ _ _ _ _ Hat) as (Hidx & Hm & Hfid).
  destruct Hat as (_ & Hi & Hj).
  destruct (decide (idx' = idx)) as [->|Hi'].
  - apply (dev_view_upd _ _ m); [done|done|]. simpl. apply (dev_find_delete _ _ _ d); [done|].
    congruence.
  - unfold dev_view. rewrite (get_master_upd _ _ _ m) by done.
    destruct (qdma_get_master_resource_entry idx' st) as [i'|] eqn:Ei'; [|done]. simpl.
    rewrite (alter_as_insert _ _ _ _ Hi), list_lookup_insert_ne; [done|]. intros ->.
    destruct (find_pos_Some _ _ _ Ei') as (m' & ? & ?%Z.eqb_eq & _). congruence.
Qed.

Lemma update_view qmax base st :
  dev_view idx' fid' (qdma_dev_update idx fid qmax base st).2 = dev_view idx' fid' st.
Proof.
  unfold qdma_dev_update. apply with_dev_elim; [done..|]. intros i j m d Hat.
  case_if; [done|]. destruct (qdma_request_q_resource _ _ _ _ _) as [[[rv d'] fl] al] eqn:Er. simpl.
  eapply dev_view_insert; [exact Hat|done|done|done|]. by eapply request_func_id.
Qed.

Lemma count_view st i j m d g n :
  dev_at idx fid st i j m d -> func_id (g d) = func_id d ->
  dev_view idx' fid' (upd_master i (fun m => set_active (n m) (upd_dev j g m)) st) =
  dev_view idx' fid' st.
Proof.
  intros Hat Hg. pose proof Hat as (_ & _ & Hj). destruct st as [ms ix al].
  apply (dev_view_insert (mk_rm ms ix al) idx fid i j m d
           (fun m => set_active (n m) (upd_dev j g m)) al idx' fid' (g d)); try done.
  simpl. by apply alter_as_insert.
Qed.

Lemma increment_view t st :
  dev_view idx' fid' (qdma_dev_increment_active_queue idx fid t st).2 = dev_view idx' fid' st.
Proof.
  unfold qdma_dev_increment_active_queue. apply with_dev_elim; [done..|]. intros i j m d Hat.
  destruct (active_of t d); [|done]. case_if; [done|]. simpl.
  by eapply count_view; [exact Hat|apply set_active_of_id].
Qed.

Lemma decrement_view t st :
  dev_view idx' fid' (qdma_dev_decrement_active_queue idx fid t st).2 = dev_view idx' fid' st.
Proof.
  unfold qdma_dev_decrement_active_queue. apply with_dev_elim; [done..|]. intros i j m d Hat.
  destruct (active_of t d) as [n|]; simpl.
  - apply (count_view st i j m d (set_active_of t (if n =? 0 then n else n - 1))
             (fun m => u32 (active_qcnt m - 1)) Hat), set_active_of_id.
  - destruct st as [ms ix al], Hat as (_ & Hi & _).
    by apply (dev_view_upd (mk_rm ms ix al) i m).
Qed.

Lemma call_view c st : call_by idx fid c -> dev_view idx' fid' (rm_exec c st) = dev_view idx' fid' st.
Proof.
  destruct c; simpl; try done; intros [-> ->].
  - apply create_view.
  - apply destroy_view.
  - apply update_view.
  - apply increment_view.
  - apply decrement_view.
Qed.
End call_by.

(** C36. Calls made for one function of one board leave every other function of
    every board alone: its range of queues, which queues are in range for it, and
    its counts of active queues are what they were.  (What the calls can change
    for others is which queues are free.) *)
Theorem calls_confined idx fid c st idx' fid' :
  call_by idx fid c -> (idx', fid') <> (idx, fid) ->
  let st' := rm_exec c st in
  qdma_dev_qinfo_get idx' fid' st' = qdma_dev_qinfo_get idx' fid' st /\
  forall q t,
    qdma_dev_is_queue_in_range idx' fid' q st' = qdma_dev_is_queue_in_range idx' fid' q st /\
    qdma_get_device_active_queue_count idx' fid' t st' =
    qdma_get_device_active_queue_count idx' fid' t st.
Proof.
  intros Hc Hne st'. pose proof (call_view idx fid idx' fid' Hne c st Hc) as H.
  split; [by apply qinfo_view|]. intros q t. split; [by apply in_range_view|by apply active_view].
Qed.

(** The sixth function of the sample board asks for other queues; the fourth
    keeps its own. *)
Lemma calls_confined_witness :
  let st' := rm_exec (UpdateDev 0 6 8 200) sample_state in
  qdma_dev_qinfo_get 0 4 st' = qdma_dev_qinfo_get 0 4 sample_state.
Proof. apply (calls_confined 0 6 (UpdateDev 0 6 8 200) sample_state 0 4); [by split|done]. Defined.
