(* ===== verification/Mmio.v ===== *)
(** * Mmio: register access and the monad of code that performs it

    The RecoNIC card and the QDMA core are programmed through 32-bit registers.
    Their hardware is not part of the repository, so a device is a parameter: a
    function [mmio_value] that says what a read of a register returns after a
    given history of accesses.  Code that accesses registers is a state
    monad whose state has such a history, and which can also end the process
    ([exit], a failed [assert]), go wrong (a null or out-of-range pointer) or
    fail to end within its fuel (a polling loop). *)

From S2P Require Import Prelude.
Local Open Scope Z_scope.

(** ** Histories and devices *)

Inductive event :=
| Rd (addr value : Z)
| Wr (addr value : Z).

(** The history of register accesses, the newest first. *)
Definition trace : Type := list event.

Class MmioDevice := mmio_value : trace -> Z -> Z.

(** The value last written to a register. *)
Fixpoint last_write (tr : trace) (a : Z) : option Z :=
  match tr with
  | [] => None
  | Wr b v :: tr' => if b =? a then Some v else last_write tr' a
  | Rd _ _ :: tr' => last_write tr' a
  end.

(** A device whose registers hold what was written to them last, [init]
    before that. *)
Definition regfile (init : Z -> Z) : MmioDevice :=
  fun tr a => default (init a) (last_write tr a).

(** The writes of a history, in the order they were made. *)
Fixpoint writes (tr : trace) : list (Z * Z) :=
  match tr with
  | [] => []
  | Wr a v :: tr' => writes tr' ++ [(a, v)]
  | Rd _ _ :: tr' => writes tr'
  end.

Fixpoint count_reads (tr : trace) : nat :=
  match tr with
  | [] => O
  | Rd _ _ :: tr' => S (count_reads tr')
  | Wr _ _ :: tr' => count_reads tr'
  end.

(** ** The monad *)

Inductive outcome (S A : Type) :=
| Ret (a : A) (s : S)
| Exit (s : S)       (* [exit(EXIT_FAILURE)], or a failed [assert] *)
| Crash (s : S)      (* a null or out-of-range pointer is used *)
| Hang (s : S).      (* the fuel of a loop is used up *)
Arguments Ret {S A} a s.
Arguments Exit {S A} s.
Arguments Crash {S A} s.
Arguments Hang {S A} s.

Definition M (S A : Type) : Type := S -> outcome S A.

#[export] Instance M_ret S : MRet (M S) := fun A a s => Ret a s.
#[export] Instance M_bind S : MBind (M S) := fun A B k m s =>
  match m s with
  | Ret a s' => k a s'
  | Exit s' => Exit s'
  | Crash s' => Crash s'
  | Hang s' => Hang s'
  end.

Definition exit_failure {S A} : M S A := fun s => Exit s.
Definition crash {S A} : M S A := fun s => Crash s.
Definition hang {S A} : M S A := fun s => Hang s.
Definition gets {S A} (f : S -> A) : M S A := fun s => Ret (f s) s.
Definition modify {S} (f : S -> S) : M S unit := fun s => Ret tt (f s).

(** Dereferencing a pointer that may be null or out of range. *)
Definition deref {S A} (f : S -> option A) : M S A := fun s =>
  match f s with
  | Some a => Ret a s
  | None => Crash s
  end.

Definition assert {S} (b : bool) : M S unit := if b then mret tt else exit_failure.

(** A [while (cond) body] loop: [body] says whether to go round again. *)
Fixpoint while_loop {S} (fuel : nat) (body : M S bool) : M S unit :=
  match fuel with
  | O => hang
  | Datatypes.S fuel' =>
      again ← body;
      if (again : bool) then while_loop fuel' body else mret tt
  end.

(** A [for] loop over the elements of a list. *)
Fixpoint for_each {S A} (l : list A) (body : A -> M S unit) : M S unit :=
  match l with
  | [] => mret tt
  | x :: l' => body x;; for_each l' body
  end.

(** ** Register access *)

(** A program state with a history in it. *)
Class HasTrace (S : Type) := {
  trace_of : S -> trace;
  with_trace : trace -> S -> S;
  trace_of_with tr s : trace_of (with_trace tr s) = tr;
  with_trace_of s : with_trace (trace_of s) s = s;
  with_trace_twice tr tr' s : with_trace tr (with_trace tr' s) = with_trace tr s }.

(** The history itself can be the state. *)
#[export] Instance trace_state : HasTrace trace.
Proof. by refine {| trace_of tr := tr; with_trace tr _ := tr |}. Defined.

Definition log {S} `{HasTrace S} (e : event) (s : S) : S := with_trace (e :: trace_of s) s.

Section access.
Context {S : Type} `{HasTrace S} `{MmioDevice}.

Definition write32_data (offset value : Z) : M S unit := modify (log (Wr offset (u32 value))).

Definition read32_data (offset : Z) : M S Z := fun s =>
  let value := u32 (mmio_value (trace_of s) offset) in
  Ret value (log (Rd offset value) s).

(** A read whose value is not used. *)
Definition read32_ignored (offset : Z) : M S unit := _ ← read32_data offset; mret tt.
End access.

(** ** What runs *)

(** The state in which an execution ends, however it ends. *)
Definition end_state {S A} (o : outcome S A) : S :=
  match o with Ret _ s | Exit s | Crash s | Hang s => s end.

(** [m] ends normally from [s], in a state and with a value that satisfy [Q]. *)
Definition returns {S A} (m : M S A) (s : S) (Q : A -> S -> Prop) : Prop :=
  match m s with Ret a s' => Q a s' | _ => False end.

Section monad_lemmas.
Context {S : Type}.

Lemma bind_Ret {A B} (m : M S A) (k : A -> M S B) s a s' :
  m s = Ret a s' -> (m ≫= k) s = k a s'.
Proof. unfold mbind, M_bind. by intros ->. Qed.

Lemma returns_bind {A B} (m : M S A) (k : A -> M S B) s Q :
  returns m s (fun a s' => returns (k a) s' Q) -> returns (m ≫= k) s Q.
Proof. unfold returns, mbind, M_bind. by destruct (m s). Qed.

Lemma returns_mono {A} (m : M S A) s (P Q : A -> S -> Prop) :
  (forall a s', P a s' -> Q a s') -> returns m s P -> returns m s Q.
Proof. unfold returns. destruct (m s); auto. Qed.

Lemma bind_assoc {A B C} (m : M S A) (k : A -> M S B) (l : B -> M S C) s :
  ((m ≫= k) ≫= l) s = (m ≫= (fun a => k a ≫= l)) s.
Proof. unfold mbind, M_bind. by destruct (m s). Qed.

Lemma for_each_app {A} (l1 l2 : list A) (body : A -> M S unit) s :
  for_each (l1 ++ l2) body s = (for_each l1 body;; for_each l2 body) s.
Proof.
  revert s. induction l1 as [|x l1 IH]; intros s; [done|]. simpl.
  unfold mbind at 1 3, M_bind. unfold mbind at 1, M_bind.
  destruct (body x s); done || apply IH.
Qed.
End monad_lemmas.

Section trace_lemmas.
Implicit Types (tr : trace) (a b v : Z).

Lemma last_write_app tr1 tr2 a :
  last_write (tr1 ++ tr2) a =
  match last_write tr1 a with Some v => Some v | None => last_write tr2 a end.
Proof.
  induction tr1 as [|[b v|b v] tr1 IH]; simpl; [done|apply IH|].
  by destruct (b =? a).
Qed.

Lemma writes_app tr1 tr2 : writes (tr1 ++ tr2) = writes tr2 ++ writes tr1.
Proof.
  induction tr1 as [|[b v|b v] tr1 IH]; simpl; [by rewrite app_nil_r|apply IH|].
  by rewrite IH, app_assoc.
Qed.

(** A register nobody wrote to has no last write. *)
Lemma last_write_None tr a :
  a ∉ (writes tr).*1 -> last_write tr a = None.
Proof.
  induction tr as [|[b v|b v] tr IH]; simpl; [done|apply IH|].
  rewrite fmap_app, elem_of_app. simpl. intros Hn.
  destruct (Z.eqb_spec b a) as [->|]; [exfalso; apply Hn; right; by left|].
  apply IH. tauto.
Qed.

Lemma regfile_frame init tr tr' a :
  a ∉ (writes tr).*1 -> regfile init (tr ++ tr') a = regfile init tr' a.
Proof. intros Hn. unfold regfile. by rewrite last_write_app, (last_write_None tr). Qed.
End trace_lemmas.

(** ** Straight-line writes *)

Definition write_all {S} `{HasTrace S} (l : list (Z * Z)) : M S unit :=
  for_each l (fun '(a, v) => write32_data a v).

(** The history that a list of writes leaves. *)
Definition written_trace (l : list (Z * Z)) (tr : trace) : trace :=
  rev (map (fun '(a, v) => Wr a (u32 v)) l) ++ tr.

Section write_all.
Context {S : Type} `{HasTrace S}.

Lemma write_all_run l (s : S) :
  write_all l s = Ret tt (with_trace (written_trace l (trace_of s)) s).
Proof.
  unfold write_all, written_trace. revert s.
  induction l as [|[a v] l IH]; intros s; simpl; [by rewrite with_trace_of|].
  unfold mbind, M_bind, write32_data, modify. rewrite IH. unfold log.
  by rewrite with_trace_twice, trace_of_with, <- app_assoc.
Qed.

Lemma written_trace_writes l tr :
  writes (written_trace l tr) = writes tr ++ map (fun '(a, v) => (a, u32 v)) l.
Proof.
  unfold written_trace. rewrite writes_app. f_equal.
  induction l as [|[a v] l IH]; simpl; [done|]. rewrite writes_app. simpl. by rewrite IH.
Qed.

(** Different registers hold the values written to them... *)
Lemma written_last l tr a v :
  NoDup l.*1 -> (a, v) ∈ l -> last_write (written_trace l tr) a = Some (u32 v).
Proof.
  unfold written_trace. induction l as [|[b w] l IH]; simpl; intros Hn Hin.
  { by apply not_elem_of_nil in Hin. }
  apply NoDup_cons in Hn as [Hb Hn]. rewrite <- app_assoc.
  apply elem_of_cons in Hin as [[= -> ->]|Hin].
  - rewrite last_write_app, last_write_None; [simpl; by rewrite Z.eqb_refl|].
    pose proof (written_trace_writes l []) as Hw. unfold written_trace in Hw.
    rewrite app_nil_r in Hw. rewrite Hw. simpl. intros Hin. apply Hb.
    apply list_elem_of_fmap in Hin as ([c u] & -> & Hin). apply list_elem_of_In, in_map_iff in Hin.
    destruct Hin as ([c' u'] & [= <- <-] & Hin%list_elem_of_In). simpl.
    apply list_elem_of_fmap. by exists (c', u').
  - specialize (IH Hn Hin). rewrite last_write_app in IH. rewrite last_write_app.
    destruct (last_write (rev _) a) eqn:E; [done|]. simpl.
    destruct (Z.eqb_spec b a) as [->|]; [|done]. exfalso. apply Hb.
    apply list_elem_of_fmap. by exists (a, v).
Qed.

(** ... and the others what they held before. *)
Lemma written_other l tr a :
  a ∉ l.*1 -> last_write (written_trace l tr) a = last_write tr a.
Proof.
  unfold written_trace. induction l as [|[b w] l IH]; simpl; intros Hn; [done|].
  rewrite not_elem_of_cons in Hn. destruct Hn as [Hb Hn]. rewrite <- app_assoc.
  rewrite last_write_app. specialize (IH Hn). rewrite last_write_app in IH.
  destruct (last_write (rev _) a); [done|]. simpl.
  by destruct (Z.eqb_spec b a) as [->|].
Qed.
End write_all.

#[global] Arguments written_trace : simpl never.
