(* ===== verification/Text.v ===== *)
(** * Text: the text that the register dumps print

    The conversions of [snprintf] that the dumps use ([%d], [%u], [%x], [%#x], with a width to the left or
    the right), and the wrapper [QDMA_SNPRINTF_S] of [qdma_platform_env.h], which passes
    its third argument, not the size of the buffer, on to [snprintf]. *)

From S2P Require Import Prelude Mmio.
From stdpp Require Export strings.
Local Open Scope string_scope.
Local Open Scope Z_scope.

(** ** Numbers *)

Definition digit (n : Z) : Ascii.ascii :=
  Ascii.ascii_of_N (Z.to_N (if n <? 10 then 48 + n else 87 + n)).

(** The digits of [n] in base [b]; [fuel] digits are enough for the numbers printed. *)
Fixpoint digits (fuel : nat) (b n : Z) (acc : string) : string :=
  match fuel with
  | O => acc
  | Datatypes.S fuel' =>
      let acc := String (digit (n mod b)) acc in
      if n <? b then acc else digits fuel' b (n / b) acc
  end.

(** [%u], [%x] and [%#x] of a [uint32_t], [%d] of an [int]. *)
Definition dec (n : Z) : string := digits 10 10 n "".
Definition hex (n : Z) : string := digits 8 16 n "".
Definition alt_hex (n : Z) : string := if n =? 0 then "0" else "0x" +:+ hex n.
Definition int_dec (n : Z) : string := if n <? 2 ^ 31 then dec n else "-" +:+ dec (2 ^ 32 - n).

Fixpoint spaces (n : nat) : string :=
  match n with O => "" | Datatypes.S n' => String (Ascii.ascii_of_N 32) (spaces n') end.

(** A width of [w] characters, as in [%-40s], and as in [%5u]. *)
Definition pad_right (w : nat) (s : string) : string := s +:+ spaces (w - String.length s).
Definition pad_left (w : nat) (s : string) : string := spaces (w - String.length s) +:+ s.

Definition newline : string := String (Ascii.ascii_of_N 10) "".

(** The first [n] characters. *)
Fixpoint clip (n : nat) (s : string) : string :=
  match n, s with
  | Datatypes.S n', String c s' => String c (clip n' s')
  | _, _ => ""
  end.

(** ** Lengths *)

Lemma length_append (s t : string) : String.length (s +:+ t) = (String.length s + String.length t)%nat.
Proof. induction s as [|c s IH]; simpl; [done|by rewrite IH]. Qed.

Lemma length_spaces n : String.length (spaces n) = n.
Proof. induction n as [|n IH]; simpl; [done|by rewrite IH]. Qed.

Lemma length_pad_right w s : String.length (pad_right w s) = (w `max` String.length s)%nat.
Proof. unfold pad_right. rewrite length_append, length_spaces. lia. Qed.

Lemma length_pad_left w s : String.length (pad_left w s) = (w `max` String.length s)%nat.
Proof. unfold pad_left. rewrite length_append, length_spaces. lia. Qed.

Lemma length_clip n s : String.length (clip n s) = (n `min` String.length s)%nat.
Proof. revert s. induction n as [|n IH]; intros [|c s]; simpl; [lia..|]. rewrite IH. lia. Qed.

Lemma clip_all n s : (String.length s <= n)%nat -> clip n s = s.
Proof.
  revert s. induction n as [|n IH]; intros [|c s] Hn; simpl in *; [done|lia|done|]. f_equal. apply IH. lia.
Qed.

Lemma digits_length fuel b n acc k :
  1 < b -> (1 <= k)%nat -> 0 <= n < b ^ Z.of_nat k ->
  (String.length (digits fuel b n acc) <= k + String.length acc)%nat.
Proof.
  intros Hb. revert n acc k. induction fuel as [|fuel IH]; intros n acc k Hk Hn; simpl; [lia|].
  destruct (Z.ltb_spec n b); simpl; [lia|].
  destruct k as [|[|k]]; [lia| |].
  { change (Z.of_nat 1) with 1 in Hn. rewrite Z.pow_1_r in Hn. lia. }
  specialize (IH (n / b) (String (digit (n mod b)) acc) (Datatypes.S k)). simpl String.length in IH.
  rewrite Nat2Z.inj_succ, Z.pow_succ_r in Hn by lia.
  assert (0 <= n / b < b ^ Z.of_nat (Datatypes.S k)).
  { split; [apply Z.div_pos; lia|apply Z.div_lt_upper_bound; lia]. }
  specialize (IH ltac:(lia) ltac:(lia)). lia.
Qed.

Lemma length_hex n : 0 <= n < 2 ^ 32 -> (String.length (hex n) <= 8)%nat.
Proof. intros Hn. apply (digits_length 8 16 n "" 8); [lia..|]. change (16 ^ Z.of_nat 8) with (2 ^ 32). lia. Qed.

Lemma length_alt_hex n : 0 <= n < 2 ^ 32 -> (String.length (alt_hex n) <= 10)%nat.
Proof.
  intros Hn. unfold alt_hex. case_match; [simpl; lia|]. rewrite length_append.
  pose proof (length_hex n Hn). simpl. lia.
Qed.

Lemma length_dec n : 0 <= n < 2 ^ 32 -> (String.length (dec n) <= 10)%nat.
Proof. intros Hn. apply (digits_length 10 10 n "" 10); [lia..|]. change (10 ^ Z.of_nat 10) with 10000000000. lia. Qed.

Lemma length_int_dec n : 0 <= n < 2 ^ 32 -> (String.length (int_dec n) <= 11)%nat.
Proof.
  intros Hn. unfold int_dec. case_match eqn:E; [pose proof (length_dec n Hn); lia|].
  apply Z.ltb_ge in E. rewrite length_append. pose proof (length_dec (2 ^ 32 - n) ltac:(lia)). simpl. lia.
Qed.

Lemma length_hex_small n k :
  (1 <= k)%nat -> 0 <= n < 16 ^ Z.of_nat k -> (String.length (hex n) <= k)%nat.
Proof. intros Hk Hn. pose proof (digits_length 8 16 n "" k ltac:(lia) Hk Hn) as H. cbn [String.length] in H. unfold hex. lia. Qed.

(** ** [QDMA_SNPRINTF_S] *)

Definition DEBGFS_LINE_SZ : nat := 81.
Definition DEBGFS_GEN_NAME_SZ : nat := 40.
Definition REG_DUMP_SIZE_PER_LINE : Z := 256.

(** What [snprintf] of [line] with a size of [size] leaves in the buffer, up to the place that
    its result, the length of [line], points to; and how many bytes it touches. *)
Definition snprintf_text (size : nat) (line : string) : string :=
  if (size <=? String.length line)%nat then clip (size - 1) line +:+ String Ascii.zero "" else line.
Definition snprintf_touched (size : nat) (line : string) : nat := (String.length line + 1) `min` size.
