(* ===== verification/CLayout.v ===== *)
(** * CLayout: C objects as integers

    The mailbox code overlays structures, bit fields and an array of 32-bit
    words on the same memory.  A piece of memory is an integer here, the byte at
    offset [i] being its bits [8 i .. 8 i + 7] (x86-64 is little-endian), so that a
    member of a structure, a bit field and a word of the array are all of the same
    kind: a run of bits, given by its first bit and its width ([cfield]).
    Assigning to a member is [put]; reading it as an unsigned value is [fld]. *)

From S2P Require Import Prelude.
Local Open Scope Z_scope.

Record cfield := mk_field { f_bit : Z; f_width : Z }.

(** A member of [n] bytes at byte offset [off]. *)
Definition bytes_at (off n : Z) : cfield := mk_field (8 * off) (8 * n).

(** A bit field of [w] bits, the first one being bit [b] of the byte at [off]. *)
Definition bits_at (off b w : Z) : cfield := mk_field (8 * off + b) w.

(** The member [f] of a structure that is itself the member [g]. *)
Definition inside (g f : cfield) : cfield := mk_field (f_bit g + f_bit f) (f_width f).

Definition fld (f : cfield) (m : Z) : Z := Z.land (Z.shiftr m (f_bit f)) (Z.ones (f_width f)).

Definition put (f : cfield) (v m : Z) : Z :=
  Z.lor (Z.ldiff m (Z.shiftl (Z.ones (f_width f)) (f_bit f)))
        (Z.shiftl (Z.land v (Z.ones (f_width f))) (f_bit f)).

Definition field_ok (f : cfield) : Prop := 0 <= f_bit f /\ 0 <= f_width f.

(** [f] lies before [g] or after it. *)
Definition apart (f g : cfield) : Prop :=
  f_bit f + f_width f <= f_bit g \/ f_bit g + f_width g <= f_bit f.

(** [f] lies within [g]. *)
Definition within (f g : cfield) : Prop :=
  f_bit g <= f_bit f /\ f_bit f + f_width f <= f_bit g + f_width g.

#[export] Instance cfield_eq_dec : EqDecision cfield.
Proof. solve_decision. Defined.
#[export] Instance field_ok_dec f : Decision (field_ok f).
Proof. unfold field_ok. apply _. Defined.
#[export] Instance apart_dec f g : Decision (apart f g).
Proof. unfold apart. apply _. Defined.
#[export] Instance within_dec f g : Decision (within f g).
Proof. unfold within. apply _. Defined.

(** ** Bits *)

Section bits.
Implicit Types (f g : cfield) (v m n : Z).

Lemma testbit_ones_low k n : 0 <= k -> 0 <= n -> Z.testbit (Z.ones k) n = (n <? k).
Proof.
  intros Hk Hn. destruct (Z.ltb_spec n k); [by apply Z.ones_spec_low|by apply Z.ones_spec_high].
Qed.

Lemma fld_testbit f m n :
  field_ok f -> 0 <= n -> Z.testbit (fld f m) n = Z.testbit m (n + f_bit f) && (n <? f_width f).
Proof.
  intros [Hb Hw] Hn. unfold fld. by rewrite Z.land_spec, Z.shiftr_spec, testbit_ones_low.
Qed.

Lemma put_testbit f v m n :
  field_ok f -> 0 <= n ->
  Z.testbit (put f v m) n =
  if (f_bit f <=? n) && (n <? f_bit f + f_width f) then Z.testbit v (n - f_bit f)
  else Z.testbit m n.
Proof.
  intros [Hb Hw] Hn. unfold put. rewrite Z.lor_spec, Z.ldiff_spec, !Z.shiftl_spec by done.
  destruct (Z.leb_spec (f_bit f) n) as [Hle|Hlt]; simpl.
  - rewrite Z.land_spec, testbit_ones_low by lia.
    destruct (Z.ltb_spec (n - f_bit f) (f_width f)), (Z.ltb_spec n (f_bit f + f_width f)); try lia;
      by rewrite ?andb_false_r, ?andb_true_r, ?orb_false_r.
  - rewrite !(Z.testbit_neg_r _ (n - f_bit f)) by lia. by rewrite andb_true_r, orb_false_r.
Qed.

Lemma fld_range f m : field_ok f -> 0 <= fld f m < 2 ^ f_width f.
Proof. intros [? ?]. unfold fld. rewrite Z.land_ones by done. by apply Z.mod_pos_bound, Z.pow_pos_nonneg. Qed.

Lemma fld_mod f m w : field_ok f -> f_width f <= w -> fld f m mod 2 ^ w = fld f m.
Proof.
  intros Hf Hw. pose proof (fld_range f m Hf). destruct Hf. apply Z.mod_small.
  split; [lia|]. apply Z.lt_le_trans with (2 ^ f_width f); [lia|].
  apply Z.pow_le_mono_r; lia.
Qed.

(** Reading a member back, ... *)
Lemma fld_put_same f v m : field_ok f -> fld f (put f v m) = v mod 2 ^ f_width f.
Proof.
  intros Hf. destruct Hf as [? ?] eqn:E. rewrite <- Z.land_ones by done.
  apply Z.bits_inj'. intros n Hn. rewrite fld_testbit, put_testbit by (done || lia).
  rewrite Z.land_spec, testbit_ones_low by done.
  destruct (Z.ltb_spec n (f_width f)); rewrite ?andb_false_r, ?andb_true_r; [|done].
  replace (n + f_bit f - f_bit f) with n by lia.
  case_if; [done|]. apply andb_false_iff in E0 as [E0|E0]; zbool; lia.
Qed.

(** ... and another member, which has not changed. *)
Lemma fld_put_apart f g v m : field_ok f -> field_ok g -> apart f g -> fld f (put g v m) = fld f m.
Proof.
  intros Hf Hg Ha. apply Z.bits_inj'. intros n Hn. destruct Hf as [? ?] eqn:E1, Hg as [? ?] eqn:E2.
  rewrite !fld_testbit, put_testbit by (done || lia).
  destruct (Z.ltb_spec n (f_width f)); rewrite ?andb_false_r, ?andb_true_r; [|done].
  case_if; [|done]. unfold apart in Ha. lia.
Qed.

(** A member of a structure that has been assigned as a whole. *)
Lemma fld_put_inside g f v m :
  field_ok g -> field_ok f -> f_bit f + f_width f <= f_width g ->
  fld (inside g f) (put g v m) = fld f v.
Proof.
  intros Hg Hf Hin. destruct Hf as [? ?] eqn:E1, Hg as [? ?] eqn:E2.
  apply Z.bits_inj'. intros n Hn.
  rewrite !fld_testbit, put_testbit by (done || (unfold field_ok; simpl; lia)). simpl.
  destruct (Z.ltb_spec n (f_width f)); rewrite ?andb_false_r, ?andb_true_r; [|done].
  case_if; [by replace (n + (f_bit g + f_bit f) - f_bit g) with (n + f_bit f) by lia|].
  apply andb_false_iff in E as [E|E]; zbool; lia.
Qed.

Lemma fld_inside g f m :
  field_ok g -> field_ok f -> f_bit f + f_width f <= f_width g ->
  fld f (fld g m) = fld (inside g f) m.
Proof.
  intros Hg Hf Hin. destruct Hf as [? ?] eqn:E1, Hg as [? ?] eqn:E2.
  apply Z.bits_inj'. intros n Hn.
  rewrite !fld_testbit by (done || (unfold field_ok; simpl; lia)). simpl.
  destruct (Z.ltb_spec n (f_width f)); rewrite ?andb_false_r, ?andb_true_r; [|done].
  rewrite (proj2 (Z.ltb_lt _ _)) by lia. rewrite andb_true_r. f_equal. lia.
Qed.

Lemma fld_zero f : fld f 0 = 0.
Proof. unfold fld. by rewrite Z.shiftr_0_l, Z.land_0_l. Qed.

(** Part of what has just been cleared. *)
Lemma fld_put_zero f g m :
  field_ok f -> field_ok g -> within f g -> fld f (put g 0 m) = 0.
Proof.
  intros Hf Hg [H1 H2]. replace f with (inside g (mk_field (f_bit f - f_bit g) (f_width f))).
  - rewrite fld_put_inside; [apply fld_zero|done|..]; unfold field_ok in *; simpl; lia.
  - destruct f as [b w]. unfold inside; simpl in *. f_equal. lia.
Qed.

(** Two memories with the same members agree on what is within them. *)
Lemma fld_eq_within f g m m' :
  field_ok f -> field_ok g -> within f g -> fld g m = fld g m' -> fld f m = fld f m'.
Proof.
  intros Hf Hg [H1 H2] Heq. replace f with (inside g (mk_field (f_bit f - f_bit g) (f_width f))).
  - rewrite <- !fld_inside; [by rewrite Heq|done|..]; unfold field_ok in *; simpl; lia.
  - destruct f as [b w]. unfold inside; simpl in *. f_equal. lia.
Qed.

(** Assigning a member the value it has changes nothing. *)
Lemma put_fld f m : field_ok f -> put f (fld f m) m = m.
Proof.
  intros Hf. destruct Hf as [? ?] eqn:E. apply Z.bits_inj'. intros n Hn.
  rewrite put_testbit by done. case_if; [|done].
  rewrite fld_testbit by (done || lia). rewrite (proj2 (Z.ltb_lt _ _)) by lia.
  rewrite andb_true_r. f_equal. lia.
Qed.

(** Assigning a member twice the same value is assigning it once. *)
Lemma put_put f v m : field_ok f -> put f v (put f v m) = put f v m.
Proof.
  intros Hf. destruct Hf as [? ?] eqn:E. apply Z.bits_inj'. intros n Hn.
  rewrite !put_testbit by done. by case_if.
Qed.

(** Assigning a member of equal memories leaves them equal. *)
Lemma fld_put_congr g f v m m' :
  field_ok g -> field_ok f -> fld g m = fld g m' -> fld g (put f v m) = fld g (put f v m').
Proof.
  intros Hg Hf Heq. destruct Hg as [? ?] eqn:E1. apply Z.bits_inj'. intros n Hn.
  apply (f_equal (fun x => Z.testbit x n)) in Heq. revert Heq.
  rewrite !fld_testbit, !put_testbit by (done || lia).
  destruct (n <? f_width g); rewrite ?andb_false_r, ?andb_true_r; [|done]. by case_if.
Qed.
End bits.

(** [layout] computes the members of a memory that has been assigned to
    member by member; the positions are numbers. *)
Ltac layout_side := vm_compute; repeat split; (discriminate || (left; discriminate) || (right; discriminate)).

Ltac fields :=
  repeat first
    [ rewrite fld_put_same by layout_side
    | rewrite fld_put_apart by layout_side
    | rewrite fld_put_zero by layout_side ].
