(* ===== verification/Contexts.v ===== *)
(** * Contexts: the structures the hardware access libraries work on ([qdma_access_common.h])

    Each queue has a software, a hardware, a credit, a prefetch and a completion context,
    each interrupt ring an interrupt context and each function an entry of the function map.
    The driver keeps them in C structures, laid out here; each library packs them into
    words of its own format. *)

From S2P Require Import Prelude CLayout.
Local Open Scope Z_scope.

(** [struct qdma_fmap_cfg], of 4 bytes. *)
Module fmap_cfg.
Definition qbase := bytes_at 0 2.
Definition qmax := bytes_at 2 2.
End fmap_cfg.

(** [struct qdma_qid2vec], of 4 bytes. *)
Module qid2vec.
Definition c2h_vector := bytes_at 0 1.
Definition c2h_en_coal := bytes_at 1 1.
Definition h2c_vector := bytes_at 2 1.
Definition h2c_en_coal := bytes_at 3 1.
End qid2vec.

(** [struct qdma_descq_sw_ctxt], of 56 bytes. *)
Module sw_ctxt.
Definition ring_bs_addr := bytes_at 0 8.
Definition vec := bytes_at 8 2.
Definition pidx := bytes_at 10 2.
Definition irq_arm := bytes_at 12 1.
Definition fnc_id := bytes_at 13 1.
Definition qen := bytes_at 14 1.
Definition frcd_en := bytes_at 15 1.
Definition wbi_chk := bytes_at 16 1.
Definition wbi_intvl_en := bytes_at 17 1.
Definition at_ := bytes_at 18 1.
Definition fetch_max := bytes_at 19 1.
Definition rngsz_idx := bytes_at 20 1.
Definition desc_sz := bytes_at 21 1.
Definition bypass := bytes_at 22 1.
Definition mm_chn := bytes_at 23 1.
Definition wbk_en := bytes_at 24 1.
Definition irq_en := bytes_at 25 1.
Definition port_id := bytes_at 26 1.
Definition irq_no_last := bytes_at 27 1.
Definition err := bytes_at 28 1.
Definition err_wb_sent := bytes_at 29 1.
Definition irq_req := bytes_at 30 1.
Definition mrkr_dis := bytes_at 31 1.
Definition is_mm := bytes_at 32 1.
Definition intr_aggr := bytes_at 33 1.
Definition pasid_en := bytes_at 34 1.
Definition dis_intr_on_vf := bytes_at 35 1.
Definition virtio_en := bytes_at 36 1.
Definition pack_byp_out := bytes_at 37 1.
Definition irq_byp := bytes_at 38 1.
Definition host_id := bytes_at 39 1.
Definition pasid := bytes_at 40 4.
Definition virtio_dsc_base := bytes_at 48 8.
End sw_ctxt.

(** [struct qdma_descq_hw_ctxt], of 8 bytes. *)
Module hw_ctxt.
Definition cidx := bytes_at 0 2.
Definition crd_use := bytes_at 2 2.
Definition dsc_pend := bytes_at 4 1.
Definition idl_stp_b := bytes_at 5 1.
Definition evt_pnd := bytes_at 6 1.
Definition fetch_pnd := bytes_at 7 1.
End hw_ctxt.

(** [struct qdma_descq_credit_ctxt], of 4 bytes. *)
Module credit_ctxt.
Definition credit := bytes_at 0 4.
End credit_ctxt.

(** [struct qdma_descq_prefetch_ctxt], of 12 bytes. *)
Module pfetch_ctxt.
Definition sw_crdt := bytes_at 0 2.
Definition bypass := bytes_at 2 1.
Definition bufsz_idx := bytes_at 3 1.
Definition port_id := bytes_at 4 1.
Definition var_desc := bytes_at 5 1.
Definition num_pftch := bytes_at 6 2.
Definition err := bytes_at 8 1.
Definition pfch_en := bytes_at 9 1.
Definition pfch := bytes_at 10 1.
Definition valid := bytes_at 11 1.
End pfetch_ctxt.

(** [struct qdma_descq_cmpt_ctxt], of 48 bytes. *)
Module cmpt_ctxt.
Definition bs_addr := bytes_at 0 8.
Definition vec := bytes_at 8 2.
Definition pidx := bytes_at 10 2.
Definition cidx := bytes_at 12 2.
Definition en_stat_desc := bytes_at 14 1.
Definition en_int := bytes_at 15 1.
Definition trig_mode := bytes_at 16 1.
Definition fnc_id := bytes_at 17 1.
Definition counter_idx := bytes_at 18 1.
Definition timer_idx := bytes_at 19 1.
Definition in_st := bytes_at 20 1.
Definition color := bytes_at 21 1.
Definition ringsz_idx := bytes_at 22 1.
Definition desc_sz := bytes_at 23 1.
Definition valid := bytes_at 24 1.
Definition err := bytes_at 25 1.
Definition user_trig_pend := bytes_at 26 1.
Definition timer_running := bytes_at 27 1.
Definition full_upd := bytes_at 28 1.
Definition ovf_chk_dis := bytes_at 29 1.
Definition at_ := bytes_at 30 1.
Definition int_aggr := bytes_at 31 1.
Definition dis_intr_on_vf := bytes_at 32 1.
Definition vio := bytes_at 33 1.
Definition dir_c2h := bytes_at 34 1.
Definition host_id := bytes_at 35 1.
Definition pasid := bytes_at 36 4.
Definition pasid_en := bytes_at 40 1.
Definition vio_eop := bytes_at 41 1.
Definition sh_cmpt := bytes_at 42 1.
End cmpt_ctxt.

(** [struct qdma_indirect_intr_ctxt], of 32 bytes. *)
Module ind_intr_ctxt.
Definition baddr_4k := bytes_at 0 8.
Definition vec := bytes_at 8 2.
Definition pidx := bytes_at 10 2.
Definition valid := bytes_at 12 1.
Definition int_st := bytes_at 13 1.
Definition color := bytes_at 14 1.
Definition page_size := bytes_at 15 1.
Definition at_ := bytes_at 16 1.
Definition host_id := bytes_at 17 1.
Definition pasid := bytes_at 20 4.
Definition pasid_en := bytes_at 24 1.
Definition func_id := bytes_at 26 2.
End ind_intr_ctxt.

(** [struct qdma_q_pidx_reg_info], of 4 bytes. *)
Module pidx_info.
Definition pidx := bytes_at 0 2.
Definition irq_en := bytes_at 2 1.
End pidx_info.

(** [struct qdma_intr_cidx_reg_info], of 4 bytes. *)
Module intr_cidx_info.
Definition sw_cidx := bytes_at 0 2.
Definition rng_idx := bytes_at 2 1.
End intr_cidx_info.

(** [struct qdma_q_cmpt_cidx_reg_info], of 8 bytes. *)
Module cmpt_cidx_info.
Definition wrb_cidx := bytes_at 0 2.
Definition counter_idx := bytes_at 2 1.
Definition timer_idx := bytes_at 3 1.
Definition trig_mode := bytes_at 4 1.
Definition wrb_en := bytes_at 5 1.
Definition irq_en := bytes_at 6 1.
End cmpt_cidx_info.

(** [struct qdma_descq_context] *)
Module descq_ctxt.
Definition sw := bytes_at 8 56.
Definition hw := bytes_at 64 8.
Definition cr := bytes_at 72 4.
Definition pfetch := bytes_at 76 12.
Definition cmpt := bytes_at 88 48.
End descq_ctxt.

Definition QDMA_GLOBAL_CSR_ARRAY_SZ : nat := 16.

(** [struct qdma_csr_info] *)
Module csr_info.
Definition ringsz (i : nat) := bytes_at (2 * Z.of_nat i) 2.
Definition bufsz (i : nat) := bytes_at (32 + 2 * Z.of_nat i) 2.
Definition timer_cnt (i : nat) := bytes_at (64 + Z.of_nat i) 1.
Definition cnt_thres (i : nat) := bytes_at (80 + Z.of_nat i) 1.
End csr_info.

(** [struct qdma_dev_attributes] *)
Module dev_attributes.
Definition num_pfs := bytes_at 0 1.
Definition num_qs := bytes_at 2 2.
Definition flr_present := bits_at 4 0 1.
Definition st_en := bits_at 4 1 1.
Definition mm_en := bits_at 4 2 1.
Definition mm_cmpt_en := bits_at 4 3 1.
Definition mailbox_en := bits_at 4 4 1.
Definition debug_mode := bits_at 4 5 1.
Definition desc_eng_mode := bits_at 4 6 2.
Definition mm_channel_max := bytes_at 5 1.
Definition qid2vec_ctx := bits_at 6 0 1.
Definition cmpt_ovf_chk_dis := bits_at 6 1 1.
Definition mailbox_intr := bits_at 6 2 1.
Definition sw_desc_64b := bits_at 6 3 1.
Definition cmpt_desc_64b := bits_at 6 4 1.
Definition dynamic_bar := bits_at 6 5 1.
Definition legacy_intr := bits_at 6 6 1.
Definition cmpt_trig_count_timer := bits_at 6 7 1.
End dev_attributes.

(** What a call does with a context, and the global registers. *)
Inductive qdma_hw_access_type :=
| QDMA_HW_ACCESS_READ | QDMA_HW_ACCESS_WRITE | QDMA_HW_ACCESS_CLEAR | QDMA_HW_ACCESS_INVALIDATE.

Inductive qdma_global_csr_type :=
| QDMA_CSR_RING_SZ | QDMA_CSR_TIMER_CNT | QDMA_CSR_CNT_TH | QDMA_CSR_BUF_SZ.

#[export] Instance qdma_hw_access_type_eq_dec : EqDecision qdma_hw_access_type.
Proof. solve_decision. Defined.
#[export] Instance qdma_global_csr_type_eq_dec : EqDecision qdma_global_csr_type.
Proof. solve_decision. Defined.

(** The assignments to the members of a structure, in order. *)
Definition assign (l : list (cfield * Z)) (c : Z) : Z :=
  foldl (fun c '(f, v) => put f v c) c l.
