(* ===== verification/Fields.v ===== *)
(** * Fields: register fields given by masks ([qdma_access_common.h])

    The hardware access libraries describe a field of a register by the mask of
    its bits, [GENMASK(h, l)] or [BIT(n)].  [FIELD_GET] takes a field out of a
    word, [FIELD_SET] puts a value at its place; how far to shift is computed from the
    mask by [get_trailing_zeros].  A mask of consecutive bits is a [cfield] of
    the word, [field_of], which is how the proofs see it. *)

From S2P Require Import Prelude CLayout.
Local Open Scope Z_scope.

Definition GENMASK (h l : Z) : Z := Z.shiftl (Z.ones (h - l + 1)) l.
Definition BIT (n : Z) : Z := Z.shiftl 1 n.

(** A [uint64_t]; each step halves the part of it that is searched. *)
Definition get_trailing_zeros (value : Z) : Z :=
  let pos := 0 in
  let '(pos, value) :=
    if Z.land value 0xffffffff =? 0 then (pos + 32, Z.shiftr value 32) else (pos, value) in
  let '(pos, value) :=
    if Z.land value 0xffff =? 0 then (pos + 16, Z.shiftr value 16) else (pos, value) in
  let '(pos, value) :=
    if Z.land value 0xff =? 0 then (pos + 8, Z.shiftr value 8) else (pos, value) in
  let '(pos, value) :=
    if Z.land value 0xf =? 0 then (pos + 4, Z.shiftr value 4) else (pos, value) in
  let '(pos, value) :=
    if Z.land value 0x3 =? 0 then (pos + 2, Z.shiftr value 2) else (pos, value) in
  if Z.land value 0x1 =? 0 then pos + 1 else pos.

Definition FIELD_SHIFT (mask : Z) : Z := get_trailing_zeros mask.
Definition FIELD_SET (mask val : Z) : Z := Z.land (Z.shiftl val (FIELD_SHIFT mask)) mask.
Definition FIELD_GET (mask reg : Z) : Z := Z.shiftr (Z.land reg mask) (FIELD_SHIFT mask).

(** [a | b] *)
Notation "a .| b" := (Z.lor a b) (at level 50, left associativity) : reconic_scope.
Local Open Scope reconic_scope.

(** ** The search for the lowest bit *)

(** The number of zeros below the lowest one of a number: the reference. *)
Fixpoint ctz (p : positive) : Z :=
  match p with
  | xO q => 1 + ctz q
  | _ => 0
  end.

Lemma ctz_nonneg p : 0 <= ctz p.
Proof. induction p; simpl; lia. Qed.

(** It is the exponent of two in the number. *)
Lemma ctz_odd p value pos :
  0 <= pos -> Zpos p = value * 2 ^ pos -> Z.odd value = true -> ctz p = pos.
Proof.
  revert pos. induction p as [p IH|p IH|]; intros pos Hp Heq Ho.
  - simpl. destruct (Z.eq_dec pos 0) as [->|]; [done|].
    replace pos with (Z.succ (pos - 1)) in Heq by lia. rewrite Z.pow_succ_r in Heq by lia. lia.
  - cbn [ctz]. destruct (Z.eq_dec pos 0) as [->|].
    { rewrite Z.mul_1_r in Heq. subst value. done. }
    rewrite (IH (pos - 1)); [lia|lia| |done].
    replace pos with (Z.succ (pos - 1)) in Heq by lia. rewrite Z.pow_succ_r in Heq by lia. lia.
  - simpl. destruct (Z.eq_dec pos 0) as [->|]; [done|].
    replace pos with (Z.succ (pos - 1)) in Heq by lia. rewrite Z.pow_succ_r in Heq by lia. lia.
Qed.

(** [v] is [value] moved up by [pos] bits, and one of the [n] lowest bits of [value]
    is set. *)
Definition searched (v : positive) (pos value n : Z) : Prop :=
  0 <= pos /\ 0 < value /\ Zpos v = value * 2 ^ pos /\ value mod 2 ^ n <> 0.

Lemma search_step v mask n pos value :
  0 < n -> mask = Z.ones n -> searched v pos value (2 * n) ->
  let r := if Z.land value mask =? 0 then (pos + n, Z.shiftr value n) else (pos, value) in
  searched v r.1 r.2 n.
Proof.
  intros Hn -> (Hp & Hv & Heq & Hm). rewrite Z.land_ones by lia.
  assert (0 < 2 ^ n) as H2 by (apply Z.pow_pos_nonneg; lia).
  destruct (Z.eqb_spec (value mod 2 ^ n) 0) as [E|E]; simpl; [|done].
  rewrite Z.shiftr_div_pow2 by lia.
  assert (value = 2 ^ n * (value / 2 ^ n)) as Hd by (apply Z_div_exact_full_2; lia).
  set (q := value / 2 ^ n) in *.
  split_and!; [lia|nia|rewrite Heq, Hd, Z.pow_add_r by lia; ring|].
  intros Hq. apply Hm. rewrite Hd. replace (2 * n) with (n + n) by lia.
  rewrite Z.pow_add_r, Zmult_mod_distr_l, Hq by lia. lia.
Qed.

(** One step of the search; the mask is that of the [n] lowest bits. *)
Ltac halve v n H x :=
  match type of H with
  | searched v ?p ?y _ =>
      let m := eval vm_compute in (Z.ones n) in
      pose proof (search_step v m n p y ltac:(lia) eq_refl H) as H';
      cbv beta zeta in H'; clear H; rename H' into H;
      match type of H with
      | searched v ?r.1 _ _ => let p := fresh "pos" in destruct r as [p x]; cbn [fst snd] in H
      end
  end.

(** The search by halves finds the lowest bit.  For every 64-bit number but zero,
    [get_trailing_zeros] is the number of zeros below the lowest one, as counted
    bit by bit. *)
Theorem get_trailing_zeros_ctz v : is_u64 (Zpos v) -> get_trailing_zeros (Zpos v) = ctz v.
Proof.
  intros Hv. unfold get_trailing_zeros.
  assert (searched v 0 (Zpos v) (2 * 32)) as H.
  { unfold searched. split_and!; [lia|lia|lia|]. rewrite Z.mod_small; [done|]. exact Hv. }
  halve v 32 H x1. halve v 16 H x2. halve v 8 H x3. halve v 4 H x4. halve v 2 H x.
  destruct H as (Hp & Hx & Heq & Hm). change 1 with (Z.ones 1) at 1. rewrite Z.land_ones by lia.
  symmetry. destruct (Z.eqb_spec (x mod 2 ^ 1) 0) as [E|E].
  - apply ctz_odd with (x / 2); [lia| |].
    + assert (x = 2 * (x / 2)) as Hd by (Z.div_mod_to_equations; lia).
      rewrite Heq, Z.pow_add_r by lia. rewrite Hd at 1. ring.
    + rewrite Zodd_mod. apply Z.eqb_eq. Z.div_mod_to_equations. lia.
  - apply ctz_odd with x; [done..|]. rewrite Zodd_mod. apply Z.eqb_eq.
    Z.div_mod_to_equations. lia.
Qed.

Lemma get_trailing_zeros_ctz_witness : get_trailing_zeros 0x30000 = ctz 0x30000.
Proof. apply (get_trailing_zeros_ctz 0x30000). unfold is_u64. lia. Defined.

(** ** Masks of consecutive bits *)

(** The run of bits a mask stands for. *)
Definition field_of (mask : Z) : cfield :=
  mk_field (FIELD_SHIFT mask) (Z.log2 mask + 1 - FIELD_SHIFT mask).

Definition is_run (mask : Z) : bool :=
  (0 <=? f_bit (field_of mask)) && (0 <=? f_width (field_of mask)) &&
  (mask =? Z.shiftl (Z.ones (f_width (field_of mask))) (f_bit (field_of mask))).

Section masks.
Implicit Types (mask m v w x : Z) (f : cfield).

Lemma is_run_spec mask :
  is_run mask = true ->
  field_ok (field_of mask) /\
  mask = Z.shiftl (Z.ones (f_width (field_of mask))) (f_bit (field_of mask)).
Proof. unfold is_run, field_ok. rewrite !andb_true_iff, !Z.leb_le, Z.eqb_eq. tauto. Qed.

Lemma FIELD_GET_fld mask x : is_run mask = true -> FIELD_GET mask x = fld (field_of mask) x.
Proof.
  intros [[Hb Hw] Hm]%is_run_spec. unfold FIELD_GET.
  change (FIELD_SHIFT mask) with (f_bit (field_of mask)). rewrite Hm at 1.
  unfold fld. apply Z.bits_inj'. intros n Hn.
  rewrite Z.shiftr_spec, !Z.land_spec, Z.shiftl_spec, Z.shiftr_spec by lia.
  by replace (n + f_bit (field_of mask) - f_bit (field_of mask)) with n by lia.
Qed.

Lemma FIELD_SET_put mask v : is_run mask = true -> FIELD_SET mask v = put (field_of mask) v 0.
Proof.
  intros [[Hb Hw] Hm]%is_run_spec. unfold FIELD_SET, put. rewrite Z.ldiff_0_l, Z.lor_0_l.
  change (FIELD_SHIFT mask) with (f_bit (field_of mask)). rewrite Hm at 2.
  by rewrite Z.shiftl_land.
Qed.

Lemma fld_lor f v w : fld f (v .| w) = fld f v .| fld f w.
Proof. unfold fld. by rewrite Z.shiftr_lor, Z.land_lor_distr_l. Qed.

(** A field of a word that was put together from fields. *)
Lemma fld_set_same f mask v :
  is_run mask = true -> field_of mask = f -> fld f (FIELD_SET mask v) = v mod 2 ^ f_width f.
Proof. intros Hr <-. rewrite FIELD_SET_put by done. apply fld_put_same. by apply is_run_spec. Qed.

Lemma fld_set_apart f mask v :
  is_run mask = true -> field_ok f -> apart f (field_of mask) -> fld f (FIELD_SET mask v) = 0.
Proof.
  intros Hr Hf Ha. rewrite FIELD_SET_put by done. rewrite fld_put_apart; [apply fld_zero|done| |done].
  by apply is_run_spec.
Qed.

(** A value that is cut in two and put together again. *)
Lemma set_get mask x : is_run mask = true -> FIELD_SET mask (FIELD_GET mask x) = Z.land x mask.
Proof.
  intros Hr. rewrite FIELD_GET_fld, FIELD_SET_put by done. apply is_run_spec in Hr as [[Hb Hw] Hm].
  rewrite Hm at 3. apply Z.bits_inj'. intros n Hn.
  rewrite put_testbit, Z.testbit_0_l, Z.land_spec, Z.shiftl_spec by (unfold field_ok; lia).
  destruct (Z.leb_spec (f_bit (field_of mask)) n); cbn [andb].
  - rewrite testbit_ones_low by lia. rewrite fld_testbit by (unfold field_ok; lia).
    replace (n - f_bit (field_of mask) + f_bit (field_of mask)) with n by lia.
    destruct (Z.ltb_spec n (f_bit (field_of mask) + f_width (field_of mask))),
      (Z.ltb_spec (n - f_bit (field_of mask)) (f_width (field_of mask))); try lia;
      by rewrite ?andb_true_r, ?andb_false_r.
  - rewrite (Z.testbit_neg_r _ (n - f_bit (field_of mask))) by lia. by rewrite andb_false_r.
Qed.

Lemma get_small mask x w :
  is_run mask = true -> f_width (field_of mask) <= w -> FIELD_GET mask x mod 2 ^ w = FIELD_GET mask x.
Proof. intros Hr Hw. rewrite FIELD_GET_fld by done. apply fld_mod; [by apply is_run_spec|done]. Qed.

Lemma set_get_mod mask x w :
  is_run mask = true -> f_width (field_of mask) = w ->
  FIELD_SET mask (FIELD_GET mask x mod 2 ^ w) = Z.land x mask.
Proof. intros Hr <-. rewrite get_small by (done || lia). by apply set_get. Qed.

Lemma land_split x m1 m2 : Z.land x m1 .| Z.land x m2 = Z.land x (m1 .| m2).
Proof. by rewrite Z.land_lor_distr_r. Qed.

Lemma land_low_ones x m w : 0 <= w -> m = Z.ones w -> Z.land x m = x mod 2 ^ w.
Proof. intros Hw ->. by apply Z.land_ones. Qed.

Lemma set_range mask v : is_run mask = true -> mask < 2 ^ 32 -> is_u32 (FIELD_SET mask v).
Proof.
  intros Hr Hm. unfold is_u32. unfold FIELD_SET.
  assert (0 <= mask).
  { apply is_run_spec in Hr as [[Hb Hw] ->]. apply Z.shiftl_nonneg. rewrite Z.ones_equiv.
    apply Z.lt_le_pred, Z.pow_pos_nonneg; lia. }
  split; [apply Z.land_nonneg; by right|].
  change 4294967296 with (2 ^ 32). rewrite <- (Z.mod_small mask (2 ^ 32)) by done.
  rewrite <- Z.land_ones by done. rewrite Z.land_assoc, Z.land_ones by done.
  by apply Z.mod_pos_bound.
Qed.

(** A disjunction is one of the two only if the other is part of it. *)
Lemma lor_absorbs v w : v .| w = w <-> Z.land v w = v.
Proof.
  split; intros E.
  - rewrite <- E. apply Z.bits_inj'. intros n Hn. rewrite Z.land_spec, Z.lor_spec.
    by destruct (Z.testbit v n).
  - rewrite <- E. apply Z.bits_inj'. intros n Hn. rewrite Z.lor_spec, Z.land_spec.
    by destruct (Z.testbit v n), (Z.testbit w n).
Qed.

Lemma lor_u32 v w : is_u32 v -> is_u32 w -> is_u32 (v .| w).
Proof.
  unfold is_u32. intros Hv Hw. split; [apply Z.lor_nonneg; lia|].
  change 4294967296 with (2 ^ 32) in *. rewrite <- (Z.mod_small v (2 ^ 32)), <- (Z.mod_small w (2 ^ 32)) by done.
  rewrite <- !Z.land_ones, <- Z.land_lor_distr_l, Z.land_ones by done. by apply Z.mod_pos_bound.
Qed.
End masks.

(** [reg_fields] computes a field of a word that is put together from fields; the
    masks are numbers. *)
Ltac run_side := vm_compute; (reflexivity || discriminate).

Ltac reg_fields :=
  repeat first
    [ rewrite fld_lor
    | rewrite fld_set_same by (vm_compute; reflexivity)
    | rewrite fld_set_apart by (first [layout_side | vm_compute; reflexivity]) ];
  rewrite ?Z.lor_0_l, ?Z.lor_0_r.
