(* ===== verification/Indirect.v ===== *)
(** * Indirect: indirect register access ([qdma_access_common.c] and the access libraries)

    Contexts are not in registers of their own: the driver puts the words of a
    context into data registers, writes a command that names the kind of context and
    the queue, and waits until the command register is no longer busy.  The three access
    libraries do this with the same code, at addresses and with a number of data
    registers that [IndRegs] holds.

    What the commands do in the hardware is the interface [ContextMemory]: a
    memory of contexts, addressed by kind and queue. *)

From stdpp Require Import gmap.
From S2P Require Import Prelude QdmaErrors Mmio CLayout Fields.
Local Open Scope Z_scope.

(** ** Polling and arrays of registers *)

Definition QDMA_REG_POLL_DFLT_INTERVAL_US : Z := 10.
Definition QDMA_REG_POLL_DFLT_TIMEOUT_US : Z := 500 * 1000.

Section registers.
Context {S : Type} `{HasTrace S} `{MmioDevice}.

(** The [do] loop: at most [count] readings, until one matches. *)
Fixpoint poll_reg (count : nat) (reg mask val : Z) : M S bool :=
  match count with
  | O => mret false
  | Datatypes.S count' =>
      v ← read32_data reg;
      if Z.land v mask =? val then mret true else poll_reg count' reg mask val
  end.

(** The number of rounds of [do ... while (--count)]; from 0 it would wrap
    around. *)
Definition poll_rounds (count : Z) : nat := Z.to_nat (u32 (count - 1) + 1).

Definition hw_monitor_reg (reg mask val interval_us timeout_us : Z) : M S Z :=
  let interval_us := if interval_us =? 0 then QDMA_REG_POLL_DFLT_INTERVAL_US else interval_us in
  let timeout_us := if timeout_us =? 0 then QDMA_REG_POLL_DFLT_TIMEOUT_US else timeout_us in
  let count := timeout_us / interval_us in
  found ← poll_reg (poll_rounds count) reg mask val;
  if (found : bool) then mret 0
  else
    v ← read32_data reg;
    mret (if Z.land v mask =? val then 0 else neg QDMA_ERR_HWACC_BUSY_TIMEOUT).

Definition csr_addr (reg_offst : Z) (i : Z) : Z := u32 (reg_offst + i * 4).

(** [values] is the array, [cnt] the number of its elements to write. *)
Definition qdma_write_csr_values (reg_offst idx : Z) (cnt : nat) (values : list Z) : M S unit :=
  for_each (seq 0 cnt) (fun i =>
    write32_data (csr_addr reg_offst (idx + Z.of_nat i)) (nth i values 0)).

Fixpoint read_regs (addrs : list Z) : M S (list Z) :=
  match addrs with
  | [] => mret []
  | a :: addrs' => v ← read32_data a; vs ← read_regs addrs'; mret (v :: vs)
  end.

Definition qdma_read_csr_values (reg_offst idx : Z) (cnt : nat) : M S (list Z) :=
  read_regs ((fun i => csr_addr reg_offst (idx + Z.of_nat i)) <$> seq 0 cnt).
End registers.

(** ** Commands *)

Inductive ind_ctxt_cmd_op :=
| QDMA_CTXT_CMD_CLR | QDMA_CTXT_CMD_WR | QDMA_CTXT_CMD_RD | QDMA_CTXT_CMD_INV.

Inductive ind_ctxt_cmd_sel :=
| QDMA_CTXT_SEL_SW_C2H | QDMA_CTXT_SEL_SW_H2C | QDMA_CTXT_SEL_HW_C2H | QDMA_CTXT_SEL_HW_H2C
| QDMA_CTXT_SEL_CR_C2H | QDMA_CTXT_SEL_CR_H2C | QDMA_CTXT_SEL_CMPT | QDMA_CTXT_SEL_PFTCH
| QDMA_CTXT_SEL_INT_COAL | QDMA_CTXT_SEL_PASID_RAM_LOW | QDMA_CTXT_SEL_PASID_RAM_HIGH
| QDMA_CTXT_SEL_TIMER | QDMA_CTXT_SEL_FMAP.

#[export] Instance ind_ctxt_cmd_op_eq_dec : EqDecision ind_ctxt_cmd_op.
Proof. solve_decision. Defined.
#[export] Instance ind_ctxt_cmd_sel_eq_dec : EqDecision ind_ctxt_cmd_sel.
Proof. solve_decision. Defined.

Definition cmd_op_code (op : ind_ctxt_cmd_op) : Z :=
  match op with
  | QDMA_CTXT_CMD_CLR => 0 | QDMA_CTXT_CMD_WR => 1 | QDMA_CTXT_CMD_RD => 2 | QDMA_CTXT_CMD_INV => 3
  end.

Definition cmd_sel_code (sel : ind_ctxt_cmd_sel) : Z :=
  match sel with
  | QDMA_CTXT_SEL_SW_C2H => 0 | QDMA_CTXT_SEL_SW_H2C => 1 | QDMA_CTXT_SEL_HW_C2H => 2
  | QDMA_CTXT_SEL_HW_H2C => 3 | QDMA_CTXT_SEL_CR_C2H => 4 | QDMA_CTXT_SEL_CR_H2C => 5
  | QDMA_CTXT_SEL_CMPT => 6 | QDMA_CTXT_SEL_PFTCH => 7 | QDMA_CTXT_SEL_INT_COAL => 8
  | QDMA_CTXT_SEL_PASID_RAM_LOW => 9 | QDMA_CTXT_SEL_PASID_RAM_HIGH => 10
  | QDMA_CTXT_SEL_TIMER => 11 | QDMA_CTXT_SEL_FMAP => 12
  end.

(** [union qdma_ind_ctxt_cmd] *)
Module ind_cmd.
Definition busy := bits_at 0 0 1.
Definition sel := bits_at 0 1 4.
Definition op := bits_at 0 5 2.
Definition qid := bits_at 0 7 11.
End ind_cmd.

Definition ind_cmd_word (op : ind_ctxt_cmd_op) (sel : ind_ctxt_cmd_sel) (hw_qid : Z) : Z :=
  put ind_cmd.sel (cmd_sel_code sel) (put ind_cmd.op (cmd_op_code op) (put ind_cmd.qid hw_qid 0)).

Definition IND_CTXT_CMD_BUSY_MASK : Z := BIT 0.

(** The registers of a library: the first data register, the command register and the
    number of data registers; the mask registers lie between them. *)
Class IndRegs := {
  ind_data_addr : Z;
  ind_cmd_addr : Z;
  ind_num_regs : nat;
  ind_regs_consecutive : ind_cmd_addr = ind_data_addr + 4 * (2 * Z.of_nat ind_num_regs) }.

Section commands.
Context {S : Type} `{HasTrace S} `{MmioDevice} `{IndRegs}.

(** Waiting for the end of a command. *)
Definition ind_wait : M S Z :=
  rv ← hw_monitor_reg ind_cmd_addr IND_CTXT_CMD_BUSY_MASK 0
         QDMA_REG_POLL_DFLT_INTERVAL_US QDMA_REG_POLL_DFLT_TIMEOUT_US;
  mret (if rv =? 0 then 0 else neg QDMA_ERR_HWACC_BUSY_TIMEOUT).

Definition indirect_reg_invalidate (sel : ind_ctxt_cmd_sel) (hw_qid : Z) : M S Z :=
  write32_data ind_cmd_addr (ind_cmd_word QDMA_CTXT_CMD_INV sel hw_qid);;
  ind_wait.

Definition indirect_reg_clear (sel : ind_ctxt_cmd_sel) (hw_qid : Z) : M S Z :=
  write32_data ind_cmd_addr (ind_cmd_word QDMA_CTXT_CMD_CLR sel hw_qid);;
  ind_wait.

Definition ind_data_reg (i : nat) : Z := ind_data_addr + 4 * Z.of_nat i.

(** The code and the words; there are none when the code is not 0. *)
Definition indirect_reg_read (sel : ind_ctxt_cmd_sel) (hw_qid : Z) (cnt : nat) : M S (Z * list Z) :=
  write32_data ind_cmd_addr (ind_cmd_word QDMA_CTXT_CMD_RD sel hw_qid);;
  rv ← ind_wait;
  if negb (rv =? 0) then mret (rv, [])
  else
    data ← read_regs (ind_data_reg <$> seq 0 cnt);
    mret (0, data).

(** The registers as the library fills its [regs] structure: the data, zeros after
    it, masks of ones and the command. *)
Definition ind_regs_image (sel : ind_ctxt_cmd_sel) (hw_qid : Z) (data : list Z) : list Z :=
  ((fun i => nth i data 0) <$> seq 0 ind_num_regs) ++
  replicate ind_num_regs 0xFFFFFFFF ++
  [ind_cmd_word QDMA_CTXT_CMD_WR sel hw_qid].

Definition indirect_reg_write (sel : ind_ctxt_cmd_sel) (hw_qid : Z) (data : list Z) : M S Z :=
  let wr_data := ind_regs_image sel hw_qid data in
  for_each (seq 0 (2 * ind_num_regs + 1)) (fun index =>
    write32_data (ind_data_reg index) (nth index wr_data 0));;
  ind_wait.
End commands.
