(* ===== verification/IndirectMem.v ===== *)
(** * IndirectMem: the indirect commands are a memory of contexts

    [ContextMemory] says what a device does with the commands of Indirect: it
    keeps a context for each kind and queue number.  On such a device the functions
    of a library read, write, clear and invalidate that memory, and wait no longer than
    the commands take. *)

From stdpp Require Import gmap.
From S2P Require Import Prelude QdmaErrors Mmio CLayout Fields Indirect.
Local Open Scope Z_scope.

(** ** Polling *)

Section polling.
Context {S : Type} `{HasTrace S} `{MmioDevice}.
Implicit Types (s : S) (tr : trace).

Definition reading tr reg : Z := u32 (mmio_value tr reg).

(** The history after [n] more readings of [reg]. *)
Fixpoint polled (n : nat) (reg : Z) tr : trace :=
  match n with
  | O => tr
  | Datatypes.S n' => polled n' reg (Rd reg (reading tr reg) :: tr)
  end.

Lemma polled_writes n reg tr : writes (polled n reg tr) = writes tr.
Proof. revert tr. induction n as [|n IH]; intros tr; [done|]. simpl. by rewrite IH. Qed.

Lemma polled_succ n reg tr :
  polled (Datatypes.S n) reg tr = Rd reg (reading (polled n reg tr) reg) :: polled n reg tr.
Proof. revert tr. induction n as [|n IH]; intros tr; [done|]. simpl in *. by rewrite IH. Qed.

(** The [k]-th reading from now. *)
Definition nth_reading (k : nat) (reg : Z) tr : Z := reading (polled k reg tr) reg.

Lemma read_run reg s : read32_data reg s = Ret (reading (trace_of s) reg)
  (with_trace (Rd reg (reading (trace_of s) reg) :: trace_of s) s).
Proof. done. Qed.

Lemma poll_reg_run count reg mask val s :
  exists n b, poll_reg count reg mask val s = Ret b (with_trace (polled n reg (trace_of s)) s) /\
    (n <= count)%nat /\
    (forall k, (k < n - 1)%nat -> Z.land (nth_reading k reg (trace_of s)) mask <> val) /\
    if b : bool then (0 < n)%nat /\ Z.land (nth_reading (n - 1) reg (trace_of s)) mask = val
    else n = count /\ forall k, (k < count)%nat -> Z.land (nth_reading k reg (trace_of s)) mask <> val.
Proof.
  revert s. induction count as [|count IH]; intros s.
  { exists O, false. simpl. rewrite with_trace_of. split_and!; [done|lia|lia|done|lia]. }
  cbn [poll_reg]. rewrite (bind_Ret _ _ _ _ _ (read_run reg s)).
  set (v := reading (trace_of s) reg). destruct (Z.eqb_spec (Z.land v mask) val) as [E|E].
  { exists 1%nat, true. simpl. split_and!; [done|lia|lia|lia|done]. }
  destruct (IH (with_trace (Rd reg v :: trace_of s) s)) as (n & b & Hrun & Hle & Hlt & Hb).
  rewrite trace_of_with in *. rewrite with_trace_twice in Hrun.
  exists (Datatypes.S n), b. split; [exact Hrun|]. split; [lia|].
  assert (forall (P : nat -> Prop) m, P O -> (forall k, (k < m - 1)%nat -> P (Datatypes.S k)) ->
            forall k, (k < m)%nat -> P k) as Hcase.
  { intros P m Hz HS [|k] Hk; [done|]. apply HS. lia. }
  destruct b.
  - destruct Hb as [Hn Hb]. split.
    + apply Hcase; [done|]. intros k Hk. apply (Hlt k). lia.
    + split; [lia|]. replace (Datatypes.S n - 1)%nat with (Datatypes.S (n - 1)) by lia. exact Hb.
  - destruct Hb as [-> Hb]. split.
    + apply Hcase; [done|]. intros k Hk. apply (Hb k). lia.
    + split; [done|]. apply Hcase; [done|]. intros k Hk. apply (Hb k). lia.
Qed.

(** Either way, a number of readings is all that happens. *)
Lemma hw_monitor_reg_run reg mask val interval timeout s :
  let count := poll_rounds ((if timeout =? 0 then QDMA_REG_POLL_DFLT_TIMEOUT_US else timeout)
                            / (if interval =? 0 then QDMA_REG_POLL_DFLT_INTERVAL_US else interval)) in
  exists n rv, hw_monitor_reg reg mask val interval timeout s
      = Ret rv (with_trace (polled n reg (trace_of s)) s) /\
    (0 < n <= count + 1)%nat /\
    (forall k, (k < n - 1)%nat -> Z.land (nth_reading k reg (trace_of s)) mask <> val) /\
    if Z.land (nth_reading (n - 1) reg (trace_of s)) mask =? val then rv = 0
    else rv = neg QDMA_ERR_HWACC_BUSY_TIMEOUT /\ n = (count + 1)%nat.
Proof.
  intros count. unfold hw_monitor_reg. fold count.
  destruct (poll_reg_run count reg mask val s) as (n & b & Hrun & Hle & Hlt & Hb).
  rewrite (bind_Ret _ _ _ _ _ Hrun). destruct b.
  - destruct Hb as [Hn Hb]. exists n, 0. split_and!; [done|lia|lia|done|].
    by rewrite (proj2 (Z.eqb_eq _ _) Hb).
  - destruct Hb as [-> Hb]. exists (Datatypes.S count), (if Z.land (nth_reading count reg (trace_of s)) mask =? val
      then 0 else neg QDMA_ERR_HWACC_BUSY_TIMEOUT).
    rewrite (bind_Ret _ _ _ _ _ (read_run _ _)), trace_of_with, with_trace_twice, polled_succ.
    replace (Datatypes.S count - 1)%nat with count by lia.
    split_and!; [done|lia|lia|intros k Hk; apply Hb; lia|].
    case_match; [done|]. split; [done|lia].
Qed.

(** Waiting for a register ends.  It takes at most one reading more than the
    number of intervals in the timeout, it writes nothing, it returns 0 exactly
    when a reading matched, at once, and the timeout code exactly when none of them
    did. *)
Theorem hw_monitor_reg_ends reg mask val interval timeout s :
  let count := poll_rounds ((if timeout =? 0 then QDMA_REG_POLL_DFLT_TIMEOUT_US else timeout)
                            / (if interval =? 0 then QDMA_REG_POLL_DFLT_INTERVAL_US else interval)) in
  exists n rv, hw_monitor_reg reg mask val interval timeout s
      = Ret rv (with_trace (polled n reg (trace_of s)) s) /\
    (0 < n <= count + 1)%nat /\
    (forall k, (k < n - 1)%nat -> Z.land (nth_reading k reg (trace_of s)) mask <> val) /\
    if Z.land (nth_reading (n - 1) reg (trace_of s)) mask =? val then rv = 0
    else rv = neg QDMA_ERR_HWACC_BUSY_TIMEOUT /\ n = (count + 1)%nat.
Proof. apply hw_monitor_reg_run. Qed.
End polling.

(** ** The memory of contexts *)

(** A context is found by the code of its kind and a queue, ring or function
    number; a command has room for eleven bits of the latter. *)
Definition ctxt_key (sel : ind_ctxt_cmd_sel) (hw_qid : Z) : Z * Z := (cmd_sel_code sel, hw_qid mod 2 ^ 11).

(** What the data and mask registers and the memory hold. *)
Record ind_state := mk_ind { i_data : list Z; i_mask : list Z; i_ctxts : gmap (Z * Z) (list Z) }.

Section memory.
Context `{IndRegs}.

Definition no_ctxt : list Z := replicate ind_num_regs 0.

Definition ctxt_at (cs : gmap (Z * Z) (list Z)) (key : Z * Z) : list Z := default no_ctxt (cs !! key).

(** Writing a word of a context changes the bits of the mask. *)
Definition merge_word (d m old : Z) : Z := Z.lor (Z.land d m) (Z.land old (Z.lxor m 0xFFFFFFFF)).

Fixpoint merge_words (ds ms olds : list Z) : list Z :=
  match ds, ms, olds with
  | d :: ds', m :: ms', o :: olds' => merge_word d m o :: merge_words ds' ms' olds'
  | _, _, _ => []
  end.

(** The effect of one register write; [inv] is what invalidating does. *)
Definition ind_step (inv : Z -> list Z -> list Z) (s : ind_state) (w : Z * Z) : ind_state :=
  let '(a, v) := w in
  let i := Z.to_nat ((a - ind_data_addr) / 4) in
  if a =? ind_cmd_addr then
    let key := (fld ind_cmd.sel v, fld ind_cmd.qid v) in
    let old := ctxt_at (i_ctxts s) key in
    let op := fld ind_cmd.op v in
    let store c := mk_ind (i_data s) (i_mask s) (<[key := c]> (i_ctxts s)) in
    if op =? cmd_op_code QDMA_CTXT_CMD_CLR then store no_ctxt
    else if op =? cmd_op_code QDMA_CTXT_CMD_WR then store (merge_words (i_data s) (i_mask s) old)
    else if op =? cmd_op_code QDMA_CTXT_CMD_RD then mk_ind old (i_mask s) (i_ctxts s)
    else store (inv key.1 old)
  else if a =? ind_data_reg i then
    if (i <? ind_num_regs)%nat then mk_ind (<[i := v]> (i_data s)) (i_mask s) (i_ctxts s)
    else if (i <? 2 * ind_num_regs)%nat then
      mk_ind (i_data s) (<[(i - ind_num_regs)%nat := v]> (i_mask s)) (i_ctxts s)
    else s
  else s.

Definition ind_init : ind_state := mk_ind no_ctxt no_ctxt ∅.

Definition ind_after (inv : Z -> list Z -> list Z) (ws : list (Z * Z)) : ind_state :=
  foldl (ind_step inv) ind_init ws.

(** A device that obeys: commands end before the driver gives up, and a read
    command leaves the context in the data registers. *)
Class ContextMemory (D : MmioDevice) := {
  cm_inv : Z -> list Z -> list Z;
  cm_inv_length k c : length (cm_inv k c) = length c;
  cm_ready tr : exists k, Z.of_nat k < 50000 /\ Z.land (nth_reading k ind_cmd_addr tr) 1 = 0;
  cm_data tr i : (i < ind_num_regs)%nat ->
    reading tr (ind_data_reg i) = u32 (nth i (i_data (ind_after cm_inv (writes tr))) 0) }.
End memory.

Section commands.
Context {S : Type} `{HasTrace S} `{IndRegs} (D : MmioDevice) `{!ContextMemory D}.
Implicit Types (s : S) (sel : ind_ctxt_cmd_sel).
Local Existing Instance D.

Definition ind_of s : ind_state := ind_after cm_inv (writes (trace_of s)).

(** The memory a program state has led to. *)
Definition contexts s : gmap (Z * Z) (list Z) := i_ctxts (ind_of s).

Definition ind_wf (st : ind_state) : Prop :=
  length (i_data st) = ind_num_regs /\ length (i_mask st) = ind_num_regs /\
  forall key, length (ctxt_at (i_ctxts st) key) = ind_num_regs.

Lemma no_ctxt_length : length no_ctxt = ind_num_regs.
Proof. apply length_replicate. Qed.

Lemma merge_words_length ds ms olds :
  length ds = length ms -> length ms = length olds -> length (merge_words ds ms olds) = length olds.
Proof.
  revert ms olds. induction ds as [|d ds IH]; intros [|m ms] [|o olds]; simpl; try done.
  intros [= ?] [= ?]. f_equal. by apply IH.
Qed.

Lemma ctxt_at_insert cs key c key' :
  ctxt_at (<[key := c]> cs) key' = if decide (key = key') then c else ctxt_at cs key'.
Proof.
  unfold ctxt_at. case_decide as E; [subst; by rewrite lookup_insert_eq|by rewrite lookup_insert_ne].
Qed.

Lemma ind_step_wf st w : ind_wf st -> ind_wf (ind_step cm_inv st w).
Proof.
  intros (Hd & Hm & Hc). destruct w as [a v]. unfold ind_step.
  repeat case_match; unfold ind_wf; cbn [i_data i_mask i_ctxts];
    rewrite ?length_insert; split_and!; try done; try (by apply Hc);
    intros key'; rewrite ctxt_at_insert; case_decide; try done;
    [apply no_ctxt_length|rewrite merge_words_length by (rewrite ?Hc; congruence); apply Hc
    |rewrite cm_inv_length; apply Hc].
Qed.

Lemma ind_of_wf s : ind_wf (ind_of s).
Proof.
  unfold ind_of, ind_after. assert (ind_wf ind_init) as Hi.
  { unfold ind_wf, ind_init. cbn [i_data i_mask i_ctxts]. rewrite no_ctxt_length.
    split_and!; [done..|]. intros key. unfold ctxt_at. rewrite lookup_empty. apply no_ctxt_length. }
  revert Hi. generalize ind_init. induction (writes (trace_of s)) as [|w ws IH]; intros st Hst; [done|].
  simpl. by apply IH, ind_step_wf.
Qed.

(** A command ends, and waiting for it changes nothing. *)
Lemma ind_wait_run s : exists s', ind_wait s = Ret 0 s' /\ writes (trace_of s') = writes (trace_of s).
Proof.
  unfold ind_wait.
  destruct (hw_monitor_reg_run ind_cmd_addr IND_CTXT_CMD_BUSY_MASK 0 QDMA_REG_POLL_DFLT_INTERVAL_US
    QDMA_REG_POLL_DFLT_TIMEOUT_US s) as (n & rv & Hrun & Hn & Hlt & Hrv).
  rewrite (bind_Ret _ _ _ _ _ Hrun).
  destruct (cm_ready (trace_of s)) as (k & Hk & Hz).
  change IND_CTXT_CMD_BUSY_MASK with 1 in *.
  change (poll_rounds _) with (Z.to_nat 50000) in Hn, Hrv.
  assert (rv = 0) as ->.
  { destruct (Z.eqb_spec (Z.land (nth_reading (n - 1) ind_cmd_addr (trace_of s)) 1) 0); [done|].
    destruct Hrv as [_ ->]. exfalso. apply (Hlt k); [lia|exact Hz]. }
  eexists. split; [reflexivity|]. by rewrite trace_of_with, polled_writes.
Qed.

(** The memory after a state with the same writes and some more. *)
Lemma ind_of_more s s' l :
  writes (trace_of s') = writes (trace_of s) ++ l ->
  ind_of s' = foldl (ind_step cm_inv) (ind_of s) l.
Proof. intros Hw. unfold ind_of, ind_after. by rewrite Hw, foldl_app. Qed.

Lemma u32_fld z : u32 z = fld (bytes_at 0 4) z.
Proof. unfold fld. cbn [f_bit f_width bytes_at]. by rewrite Z.shiftr_0_r, Z.land_ones. Qed.

(** The parts of a command word. *)
Lemma cmd_word_parts op sel hw_qid :
  let w := u32 (ind_cmd_word op sel hw_qid) in
  fld ind_cmd.op w = cmd_op_code op /\ (fld ind_cmd.sel w, fld ind_cmd.qid w) = ctxt_key sel hw_qid.
Proof.
  intros w. unfold w. rewrite u32_fld.
  rewrite !fld_inside by by vm_compute.
  change (inside (bytes_at 0 4) ?f) with f. unfold ind_cmd_word, ctxt_key.
  destruct op, sel; by fields.
Qed.

(** One command, once the data registers are what they should be. *)
Lemma command_run op sel hw_qid s :
  exists s', (write32_data ind_cmd_addr (ind_cmd_word op sel hw_qid);; ind_wait) s = Ret 0 s' /\
    let st := ind_of s in
    let key := ctxt_key sel hw_qid in
    let old := ctxt_at (i_ctxts st) key in
    let store c := mk_ind (i_data st) (i_mask st) (<[key := c]> (i_ctxts st)) in
    ind_of s' = match op with
                | QDMA_CTXT_CMD_CLR => store no_ctxt
                | QDMA_CTXT_CMD_WR => store (merge_words (i_data st) (i_mask st) old)
                | QDMA_CTXT_CMD_RD => mk_ind old (i_mask st) (i_ctxts st)
                | QDMA_CTXT_CMD_INV => store (cm_inv (cmd_sel_code sel) old)
                end.
Proof.
  set (w := ind_cmd_word op sel hw_qid).
  destruct (ind_wait_run (log (Wr ind_cmd_addr (u32 w)) s)) as (s' & Hrun & Hw).
  exists s'. split; [exact Hrun|]. cbv zeta.
  rewrite (ind_of_more s s' [(ind_cmd_addr, u32 w)]).
  2: { rewrite Hw. unfold log. by rewrite trace_of_with. }
  destruct (cmd_word_parts op sel hw_qid) as [Ho Hk]. fold w in Ho, Hk. cbn [foldl].
  unfold ind_step. rewrite Z.eqb_refl. injection Hk as Hk1 Hk2.
  rewrite Ho, Hk1, Hk2. destruct op; reflexivity.
Qed.

(** ** Loading the registers *)

Lemma for_each_write {A} (l : list A) (reg val : A -> Z) s :
  for_each l (fun x => write32_data (reg x) (val x)) s =
  Ret tt (with_trace (written_trace ((fun x => (reg x, val x)) <$> l) (trace_of s)) s).
Proof.
  rewrite <- write_all_run. unfold write_all. revert s.
  induction l as [|x l IH]; intros s; [done|]. cbn [for_each fmap list_fmap].
  unfold mbind, M_bind, write32_data at 1 3, modify. apply IH.
Qed.

(** What writing a data or a mask register does. *)
Lemma ind_step_reg i v st :
  (i < 2 * ind_num_regs)%nat ->
  ind_step cm_inv st (ind_data_reg i, v) =
  if (i <? ind_num_regs)%nat then mk_ind (<[i := v]> (i_data st)) (i_mask st) (i_ctxts st)
  else mk_ind (i_data st) (<[(i - ind_num_regs)%nat := v]> (i_mask st)) (i_ctxts st).
Proof.
  intros Hi. unfold ind_step. rewrite (proj2 (Z.eqb_neq _ _)).
  2: { rewrite ind_regs_consecutive. unfold ind_data_reg. lia. }
  replace (Z.to_nat ((ind_data_reg i - ind_data_addr) / 4)) with i.
  2: { unfold ind_data_reg. replace (_ + _ - _) with (Z.of_nat i * 4) by lia.
       rewrite Z.div_mul by lia. lia. }
  rewrite Z.eqb_refl. case_match; [done|]. by rewrite (proj2 (Nat.ltb_lt _ _) Hi).
Qed.

Definition reg_writes (v : nat -> Z) (l : list nat) : list (Z * Z) := (fun i => (ind_data_reg i, v i)) <$> l.

Lemma reg_writes_snoc v a k : reg_writes v (seq a (Datatypes.S k)) = reg_writes v (seq a k) ++ [(ind_data_reg (a + k), v (a + k)%nat)].
Proof. unfold reg_writes. by rewrite seq_S, fmap_app. Qed.

Lemma load_data v k st :
  (k <= ind_num_regs)%nat -> length (i_data st) = ind_num_regs ->
  exists ds, foldl (ind_step cm_inv) st (reg_writes v (seq 0 k)) = mk_ind ds (i_mask st) (i_ctxts st) /\
    length ds = ind_num_regs /\ forall i, (i < k)%nat -> ds !! i = Some (v i).
Proof.
  intros Hk Hl. induction k as [|k IH]; [exists (i_data st); destruct st; split_and!; [done|done|lia]|].
  destruct IH as (ds & E & Hds & Hi); [lia|].
  rewrite reg_writes_snoc, foldl_app, E. cbn [foldl]. rewrite ind_step_reg by lia.
  rewrite (proj2 (Nat.ltb_lt _ _)) by lia. cbn [i_data i_mask i_ctxts].
  eexists. split; [done|]. rewrite length_insert. split; [done|]. intros i Hik.
  destruct (decide (i = k)) as [->|]; [by rewrite list_lookup_insert_eq by lia|].
  rewrite list_lookup_insert_ne by lia. apply Hi. lia.
Qed.

Lemma load_masks v k st :
  (k <= ind_num_regs)%nat -> length (i_mask st) = ind_num_regs ->
  exists ms, foldl (ind_step cm_inv) st (reg_writes v (seq ind_num_regs k)) = mk_ind (i_data st) ms (i_ctxts st) /\
    length ms = ind_num_regs /\ forall i, (i < k)%nat -> ms !! i = Some (v (ind_num_regs + i)%nat).
Proof.
  intros Hk Hl. induction k as [|k IH]; [exists (i_mask st); destruct st; split_and!; [done|done|lia]|].
  destruct IH as (ms & E & Hms & Hi); [lia|].
  rewrite reg_writes_snoc, foldl_app, E. cbn [foldl]. rewrite ind_step_reg by lia.
  rewrite (proj2 (Nat.ltb_ge _ _)) by lia. cbn [i_data i_mask i_ctxts].
  eexists. split; [done|]. rewrite length_insert. split; [done|]. intros i Hik.
  replace (ind_num_regs + k - ind_num_regs)%nat with k by lia.
  destruct (decide (i = k)) as [->|]; [by rewrite list_lookup_insert_eq by lia|].
  rewrite list_lookup_insert_ne by lia. apply Hi. lia.
Qed.

(** Words that all bits are taken from replace the old ones. *)
Lemma merge_all (ds : list Z) ms olds :
  Forall is_u32 ds -> Forall (eq 0xFFFFFFFF) ms -> length ds = length ms -> length ms = length olds ->
  merge_words ds ms olds = ds.
Proof.
  intros Hd. revert ms olds. induction Hd as [|d ds Hd Hds IH]; intros [|m ms] [|o olds] Hm; simpl; try done.
  intros [= ?] [= ?]. apply Forall_cons in Hm as [<- Hm]. f_equal; [|by apply IH].
  unfold merge_word. change (Z.lxor 4294967295 4294967295) with 0. rewrite Z.land_0_r, Z.lor_0_r.
  change 4294967295 with (Z.ones 32). rewrite Z.land_ones by done. by apply Z.mod_small.
Qed.

(** The words of a context of which [data] are the first ones. *)
Definition padded (data : list Z) : list Z := (fun i => nth i data 0) <$> seq 0 ind_num_regs.

Lemma padded_length data : length (padded data) = ind_num_regs.
Proof. unfold padded. by rewrite length_fmap, length_seq. Qed.

(** The image of the registers, one by one. *)
Lemma image_data sel hw_qid data i :
  (i < ind_num_regs)%nat -> nth i (ind_regs_image sel hw_qid data) 0 = nth i data 0.
Proof.
  intros Hi. unfold ind_regs_image. apply nth_lookup_Some.
  rewrite lookup_app_l by (by rewrite length_fmap, length_seq).
  by rewrite list_lookup_fmap, lookup_seq_lt by done.
Qed.

Lemma image_mask sel hw_qid data i :
  (i < ind_num_regs)%nat -> nth (ind_num_regs + i) (ind_regs_image sel hw_qid data) 0 = 0xFFFFFFFF.
Proof.
  intros Hi. unfold ind_regs_image. apply nth_lookup_Some.
  rewrite lookup_app_r; rewrite length_fmap, length_seq; [|lia].
  rewrite lookup_app_l by (rewrite length_replicate; lia). apply lookup_replicate. lia.
Qed.

Lemma image_cmd sel hw_qid data :
  nth (2 * ind_num_regs) (ind_regs_image sel hw_qid data) 0 = ind_cmd_word QDMA_CTXT_CMD_WR sel hw_qid.
Proof.
  unfold ind_regs_image. apply nth_lookup_Some.
  rewrite !lookup_app_r; rewrite ?length_fmap, ?length_seq, ?length_replicate; [|lia..].
  by replace (2 * ind_num_regs - ind_num_regs - ind_num_regs)%nat with O by lia.
Qed.

Lemma indirect_write_run sel hw_qid data s :
  Forall is_u32 data ->
  exists s', indirect_reg_write sel hw_qid data s = Ret 0 s' /\
    contexts s' = <[ctxt_key sel hw_qid := padded data]> (contexts s).
Proof.
  intros Hd. unfold indirect_reg_write.
  set (image := ind_regs_image sel hw_qid data). set (v := fun i => nth i image 0).
  replace (2 * ind_num_regs + 1)%nat with (Datatypes.S (2 * ind_num_regs)) by lia.
  rewrite seq_S. set (load := for_each (seq 0 (2 * ind_num_regs)) (fun i => write32_data (ind_data_reg i) (v i))).
  set (s1 := with_trace (written_trace ((fun i => (ind_data_reg i, v i)) <$> seq 0 (2 * ind_num_regs)) (trace_of s)) s).
  destruct (command_run QDMA_CTXT_CMD_WR sel hw_qid s1) as (s' & Hrun & Hst).
  exists s'. split.
  { unfold mbind at 1, M_bind at 1. rewrite for_each_app. unfold mbind at 1, M_bind at 1.
    rewrite for_each_write. fold s1. rewrite <- Hrun.
    cbn [for_each]. unfold mbind, M_bind, write32_data, modify, mret, M_ret. cbn [Nat.add].
    unfold image. rewrite image_cmd.
    assert (ind_data_reg (2 * ind_num_regs) = ind_cmd_addr) as ->; [|done].
    rewrite ind_regs_consecutive. unfold ind_data_reg. lia. }
  pose proof (ind_of_wf s) as (Hl & Hm & Hc).
  assert (exists ds ms, ind_of s1 = mk_ind ds ms (i_ctxts (ind_of s)) /\ ds = padded data /\
    Forall (eq 0xFFFFFFFF) ms /\ length ms = ind_num_regs) as (ds & ms & E & -> & Hms & Hlm).
  { rewrite (ind_of_more s s1 (reg_writes (fun i => u32 (v i)) (seq 0 (2 * ind_num_regs)))).
    2: { unfold s1. rewrite trace_of_with, written_trace_writes. f_equal.
         unfold reg_writes. change (@map (Z * Z) (Z * Z)) with (@fmap list list_fmap (Z * Z) (Z * Z)).
         by rewrite <- list_fmap_compose. }
    replace (2 * ind_num_regs)%nat with (ind_num_regs + ind_num_regs)%nat by lia.
    rewrite seq_app. unfold reg_writes. rewrite fmap_app, foldl_app.
    destruct (load_data (fun i => u32 (v i)) ind_num_regs (ind_of s)) as (ds & E1 & Hds & Hi); [lia|done|].
    unfold reg_writes in E1. rewrite E1.
    destruct (load_masks (fun i => u32 (v i)) ind_num_regs (mk_ind ds (i_mask (ind_of s)) (i_ctxts (ind_of s))))
      as (ms & E2 & Hms & Hj); [lia|done|].
    unfold reg_writes in E2. cbn [Nat.add]. rewrite E2. exists ds, ms. split; [done|]. split_and!; [| |done].
    - apply list_eq_same_length with ind_num_regs; [by rewrite padded_length|done|].
      intros i x y Hi' Hx Hy. rewrite Hi in Hx by lia. injection Hx as <-.
      unfold padded in Hy. rewrite list_lookup_fmap, lookup_seq_lt in Hy by lia. injection Hy as <-.
      unfold v, image. rewrite image_data by lia. apply u32_small.
      destruct (nth_lookup_or_length data i 0) as [Hx|Hx].
      + rewrite Forall_lookup in Hd. by apply (Hd i).
      + rewrite nth_overflow by done. done.
    - apply Forall_lookup. intros i x Hx. pose proof (lookup_lt_Some _ _ _ Hx).
      rewrite Hj in Hx by lia. injection Hx as <-. unfold v, image. by rewrite image_mask by lia. }
  unfold contexts at 1. rewrite Hst, E. cbn [i_ctxts i_data i_mask]. f_equal.
  apply merge_all; [|done|by rewrite padded_length|rewrite Hlm; symmetry; apply Hc].
  apply Forall_fmap, Forall_forall. intros i _. cbn.
  destruct (nth_lookup_or_length data i 0) as [Hx|Hx]; [rewrite Forall_lookup in Hd; by apply (Hd i)|].
  by rewrite nth_overflow by done.
Qed.

Lemma read_regs_run l s :
  exists vs s', read_regs l s = Ret vs s' /\ writes (trace_of s') = writes (trace_of s) /\
    length vs = length l /\
    forall i a, l !! i = Some a -> exists tr, writes tr = writes (trace_of s) /\ vs !! i = Some (reading tr a).
Proof.
  revert s. induction l as [|a l IH]; intros s; [by exists [], s|]. cbn [read_regs].
  rewrite (bind_Ret _ _ _ _ _ (read_run a s)).
  destruct (IH (with_trace (Rd a (reading (trace_of s) a) :: trace_of s) s)) as (vs & s' & E & Hw & Hl & Hi).
  rewrite trace_of_with in Hw, Hi. cbn [writes] in Hw, Hi.
  exists (reading (trace_of s) a :: vs), s'. rewrite (bind_Ret _ _ _ _ _ E).
  split_and!; [done|done|by simpl; f_equal|]. intros [|i] b Hb; [|by apply Hi].
  injection Hb as <-. by exists (trace_of s).
Qed.

Lemma indirect_read_run sel hw_qid cnt s :
  (cnt <= ind_num_regs)%nat ->
  exists s', indirect_reg_read sel hw_qid cnt s =
      Ret (0, u32 <$> take cnt (ctxt_at (contexts s) (ctxt_key sel hw_qid))) s' /\
    contexts s' = contexts s.
Proof.
  intros Hcnt. destruct (command_run QDMA_CTXT_CMD_RD sel hw_qid s) as (s1 & Hrun & Hst).
  destruct (read_regs_run (ind_data_reg <$> seq 0 cnt) s1) as (vs & s' & E & Hw & Hl & Hi).
  rewrite length_fmap, length_seq in Hl. exists s'.
  assert (ind_of s' = ind_of s1) as Hs.
  { unfold ind_of. by rewrite Hw. }
  split; [|unfold contexts; by rewrite Hs, Hst].
  unfold indirect_reg_read. rewrite <- bind_assoc, (bind_Ret _ _ _ _ _ Hrun).
  cbn [negb Z.eqb]. rewrite (bind_Ret _ _ _ _ _ E). unfold mret, M_ret. do 2 f_equal.
  pose proof (ind_of_wf s) as (_ & _ & Hc). specialize (Hc (ctxt_key sel hw_qid)).
  apply list_eq_same_length with cnt; [rewrite length_fmap, length_take; unfold contexts; lia|done|].
  intros i x y Hic Hx Hy.
  destruct (Hi i (ind_data_reg i)) as (tr & Htr & Hv).
  { by rewrite list_lookup_fmap, lookup_seq_lt by lia. }
  rewrite Hv in Hx. injection Hx as <-. rewrite list_lookup_fmap, lookup_take_lt in Hy by lia.
  rewrite cm_data by lia. rewrite Htr. fold (ind_of s1). rewrite Hst. cbn [i_data].
  destruct (_ !! i) eqn:Ei in Hy; [|done]. injection Hy as <-. f_equal. by apply nth_lookup_Some.
Qed.

Lemma indirect_clear_run sel hw_qid s :
  exists s', indirect_reg_clear sel hw_qid s = Ret 0 s' /\
    contexts s' = <[ctxt_key sel hw_qid := no_ctxt]> (contexts s).
Proof.
  destruct (command_run QDMA_CTXT_CMD_CLR sel hw_qid s) as (s' & Hrun & Hst).
  exists s'. split; [exact Hrun|]. unfold contexts. by rewrite Hst.
Qed.

Lemma indirect_invalidate_run sel hw_qid s :
  exists s', indirect_reg_invalidate sel hw_qid s = Ret 0 s' /\
    contexts s' = <[ctxt_key sel hw_qid :=
      cm_inv (cmd_sel_code sel) (ctxt_at (contexts s) (ctxt_key sel hw_qid))]> (contexts s).
Proof.
  destruct (command_run QDMA_CTXT_CMD_INV sel hw_qid s) as (s' & Hrun & Hst).
  exists s'. split; [exact Hrun|]. unfold contexts. by rewrite Hst.
Qed.

(** C5. The indirect commands implement a memory of contexts.  On a device that
    carries them out, whatever happened before: writing stores the words given
    and zeros after them under the kind and number of the context, reading returns
    the words stored there and changes nothing, clearing stores zeros, and
    invalidating changes that context only; all of them succeed.  Only the eleven
    lowest bits of the number count. *)
Theorem indirect_refines_memory sel hw_qid s :
  let key := ctxt_key sel hw_qid in
  (forall data, Forall is_u32 data ->
     exists s', indirect_reg_write sel hw_qid data s = Ret 0 s' /\
       contexts s' = <[key := padded data]> (contexts s)) /\
  (forall cnt, (cnt <= ind_num_regs)%nat ->
     exists s', indirect_reg_read sel hw_qid cnt s =
         Ret (0, u32 <$> take cnt (ctxt_at (contexts s) key)) s' /\ contexts s' = contexts s) /\
  (exists s', indirect_reg_clear sel hw_qid s = Ret 0 s' /\
     contexts s' = <[key := no_ctxt]> (contexts s)) /\
  (exists s', indirect_reg_invalidate sel hw_qid s = Ret 0 s' /\
     contexts s' = <[key := cm_inv key.1 (ctxt_at (contexts s) key)]> (contexts s)).
Proof.
  split_and!; intros.
  - by apply indirect_write_run.
  - by apply indirect_read_run.
  - apply indirect_clear_run.
  - apply indirect_invalidate_run.
Qed.
End commands.

(** ** A device *)

(** Commands end at once, the data registers hold what they should, invalidating
    clears the last word. *)
Definition memory_inv (k : Z) (c : list Z) : list Z := take (length c - 1) c ++ replicate (length c - (length c - 1)) 0.

Definition memory_device `{IndRegs} : MmioDevice := fun tr a =>
  if a =? ind_cmd_addr then 0
  else nth (Z.to_nat ((a - ind_data_addr) / 4)) (i_data (ind_after memory_inv (writes tr))) 0.

#[export] Instance memory_device_obeys `{IndRegs} : ContextMemory memory_device.
Proof.
  refine {| cm_inv := memory_inv |}.
  - intros k c. unfold memory_inv. rewrite length_app, length_take, length_replicate. lia.
  - intros tr. exists O. split; [lia|]. unfold nth_reading, reading, mmio_value, memory_device.
    simpl. by rewrite Z.eqb_refl.
  - intros tr i Hi. unfold reading, mmio_value, memory_device. rewrite (proj2 (Z.eqb_neq _ _)).
    2: { rewrite ind_regs_consecutive. unfold ind_data_reg. lia. }
    do 2 f_equal. unfold ind_data_reg. replace (_ + _ - _) with (Z.of_nat i * 4) by lia.
    rewrite Z.div_mul by lia. lia.
Defined.

(** A device with four data registers that are consecutive: what is written for queue 3
    is in the memory. *)
#[local] Instance sample_regs : IndRegs :=
  {| ind_data_addr := 0x804; ind_cmd_addr := 0x824; ind_num_regs := 4; ind_regs_consecutive := eq_refl |}.

Lemma indirect_refines_memory_witness :
  exists s' : trace,
    @indirect_reg_write trace _ memory_device _ QDMA_CTXT_SEL_CMPT 3 [7; 8] [] = Ret 0 s' /\
    @contexts trace _ _ memory_device _ s' !! ctxt_key QDMA_CTXT_SEL_CMPT 3 = Some [7; 8; 0; 0].
Proof.
  destruct (@indirect_refines_memory trace _ _ memory_device _ QDMA_CTXT_SEL_CMPT 3 []) as [Hw _].
  destruct (Hw [7; 8]) as (s' & E & Hk); [by repeat constructor|].
  exists s'. split; [exact E|]. rewrite Hk. apply lookup_insert_eq.
Defined.
