(* ===== verification/Codec.v ===== *)
(** * Codec: packing contexts into words and unpacking them

    Every library packs a context into words with [FIELD_SET] and takes the words
    it reads apart with [FIELD_GET].  All this is linear: each bit of the outcome
    is the disjunction of some bits of the context.  Two linear functions that agree on
    the powers of two agree everywhere, which is how what survives a round trip is
    decided, by computation. *)

From S2P Require Import Prelude CLayout Contexts Fields.
Local Open Scope Z_scope.
Local Open Scope reconic_scope.

(** The masks the libraries share, from [qdma_access_common.h]. *)
Definition QDMA_PFTCH_CTXT_SW_CRDT_GET_H_MASK : Z := GENMASK 15 3.
Definition QDMA_PFTCH_CTXT_SW_CRDT_GET_L_MASK : Z := GENMASK 2 0.
Definition QDMA_COMPL_CTXT_BADDR_GET_H_MASK : Z := GENMASK 63 38.
Definition QDMA_COMPL_CTXT_BADDR_GET_L_MASK : Z := GENMASK 37 12.
Definition QDMA_COMPL_CTXT_PIDX_GET_H_MASK : Z := GENMASK 15 4.
Definition QDMA_COMPL_CTXT_PIDX_GET_L_MASK : Z := GENMASK 3 0.
Definition QDMA_INTR_CTXT_BADDR_GET_H_MASK : Z := GENMASK 63 61.
Definition QDMA_INTR_CTXT_BADDR_GET_M_MASK : Z := GENMASK 60 29.
Definition QDMA_INTR_CTXT_BADDR_GET_L_MASK : Z := GENMASK 28 12.

(** ** Linear functions *)

Definition linear (f : Z -> Z) : Prop :=
  f 0 = 0 /\ forall a b, f (a .| b) = f a .| f b.

Create HintDb linear.

Section linear.
Implicit Types (f g : Z -> Z) (h : cfield).

Lemma linear_id : linear (fun c => c).
Proof. done. Qed.

Lemma linear_zero : linear (fun _ => 0).
Proof. done. Qed.

Lemma linear_lor f g : linear f -> linear g -> linear (fun c => f c .| g c).
Proof.
  intros [Hf0 Hf] [Hg0 Hg]. split; [by rewrite Hf0, Hg0|]. intros a b. rewrite Hf, Hg.
  rewrite <- !Z.lor_assoc. f_equal. rewrite !Z.lor_assoc. f_equal. apply Z.lor_comm.
Qed.

Lemma linear_land f m : linear f -> linear (fun c => Z.land (f c) m).
Proof. intros [H0 H]. split; [by rewrite H0|]. intros a b. by rewrite H, Z.land_lor_distr_l. Qed.

Lemma linear_shiftl f n : linear f -> linear (fun c => Z.shiftl (f c) n).
Proof. intros [H0 H]. split; [by rewrite H0, Z.shiftl_0_l|]. intros a b. by rewrite H, Z.shiftl_lor. Qed.

Lemma linear_shiftr f n : linear f -> linear (fun c => Z.shiftr (f c) n).
Proof. intros [H0 H]. split; [by rewrite H0, Z.shiftr_0_l|]. intros a b. by rewrite H, Z.shiftr_lor. Qed.

Lemma linear_fld f h : linear f -> linear (fun c => fld h (f c)).
Proof. intros Hf. unfold fld. by apply linear_land, linear_shiftr. Qed.

Lemma linear_get f m : linear f -> linear (fun c => FIELD_GET m (f c)).
Proof. intros Hf. unfold FIELD_GET. by apply linear_shiftr, linear_land. Qed.

Lemma linear_set f m : linear f -> linear (fun c => FIELD_SET m (f c)).
Proof. intros Hf. unfold FIELD_SET. by apply linear_land, linear_shiftl. Qed.

Lemma linear_u8 f : linear f -> linear (fun c => u8 (f c)).
Proof.
  intros Hf. assert (forall z, u8 z = Z.land z (Z.ones 8)) as H by (intros z; by rewrite Z.land_ones).
  destruct (linear_land f (Z.ones 8) Hf) as [H0 Hl]. split; [by rewrite H|]. intros a b. by rewrite !H.
Qed.

Lemma linear_put f g h : linear f -> linear g -> linear (fun c => put h (f c) (g c)).
Proof.
  intros Hf Hg. unfold put. apply linear_lor; [|by apply linear_shiftl, linear_land].
  destruct Hg as [H0 H]. split; [by rewrite H0, Z.ldiff_0_l|]. intros a b.
  rewrite H, !Z.ldiff_land. by rewrite Z.land_lor_distr_l.
Qed.

(** A number is the disjunction of the powers of two it has. *)
Lemma low_bits n (c : Z) :
  0 <= c < 2 ^ Z.of_nat (S n) ->
  c = c mod 2 ^ Z.of_nat n .| (if Z.testbit c (Z.of_nat n) then 2 ^ Z.of_nat n else 0).
Proof.
  intros Hc. apply Z.bits_inj'. intros i Hi. rewrite Z.lor_spec, <- Z.land_ones by lia.
  rewrite Z.land_spec, testbit_ones_low by lia.
  assert (Z.testbit (if Z.testbit c (Z.of_nat n) then 2 ^ Z.of_nat n else 0) i =
          Z.testbit c (Z.of_nat n) && (i =? Z.of_nat n)) as ->.
  { destruct (Z.testbit c (Z.of_nat n)); [|by rewrite Z.testbit_0_l].
    rewrite Z.pow2_bits_eqb by lia. apply Z.eqb_sym. }
  destruct (Z.ltb_spec i (Z.of_nat n)).
  - rewrite (proj2 (Z.eqb_neq _ _)) by lia. by rewrite andb_true_r, andb_false_r, orb_false_r.
  - rewrite andb_false_r. simpl. destruct (Z.eqb_spec i (Z.of_nat n)) as [->|]; [by rewrite andb_true_r|].
    rewrite andb_false_r. rewrite <- (Z.mod_small c (2 ^ Z.of_nat (S n))) by done.
    rewrite <- Z.land_ones by lia. rewrite Z.land_spec, Z.ones_spec_high by lia. by rewrite andb_false_r.
Qed.

Lemma linear_eq f g n :
  linear f -> linear g ->
  (forall i, (i < n)%nat -> f (2 ^ Z.of_nat i) = g (2 ^ Z.of_nat i)) ->
  forall c, 0 <= c < 2 ^ Z.of_nat n -> f c = g c.
Proof.
  intros [Hf0 Hf] [Hg0 Hg] Hb. induction n as [|n IH]; intros c Hc.
  { assert (c = 0) as -> by (simpl in Hc; lia). congruence. }
  rewrite (low_bits n c Hc), Hf, Hg. f_equal.
  - apply IH; [intros i Hi; apply Hb; lia|]. apply Z.mod_pos_bound, Z.pow_pos_nonneg; lia.
  - destruct (Z.testbit c _); [apply Hb; lia|congruence].
Qed.
End linear.

#[export] Hint Resolve linear_id linear_zero linear_lor linear_land linear_shiftl linear_shiftr linear_fld
  linear_get linear_set linear_u8 linear_put : linear.

(** [solve_linear] proves that a function written with the operations above is
    linear. *)
Ltac linear_step :=
  match goal with
  | |- linear (fun c => c) => exact linear_id
  | |- linear (fld ?f) => exact (linear_fld _ f linear_id)
  | |- linear (fun c => 0) => exact linear_zero
  | |- linear (fun c => FIELD_SET _ _) => apply linear_set
  | |- linear (fun c => FIELD_GET _ _) => apply linear_get
  | |- linear (fun c => put _ _ _) => apply linear_put
  | |- linear (fun c => fld _ _) => apply linear_fld
  | |- linear (fun c => u8 _) => apply linear_u8
  | |- linear (fun c => Z.lor _ _) => apply linear_lor
  | |- linear (fun c => Z.land _ _) => apply linear_land
  | |- linear (fun c => Z.shiftl _ _) => apply linear_shiftl
  | |- linear (fun c => Z.shiftr _ _) => apply linear_shiftr
  end.

Ltac solve_linear := cbv zeta; cbn [assign foldl nth]; cbv beta; repeat linear_step.

(** [solve_words] proves that each word is a disjunction of fields of a 32-bit
    register. *)
Lemma low_word x : is_u32 (Z.land x 0xFFFFFFFF).
Proof. change 0xFFFFFFFF with (Z.ones 32). rewrite Z.land_ones by lia. apply Z.mod_pos_bound. lia. Qed.

Ltac word_step :=
  match goal with
  | |- is_u32 (Z.lor _ _) => apply lor_u32
  | |- is_u32 (FIELD_SET _ _) => apply set_range; [vm_compute; reflexivity|vm_compute; reflexivity]
  | |- is_u32 (Z.land _ 0xFFFFFFFF) => apply low_word
  end.

Ltac solve_words := cbv zeta; repeat (apply List.Forall_cons || apply List.Forall_nil); repeat word_step.

(** ** Codecs *)

(** The format of one kind of context in one library: the words it is packed
    into, what is assigned when words are taken apart, the number of words, the size
    of the structure in bits and, for the members that are packed, the bits that
    survive. *)
Record codec := mk_codec {
  pack : Z -> list Z;
  unpack : list Z -> list (cfield * Z);
  num_words : nat;
  ctxt_bits : nat;
  kept : list (cfield * Z) }.

(** A context that has been packed and read back into a structure that held
    [old]. *)
Definition read_back (cd : codec) (c old : Z) : Z := assign (unpack cd (pack cd c)) old.

(** What the table [kept] says, for the contexts with a single bit. *)
Definition survives (cd : codec) : bool :=
  forallb (fun i =>
    let b := 2 ^ Z.of_nat i in
    let r := read_back cd b 0 in
    forallb (fun '(f, m) => fld f r =? Z.land (fld f b) m) (kept cd))
  (seq 0 (ctxt_bits cd)).

Definition same (f g : cfield) : bool := (f_bit f =? f_bit g) && (f_width f =? f_width g).

(** The members in the table are assigned, and no assignment touches part of
    one. *)
Definition assigned_in (fs : list cfield) (f : cfield) : bool :=
  bool_decide (field_ok f /\ 0 < f_width f) && existsb (same f) fs &&
  forallb (fun g => same f g || bool_decide (field_ok g /\ apart f g)) fs.

Definition assigned (cd : codec) : bool := forallb (assigned_in (unpack cd []).*1) (kept cd).*1.

(** What makes a codec a good one. *)
Class GoodCodec (cd : codec) := {
  cd_linear : linear (fun c => read_back cd c 0);
  cd_words c : length (pack cd c) = num_words cd /\ Forall is_u32 (pack cd c);
  cd_members w : (unpack cd w).*1 = (unpack cd []).*1;
  cd_assigned : assigned cd = true;
  cd_survives : survives cd = true }.

Section codecs.
Implicit Types (f g : cfield) (l : list (cfield * Z)).

Lemma same_eq f g : same f g = true -> f = g.
Proof. unfold same. rewrite andb_true_iff, !Z.eqb_eq. destruct f, g; simpl. by intros [-> ->]. Qed.

(** What a member held before does not matter once it is assigned. *)
Lemma assign_old f l old :
  assigned_in l.*1 f = true -> fld f (assign l old) = fld f (assign l 0).
Proof.
  unfold assigned_in. rewrite !andb_true_iff. intros [[[Hf Hw]%bool_decide_eq_true He] Ha].
  induction l as [|[g v] l IH] using rev_ind; [done|].
  rewrite fmap_app in He, Ha. rewrite existsb_app in He. rewrite forallb_app in Ha.
  apply andb_true_iff in Ha as [Ha Hg]. unfold assign in *. rewrite !foldl_app. cbn [foldl].
  cbn [fmap list_fmap forallb existsb fst] in He, Hg. rewrite andb_true_r in Hg. rewrite orb_false_r in He.
  destruct (same f g) eqn:Es.
  - apply same_eq in Es as <-. by rewrite !fld_put_same.
  - apply bool_decide_eq_true in Hg as [Hg Hap]. rewrite !fld_put_apart by done.
    apply IH; [|done]. by rewrite orb_false_r in He.
Qed.

(** A member is read back as a linear function of what was packed when it is for single bits. *)
Lemma read_back_linear cd `{!GoodCodec cd} f (g : Z -> Z) c old :
  assigned_in (unpack cd []).*1 f = true -> linear g ->
  (forall i, (i < ctxt_bits cd)%nat -> fld f (read_back cd (2 ^ Z.of_nat i) 0) = g (2 ^ Z.of_nat i)) ->
  0 <= c < 2 ^ Z.of_nat (ctxt_bits cd) -> fld f (read_back cd c old) = g c.
Proof.
  intros Ha Hg Hb Hc. unfold read_back. rewrite assign_old by by rewrite cd_members.
  fold (read_back cd c 0). apply (linear_eq (fun c => fld f (read_back cd c 0)) g (ctxt_bits cd)); [|done..].
  apply linear_fld, cd_linear.
Qed.

Lemma read_back_kept cd `{!GoodCodec cd} c old f m :
  0 <= c < 2 ^ Z.of_nat (ctxt_bits cd) -> (f, m) ∈ kept cd ->
  fld f (read_back cd c old) = Z.land (fld f c) m.
Proof.
  intros Hc Hin. apply (read_back_linear cd f (fun c => Z.land (fld f c) m)); [| | |done].
  - pose proof (@cd_assigned cd _) as Ha. unfold assigned in Ha.
    rewrite forallb_forall in Ha. apply Ha. apply list_elem_of_In, list_elem_of_fmap. by exists (f, m).
  - apply linear_land, linear_fld, linear_id.
  - intros i Hi. pose proof (@cd_survives cd _) as Hs. unfold survives in Hs.
    rewrite forallb_forall in Hs. specialize (Hs i). rewrite <- list_elem_of_In, elem_of_seq in Hs.
    specialize (Hs ltac:(lia)). rewrite forallb_forall in Hs.
    specialize (Hs (f, m)). rewrite <- list_elem_of_In in Hs. by apply Z.eqb_eq, Hs.
Qed.
End codecs.
