(* ===== verification/Access.v ===== *)
(** * Access: what the three access libraries share

    A library has, for each kind of context, functions that write, read, clear and
    invalidate it, and one that chooses among them by the type of access.  They differ
    in the format of the words (Codec) and in what they check; the rest is here. *)

From S2P Require Import Prelude QdmaErrors Mmio CLayout Contexts Fields Indirect.
Local Open Scope Z_scope.

Definition sw_sel (c2h : Z) : ind_ctxt_cmd_sel :=
  if c2h =? 0 then QDMA_CTXT_SEL_SW_H2C else QDMA_CTXT_SEL_SW_C2H.
Definition hw_sel (c2h : Z) : ind_ctxt_cmd_sel :=
  if c2h =? 0 then QDMA_CTXT_SEL_HW_H2C else QDMA_CTXT_SEL_HW_C2H.
Definition cr_sel (c2h : Z) : ind_ctxt_cmd_sel :=
  if c2h =? 0 then QDMA_CTXT_SEL_CR_H2C else QDMA_CTXT_SEL_CR_C2H.

(** [QDMA_CMPT_UPDATE_TRIG_MODE_TMR_CNTR], [QDMA_DESC_SIZE_32B], [QDMA_DESC_SIZE_64B]
    and [QDMA_INDIRECT_INTR_RING_SIZE_32KB] *)
Definition QDMA_CMPT_UPDATE_TRIG_MODE_TMR_CNTR : Z := 5.
Definition QDMA_DESC_SIZE_32B : Z := 2.
Definition QDMA_DESC_SIZE_64B : Z := 3.
Definition QDMA_INDIRECT_INTR_RING_SIZE_32KB : Z := 7.
Definition QDMA_NUM_RING_SIZES : Z := 16.
Definition QDMA_NUM_C2H_TIMERS : Z := 16.
Definition QDMA_NUM_C2H_COUNTERS : Z := 16.

Section access.
Context {S : Type} `{HasTrace S} `{MmioDevice} `{IndRegs}.

Definition inv_param {A} (a : A) : M S (Z * A) := mret (neg QDMA_ERR_INV_PARAM, a).

(** A structure that may be a null pointer is packed and written, unless [ok] says
    that its contents are invalid. *)
Definition context_write (ok : Z -> bool) (pack : Z -> list Z) (sel : ind_ctxt_cmd_sel) (hw_qid : Z)
    (ctxt : option Z) : M S Z :=
  match ctxt with
  | None => mret (neg QDMA_ERR_INV_PARAM)
  | Some c => if ok c then indirect_reg_write sel hw_qid (pack c) else mret (neg QDMA_ERR_INV_PARAM)
  end.

(** [num_words] words are read and taken apart into the structure. *)
Definition context_read (unpack : list Z -> list (cfield * Z)) (num_words : nat)
    (sel : ind_ctxt_cmd_sel) (hw_qid : Z) (ctxt : option Z) : M S (Z * option Z) :=
  match ctxt with
  | None => inv_param None
  | Some c =>
      '(rv, w) ← indirect_reg_read sel hw_qid num_words;
      mret (if rv <? 0 then (rv, Some c) else (0, Some (assign (unpack w) c)))
  end.

Definition keeping {A} (a : A) (m : M S Z) : M S (Z * A) := rv ← m; mret (rv, a).

(** The [switch] on the type of access; the structure is changed by reading
    only. *)
Definition by_access (access_type : qdma_hw_access_type) (ctxt : option Z)
    (read : option Z -> M S (Z * option Z)) (write : option Z -> M S Z) (clear invalidate : M S Z)
    : M S (Z * option Z) :=
  match access_type with
  | QDMA_HW_ACCESS_READ => read ctxt
  | QDMA_HW_ACCESS_WRITE => keeping ctxt (write ctxt)
  | QDMA_HW_ACCESS_CLEAR => keeping ctxt clear
  | QDMA_HW_ACCESS_INVALIDATE => keeping ctxt invalidate
  end.

(** An access type that a function does not support. *)
Definition unsupported : M S Z := mret (neg QDMA_ERR_INV_PARAM).

(** [if (c2h > 1) return -QDMA_ERR_INV_PARAM] *)
Definition direction_ok (c2h : Z) (ctxt : option Z) (m : M S (Z * option Z)) : M S (Z * option Z) :=
  if 1 <? c2h then inv_param ctxt else m.
End access.
