(* ===== verification/EqdmaCtxt.v ===== *)
(** * EqdmaCtxt: the contexts of the EQDMA ([eqdma_soft_access.c])

    The masks of the EQDMA's context words ([eqdma_soft_reg.h]), the words each
    kind of context is packed into and the members taken from the words read
    ([_words], [_fields]), and the functions that access contexts through the indirect
    registers.  A pointer to a structure that may be null is an [option]; the device
    handle is not null. *)

From S2P Require Import Prelude QdmaErrors Mmio CLayout Contexts Fields Indirect Codec Access.
Local Open Scope Z_scope.
Local Open Scope reconic_scope.

(** ** Masks *)

Definition EQDMA_SW_CTXT_PASID_GET_L_MASK : Z := GENMASK 11 0.
Definition EQDMA_SW_CTXT_PASID_GET_H_MASK : Z := GENMASK 21 12.
Definition EQDMA_SW_CTXT_VIRTIO_DSC_BASE_GET_L_MASK : Z := GENMASK 20 0.
Definition EQDMA_SW_CTXT_VIRTIO_DSC_BASE_GET_M_MASK : Z := GENMASK 52 21.
Definition EQDMA_SW_CTXT_VIRTIO_DSC_BASE_GET_H_MASK : Z := GENMASK 63 53.
Definition SW_IND_CTXT_DATA_W0_PIDX_MASK : Z := GENMASK 15 0.
Definition SW_IND_CTXT_DATA_W0_IRQ_ARM_MASK : Z := BIT 16.
Definition SW_IND_CTXT_DATA_W0_FNC_MASK : Z := GENMASK 28 17.
Definition SW_IND_CTXT_DATA_W1_QEN_MASK : Z := BIT 0.
Definition SW_IND_CTXT_DATA_W1_FCRD_EN_MASK : Z := BIT 1.
Definition SW_IND_CTXT_DATA_W1_WBI_CHK_MASK : Z := BIT 2.
Definition SW_IND_CTXT_DATA_W1_WBI_INTVL_EN_MASK : Z := BIT 3.
Definition SW_IND_CTXT_DATA_W1_AT_MASK : Z := BIT 4.
Definition SW_IND_CTXT_DATA_W1_FETCH_MAX_MASK : Z := GENMASK 8 5.
Definition SW_IND_CTXT_DATA_W1_RNG_SZ_MASK : Z := GENMASK 15 12.
Definition SW_IND_CTXT_DATA_W1_DSC_SZ_MASK : Z := GENMASK 17 16.
Definition SW_IND_CTXT_DATA_W1_BYPASS_MASK : Z := BIT 18.
Definition SW_IND_CTXT_DATA_W1_MM_CHN_MASK : Z := BIT 19.
Definition SW_IND_CTXT_DATA_W1_WBK_EN_MASK : Z := BIT 20.
Definition SW_IND_CTXT_DATA_W1_IRQ_EN_MASK : Z := BIT 21.
Definition SW_IND_CTXT_DATA_W1_PORT_ID_MASK : Z := GENMASK 24 22.
Definition SW_IND_CTXT_DATA_W1_IRQ_NO_LAST_MASK : Z := BIT 25.
Definition SW_IND_CTXT_DATA_W1_ERR_MASK : Z := GENMASK 27 26.
Definition SW_IND_CTXT_DATA_W1_ERR_WB_SENT_MASK : Z := BIT 28.
Definition SW_IND_CTXT_DATA_W1_IRQ_REQ_MASK : Z := BIT 29.
Definition SW_IND_CTXT_DATA_W1_MRKR_DIS_MASK : Z := BIT 30.
Definition SW_IND_CTXT_DATA_W1_IS_MM_MASK : Z := BIT 31.
Definition SW_IND_CTXT_DATA_W4_VEC_MASK : Z := GENMASK 10 0.
Definition SW_IND_CTXT_DATA_W4_INT_AGGR_MASK : Z := BIT 11.
Definition SW_IND_CTXT_DATA_W4_DIS_INTR_ON_VF_MASK : Z := BIT 12.
Definition SW_IND_CTXT_DATA_W4_VIRTIO_EN_MASK : Z := BIT 13.
Definition SW_IND_CTXT_DATA_W4_PACK_BYP_OUT_MASK : Z := BIT 14.
Definition SW_IND_CTXT_DATA_W4_IRQ_BYP_MASK : Z := BIT 15.
Definition SW_IND_CTXT_DATA_W4_HOST_ID_MASK : Z := GENMASK 19 16.
Definition SW_IND_CTXT_DATA_W4_PASID_L_MASK : Z := GENMASK 31 20.
Definition SW_IND_CTXT_DATA_W5_PASID_H_MASK : Z := GENMASK 9 0.
Definition SW_IND_CTXT_DATA_W5_PASID_EN_MASK : Z := BIT 10.
Definition SW_IND_CTXT_DATA_W5_VIRTIO_DSC_BASE_L_MASK : Z := GENMASK 31 11.
Definition SW_IND_CTXT_DATA_W6_VIRTIO_DSC_BASE_M_MASK : Z := GENMASK 31 0.
Definition SW_IND_CTXT_DATA_W7_VIRTIO_DSC_BASE_H_MASK : Z := GENMASK 10 0.
Definition PREFETCH_CTXT_DATA_W0_BYPASS_MASK : Z := BIT 0.
Definition PREFETCH_CTXT_DATA_W0_BUF_SZ_IDX_MASK : Z := GENMASK 4 1.
Definition PREFETCH_CTXT_DATA_W0_PORT_ID_MASK : Z := GENMASK 7 5.
Definition PREFETCH_CTXT_DATA_W0_NUM_PFCH_MASK : Z := GENMASK 15 10.
Definition PREFETCH_CTXT_DATA_W0_VAR_DESC_MASK : Z := BIT 8.
Definition PREFETCH_CTXT_DATA_W0_ERR_MASK : Z := BIT 26.
Definition PREFETCH_CTXT_DATA_W0_PFCH_EN_MASK : Z := BIT 27.
Definition PREFETCH_CTXT_DATA_W0_PFCH_MASK : Z := BIT 28.
Definition PREFETCH_CTXT_DATA_W0_SW_CRDT_L_MASK : Z := GENMASK 31 29.
Definition PREFETCH_CTXT_DATA_W1_SW_CRDT_H_MASK : Z := GENMASK 12 0.
Definition PREFETCH_CTXT_DATA_W1_VALID_MASK : Z := BIT 13.
Definition EQDMA_COMPL_CTXT_BADDR_HIGH_L_MASK : Z := GENMASK 37 6.
Definition EQDMA_COMPL_CTXT_BADDR_HIGH_H_MASK : Z := GENMASK 63 38.
Definition EQDMA_COMPL_CTXT_BADDR_LOW_MASK : Z := GENMASK 5 2.
Definition EQDMA_CMPL_CTXT_PASID_GET_L_MASK : Z := GENMASK 8 0.
Definition EQDMA_CMPL_CTXT_PASID_GET_H_MASK : Z := GENMASK 21 9.
Definition CMPL_CTXT_DATA_W0_EN_STAT_DESC_MASK : Z := BIT 0.
Definition CMPL_CTXT_DATA_W0_EN_INT_MASK : Z := BIT 1.
Definition CMPL_CTXT_DATA_W0_TRIG_MODE_MASK : Z := GENMASK 4 2.
Definition CMPL_CTXT_DATA_W0_FNC_ID_MASK : Z := GENMASK 16 5.
Definition CMPL_CTXT_DATA_W0_CNTER_IX_MASK : Z := GENMASK 20 17.
Definition CMPL_CTXT_DATA_W0_TIMER_IX_MASK : Z := GENMASK 24 21.
Definition CMPL_CTXT_DATA_W0_INT_ST_MASK : Z := GENMASK 26 25.
Definition CMPL_CTXT_DATA_W0_COLOR_MASK : Z := BIT 27.
Definition CMPL_CTXT_DATA_W0_QSIZE_IX_MASK : Z := GENMASK 31 28.
Definition CMPL_CTXT_DATA_W1_BADDR4_HIGH_L_MASK : Z := GENMASK 31 0.
Definition CMPL_CTXT_DATA_W2_BADDR4_HIGH_H_MASK : Z := GENMASK 25 0.
Definition CMPL_CTXT_DATA_W2_DESC_SIZE_MASK : Z := GENMASK 27 26.
Definition CMPL_CTXT_DATA_W2_PIDX_L_MASK : Z := GENMASK 31 28.
Definition CMPL_CTXT_DATA_W3_PIDX_H_MASK : Z := GENMASK 11 0.
Definition CMPL_CTXT_DATA_W3_CIDX_MASK : Z := GENMASK 27 12.
Definition CMPL_CTXT_DATA_W3_VALID_MASK : Z := BIT 28.
Definition CMPL_CTXT_DATA_W3_ERR_MASK : Z := GENMASK 30 29.
Definition CMPL_CTXT_DATA_W3_USER_TRIG_PEND_MASK : Z := BIT 31.
Definition CMPL_CTXT_DATA_W4_TIMER_RUNNING_MASK : Z := BIT 0.
Definition CMPL_CTXT_DATA_W4_FULL_UPD_MASK : Z := BIT 1.
Definition CMPL_CTXT_DATA_W4_OVF_CHK_DIS_MASK : Z := BIT 2.
Definition CMPL_CTXT_DATA_W4_AT_MASK : Z := BIT 3.
Definition CMPL_CTXT_DATA_W4_VEC_MASK : Z := GENMASK 14 4.
Definition CMPL_CTXT_DATA_W4_INT_AGGR_MASK : Z := BIT 15.
Definition CMPL_CTXT_DATA_W4_DIS_INTR_ON_VF_MASK : Z := BIT 16.
Definition CMPL_CTXT_DATA_W4_VIO_MASK : Z := BIT 17.
Definition CMPL_CTXT_DATA_W4_DIR_C2H_MASK : Z := BIT 18.
Definition CMPL_CTXT_DATA_W4_HOST_ID_MASK : Z := GENMASK 22 19.
Definition CMPL_CTXT_DATA_W4_PASID_L_MASK : Z := GENMASK 31 23.
Definition CMPL_CTXT_DATA_W5_PASID_H_MASK : Z := GENMASK 12 0.
Definition CMPL_CTXT_DATA_W5_PASID_EN_MASK : Z := BIT 13.
Definition CMPL_CTXT_DATA_W5_BADDR4_LOW_MASK : Z := GENMASK 17 14.
Definition CMPL_CTXT_DATA_W5_VIO_EOP_MASK : Z := BIT 18.
Definition CMPL_CTXT_DATA_W5_SH_CMPT_MASK : Z := BIT 19.
Definition HW_IND_CTXT_DATA_W0_CIDX_MASK : Z := GENMASK 15 0.
Definition HW_IND_CTXT_DATA_W0_CRD_USE_MASK : Z := GENMASK 31 16.
Definition HW_IND_CTXT_DATA_W1_DSC_PND_MASK : Z := BIT 8.
Definition HW_IND_CTXT_DATA_W1_IDL_STP_B_MASK : Z := BIT 9.
Definition HW_IND_CTXT_DATA_W1_EVT_PND_MASK : Z := BIT 10.
Definition CRED_CTXT_DATA_W0_CREDT_MASK : Z := GENMASK 15 0.
Definition EQDMA_INTR_CTXT_PASID_GET_L_MASK : Z := GENMASK 8 0.
Definition EQDMA_INTR_CTXT_PASID_GET_H_MASK : Z := GENMASK 21 9.
Definition INTR_CTXT_DATA_W0_VALID_MASK : Z := BIT 0.
Definition INTR_CTXT_DATA_W0_VEC_MASK : Z := GENMASK 11 1.
Definition INTR_CTXT_DATA_W0_INT_ST_MASK : Z := BIT 13.
Definition INTR_CTXT_DATA_W0_COLOR_MASK : Z := BIT 14.
Definition INTR_CTXT_DATA_W0_BADDR_4K_L_MASK : Z := GENMASK 31 15.
Definition INTR_CTXT_DATA_W1_BADDR_4K_M_MASK : Z := GENMASK 31 0.
Definition INTR_CTXT_DATA_W2_BADDR_4K_H_MASK : Z := GENMASK 2 0.
Definition INTR_CTXT_DATA_W2_PAGE_SIZE_MASK : Z := GENMASK 5 3.
Definition INTR_CTXT_DATA_W2_PIDX_MASK : Z := GENMASK 17 6.
Definition INTR_CTXT_DATA_W2_AT_MASK : Z := BIT 18.
Definition INTR_CTXT_DATA_W2_HOST_ID_MASK : Z := GENMASK 22 19.
Definition INTR_CTXT_DATA_W2_PASID_L_MASK : Z := GENMASK 31 23.
Definition INTR_CTXT_DATA_W3_PASID_H_MASK : Z := GENMASK 12 0.
Definition INTR_CTXT_DATA_W3_PASID_EN_MASK : Z := BIT 13.
Definition INTR_CTXT_DATA_W3_FUNC_MASK : Z := GENMASK 29 18.

(** The numbers of words. *)
Definition EQDMA_SW_CONTEXT_NUM_WORDS : nat := 8.
Definition EQDMA_HW_CONTEXT_NUM_WORDS : nat := 2.
Definition EQDMA_PFETCH_CONTEXT_NUM_WORDS : nat := 2.
Definition EQDMA_CR_CONTEXT_NUM_WORDS : nat := 1.
Definition EQDMA_CMPT_CONTEXT_NUM_WORDS : nat := 6.
Definition EQDMA_IND_INTR_CONTEXT_NUM_WORDS : nat := 4.

(** ** Formats *)

Definition eqdma_sw_context_words (ctxt : Z) : list Z :=
  let c f := fld f ctxt in
  let pasid_l := FIELD_GET EQDMA_SW_CTXT_PASID_GET_L_MASK (c sw_ctxt.pasid) in
  let pasid_h := FIELD_GET EQDMA_SW_CTXT_PASID_GET_H_MASK (c sw_ctxt.pasid) in
  let virtio_desc_base_l := FIELD_GET EQDMA_SW_CTXT_VIRTIO_DSC_BASE_GET_L_MASK (c sw_ctxt.virtio_dsc_base) in
  let virtio_desc_base_m := FIELD_GET EQDMA_SW_CTXT_VIRTIO_DSC_BASE_GET_M_MASK (c sw_ctxt.virtio_dsc_base) in
  let virtio_desc_base_h := FIELD_GET EQDMA_SW_CTXT_VIRTIO_DSC_BASE_GET_H_MASK (c sw_ctxt.virtio_dsc_base) in
  [FIELD_SET SW_IND_CTXT_DATA_W0_PIDX_MASK (c sw_ctxt.pidx) .|
     FIELD_SET SW_IND_CTXT_DATA_W0_IRQ_ARM_MASK (c sw_ctxt.irq_arm) .|
     FIELD_SET SW_IND_CTXT_DATA_W0_FNC_MASK (c sw_ctxt.fnc_id);
   FIELD_SET SW_IND_CTXT_DATA_W1_QEN_MASK (c sw_ctxt.qen) .|
     FIELD_SET SW_IND_CTXT_DATA_W1_FCRD_EN_MASK (c sw_ctxt.frcd_en) .|
     FIELD_SET SW_IND_CTXT_DATA_W1_WBI_CHK_MASK (c sw_ctxt.wbi_chk) .|
     FIELD_SET SW_IND_CTXT_DATA_W1_WBI_INTVL_EN_MASK (c sw_ctxt.wbi_intvl_en) .|
     FIELD_SET SW_IND_CTXT_DATA_W1_AT_MASK (c sw_ctxt.at_) .|
     FIELD_SET SW_IND_CTXT_DATA_W1_FETCH_MAX_MASK (c sw_ctxt.fetch_max) .|
     FIELD_SET SW_IND_CTXT_DATA_W1_RNG_SZ_MASK (c sw_ctxt.rngsz_idx) .|
     FIELD_SET SW_IND_CTXT_DATA_W1_DSC_SZ_MASK (c sw_ctxt.desc_sz) .|
     FIELD_SET SW_IND_CTXT_DATA_W1_BYPASS_MASK (c sw_ctxt.bypass) .|
     FIELD_SET SW_IND_CTXT_DATA_W1_MM_CHN_MASK (c sw_ctxt.mm_chn) .|
     FIELD_SET SW_IND_CTXT_DATA_W1_WBK_EN_MASK (c sw_ctxt.wbk_en) .|
     FIELD_SET SW_IND_CTXT_DATA_W1_IRQ_EN_MASK (c sw_ctxt.irq_en) .|
     FIELD_SET SW_IND_CTXT_DATA_W1_PORT_ID_MASK (c sw_ctxt.port_id) .|
     FIELD_SET SW_IND_CTXT_DATA_W1_IRQ_NO_LAST_MASK (c sw_ctxt.irq_no_last) .|
     FIELD_SET SW_IND_CTXT_DATA_W1_ERR_MASK (c sw_ctxt.err) .|
     FIELD_SET SW_IND_CTXT_DATA_W1_ERR_WB_SENT_MASK (c sw_ctxt.err_wb_sent) .|
     FIELD_SET SW_IND_CTXT_DATA_W1_IRQ_REQ_MASK (c sw_ctxt.irq_req) .|
     FIELD_SET SW_IND_CTXT_DATA_W1_MRKR_DIS_MASK (c sw_ctxt.mrkr_dis) .|
     FIELD_SET SW_IND_CTXT_DATA_W1_IS_MM_MASK (c sw_ctxt.is_mm);
   Z.land (c sw_ctxt.ring_bs_addr) 0xffffffff;
   Z.land (Z.shiftr (c sw_ctxt.ring_bs_addr) 32) 0xffffffff;
   FIELD_SET SW_IND_CTXT_DATA_W4_VEC_MASK (c sw_ctxt.vec) .|
     FIELD_SET SW_IND_CTXT_DATA_W4_INT_AGGR_MASK (c sw_ctxt.intr_aggr) .|
     FIELD_SET SW_IND_CTXT_DATA_W4_DIS_INTR_ON_VF_MASK (c sw_ctxt.dis_intr_on_vf) .|
     FIELD_SET SW_IND_CTXT_DATA_W4_VIRTIO_EN_MASK (c sw_ctxt.virtio_en) .|
     FIELD_SET SW_IND_CTXT_DATA_W4_PACK_BYP_OUT_MASK (c sw_ctxt.pack_byp_out) .|
     FIELD_SET SW_IND_CTXT_DATA_W4_IRQ_BYP_MASK (c sw_ctxt.irq_byp) .|
     FIELD_SET SW_IND_CTXT_DATA_W4_HOST_ID_MASK (c sw_ctxt.host_id) .|
     FIELD_SET SW_IND_CTXT_DATA_W4_PASID_L_MASK pasid_l;
   FIELD_SET SW_IND_CTXT_DATA_W5_PASID_H_MASK pasid_h .|
     FIELD_SET SW_IND_CTXT_DATA_W5_PASID_EN_MASK (c sw_ctxt.pasid_en) .|
     FIELD_SET SW_IND_CTXT_DATA_W5_VIRTIO_DSC_BASE_L_MASK virtio_desc_base_l;
   FIELD_SET SW_IND_CTXT_DATA_W6_VIRTIO_DSC_BASE_M_MASK virtio_desc_base_m;
   FIELD_SET SW_IND_CTXT_DATA_W7_VIRTIO_DSC_BASE_H_MASK virtio_desc_base_h].

Definition eqdma_sw_context_fields (w : list Z) : list (cfield * Z) :=
  let pasid_l := FIELD_GET SW_IND_CTXT_DATA_W4_PASID_L_MASK (nth 4 w 0) in
  let pasid_h := FIELD_GET SW_IND_CTXT_DATA_W5_PASID_H_MASK (nth 5 w 0) in
  let virtio_desc_base_l := FIELD_GET SW_IND_CTXT_DATA_W5_VIRTIO_DSC_BASE_L_MASK (nth 5 w 0) in
  let virtio_desc_base_m := FIELD_GET SW_IND_CTXT_DATA_W6_VIRTIO_DSC_BASE_M_MASK (nth 6 w 0) in
  let virtio_desc_base_h := FIELD_GET SW_IND_CTXT_DATA_W7_VIRTIO_DSC_BASE_H_MASK (nth 6 w 0) in
  [(sw_ctxt.pidx, FIELD_GET SW_IND_CTXT_DATA_W0_PIDX_MASK (nth 0 w 0));
   (sw_ctxt.irq_arm, FIELD_GET SW_IND_CTXT_DATA_W0_IRQ_ARM_MASK (nth 0 w 0));
   (sw_ctxt.fnc_id, FIELD_GET SW_IND_CTXT_DATA_W0_FNC_MASK (nth 0 w 0));
   (sw_ctxt.qen, FIELD_GET SW_IND_CTXT_DATA_W1_QEN_MASK (nth 1 w 0));
   (sw_ctxt.frcd_en, FIELD_GET SW_IND_CTXT_DATA_W1_FCRD_EN_MASK (nth 1 w 0));
   (sw_ctxt.wbi_chk, FIELD_GET SW_IND_CTXT_DATA_W1_WBI_CHK_MASK (nth 1 w 0));
   (sw_ctxt.wbi_intvl_en, FIELD_GET SW_IND_CTXT_DATA_W1_WBI_INTVL_EN_MASK (nth 1 w 0));
   (sw_ctxt.at_, FIELD_GET SW_IND_CTXT_DATA_W1_AT_MASK (nth 1 w 0));
   (sw_ctxt.fetch_max, FIELD_GET SW_IND_CTXT_DATA_W1_FETCH_MAX_MASK (nth 1 w 0));
   (sw_ctxt.rngsz_idx, FIELD_GET SW_IND_CTXT_DATA_W1_RNG_SZ_MASK (nth 1 w 0));
   (sw_ctxt.desc_sz, FIELD_GET SW_IND_CTXT_DATA_W1_DSC_SZ_MASK (nth 1 w 0));
   (sw_ctxt.bypass, FIELD_GET SW_IND_CTXT_DATA_W1_BYPASS_MASK (nth 1 w 0));
   (sw_ctxt.mm_chn, FIELD_GET SW_IND_CTXT_DATA_W1_MM_CHN_MASK (nth 1 w 0));
   (sw_ctxt.wbk_en, FIELD_GET SW_IND_CTXT_DATA_W1_WBK_EN_MASK (nth 1 w 0));
   (sw_ctxt.irq_en, FIELD_GET SW_IND_CTXT_DATA_W1_IRQ_EN_MASK (nth 1 w 0));
   (sw_ctxt.port_id, FIELD_GET SW_IND_CTXT_DATA_W1_PORT_ID_MASK (nth 1 w 0));
   (sw_ctxt.irq_no_last, FIELD_GET SW_IND_CTXT_DATA_W1_IRQ_NO_LAST_MASK (nth 1 w 0));
   (sw_ctxt.err, FIELD_GET SW_IND_CTXT_DATA_W1_ERR_MASK (nth 1 w 0));
   (sw_ctxt.err_wb_sent, FIELD_GET SW_IND_CTXT_DATA_W1_ERR_WB_SENT_MASK (nth 1 w 0));
   (sw_ctxt.irq_req, FIELD_GET SW_IND_CTXT_DATA_W1_IRQ_REQ_MASK (nth 1 w 0));
   (sw_ctxt.mrkr_dis, FIELD_GET SW_IND_CTXT_DATA_W1_MRKR_DIS_MASK (nth 1 w 0));
   (sw_ctxt.is_mm, FIELD_GET SW_IND_CTXT_DATA_W1_IS_MM_MASK (nth 1 w 0));
   (sw_ctxt.ring_bs_addr, Z.shiftl (nth 3 w 0) 32 .|
     nth 2 w 0);
   (sw_ctxt.vec, FIELD_GET SW_IND_CTXT_DATA_W4_VEC_MASK (nth 4 w 0));
   (sw_ctxt.intr_aggr, FIELD_GET SW_IND_CTXT_DATA_W4_INT_AGGR_MASK (nth 4 w 0));
   (sw_ctxt.dis_intr_on_vf, FIELD_GET SW_IND_CTXT_DATA_W4_DIS_INTR_ON_VF_MASK (nth 4 w 0));
   (sw_ctxt.virtio_en, FIELD_GET SW_IND_CTXT_DATA_W4_VIRTIO_EN_MASK (nth 4 w 0));
   (sw_ctxt.pack_byp_out, FIELD_GET SW_IND_CTXT_DATA_W4_PACK_BYP_OUT_MASK (nth 4 w 0));
   (sw_ctxt.irq_byp, FIELD_GET SW_IND_CTXT_DATA_W4_IRQ_BYP_MASK (nth 4 w 0));
   (sw_ctxt.host_id, FIELD_GET SW_IND_CTXT_DATA_W4_HOST_ID_MASK (nth 4 w 0));
   (sw_ctxt.pasid_en, FIELD_GET SW_IND_CTXT_DATA_W5_PASID_EN_MASK (nth 5 w 0));
   (sw_ctxt.pasid, FIELD_SET EQDMA_SW_CTXT_PASID_GET_L_MASK pasid_l .|
     FIELD_SET EQDMA_SW_CTXT_PASID_GET_H_MASK pasid_h);
   (sw_ctxt.virtio_dsc_base, FIELD_SET EQDMA_SW_CTXT_VIRTIO_DSC_BASE_GET_L_MASK virtio_desc_base_l .|
     FIELD_SET EQDMA_SW_CTXT_VIRTIO_DSC_BASE_GET_M_MASK virtio_desc_base_m .|
     FIELD_SET EQDMA_SW_CTXT_VIRTIO_DSC_BASE_GET_H_MASK virtio_desc_base_h)].

Definition eqdma_pfetch_context_words (ctxt : Z) : list Z :=
  let c f := fld f ctxt in
  let sw_crdt_l := FIELD_GET QDMA_PFTCH_CTXT_SW_CRDT_GET_L_MASK (c pfetch_ctxt.sw_crdt) in
  let sw_crdt_h := FIELD_GET QDMA_PFTCH_CTXT_SW_CRDT_GET_H_MASK (c pfetch_ctxt.sw_crdt) in
  [FIELD_SET PREFETCH_CTXT_DATA_W0_BYPASS_MASK (c pfetch_ctxt.bypass) .|
     FIELD_SET PREFETCH_CTXT_DATA_W0_BUF_SZ_IDX_MASK (c pfetch_ctxt.bufsz_idx) .|
     FIELD_SET PREFETCH_CTXT_DATA_W0_PORT_ID_MASK (c pfetch_ctxt.port_id) .|
     FIELD_SET PREFETCH_CTXT_DATA_W0_NUM_PFCH_MASK (c pfetch_ctxt.num_pftch) .|
     FIELD_SET PREFETCH_CTXT_DATA_W0_VAR_DESC_MASK (c pfetch_ctxt.var_desc) .|
     FIELD_SET PREFETCH_CTXT_DATA_W0_ERR_MASK (c pfetch_ctxt.err) .|
     FIELD_SET PREFETCH_CTXT_DATA_W0_PFCH_EN_MASK (c pfetch_ctxt.pfch_en) .|
     FIELD_SET PREFETCH_CTXT_DATA_W0_PFCH_MASK (c pfetch_ctxt.pfch) .|
     FIELD_SET PREFETCH_CTXT_DATA_W0_SW_CRDT_L_MASK sw_crdt_l;
   FIELD_SET PREFETCH_CTXT_DATA_W1_SW_CRDT_H_MASK sw_crdt_h .|
     FIELD_SET PREFETCH_CTXT_DATA_W1_VALID_MASK (c pfetch_ctxt.valid)].

Definition eqdma_pfetch_context_fields (w : list Z) : list (cfield * Z) :=
  let sw_crdt_l := FIELD_GET PREFETCH_CTXT_DATA_W0_SW_CRDT_L_MASK (nth 0 w 0) in
  let sw_crdt_h := FIELD_GET PREFETCH_CTXT_DATA_W1_SW_CRDT_H_MASK (nth 1 w 0) in
  [(pfetch_ctxt.bypass, FIELD_GET PREFETCH_CTXT_DATA_W0_BYPASS_MASK (nth 0 w 0));
   (pfetch_ctxt.bufsz_idx, FIELD_GET PREFETCH_CTXT_DATA_W0_BUF_SZ_IDX_MASK (nth 0 w 0));
   (pfetch_ctxt.num_pftch, FIELD_GET PREFETCH_CTXT_DATA_W0_NUM_PFCH_MASK (nth 0 w 0));
   (pfetch_ctxt.port_id, FIELD_GET PREFETCH_CTXT_DATA_W0_PORT_ID_MASK (nth 0 w 0));
   (pfetch_ctxt.var_desc, FIELD_GET PREFETCH_CTXT_DATA_W0_VAR_DESC_MASK (nth 0 w 0));
   (pfetch_ctxt.err, FIELD_GET PREFETCH_CTXT_DATA_W0_ERR_MASK (nth 0 w 0));
   (pfetch_ctxt.pfch_en, FIELD_GET PREFETCH_CTXT_DATA_W0_PFCH_EN_MASK (nth 0 w 0));
   (pfetch_ctxt.pfch, FIELD_GET PREFETCH_CTXT_DATA_W0_PFCH_MASK (nth 0 w 0));
   (pfetch_ctxt.valid, FIELD_GET PREFETCH_CTXT_DATA_W1_VALID_MASK (nth 1 w 0));
   (pfetch_ctxt.sw_crdt, FIELD_SET QDMA_PFTCH_CTXT_SW_CRDT_GET_L_MASK sw_crdt_l .|
     FIELD_SET QDMA_PFTCH_CTXT_SW_CRDT_GET_H_MASK sw_crdt_h)].

Definition eqdma_cmpt_context_words (ctxt : Z) : list Z :=
  let c f := fld f ctxt in
  let baddr4_high_l := FIELD_GET EQDMA_COMPL_CTXT_BADDR_HIGH_L_MASK (c cmpt_ctxt.bs_addr) in
  let baddr4_high_h := FIELD_GET EQDMA_COMPL_CTXT_BADDR_HIGH_H_MASK (c cmpt_ctxt.bs_addr) in
  let baddr4_low := FIELD_GET EQDMA_COMPL_CTXT_BADDR_LOW_MASK (c cmpt_ctxt.bs_addr) in
  let pidx_l := FIELD_GET QDMA_COMPL_CTXT_PIDX_GET_L_MASK (c cmpt_ctxt.pidx) in
  let pidx_h := FIELD_GET QDMA_COMPL_CTXT_PIDX_GET_H_MASK (c cmpt_ctxt.pidx) in
  let pasid_l := FIELD_GET EQDMA_CMPL_CTXT_PASID_GET_L_MASK (c cmpt_ctxt.pasid) in
  let pasid_h := FIELD_GET EQDMA_CMPL_CTXT_PASID_GET_H_MASK (c cmpt_ctxt.pasid) in
  [FIELD_SET CMPL_CTXT_DATA_W0_EN_STAT_DESC_MASK (c cmpt_ctxt.en_stat_desc) .|
     FIELD_SET CMPL_CTXT_DATA_W0_EN_INT_MASK (c cmpt_ctxt.en_int) .|
     FIELD_SET CMPL_CTXT_DATA_W0_TRIG_MODE_MASK (c cmpt_ctxt.trig_mode) .|
     FIELD_SET CMPL_CTXT_DATA_W0_FNC_ID_MASK (c cmpt_ctxt.fnc_id) .|
     FIELD_SET CMPL_CTXT_DATA_W0_CNTER_IX_MASK (c cmpt_ctxt.counter_idx) .|
     FIELD_SET CMPL_CTXT_DATA_W0_TIMER_IX_MASK (c cmpt_ctxt.timer_idx) .|
     FIELD_SET CMPL_CTXT_DATA_W0_INT_ST_MASK (c cmpt_ctxt.in_st) .|
     FIELD_SET CMPL_CTXT_DATA_W0_COLOR_MASK (c cmpt_ctxt.color) .|
     FIELD_SET CMPL_CTXT_DATA_W0_QSIZE_IX_MASK (c cmpt_ctxt.ringsz_idx);
   FIELD_SET CMPL_CTXT_DATA_W1_BADDR4_HIGH_L_MASK baddr4_high_l;
   FIELD_SET CMPL_CTXT_DATA_W2_BADDR4_HIGH_H_MASK baddr4_high_h .|
     FIELD_SET CMPL_CTXT_DATA_W2_DESC_SIZE_MASK (c cmpt_ctxt.desc_sz) .|
     FIELD_SET CMPL_CTXT_DATA_W2_PIDX_L_MASK pidx_l;
   FIELD_SET CMPL_CTXT_DATA_W3_PIDX_H_MASK pidx_h .|
     FIELD_SET CMPL_CTXT_DATA_W3_CIDX_MASK (c cmpt_ctxt.cidx) .|
     FIELD_SET CMPL_CTXT_DATA_W3_VALID_MASK (c cmpt_ctxt.valid) .|
     FIELD_SET CMPL_CTXT_DATA_W3_ERR_MASK (c cmpt_ctxt.err) .|
     FIELD_SET CMPL_CTXT_DATA_W3_USER_TRIG_PEND_MASK (c cmpt_ctxt.user_trig_pend);
   FIELD_SET CMPL_CTXT_DATA_W4_TIMER_RUNNING_MASK (c cmpt_ctxt.timer_running) .|
     FIELD_SET CMPL_CTXT_DATA_W4_FULL_UPD_MASK (c cmpt_ctxt.full_upd) .|
     FIELD_SET CMPL_CTXT_DATA_W4_OVF_CHK_DIS_MASK (c cmpt_ctxt.ovf_chk_dis) .|
     FIELD_SET CMPL_CTXT_DATA_W4_AT_MASK (c cmpt_ctxt.at_) .|
     FIELD_SET CMPL_CTXT_DATA_W4_VEC_MASK (c cmpt_ctxt.vec) .|
     FIELD_SET CMPL_CTXT_DATA_W4_INT_AGGR_MASK (c cmpt_ctxt.int_aggr) .|
     FIELD_SET CMPL_CTXT_DATA_W4_DIS_INTR_ON_VF_MASK (c cmpt_ctxt.dis_intr_on_vf) .|
     FIELD_SET CMPL_CTXT_DATA_W4_VIO_MASK (c cmpt_ctxt.vio) .|
     FIELD_SET CMPL_CTXT_DATA_W4_DIR_C2H_MASK (c cmpt_ctxt.dir_c2h) .|
     FIELD_SET CMPL_CTXT_DATA_W4_HOST_ID_MASK (c cmpt_ctxt.host_id) .|
     FIELD_SET CMPL_CTXT_DATA_W4_PASID_L_MASK pasid_l;
   FIELD_SET CMPL_CTXT_DATA_W5_PASID_H_MASK pasid_h .|
     FIELD_SET CMPL_CTXT_DATA_W5_PASID_EN_MASK (c cmpt_ctxt.pasid_en) .|
     FIELD_SET CMPL_CTXT_DATA_W5_BADDR4_LOW_MASK baddr4_low .|
     FIELD_SET CMPL_CTXT_DATA_W5_VIO_EOP_MASK (c cmpt_ctxt.vio_eop) .|
     FIELD_SET CMPL_CTXT_DATA_W5_SH_CMPT_MASK (c cmpt_ctxt.sh_cmpt)].

Definition eqdma_cmpt_context_fields (w : list Z) : list (cfield * Z) :=
  let baddr4_high_l := FIELD_GET CMPL_CTXT_DATA_W1_BADDR4_HIGH_L_MASK (nth 1 w 0) in
  let baddr4_high_h := FIELD_GET CMPL_CTXT_DATA_W2_BADDR4_HIGH_H_MASK (nth 2 w 0) in
  let pidx_l := FIELD_GET CMPL_CTXT_DATA_W2_PIDX_L_MASK (nth 2 w 0) in
  let pidx_h := FIELD_GET CMPL_CTXT_DATA_W3_PIDX_H_MASK (nth 3 w 0) in
  let pasid_l := FIELD_GET CMPL_CTXT_DATA_W4_PASID_L_MASK (nth 4 w 0) in
  let pasid_h := FIELD_GET CMPL_CTXT_DATA_W5_PASID_H_MASK (nth 5 w 0) in
  let baddr4_low := u8 (FIELD_GET CMPL_CTXT_DATA_W5_BADDR4_LOW_MASK (nth 5 w 0)) in
  [(cmpt_ctxt.en_stat_desc, FIELD_GET CMPL_CTXT_DATA_W0_EN_STAT_DESC_MASK (nth 0 w 0));
   (cmpt_ctxt.en_int, FIELD_GET CMPL_CTXT_DATA_W0_EN_INT_MASK (nth 0 w 0));
   (cmpt_ctxt.trig_mode, FIELD_GET CMPL_CTXT_DATA_W0_TRIG_MODE_MASK (nth 0 w 0));
   (cmpt_ctxt.fnc_id, FIELD_GET CMPL_CTXT_DATA_W0_FNC_ID_MASK (nth 0 w 0));
   (cmpt_ctxt.counter_idx, FIELD_GET CMPL_CTXT_DATA_W0_CNTER_IX_MASK (nth 0 w 0));
   (cmpt_ctxt.timer_idx, FIELD_GET CMPL_CTXT_DATA_W0_TIMER_IX_MASK (nth 0 w 0));
   (cmpt_ctxt.in_st, FIELD_GET CMPL_CTXT_DATA_W0_INT_ST_MASK (nth 0 w 0));
   (cmpt_ctxt.color, FIELD_GET CMPL_CTXT_DATA_W0_COLOR_MASK (nth 0 w 0));
   (cmpt_ctxt.ringsz_idx, FIELD_GET CMPL_CTXT_DATA_W0_QSIZE_IX_MASK (nth 0 w 0));
   (cmpt_ctxt.desc_sz, FIELD_GET CMPL_CTXT_DATA_W2_DESC_SIZE_MASK (nth 2 w 0));
   (cmpt_ctxt.cidx, FIELD_GET CMPL_CTXT_DATA_W3_CIDX_MASK (nth 3 w 0));
   (cmpt_ctxt.valid, FIELD_GET CMPL_CTXT_DATA_W3_VALID_MASK (nth 3 w 0));
   (cmpt_ctxt.err, FIELD_GET CMPL_CTXT_DATA_W3_ERR_MASK (nth 3 w 0));
   (cmpt_ctxt.user_trig_pend, FIELD_GET CMPL_CTXT_DATA_W3_USER_TRIG_PEND_MASK (nth 3 w 0));
   (cmpt_ctxt.timer_running, FIELD_GET CMPL_CTXT_DATA_W4_TIMER_RUNNING_MASK (nth 4 w 0));
   (cmpt_ctxt.full_upd, FIELD_GET CMPL_CTXT_DATA_W4_FULL_UPD_MASK (nth 4 w 0));
   (cmpt_ctxt.ovf_chk_dis, FIELD_GET CMPL_CTXT_DATA_W4_OVF_CHK_DIS_MASK (nth 4 w 0));
   (cmpt_ctxt.at_, FIELD_GET CMPL_CTXT_DATA_W4_AT_MASK (nth 4 w 0));
   (cmpt_ctxt.vec, FIELD_GET CMPL_CTXT_DATA_W4_VEC_MASK (nth 4 w 0));
   (cmpt_ctxt.int_aggr, FIELD_GET CMPL_CTXT_DATA_W4_INT_AGGR_MASK (nth 4 w 0));
   (cmpt_ctxt.dis_intr_on_vf, FIELD_GET CMPL_CTXT_DATA_W4_DIS_INTR_ON_VF_MASK (nth 4 w 0));
   (cmpt_ctxt.vio, FIELD_GET CMPL_CTXT_DATA_W4_VIO_MASK (nth 4 w 0));
   (cmpt_ctxt.dir_c2h, FIELD_GET CMPL_CTXT_DATA_W4_DIR_C2H_MASK (nth 4 w 0));
   (cmpt_ctxt.host_id, FIELD_GET CMPL_CTXT_DATA_W4_HOST_ID_MASK (nth 4 w 0));
   (cmpt_ctxt.pasid_en, FIELD_GET CMPL_CTXT_DATA_W5_PASID_EN_MASK (nth 5 w 0));
   (cmpt_ctxt.vio_eop, FIELD_GET CMPL_CTXT_DATA_W5_VIO_EOP_MASK (nth 5 w 0));
   (cmpt_ctxt.sh_cmpt, FIELD_GET CMPL_CTXT_DATA_W5_SH_CMPT_MASK (nth 5 w 0));
   (cmpt_ctxt.bs_addr, FIELD_SET EQDMA_COMPL_CTXT_BADDR_HIGH_L_MASK baddr4_high_l .|
     FIELD_SET EQDMA_COMPL_CTXT_BADDR_HIGH_H_MASK baddr4_high_h .|
     FIELD_SET EQDMA_COMPL_CTXT_BADDR_LOW_MASK baddr4_low);
   (cmpt_ctxt.pasid, FIELD_SET EQDMA_CMPL_CTXT_PASID_GET_L_MASK pasid_l .|
     FIELD_SET EQDMA_CMPL_CTXT_PASID_GET_H_MASK pasid_h);
   (cmpt_ctxt.pidx, FIELD_SET QDMA_COMPL_CTXT_PIDX_GET_L_MASK pidx_l .|
     FIELD_SET QDMA_COMPL_CTXT_PIDX_GET_H_MASK pidx_h)].

Definition eqdma_hw_context_fields (w : list Z) : list (cfield * Z) :=
  [(hw_ctxt.cidx, FIELD_GET HW_IND_CTXT_DATA_W0_CIDX_MASK (nth 0 w 0));
   (hw_ctxt.crd_use, FIELD_GET HW_IND_CTXT_DATA_W0_CRD_USE_MASK (nth 0 w 0));
   (hw_ctxt.dsc_pend, FIELD_GET HW_IND_CTXT_DATA_W1_DSC_PND_MASK (nth 1 w 0));
   (hw_ctxt.idl_stp_b, FIELD_GET HW_IND_CTXT_DATA_W1_IDL_STP_B_MASK (nth 1 w 0));
   (hw_ctxt.evt_pnd, FIELD_GET HW_IND_CTXT_DATA_W1_EVT_PND_MASK (nth 1 w 0));
   (hw_ctxt.fetch_pnd, FIELD_GET HW_IND_CTXT_DATA_W1_DSC_PND_MASK (nth 1 w 0))].

Definition eqdma_credit_context_fields (w : list Z) : list (cfield * Z) :=
  [(credit_ctxt.credit, FIELD_GET CRED_CTXT_DATA_W0_CREDT_MASK (nth 0 w 0))].

Definition eqdma_indirect_intr_context_words (ctxt : Z) : list Z :=
  let c f := fld f ctxt in
  let baddr_l := FIELD_GET QDMA_INTR_CTXT_BADDR_GET_L_MASK (c ind_intr_ctxt.baddr_4k) in
  let baddr_m := FIELD_GET QDMA_INTR_CTXT_BADDR_GET_M_MASK (c ind_intr_ctxt.baddr_4k) in
  let baddr_h := FIELD_GET QDMA_INTR_CTXT_BADDR_GET_H_MASK (c ind_intr_ctxt.baddr_4k) in
  let pasid_l := FIELD_GET EQDMA_INTR_CTXT_PASID_GET_L_MASK (c ind_intr_ctxt.pasid) in
  let pasid_h := FIELD_GET EQDMA_INTR_CTXT_PASID_GET_H_MASK (c ind_intr_ctxt.pasid) in
  [FIELD_SET INTR_CTXT_DATA_W0_VALID_MASK (c ind_intr_ctxt.valid) .|
     FIELD_SET INTR_CTXT_DATA_W0_VEC_MASK (c ind_intr_ctxt.vec) .|
     FIELD_SET INTR_CTXT_DATA_W0_INT_ST_MASK (c ind_intr_ctxt.int_st) .|
     FIELD_SET INTR_CTXT_DATA_W0_COLOR_MASK (c ind_intr_ctxt.color) .|
     FIELD_SET INTR_CTXT_DATA_W0_BADDR_4K_L_MASK baddr_l;
   FIELD_SET INTR_CTXT_DATA_W1_BADDR_4K_M_MASK baddr_m;
   FIELD_SET INTR_CTXT_DATA_W2_BADDR_4K_H_MASK baddr_h .|
     FIELD_SET INTR_CTXT_DATA_W2_PAGE_SIZE_MASK (c ind_intr_ctxt.page_size) .|
     FIELD_SET INTR_CTXT_DATA_W2_PIDX_MASK (c ind_intr_ctxt.pidx) .|
     FIELD_SET INTR_CTXT_DATA_W2_AT_MASK (c ind_intr_ctxt.at_) .|
     FIELD_SET INTR_CTXT_DATA_W2_HOST_ID_MASK (c ind_intr_ctxt.host_id) .|
     FIELD_SET INTR_CTXT_DATA_W2_PASID_L_MASK pasid_l;
   FIELD_SET INTR_CTXT_DATA_W3_PASID_H_MASK pasid_h .|
     FIELD_SET INTR_CTXT_DATA_W3_PASID_EN_MASK (c ind_intr_ctxt.pasid_en) .|
     FIELD_SET INTR_CTXT_DATA_W3_FUNC_MASK (c ind_intr_ctxt.func_id)].

Definition eqdma_indirect_intr_context_fields (w : list Z) : list (cfield * Z) :=
  let baddr_l := FIELD_GET INTR_CTXT_DATA_W0_BADDR_4K_L_MASK (nth 0 w 0) in
  let baddr_m := FIELD_GET INTR_CTXT_DATA_W1_BADDR_4K_M_MASK (nth 1 w 0) in
  let baddr_h := FIELD_GET INTR_CTXT_DATA_W2_BADDR_4K_H_MASK (nth 2 w 0) in
  let pasid_l := u8 (FIELD_GET INTR_CTXT_DATA_W2_PASID_L_MASK (nth 2 w 0)) in
  let pasid_h := FIELD_GET INTR_CTXT_DATA_W3_PASID_H_MASK (nth 3 w 0) in
  [(ind_intr_ctxt.valid, FIELD_GET INTR_CTXT_DATA_W0_VALID_MASK (nth 0 w 0));
   (ind_intr_ctxt.vec, FIELD_GET INTR_CTXT_DATA_W0_VEC_MASK (nth 0 w 0));
   (ind_intr_ctxt.int_st, FIELD_GET INTR_CTXT_DATA_W0_INT_ST_MASK (nth 0 w 0));
   (ind_intr_ctxt.color, FIELD_GET INTR_CTXT_DATA_W0_COLOR_MASK (nth 0 w 0));
   (ind_intr_ctxt.page_size, FIELD_GET INTR_CTXT_DATA_W2_PAGE_SIZE_MASK (nth 2 w 0));
   (ind_intr_ctxt.pidx, FIELD_GET INTR_CTXT_DATA_W2_PIDX_MASK (nth 2 w 0));
   (ind_intr_ctxt.at_, FIELD_GET INTR_CTXT_DATA_W2_AT_MASK (nth 2 w 0));
   (ind_intr_ctxt.host_id, FIELD_GET INTR_CTXT_DATA_W2_HOST_ID_MASK (nth 2 w 0));
   (ind_intr_ctxt.pasid_en, FIELD_GET INTR_CTXT_DATA_W3_PASID_EN_MASK (nth 3 w 0));
   (ind_intr_ctxt.func_id, FIELD_GET INTR_CTXT_DATA_W3_FUNC_MASK (nth 3 w 0));
   (ind_intr_ctxt.baddr_4k, FIELD_SET QDMA_INTR_CTXT_BADDR_GET_L_MASK baddr_l .|
     FIELD_SET QDMA_INTR_CTXT_BADDR_GET_M_MASK baddr_m .|
     FIELD_SET QDMA_INTR_CTXT_BADDR_GET_H_MASK baddr_h);
   (ind_intr_ctxt.pasid, FIELD_SET EQDMA_INTR_CTXT_PASID_GET_L_MASK pasid_l .|
     FIELD_SET EQDMA_INTR_CTXT_PASID_GET_H_MASK pasid_h)].

(** ** The functions *)

#[export] Instance eqdma_regs : IndRegs.
Proof. refine {| ind_data_addr := 0x804; ind_cmd_addr := 0x844; ind_num_regs := 8 |}. reflexivity. Defined.

Section library.
Context {S : Type} `{HasTrace S} `{MmioDevice}.
Local Existing Instance eqdma_regs.

(** *** Software contexts *)


Definition eqdma_sw_context_write (c2h hw_qid : Z) (ctxt : option Z) : M S Z :=
  context_write (fun _ => true) eqdma_sw_context_words (sw_sel c2h) hw_qid ctxt.

Definition eqdma_sw_context_read (c2h hw_qid : Z) (ctxt : option Z) : M S (Z * option Z) :=
  context_read eqdma_sw_context_fields EQDMA_SW_CONTEXT_NUM_WORDS (sw_sel c2h) hw_qid ctxt.

Definition eqdma_sw_context_clear (c2h hw_qid : Z) : M S Z := indirect_reg_clear (sw_sel c2h) hw_qid.

Definition eqdma_sw_context_invalidate (c2h hw_qid : Z) : M S Z := indirect_reg_invalidate (sw_sel c2h) hw_qid.

Definition eqdma_sw_ctx_conf (c2h hw_qid : Z) (ctxt : option Z) (access_type : qdma_hw_access_type)
    : M S (Z * option Z) :=
  by_access access_type ctxt (eqdma_sw_context_read c2h hw_qid) (eqdma_sw_context_write c2h hw_qid)
    (eqdma_sw_context_clear c2h hw_qid) (eqdma_sw_context_invalidate c2h hw_qid).

(** *** Prefetch contexts *)


Definition eqdma_pfetch_context_write (hw_qid : Z) (ctxt : option Z) : M S Z :=
  context_write (fun _ => true) eqdma_pfetch_context_words QDMA_CTXT_SEL_PFTCH hw_qid ctxt.

Definition eqdma_pfetch_context_read (hw_qid : Z) (ctxt : option Z) : M S (Z * option Z) :=
  context_read eqdma_pfetch_context_fields EQDMA_PFETCH_CONTEXT_NUM_WORDS QDMA_CTXT_SEL_PFTCH hw_qid ctxt.

Definition eqdma_pfetch_context_clear (hw_qid : Z) : M S Z := indirect_reg_clear QDMA_CTXT_SEL_PFTCH hw_qid.

Definition eqdma_pfetch_context_invalidate (hw_qid : Z) : M S Z := indirect_reg_invalidate QDMA_CTXT_SEL_PFTCH hw_qid.

Definition eqdma_pfetch_ctx_conf (hw_qid : Z) (ctxt : option Z) (access_type : qdma_hw_access_type)
    : M S (Z * option Z) :=
  by_access access_type ctxt (eqdma_pfetch_context_read hw_qid) (eqdma_pfetch_context_write hw_qid)
    (eqdma_pfetch_context_clear hw_qid) (eqdma_pfetch_context_invalidate hw_qid).

(** *** Completion contexts *)


Definition eqdma_cmpt_context_ok (ctxt : Z) : bool :=
  negb (QDMA_CMPT_UPDATE_TRIG_MODE_TMR_CNTR <? fld cmpt_ctxt.trig_mode ctxt).

Definition eqdma_cmpt_context_write (hw_qid : Z) (ctxt : option Z) : M S Z :=
  context_write eqdma_cmpt_context_ok eqdma_cmpt_context_words QDMA_CTXT_SEL_CMPT hw_qid ctxt.

Definition eqdma_cmpt_context_read (hw_qid : Z) (ctxt : option Z) : M S (Z * option Z) :=
  context_read eqdma_cmpt_context_fields EQDMA_CMPT_CONTEXT_NUM_WORDS QDMA_CTXT_SEL_CMPT hw_qid ctxt.

Definition eqdma_cmpt_context_clear (hw_qid : Z) : M S Z := indirect_reg_clear QDMA_CTXT_SEL_CMPT hw_qid.

Definition eqdma_cmpt_context_invalidate (hw_qid : Z) : M S Z := indirect_reg_invalidate QDMA_CTXT_SEL_CMPT hw_qid.

Definition eqdma_cmpt_ctx_conf (hw_qid : Z) (ctxt : option Z) (access_type : qdma_hw_access_type)
    : M S (Z * option Z) :=
  by_access access_type ctxt (eqdma_cmpt_context_read hw_qid) (eqdma_cmpt_context_write hw_qid)
    (eqdma_cmpt_context_clear hw_qid) (eqdma_cmpt_context_invalidate hw_qid).

(** *** Hardware contexts *)


Definition eqdma_hw_context_read (c2h hw_qid : Z) (ctxt : option Z) : M S (Z * option Z) :=
  context_read eqdma_hw_context_fields EQDMA_HW_CONTEXT_NUM_WORDS (hw_sel c2h) hw_qid ctxt.

Definition eqdma_hw_context_clear (c2h hw_qid : Z) : M S Z := indirect_reg_clear (hw_sel c2h) hw_qid.

Definition eqdma_hw_context_invalidate (c2h hw_qid : Z) : M S Z := indirect_reg_invalidate (hw_sel c2h) hw_qid.

Definition eqdma_hw_ctx_conf (c2h hw_qid : Z) (ctxt : option Z) (access_type : qdma_hw_access_type)
    : M S (Z * option Z) :=
  direction_ok c2h ctxt (by_access access_type ctxt (eqdma_hw_context_read c2h hw_qid) (fun _ => unsupported)
    (eqdma_hw_context_clear c2h hw_qid) (eqdma_hw_context_invalidate c2h hw_qid)).

(** *** Credit contexts *)


Definition eqdma_credit_context_read (c2h hw_qid : Z) (ctxt : option Z) : M S (Z * option Z) :=
  context_read eqdma_credit_context_fields EQDMA_CR_CONTEXT_NUM_WORDS (cr_sel c2h) hw_qid ctxt.

Definition eqdma_credit_context_clear (c2h hw_qid : Z) : M S Z := indirect_reg_clear (cr_sel c2h) hw_qid.

Definition eqdma_credit_context_invalidate (c2h hw_qid : Z) : M S Z := indirect_reg_invalidate (cr_sel c2h) hw_qid.

Definition eqdma_credit_ctx_conf (c2h hw_qid : Z) (ctxt : option Z) (access_type : qdma_hw_access_type)
    : M S (Z * option Z) :=
  direction_ok c2h ctxt (by_access access_type ctxt (eqdma_credit_context_read c2h hw_qid) (fun _ => unsupported)
    (eqdma_credit_context_clear c2h hw_qid) (eqdma_credit_context_invalidate c2h hw_qid)).

(** *** Interrupt ring contexts *)


Definition eqdma_indirect_intr_context_write (ring_index : Z) (ctxt : option Z) : M S Z :=
  context_write (fun _ => true) eqdma_indirect_intr_context_words QDMA_CTXT_SEL_INT_COAL ring_index ctxt.

Definition eqdma_indirect_intr_context_read (ring_index : Z) (ctxt : option Z) : M S (Z * option Z) :=
  context_read eqdma_indirect_intr_context_fields EQDMA_IND_INTR_CONTEXT_NUM_WORDS QDMA_CTXT_SEL_INT_COAL ring_index ctxt.

Definition eqdma_indirect_intr_context_clear (ring_index : Z) : M S Z := indirect_reg_clear QDMA_CTXT_SEL_INT_COAL ring_index.

Definition eqdma_indirect_intr_context_invalidate (ring_index : Z) : M S Z := indirect_reg_invalidate QDMA_CTXT_SEL_INT_COAL ring_index.

Definition eqdma_indirect_intr_ctx_conf (ring_index : Z) (ctxt : option Z) (access_type : qdma_hw_access_type)
    : M S (Z * option Z) :=
  by_access access_type ctxt (eqdma_indirect_intr_context_read ring_index) (eqdma_indirect_intr_context_write ring_index)
    (eqdma_indirect_intr_context_clear ring_index) (eqdma_indirect_intr_context_invalidate ring_index).

End library.
