(* ===== verification/SoftCtxt.v ===== *)
(** * SoftCtxt: the contexts of the soft QDMA ([qdma_soft_access.c])

    The masks of the soft QDMA's context words ([qdma_soft_reg.h]), the words each
    kind of context is packed into and the members taken from the words read
    ([_words], [_fields]), and the functions that access contexts through the indirect
    registers.  A pointer to a structure that may be null is an [option]; the device
    handle is not null. *)

From S2P Require Import Prelude QdmaErrors Mmio CLayout Contexts Fields Indirect Codec Access.
Local Open Scope Z_scope.
Local Open Scope reconic_scope.

(** ** Masks *)

Definition QDMA_SW_CTXT_W0_PIDX : Z := GENMASK 15 0.
Definition QDMA_SW_CTXT_W0_IRQ_ARM_MASK : Z := BIT 16.
Definition QDMA_SW_CTXT_W0_FUNC_ID_MASK : Z := GENMASK 24 17.
Definition QDMA_SW_CTXT_W1_QEN_MASK : Z := BIT 0.
Definition QDMA_SW_CTXT_W1_FCRD_EN_MASK : Z := BIT 1.
Definition QDMA_SW_CTXT_W1_WBI_CHK_MASK : Z := BIT 2.
Definition QDMA_SW_CTXT_W1_WB_INT_EN_MASK : Z := BIT 3.
Definition QDMA_SW_CTXT_W1_AT_MASK : Z := BIT 4.
Definition QDMA_SW_CTXT_W1_FETCH_MAX_MASK : Z := GENMASK 7 5.
Definition QDMA_SW_CTXT_W1_RNG_SZ_MASK : Z := GENMASK 15 12.
Definition QDMA_SW_CTXT_W1_DSC_SZ_MASK : Z := GENMASK 17 16.
Definition QDMA_SW_CTXT_W1_BYP_MASK : Z := BIT 18.
Definition QDMA_SW_CTXT_W1_MM_CHN_MASK : Z := BIT 19.
Definition QDMA_SW_CTXT_W1_WBK_EN_MASK : Z := BIT 20.
Definition QDMA_SW_CTXT_W1_IRQ_EN_MASK : Z := BIT 21.
Definition QDMA_SW_CTXT_W1_PORT_ID_MASK : Z := GENMASK 24 22.
Definition QDMA_SW_CTXT_W1_IRQ_NO_LAST_MASK : Z := BIT 25.
Definition QDMA_SW_CTXT_W1_ERR_MASK : Z := GENMASK 27 26.
Definition QDMA_SW_CTXT_W1_ERR_WB_SENT_MASK : Z := BIT 28.
Definition QDMA_SW_CTXT_W1_IRQ_REQ_MASK : Z := BIT 29.
Definition QDMA_SW_CTXT_W1_MRKR_DIS_MASK : Z := BIT 30.
Definition QDMA_SW_CTXT_W1_IS_MM_MASK : Z := BIT 31.
Definition QDMA_SW_CTXT_W4_VEC_MASK : Z := GENMASK 10 0.
Definition QDMA_SW_CTXT_W4_INTR_AGGR_MASK : Z := BIT 11.
Definition QDMA_PFTCH_CTXT_W0_BYPASS_MASK : Z := BIT 0.
Definition QDMA_PFTCH_CTXT_W0_BUF_SIZE_IDX_MASK : Z := GENMASK 4 1.
Definition QDMA_PFTCH_CTXT_W0_PORT_ID_MASK : Z := GENMASK 7 5.
Definition QDMA_PFTCH_CTXT_W0_ERR_MASK : Z := BIT 26.
Definition QDMA_PFTCH_CTXT_W0_PFETCH_EN_MASK : Z := BIT 27.
Definition QDMA_PFTCH_CTXT_W0_Q_IN_PFETCH_MASK : Z := BIT 28.
Definition QDMA_PFTCH_CTXT_W0_SW_CRDT_L_MASK : Z := GENMASK 31 29.
Definition QDMA_PFTCH_CTXT_W1_SW_CRDT_H_MASK : Z := GENMASK 12 0.
Definition QDMA_PFTCH_CTXT_W1_VALID_MASK : Z := BIT 13.
Definition QDMA_COMPL_CTXT_W0_EN_STAT_DESC_MASK : Z := BIT 0.
Definition QDMA_COMPL_CTXT_W0_EN_INT_MASK : Z := BIT 1.
Definition QDMA_COMPL_CTXT_W0_TRIG_MODE_MASK : Z := GENMASK 4 2.
Definition QDMA_COMPL_CTXT_W0_FNC_ID_MASK : Z := GENMASK 12 5.
Definition QDMA_COMPL_CTXT_W0_COUNTER_IDX_MASK : Z := GENMASK 20 17.
Definition QDMA_COMPL_CTXT_W0_TIMER_IDX_MASK : Z := GENMASK 24 21.
Definition QDMA_COMPL_CTXT_W0_INT_ST_MASK : Z := GENMASK 26 25.
Definition QDMA_COMPL_CTXT_W0_COLOR_MASK : Z := BIT 27.
Definition QDMA_COMPL_CTXT_W0_RING_SZ_MASK : Z := GENMASK 31 28.
Definition QDMA_COMPL_CTXT_W1_BADDR_64_L_MASK : Z := GENMASK 31 6.
Definition QDMA_COMPL_CTXT_W2_BADDR_64_H_MASK : Z := GENMASK 25 0.
Definition QDMA_COMPL_CTXT_W2_DESC_SIZE_MASK : Z := GENMASK 27 26.
Definition QDMA_COMPL_CTXT_W2_PIDX_L_MASK : Z := GENMASK 31 28.
Definition QDMA_COMPL_CTXT_W3_PIDX_H_MASK : Z := GENMASK 11 0.
Definition QDMA_COMPL_CTXT_W3_CIDX_MASK : Z := GENMASK 27 12.
Definition QDMA_COMPL_CTXT_W3_VALID_MASK : Z := BIT 28.
Definition QDMA_COMPL_CTXT_W3_ERR_MASK : Z := GENMASK 30 29.
Definition QDMA_COMPL_CTXT_W3_USR_TRG_PND_MASK : Z := BIT 31.
Definition QDMA_COMPL_CTXT_W4_TMR_RUN_MASK : Z := BIT 0.
Definition QDMA_COMPL_CTXT_W4_FULL_UPDT_MASK : Z := BIT 1.
Definition QDMA_COMPL_CTXT_W4_OVF_CHK_DIS_MASK : Z := BIT 2.
Definition QDMA_COMPL_CTXT_W4_AT_MASK : Z := BIT 3.
Definition QDMA_COMPL_CTXT_W4_INTR_VEC_MASK : Z := GENMASK 14 4.
Definition QDMA_COMPL_CTXT_W4_INTR_AGGR_MASK : Z := BIT 15.
Definition QDMA_HW_CTXT_W0_CIDX_MASK : Z := GENMASK 15 0.
Definition QDMA_HW_CTXT_W0_CRD_USE_MASK : Z := GENMASK 31 16.
Definition QDMA_HW_CTXT_W1_DSC_PND_MASK : Z := BIT 8.
Definition QDMA_HW_CTXT_W1_IDL_STP_B_MASK : Z := BIT 9.
Definition QDMA_HW_CTXT_W1_EVENT_PEND_MASK : Z := BIT 10.
Definition QDMA_HW_CTXT_W1_FETCH_PEND_MASK : Z := GENMASK 14 11.
Definition QDMA_CR_CTXT_W0_CREDT_MASK : Z := GENMASK 15 0.
Definition QDMA_INTR_CTXT_W0_VALID_MASK : Z := BIT 0.
Definition QDMA_INTR_CTXT_W0_VEC_ID_MASK : Z := GENMASK 11 1.
Definition QDMA_INTR_CTXT_W0_INT_ST_MASK : Z := BIT 13.
Definition QDMA_INTR_CTXT_W0_COLOR_MASK : Z := BIT 14.
Definition QDMA_INTR_CTXT_W0_BADDR_64_MASK : Z := GENMASK 31 15.
Definition QDMA_INTR_CTXT_W1_BADDR_64_MASK : Z := GENMASK 31 0.
Definition QDMA_INTR_CTXT_W2_BADDR_64_MASK : Z := GENMASK 2 0.
Definition QDMA_INTR_CTXT_W2_PAGE_SIZE_MASK : Z := GENMASK 5 3.
Definition QDMA_INTR_CTXT_W2_PIDX_MASK : Z := GENMASK 17 6.
Definition QDMA_INTR_CTXT_W2_AT_MASK : Z := BIT 18.
Definition QDMA_FMAP_CTXT_W0_QID_MASK : Z := GENMASK 10 0.
Definition QDMA_FMAP_CTXT_W1_QID_MAX_MASK : Z := GENMASK 11 0.

(** The numbers of words. *)
Definition QDMA_FMAP_NUM_WORDS : nat := 2.
Definition QDMA_SW_CONTEXT_NUM_WORDS : nat := 5.
Definition QDMA_PFETCH_CONTEXT_NUM_WORDS : nat := 2.
Definition QDMA_CMPT_CONTEXT_NUM_WORDS : nat := 5.
Definition QDMA_HW_CONTEXT_NUM_WORDS : nat := 2.
Definition QDMA_CR_CONTEXT_NUM_WORDS : nat := 1.
Definition QDMA_IND_INTR_CONTEXT_NUM_WORDS : nat := 3.

(** ** Formats *)

Definition qdma_fmap_words (ctxt : Z) : list Z :=
  let c f := fld f ctxt in
  [FIELD_SET QDMA_FMAP_CTXT_W0_QID_MASK (c fmap_cfg.qbase);
   FIELD_SET QDMA_FMAP_CTXT_W1_QID_MAX_MASK (c fmap_cfg.qmax)].

Definition qdma_fmap_fields (w : list Z) : list (cfield * Z) :=
  [(fmap_cfg.qbase, FIELD_GET QDMA_FMAP_CTXT_W0_QID_MASK (nth 0 w 0));
   (fmap_cfg.qmax, FIELD_GET QDMA_FMAP_CTXT_W1_QID_MAX_MASK (nth 1 w 0))].

Definition qdma_sw_context_words (ctxt : Z) : list Z :=
  let c f := fld f ctxt in
  [FIELD_SET QDMA_SW_CTXT_W0_PIDX (c sw_ctxt.pidx) .|
     FIELD_SET QDMA_SW_CTXT_W0_IRQ_ARM_MASK (c sw_ctxt.irq_arm) .|
     FIELD_SET QDMA_SW_CTXT_W0_FUNC_ID_MASK (c sw_ctxt.fnc_id);
   FIELD_SET QDMA_SW_CTXT_W1_QEN_MASK (c sw_ctxt.qen) .|
     FIELD_SET QDMA_SW_CTXT_W1_FCRD_EN_MASK (c sw_ctxt.frcd_en) .|
     FIELD_SET QDMA_SW_CTXT_W1_WBI_CHK_MASK (c sw_ctxt.wbi_chk) .|
     FIELD_SET QDMA_SW_CTXT_W1_WB_INT_EN_MASK (c sw_ctxt.wbi_intvl_en) .|
     FIELD_SET QDMA_SW_CTXT_W1_AT_MASK (c sw_ctxt.at_) .|
     FIELD_SET QDMA_SW_CTXT_W1_FETCH_MAX_MASK (c sw_ctxt.fetch_max) .|
     FIELD_SET QDMA_SW_CTXT_W1_RNG_SZ_MASK (c sw_ctxt.rngsz_idx) .|
     FIELD_SET QDMA_SW_CTXT_W1_DSC_SZ_MASK (c sw_ctxt.desc_sz) .|
     FIELD_SET QDMA_SW_CTXT_W1_BYP_MASK (c sw_ctxt.bypass) .|
     FIELD_SET QDMA_SW_CTXT_W1_MM_CHN_MASK (c sw_ctxt.mm_chn) .|
     FIELD_SET QDMA_SW_CTXT_W1_WBK_EN_MASK (c sw_ctxt.wbk_en) .|
     FIELD_SET QDMA_SW_CTXT_W1_IRQ_EN_MASK (c sw_ctxt.irq_en) .|
     FIELD_SET QDMA_SW_CTXT_W1_PORT_ID_MASK (c sw_ctxt.port_id) .|
     FIELD_SET QDMA_SW_CTXT_W1_IRQ_NO_LAST_MASK (c sw_ctxt.irq_no_last) .|
     FIELD_SET QDMA_SW_CTXT_W1_ERR_MASK (c sw_ctxt.err) .|
     FIELD_SET QDMA_SW_CTXT_W1_ERR_WB_SENT_MASK (c sw_ctxt.err_wb_sent) .|
     FIELD_SET QDMA_SW_CTXT_W1_IRQ_REQ_MASK (c sw_ctxt.irq_req) .|
     FIELD_SET QDMA_SW_CTXT_W1_MRKR_DIS_MASK (c sw_ctxt.mrkr_dis) .|
     FIELD_SET QDMA_SW_CTXT_W1_IS_MM_MASK (c sw_ctxt.is_mm);
   Z.land (c sw_ctxt.ring_bs_addr) 0xffffffff;
   Z.land (Z.shiftr (c sw_ctxt.ring_bs_addr) 32) 0xffffffff;
   FIELD_SET QDMA_SW_CTXT_W4_VEC_MASK (c sw_ctxt.vec) .|
     FIELD_SET QDMA_SW_CTXT_W4_INTR_AGGR_MASK (c sw_ctxt.intr_aggr)].

Definition qdma_sw_context_fields (w : list Z) : list (cfield * Z) :=
  [(sw_ctxt.pidx, FIELD_GET QDMA_SW_CTXT_W0_PIDX (nth 0 w 0));
   (sw_ctxt.irq_arm, FIELD_GET QDMA_SW_CTXT_W0_IRQ_ARM_MASK (nth 0 w 0));
   (sw_ctxt.fnc_id, FIELD_GET QDMA_SW_CTXT_W0_FUNC_ID_MASK (nth 0 w 0));
   (sw_ctxt.qen, FIELD_GET QDMA_SW_CTXT_W1_QEN_MASK (nth 1 w 0));
   (sw_ctxt.frcd_en, FIELD_GET QDMA_SW_CTXT_W1_FCRD_EN_MASK (nth 1 w 0));
   (sw_ctxt.wbi_chk, FIELD_GET QDMA_SW_CTXT_W1_WBI_CHK_MASK (nth 1 w 0));
   (sw_ctxt.wbi_intvl_en, FIELD_GET QDMA_SW_CTXT_W1_WB_INT_EN_MASK (nth 1 w 0));
   (sw_ctxt.at_, FIELD_GET QDMA_SW_CTXT_W1_AT_MASK (nth 1 w 0));
   (sw_ctxt.fetch_max, FIELD_GET QDMA_SW_CTXT_W1_FETCH_MAX_MASK (nth 1 w 0));
   (sw_ctxt.rngsz_idx, FIELD_GET QDMA_SW_CTXT_W1_RNG_SZ_MASK (nth 1 w 0));
   (sw_ctxt.desc_sz, FIELD_GET QDMA_SW_CTXT_W1_DSC_SZ_MASK (nth 1 w 0));
   (sw_ctxt.bypass, FIELD_GET QDMA_SW_CTXT_W1_BYP_MASK (nth 1 w 0));
   (sw_ctxt.mm_chn, FIELD_GET QDMA_SW_CTXT_W1_MM_CHN_MASK (nth 1 w 0));
   (sw_ctxt.wbk_en, FIELD_GET QDMA_SW_CTXT_W1_WBK_EN_MASK (nth 1 w 0));
   (sw_ctxt.irq_en, FIELD_GET QDMA_SW_CTXT_W1_IRQ_EN_MASK (nth 1 w 0));
   (sw_ctxt.port_id, FIELD_GET QDMA_SW_CTXT_W1_PORT_ID_MASK (nth 1 w 0));
   (sw_ctxt.irq_no_last, FIELD_GET QDMA_SW_CTXT_W1_IRQ_NO_LAST_MASK (nth 1 w 0));
   (sw_ctxt.err, FIELD_GET QDMA_SW_CTXT_W1_ERR_MASK (nth 1 w 0));
   (sw_ctxt.err_wb_sent, FIELD_GET QDMA_SW_CTXT_W1_ERR_WB_SENT_MASK (nth 1 w 0));
   (sw_ctxt.irq_req, FIELD_GET QDMA_SW_CTXT_W1_IRQ_REQ_MASK (nth 1 w 0));
   (sw_ctxt.mrkr_dis, FIELD_GET QDMA_SW_CTXT_W1_MRKR_DIS_MASK (nth 1 w 0));
   (sw_ctxt.is_mm, FIELD_GET QDMA_SW_CTXT_W1_IS_MM_MASK (nth 1 w 0));
   (sw_ctxt.ring_bs_addr, Z.shiftl (nth 3 w 0) 32 .|
     nth 2 w 0);
   (sw_ctxt.vec, FIELD_GET QDMA_SW_CTXT_W4_VEC_MASK (nth 4 w 0));
   (sw_ctxt.intr_aggr, FIELD_GET QDMA_SW_CTXT_W4_INTR_AGGR_MASK (nth 4 w 0))].

Definition qdma_pfetch_context_words (ctxt : Z) : list Z :=
  let c f := fld f ctxt in
  let sw_crdt_l := FIELD_GET QDMA_PFTCH_CTXT_SW_CRDT_GET_L_MASK (c pfetch_ctxt.sw_crdt) in
  let sw_crdt_h := FIELD_GET QDMA_PFTCH_CTXT_SW_CRDT_GET_H_MASK (c pfetch_ctxt.sw_crdt) in
  [FIELD_SET QDMA_PFTCH_CTXT_W0_BYPASS_MASK (c pfetch_ctxt.bypass) .|
     FIELD_SET QDMA_PFTCH_CTXT_W0_BUF_SIZE_IDX_MASK (c pfetch_ctxt.bufsz_idx) .|
     FIELD_SET QDMA_PFTCH_CTXT_W0_PORT_ID_MASK (c pfetch_ctxt.port_id) .|
     FIELD_SET QDMA_PFTCH_CTXT_W0_ERR_MASK (c pfetch_ctxt.err) .|
     FIELD_SET QDMA_PFTCH_CTXT_W0_PFETCH_EN_MASK (c pfetch_ctxt.pfch_en) .|
     FIELD_SET QDMA_PFTCH_CTXT_W0_Q_IN_PFETCH_MASK (c pfetch_ctxt.pfch) .|
     FIELD_SET QDMA_PFTCH_CTXT_W0_SW_CRDT_L_MASK sw_crdt_l;
   FIELD_SET QDMA_PFTCH_CTXT_W1_SW_CRDT_H_MASK sw_crdt_h .|
     FIELD_SET QDMA_PFTCH_CTXT_W1_VALID_MASK (c pfetch_ctxt.valid)].

Definition qdma_pfetch_context_fields (w : list Z) : list (cfield * Z) :=
  let sw_crdt_l := FIELD_GET QDMA_PFTCH_CTXT_W0_SW_CRDT_L_MASK (nth 0 w 0) in
  let sw_crdt_h := FIELD_GET QDMA_PFTCH_CTXT_W1_SW_CRDT_H_MASK (nth 1 w 0) in
  [(pfetch_ctxt.bypass, FIELD_GET QDMA_PFTCH_CTXT_W0_BYPASS_MASK (nth 0 w 0));
   (pfetch_ctxt.bufsz_idx, FIELD_GET QDMA_PFTCH_CTXT_W0_BUF_SIZE_IDX_MASK (nth 0 w 0));
   (pfetch_ctxt.port_id, FIELD_GET QDMA_PFTCH_CTXT_W0_PORT_ID_MASK (nth 0 w 0));
   (pfetch_ctxt.err, FIELD_GET QDMA_PFTCH_CTXT_W0_ERR_MASK (nth 0 w 0));
   (pfetch_ctxt.pfch_en, FIELD_GET QDMA_PFTCH_CTXT_W0_PFETCH_EN_MASK (nth 0 w 0));
   (pfetch_ctxt.pfch, FIELD_GET QDMA_PFTCH_CTXT_W0_Q_IN_PFETCH_MASK (nth 0 w 0));
   (pfetch_ctxt.valid, FIELD_GET QDMA_PFTCH_CTXT_W1_VALID_MASK (nth 1 w 0));
   (pfetch_ctxt.sw_crdt, FIELD_SET QDMA_PFTCH_CTXT_SW_CRDT_GET_L_MASK sw_crdt_l .|
     FIELD_SET QDMA_PFTCH_CTXT_SW_CRDT_GET_H_MASK sw_crdt_h)].

Definition qdma_cmpt_context_words (ctxt : Z) : list Z :=
  let c f := fld f ctxt in
  let baddr_l := FIELD_GET QDMA_COMPL_CTXT_BADDR_GET_L_MASK (c cmpt_ctxt.bs_addr) in
  let baddr_h := FIELD_GET QDMA_COMPL_CTXT_BADDR_GET_H_MASK (c cmpt_ctxt.bs_addr) in
  let pidx_l := FIELD_GET QDMA_COMPL_CTXT_PIDX_GET_L_MASK (c cmpt_ctxt.pidx) in
  let pidx_h := FIELD_GET QDMA_COMPL_CTXT_PIDX_GET_H_MASK (c cmpt_ctxt.pidx) in
  [FIELD_SET QDMA_COMPL_CTXT_W0_EN_STAT_DESC_MASK (c cmpt_ctxt.en_stat_desc) .|
     FIELD_SET QDMA_COMPL_CTXT_W0_EN_INT_MASK (c cmpt_ctxt.en_int) .|
     FIELD_SET QDMA_COMPL_CTXT_W0_TRIG_MODE_MASK (c cmpt_ctxt.trig_mode) .|
     FIELD_SET QDMA_COMPL_CTXT_W0_FNC_ID_MASK (c cmpt_ctxt.fnc_id) .|
     FIELD_SET QDMA_COMPL_CTXT_W0_COUNTER_IDX_MASK (c cmpt_ctxt.counter_idx) .|
     FIELD_SET QDMA_COMPL_CTXT_W0_TIMER_IDX_MASK (c cmpt_ctxt.timer_idx) .|
     FIELD_SET QDMA_COMPL_CTXT_W0_INT_ST_MASK (c cmpt_ctxt.in_st) .|
     FIELD_SET QDMA_COMPL_CTXT_W0_COLOR_MASK (c cmpt_ctxt.color) .|
     FIELD_SET QDMA_COMPL_CTXT_W0_RING_SZ_MASK (c cmpt_ctxt.ringsz_idx);
   FIELD_SET QDMA_COMPL_CTXT_W1_BADDR_64_L_MASK baddr_l;
   FIELD_SET QDMA_COMPL_CTXT_W2_BADDR_64_H_MASK baddr_h .|
     FIELD_SET QDMA_COMPL_CTXT_W2_DESC_SIZE_MASK (c cmpt_ctxt.desc_sz) .|
     FIELD_SET QDMA_COMPL_CTXT_W2_PIDX_L_MASK pidx_l;
   FIELD_SET QDMA_COMPL_CTXT_W3_PIDX_H_MASK pidx_h .|
     FIELD_SET QDMA_COMPL_CTXT_W3_CIDX_MASK (c cmpt_ctxt.cidx) .|
     FIELD_SET QDMA_COMPL_CTXT_W3_VALID_MASK (c cmpt_ctxt.valid) .|
     FIELD_SET QDMA_COMPL_CTXT_W3_ERR_MASK (c cmpt_ctxt.err) .|
     FIELD_SET QDMA_COMPL_CTXT_W3_USR_TRG_PND_MASK (c cmpt_ctxt.user_trig_pend);
   FIELD_SET QDMA_COMPL_CTXT_W4_TMR_RUN_MASK (c cmpt_ctxt.timer_running) .|
     FIELD_SET QDMA_COMPL_CTXT_W4_FULL_UPDT_MASK (c cmpt_ctxt.full_upd) .|
     FIELD_SET QDMA_COMPL_CTXT_W4_OVF_CHK_DIS_MASK (c cmpt_ctxt.ovf_chk_dis) .|
     FIELD_SET QDMA_COMPL_CTXT_W4_AT_MASK (c cmpt_ctxt.at_) .|
     FIELD_SET QDMA_COMPL_CTXT_W4_INTR_VEC_MASK (c cmpt_ctxt.vec) .|
     FIELD_SET QDMA_COMPL_CTXT_W4_INTR_AGGR_MASK (c cmpt_ctxt.int_aggr)].

Definition qdma_cmpt_context_fields (w : list Z) : list (cfield * Z) :=
  let baddr_l := FIELD_GET QDMA_COMPL_CTXT_W1_BADDR_64_L_MASK (nth 1 w 0) in
  let baddr_h := FIELD_GET QDMA_COMPL_CTXT_W2_BADDR_64_H_MASK (nth 2 w 0) in
  let pidx_l := FIELD_GET QDMA_COMPL_CTXT_W2_PIDX_L_MASK (nth 2 w 0) in
  let pidx_h := FIELD_GET QDMA_COMPL_CTXT_W3_PIDX_H_MASK (nth 3 w 0) in
  [(cmpt_ctxt.en_stat_desc, FIELD_GET QDMA_COMPL_CTXT_W0_EN_STAT_DESC_MASK (nth 0 w 0));
   (cmpt_ctxt.en_int, FIELD_GET QDMA_COMPL_CTXT_W0_EN_INT_MASK (nth 0 w 0));
   (cmpt_ctxt.trig_mode, FIELD_GET QDMA_COMPL_CTXT_W0_TRIG_MODE_MASK (nth 0 w 0));
   (cmpt_ctxt.fnc_id, FIELD_GET QDMA_COMPL_CTXT_W0_FNC_ID_MASK (nth 0 w 0));
   (cmpt_ctxt.counter_idx, FIELD_GET QDMA_COMPL_CTXT_W0_COUNTER_IDX_MASK (nth 0 w 0));
   (cmpt_ctxt.timer_idx, FIELD_GET QDMA_COMPL_CTXT_W0_TIMER_IDX_MASK (nth 0 w 0));
   (cmpt_ctxt.in_st, FIELD_GET QDMA_COMPL_CTXT_W0_INT_ST_MASK (nth 0 w 0));
   (cmpt_ctxt.color, FIELD_GET QDMA_COMPL_CTXT_W0_COLOR_MASK (nth 0 w 0));
   (cmpt_ctxt.ringsz_idx, FIELD_GET QDMA_COMPL_CTXT_W0_RING_SZ_MASK (nth 0 w 0));
   (cmpt_ctxt.desc_sz, FIELD_GET QDMA_COMPL_CTXT_W2_DESC_SIZE_MASK (nth 2 w 0));
   (cmpt_ctxt.cidx, FIELD_GET QDMA_COMPL_CTXT_W3_CIDX_MASK (nth 3 w 0));
   (cmpt_ctxt.valid, FIELD_GET QDMA_COMPL_CTXT_W3_VALID_MASK (nth 3 w 0));
   (cmpt_ctxt.err, FIELD_GET QDMA_COMPL_CTXT_W3_ERR_MASK (nth 3 w 0));
   (cmpt_ctxt.user_trig_pend, FIELD_GET QDMA_COMPL_CTXT_W3_USR_TRG_PND_MASK (nth 3 w 0));
   (cmpt_ctxt.timer_running, FIELD_GET QDMA_COMPL_CTXT_W4_TMR_RUN_MASK (nth 4 w 0));
   (cmpt_ctxt.full_upd, FIELD_GET QDMA_COMPL_CTXT_W4_FULL_UPDT_MASK (nth 4 w 0));
   (cmpt_ctxt.ovf_chk_dis, FIELD_GET QDMA_COMPL_CTXT_W4_OVF_CHK_DIS_MASK (nth 4 w 0));
   (cmpt_ctxt.at_, FIELD_GET QDMA_COMPL_CTXT_W4_AT_MASK (nth 4 w 0));
   (cmpt_ctxt.vec, FIELD_GET QDMA_COMPL_CTXT_W4_INTR_VEC_MASK (nth 4 w 0));
   (cmpt_ctxt.int_aggr, FIELD_GET QDMA_COMPL_CTXT_W4_INTR_AGGR_MASK (nth 4 w 0));
   (cmpt_ctxt.bs_addr, FIELD_SET QDMA_COMPL_CTXT_BADDR_GET_L_MASK baddr_l .|
     FIELD_SET QDMA_COMPL_CTXT_BADDR_GET_H_MASK baddr_h);
   (cmpt_ctxt.pidx, FIELD_SET QDMA_COMPL_CTXT_PIDX_GET_L_MASK pidx_l .|
     FIELD_SET QDMA_COMPL_CTXT_PIDX_GET_H_MASK pidx_h)].

Definition qdma_hw_context_fields (w : list Z) : list (cfield * Z) :=
  [(hw_ctxt.cidx, FIELD_GET QDMA_HW_CTXT_W0_CIDX_MASK (nth 0 w 0));
   (hw_ctxt.crd_use, FIELD_GET QDMA_HW_CTXT_W0_CRD_USE_MASK (nth 0 w 0));
   (hw_ctxt.dsc_pend, FIELD_GET QDMA_HW_CTXT_W1_DSC_PND_MASK (nth 1 w 0));
   (hw_ctxt.idl_stp_b, FIELD_GET QDMA_HW_CTXT_W1_IDL_STP_B_MASK (nth 1 w 0));
   (hw_ctxt.evt_pnd, FIELD_GET QDMA_HW_CTXT_W1_EVENT_PEND_MASK (nth 1 w 0));
   (hw_ctxt.fetch_pnd, FIELD_GET QDMA_HW_CTXT_W1_FETCH_PEND_MASK (nth 1 w 0))].

Definition qdma_credit_context_fields (w : list Z) : list (cfield * Z) :=
  [(credit_ctxt.credit, FIELD_GET QDMA_CR_CTXT_W0_CREDT_MASK (nth 0 w 0))].

Definition qdma_indirect_intr_context_words (ctxt : Z) : list Z :=
  let c f := fld f ctxt in
  let baddr_l := FIELD_GET QDMA_INTR_CTXT_BADDR_GET_L_MASK (c ind_intr_ctxt.baddr_4k) in
  let baddr_m := FIELD_GET QDMA_INTR_CTXT_BADDR_GET_M_MASK (c ind_intr_ctxt.baddr_4k) in
  let baddr_h := FIELD_GET QDMA_INTR_CTXT_BADDR_GET_H_MASK (c ind_intr_ctxt.baddr_4k) in
  [FIELD_SET QDMA_INTR_CTXT_W0_VALID_MASK (c ind_intr_ctxt.valid) .|
     FIELD_SET QDMA_INTR_CTXT_W0_VEC_ID_MASK (c ind_intr_ctxt.vec) .|
     FIELD_SET QDMA_INTR_CTXT_W0_INT_ST_MASK (c ind_intr_ctxt.int_st) .|
     FIELD_SET QDMA_INTR_CTXT_W0_COLOR_MASK (c ind_intr_ctxt.color) .|
     FIELD_SET QDMA_INTR_CTXT_W0_BADDR_64_MASK baddr_l;
   FIELD_SET QDMA_INTR_CTXT_W1_BADDR_64_MASK baddr_m;
   FIELD_SET QDMA_INTR_CTXT_W2_BADDR_64_MASK baddr_h .|
     FIELD_SET QDMA_INTR_CTXT_W2_PAGE_SIZE_MASK (c ind_intr_ctxt.page_size) .|
     FIELD_SET QDMA_INTR_CTXT_W2_PIDX_MASK (c ind_intr_ctxt.pidx) .|
     FIELD_SET QDMA_INTR_CTXT_W2_AT_MASK (c ind_intr_ctxt.at_)].

Definition qdma_indirect_intr_context_fields (w : list Z) : list (cfield * Z) :=
  let baddr_l := FIELD_GET QDMA_INTR_CTXT_W0_BADDR_64_MASK (nth 0 w 0) in
  let baddr_m := FIELD_GET QDMA_INTR_CTXT_W1_BADDR_64_MASK (nth 1 w 0) in
  let baddr_h := FIELD_GET QDMA_INTR_CTXT_W2_BADDR_64_MASK (nth 2 w 0) in
  [(ind_intr_ctxt.valid, FIELD_GET QDMA_INTR_CTXT_W0_VALID_MASK (nth 0 w 0));
   (ind_intr_ctxt.vec, FIELD_GET QDMA_INTR_CTXT_W0_VEC_ID_MASK (nth 0 w 0));
   (ind_intr_ctxt.int_st, FIELD_GET QDMA_INTR_CTXT_W0_INT_ST_MASK (nth 0 w 0));
   (ind_intr_ctxt.color, FIELD_GET QDMA_INTR_CTXT_W0_COLOR_MASK (nth 0 w 0));
   (ind_intr_ctxt.page_size, FIELD_GET QDMA_INTR_CTXT_W2_PAGE_SIZE_MASK (nth 2 w 0));
   (ind_intr_ctxt.pidx, FIELD_GET QDMA_INTR_CTXT_W2_PIDX_MASK (nth 2 w 0));
   (ind_intr_ctxt.at_, FIELD_GET QDMA_INTR_CTXT_W2_AT_MASK (nth 2 w 0));
   (ind_intr_ctxt.baddr_4k, FIELD_SET QDMA_INTR_CTXT_BADDR_GET_L_MASK baddr_l .|
     FIELD_SET QDMA_INTR_CTXT_BADDR_GET_M_MASK baddr_m .|
     FIELD_SET QDMA_INTR_CTXT_BADDR_GET_H_MASK baddr_h)].

(** ** The functions *)

#[export] Instance qdma_regs : IndRegs.
Proof. refine {| ind_data_addr := 0x804; ind_cmd_addr := 0x844; ind_num_regs := 8 |}. reflexivity. Defined.

Section library.
Context {S : Type} `{HasTrace S} `{MmioDevice}.
Local Existing Instance qdma_regs.

(** *** Function maps *)

Definition qdma_fmap_write (func_id : Z) (config : option Z) : M S Z :=
  context_write (fun _ => true) qdma_fmap_words QDMA_CTXT_SEL_FMAP func_id config.

Definition qdma_fmap_read (func_id : Z) (config : option Z) : M S (Z * option Z) :=
  context_read qdma_fmap_fields QDMA_FMAP_NUM_WORDS QDMA_CTXT_SEL_FMAP func_id config.

Definition qdma_fmap_clear (func_id : Z) : M S Z := indirect_reg_clear QDMA_CTXT_SEL_FMAP func_id.

Definition qdma_fmap_conf (func_id : Z) (config : option Z) (access_type : qdma_hw_access_type)
    : M S (Z * option Z) :=
  by_access access_type config (qdma_fmap_read func_id) (qdma_fmap_write func_id)
    (qdma_fmap_clear func_id) unsupported.

(** *** Software contexts *)


Definition qdma_sw_context_write (c2h hw_qid : Z) (ctxt : option Z) : M S Z :=
  context_write (fun _ => true) qdma_sw_context_words (sw_sel c2h) hw_qid ctxt.

Definition qdma_sw_context_read (c2h hw_qid : Z) (ctxt : option Z) : M S (Z * option Z) :=
  context_read qdma_sw_context_fields QDMA_SW_CONTEXT_NUM_WORDS (sw_sel c2h) hw_qid ctxt.

Definition qdma_sw_context_clear (c2h hw_qid : Z) : M S Z := indirect_reg_clear (sw_sel c2h) hw_qid.

Definition qdma_sw_context_invalidate (c2h hw_qid : Z) : M S Z := indirect_reg_invalidate (sw_sel c2h) hw_qid.

Definition qdma_sw_ctx_conf (c2h hw_qid : Z) (ctxt : option Z) (access_type : qdma_hw_access_type)
    : M S (Z * option Z) :=
  direction_ok c2h ctxt (by_access access_type ctxt (qdma_sw_context_read c2h hw_qid) (qdma_sw_context_write c2h hw_qid)
    (qdma_sw_context_clear c2h hw_qid) (qdma_sw_context_invalidate c2h hw_qid)).

(** *** Prefetch contexts *)


Definition qdma_pfetch_context_write (hw_qid : Z) (ctxt : option Z) : M S Z :=
  context_write (fun _ => true) qdma_pfetch_context_words QDMA_CTXT_SEL_PFTCH hw_qid ctxt.

Definition qdma_pfetch_context_read (hw_qid : Z) (ctxt : option Z) : M S (Z * option Z) :=
  context_read qdma_pfetch_context_fields QDMA_PFETCH_CONTEXT_NUM_WORDS QDMA_CTXT_SEL_PFTCH hw_qid ctxt.

Definition qdma_pfetch_context_clear (hw_qid : Z) : M S Z := indirect_reg_clear QDMA_CTXT_SEL_PFTCH hw_qid.

Definition qdma_pfetch_context_invalidate (hw_qid : Z) : M S Z := indirect_reg_invalidate QDMA_CTXT_SEL_PFTCH hw_qid.

Definition qdma_pfetch_ctx_conf (hw_qid : Z) (ctxt : option Z) (access_type : qdma_hw_access_type)
    : M S (Z * option Z) :=
  by_access access_type ctxt (qdma_pfetch_context_read hw_qid) (qdma_pfetch_context_write hw_qid)
    (qdma_pfetch_context_clear hw_qid) (qdma_pfetch_context_invalidate hw_qid).

(** *** Completion contexts *)


Definition qdma_cmpt_context_ok (ctxt : Z) : bool :=
  negb (QDMA_CMPT_UPDATE_TRIG_MODE_TMR_CNTR <? fld cmpt_ctxt.trig_mode ctxt).

Definition qdma_cmpt_context_write (hw_qid : Z) (ctxt : option Z) : M S Z :=
  context_write qdma_cmpt_context_ok qdma_cmpt_context_words QDMA_CTXT_SEL_CMPT hw_qid ctxt.

Definition qdma_cmpt_context_read (hw_qid : Z) (ctxt : option Z) : M S (Z * option Z) :=
  context_read qdma_cmpt_context_fields QDMA_CMPT_CONTEXT_NUM_WORDS QDMA_CTXT_SEL_CMPT hw_qid ctxt.

Definition qdma_cmpt_context_clear (hw_qid : Z) : M S Z := indirect_reg_clear QDMA_CTXT_SEL_CMPT hw_qid.

Definition qdma_cmpt_context_invalidate (hw_qid : Z) : M S Z := indirect_reg_invalidate QDMA_CTXT_SEL_CMPT hw_qid.

Definition qdma_cmpt_ctx_conf (hw_qid : Z) (ctxt : option Z) (access_type : qdma_hw_access_type)
    : M S (Z * option Z) :=
  by_access access_type ctxt (qdma_cmpt_context_read hw_qid) (qdma_cmpt_context_write hw_qid)
    (qdma_cmpt_context_clear hw_qid) (qdma_cmpt_context_invalidate hw_qid).

(** *** Hardware contexts *)


Definition qdma_hw_context_read (c2h hw_qid : Z) (ctxt : option Z) : M S (Z * option Z) :=
  context_read qdma_hw_context_fields QDMA_HW_CONTEXT_NUM_WORDS (hw_sel c2h) hw_qid ctxt.

Definition qdma_hw_context_clear (c2h hw_qid : Z) : M S Z := indirect_reg_clear (hw_sel c2h) hw_qid.

Definition qdma_hw_context_invalidate (c2h hw_qid : Z) : M S Z := indirect_reg_invalidate (hw_sel c2h) hw_qid.

Definition qdma_hw_ctx_conf (c2h hw_qid : Z) (ctxt : option Z) (access_type : qdma_hw_access_type)
    : M S (Z * option Z) :=
  direction_ok c2h ctxt (by_access access_type ctxt (qdma_hw_context_read c2h hw_qid) (fun _ => unsupported)
    (qdma_hw_context_clear c2h hw_qid) (qdma_hw_context_invalidate c2h hw_qid)).

(** *** Credit contexts *)


Definition qdma_credit_context_read (c2h hw_qid : Z) (ctxt : option Z) : M S (Z * option Z) :=
  context_read qdma_credit_context_fields QDMA_CR_CONTEXT_NUM_WORDS (cr_sel c2h) hw_qid ctxt.

Definition qdma_credit_context_clear (c2h hw_qid : Z) : M S Z := indirect_reg_clear (cr_sel c2h) hw_qid.

Definition qdma_credit_context_invalidate (c2h hw_qid : Z) : M S Z := indirect_reg_invalidate (cr_sel c2h) hw_qid.

Definition qdma_credit_ctx_conf (c2h hw_qid : Z) (ctxt : option Z) (access_type : qdma_hw_access_type)
    : M S (Z * option Z) :=
  direction_ok c2h ctxt (by_access access_type ctxt (qdma_credit_context_read c2h hw_qid) (fun _ => unsupported)
    (qdma_credit_context_clear c2h hw_qid) (qdma_credit_context_invalidate c2h hw_qid)).

(** *** Interrupt ring contexts *)


Definition qdma_indirect_intr_context_write (ring_index : Z) (ctxt : option Z) : M S Z :=
  context_write (fun _ => true) qdma_indirect_intr_context_words QDMA_CTXT_SEL_INT_COAL ring_index ctxt.

Definition qdma_indirect_intr_context_read (ring_index : Z) (ctxt : option Z) : M S (Z * option Z) :=
  context_read qdma_indirect_intr_context_fields QDMA_IND_INTR_CONTEXT_NUM_WORDS QDMA_CTXT_SEL_INT_COAL ring_index ctxt.

Definition qdma_indirect_intr_context_clear (ring_index : Z) : M S Z := indirect_reg_clear QDMA_CTXT_SEL_INT_COAL ring_index.

Definition qdma_indirect_intr_context_invalidate (ring_index : Z) : M S Z := indirect_reg_invalidate QDMA_CTXT_SEL_INT_COAL ring_index.

Definition qdma_indirect_intr_ctx_conf (ring_index : Z) (ctxt : option Z) (access_type : qdma_hw_access_type)
    : M S (Z * option Z) :=
  by_access access_type ctxt (qdma_indirect_intr_context_read ring_index) (qdma_indirect_intr_context_write ring_index)
    (qdma_indirect_intr_context_clear ring_index) (qdma_indirect_intr_context_invalidate ring_index).

End library.
