(* ===== verification/S80Ctxt.v ===== *)
(** * S80Ctxt: the contexts of the hard QDMA of Versal S80 ([qdma_s80_hard_access.c])

    The masks of the hard QDMA's context words ([qdma_s80_hard_reg.h]), the words each
    kind of context is packed into and the members taken from the words read
    ([_words], [_fields]), and the functions that access contexts through the indirect
    registers.  A pointer to a structure that may be null is an [option]; the device
    handle is not null. *)

From S2P Require Import Prelude QdmaErrors Mmio CLayout Contexts Fields Indirect Codec Access.
Local Open Scope Z_scope.
Local Open Scope reconic_scope.

(** ** Masks *)

Definition SW_IND_CTXT_DATA_W0_PIDX_MASK : Z := GENMASK 15 0.
Definition SW_IND_CTXT_DATA_W0_IRQ_ARM_MASK : Z := BIT 16.
Definition SW_IND_CTXT_DATA_W1_QEN_MASK : Z := BIT 0.
Definition SW_IND_CTXT_DATA_W1_FCRD_EN_MASK : Z := BIT 1.
Definition SW_IND_CTXT_DATA_W1_WBI_CHK_MASK : Z := BIT 2.
Definition SW_IND_CTXT_DATA_W1_WBI_INTVL_EN_MASK : Z := BIT 3.
Definition SW_IND_CTXT_DATA_W1_FNC_ID_MASK : Z := GENMASK 11 4.
Definition SW_IND_CTXT_DATA_W1_RNG_SZ_MASK : Z := GENMASK 15 12.
Definition SW_IND_CTXT_DATA_W1_DSC_SZ_MASK : Z := GENMASK 17 16.
Definition SW_IND_CTXT_DATA_W1_BYPASS_MASK : Z := BIT 18.
Definition SW_IND_CTXT_DATA_W1_MM_CHN_MASK : Z := BIT 19.
Definition SW_IND_CTXT_DATA_W1_WBK_EN_MASK : Z := BIT 20.
Definition SW_IND_CTXT_DATA_W1_IRQ_EN_MASK : Z := BIT 21.
Definition SW_IND_CTXT_DATA_W1_PORT_ID_MASK : Z := GENMASK 24 22.
Definition SW_IND_CTXT_DATA_W1_IRQ_NO_LAST_MASK : Z := BIT 25.
Definition SW_IND_CTXT_DATA_W1_ERR_MASK : Z := GENMASK 27 26.
Definition SW_IND_CTXT_DATA_W1_ERR_WB_SENT_MASK : Z := BIT 28.
Definition SW_IND_CTXT_DATA_W1_IRQ_REQ_MASK : Z := BIT 29.
Definition SW_IND_CTXT_DATA_W1_MRKR_DIS_MASK : Z := BIT 30.
Definition SW_IND_CTXT_DATA_W1_IS_MM_MASK : Z := BIT 31.
Definition PREFETCH_CTXT_DATA_W0_BYPASS_MASK : Z := BIT 0.
Definition PREFETCH_CTXT_DATA_W0_BUF_SIZE_IDX_MASK : Z := GENMASK 4 1.
Definition PREFETCH_CTXT_DATA_W0_PORT_ID_MASK : Z := GENMASK 7 5.
Definition PREFETCH_CTXT_DATA_W0_ERR_MASK : Z := BIT 26.
Definition PREFETCH_CTXT_DATA_W0_PFCH_EN_MASK : Z := BIT 27.
Definition PREFETCH_CTXT_DATA_W0_PFCH_MASK : Z := BIT 28.
Definition PREFETCH_CTXT_DATA_W0_SW_CRDT_L_MASK : Z := GENMASK 31 29.
Definition PREFETCH_CTXT_DATA_W1_SW_CRDT_H_MASK : Z := GENMASK 12 0.
Definition PREFETCH_CTXT_DATA_W1_VALID_MASK : Z := BIT 13.
Definition QDMA_S80_HARD_COMPL_CTXT_BADDR_GET_L_MASK : Z := GENMASK 9 6.
Definition QDMA_S80_HARD_COMPL_CTXT_BADDR_GET_M_MASK : Z := GENMASK 41 10.
Definition QDMA_S80_HARD_COMPL_CTXT_BADDR_GET_H_MASK : Z := GENMASK 63 42.
Definition QDMA_S80_HARD_COMPL_CTXT_PIDX_GET_L_MASK : Z := GENMASK 7 0.
Definition QDMA_S80_HARD_COMPL_CTXT_PIDX_GET_H_MASK : Z := GENMASK 15 8.
Definition CMPL_CTXT_DATA_W0_EN_STAT_DESC_MASK : Z := BIT 0.
Definition CMPL_CTXT_DATA_W0_EN_INT_MASK : Z := BIT 1.
Definition CMPL_CTXT_DATA_W0_TRIG_MODE_MASK : Z := GENMASK 4 2.
Definition CMPL_CTXT_DATA_W0_FNC_ID_MASK : Z := GENMASK 12 5.
Definition CMPL_CTXT_DATA_W0_CNTER_IDX_MASK : Z := GENMASK 16 13.
Definition CMPL_CTXT_DATA_W0_TIMER_IDX_MASK : Z := GENMASK 20 17.
Definition CMPL_CTXT_DATA_W0_INT_ST_MASK : Z := GENMASK 22 21.
Definition CMPL_CTXT_DATA_W0_COLOR_MASK : Z := BIT 23.
Definition CMPL_CTXT_DATA_W0_QSIZE_IDX_MASK : Z := GENMASK 27 24.
Definition CMPL_CTXT_DATA_W0_BADDR_64_L_MASK : Z := GENMASK 31 28.
Definition CMPL_CTXT_DATA_W1_BADDR_64_M_MASK : Z := GENMASK 31 0.
Definition CMPL_CTXT_DATA_W2_BADDR_64_H_MASK : Z := GENMASK 21 0.
Definition CMPL_CTXT_DATA_W2_DESC_SIZE_MASK : Z := GENMASK 23 22.
Definition CMPL_CTXT_DATA_W2_PIDX_L_MASK : Z := GENMASK 31 24.
Definition CMPL_CTXT_DATA_W3_PIDX_H_MASK : Z := GENMASK 7 0.
Definition CMPL_CTXT_DATA_W3_CIDX_MASK : Z := GENMASK 23 8.
Definition CMPL_CTXT_DATA_W3_VALID_MASK : Z := BIT 24.
Definition CMPL_CTXT_DATA_W3_ERR_MASK : Z := GENMASK 26 25.
Definition CMPL_CTXT_DATA_W3_USER_TRIG_PEND_MASK : Z := BIT 27.
Definition CMPL_CTXT_DATA_W3_TIMER_RUNNING_MASK : Z := BIT 28.
Definition CMPL_CTXT_DATA_W3_FULL_UPD_MASK : Z := BIT 29.
Definition HW_IND_CTXT_DATA_W0_CIDX_MASK : Z := GENMASK 15 0.
Definition HW_IND_CTXT_DATA_W0_CRD_USE_MASK : Z := GENMASK 31 16.
Definition HW_IND_CTXT_DATA_W1_DSC_PND_MASK : Z := BIT 8.
Definition HW_IND_CTXT_DATA_W1_IDL_STP_B_MASK : Z := BIT 9.
Definition HW_IND_CTXT_DATA_W1_FETCH_PND_MASK : Z := BIT 10.
Definition CRED_CTXT_DATA_W0_CREDT_MASK : Z := GENMASK 15 0.
Definition QDMA_S80_HARD_INTR_CTXT_BADDR_GET_L_MASK : Z := GENMASK 34 12.
Definition QDMA_S80_HARD_INTR_CTXT_BADDR_GET_H_MASK : Z := GENMASK 63 35.
Definition INTR_CTXT_DATA_W0_VALID_MASK : Z := BIT 0.
Definition INTR_CTXT_DATA_W0_VEC_MASK : Z := GENMASK 5 1.
Definition INTR_CTXT_DATA_W0_INT_ST_MASK : Z := BIT 7.
Definition INTR_CTXT_DATA_W0_COLOR_MASK : Z := BIT 8.
Definition INTR_CTXT_DATA_W0_BADDR_4K_L_MASK : Z := GENMASK 31 9.
Definition INTR_CTXT_DATA_W1_BADDR_4K_H_MASK : Z := GENMASK 28 0.
Definition INTR_CTXT_DATA_W1_PAGE_SIZE_MASK : Z := GENMASK 31 29.
Definition INTR_CTXT_DATA_W2_PIDX_MASK : Z := GENMASK 11 0.

(** The numbers of words. *)
Definition QDMA_S80_HARD_SW_CONTEXT_NUM_WORDS : nat := 4.
Definition QDMA_S80_HARD_CMPT_CONTEXT_NUM_WORDS : nat := 4.
Definition QDMA_S80_HARD_QID2VEC_CONTEXT_NUM_WORDS : nat := 1.
Definition QDMA_S80_HARD_HW_CONTEXT_NUM_WORDS : nat := 2.
Definition QDMA_S80_HARD_CR_CONTEXT_NUM_WORDS : nat := 1.
Definition QDMA_S80_HARD_IND_INTR_CONTEXT_NUM_WORDS : nat := 3.
Definition QDMA_S80_HARD_PFETCH_CONTEXT_NUM_WORDS : nat := 2.

(** ** Formats *)

Definition qdma_s80_hard_sw_context_words (ctxt : Z) : list Z :=
  let c f := fld f ctxt in
  [FIELD_SET SW_IND_CTXT_DATA_W0_PIDX_MASK (c sw_ctxt.pidx) .|
     FIELD_SET SW_IND_CTXT_DATA_W0_IRQ_ARM_MASK (c sw_ctxt.irq_arm);
   FIELD_SET SW_IND_CTXT_DATA_W1_QEN_MASK (c sw_ctxt.qen) .|
     FIELD_SET SW_IND_CTXT_DATA_W1_FCRD_EN_MASK (c sw_ctxt.frcd_en) .|
     FIELD_SET SW_IND_CTXT_DATA_W1_WBI_CHK_MASK (c sw_ctxt.wbi_chk) .|
     FIELD_SET SW_IND_CTXT_DATA_W1_WBI_INTVL_EN_MASK (c sw_ctxt.wbi_intvl_en) .|
     FIELD_SET SW_IND_CTXT_DATA_W1_FNC_ID_MASK (c sw_ctxt.fnc_id) .|
     FIELD_SET SW_IND_CTXT_DATA_W1_RNG_SZ_MASK (c sw_ctxt.rngsz_idx) .|
     FIELD_SET SW_IND_CTXT_DATA_W1_DSC_SZ_MASK (c sw_ctxt.desc_sz) .|
     FIELD_SET SW_IND_CTXT_DATA_W1_BYPASS_MASK (c sw_ctxt.bypass) .|
     FIELD_SET SW_IND_CTXT_DATA_W1_MM_CHN_MASK (c sw_ctxt.mm_chn) .|
     FIELD_SET SW_IND_CTXT_DATA_W1_WBK_EN_MASK (c sw_ctxt.wbk_en) .|
     FIELD_SET SW_IND_CTXT_DATA_W1_IRQ_EN_MASK (c sw_ctxt.irq_en) .|
     FIELD_SET SW_IND_CTXT_DATA_W1_PORT_ID_MASK (c sw_ctxt.port_id) .|
     FIELD_SET SW_IND_CTXT_DATA_W1_IRQ_NO_LAST_MASK (c sw_ctxt.irq_no_last) .|
     FIELD_SET SW_IND_CTXT_DATA_W1_ERR_MASK (c sw_ctxt.err) .|
     FIELD_SET SW_IND_CTXT_DATA_W1_ERR_WB_SENT_MASK (c sw_ctxt.err_wb_sent) .|
     FIELD_SET SW_IND_CTXT_DATA_W1_IRQ_REQ_MASK (c sw_ctxt.irq_req) .|
     FIELD_SET SW_IND_CTXT_DATA_W1_MRKR_DIS_MASK (c sw_ctxt.mrkr_dis) .|
     FIELD_SET SW_IND_CTXT_DATA_W1_IS_MM_MASK (c sw_ctxt.is_mm);
   Z.land (c sw_ctxt.ring_bs_addr) 0xffffffff;
   Z.land (Z.shiftr (c sw_ctxt.ring_bs_addr) 32) 0xffffffff].

Definition qdma_s80_hard_sw_context_fields (w : list Z) : list (cfield * Z) :=
  [(sw_ctxt.pidx, FIELD_GET SW_IND_CTXT_DATA_W0_PIDX_MASK (nth 0 w 0));
   (sw_ctxt.irq_arm, FIELD_GET SW_IND_CTXT_DATA_W0_IRQ_ARM_MASK (nth 0 w 0));
   (sw_ctxt.qen, FIELD_GET SW_IND_CTXT_DATA_W1_QEN_MASK (nth 1 w 0));
   (sw_ctxt.frcd_en, FIELD_GET SW_IND_CTXT_DATA_W1_FCRD_EN_MASK (nth 1 w 0));
   (sw_ctxt.wbi_chk, FIELD_GET SW_IND_CTXT_DATA_W1_WBI_CHK_MASK (nth 1 w 0));
   (sw_ctxt.wbi_intvl_en, FIELD_GET SW_IND_CTXT_DATA_W1_WBI_INTVL_EN_MASK (nth 1 w 0));
   (sw_ctxt.fnc_id, FIELD_GET SW_IND_CTXT_DATA_W1_FNC_ID_MASK (nth 1 w 0));
   (sw_ctxt.rngsz_idx, FIELD_GET SW_IND_CTXT_DATA_W1_RNG_SZ_MASK (nth 1 w 0));
   (sw_ctxt.desc_sz, FIELD_GET SW_IND_CTXT_DATA_W1_DSC_SZ_MASK (nth 1 w 0));
   (sw_ctxt.bypass, FIELD_GET SW_IND_CTXT_DATA_W1_BYPASS_MASK (nth 1 w 0));
   (sw_ctxt.mm_chn, FIELD_GET SW_IND_CTXT_DATA_W1_MM_CHN_MASK (nth 1 w 0));
   (sw_ctxt.wbk_en, FIELD_GET SW_IND_CTXT_DATA_W1_WBK_EN_MASK (nth 1 w 0));
   (sw_ctxt.irq_en, FIELD_GET SW_IND_CTXT_DATA_W1_IRQ_EN_MASK (nth 1 w 0));
   (sw_ctxt.port_id, FIELD_GET SW_IND_CTXT_DATA_W1_PORT_ID_MASK (nth 1 w 0));
   (sw_ctxt.irq_no_last, FIELD_GET SW_IND_CTXT_DATA_W1_IRQ_NO_LAST_MASK (nth 1 w 0));
   (sw_ctxt.err, FIELD_GET SW_IND_CTXT_DATA_W1_ERR_MASK (nth 1 w 0));
   (sw_ctxt.err_wb_sent, FIELD_GET SW_IND_CTXT_DATA_W1_ERR_WB_SENT_MASK (nth 1 w 0));
   (sw_ctxt.irq_req, FIELD_GET SW_IND_CTXT_DATA_W1_IRQ_REQ_MASK (nth 1 w 0));
   (sw_ctxt.mrkr_dis, FIELD_GET SW_IND_CTXT_DATA_W1_MRKR_DIS_MASK (nth 1 w 0));
   (sw_ctxt.is_mm, FIELD_GET SW_IND_CTXT_DATA_W1_IS_MM_MASK (nth 1 w 0));
   (sw_ctxt.ring_bs_addr, Z.shiftl (nth 3 w 0) 32 .|
     nth 2 w 0)].

Definition qdma_s80_hard_pfetch_context_words (ctxt : Z) : list Z :=
  let c f := fld f ctxt in
  let sw_crdt_l := FIELD_GET QDMA_PFTCH_CTXT_SW_CRDT_GET_L_MASK (c pfetch_ctxt.sw_crdt) in
  let sw_crdt_h := FIELD_GET QDMA_PFTCH_CTXT_SW_CRDT_GET_H_MASK (c pfetch_ctxt.sw_crdt) in
  [FIELD_SET PREFETCH_CTXT_DATA_W0_BYPASS_MASK (c pfetch_ctxt.bypass) .|
     FIELD_SET PREFETCH_CTXT_DATA_W0_BUF_SIZE_IDX_MASK (c pfetch_ctxt.bufsz_idx) .|
     FIELD_SET PREFETCH_CTXT_DATA_W0_PORT_ID_MASK (c pfetch_ctxt.port_id) .|
     FIELD_SET PREFETCH_CTXT_DATA_W0_ERR_MASK (c pfetch_ctxt.err) .|
     FIELD_SET PREFETCH_CTXT_DATA_W0_PFCH_EN_MASK (c pfetch_ctxt.pfch_en) .|
     FIELD_SET PREFETCH_CTXT_DATA_W0_PFCH_MASK (c pfetch_ctxt.pfch) .|
     FIELD_SET PREFETCH_CTXT_DATA_W0_SW_CRDT_L_MASK sw_crdt_l;
   FIELD_SET PREFETCH_CTXT_DATA_W1_SW_CRDT_H_MASK sw_crdt_h .|
     FIELD_SET PREFETCH_CTXT_DATA_W1_VALID_MASK (c pfetch_ctxt.valid)].

Definition qdma_s80_hard_pfetch_context_fields (w : list Z) : list (cfield * Z) :=
  let sw_crdt_l := FIELD_GET PREFETCH_CTXT_DATA_W0_SW_CRDT_L_MASK (nth 0 w 0) in
  let sw_crdt_h := FIELD_GET PREFETCH_CTXT_DATA_W1_SW_CRDT_H_MASK (nth 1 w 0) in
  [(pfetch_ctxt.bypass, FIELD_GET PREFETCH_CTXT_DATA_W0_BYPASS_MASK (nth 0 w 0));
   (pfetch_ctxt.bufsz_idx, FIELD_GET PREFETCH_CTXT_DATA_W0_BUF_SIZE_IDX_MASK (nth 0 w 0));
   (pfetch_ctxt.port_id, FIELD_GET PREFETCH_CTXT_DATA_W0_PORT_ID_MASK (nth 0 w 0));
   (pfetch_ctxt.err, FIELD_GET PREFETCH_CTXT_DATA_W0_ERR_MASK (nth 0 w 0));
   (pfetch_ctxt.pfch_en, FIELD_GET PREFETCH_CTXT_DATA_W0_PFCH_EN_MASK (nth 0 w 0));
   (pfetch_ctxt.pfch, FIELD_GET PREFETCH_CTXT_DATA_W0_PFCH_MASK (nth 0 w 0));
   (pfetch_ctxt.valid, FIELD_GET PREFETCH_CTXT_DATA_W1_VALID_MASK (nth 1 w 0));
   (pfetch_ctxt.sw_crdt, FIELD_SET QDMA_PFTCH_CTXT_SW_CRDT_GET_L_MASK sw_crdt_l .|
     FIELD_SET QDMA_PFTCH_CTXT_SW_CRDT_GET_H_MASK sw_crdt_h)].

Definition qdma_s80_hard_cmpt_context_words (ctxt : Z) : list Z :=
  let c f := fld f ctxt in
  let baddr_l := FIELD_GET QDMA_S80_HARD_COMPL_CTXT_BADDR_GET_L_MASK (c cmpt_ctxt.bs_addr) in
  let baddr_m := FIELD_GET QDMA_S80_HARD_COMPL_CTXT_BADDR_GET_M_MASK (c cmpt_ctxt.bs_addr) in
  let baddr_h := FIELD_GET QDMA_S80_HARD_COMPL_CTXT_BADDR_GET_H_MASK (c cmpt_ctxt.bs_addr) in
  let pidx_l := FIELD_GET QDMA_S80_HARD_COMPL_CTXT_PIDX_GET_L_MASK (c cmpt_ctxt.pidx) in
  let pidx_h := FIELD_GET QDMA_S80_HARD_COMPL_CTXT_PIDX_GET_H_MASK (c cmpt_ctxt.pidx) in
  [FIELD_SET CMPL_CTXT_DATA_W0_EN_STAT_DESC_MASK (c cmpt_ctxt.en_stat_desc) .|
     FIELD_SET CMPL_CTXT_DATA_W0_EN_INT_MASK (c cmpt_ctxt.en_int) .|
     FIELD_SET CMPL_CTXT_DATA_W0_TRIG_MODE_MASK (c cmpt_ctxt.trig_mode) .|
     FIELD_SET CMPL_CTXT_DATA_W0_FNC_ID_MASK (c cmpt_ctxt.fnc_id) .|
     FIELD_SET CMPL_CTXT_DATA_W0_CNTER_IDX_MASK (c cmpt_ctxt.counter_idx) .|
     FIELD_SET CMPL_CTXT_DATA_W0_TIMER_IDX_MASK (c cmpt_ctxt.timer_idx) .|
     FIELD_SET CMPL_CTXT_DATA_W0_INT_ST_MASK (c cmpt_ctxt.in_st) .|
     FIELD_SET CMPL_CTXT_DATA_W0_COLOR_MASK (c cmpt_ctxt.color) .|
     FIELD_SET CMPL_CTXT_DATA_W0_QSIZE_IDX_MASK (c cmpt_ctxt.ringsz_idx) .|
     FIELD_SET CMPL_CTXT_DATA_W0_BADDR_64_L_MASK baddr_l;
   FIELD_SET CMPL_CTXT_DATA_W1_BADDR_64_M_MASK baddr_m;
   FIELD_SET CMPL_CTXT_DATA_W2_BADDR_64_H_MASK baddr_h .|
     FIELD_SET CMPL_CTXT_DATA_W2_DESC_SIZE_MASK (c cmpt_ctxt.desc_sz) .|
     FIELD_SET CMPL_CTXT_DATA_W2_PIDX_L_MASK pidx_l;
   FIELD_SET CMPL_CTXT_DATA_W3_PIDX_H_MASK pidx_h .|
     FIELD_SET CMPL_CTXT_DATA_W3_CIDX_MASK (c cmpt_ctxt.cidx) .|
     FIELD_SET CMPL_CTXT_DATA_W3_VALID_MASK (c cmpt_ctxt.valid) .|
     FIELD_SET CMPL_CTXT_DATA_W3_ERR_MASK (c cmpt_ctxt.err) .|
     FIELD_SET CMPL_CTXT_DATA_W3_USER_TRIG_PEND_MASK (c cmpt_ctxt.user_trig_pend) .|
     FIELD_SET CMPL_CTXT_DATA_W3_TIMER_RUNNING_MASK (c cmpt_ctxt.timer_running) .|
     FIELD_SET CMPL_CTXT_DATA_W3_FULL_UPD_MASK (c cmpt_ctxt.full_upd)].

Definition qdma_s80_hard_cmpt_context_fields (w : list Z) : list (cfield * Z) :=
  let baddr_l := FIELD_GET CMPL_CTXT_DATA_W0_BADDR_64_L_MASK (nth 0 w 0) in
  let baddr_m := FIELD_GET CMPL_CTXT_DATA_W1_BADDR_64_M_MASK (nth 1 w 0) in
  let baddr_h := FIELD_GET CMPL_CTXT_DATA_W2_BADDR_64_H_MASK (nth 2 w 0) in
  let pidx_l := FIELD_GET CMPL_CTXT_DATA_W2_PIDX_L_MASK (nth 2 w 0) in
  let pidx_h := FIELD_GET CMPL_CTXT_DATA_W3_PIDX_H_MASK (nth 3 w 0) in
  [(cmpt_ctxt.en_stat_desc, FIELD_GET CMPL_CTXT_DATA_W0_EN_STAT_DESC_MASK (nth 0 w 0));
   (cmpt_ctxt.en_int, FIELD_GET CMPL_CTXT_DATA_W0_EN_INT_MASK (nth 0 w 0));
   (cmpt_ctxt.trig_mode, FIELD_GET CMPL_CTXT_DATA_W0_TRIG_MODE_MASK (nth 0 w 0));
   (cmpt_ctxt.fnc_id, FIELD_GET CMPL_CTXT_DATA_W0_FNC_ID_MASK (nth 0 w 0));
   (cmpt_ctxt.counter_idx, FIELD_GET CMPL_CTXT_DATA_W0_CNTER_IDX_MASK (nth 0 w 0));
   (cmpt_ctxt.timer_idx, FIELD_GET CMPL_CTXT_DATA_W0_TIMER_IDX_MASK (nth 0 w 0));
   (cmpt_ctxt.in_st, FIELD_GET CMPL_CTXT_DATA_W0_INT_ST_MASK (nth 0 w 0));
   (cmpt_ctxt.color, FIELD_GET CMPL_CTXT_DATA_W0_COLOR_MASK (nth 0 w 0));
   (cmpt_ctxt.ringsz_idx, FIELD_GET CMPL_CTXT_DATA_W0_QSIZE_IDX_MASK (nth 0 w 0));
   (cmpt_ctxt.desc_sz, FIELD_GET CMPL_CTXT_DATA_W2_DESC_SIZE_MASK (nth 2 w 0));
   (cmpt_ctxt.cidx, FIELD_GET CMPL_CTXT_DATA_W3_CIDX_MASK (nth 3 w 0));
   (cmpt_ctxt.valid, FIELD_GET CMPL_CTXT_DATA_W3_VALID_MASK (nth 3 w 0));
   (cmpt_ctxt.err, FIELD_GET CMPL_CTXT_DATA_W3_ERR_MASK (nth 3 w 0));
   (cmpt_ctxt.user_trig_pend, FIELD_GET CMPL_CTXT_DATA_W3_USER_TRIG_PEND_MASK (nth 3 w 0));
   (cmpt_ctxt.timer_running, FIELD_GET CMPL_CTXT_DATA_W3_TIMER_RUNNING_MASK (nth 3 w 0));
   (cmpt_ctxt.full_upd, FIELD_GET CMPL_CTXT_DATA_W3_FULL_UPD_MASK (nth 3 w 0));
   (cmpt_ctxt.bs_addr, FIELD_SET QDMA_S80_HARD_COMPL_CTXT_BADDR_GET_L_MASK baddr_l .|
     FIELD_SET QDMA_S80_HARD_COMPL_CTXT_BADDR_GET_M_MASK baddr_m .|
     FIELD_SET QDMA_S80_HARD_COMPL_CTXT_BADDR_GET_H_MASK baddr_h);
   (cmpt_ctxt.pidx, FIELD_SET QDMA_S80_HARD_COMPL_CTXT_PIDX_GET_L_MASK pidx_l .|
     FIELD_SET QDMA_S80_HARD_COMPL_CTXT_PIDX_GET_H_MASK pidx_h)].

Definition qdma_s80_hard_hw_context_fields (w : list Z) : list (cfield * Z) :=
  [(hw_ctxt.cidx, FIELD_GET HW_IND_CTXT_DATA_W0_CIDX_MASK (nth 0 w 0));
   (hw_ctxt.crd_use, FIELD_GET HW_IND_CTXT_DATA_W0_CRD_USE_MASK (nth 0 w 0));
   (hw_ctxt.dsc_pend, FIELD_GET HW_IND_CTXT_DATA_W1_DSC_PND_MASK (nth 1 w 0));
   (hw_ctxt.idl_stp_b, FIELD_GET HW_IND_CTXT_DATA_W1_IDL_STP_B_MASK (nth 1 w 0));
   (hw_ctxt.fetch_pnd, FIELD_GET HW_IND_CTXT_DATA_W1_FETCH_PND_MASK (nth 1 w 0))].

Definition qdma_s80_hard_credit_context_fields (w : list Z) : list (cfield * Z) :=
  [(credit_ctxt.credit, FIELD_GET CRED_CTXT_DATA_W0_CREDT_MASK (nth 0 w 0))].

Definition qdma_s80_hard_indirect_intr_context_words (ctxt : Z) : list Z :=
  let c f := fld f ctxt in
  let baddr_l := FIELD_GET QDMA_S80_HARD_INTR_CTXT_BADDR_GET_L_MASK (c ind_intr_ctxt.baddr_4k) in
  let baddr_h := FIELD_GET QDMA_S80_HARD_INTR_CTXT_BADDR_GET_H_MASK (c ind_intr_ctxt.baddr_4k) in
  [FIELD_SET INTR_CTXT_DATA_W0_VALID_MASK (c ind_intr_ctxt.valid) .|
     FIELD_SET INTR_CTXT_DATA_W0_VEC_MASK (c ind_intr_ctxt.vec) .|
     FIELD_SET INTR_CTXT_DATA_W0_INT_ST_MASK (c ind_intr_ctxt.int_st) .|
     FIELD_SET INTR_CTXT_DATA_W0_COLOR_MASK (c ind_intr_ctxt.color) .|
     FIELD_SET INTR_CTXT_DATA_W0_BADDR_4K_L_MASK baddr_l;
   FIELD_SET INTR_CTXT_DATA_W1_BADDR_4K_H_MASK baddr_h .|
     FIELD_SET INTR_CTXT_DATA_W1_PAGE_SIZE_MASK (c ind_intr_ctxt.page_size);
   FIELD_SET INTR_CTXT_DATA_W2_PIDX_MASK (c ind_intr_ctxt.pidx)].

Definition qdma_s80_hard_indirect_intr_context_fields (w : list Z) : list (cfield * Z) :=
  let baddr_l := FIELD_GET INTR_CTXT_DATA_W0_BADDR_4K_L_MASK (nth 0 w 0) in
  let baddr_h := FIELD_GET INTR_CTXT_DATA_W1_BADDR_4K_H_MASK (nth 1 w 0) in
  [(ind_intr_ctxt.valid, FIELD_GET INTR_CTXT_DATA_W0_VALID_MASK (nth 0 w 0));
   (ind_intr_ctxt.vec, FIELD_GET INTR_CTXT_DATA_W0_VEC_MASK (nth 0 w 0));
   (ind_intr_ctxt.int_st, FIELD_GET INTR_CTXT_DATA_W0_INT_ST_MASK (nth 0 w 0));
   (ind_intr_ctxt.color, FIELD_GET INTR_CTXT_DATA_W0_COLOR_MASK (nth 0 w 0));
   (ind_intr_ctxt.page_size, FIELD_GET INTR_CTXT_DATA_W1_PAGE_SIZE_MASK (nth 1 w 0));
   (ind_intr_ctxt.pidx, FIELD_GET INTR_CTXT_DATA_W2_PIDX_MASK (nth 2 w 0));
   (ind_intr_ctxt.baddr_4k, FIELD_SET QDMA_S80_HARD_INTR_CTXT_BADDR_GET_L_MASK baddr_l .|
     FIELD_SET QDMA_S80_HARD_INTR_CTXT_BADDR_GET_H_MASK baddr_h)].

(** ** The functions *)

#[export] Instance qdma_s80_hard_regs : IndRegs.
Proof. refine {| ind_data_addr := 0x804; ind_cmd_addr := 0x824; ind_num_regs := 4 |}. reflexivity. Defined.

Section library.
Context {S : Type} `{HasTrace S} `{MmioDevice}.
Local Existing Instance qdma_s80_hard_regs.

(** *** Vectors of queues *)

Definition C2H_QID2VEC_MAP_C2H_VECTOR_MASK : Z := GENMASK 7 0.
Definition C2H_QID2VEC_MAP_C2H_EN_COAL_MASK : Z := BIT 8.
Definition QDMA_S80_HARD_QID2VEC_H2C_VECTOR : Z := GENMASK 16 9.
Definition QDMA_S80_HARD_QID2VEC_H2C_COAL_EN : Z := BIT 17.

(** The word of a queue with the part of one direction replaced. *)
Definition qdma_s80_hard_qid2vec_word (c2h qid2vec ctxt : Z) : Z :=
  if negb (c2h =? 0) then
    Z.land qid2vec (QDMA_S80_HARD_QID2VEC_H2C_VECTOR .| QDMA_S80_HARD_QID2VEC_H2C_COAL_EN)
    .| (FIELD_SET C2H_QID2VEC_MAP_C2H_VECTOR_MASK (fld qid2vec.c2h_vector ctxt) .|
        FIELD_SET C2H_QID2VEC_MAP_C2H_EN_COAL_MASK (fld qid2vec.c2h_en_coal ctxt))
  else
    Z.land qid2vec (C2H_QID2VEC_MAP_C2H_VECTOR_MASK .| C2H_QID2VEC_MAP_C2H_EN_COAL_MASK)
    .| (FIELD_SET QDMA_S80_HARD_QID2VEC_H2C_VECTOR (fld qid2vec.h2c_vector ctxt) .|
        FIELD_SET QDMA_S80_HARD_QID2VEC_H2C_COAL_EN (fld qid2vec.h2c_en_coal ctxt)).

Definition qdma_s80_hard_qid2vec_write (c2h hw_qid : Z) (ctxt : option Z) : M S Z :=
  match ctxt with
  | None => mret (neg QDMA_ERR_INV_PARAM)
  | Some c =>
      '(rv, w) ← indirect_reg_read QDMA_CTXT_SEL_FMAP hw_qid 1;
      if rv <? 0 then mret rv
      else
        indirect_reg_write QDMA_CTXT_SEL_FMAP hw_qid
          (take QDMA_S80_HARD_QID2VEC_CONTEXT_NUM_WORDS [qdma_s80_hard_qid2vec_word c2h (nth 0 w 0) c])
  end.

Definition qdma_s80_hard_qid2vec_fields (c2h : Z) (w : list Z) : list (cfield * Z) :=
  if negb (c2h =? 0) then
    [(qid2vec.c2h_vector, FIELD_GET C2H_QID2VEC_MAP_C2H_VECTOR_MASK (nth 0 w 0));
     (qid2vec.c2h_en_coal, FIELD_GET C2H_QID2VEC_MAP_C2H_EN_COAL_MASK (nth 0 w 0))]
  else
    [(qid2vec.h2c_vector, FIELD_GET QDMA_S80_HARD_QID2VEC_H2C_VECTOR (nth 0 w 0));
     (qid2vec.h2c_en_coal, FIELD_GET QDMA_S80_HARD_QID2VEC_H2C_COAL_EN (nth 0 w 0))].

Definition qdma_s80_hard_qid2vec_read (c2h hw_qid : Z) (ctxt : option Z) : M S (Z * option Z) :=
  context_read (qdma_s80_hard_qid2vec_fields c2h) QDMA_S80_HARD_QID2VEC_CONTEXT_NUM_WORDS
    QDMA_CTXT_SEL_FMAP hw_qid ctxt.

Definition qdma_s80_hard_qid2vec_clear (hw_qid : Z) : M S Z := indirect_reg_clear QDMA_CTXT_SEL_FMAP hw_qid.

Definition qdma_s80_hard_qid2vec_invalidate (hw_qid : Z) : M S Z :=
  indirect_reg_invalidate QDMA_CTXT_SEL_FMAP hw_qid.

Definition qdma_s80_hard_qid2vec_conf (c2h hw_qid : Z) (ctxt : option Z)
    (access_type : qdma_hw_access_type) : M S (Z * option Z) :=
  by_access access_type ctxt (qdma_s80_hard_qid2vec_read c2h hw_qid)
    (qdma_s80_hard_qid2vec_write c2h hw_qid)
    (qdma_s80_hard_qid2vec_clear hw_qid) (qdma_s80_hard_qid2vec_invalidate hw_qid).

(** *** Function maps: a register each *)

Definition QDMA_S80_HARD_TRQ_SEL_FMAP_0_ADDR : Z := 0x400.
Definition QDMA_S80_HARD_REG_TRQ_SEL_FMAP_STEP : Z := 4.
Definition TRQ_SEL_FMAP_0_QID_MAX_MASK : Z := GENMASK 22 11.
Definition TRQ_SEL_FMAP_0_QID_BASE_MASK : Z := GENMASK 10 0.

Definition qdma_s80_hard_fmap_reg (func_id : Z) : Z :=
  u32 (QDMA_S80_HARD_TRQ_SEL_FMAP_0_ADDR + func_id * QDMA_S80_HARD_REG_TRQ_SEL_FMAP_STEP).

Definition qdma_s80_hard_fmap_word (config : Z) : Z :=
  FIELD_SET TRQ_SEL_FMAP_0_QID_BASE_MASK (fld fmap_cfg.qbase config) .|
  FIELD_SET TRQ_SEL_FMAP_0_QID_MAX_MASK (fld fmap_cfg.qmax config).

Definition qdma_s80_hard_fmap_fields (fmap : Z) : list (cfield * Z) :=
  [(fmap_cfg.qbase, FIELD_GET TRQ_SEL_FMAP_0_QID_BASE_MASK fmap);
   (fmap_cfg.qmax, FIELD_GET TRQ_SEL_FMAP_0_QID_MAX_MASK fmap)].

Definition qdma_s80_hard_fmap_write (func_id : Z) (config : option Z) : M S Z :=
  match config with
  | None => mret (neg QDMA_ERR_INV_PARAM)
  | Some c => write32_data (qdma_s80_hard_fmap_reg func_id) (qdma_s80_hard_fmap_word c);; mret 0
  end.

Definition qdma_s80_hard_fmap_read (func_id : Z) (config : option Z) : M S (Z * option Z) :=
  match config with
  | None => inv_param None
  | Some c =>
      fmap ← read32_data (qdma_s80_hard_fmap_reg func_id);
      mret (0, Some (assign (qdma_s80_hard_fmap_fields fmap) c))
  end.

Definition qdma_s80_hard_fmap_clear (func_id : Z) : M S Z :=
  write32_data (qdma_s80_hard_fmap_reg func_id) 0;; mret 0.

Definition qdma_s80_hard_fmap_conf (func_id : Z) (config : option Z) (access_type : qdma_hw_access_type)
    : M S (Z * option Z) :=
  by_access access_type config (qdma_s80_hard_fmap_read func_id) (qdma_s80_hard_fmap_write func_id)
    (qdma_s80_hard_fmap_clear func_id) unsupported.

(** *** Software contexts *)


Definition qdma_s80_hard_sw_context_ok (ctxt : Z) : bool :=
  negb ((QDMA_DESC_SIZE_64B <? fld sw_ctxt.desc_sz ctxt) ||
        (QDMA_NUM_RING_SIZES <=? fld sw_ctxt.rngsz_idx ctxt)).

Definition qdma_s80_hard_sw_context_write (c2h hw_qid : Z) (ctxt : option Z) : M S Z :=
  context_write qdma_s80_hard_sw_context_ok qdma_s80_hard_sw_context_words (sw_sel c2h) hw_qid ctxt.

(** The vector comes from the register of queue vectors. *)
Definition qdma_s80_hard_sw_context_vector (c2h : Z) (vectors : Z) : list (cfield * Z) :=
  if negb (c2h =? 0) then
    [(sw_ctxt.vec, fld qid2vec.c2h_vector vectors); (sw_ctxt.intr_aggr, fld qid2vec.c2h_en_coal vectors)]
  else
    [(sw_ctxt.vec, fld qid2vec.h2c_vector vectors); (sw_ctxt.intr_aggr, fld qid2vec.h2c_en_coal vectors)].

Definition qdma_s80_hard_sw_context_read (c2h hw_qid : Z) (ctxt : option Z) : M S (Z * option Z) :=
  match ctxt with
  | None => inv_param None
  | Some c =>
      '(rv, w) ← indirect_reg_read (sw_sel c2h) hw_qid QDMA_S80_HARD_SW_CONTEXT_NUM_WORDS;
      if rv <? 0 then mret (rv, Some c)
      else
        let c := assign (qdma_s80_hard_sw_context_fields w) c in
        '(rv, v) ← qdma_s80_hard_qid2vec_read c2h hw_qid (Some 0);
        mret (if rv <? 0 then (rv, Some c)
              else (0, Some (assign (qdma_s80_hard_sw_context_vector c2h (default 0 v)) c)))
  end.

Definition qdma_s80_hard_sw_context_clear (c2h hw_qid : Z) : M S Z := indirect_reg_clear (sw_sel c2h) hw_qid.

Definition qdma_s80_hard_sw_context_invalidate (c2h hw_qid : Z) : M S Z := indirect_reg_invalidate (sw_sel c2h) hw_qid.

Definition qdma_s80_hard_sw_ctx_conf (c2h hw_qid : Z) (ctxt : option Z) (access_type : qdma_hw_access_type)
    : M S (Z * option Z) :=
  by_access access_type ctxt (qdma_s80_hard_sw_context_read c2h hw_qid) (qdma_s80_hard_sw_context_write c2h hw_qid)
    (qdma_s80_hard_sw_context_clear c2h hw_qid) (qdma_s80_hard_sw_context_invalidate c2h hw_qid).

(** *** Prefetch contexts *)


Definition qdma_s80_hard_pfetch_context_write (hw_qid : Z) (ctxt : option Z) : M S Z :=
  context_write (fun _ => true) qdma_s80_hard_pfetch_context_words QDMA_CTXT_SEL_PFTCH hw_qid ctxt.

Definition qdma_s80_hard_pfetch_context_read (hw_qid : Z) (ctxt : option Z) : M S (Z * option Z) :=
  context_read qdma_s80_hard_pfetch_context_fields QDMA_S80_HARD_PFETCH_CONTEXT_NUM_WORDS QDMA_CTXT_SEL_PFTCH hw_qid ctxt.

Definition qdma_s80_hard_pfetch_context_clear (hw_qid : Z) : M S Z := indirect_reg_clear QDMA_CTXT_SEL_PFTCH hw_qid.

Definition qdma_s80_hard_pfetch_context_invalidate (hw_qid : Z) : M S Z := indirect_reg_invalidate QDMA_CTXT_SEL_PFTCH hw_qid.

Definition qdma_s80_hard_pfetch_ctx_conf (hw_qid : Z) (ctxt : option Z) (access_type : qdma_hw_access_type)
    : M S (Z * option Z) :=
  by_access access_type ctxt (qdma_s80_hard_pfetch_context_read hw_qid) (qdma_s80_hard_pfetch_context_write hw_qid)
    (qdma_s80_hard_pfetch_context_clear hw_qid) (qdma_s80_hard_pfetch_context_invalidate hw_qid).

(** *** Completion contexts *)


Definition qdma_s80_hard_cmpt_context_ok (ctxt : Z) : bool :=
  negb ((QDMA_DESC_SIZE_32B <? fld cmpt_ctxt.desc_sz ctxt) ||
        (QDMA_NUM_RING_SIZES <=? fld cmpt_ctxt.ringsz_idx ctxt) ||
        (QDMA_NUM_C2H_COUNTERS <=? fld cmpt_ctxt.counter_idx ctxt) ||
        (QDMA_NUM_C2H_TIMERS <=? fld cmpt_ctxt.timer_idx ctxt) ||
        (QDMA_CMPT_UPDATE_TRIG_MODE_TMR_CNTR <? fld cmpt_ctxt.trig_mode ctxt)).

Definition qdma_s80_hard_cmpt_context_write (hw_qid : Z) (ctxt : option Z) : M S Z :=
  context_write qdma_s80_hard_cmpt_context_ok qdma_s80_hard_cmpt_context_words QDMA_CTXT_SEL_CMPT hw_qid ctxt.

Definition qdma_s80_hard_cmpt_context_read (hw_qid : Z) (ctxt : option Z) : M S (Z * option Z) :=
  context_read qdma_s80_hard_cmpt_context_fields QDMA_S80_HARD_CMPT_CONTEXT_NUM_WORDS QDMA_CTXT_SEL_CMPT hw_qid ctxt.

Definition qdma_s80_hard_cmpt_context_clear (hw_qid : Z) : M S Z := indirect_reg_clear QDMA_CTXT_SEL_CMPT hw_qid.

Definition qdma_s80_hard_cmpt_context_invalidate (hw_qid : Z) : M S Z := indirect_reg_invalidate QDMA_CTXT_SEL_CMPT hw_qid.

Definition qdma_s80_hard_cmpt_ctx_conf (hw_qid : Z) (ctxt : option Z) (access_type : qdma_hw_access_type)
    : M S (Z * option Z) :=
  by_access access_type ctxt (qdma_s80_hard_cmpt_context_read hw_qid) (qdma_s80_hard_cmpt_context_write hw_qid)
    (qdma_s80_hard_cmpt_context_clear hw_qid) (qdma_s80_hard_cmpt_context_invalidate hw_qid).

(** *** Hardware contexts *)


Definition qdma_s80_hard_hw_context_read (c2h hw_qid : Z) (ctxt : option Z) : M S (Z * option Z) :=
  context_read qdma_s80_hard_hw_context_fields QDMA_S80_HARD_HW_CONTEXT_NUM_WORDS (hw_sel c2h) hw_qid ctxt.

Definition qdma_s80_hard_hw_context_clear (c2h hw_qid : Z) : M S Z := indirect_reg_clear (hw_sel c2h) hw_qid.

Definition qdma_s80_hard_hw_context_invalidate (c2h hw_qid : Z) : M S Z := indirect_reg_invalidate (hw_sel c2h) hw_qid.

Definition qdma_s80_hard_hw_ctx_conf (c2h hw_qid : Z) (ctxt : option Z) (access_type : qdma_hw_access_type)
    : M S (Z * option Z) :=
  by_access access_type ctxt (qdma_s80_hard_hw_context_read c2h hw_qid) (fun _ => unsupported)
    (qdma_s80_hard_hw_context_clear c2h hw_qid) (qdma_s80_hard_hw_context_invalidate c2h hw_qid).

(** *** Credit contexts *)


Definition qdma_s80_hard_credit_context_read (c2h hw_qid : Z) (ctxt : option Z) : M S (Z * option Z) :=
  context_read qdma_s80_hard_credit_context_fields QDMA_S80_HARD_CR_CONTEXT_NUM_WORDS (cr_sel c2h) hw_qid ctxt.

Definition qdma_s80_hard_credit_context_clear (c2h hw_qid : Z) : M S Z := indirect_reg_clear (cr_sel c2h) hw_qid.

Definition qdma_s80_hard_credit_context_invalidate (c2h hw_qid : Z) : M S Z := indirect_reg_invalidate (cr_sel c2h) hw_qid.

Definition qdma_s80_hard_credit_ctx_conf (c2h hw_qid : Z) (ctxt : option Z) (access_type : qdma_hw_access_type)
    : M S (Z * option Z) :=
  by_access access_type ctxt (qdma_s80_hard_credit_context_read c2h hw_qid) (fun _ => unsupported)
    (qdma_s80_hard_credit_context_clear c2h hw_qid) (qdma_s80_hard_credit_context_invalidate c2h hw_qid).

(** *** Interrupt ring contexts *)


Definition qdma_s80_hard_indirect_intr_context_ok (ctxt : Z) : bool :=
  negb (QDMA_INDIRECT_INTR_RING_SIZE_32KB <? fld ind_intr_ctxt.page_size ctxt).

Definition qdma_s80_hard_indirect_intr_context_write (ring_index : Z) (ctxt : option Z) : M S Z :=
  context_write qdma_s80_hard_indirect_intr_context_ok qdma_s80_hard_indirect_intr_context_words QDMA_CTXT_SEL_INT_COAL ring_index ctxt.

Definition qdma_s80_hard_indirect_intr_context_read (ring_index : Z) (ctxt : option Z) : M S (Z * option Z) :=
  context_read qdma_s80_hard_indirect_intr_context_fields QDMA_S80_HARD_IND_INTR_CONTEXT_NUM_WORDS QDMA_CTXT_SEL_INT_COAL ring_index ctxt.

Definition qdma_s80_hard_indirect_intr_context_clear (ring_index : Z) : M S Z := indirect_reg_clear QDMA_CTXT_SEL_INT_COAL ring_index.

Definition qdma_s80_hard_indirect_intr_context_invalidate (ring_index : Z) : M S Z := indirect_reg_invalidate QDMA_CTXT_SEL_INT_COAL ring_index.

Definition qdma_s80_hard_indirect_intr_ctx_conf (ring_index : Z) (ctxt : option Z) (access_type : qdma_hw_access_type)
    : M S (Z * option Z) :=
  by_access access_type ctxt (qdma_s80_hard_indirect_intr_context_read ring_index) (qdma_s80_hard_indirect_intr_context_write ring_index)
    (qdma_s80_hard_indirect_intr_context_clear ring_index) (qdma_s80_hard_indirect_intr_context_invalidate ring_index).

End library.
