(* ===== verification/Formats.v ===== *)
(** * Formats: what the context words hold

    For each library and kind of context that can be written: the packing and
    unpacking functions, the size of the structure in bits, and the bits of each
    member that a context keeps when it is written and read back.  The tables are
    what the hardware has room for; that the code agrees with them is checked
    bit by bit (Codec).

    Two members are not kept as one would expect.  The interrupt context of the
    EQDMA loses bit 8 of the address space identifier, and what is read as the
    virtio descriptor base is not what was written, so that it is not in the table of
    the EQDMA's software context. *)

From S2P Require Import Prelude CLayout Contexts Fields Codec EqdmaCtxt SoftCtxt S80Ctxt.
Local Open Scope Z_scope.

(** ** Tables *)

Definition eqdma_sw_codec : codec := mk_codec eqdma_sw_context_words eqdma_sw_context_fields 8 448
   [(sw_ctxt.pidx, Z.ones 16); (sw_ctxt.irq_arm, Z.ones 1); (sw_ctxt.fnc_id, Z.ones 8);
    (sw_ctxt.qen, Z.ones 1); (sw_ctxt.frcd_en, Z.ones 1); (sw_ctxt.wbi_chk, Z.ones 1);
    (sw_ctxt.wbi_intvl_en, Z.ones 1); (sw_ctxt.at_, Z.ones 1); (sw_ctxt.fetch_max, Z.ones 4);
    (sw_ctxt.rngsz_idx, Z.ones 4); (sw_ctxt.desc_sz, Z.ones 2); (sw_ctxt.bypass, Z.ones 1);
    (sw_ctxt.mm_chn, Z.ones 1); (sw_ctxt.wbk_en, Z.ones 1); (sw_ctxt.irq_en, Z.ones 1);
    (sw_ctxt.port_id, Z.ones 3); (sw_ctxt.irq_no_last, Z.ones 1); (sw_ctxt.err, Z.ones 2);
    (sw_ctxt.err_wb_sent, Z.ones 1); (sw_ctxt.irq_req, Z.ones 1); (sw_ctxt.mrkr_dis, Z.ones 1);
    (sw_ctxt.is_mm, Z.ones 1); (sw_ctxt.ring_bs_addr, Z.ones 64); (sw_ctxt.vec, Z.ones 11);
    (sw_ctxt.intr_aggr, Z.ones 1); (sw_ctxt.dis_intr_on_vf, Z.ones 1); (sw_ctxt.virtio_en, Z.ones 1);
    (sw_ctxt.pack_byp_out, Z.ones 1); (sw_ctxt.irq_byp, Z.ones 1); (sw_ctxt.host_id, Z.ones 4);
    (sw_ctxt.pasid_en, Z.ones 1); (sw_ctxt.pasid, Z.ones 22)].

Definition eqdma_pfetch_codec : codec := mk_codec eqdma_pfetch_context_words eqdma_pfetch_context_fields 2 96
   [(pfetch_ctxt.bypass, Z.ones 1); (pfetch_ctxt.bufsz_idx, Z.ones 4);
    (pfetch_ctxt.num_pftch, Z.ones 6); (pfetch_ctxt.port_id, Z.ones 3);
    (pfetch_ctxt.var_desc, Z.ones 1); (pfetch_ctxt.err, Z.ones 1); (pfetch_ctxt.pfch_en, Z.ones 1);
    (pfetch_ctxt.pfch, Z.ones 1); (pfetch_ctxt.valid, Z.ones 1); (pfetch_ctxt.sw_crdt, Z.ones 16)].

Definition eqdma_cmpt_codec : codec := mk_codec eqdma_cmpt_context_words eqdma_cmpt_context_fields 6 384
   [(cmpt_ctxt.en_stat_desc, Z.ones 1); (cmpt_ctxt.en_int, Z.ones 1);
    (cmpt_ctxt.trig_mode, Z.ones 3); (cmpt_ctxt.fnc_id, Z.ones 8); (cmpt_ctxt.counter_idx, Z.ones 4);
    (cmpt_ctxt.timer_idx, Z.ones 4); (cmpt_ctxt.in_st, Z.ones 2); (cmpt_ctxt.color, Z.ones 1);
    (cmpt_ctxt.ringsz_idx, Z.ones 4); (cmpt_ctxt.desc_sz, Z.ones 2); (cmpt_ctxt.cidx, Z.ones 16);
    (cmpt_ctxt.valid, Z.ones 1); (cmpt_ctxt.err, Z.ones 2); (cmpt_ctxt.user_trig_pend, Z.ones 1);
    (cmpt_ctxt.timer_running, Z.ones 1); (cmpt_ctxt.full_upd, Z.ones 1);
    (cmpt_ctxt.ovf_chk_dis, Z.ones 1); (cmpt_ctxt.at_, Z.ones 1); (cmpt_ctxt.vec, Z.ones 11);
    (cmpt_ctxt.int_aggr, Z.ones 1); (cmpt_ctxt.dis_intr_on_vf, Z.ones 1); (cmpt_ctxt.vio, Z.ones 1);
    (cmpt_ctxt.dir_c2h, Z.ones 1); (cmpt_ctxt.host_id, Z.ones 4); (cmpt_ctxt.pasid_en, Z.ones 1);
    (cmpt_ctxt.vio_eop, Z.ones 1); (cmpt_ctxt.sh_cmpt, Z.ones 1);
    (cmpt_ctxt.bs_addr, Z.ones 64 - Z.ones 2); (cmpt_ctxt.pasid, Z.ones 22);
    (cmpt_ctxt.pidx, Z.ones 16)].

Definition eqdma_intr_codec : codec := mk_codec eqdma_indirect_intr_context_words eqdma_indirect_intr_context_fields 4 224
   [(ind_intr_ctxt.valid, Z.ones 1); (ind_intr_ctxt.vec, Z.ones 11);
    (ind_intr_ctxt.int_st, Z.ones 1); (ind_intr_ctxt.color, Z.ones 1);
    (ind_intr_ctxt.page_size, Z.ones 3); (ind_intr_ctxt.pidx, Z.ones 12);
    (ind_intr_ctxt.at_, Z.ones 1); (ind_intr_ctxt.host_id, Z.ones 4);
    (ind_intr_ctxt.pasid_en, Z.ones 1); (ind_intr_ctxt.func_id, Z.ones 12);
    (ind_intr_ctxt.baddr_4k, Z.ones 64 - Z.ones 12); (ind_intr_ctxt.pasid, 0x3ffeff)].

Definition qdma_sw_codec : codec := mk_codec qdma_sw_context_words qdma_sw_context_fields 5 448
   [(sw_ctxt.pidx, Z.ones 16); (sw_ctxt.irq_arm, Z.ones 1); (sw_ctxt.fnc_id, Z.ones 8);
    (sw_ctxt.qen, Z.ones 1); (sw_ctxt.frcd_en, Z.ones 1); (sw_ctxt.wbi_chk, Z.ones 1);
    (sw_ctxt.wbi_intvl_en, Z.ones 1); (sw_ctxt.at_, Z.ones 1); (sw_ctxt.fetch_max, Z.ones 3);
    (sw_ctxt.rngsz_idx, Z.ones 4); (sw_ctxt.desc_sz, Z.ones 2); (sw_ctxt.bypass, Z.ones 1);
    (sw_ctxt.mm_chn, Z.ones 1); (sw_ctxt.wbk_en, Z.ones 1); (sw_ctxt.irq_en, Z.ones 1);
    (sw_ctxt.port_id, Z.ones 3); (sw_ctxt.irq_no_last, Z.ones 1); (sw_ctxt.err, Z.ones 2);
    (sw_ctxt.err_wb_sent, Z.ones 1); (sw_ctxt.irq_req, Z.ones 1); (sw_ctxt.mrkr_dis, Z.ones 1);
    (sw_ctxt.is_mm, Z.ones 1); (sw_ctxt.ring_bs_addr, Z.ones 64); (sw_ctxt.vec, Z.ones 11);
    (sw_ctxt.intr_aggr, Z.ones 1)].

Definition qdma_pfetch_codec : codec := mk_codec qdma_pfetch_context_words qdma_pfetch_context_fields 2 96
   [(pfetch_ctxt.bypass, Z.ones 1); (pfetch_ctxt.bufsz_idx, Z.ones 4);
    (pfetch_ctxt.port_id, Z.ones 3); (pfetch_ctxt.err, Z.ones 1); (pfetch_ctxt.pfch_en, Z.ones 1);
    (pfetch_ctxt.pfch, Z.ones 1); (pfetch_ctxt.valid, Z.ones 1); (pfetch_ctxt.sw_crdt, Z.ones 16)].

Definition qdma_cmpt_codec : codec := mk_codec qdma_cmpt_context_words qdma_cmpt_context_fields 5 384
   [(cmpt_ctxt.en_stat_desc, Z.ones 1); (cmpt_ctxt.en_int, Z.ones 1);
    (cmpt_ctxt.trig_mode, Z.ones 3); (cmpt_ctxt.fnc_id, Z.ones 8); (cmpt_ctxt.counter_idx, Z.ones 4);
    (cmpt_ctxt.timer_idx, Z.ones 4); (cmpt_ctxt.in_st, Z.ones 2); (cmpt_ctxt.color, Z.ones 1);
    (cmpt_ctxt.ringsz_idx, Z.ones 4); (cmpt_ctxt.desc_sz, Z.ones 2); (cmpt_ctxt.cidx, Z.ones 16);
    (cmpt_ctxt.valid, Z.ones 1); (cmpt_ctxt.err, Z.ones 2); (cmpt_ctxt.user_trig_pend, Z.ones 1);
    (cmpt_ctxt.timer_running, Z.ones 1); (cmpt_ctxt.full_upd, Z.ones 1);
    (cmpt_ctxt.ovf_chk_dis, Z.ones 1); (cmpt_ctxt.at_, Z.ones 1); (cmpt_ctxt.vec, Z.ones 11);
    (cmpt_ctxt.int_aggr, Z.ones 1); (cmpt_ctxt.bs_addr, Z.ones 64 - Z.ones 12);
    (cmpt_ctxt.pidx, Z.ones 16)].

Definition qdma_intr_codec : codec := mk_codec qdma_indirect_intr_context_words qdma_indirect_intr_context_fields 3 224
   [(ind_intr_ctxt.valid, Z.ones 1); (ind_intr_ctxt.vec, Z.ones 11);
    (ind_intr_ctxt.int_st, Z.ones 1); (ind_intr_ctxt.color, Z.ones 1);
    (ind_intr_ctxt.page_size, Z.ones 3); (ind_intr_ctxt.pidx, Z.ones 12);
    (ind_intr_ctxt.at_, Z.ones 1); (ind_intr_ctxt.baddr_4k, Z.ones 64 - Z.ones 12)].

Definition qdma_s80_hard_sw_codec : codec := mk_codec qdma_s80_hard_sw_context_words qdma_s80_hard_sw_context_fields 4 448
   [(sw_ctxt.pidx, Z.ones 16); (sw_ctxt.irq_arm, Z.ones 1); (sw_ctxt.qen, Z.ones 1);
    (sw_ctxt.frcd_en, Z.ones 1); (sw_ctxt.wbi_chk, Z.ones 1); (sw_ctxt.wbi_intvl_en, Z.ones 1);
    (sw_ctxt.fnc_id, Z.ones 8); (sw_ctxt.rngsz_idx, Z.ones 4); (sw_ctxt.desc_sz, Z.ones 2);
    (sw_ctxt.bypass, Z.ones 1); (sw_ctxt.mm_chn, Z.ones 1); (sw_ctxt.wbk_en, Z.ones 1);
    (sw_ctxt.irq_en, Z.ones 1); (sw_ctxt.port_id, Z.ones 3); (sw_ctxt.irq_no_last, Z.ones 1);
    (sw_ctxt.err, Z.ones 2); (sw_ctxt.err_wb_sent, Z.ones 1); (sw_ctxt.irq_req, Z.ones 1);
    (sw_ctxt.mrkr_dis, Z.ones 1); (sw_ctxt.is_mm, Z.ones 1); (sw_ctxt.ring_bs_addr, Z.ones 64)].

Definition qdma_s80_hard_pfetch_codec : codec := mk_codec qdma_s80_hard_pfetch_context_words qdma_s80_hard_pfetch_context_fields 2 96
   [(pfetch_ctxt.bypass, Z.ones 1); (pfetch_ctxt.bufsz_idx, Z.ones 4);
    (pfetch_ctxt.port_id, Z.ones 3); (pfetch_ctxt.err, Z.ones 1); (pfetch_ctxt.pfch_en, Z.ones 1);
    (pfetch_ctxt.pfch, Z.ones 1); (pfetch_ctxt.valid, Z.ones 1); (pfetch_ctxt.sw_crdt, Z.ones 16)].

Definition qdma_s80_hard_cmpt_codec : codec := mk_codec qdma_s80_hard_cmpt_context_words qdma_s80_hard_cmpt_context_fields 4 384
   [(cmpt_ctxt.en_stat_desc, Z.ones 1); (cmpt_ctxt.en_int, Z.ones 1);
    (cmpt_ctxt.trig_mode, Z.ones 3); (cmpt_ctxt.fnc_id, Z.ones 8); (cmpt_ctxt.counter_idx, Z.ones 4);
    (cmpt_ctxt.timer_idx, Z.ones 4); (cmpt_ctxt.in_st, Z.ones 2); (cmpt_ctxt.color, Z.ones 1);
    (cmpt_ctxt.ringsz_idx, Z.ones 4); (cmpt_ctxt.desc_sz, Z.ones 2); (cmpt_ctxt.cidx, Z.ones 16);
    (cmpt_ctxt.valid, Z.ones 1); (cmpt_ctxt.err, Z.ones 2); (cmpt_ctxt.user_trig_pend, Z.ones 1);
    (cmpt_ctxt.timer_running, Z.ones 1); (cmpt_ctxt.full_upd, Z.ones 1);
    (cmpt_ctxt.bs_addr, Z.ones 64 - Z.ones 6); (cmpt_ctxt.pidx, Z.ones 16)].

Definition qdma_s80_hard_intr_codec : codec := mk_codec qdma_s80_hard_indirect_intr_context_words qdma_s80_hard_indirect_intr_context_fields 3 224
   [(ind_intr_ctxt.valid, Z.ones 1); (ind_intr_ctxt.vec, Z.ones 5); (ind_intr_ctxt.int_st, Z.ones 1);
    (ind_intr_ctxt.color, Z.ones 1); (ind_intr_ctxt.page_size, Z.ones 3);
    (ind_intr_ctxt.pidx, Z.ones 12); (ind_intr_ctxt.baddr_4k, Z.ones 64 - Z.ones 12)].

Definition qdma_fmap_codec : codec := mk_codec qdma_fmap_words qdma_fmap_fields 2 32
   [(fmap_cfg.qbase, Z.ones 11); (fmap_cfg.qmax, Z.ones 12)].

(** ** The code agrees with the tables *)

Ltac good_codec cd words fields :=
  unfold cd; constructor;
  [ unfold read_back; cbn [pack unpack]; unfold words, fields; solve_linear
  | intros c; split; [reflexivity|]; cbn [pack]; unfold words; solve_words
  | intros ?; reflexivity
  | vm_compute; reflexivity
  | vm_compute; reflexivity ].

#[export] Instance eqdma_sw_codec_good : GoodCodec eqdma_sw_codec.
Proof. good_codec eqdma_sw_codec eqdma_sw_context_words eqdma_sw_context_fields. Qed.
#[export] Instance eqdma_pfetch_codec_good : GoodCodec eqdma_pfetch_codec.
Proof. good_codec eqdma_pfetch_codec eqdma_pfetch_context_words eqdma_pfetch_context_fields. Qed.
#[export] Instance eqdma_cmpt_codec_good : GoodCodec eqdma_cmpt_codec.
Proof. good_codec eqdma_cmpt_codec eqdma_cmpt_context_words eqdma_cmpt_context_fields. Qed.
#[export] Instance eqdma_intr_codec_good : GoodCodec eqdma_intr_codec.
Proof. good_codec eqdma_intr_codec eqdma_indirect_intr_context_words eqdma_indirect_intr_context_fields. Qed.
#[export] Instance qdma_sw_codec_good : GoodCodec qdma_sw_codec.
Proof. good_codec qdma_sw_codec qdma_sw_context_words qdma_sw_context_fields. Qed.
#[export] Instance qdma_pfetch_codec_good : GoodCodec qdma_pfetch_codec.
Proof. good_codec qdma_pfetch_codec qdma_pfetch_context_words qdma_pfetch_context_fields. Qed.
#[export] Instance qdma_cmpt_codec_good : GoodCodec qdma_cmpt_codec.
Proof. good_codec qdma_cmpt_codec qdma_cmpt_context_words qdma_cmpt_context_fields. Qed.
#[export] Instance qdma_intr_codec_good : GoodCodec qdma_intr_codec.
Proof. good_codec qdma_intr_codec qdma_indirect_intr_context_words qdma_indirect_intr_context_fields. Qed.
#[export] Instance qdma_s80_hard_sw_codec_good : GoodCodec qdma_s80_hard_sw_codec.
Proof. good_codec qdma_s80_hard_sw_codec qdma_s80_hard_sw_context_words qdma_s80_hard_sw_context_fields. Qed.
#[export] Instance qdma_s80_hard_pfetch_codec_good : GoodCodec qdma_s80_hard_pfetch_codec.
Proof. good_codec qdma_s80_hard_pfetch_codec qdma_s80_hard_pfetch_context_words qdma_s80_hard_pfetch_context_fields. Qed.
#[export] Instance qdma_s80_hard_cmpt_codec_good : GoodCodec qdma_s80_hard_cmpt_codec.
Proof. good_codec qdma_s80_hard_cmpt_codec qdma_s80_hard_cmpt_context_words qdma_s80_hard_cmpt_context_fields. Qed.
#[export] Instance qdma_s80_hard_intr_codec_good : GoodCodec qdma_s80_hard_intr_codec.
Proof. good_codec qdma_s80_hard_intr_codec qdma_s80_hard_indirect_intr_context_words qdma_s80_hard_indirect_intr_context_fields. Qed.
#[export] Instance qdma_fmap_codec_good : GoodCodec qdma_fmap_codec.
Proof. good_codec qdma_fmap_codec qdma_fmap_words qdma_fmap_fields. Qed.
