(* ===== verification/CtxtProps.v ===== *)
(** * CtxtProps: contexts written and read back

    The functions of the three libraries that configure contexts, against the
    memory of contexts that the indirect registers give access to (IndirectMem) and the
    formats of the words (Codec, Formats). *)

From stdpp Require Import gmap.
From S2P Require Import Prelude QdmaErrors Mmio CLayout Contexts Fields Indirect IndirectMem Codec Access.
From S2P Require Import EqdmaCtxt SoftCtxt S80Ctxt Formats.
Local Open Scope Z_scope.

(** ** The interface *)

(** The contexts that can be written, and what the library makes of them.  The
    software context of the hard QDMA is apart: part of it is in another register. *)
Inductive lib_ctxt :=
| EqdmaSw (c2h : Z) | EqdmaPfetch | EqdmaCmpt | EqdmaIntr
| SoftFmap | SoftSw (c2h : Z) | SoftPfetch | SoftCmpt | SoftIntr
| S80Pfetch | S80Cmpt | S80Intr.

Implicit Types k : lib_ctxt.

Definition regs_of k : IndRegs :=
  match k with
  | EqdmaSw _ | EqdmaPfetch | EqdmaCmpt | EqdmaIntr => eqdma_regs
  | SoftFmap | SoftSw _ | SoftPfetch | SoftCmpt | SoftIntr => qdma_regs
  | S80Pfetch | S80Cmpt | S80Intr => qdma_s80_hard_regs
  end.

Definition codec_of k : codec :=
  match k with
  | EqdmaSw _ => eqdma_sw_codec | EqdmaPfetch => eqdma_pfetch_codec
  | EqdmaCmpt => eqdma_cmpt_codec | EqdmaIntr => eqdma_intr_codec
  | SoftFmap => qdma_fmap_codec | SoftSw _ => qdma_sw_codec | SoftPfetch => qdma_pfetch_codec
  | SoftCmpt => qdma_cmpt_codec | SoftIntr => qdma_intr_codec
  | S80Pfetch => qdma_s80_hard_pfetch_codec | S80Cmpt => qdma_s80_hard_cmpt_codec
  | S80Intr => qdma_s80_hard_intr_codec
  end.

#[export] Instance codec_of_good k : GoodCodec (codec_of k).
Proof. destruct k; apply _. Qed.

Definition ok_of k : Z -> bool :=
  match k with
  | EqdmaCmpt => eqdma_cmpt_context_ok | SoftCmpt => qdma_cmpt_context_ok
  | S80Cmpt => qdma_s80_hard_cmpt_context_ok | S80Intr => qdma_s80_hard_indirect_intr_context_ok
  | _ => fun _ => true
  end.

Definition sel_of k : ind_ctxt_cmd_sel :=
  match k with
  | EqdmaSw c2h | SoftSw c2h => sw_sel c2h
  | EqdmaPfetch | SoftPfetch | S80Pfetch => QDMA_CTXT_SEL_PFTCH
  | EqdmaCmpt | SoftCmpt | S80Cmpt => QDMA_CTXT_SEL_CMPT
  | EqdmaIntr | SoftIntr | S80Intr => QDMA_CTXT_SEL_INT_COAL
  | SoftFmap => QDMA_CTXT_SEL_FMAP
  end.

(** The soft QDMA's library checks the direction. *)
Definition direction_of k : Prop := match k with SoftSw c2h => c2h <= 1 | _ => True end.

(** The memory of contexts of the device, seen through the library's registers. *)
Abbreviation memory_of k D s := (@contexts _ _ (regs_of k) D _ s).

Section conf.
Context {S : Type} `{HasTrace S} (D : MmioDevice).
Local Existing Instance D.

Definition conf_of k : Z -> option Z -> qdma_hw_access_type -> M S (Z * option Z) :=
  match k with
  | EqdmaSw c2h => eqdma_sw_ctx_conf c2h | EqdmaPfetch => eqdma_pfetch_ctx_conf
  | EqdmaCmpt => eqdma_cmpt_ctx_conf | EqdmaIntr => eqdma_indirect_intr_ctx_conf
  | SoftFmap => qdma_fmap_conf | SoftSw c2h => qdma_sw_ctx_conf c2h
  | SoftPfetch => qdma_pfetch_ctx_conf | SoftCmpt => qdma_cmpt_ctx_conf
  | SoftIntr => qdma_indirect_intr_ctx_conf
  | S80Pfetch => qdma_s80_hard_pfetch_ctx_conf | S80Cmpt => qdma_s80_hard_cmpt_ctx_conf
  | S80Intr => qdma_s80_hard_indirect_intr_ctx_conf
  end.

(** Function maps cannot be invalidated. *)
Definition invalidate_of k (hw_qid : Z) : M S Z :=
  match k with
  | SoftFmap => unsupported
  | _ => @indirect_reg_invalidate S _ D (regs_of k) (sel_of k) hw_qid
  end.

Lemma conf_of_eq k hw_qid ctxt a :
  direction_of k ->
  conf_of k hw_qid ctxt a =
  by_access a ctxt
    (@context_read S _ D (regs_of k) (unpack (codec_of k)) (num_words (codec_of k)) (sel_of k) hw_qid)
    (@context_write S _ D (regs_of k) (ok_of k) (pack (codec_of k)) (sel_of k) hw_qid)
    (@indirect_reg_clear S _ D (regs_of k) (sel_of k) hw_qid) (invalidate_of k hw_qid).
Proof.
  destruct k; intros Hd; try reflexivity.
  unfold conf_of, qdma_sw_ctx_conf, direction_ok. simpl in Hd.
  by rewrite (proj2 (Z.ltb_ge 1 c2h)) by done.
Qed.

Lemma words_fit k : (num_words (codec_of k) <= @ind_num_regs (regs_of k))%nat.
Proof. destruct k; cbv; lia. Qed.

(** ** Writing and reading *)

Section memory.
Context k.
Context `{!@ContextMemory (regs_of k) D}.

Abbreviation key hw_qid := (ctxt_key (sel_of k) hw_qid).

(** What a context occupies of the memory. *)
Definition stored (c : Z) : list Z := @padded (regs_of k) (pack (codec_of k) c).

Lemma stored_words c : u32 <$> take (num_words (codec_of k)) (stored c) = pack (codec_of k) c.
Proof.
  destruct (cd_words (cd := codec_of k) c) as [Hl Hw]. pose proof (words_fit k) as Hf.
  unfold stored, padded. rewrite <- fmap_take, take_seq, Nat.min_l by done. rewrite <- Hl.
  apply list_eq. intros i. rewrite !list_lookup_fmap.
  destruct (decide (i < length (pack (codec_of k) c))%nat) as [Hi|Hi].
  - rewrite lookup_seq_lt by done. cbn [fmap option_fmap option_map].
    destruct (lookup_lt_is_Some_2 _ _ Hi) as [x Hx].
    rewrite (nth_lookup_Some _ _ _ _ Hx), Hx. f_equal. apply u32_small.
    rewrite Forall_lookup in Hw. by apply (Hw i).
  - rewrite lookup_seq_ge by lia. by rewrite lookup_ge_None_2 by lia.
Qed.

Lemma conf_write_run hw_qid c s :
  direction_of k -> ok_of k c = true ->
  exists s', conf_of k hw_qid (Some c) QDMA_HW_ACCESS_WRITE s = Ret (0, Some c) s' /\
    memory_of k D s' = <[key hw_qid := stored c]> (memory_of k D s).
Proof.
  intros Hd Hok. rewrite conf_of_eq by done. cbn [by_access]. unfold context_write, keeping. rewrite Hok.
  destruct (@indirect_write_run S _ (regs_of k) D _ (sel_of k) hw_qid (pack (codec_of k) c) s) as (s' & Hrun & Hc).
  { apply (cd_words (cd := codec_of k) c). }
  exists s'. by rewrite (bind_Ret _ _ _ _ _ Hrun).
Qed.

Lemma conf_read_run hw_qid old s :
  direction_of k ->
  exists s', conf_of k hw_qid (Some old) QDMA_HW_ACCESS_READ s =
      Ret (0, Some (assign (unpack (codec_of k)
        (u32 <$> take (num_words (codec_of k)) (@ctxt_at (regs_of k) (memory_of k D s) (key hw_qid)))) old)) s' /\
    memory_of k D s' = memory_of k D s.
Proof.
  intros Hd. rewrite conf_of_eq by done. cbn [by_access]. unfold context_read.
  destruct (@indirect_read_run S _ (regs_of k) D _ (sel_of k) hw_qid _ s (words_fit k)) as (s' & Hrun & Hc).
  exists s'. by rewrite (bind_Ret _ _ _ _ _ Hrun).
Qed.
End memory.
End conf.

(** ** What the words are *)

(** What the EQDMA's library makes of the base of a virtio ring: bits 21 to 31 come back twice, the
    second time 32 bits higher, in the place of the highest ones. *)
Definition virtio_base_read (v : Z) : Z :=
  Z.lor (Z.land v (Z.ones 53)) (Z.shiftl (Z.land v (Z.shiftl (Z.ones 11) 21)) 32).

Lemma eqdma_virtio_base_read c old :
  0 <= c < 2 ^ Z.of_nat (ctxt_bits eqdma_sw_codec) ->
  fld sw_ctxt.virtio_dsc_base (read_back eqdma_sw_codec c old) = virtio_base_read (fld sw_ctxt.virtio_dsc_base c).
Proof.
  apply (read_back_linear eqdma_sw_codec _ (fun c => virtio_base_read (fld sw_ctxt.virtio_dsc_base c))).
  - by vm_compute.
  - unfold virtio_base_read. repeat linear_step.
  - assert (forallb (fun i => let b := 2 ^ Z.of_nat i in
      fld sw_ctxt.virtio_dsc_base (read_back eqdma_sw_codec b 0) =? virtio_base_read (fld sw_ctxt.virtio_dsc_base b))
      (seq 0 (ctxt_bits eqdma_sw_codec)) = true) as Hb by by vm_compute.
    rewrite forallb_forall in Hb. intros i Hi. apply Z.eqb_eq, Hb. rewrite <- list_elem_of_In, elem_of_seq. lia.
Qed.

(** The members that a library reads are in its table, but for that one. *)
Lemma members_in_table k f :
  f ∈ (unpack (codec_of k) []).*1 ->
  f ∈ (kept (codec_of k)).*1 \/ (exists c2h, k = EqdmaSw c2h) /\ f = sw_ctxt.virtio_dsc_base.
Proof.
  intros Hf. destruct (decide (f ∈ (kept (codec_of k)).*1)) as [|Hn]; [by left|]. right.
  assert (f ∈ filter (fun f => f ∉ (kept (codec_of k)).*1) (unpack (codec_of k) []).*1) as Hin
    by by apply list_elem_of_filter.
  clear Hf Hn. destruct k; vm_compute in Hin; (by apply not_elem_of_nil in Hin) ||
    (apply list_elem_of_singleton in Hin as ->; split; [by eexists|reflexivity]).
Qed.

(** C6. Packing and unpacking.  Of every context in the range of its structure, each
    member that its format has is read back, whatever the structure that is read into held
    before, with the bits of the table [kept].  These are the bits the format has room for, with the two exceptions the
    code makes, both in the EQDMA's library: of the address space of an interrupt context bit 8 is
    lost (the table has [0x3ffeff] for it), and the base of a virtio ring, which is not in the table,
    is read back with some of its bits doubled. *)
Theorem context_round_trip k c old :
  0 <= c < 2 ^ Z.of_nat (ctxt_bits (codec_of k)) ->
  (forall f m, (f, m) ∈ kept (codec_of k) -> fld f (read_back (codec_of k) c old) = Z.land (fld f c) m) /\
  (forall f, f ∈ (unpack (codec_of k) []).*1 ->
     f ∈ (kept (codec_of k)).*1 \/ (exists c2h, k = EqdmaSw c2h) /\ f = sw_ctxt.virtio_dsc_base) /\
  (forall c2h, k = EqdmaSw c2h ->
     fld sw_ctxt.virtio_dsc_base (read_back (codec_of k) c old) = virtio_base_read (fld sw_ctxt.virtio_dsc_base c)).
Proof.
  intros Hc. split; [intros f m; by apply read_back_kept; [apply _|]|]. split; [apply members_in_table|].
  intros c2h ->. by apply eqdma_virtio_base_read.
Qed.

Definition sample_cmpt : Z :=
  put cmpt_ctxt.bs_addr 0x123456789000 (put cmpt_ctxt.trig_mode 5
    (put cmpt_ctxt.vec 77 (put cmpt_ctxt.pidx 4097 (put cmpt_ctxt.valid 1 0)))).

Lemma context_round_trip_witness :
  fld cmpt_ctxt.bs_addr (read_back (codec_of EqdmaCmpt) sample_cmpt 0) = 0x123456789000.
Proof.
  destruct (context_round_trip EqdmaCmpt sample_cmpt 0) as [Hk _]; [vm_compute; split; [discriminate|reflexivity]|].
  rewrite (Hk cmpt_ctxt.bs_addr (Z.ones 64 - Z.ones 2)).
  - reflexivity.
  - apply list_elem_of_In. cbn. tauto.
Defined.

(** ** Contexts in the device *)



(** ** Rejected requests *)

(** C35. A request is rejected with the code for an invalid parameter, without a single register access,
    when the structure to fill or to write is a null pointer, when its contents are not accepted, when the
    direction is neither and the library checks it (the soft QDMA for software, hardware and credit
    contexts, the EQDMA for hardware and credit contexts; its function for software contexts and the hard
    QDMA take any), and when a hardware or credit context is to be written; so is invalidating a function
    map. *)
Theorem context_conf_rejects {S : Type} `{HasTrace S} (D : MmioDevice) hw_qid (s : S) :
  let rejected ctxt := Ret (neg QDMA_ERR_INV_PARAM, ctxt : option Z) s in
  (forall k a, a = QDMA_HW_ACCESS_READ \/ a = QDMA_HW_ACCESS_WRITE ->
     conf_of D k hw_qid None a s = rejected None) /\
  (forall k c, ok_of k c = false ->
     conf_of D k hw_qid (Some c) QDMA_HW_ACCESS_WRITE s = rejected (Some c)) /\
  (forall c2h ctxt a, 1 < c2h ->
     qdma_sw_ctx_conf c2h hw_qid ctxt a s = rejected ctxt /\
     qdma_hw_ctx_conf c2h hw_qid ctxt a s = rejected ctxt /\
     qdma_credit_ctx_conf c2h hw_qid ctxt a s = rejected ctxt /\
     eqdma_hw_ctx_conf c2h hw_qid ctxt a s = rejected ctxt /\
     eqdma_credit_ctx_conf c2h hw_qid ctxt a s = rejected ctxt) /\
  (forall c2h ctxt,
     qdma_hw_ctx_conf c2h hw_qid ctxt QDMA_HW_ACCESS_WRITE s = rejected ctxt /\
     eqdma_hw_ctx_conf c2h hw_qid ctxt QDMA_HW_ACCESS_WRITE s = rejected ctxt /\
     qdma_s80_hard_hw_ctx_conf c2h hw_qid ctxt QDMA_HW_ACCESS_WRITE s = rejected ctxt /\
     qdma_credit_ctx_conf c2h hw_qid ctxt QDMA_HW_ACCESS_WRITE s = rejected ctxt /\
     eqdma_credit_ctx_conf c2h hw_qid ctxt QDMA_HW_ACCESS_WRITE s = rejected ctxt /\
     qdma_s80_hard_credit_ctx_conf c2h hw_qid ctxt QDMA_HW_ACCESS_WRITE s = rejected ctxt) /\
  (forall ctxt, qdma_fmap_conf hw_qid ctxt QDMA_HW_ACCESS_INVALIDATE s = rejected ctxt /\
     qdma_s80_hard_fmap_conf hw_qid ctxt QDMA_HW_ACCESS_INVALIDATE s = rejected ctxt).
Proof.
  intros rejected. split_and!.
  - intros k a Ha. destruct k; destruct Ha as [-> | ->]; try reflexivity;
      unfold conf_of, qdma_sw_ctx_conf, direction_ok; by case_match.
  - intros k c Hok. destruct k; try discriminate Hok;
      cbn [conf_of ok_of] in *;
      unfold eqdma_cmpt_ctx_conf, qdma_cmpt_ctx_conf, qdma_s80_hard_cmpt_ctx_conf,
        qdma_s80_hard_indirect_intr_ctx_conf, by_access, keeping, eqdma_cmpt_context_write,
        qdma_cmpt_context_write, qdma_s80_hard_cmpt_context_write,
        qdma_s80_hard_indirect_intr_context_write, context_write; by rewrite Hok.
  - intros c2h ctxt a Hc. unfold qdma_sw_ctx_conf, qdma_hw_ctx_conf, qdma_credit_ctx_conf,
      eqdma_hw_ctx_conf, eqdma_credit_ctx_conf, direction_ok.
    by rewrite (proj2 (Z.ltb_lt 1 c2h)) by done.
  - intros c2h ctxt. unfold qdma_hw_ctx_conf, eqdma_hw_ctx_conf, qdma_credit_ctx_conf,
      eqdma_credit_ctx_conf, direction_ok. by case_match.
  - done.
Qed.

(** The base of a virtio ring that is read back from the EQDMA is not the one that was
    written: its highest bits are taken from the word of its middle ones. *)
Lemma eqdma_virtio_base_mangled :
  let c := put sw_ctxt.virtio_dsc_base (2 ^ 21) 0 in
  fld sw_ctxt.virtio_dsc_base (read_back eqdma_sw_codec c 0) = 2 ^ 53 + 2 ^ 21.
Proof. vm_compute. reflexivity. Qed.
