(* ===== verification/Csr.v ===== *)
(** * Csr: what the libraries' register functions share

    Apart from contexts, the access libraries read the device's capabilities,
    configure the tables of ring sizes, timer counts, counter thresholds and buffer
    sizes, the write-back interval and the channels, clear the context memory, and
    write the doorbells of queues.  The three do this with the same code at
    addresses of their own; the steps are here, the functions in EqdmaCsr, SoftCsr and
    S80Csr. *)

From S2P Require Import Prelude QdmaErrors Mmio CLayout Contexts Fields Indirect Access.
Local Open Scope Z_scope.
Local Open Scope reconic_scope.

Definition QDMA_NUM_C2H_BUFFER_SIZES : Z := 16.
Definition QDMA_MM_CONTROL_STEP : Z := 0x100.
Definition QDMA_PIDX_STEP : Z := 0x10.
Definition QDMA_CMPT_CIDX_STEP : Z := 0x10.
Definition QDMA_INT_CIDX_STEP : Z := 0x10.
Definition QDMA_BAR_NUM : nat := 6.
Definition QDMA_NUM_WRB_INTERVALS : Z := 8.

Definition DEFAULT_MAX_DSC_FETCH : Z := 6.
Definition DEFAULT_WRB_INT : Z := 5.
Definition DEFAULT_PFCH_STOP_THRESH : Z := 256.
Definition DEFAULT_PFCH_NUM_ENTRIES_PER_Q : Z := 8.
Definition DEFAULT_PFCH_MAX_Q_CNT : Z := 16.
Definition DEFAULT_C2H_INTR_TIMER_TICK : Z := 25.
Definition DEFAULT_CMPT_COAL_TIMER_CNT : Z := 5.
Definition DEFAULT_CMPT_COAL_TIMER_TICK : Z := 25.
Definition DEFAULT_CMPT_COAL_MAX_BUF_SZ : Z := 32.

(** The tables every library starts with. *)
Definition default_rng_sz : list Z :=
  [2049; 65; 129; 193; 257; 385; 513; 769; 1025; 1537; 3073; 4097; 6145; 8193; 12289; 16385].
Definition default_tmr_cnt : list Z := [1; 2; 4; 5; 8; 10; 15; 20; 25; 30; 50; 75; 100; 125; 150; 200].
Definition default_cnt_th : list Z := [2; 4; 8; 16; 24; 32; 48; 64; 80; 96; 112; 128; 144; 160; 176; 192].
Definition default_buf_sz : list Z :=
  [4096; 256; 512; 1024; 2048; 3968; 4096; 4096; 4096; 4096; 4096; 4096; 4096; 8192; 9018; 16384].

(** ** Capabilities *)

Definition is_set (f : cfield) (caps : Z) : bool := negb (fld f caps =? 0).
Definition streams (caps : Z) : bool := is_set dev_attributes.st_en caps.
Definition completions (caps : Z) : bool := streams caps || is_set dev_attributes.mm_cmpt_en caps.

(** The number of the masks under which the register is not 0. *)
Definition count_pfs (masks : list Z) (reg_val : Z) : Z :=
  Z.of_nat (length (filter (fun m => FIELD_GET m reg_val <> 0) masks)).

(** Both of two masked fields are not 0. *)
Definition both (m1 m2 reg_val : Z) : Z :=
  if negb (FIELD_GET m1 reg_val =? 0) && negb (FIELD_GET m2 reg_val =? 0) then 1 else 0.

Section csr.
Context {S : Type} `{HasTrace S} `{MmioDevice}.

(** What a function finds in a structure on its stack. *)
Definition dev_caps (get : option Z -> M S (Z * option Z)) : M S Z :=
  '(_, caps) ← get (Some 0);
  mret (default 0 caps).

(** ** Tables of registers *)

(** [count] values of a table of [limit] registers at [addr], from [index], on a
    device with the capability [have]. *)
Definition csr_write (limit : Z) (addr : Z) (attrs : M S Z) (have : Z -> bool)
    (index count : Z) (values : option (list Z)) : M S Z :=
  match values with
  | None => mret (neg QDMA_ERR_INV_PARAM)
  | Some values =>
      if count =? 0 then mret (neg QDMA_ERR_INV_PARAM)
      else if limit <? index + count then mret (neg QDMA_ERR_INV_PARAM)
      else
        caps ← attrs;
        if have caps then
          qdma_write_csr_values addr index (Z.to_nat count) values;;
          mret 0
        else mret (neg QDMA_ERR_HWACC_FEATURE_NOT_SUPPORTED)
  end.

Definition csr_read (limit : Z) (addr : Z) (attrs : M S Z) (have : Z -> bool)
    (index count : Z) (values : option (list Z)) : M S (Z * option (list Z)) :=
  match values with
  | None => mret (neg QDMA_ERR_INV_PARAM, None)
  | Some old =>
      if count =? 0 then mret (neg QDMA_ERR_INV_PARAM, values)
      else if limit <? index + count then mret (neg QDMA_ERR_INV_PARAM, values)
      else
        caps ← attrs;
        if have caps then
          vs ← qdma_read_csr_values addr index (Z.to_nat count);
          mret (0, Some (vs ++ drop (Z.to_nat count) old))
        else mret (neg QDMA_ERR_HWACC_FEATURE_NOT_SUPPORTED, values)
  end.

(** The inner [switch]. *)
Definition csr_access (access_type : qdma_hw_access_type) (values : option (list Z))
    (read : option (list Z) -> M S (Z * option (list Z))) (write : option (list Z) -> M S Z)
    : M S (Z * option (list Z)) :=
  match access_type with
  | QDMA_HW_ACCESS_READ => read values
  | QDMA_HW_ACCESS_WRITE => rv ← write values; mret (rv, values)
  | _ => mret (neg QDMA_ERR_INV_PARAM, values)
  end.

(** ** The write-back interval *)

Definition interval_write (addr mask : Z) (attrs : M S Z) (wb_int : Z) : M S Z :=
  if QDMA_NUM_WRB_INTERVALS <=? wb_int then mret (neg QDMA_ERR_INV_PARAM)
  else
    caps ← attrs;
    if completions caps then
      reg_val ← read32_data addr;
      write32_data addr (reg_val .| FIELD_SET mask wb_int);;
      mret 0
    else mret (neg QDMA_ERR_HWACC_FEATURE_NOT_SUPPORTED).

Definition interval_read (addr mask : Z) (attrs : M S Z) (wb_int : option Z) : M S (Z * option Z) :=
  match wb_int with
  | None => mret (neg QDMA_ERR_INV_PARAM, None)
  | Some _ =>
      caps ← attrs;
      if completions caps then
        reg_val ← read32_data addr;
        mret (0, Some (FIELD_GET mask reg_val))
      else mret (neg QDMA_ERR_HWACC_FEATURE_NOT_SUPPORTED, wb_int)
  end.

(** Writing dereferences the pointer without a check. *)
Definition interval_conf (read : option Z -> M S (Z * option Z)) (write : Z -> M S Z)
    (wb_int : option Z) (access_type : qdma_hw_access_type) : M S (Z * option Z) :=
  match access_type with
  | QDMA_HW_ACCESS_READ => read wb_int
  | QDMA_HW_ACCESS_WRITE =>
      w ← deref (fun _ => wb_int);
      rv ← write w;
      mret (rv, wb_int)
  | _ => mret (neg QDMA_ERR_INV_PARAM, wb_int)
  end.

(** ** Channels, bars, doorbells *)

Definition channel_conf (c2h_addr h2c_addr : Z) (attrs : M S Z) (channel is_c2h enable : Z) : M S Z :=
  let reg_addr := if is_c2h =? 0 then h2c_addr else c2h_addr in
  caps ← attrs;
  (if is_set dev_attributes.mm_en caps then
     write32_data (u32 (reg_addr + channel * QDMA_MM_CONTROL_STEP)) enable
   else mret tt);;
  mret 0.

(** A right shift of a 32-bit value; by 32 and more it is not defined. *)
Definition shift_right (v n : Z) : M S Z := if n <? 32 then mret (Z.shiftr v n) else crash.

(** The loop over the bars: the first bit that is set. *)
Fixpoint first_bar (bars : list nat) (user_bar_id : Z) : option Z :=
  match bars with
  | [] => None
  | bar_idx :: bars' =>
      if negb (Z.land user_bar_id (Z.shiftl 1 (Z.of_nat bar_idx)) =? 0) then Some (Z.of_nat bar_idx)
      else first_bar bars' user_bar_id
  end.

Definition user_bar_of (user_bar_id : Z) : Z * Z :=
  match first_bar (seq 0 QDMA_BAR_NUM) user_bar_id with
  | Some bar_idx => (0, bar_idx)
  | None => (neg QDMA_ERR_HWACC_BAR_NOT_FOUND, 0)
  end.

(** A doorbell: the register of queue [qid] among those at [base]. *)
Definition doorbell (base step qid value : Z) : M S unit := write32_data (u32 (base + qid * step)) value.

(** ** Clearing the memory of contexts *)

(** A loop whose body may return from the function. *)
Fixpoint until_error {A} (l : list A) (body : A -> M S Z) : M S Z :=
  match l with
  | [] => mret 0
  | x :: l' => rv ← body x; if rv <? 0 then mret rv else until_error l' body
  end.

Definition queue_sels : list ind_ctxt_cmd_sel :=
  [QDMA_CTXT_SEL_SW_C2H; QDMA_CTXT_SEL_SW_H2C; QDMA_CTXT_SEL_HW_C2H; QDMA_CTXT_SEL_HW_H2C;
   QDMA_CTXT_SEL_CR_C2H; QDMA_CTXT_SEL_CR_H2C; QDMA_CTXT_SEL_CMPT; QDMA_CTXT_SEL_PFTCH].

Definition stream_sel (sel : ind_ctxt_cmd_sel) : bool :=
  bool_decide (sel = QDMA_CTXT_SEL_PFTCH) || bool_decide (sel = QDMA_CTXT_SEL_CMPT).

Definition init_ctxt_memory (attrs : M S Z) (clear : ind_ctxt_cmd_sel -> Z -> M S Z)
    (fmap_clear : Z -> M S Z) : M S Z :=
  caps ← attrs;
  rv ← until_error (seq 0 (Z.to_nat (fld dev_attributes.num_qs caps))) (fun i =>
         until_error queue_sels (fun sel =>
           if negb (streams caps) && stream_sel sel then mret 0 else clear sel (Z.of_nat i)));
  if rv <? 0 then mret rv
  else
    for_each (seq 0 (Z.to_nat (fld dev_attributes.num_pfs caps))) (fun i =>
      _ ← fmap_clear (Z.of_nat i); mret tt);;
    mret 0.
End csr.
