(* ===== verification/EqdmaCsr.v ===== *)
(** * EqdmaCsr: registers of the EQDMA ([eqdma_soft_access.c])

    The capabilities, the tables, the write-back interval, the channels, the user bar and the
    clearing of the context memory; the EQDMA's doorbells are the soft QDMA's. *)

From S2P Require Import Prelude QdmaErrors Mmio CLayout Contexts Fields Indirect Access EqdmaCtxt Csr.
Local Open Scope Z_scope.
Local Open Scope reconic_scope.

(** ** Addresses and masks *)

Definition QDMA_OFFSET_GLBL2_PF_BARLITE_INT : Z := 0x104.
Definition EQDMA_GLBL2_CHANNEL_CAP_ADDR : Z := 0x120.
Definition EQDMA_GLBL2_MISC_CAP_ADDR : Z := 0x134.
Definition EQDMA_GLBL2_CHANNEL_MDMA_ADDR : Z := 0x118.
Definition QDMA_GLBL2_PF0_BAR_MAP_MASK : Z := GENMASK 5 0.
Definition QDMA_GLBL2_PF1_BAR_MAP_MASK : Z := GENMASK 11 6.
Definition QDMA_GLBL2_PF2_BAR_MAP_MASK : Z := GENMASK 17 12.
Definition QDMA_GLBL2_PF3_BAR_MAP_MASK : Z := GENMASK 23 18.
Definition GLBL2_CHANNEL_CAP_MULTIQ_MAX_MASK : Z := GENMASK 11 0.
Definition EQDMA_GLBL2_MAILBOX_EN_MASK : Z := BIT 0.
Definition EQDMA_GLBL2_FLR_PRESENT_MASK : Z := BIT 1.
Definition EQDMA_GLBL2_DBG_MODE_EN_MASK : Z := BIT 4.
Definition EQDMA_GLBL2_DESC_ENG_MODE_MASK : Z := GENMASK 3 2.
Definition GLBL2_CHANNEL_MDMA_C2H_ST_MASK : Z := BIT 17.
Definition GLBL2_CHANNEL_MDMA_H2C_ST_MASK : Z := BIT 16.
Definition GLBL2_CHANNEL_MDMA_C2H_ENG_MASK : Z := GENMASK 11 8.
Definition GLBL2_CHANNEL_MDMA_H2C_ENG_MASK : Z := GENMASK 3 0.
Definition EQDMA_GLBL_RNG_SZ_1_ADDR : Z := 0x204.
Definition EQDMA_C2H_TIMER_CNT_ADDR : Z := 0xA00.
Definition EQDMA_C2H_CNT_TH_ADDR : Z := 0xA40.
Definition EQDMA_C2H_BUF_SZ_ADDR : Z := 0xAB0.
Definition EQDMA_GLBL_DSC_CFG_ADDR : Z := 0x250.
Definition GLBL_DSC_CFG_WB_ACC_INT_MASK : Z := GENMASK 2 0.
Definition EQDMA_C2H_MM_CTL_ADDR : Z := 0x1004.
Definition EQDMA_H2C_MM_CTL_ADDR : Z := 0x1204.
Definition EQDMA_OFFSET_GLBL2_PF_BARLITE_EXT : Z := 0x10C.
Definition EQDMA_OFFSET_VF_USER_BAR : Z := 0x5018.
Definition GLBL_DSC_CFG_MAXFETCH_MASK : Z := GENMASK 5 3.
Definition EQDMA_C2H_PFCH_CACHE_DEPTH_ADDR : Z := 0xBE0.
Definition EQDMA_C2H_PFCH_CFG_ADDR : Z := 0xB08.
Definition C2H_PFCH_CFG_FL_TH_MASK : Z := GENMASK 15 0.
Definition EQDMA_C2H_PFCH_CFG_1_ADDR : Z := 0xA80.
Definition C2H_PFCH_CFG_1_QCNT_MASK : Z := GENMASK 15 0.
Definition C2H_PFCH_CFG_1_EVT_QCNT_TH_MASK : Z := GENMASK 31 16.
Definition EQDMA_C2H_PFCH_CFG_2_ADDR : Z := 0xA84.
Definition C2H_PFCH_CFG_2_NUM_MASK : Z := GENMASK 5 0.
Definition EQDMA_C2H_INT_TIMER_TICK_ADDR : Z := 0xB0C.
Definition EQDMA_C2H_WRB_COAL_BUF_DEPTH_ADDR : Z := 0xBE4.
Definition EQDMA_C2H_WRB_COAL_CFG_ADDR : Z := 0xB50.
Definition C2H_WRB_COAL_CFG_TICK_CNT_MASK : Z := GENMASK 13 2.
Definition C2H_WRB_COAL_CFG_TICK_VAL_MASK : Z := GENMASK 25 14.
Definition C2H_WRB_COAL_CFG_MAX_BUF_SZ_MASK : Z := GENMASK 31 26.
Definition EQDMA_H2C_REQ_THROT_PCIE_ADDR : Z := 0xE24.
Definition H2C_REQ_THROT_PCIE_DATA_THRESH_MASK : Z := GENMASK 17 0.
Definition EQDMA_H2C_THROT_DATA_THRESH : Z := 0x5000.
Definition H2C_REQ_THROT_PCIE_EN_DATA_MASK : Z := BIT 18.
Definition EQDMA_THROT_EN_DATA : Z := 1.
Definition H2C_REQ_THROT_PCIE_MASK : Z := GENMASK 30 19.
Definition EQDMA_H2C_THROT_REQ_THRESH : Z := 0xC0.
Definition H2C_REQ_THROT_PCIE_EN_REQ_MASK : Z := BIT 31.
Definition EQDMA_THROT_EN_REQ : Z := 0.

(** ** The functions *)

Section library.
Context {S : Type} `{HasTrace S} `{MmioDevice}.
Local Existing Instance eqdma_regs.

(** *** Capabilities *)

Definition eqdma_get_device_attributes (dev_info : option Z) : M S (Z * option Z) :=
  match dev_info with
  | None => mret (neg QDMA_ERR_INV_PARAM, None)
  | Some dev_info =>
      bars ← read32_data QDMA_OFFSET_GLBL2_PF_BARLITE_INT;
      cap ← read32_data EQDMA_GLBL2_CHANNEL_CAP_ADDR;
      misc ← read32_data EQDMA_GLBL2_MISC_CAP_ADDR;
      mdma ← read32_data EQDMA_GLBL2_CHANNEL_MDMA_ADDR;
      mret (0, Some (assign
        [(dev_attributes.num_pfs, count_pfs [QDMA_GLBL2_PF0_BAR_MAP_MASK; QDMA_GLBL2_PF1_BAR_MAP_MASK;
                                             QDMA_GLBL2_PF2_BAR_MAP_MASK; QDMA_GLBL2_PF3_BAR_MAP_MASK] bars);
         (dev_attributes.num_qs, FIELD_GET GLBL2_CHANNEL_CAP_MULTIQ_MAX_MASK cap);
         (dev_attributes.mailbox_en, FIELD_GET EQDMA_GLBL2_MAILBOX_EN_MASK misc);
         (dev_attributes.flr_present, FIELD_GET EQDMA_GLBL2_FLR_PRESENT_MASK misc);
         (dev_attributes.mm_cmpt_en, 0);
         (dev_attributes.debug_mode, FIELD_GET EQDMA_GLBL2_DBG_MODE_EN_MASK misc);
         (dev_attributes.desc_eng_mode, FIELD_GET EQDMA_GLBL2_DESC_ENG_MODE_MASK misc);
         (dev_attributes.st_en, both GLBL2_CHANNEL_MDMA_C2H_ST_MASK GLBL2_CHANNEL_MDMA_H2C_ST_MASK mdma);
         (dev_attributes.mm_en, both GLBL2_CHANNEL_MDMA_C2H_ENG_MASK GLBL2_CHANNEL_MDMA_H2C_ENG_MASK mdma);
         (dev_attributes.mm_channel_max, 1);
         (dev_attributes.qid2vec_ctx, 0);
         (dev_attributes.cmpt_ovf_chk_dis, 1);
         (dev_attributes.mailbox_intr, 1);
         (dev_attributes.sw_desc_64b, 1);
         (dev_attributes.cmpt_desc_64b, 1);
         (dev_attributes.dynamic_bar, 1);
         (dev_attributes.legacy_intr, 1);
         (dev_attributes.cmpt_trig_count_timer, 1)] dev_info))
  end.

Definition eqdma_caps : M S Z := dev_caps eqdma_get_device_attributes.

(** *** Tables *)

Definition eqdma_write_global_ring_sizes (index count : Z) (values : option (list Z))
    : M S Z :=
  csr_write QDMA_NUM_RING_SIZES EQDMA_GLBL_RNG_SZ_1_ADDR (mret 0) (fun _ => true) index count values.

Definition eqdma_read_global_ring_sizes (index count : Z) (values : option (list Z))
    : M S (Z * option (list Z)) :=
  csr_read QDMA_NUM_RING_SIZES EQDMA_GLBL_RNG_SZ_1_ADDR (mret 0) (fun _ => true) index count values.

Definition eqdma_write_global_timer_count (index count : Z) (values : option (list Z))
    : M S Z :=
  csr_write QDMA_NUM_C2H_TIMERS EQDMA_C2H_TIMER_CNT_ADDR eqdma_caps completions index count values.

Definition eqdma_read_global_timer_count (index count : Z) (values : option (list Z))
    : M S (Z * option (list Z)) :=
  csr_read QDMA_NUM_C2H_TIMERS EQDMA_C2H_TIMER_CNT_ADDR eqdma_caps completions index count values.

Definition eqdma_write_global_counter_threshold (index count : Z) (values : option (list Z))
    : M S Z :=
  csr_write QDMA_NUM_C2H_COUNTERS EQDMA_C2H_CNT_TH_ADDR eqdma_caps completions index count values.

Definition eqdma_read_global_counter_threshold (index count : Z) (values : option (list Z))
    : M S (Z * option (list Z)) :=
  csr_read QDMA_NUM_C2H_COUNTERS EQDMA_C2H_CNT_TH_ADDR eqdma_caps completions index count values.

Definition eqdma_write_global_buffer_sizes (index count : Z) (values : option (list Z))
    : M S Z :=
  csr_write QDMA_NUM_C2H_BUFFER_SIZES EQDMA_C2H_BUF_SZ_ADDR eqdma_caps streams index count values.

Definition eqdma_read_global_buffer_sizes (index count : Z) (values : option (list Z))
    : M S (Z * option (list Z)) :=
  csr_read QDMA_NUM_C2H_BUFFER_SIZES EQDMA_C2H_BUF_SZ_ADDR eqdma_caps streams index count values.

Definition eqdma_global_csr_conf (index count : Z) (csr_val : option (list Z))
    (csr_type : qdma_global_csr_type) (access_type : qdma_hw_access_type) : M S (Z * option (list Z)) :=
  match csr_type with
  | QDMA_CSR_RING_SZ =>
      csr_access access_type csr_val (eqdma_read_global_ring_sizes index count) (eqdma_write_global_ring_sizes index count)
  | QDMA_CSR_TIMER_CNT =>
      csr_access access_type csr_val (eqdma_read_global_timer_count index count) (eqdma_write_global_timer_count index count)
  | QDMA_CSR_CNT_TH =>
      csr_access access_type csr_val (eqdma_read_global_counter_threshold index count) (eqdma_write_global_counter_threshold index count)
  | QDMA_CSR_BUF_SZ =>
      csr_access access_type csr_val (eqdma_read_global_buffer_sizes index count) (eqdma_write_global_buffer_sizes index count)
  end.

(** *** The write-back interval *)

Definition eqdma_global_writeback_interval_write (wb_int : Z) : M S Z :=
  interval_write EQDMA_GLBL_DSC_CFG_ADDR GLBL_DSC_CFG_WB_ACC_INT_MASK eqdma_caps wb_int.

Definition eqdma_global_writeback_interval_read (wb_int : option Z) : M S (Z * option Z) :=
  interval_read EQDMA_GLBL_DSC_CFG_ADDR GLBL_DSC_CFG_WB_ACC_INT_MASK eqdma_caps wb_int.

Definition eqdma_global_writeback_interval_conf (wb_int : option Z) (access_type : qdma_hw_access_type)
    : M S (Z * option Z) :=
  interval_conf eqdma_global_writeback_interval_read eqdma_global_writeback_interval_write wb_int access_type.

(** *** Channels and bars *)

Definition eqdma_mm_channel_conf (channel is_c2h enable : Z) : M S Z :=
  channel_conf EQDMA_C2H_MM_CTL_ADDR EQDMA_H2C_MM_CTL_ADDR eqdma_caps channel is_c2h enable.

Definition eqdma_get_user_bar (is_vf func_id : Z) (user_bar : option Z) : M S (Z * option Z) :=
  let reg_addr := if is_vf =? 0 then EQDMA_OFFSET_GLBL2_PF_BARLITE_EXT else EQDMA_OFFSET_VF_USER_BAR in
  match user_bar with
  | None => mret (neg QDMA_ERR_INV_PARAM, None)
  | Some _ =>
      user_bar_id ← read32_data reg_addr;
      user_bar_id ← shift_right user_bar_id (6 * func_id);
      let '(rv, bar) := user_bar_of (Z.land user_bar_id 0x3F) in
      mret (rv, Some bar)
  end.

(** *** The state at the start *)

Definition eqdma_set_default_global_csr : M S Z :=
  dev_cap ← eqdma_caps;
  qdma_write_csr_values EQDMA_GLBL_RNG_SZ_1_ADDR 0 16 default_rng_sz;;
  (if completions dev_cap then
     qdma_write_csr_values EQDMA_C2H_CNT_TH_ADDR 0 16 default_cnt_th;;
     qdma_write_csr_values EQDMA_C2H_TIMER_CNT_ADDR 0 16 default_tmr_cnt;;
     write32_data EQDMA_GLBL_DSC_CFG_ADDR
       (FIELD_SET GLBL_DSC_CFG_MAXFETCH_MASK DEFAULT_MAX_DSC_FETCH .|
        FIELD_SET GLBL_DSC_CFG_WB_ACC_INT_MASK DEFAULT_WRB_INT)
   else mret tt);;
  (if streams dev_cap then
     qdma_write_csr_values EQDMA_C2H_BUF_SZ_ADDR 0 16 default_buf_sz;;
     cfg_val ← read32_data EQDMA_C2H_PFCH_CACHE_DEPTH_ADDR;
     write32_data EQDMA_C2H_PFCH_CFG_ADDR (FIELD_SET C2H_PFCH_CFG_FL_TH_MASK DEFAULT_PFCH_STOP_THRESH);;
     write32_data EQDMA_C2H_PFCH_CFG_1_ADDR
       (FIELD_SET C2H_PFCH_CFG_1_QCNT_MASK (Z.shiftr cfg_val 1) .|
        FIELD_SET C2H_PFCH_CFG_1_EVT_QCNT_TH_MASK (u32 (Z.shiftr cfg_val 1 - 2)));;
     write32_data EQDMA_C2H_PFCH_CFG_2_ADDR
       (FIELD_SET C2H_PFCH_CFG_2_NUM_MASK DEFAULT_PFCH_NUM_ENTRIES_PER_Q);;
     write32_data EQDMA_C2H_INT_TIMER_TICK_ADDR DEFAULT_C2H_INTR_TIMER_TICK;;
     cfg_val ← read32_data EQDMA_C2H_WRB_COAL_BUF_DEPTH_ADDR;
     write32_data EQDMA_C2H_WRB_COAL_CFG_ADDR
       (FIELD_SET C2H_WRB_COAL_CFG_TICK_CNT_MASK DEFAULT_CMPT_COAL_TIMER_CNT .|
        FIELD_SET C2H_WRB_COAL_CFG_TICK_VAL_MASK DEFAULT_CMPT_COAL_TIMER_TICK .|
        FIELD_SET C2H_WRB_COAL_CFG_MAX_BUF_SZ_MASK cfg_val);;
     write32_data EQDMA_H2C_REQ_THROT_PCIE_ADDR
       (FIELD_SET H2C_REQ_THROT_PCIE_DATA_THRESH_MASK EQDMA_H2C_THROT_DATA_THRESH .|
        FIELD_SET H2C_REQ_THROT_PCIE_EN_DATA_MASK EQDMA_THROT_EN_DATA .|
        FIELD_SET H2C_REQ_THROT_PCIE_MASK EQDMA_H2C_THROT_REQ_THRESH .|
        FIELD_SET H2C_REQ_THROT_PCIE_EN_REQ_MASK EQDMA_THROT_EN_REQ)
   else mret tt);;
  mret 0.

Definition eqdma_init_ctxt_memory : M S Z :=
  init_ctxt_memory eqdma_caps indirect_reg_clear (indirect_reg_clear QDMA_CTXT_SEL_FMAP).

End library.
