(* ===== verification/SoftCsr.v ===== *)
(** * SoftCsr: registers of the soft QDMA ([qdma_soft_access.c])

    The capabilities, the tables, the write-back interval, the channels, the user bar, the legacy
    interrupt, the doorbells and the clearing of the context memory. *)

From S2P Require Import Prelude QdmaErrors Mmio CLayout Contexts Fields Indirect Access SoftCtxt Csr.
Local Open Scope Z_scope.
Local Open Scope reconic_scope.

(** ** Addresses and masks *)

Definition QDMA_OFFSET_GLBL2_PF_BARLITE_INT : Z := 0x104.
Definition QDMA_OFFSET_GLBL2_CHANNEL_QDMA_CAP : Z := 0x120.
Definition QDMA_OFFSET_GLBL2_MISC_CAP : Z := 0x134.
Definition QDMA_OFFSET_GLBL2_CHANNEL_MDMA : Z := 0x118.
Definition QDMA_GLBL2_PF0_BAR_MAP_MASK : Z := GENMASK 5 0.
Definition QDMA_GLBL2_PF1_BAR_MAP_MASK : Z := GENMASK 11 6.
Definition QDMA_GLBL2_PF2_BAR_MAP_MASK : Z := GENMASK 17 12.
Definition QDMA_GLBL2_PF3_BAR_MAP_MASK : Z := GENMASK 23 18.
Definition QDMA_GLBL2_MULTQ_MAX_MASK : Z := GENMASK 11 0.
Definition QDMA_GLBL2_MAILBOX_EN_MASK : Z := BIT 0.
Definition QDMA_GLBL2_FLR_PRESENT_MASK : Z := BIT 1.
Definition QDMA_GLBL2_MM_CMPT_EN_MASK : Z := BIT 2.
Definition QDMA_GLBL2_MM_C2H_MASK : Z := BIT 8.
Definition QDMA_GLBL2_MM_H2C_MASK : Z := BIT 0.
Definition QDMA_GLBL2_ST_C2H_MASK : Z := BIT 17.
Definition QDMA_GLBL2_ST_H2C_MASK : Z := BIT 16.
Definition QDMA_OFFSET_GLBL_RNG_SZ : Z := 0x204.
Definition QDMA_OFFSET_C2H_TIMER_CNT : Z := 0xA00.
Definition QDMA_OFFSET_C2H_CNT_TH : Z := 0xA40.
Definition QDMA_OFFSET_C2H_BUF_SZ : Z := 0xAB0.
Definition QDMA_OFFSET_GLBL_DSC_CFG : Z := 0x250.
Definition QDMA_GLBL_DSC_CFG_WB_ACC_INT_MASK : Z := GENMASK 2 0.
Definition QDMA_OFFSET_C2H_MM_CONTROL : Z := 0x1004.
Definition QDMA_OFFSET_H2C_MM_CONTROL : Z := 0x1204.
Definition QDMA_OFFSET_GLBL2_PF_BARLITE_EXT : Z := 0x10C.
Definition QDMA_OFFSET_VF_USER_BAR_ID : Z := 0x1018.
Definition QDMA_DMA_SEL_DESC_PIDX_MASK : Z := GENMASK 15 0.
Definition QDMA_DMA_SEL_IRQ_EN_MASK : Z := BIT 16.
Definition QDMA_OFFSET_DMAP_SEL_H2C_DSC_PIDX : Z := 0x18004.
Definition QDMA_OFFSET_DMAP_SEL_C2H_DSC_PIDX : Z := 0x18008.
Definition QDMA_OFFSET_VF_DMAP_SEL_H2C_DSC_PIDX : Z := 0x3004.
Definition QDMA_OFFSET_VF_DMAP_SEL_C2H_DSC_PIDX : Z := 0x3008.
Definition QDMA_DMAP_SEL_CMPT_WRB_CIDX_MASK : Z := GENMASK 15 0.
Definition QDMA_DMAP_SEL_CMPT_CNT_THRESH_MASK : Z := GENMASK 19 16.
Definition QDMA_DMAP_SEL_CMPT_TMR_CNT_MASK : Z := GENMASK 23 20.
Definition QDMA_DMAP_SEL_CMPT_TRG_MODE_MASK : Z := GENMASK 26 24.
Definition QDMA_DMAP_SEL_CMPT_STS_DESC_EN_MASK : Z := BIT 27.
Definition QDMA_DMAP_SEL_CMPT_IRQ_EN_MASK : Z := BIT 28.
Definition QDMA_OFFSET_DMAP_SEL_CMPT_CIDX : Z := 0x1800C.
Definition QDMA_OFFSET_VF_DMAP_SEL_CMPT_CIDX : Z := 0x300C.
Definition QDMA_DMA_SEL_INT_SW_CIDX_MASK : Z := GENMASK 15 0.
Definition QDMA_DMA_SEL_INT_RING_IDX_MASK : Z := GENMASK 23 16.
Definition QDMA_OFFSET_DMAP_SEL_INT_CIDX : Z := 0x18000.
Definition QDMA_OFFSET_VF_DMAP_SEL_INT_CIDX : Z := 0x3000.
Definition QDMA_OFFSET_GLBL_INTERRUPT_CFG : Z := 0x2C4.
Definition QDMA_GLBL_INTR_LGCY_INTR_PEND_MASK : Z := BIT 1.
Definition QDMA_GLBL_INTR_CFG_EN_LGCY_INTR_MASK : Z := BIT 0.
Definition QDMA_GLBL_DSC_CFG_MAX_DSC_FETCH_MASK : Z := GENMASK 5 3.
Definition QDMA_OFFSET_C2H_PFETCH_CACHE_DEPTH : Z := 0xBE0.
Definition QDMA_OFFSET_C2H_PFETCH_CFG : Z := 0xB08.
Definition QDMA_C2H_PFCH_FL_TH_MASK : Z := GENMASK 8 0.
Definition QDMA_C2H_NUM_PFCH_MASK : Z := GENMASK 17 9.
Definition QDMA_C2H_PFCH_QCNT_MASK : Z := GENMASK 24 18.
Definition QDMA_C2H_EVT_QCNT_TH_MASK : Z := GENMASK 31 25.
Definition QDMA_OFFSET_C2H_INT_TIMER_TICK : Z := 0xB0C.
Definition QDMA_OFFSET_C2H_CMPT_COAL_BUF_DEPTH : Z := 0xBE4.
Definition QDMA_OFFSET_C2H_WRB_COAL_CFG : Z := 0xB50.
Definition QDMA_C2H_TICK_CNT_MASK : Z := GENMASK 13 2.
Definition QDMA_C2H_TICK_VAL_MASK : Z := GENMASK 25 14.
Definition QDMA_C2H_MAX_BUF_SZ_MASK : Z := GENMASK 31 26.
Definition QDMA_OFFSET_H2C_REQ_THROT : Z := 0xE24.
Definition QDMA_H2C_DATA_THRESH_MASK : Z := GENMASK 15 0.
Definition QDMA_H2C_THROT_DATA_THRESH : Z := 0x4000.
Definition QDMA_H2C_REQ_THROT_EN_DATA_MASK : Z := BIT 16.
Definition QDMA_THROT_EN_DATA : Z := 1.
Definition QDMA_H2C_REQ_THRESH_MASK : Z := GENMASK 25 17.
Definition QDMA_H2C_THROT_REQ_THRESH : Z := 0x60.
Definition QDMA_H2C_REQ_THROT_EN_REQ_MASK : Z := BIT 31.
Definition QDMA_THROT_EN_REQ : Z := 0.

(** ** The functions *)

Section library.
Context {S : Type} `{HasTrace S} `{MmioDevice}.
Local Existing Instance qdma_regs.

(** *** Capabilities *)

Definition qdma_get_device_attributes (dev_info : option Z) : M S (Z * option Z) :=
  match dev_info with
  | None => mret (neg QDMA_ERR_INV_PARAM, None)
  | Some dev_info =>
      bars ← read32_data QDMA_OFFSET_GLBL2_PF_BARLITE_INT;
      cap ← read32_data QDMA_OFFSET_GLBL2_CHANNEL_QDMA_CAP;
      misc ← read32_data QDMA_OFFSET_GLBL2_MISC_CAP;
      mdma ← read32_data QDMA_OFFSET_GLBL2_CHANNEL_MDMA;
      mret (0, Some (assign
        [(dev_attributes.num_pfs, count_pfs [QDMA_GLBL2_PF0_BAR_MAP_MASK; QDMA_GLBL2_PF1_BAR_MAP_MASK;
                                             QDMA_GLBL2_PF2_BAR_MAP_MASK; QDMA_GLBL2_PF3_BAR_MAP_MASK] bars);
         (dev_attributes.num_qs, FIELD_GET QDMA_GLBL2_MULTQ_MAX_MASK cap);
         (dev_attributes.mailbox_en, FIELD_GET QDMA_GLBL2_MAILBOX_EN_MASK misc);
         (dev_attributes.flr_present, FIELD_GET QDMA_GLBL2_FLR_PRESENT_MASK misc);
         (dev_attributes.mm_cmpt_en, FIELD_GET QDMA_GLBL2_MM_CMPT_EN_MASK misc);
         (dev_attributes.mm_en, both QDMA_GLBL2_MM_C2H_MASK QDMA_GLBL2_MM_H2C_MASK mdma);
         (dev_attributes.st_en, both QDMA_GLBL2_ST_C2H_MASK QDMA_GLBL2_ST_H2C_MASK mdma);
         (dev_attributes.mm_channel_max, 1);
         (dev_attributes.debug_mode, 0);
         (dev_attributes.desc_eng_mode, 0);
         (dev_attributes.qid2vec_ctx, 0);
         (dev_attributes.cmpt_ovf_chk_dis, 1);
         (dev_attributes.mailbox_intr, 1);
         (dev_attributes.sw_desc_64b, 1);
         (dev_attributes.cmpt_desc_64b, 1);
         (dev_attributes.dynamic_bar, 1);
         (dev_attributes.legacy_intr, 1);
         (dev_attributes.cmpt_trig_count_timer, 1)] dev_info))
  end.

Definition qdma_caps : M S Z := dev_caps qdma_get_device_attributes.

(** *** Tables *)

Definition qdma_write_global_ring_sizes (index count : Z) (values : option (list Z))
    : M S Z :=
  csr_write QDMA_NUM_RING_SIZES QDMA_OFFSET_GLBL_RNG_SZ (mret 0) (fun _ => true) index count values.

Definition qdma_read_global_ring_sizes (index count : Z) (values : option (list Z))
    : M S (Z * option (list Z)) :=
  csr_read QDMA_NUM_RING_SIZES QDMA_OFFSET_GLBL_RNG_SZ (mret 0) (fun _ => true) index count values.

Definition qdma_write_global_timer_count (index count : Z) (values : option (list Z))
    : M S Z :=
  csr_write QDMA_NUM_C2H_TIMERS QDMA_OFFSET_C2H_TIMER_CNT qdma_caps completions index count values.

Definition qdma_read_global_timer_count (index count : Z) (values : option (list Z))
    : M S (Z * option (list Z)) :=
  csr_read QDMA_NUM_C2H_TIMERS QDMA_OFFSET_C2H_TIMER_CNT qdma_caps completions index count values.

Definition qdma_write_global_counter_threshold (index count : Z) (values : option (list Z))
    : M S Z :=
  csr_write QDMA_NUM_C2H_COUNTERS QDMA_OFFSET_C2H_CNT_TH qdma_caps completions index count values.

Definition qdma_read_global_counter_threshold (index count : Z) (values : option (list Z))
    : M S (Z * option (list Z)) :=
  csr_read QDMA_NUM_C2H_COUNTERS QDMA_OFFSET_C2H_CNT_TH qdma_caps completions index count values.

Definition qdma_write_global_buffer_sizes (index count : Z) (values : option (list Z))
    : M S Z :=
  csr_write QDMA_NUM_C2H_BUFFER_SIZES QDMA_OFFSET_C2H_BUF_SZ qdma_caps streams index count values.

Definition qdma_read_global_buffer_sizes (index count : Z) (values : option (list Z))
    : M S (Z * option (list Z)) :=
  csr_read QDMA_NUM_C2H_BUFFER_SIZES QDMA_OFFSET_C2H_BUF_SZ qdma_caps streams index count values.

Definition qdma_global_csr_conf (index count : Z) (csr_val : option (list Z))
    (csr_type : qdma_global_csr_type) (access_type : qdma_hw_access_type) : M S (Z * option (list Z)) :=
  match csr_type with
  | QDMA_CSR_RING_SZ =>
      csr_access access_type csr_val (qdma_read_global_ring_sizes index count) (qdma_write_global_ring_sizes index count)
  | QDMA_CSR_TIMER_CNT =>
      csr_access access_type csr_val (qdma_read_global_timer_count index count) (qdma_write_global_timer_count index count)
  | QDMA_CSR_CNT_TH =>
      csr_access access_type csr_val (qdma_read_global_counter_threshold index count) (qdma_write_global_counter_threshold index count)
  | QDMA_CSR_BUF_SZ =>
      csr_access access_type csr_val (qdma_read_global_buffer_sizes index count) (qdma_write_global_buffer_sizes index count)
  end.

(** *** The write-back interval *)

Definition qdma_global_writeback_interval_write (wb_int : Z) : M S Z :=
  interval_write QDMA_OFFSET_GLBL_DSC_CFG QDMA_GLBL_DSC_CFG_WB_ACC_INT_MASK qdma_caps wb_int.

Definition qdma_global_writeback_interval_read (wb_int : option Z) : M S (Z * option Z) :=
  interval_read QDMA_OFFSET_GLBL_DSC_CFG QDMA_GLBL_DSC_CFG_WB_ACC_INT_MASK qdma_caps wb_int.

Definition qdma_global_writeback_interval_conf (wb_int : option Z) (access_type : qdma_hw_access_type)
    : M S (Z * option Z) :=
  interval_conf qdma_global_writeback_interval_read qdma_global_writeback_interval_write wb_int access_type.

(** *** Channels and bars *)

Definition qdma_mm_channel_conf (channel is_c2h enable : Z) : M S Z :=
  channel_conf QDMA_OFFSET_C2H_MM_CONTROL QDMA_OFFSET_H2C_MM_CONTROL qdma_caps channel is_c2h enable.

Definition qdma_get_user_bar (is_vf func_id : Z) (user_bar : option Z) : M S (Z * option Z) :=
  let reg_addr := if is_vf =? 0 then QDMA_OFFSET_GLBL2_PF_BARLITE_EXT else QDMA_OFFSET_VF_USER_BAR_ID in
  match user_bar with
  | None => mret (neg QDMA_ERR_INV_PARAM, None)
  | Some _ =>
      user_bar_id ← read32_data reg_addr;
      user_bar_id ← (if is_vf =? 0 then shift_right user_bar_id (6 * func_id) else mret user_bar_id);
      let '(rv, bar) := user_bar_of (Z.land user_bar_id 0x3F) in
      mret (rv, Some bar)
  end.

(** *** Doorbells *)

Definition qdma_pidx_word (reg_info : Z) : Z :=
  FIELD_SET QDMA_DMA_SEL_DESC_PIDX_MASK (fld pidx_info.pidx reg_info) .|
  FIELD_SET QDMA_DMA_SEL_IRQ_EN_MASK (fld pidx_info.irq_en reg_info).

Definition qdma_queue_pidx_update (is_vf qid is_c2h : Z) (reg_info : option Z) : M S Z :=
  match reg_info with
  | None => mret (neg QDMA_ERR_INV_PARAM)
  | Some r =>
      let reg_addr :=
        if is_vf =? 0 then
          if is_c2h =? 0 then QDMA_OFFSET_DMAP_SEL_H2C_DSC_PIDX else QDMA_OFFSET_DMAP_SEL_C2H_DSC_PIDX
        else
          if is_c2h =? 0 then QDMA_OFFSET_VF_DMAP_SEL_H2C_DSC_PIDX
          else QDMA_OFFSET_VF_DMAP_SEL_C2H_DSC_PIDX in
      doorbell reg_addr QDMA_PIDX_STEP qid (qdma_pidx_word r);;
      mret 0
  end.

Definition qdma_cmpt_cidx_word (reg_info : Z) : Z :=
  FIELD_SET QDMA_DMAP_SEL_CMPT_WRB_CIDX_MASK (fld cmpt_cidx_info.wrb_cidx reg_info) .|
  FIELD_SET QDMA_DMAP_SEL_CMPT_CNT_THRESH_MASK (fld cmpt_cidx_info.counter_idx reg_info) .|
  FIELD_SET QDMA_DMAP_SEL_CMPT_TMR_CNT_MASK (fld cmpt_cidx_info.timer_idx reg_info) .|
  FIELD_SET QDMA_DMAP_SEL_CMPT_TRG_MODE_MASK (fld cmpt_cidx_info.trig_mode reg_info) .|
  FIELD_SET QDMA_DMAP_SEL_CMPT_STS_DESC_EN_MASK (fld cmpt_cidx_info.wrb_en reg_info) .|
  FIELD_SET QDMA_DMAP_SEL_CMPT_IRQ_EN_MASK (fld cmpt_cidx_info.irq_en reg_info).

Definition qdma_queue_cmpt_cidx_update (is_vf qid : Z) (reg_info : option Z) : M S Z :=
  let reg_addr := if is_vf =? 0 then QDMA_OFFSET_DMAP_SEL_CMPT_CIDX else QDMA_OFFSET_VF_DMAP_SEL_CMPT_CIDX in
  match reg_info with
  | None => mret (neg QDMA_ERR_INV_PARAM)
  | Some r => doorbell reg_addr QDMA_CMPT_CIDX_STEP qid (qdma_cmpt_cidx_word r);; mret 0
  end.

Definition qdma_intr_cidx_word (reg_info : Z) : Z :=
  FIELD_SET QDMA_DMA_SEL_INT_SW_CIDX_MASK (fld intr_cidx_info.sw_cidx reg_info) .|
  FIELD_SET QDMA_DMA_SEL_INT_RING_IDX_MASK (fld intr_cidx_info.rng_idx reg_info).

Definition qdma_queue_intr_cidx_update (is_vf qid : Z) (reg_info : option Z) : M S Z :=
  let reg_addr := if is_vf =? 0 then QDMA_OFFSET_DMAP_SEL_INT_CIDX else QDMA_OFFSET_VF_DMAP_SEL_INT_CIDX in
  match reg_info with
  | None => mret (neg QDMA_ERR_INV_PARAM)
  | Some r => doorbell reg_addr QDMA_INT_CIDX_STEP qid (qdma_intr_cidx_word r);; mret 0
  end.

(** *** The legacy interrupt *)

Definition qdma_is_legacy_intr_pend : M S Z :=
  reg_val ← read32_data QDMA_OFFSET_GLBL_INTERRUPT_CFG;
  mret (if FIELD_GET QDMA_GLBL_INTR_LGCY_INTR_PEND_MASK reg_val =? 0
        then neg QDMA_ERR_HWACC_NO_PEND_LEGCY_INTR else 0).

Definition qdma_clear_pend_legacy_intr : M S Z :=
  reg_val ← read32_data QDMA_OFFSET_GLBL_INTERRUPT_CFG;
  write32_data QDMA_OFFSET_GLBL_INTERRUPT_CFG
    (reg_val .| FIELD_SET QDMA_GLBL_INTR_LGCY_INTR_PEND_MASK 1);;
  mret 0.

Definition qdma_legacy_intr_conf (enable : Z) : M S Z :=
  reg_val ← read32_data QDMA_OFFSET_GLBL_INTERRUPT_CFG;
  write32_data QDMA_OFFSET_GLBL_INTERRUPT_CFG
    (reg_val .| FIELD_SET QDMA_GLBL_INTR_CFG_EN_LGCY_INTR_MASK enable);;
  mret 0.

(** *** The state at the start *)

Definition qdma_set_default_global_csr : M S Z :=
  dev_cap ← qdma_caps;
  qdma_write_csr_values QDMA_OFFSET_GLBL_RNG_SZ 0 16 default_rng_sz;;
  (if completions dev_cap then
     qdma_write_csr_values QDMA_OFFSET_C2H_CNT_TH 0 16 default_cnt_th;;
     qdma_write_csr_values QDMA_OFFSET_C2H_TIMER_CNT 0 16 default_tmr_cnt;;
     write32_data QDMA_OFFSET_GLBL_DSC_CFG
       (FIELD_SET QDMA_GLBL_DSC_CFG_MAX_DSC_FETCH_MASK DEFAULT_MAX_DSC_FETCH .|
        FIELD_SET QDMA_GLBL_DSC_CFG_WB_ACC_INT_MASK DEFAULT_WRB_INT)
   else mret tt);;
  (if streams dev_cap then
     qdma_write_csr_values QDMA_OFFSET_C2H_BUF_SZ 0 16 default_buf_sz;;
     cfg_val ← read32_data QDMA_OFFSET_C2H_PFETCH_CACHE_DEPTH;
     write32_data QDMA_OFFSET_C2H_PFETCH_CFG
       (FIELD_SET QDMA_C2H_PFCH_FL_TH_MASK DEFAULT_PFCH_STOP_THRESH .|
        FIELD_SET QDMA_C2H_NUM_PFCH_MASK DEFAULT_PFCH_NUM_ENTRIES_PER_Q .|
        FIELD_SET QDMA_C2H_PFCH_QCNT_MASK (Z.shiftr cfg_val 1) .|
        FIELD_SET QDMA_C2H_EVT_QCNT_TH_MASK (u32 (Z.shiftr cfg_val 1 - 2)));;
     write32_data QDMA_OFFSET_C2H_INT_TIMER_TICK DEFAULT_C2H_INTR_TIMER_TICK;;
     cfg_val ← read32_data QDMA_OFFSET_C2H_CMPT_COAL_BUF_DEPTH;
     write32_data QDMA_OFFSET_C2H_WRB_COAL_CFG
       (FIELD_SET QDMA_C2H_TICK_CNT_MASK DEFAULT_CMPT_COAL_TIMER_CNT .|
        FIELD_SET QDMA_C2H_TICK_VAL_MASK DEFAULT_CMPT_COAL_TIMER_TICK .|
        FIELD_SET QDMA_C2H_MAX_BUF_SZ_MASK cfg_val);;
     write32_data QDMA_OFFSET_H2C_REQ_THROT
       (FIELD_SET QDMA_H2C_DATA_THRESH_MASK QDMA_H2C_THROT_DATA_THRESH .|
        FIELD_SET QDMA_H2C_REQ_THROT_EN_DATA_MASK QDMA_THROT_EN_DATA .|
        FIELD_SET QDMA_H2C_REQ_THRESH_MASK QDMA_H2C_THROT_REQ_THRESH .|
        FIELD_SET QDMA_H2C_REQ_THROT_EN_REQ_MASK QDMA_THROT_EN_REQ)
   else mret tt);;
  mret 0.

Definition qdma_init_ctxt_memory : M S Z :=
  init_ctxt_memory qdma_caps indirect_reg_clear (indirect_reg_clear QDMA_CTXT_SEL_FMAP).

End library.
