(* ===== verification/S80Csr.v ===== *)
(** * S80Csr: registers of the hard QDMA of Versal S80 ([qdma_s80_hard_access.c])

    The capabilities, the tables, the write-back interval, the channels, the user bar, the
    doorbells and the clearing of the context memory. *)

From S2P Require Import Prelude QdmaErrors Mmio CLayout Contexts Fields Indirect Access S80Ctxt Csr.
Local Open Scope Z_scope.
Local Open Scope reconic_scope.

(** ** Addresses and masks *)

Definition QDMA_S80_HARD_GLBL2_PF_BARLITE_INT_ADDR : Z := 0x104.
Definition QDMA_S80_HARD_GLBL2_CHANNEL_CAP_ADDR : Z := 0x120.
Definition QDMA_S80_HARD_GLBL2_MISC_CAP_ADDR : Z := 0x134.
Definition QDMA_S80_HARD_GLBL2_CHANNEL_MDMA_ADDR : Z := 0x118.
Definition GLBL2_PF_BARLITE_INT_PF0_BAR_MAP_MASK : Z := GENMASK 5 0.
Definition GLBL2_PF_BARLITE_INT_PF1_BAR_MAP_MASK : Z := GENMASK 11 6.
Definition GLBL2_PF_BARLITE_INT_PF2_BAR_MAP_MASK : Z := GENMASK 17 12.
Definition GLBL2_PF_BARLITE_INT_PF3_BAR_MAP_MASK : Z := GENMASK 23 18.
Definition GLBL2_CHANNEL_CAP_MULTIQ_MAX_MASK : Z := GENMASK 11 0.
Definition QDMA_GLBL2_MAILBOX_EN_MASK : Z := BIT 0.
Definition QDMA_GLBL2_FLR_PRESENT_MASK : Z := BIT 1.
Definition GLBL2_CHANNEL_MDMA_C2H_ENG_MASK : Z := BIT 8.
Definition GLBL2_CHANNEL_MDMA_H2C_ENG_MASK : Z := BIT 0.
Definition GLBL2_CHANNEL_MDMA_C2H_ST_MASK : Z := BIT 17.
Definition GLBL2_CHANNEL_MDMA_H2C_ST_MASK : Z := BIT 16.
Definition QDMA_S80_HARD_GLBL_RNG_SZ_1_ADDR : Z := 0x204.
Definition QDMA_S80_HARD_C2H_TIMER_CNT_1_ADDR : Z := 0xA00.
Definition QDMA_S80_HARD_C2H_CNT_TH_1_ADDR : Z := 0xA40.
Definition QDMA_S80_HARD_C2H_BUF_SZ_0_ADDR : Z := 0xAB0.
Definition QDMA_S80_HARD_GLBL_DSC_CFG_ADDR : Z := 0x250.
Definition GLBL_DSC_CFG_WB_ACC_INT_MASK : Z := GENMASK 2 0.
Definition QDMA_S80_HARD_C2H_CHANNEL_CTL_ADDR : Z := 0x1004.
Definition QDMA_S80_HARD_H2C_CHANNEL_CTL_ADDR : Z := 0x1204.
Definition QDMA_S80_HARD_VF_USER_BAR_ID : Z := 2.
Definition QDMA_S80_HARD_GLBL2_PF_BARLITE_EXT_ADDR : Z := 0x10C.
Definition QDMA_S80_HARD_DMA_SEL_DESC_PIDX_MASK : Z := GENMASK 15 0.
Definition QDMA_S80_HARD_DMA_SEL_IRQ_EN_MASK : Z := BIT 16.
Definition QDMA_S80_HARD_OFFSET_DMAP_SEL_H2C_DSC_PIDX : Z := 0x6404.
Definition QDMA_S80_HARD_OFFSET_DMAP_SEL_C2H_DSC_PIDX : Z := 0x6408.
Definition QDMA_S80_HARD_OFFSET_VF_DMAP_SEL_H2C_DSC_PIDX : Z := 0x3004.
Definition QDMA_S80_HARD_OFFSET_VF_DMAP_SEL_C2H_DSC_PIDX : Z := 0x3008.
Definition QDMA_S80_HARD_DMAP_SEL_CMPT_WRB_CIDX_MASK : Z := GENMASK 15 0.
Definition QDMA_S80_HARD_DMAP_SEL_CMPT_CNT_THRESH_MASK : Z := GENMASK 19 16.
Definition QDMA_S80_HARD_DMAP_SEL_CMPT_TMR_CNT_MASK : Z := GENMASK 23 20.
Definition QDMA_S80_HARD_DMAP_SEL_CMPT_TRG_MODE_MASK : Z := GENMASK 26 24.
Definition QDMA_S80_HARD_DMAP_SEL_CMPT_STS_DESC_EN_MASK : Z := BIT 27.
Definition QDMA_S80_HARD_DMAP_SEL_CMPT_IRQ_EN_MASK : Z := BIT 28.
Definition QDMA_S80_HARD_OFFSET_DMAP_SEL_CMPT_CIDX : Z := 0x640C.
Definition QDMA_S80_HARD_OFFSET_VF_DMAP_SEL_CMPT_CIDX : Z := 0x300C.
Definition QDMA_S80_HARD_DMA_SEL_INT_SW_CIDX_MASK : Z := GENMASK 15 0.
Definition QDMA_S80_HARD_DMA_SEL_INT_RING_IDX_MASK : Z := GENMASK 23 16.
Definition QDMA_S80_HARD_OFFSET_DMAP_SEL_INT_CIDX : Z := 0x6400.
Definition QDMA_S80_HARD_OFFSET_VF_DMAP_SEL_INT_CIDX : Z := 0x3000.
Definition GLBL_DSC_CFG_MAXFETCH_MASK : Z := GENMASK 5 3.
Definition QDMA_S80_HARD_C2H_PFCH_CFG_ADDR : Z := 0xB08.
Definition C2H_PFCH_CFG_FL_TH_MASK : Z := GENMASK 7 0.
Definition C2H_PFCH_CFG_NUM_MASK : Z := GENMASK 15 8.
Definition C2H_PFCH_CFG_QCNT_MASK : Z := GENMASK 24 16.
Definition C2H_PFCH_CFG_EVT_QCNT_TH_MASK : Z := GENMASK 31 25.
Definition QDMA_S80_HARD_C2H_INT_TIMER_TICK_ADDR : Z := 0xB0C.
Definition QDMA_S80_HARD_C2H_WRB_COAL_CFG_ADDR : Z := 0xB50.
Definition C2H_WRB_COAL_CFG_TICK_CNT_MASK : Z := GENMASK 13 2.
Definition C2H_WRB_COAL_CFG_TICK_VAL_MASK : Z := GENMASK 25 14.
Definition C2H_WRB_COAL_CFG_MAX_BUF_SZ_MASK : Z := GENMASK 31 26.

(** ** The functions *)

Section library.
Context {S : Type} `{HasTrace S} `{MmioDevice}.
Local Existing Instance qdma_s80_hard_regs.

(** *** Capabilities *)

Definition qdma_s80_hard_get_device_attributes (dev_info : option Z) : M S (Z * option Z) :=
  match dev_info with
  | None => mret (neg QDMA_ERR_INV_PARAM, None)
  | Some dev_info =>
      bars ← read32_data QDMA_S80_HARD_GLBL2_PF_BARLITE_INT_ADDR;
      cap ← read32_data QDMA_S80_HARD_GLBL2_CHANNEL_CAP_ADDR;
      misc ← read32_data QDMA_S80_HARD_GLBL2_MISC_CAP_ADDR;
      mdma ← read32_data QDMA_S80_HARD_GLBL2_CHANNEL_MDMA_ADDR;
      mret (0, Some (assign
        [(dev_attributes.num_pfs,
            count_pfs [GLBL2_PF_BARLITE_INT_PF0_BAR_MAP_MASK; GLBL2_PF_BARLITE_INT_PF1_BAR_MAP_MASK;
                       GLBL2_PF_BARLITE_INT_PF2_BAR_MAP_MASK; GLBL2_PF_BARLITE_INT_PF3_BAR_MAP_MASK] bars);
         (dev_attributes.num_qs, FIELD_GET GLBL2_CHANNEL_CAP_MULTIQ_MAX_MASK cap);
         (dev_attributes.mailbox_en, FIELD_GET QDMA_GLBL2_MAILBOX_EN_MASK misc);
         (dev_attributes.flr_present, FIELD_GET QDMA_GLBL2_FLR_PRESENT_MASK misc);
         (dev_attributes.mm_cmpt_en, 0);
         (dev_attributes.mm_en, both GLBL2_CHANNEL_MDMA_C2H_ENG_MASK GLBL2_CHANNEL_MDMA_H2C_ENG_MASK mdma);
         (dev_attributes.st_en, both GLBL2_CHANNEL_MDMA_C2H_ST_MASK GLBL2_CHANNEL_MDMA_H2C_ST_MASK mdma);
         (dev_attributes.mm_channel_max, 2);
         (dev_attributes.debug_mode, 0);
         (dev_attributes.desc_eng_mode, 0);
         (dev_attributes.qid2vec_ctx, 1);
         (dev_attributes.cmpt_ovf_chk_dis, 0);
         (dev_attributes.mailbox_intr, 0);
         (dev_attributes.sw_desc_64b, 0);
         (dev_attributes.cmpt_desc_64b, 0);
         (dev_attributes.dynamic_bar, 0);
         (dev_attributes.legacy_intr, 0);
         (dev_attributes.cmpt_trig_count_timer, 0)] dev_info))
  end.

Definition qdma_s80_hard_caps : M S Z := dev_caps qdma_s80_hard_get_device_attributes.

(** *** Tables *)

Definition qdma_s80_hard_write_global_ring_sizes (index count : Z) (values : option (list Z))
    : M S Z :=
  csr_write QDMA_NUM_RING_SIZES QDMA_S80_HARD_GLBL_RNG_SZ_1_ADDR (mret 0) (fun _ => true) index count values.

Definition qdma_s80_hard_read_global_ring_sizes (index count : Z) (values : option (list Z))
    : M S (Z * option (list Z)) :=
  csr_read QDMA_NUM_RING_SIZES QDMA_S80_HARD_GLBL_RNG_SZ_1_ADDR (mret 0) (fun _ => true) index count values.

Definition qdma_s80_hard_write_global_timer_count (index count : Z) (values : option (list Z))
    : M S Z :=
  csr_write QDMA_NUM_C2H_TIMERS QDMA_S80_HARD_C2H_TIMER_CNT_1_ADDR qdma_s80_hard_caps completions index count values.

Definition qdma_s80_hard_read_global_timer_count (index count : Z) (values : option (list Z))
    : M S (Z * option (list Z)) :=
  csr_read QDMA_NUM_C2H_TIMERS QDMA_S80_HARD_C2H_TIMER_CNT_1_ADDR qdma_s80_hard_caps completions index count values.

Definition qdma_s80_hard_write_global_counter_threshold (index count : Z) (values : option (list Z))
    : M S Z :=
  csr_write QDMA_NUM_C2H_COUNTERS QDMA_S80_HARD_C2H_CNT_TH_1_ADDR qdma_s80_hard_caps completions index count values.

Definition qdma_s80_hard_read_global_counter_threshold (index count : Z) (values : option (list Z))
    : M S (Z * option (list Z)) :=
  csr_read QDMA_NUM_C2H_COUNTERS QDMA_S80_HARD_C2H_CNT_TH_1_ADDR qdma_s80_hard_caps completions index count values.

Definition qdma_s80_hard_write_global_buffer_sizes (index count : Z) (values : option (list Z))
    : M S Z :=
  csr_write QDMA_NUM_C2H_BUFFER_SIZES QDMA_S80_HARD_C2H_BUF_SZ_0_ADDR qdma_s80_hard_caps streams index count values.

Definition qdma_s80_hard_read_global_buffer_sizes (index count : Z) (values : option (list Z))
    : M S (Z * option (list Z)) :=
  csr_read QDMA_NUM_C2H_BUFFER_SIZES QDMA_S80_HARD_C2H_BUF_SZ_0_ADDR qdma_s80_hard_caps streams index count values.

Definition qdma_s80_hard_global_csr_conf (index count : Z) (csr_val : option (list Z))
    (csr_type : qdma_global_csr_type) (access_type : qdma_hw_access_type) : M S (Z * option (list Z)) :=
  match csr_type with
  | QDMA_CSR_RING_SZ =>
      csr_access access_type csr_val (qdma_s80_hard_read_global_ring_sizes index count) (qdma_s80_hard_write_global_ring_sizes index count)
  | QDMA_CSR_TIMER_CNT =>
      csr_access access_type csr_val (qdma_s80_hard_read_global_timer_count index count) (qdma_s80_hard_write_global_timer_count index count)
  | QDMA_CSR_CNT_TH =>
      csr_access access_type csr_val (qdma_s80_hard_read_global_counter_threshold index count) (qdma_s80_hard_write_global_counter_threshold index count)
  | QDMA_CSR_BUF_SZ =>
      csr_access access_type csr_val (qdma_s80_hard_read_global_buffer_sizes index count) (qdma_s80_hard_write_global_buffer_sizes index count)
  end.

(** *** The write-back interval *)

Definition qdma_s80_hard_global_writeback_interval_write (wb_int : Z) : M S Z :=
  interval_write QDMA_S80_HARD_GLBL_DSC_CFG_ADDR GLBL_DSC_CFG_WB_ACC_INT_MASK qdma_s80_hard_caps wb_int.

Definition qdma_s80_hard_global_writeback_interval_read (wb_int : option Z) : M S (Z * option Z) :=
  interval_read QDMA_S80_HARD_GLBL_DSC_CFG_ADDR GLBL_DSC_CFG_WB_ACC_INT_MASK qdma_s80_hard_caps wb_int.

Definition qdma_s80_hard_global_writeback_interval_conf (wb_int : option Z) (access_type : qdma_hw_access_type)
    : M S (Z * option Z) :=
  interval_conf qdma_s80_hard_global_writeback_interval_read qdma_s80_hard_global_writeback_interval_write wb_int access_type.

(** *** Channels and bars *)

Definition qdma_s80_hard_mm_channel_conf (channel is_c2h enable : Z) : M S Z :=
  channel_conf QDMA_S80_HARD_C2H_CHANNEL_CTL_ADDR QDMA_S80_HARD_H2C_CHANNEL_CTL_ADDR qdma_s80_hard_caps channel is_c2h enable.

(** The bar of a virtual function is fixed. *)
Definition qdma_cmp_get_user_bar (is_vf func_id : Z) (user_bar : option Z) : M S (Z * option Z) :=
  match user_bar with
  | None => mret (neg QDMA_ERR_INV_PARAM, None)
  | Some _ =>
      if negb (is_vf =? 0) then mret (0, Some QDMA_S80_HARD_VF_USER_BAR_ID)
      else
        user_bar_id ← read32_data QDMA_S80_HARD_GLBL2_PF_BARLITE_EXT_ADDR;
        user_bar_id ← shift_right user_bar_id (6 * func_id);
        let '(rv, bar) := user_bar_of (Z.land user_bar_id 0x3F) in
        mret (rv, Some bar)
  end.

(** *** Doorbells *)

Definition qdma_s80_hard_pidx_word (reg_info : Z) : Z :=
  FIELD_SET QDMA_S80_HARD_DMA_SEL_DESC_PIDX_MASK (fld pidx_info.pidx reg_info) .|
  FIELD_SET QDMA_S80_HARD_DMA_SEL_IRQ_EN_MASK (fld pidx_info.irq_en reg_info).

Definition qdma_s80_hard_queue_pidx_update (is_vf qid is_c2h : Z) (reg_info : option Z) : M S Z :=
  match reg_info with
  | None => mret (neg QDMA_ERR_INV_PARAM)
  | Some r =>
      let reg_addr :=
        if is_vf =? 0 then
          if is_c2h =? 0 then QDMA_S80_HARD_OFFSET_DMAP_SEL_H2C_DSC_PIDX
          else QDMA_S80_HARD_OFFSET_DMAP_SEL_C2H_DSC_PIDX
        else
          if is_c2h =? 0 then QDMA_S80_HARD_OFFSET_VF_DMAP_SEL_H2C_DSC_PIDX
          else QDMA_S80_HARD_OFFSET_VF_DMAP_SEL_C2H_DSC_PIDX in
      doorbell reg_addr QDMA_PIDX_STEP qid (qdma_s80_hard_pidx_word r);;
      mret 0
  end.

Definition qdma_s80_hard_cmpt_cidx_word (reg_info : Z) : Z :=
  FIELD_SET QDMA_S80_HARD_DMAP_SEL_CMPT_WRB_CIDX_MASK (fld cmpt_cidx_info.wrb_cidx reg_info) .|
  FIELD_SET QDMA_S80_HARD_DMAP_SEL_CMPT_CNT_THRESH_MASK (fld cmpt_cidx_info.counter_idx reg_info) .|
  FIELD_SET QDMA_S80_HARD_DMAP_SEL_CMPT_TMR_CNT_MASK (fld cmpt_cidx_info.timer_idx reg_info) .|
  FIELD_SET QDMA_S80_HARD_DMAP_SEL_CMPT_TRG_MODE_MASK (fld cmpt_cidx_info.trig_mode reg_info) .|
  FIELD_SET QDMA_S80_HARD_DMAP_SEL_CMPT_STS_DESC_EN_MASK (fld cmpt_cidx_info.wrb_en reg_info) .|
  FIELD_SET QDMA_S80_HARD_DMAP_SEL_CMPT_IRQ_EN_MASK (fld cmpt_cidx_info.irq_en reg_info).

Definition qdma_s80_hard_queue_cmpt_cidx_update (is_vf qid : Z) (reg_info : option Z) : M S Z :=
  let reg_addr :=
    if is_vf =? 0 then QDMA_S80_HARD_OFFSET_DMAP_SEL_CMPT_CIDX
    else QDMA_S80_HARD_OFFSET_VF_DMAP_SEL_CMPT_CIDX in
  match reg_info with
  | None => mret (neg QDMA_ERR_INV_PARAM)
  | Some r => doorbell reg_addr QDMA_CMPT_CIDX_STEP qid (qdma_s80_hard_cmpt_cidx_word r);; mret 0
  end.

Definition qdma_s80_hard_intr_cidx_word (reg_info : Z) : Z :=
  FIELD_SET QDMA_S80_HARD_DMA_SEL_INT_SW_CIDX_MASK (fld intr_cidx_info.sw_cidx reg_info) .|
  FIELD_SET QDMA_S80_HARD_DMA_SEL_INT_RING_IDX_MASK (fld intr_cidx_info.rng_idx reg_info).

Definition qdma_s80_hard_queue_intr_cidx_update (is_vf qid : Z) (reg_info : option Z) : M S Z :=
  let reg_addr :=
    if is_vf =? 0 then QDMA_S80_HARD_OFFSET_DMAP_SEL_INT_CIDX
    else QDMA_S80_HARD_OFFSET_VF_DMAP_SEL_INT_CIDX in
  match reg_info with
  | None => mret (neg QDMA_ERR_INV_PARAM)
  | Some r => doorbell reg_addr QDMA_INT_CIDX_STEP qid (qdma_s80_hard_intr_cidx_word r);; mret 0
  end.

(** *** The state at the start *)

Definition qdma_s80_hard_set_default_global_csr : M S Z :=
  dev_cap ← qdma_s80_hard_caps;
  qdma_write_csr_values QDMA_S80_HARD_GLBL_RNG_SZ_1_ADDR 0 16 default_rng_sz;;
  (if completions dev_cap then
     qdma_write_csr_values QDMA_S80_HARD_C2H_CNT_TH_1_ADDR 0 16 default_cnt_th;;
     qdma_write_csr_values QDMA_S80_HARD_C2H_TIMER_CNT_1_ADDR 0 16 default_tmr_cnt;;
     write32_data QDMA_S80_HARD_GLBL_DSC_CFG_ADDR
       (FIELD_SET GLBL_DSC_CFG_MAXFETCH_MASK DEFAULT_MAX_DSC_FETCH .|
        FIELD_SET GLBL_DSC_CFG_WB_ACC_INT_MASK DEFAULT_WRB_INT)
   else mret tt);;
  (if streams dev_cap then
     qdma_write_csr_values QDMA_S80_HARD_C2H_BUF_SZ_0_ADDR 0 16 default_buf_sz;;
     write32_data QDMA_S80_HARD_C2H_PFCH_CFG_ADDR
       (FIELD_SET C2H_PFCH_CFG_FL_TH_MASK DEFAULT_PFCH_STOP_THRESH .|
        FIELD_SET C2H_PFCH_CFG_NUM_MASK DEFAULT_PFCH_NUM_ENTRIES_PER_Q .|
        FIELD_SET C2H_PFCH_CFG_QCNT_MASK DEFAULT_PFCH_MAX_Q_CNT .|
        FIELD_SET C2H_PFCH_CFG_EVT_QCNT_TH_MASK DEFAULT_C2H_INTR_TIMER_TICK);;
     write32_data QDMA_S80_HARD_C2H_INT_TIMER_TICK_ADDR DEFAULT_C2H_INTR_TIMER_TICK;;
     write32_data QDMA_S80_HARD_C2H_WRB_COAL_CFG_ADDR
       (FIELD_SET C2H_WRB_COAL_CFG_TICK_CNT_MASK DEFAULT_CMPT_COAL_TIMER_CNT .|
        FIELD_SET C2H_WRB_COAL_CFG_TICK_VAL_MASK DEFAULT_CMPT_COAL_TIMER_TICK .|
        FIELD_SET C2H_WRB_COAL_CFG_MAX_BUF_SZ_MASK DEFAULT_CMPT_COAL_MAX_BUF_SZ)
   else mret tt);;
  mret 0.

Definition qdma_s80_hard_init_ctxt_memory : M S Z :=
  init_ctxt_memory qdma_s80_hard_caps indirect_reg_clear (qdma_s80_hard_fmap_clear).

End library.
