(* ===== verification/CsrProps.v ===== *)
(** * CsrProps: the register functions of the libraries

    What the functions of EqdmaCsr, SoftCsr and S80Csr write, for all three at once:
    the tables are written within their bounds, doorbells do not meet, the context memory is
    cleared; and what setting the write-back interval and the legacy interrupt do not
    do. *)

From stdpp Require Import gmap.
From S2P Require Import Prelude QdmaErrors Mmio CLayout Contexts Fields Indirect IndirectMem Access.
From S2P Require Import EqdmaCtxt SoftCtxt S80Ctxt Csr.
From S2P Require EqdmaCsr SoftCsr S80Csr.
Local Open Scope Z_scope.
Local Open Scope reconic_scope.

Inductive library := EQDMA | QDMA_SOFT | QDMA_S80.

#[export] Instance csr_type_countable : EqDecision library.
Proof. solve_decision. Defined.

Section libraries.
Context {S : Type} `{HasTrace S} `{MmioDevice}.

Definition caps_of (l : library) : M S Z :=
  match l with
  | EQDMA => EqdmaCsr.eqdma_caps | QDMA_SOFT => SoftCsr.qdma_caps | QDMA_S80 => S80Csr.qdma_s80_hard_caps
  end.

Definition csr_conf_of (l : library) :
    Z -> Z -> option (list Z) -> qdma_global_csr_type -> qdma_hw_access_type -> M S (Z * option (list Z)) :=
  match l with
  | EQDMA => EqdmaCsr.eqdma_global_csr_conf | QDMA_SOFT => SoftCsr.qdma_global_csr_conf
  | QDMA_S80 => S80Csr.qdma_s80_hard_global_csr_conf
  end.

(** The first register of a table, the same in all libraries, and what it takes to
    have it. *)
Definition table (ty : qdma_global_csr_type) : Z :=
  match ty with
  | QDMA_CSR_RING_SZ => 0x204 | QDMA_CSR_TIMER_CNT => 0xA00
  | QDMA_CSR_CNT_TH => 0xA40 | QDMA_CSR_BUF_SZ => 0xAB0
  end.

Definition have_of (ty : qdma_global_csr_type) : Z -> bool :=
  match ty with
  | QDMA_CSR_RING_SZ => fun _ => true | QDMA_CSR_BUF_SZ => streams | _ => completions
  end.

Definition attrs_of (l : library) (ty : qdma_global_csr_type) : M S Z :=
  match ty with QDMA_CSR_RING_SZ => mret 0 | _ => caps_of l end.

Lemma csr_conf_eq l index count vals ty a :
  csr_conf_of l index count vals ty a =
  csr_access a vals (csr_read 16 (table ty) (attrs_of l ty) (have_of ty) index count)
    (csr_write 16 (table ty) (attrs_of l ty) (have_of ty) index count).
Proof. by destruct l, ty, a. Qed.

(** Reading the capabilities writes nothing. *)
Lemma caps_run l s :
  exists c s', caps_of l s = Ret c s' /\ writes (trace_of s') = writes (trace_of s).
Proof.
  destruct l; (eexists _, _; split; [reflexivity|]); unfold log; by rewrite !trace_of_with.
Qed.

Lemma attrs_run l ty s :
  exists c s', attrs_of l ty s = Ret c s' /\ writes (trace_of s') = writes (trace_of s) /\
    (ty <> QDMA_CSR_RING_SZ -> caps_of l s = Ret c s').
Proof.
  destruct (caps_run l s) as (c & s' & Hr & Hw).
  destruct ty; [exists 0, s; by split_and!|exists c, s'; by split_and!..].
Qed.

(** What writing an array of registers writes. *)
Definition csr_writes (addr index : Z) (cnt : nat) (vals : list Z) : list (Z * Z) :=
  (fun i => (csr_addr addr (index + Z.of_nat i), u32 (nth i vals 0))) <$> seq 0 cnt.

Lemma write_csr_run addr index cnt vals (s : S) :
  exists s', qdma_write_csr_values addr index cnt vals s = Ret tt s' /\
    writes (trace_of s') = writes (trace_of s) ++ csr_writes addr index cnt vals.
Proof.
  unfold qdma_write_csr_values. eexists. split; [apply for_each_write|].
  rewrite trace_of_with, written_trace_writes. f_equal. unfold csr_writes.
  change (@map (Z * Z) (Z * Z)) with (@fmap list list_fmap (Z * Z) (Z * Z)).
  by rewrite <- list_fmap_compose.
Qed.

(** The code a request ends with. *)
Definition csr_code (ty : qdma_global_csr_type) (caps index count : Z) : Z :=
  if (count =? 0) || (16 <? index + count) then neg QDMA_ERR_INV_PARAM
  else if have_of ty caps then 0 else neg QDMA_ERR_HWACC_FEATURE_NOT_SUPPORTED.

Lemma csr_writes_in addr index cnt vals a v :
  0 <= addr -> 0 <= index -> addr + 4 * (index + Z.of_nat cnt) <= 2 ^ 32 ->
  (a, v) ∈ csr_writes addr index cnt vals ->
  exists j, (j < cnt)%nat /\ a = addr + 4 * (index + Z.of_nat j) /\ v = u32 (nth j vals 0).
Proof.
  intros Ha Hi Hb. unfold csr_writes. rewrite list_elem_of_fmap. intros (j & [= -> ->] & Hj).
  apply elem_of_seq in Hj. exists j. split_and!; [lia| |done].
  unfold csr_addr. rewrite u32_small; [lia|]. unfold is_u32. lia.
Qed.

Lemma read_csr_run addr index cnt (s : S) :
  exists vs s', qdma_read_csr_values addr index cnt s = Ret vs s' /\ length vs = cnt /\
    writes (trace_of s') = writes (trace_of s).
Proof.
  unfold qdma_read_csr_values.
  destruct (read_regs_run _ ((fun i => csr_addr addr (index + Z.of_nat i)) <$> seq 0 cnt) s)
    as (vs & s' & E & Hw & Hl & _).
  exists vs, s'. split_and!; [done| |done]. by rewrite Hl, length_fmap, length_seq.
Qed.
End libraries.

(** ** Tables *)

(** C30. The tables of global registers.  In every library a request is refused, with
    the code for an invalid parameter, when it asks for nothing or goes beyond the
    sixteen registers of the table, and with the code for an unsupported feature when the
    device does not have what the table is for; then no register is written.
    Otherwise it succeeds: writing writes the values, in order, to the registers asked for,
    which are registers of that table, and nothing else; reading writes nothing and
    replaces as many values as were asked for. *)
Theorem global_csr_in_bounds {S : Type} `{HasTrace S} `{MmioDevice} l ty index count vals (s : S) :
  0 <= index -> 0 <= count ->
  exists caps s0, attrs_of l ty s = Ret caps s0 /\
  let rv := csr_code ty caps index count in
  (exists s', csr_conf_of l index count (Some vals) ty QDMA_HW_ACCESS_WRITE s = Ret (rv, Some vals) s' /\
     if rv =? 0 then
       writes (trace_of s') = writes (trace_of s) ++ csr_writes (table ty) index (Z.to_nat count) vals /\
       forall a v, (a, v) ∈ csr_writes (table ty) index (Z.to_nat count) vals ->
         exists j, (Z.of_nat j < count) /\ v = u32 (nth j vals 0) /\
           a = table ty + 4 * (index + Z.of_nat j) /\ table ty <= a < table ty + 4 * 16
     else writes (trace_of s') = writes (trace_of s)) /\
  (exists vals' s', csr_conf_of l index count (Some vals) ty QDMA_HW_ACCESS_READ s = Ret (rv, Some vals') s' /\
     writes (trace_of s') = writes (trace_of s) /\
     if rv =? 0 then drop (Z.to_nat count) vals' = drop (Z.to_nat count) vals else vals' = vals).
Proof.
  intros Hi Hc. destruct (attrs_run l ty s) as (caps & s0 & Ha & Hw & _).
  exists caps, s0. split; [done|]. cbv zeta. rewrite !csr_conf_eq. cbn [csr_access].
  unfold csr_write, csr_read, csr_code.
  destruct (Z.eqb_spec count 0) as [->|Hn]; cbn [orb].
  { split; [by exists s|by exists vals, s]. }
  destruct (Z.ltb_spec 16 (index + count)).
  { split; [by exists s|by exists vals, s]. }
  rewrite !(bind_Ret _ _ _ _ _ Ha).
  destruct (have_of ty caps) eqn:Eh.
  - split.
    + destruct (write_csr_run (table ty) index (Z.to_nat count) vals s0) as (s' & E & Hs).
      exists s'. split; [by rewrite bind_assoc, (bind_Ret _ _ _ _ _ Ha), Eh, bind_assoc, (bind_Ret _ _ _ _ _ E)|].
      cbn [Z.eqb]. split; [by rewrite Hs, Hw|]. intros a v Hin.
      apply csr_writes_in in Hin as (j & Hj & -> & ->); [|by destruct ty|done|destruct ty; cbn [table]; lia].
      exists j. split_and!; [lia|done|done|lia|lia].
    + destruct (read_csr_run (table ty) index (Z.to_nat count) s0) as (vs & s' & E & Hl & Hs).
      exists (vs ++ drop (Z.to_nat count) vals), s'.
      rewrite (bind_Ret _ _ _ _ _ E). split_and!; [done|by rewrite Hs, Hw|].
      cbn [Z.eqb]. by rewrite <- Hl, drop_app_length.
  - split; [exists s0; rewrite bind_assoc, (bind_Ret _ _ _ _ _ Ha), Eh; by split|by exists vals, s0].
Qed.

Definition idle_device : MmioDevice := fun _ _ => 0.

Lemma global_csr_in_bounds_witness :
  exists s' : trace, @csr_conf_of trace _ idle_device EQDMA 14 2 (Some [7; 8]) QDMA_CSR_RING_SZ QDMA_HW_ACCESS_WRITE []
    = Ret (0, Some [7; 8]) s' /\ writes s' = [(0x23C, 7); (0x240, 8)].
Proof.
  destruct (@global_csr_in_bounds trace _ idle_device EQDMA QDMA_CSR_RING_SZ 14 2 [7; 8] [])
    as (caps & s0 & _ & (s' & E & Hw) & _); [lia|lia|].
  exists s'. split; [exact E|]. exact (proj1 Hw).
Defined.

(** ** Doorbells *)

(** The rings of a queue that have one. *)
Inductive door := PidxH2C | PidxC2H | CmptCidx | IntrCidx.

#[export] Instance door_eq_dec : EqDecision door.
Proof. solve_decision. Defined.

Section doorbells.
Context {S : Type} `{HasTrace S} `{MmioDevice}.

(** The EQDMA uses the soft QDMA's functions. *)
Definition ring_door (hard : bool) (is_vf : Z) (d : door) (qid reg_info : Z) : M S Z :=
  if hard then
    match d with
    | PidxH2C => S80Csr.qdma_s80_hard_queue_pidx_update is_vf qid 0 (Some reg_info)
    | PidxC2H => S80Csr.qdma_s80_hard_queue_pidx_update is_vf qid 1 (Some reg_info)
    | CmptCidx => S80Csr.qdma_s80_hard_queue_cmpt_cidx_update is_vf qid (Some reg_info)
    | IntrCidx => S80Csr.qdma_s80_hard_queue_intr_cidx_update is_vf qid (Some reg_info)
    end
  else
    match d with
    | PidxH2C => SoftCsr.qdma_queue_pidx_update is_vf qid 0 (Some reg_info)
    | PidxC2H => SoftCsr.qdma_queue_pidx_update is_vf qid 1 (Some reg_info)
    | CmptCidx => SoftCsr.qdma_queue_cmpt_cidx_update is_vf qid (Some reg_info)
    | IntrCidx => SoftCsr.qdma_queue_intr_cidx_update is_vf qid (Some reg_info)
    end.

Definition door_offset (d : door) : Z :=
  match d with IntrCidx => 0 | PidxH2C => 4 | PidxC2H => 8 | CmptCidx => 12 end.

Definition door_base (hard : bool) (is_vf : Z) : Z :=
  if is_vf =? 0 then if hard then 0x6400 else 0x18000 else 0x3000.

Definition door_word (d : door) (r : Z) : Z :=
  match d with
  | PidxH2C | PidxC2H => SoftCsr.qdma_pidx_word r
  | CmptCidx => SoftCsr.qdma_cmpt_cidx_word r
  | IntrCidx => SoftCsr.qdma_intr_cidx_word r
  end.

Lemma ring_door_run hard is_vf d qid r (s : S) :
  exists s', ring_door hard is_vf d qid r s = Ret 0 s' /\
    writes (trace_of s') = writes (trace_of s) ++
      [(u32 (door_base hard is_vf + door_offset d + qid * 16), u32 (door_word d r))].
Proof.
  unfold door_base. destruct hard, d; cbn [ring_door];
    unfold S80Csr.qdma_s80_hard_queue_pidx_update, S80Csr.qdma_s80_hard_queue_cmpt_cidx_update,
      S80Csr.qdma_s80_hard_queue_intr_cidx_update, SoftCsr.qdma_queue_pidx_update,
      SoftCsr.qdma_queue_cmpt_cidx_update, SoftCsr.qdma_queue_intr_cidx_update;
    case_match; (eexists; split; [reflexivity|]); unfold log; rewrite trace_of_with; reflexivity.
Qed.

(** The members of the structure that the written value tells, to their width in
    the register. *)
Definition door_tells (d : door) (r v : Z) : Prop :=
  match d with
  | PidxH2C | PidxC2H =>
      FIELD_GET SoftCsr.QDMA_DMA_SEL_DESC_PIDX_MASK v = fld pidx_info.pidx r /\
      FIELD_GET SoftCsr.QDMA_DMA_SEL_IRQ_EN_MASK v = fld pidx_info.irq_en r mod 2
  | CmptCidx =>
      FIELD_GET SoftCsr.QDMA_DMAP_SEL_CMPT_WRB_CIDX_MASK v = fld cmpt_cidx_info.wrb_cidx r /\
      FIELD_GET SoftCsr.QDMA_DMAP_SEL_CMPT_CNT_THRESH_MASK v = fld cmpt_cidx_info.counter_idx r mod 16 /\
      FIELD_GET SoftCsr.QDMA_DMAP_SEL_CMPT_TMR_CNT_MASK v = fld cmpt_cidx_info.timer_idx r mod 16 /\
      FIELD_GET SoftCsr.QDMA_DMAP_SEL_CMPT_TRG_MODE_MASK v = fld cmpt_cidx_info.trig_mode r mod 8 /\
      FIELD_GET SoftCsr.QDMA_DMAP_SEL_CMPT_STS_DESC_EN_MASK v = fld cmpt_cidx_info.wrb_en r mod 2 /\
      FIELD_GET SoftCsr.QDMA_DMAP_SEL_CMPT_IRQ_EN_MASK v = fld cmpt_cidx_info.irq_en r mod 2
  | IntrCidx =>
      FIELD_GET SoftCsr.QDMA_DMA_SEL_INT_SW_CIDX_MASK v = fld intr_cidx_info.sw_cidx r /\
      FIELD_GET SoftCsr.QDMA_DMA_SEL_INT_RING_IDX_MASK v = fld intr_cidx_info.rng_idx r
  end.

Lemma door_word_u32 d r : is_u32 (door_word d r).
Proof.
  destruct d; cbn [door_word];
    unfold SoftCsr.qdma_pidx_word, SoftCsr.qdma_cmpt_cidx_word, SoftCsr.qdma_intr_cidx_word;
    repeat apply lor_u32; by apply set_range; vm_compute.
Qed.

Lemma door_word_tells d r : door_tells d r (u32 (door_word d r)).
Proof.
  rewrite u32_small by apply door_word_u32.
  destruct d; cbn [door_tells door_word];
    unfold SoftCsr.qdma_pidx_word, SoftCsr.qdma_cmpt_cidx_word, SoftCsr.qdma_intr_cidx_word;
    split_and!; (rewrite FIELD_GET_fld by (vm_compute; reflexivity));
    reg_fields.
  all: first [reflexivity | apply fld_mod; [by vm_compute|by vm_compute]].
Qed.

(** Doorbells.  Ringing the doorbell of a queue succeeds and writes one register,
    and the doorbells of different rings, or of different queues, are different
    registers: no queue is rung by mistake, with either library, by a physical or a virtual
    function, for every 16-bit queue number.  The value written tells the index and the
    settings in the structure. *)
Theorem doorbells_apart hard is_vf d1 d2 q1 q2 r1 r2 (s : S) :
  is_u16 q1 -> is_u16 q2 ->
  exists s1 s2 a1 a2 v1 v2,
    ring_door hard is_vf d1 q1 r1 s = Ret 0 s1 /\
    ring_door hard is_vf d2 q2 r2 s = Ret 0 s2 /\
    writes (trace_of s1) = writes (trace_of s) ++ [(a1, v1)] /\
    writes (trace_of s2) = writes (trace_of s) ++ [(a2, v2)] /\
    (a1 = a2 <-> d1 = d2 /\ q1 = q2) /\ door_tells d1 r1 v1.
Proof.
  intros H1 H2. destruct (ring_door_run hard is_vf d1 q1 r1 s) as (s1 & E1 & W1).
  destruct (ring_door_run hard is_vf d2 q2 r2 s) as (s2 & E2 & W2).
  do 6 eexists. split; [exact E1|]. split; [exact E2|]. split; [exact W1|]. split; [exact W2|].
  split; [|apply door_word_tells]. split; [|by intros [-> ->]].
  assert (forall d q, is_u16 q -> is_u32 (door_base hard is_vf + door_offset d + q * 16)) as Hu.
  { unfold is_u16, is_u32, door_base. intros d q Hq. destruct d, hard; cbn [door_offset]; case_match; lia. }
  rewrite !u32_small by by apply Hu. unfold is_u16 in *.
  destruct d1, d2; cbn [door_offset]; intros ?; split; try done; lia.
Qed.
End doorbells.

Lemma doorbells_apart_witness :
  exists s1 : trace, @ring_door trace _ false 0 PidxC2H 5 77 [] = Ret 0 s1 /\
    exists a v, writes s1 = [(a, v)].
Proof.
  destruct (@doorbells_apart trace _ false 0 PidxC2H CmptCidx 5 6 77 0 [])
    as (s1 & s2 & a1 & a2 & v1 & v2 & E1 & _ & W1 & _); [split; [lia|reflexivity]..|].
  exists s1. split; [exact E1|]. exists a1, v1. exact W1.
Defined.

(** ** The memory of contexts at the start *)

Definition csr_regs (l : library) : IndRegs :=
  match l with EQDMA => eqdma_regs | QDMA_SOFT => qdma_regs | QDMA_S80 => qdma_s80_hard_regs end.

Section init.
Context {S : Type} `{HasTrace S} (l : library) (D : MmioDevice).
Local Existing Instance D.
Context `{!@ContextMemory (csr_regs l) D}.
Implicit Types s : S.

Abbreviation memory s := (@contexts S _ (csr_regs l) D _ s).
Abbreviation zeros := (@no_ctxt (csr_regs l)).

Definition init_of : M S Z :=
  match l with
  | EQDMA => EqdmaCsr.eqdma_init_ctxt_memory | QDMA_SOFT => SoftCsr.qdma_init_ctxt_memory
  | QDMA_S80 => S80Csr.qdma_s80_hard_init_ctxt_memory
  end.

Definition fmap_clear_of (i : Z) : M S Z :=
  match l with
  | QDMA_S80 => qdma_s80_hard_fmap_clear i
  | _ => @indirect_reg_clear S _ D (csr_regs l) QDMA_CTXT_SEL_FMAP i
  end.

Lemma init_of_eq :
  init_of = init_ctxt_memory (caps_of l) (@indirect_reg_clear S _ D (csr_regs l)) fmap_clear_of.
Proof. unfold init_of, fmap_clear_of. by destruct l. Qed.

(** [ks] are zero, and nothing but zeros is new. *)
Definition cleared (ks : list (Z * Z)) (m m' : gmap (Z * Z) (list Z)) : Prop :=
  (forall k, k ∈ ks -> m' !! k = Some zeros) /\
  (forall k, m' !! k = m !! k \/ m' !! k = Some zeros).

Lemma cleared_nil m : cleared [] m m.
Proof. split; [by intros k Hk%elem_of_nil|by left]. Qed.

Lemma cleared_one k m : cleared [k] m (<[k := zeros]> m).
Proof.
  split.
  - intros k' ->%list_elem_of_singleton. apply lookup_insert_eq.
  - intros k'. destruct (decide (k = k')) as [->|]; [right; apply lookup_insert_eq|].
    left. by apply lookup_insert_ne.
Qed.

Lemma cleared_trans ks1 ks2 m1 m2 m3 :
  cleared ks1 m1 m2 -> cleared ks2 m2 m3 -> cleared (ks1 ++ ks2) m1 m3.
Proof.
  intros [H1 H1'] [H2 H2']. split.
  - intros k [Hk|Hk]%elem_of_app; [|by apply H2]. destruct (H2' k) as [->|]; [by apply H1|done].
  - intros k. destruct (H2' k) as [->|]; [apply H1'|by right].
Qed.

(** A loop that clears, and what it has cleared. *)
Lemma until_error_clears {A} (xs : list A) (body : A -> M S Z) (keys : A -> list (Z * Z)) s :
  (forall x s, exists s', body x s = Ret 0 s' /\ cleared (keys x) (memory s) (memory s')) ->
  exists s', until_error xs body s = Ret 0 s' /\ cleared (concat (keys <$> xs)) (memory s) (memory s').
Proof.
  intros Hb. revert s. induction xs as [|x xs IH]; intros s.
  { exists s. split; [done|apply cleared_nil]. }
  destruct (Hb x s) as (s1 & E1 & C1). destruct (IH s1) as (s2 & E2 & C2).
  exists s2. cbn [until_error]. rewrite (bind_Ret _ _ _ _ _ E1). cbn [Z.ltb Z.compare].
  split; [exact E2|]. by apply cleared_trans with (memory s1).
Qed.

Definition init_sels (caps : Z) : list ind_ctxt_cmd_sel :=
  filter (fun sel => negb (negb (streams caps) && stream_sel sel)) queue_sels.

Lemma clear_sel_run caps sel i s :
  exists s', (if negb (streams caps) && stream_sel sel then mret 0
              else @indirect_reg_clear S _ D (csr_regs l) sel i) s = Ret 0 s' /\
    cleared (if negb (streams caps) && stream_sel sel then [] else [ctxt_key sel i]) (memory s) (memory s').
Proof.
  case_match; [exists s; split; [done|apply cleared_nil]|].
  destruct (@indirect_clear_run S _ (csr_regs l) D _ sel i s) as (s' & E & Hm).
  exists s'. split; [done|]. rewrite Hm. apply cleared_one.
Qed.

(** A register away from the indirect ones. *)
Lemma ind_of_write a v s :
  let R := csr_regs l in
  (forall i, (i < 2 * ind_num_regs)%nat -> a <> @ind_data_reg R i) -> a <> @ind_cmd_addr R ->
  exists s', write32_data a v s = Ret tt s' /\ memory s' = memory s.
Proof.
  intros R Ha Hc. exists (log (Wr a (u32 v)) s). split; [done|].
  unfold contexts. rewrite (@ind_of_more S _ R D _ s _ [(a, u32 v)]).
  2: { unfold log. by rewrite trace_of_with. }
  cbn [foldl]. unfold ind_step. rewrite (proj2 (Z.eqb_neq _ _)) by done.
  destruct (Z.eqb_spec a (ind_data_reg (Z.to_nat ((a - ind_data_addr) / 4)))) as [E|]; [|done].
  set (i := Z.to_nat _) in *. specialize (Ha i).
  destruct (Nat.ltb_spec i (2 * @ind_num_regs R)); [by exfalso; apply Ha|].
  by rewrite (proj2 (Nat.ltb_ge i (@ind_num_regs R))) by lia.
Qed.

(** The hard QDMA's function maps are registers before the indirect ones. *)
Lemma fmap_clear_run i s :
  0 <= i < 256 -> exists rv s' ks, fmap_clear_of i s = Ret rv s' /\ cleared ks (memory s) (memory s').
Proof.
  intros Hi. destruct (decide (l = QDMA_S80)) as [El|El].
  - destruct (ind_of_write (qdma_s80_hard_fmap_reg i) 0 s) as (s' & E & Hm).
    1, 2: unfold qdma_s80_hard_fmap_reg, QDMA_S80_HARD_TRQ_SEL_FMAP_0_ADDR, QDMA_S80_HARD_REG_TRQ_SEL_FMAP_STEP;
      rewrite u32_small by (unfold is_u32; lia); rewrite El; intros; unfold ind_data_reg; cbn; lia.
    exists 0, s', []. rewrite Hm. split; [|apply cleared_nil].
    unfold fmap_clear_of. rewrite El. unfold qdma_s80_hard_fmap_clear. by rewrite (bind_Ret _ _ _ _ _ E).
  - destruct (@indirect_clear_run S _ (csr_regs l) D _ QDMA_CTXT_SEL_FMAP i s) as (s' & E & Hm).
    exists 0, s', [ctxt_key QDMA_CTXT_SEL_FMAP i]. rewrite Hm. split; [|apply cleared_one].
    rewrite <- E. unfold fmap_clear_of. by destruct l.
Qed.

Lemma fmaps_run n s :
  (n <= 256)%nat -> exists s' ks,
    for_each (seq 0 n) (fun i => _ ← fmap_clear_of (Z.of_nat i); mret tt) s = Ret tt s' /\
    cleared ks (memory s) (memory s').
Proof.
  intros Hn. assert (Forall (fun i => i < 256)%nat (seq 0 n)) as Hall.
  { apply Forall_forall. intros i Hi%elem_of_seq. lia. }
  revert s Hall. generalize (seq 0 n). intros xs s Hall. revert s.
  induction Hall as [|i xs Hi _ IH]; intros s; [exists s, []; split; [done|apply cleared_nil]|].
  destruct (fmap_clear_run (Z.of_nat i) s ltac:(lia)) as (rv & s1 & ks & E & C).
  destruct (IH s1) as (s2 & ks' & E2 & C2). exists s2, (ks ++ ks'). cbn [for_each].
  rewrite bind_assoc, (bind_Ret _ _ _ _ _ E). split; [exact E2|]. by apply cleared_trans with (memory s1).
Qed.

(** C29. Clearing the memory of contexts.  On a device that keeps contexts, a library's
    initialisation succeeds; afterwards every context of every queue the device has is
    zero, for all kinds of contexts but those of streams on a device without, and no
    context has changed except to zero. *)
Theorem init_clears_contexts s :
  exists caps s0 s', caps_of l s = Ret caps s0 /\ init_of s = Ret 0 s' /\
    (forall sel i, 0 <= i < fld dev_attributes.num_qs caps -> sel ∈ queue_sels ->
       streams caps = true \/ stream_sel sel = false ->
       memory s' !! ctxt_key sel i = Some zeros) /\
    (forall k, memory s' !! k = memory s !! k \/ memory s' !! k = Some zeros).
Proof.
  destruct (caps_run l s) as (caps & s0 & Hcaps & Hw).
  assert (memory s0 = memory s) as Hm0 by (unfold contexts, ind_of; by rewrite Hw).
  set (keys := fun i : nat => concat ((fun sel =>
    if negb (streams caps) && stream_sel sel then [] else [ctxt_key sel (Z.of_nat i)]) <$> queue_sels)).
  destruct (until_error_clears (seq 0 (Z.to_nat (fld dev_attributes.num_qs caps)))
    (fun i => until_error queue_sels (fun sel =>
       if negb (streams caps) && stream_sel sel then mret 0
       else @indirect_reg_clear S _ D (csr_regs l) sel (Z.of_nat i))) keys s0) as (s1 & E1 & [C1 C1']).
  { intros i s'. apply until_error_clears. intros sel s''. apply clear_sel_run. }
  destruct (fmaps_run (Z.to_nat (fld dev_attributes.num_pfs caps)) s1) as (s2 & ks & E2 & [C2 C2']).
  { pose proof (fld_range dev_attributes.num_pfs caps ltac:(by split)) as Hr.
    change (2 ^ _) with 256 in Hr. lia. }
  exists caps, s0, s2. split; [done|]. split.
  { rewrite init_of_eq. unfold init_ctxt_memory. rewrite (bind_Ret _ _ _ _ _ Hcaps).
    rewrite (bind_Ret _ _ _ _ _ E1). cbn [Z.ltb Z.compare]. by rewrite (bind_Ret _ _ _ _ _ E2). }
  split.
  - intros sel i Hi Hsel Hok. destruct (C2' (ctxt_key sel i)) as [->|]; [|done]. apply C1.
    apply list_elem_of_In, in_concat. exists (keys (Z.to_nat i)). rewrite <- !list_elem_of_In. split.
    + apply list_elem_of_fmap_2, elem_of_seq. lia.
    + apply list_elem_of_In, in_concat. exists [ctxt_key sel i]. rewrite <- !list_elem_of_In.
      split; [|by apply list_elem_of_singleton].
      apply list_elem_of_fmap. exists sel. split; [|done]. rewrite Z2Nat.id by lia.
      destruct Hok as [-> | ->]; by rewrite ?andb_false_r.
  - intros k. destruct (C2' k) as [->|]; [|by right]. destruct (C1' k) as [->|]; [|by right].
    left. by rewrite Hm0.
Qed.
End init.

Lemma init_clears_contexts_witness :
  exists s' : trace, @init_of trace _ QDMA_S80 (@memory_device qdma_s80_hard_regs) [] = Ret 0 s'.
Proof.
  destruct (@init_clears_contexts trace _ QDMA_S80 (@memory_device qdma_s80_hard_regs) _ [])
    as (caps & s0 & s' & _ & E & _).
  exists s'. exact E.
Defined.

(** ** Settings that are only ever added to *)

Section settings.
Context {S : Type} `{HasTrace S} `{MmioDevice}.
Implicit Types (s : S) (l : library).

Definition interval_write_of l : Z -> M S Z :=
  match l with
  | EQDMA => EqdmaCsr.eqdma_global_writeback_interval_write
  | QDMA_SOFT => SoftCsr.qdma_global_writeback_interval_write
  | QDMA_S80 => S80Csr.qdma_s80_hard_global_writeback_interval_write
  end.

Definition DSC_CFG : Z := 0x250.

Lemma interval_write_eq l w : interval_write_of l w = interval_write DSC_CFG (GENMASK 2 0) (caps_of l) w.
Proof. by destruct l. Qed.

(** The write-back interval.  Setting it on a device that has one writes the
    register once, with the disjunction of the interval that was set before and the new one:
    what the device is told is the interval asked for only if all bits of the
    earlier one are in it.  An interval that does not exist is refused, and a device
    without the feature is left alone. *)
Theorem interval_is_added l w s :
  0 <= w ->
  exists caps s0, caps_of l s = Ret caps s0 /\
  if QDMA_NUM_WRB_INTERVALS <=? w then interval_write_of l w s = Ret (neg QDMA_ERR_INV_PARAM) s
  else if negb (completions caps) then
    interval_write_of l w s = Ret (neg QDMA_ERR_HWACC_FEATURE_NOT_SUPPORTED) s0
  else
    let before := reading (trace_of s0) DSC_CFG in
    exists s' v, interval_write_of l w s = Ret 0 s' /\
      writes (trace_of s') = writes (trace_of s) ++ [(DSC_CFG, v)] /\
      FIELD_GET (GENMASK 2 0) v = FIELD_GET (GENMASK 2 0) before .| w /\
      (FIELD_GET (GENMASK 2 0) v = w <-> Z.land (FIELD_GET (GENMASK 2 0) before) w = FIELD_GET (GENMASK 2 0) before).
Proof.
  intros Hw. destruct (caps_run l s) as (caps & s0 & Hcaps & Hws). exists caps, s0. split; [done|].
  rewrite interval_write_eq. unfold interval_write.
  destruct (Z.leb_spec QDMA_NUM_WRB_INTERVALS w) as [|Hlt]; [done|].
  rewrite (bind_Ret _ _ _ _ _ Hcaps).
  destruct (completions caps); cbn [negb]; [|done]. cbv zeta.
  rewrite (bind_Ret _ _ _ _ _ (read_run DSC_CFG s0)).
  set (before := reading (trace_of s0) DSC_CFG).
  assert (is_u32 before) as Hb by apply u32_range.
  eexists _, (u32 (before .| FIELD_SET (GENMASK 2 0) w)). split; [reflexivity|].
  split; [unfold log; by rewrite !trace_of_with; cbn [writes]; rewrite Hws|].
  rewrite u32_small.
  2: { apply lor_u32; [done|]. by apply set_range; vm_compute. }
  assert (FIELD_GET (GENMASK 2 0) (before .| FIELD_SET (GENMASK 2 0) w) = FIELD_GET (GENMASK 2 0) before .| w) as E.
  { rewrite !FIELD_GET_fld by (vm_compute; reflexivity). rewrite fld_lor.
    rewrite fld_set_same by (vm_compute; reflexivity). f_equal. apply Z.mod_small.
    unfold QDMA_NUM_WRB_INTERVALS in Hlt. split; [done|]. exact Hlt. }
  split; [done|]. rewrite E. apply lor_absorbs.
Qed.

(** Disabling the legacy interrupt leaves it enabled. *)
Lemma legacy_intr_stays s :
  Z.testbit (reading (trace_of s) SoftCsr.QDMA_OFFSET_GLBL_INTERRUPT_CFG) 0 = true ->
  exists s' v, SoftCsr.qdma_legacy_intr_conf 0 s = Ret 0 s' /\
    writes (trace_of s') = writes (trace_of s) ++ [(SoftCsr.QDMA_OFFSET_GLBL_INTERRUPT_CFG, v)] /\
    Z.testbit v 0 = true.
Proof.
  intros Hb. unfold SoftCsr.qdma_legacy_intr_conf.
  rewrite (bind_Ret _ _ _ _ _ (read_run SoftCsr.QDMA_OFFSET_GLBL_INTERRUPT_CFG s)).
  set (before := reading (trace_of s) _) in *.
  eexists _, (u32 (before .| FIELD_SET SoftCsr.QDMA_GLBL_INTR_CFG_EN_LGCY_INTR_MASK 0)). split; [reflexivity|].
  split; [unfold log; by rewrite !trace_of_with|].
  change (FIELD_SET _ 0) with 0. rewrite Z.lor_0_r, u32_small by apply u32_range. done.
Qed.

(** The user bar of a virtual function is looked for with a shift by six times its
    number, which is not defined from 6 on. *)
Lemma vf_user_bar_undefined is_vf func_id bar s :
  6 <= func_id -> exists s', EqdmaCsr.eqdma_get_user_bar is_vf func_id (Some bar) s = Crash s'.
Proof.
  intros Hf. unfold EqdmaCsr.eqdma_get_user_bar. rewrite (bind_Ret _ _ _ _ _ (read_run _ s)).
  unfold shift_right. rewrite (proj2 (Z.ltb_ge _ _)) by lia. by eexists.
Qed.

(** The default threshold does not fit the hard QDMA's field and is written as 0. *)
Lemma s80_stop_threshold_lost : FIELD_SET S80Csr.C2H_PFCH_CFG_FL_TH_MASK DEFAULT_PFCH_STOP_THRESH = 0.
Proof. vm_compute. reflexivity. Qed.
End settings.

(** On the hard QDMA that has completions, 5 after 2 gives 7. *)
Definition earlier_interval : MmioDevice := fun _ a => if a =? DSC_CFG then 2 else 2 ^ 32 - 1.

Lemma interval_is_added_witness :
  exists (s' : trace) v, @interval_write_of trace _ earlier_interval EQDMA 5 [] = Ret 0 s' /\
    writes s' = [(DSC_CFG, v)] /\ FIELD_GET (GENMASK 2 0) v = 7.
Proof.
  destruct (@interval_is_added trace _ earlier_interval EQDMA 5 []) as (caps & s0 & Hc & Hi); [lia|].
  vm_compute in Hc. injection Hc as <- <-.
  destruct Hi as (s' & v & E & Hw & Hv & _). exists s', v. split; [exact E|]. split; [exact Hw|].
  rewrite Hv. by vm_compute.
Defined.
