(* ===== verification/RegTables.v ===== *)
(** * RegTables: the rows of the register tables, and the table of the soft QDMA

    A row gives a register's name and address, the number of consecutive registers, whether
    they are for debugging, the capabilities they belong to, who may read them, and
    the names and masks of their fields.  The soft QDMA's table, from [qdma_soft_access.c], has no
    fields; the others' are in EqdmaRegInfo and S80RegInfo. *)

From S2P Require Import Prelude.
From stdpp Require Export strings.
Local Open Scope Z_scope.
Local Open Scope string_scope.

Definition QDMA_MM_MODE : Z := Z.shiftl 1 0.
Definition QDMA_COMPLETION_MODE : Z := Z.shiftl 1 1.
Definition QDMA_ST_MODE : Z := Z.shiftl 1 2.
Definition QDMA_MAILBOX : Z := Z.shiftl 1 3.
Definition QDMA_MM_ST_MODE : Z := Z.lor QDMA_MM_MODE (Z.lor QDMA_COMPLETION_MODE QDMA_ST_MODE).

Inductive qdma_reg_read_type := QDMA_REG_READ_PF_ONLY | QDMA_REG_READ_VF_ONLY | QDMA_REG_READ_PF_VF.

#[export] Instance qdma_reg_read_type_eq_dec : EqDecision qdma_reg_read_type.
Proof. solve_decision. Defined.

Record regfield_info := mk_regfield { field_name : string; field_mask : Z }.

(** [num_bitfields] is the length of [bitfields]. *)
Record xreg_info := mk_xreg {
  x_name : string; x_addr : Z; x_repeat : nat; x_step : Z; x_shift : Z; x_len : Z; is_debug_reg : bool;
  x_mode : Z; read_type : qdma_reg_read_type; bitfields : list regfield_info }.

Definition qdma_config_regs_1 : list xreg_info :=
  [mk_xreg "CFG_BLOCK_ID" 0x00 1 0 0 0 false QDMA_MM_ST_MODE QDMA_REG_READ_PF_ONLY [];
   mk_xreg "CFG_BUSDEV" 0x04 1 0 0 0 false QDMA_MM_ST_MODE QDMA_REG_READ_PF_ONLY [];
   mk_xreg "CFG_PCIE_MAX_PL_SZ" 0x08 1 0 0 0 false QDMA_MM_ST_MODE QDMA_REG_READ_PF_ONLY [];
   mk_xreg "CFG_PCIE_MAX_RDRQ_SZ" 0x0C 1 0 0 0 false QDMA_MM_ST_MODE QDMA_REG_READ_PF_ONLY [];
   mk_xreg "CFG_SYS_ID" 0x10 1 0 0 0 false QDMA_MM_ST_MODE QDMA_REG_READ_PF_ONLY [];
   mk_xreg "CFG_MSI_EN" 0x14 1 0 0 0 false QDMA_MM_ST_MODE QDMA_REG_READ_PF_ONLY [];
   mk_xreg "CFG_PCIE_DATA_WIDTH" 0x18 1 0 0 0 false QDMA_MM_ST_MODE QDMA_REG_READ_PF_ONLY [];
   mk_xreg "CFG_PCIE_CTRL" 0x1C 1 0 0 0 false QDMA_MM_ST_MODE QDMA_REG_READ_PF_ONLY [];
   mk_xreg "CFG_AXI_USR_MAX_PL_SZ" 0x40 1 0 0 0 false QDMA_MM_ST_MODE QDMA_REG_READ_PF_ONLY [];
   mk_xreg "CFG_AXI_USR_MAX_RDRQ_SZ" 0x44 1 0 0 0 false QDMA_MM_ST_MODE QDMA_REG_READ_PF_ONLY [];
   mk_xreg "CFG_MISC_CTRL" 0x4C 1 0 0 0 false QDMA_MM_ST_MODE QDMA_REG_READ_PF_ONLY [];
   mk_xreg "CFG_SCRATCH_REG" 0x80 8 0 0 0 false QDMA_MM_ST_MODE QDMA_REG_READ_PF_ONLY [];
   mk_xreg "QDMA_RAM_SBE_MSK_A" 0xF0 1 0 0 0 false QDMA_MM_ST_MODE QDMA_REG_READ_PF_ONLY [];
   mk_xreg "QDMA_RAM_SBE_STS_A" 0xF4 1 0 0 0 false QDMA_MM_ST_MODE QDMA_REG_READ_PF_ONLY [];
   mk_xreg "QDMA_RAM_DBE_MSK_A" 0xF8 1 0 0 0 false QDMA_MM_ST_MODE QDMA_REG_READ_PF_ONLY [];
   mk_xreg "QDMA_RAM_DBE_STS_A" 0xFC 1 0 0 0 false QDMA_MM_ST_MODE QDMA_REG_READ_PF_ONLY [];
   mk_xreg "GLBL2_ID" 0x100 1 0 0 0 false QDMA_MM_ST_MODE QDMA_REG_READ_PF_ONLY [];
   mk_xreg "GLBL2_PF_BL_INT" 0x104 1 0 0 0 false QDMA_MM_ST_MODE QDMA_REG_READ_PF_ONLY [];
   mk_xreg "GLBL2_PF_VF_BL_INT" 0x108 1 0 0 0 false QDMA_MM_ST_MODE QDMA_REG_READ_PF_ONLY [];
   mk_xreg "GLBL2_PF_BL_EXT" 0x10C 1 0 0 0 false QDMA_MM_ST_MODE QDMA_REG_READ_PF_ONLY [];
   mk_xreg "GLBL2_PF_VF_BL_EXT" 0x110 1 0 0 0 false QDMA_MM_ST_MODE QDMA_REG_READ_PF_ONLY [];
   mk_xreg "GLBL2_CHNL_INST" 0x114 1 0 0 0 false QDMA_MM_ST_MODE QDMA_REG_READ_PF_ONLY [];
   mk_xreg "GLBL2_CHNL_QDMA" 0x118 1 0 0 0 false QDMA_MM_ST_MODE QDMA_REG_READ_PF_ONLY [];
   mk_xreg "GLBL2_CHNL_STRM" 0x11C 1 0 0 0 false QDMA_MM_ST_MODE QDMA_REG_READ_PF_ONLY [];
   mk_xreg "GLBL2_QDMA_CAP" 0x120 1 0 0 0 false QDMA_MM_ST_MODE QDMA_REG_READ_PF_ONLY [];
   mk_xreg "GLBL2_PASID_CAP" 0x128 1 0 0 0 false QDMA_MM_ST_MODE QDMA_REG_READ_PF_ONLY [];
   mk_xreg "GLBL2_FUNC_RET" 0x12C 1 0 0 0 false QDMA_MM_ST_MODE QDMA_REG_READ_PF_ONLY [];
   mk_xreg "GLBL2_SYS_ID" 0x130 1 0 0 0 false QDMA_MM_ST_MODE QDMA_REG_READ_PF_ONLY [];
   mk_xreg "GLBL2_MISC_CAP" 0x134 1 0 0 0 false QDMA_MM_ST_MODE QDMA_REG_READ_PF_ONLY [];
   mk_xreg "GLBL2_DBG_PCIE_RQ" 0x1B8 2 0 0 0 false QDMA_MM_ST_MODE QDMA_REG_READ_PF_ONLY [];
   mk_xreg "GLBL2_DBG_AXIMM_WR" 0x1C0 2 0 0 0 false QDMA_MM_ST_MODE QDMA_REG_READ_PF_ONLY [];
   mk_xreg "GLBL2_DBG_AXIMM_RD" 0x1C8 2 0 0 0 false QDMA_MM_ST_MODE QDMA_REG_READ_PF_ONLY [];
   mk_xreg "GLBL_RNGSZ" 0x204 16 1 0 0 false QDMA_MM_ST_MODE QDMA_REG_READ_PF_ONLY [];
   mk_xreg "GLBL_ERR_STAT" 0x248 1 0 0 0 false QDMA_MM_ST_MODE QDMA_REG_READ_PF_VF [];
   mk_xreg "GLBL_ERR_MASK" 0x24C 1 0 0 0 false QDMA_MM_ST_MODE QDMA_REG_READ_PF_VF [];
   mk_xreg "GLBL_DSC_CFG" 0x250 1 0 0 0 false QDMA_MM_ST_MODE QDMA_REG_READ_PF_VF [];
   mk_xreg "GLBL_DSC_ERR_STS" 0x254 1 0 0 0 false QDMA_MM_ST_MODE QDMA_REG_READ_PF_VF [];
   mk_xreg "GLBL_DSC_ERR_MSK" 0x258 1 0 0 0 false QDMA_MM_ST_MODE QDMA_REG_READ_PF_VF [];
   mk_xreg "GLBL_DSC_ERR_LOG" 0x25C 2 0 0 0 false QDMA_MM_ST_MODE QDMA_REG_READ_PF_VF [];
   mk_xreg "GLBL_TRQ_ERR_STS" 0x264 1 0 0 0 false QDMA_MM_ST_MODE QDMA_REG_READ_PF_VF [];
   mk_xreg "GLBL_TRQ_ERR_MSK" 0x268 1 0 0 0 false QDMA_MM_ST_MODE QDMA_REG_READ_PF_VF [];
   mk_xreg "GLBL_TRQ_ERR_LOG" 0x26C 1 0 0 0 false QDMA_MM_ST_MODE QDMA_REG_READ_PF_VF [];
   mk_xreg "GLBL_DSC_DBG_DAT" 0x270 2 0 0 0 false QDMA_MM_ST_MODE QDMA_REG_READ_PF_VF [];
   mk_xreg "GLBL_DSC_ERR_LOG2" 0x27C 1 0 0 0 false QDMA_MM_ST_MODE QDMA_REG_READ_PF_VF [];
   mk_xreg "GLBL_INTERRUPT_CFG" 0x288 1 0 0 0 false QDMA_MM_ST_MODE QDMA_REG_READ_PF_VF [];
   mk_xreg "TRQ_SEL_FMAP" 0x400 4 0 0 0 false QDMA_MM_ST_MODE QDMA_REG_READ_PF_ONLY []].

Definition qdma_config_regs_2 : list xreg_info :=
  [mk_xreg "IND_CTXT_DATA" 0x804 8 0 0 0 false QDMA_MM_ST_MODE QDMA_REG_READ_PF_ONLY [];
   mk_xreg "IND_CTXT_MASK" 0x824 8 0 0 0 false QDMA_MM_ST_MODE QDMA_REG_READ_PF_ONLY [];
   mk_xreg "IND_CTXT_CMD" 0x844 1 0 0 0 false QDMA_MM_ST_MODE QDMA_REG_READ_PF_ONLY [];
   mk_xreg "C2H_TIMER_CNT" 0xA00 16 0 0 0 false QDMA_COMPLETION_MODE QDMA_REG_READ_PF_ONLY [];
   mk_xreg "C2H_CNT_THRESH" 0xA40 16 0 0 0 false QDMA_COMPLETION_MODE QDMA_REG_READ_PF_ONLY [];
   mk_xreg "C2H_STAT_S_AXIS_C2H_ACCEPTED" 0xA88 1 0 0 0 false QDMA_ST_MODE QDMA_REG_READ_PF_VF [];
   mk_xreg "C2H_STAT_S_AXIS_CMPT_ACCEPTED" 0xA8C 1 0 0 0 false QDMA_ST_MODE QDMA_REG_READ_PF_VF [];
   mk_xreg "C2H_STAT_DESC_RSP_PKT_ACCEPTED" 0xA90 1 0 0 0 false QDMA_ST_MODE QDMA_REG_READ_PF_VF [];
   mk_xreg "C2H_STAT_AXIS_PKG_CMP" 0xA94 1 0 0 0 false QDMA_ST_MODE QDMA_REG_READ_PF_VF [];
   mk_xreg "C2H_STAT_DESC_RSP_ACCEPTED" 0xA98 1 0 0 0 false QDMA_ST_MODE QDMA_REG_READ_PF_VF [];
   mk_xreg "C2H_STAT_DESC_RSP_CMP" 0xA9C 1 0 0 0 false QDMA_ST_MODE QDMA_REG_READ_PF_ONLY [];
   mk_xreg "C2H_STAT_WRQ_OUT" 0xAA0 1 0 0 0 false QDMA_ST_MODE QDMA_REG_READ_PF_ONLY [];
   mk_xreg "C2H_STAT_WPL_REN_ACCEPTED" 0xAA4 1 0 0 0 false QDMA_ST_MODE QDMA_REG_READ_PF_ONLY [];
   mk_xreg "C2H_STAT_TOTAL_WRQ_LEN" 0xAA8 1 0 0 0 false QDMA_ST_MODE QDMA_REG_READ_PF_ONLY [];
   mk_xreg "C2H_STAT_TOTAL_WPL_LEN" 0xAAC 1 0 0 0 false QDMA_ST_MODE QDMA_REG_READ_PF_ONLY [];
   mk_xreg "C2H_BUF_SZ" 0xAB0 16 0 0 0 false QDMA_ST_MODE QDMA_REG_READ_PF_ONLY [];
   mk_xreg "C2H_ERR_STAT" 0xAF0 1 0 0 0 false QDMA_ST_MODE QDMA_REG_READ_PF_VF [];
   mk_xreg "C2H_ERR_MASK" 0xAF4 1 0 0 0 false QDMA_ST_MODE QDMA_REG_READ_PF_VF [];
   mk_xreg "C2H_FATAL_ERR_STAT" 0xAF8 1 0 0 0 false QDMA_ST_MODE QDMA_REG_READ_PF_VF [];
   mk_xreg "C2H_FATAL_ERR_MASK" 0xAFC 1 0 0 0 false QDMA_ST_MODE QDMA_REG_READ_PF_VF [];
   mk_xreg "C2H_FATAL_ERR_ENABLE" 0xB00 1 0 0 0 false QDMA_ST_MODE QDMA_REG_READ_PF_VF [];
   mk_xreg "GLBL_ERR_INT" 0xB04 1 0 0 0 false QDMA_ST_MODE QDMA_REG_READ_PF_VF [];
   mk_xreg "C2H_PFCH_CFG" 0xB08 1 0 0 0 false QDMA_ST_MODE QDMA_REG_READ_PF_ONLY [];
   mk_xreg "C2H_INT_TIMER_TICK" 0xB0C 1 0 0 0 false QDMA_ST_MODE QDMA_REG_READ_PF_ONLY [];
   mk_xreg "C2H_STAT_DESC_RSP_DROP_ACCEPTED" 0xB10 1 0 0 0 false QDMA_ST_MODE QDMA_REG_READ_PF_VF [];
   mk_xreg "C2H_STAT_DESC_RSP_ERR_ACCEPTED" 0xB14 1 0 0 0 false QDMA_ST_MODE QDMA_REG_READ_PF_VF [];
   mk_xreg "C2H_STAT_DESC_REQ" 0xB18 1 0 0 0 false QDMA_ST_MODE QDMA_REG_READ_PF_ONLY [];
   mk_xreg "C2H_STAT_DEBUG_DMA_ENG" 0xB1C 4 0 0 0 false QDMA_ST_MODE QDMA_REG_READ_PF_ONLY [];
   mk_xreg "C2H_DBG_PFCH_ERR_CTXT" 0xB2C 1 0 0 0 false QDMA_ST_MODE QDMA_REG_READ_PF_ONLY [];
   mk_xreg "C2H_FIRST_ERR_QID" 0xB30 1 0 0 0 false QDMA_ST_MODE QDMA_REG_READ_PF_VF [];
   mk_xreg "STAT_NUM_CMPT_IN" 0xB34 1 0 0 0 false QDMA_ST_MODE QDMA_REG_READ_PF_ONLY [];
   mk_xreg "STAT_NUM_CMPT_OUT" 0xB38 1 0 0 0 false QDMA_ST_MODE QDMA_REG_READ_PF_ONLY [];
   mk_xreg "STAT_NUM_CMPT_DRP" 0xB3C 1 0 0 0 false QDMA_ST_MODE QDMA_REG_READ_PF_ONLY [];
   mk_xreg "STAT_NUM_STAT_DESC_OUT" 0xB40 1 0 0 0 false QDMA_ST_MODE QDMA_REG_READ_PF_ONLY [];
   mk_xreg "STAT_NUM_DSC_CRDT_SENT" 0xB44 1 0 0 0 false QDMA_ST_MODE QDMA_REG_READ_PF_ONLY [];
   mk_xreg "STAT_NUM_FCH_DSC_RCVD" 0xB48 1 0 0 0 false QDMA_ST_MODE QDMA_REG_READ_PF_ONLY [];
   mk_xreg "STAT_NUM_BYP_DSC_RCVD" 0xB4C 1 0 0 0 false QDMA_ST_MODE QDMA_REG_READ_PF_ONLY [];
   mk_xreg "C2H_CMPT_COAL_CFG" 0xB50 1 0 0 0 false QDMA_ST_MODE QDMA_REG_READ_PF_ONLY [];
   mk_xreg "C2H_INTR_H2C_REQ" 0xB54 1 0 0 0 false QDMA_ST_MODE QDMA_REG_READ_PF_VF [];
   mk_xreg "C2H_INTR_C2H_MM_REQ" 0xB58 1 0 0 0 false QDMA_ST_MODE QDMA_REG_READ_PF_VF [];
   mk_xreg "C2H_INTR_ERR_INT_REQ" 0xB5C 1 0 0 0 false QDMA_ST_MODE QDMA_REG_READ_PF_VF [];
   mk_xreg "C2H_INTR_C2H_ST_REQ" 0xB60 1 0 0 0 false QDMA_ST_MODE QDMA_REG_READ_PF_VF [];
   mk_xreg "C2H_INTR_H2C_ERR_MM_MSIX_ACK" 0xB64 1 0 0 0 false QDMA_ST_MODE QDMA_REG_READ_PF_ONLY [];
   mk_xreg "C2H_INTR_H2C_ERR_MM_MSIX_FAIL" 0xB68 1 0 0 0 false QDMA_ST_MODE QDMA_REG_READ_PF_ONLY [];
   mk_xreg "C2H_INTR_H2C_ERR_MM_NO_MSIX" 0xB6C 1 0 0 0 false QDMA_ST_MODE QDMA_REG_READ_PF_ONLY [];
   mk_xreg "C2H_INTR_H2C_ERR_MM_CTXT_INVAL" 0xB70 1 0 0 0 false QDMA_ST_MODE QDMA_REG_READ_PF_ONLY [];
   mk_xreg "C2H_INTR_C2H_ST_MSIX_ACK" 0xB74 1 0 0 0 false QDMA_ST_MODE QDMA_REG_READ_PF_VF [];
   mk_xreg "C2H_INTR_C2H_ST_MSIX_FAIL" 0xB78 1 0 0 0 false QDMA_ST_MODE QDMA_REG_READ_PF_VF []].

Definition qdma_config_regs_3 : list xreg_info :=
  [mk_xreg "C2H_INTR_C2H_ST_NO_MSIX" 0xB7C 1 0 0 0 false QDMA_ST_MODE QDMA_REG_READ_PF_ONLY [];
   mk_xreg "C2H_INTR_C2H_ST_CTXT_INVAL" 0xB80 1 0 0 0 false QDMA_ST_MODE QDMA_REG_READ_PF_ONLY [];
   mk_xreg "C2H_STAT_WR_CMP" 0xB84 1 0 0 0 false QDMA_ST_MODE QDMA_REG_READ_PF_ONLY [];
   mk_xreg "C2H_STAT_DEBUG_DMA_ENG_4" 0xB88 1 0 0 0 false QDMA_ST_MODE QDMA_REG_READ_PF_ONLY [];
   mk_xreg "C2H_STAT_DEBUG_DMA_ENG_5" 0xB8C 1 0 0 0 false QDMA_ST_MODE QDMA_REG_READ_PF_ONLY [];
   mk_xreg "C2H_DBG_PFCH_QID" 0xB90 1 0 0 0 false QDMA_ST_MODE QDMA_REG_READ_PF_ONLY [];
   mk_xreg "C2H_DBG_PFCH" 0xB94 1 0 0 0 false QDMA_ST_MODE QDMA_REG_READ_PF_ONLY [];
   mk_xreg "C2H_INT_DEBUG" 0xB98 1 0 0 0 false QDMA_ST_MODE QDMA_REG_READ_PF_ONLY [];
   mk_xreg "C2H_STAT_IMM_ACCEPTED" 0xB9C 1 0 0 0 false QDMA_ST_MODE QDMA_REG_READ_PF_ONLY [];
   mk_xreg "C2H_STAT_MARKER_ACCEPTED" 0xBA0 1 0 0 0 false QDMA_ST_MODE QDMA_REG_READ_PF_ONLY [];
   mk_xreg "C2H_STAT_DISABLE_CMP_ACCEPTED" 0xBA4 1 0 0 0 false QDMA_ST_MODE QDMA_REG_READ_PF_ONLY [];
   mk_xreg "C2H_C2H_PAYLOAD_FIFO_CRDT_CNT" 0xBA8 1 0 0 0 false QDMA_ST_MODE QDMA_REG_READ_PF_ONLY [];
   mk_xreg "C2H_INTR_DYN_REQ" 0xBAC 1 0 0 0 false QDMA_ST_MODE QDMA_REG_READ_PF_ONLY [];
   mk_xreg "C2H_INTR_DYN_MSIX" 0xBB0 1 0 0 0 false QDMA_ST_MODE QDMA_REG_READ_PF_ONLY [];
   mk_xreg "C2H_DROP_LEN_MISMATCH" 0xBB4 1 0 0 0 false QDMA_ST_MODE QDMA_REG_READ_PF_ONLY [];
   mk_xreg "C2H_DROP_DESC_RSP_LEN" 0xBB8 1 0 0 0 false QDMA_ST_MODE QDMA_REG_READ_PF_ONLY [];
   mk_xreg "C2H_DROP_QID_FIFO_LEN" 0xBBC 1 0 0 0 false QDMA_ST_MODE QDMA_REG_READ_PF_ONLY [];
   mk_xreg "C2H_DROP_PAYLOAD_CNT" 0xBC0 1 0 0 0 false QDMA_ST_MODE QDMA_REG_READ_PF_ONLY [];
   mk_xreg "QDMA_C2H_CMPT_FORMAT" 0xBC4 7 0 0 0 false QDMA_ST_MODE QDMA_REG_READ_PF_ONLY [];
   mk_xreg "C2H_PFCH_CACHE_DEPTH" 0xBE0 1 0 0 0 false QDMA_ST_MODE QDMA_REG_READ_PF_ONLY [];
   mk_xreg "C2H_CMPT_COAL_BUF_DEPTH" 0xBE4 1 0 0 0 false QDMA_ST_MODE QDMA_REG_READ_PF_ONLY [];
   mk_xreg "C2H_PFCH_CRDT" 0xBE8 1 0 0 0 false QDMA_ST_MODE QDMA_REG_READ_PF_ONLY [];
   mk_xreg "H2C_ERR_STAT" 0xE00 1 0 0 0 false QDMA_ST_MODE QDMA_REG_READ_PF_VF [];
   mk_xreg "H2C_ERR_MASK" 0xE04 1 0 0 0 false QDMA_ST_MODE QDMA_REG_READ_PF_VF [];
   mk_xreg "H2C_FIRST_ERR_QID" 0xE08 1 0 0 0 false QDMA_ST_MODE QDMA_REG_READ_PF_VF [];
   mk_xreg "H2C_DBG_REG" 0xE0C 5 0 0 0 false QDMA_ST_MODE QDMA_REG_READ_PF_ONLY [];
   mk_xreg "H2C_FATAL_ERR_EN" 0xE20 1 0 0 0 false QDMA_ST_MODE QDMA_REG_READ_PF_ONLY [];
   mk_xreg "H2C_REQ_THROT" 0xE24 1 0 0 0 false QDMA_ST_MODE QDMA_REG_READ_PF_ONLY [];
   mk_xreg "H2C_ALN_DBG_REG0" 0xE28 1 0 0 0 false QDMA_ST_MODE QDMA_REG_READ_PF_ONLY [];
   mk_xreg "C2H_MM_CONTROL" 0x1004 3 0 0 0 false QDMA_MM_MODE QDMA_REG_READ_PF_ONLY [];
   mk_xreg "C2H_MM_STATUS" 0x1040 2 0 0 0 false QDMA_MM_MODE QDMA_REG_READ_PF_ONLY [];
   mk_xreg "C2H_MM_CMPL_DSC_CNT" 0x1048 1 0 0 0 false QDMA_MM_MODE QDMA_REG_READ_PF_ONLY [];
   mk_xreg "C2H_MM_ERR_CODE_EN_MASK" 0x1054 1 0 0 0 false QDMA_MM_MODE QDMA_REG_READ_PF_ONLY [];
   mk_xreg "C2H_MM_ERR_CODE" 0x1058 1 0 0 0 false QDMA_MM_MODE QDMA_REG_READ_PF_ONLY [];
   mk_xreg "C2H_MM_ERR_INFO" 0x105C 1 0 0 0 false QDMA_MM_MODE QDMA_REG_READ_PF_ONLY [];
   mk_xreg "C2H_MM_PERF_MON_CTRL" 0x10C0 1 0 0 0 false QDMA_MM_MODE QDMA_REG_READ_PF_ONLY [];
   mk_xreg "C2H_MM_PERF_MON_CY_CNT" 0x10C4 2 0 0 0 false QDMA_MM_MODE QDMA_REG_READ_PF_ONLY [];
   mk_xreg "C2H_MM_PERF_MON_DATA_CNT" 0x10CC 2 0 0 0 false QDMA_MM_MODE QDMA_REG_READ_PF_ONLY [];
   mk_xreg "C2H_MM_DBG_INFO" 0x10E8 2 0 0 0 false QDMA_MM_MODE QDMA_REG_READ_PF_ONLY [];
   mk_xreg "H2C_MM_CONTROL" 0x1204 3 0 0 0 false QDMA_MM_MODE QDMA_REG_READ_PF_ONLY [];
   mk_xreg "H2C_MM_STATUS" 0x1240 1 0 0 0 false QDMA_MM_MODE QDMA_REG_READ_PF_ONLY [];
   mk_xreg "H2C_MM_CMPL_DSC_CNT" 0x1248 1 0 0 0 false QDMA_MM_MODE QDMA_REG_READ_PF_ONLY [];
   mk_xreg "H2C_MM_ERR_CODE_EN_MASK" 0x1254 1 0 0 0 false QDMA_MM_MODE QDMA_REG_READ_PF_ONLY [];
   mk_xreg "H2C_MM_ERR_CODE" 0x1258 1 0 0 0 false QDMA_MM_MODE QDMA_REG_READ_PF_ONLY [];
   mk_xreg "H2C_MM_ERR_INFO" 0x125C 1 0 0 0 false QDMA_MM_MODE QDMA_REG_READ_PF_ONLY [];
   mk_xreg "H2C_MM_PERF_MON_CTRL" 0x12C0 1 0 0 0 false QDMA_MM_MODE QDMA_REG_READ_PF_ONLY [];
   mk_xreg "H2C_MM_PERF_MON_CY_CNT" 0x12C4 2 0 0 0 false QDMA_MM_MODE QDMA_REG_READ_PF_ONLY []].

Definition qdma_config_regs_4 : list xreg_info :=
  [mk_xreg "H2C_MM_PERF_MON_DATA_CNT" 0x12CC 2 0 0 0 false QDMA_MM_MODE QDMA_REG_READ_PF_ONLY [];
   mk_xreg "H2C_MM_DBG_INFO" 0x12E8 1 0 0 0 false QDMA_MM_MODE QDMA_REG_READ_PF_ONLY [];
   mk_xreg "H2C_MM_REQ_THROT" 0x12EC 1 0 0 0 false QDMA_MM_MODE QDMA_REG_READ_PF_ONLY [];
   mk_xreg "FUNC_STATUS" 0x2400 1 0 0 0 false QDMA_MAILBOX QDMA_REG_READ_PF_ONLY [];
   mk_xreg "FUNC_CMD" 0x2404 1 0 0 0 false QDMA_MAILBOX QDMA_REG_READ_PF_ONLY [];
   mk_xreg "FUNC_INTR_VEC" 0x2408 1 0 0 0 false QDMA_MAILBOX QDMA_REG_READ_PF_ONLY [];
   mk_xreg "TARGET_FUNC" 0x240C 1 0 0 0 false QDMA_MAILBOX QDMA_REG_READ_PF_ONLY [];
   mk_xreg "INTR_CTRL" 0x2410 1 0 0 0 false QDMA_MAILBOX QDMA_REG_READ_PF_ONLY [];
   mk_xreg "PF_ACK" 0x2420 8 0 0 0 false QDMA_MAILBOX QDMA_REG_READ_PF_ONLY [];
   mk_xreg "FLR_CTRL_STATUS" 0x2500 1 0 0 0 false QDMA_MAILBOX QDMA_REG_READ_PF_ONLY [];
   mk_xreg "MSG_IN" 0x2800 32 0 0 0 false QDMA_MAILBOX QDMA_REG_READ_PF_ONLY [];
   mk_xreg "MSG_OUT" 0x2C00 32 0 0 0 false QDMA_MAILBOX QDMA_REG_READ_PF_ONLY [];
   mk_xreg "" 0 0 0 0 0 false 0 QDMA_REG_READ_PF_ONLY []].

Definition qdma_config_regs : list xreg_info :=
  qdma_config_regs_1 ++ qdma_config_regs_2 ++ qdma_config_regs_3 ++ qdma_config_regs_4.
