(* ===== verification/S80Regs.v ===== *)
(** * S80Regs: masks of the fields of the registers of the hard QDMA

    From [qdma_s80_hard_reg.h]: the masks that the tables of fields and of hardware errors
    name, as abbreviations, like the macros they are.  Those of contexts and of the registers that
    are programmed are in S80Ctxt and S80Csr. *)

From S2P Require Import Prelude Fields.
Local Open Scope Z_scope.

Abbreviation CFG_BLK_IDENTIFIER_MASK := (GENMASK 31 20).
Abbreviation CFG_BLK_IDENTIFIER_1_MASK := (GENMASK 19 16).
Abbreviation CFG_BLK_IDENTIFIER_RSVD_1_MASK := (GENMASK 15 8).
Abbreviation CFG_BLK_IDENTIFIER_VERSION_MASK := (GENMASK 7 0).
Abbreviation CFG_BLK_BUSDEV_BDF_MASK := (GENMASK 15 0).
Abbreviation CFG_BLK_PCIE_MAX_PLD_SIZE_MASK := (GENMASK 2 0).
Abbreviation CFG_BLK_PCIE_MAX_READ_REQ_SIZE_MASK := (GENMASK 2 0).
Abbreviation CFG_BLK_SYSTEM_ID_MASK := (GENMASK 15 0).
Abbreviation CFG_BLK_MSI_ENABLE_3_MASK := (BIT 17).
Abbreviation CFG_BLK_MSI_ENABLE_MSIX3_MASK := (BIT 16).
Abbreviation CFG_BLK_MSI_ENABLE_2_MASK := (BIT 13).
Abbreviation CFG_BLK_MSI_ENABLE_MSIX2_MASK := (BIT 12).
Abbreviation CFG_BLK_MSI_ENABLE_1_MASK := (BIT 9).
Abbreviation CFG_BLK_MSI_ENABLE_MSIX1_MASK := (BIT 8).
Abbreviation CFG_BLK_MSI_ENABLE_0_MASK := (BIT 1).
Abbreviation CFG_BLK_MSI_ENABLE_MSIX0_MASK := (BIT 0).
Abbreviation CFG_PCIE_DATA_WIDTH_DATAPATH_MASK := (GENMASK 2 0).
Abbreviation CFG_PCIE_CTL_RRQ_DISABLE_MASK := (BIT 1).
Abbreviation CFG_PCIE_CTL_RELAXED_ORDERING_MASK := (BIT 0).
Abbreviation CFG_AXI_USER_MAX_PLD_SIZE_ISSUED_MASK := (GENMASK 6 4).
Abbreviation CFG_AXI_USER_MAX_PLD_SIZE_PROG_MASK := (GENMASK 2 0).
Abbreviation CFG_AXI_USER_MAX_READ_REQ_SIZE_USISSUED_MASK := (GENMASK 6 4).
Abbreviation CFG_AXI_USER_MAX_READ_REQ_SIZE_USPROG_MASK := (GENMASK 2 0).
Abbreviation CFG_BLK_MISC_CTL_NUM_TAG_MASK := (GENMASK 19 8).
Abbreviation CFG_BLK_MISC_CTL_RQ_METERING_MULTIPLIER_MASK := (GENMASK 4 0).
Abbreviation CFG_BLK_SCRATCH_0_MASK := (GENMASK 31 0).
Abbreviation CFG_BLK_SCRATCH_1_MASK := (GENMASK 31 0).
Abbreviation CFG_BLK_SCRATCH_2_MASK := (GENMASK 31 0).
Abbreviation CFG_BLK_SCRATCH_3_MASK := (GENMASK 31 0).
Abbreviation CFG_BLK_SCRATCH_4_MASK := (GENMASK 31 0).
Abbreviation CFG_BLK_SCRATCH_5_MASK := (GENMASK 31 0).
Abbreviation CFG_BLK_SCRATCH_6_MASK := (GENMASK 31 0).
Abbreviation CFG_BLK_SCRATCH_7_MASK := (GENMASK 31 0).
Abbreviation RAM_SBE_MSK_A_MASK := (GENMASK 31 0).
Abbreviation RAM_SBE_STS_A_RSVD_1_MASK := (BIT 31).
Abbreviation RAM_SBE_STS_A_PFCH_LL_RAM_MASK := (BIT 30).
Abbreviation RAM_SBE_STS_A_WRB_CTXT_RAM_MASK := (BIT 29).
Abbreviation RAM_SBE_STS_A_PFCH_CTXT_RAM_MASK := (BIT 28).
Abbreviation RAM_SBE_STS_A_DESC_REQ_FIFO_RAM_MASK := (BIT 27).
Abbreviation RAM_SBE_STS_A_INT_CTXT_RAM_MASK := (BIT 26).
Abbreviation RAM_SBE_STS_A_INT_QID2VEC_RAM_MASK := (BIT 25).
Abbreviation RAM_SBE_STS_A_WRB_COAL_DATA_RAM_MASK := (BIT 24).
Abbreviation RAM_SBE_STS_A_TUSER_FIFO_RAM_MASK := (BIT 23).
Abbreviation RAM_SBE_STS_A_QID_FIFO_RAM_MASK := (BIT 22).
Abbreviation RAM_SBE_STS_A_PLD_FIFO_RAM_MASK := (BIT 21).
Abbreviation RAM_SBE_STS_A_TIMER_FIFO_RAM_MASK := (BIT 20).
Abbreviation RAM_SBE_STS_A_PASID_CTXT_RAM_MASK := (BIT 19).
Abbreviation RAM_SBE_STS_A_DSC_CPLD_MASK := (BIT 18).
Abbreviation RAM_SBE_STS_A_DSC_CPLI_MASK := (BIT 17).
Abbreviation RAM_SBE_STS_A_DSC_SW_CTXT_MASK := (BIT 16).
Abbreviation RAM_SBE_STS_A_DSC_CRD_RCV_MASK := (BIT 15).
Abbreviation RAM_SBE_STS_A_DSC_HW_CTXT_MASK := (BIT 14).
Abbreviation RAM_SBE_STS_A_FUNC_MAP_MASK := (BIT 13).
Abbreviation RAM_SBE_STS_A_C2H_WR_BRG_DAT_MASK := (BIT 12).
Abbreviation RAM_SBE_STS_A_C2H_RD_BRG_DAT_MASK := (BIT 11).
Abbreviation RAM_SBE_STS_A_H2C_WR_BRG_DAT_MASK := (BIT 10).
Abbreviation RAM_SBE_STS_A_H2C_RD_BRG_DAT_MASK := (BIT 9).
Abbreviation RAM_SBE_STS_A_RSVD_2_MASK := (GENMASK 8 5).
Abbreviation RAM_SBE_STS_A_MI_C2H0_DAT_MASK := (BIT 4).
Abbreviation RAM_SBE_STS_A_RSVD_3_MASK := (GENMASK 3 1).
Abbreviation RAM_SBE_STS_A_MI_H2C0_DAT_MASK := (BIT 0).
Abbreviation RAM_DBE_MSK_A_MASK := (GENMASK 31 0).
Abbreviation RAM_DBE_STS_A_RSVD_1_MASK := (BIT 31).
Abbreviation RAM_DBE_STS_A_PFCH_LL_RAM_MASK := (BIT 30).
Abbreviation RAM_DBE_STS_A_WRB_CTXT_RAM_MASK := (BIT 29).
Abbreviation RAM_DBE_STS_A_PFCH_CTXT_RAM_MASK := (BIT 28).
Abbreviation RAM_DBE_STS_A_DESC_REQ_FIFO_RAM_MASK := (BIT 27).
Abbreviation RAM_DBE_STS_A_INT_CTXT_RAM_MASK := (BIT 26).
Abbreviation RAM_DBE_STS_A_INT_QID2VEC_RAM_MASK := (BIT 25).
Abbreviation RAM_DBE_STS_A_WRB_COAL_DATA_RAM_MASK := (BIT 24).
Abbreviation RAM_DBE_STS_A_TUSER_FIFO_RAM_MASK := (BIT 23).
Abbreviation RAM_DBE_STS_A_QID_FIFO_RAM_MASK := (BIT 22).
Abbreviation RAM_DBE_STS_A_PLD_FIFO_RAM_MASK := (BIT 21).
Abbreviation RAM_DBE_STS_A_TIMER_FIFO_RAM_MASK := (BIT 20).
Abbreviation RAM_DBE_STS_A_PASID_CTXT_RAM_MASK := (BIT 19).
Abbreviation RAM_DBE_STS_A_DSC_CPLD_MASK := (BIT 18).
Abbreviation RAM_DBE_STS_A_DSC_CPLI_MASK := (BIT 17).
Abbreviation RAM_DBE_STS_A_DSC_SW_CTXT_MASK := (BIT 16).
Abbreviation RAM_DBE_STS_A_DSC_CRD_RCV_MASK := (BIT 15).
Abbreviation RAM_DBE_STS_A_DSC_HW_CTXT_MASK := (BIT 14).
Abbreviation RAM_DBE_STS_A_FUNC_MAP_MASK := (BIT 13).
Abbreviation RAM_DBE_STS_A_C2H_WR_BRG_DAT_MASK := (BIT 12).
Abbreviation RAM_DBE_STS_A_C2H_RD_BRG_DAT_MASK := (BIT 11).
Abbreviation RAM_DBE_STS_A_H2C_WR_BRG_DAT_MASK := (BIT 10).
Abbreviation RAM_DBE_STS_A_H2C_RD_BRG_DAT_MASK := (BIT 9).
Abbreviation RAM_DBE_STS_A_RSVD_2_MASK := (GENMASK 8 5).
Abbreviation RAM_DBE_STS_A_MI_C2H0_DAT_MASK := (BIT 4).
Abbreviation RAM_DBE_STS_A_RSVD_3_MASK := (GENMASK 3 1).
Abbreviation RAM_DBE_STS_A_MI_H2C0_DAT_MASK := (BIT 0).
Abbreviation GLBL2_IDENTIFIER_MASK := (GENMASK 31 8).
Abbreviation GLBL2_IDENTIFIER_VERSION_MASK := (GENMASK 7 0).
Abbreviation GLBL2_PF_VF_BARLITE_INT_PF3_MAP_MASK := (GENMASK 23 18).
Abbreviation GLBL2_PF_VF_BARLITE_INT_PF2_MAP_MASK := (GENMASK 17 12).
Abbreviation GLBL2_PF_VF_BARLITE_INT_PF1_MAP_MASK := (GENMASK 11 6).
Abbreviation GLBL2_PF_VF_BARLITE_INT_PF0_MAP_MASK := (GENMASK 5 0).
Abbreviation GLBL2_PF_BARLITE_EXT_PF3_BAR_MAP_MASK := (GENMASK 23 18).
Abbreviation GLBL2_PF_BARLITE_EXT_PF2_BAR_MAP_MASK := (GENMASK 17 12).
Abbreviation GLBL2_PF_BARLITE_EXT_PF1_BAR_MAP_MASK := (GENMASK 11 6).
Abbreviation GLBL2_PF_BARLITE_EXT_PF0_BAR_MAP_MASK := (GENMASK 5 0).
Abbreviation GLBL2_PF_VF_BARLITE_EXT_PF3_MAP_MASK := (GENMASK 23 18).
Abbreviation GLBL2_PF_VF_BARLITE_EXT_PF2_MAP_MASK := (GENMASK 17 12).
Abbreviation GLBL2_PF_VF_BARLITE_EXT_PF1_MAP_MASK := (GENMASK 11 6).
Abbreviation GLBL2_PF_VF_BARLITE_EXT_PF0_MAP_MASK := (GENMASK 5 0).
Abbreviation GLBL2_CHANNEL_INST_RSVD_1_MASK := (GENMASK 31 18).
Abbreviation GLBL2_CHANNEL_INST_C2H_ST_MASK := (BIT 17).
Abbreviation GLBL2_CHANNEL_INST_H2C_ST_MASK := (BIT 16).
Abbreviation GLBL2_CHANNEL_INST_RSVD_2_MASK := (GENMASK 15 9).
Abbreviation GLBL2_CHANNEL_INST_C2H_ENG_MASK := (BIT 8).
Abbreviation GLBL2_CHANNEL_INST_RSVD_3_MASK := (GENMASK 7 1).
Abbreviation GLBL2_CHANNEL_INST_H2C_ENG_MASK := (BIT 0).
Abbreviation GLBL2_CHANNEL_MDMA_RSVD_1_MASK := (GENMASK 31 18).
Abbreviation GLBL2_CHANNEL_MDMA_RSVD_2_MASK := (GENMASK 15 9).
Abbreviation GLBL2_CHANNEL_MDMA_RSVD_3_MASK := (GENMASK 7 1).
Abbreviation GLBL2_CHANNEL_STRM_RSVD_1_MASK := (GENMASK 31 18).
Abbreviation GLBL2_CHANNEL_STRM_C2H_ST_MASK := (BIT 17).
Abbreviation GLBL2_CHANNEL_STRM_H2C_ST_MASK := (BIT 16).
Abbreviation GLBL2_CHANNEL_STRM_RSVD_2_MASK := (GENMASK 15 9).
Abbreviation GLBL2_CHANNEL_STRM_C2H_ENG_MASK := (BIT 8).
Abbreviation GLBL2_CHANNEL_STRM_RSVD_3_MASK := (GENMASK 7 1).
Abbreviation GLBL2_CHANNEL_STRM_H2C_ENG_MASK := (BIT 0).
Abbreviation GLBL2_CHANNEL_CAP_RSVD_1_MASK := (GENMASK 31 12).
Abbreviation GLBL2_CHANNEL_PASID_CAP_RSVD_1_MASK := (GENMASK 31 16).
Abbreviation GLBL2_CHANNEL_PASID_CAP_BRIDGEOFFSET_MASK := (GENMASK 15 4).
Abbreviation GLBL2_CHANNEL_PASID_CAP_RSVD_2_MASK := (GENMASK 3 2).
Abbreviation GLBL2_CHANNEL_PASID_CAP_BRIDGEEN_MASK := (BIT 1).
Abbreviation GLBL2_CHANNEL_PASID_CAP_DMAEN_MASK := (BIT 0).
Abbreviation GLBL2_CHANNEL_FUNC_RET_RSVD_1_MASK := (GENMASK 31 8).
Abbreviation GLBL2_CHANNEL_FUNC_RET_FUNC_MASK := (GENMASK 7 0).
Abbreviation GLBL2_SYSTEM_ID_RSVD_1_MASK := (GENMASK 31 16).
Abbreviation GLBL2_SYSTEM_ID_MASK := (GENMASK 15 0).
Abbreviation GLBL2_MISC_CAP_RSVD_1_MASK := (GENMASK 31 0).
Abbreviation GLBL2_PCIE_RQ0_NPH_AVL_MASK := (GENMASK 31 20).
Abbreviation GLBL2_PCIE_RQ0_RCB_AVL_MASK := (GENMASK 19 10).
Abbreviation GLBL2_PCIE_RQ0_SLV_RD_CREDS_MASK := (GENMASK 9 4).
Abbreviation GLBL2_PCIE_RQ0_TAG_EP_MASK := (GENMASK 3 2).
Abbreviation GLBL2_PCIE_RQ0_TAG_FL_MASK := (GENMASK 1 0).
Abbreviation GLBL2_PCIE_RQ1_RSVD_1_MASK := (GENMASK 31 17).
Abbreviation GLBL2_PCIE_RQ1_WTLP_REQ_MASK := (BIT 16).
Abbreviation GLBL2_PCIE_RQ1_WTLP_HEADER_FIFO_FL_MASK := (BIT 15).
Abbreviation GLBL2_PCIE_RQ1_WTLP_HEADER_FIFO_EP_MASK := (BIT 14).
Abbreviation GLBL2_PCIE_RQ1_RQ_FIFO_EP_MASK := (BIT 13).
Abbreviation GLBL2_PCIE_RQ1_RQ_FIFO_FL_MASK := (BIT 12).
Abbreviation GLBL2_PCIE_RQ1_TLPSM_MASK := (GENMASK 11 9).
Abbreviation GLBL2_PCIE_RQ1_TLPSM512_MASK := (GENMASK 8 6).
Abbreviation GLBL2_PCIE_RQ1_RREQ0_RCB_OK_MASK := (BIT 5).
Abbreviation GLBL2_PCIE_RQ1_RREQ0_SLV_MASK := (BIT 4).
Abbreviation GLBL2_PCIE_RQ1_RREQ0_VLD_MASK := (BIT 3).
Abbreviation GLBL2_PCIE_RQ1_RREQ1_RCB_OK_MASK := (BIT 2).
Abbreviation GLBL2_PCIE_RQ1_RREQ1_SLV_MASK := (BIT 1).
Abbreviation GLBL2_PCIE_RQ1_RREQ1_VLD_MASK := (BIT 0).
Abbreviation GLBL2_AXIMM_WR0_RSVD_1_MASK := (GENMASK 31 27).
Abbreviation GLBL2_AXIMM_WR0_WR_REQ_MASK := (BIT 26).
Abbreviation GLBL2_AXIMM_WR0_WR_CHN_MASK := (GENMASK 25 23).
Abbreviation GLBL2_AXIMM_WR0_WTLP_DATA_FIFO_EP_MASK := (BIT 22).
Abbreviation GLBL2_AXIMM_WR0_WPL_FIFO_EP_MASK := (BIT 21).
Abbreviation GLBL2_AXIMM_WR0_BRSP_CLAIM_CHN_MASK := (GENMASK 20 18).
Abbreviation GLBL2_AXIMM_WR0_WRREQ_CNT_MASK := (GENMASK 17 12).
Abbreviation GLBL2_AXIMM_WR0_BID_MASK := (GENMASK 11 9).
Abbreviation GLBL2_AXIMM_WR0_BVALID_MASK := (BIT 8).
Abbreviation GLBL2_AXIMM_WR0_BREADY_MASK := (BIT 7).
Abbreviation GLBL2_AXIMM_WR0_WVALID_MASK := (BIT 6).
Abbreviation GLBL2_AXIMM_WR0_WREADY_MASK := (BIT 5).
Abbreviation GLBL2_AXIMM_WR0_AWID_MASK := (GENMASK 4 2).
Abbreviation GLBL2_AXIMM_WR0_AWVALID_MASK := (BIT 1).
Abbreviation GLBL2_AXIMM_WR0_AWREADY_MASK := (BIT 0).
Abbreviation GLBL2_AXIMM_WR1_RSVD_1_MASK := (GENMASK 31 30).
Abbreviation GLBL2_AXIMM_WR1_BRSP_CNT4_MASK := (GENMASK 29 24).
Abbreviation GLBL2_AXIMM_WR1_BRSP_CNT3_MASK := (GENMASK 23 18).
Abbreviation GLBL2_AXIMM_WR1_BRSP_CNT2_MASK := (GENMASK 17 12).
Abbreviation GLBL2_AXIMM_WR1_BRSP_CNT1_MASK := (GENMASK 11 6).
Abbreviation GLBL2_AXIMM_WR1_BRSP_CNT0_MASK := (GENMASK 5 0).
Abbreviation GLBL2_AXIMM_RD0_RSVD_1_MASK := (GENMASK 31 23).
Abbreviation GLBL2_AXIMM_RD0_PND_CNT_MASK := (GENMASK 22 17).
Abbreviation GLBL2_AXIMM_RD0_RD_CHNL_MASK := (GENMASK 16 14).
Abbreviation GLBL2_AXIMM_RD0_RD_REQ_MASK := (BIT 13).
Abbreviation GLBL2_AXIMM_RD0_RRSP_CLAIM_CHNL_MASK := (GENMASK 12 10).
Abbreviation GLBL2_AXIMM_RD0_RID_MASK := (GENMASK 9 7).
Abbreviation GLBL2_AXIMM_RD0_RVALID_MASK := (BIT 6).
Abbreviation GLBL2_AXIMM_RD0_RREADY_MASK := (BIT 5).
Abbreviation GLBL2_AXIMM_RD0_ARID_MASK := (GENMASK 4 2).
Abbreviation GLBL2_AXIMM_RD0_ARVALID_MASK := (BIT 1).
Abbreviation GLBL2_AXIMM_RD0_ARREADY_MASK := (BIT 0).
Abbreviation GLBL2_AXIMM_RD1_RSVD_1_MASK := (GENMASK 31 30).
Abbreviation GLBL2_AXIMM_RD1_RRSP_CNT4_MASK := (GENMASK 29 24).
Abbreviation GLBL2_AXIMM_RD1_RRSP_CNT3_MASK := (GENMASK 23 18).
Abbreviation GLBL2_AXIMM_RD1_RRSP_CNT2_MASK := (GENMASK 17 12).
Abbreviation GLBL2_AXIMM_RD1_RRSP_CNT1_MASK := (GENMASK 11 6).
Abbreviation GLBL2_AXIMM_RD1_RRSP_CNT0_MASK := (GENMASK 5 0).
Abbreviation GLBL_RNG_SZ_1_RSVD_1_MASK := (GENMASK 31 16).
Abbreviation GLBL_RNG_SZ_1_RING_SIZE_MASK := (GENMASK 15 0).
Abbreviation GLBL_RNG_SZ_2_RSVD_1_MASK := (GENMASK 31 16).
Abbreviation GLBL_RNG_SZ_2_RING_SIZE_MASK := (GENMASK 15 0).
Abbreviation GLBL_RNG_SZ_3_RSVD_1_MASK := (GENMASK 31 16).
Abbreviation GLBL_RNG_SZ_3_RING_SIZE_MASK := (GENMASK 15 0).
Abbreviation GLBL_RNG_SZ_4_RSVD_1_MASK := (GENMASK 31 16).
Abbreviation GLBL_RNG_SZ_4_RING_SIZE_MASK := (GENMASK 15 0).
Abbreviation GLBL_RNG_SZ_5_RSVD_1_MASK := (GENMASK 31 16).
Abbreviation GLBL_RNG_SZ_5_RING_SIZE_MASK := (GENMASK 15 0).
Abbreviation GLBL_RNG_SZ_6_RSVD_1_MASK := (GENMASK 31 16).
Abbreviation GLBL_RNG_SZ_6_RING_SIZE_MASK := (GENMASK 15 0).
Abbreviation GLBL_RNG_SZ_7_RSVD_1_MASK := (GENMASK 31 16).
Abbreviation GLBL_RNG_SZ_7_RING_SIZE_MASK := (GENMASK 15 0).
Abbreviation GLBL_RNG_SZ_8_RSVD_1_MASK := (GENMASK 31 16).
Abbreviation GLBL_RNG_SZ_8_RING_SIZE_MASK := (GENMASK 15 0).
Abbreviation GLBL_RNG_SZ_9_RSVD_1_MASK := (GENMASK 31 16).
Abbreviation GLBL_RNG_SZ_9_RING_SIZE_MASK := (GENMASK 15 0).
Abbreviation GLBL_RNG_SZ_A_RSVD_1_MASK := (GENMASK 31 16).
Abbreviation GLBL_RNG_SZ_A_RING_SIZE_MASK := (GENMASK 15 0).
Abbreviation GLBL_RNG_SZ_B_RSVD_1_MASK := (GENMASK 31 16).
Abbreviation GLBL_RNG_SZ_B_RING_SIZE_MASK := (GENMASK 15 0).
Abbreviation GLBL_RNG_SZ_C_RSVD_1_MASK := (GENMASK 31 16).
Abbreviation GLBL_RNG_SZ_C_RING_SIZE_MASK := (GENMASK 15 0).
Abbreviation GLBL_RNG_SZ_D_RSVD_1_MASK := (GENMASK 31 16).
Abbreviation GLBL_RNG_SZ_D_RING_SIZE_MASK := (GENMASK 15 0).
Abbreviation GLBL_RNG_SZ_E_RSVD_1_MASK := (GENMASK 31 16).
Abbreviation GLBL_RNG_SZ_E_RING_SIZE_MASK := (GENMASK 15 0).
Abbreviation GLBL_RNG_SZ_F_RSVD_1_MASK := (GENMASK 31 16).
Abbreviation GLBL_RNG_SZ_F_RING_SIZE_MASK := (GENMASK 15 0).
Abbreviation GLBL_RNG_SZ_10_RSVD_1_MASK := (GENMASK 31 16).
Abbreviation GLBL_RNG_SZ_10_RING_SIZE_MASK := (GENMASK 15 0).
Abbreviation GLBL_ERR_STAT_RSVD_1_MASK := (GENMASK 31 12).
Abbreviation GLBL_ERR_STAT_ERR_H2C_ST_MASK := (BIT 11).
Abbreviation GLBL_ERR_STAT_ERR_BDG_MASK := (BIT 10).
Abbreviation GLBL_ERR_STAT_IND_CTXT_CMD_ERR_MASK := (BIT 9).
Abbreviation GLBL_ERR_STAT_ERR_C2H_ST_MASK := (BIT 8).
Abbreviation GLBL_ERR_STAT_ERR_C2H_MM_1_MASK := (BIT 7).
Abbreviation GLBL_ERR_STAT_ERR_C2H_MM_0_MASK := (BIT 6).
Abbreviation GLBL_ERR_STAT_ERR_H2C_MM_1_MASK := (BIT 5).
Abbreviation GLBL_ERR_STAT_ERR_H2C_MM_0_MASK := (BIT 4).
Abbreviation GLBL_ERR_STAT_ERR_TRQ_MASK := (BIT 3).
Abbreviation GLBL_ERR_STAT_ERR_DSC_MASK := (BIT 2).
Abbreviation GLBL_ERR_STAT_ERR_RAM_DBE_MASK := (BIT 1).
Abbreviation GLBL_ERR_STAT_ERR_RAM_SBE_MASK := (BIT 0).
Abbreviation GLBL_ERR_RSVD_1_MASK := (GENMASK 31 9).
Abbreviation GLBL_ERR_MASK := (GENMASK 8 0).
Abbreviation GLBL_DSC_CFG_RSVD_1_MASK := (GENMASK 31 10).
Abbreviation GLBL_DSC_CFG_UNC_OVR_COR_MASK := (BIT 9).
Abbreviation GLBL_DSC_CFG_CTXT_FER_DIS_MASK := (BIT 8).
Abbreviation GLBL_DSC_CFG_RSVD_2_MASK := (GENMASK 7 6).
Abbreviation GLBL_DSC_ERR_STS_RSVD_1_MASK := (GENMASK 31 25).
Abbreviation GLBL_DSC_ERR_STS_SBE_MASK := (BIT 24).
Abbreviation GLBL_DSC_ERR_STS_DBE_MASK := (BIT 23).
Abbreviation GLBL_DSC_ERR_STS_RQ_CANCEL_MASK := (BIT 22).
Abbreviation GLBL_DSC_ERR_STS_DSC_MASK := (BIT 21).
Abbreviation GLBL_DSC_ERR_STS_DMA_MASK := (BIT 20).
Abbreviation GLBL_DSC_ERR_STS_FLR_CANCEL_MASK := (BIT 19).
Abbreviation GLBL_DSC_ERR_STS_RSVD_2_MASK := (GENMASK 18 17).
Abbreviation GLBL_DSC_ERR_STS_DAT_POISON_MASK := (BIT 16).
Abbreviation GLBL_DSC_ERR_STS_TIMEOUT_MASK := (BIT 9).
Abbreviation GLBL_DSC_ERR_STS_FLR_MASK := (BIT 5).
Abbreviation GLBL_DSC_ERR_STS_TAG_MASK := (BIT 4).
Abbreviation GLBL_DSC_ERR_STS_ADDR_MASK := (BIT 3).
Abbreviation GLBL_DSC_ERR_STS_PARAM_MASK := (BIT 2).
Abbreviation GLBL_DSC_ERR_STS_UR_CA_MASK := (BIT 1).
Abbreviation GLBL_DSC_ERR_STS_POISON_MASK := (BIT 0).
Abbreviation GLBL_DSC_ERR_MSK_MASK := (GENMASK 8 0).
Abbreviation GLBL_DSC_ERR_LOG0_VALID_MASK := (BIT 31).
Abbreviation GLBL_DSC_ERR_LOG0_RSVD_1_MASK := (GENMASK 30 29).
Abbreviation GLBL_DSC_ERR_LOG0_QID_MASK := (GENMASK 28 17).
Abbreviation GLBL_DSC_ERR_LOG0_SEL_MASK := (BIT 16).
Abbreviation GLBL_DSC_ERR_LOG0_CIDX_MASK := (GENMASK 15 0).
Abbreviation GLBL_DSC_ERR_LOG1_RSVD_1_MASK := (GENMASK 31 9).
Abbreviation GLBL_DSC_ERR_LOG1_SUB_TYPE_MASK := (GENMASK 8 5).
Abbreviation GLBL_DSC_ERR_LOG1_ERR_TYPE_MASK := (GENMASK 4 0).
Abbreviation GLBL_TRQ_ERR_STS_RSVD_1_MASK := (GENMASK 31 4).
Abbreviation GLBL_TRQ_ERR_STS_TCP_TIMEOUT_MASK := (BIT 3).
Abbreviation GLBL_TRQ_ERR_STS_VF_ACCESS_ERR_MASK := (BIT 2).
Abbreviation GLBL_TRQ_ERR_STS_QID_RANGE_MASK := (BIT 1).
Abbreviation GLBL_TRQ_ERR_STS_UNMAPPED_MASK := (BIT 0).
Abbreviation GLBL_TRQ_ERR_MSK_MASK := (GENMASK 31 0).
Abbreviation GLBL_TRQ_ERR_LOG_RSVD_1_MASK := (GENMASK 31 28).
Abbreviation GLBL_TRQ_ERR_LOG_TARGET_MASK := (GENMASK 27 24).
Abbreviation GLBL_TRQ_ERR_LOG_FUNC_MASK := (GENMASK 23 16).
Abbreviation GLBL_TRQ_ERR_LOG_ADDRESS_MASK := (GENMASK 15 0).
Abbreviation GLBL_DSC_DAT0_RSVD_1_MASK := (GENMASK 31 30).
Abbreviation GLBL_DSC_DAT0_CTXT_ARB_DIR_MASK := (BIT 29).
Abbreviation GLBL_DSC_DAT0_CTXT_ARB_QID_MASK := (GENMASK 28 17).
Abbreviation GLBL_DSC_DAT0_CTXT_ARB_REQ_MASK := (GENMASK 16 12).
Abbreviation GLBL_DSC_DAT0_IRQ_FIFO_FL_MASK := (BIT 11).
Abbreviation GLBL_DSC_DAT0_TMSTALL_MASK := (BIT 10).
Abbreviation GLBL_DSC_DAT0_RRQ_STALL_MASK := (GENMASK 9 8).
Abbreviation GLBL_DSC_DAT0_RCP_FIFO_SPC_STALL_MASK := (GENMASK 7 6).
Abbreviation GLBL_DSC_DAT0_RRQ_FIFO_SPC_STALL_MASK := (GENMASK 5 4).
Abbreviation GLBL_DSC_DAT0_FAB_MRKR_RSP_STALL_MASK := (GENMASK 3 2).
Abbreviation GLBL_DSC_DAT0_DSC_OUT_STALL_MASK := (GENMASK 1 0).
Abbreviation GLBL_DSC_DAT1_RSVD_1_MASK := (GENMASK 31 28).
Abbreviation GLBL_DSC_DAT1_EVT_SPC_C2H_MASK := (GENMASK 27 22).
Abbreviation GLBL_DSC_DAT1_EVT_SP_H2C_MASK := (GENMASK 21 16).
Abbreviation GLBL_DSC_DAT1_DSC_SPC_C2H_MASK := (GENMASK 15 8).
Abbreviation GLBL_DSC_DAT1_DSC_SPC_H2C_MASK := (GENMASK 7 0).
Abbreviation TRQ_SEL_FMAP_0_RSVD_1_MASK := (GENMASK 31 23).
Abbreviation TRQ_SEL_FMAP_1_RSVD_1_MASK := (GENMASK 31 23).
Abbreviation TRQ_SEL_FMAP_1_QID_MAX_MASK := (GENMASK 22 11).
Abbreviation TRQ_SEL_FMAP_1_QID_BASE_MASK := (GENMASK 10 0).
Abbreviation TRQ_SEL_FMAP_2_RSVD_1_MASK := (GENMASK 31 23).
Abbreviation TRQ_SEL_FMAP_2_QID_MAX_MASK := (GENMASK 22 11).
Abbreviation TRQ_SEL_FMAP_2_QID_BASE_MASK := (GENMASK 10 0).
Abbreviation TRQ_SEL_FMAP_3_RSVD_1_MASK := (GENMASK 31 23).
Abbreviation TRQ_SEL_FMAP_3_QID_MAX_MASK := (GENMASK 22 11).
Abbreviation TRQ_SEL_FMAP_3_QID_BASE_MASK := (GENMASK 10 0).
Abbreviation TRQ_SEL_FMAP_4_RSVD_1_MASK := (GENMASK 31 23).
Abbreviation TRQ_SEL_FMAP_4_QID_MAX_MASK := (GENMASK 22 11).
Abbreviation TRQ_SEL_FMAP_4_QID_BASE_MASK := (GENMASK 10 0).
Abbreviation TRQ_SEL_FMAP_5_RSVD_1_MASK := (GENMASK 31 23).
Abbreviation TRQ_SEL_FMAP_5_QID_MAX_MASK := (GENMASK 22 11).
Abbreviation TRQ_SEL_FMAP_5_QID_BASE_MASK := (GENMASK 10 0).
Abbreviation TRQ_SEL_FMAP_6_RSVD_1_MASK := (GENMASK 31 23).
Abbreviation TRQ_SEL_FMAP_6_QID_MAX_MASK := (GENMASK 22 11).
Abbreviation TRQ_SEL_FMAP_6_QID_BASE_MASK := (GENMASK 10 0).
Abbreviation TRQ_SEL_FMAP_7_RSVD_1_MASK := (GENMASK 31 23).
Abbreviation TRQ_SEL_FMAP_7_QID_MAX_MASK := (GENMASK 22 11).
Abbreviation TRQ_SEL_FMAP_7_QID_BASE_MASK := (GENMASK 10 0).
Abbreviation TRQ_SEL_FMAP_8_RSVD_1_MASK := (GENMASK 31 23).
Abbreviation TRQ_SEL_FMAP_8_QID_MAX_MASK := (GENMASK 22 11).
Abbreviation TRQ_SEL_FMAP_8_QID_BASE_MASK := (GENMASK 10 0).
Abbreviation TRQ_SEL_FMAP_9_RSVD_1_MASK := (GENMASK 31 23).
Abbreviation TRQ_SEL_FMAP_9_QID_MAX_MASK := (GENMASK 22 11).
Abbreviation TRQ_SEL_FMAP_9_QID_BASE_MASK := (GENMASK 10 0).
Abbreviation TRQ_SEL_FMAP_A_RSVD_1_MASK := (GENMASK 31 23).
Abbreviation TRQ_SEL_FMAP_A_QID_MAX_MASK := (GENMASK 22 11).
Abbreviation TRQ_SEL_FMAP_A_QID_BASE_MASK := (GENMASK 10 0).
Abbreviation TRQ_SEL_FMAP_B_RSVD_1_MASK := (GENMASK 31 23).
Abbreviation TRQ_SEL_FMAP_B_QID_MAX_MASK := (GENMASK 22 11).
Abbreviation TRQ_SEL_FMAP_B_QID_BASE_MASK := (GENMASK 10 0).
Abbreviation TRQ_SEL_FMAP_D_RSVD_1_MASK := (GENMASK 31 23).
Abbreviation TRQ_SEL_FMAP_D_QID_MAX_MASK := (GENMASK 22 11).
Abbreviation TRQ_SEL_FMAP_D_QID_BASE_MASK := (GENMASK 10 0).
Abbreviation TRQ_SEL_FMAP_E_RSVD_1_MASK := (GENMASK 31 23).
Abbreviation TRQ_SEL_FMAP_E_QID_MAX_MASK := (GENMASK 22 11).
Abbreviation TRQ_SEL_FMAP_E_QID_BASE_MASK := (GENMASK 10 0).
Abbreviation TRQ_SEL_FMAP_F_RSVD_1_MASK := (GENMASK 31 23).
Abbreviation TRQ_SEL_FMAP_F_QID_MAX_MASK := (GENMASK 22 11).
Abbreviation TRQ_SEL_FMAP_F_QID_BASE_MASK := (GENMASK 10 0).
Abbreviation TRQ_SEL_FMAP_10_RSVD_1_MASK := (GENMASK 31 23).
Abbreviation TRQ_SEL_FMAP_10_QID_MAX_MASK := (GENMASK 22 11).
Abbreviation TRQ_SEL_FMAP_10_QID_BASE_MASK := (GENMASK 10 0).
Abbreviation TRQ_SEL_FMAP_11_RSVD_1_MASK := (GENMASK 31 23).
Abbreviation TRQ_SEL_FMAP_11_QID_MAX_MASK := (GENMASK 22 11).
Abbreviation TRQ_SEL_FMAP_11_QID_BASE_MASK := (GENMASK 10 0).
Abbreviation TRQ_SEL_FMAP_12_RSVD_1_MASK := (GENMASK 31 23).
Abbreviation TRQ_SEL_FMAP_12_QID_MAX_MASK := (GENMASK 22 11).
Abbreviation TRQ_SEL_FMAP_12_QID_BASE_MASK := (GENMASK 10 0).
Abbreviation TRQ_SEL_FMAP_13_RSVD_1_MASK := (GENMASK 31 23).
Abbreviation TRQ_SEL_FMAP_13_QID_MAX_MASK := (GENMASK 22 11).
Abbreviation TRQ_SEL_FMAP_13_QID_BASE_MASK := (GENMASK 10 0).
Abbreviation TRQ_SEL_FMAP_14_RSVD_1_MASK := (GENMASK 31 23).
Abbreviation TRQ_SEL_FMAP_14_QID_MAX_MASK := (GENMASK 22 11).
Abbreviation TRQ_SEL_FMAP_14_QID_BASE_MASK := (GENMASK 10 0).
Abbreviation TRQ_SEL_FMAP_15_RSVD_1_MASK := (GENMASK 31 23).
Abbreviation TRQ_SEL_FMAP_15_QID_MAX_MASK := (GENMASK 22 11).
Abbreviation TRQ_SEL_FMAP_15_QID_BASE_MASK := (GENMASK 10 0).
Abbreviation TRQ_SEL_FMAP_16_RSVD_1_MASK := (GENMASK 31 23).
Abbreviation TRQ_SEL_FMAP_16_QID_MAX_MASK := (GENMASK 22 11).
Abbreviation TRQ_SEL_FMAP_16_QID_BASE_MASK := (GENMASK 10 0).
Abbreviation TRQ_SEL_FMAP_17_RSVD_1_MASK := (GENMASK 31 23).
Abbreviation TRQ_SEL_FMAP_17_QID_MAX_MASK := (GENMASK 22 11).
Abbreviation TRQ_SEL_FMAP_17_QID_BASE_MASK := (GENMASK 10 0).
Abbreviation TRQ_SEL_FMAP_18_RSVD_1_MASK := (GENMASK 31 23).
Abbreviation TRQ_SEL_FMAP_18_QID_MAX_MASK := (GENMASK 22 11).
Abbreviation TRQ_SEL_FMAP_18_QID_BASE_MASK := (GENMASK 10 0).
Abbreviation TRQ_SEL_FMAP_19_RSVD_1_MASK := (GENMASK 31 23).
Abbreviation TRQ_SEL_FMAP_19_QID_MAX_MASK := (GENMASK 22 11).
Abbreviation TRQ_SEL_FMAP_19_QID_BASE_MASK := (GENMASK 10 0).
Abbreviation TRQ_SEL_FMAP_1A_RSVD_1_MASK := (GENMASK 31 23).
Abbreviation TRQ_SEL_FMAP_1A_QID_MAX_MASK := (GENMASK 22 11).
Abbreviation TRQ_SEL_FMAP_1A_QID_BASE_MASK := (GENMASK 10 0).
Abbreviation TRQ_SEL_FMAP_1B_RSVD_1_MASK := (GENMASK 31 23).
Abbreviation TRQ_SEL_FMAP_1B_QID_MAX_MASK := (GENMASK 22 11).
Abbreviation TRQ_SEL_FMAP_1B_QID_BASE_MASK := (GENMASK 10 0).
Abbreviation TRQ_SEL_FMAP_1C_RSVD_1_MASK := (GENMASK 31 23).
Abbreviation TRQ_SEL_FMAP_1C_QID_MAX_MASK := (GENMASK 22 11).
Abbreviation TRQ_SEL_FMAP_1C_QID_BASE_MASK := (GENMASK 10 0).
Abbreviation TRQ_SEL_FMAP_1D_RSVD_1_MASK := (GENMASK 31 23).
Abbreviation TRQ_SEL_FMAP_1D_QID_MAX_MASK := (GENMASK 22 11).
Abbreviation TRQ_SEL_FMAP_1D_QID_BASE_MASK := (GENMASK 10 0).
Abbreviation TRQ_SEL_FMAP_1E_RSVD_1_MASK := (GENMASK 31 23).
Abbreviation TRQ_SEL_FMAP_1E_QID_MAX_MASK := (GENMASK 22 11).
Abbreviation TRQ_SEL_FMAP_1E_QID_BASE_MASK := (GENMASK 10 0).
Abbreviation TRQ_SEL_FMAP_1F_RSVD_1_MASK := (GENMASK 31 23).
Abbreviation TRQ_SEL_FMAP_1F_QID_MAX_MASK := (GENMASK 22 11).
Abbreviation TRQ_SEL_FMAP_1F_QID_BASE_MASK := (GENMASK 10 0).
Abbreviation TRQ_SEL_FMAP_20_RSVD_1_MASK := (GENMASK 31 23).
Abbreviation TRQ_SEL_FMAP_20_QID_MAX_MASK := (GENMASK 22 11).
Abbreviation TRQ_SEL_FMAP_20_QID_BASE_MASK := (GENMASK 10 0).
Abbreviation TRQ_SEL_FMAP_21_RSVD_1_MASK := (GENMASK 31 23).
Abbreviation TRQ_SEL_FMAP_21_QID_MAX_MASK := (GENMASK 22 11).
Abbreviation TRQ_SEL_FMAP_21_QID_BASE_MASK := (GENMASK 10 0).
Abbreviation TRQ_SEL_FMAP_22_RSVD_1_MASK := (GENMASK 31 23).
Abbreviation TRQ_SEL_FMAP_22_QID_MAX_MASK := (GENMASK 22 11).
Abbreviation TRQ_SEL_FMAP_22_QID_BASE_MASK := (GENMASK 10 0).
Abbreviation TRQ_SEL_FMAP_23_RSVD_1_MASK := (GENMASK 31 23).
Abbreviation TRQ_SEL_FMAP_23_QID_MAX_MASK := (GENMASK 22 11).
Abbreviation TRQ_SEL_FMAP_23_QID_BASE_MASK := (GENMASK 10 0).
Abbreviation TRQ_SEL_FMAP_24_RSVD_1_MASK := (GENMASK 31 23).
Abbreviation TRQ_SEL_FMAP_24_QID_MAX_MASK := (GENMASK 22 11).
Abbreviation TRQ_SEL_FMAP_24_QID_BASE_MASK := (GENMASK 10 0).
Abbreviation TRQ_SEL_FMAP_25_RSVD_1_MASK := (GENMASK 31 23).
Abbreviation TRQ_SEL_FMAP_25_QID_MAX_MASK := (GENMASK 22 11).
Abbreviation TRQ_SEL_FMAP_25_QID_BASE_MASK := (GENMASK 10 0).
Abbreviation TRQ_SEL_FMAP_26_RSVD_1_MASK := (GENMASK 31 23).
Abbreviation TRQ_SEL_FMAP_26_QID_MAX_MASK := (GENMASK 22 11).
Abbreviation TRQ_SEL_FMAP_26_QID_BASE_MASK := (GENMASK 10 0).
Abbreviation TRQ_SEL_FMAP_27_RSVD_1_MASK := (GENMASK 31 23).
Abbreviation TRQ_SEL_FMAP_27_QID_MAX_MASK := (GENMASK 22 11).
Abbreviation TRQ_SEL_FMAP_27_QID_BASE_MASK := (GENMASK 10 0).
Abbreviation TRQ_SEL_FMAP_28_RSVD_1_MASK := (GENMASK 31 23).
Abbreviation TRQ_SEL_FMAP_28_QID_MAX_MASK := (GENMASK 22 11).
Abbreviation TRQ_SEL_FMAP_28_QID_BASE_MASK := (GENMASK 10 0).
Abbreviation TRQ_SEL_FMAP_29_RSVD_1_MASK := (GENMASK 31 23).
Abbreviation TRQ_SEL_FMAP_29_QID_MAX_MASK := (GENMASK 22 11).
Abbreviation TRQ_SEL_FMAP_29_QID_BASE_MASK := (GENMASK 10 0).
Abbreviation TRQ_SEL_FMAP_2A_RSVD_1_MASK := (GENMASK 31 23).
Abbreviation TRQ_SEL_FMAP_2A_QID_MAX_MASK := (GENMASK 22 11).
Abbreviation TRQ_SEL_FMAP_2A_QID_BASE_MASK := (GENMASK 10 0).
Abbreviation TRQ_SEL_FMAP_2B_RSVD_1_MASK := (GENMASK 31 23).
Abbreviation TRQ_SEL_FMAP_2B_QID_MAX_MASK := (GENMASK 22 11).
Abbreviation TRQ_SEL_FMAP_2B_QID_BASE_MASK := (GENMASK 10 0).
Abbreviation TRQ_SEL_FMAP_2C_RSVD_1_MASK := (GENMASK 31 23).
Abbreviation TRQ_SEL_FMAP_2C_QID_MAX_MASK := (GENMASK 22 11).
Abbreviation TRQ_SEL_FMAP_2C_QID_BASE_MASK := (GENMASK 10 0).
Abbreviation TRQ_SEL_FMAP_2D_RSVD_1_MASK := (GENMASK 31 23).
Abbreviation TRQ_SEL_FMAP_2D_QID_MAX_MASK := (GENMASK 22 11).
Abbreviation TRQ_SEL_FMAP_2D_QID_BASE_MASK := (GENMASK 10 0).
Abbreviation TRQ_SEL_FMAP_2E_RSVD_1_MASK := (GENMASK 31 23).
Abbreviation TRQ_SEL_FMAP_2E_QID_MAX_MASK := (GENMASK 22 11).
Abbreviation TRQ_SEL_FMAP_2E_QID_BASE_MASK := (GENMASK 10 0).
Abbreviation TRQ_SEL_FMAP_2F_RSVD_1_MASK := (GENMASK 31 23).
Abbreviation TRQ_SEL_FMAP_2F_QID_MAX_MASK := (GENMASK 22 11).
Abbreviation TRQ_SEL_FMAP_2F_QID_BASE_MASK := (GENMASK 10 0).
Abbreviation TRQ_SEL_FMAP_30_RSVD_1_MASK := (GENMASK 31 23).
Abbreviation TRQ_SEL_FMAP_30_QID_MAX_MASK := (GENMASK 22 11).
Abbreviation TRQ_SEL_FMAP_30_QID_BASE_MASK := (GENMASK 10 0).
Abbreviation TRQ_SEL_FMAP_31_RSVD_1_MASK := (GENMASK 31 23).
Abbreviation TRQ_SEL_FMAP_31_QID_MAX_MASK := (GENMASK 22 11).
Abbreviation TRQ_SEL_FMAP_31_QID_BASE_MASK := (GENMASK 10 0).
Abbreviation TRQ_SEL_FMAP_32_RSVD_1_MASK := (GENMASK 31 23).
Abbreviation TRQ_SEL_FMAP_32_QID_MAX_MASK := (GENMASK 22 11).
Abbreviation TRQ_SEL_FMAP_32_QID_BASE_MASK := (GENMASK 10 0).
Abbreviation TRQ_SEL_FMAP_33_RSVD_1_MASK := (GENMASK 31 23).
Abbreviation TRQ_SEL_FMAP_33_QID_MAX_MASK := (GENMASK 22 11).
Abbreviation TRQ_SEL_FMAP_33_QID_BASE_MASK := (GENMASK 10 0).
Abbreviation TRQ_SEL_FMAP_34_RSVD_1_MASK := (GENMASK 31 23).
Abbreviation TRQ_SEL_FMAP_34_QID_MAX_MASK := (GENMASK 22 11).
Abbreviation TRQ_SEL_FMAP_34_QID_BASE_MASK := (GENMASK 10 0).
Abbreviation TRQ_SEL_FMAP_35_RSVD_1_MASK := (GENMASK 31 23).
Abbreviation TRQ_SEL_FMAP_35_QID_MAX_MASK := (GENMASK 22 11).
Abbreviation TRQ_SEL_FMAP_35_QID_BASE_MASK := (GENMASK 10 0).
Abbreviation TRQ_SEL_FMAP_36_RSVD_1_MASK := (GENMASK 31 23).
Abbreviation TRQ_SEL_FMAP_36_QID_MAX_MASK := (GENMASK 22 11).
Abbreviation TRQ_SEL_FMAP_36_QID_BASE_MASK := (GENMASK 10 0).
Abbreviation TRQ_SEL_FMAP_37_RSVD_1_MASK := (GENMASK 31 23).
Abbreviation TRQ_SEL_FMAP_37_QID_MAX_MASK := (GENMASK 22 11).
Abbreviation TRQ_SEL_FMAP_37_QID_BASE_MASK := (GENMASK 10 0).
Abbreviation TRQ_SEL_FMAP_38_RSVD_1_MASK := (GENMASK 31 23).
Abbreviation TRQ_SEL_FMAP_38_QID_MAX_MASK := (GENMASK 22 11).
Abbreviation TRQ_SEL_FMAP_38_QID_BASE_MASK := (GENMASK 10 0).
Abbreviation TRQ_SEL_FMAP_39_RSVD_1_MASK := (GENMASK 31 23).
Abbreviation TRQ_SEL_FMAP_39_QID_MAX_MASK := (GENMASK 22 11).
Abbreviation TRQ_SEL_FMAP_39_QID_BASE_MASK := (GENMASK 10 0).
Abbreviation TRQ_SEL_FMAP_3A_RSVD_1_MASK := (GENMASK 31 23).
Abbreviation TRQ_SEL_FMAP_3A_QID_MAX_MASK := (GENMASK 22 11).
Abbreviation TRQ_SEL_FMAP_3A_QID_BASE_MASK := (GENMASK 10 0).
Abbreviation TRQ_SEL_FMAP_3B_RSVD_1_MASK := (GENMASK 31 23).
Abbreviation TRQ_SEL_FMAP_3B_QID_MAX_MASK := (GENMASK 22 11).
Abbreviation TRQ_SEL_FMAP_3B_QID_BASE_MASK := (GENMASK 10 0).
Abbreviation TRQ_SEL_FMAP_3C_RSVD_1_MASK := (GENMASK 31 23).
Abbreviation TRQ_SEL_FMAP_3C_QID_MAX_MASK := (GENMASK 22 11).
Abbreviation TRQ_SEL_FMAP_3C_QID_BASE_MASK := (GENMASK 10 0).
Abbreviation TRQ_SEL_FMAP_3D_RSVD_1_MASK := (GENMASK 31 23).
Abbreviation TRQ_SEL_FMAP_3D_QID_MAX_MASK := (GENMASK 22 11).
Abbreviation TRQ_SEL_FMAP_3D_QID_BASE_MASK := (GENMASK 10 0).
Abbreviation TRQ_SEL_FMAP_3E_RSVD_1_MASK := (GENMASK 31 23).
Abbreviation TRQ_SEL_FMAP_3E_QID_MAX_MASK := (GENMASK 22 11).
Abbreviation TRQ_SEL_FMAP_3E_QID_BASE_MASK := (GENMASK 10 0).
Abbreviation TRQ_SEL_FMAP_3F_RSVD_1_MASK := (GENMASK 31 23).
Abbreviation TRQ_SEL_FMAP_3F_QID_MAX_MASK := (GENMASK 22 11).
Abbreviation TRQ_SEL_FMAP_3F_QID_BASE_MASK := (GENMASK 10 0).
Abbreviation TRQ_SEL_FMAP_40_RSVD_1_MASK := (GENMASK 31 23).
Abbreviation TRQ_SEL_FMAP_40_QID_MAX_MASK := (GENMASK 22 11).
Abbreviation TRQ_SEL_FMAP_40_QID_BASE_MASK := (GENMASK 10 0).
Abbreviation TRQ_SEL_FMAP_41_RSVD_1_MASK := (GENMASK 31 23).
Abbreviation TRQ_SEL_FMAP_41_QID_MAX_MASK := (GENMASK 22 11).
Abbreviation TRQ_SEL_FMAP_41_QID_BASE_MASK := (GENMASK 10 0).
Abbreviation TRQ_SEL_FMAP_42_RSVD_1_MASK := (GENMASK 31 23).
Abbreviation TRQ_SEL_FMAP_42_QID_MAX_MASK := (GENMASK 22 11).
Abbreviation TRQ_SEL_FMAP_42_QID_BASE_MASK := (GENMASK 10 0).
Abbreviation TRQ_SEL_FMAP_43_RSVD_1_MASK := (GENMASK 31 23).
Abbreviation TRQ_SEL_FMAP_43_QID_MAX_MASK := (GENMASK 22 11).
Abbreviation TRQ_SEL_FMAP_43_QID_BASE_MASK := (GENMASK 10 0).
Abbreviation TRQ_SEL_FMAP_44_RSVD_1_MASK := (GENMASK 31 23).
Abbreviation TRQ_SEL_FMAP_44_QID_MAX_MASK := (GENMASK 22 11).
Abbreviation TRQ_SEL_FMAP_44_QID_BASE_MASK := (GENMASK 10 0).
Abbreviation TRQ_SEL_FMAP_45_RSVD_1_MASK := (GENMASK 31 23).
Abbreviation TRQ_SEL_FMAP_45_QID_MAX_MASK := (GENMASK 22 11).
Abbreviation TRQ_SEL_FMAP_45_QID_BASE_MASK := (GENMASK 10 0).
Abbreviation TRQ_SEL_FMAP_46_RSVD_1_MASK := (GENMASK 31 23).
Abbreviation TRQ_SEL_FMAP_46_QID_MAX_MASK := (GENMASK 22 11).
Abbreviation TRQ_SEL_FMAP_46_QID_BASE_MASK := (GENMASK 10 0).
Abbreviation TRQ_SEL_FMAP_47_RSVD_1_MASK := (GENMASK 31 23).
Abbreviation TRQ_SEL_FMAP_47_QID_MAX_MASK := (GENMASK 22 11).
Abbreviation TRQ_SEL_FMAP_47_QID_BASE_MASK := (GENMASK 10 0).
Abbreviation TRQ_SEL_FMAP_48_RSVD_1_MASK := (GENMASK 31 23).
Abbreviation TRQ_SEL_FMAP_48_QID_MAX_MASK := (GENMASK 22 11).
Abbreviation TRQ_SEL_FMAP_48_QID_BASE_MASK := (GENMASK 10 0).
Abbreviation TRQ_SEL_FMAP_49_RSVD_1_MASK := (GENMASK 31 23).
Abbreviation TRQ_SEL_FMAP_49_QID_MAX_MASK := (GENMASK 22 11).
Abbreviation TRQ_SEL_FMAP_49_QID_BASE_MASK := (GENMASK 10 0).
Abbreviation TRQ_SEL_FMAP_4A_RSVD_1_MASK := (GENMASK 31 23).
Abbreviation TRQ_SEL_FMAP_4A_QID_MAX_MASK := (GENMASK 22 11).
Abbreviation TRQ_SEL_FMAP_4A_QID_BASE_MASK := (GENMASK 10 0).
Abbreviation TRQ_SEL_FMAP_4B_RSVD_1_MASK := (GENMASK 31 23).
Abbreviation TRQ_SEL_FMAP_4B_QID_MAX_MASK := (GENMASK 22 11).
Abbreviation TRQ_SEL_FMAP_4B_QID_BASE_MASK := (GENMASK 10 0).
Abbreviation TRQ_SEL_FMAP_4C_RSVD_1_MASK := (GENMASK 31 23).
Abbreviation TRQ_SEL_FMAP_4C_QID_MAX_MASK := (GENMASK 22 11).
Abbreviation TRQ_SEL_FMAP_4C_QID_BASE_MASK := (GENMASK 10 0).
Abbreviation TRQ_SEL_FMAP_4D_RSVD_1_MASK := (GENMASK 31 23).
Abbreviation TRQ_SEL_FMAP_4D_QID_MAX_MASK := (GENMASK 22 11).
Abbreviation TRQ_SEL_FMAP_4D_QID_BASE_MASK := (GENMASK 10 0).
Abbreviation TRQ_SEL_FMAP_4E_RSVD_1_MASK := (GENMASK 31 23).
Abbreviation TRQ_SEL_FMAP_4E_QID_MAX_MASK := (GENMASK 22 11).
Abbreviation TRQ_SEL_FMAP_4E_QID_BASE_MASK := (GENMASK 10 0).
Abbreviation TRQ_SEL_FMAP_4F_RSVD_1_MASK := (GENMASK 31 23).
Abbreviation TRQ_SEL_FMAP_4F_QID_MAX_MASK := (GENMASK 22 11).
Abbreviation TRQ_SEL_FMAP_4F_QID_BASE_MASK := (GENMASK 10 0).
Abbreviation TRQ_SEL_FMAP_50_RSVD_1_MASK := (GENMASK 31 23).
Abbreviation TRQ_SEL_FMAP_50_QID_MAX_MASK := (GENMASK 22 11).
Abbreviation TRQ_SEL_FMAP_50_QID_BASE_MASK := (GENMASK 10 0).
Abbreviation TRQ_SEL_FMAP_51_RSVD_1_MASK := (GENMASK 31 23).
Abbreviation TRQ_SEL_FMAP_51_QID_MAX_MASK := (GENMASK 22 11).
Abbreviation TRQ_SEL_FMAP_51_QID_BASE_MASK := (GENMASK 10 0).
Abbreviation TRQ_SEL_FMAP_52_RSVD_1_MASK := (GENMASK 31 23).
Abbreviation TRQ_SEL_FMAP_52_QID_MAX_MASK := (GENMASK 22 11).
Abbreviation TRQ_SEL_FMAP_52_QID_BASE_MASK := (GENMASK 10 0).
Abbreviation TRQ_SEL_FMAP_53_RSVD_1_MASK := (GENMASK 31 23).
Abbreviation TRQ_SEL_FMAP_53_QID_MAX_MASK := (GENMASK 22 11).
Abbreviation TRQ_SEL_FMAP_53_QID_BASE_MASK := (GENMASK 10 0).
Abbreviation TRQ_SEL_FMAP_54_RSVD_1_MASK := (GENMASK 31 23).
Abbreviation TRQ_SEL_FMAP_54_QID_MAX_MASK := (GENMASK 22 11).
Abbreviation TRQ_SEL_FMAP_54_QID_BASE_MASK := (GENMASK 10 0).
Abbreviation TRQ_SEL_FMAP_55_RSVD_1_MASK := (GENMASK 31 23).
Abbreviation TRQ_SEL_FMAP_55_QID_MAX_MASK := (GENMASK 22 11).
Abbreviation TRQ_SEL_FMAP_55_QID_BASE_MASK := (GENMASK 10 0).
Abbreviation TRQ_SEL_FMAP_56_RSVD_1_MASK := (GENMASK 31 23).
Abbreviation TRQ_SEL_FMAP_56_QID_MAX_MASK := (GENMASK 22 11).
Abbreviation TRQ_SEL_FMAP_56_QID_BASE_MASK := (GENMASK 10 0).
Abbreviation TRQ_SEL_FMAP_57_RSVD_1_MASK := (GENMASK 31 23).
Abbreviation TRQ_SEL_FMAP_57_QID_MAX_MASK := (GENMASK 22 11).
Abbreviation TRQ_SEL_FMAP_57_QID_BASE_MASK := (GENMASK 10 0).
Abbreviation TRQ_SEL_FMAP_58_RSVD_1_MASK := (GENMASK 31 23).
Abbreviation TRQ_SEL_FMAP_58_QID_MAX_MASK := (GENMASK 22 11).
Abbreviation TRQ_SEL_FMAP_58_QID_BASE_MASK := (GENMASK 10 0).
Abbreviation TRQ_SEL_FMAP_59_RSVD_1_MASK := (GENMASK 31 23).
Abbreviation TRQ_SEL_FMAP_59_QID_MAX_MASK := (GENMASK 22 11).
Abbreviation TRQ_SEL_FMAP_59_QID_BASE_MASK := (GENMASK 10 0).
Abbreviation TRQ_SEL_FMAP_5A_RSVD_1_MASK := (GENMASK 31 23).
Abbreviation TRQ_SEL_FMAP_5A_QID_MAX_MASK := (GENMASK 22 11).
Abbreviation TRQ_SEL_FMAP_5A_QID_BASE_MASK := (GENMASK 10 0).
Abbreviation TRQ_SEL_FMAP_5B_RSVD_1_MASK := (GENMASK 31 23).
Abbreviation TRQ_SEL_FMAP_5B_QID_MAX_MASK := (GENMASK 22 11).
Abbreviation TRQ_SEL_FMAP_5B_QID_BASE_MASK := (GENMASK 10 0).
Abbreviation TRQ_SEL_FMAP_5C_RSVD_1_MASK := (GENMASK 31 23).
Abbreviation TRQ_SEL_FMAP_5C_QID_MAX_MASK := (GENMASK 22 11).
Abbreviation TRQ_SEL_FMAP_5C_QID_BASE_MASK := (GENMASK 10 0).
Abbreviation TRQ_SEL_FMAP_5D_RSVD_1_MASK := (GENMASK 31 23).
Abbreviation TRQ_SEL_FMAP_5D_QID_MAX_MASK := (GENMASK 22 11).
Abbreviation TRQ_SEL_FMAP_5D_QID_BASE_MASK := (GENMASK 10 0).
Abbreviation TRQ_SEL_FMAP_5E_RSVD_1_MASK := (GENMASK 31 23).
Abbreviation TRQ_SEL_FMAP_5E_QID_MAX_MASK := (GENMASK 22 11).
Abbreviation TRQ_SEL_FMAP_5E_QID_BASE_MASK := (GENMASK 10 0).
Abbreviation TRQ_SEL_FMAP_5F_RSVD_1_MASK := (GENMASK 31 23).
Abbreviation TRQ_SEL_FMAP_5F_QID_MAX_MASK := (GENMASK 22 11).
Abbreviation TRQ_SEL_FMAP_5F_QID_BASE_MASK := (GENMASK 10 0).
Abbreviation TRQ_SEL_FMAP_60_RSVD_1_MASK := (GENMASK 31 23).
Abbreviation TRQ_SEL_FMAP_60_QID_MAX_MASK := (GENMASK 22 11).
Abbreviation TRQ_SEL_FMAP_60_QID_BASE_MASK := (GENMASK 10 0).
Abbreviation TRQ_SEL_FMAP_61_RSVD_1_MASK := (GENMASK 31 23).
Abbreviation TRQ_SEL_FMAP_61_QID_MAX_MASK := (GENMASK 22 11).
Abbreviation TRQ_SEL_FMAP_61_QID_BASE_MASK := (GENMASK 10 0).
Abbreviation TRQ_SEL_FMAP_62_RSVD_1_MASK := (GENMASK 31 23).
Abbreviation TRQ_SEL_FMAP_62_QID_MAX_MASK := (GENMASK 22 11).
Abbreviation TRQ_SEL_FMAP_62_QID_BASE_MASK := (GENMASK 10 0).
Abbreviation TRQ_SEL_FMAP_63_RSVD_1_MASK := (GENMASK 31 23).
Abbreviation TRQ_SEL_FMAP_63_QID_MAX_MASK := (GENMASK 22 11).
Abbreviation TRQ_SEL_FMAP_63_QID_BASE_MASK := (GENMASK 10 0).
Abbreviation TRQ_SEL_FMAP_64_RSVD_1_MASK := (GENMASK 31 23).
Abbreviation TRQ_SEL_FMAP_64_QID_MAX_MASK := (GENMASK 22 11).
Abbreviation TRQ_SEL_FMAP_64_QID_BASE_MASK := (GENMASK 10 0).
Abbreviation TRQ_SEL_FMAP_65_RSVD_1_MASK := (GENMASK 31 23).
Abbreviation TRQ_SEL_FMAP_65_QID_MAX_MASK := (GENMASK 22 11).
Abbreviation TRQ_SEL_FMAP_65_QID_BASE_MASK := (GENMASK 10 0).
Abbreviation TRQ_SEL_FMAP_66_RSVD_1_MASK := (GENMASK 31 23).
Abbreviation TRQ_SEL_FMAP_66_QID_MAX_MASK := (GENMASK 22 11).
Abbreviation TRQ_SEL_FMAP_66_QID_BASE_MASK := (GENMASK 10 0).
Abbreviation TRQ_SEL_FMAP_67_RSVD_1_MASK := (GENMASK 31 23).
Abbreviation TRQ_SEL_FMAP_67_QID_MAX_MASK := (GENMASK 22 11).
Abbreviation TRQ_SEL_FMAP_67_QID_BASE_MASK := (GENMASK 10 0).
Abbreviation TRQ_SEL_FMAP_68_RSVD_1_MASK := (GENMASK 31 23).
Abbreviation TRQ_SEL_FMAP_68_QID_MAX_MASK := (GENMASK 22 11).
Abbreviation TRQ_SEL_FMAP_68_QID_BASE_MASK := (GENMASK 10 0).
Abbreviation TRQ_SEL_FMAP_69_RSVD_1_MASK := (GENMASK 31 23).
Abbreviation TRQ_SEL_FMAP_69_QID_MAX_MASK := (GENMASK 22 11).
Abbreviation TRQ_SEL_FMAP_69_QID_BASE_MASK := (GENMASK 10 0).
Abbreviation TRQ_SEL_FMAP_6A_RSVD_1_MASK := (GENMASK 31 23).
Abbreviation TRQ_SEL_FMAP_6A_QID_MAX_MASK := (GENMASK 22 11).
Abbreviation TRQ_SEL_FMAP_6A_QID_BASE_MASK := (GENMASK 10 0).
Abbreviation TRQ_SEL_FMAP_6B_RSVD_1_MASK := (GENMASK 31 23).
Abbreviation TRQ_SEL_FMAP_6B_QID_MAX_MASK := (GENMASK 22 11).
Abbreviation TRQ_SEL_FMAP_6B_QID_BASE_MASK := (GENMASK 10 0).
Abbreviation TRQ_SEL_FMAP_6C_RSVD_1_MASK := (GENMASK 31 23).
Abbreviation TRQ_SEL_FMAP_6C_QID_MAX_MASK := (GENMASK 22 11).
Abbreviation TRQ_SEL_FMAP_6C_QID_BASE_MASK := (GENMASK 10 0).
Abbreviation TRQ_SEL_FMAP_6D_RSVD_1_MASK := (GENMASK 31 23).
Abbreviation TRQ_SEL_FMAP_6D_QID_MAX_MASK := (GENMASK 22 11).
Abbreviation TRQ_SEL_FMAP_6D_QID_BASE_MASK := (GENMASK 10 0).
Abbreviation TRQ_SEL_FMAP_6E_RSVD_1_MASK := (GENMASK 31 23).
Abbreviation TRQ_SEL_FMAP_6E_QID_MAX_MASK := (GENMASK 22 11).
Abbreviation TRQ_SEL_FMAP_6E_QID_BASE_MASK := (GENMASK 10 0).
Abbreviation TRQ_SEL_FMAP_6F_RSVD_1_MASK := (GENMASK 31 23).
Abbreviation TRQ_SEL_FMAP_6F_QID_MAX_MASK := (GENMASK 22 11).
Abbreviation TRQ_SEL_FMAP_6F_QID_BASE_MASK := (GENMASK 10 0).
Abbreviation TRQ_SEL_FMAP_70_RSVD_1_MASK := (GENMASK 31 23).
Abbreviation TRQ_SEL_FMAP_70_QID_MAX_MASK := (GENMASK 22 11).
Abbreviation TRQ_SEL_FMAP_70_QID_BASE_MASK := (GENMASK 10 0).
Abbreviation TRQ_SEL_FMAP_71_RSVD_1_MASK := (GENMASK 31 23).
Abbreviation TRQ_SEL_FMAP_71_QID_MAX_MASK := (GENMASK 22 11).
Abbreviation TRQ_SEL_FMAP_71_QID_BASE_MASK := (GENMASK 10 0).
Abbreviation TRQ_SEL_FMAP_72_RSVD_1_MASK := (GENMASK 31 23).
Abbreviation TRQ_SEL_FMAP_72_QID_MAX_MASK := (GENMASK 22 11).
Abbreviation TRQ_SEL_FMAP_72_QID_BASE_MASK := (GENMASK 10 0).
Abbreviation TRQ_SEL_FMAP_73_RSVD_1_MASK := (GENMASK 31 23).
Abbreviation TRQ_SEL_FMAP_73_QID_MAX_MASK := (GENMASK 22 11).
Abbreviation TRQ_SEL_FMAP_73_QID_BASE_MASK := (GENMASK 10 0).
Abbreviation TRQ_SEL_FMAP_74_RSVD_1_MASK := (GENMASK 31 23).
Abbreviation TRQ_SEL_FMAP_74_QID_MAX_MASK := (GENMASK 22 11).
Abbreviation TRQ_SEL_FMAP_74_QID_BASE_MASK := (GENMASK 10 0).
Abbreviation TRQ_SEL_FMAP_75_RSVD_1_MASK := (GENMASK 31 23).
Abbreviation TRQ_SEL_FMAP_75_QID_MAX_MASK := (GENMASK 22 11).
Abbreviation TRQ_SEL_FMAP_75_QID_BASE_MASK := (GENMASK 10 0).
Abbreviation TRQ_SEL_FMAP_76_RSVD_1_MASK := (GENMASK 31 23).
Abbreviation TRQ_SEL_FMAP_76_QID_MAX_MASK := (GENMASK 22 11).
Abbreviation TRQ_SEL_FMAP_76_QID_BASE_MASK := (GENMASK 10 0).
Abbreviation TRQ_SEL_FMAP_77_RSVD_1_MASK := (GENMASK 31 23).
Abbreviation TRQ_SEL_FMAP_77_QID_MAX_MASK := (GENMASK 22 11).
Abbreviation TRQ_SEL_FMAP_77_QID_BASE_MASK := (GENMASK 10 0).
Abbreviation TRQ_SEL_FMAP_78_RSVD_1_MASK := (GENMASK 31 23).
Abbreviation TRQ_SEL_FMAP_78_QID_MAX_MASK := (GENMASK 22 11).
Abbreviation TRQ_SEL_FMAP_78_QID_BASE_MASK := (GENMASK 10 0).
Abbreviation TRQ_SEL_FMAP_79_RSVD_1_MASK := (GENMASK 31 23).
Abbreviation TRQ_SEL_FMAP_79_QID_MAX_MASK := (GENMASK 22 11).
Abbreviation TRQ_SEL_FMAP_79_QID_BASE_MASK := (GENMASK 10 0).
Abbreviation TRQ_SEL_FMAP_7A_RSVD_1_MASK := (GENMASK 31 23).
Abbreviation TRQ_SEL_FMAP_7A_QID_MAX_MASK := (GENMASK 22 11).
Abbreviation TRQ_SEL_FMAP_7A_QID_BASE_MASK := (GENMASK 10 0).
Abbreviation TRQ_SEL_FMAP_7B_RSVD_1_MASK := (GENMASK 31 23).
Abbreviation TRQ_SEL_FMAP_7B_QID_MAX_MASK := (GENMASK 22 11).
Abbreviation TRQ_SEL_FMAP_7B_QID_BASE_MASK := (GENMASK 10 0).
Abbreviation TRQ_SEL_FMAP_7C_RSVD_1_MASK := (GENMASK 31 23).
Abbreviation TRQ_SEL_FMAP_7C_QID_MAX_MASK := (GENMASK 22 11).
Abbreviation TRQ_SEL_FMAP_7C_QID_BASE_MASK := (GENMASK 10 0).
Abbreviation TRQ_SEL_FMAP_7D_RSVD_1_MASK := (GENMASK 31 23).
Abbreviation TRQ_SEL_FMAP_7D_QID_MAX_MASK := (GENMASK 22 11).
Abbreviation TRQ_SEL_FMAP_7D_QID_BASE_MASK := (GENMASK 10 0).
Abbreviation TRQ_SEL_FMAP_7E_RSVD_1_MASK := (GENMASK 31 23).
Abbreviation TRQ_SEL_FMAP_7E_QID_MAX_MASK := (GENMASK 22 11).
Abbreviation TRQ_SEL_FMAP_7E_QID_BASE_MASK := (GENMASK 10 0).
Abbreviation TRQ_SEL_FMAP_7F_RSVD_1_MASK := (GENMASK 31 23).
Abbreviation TRQ_SEL_FMAP_7F_QID_MAX_MASK := (GENMASK 22 11).
Abbreviation TRQ_SEL_FMAP_7F_QID_BASE_MASK := (GENMASK 10 0).
Abbreviation TRQ_SEL_FMAP_80_RSVD_1_MASK := (GENMASK 31 23).
Abbreviation TRQ_SEL_FMAP_80_QID_MAX_MASK := (GENMASK 22 11).
Abbreviation TRQ_SEL_FMAP_80_QID_BASE_MASK := (GENMASK 10 0).
Abbreviation TRQ_SEL_FMAP_81_RSVD_1_MASK := (GENMASK 31 23).
Abbreviation TRQ_SEL_FMAP_81_QID_MAX_MASK := (GENMASK 22 11).
Abbreviation TRQ_SEL_FMAP_81_QID_BASE_MASK := (GENMASK 10 0).
Abbreviation TRQ_SEL_FMAP_82_RSVD_1_MASK := (GENMASK 31 23).
Abbreviation TRQ_SEL_FMAP_82_QID_MAX_MASK := (GENMASK 22 11).
Abbreviation TRQ_SEL_FMAP_82_QID_BASE_MASK := (GENMASK 10 0).
Abbreviation TRQ_SEL_FMAP_83_RSVD_1_MASK := (GENMASK 31 23).
Abbreviation TRQ_SEL_FMAP_83_QID_MAX_MASK := (GENMASK 22 11).
Abbreviation TRQ_SEL_FMAP_83_QID_BASE_MASK := (GENMASK 10 0).
Abbreviation TRQ_SEL_FMAP_84_RSVD_1_MASK := (GENMASK 31 23).
Abbreviation TRQ_SEL_FMAP_84_QID_MAX_MASK := (GENMASK 22 11).
Abbreviation TRQ_SEL_FMAP_84_QID_BASE_MASK := (GENMASK 10 0).
Abbreviation TRQ_SEL_FMAP_85_RSVD_1_MASK := (GENMASK 31 23).
Abbreviation TRQ_SEL_FMAP_85_QID_MAX_MASK := (GENMASK 22 11).
Abbreviation TRQ_SEL_FMAP_85_QID_BASE_MASK := (GENMASK 10 0).
Abbreviation TRQ_SEL_FMAP_86_RSVD_1_MASK := (GENMASK 31 23).
Abbreviation TRQ_SEL_FMAP_86_QID_MAX_MASK := (GENMASK 22 11).
Abbreviation TRQ_SEL_FMAP_86_QID_BASE_MASK := (GENMASK 10 0).
Abbreviation TRQ_SEL_FMAP_87_RSVD_1_MASK := (GENMASK 31 23).
Abbreviation TRQ_SEL_FMAP_87_QID_MAX_MASK := (GENMASK 22 11).
Abbreviation TRQ_SEL_FMAP_87_QID_BASE_MASK := (GENMASK 10 0).
Abbreviation TRQ_SEL_FMAP_88_RSVD_1_MASK := (GENMASK 31 23).
Abbreviation TRQ_SEL_FMAP_88_QID_MAX_MASK := (GENMASK 22 11).
Abbreviation TRQ_SEL_FMAP_88_QID_BASE_MASK := (GENMASK 10 0).
Abbreviation TRQ_SEL_FMAP_89_RSVD_1_MASK := (GENMASK 31 23).
Abbreviation TRQ_SEL_FMAP_89_QID_MAX_MASK := (GENMASK 22 11).
Abbreviation TRQ_SEL_FMAP_89_QID_BASE_MASK := (GENMASK 10 0).
Abbreviation TRQ_SEL_FMAP_8A_RSVD_1_MASK := (GENMASK 31 23).
Abbreviation TRQ_SEL_FMAP_8A_QID_MAX_MASK := (GENMASK 22 11).
Abbreviation TRQ_SEL_FMAP_8A_QID_BASE_MASK := (GENMASK 10 0).
Abbreviation TRQ_SEL_FMAP_8B_RSVD_1_MASK := (GENMASK 31 23).
Abbreviation TRQ_SEL_FMAP_8B_QID_MAX_MASK := (GENMASK 22 11).
Abbreviation TRQ_SEL_FMAP_8B_QID_BASE_MASK := (GENMASK 10 0).
Abbreviation TRQ_SEL_FMAP_8C_RSVD_1_MASK := (GENMASK 31 23).
Abbreviation TRQ_SEL_FMAP_8C_QID_MAX_MASK := (GENMASK 22 11).
Abbreviation TRQ_SEL_FMAP_8C_QID_BASE_MASK := (GENMASK 10 0).
Abbreviation TRQ_SEL_FMAP_8D_RSVD_1_MASK := (GENMASK 31 23).
Abbreviation TRQ_SEL_FMAP_8D_QID_MAX_MASK := (GENMASK 22 11).
Abbreviation TRQ_SEL_FMAP_8D_QID_BASE_MASK := (GENMASK 10 0).
Abbreviation TRQ_SEL_FMAP_8E_RSVD_1_MASK := (GENMASK 31 23).
Abbreviation TRQ_SEL_FMAP_8E_QID_MAX_MASK := (GENMASK 22 11).
Abbreviation TRQ_SEL_FMAP_8E_QID_BASE_MASK := (GENMASK 10 0).
Abbreviation TRQ_SEL_FMAP_8F_RSVD_1_MASK := (GENMASK 31 23).
Abbreviation TRQ_SEL_FMAP_8F_QID_MAX_MASK := (GENMASK 22 11).
Abbreviation TRQ_SEL_FMAP_8F_QID_BASE_MASK := (GENMASK 10 0).
Abbreviation TRQ_SEL_FMAP_90_RSVD_1_MASK := (GENMASK 31 23).
Abbreviation TRQ_SEL_FMAP_90_QID_MAX_MASK := (GENMASK 22 11).
Abbreviation TRQ_SEL_FMAP_90_QID_BASE_MASK := (GENMASK 10 0).
Abbreviation TRQ_SEL_FMAP_91_RSVD_1_MASK := (GENMASK 31 23).
Abbreviation TRQ_SEL_FMAP_91_QID_MAX_MASK := (GENMASK 22 11).
Abbreviation TRQ_SEL_FMAP_91_QID_BASE_MASK := (GENMASK 10 0).
Abbreviation TRQ_SEL_FMAP_92_RSVD_1_MASK := (GENMASK 31 23).
Abbreviation TRQ_SEL_FMAP_92_QID_MAX_MASK := (GENMASK 22 11).
Abbreviation TRQ_SEL_FMAP_92_QID_BASE_MASK := (GENMASK 10 0).
Abbreviation TRQ_SEL_FMAP_93_RSVD_1_MASK := (GENMASK 31 23).
Abbreviation TRQ_SEL_FMAP_93_QID_MAX_MASK := (GENMASK 22 11).
Abbreviation TRQ_SEL_FMAP_93_QID_BASE_MASK := (GENMASK 10 0).
Abbreviation TRQ_SEL_FMAP_94_RSVD_1_MASK := (GENMASK 31 23).
Abbreviation TRQ_SEL_FMAP_94_QID_MAX_MASK := (GENMASK 22 11).
Abbreviation TRQ_SEL_FMAP_94_QID_BASE_MASK := (GENMASK 10 0).
Abbreviation TRQ_SEL_FMAP_95_RSVD_1_MASK := (GENMASK 31 23).
Abbreviation TRQ_SEL_FMAP_95_QID_MAX_MASK := (GENMASK 22 11).
Abbreviation TRQ_SEL_FMAP_95_QID_BASE_MASK := (GENMASK 10 0).
Abbreviation TRQ_SEL_FMAP_96_RSVD_1_MASK := (GENMASK 31 23).
Abbreviation TRQ_SEL_FMAP_96_QID_MAX_MASK := (GENMASK 22 11).
Abbreviation TRQ_SEL_FMAP_96_QID_BASE_MASK := (GENMASK 10 0).
Abbreviation TRQ_SEL_FMAP_97_RSVD_1_MASK := (GENMASK 31 23).
Abbreviation TRQ_SEL_FMAP_97_QID_MAX_MASK := (GENMASK 22 11).
Abbreviation TRQ_SEL_FMAP_97_QID_BASE_MASK := (GENMASK 10 0).
Abbreviation TRQ_SEL_FMAP_98_RSVD_1_MASK := (GENMASK 31 23).
Abbreviation TRQ_SEL_FMAP_98_QID_MAX_MASK := (GENMASK 22 11).
Abbreviation TRQ_SEL_FMAP_98_QID_BASE_MASK := (GENMASK 10 0).
Abbreviation TRQ_SEL_FMAP_99_RSVD_1_MASK := (GENMASK 31 23).
Abbreviation TRQ_SEL_FMAP_99_QID_MAX_MASK := (GENMASK 22 11).
Abbreviation TRQ_SEL_FMAP_99_QID_BASE_MASK := (GENMASK 10 0).
Abbreviation TRQ_SEL_FMAP_9A_RSVD_1_MASK := (GENMASK 31 23).
Abbreviation TRQ_SEL_FMAP_9A_QID_MAX_MASK := (GENMASK 22 11).
Abbreviation TRQ_SEL_FMAP_9A_QID_BASE_MASK := (GENMASK 10 0).
Abbreviation TRQ_SEL_FMAP_9B_RSVD_1_MASK := (GENMASK 31 23).
Abbreviation TRQ_SEL_FMAP_9B_QID_MAX_MASK := (GENMASK 22 11).
Abbreviation TRQ_SEL_FMAP_9B_QID_BASE_MASK := (GENMASK 10 0).
Abbreviation TRQ_SEL_FMAP_9C_RSVD_1_MASK := (GENMASK 31 23).
Abbreviation TRQ_SEL_FMAP_9C_QID_MAX_MASK := (GENMASK 22 11).
Abbreviation TRQ_SEL_FMAP_9C_QID_BASE_MASK := (GENMASK 10 0).
Abbreviation TRQ_SEL_FMAP_9D_RSVD_1_MASK := (GENMASK 31 23).
Abbreviation TRQ_SEL_FMAP_9D_QID_MAX_MASK := (GENMASK 22 11).
Abbreviation TRQ_SEL_FMAP_9D_QID_BASE_MASK := (GENMASK 10 0).
Abbreviation TRQ_SEL_FMAP_9E_RSVD_1_MASK := (GENMASK 31 23).
Abbreviation TRQ_SEL_FMAP_9E_QID_MAX_MASK := (GENMASK 22 11).
Abbreviation TRQ_SEL_FMAP_9E_QID_BASE_MASK := (GENMASK 10 0).
Abbreviation TRQ_SEL_FMAP_9F_RSVD_1_MASK := (GENMASK 31 23).
Abbreviation TRQ_SEL_FMAP_9F_QID_MAX_MASK := (GENMASK 22 11).
Abbreviation TRQ_SEL_FMAP_9F_QID_BASE_MASK := (GENMASK 10 0).
Abbreviation TRQ_SEL_FMAP_A0_RSVD_1_MASK := (GENMASK 31 23).
Abbreviation TRQ_SEL_FMAP_A0_QID_MAX_MASK := (GENMASK 22 11).
Abbreviation TRQ_SEL_FMAP_A0_QID_BASE_MASK := (GENMASK 10 0).
Abbreviation TRQ_SEL_FMAP_A1_RSVD_1_MASK := (GENMASK 31 23).
Abbreviation TRQ_SEL_FMAP_A1_QID_MAX_MASK := (GENMASK 22 11).
Abbreviation TRQ_SEL_FMAP_A1_QID_BASE_MASK := (GENMASK 10 0).
Abbreviation TRQ_SEL_FMAP_A2_RSVD_1_MASK := (GENMASK 31 23).
Abbreviation TRQ_SEL_FMAP_A2_QID_MAX_MASK := (GENMASK 22 11).
Abbreviation TRQ_SEL_FMAP_A2_QID_BASE_MASK := (GENMASK 10 0).
Abbreviation TRQ_SEL_FMAP_A3_RSVD_1_MASK := (GENMASK 31 23).
Abbreviation TRQ_SEL_FMAP_A3_QID_MAX_MASK := (GENMASK 22 11).
Abbreviation TRQ_SEL_FMAP_A3_QID_BASE_MASK := (GENMASK 10 0).
Abbreviation TRQ_SEL_FMAP_A4_RSVD_1_MASK := (GENMASK 31 23).
Abbreviation TRQ_SEL_FMAP_A4_QID_MAX_MASK := (GENMASK 22 11).
Abbreviation TRQ_SEL_FMAP_A4_QID_BASE_MASK := (GENMASK 10 0).
Abbreviation TRQ_SEL_FMAP_A5_RSVD_1_MASK := (GENMASK 31 23).
Abbreviation TRQ_SEL_FMAP_A5_QID_MAX_MASK := (GENMASK 22 11).
Abbreviation TRQ_SEL_FMAP_A5_QID_BASE_MASK := (GENMASK 10 0).
Abbreviation TRQ_SEL_FMAP_A6_RSVD_1_MASK := (GENMASK 31 23).
Abbreviation TRQ_SEL_FMAP_A6_QID_MAX_MASK := (GENMASK 22 11).
Abbreviation TRQ_SEL_FMAP_A6_QID_BASE_MASK := (GENMASK 10 0).
Abbreviation TRQ_SEL_FMAP_A7_RSVD_1_MASK := (GENMASK 31 23).
Abbreviation TRQ_SEL_FMAP_A7_QID_MAX_MASK := (GENMASK 22 11).
Abbreviation TRQ_SEL_FMAP_A7_QID_BASE_MASK := (GENMASK 10 0).
Abbreviation TRQ_SEL_FMAP_A8_RSVD_1_MASK := (GENMASK 31 23).
Abbreviation TRQ_SEL_FMAP_A8_QID_MAX_MASK := (GENMASK 22 11).
Abbreviation TRQ_SEL_FMAP_A8_QID_BASE_MASK := (GENMASK 10 0).
Abbreviation TRQ_SEL_FMAP_A9_RSVD_1_MASK := (GENMASK 31 23).
Abbreviation TRQ_SEL_FMAP_A9_QID_MAX_MASK := (GENMASK 22 11).
Abbreviation TRQ_SEL_FMAP_A9_QID_BASE_MASK := (GENMASK 10 0).
Abbreviation TRQ_SEL_FMAP_AA_RSVD_1_MASK := (GENMASK 31 23).
Abbreviation TRQ_SEL_FMAP_AA_QID_MAX_MASK := (GENMASK 22 11).
Abbreviation TRQ_SEL_FMAP_AA_QID_BASE_MASK := (GENMASK 10 0).
Abbreviation TRQ_SEL_FMAP_AB_RSVD_1_MASK := (GENMASK 31 23).
Abbreviation TRQ_SEL_FMAP_AB_QID_MAX_MASK := (GENMASK 22 11).
Abbreviation TRQ_SEL_FMAP_AB_QID_BASE_MASK := (GENMASK 10 0).
Abbreviation TRQ_SEL_FMAP_AC_RSVD_1_MASK := (GENMASK 31 23).
Abbreviation TRQ_SEL_FMAP_AC_QID_MAX_MASK := (GENMASK 22 11).
Abbreviation TRQ_SEL_FMAP_AC_QID_BASE_MASK := (GENMASK 10 0).
Abbreviation TRQ_SEL_FMAP_AD_RSVD_1_MASK := (GENMASK 31 23).
Abbreviation TRQ_SEL_FMAP_AD_QID_MAX_MASK := (GENMASK 22 11).
Abbreviation TRQ_SEL_FMAP_AD_QID_BASE_MASK := (GENMASK 10 0).
Abbreviation TRQ_SEL_FMAP_AE_RSVD_1_MASK := (GENMASK 31 23).
Abbreviation TRQ_SEL_FMAP_AE_QID_MAX_MASK := (GENMASK 22 11).
Abbreviation TRQ_SEL_FMAP_AE_QID_BASE_MASK := (GENMASK 10 0).
Abbreviation TRQ_SEL_FMAP_AF_RSVD_1_MASK := (GENMASK 31 23).
Abbreviation TRQ_SEL_FMAP_AF_QID_MAX_MASK := (GENMASK 22 11).
Abbreviation TRQ_SEL_FMAP_AF_QID_BASE_MASK := (GENMASK 10 0).
Abbreviation TRQ_SEL_FMAP_B0_RSVD_1_MASK := (GENMASK 31 23).
Abbreviation TRQ_SEL_FMAP_B0_QID_MAX_MASK := (GENMASK 22 11).
Abbreviation TRQ_SEL_FMAP_B0_QID_BASE_MASK := (GENMASK 10 0).
Abbreviation TRQ_SEL_FMAP_B1_RSVD_1_MASK := (GENMASK 31 23).
Abbreviation TRQ_SEL_FMAP_B1_QID_MAX_MASK := (GENMASK 22 11).
Abbreviation TRQ_SEL_FMAP_B1_QID_BASE_MASK := (GENMASK 10 0).
Abbreviation TRQ_SEL_FMAP_B2_RSVD_1_MASK := (GENMASK 31 23).
Abbreviation TRQ_SEL_FMAP_B2_QID_MAX_MASK := (GENMASK 22 11).
Abbreviation TRQ_SEL_FMAP_B2_QID_BASE_MASK := (GENMASK 10 0).
Abbreviation TRQ_SEL_FMAP_B3_RSVD_1_MASK := (GENMASK 31 23).
Abbreviation TRQ_SEL_FMAP_B3_QID_MAX_MASK := (GENMASK 22 11).
Abbreviation TRQ_SEL_FMAP_B3_QID_BASE_MASK := (GENMASK 10 0).
Abbreviation TRQ_SEL_FMAP_B4_RSVD_1_MASK := (GENMASK 31 23).
Abbreviation TRQ_SEL_FMAP_B4_QID_MAX_MASK := (GENMASK 22 11).
Abbreviation TRQ_SEL_FMAP_B4_QID_BASE_MASK := (GENMASK 10 0).
Abbreviation TRQ_SEL_FMAP_B5_RSVD_1_MASK := (GENMASK 31 23).
Abbreviation TRQ_SEL_FMAP_B5_QID_MAX_MASK := (GENMASK 22 11).
Abbreviation TRQ_SEL_FMAP_B5_QID_BASE_MASK := (GENMASK 10 0).
Abbreviation TRQ_SEL_FMAP_B6_RSVD_1_MASK := (GENMASK 31 23).
Abbreviation TRQ_SEL_FMAP_B6_QID_MAX_MASK := (GENMASK 22 11).
Abbreviation TRQ_SEL_FMAP_B6_QID_BASE_MASK := (GENMASK 10 0).
Abbreviation TRQ_SEL_FMAP_B7_RSVD_1_MASK := (GENMASK 31 23).
Abbreviation TRQ_SEL_FMAP_B7_QID_MAX_MASK := (GENMASK 22 11).
Abbreviation TRQ_SEL_FMAP_B7_QID_BASE_MASK := (GENMASK 10 0).
Abbreviation TRQ_SEL_FMAP_B8_RSVD_1_MASK := (GENMASK 31 23).
Abbreviation TRQ_SEL_FMAP_B8_QID_MAX_MASK := (GENMASK 22 11).
Abbreviation TRQ_SEL_FMAP_B8_QID_BASE_MASK := (GENMASK 10 0).
Abbreviation TRQ_SEL_FMAP_B9_RSVD_1_MASK := (GENMASK 31 23).
Abbreviation TRQ_SEL_FMAP_B9_QID_MAX_MASK := (GENMASK 22 11).
Abbreviation TRQ_SEL_FMAP_B9_QID_BASE_MASK := (GENMASK 10 0).
Abbreviation TRQ_SEL_FMAP_BA_RSVD_1_MASK := (GENMASK 31 23).
Abbreviation TRQ_SEL_FMAP_BA_QID_MAX_MASK := (GENMASK 22 11).
Abbreviation TRQ_SEL_FMAP_BA_QID_BASE_MASK := (GENMASK 10 0).
Abbreviation TRQ_SEL_FMAP_BB_RSVD_1_MASK := (GENMASK 31 23).
Abbreviation TRQ_SEL_FMAP_BB_QID_MAX_MASK := (GENMASK 22 11).
Abbreviation TRQ_SEL_FMAP_BB_QID_BASE_MASK := (GENMASK 10 0).
Abbreviation TRQ_SEL_FMAP_BC_RSVD_1_MASK := (GENMASK 31 23).
Abbreviation TRQ_SEL_FMAP_BC_QID_MAX_MASK := (GENMASK 22 11).
Abbreviation TRQ_SEL_FMAP_BC_QID_BASE_MASK := (GENMASK 10 0).
Abbreviation TRQ_SEL_FMAP_BD_RSVD_1_MASK := (GENMASK 31 23).
Abbreviation TRQ_SEL_FMAP_BD_QID_MAX_MASK := (GENMASK 22 11).
Abbreviation TRQ_SEL_FMAP_BD_QID_BASE_MASK := (GENMASK 10 0).
Abbreviation TRQ_SEL_FMAP_BE_RSVD_1_MASK := (GENMASK 31 23).
Abbreviation TRQ_SEL_FMAP_BE_QID_MAX_MASK := (GENMASK 22 11).
Abbreviation TRQ_SEL_FMAP_BE_QID_BASE_MASK := (GENMASK 10 0).
Abbreviation TRQ_SEL_FMAP_BF_RSVD_1_MASK := (GENMASK 31 23).
Abbreviation TRQ_SEL_FMAP_BF_QID_MAX_MASK := (GENMASK 22 11).
Abbreviation TRQ_SEL_FMAP_BF_QID_BASE_MASK := (GENMASK 10 0).
Abbreviation TRQ_SEL_FMAP_C0_RSVD_1_MASK := (GENMASK 31 23).
Abbreviation TRQ_SEL_FMAP_C0_QID_MAX_MASK := (GENMASK 22 11).
Abbreviation TRQ_SEL_FMAP_C0_QID_BASE_MASK := (GENMASK 10 0).
Abbreviation TRQ_SEL_FMAP_C1_RSVD_1_MASK := (GENMASK 31 23).
Abbreviation TRQ_SEL_FMAP_C1_QID_MAX_MASK := (GENMASK 22 11).
Abbreviation TRQ_SEL_FMAP_C1_QID_BASE_MASK := (GENMASK 10 0).
Abbreviation TRQ_SEL_FMAP_C2_RSVD_1_MASK := (GENMASK 31 23).
Abbreviation TRQ_SEL_FMAP_C2_QID_MAX_MASK := (GENMASK 22 11).
Abbreviation TRQ_SEL_FMAP_C2_QID_BASE_MASK := (GENMASK 10 0).
Abbreviation TRQ_SEL_FMAP_C3_RSVD_1_MASK := (GENMASK 31 23).
Abbreviation TRQ_SEL_FMAP_C3_QID_MAX_MASK := (GENMASK 22 11).
Abbreviation TRQ_SEL_FMAP_C3_QID_BASE_MASK := (GENMASK 10 0).
Abbreviation TRQ_SEL_FMAP_C4_RSVD_1_MASK := (GENMASK 31 23).
Abbreviation TRQ_SEL_FMAP_C4_QID_MAX_MASK := (GENMASK 22 11).
Abbreviation TRQ_SEL_FMAP_C4_QID_BASE_MASK := (GENMASK 10 0).
Abbreviation TRQ_SEL_FMAP_C5_RSVD_1_MASK := (GENMASK 31 23).
Abbreviation TRQ_SEL_FMAP_C5_QID_MAX_MASK := (GENMASK 22 11).
Abbreviation TRQ_SEL_FMAP_C5_QID_BASE_MASK := (GENMASK 10 0).
Abbreviation TRQ_SEL_FMAP_C6_RSVD_1_MASK := (GENMASK 31 23).
Abbreviation TRQ_SEL_FMAP_C6_QID_MAX_MASK := (GENMASK 22 11).
Abbreviation TRQ_SEL_FMAP_C6_QID_BASE_MASK := (GENMASK 10 0).
Abbreviation TRQ_SEL_FMAP_C7_RSVD_1_MASK := (GENMASK 31 23).
Abbreviation TRQ_SEL_FMAP_C7_QID_MAX_MASK := (GENMASK 22 11).
Abbreviation TRQ_SEL_FMAP_C7_QID_BASE_MASK := (GENMASK 10 0).
Abbreviation TRQ_SEL_FMAP_C8_RSVD_1_MASK := (GENMASK 31 23).
Abbreviation TRQ_SEL_FMAP_C8_QID_MAX_MASK := (GENMASK 22 11).
Abbreviation TRQ_SEL_FMAP_C8_QID_BASE_MASK := (GENMASK 10 0).
Abbreviation TRQ_SEL_FMAP_C9_RSVD_1_MASK := (GENMASK 31 23).
Abbreviation TRQ_SEL_FMAP_C9_QID_MAX_MASK := (GENMASK 22 11).
Abbreviation TRQ_SEL_FMAP_C9_QID_BASE_MASK := (GENMASK 10 0).
Abbreviation TRQ_SEL_FMAP_CA_RSVD_1_MASK := (GENMASK 31 23).
Abbreviation TRQ_SEL_FMAP_CA_QID_MAX_MASK := (GENMASK 22 11).
Abbreviation TRQ_SEL_FMAP_CA_QID_BASE_MASK := (GENMASK 10 0).
Abbreviation TRQ_SEL_FMAP_CB_RSVD_1_MASK := (GENMASK 31 23).
Abbreviation TRQ_SEL_FMAP_CB_QID_MAX_MASK := (GENMASK 22 11).
Abbreviation TRQ_SEL_FMAP_CB_QID_BASE_MASK := (GENMASK 10 0).
Abbreviation TRQ_SEL_FMAP_CC_RSVD_1_MASK := (GENMASK 31 23).
Abbreviation TRQ_SEL_FMAP_CC_QID_MAX_MASK := (GENMASK 22 11).
Abbreviation TRQ_SEL_FMAP_CC_QID_BASE_MASK := (GENMASK 10 0).
Abbreviation TRQ_SEL_FMAP_CD_RSVD_1_MASK := (GENMASK 31 23).
Abbreviation TRQ_SEL_FMAP_CD_QID_MAX_MASK := (GENMASK 22 11).
Abbreviation TRQ_SEL_FMAP_CD_QID_BASE_MASK := (GENMASK 10 0).
Abbreviation TRQ_SEL_FMAP_CE_RSVD_1_MASK := (GENMASK 31 23).
Abbreviation TRQ_SEL_FMAP_CE_QID_MAX_MASK := (GENMASK 22 11).
Abbreviation TRQ_SEL_FMAP_CE_QID_BASE_MASK := (GENMASK 10 0).
Abbreviation TRQ_SEL_FMAP_CF_RSVD_1_MASK := (GENMASK 31 23).
Abbreviation TRQ_SEL_FMAP_CF_QID_MAX_MASK := (GENMASK 22 11).
Abbreviation TRQ_SEL_FMAP_CF_QID_BASE_MASK := (GENMASK 10 0).
Abbreviation TRQ_SEL_FMAP_D0_RSVD_1_MASK := (GENMASK 31 23).
Abbreviation TRQ_SEL_FMAP_D0_QID_MAX_MASK := (GENMASK 22 11).
Abbreviation TRQ_SEL_FMAP_D0_QID_BASE_MASK := (GENMASK 10 0).
Abbreviation TRQ_SEL_FMAP_D1_RSVD_1_MASK := (GENMASK 31 23).
Abbreviation TRQ_SEL_FMAP_D1_QID_MAX_MASK := (GENMASK 22 11).
Abbreviation TRQ_SEL_FMAP_D1_QID_BASE_MASK := (GENMASK 10 0).
Abbreviation TRQ_SEL_FMAP_D2_RSVD_1_MASK := (GENMASK 31 23).
Abbreviation TRQ_SEL_FMAP_D2_QID_MAX_MASK := (GENMASK 22 11).
Abbreviation TRQ_SEL_FMAP_D2_QID_BASE_MASK := (GENMASK 10 0).
Abbreviation TRQ_SEL_FMAP_D3_RSVD_1_MASK := (GENMASK 31 23).
Abbreviation TRQ_SEL_FMAP_D3_QID_MAX_MASK := (GENMASK 22 11).
Abbreviation TRQ_SEL_FMAP_D3_QID_BASE_MASK := (GENMASK 10 0).
Abbreviation TRQ_SEL_FMAP_D4_RSVD_1_MASK := (GENMASK 31 23).
Abbreviation TRQ_SEL_FMAP_D4_QID_MAX_MASK := (GENMASK 22 11).
Abbreviation TRQ_SEL_FMAP_D4_QID_BASE_MASK := (GENMASK 10 0).
Abbreviation TRQ_SEL_FMAP_D5_RSVD_1_MASK := (GENMASK 31 23).
Abbreviation TRQ_SEL_FMAP_D5_QID_MAX_MASK := (GENMASK 22 11).
Abbreviation TRQ_SEL_FMAP_D5_QID_BASE_MASK := (GENMASK 10 0).
Abbreviation TRQ_SEL_FMAP_D6_RSVD_1_MASK := (GENMASK 31 23).
Abbreviation TRQ_SEL_FMAP_D6_QID_MAX_MASK := (GENMASK 22 11).
Abbreviation TRQ_SEL_FMAP_D6_QID_BASE_MASK := (GENMASK 10 0).
Abbreviation TRQ_SEL_FMAP_D7_RSVD_1_MASK := (GENMASK 31 23).
Abbreviation TRQ_SEL_FMAP_D7_QID_MAX_MASK := (GENMASK 22 11).
Abbreviation TRQ_SEL_FMAP_D7_QID_BASE_MASK := (GENMASK 10 0).
Abbreviation TRQ_SEL_FMAP_D8_RSVD_1_MASK := (GENMASK 31 23).
Abbreviation TRQ_SEL_FMAP_D8_QID_MAX_MASK := (GENMASK 22 11).
Abbreviation TRQ_SEL_FMAP_D8_QID_BASE_MASK := (GENMASK 10 0).
Abbreviation TRQ_SEL_FMAP_D9_RSVD_1_MASK := (GENMASK 31 23).
Abbreviation TRQ_SEL_FMAP_D9_QID_MAX_MASK := (GENMASK 22 11).
Abbreviation TRQ_SEL_FMAP_D9_QID_BASE_MASK := (GENMASK 10 0).
Abbreviation TRQ_SEL_FMAP_DA_RSVD_1_MASK := (GENMASK 31 23).
Abbreviation TRQ_SEL_FMAP_DA_QID_MAX_MASK := (GENMASK 22 11).
Abbreviation TRQ_SEL_FMAP_DA_QID_BASE_MASK := (GENMASK 10 0).
Abbreviation TRQ_SEL_FMAP_DB_RSVD_1_MASK := (GENMASK 31 23).
Abbreviation TRQ_SEL_FMAP_DB_QID_MAX_MASK := (GENMASK 22 11).
Abbreviation TRQ_SEL_FMAP_DB_QID_BASE_MASK := (GENMASK 10 0).
Abbreviation TRQ_SEL_FMAP_DC_RSVD_1_MASK := (GENMASK 31 23).
Abbreviation TRQ_SEL_FMAP_DC_QID_MAX_MASK := (GENMASK 22 11).
Abbreviation TRQ_SEL_FMAP_DC_QID_BASE_MASK := (GENMASK 10 0).
Abbreviation TRQ_SEL_FMAP_DD_RSVD_1_MASK := (GENMASK 31 23).
Abbreviation TRQ_SEL_FMAP_DD_QID_MAX_MASK := (GENMASK 22 11).
Abbreviation TRQ_SEL_FMAP_DD_QID_BASE_MASK := (GENMASK 10 0).
Abbreviation TRQ_SEL_FMAP_DE_RSVD_1_MASK := (GENMASK 31 23).
Abbreviation TRQ_SEL_FMAP_DE_QID_MAX_MASK := (GENMASK 22 11).
Abbreviation TRQ_SEL_FMAP_DE_QID_BASE_MASK := (GENMASK 10 0).
Abbreviation TRQ_SEL_FMAP_DF_RSVD_1_MASK := (GENMASK 31 23).
Abbreviation TRQ_SEL_FMAP_DF_QID_MAX_MASK := (GENMASK 22 11).
Abbreviation TRQ_SEL_FMAP_DF_QID_BASE_MASK := (GENMASK 10 0).
Abbreviation TRQ_SEL_FMAP_E0_RSVD_1_MASK := (GENMASK 31 23).
Abbreviation TRQ_SEL_FMAP_E0_QID_MAX_MASK := (GENMASK 22 11).
Abbreviation TRQ_SEL_FMAP_E0_QID_BASE_MASK := (GENMASK 10 0).
Abbreviation TRQ_SEL_FMAP_E1_RSVD_1_MASK := (GENMASK 31 23).
Abbreviation TRQ_SEL_FMAP_E1_QID_MAX_MASK := (GENMASK 22 11).
Abbreviation TRQ_SEL_FMAP_E1_QID_BASE_MASK := (GENMASK 10 0).
Abbreviation TRQ_SEL_FMAP_E2_RSVD_1_MASK := (GENMASK 31 23).
Abbreviation TRQ_SEL_FMAP_E2_QID_MAX_MASK := (GENMASK 22 11).
Abbreviation TRQ_SEL_FMAP_E2_QID_BASE_MASK := (GENMASK 10 0).
Abbreviation TRQ_SEL_FMAP_E3_RSVD_1_MASK := (GENMASK 31 23).
Abbreviation TRQ_SEL_FMAP_E3_QID_MAX_MASK := (GENMASK 22 11).
Abbreviation TRQ_SEL_FMAP_E3_QID_BASE_MASK := (GENMASK 10 0).
Abbreviation TRQ_SEL_FMAP_E4_RSVD_1_MASK := (GENMASK 31 23).
Abbreviation TRQ_SEL_FMAP_E4_QID_MAX_MASK := (GENMASK 22 11).
Abbreviation TRQ_SEL_FMAP_E4_QID_BASE_MASK := (GENMASK 10 0).
Abbreviation TRQ_SEL_FMAP_E5_RSVD_1_MASK := (GENMASK 31 23).
Abbreviation TRQ_SEL_FMAP_E5_QID_MAX_MASK := (GENMASK 22 11).
Abbreviation TRQ_SEL_FMAP_E5_QID_BASE_MASK := (GENMASK 10 0).
Abbreviation TRQ_SEL_FMAP_E6_RSVD_1_MASK := (GENMASK 31 23).
Abbreviation TRQ_SEL_FMAP_E6_QID_MAX_MASK := (GENMASK 22 11).
Abbreviation TRQ_SEL_FMAP_E6_QID_BASE_MASK := (GENMASK 10 0).
Abbreviation TRQ_SEL_FMAP_E7_RSVD_1_MASK := (GENMASK 31 23).
Abbreviation TRQ_SEL_FMAP_E7_QID_MAX_MASK := (GENMASK 22 11).
Abbreviation TRQ_SEL_FMAP_E7_QID_BASE_MASK := (GENMASK 10 0).
Abbreviation TRQ_SEL_FMAP_E8_RSVD_1_MASK := (GENMASK 31 23).
Abbreviation TRQ_SEL_FMAP_E8_QID_MAX_MASK := (GENMASK 22 11).
Abbreviation TRQ_SEL_FMAP_E8_QID_BASE_MASK := (GENMASK 10 0).
Abbreviation TRQ_SEL_FMAP_E9_RSVD_1_MASK := (GENMASK 31 23).
Abbreviation TRQ_SEL_FMAP_E9_QID_MAX_MASK := (GENMASK 22 11).
Abbreviation TRQ_SEL_FMAP_E9_QID_BASE_MASK := (GENMASK 10 0).
Abbreviation TRQ_SEL_FMAP_EA_RSVD_1_MASK := (GENMASK 31 23).
Abbreviation TRQ_SEL_FMAP_EA_QID_MAX_MASK := (GENMASK 22 11).
Abbreviation TRQ_SEL_FMAP_EA_QID_BASE_MASK := (GENMASK 10 0).
Abbreviation TRQ_SEL_FMAP_EB_RSVD_1_MASK := (GENMASK 31 23).
Abbreviation TRQ_SEL_FMAP_EB_QID_MAX_MASK := (GENMASK 22 11).
Abbreviation TRQ_SEL_FMAP_EB_QID_BASE_MASK := (GENMASK 10 0).
Abbreviation TRQ_SEL_FMAP_EC_RSVD_1_MASK := (GENMASK 31 23).
Abbreviation TRQ_SEL_FMAP_EC_QID_MAX_MASK := (GENMASK 22 11).
Abbreviation TRQ_SEL_FMAP_EC_QID_BASE_MASK := (GENMASK 10 0).
Abbreviation TRQ_SEL_FMAP_ED_RSVD_1_MASK := (GENMASK 31 23).
Abbreviation TRQ_SEL_FMAP_ED_QID_MAX_MASK := (GENMASK 22 11).
Abbreviation TRQ_SEL_FMAP_ED_QID_BASE_MASK := (GENMASK 10 0).
Abbreviation TRQ_SEL_FMAP_EE_RSVD_1_MASK := (GENMASK 31 23).
Abbreviation TRQ_SEL_FMAP_EE_QID_MAX_MASK := (GENMASK 22 11).
Abbreviation TRQ_SEL_FMAP_EE_QID_BASE_MASK := (GENMASK 10 0).
Abbreviation TRQ_SEL_FMAP_EF_RSVD_1_MASK := (GENMASK 31 23).
Abbreviation TRQ_SEL_FMAP_EF_QID_MAX_MASK := (GENMASK 22 11).
Abbreviation TRQ_SEL_FMAP_EF_QID_BASE_MASK := (GENMASK 10 0).
Abbreviation TRQ_SEL_FMAP_F0_RSVD_1_MASK := (GENMASK 31 23).
Abbreviation TRQ_SEL_FMAP_F0_QID_MAX_MASK := (GENMASK 22 11).
Abbreviation TRQ_SEL_FMAP_F0_QID_BASE_MASK := (GENMASK 10 0).
Abbreviation IND_CTXT_DATA_3_DATA_MASK := (GENMASK 31 0).
Abbreviation IND_CTXT_DATA_2_DATA_MASK := (GENMASK 31 0).
Abbreviation IND_CTXT_DATA_1_DATA_MASK := (GENMASK 31 0).
Abbreviation IND_CTXT_DATA_0_DATA_MASK := (GENMASK 31 0).
Abbreviation IND_CTXT3_MASK := (GENMASK 31 0).
Abbreviation IND_CTXT2_MASK := (GENMASK 31 0).
Abbreviation IND_CTXT1_MASK := (GENMASK 31 0).
Abbreviation IND_CTXT0_MASK := (GENMASK 31 0).
Abbreviation IND_CTXT_CMD_RSVD_1_MASK := (GENMASK 31 18).
Abbreviation IND_CTXT_CMD_QID_MASK := (GENMASK 17 7).
Abbreviation IND_CTXT_CMD_OP_MASK := (GENMASK 6 5).
Abbreviation IND_CTXT_CMD_SET_MASK := (GENMASK 4 1).
Abbreviation C2H_TIMER_CNT_1_RSVD_1_MASK := (GENMASK 31 8).
Abbreviation C2H_TIMER_CNT_1_MASK := (GENMASK 7 0).
Abbreviation C2H_TIMER_CNT_2_RSVD_1_MASK := (GENMASK 31 8).
Abbreviation C2H_TIMER_CNT_2_MASK := (GENMASK 7 0).
Abbreviation C2H_TIMER_CNT_3_RSVD_1_MASK := (GENMASK 31 8).
Abbreviation C2H_TIMER_CNT_3_MASK := (GENMASK 7 0).
Abbreviation C2H_TIMER_CNT_4_RSVD_1_MASK := (GENMASK 31 8).
Abbreviation C2H_TIMER_CNT_4_MASK := (GENMASK 7 0).
Abbreviation C2H_TIMER_CNT_5_RSVD_1_MASK := (GENMASK 31 8).
Abbreviation C2H_TIMER_CNT_5_MASK := (GENMASK 7 0).
Abbreviation C2H_TIMER_CNT_6_RSVD_1_MASK := (GENMASK 31 8).
Abbreviation C2H_TIMER_CNT_6_MASK := (GENMASK 7 0).
Abbreviation C2H_TIMER_CNT_7_RSVD_1_MASK := (GENMASK 31 8).
Abbreviation C2H_TIMER_CNT_7_MASK := (GENMASK 7 0).
Abbreviation C2H_TIMER_CNT_8_RSVD_1_MASK := (GENMASK 31 8).
Abbreviation C2H_TIMER_CNT_8_MASK := (GENMASK 7 0).
Abbreviation C2H_TIMER_CNT_9_RSVD_1_MASK := (GENMASK 31 8).
Abbreviation C2H_TIMER_CNT_9_MASK := (GENMASK 7 0).
Abbreviation C2H_TIMER_CNT_A_RSVD_1_MASK := (GENMASK 31 8).
Abbreviation C2H_TIMER_CNT_A_MASK := (GENMASK 7 0).
Abbreviation C2H_TIMER_CNT_B_RSVD_1_MASK := (GENMASK 31 8).
Abbreviation C2H_TIMER_CNT_B_MASK := (GENMASK 7 0).
Abbreviation C2H_TIMER_CNT_C_RSVD_1_MASK := (GENMASK 31 8).
Abbreviation C2H_TIMER_CNT_C_MASK := (GENMASK 7 0).
Abbreviation C2H_TIMER_CNT_D_RSVD_1_MASK := (GENMASK 31 8).
Abbreviation C2H_TIMER_CNT_D_MASK := (GENMASK 7 0).
Abbreviation C2H_TIMER_CNT_E_RSVD_1_MASK := (GENMASK 31 8).
Abbreviation C2H_TIMER_CNT_E_MASK := (GENMASK 7 0).
Abbreviation C2H_TIMER_CNT_F_RSVD_1_MASK := (GENMASK 31 8).
Abbreviation C2H_TIMER_CNT_F_MASK := (GENMASK 7 0).
Abbreviation C2H_TIMER_CNT_10_RSVD_1_MASK := (GENMASK 31 8).
Abbreviation C2H_TIMER_CNT_10_MASK := (GENMASK 7 0).
Abbreviation C2H_CNT_TH_1_RSVD_1_MASK := (GENMASK 31 8).
Abbreviation C2H_CNT_TH_1_THESHOLD_CNT_MASK := (GENMASK 7 0).
Abbreviation C2H_CNT_TH_2_RSVD_1_MASK := (GENMASK 31 8).
Abbreviation C2H_CNT_TH_2_THESHOLD_CNT_MASK := (GENMASK 7 0).
Abbreviation C2H_CNT_TH_3_RSVD_1_MASK := (GENMASK 31 8).
Abbreviation C2H_CNT_TH_3_THESHOLD_CNT_MASK := (GENMASK 7 0).
Abbreviation C2H_CNT_TH_4_RSVD_1_MASK := (GENMASK 31 8).
Abbreviation C2H_CNT_TH_4_THESHOLD_CNT_MASK := (GENMASK 7 0).
Abbreviation C2H_CNT_TH_5_RSVD_1_MASK := (GENMASK 31 8).
Abbreviation C2H_CNT_TH_5_THESHOLD_CNT_MASK := (GENMASK 7 0).
Abbreviation C2H_CNT_TH_6_RSVD_1_MASK := (GENMASK 31 8).
Abbreviation C2H_CNT_TH_6_THESHOLD_CNT_MASK := (GENMASK 7 0).
Abbreviation C2H_CNT_TH_7_RSVD_1_MASK := (GENMASK 31 8).
Abbreviation C2H_CNT_TH_7_THESHOLD_CNT_MASK := (GENMASK 7 0).
Abbreviation C2H_CNT_TH_8_RSVD_1_MASK := (GENMASK 31 8).
Abbreviation C2H_CNT_TH_8_THESHOLD_CNT_MASK := (GENMASK 7 0).
Abbreviation C2H_CNT_TH_9_RSVD_1_MASK := (GENMASK 31 8).
Abbreviation C2H_CNT_TH_9_THESHOLD_CNT_MASK := (GENMASK 7 0).
Abbreviation C2H_CNT_TH_A_RSVD_1_MASK := (GENMASK 31 8).
Abbreviation C2H_CNT_TH_A_THESHOLD_CNT_MASK := (GENMASK 7 0).
Abbreviation C2H_CNT_TH_B_RSVD_1_MASK := (GENMASK 31 8).
Abbreviation C2H_CNT_TH_B_THESHOLD_CNT_MASK := (GENMASK 7 0).
Abbreviation C2H_CNT_TH_C_RSVD_1_MASK := (GENMASK 31 8).
Abbreviation C2H_CNT_TH_C_THESHOLD_CNT_MASK := (GENMASK 7 0).
Abbreviation C2H_CNT_TH_D_RSVD_1_MASK := (GENMASK 31 8).
Abbreviation C2H_CNT_TH_D_THESHOLD_CNT_MASK := (GENMASK 7 0).
Abbreviation C2H_CNT_TH_E_RSVD_1_MASK := (GENMASK 31 8).
Abbreviation C2H_CNT_TH_E_THESHOLD_CNT_MASK := (GENMASK 7 0).
Abbreviation C2H_CNT_TH_F_RSVD_1_MASK := (GENMASK 31 8).
Abbreviation C2H_CNT_TH_F_THESHOLD_CNT_MASK := (GENMASK 7 0).
Abbreviation C2H_CNT_TH_10_RSVD_1_MASK := (GENMASK 31 8).
Abbreviation C2H_CNT_TH_10_THESHOLD_CNT_MASK := (GENMASK 7 0).
Abbreviation C2H_QID2VEC_MAP_QID_RSVD_1_MASK := (GENMASK 31 11).
Abbreviation C2H_QID2VEC_MAP_QID_QID_MASK := (GENMASK 10 0).
Abbreviation C2H_QID2VEC_MAP_RSVD_1_MASK := (GENMASK 31 19).
Abbreviation C2H_QID2VEC_MAP_H2C_EN_COAL_MASK := (BIT 18).
Abbreviation C2H_QID2VEC_MAP_H2C_VECTOR_MASK := (GENMASK 17 9).
Abbreviation C2H_STAT_S_AXIS_C2H_ACCEPTED_MASK := (GENMASK 31 0).
Abbreviation C2H_STAT_S_AXIS_WRB_ACCEPTED_MASK := (GENMASK 31 0).
Abbreviation C2H_STAT_DESC_RSP_PKT_ACCEPTED_D_MASK := (GENMASK 31 0).
Abbreviation C2H_STAT_AXIS_PKG_CMP_MASK := (GENMASK 31 0).
Abbreviation C2H_STAT_DESC_RSP_ACCEPTED_D_MASK := (GENMASK 31 0).
Abbreviation C2H_STAT_DESC_RSP_CMP_D_MASK := (GENMASK 31 0).
Abbreviation C2H_STAT_WRQ_OUT_MASK := (GENMASK 31 0).
Abbreviation C2H_STAT_WPL_REN_ACCEPTED_MASK := (GENMASK 31 0).
Abbreviation C2H_STAT_TOTAL_WRQ_LEN_MASK := (GENMASK 31 0).
Abbreviation C2H_STAT_TOTAL_WPL_LEN_MASK := (GENMASK 31 0).
Abbreviation C2H_BUF_SZ_0_SIZE_MASK := (GENMASK 31 0).
Abbreviation C2H_BUF_SZ_1_SIZE_MASK := (GENMASK 31 0).
Abbreviation C2H_BUF_SZ_2_SIZE_MASK := (GENMASK 31 0).
Abbreviation C2H_BUF_SZ_3_SIZE_MASK := (GENMASK 31 0).
Abbreviation C2H_BUF_SZ_4_SIZE_MASK := (GENMASK 31 0).
Abbreviation C2H_BUF_SZ_5_SIZE_MASK := (GENMASK 31 0).
Abbreviation C2H_BUF_SZ_7_SIZE_MASK := (GENMASK 31 0).
Abbreviation C2H_BUF_SZ_8_SIZE_MASK := (GENMASK 31 0).
Abbreviation C2H_BUF_SZ_9_SIZE_MASK := (GENMASK 31 0).
Abbreviation C2H_BUF_SZ_10_SIZE_MASK := (GENMASK 31 0).
Abbreviation C2H_BUF_SZ_11_SIZE_MASK := (GENMASK 31 0).
Abbreviation C2H_BUF_SZ_12_SIZE_MASK := (GENMASK 31 0).
Abbreviation C2H_BUF_SZ_13_SIZE_MASK := (GENMASK 31 0).
Abbreviation C2H_BUF_SZ_14_SIZE_MASK := (GENMASK 31 0).
Abbreviation C2H_BUF_SZ_15_SIZE_MASK := (GENMASK 31 0).
Abbreviation C2H_ERR_STAT_RSVD_1_MASK := (GENMASK 31 16).
Abbreviation C2H_ERR_STAT_WRB_PRTY_ERR_MASK := (BIT 15).
Abbreviation C2H_ERR_STAT_WRB_CIDX_ERR_MASK := (BIT 14).
Abbreviation C2H_ERR_STAT_WRB_QFULL_ERR_MASK := (BIT 13).
Abbreviation C2H_ERR_STAT_WRB_INV_Q_ERR_MASK := (BIT 12).
Abbreviation C2H_ERR_STAT_PORT_ID_BYP_IN_MISMATCH_MASK := (BIT 11).
Abbreviation C2H_ERR_STAT_PORT_ID_CTXT_MISMATCH_MASK := (BIT 10).
Abbreviation C2H_ERR_STAT_ERR_DESC_CNT_MASK := (BIT 9).
Abbreviation C2H_ERR_STAT_RSVD_2_MASK := (BIT 8).
Abbreviation C2H_ERR_STAT_MSI_INT_FAIL_MASK := (BIT 7).
Abbreviation C2H_ERR_STAT_ENG_WPL_DATA_PAR_ERR_MASK := (BIT 6).
Abbreviation C2H_ERR_STAT_RSVD_3_MASK := (BIT 5).
Abbreviation C2H_ERR_STAT_DESC_RSP_ERR_MASK := (BIT 4).
Abbreviation C2H_ERR_STAT_QID_MISMATCH_MASK := (BIT 3).
Abbreviation C2H_ERR_STAT_RSVD_4_MASK := (BIT 2).
Abbreviation C2H_ERR_STAT_LEN_MISMATCH_MASK := (BIT 1).
Abbreviation C2H_ERR_STAT_MTY_MISMATCH_MASK := (BIT 0).
Abbreviation C2H_ERR_EN_MASK := (GENMASK 31 0).
Abbreviation C2H_FATAL_ERR_STAT_RSVD_1_MASK := (GENMASK 31 19).
Abbreviation C2H_FATAL_ERR_STAT_WPL_DATA_PAR_ERR_MASK := (BIT 18).
Abbreviation C2H_FATAL_ERR_STAT_PLD_FIFO_RAM_RDBE_MASK := (BIT 17).
Abbreviation C2H_FATAL_ERR_STAT_QID_FIFO_RAM_RDBE_MASK := (BIT 16).
Abbreviation C2H_FATAL_ERR_STAT_TUSER_FIFO_RAM_RDBE_MASK := (BIT 15).
Abbreviation C2H_FATAL_ERR_STAT_WRB_COAL_DATA_RAM_RDBE_MASK := (BIT 14).
Abbreviation C2H_FATAL_ERR_STAT_INT_QID2VEC_RAM_RDBE_MASK := (BIT 13).
Abbreviation C2H_FATAL_ERR_STAT_INT_CTXT_RAM_RDBE_MASK := (BIT 12).
Abbreviation C2H_FATAL_ERR_STAT_DESC_REQ_FIFO_RAM_RDBE_MASK := (BIT 11).
Abbreviation C2H_FATAL_ERR_STAT_PFCH_CTXT_RAM_RDBE_MASK := (BIT 10).
Abbreviation C2H_FATAL_ERR_STAT_WRB_CTXT_RAM_RDBE_MASK := (BIT 9).
Abbreviation C2H_FATAL_ERR_STAT_PFCH_LL_RAM_RDBE_MASK := (BIT 8).
Abbreviation C2H_FATAL_ERR_STAT_TIMER_FIFO_RAM_RDBE_MASK := (GENMASK 7 4).
Abbreviation C2H_FATAL_ERR_STAT_QID_MISMATCH_MASK := (BIT 3).
Abbreviation C2H_FATAL_ERR_STAT_RSVD_2_MASK := (BIT 2).
Abbreviation C2H_FATAL_ERR_STAT_LEN_MISMATCH_MASK := (BIT 1).
Abbreviation C2H_FATAL_ERR_STAT_MTY_MISMATCH_MASK := (BIT 0).
Abbreviation C2H_FATAL_ERR_C2HEN_MASK := (GENMASK 31 0).
Abbreviation C2H_FATAL_ERR_ENABLE_RSVD_1_MASK := (GENMASK 31 2).
Abbreviation C2H_FATAL_ERR_ENABLE_WPL_PAR_INV_MASK := (BIT 1).
Abbreviation C2H_FATAL_ERR_ENABLE_WRQ_DIS_MASK := (BIT 0).
Abbreviation GLBL_ERR_INT_RSVD_1_MASK := (GENMASK 31 18).
Abbreviation GLBL_ERR_INT_ARM_MASK := (BIT 17).
Abbreviation GLBL_ERR_INT_EN_COAL_MASK := (BIT 16).
Abbreviation GLBL_ERR_INT_VEC_MASK := (GENMASK 15 8).
Abbreviation GLBL_ERR_INT_FUNC_MASK := (GENMASK 7 0).
Abbreviation C2H_INT_TIMER_TICK_MASK := (GENMASK 31 0).
Abbreviation C2H_STAT_DESC_RSP_DROP_ACCEPTED_D_MASK := (GENMASK 31 0).
Abbreviation C2H_STAT_DESC_RSP_ERR_ACCEPTED_D_MASK := (GENMASK 31 0).
Abbreviation C2H_STAT_DESC_REQ_MASK := (GENMASK 31 0).
Abbreviation C2H_STAT_DMA_ENG_0_RSVD_1_MASK := (BIT 31).
Abbreviation C2H_STAT_DMA_ENG_0_WRB_FIFO_OUT_CNT_MASK := (GENMASK 30 28).
Abbreviation C2H_STAT_DMA_ENG_0_QID_FIFO_OUT_CNT_MASK := (GENMASK 27 18).
Abbreviation C2H_STAT_DMA_ENG_0_PLD_FIFO_OUT_CNT_MASK := (GENMASK 17 8).
Abbreviation C2H_STAT_DMA_ENG_0_WRQ_FIFO_OUT_CNT_MASK := (GENMASK 7 5).
Abbreviation C2H_STAT_DMA_ENG_0_WRB_SM_CS_MASK := (BIT 4).
Abbreviation C2H_STAT_DMA_ENG_0_MAIN_SM_CS_MASK := (GENMASK 3 0).
Abbreviation C2H_STAT_DMA_ENG_1_RSVD_1_MASK := (BIT 31).
Abbreviation C2H_STAT_DMA_ENG_1_DESC_RSP_LAST_MASK := (BIT 30).
Abbreviation C2H_STAT_DMA_ENG_1_PLD_FIFO_IN_CNT_MASK := (GENMASK 29 20).
Abbreviation C2H_STAT_DMA_ENG_1_PLD_FIFO_OUTPUT_CNT_MASK := (GENMASK 19 10).
Abbreviation C2H_STAT_DMA_ENG_1_QID_FIFO_IN_CNT_MASK := (GENMASK 9 0).
Abbreviation C2H_STAT_DMA_ENG_2_RSVD_1_MASK := (GENMASK 31 30).
Abbreviation C2H_STAT_DMA_ENG_2_WRB_FIFO_IN_CNT_MASK := (GENMASK 29 20).
Abbreviation C2H_STAT_DMA_ENG_2_WRB_FIFO_OUTPUT_CNT_MASK := (GENMASK 19 10).
Abbreviation C2H_STAT_DMA_ENG_2_QID_FIFO_OUTPUT_CNT_MASK := (GENMASK 9 0).
Abbreviation C2H_STAT_DMA_ENG_3_RSVD_1_MASK := (GENMASK 31 30).
Abbreviation C2H_STAT_DMA_ENG_3_ADDR_4K_SPLIT_CNT_MASK := (GENMASK 29 20).
Abbreviation C2H_STAT_DMA_ENG_3_WRQ_FIFO_IN_CNT_MASK := (GENMASK 19 10).
Abbreviation C2H_STAT_DMA_ENG_3_WRQ_FIFO_OUTPUT_CNT_MASK := (GENMASK 9 0).
Abbreviation C2H_PFCH_ERR_CTXT_RSVD_1_MASK := (GENMASK 31 14).
Abbreviation C2H_PFCH_ERR_CTXT_ERR_STAT_MASK := (BIT 13).
Abbreviation C2H_PFCH_ERR_CTXT_CMD_WR_MASK := (BIT 12).
Abbreviation C2H_PFCH_ERR_CTXT_QID_MASK := (GENMASK 11 1).
Abbreviation C2H_PFCH_ERR_CTXT_DONE_MASK := (BIT 0).
Abbreviation C2H_FIRST_ERR_QID_RSVD_1_MASK := (GENMASK 31 21).
Abbreviation C2H_FIRST_ERR_QID_ERR_STAT_MASK := (GENMASK 20 16).
Abbreviation C2H_FIRST_ERR_QID_CMD_WR_MASK := (GENMASK 15 12).
Abbreviation C2H_FIRST_ERR_QID_QID_MASK := (GENMASK 11 0).
Abbreviation STAT_NUM_WRB_IN_RSVD_1_MASK := (GENMASK 31 16).
Abbreviation STAT_NUM_WRB_IN_WRB_CNT_MASK := (GENMASK 15 0).
Abbreviation STAT_NUM_WRB_OUT_RSVD_1_MASK := (GENMASK 31 16).
Abbreviation STAT_NUM_WRB_OUT_WRB_CNT_MASK := (GENMASK 15 0).
Abbreviation STAT_NUM_WRB_DRP_RSVD_1_MASK := (GENMASK 31 16).
Abbreviation STAT_NUM_WRB_DRP_WRB_CNT_MASK := (GENMASK 15 0).
Abbreviation STAT_NUM_STAT_DESC_OUT_RSVD_1_MASK := (GENMASK 31 16).
Abbreviation STAT_NUM_STAT_DESC_OUT_CNT_MASK := (GENMASK 15 0).
Abbreviation STAT_NUM_DSC_CRDT_SENT_RSVD_1_MASK := (GENMASK 31 16).
Abbreviation STAT_NUM_DSC_CRDT_SENT_CNT_MASK := (GENMASK 15 0).
Abbreviation STAT_NUM_FCH_DSC_RCVD_RSVD_1_MASK := (GENMASK 31 16).
Abbreviation STAT_NUM_FCH_DSC_RCVD_DSC_CNT_MASK := (GENMASK 15 0).
Abbreviation STAT_NUM_BYP_DSC_RCVD_RSVD_1_MASK := (GENMASK 31 11).
Abbreviation STAT_NUM_BYP_DSC_RCVD_DSC_CNT_MASK := (GENMASK 10 0).
Abbreviation C2H_WRB_COAL_CFG_SET_GLB_FLUSH_MASK := (BIT 1).
Abbreviation C2H_WRB_COAL_CFG_DONE_GLB_FLUSH_MASK := (BIT 0).
Abbreviation C2H_INTR_H2C_REQ_RSVD_1_MASK := (GENMASK 31 18).
Abbreviation C2H_INTR_H2C_REQ_CNT_MASK := (GENMASK 17 0).
Abbreviation C2H_INTR_C2H_MM_REQ_RSVD_1_MASK := (GENMASK 31 18).
Abbreviation C2H_INTR_C2H_MM_REQ_CNT_MASK := (GENMASK 17 0).
Abbreviation C2H_INTR_ERR_INT_REQ_RSVD_1_MASK := (GENMASK 31 18).
Abbreviation C2H_INTR_ERR_INT_REQ_CNT_MASK := (GENMASK 17 0).
Abbreviation C2H_INTR_C2H_ST_REQ_RSVD_1_MASK := (GENMASK 31 18).
Abbreviation C2H_INTR_C2H_ST_REQ_CNT_MASK := (GENMASK 17 0).
Abbreviation C2H_INTR_H2C_ERR_C2H_MM_MSIX_ACK_RSVD_1_MASK := (GENMASK 31 18).
Abbreviation C2H_INTR_H2C_ERR_C2H_MM_MSIX_ACK_CNT_MASK := (GENMASK 17 0).
Abbreviation C2H_INTR_H2C_ERR_C2H_MM_MSIX_FAIL_RSVD_1_MASK := (GENMASK 31 18).
Abbreviation C2H_INTR_H2C_ERR_C2H_MM_MSIX_FAIL_CNT_MASK := (GENMASK 17 0).
Abbreviation C2H_INTR_H2C_ERR_C2H_MM_MSIX_NO_MSIX_RSVD_1_MASK := (GENMASK 31 18).
Abbreviation C2H_INTR_H2C_ERR_C2H_MM_MSIX_NO_MSIX_CNT_MASK := (GENMASK 17 0).
Abbreviation C2H_INTR_H2C_ERR_C2H_MM_CTXT_INVAL_RSVD_1_MASK := (GENMASK 31 18).
Abbreviation C2H_INTR_H2C_ERR_C2H_MM_CTXT_INVAL_CNT_MASK := (GENMASK 17 0).
Abbreviation C2H_INTR_C2H_ST_MSIX_ACK_RSVD_1_MASK := (GENMASK 31 18).
Abbreviation C2H_INTR_C2H_ST_MSIX_ACK_CNT_MASK := (GENMASK 17 0).
Abbreviation C2H_INTR_C2H_ST_MSIX_FAIL_RSVD_1_MASK := (GENMASK 31 18).
Abbreviation C2H_INTR_C2H_ST_MSIX_FAIL_CNT_MASK := (GENMASK 17 0).
Abbreviation C2H_INTR_C2H_ST_NO_MSIX_RSVD_1_MASK := (GENMASK 31 18).
Abbreviation C2H_INTR_C2H_ST_NO_MSIX_CNT_MASK := (GENMASK 17 0).
Abbreviation C2H_INTR_C2H_ST_CTXT_INVAL_RSVD_1_MASK := (GENMASK 31 18).
Abbreviation C2H_INTR_C2H_ST_CTXT_INVAL_CNT_MASK := (GENMASK 17 0).
Abbreviation C2H_STAT_WR_CMP_RSVD_1_MASK := (GENMASK 31 18).
Abbreviation C2H_STAT_WR_CMP_CNT_MASK := (GENMASK 17 0).
Abbreviation C2H_STAT_DMA_ENG_4_TUSER_FIFO_OUT_VLD_MASK := (BIT 31).
Abbreviation C2H_STAT_DMA_ENG_4_WRB_FIFO_IN_RDY_MASK := (BIT 30).
Abbreviation C2H_STAT_DMA_ENG_4_TUSER_FIFO_IN_CNT_MASK := (GENMASK 29 20).
Abbreviation C2H_STAT_DMA_ENG_4_TUSER_FIFO_OUTPUT_CNT_MASK := (GENMASK 19 10).
Abbreviation C2H_STAT_DMA_ENG_4_TUSER_FIFO_OUT_CNT_MASK := (GENMASK 9 0).
Abbreviation C2H_STAT_DMA_ENG_5_RSVD_1_MASK := (GENMASK 31 25).
Abbreviation C2H_STAT_DMA_ENG_5_TUSER_COMB_OUT_VLD_MASK := (BIT 24).
Abbreviation C2H_STAT_DMA_ENG_5_TUSER_FIFO_IN_RDY_MASK := (BIT 23).
Abbreviation C2H_STAT_DMA_ENG_5_TUSER_COMB_IN_CNT_MASK := (GENMASK 22 13).
Abbreviation C2H_STAT_DMA_ENG_5_TUSE_COMB_OUTPUT_CNT_MASK := (GENMASK 12 3).
Abbreviation C2H_STAT_DMA_ENG_5_TUSER_COMB_CNT_MASK := (GENMASK 2 0).
Abbreviation C2H_PFCH_QID_RSVD_1_MASK := (GENMASK 31 15).
Abbreviation C2H_PFCH_QID_ERR_CTXT_MASK := (BIT 14).
Abbreviation C2H_PFCH_QID_TARGET_MASK := (GENMASK 13 11).
Abbreviation C2H_PFCH_QID_QID_OR_TAG_MASK := (GENMASK 10 0).
Abbreviation C2H_PFCH_DATA_MASK := (GENMASK 31 0).
Abbreviation C2H_INT_RSVD_1_MASK := (GENMASK 31 8).
Abbreviation C2H_INT_INT_COAL_SM_MASK := (GENMASK 7 4).
Abbreviation C2H_INT_INT_SM_MASK := (GENMASK 3 0).
Abbreviation C2H_STAT_IMM_ACCEPTED_RSVD_1_MASK := (GENMASK 31 18).
Abbreviation C2H_STAT_IMM_ACCEPTED_CNT_MASK := (GENMASK 17 0).
Abbreviation C2H_STAT_MARKER_ACCEPTED_RSVD_1_MASK := (GENMASK 31 18).
Abbreviation C2H_STAT_MARKER_ACCEPTED_CNT_MASK := (GENMASK 17 0).
Abbreviation C2H_STAT_DISABLE_CMP_ACCEPTED_RSVD_1_MASK := (GENMASK 31 18).
Abbreviation C2H_STAT_DISABLE_CMP_ACCEPTED_CNT_MASK := (GENMASK 17 0).
Abbreviation C2H_PLD_FIFO_CRDT_CNT_RSVD_1_MASK := (GENMASK 31 18).
Abbreviation C2H_PLD_FIFO_CRDT_CNT_CNT_MASK := (GENMASK 17 0).
Abbreviation H2C_ERR_STAT_RSVD_1_MASK := (GENMASK 31 5).
Abbreviation H2C_ERR_STAT_SBE_MASK := (BIT 4).
Abbreviation H2C_ERR_STAT_DBE_MASK := (BIT 3).
Abbreviation H2C_ERR_STAT_NO_DMA_DS_MASK := (BIT 2).
Abbreviation H2C_ERR_STAT_SDI_MRKR_REQ_MOP_ERR_MASK := (BIT 1).
Abbreviation H2C_ERR_STAT_ZERO_LEN_DS_MASK := (BIT 0).
Abbreviation H2C_ERR_EN_MASK := (GENMASK 31 0).
Abbreviation H2C_FIRST_ERR_QID_RSVD_1_MASK := (GENMASK 31 20).
Abbreviation H2C_FIRST_ERR_QID_ERR_TYPE_MASK := (GENMASK 19 16).
Abbreviation H2C_FIRST_ERR_QID_RSVD_2_MASK := (GENMASK 15 12).
Abbreviation H2C_FIRST_ERR_QID_QID_MASK := (GENMASK 11 0).
Abbreviation H2C_REG0_NUM_DSC_RCVD_MASK := (GENMASK 31 16).
Abbreviation H2C_REG0_NUM_WRB_SENT_MASK := (GENMASK 15 0).
Abbreviation H2C_REG1_NUM_REQ_SENT_MASK := (GENMASK 31 16).
Abbreviation H2C_REG1_NUM_CMP_SENT_MASK := (GENMASK 15 0).
Abbreviation H2C_REG2_RSVD_1_MASK := (GENMASK 31 16).
Abbreviation H2C_REG2_NUM_ERR_DSC_RCVD_MASK := (GENMASK 15 0).
Abbreviation H2C_REG3_MASK := (BIT 31).
Abbreviation H2C_REG3_DSCO_FIFO_EMPTY_MASK := (BIT 30).
Abbreviation H2C_REG3_DSCO_FIFO_FULL_MASK := (BIT 29).
Abbreviation H2C_REG3_CUR_RC_STATE_MASK := (GENMASK 28 26).
Abbreviation H2C_REG3_RDREQ_LINES_MASK := (GENMASK 25 16).
Abbreviation H2C_REG3_RDATA_LINES_AVAIL_MASK := (GENMASK 15 6).
Abbreviation H2C_REG3_PEND_FIFO_EMPTY_MASK := (BIT 5).
Abbreviation H2C_REG3_PEND_FIFO_FULL_MASK := (BIT 4).
Abbreviation H2C_REG3_CUR_RQ_STATE_MASK := (GENMASK 3 2).
Abbreviation H2C_REG3_DSCI_FIFO_FULL_MASK := (BIT 1).
Abbreviation H2C_REG3_DSCI_FIFO_EMPTY_MASK := (BIT 0).
Abbreviation H2C_REG4_RDREQ_ADDR_MASK := (GENMASK 31 0).
Abbreviation H2C_FATAL_ERR_EN_RSVD_1_MASK := (GENMASK 31 1).
Abbreviation H2C_FATAL_ERR_EN_H2C_MASK := (BIT 0).
Abbreviation C2H_CHANNEL_CTL_RSVD_1_MASK := (GENMASK 31 1).
Abbreviation C2H_CHANNEL_CTL_RUN_MASK := (BIT 0).
Abbreviation C2H_CHANNEL_CTL_1_RUN_MASK := (GENMASK 31 1).
Abbreviation C2H_CHANNEL_CTL_1_RUN_1_MASK := (BIT 0).
Abbreviation C2H_MM_STATUS_RSVD_1_MASK := (GENMASK 31 1).
Abbreviation C2H_MM_STATUS_RUN_MASK := (BIT 0).
Abbreviation C2H_CHANNEL_CMPL_DESC_CNT_C2H_CO_MASK := (GENMASK 31 0).
Abbreviation C2H_MM_ERR_CODE_ENABLE_RSVD_1_MASK := (BIT 31).
Abbreviation C2H_MM_ERR_CODE_ENABLE_WR_UC_RAM_MASK := (BIT 30).
Abbreviation C2H_MM_ERR_CODE_ENABLE_WR_UR_MASK := (BIT 29).
Abbreviation C2H_MM_ERR_CODE_ENABLE_WR_FLR_MASK := (BIT 28).
Abbreviation C2H_MM_ERR_CODE_ENABLE_RSVD_2_MASK := (GENMASK 27 2).
Abbreviation C2H_MM_ERR_CODE_ENABLE_RD_SLV_ERR_MASK := (BIT 1).
Abbreviation C2H_MM_ERR_CODE_ENABLE_WR_SLV_ERR_MASK := (BIT 0).
Abbreviation C2H_MM_ERR_CODE_RSVD_1_MASK := (GENMASK 31 18).
Abbreviation C2H_MM_ERR_CODE_VALID_MASK := (BIT 17).
Abbreviation C2H_MM_ERR_CODE_RDWR_MASK := (BIT 16).
Abbreviation C2H_MM_ERR_CODE_MASK := (GENMASK 4 0).
Abbreviation C2H_MM_ERR_INFO_RSVD_1_MASK := (GENMASK 31 29).
Abbreviation C2H_MM_ERR_INFO_QID_MASK := (GENMASK 28 17).
Abbreviation C2H_MM_ERR_INFO_DIR_MASK := (BIT 16).
Abbreviation C2H_MM_ERR_INFO_CIDX_MASK := (GENMASK 15 0).
Abbreviation C2H_MM_PERF_MON_CTL_RSVD_1_MASK := (GENMASK 31 4).
Abbreviation C2H_MM_PERF_MON_CTL_IMM_START_MASK := (BIT 3).
Abbreviation C2H_MM_PERF_MON_CTL_RUN_START_MASK := (BIT 2).
Abbreviation C2H_MM_PERF_MON_CTL_IMM_CLEAR_MASK := (BIT 1).
Abbreviation C2H_MM_PERF_MON_CTL_RUN_CLEAR_MASK := (BIT 0).
Abbreviation C2H_MM_PERF_MON_CYCLE_CNT0_CYC_CNT_MASK := (GENMASK 31 0).
Abbreviation C2H_MM_PERF_MON_CYCLE_CNT1_RSVD_1_MASK := (GENMASK 31 10).
Abbreviation C2H_MM_PERF_MON_CYCLE_CNT1_CYC_CNT_MASK := (GENMASK 9 0).
Abbreviation C2H_MM_PERF_MON_DATA_CNT0_DCNT_MASK := (GENMASK 31 0).
Abbreviation C2H_MM_PERF_MON_DATA_CNT1_RSVD_1_MASK := (GENMASK 31 10).
Abbreviation C2H_MM_PERF_MON_DATA_CNT1_DCNT_MASK := (GENMASK 9 0).
Abbreviation C2H_MM_RSVD_1_MASK := (GENMASK 31 24).
Abbreviation C2H_MM_RRQ_ENTRIES_MASK := (GENMASK 23 17).
Abbreviation C2H_MM_DAT_FIFO_SPC_MASK := (GENMASK 16 7).
Abbreviation C2H_MM_RD_STALL_MASK := (BIT 6).
Abbreviation C2H_MM_RRQ_FIFO_FI_MASK := (BIT 5).
Abbreviation C2H_MM_WR_STALL_MASK := (BIT 4).
Abbreviation C2H_MM_WRQ_FIFO_FI_MASK := (BIT 3).
Abbreviation C2H_MM_WBK_STALL_MASK := (BIT 2).
Abbreviation C2H_MM_DSC_FIFO_EP_MASK := (BIT 1).
Abbreviation C2H_MM_DSC_FIFO_FL_MASK := (BIT 0).
Abbreviation H2C_CHANNEL_CTL_RSVD_1_MASK := (GENMASK 31 1).
Abbreviation H2C_CHANNEL_CTL_RUN_MASK := (BIT 0).
Abbreviation H2C_CHANNEL_CTL_1_RUN_MASK := (BIT 0).
Abbreviation H2C_CHANNEL_CTL_2_RUN_MASK := (BIT 0).
Abbreviation H2C_MM_STATUS_RSVD_1_MASK := (GENMASK 31 1).
Abbreviation H2C_MM_STATUS_RUN_MASK := (BIT 0).
Abbreviation H2C_CHANNEL_CMPL_DESC_CNT_H2C_CO_MASK := (GENMASK 31 0).
Abbreviation H2C_MM_ERR_CODE_ENABLE_RSVD_1_MASK := (GENMASK 31 30).
Abbreviation H2C_MM_ERR_CODE_ENABLE_WR_SLV_ERR_MASK := (BIT 29).
Abbreviation H2C_MM_ERR_CODE_ENABLE_WR_DEC_ERR_MASK := (BIT 28).
Abbreviation H2C_MM_ERR_CODE_ENABLE_RSVD_2_MASK := (GENMASK 27 23).
Abbreviation H2C_MM_ERR_CODE_ENABLE_RD_RQ_DIS_ERR_MASK := (BIT 22).
Abbreviation H2C_MM_ERR_CODE_ENABLE_RSVD_3_MASK := (GENMASK 21 17).
Abbreviation H2C_MM_ERR_CODE_ENABLE_RD_DAT_POISON_ERR_MASK := (BIT 16).
Abbreviation H2C_MM_ERR_CODE_ENABLE_RSVD_4_MASK := (GENMASK 15 9).
Abbreviation H2C_MM_ERR_CODE_ENABLE_RD_FLR_ERR_MASK := (BIT 8).
Abbreviation H2C_MM_ERR_CODE_ENABLE_RSVD_5_MASK := (GENMASK 7 6).
Abbreviation H2C_MM_ERR_CODE_ENABLE_RD_HDR_ADR_ERR_MASK := (BIT 5).
Abbreviation H2C_MM_ERR_CODE_ENABLE_RD_HDR_PARA_MASK := (BIT 4).
Abbreviation H2C_MM_ERR_CODE_ENABLE_RD_HDR_BYTE_ERR_MASK := (BIT 3).
Abbreviation H2C_MM_ERR_CODE_ENABLE_RD_UR_CA_MASK := (BIT 2).
Abbreviation H2C_MM_ERR_CODE_ENABLE_RD_HRD_POISON_ERR_MASK := (BIT 1).
Abbreviation H2C_MM_ERR_CODE_ENABLE_RSVD_6_MASK := (BIT 0).
Abbreviation H2C_MM_ERR_CODE_RSVD_1_MASK := (GENMASK 31 18).
Abbreviation H2C_MM_ERR_CODE_VALID_MASK := (BIT 17).
Abbreviation H2C_MM_ERR_CODE_RDWR_MASK := (BIT 16).
Abbreviation H2C_MM_ERR_CODE_MASK := (GENMASK 4 0).
Abbreviation H2C_MM_ERR_INFO_RSVD_1_MASK := (GENMASK 31 29).
Abbreviation H2C_MM_ERR_INFO_QID_MASK := (GENMASK 28 17).
Abbreviation H2C_MM_ERR_INFO_DIR_MASK := (BIT 16).
Abbreviation H2C_MM_ERR_INFO_CIDX_MASK := (GENMASK 15 0).
Abbreviation H2C_MM_PERF_MON_CTL_RSVD_1_MASK := (GENMASK 31 4).
Abbreviation H2C_MM_PERF_MON_CTL_IMM_START_MASK := (BIT 3).
Abbreviation H2C_MM_PERF_MON_CTL_RUN_START_MASK := (BIT 2).
Abbreviation H2C_MM_PERF_MON_CTL_IMM_CLEAR_MASK := (BIT 1).
Abbreviation H2C_MM_PERF_MON_CTL_RUN_CLEAR_MASK := (BIT 0).
Abbreviation H2C_MM_PERF_MON_CYCLE_CNT0_CYC_CNT_MASK := (GENMASK 31 0).
Abbreviation H2C_MM_PERF_MON_CYCLE_CNT1_RSVD_1_MASK := (GENMASK 31 10).
Abbreviation H2C_MM_PERF_MON_CYCLE_CNT1_CYC_CNT_MASK := (GENMASK 9 0).
Abbreviation H2C_MM_PERF_MON_DATA_CNT0_DCNT_MASK := (GENMASK 31 0).
Abbreviation H2C_MM_PERF_MON_DATA_CNT1_RSVD_1_MASK := (GENMASK 31 10).
Abbreviation H2C_MM_PERF_MON_DATA_CNT1_DCNT_MASK := (GENMASK 9 0).
Abbreviation H2C_MM_RSVD_1_MASK := (GENMASK 31 24).
Abbreviation H2C_MM_RRQ_ENTRIES_MASK := (GENMASK 23 17).
Abbreviation H2C_MM_DAT_FIFO_SPC_MASK := (GENMASK 16 7).
Abbreviation H2C_MM_RD_STALL_MASK := (BIT 6).
Abbreviation H2C_MM_RRQ_FIFO_FI_MASK := (BIT 5).
Abbreviation H2C_MM_WR_STALL_MASK := (BIT 4).
Abbreviation H2C_MM_WRQ_FIFO_FI_MASK := (BIT 3).
Abbreviation H2C_MM_WBK_STALL_MASK := (BIT 2).
Abbreviation H2C_MM_DSC_FIFO_EP_MASK := (BIT 1).
Abbreviation H2C_MM_DSC_FIFO_FL_MASK := (BIT 0).
Abbreviation FUNC_STATUS_REG_RSVD_1_MASK := (GENMASK 31 12).
Abbreviation FUNC_STATUS_REG_CUR_SRC_FN_MASK := (GENMASK 11 4).
Abbreviation FUNC_STATUS_REG_ACK_MASK := (BIT 2).
Abbreviation FUNC_STATUS_REG_O_MSG_MASK := (BIT 1).
Abbreviation FUNC_STATUS_REG_I_MSG_MASK := (BIT 0).
Abbreviation FUNC_CMD_REG_RSVD_1_MASK := (GENMASK 31 3).
Abbreviation FUNC_CMD_REG_RSVD_2_MASK := (BIT 2).
Abbreviation FUNC_CMD_REG_MSG_RCV_MASK := (BIT 1).
Abbreviation FUNC_CMD_REG_MSG_SENT_MASK := (BIT 0).
Abbreviation FUNC_INTERRUPT_VECTOR_REG_RSVD_1_MASK := (GENMASK 31 5).
Abbreviation FUNC_INTERRUPT_VECTOR_REG_IN_MASK := (GENMASK 4 0).
Abbreviation TARGET_FUNC_REG_RSVD_1_MASK := (GENMASK 31 8).
Abbreviation TARGET_FUNC_REG_N_ID_MASK := (GENMASK 7 0).
Abbreviation FUNC_INTERRUPT_CTL_REG_RSVD_1_MASK := (GENMASK 31 1).
Abbreviation FUNC_INTERRUPT_CTL_REG_INT_EN_MASK := (BIT 0).
