(* ===== verification/RegList.v ===== *)
(** * RegList: registers read for a virtual function

    A virtual function may ask the physical one for a group of registers.  The libraries look up
    the start of the group in their table (RegTables) and read, from there on, the
    registers that the device has and that are not for physical functions only, until the
    list is full.  The hard QDMA's function looks up the start, too, and then reads from
    the beginning of the table. *)

From S2P Require Import Prelude QdmaErrors Mmio CLayout Contexts Fields Indirect IndirectMem Csr CsrProps RegTables EqdmaRegInfo S80RegInfo.
From S2P Require EqdmaCsr SoftCsr S80Csr.
Local Open Scope Z_scope.
Local Open Scope reconic_scope.

Definition QDMA_MAX_REGISTER_DUMP : nat := 14.

Definition EQDMA_REG_GROUP_START_ADDR : list Z := [0x000; 0x804; 0xB00; 0x5014].
Definition QDMA_REG_GROUP_START_ADDR : list Z := [0x000; 0x400; 0xB00; 0x1014].
Definition QDMA_S80_REG_GROUP_START_ADDR : list Z := [0x000; 0x400; 0xB00; 0x1014].

Definition GET_CAPABILITY_MASK (caps : Z) : Z :=
  let mm_en := fld dev_attributes.mm_en caps in
  let st_en := fld dev_attributes.st_en caps in
  Z.shiftl mm_en 0 .| Z.shiftl (fld dev_attributes.mm_cmpt_en caps .| st_en) 1 .| Z.shiftl st_en 2
  .| Z.shiftl (fld dev_attributes.mailbox_en caps) 3.

(** The search stops before the last entry. *)
Fixpoint find_reg (regs : list xreg_info) (i : nat) (addr : Z) : option nat :=
  match regs with
  | [] => None
  | x :: regs' => if x_addr x =? addr then Some i else find_reg regs' (Datatypes.S i) addr
  end.

Definition get_reg_entry (regs : list xreg_info) (reg_addr : Z) : option nat :=
  find_reg (take (length regs - 1) regs) 0 reg_addr.

(** Whether an entry is listed; only the EQDMA leaves out what is for debugging. *)
Definition listed (debug_checked : bool) (caps : Z) (x : xreg_info) : bool :=
  negb (Z.land (GET_CAPABILITY_MASK caps) (x_mode x) =? 0) &&
  negb (bool_decide (read_type x = QDMA_REG_READ_PF_ONLY)) &&
  negb (debug_checked && (fld dev_attributes.debug_mode caps =? 0) && is_debug_reg x).

Definition entry_addrs (x : xreg_info) : list Z := (fun j => u32 (x_addr x + 4 * Z.of_nat j)) <$> seq 0 (x_repeat x).

Section lists.
Context {S : Type} `{HasTrace S} `{MmioDevice}.

(** The addresses and values of at most [room] registers. *)
Fixpoint read_list (xs : list xreg_info) (ok : xreg_info -> bool) (room : nat) : M S (list (Z * Z)) :=
  match xs with
  | [] => mret []
  | x :: xs' =>
      match room with
      | O => mret []
      | _ =>
          if ok x then
            let addrs := take room (entry_addrs x) in
            vs ← read_regs addrs;
            rest ← read_list xs' ok (room - length addrs);
            mret (zip addrs vs ++ rest)
          else read_list xs' ok room
      end
  end.

(** [from] is what the loop reads of the table, given the start of the group. *)
Definition read_group (regs : list xreg_info) (starts : list Z) (from : nat -> list xreg_info)
    (debug_checked : bool) (caps : M S Z) (is_vf group : Z) (reg_list : option (list (Z * Z)))
    : M S (Z * option (list (Z * Z))) :=
  if is_vf =? 0 then mret (neg QDMA_ERR_HWACC_FEATURE_NOT_SUPPORTED, reg_list)
  else match reg_list with
       | None => mret (neg QDMA_ERR_INV_PARAM, None)
       | Some _ =>
           caps ← caps;
           match starts !! Z.to_nat group with
           | None => mret (neg QDMA_ERR_INV_PARAM, reg_list)
           | Some start =>
               match get_reg_entry regs start with
               | None => mret (neg QDMA_ERR_INV_PARAM, reg_list)
               | Some reg_index =>
                   l ← read_list (take (length regs - 1 - reg_index) (from reg_index))
                         (listed debug_checked caps) QDMA_MAX_REGISTER_DUMP;
                   mret (0, Some l)
               end
           end
       end.

Definition eqdma_read_reg_list : Z -> Z -> option (list (Z * Z)) -> M S (Z * option (list (Z * Z))) :=
  read_group eqdma_config_regs EQDMA_REG_GROUP_START_ADDR (fun reg_index => drop reg_index eqdma_config_regs)
    true EqdmaCsr.eqdma_caps.

Definition qdma_read_reg_list : Z -> Z -> option (list (Z * Z)) -> M S (Z * option (list (Z * Z))) :=
  read_group qdma_config_regs QDMA_REG_GROUP_START_ADDR (fun reg_index => drop reg_index qdma_config_regs)
    false SoftCsr.qdma_caps.

Definition qdma_s80_hard_read_reg_list : Z -> Z -> option (list (Z * Z)) -> M S (Z * option (list (Z * Z))) :=
  read_group qdma_s80_hard_config_regs QDMA_S80_REG_GROUP_START_ADDR (fun _ => qdma_s80_hard_config_regs)
    false S80Csr.qdma_s80_hard_caps.
End lists.

(** ** What is listed *)

Section listed.
Context {S : Type} `{HasTrace S} `{MmioDevice}.
Implicit Types (s : S) (x : xreg_info).

Lemma read_list_spec xs ok room s :
  exists l s', read_list xs ok room s = Ret l s' /\ writes (trace_of s') = writes (trace_of s) /\
    (length l <= room)%nat /\
    Forall (fun '(a, v) => exists x, x ∈ xs /\ ok x = true /\ a ∈ entry_addrs x /\
              exists tr, v = reading tr a) l.
Proof.
  revert room s. induction xs as [|x xs IH]; intros room s; [exists [], s; split_and!; [done..|simpl; lia|done]|].
  cbn [read_list]. destruct room as [|room']; [exists [], s; split_and!; [done..|simpl; lia|done]|].
  set (room := Datatypes.S room').
  assert (forall x', x' ∈ xs -> x' ∈ x :: xs) as Hin by (intros; by right).
  destruct (ok x) eqn:Ex.
  - set (addrs := take room (entry_addrs x)).
    destruct (read_regs_run _ addrs s) as (vs & s1 & E1 & W1 & L1 & V1).
    destruct (IH (room - length addrs)%nat s1) as (l & s2 & E2 & W2 & L2 & F2).
    assert (length addrs <= room)%nat as Ha by (unfold addrs; rewrite length_take; lia).
    exists (zip addrs vs ++ l), s2.
    rewrite (bind_Ret _ _ _ _ _ E1), (bind_Ret _ _ _ _ _ E2). split_and!; [done|congruence| |].
    + rewrite length_app, length_zip_with. lia.
    + apply Forall_app. split.
      * apply Forall_lookup. intros i [a v] Hi. apply lookup_zip_with_Some in Hi as (a' & v' & [= <- <-] & Ha' & Hv').
        destruct (V1 i a Ha') as (tr & _ & Hv). exists x. split_and!; [by left|done| |exists tr; congruence].
        unfold addrs in Ha'. apply lookup_take_Some in Ha' as [Ha' _]. by apply list_elem_of_lookup_2 in Ha'.
      * eapply Forall_impl; [exact F2|]. intros [a v] (x' & ? & ? & ? & ?). exists x'. eauto.
  - destruct (IH room s) as (l & s2 & E2 & W2 & L2 & F2). exists l, s2. split_and!; [done..|].
    eapply Forall_impl; [exact F2|]. intros [a v] (x' & ? & ? & ? & ?). exists x'. eauto.
Qed.

Definition reg_list_of (l : library) : Z -> Z -> option (list (Z * Z)) -> M S (Z * option (list (Z * Z))) :=
  match l with
  | EQDMA => eqdma_read_reg_list | QDMA_SOFT => qdma_read_reg_list | QDMA_S80 => qdma_s80_hard_read_reg_list
  end.

Definition regs_table (l : library) : list xreg_info :=
  match l with
  | EQDMA => eqdma_config_regs | QDMA_SOFT => qdma_config_regs | QDMA_S80 => qdma_s80_hard_config_regs
  end.

Definition starts_of (l : library) : list Z :=
  match l with
  | EQDMA => EQDMA_REG_GROUP_START_ADDR | QDMA_SOFT => QDMA_REG_GROUP_START_ADDR
  | QDMA_S80 => QDMA_S80_REG_GROUP_START_ADDR
  end.

Definition from_of (l : library) (reg_index : nat) : list xreg_info :=
  match l with QDMA_S80 => regs_table l | _ => drop reg_index (regs_table l) end.

Definition debug_checked (l : library) : bool := match l with EQDMA => true | _ => false end.

Lemma reg_list_of_eq l is_vf group r :
  reg_list_of l is_vf group r =
  read_group (regs_table l) (starts_of l) (from_of l) (debug_checked l) (caps_of l) is_vf group r.
Proof. by destruct l. Qed.

Lemma from_of_in l i n x : x ∈ take n (from_of l i) -> x ∈ regs_table l.
Proof.
  intros Hx. apply list_elem_of_lookup in Hx as [k Hk]. apply lookup_take_Some in Hk as [Hk _].
  destruct l; cbn [from_of] in Hk; rewrite ?lookup_drop in Hk; by apply list_elem_of_lookup_2 in Hk.
Qed.

(** Whatever is asked, a code comes back, nothing is written, and what is listed may
    be. *)
Lemma reg_list_run l is_vf group r s :
  exists rv r' s', reg_list_of l is_vf group r s = Ret (rv, r') s' /\
    writes (trace_of s') = writes (trace_of s) /\
    if rv =? 0 then
      exists caps s0 regs, caps_of l s = Ret caps s0 /\ r' = Some regs /\ (length regs <= QDMA_MAX_REGISTER_DUMP)%nat /\
        Forall (fun '(a, v) => exists x, x ∈ regs_table l /\ listed (debug_checked l) caps x = true /\
                  a ∈ entry_addrs x /\ exists tr, v = reading tr a) regs
    else r' = r.
Proof.
  rewrite reg_list_of_eq. unfold read_group. case_match; [by exists (neg QDMA_ERR_HWACC_FEATURE_NOT_SUPPORTED), r, s|].
  destruct r as [old|]; [|by exists (neg QDMA_ERR_INV_PARAM), None, s].
  destruct (caps_run l s) as (caps & s0 & Hcaps & W0). rewrite (bind_Ret _ _ _ _ _ Hcaps).
  case_match; [|by exists (neg QDMA_ERR_INV_PARAM), (Some old), s0].
  case_match; [|by exists (neg QDMA_ERR_INV_PARAM), (Some old), s0].
  match goal with |- context [read_list ?xs ?ok ?n] =>
    destruct (read_list_spec xs ok n s0) as (regs & s1 & E & W & L & F) end.
  exists 0, (Some regs), s1. rewrite (bind_Ret _ _ _ _ _ E). split_and!; [done|congruence|]. cbn [Z.eqb].
  exists caps, s0, regs. split_and!; [done..|]. eapply Forall_impl; [exact F|].
  intros [a v] (x & Hx & ?). exists x. split; [by eapply from_of_in|done].
Qed.
End listed.

(** Registers read for a virtual function.  Whatever group a virtual function asks
    for, in every library, nothing is written; a list of at most fourteen registers comes
    back, or an error and the list as it was; and every register in it is one
    of the library's table that the device has and that is not for physical
    functions only, with a value the device showed. *)
Theorem reg_list_for_vf {S : Type} `{HasTrace S} `{MmioDevice} l group r (s : S) :
  exists rv r' s', reg_list_of l 1 group r s = Ret (rv, r') s' /\
    writes (trace_of s') = writes (trace_of s) /\
    if rv =? 0 then
      exists caps s0 regs, caps_of l s = Ret caps s0 /\ r' = Some regs /\ (length regs <= QDMA_MAX_REGISTER_DUMP)%nat /\
        forall a v, (a, v) ∈ regs -> exists x, x ∈ regs_table l /\
          read_type x <> QDMA_REG_READ_PF_ONLY /\ Z.land (GET_CAPABILITY_MASK caps) (x_mode x) <> 0 /\
          a ∈ entry_addrs x /\ exists tr, v = reading tr a
    else r' = r.
Proof.
  destruct (reg_list_run l 1 group r s) as (rv & r' & s' & E & W & Hrv). exists rv, r', s'. split_and!; [done..|].
  destruct (rv =? 0); [|done]. destruct Hrv as (caps & s0 & regs & Hc & -> & L & F).
  exists caps, s0, regs. split_and!; [done..|]. intros a v Hin. rewrite Forall_forall in F.
  destruct (F _ Hin) as (x & Hx & Hl & Ha & Hv). exists x.
  unfold listed in Hl. rewrite !andb_true_iff, !negb_true_iff, bool_decide_eq_false, Z.eqb_neq in Hl.
  by destruct Hl as [[? ?] _].
Qed.

(** ** Groups *)

Definition full_device : MmioDevice := fun _ _ => 0xFFFFFFFF.

Definition addrs_listed (r : outcome trace (Z * option (list (Z * Z)))) : Z * list Z :=
  match r with Ret (rv, l) _ => (rv, (default [] l).*1) | _ => (0, []) end.

(** On the hard QDMA the groups are the same registers; on all hardware the group of the
    mailbox registers does not exist. *)
Lemma s80_groups_alike :
  let group g := addrs_listed (@qdma_s80_hard_read_reg_list trace _ full_device 1 g (Some []) []) in
  group 0 = group 1 /\ group 1 = group 2 /\ group 3 = (neg QDMA_ERR_INV_PARAM, []).
Proof. vm_compute. done. Qed.

Lemma mailbox_group_missing l start : starts_of l !! 3%nat = Some start -> get_reg_entry (regs_table l) start = None.
Proof. destruct l; intros [= <-]; vm_compute; reflexivity. Qed.
