(* ===== verification/RegDump.v ===== *)
(** * RegDump: registers as text

    [..._dump_reg_info] prints registers with their fields, to a buffer or to the log,
    [..._dump_config_regs] the values of all of them, and [..._dump_config_reg_list] the values in a list
    of registers.  They are written once, over the table and over what the libraries do
    differently.  The buffer is given by the number of bytes there are in it: a write beyond
    them is a crash. *)

From S2P Require Import Prelude Mmio CLayout Contexts Fields Text RegTables EqdmaRegInfo S80RegInfo.
From S2P Require Import QdmaErrors Indirect IndirectMem Csr CsrProps RegList.
From S2P Require EqdmaCsr SoftCsr S80Csr.
Local Open Scope string_scope.
Local Open Scope Z_scope.

(** ** Lines *)

Definition reg_line (x : xreg_info) (v : Z) : string :=
  pad_right 40 (x_name x) +:+ " 0x" +:+ pad_right 7 (hex (x_addr x)) +:+ " " +:+ pad_right 10 (alt_hex v) +:+ " "
  +:+ pad_right 10 (int_dec v) +:+ newline.

Definition field_line (name : string) (msb lsb v : Z) : string :=
  (if msb =? lsb then pad_right 40 name +:+ " [" +:+ pad_left 5 (dec lsb)
   else pad_right 40 name +:+ " [" +:+ pad_left 2 (dec msb) +:+ "," +:+ pad_left 2 (dec lsb))
  +:+ "]   " +:+ pad_right 10 (alt_hex v) +:+ newline.

(** [dump_reg] *)
Definition dump_reg_line (raddr : Z) (rname : string) (rval : Z) : string :=
  "[" +:+ pad_left 7 (alt_hex raddr) +:+ "] " +:+ pad_right 47 rname +:+ " " +:+ pad_right 10 (alt_hex rval)
  +:+ " " +:+ dec rval +:+ newline.

Section dumps.
Context {S : Type} `{HasTrace S} `{MmioDevice}.

(** ** Registers with their fields *)

(** [while (!(BIT(n) & mask)) n += step]: beyond the word the shift is undefined. *)
Fixpoint scan (fuel : nat) (step mask n : Z) : M S Z :=
  match fuel with
  | O => crash
  | Datatypes.S fuel' => if Z.land (BIT n) mask =? 0 then scan fuel' step mask (n + step) else mret n
  end.

(** A line printed to the buffer, of which [room] bytes exist, or to the log; an error is on the
    left. *)
Definition print_line (room : option nat) (text line : string) : M S (Z + string) :=
  match room with
  | None => mret (inr (text +:+ line))
  | Some n =>
      if (n <? String.length text + snprintf_touched DEBGFS_LINE_SZ line)%nat then crash
      else if (DEBGFS_LINE_SZ <? String.length line)%nat then mret (inl (neg QDMA_ERR_NO_MEM))
      else mret (inr (text +:+ snprintf_text DEBGFS_LINE_SZ line))
  end.

Definition and_then (r : Z + string) (k : string -> M S (Z + string)) : M S (Z + string) :=
  match r with inl e => mret (inl e) | inr text => k text end.

(** The fields [fs] of a register, of which the first has the number [k].  The names
    are those of the fields of [named]. *)
Fixpoint dump_fields (room : option nat) (named : list regfield_info) (skipped : bool) (reg_val : Z)
    (fs : list regfield_info) (k : nat) (text : string) : M S (Z + string) :=
  match fs with
  | [] => mret (inr text)
  | f :: fs' =>
      if skipped then dump_fields room named skipped reg_val fs' (Datatypes.S k) text else
      let bitfield := field_mask f in
      match named !! k with
      | None => crash
      | Some g =>
          lsb ← scan 64 1 bitfield 0;
          msb ← scan 32 (-1) bitfield 31;
          r ← print_line room text (field_line (field_name g) msb lsb (Z.shiftr (Z.land reg_val bitfield) lsb));
          and_then r (dump_fields room named skipped reg_val fs' (Datatypes.S k))
      end
  end.

Fixpoint dump_regs (room : option nat) (named : list regfield_info) (skips : xreg_info -> bool)
    (xs : list xreg_info) (text : string) : M S (Z + string) :=
  match xs with
  | [] => mret (inr text)
  | x :: xs' =>
      reg_val ← read32_data (x_addr x);
      r ← print_line room text ((if room is Some _ then newline else "") +:+ reg_line x reg_val);
      r ← and_then r (dump_fields room named (skips x) reg_val (bitfields x) 0);
      and_then r (dump_regs room named skips xs')
  end.

(** The result is a code, or the length of what was printed to the buffer, with the text; the text
    that an error breaks off is left out. *)
Definition dump_reg_info (regs : list xreg_info) (skips : M S (xreg_info -> bool)) (reg_addr num_regs : Z)
    (room : option nat) : M S (Z * string) :=
  skips ← skips;
  match find_reg regs 0 reg_addr with
  | None =>
      match room with
      | None => mret (neg QDMA_ERR_INV_PARAM, "")
      | Some _ =>
          r ← print_line room "" ("Register not found 0x" +:+ hex reg_addr +:+ newline);
          mret (neg QDMA_ERR_INV_PARAM, match r with inr text => text | inl _ => "" end)
      end
  | Some i =>
      let j := Z.of_nat i in
      let total := Z.of_nat (length regs) in
      let num_regs_idx := if u32 (j + num_regs) <? total then u32 (j + num_regs) else total in
      r ← dump_regs room (bitfields (nth i regs (mk_xreg "" 0 0 0 0 0 false 0 QDMA_REG_READ_PF_ONLY [])))
            skips (take (Z.to_nat (num_regs_idx - j)) (drop i regs)) "";
      mret (match r with
            | inl e => (e, "")
            | inr text => (if room is Some _ then Z.of_nat (String.length text) else 0, text)
            end)
  end.

(** ** The values of all registers *)

(** [dump_reg(buf + len, buflen - len, ...)], where [text] has the length [len]. *)
Definition dump_reg (room : nat) (buflen : Z) (text : string) (raddr : Z) (rname : string) (rval : Z)
    : M S (Z + string) :=
  if i32 (buflen - Z.of_nat (String.length text)) <? Z.of_nat DEBGFS_LINE_SZ then mret (inl (neg QDMA_ERR_NO_MEM))
  else
    let line := dump_reg_line raddr rname rval in
    if (room <? String.length text + snprintf_touched DEBGFS_LINE_SZ line)%nat then crash
    else mret (inr (text +:+ snprintf_text DEBGFS_LINE_SZ line)).

(** The name of a register, cut to fit [name]. *)
Definition entry_name (numbered : bool) (x : xreg_info) (j : nat) : Z + string :=
  let full := if numbered then x_name x +:+ "_" +:+ dec (Z.of_nat j) else x_name x in
  if (DEBGFS_GEN_NAME_SZ <? String.length full)%nat then inl (neg QDMA_ERR_NO_MEM)
  else inr (clip (DEBGFS_GEN_NAME_SZ - 1) full).

(** The registers of an entry, with the value that [value] gives for the address of each. *)
Fixpoint dump_entry (room : nat) (buflen : Z) (numbered : bool) (x : xreg_info) (value : nat -> Z -> M S Z)
    (js : list nat) (text : string) : M S (Z + string) :=
  match js with
  | [] => mret (inr text)
  | j :: js' =>
      match entry_name numbered x j with
      | inl e => mret (inl e)
      | inr name =>
          let addr := u32 (x_addr x + 4 * Z.of_nat j) in
          v ← value j addr;
          r ← dump_reg room buflen text addr name v;
          and_then r (dump_entry room buflen numbered x value js')
      end
  end.

(** Whether a register is printed; only the EQDMA leaves out what is for debugging. *)
Definition dumped (debug_checked : bool) (caps : Z) (x : xreg_info) : bool :=
  negb (Z.land (GET_CAPABILITY_MASK caps) (x_mode x) =? 0) &&
  negb (debug_checked && (fld dev_attributes.debug_mode caps =? 0) && is_debug_reg x).

Fixpoint dump_all (room : nat) (buflen : Z) (numbered : bool) (ok : xreg_info -> bool) (xs : list xreg_info)
    (text : string) : M S (Z + string) :=
  match xs with
  | [] => mret (inr text)
  | x :: xs' =>
      if ok x then
        r ← dump_entry room buflen numbered x (fun _ addr => read32_data addr) (seq 0 (x_repeat x)) text;
        and_then r (dump_all room buflen numbered ok xs')
      else dump_all room buflen numbered ok xs' text
  end.

Definition reg_dump_buf_len (regs : list xreg_info) : Z := (Z.of_nat (length regs) + 1) * REG_DUMP_SIZE_PER_LINE.

Definition dump_config_regs (regs : list xreg_info) (caps : M S Z) (debug_checked numbered : bool) (is_vf : Z)
    (room : nat) (buflen : Z) : M S (Z * string) :=
  if buflen <? reg_dump_buf_len regs then mret (neg QDMA_ERR_NO_MEM, "")
  else if negb (is_vf =? 0) then mret (neg QDMA_ERR_HWACC_FEATURE_NOT_SUPPORTED, "")
  else
    caps ← caps;
    r ← dump_all room buflen numbered (dumped debug_checked caps) regs "";
    mret (match r with inl e => (e, "") | inr text => (Z.of_nat (String.length text), text) end).

(** ** The values in a list *)

(** [hidden] says of a place in the table whether the register there is left out; when it is, the loop goes round without
    moving on. *)
Fixpoint dump_list (fuel : nat) (regs : list xreg_info) (room : nat) (buflen : Z) (hidden : nat -> M S bool)
    (reg_list : list (Z * Z)) (total_regs reg_count : nat) (text : string) : M S (Z + string) :=
  match fuel with
  | O => hang
  | Datatypes.S fuel' =>
      if (total_regs <=? reg_count)%nat then mret (inr text) else
      again ← hidden reg_count;
      if (again : bool) then dump_list fuel' regs room buflen hidden reg_list total_regs reg_count text else
      d ← deref (fun _ => reg_list !! reg_count);
      match get_reg_entry regs d.1 with
      | None => mret (inl (neg QDMA_ERR_INV_PARAM))
      | Some i =>
          x ← deref (fun _ => regs !! i);
          r ← dump_entry room buflen true x
                (fun j _ => e ← deref (fun _ => reg_list !! (reg_count + j)%nat); mret e.2) (seq 0 (x_repeat x)) text;
          and_then r (dump_list fuel' regs room buflen hidden reg_list total_regs (reg_count + x_repeat x))
      end
  end.

Definition dump_config_reg_list (regs : list xreg_info) (hidden : M S (nat -> M S bool)) (total_regs : nat)
    (reg_list : list (Z * Z)) (buf : option nat) (buflen : Z) : M S (Z * string) :=
  match buf with
  | None => mret (neg QDMA_ERR_INV_PARAM, "")
  | Some room =>
      hidden ← hidden;
      r ← dump_list (Datatypes.S total_regs) regs room buflen hidden reg_list total_regs 0 "";
      mret (match r with inl e => (e, "") | inr text => (Z.of_nat (String.length text), text) end)
  end.

(** ** The three libraries *)

Definition eqdma_skips : M S (xreg_info -> bool) :=
  caps ← EqdmaCsr.eqdma_caps; mret (fun x => (fld dev_attributes.debug_mode caps =? 0) && is_debug_reg x).

Definition eqdma_hidden : M S (nat -> M S bool) :=
  caps ← EqdmaCsr.eqdma_caps;
  mret (fun i => if fld dev_attributes.debug_mode caps =? 0
                 then x ← deref (fun _ => eqdma_config_regs !! i); mret (is_debug_reg x) else mret false).

Definition eqdma_dump_reg_info : Z -> Z -> option nat -> M S (Z * string) :=
  dump_reg_info eqdma_config_regs eqdma_skips.
Definition qdma_dump_reg_info : Z -> Z -> option nat -> M S (Z * string) :=
  dump_reg_info qdma_config_regs (mret (fun _ => false)).
Definition qdma_s80_hard_dump_reg_info : Z -> Z -> option nat -> M S (Z * string) :=
  dump_reg_info qdma_s80_hard_config_regs (mret (fun _ => false)).

Definition eqdma_dump_config_regs : Z -> nat -> Z -> M S (Z * string) :=
  dump_config_regs eqdma_config_regs EqdmaCsr.eqdma_caps true false.
Definition qdma_soft_dump_config_regs : Z -> nat -> Z -> M S (Z * string) :=
  dump_config_regs qdma_config_regs SoftCsr.qdma_caps false true.
Definition qdma_s80_hard_dump_config_regs : Z -> nat -> Z -> M S (Z * string) :=
  dump_config_regs qdma_s80_hard_config_regs S80Csr.qdma_s80_hard_caps false true.

Definition eqdma_dump_config_reg_list : nat -> list (Z * Z) -> option nat -> Z -> M S (Z * string) :=
  dump_config_reg_list eqdma_config_regs eqdma_hidden.
Definition qdma_soft_dump_config_reg_list : nat -> list (Z * Z) -> option nat -> Z -> M S (Z * string) :=
  dump_config_reg_list qdma_config_regs (mret (fun _ => mret false)).
Definition qdma_s80_hard_dump_config_reg_list : nat -> list (Z * Z) -> option nat -> Z -> M S (Z * string) :=
  dump_config_reg_list qdma_s80_hard_config_regs (mret (fun _ => mret false)).

(** [qdma_acc_reg_info_len]: the size of the buffer for the fields of all registers, and their number. *)
Definition qdma_acc_reg_info_len (l : library) : Z * Z :=
  match l with
  | QDMA_SOFT => (0, 0)
  | EQDMA => let len := reg_dump_buf_len eqdma_config_regs in (len, len / REG_DUMP_SIZE_PER_LINE - 1)
  | QDMA_S80 => let len := reg_dump_buf_len qdma_s80_hard_config_regs in (len, len / REG_DUMP_SIZE_PER_LINE - 1)
  end.
End dumps.
