(* ===== verification/RegDumpProps.v ===== *)
(** * RegDumpProps: what the register dumps print

    The tables are well formed; a register's fields are printed with the bits they have, from which the
    register can be put together again; and the dump of all values stays within the buffer its size is
    asked for. *)

From S2P Require Import Prelude Mmio CLayout Contexts Fields Text RegTables EqdmaRegInfo S80RegInfo.
From S2P Require Import QdmaErrors Indirect IndirectMem Csr CsrProps RegList RegDump.
From S2P Require EqdmaCsr.
Local Open Scope string_scope.
Local Open Scope list_scope.
Local Open Scope Z_scope.

(** ** The tables *)

Definition mask_ok (m : Z) : bool := (0 <? m) && (m <? 2 ^ 32) && is_run m.

Fixpoint disjoint_masks (seen : Z) (fs : list regfield_info) : bool :=
  match fs with
  | [] => true
  | f :: fs' => (Z.land seen (field_mask f) =? 0) && disjoint_masks (seen .| field_mask f) fs'
  end%reconic.

(** A row that prints well: the widths that the lines leave are enough, and the fields are
    runs of bits, apart from each other. *)
Definition row_ok (x : xreg_info) : bool :=
  (String.length (x_name x) <=? 37)%nat && (0 <=? x_addr x) && (x_addr x <? 16 ^ 5) &&
  (x_repeat x <=? 99)%nat && (x_addr x + 4 * Z.of_nat (x_repeat x) <=? 16 ^ 5) &&
  forallb (fun f => mask_ok (field_mask f) && (String.length (field_name f) <=? 54)%nat) (bitfields x) &&
  disjoint_masks 0 (bitfields x).

(** No two rows but the last, which closes the soft QDMA's table, have the same address. *)
Fixpoint distinct (l : list Z) : bool :=
  match l with [] => true | a :: l' => negb (existsb (Z.eqb a) l') && distinct l' end.

Lemma tables_ok l : forallb row_ok (regs_table l) = true.
Proof. destruct l; vm_compute; reflexivity. Qed.

Lemma tables_distinct l :
  distinct (map x_addr (match l with QDMA_SOFT => take 153 qdma_config_regs | _ => regs_table l end)) = true.
Proof. destruct l; vm_compute; reflexivity. Qed.

Lemma row_ok_in l x : x ∈ regs_table l -> row_ok x = true.
Proof. intros Hx. pose proof (tables_ok l) as H. rewrite forallb_forall in H. apply H. by apply list_elem_of_In. Qed.

(** ** The bits of a field *)

Lemma run_testbit m n :
  is_run m = true -> 0 <= n ->
  Z.testbit m n = (f_bit (field_of m) <=? n) && (n <? f_bit (field_of m) + f_width (field_of m)).
Proof.
  intros [[Hb Hw] Hm]%is_run_spec Hn. rewrite Hm at 1. rewrite Z.shiftl_spec by done.
  destruct (Z.leb_spec (f_bit (field_of m)) n); [|by rewrite Z.testbit_neg_r by lia].
  rewrite testbit_ones_low by lia. cbn [andb].
  destruct (Z.ltb_spec (n - f_bit (field_of m)) (f_width (field_of m))),
    (Z.ltb_spec n (f_bit (field_of m) + f_width (field_of m))); lia || done.
Qed.

Lemma run_bounds m :
  mask_ok m = true ->
  is_run m = true /\ 0 <= f_bit (field_of m) /\ 0 < f_width (field_of m) /\ f_bit (field_of m) + f_width (field_of m) <= 32.
Proof.
  unfold mask_ok. rewrite !andb_true_iff, !Z.ltb_lt. intros [[H0 H1] Hr]. split; [done|].
  pose proof (is_run_spec m Hr) as [[Hb Hw] Hm]. split; [done|].
  assert (f_width (field_of m) = 0 \/ 0 < f_width (field_of m)) as [E|Hpos] by lia.
  { rewrite E in Hm. rewrite Z.shiftl_0_l in Hm. lia. }
  split; [done|].
  destruct (Z.le_gt_cases (f_bit (field_of m) + f_width (field_of m)) 32) as [|Hgt]; [done|exfalso].
  assert (Z.testbit m (f_bit (field_of m) + f_width (field_of m) - 1) = true) as Ht.
  { rewrite run_testbit by (done || lia). apply andb_true_iff. rewrite Z.leb_le, Z.ltb_lt. lia. }
  pose proof (Z.mod_pow2_bits_high m 32 (f_bit (field_of m) + f_width (field_of m) - 1) ltac:(lia)) as Hf.
  rewrite (Z.mod_small m) in Hf by lia. congruence.
Qed.

Lemma BIT_land n m : 0 <= n -> (Z.land (BIT n) m =? 0) = negb (Z.testbit m n).
Proof.
  intros Hn. unfold BIT. rewrite Z.shiftl_1_l. destruct (Z.testbit m n) eqn:E; cbn [negb].
  - apply Z.eqb_neq. intros Hz. apply (f_equal (fun v => Z.testbit v n)) in Hz.
    rewrite Z.land_spec, Z.pow2_bits_true, E, Z.testbit_0_l in Hz by done. done.
  - apply Z.eqb_eq. apply Z.bits_inj'. intros k Hk. rewrite Z.land_spec, Z.testbit_0_l.
    destruct (Z.eq_dec k n) as [->|]; [by rewrite E, andb_false_r|]. by rewrite Z.pow2_bits_false by lia.
Qed.

Section props.
Context {S : Type} `{HasTrace S} `{MmioDevice}.
Implicit Types (s : S) (x : xreg_info) (text : string).

Lemma scan_run fuel step m n k s :
  (step = 1 \/ step = -1) -> 0 <= n -> 0 <= k < Z.of_nat fuel -> 0 <= n + step * k ->
  (forall j, 0 <= j < k -> Z.testbit m (n + step * j) = false) -> Z.testbit m (n + step * k) = true ->
  scan fuel step m n s = Ret (n + step * k) s.
Proof.
  intros Hstep. revert n k. induction fuel as [|fuel IH]; intros n k Hn Hk Hnk Hlow Hhit; [lia|].
  cbn [scan]. rewrite BIT_land by lia. destruct (Z.eq_dec k 0) as [->|Hk0].
  { rewrite Z.mul_0_r, Z.add_0_r in *. by rewrite Hhit. }
  assert (Z.testbit m n = false) as -> by (specialize (Hlow 0 ltac:(lia)); by rewrite Z.mul_0_r, Z.add_0_r in Hlow).
  cbn [negb]. replace (n + step * k) with (n + step + step * (k - 1)) in * by lia.
  apply IH; [destruct Hstep; nia|lia|lia| |done].
  intros j Hj. replace (n + step + step * j) with (n + step * (j + 1)) by lia. apply Hlow. lia.
Qed.

Lemma scan_lsb m s : mask_ok m = true -> scan 64 1 m 0 s = Ret (f_bit (field_of m)) s.
Proof.
  intros (Hr & Hb & Hw & Hm)%run_bounds.
  rewrite (scan_run _ _ _ _ (f_bit (field_of m))); [f_equal; lia|by left|lia..| |].
  - intros j Hj. rewrite run_testbit by (done || lia). rewrite (proj2 (Z.leb_gt _ _)) by lia. done.
  - rewrite run_testbit by (done || lia). rewrite (proj2 (Z.leb_le _ _)), (proj2 (Z.ltb_lt _ _)) by lia. done.
Qed.

Definition f_msb (f : cfield) : Z := f_bit f + f_width f - 1.

Lemma scan_msb m s : mask_ok m = true -> scan 32 (-1) m 31 s = Ret (f_msb (field_of m)) s.
Proof.
  intros (Hr & Hb & Hw & Hm)%run_bounds. unfold f_msb.
  rewrite (scan_run _ _ _ _ (32 - (f_bit (field_of m) + f_width (field_of m)))); [f_equal; lia|by right|lia..| |].
  - intros j Hj. rewrite run_testbit by (done || lia). rewrite (proj2 (Z.ltb_ge _ _)) by lia. apply andb_false_r.
  - rewrite run_testbit by (done || lia). rewrite (proj2 (Z.leb_le _ _)), (proj2 (Z.ltb_lt _ _)) by lia. done.
Qed.

(** ** Lines *)

(** What a register's dump says of a field, and of the register. *)
Definition field_text (v : Z) (f : regfield_info) : string :=
  let c := field_of (field_mask f) in field_line (field_name f) (f_msb c) (f_bit c) (fld c v).

Definition fields_text (v : Z) (fs : list regfield_info) : string := foldr (fun f t => field_text v f +:+ t) "" fs.

Lemma length_field_line name msb lsb v :
  (String.length name <= 54)%nat -> 0 <= msb < 32 -> 0 <= lsb < 32 -> is_u32 v ->
  (String.length (field_line name msb lsb v) <= 76)%nat.
Proof.
  intros Hn Hm Hl Hv. unfold field_line. pose proof (length_alt_hex v Hv) as Hx.
  assert (forall k, 0 <= k < 32 -> (String.length (dec k) <= 2)%nat) as Hd.
  { intros k Hk. apply (digits_length 10 10 k "" 2); [lia..|]. change (10 ^ Z.of_nat 2) with 100. lia. }
  pose proof (Hd msb Hm). pose proof (Hd lsb Hl).
  destruct (msb =? lsb); rewrite !length_append, !length_pad_right, !length_pad_left; cbn [String.length newline]; lia.
Qed.

Lemma length_reg_line x v : row_ok x = true -> is_u32 v -> (String.length (reg_line x v) <= 74)%nat.
Proof.
  unfold row_ok. rewrite !andb_true_iff, !Z.leb_le, !Z.ltb_lt, !Nat.leb_le. intros [[[[[[Hn Ha] Ha'] _] _] _] _] Hv.
  unfold reg_line. pose proof (length_alt_hex v Hv). pose proof (length_int_dec v Hv).
  pose proof (length_hex_small (x_addr x) 5 ltac:(lia) ltac:(split; [done|exact Ha'])).
  rewrite !length_append, !length_pad_right; cbn [String.length newline]; lia.
Qed.

(** A line that fits is added to the text, whatever it is printed to. *)
Lemma print_fits room text line s :
  (String.length line <= 80)%nat ->
  (forall n, room = Some n -> (String.length text + String.length line < n)%nat) ->
  print_line room text line s = Ret (inr (text +:+ line)) s.
Proof.
  intros Hl Hroom. unfold print_line. destruct room as [n|]; [|done]. specialize (Hroom n eq_refl).
  unfold snprintf_touched, snprintf_text. unfold DEBGFS_LINE_SZ.
  rewrite (proj2 (Nat.ltb_ge _ _)) by lia. rewrite (proj2 (Nat.ltb_ge _ _)) by lia.
  by rewrite (proj2 (Nat.leb_gt _ _)) by lia.
Qed.

Lemma append_assoc (a b c : string) : (a +:+ b) +:+ c = a +:+ (b +:+ c).
Proof. induction a as [|ch a IH]; [done|exact (f_equal (String ch) IH)]. Qed.

Lemma append_nil (a : string) : a +:+ "" = a.
Proof. induction a as [|ch a IH]; [done|exact (f_equal (String ch) IH)]. Qed.

Lemma fld_is_u32 c v : field_ok c -> f_width c <= 32 -> is_u32 (fld c v).
Proof.
  intros Hc Hw. pose proof (fld_range c v Hc). unfold is_u32. split; [lia|].
  apply Z.lt_le_trans with (2 ^ f_width c); [lia|]. change 4294967296 with (2 ^ 32). apply Z.pow_le_mono_r; lia.
Qed.

Lemma dump_fields_run room named v fs k text s :
  forallb (fun f => mask_ok (field_mask f) && (String.length (field_name f) <=? 54)%nat) fs = true ->
  drop k named = fs ->
  (forall n, room = Some n -> (String.length text + 76 * length fs < n)%nat) ->
  dump_fields room named false v fs k text s = Ret (inr (text +:+ fields_text v fs)) s.
Proof.
  revert k text. induction fs as [|f fs IH]; intros k text Hok Hd Hroom.
  { cbn [dump_fields fields_text foldr]. by rewrite append_nil. }
  cbn [forallb] in Hok. apply andb_true_iff in Hok as [Hf Hok]. apply andb_true_iff in Hf as [Hf Hn].
  apply Nat.leb_le in Hn. cbn [dump_fields].
  assert (named !! k = Some f) as ->.
  { rewrite <- (Nat.add_0_r k), <- lookup_drop, Hd. done. }
  rewrite (bind_Ret _ _ _ _ _ (scan_lsb _ _ Hf)), (bind_Ret _ _ _ _ _ (scan_msb _ _ Hf)).
  destruct (run_bounds _ Hf) as (Hr & Hb & Hw & Hm).
  assert (Z.shiftr (Z.land v (field_mask f)) (f_bit (field_of (field_mask f))) = fld (field_of (field_mask f)) v) as ->.
  { rewrite <- FIELD_GET_fld by done. done. }
  change (field_line _ _ _ _) with (field_text v f).
  assert (String.length (field_text v f) <= 76)%nat as Hlen.
  { apply length_field_line; [done|unfold f_msb; lia|lia|]. apply fld_is_u32; [split; lia|lia]. }
  erewrite bind_Ret; [|apply print_fits; [lia|]].
  2:{ intros n ->. specialize (Hroom n eq_refl). cbn [length] in Hroom. lia. }
  cbn [and_then]. rewrite IH; [|done|..].
  - cbn [fields_text foldr]. by rewrite append_assoc.
  - replace (Datatypes.S k) with (k + 1)%nat by lia. by rewrite <- drop_drop, Hd.
  - intros n ->. specialize (Hroom n eq_refl). rewrite length_append. cbn [length] in Hroom. lia.
Qed.

Lemma dump_fields_skipped room named v fs k text s :
  dump_fields room named true v fs k text s = Ret (inr text) s.
Proof. revert k. induction fs as [|f fs IH]; intros k; [done|]. cbn [dump_fields]. apply IH. Qed.

(** ** Finding a register *)

Lemma find_reg_here (regs : list xreg_info) k i x :
  distinct (map x_addr regs) = true -> regs !! i = Some x -> find_reg regs k (x_addr x) = Some (k + i)%nat.
Proof.
  revert k i. induction regs as [|y regs IH]; intros k i Hd Hi; [done|]. cbn [distinct map] in Hd.
  apply andb_true_iff in Hd as [Hy Hd]. apply negb_true_iff in Hy. cbn [find_reg].
  destruct i as [|i]; cbn [lookup list_lookup] in Hi.
  { injection Hi as ->. rewrite Z.eqb_refl. f_equal. lia. }
  destruct (Z.eqb_spec (x_addr y) (x_addr x)) as [E|E]; [exfalso|rewrite (IH _ i) by done; f_equal; lia].
  assert (existsb (Z.eqb (x_addr y)) (map x_addr regs) = true) as Ht; [|congruence].
  apply existsb_exists. exists (x_addr x). split; [|by apply Z.eqb_eq].
  apply in_map, list_elem_of_In. by apply list_elem_of_lookup_2 in Hi.
Qed.

Lemma find_reg_app (regs more : list xreg_info) k a i :
  find_reg regs k a = Some i -> find_reg (regs ++ more) k a = Some i.
Proof.
  revert k. induction regs as [|y regs IH]; intros k; cbn [find_reg app]; [done|]. case_match; [done|apply IH].
Qed.

(** The rows but the one that closes a table. *)
Definition rows (l : library) : list xreg_info :=
  match l with QDMA_SOFT => take 153 qdma_config_regs | _ => regs_table l end.

Lemma rows_table l : exists more, regs_table l = rows l ++ more.
Proof.
  destruct l; [exists []; by rewrite app_nil_r| |exists []; by rewrite app_nil_r].
  exists (drop 153 qdma_config_regs). symmetry. apply take_drop.
Qed.

Lemma find_row l i x : rows l !! i = Some x -> find_reg (regs_table l) 0 (x_addr x) = Some i /\ regs_table l !! i = Some x.
Proof.
  intros Hi. destruct (rows_table l) as [more ->]. split.
  - apply find_reg_app. apply (find_reg_here _ 0 i x); [|done]. exact (tables_distinct l).
  - by apply lookup_app_l_Some.
Qed.

Lemma rows_small l : (length (regs_table l) < 1000)%nat.
Proof. destruct l; vm_compute; lia. Qed.

(** ** The dump of a register *)

Definition dump_reg_info_of (l : library) : Z -> Z -> option nat -> M S (Z * string) :=
  match l with
  | EQDMA => eqdma_dump_reg_info | QDMA_SOFT => qdma_dump_reg_info | QDMA_S80 => qdma_s80_hard_dump_reg_info
  end.

Definition skips_of (l : library) : M S (xreg_info -> bool) :=
  match l with EQDMA => eqdma_skips | _ => mret (fun _ => false) end.

Lemma dump_reg_info_of_eq l a n room : dump_reg_info_of l a n room = dump_reg_info (regs_table l) (skips_of l) a n room.
Proof. by destruct l. Qed.

Lemma skips_run l s : exists skips s', skips_of l s = Ret skips s' /\ writes (trace_of s') = writes (trace_of s).
Proof.
  destruct l; [|by exists (fun _ => false), s..]. destruct (caps_run EQDMA s) as (c & s' & Hc & Hw).
  cbn [caps_of] in Hc. eexists _, s'. split; [|exact Hw]. cbn [skips_of]. unfold eqdma_skips.
  by rewrite (bind_Ret _ _ _ _ _ Hc).
Qed.

(** The text of a register; in a buffer it starts on a line of its own. *)
Definition reg_text (room : option nat) (skips : xreg_info -> bool) (x : xreg_info) (v : Z) : string :=
  (if room is Some _ then newline else "") +:+ reg_line x v +:+ (if skips x then "" else fields_text v (bitfields x)).

Lemma dump_one_run room named skips x s :
  row_ok x = true -> (skips x = false -> named = bitfields x) ->
  (forall n, room = Some n -> (75 + 76 * length (bitfields x) < n)%nat) ->
  let v := reading (trace_of s) (x_addr x) in
  dump_regs room named skips [x] "" s = Ret (inr (reg_text room skips x v)) (log (Rd (x_addr x) v) s).
Proof.
  intros Hx Hnamed Hroom v. cbn [dump_regs]. rewrite (bind_Ret _ _ _ _ _ (read_run _ _)). fold v.
  pose proof (length_reg_line x v Hx (u32_range _)) as Hl.
  erewrite bind_Ret; [|apply print_fits].
  2:{ rewrite length_append. destruct room; cbn [String.length newline]; lia. }
  2:{ intros n ->. specialize (Hroom n eq_refl). rewrite length_append. cbn [String.length newline]. lia. }
  cbn [and_then]. unfold reg_text. destruct (skips x).
  - rewrite (bind_Ret _ _ _ _ _ (dump_fields_skipped _ _ _ _ _ _ _)). cbn [and_then dump_regs].
    by rewrite append_nil.
  - erewrite bind_Ret; [|apply dump_fields_run].
    + cbn [and_then dump_regs]. rewrite !append_assoc. reflexivity.
    + unfold row_ok in Hx. rewrite !andb_true_iff in Hx. tauto.
    + by apply Hnamed.
    + intros n ->. specialize (Hroom n eq_refl). rewrite !length_append. cbn [String.length newline]. lia.
Qed.

Lemma reg_info_run l i x room s :
  rows l !! i = Some x -> (forall n, room = Some n -> (75 + 76 * length (bitfields x) < n)%nat) ->
  exists skips s1, skips_of l s = Ret skips s1 /\ writes (trace_of s1) = writes (trace_of s) /\
    let v := reading (trace_of s1) (x_addr x) in
    let text := reg_text room skips x v in
    dump_reg_info_of l (x_addr x) 1 room s =
    Ret (if room is Some _ then Z.of_nat (String.length text) else 0, text) (log (Rd (x_addr x) v) s1).
Proof.
  intros Hi Hroom. destruct (skips_run l s) as (skips & s1 & Hs & Hw). exists skips, s1. split_and!; [done..|].
  intros v text. rewrite dump_reg_info_of_eq. unfold dump_reg_info. rewrite (bind_Ret _ _ _ _ _ Hs).
  destruct (find_row _ _ _ Hi) as [-> Ht]. pose proof (rows_small l). pose proof (lookup_lt_Some _ _ _ Ht) as Hlt.
  rewrite u32_small by in_range.
  assert ((if Z.of_nat i + 1 <? Z.of_nat (length (regs_table l)) then Z.of_nat i + 1 else Z.of_nat (length (regs_table l)))
          - Z.of_nat i = 1) as -> by (destruct (Z.ltb_spec (Z.of_nat i + 1) (Z.of_nat (length (regs_table l)))); lia).
  assert (take (Z.to_nat 1) (drop i (regs_table l)) = [x]) as ->.
  { rewrite (drop_S _ _ _ Ht). reflexivity. }
  rewrite (nth_lookup_Some _ _ _ _ Ht).
  erewrite bind_Ret; [|apply dump_one_run; [|done|done]]; [done|].
  apply row_ok_in with l. by apply list_elem_of_lookup_2 in Ht.
Qed.

(** ** Putting a register together again *)

Definition masks_of (fs : list regfield_info) : Z := foldr (fun f m => Z.lor (field_mask f) m) 0 fs.

Definition put_together (v : Z) (fs : list regfield_info) : Z :=
  foldr (fun f w => let c := field_of (field_mask f) in Z.lor (Z.shiftl (fld c v) (f_bit c)) w) 0 fs.

Lemma put_together_masks v fs :
  forallb (fun f => is_run (field_mask f)) fs = true -> put_together v fs = Z.land v (masks_of fs).
Proof.
  induction fs as [|f fs IH]; intros Hf; cbn [put_together masks_of foldr]; [by rewrite Z.land_0_r|].
  cbn [forallb] in Hf. apply andb_true_iff in Hf as [Hr Hf]. change (foldr _ 0 fs) with (put_together v fs) at 1.
  rewrite (IH Hf). rewrite Z.land_lor_distr_r. f_equal.
  pose proof (is_run_spec _ Hr) as [[Hb Hw] Hm]. rewrite Hm at 3. unfold fld. rewrite Z.shiftl_land.
  apply Z.bits_inj'. intros n Hn. rewrite !Z.land_spec, !Z.shiftl_spec by done.
  destruct (Z.le_gt_cases (f_bit (field_of (field_mask f))) n); [|rewrite (Z.testbit_neg_r (Z.ones _)) by lia; by rewrite !andb_false_r].
  rewrite Z.shiftr_spec by lia.
  by replace (n - f_bit (field_of (field_mask f)) + f_bit (field_of (field_mask f))) with n by lia.
Qed.

(** ** The dump of all values *)

Definition full_name (numbered : bool) (x : xreg_info) (j : nat) : string :=
  if numbered then x_name x +:+ "_" +:+ dec (Z.of_nat j) else x_name x.

(** The addresses and names of the registers of a row. *)
Definition entries (numbered : bool) (x : xreg_info) (js : list nat) : list (Z * string) :=
  (fun j => (u32 (x_addr x + 4 * Z.of_nat j), clip 39 (full_name numbered x j))) <$> js.

Definition value_lines (es : list (Z * string)) (vs : list Z) : string :=
  foldr (fun e t => dump_reg_line e.1.1 e.1.2 e.2 +:+ t) "" (zip es vs).

Lemma value_lines_app es es' vs vs' :
  length es = length vs -> value_lines (es ++ es') (vs ++ vs') = value_lines es vs +:+ value_lines es' vs'.
Proof.
  revert vs. induction es as [|e es IH]; intros [|v vs] Hl; [done..|]. injection Hl as Hl.
  change (value_lines ((e :: es) ++ es') ((v :: vs) ++ vs'))
    with (dump_reg_line e.1 e.2 v +:+ value_lines (es ++ es') (vs ++ vs')).
  rewrite (IH _ Hl), <- append_assoc. reflexivity.
Qed.

(** The values come from the device. *)
Definition read_at (es : list (Z * string)) (vs : list Z) : Prop :=
  Forall2 (fun e v => exists tr, v = reading tr e.1) es vs.

Lemma length_dump_reg_line a name v :
  is_u32 a -> a < 16 ^ 5 -> (String.length name <= 39)%nat -> is_u32 v -> (String.length (dump_reg_line a name v) <= 80)%nat.
Proof.
  intros Ha Ha' Hn Hv. unfold dump_reg_line. pose proof (length_alt_hex v Hv). pose proof (length_dec v Hv).
  assert (String.length (alt_hex a) <= 7)%nat.
  { unfold alt_hex. case_match; [simpl; lia|]. rewrite length_append.
    pose proof (length_hex_small a 5 ltac:(lia) ltac:(split; [apply Ha|exact Ha'])). simpl String.length. lia. }
  rewrite !length_append, !length_pad_right, length_pad_left; cbn [String.length newline]; lia.
Qed.

Lemma row_parts x :
  row_ok x = true ->
  (String.length (x_name x) <= 37)%nat /\ 0 <= x_addr x < 16 ^ 5 /\ (x_repeat x <= 99)%nat /\
  x_addr x + 4 * Z.of_nat (x_repeat x) <= 16 ^ 5.
Proof. unfold row_ok. rewrite !andb_true_iff, !Z.ltb_lt, !Nat.leb_le, !Z.leb_le. tauto. Qed.

Lemma entry_name_run numbered x j :
  row_ok x = true -> (j < x_repeat x)%nat -> entry_name numbered x j = inr (clip 39 (full_name numbered x j)).
Proof.
  intros (Hn & _ & Hr & _)%row_parts Hj. unfold entry_name. fold (full_name numbered x j).
  rewrite (proj2 (Nat.ltb_ge _ _)); [done|]. unfold full_name, DEBGFS_GEN_NAME_SZ.
  destruct numbered; [|lia]. rewrite !length_append. cbn [String.length].
  pose proof (digits_length 10 10 (Z.of_nat j) "" 2 ltac:(lia) ltac:(lia) ltac:(change (10 ^ Z.of_nat 2) with 100; lia)) as Hd.
  change (String.length "") with 0%nat in Hd. unfold dec. lia.
Qed.

(** A register's line fits when 81 bytes are left. *)
Lemma dump_reg_run room buflen text a name v s :
  is_u32 a -> a < 16 ^ 5 -> (String.length name <= 39)%nat -> is_u32 v ->
  buflen < 2 ^ 31 -> buflen <= Z.of_nat room -> Z.of_nat (String.length text) + 81 <= buflen ->
  dump_reg room buflen text a name v s = Ret (inr (text +:+ dump_reg_line a name v)) s.
Proof.
  intros Ha Ha' Hn Hv Hb Hroom Hfit. unfold dump_reg. unwrap_ints. unfold DEBGFS_LINE_SZ.
  rewrite (proj2 (Z.ltb_ge _ _)) by lia. pose proof (length_dump_reg_line a name v Ha Ha' Hn Hv).
  unfold snprintf_touched, snprintf_text. rewrite (proj2 (Nat.ltb_ge _ _)) by lia.
  by rewrite (proj2 (Nat.leb_gt _ _)) by lia.
Qed.

(** What a list of registers adds to a text: a line each, with what the device shows. *)
Definition adds (es : list (Z * string)) (m : M S (Z + string)) (text : string) s : Prop :=
  exists vs s', m s = Ret (inr (text +:+ value_lines es vs)) s' /\ writes (trace_of s') = writes (trace_of s) /\
    read_at es vs /\ (String.length (value_lines es vs) <= 80 * length es)%nat.

Lemma adds_nil text s : adds [] (mret (inr text)) text s.
Proof. exists [], s. split_and!; [by rewrite append_nil|done|constructor|done]. Qed.

Lemma adds_app es es' (m : M S (Z + string)) (k : string -> M S (Z + string)) text s :
  adds es m text s ->
  (forall t s', (String.length t <= String.length text + 80 * length es)%nat -> adds es' (k t) t s') ->
  adds (es ++ es') (r ← m; and_then r k) text s.
Proof.
  intros (vs & s1 & E1 & W1 & R1 & L1) Hk. pose proof (Forall2_length _ _ _ R1) as Hl.
  destruct (Hk (text +:+ value_lines es vs) s1) as (vs' & s2 & E2 & W2 & R2 & L2).
  { rewrite length_append. lia. }
  exists (vs ++ vs'), s2. rewrite (bind_Ret _ _ _ _ _ E1). cbn [and_then]. rewrite E2. split_and!.
  - by rewrite value_lines_app, append_assoc by done.
  - congruence.
  - by apply Forall2_app.
  - rewrite value_lines_app, length_append, length_app by done. lia.
Qed.

Lemma dump_entry_run room buflen numbered x js text s :
  row_ok x = true -> Forall (fun j => (j < x_repeat x)%nat) js -> buflen < 2 ^ 31 -> buflen <= Z.of_nat room ->
  Z.of_nat (String.length text) + 80 * Z.of_nat (length js) + 81 <= buflen ->
  adds (entries numbered x js) (dump_entry room buflen numbered x (fun _ addr => read32_data addr) js text) text s.
Proof.
  intros Hx Hjs Hb Hroom. revert text s. induction Hjs as [|j js Hj Hjs IH]; intros text s Hfit; [apply adds_nil|].
  cbn [dump_entry]. rewrite entry_name_run by done. destruct (row_parts x Hx) as (_ & Ha & Hr & Hend).
  change (16 ^ 5) with 1048576 in *. cbn [length] in Hfit.
  set (a := u32 (x_addr x + 4 * Z.of_nat j)). set (name := clip 39 (full_name numbered x j)).
  set (v := reading (trace_of s) a).
  assert (adds ([(a, name)] ++ entries numbered x js)
    (r ← dump_reg room buflen text a name v;
     and_then r (dump_entry room buflen numbered x (fun _ addr => read32_data addr) js)) text (log (Rd a v) s))
    as (vs & s' & E & W & R & L).
  { assert (is_u32 a /\ a < 1048576) as [Hau Hal] by (unfold a; unwrap_ints; in_range).
    assert (String.length name <= 39)%nat as Hname by (unfold name; rewrite length_clip; lia).
    apply adds_app.
    - exists [v], (log (Rd a v) s).
      rewrite dump_reg_run; [|done|exact Hal|done|apply u32_range|done|done|lia].
      pose proof (length_dump_reg_line a name v Hau Hal Hname (u32_range _)).
      split_and!; [by unfold value_lines; cbn [zip zip_with foldr fst snd]; rewrite append_nil|done| |].
      + constructor; [by exists (trace_of s)|constructor].
      + unfold value_lines. cbn [zip zip_with foldr fst snd length]. rewrite length_append. cbn [String.length]. lia.
    - intros t s' Ht. apply IH. cbn [length] in Ht. lia. }
  exists vs, s'. rewrite (bind_Ret _ _ _ _ _ (read_run _ _)). fold v. split_and!; [exact E| |done|done].
  rewrite W. unfold log. by rewrite trace_of_with.
Qed.

Definition all_entries (numbered : bool) (ok : xreg_info -> bool) (xs : list xreg_info) : list (Z * string) :=
  flat_map (fun x => entries numbered x (seq 0 (x_repeat x))) (filter (fun x => ok x = true) xs).

Definition registers (xs : list xreg_info) : nat := sum_list_with x_repeat xs.

Lemma all_entries_length numbered ok xs : (length (all_entries numbered ok xs) <= registers xs)%nat.
Proof.
  unfold all_entries, registers. induction xs as [|x xs IH]; [done|]. rewrite filter_cons. cbn [sum_list_with].
  case_decide; cbn [flat_map]; [|lia]. unfold entries at 1. rewrite length_app, length_fmap, length_seq. lia.
Qed.

Lemma dump_all_run room buflen numbered ok xs text s :
  forallb row_ok xs = true -> buflen < 2 ^ 31 -> buflen <= Z.of_nat room ->
  Z.of_nat (String.length text) + 80 * Z.of_nat (registers xs) + 81 <= buflen ->
  adds (all_entries numbered ok xs) (dump_all room buflen numbered ok xs text) text s.
Proof.
  intros Hok Hb Hroom. revert text s. induction xs as [|x xs IH]; intros text s Hfit; [apply adds_nil|].
  cbn [forallb] in Hok. apply andb_true_iff in Hok as [Hx Hok]. specialize (IH Hok).
  cbn [dump_all]. unfold registers in *. cbn [sum_list_with] in Hfit. unfold all_entries. rewrite filter_cons.
  destruct (ok x) eqn:E.
  - rewrite decide_True by done. cbn [flat_map]. apply adds_app.
    + apply dump_entry_run; [done| |done|done|rewrite length_seq; lia].
      apply Forall_forall. intros j Hj. apply elem_of_seq in Hj. lia.
    + intros t s' Ht. unfold entries in Ht. rewrite length_fmap, length_seq in Ht. apply IH. lia.
  - rewrite decide_False by congruence. apply IH. lia.
Qed.

Lemma table_fits l : 80 * Z.of_nat (registers (regs_table l)) + 81 <= reg_dump_buf_len (regs_table l).
Proof. destruct l; vm_compute; discriminate. Qed.

Definition dump_config_regs_of (l : library) : Z -> nat -> Z -> M S (Z * string) :=
  match l with
  | EQDMA => eqdma_dump_config_regs | QDMA_SOFT => qdma_soft_dump_config_regs
  | QDMA_S80 => qdma_s80_hard_dump_config_regs
  end.

Definition numbered_of (l : library) : bool := match l with EQDMA => false | _ => true end.

Lemma dump_config_regs_of_eq l is_vf room buflen :
  dump_config_regs_of l is_vf room buflen =
  dump_config_regs (regs_table l) (caps_of l) (debug_checked l) (numbered_of l) is_vf room buflen.
Proof. by destruct l. Qed.
End props.

(** C32. A register's fields, and the register again.  For every register of every library's table, its dump, to the log or to
    a buffer with room for it, reads it once, writes no register and ends; it prints the register's line and
    a line for each field, with the positions of its highest and lowest bit and the bits between;
    and these, put at their places, are the register's value under the fields' masks. *)
Theorem reg_info_reads_back {S : Type} `{HasTrace S} `{MmioDevice} l i x room (s : S) :
  rows l !! i = Some x -> (forall n, room = Some n -> (75 + 76 * length (bitfields x) < n)%nat) ->
  exists skips s1 v text, skips_of l s = Ret skips s1 /\
    dump_reg_info_of l (x_addr x) 1 room s =
      Ret (if room is Some _ then Z.of_nat (String.length text) else 0, text) (log (Rd (x_addr x) v) s1) /\
    v = reading (trace_of s1) (x_addr x) /\ writes (trace_of s1) = writes (trace_of s) /\
    text = (if room is Some _ then newline else "") +:+ reg_line x v
           +:+ (if skips x then "" else
                foldr (fun f t => let c := field_of (field_mask f) in
                         field_line (field_name f) (f_bit c + f_width c - 1) (f_bit c) (fld c v) +:+ t) "" (bitfields x)) /\
    foldr (fun f w => let c := field_of (field_mask f) in Z.lor (Z.shiftl (fld c v) (f_bit c)) w) 0 (bitfields x)
      = Z.land v (foldr (fun f m => Z.lor (field_mask f) m) 0 (bitfields x)).
Proof.
  intros Hi Hroom. destruct (reg_info_run l i x room s Hi Hroom) as (skips & s1 & Hs & Hw & E).
  exists skips, s1. eexists _, _. split_and!; [done|exact E|done|done|done|].
  apply put_together_masks. destruct (find_row _ _ _ Hi) as [_ Ht]. apply list_elem_of_lookup_2 in Ht.
  pose proof (row_ok_in _ _ Ht) as Hx. unfold row_ok in Hx. rewrite !andb_true_iff in Hx.
  destruct Hx as [[_ Hf] _]. rewrite forallb_forall in *. intros f Hin. specialize (Hf f Hin).
  apply andb_true_iff in Hf as [Hf _]. by destruct (run_bounds _ Hf).
Qed.

(** C33. All values fit the buffer.  For every library and device, and a buffer of any [int] size, the dump of
    all values writes nothing beyond the buffer and no register.  For a physical function and a
    buffer of the size asked for it always succeeds: it returns the length of the text,
    which has one line for each
    register that the device has (those for debugging only in debug mode), in the order of the table, with
    its address, its name and the value read. *)
Theorem config_dump_fits {S : Type} `{HasTrace S} `{MmioDevice} l is_vf buflen (s : S) :
  0 <= buflen < 2 ^ 31 ->
  exists rv text s', dump_config_regs_of l is_vf (Z.to_nat buflen) buflen s = Ret (rv, text) s' /\
    writes (trace_of s') = writes (trace_of s) /\
    if buflen <? reg_dump_buf_len (regs_table l) then rv = neg QDMA_ERR_NO_MEM
    else if negb (is_vf =? 0) then rv = neg QDMA_ERR_HWACC_FEATURE_NOT_SUPPORTED
    else exists caps s0 vs, caps_of l s = Ret caps s0 /\ rv = Z.of_nat (String.length text) /\ rv < buflen /\
           let es := all_entries (numbered_of l) (dumped (debug_checked l) caps) (regs_table l) in
           text = value_lines es vs /\ read_at es vs.
Proof.
  intros Hb. rewrite dump_config_regs_of_eq. unfold dump_config_regs.
  destruct (Z.ltb_spec buflen (reg_dump_buf_len (regs_table l))); [by exists (neg QDMA_ERR_NO_MEM), "", s|].
  destruct (negb (is_vf =? 0)); [by exists (neg QDMA_ERR_HWACC_FEATURE_NOT_SUPPORTED), "", s|].
  destruct (caps_run l s) as (caps & s0 & Hc & W0). rewrite (bind_Ret _ _ _ _ _ Hc).
  pose proof (table_fits l) as Hfit.
  destruct (dump_all_run (Z.to_nat buflen) buflen (numbered_of l) (dumped (debug_checked l) caps) (regs_table l) "" s0)
    as (vs & s1 & E & W & R & L); [apply tables_ok|lia|lia|change (String.length "") with 0%nat; lia|].
  rewrite (bind_Ret _ _ _ _ _ E). eexists _, _, s1. split_and!; [reflexivity|congruence|].
  exists caps, s0, vs. split_and!; [done|done| |done|done].
  pose proof (all_entries_length (numbered_of l) (dumped (debug_checked l) caps) (regs_table l)).
  change ("" +:+ value_lines ?es vs) with (value_lines es vs). lia.
Qed.

Lemma reg_info_reads_back_witness :
  exists v text, @dump_reg_info_of trace _ idle_device QDMA_S80 (x_addr (nth 1 qdma_s80_hard_config_regs (mk_xreg "" 0 0 0 0 0 false 0 QDMA_REG_READ_PF_ONLY []))) 1 (Some 200%nat) [] =
    Ret (Z.of_nat (String.length text), text) [Rd 4 v].
Proof.
  destruct (@reg_info_reads_back trace _ idle_device QDMA_S80 1 _ (Some 200%nat) [] eq_refl)
    as (skips & s1 & v & text & Hs & E & Hv & _ & _ & _).
  - intros n [= <-]. vm_compute. lia.
  - injection Hs as <- <-. exists v, text. exact E.
Defined.

Lemma config_dump_fits_witness :
  exists rv text s', @dump_config_regs_of trace _ full_device QDMA_SOFT 0 (Z.to_nat 39680) 39680 [] = Ret (rv, text) s' /\
    rv = Z.of_nat (String.length text).
Proof.
  destruct (@config_dump_fits trace _ full_device QDMA_SOFT 0 39680 [] ltac:(lia)) as (rv & text & s' & E & _ & Hrv).
  exists rv, text, s'. split; [exact E|].
  replace (39680 <? reg_dump_buf_len (regs_table QDMA_SOFT)) with false in Hrv by (vm_compute; reflexivity).
  destruct Hrv as (caps & s0 & vs & _ & Hrv & _). exact Hrv.
Defined.

(** ** Where the dumps go wrong *)

(** The dump of more than one register takes the names from the first one's fields, as the
    debug file system does when it asks for all: reading the names goes past that register's. *)
Lemma full_dump_past_names :
  let buflen l := Z.to_nat ((qdma_acc_reg_info_len l).1 + 5 * 81) in
  forall l, l <> QDMA_SOFT ->
  exists s', @dump_reg_info_of trace _ idle_device l 0 (qdma_acc_reg_info_len l).2 (Some (buflen l)) [] = Crash s'.
Proof. intros buflen [| |] Hl; [eexists; vm_compute; reflexivity|done|eexists; vm_compute; reflexivity]. Qed.

(** With the right names the text of all registers would still be longer than the buffer. *)
Lemma full_dump_too_long :
  forall l, l <> QDMA_SOFT ->
  (qdma_acc_reg_info_len l).1 + 5 * 81 <
  Z.of_nat (foldr (fun x n => String.length (reg_text (Some O) (fun _ => false) x 0) + n)%nat O (regs_table l)).
Proof. intros [| |] Hl; [vm_compute; reflexivity|done|vm_compute; reflexivity]. Qed.
