(* ===== verification/HwErrs.v ===== *)
(** * HwErrs: finding and enabling hardware errors

    The libraries have the same [..._hw_error_process] and [..._hw_error_enable], over tables of their own
    (EqdmaErrs, SoftErrs, S80Errs).  The errors are in groups that share a status register and
    a mask register; a row stands for all errors of its group.  What is printed is
    returned: the names of the errors found. *)

From S2P Require Import Prelude Mmio CLayout Contexts Fields Text QdmaErrors Csr RegDump.
Local Open Scope list_scope.
Local Open Scope Z_scope.

(** What [..._hw_error_process] returns when there is none. *)
Definition QDMA_HW_ERR_NOT_DETECTED : Z := 1.

(** [hw_err_process] is the list of registers that the row's function prints. *)
Record hw_err_info := mk_err {
  err_idx : Z; err_name : string; mask_reg_addr : Z; stat_reg_addr : Z; leaf_err_mask : Z; global_err_mask : Z;
  hw_err_process : list Z }.

(** A library's tables, with the streaming groups, the number of rows, and the global
    registers. *)
Record err_lib := {
  err_info : list hw_err_info; err_alls : list Z; err_positions : list Z;
  err_st_positions : list Z; err_st_alls : list Z;
  errs_all : Z; glbl_stat : Z; glbl_mask : Z }.

Definition hw_get_error_name (e : err_lib) (idx : Z) : option string :=
  if errs_all e <=? idx then None else err_name <$> err_info e !! Z.to_nat idx.

Definition one_of (l : list Z) (i : Z) : bool := existsb (Z.eqb i) l.

Section errors.
Context {S : Type} `{HasTrace S} `{MmioDevice}.
Context (e : err_lib) (caps : M S Z) (dump : Z -> M S (Z * string)).

Definition err_row (idx : Z) : M S hw_err_info := deref (fun _ => err_info e !! Z.to_nat idx).

(** [for (idx = bit; idx < last; idx++)] *)
Fixpoint report (n : nat) (err_stat idx : Z) : M S (list (option string)) :=
  match n with
  | O => mret []
  | Datatypes.S n' =>
      row ← err_row idx;
      rest ← report n' err_stat (idx + 1);
      mret (if Z.land err_stat (leaf_err_mask row) =? 0 then rest else hw_get_error_name e idx :: rest)
  end.

Definition process_group (bit last : Z) : M S (list (option string)) :=
  row ← err_row bit;
  err_stat ← read32_data (stat_reg_addr row);
  if err_stat =? 0 then mret []
  else
    for_each (hw_err_process row) (fun a => _ ← dump a; mret tt);;
    found ← report (Z.to_nat (last - bit)) err_stat bit;
    write32_data (stat_reg_addr row) err_stat;;
    mret found.

Fixpoint process_groups (st_en : bool) (groups : list (Z * Z)) : M S (list (option string)) :=
  match groups with
  | [] => mret []
  | (bit, last) :: groups' =>
      if negb st_en && one_of (err_st_positions e) bit then process_groups st_en groups'
      else
        found ← process_group bit last;
        rest ← process_groups st_en groups';
        mret (found ++ rest)
  end.

Definition hw_error_process : M S (Z * list (option string)) :=
  caps ← caps;
  glbl_err_stat ← read32_data (glbl_stat e);
  if glbl_err_stat =? 0 then mret (QDMA_HW_ERR_NOT_DETECTED, [])
  else
    found ← process_groups (streams caps) (zip (err_positions e) (err_alls e));
    write32_data (glbl_stat e) glbl_err_stat;;
    mret (0, found).

(** [reg |= value] *)
Definition set_bits (reg value : Z) : M S unit :=
  v ← read32_data reg; write32_data reg (Z.lor v value).

Definition enable_group (st_en : bool) (idx : Z) : M S unit :=
  if negb st_en && one_of (err_st_alls e) idx then mret tt
  else
    row ← err_row idx;
    write32_data (mask_reg_addr row) (leaf_err_mask row);;
    set_bits (glbl_mask e) (FIELD_SET (global_err_mask row) 1).

Definition hw_error_enable (err_idx : Z) : M S Z :=
  if errs_all e <? err_idx then mret (neg QDMA_ERR_INV_PARAM)
  else
    caps ← caps;
    if err_idx =? errs_all e then
      for_each (err_alls e) (enable_group (streams caps));; mret 0
    else if negb (streams caps) && (nth 0 (err_st_positions e) 0 <=? err_idx) && (err_idx <=? nth 2 (err_st_alls e) 0)
    then mret 0
    else
      row ← err_row err_idx;
      set_bits (mask_reg_addr row) (FIELD_SET (leaf_err_mask row) 1);;
      set_bits (glbl_mask e) (FIELD_SET (global_err_mask row) 1);;
      mret 0.
End errors.
