(* ===== verification/EqdmaErrs.v ===== *)
(** * EqdmaErrs: the hardware errors of the EQDMA

    From [eqdma_soft_access.c] and [eqdma_soft_reg.h]: the errors, and for each its name, the registers that report and
    enable it, its bits there and in the global register, and what is printed when it is found. *)

From S2P Require Import Prelude Mmio Fields RegTables RegDump HwErrs.
From S2P Require EqdmaCsr EqdmaRegs.
Local Open Scope string_scope.
Local Open Scope list_scope.
Local Open Scope Z_scope.

Abbreviation EQDMA_RAM_SBE_MSK_1_A_ADDR := (0xE0).
Abbreviation EQDMA_RAM_SBE_STS_1_A_ADDR := (0xE4).
Abbreviation EQDMA_RAM_DBE_MSK_1_A_ADDR := (0xE8).
Abbreviation EQDMA_RAM_DBE_STS_1_A_ADDR := (0xEC).
Abbreviation EQDMA_RAM_SBE_MSK_A_ADDR := (0xF0).
Abbreviation EQDMA_RAM_SBE_STS_A_ADDR := (0xF4).
Abbreviation EQDMA_RAM_DBE_MSK_A_ADDR := (0xF8).
Abbreviation EQDMA_RAM_DBE_STS_A_ADDR := (0xFC).
Abbreviation EQDMA_GLBL_ERR_STAT_ADDR := (0x248).
Abbreviation EQDMA_GLBL_ERR_MASK_ADDR := (0x24C).
Abbreviation EQDMA_GLBL_DSC_ERR_STS_ADDR := (0x254).
Abbreviation EQDMA_GLBL_DSC_ERR_MSK_ADDR := (0x258).
Abbreviation EQDMA_GLBL_DSC_ERR_LOG0_ADDR := (0x25C).
Abbreviation EQDMA_GLBL_DSC_ERR_LOG1_ADDR := (0x260).
Abbreviation EQDMA_GLBL_TRQ_ERR_STS_ADDR := (0x264).
Abbreviation EQDMA_GLBL_TRQ_ERR_MSK_ADDR := (0x268).
Abbreviation EQDMA_GLBL_TRQ_ERR_LOG_ADDR := (0x26C).
Abbreviation EQDMA_GLBL_DSC_DBG_DAT0_ADDR := (0x270).
Abbreviation EQDMA_GLBL_DSC_DBG_DAT1_ADDR := (0x274).
Abbreviation EQDMA_GLBL_DSC_ERR_LOG2_ADDR := (0x27c).
Abbreviation EQDMA_C2H_STAT_S_AXIS_C2H_ACCEPTED_ADDR := (0xA88).
Abbreviation EQDMA_C2H_STAT_S_AXIS_WRB_ACCEPTED_ADDR := (0xA8C).
Abbreviation EQDMA_C2H_STAT_DESC_RSP_PKT_ACCEPTED_ADDR := (0xA90).
Abbreviation EQDMA_C2H_STAT_AXIS_PKG_CMP_ADDR := (0xA94).
Abbreviation EQDMA_C2H_ERR_STAT_ADDR := (0xAF0).
Abbreviation EQDMA_C2H_ERR_MASK_ADDR := (0xAF4).
Abbreviation EQDMA_C2H_FATAL_ERR_STAT_ADDR := (0xAF8).
Abbreviation EQDMA_C2H_FATAL_ERR_MASK_ADDR := (0xAFC).
Abbreviation EQDMA_C2H_STAT_DESC_RSP_DROP_ACCEPTED_ADDR := (0xB10).
Abbreviation EQDMA_C2H_STAT_DESC_RSP_ERR_ACCEPTED_ADDR := (0xB14).
Abbreviation EQDMA_C2H_STAT_DBG_DMA_ENG_0_ADDR := (0xB1C).
Abbreviation EQDMA_C2H_STAT_DBG_DMA_ENG_1_ADDR := (0xB20).
Abbreviation EQDMA_C2H_STAT_DBG_DMA_ENG_2_ADDR := (0xB24).
Abbreviation EQDMA_C2H_STAT_DBG_DMA_ENG_3_ADDR := (0xB28).
Abbreviation EQDMA_C2H_FIRST_ERR_QID_ADDR := (0xB30).
Abbreviation EQDMA_H2C_ERR_STAT_ADDR := (0xE00).
Abbreviation EQDMA_H2C_ERR_MASK_ADDR := (0xE04).
Abbreviation EQDMA_H2C_FIRST_ERR_QID_ADDR := (0xE08).
Abbreviation EQDMA_H2C_DBG_REG0_ADDR := (0xE0C).
Abbreviation EQDMA_H2C_DBG_REG1_ADDR := (0xE10).
Abbreviation EQDMA_H2C_DBG_REG2_ADDR := (0xE14).
Abbreviation EQDMA_H2C_DBG_REG3_ADDR := (0xE18).
Abbreviation EQDMA_H2C_DBG_REG4_ADDR := (0xE1C).
Abbreviation EQDMA_GLBL_TRQ_ERR_ALL_MASK := (0xB3).
Abbreviation EQDMA_GLBL_DSC_ERR_ALL_MASK := (0x1F9037E).
Abbreviation EQDMA_C2H_ERR_ALL_MASK := (0x3F6DF).
Abbreviation EQDMA_C2H_FATAL_ERR_ALL_MASK := (0x1FDF1B).
Abbreviation EQDMA_H2C_ERR_ALL_MASK := (0x3F).
Abbreviation EQDMA_SBE_ERR_ALL_MASK := (0xFFFFFFFF).
Abbreviation EQDMA_DBE_ERR_ALL_MASK := (0xFFFFFFFF).

(** The indices of the errors. *)

Inductive eqdma_error_idx :=
| EQDMA_DSC_ERR_POISON
| EQDMA_DSC_ERR_UR_CA
| EQDMA_DSC_ERR_BCNT
| EQDMA_DSC_ERR_PARAM
| EQDMA_DSC_ERR_ADDR
| EQDMA_DSC_ERR_TAG
| EQDMA_DSC_ERR_FLR
| EQDMA_DSC_ERR_TIMEOUT
| EQDMA_DSC_ERR_DAT_POISON
| EQDMA_DSC_ERR_FLR_CANCEL
| EQDMA_DSC_ERR_DMA
| EQDMA_DSC_ERR_DSC
| EQDMA_DSC_ERR_RQ_CANCEL
| EQDMA_DSC_ERR_DBE
| EQDMA_DSC_ERR_SBE
| EQDMA_DSC_ERR_ALL
| EQDMA_TRQ_ERR_CSR_UNMAPPED
| EQDMA_TRQ_ERR_VF_ACCESS
| EQDMA_TRQ_ERR_TCP_CSR_TIMEOUT
| EQDMA_TRQ_ERR_QSPC_UNMAPPED
| EQDMA_TRQ_ERR_QID_RANGE
| EQDMA_TRQ_ERR_TCP_QSPC_TIMEOUT
| EQDMA_TRQ_ERR_ALL
| EQDMA_ST_C2H_ERR_MTY_MISMATCH
| EQDMA_ST_C2H_ERR_LEN_MISMATCH
| EQDMA_ST_C2H_ERR_SH_CMPT_DSC
| EQDMA_ST_C2H_ERR_QID_MISMATCH
| EQDMA_ST_C2H_ERR_DESC_RSP_ERR
| EQDMA_ST_C2H_ERR_ENG_WPL_DATA_PAR_ERR
| EQDMA_ST_C2H_ERR_MSI_INT_FAIL
| EQDMA_ST_C2H_ERR_ERR_DESC_CNT
| EQDMA_ST_C2H_ERR_PORTID_CTXT_MISMATCH
| EQDMA_ST_C2H_ERR_CMPT_INV_Q_ERR
| EQDMA_ST_C2H_ERR_CMPT_QFULL_ERR
| EQDMA_ST_C2H_ERR_CMPT_CIDX_ERR
| EQDMA_ST_C2H_ERR_CMPT_PRTY_ERR
| EQDMA_ST_C2H_ERR_AVL_RING_DSC
| EQDMA_ST_C2H_ERR_HDR_ECC_UNC
| EQDMA_ST_C2H_ERR_HDR_ECC_COR
| EQDMA_ST_C2H_ERR_ALL
| EQDMA_ST_FATAL_ERR_MTY_MISMATCH
| EQDMA_ST_FATAL_ERR_LEN_MISMATCH
| EQDMA_ST_FATAL_ERR_QID_MISMATCH
| EQDMA_ST_FATAL_ERR_TIMER_FIFO_RAM_RDBE
| EQDMA_ST_FATAL_ERR_PFCH_II_RAM_RDBE
| EQDMA_ST_FATAL_ERR_CMPT_CTXT_RAM_RDBE
| EQDMA_ST_FATAL_ERR_PFCH_CTXT_RAM_RDBE
| EQDMA_ST_FATAL_ERR_DESC_REQ_FIFO_RAM_RDBE
| EQDMA_ST_FATAL_ERR_INT_CTXT_RAM_RDBE
| EQDMA_ST_FATAL_ERR_CMPT_COAL_DATA_RAM_RDBE
| EQDMA_ST_FATAL_ERR_CMPT_FIFO_RAM_RDBE
| EQDMA_ST_FATAL_ERR_QID_FIFO_RAM_RDBE
| EQDMA_ST_FATAL_ERR_PAYLOAD_FIFO_RAM_RDBE
| EQDMA_ST_FATAL_ERR_WPL_DATA_PAR
| EQDMA_ST_FATAL_ERR_AVL_RING_FIFO_RAM_RDBE
| EQDMA_ST_FATAL_ERR_HDR_ECC_UNC
| EQDMA_ST_FATAL_ERR_ALL
| EQDMA_ST_H2C_ERR_ZERO_LEN_DESC
| EQDMA_ST_H2C_ERR_SDI_MRKR_REQ_MOP
| EQDMA_ST_H2C_ERR_NO_DMA_DSC
| EQDMA_ST_H2C_ERR_SBE
| EQDMA_ST_H2C_ERR_DBE
| EQDMA_ST_H2C_ERR_PAR
| EQDMA_ST_H2C_ERR_ALL
| EQDMA_SBE_1_ERR_RC_RRQ_EVEN_RAM
| EQDMA_SBE_1_ERR_TAG_ODD_RAM
| EQDMA_SBE_1_ERR_TAG_EVEN_RAM
| EQDMA_SBE_1_ERR_PFCH_CTXT_CAM_RAM_0
| EQDMA_SBE_1_ERR_PFCH_CTXT_CAM_RAM_1
| EQDMA_SBE_1_ERR_ALL
| EQDMA_SBE_ERR_MI_H2C0_DAT
| EQDMA_SBE_ERR_MI_H2C1_DAT
| EQDMA_SBE_ERR_MI_H2C2_DAT
| EQDMA_SBE_ERR_MI_H2C3_DAT
| EQDMA_SBE_ERR_MI_C2H0_DAT
| EQDMA_SBE_ERR_MI_C2H1_DAT
| EQDMA_SBE_ERR_MI_C2H2_DAT
| EQDMA_SBE_ERR_MI_C2H3_DAT
| EQDMA_SBE_ERR_H2C_RD_BRG_DAT
| EQDMA_SBE_ERR_H2C_WR_BRG_DAT
| EQDMA_SBE_ERR_C2H_RD_BRG_DAT
| EQDMA_SBE_ERR_C2H_WR_BRG_DAT
| EQDMA_SBE_ERR_FUNC_MAP
| EQDMA_SBE_ERR_DSC_HW_CTXT
| EQDMA_SBE_ERR_DSC_CRD_RCV
| EQDMA_SBE_ERR_DSC_SW_CTXT
| EQDMA_SBE_ERR_DSC_CPLI
| EQDMA_SBE_ERR_DSC_CPLD
| EQDMA_SBE_ERR_MI_TL_SLV_FIFO_RAM
| EQDMA_SBE_ERR_TIMER_FIFO_RAM
| EQDMA_SBE_ERR_QID_FIFO_RAM
| EQDMA_SBE_ERR_WRB_COAL_DATA_RAM
| EQDMA_SBE_ERR_INT_CTXT_RAM
| EQDMA_SBE_ERR_DESC_REQ_FIFO_RAM
| EQDMA_SBE_ERR_PFCH_CTXT_RAM
| EQDMA_SBE_ERR_WRB_CTXT_RAM
| EQDMA_SBE_ERR_PFCH_LL_RAM
| EQDMA_SBE_ERR_PEND_FIFO_RAM
| EQDMA_SBE_ERR_RC_RRQ_ODD_RAM
| EQDMA_SBE_ERR_ALL
| EQDMA_DBE_1_ERR_RC_RRQ_EVEN_RAM
| EQDMA_DBE_1_ERR_TAG_ODD_RAM
| EQDMA_DBE_1_ERR_TAG_EVEN_RAM
| EQDMA_DBE_1_ERR_PFCH_CTXT_CAM_RAM_0
| EQDMA_DBE_1_ERR_PFCH_CTXT_CAM_RAM_1
| EQDMA_DBE_1_ERR_ALL
| EQDMA_DBE_ERR_MI_H2C0_DAT
| EQDMA_DBE_ERR_MI_H2C1_DAT
| EQDMA_DBE_ERR_MI_H2C2_DAT
| EQDMA_DBE_ERR_MI_H2C3_DAT
| EQDMA_DBE_ERR_MI_C2H0_DAT
| EQDMA_DBE_ERR_MI_C2H1_DAT
| EQDMA_DBE_ERR_MI_C2H2_DAT
| EQDMA_DBE_ERR_MI_C2H3_DAT
| EQDMA_DBE_ERR_H2C_RD_BRG_DAT
| EQDMA_DBE_ERR_H2C_WR_BRG_DAT
| EQDMA_DBE_ERR_C2H_RD_BRG_DAT
| EQDMA_DBE_ERR_C2H_WR_BRG_DAT
| EQDMA_DBE_ERR_FUNC_MAP
| EQDMA_DBE_ERR_DSC_HW_CTXT
| EQDMA_DBE_ERR_DSC_CRD_RCV
| EQDMA_DBE_ERR_DSC_SW_CTXT
| EQDMA_DBE_ERR_DSC_CPLI
| EQDMA_DBE_ERR_DSC_CPLD
| EQDMA_DBE_ERR_MI_TL_SLV_FIFO_RAM
| EQDMA_DBE_ERR_TIMER_FIFO_RAM
| EQDMA_DBE_ERR_QID_FIFO_RAM
| EQDMA_DBE_ERR_WRB_COAL_DATA_RAM
| EQDMA_DBE_ERR_INT_CTXT_RAM
| EQDMA_DBE_ERR_DESC_REQ_FIFO_RAM
| EQDMA_DBE_ERR_PFCH_CTXT_RAM
| EQDMA_DBE_ERR_WRB_CTXT_RAM
| EQDMA_DBE_ERR_PFCH_LL_RAM
| EQDMA_DBE_ERR_PEND_FIFO_RAM
| EQDMA_DBE_ERR_RC_RRQ_ODD_RAM
| EQDMA_DBE_ERR_ALL
| EQDMA_ERRS_ALL.

Definition eqdma_error_idx_code (e : eqdma_error_idx) : Z :=
  match e with
  | EQDMA_DSC_ERR_POISON => 0
  | EQDMA_DSC_ERR_UR_CA => 1
  | EQDMA_DSC_ERR_BCNT => 2
  | EQDMA_DSC_ERR_PARAM => 3
  | EQDMA_DSC_ERR_ADDR => 4
  | EQDMA_DSC_ERR_TAG => 5
  | EQDMA_DSC_ERR_FLR => 6
  | EQDMA_DSC_ERR_TIMEOUT => 7
  | EQDMA_DSC_ERR_DAT_POISON => 8
  | EQDMA_DSC_ERR_FLR_CANCEL => 9
  | EQDMA_DSC_ERR_DMA => 10
  | EQDMA_DSC_ERR_DSC => 11
  | EQDMA_DSC_ERR_RQ_CANCEL => 12
  | EQDMA_DSC_ERR_DBE => 13
  | EQDMA_DSC_ERR_SBE => 14
  | EQDMA_DSC_ERR_ALL => 15
  | EQDMA_TRQ_ERR_CSR_UNMAPPED => 16
  | EQDMA_TRQ_ERR_VF_ACCESS => 17
  | EQDMA_TRQ_ERR_TCP_CSR_TIMEOUT => 18
  | EQDMA_TRQ_ERR_QSPC_UNMAPPED => 19
  | EQDMA_TRQ_ERR_QID_RANGE => 20
  | EQDMA_TRQ_ERR_TCP_QSPC_TIMEOUT => 21
  | EQDMA_TRQ_ERR_ALL => 22
  | EQDMA_ST_C2H_ERR_MTY_MISMATCH => 23
  | EQDMA_ST_C2H_ERR_LEN_MISMATCH => 24
  | EQDMA_ST_C2H_ERR_SH_CMPT_DSC => 25
  | EQDMA_ST_C2H_ERR_QID_MISMATCH => 26
  | EQDMA_ST_C2H_ERR_DESC_RSP_ERR => 27
  | EQDMA_ST_C2H_ERR_ENG_WPL_DATA_PAR_ERR => 28
  | EQDMA_ST_C2H_ERR_MSI_INT_FAIL => 29
  | EQDMA_ST_C2H_ERR_ERR_DESC_CNT => 30
  | EQDMA_ST_C2H_ERR_PORTID_CTXT_MISMATCH => 31
  | EQDMA_ST_C2H_ERR_CMPT_INV_Q_ERR => 32
  | EQDMA_ST_C2H_ERR_CMPT_QFULL_ERR => 33
  | EQDMA_ST_C2H_ERR_CMPT_CIDX_ERR => 34
  | EQDMA_ST_C2H_ERR_CMPT_PRTY_ERR => 35
  | EQDMA_ST_C2H_ERR_AVL_RING_DSC => 36
  | EQDMA_ST_C2H_ERR_HDR_ECC_UNC => 37
  | EQDMA_ST_C2H_ERR_HDR_ECC_COR => 38
  | EQDMA_ST_C2H_ERR_ALL => 39
  | EQDMA_ST_FATAL_ERR_MTY_MISMATCH => 40
  | EQDMA_ST_FATAL_ERR_LEN_MISMATCH => 41
  | EQDMA_ST_FATAL_ERR_QID_MISMATCH => 42
  | EQDMA_ST_FATAL_ERR_TIMER_FIFO_RAM_RDBE => 43
  | EQDMA_ST_FATAL_ERR_PFCH_II_RAM_RDBE => 44
  | EQDMA_ST_FATAL_ERR_CMPT_CTXT_RAM_RDBE => 45
  | EQDMA_ST_FATAL_ERR_PFCH_CTXT_RAM_RDBE => 46
  | EQDMA_ST_FATAL_ERR_DESC_REQ_FIFO_RAM_RDBE => 47
  | EQDMA_ST_FATAL_ERR_INT_CTXT_RAM_RDBE => 48
  | EQDMA_ST_FATAL_ERR_CMPT_COAL_DATA_RAM_RDBE => 49
  | EQDMA_ST_FATAL_ERR_CMPT_FIFO_RAM_RDBE => 50
  | EQDMA_ST_FATAL_ERR_QID_FIFO_RAM_RDBE => 51
  | EQDMA_ST_FATAL_ERR_PAYLOAD_FIFO_RAM_RDBE => 52
  | EQDMA_ST_FATAL_ERR_WPL_DATA_PAR => 53
  | EQDMA_ST_FATAL_ERR_AVL_RING_FIFO_RAM_RDBE => 54
  | EQDMA_ST_FATAL_ERR_HDR_ECC_UNC => 55
  | EQDMA_ST_FATAL_ERR_ALL => 56
  | EQDMA_ST_H2C_ERR_ZERO_LEN_DESC => 57
  | EQDMA_ST_H2C_ERR_SDI_MRKR_REQ_MOP => 58
  | EQDMA_ST_H2C_ERR_NO_DMA_DSC => 59
  | EQDMA_ST_H2C_ERR_SBE => 60
  | EQDMA_ST_H2C_ERR_DBE => 61
  | EQDMA_ST_H2C_ERR_PAR => 62
  | EQDMA_ST_H2C_ERR_ALL => 63
  | EQDMA_SBE_1_ERR_RC_RRQ_EVEN_RAM => 64
  | EQDMA_SBE_1_ERR_TAG_ODD_RAM => 65
  | EQDMA_SBE_1_ERR_TAG_EVEN_RAM => 66
  | EQDMA_SBE_1_ERR_PFCH_CTXT_CAM_RAM_0 => 67
  | EQDMA_SBE_1_ERR_PFCH_CTXT_CAM_RAM_1 => 68
  | EQDMA_SBE_1_ERR_ALL => 69
  | EQDMA_SBE_ERR_MI_H2C0_DAT => 70
  | EQDMA_SBE_ERR_MI_H2C1_DAT => 71
  | EQDMA_SBE_ERR_MI_H2C2_DAT => 72
  | EQDMA_SBE_ERR_MI_H2C3_DAT => 73
  | EQDMA_SBE_ERR_MI_C2H0_DAT => 74
  | EQDMA_SBE_ERR_MI_C2H1_DAT => 75
  | EQDMA_SBE_ERR_MI_C2H2_DAT => 76
  | EQDMA_SBE_ERR_MI_C2H3_DAT => 77
  | EQDMA_SBE_ERR_H2C_RD_BRG_DAT => 78
  | EQDMA_SBE_ERR_H2C_WR_BRG_DAT => 79
  | EQDMA_SBE_ERR_C2H_RD_BRG_DAT => 80
  | EQDMA_SBE_ERR_C2H_WR_BRG_DAT => 81
  | EQDMA_SBE_ERR_FUNC_MAP => 82
  | EQDMA_SBE_ERR_DSC_HW_CTXT => 83
  | EQDMA_SBE_ERR_DSC_CRD_RCV => 84
  | EQDMA_SBE_ERR_DSC_SW_CTXT => 85
  | EQDMA_SBE_ERR_DSC_CPLI => 86
  | EQDMA_SBE_ERR_DSC_CPLD => 87
  | EQDMA_SBE_ERR_MI_TL_SLV_FIFO_RAM => 88
  | EQDMA_SBE_ERR_TIMER_FIFO_RAM => 89
  | EQDMA_SBE_ERR_QID_FIFO_RAM => 90
  | EQDMA_SBE_ERR_WRB_COAL_DATA_RAM => 91
  | EQDMA_SBE_ERR_INT_CTXT_RAM => 92
  | EQDMA_SBE_ERR_DESC_REQ_FIFO_RAM => 93
  | EQDMA_SBE_ERR_PFCH_CTXT_RAM => 94
  | EQDMA_SBE_ERR_WRB_CTXT_RAM => 95
  | EQDMA_SBE_ERR_PFCH_LL_RAM => 96
  | EQDMA_SBE_ERR_PEND_FIFO_RAM => 97
  | EQDMA_SBE_ERR_RC_RRQ_ODD_RAM => 98
  | EQDMA_SBE_ERR_ALL => 99
  | EQDMA_DBE_1_ERR_RC_RRQ_EVEN_RAM => 100
  | EQDMA_DBE_1_ERR_TAG_ODD_RAM => 101
  | EQDMA_DBE_1_ERR_TAG_EVEN_RAM => 102
  | EQDMA_DBE_1_ERR_PFCH_CTXT_CAM_RAM_0 => 103
  | EQDMA_DBE_1_ERR_PFCH_CTXT_CAM_RAM_1 => 104
  | EQDMA_DBE_1_ERR_ALL => 105
  | EQDMA_DBE_ERR_MI_H2C0_DAT => 106
  | EQDMA_DBE_ERR_MI_H2C1_DAT => 107
  | EQDMA_DBE_ERR_MI_H2C2_DAT => 108
  | EQDMA_DBE_ERR_MI_H2C3_DAT => 109
  | EQDMA_DBE_ERR_MI_C2H0_DAT => 110
  | EQDMA_DBE_ERR_MI_C2H1_DAT => 111
  | EQDMA_DBE_ERR_MI_C2H2_DAT => 112
  | EQDMA_DBE_ERR_MI_C2H3_DAT => 113
  | EQDMA_DBE_ERR_H2C_RD_BRG_DAT => 114
  | EQDMA_DBE_ERR_H2C_WR_BRG_DAT => 115
  | EQDMA_DBE_ERR_C2H_RD_BRG_DAT => 116
  | EQDMA_DBE_ERR_C2H_WR_BRG_DAT => 117
  | EQDMA_DBE_ERR_FUNC_MAP => 118
  | EQDMA_DBE_ERR_DSC_HW_CTXT => 119
  | EQDMA_DBE_ERR_DSC_CRD_RCV => 120
  | EQDMA_DBE_ERR_DSC_SW_CTXT => 121
  | EQDMA_DBE_ERR_DSC_CPLI => 122
  | EQDMA_DBE_ERR_DSC_CPLD => 123
  | EQDMA_DBE_ERR_MI_TL_SLV_FIFO_RAM => 124
  | EQDMA_DBE_ERR_TIMER_FIFO_RAM => 125
  | EQDMA_DBE_ERR_QID_FIFO_RAM => 126
  | EQDMA_DBE_ERR_WRB_COAL_DATA_RAM => 127
  | EQDMA_DBE_ERR_INT_CTXT_RAM => 128
  | EQDMA_DBE_ERR_DESC_REQ_FIFO_RAM => 129
  | EQDMA_DBE_ERR_PFCH_CTXT_RAM => 130
  | EQDMA_DBE_ERR_WRB_CTXT_RAM => 131
  | EQDMA_DBE_ERR_PFCH_LL_RAM => 132
  | EQDMA_DBE_ERR_PEND_FIFO_RAM => 133
  | EQDMA_DBE_ERR_RC_RRQ_ODD_RAM => 134
  | EQDMA_DBE_ERR_ALL => 135
  | EQDMA_ERRS_ALL => 136
  end.
Coercion eqdma_error_idx_code : eqdma_error_idx >-> Z.

(** The registers that are printed for an error. *)

Definition eqdma_hw_ram_sbe_err_process : list Z :=
  [EQDMA_RAM_SBE_STS_A_ADDR; EQDMA_RAM_SBE_STS_1_A_ADDR].
Definition eqdma_hw_ram_dbe_err_process : list Z :=
  [EQDMA_RAM_DBE_STS_A_ADDR; EQDMA_RAM_DBE_STS_1_A_ADDR].
Definition eqdma_hw_desc_err_process : list Z :=
  [EQDMA_GLBL_DSC_ERR_STS_ADDR; EQDMA_GLBL_DSC_ERR_LOG0_ADDR; EQDMA_GLBL_DSC_ERR_LOG1_ADDR; EQDMA_GLBL_DSC_DBG_DAT0_ADDR; EQDMA_GLBL_DSC_DBG_DAT1_ADDR; EQDMA_GLBL_DSC_ERR_LOG2_ADDR].
Definition eqdma_hw_trq_err_process : list Z :=
  [EQDMA_GLBL_TRQ_ERR_STS_ADDR; EQDMA_GLBL_TRQ_ERR_LOG_ADDR].
Definition eqdma_hw_st_h2c_err_process : list Z :=
  [EQDMA_H2C_ERR_STAT_ADDR; EQDMA_H2C_FIRST_ERR_QID_ADDR; EQDMA_H2C_DBG_REG0_ADDR; EQDMA_H2C_DBG_REG1_ADDR; EQDMA_H2C_DBG_REG2_ADDR; EQDMA_H2C_DBG_REG3_ADDR; EQDMA_H2C_DBG_REG4_ADDR].
Definition eqdma_hw_st_c2h_err_process : list Z :=
  [EQDMA_C2H_ERR_STAT_ADDR; EQDMA_C2H_FATAL_ERR_STAT_ADDR; EQDMA_C2H_FIRST_ERR_QID_ADDR; EQDMA_C2H_STAT_S_AXIS_C2H_ACCEPTED_ADDR; EQDMA_C2H_STAT_S_AXIS_WRB_ACCEPTED_ADDR; EQDMA_C2H_STAT_DESC_RSP_PKT_ACCEPTED_ADDR; EQDMA_C2H_STAT_AXIS_PKG_CMP_ADDR; EQDMA_C2H_STAT_DBG_DMA_ENG_0_ADDR; EQDMA_C2H_STAT_DBG_DMA_ENG_1_ADDR; EQDMA_C2H_STAT_DBG_DMA_ENG_2_ADDR; EQDMA_C2H_STAT_DBG_DMA_ENG_3_ADDR; EQDMA_C2H_STAT_DESC_RSP_DROP_ACCEPTED_ADDR; EQDMA_C2H_STAT_DESC_RSP_ERR_ACCEPTED_ADDR].

Definition eqdma_err_info_1 : list hw_err_info :=
  [mk_err EQDMA_DSC_ERR_POISON "Poison error" EQDMA_GLBL_DSC_ERR_MSK_ADDR EQDMA_GLBL_DSC_ERR_STS_ADDR EqdmaRegs.GLBL_DSC_ERR_STS_POISON_MASK EqdmaRegs.GLBL_ERR_STAT_ERR_DSC_MASK eqdma_hw_desc_err_process;
   mk_err EQDMA_DSC_ERR_UR_CA "Unsupported request or completer aborted error" EQDMA_GLBL_DSC_ERR_MSK_ADDR EQDMA_GLBL_DSC_ERR_STS_ADDR EqdmaRegs.GLBL_DSC_ERR_STS_UR_CA_MASK EqdmaRegs.GLBL_ERR_STAT_ERR_DSC_MASK eqdma_hw_desc_err_process;
   mk_err EQDMA_DSC_ERR_BCNT "Unexpected Byte count in completion error" EQDMA_GLBL_DSC_ERR_MSK_ADDR EQDMA_GLBL_DSC_ERR_STS_ADDR EqdmaRegs.GLBL_DSC_ERR_STS_BCNT_MASK EqdmaRegs.GLBL_ERR_STAT_ERR_DSC_MASK eqdma_hw_desc_err_process;
   mk_err EQDMA_DSC_ERR_PARAM "Parameter mismatch error" EQDMA_GLBL_DSC_ERR_MSK_ADDR EQDMA_GLBL_DSC_ERR_STS_ADDR EqdmaRegs.GLBL_DSC_ERR_STS_PARAM_MASK EqdmaRegs.GLBL_ERR_STAT_ERR_DSC_MASK eqdma_hw_desc_err_process;
   mk_err EQDMA_DSC_ERR_ADDR "Address mismatch error" EQDMA_GLBL_DSC_ERR_MSK_ADDR EQDMA_GLBL_DSC_ERR_STS_ADDR EqdmaRegs.GLBL_DSC_ERR_STS_ADDR_MASK EqdmaRegs.GLBL_ERR_STAT_ERR_DSC_MASK eqdma_hw_desc_err_process;
   mk_err EQDMA_DSC_ERR_TAG "Unexpected tag error" EQDMA_GLBL_DSC_ERR_MSK_ADDR EQDMA_GLBL_DSC_ERR_STS_ADDR EqdmaRegs.GLBL_DSC_ERR_STS_TAG_MASK EqdmaRegs.GLBL_ERR_STAT_ERR_DSC_MASK eqdma_hw_desc_err_process;
   mk_err EQDMA_DSC_ERR_FLR "FLR error" EQDMA_GLBL_DSC_ERR_MSK_ADDR EQDMA_GLBL_DSC_ERR_STS_ADDR EqdmaRegs.GLBL_DSC_ERR_STS_FLR_MASK EqdmaRegs.GLBL_ERR_STAT_ERR_DSC_MASK eqdma_hw_desc_err_process;
   mk_err EQDMA_DSC_ERR_TIMEOUT "Timed out error" EQDMA_GLBL_DSC_ERR_MSK_ADDR EQDMA_GLBL_DSC_ERR_STS_ADDR EqdmaRegs.GLBL_DSC_ERR_STS_TIMEOUT_MASK EqdmaRegs.GLBL_ERR_STAT_ERR_DSC_MASK eqdma_hw_desc_err_process;
   mk_err EQDMA_DSC_ERR_DAT_POISON "Poison data error" EQDMA_GLBL_DSC_ERR_MSK_ADDR EQDMA_GLBL_DSC_ERR_STS_ADDR EqdmaRegs.GLBL_DSC_ERR_STS_DAT_POISON_MASK EqdmaRegs.GLBL_ERR_STAT_ERR_DSC_MASK eqdma_hw_desc_err_process;
   mk_err EQDMA_DSC_ERR_FLR_CANCEL "Descriptor fetch cancelled due to FLR error" EQDMA_GLBL_DSC_ERR_MSK_ADDR EQDMA_GLBL_DSC_ERR_STS_ADDR EqdmaRegs.GLBL_DSC_ERR_STS_FLR_CANCEL_MASK EqdmaRegs.GLBL_ERR_STAT_ERR_DSC_MASK eqdma_hw_desc_err_process;
   mk_err EQDMA_DSC_ERR_DMA "DMA engine error" EQDMA_GLBL_DSC_ERR_MSK_ADDR EQDMA_GLBL_DSC_ERR_STS_ADDR EqdmaRegs.GLBL_DSC_ERR_STS_DMA_MASK EqdmaRegs.GLBL_ERR_STAT_ERR_DSC_MASK eqdma_hw_desc_err_process;
   mk_err EQDMA_DSC_ERR_DSC "Invalid PIDX update error" EQDMA_GLBL_DSC_ERR_MSK_ADDR EQDMA_GLBL_DSC_ERR_STS_ADDR EqdmaRegs.GLBL_DSC_ERR_STS_DSC_MASK EqdmaRegs.GLBL_ERR_STAT_ERR_DSC_MASK eqdma_hw_desc_err_process;
   mk_err EQDMA_DSC_ERR_RQ_CANCEL "Descriptor fetch cancelled due to disable register status error" EQDMA_GLBL_DSC_ERR_MSK_ADDR EQDMA_GLBL_DSC_ERR_STS_ADDR EqdmaRegs.GLBL_DSC_ERR_STS_RQ_CANCEL_MASK EqdmaRegs.GLBL_ERR_STAT_ERR_DSC_MASK eqdma_hw_desc_err_process;
   mk_err EQDMA_DSC_ERR_DBE "UNC_ERR_RAM_DBE error" EQDMA_GLBL_DSC_ERR_MSK_ADDR EQDMA_GLBL_DSC_ERR_STS_ADDR EqdmaRegs.GLBL_DSC_ERR_STS_DBE_MASK EqdmaRegs.GLBL_ERR_STAT_ERR_DSC_MASK eqdma_hw_desc_err_process;
   mk_err EQDMA_DSC_ERR_SBE "UNC_ERR_RAM_SBE error" EQDMA_GLBL_DSC_ERR_MSK_ADDR EQDMA_GLBL_DSC_ERR_STS_ADDR EqdmaRegs.GLBL_DSC_ERR_STS_SBE_MASK EqdmaRegs.GLBL_ERR_STAT_ERR_DSC_MASK eqdma_hw_desc_err_process;
   mk_err EQDMA_DSC_ERR_ALL "All Descriptor errors" EQDMA_GLBL_DSC_ERR_MSK_ADDR EQDMA_GLBL_DSC_ERR_STS_ADDR EQDMA_GLBL_DSC_ERR_ALL_MASK EqdmaRegs.GLBL_ERR_STAT_ERR_DSC_MASK eqdma_hw_desc_err_process].

Definition eqdma_err_info_2 : list hw_err_info :=
  [mk_err EQDMA_TRQ_ERR_CSR_UNMAPPED "Access targeted unmapped register space via CSR pathway error" EQDMA_GLBL_TRQ_ERR_MSK_ADDR EQDMA_GLBL_TRQ_ERR_STS_ADDR EqdmaRegs.GLBL_TRQ_ERR_STS_CSR_UNMAPPED_MASK EqdmaRegs.GLBL_ERR_STAT_ERR_TRQ_MASK eqdma_hw_trq_err_process;
   mk_err EQDMA_TRQ_ERR_VF_ACCESS "VF attempted to access Global register space or Function map" EQDMA_GLBL_TRQ_ERR_MSK_ADDR EQDMA_GLBL_TRQ_ERR_STS_ADDR EqdmaRegs.GLBL_TRQ_ERR_STS_VF_ACCESS_ERR_MASK EqdmaRegs.GLBL_ERR_STAT_ERR_TRQ_MASK eqdma_hw_trq_err_process;
   mk_err EQDMA_TRQ_ERR_TCP_CSR_TIMEOUT "Timeout on request to dma internal csr register" EQDMA_GLBL_TRQ_ERR_MSK_ADDR EQDMA_GLBL_TRQ_ERR_STS_ADDR EqdmaRegs.GLBL_TRQ_ERR_STS_TCP_CSR_TIMEOUT_MASK EqdmaRegs.GLBL_ERR_STAT_ERR_TRQ_MASK eqdma_hw_trq_err_process;
   mk_err EQDMA_TRQ_ERR_QSPC_UNMAPPED "Access targeted unmapped register via queue space pathway" EQDMA_GLBL_TRQ_ERR_MSK_ADDR EQDMA_GLBL_TRQ_ERR_STS_ADDR EqdmaRegs.GLBL_TRQ_ERR_STS_QSPC_UNMAPPED_MASK EqdmaRegs.GLBL_ERR_STAT_ERR_TRQ_MASK eqdma_hw_trq_err_process;
   mk_err EQDMA_TRQ_ERR_QID_RANGE "Qid range error" EQDMA_GLBL_TRQ_ERR_MSK_ADDR EQDMA_GLBL_TRQ_ERR_STS_ADDR EqdmaRegs.GLBL_TRQ_ERR_STS_QID_RANGE_MASK EqdmaRegs.GLBL_ERR_STAT_ERR_TRQ_MASK eqdma_hw_trq_err_process;
   mk_err EQDMA_TRQ_ERR_TCP_QSPC_TIMEOUT "Timeout on request to dma internal queue space register" EQDMA_GLBL_TRQ_ERR_MSK_ADDR EQDMA_GLBL_TRQ_ERR_STS_ADDR EqdmaRegs.GLBL_TRQ_ERR_STS_TCP_QSPC_TIMEOUT_MASK EqdmaRegs.GLBL_ERR_STAT_ERR_TRQ_MASK eqdma_hw_trq_err_process;
   mk_err EQDMA_TRQ_ERR_ALL "All TRQ errors" EQDMA_GLBL_TRQ_ERR_MSK_ADDR EQDMA_GLBL_TRQ_ERR_STS_ADDR EQDMA_GLBL_TRQ_ERR_ALL_MASK EqdmaRegs.GLBL_ERR_STAT_ERR_TRQ_MASK eqdma_hw_trq_err_process;
   mk_err EQDMA_ST_C2H_ERR_MTY_MISMATCH "MTY mismatch error" EQDMA_C2H_ERR_MASK_ADDR EQDMA_C2H_ERR_STAT_ADDR EqdmaRegs.C2H_ERR_STAT_MTY_MISMATCH_MASK EqdmaRegs.GLBL_ERR_STAT_ERR_C2H_ST_MASK eqdma_hw_st_c2h_err_process;
   mk_err EQDMA_ST_C2H_ERR_LEN_MISMATCH "Packet length mismatch error" EQDMA_C2H_ERR_MASK_ADDR EQDMA_C2H_ERR_STAT_ADDR EqdmaRegs.C2H_ERR_STAT_LEN_MISMATCH_MASK EqdmaRegs.GLBL_ERR_STAT_ERR_C2H_ST_MASK eqdma_hw_st_c2h_err_process;
   mk_err EQDMA_ST_C2H_ERR_SH_CMPT_DSC "A Shared CMPT queue has encountered a descriptor error" EQDMA_C2H_ERR_MASK_ADDR EQDMA_C2H_ERR_STAT_ADDR EqdmaRegs.C2H_ERR_STAT_SH_CMPT_DSC_ERR_MASK EqdmaRegs.GLBL_ERR_STAT_ERR_C2H_ST_MASK eqdma_hw_st_c2h_err_process;
   mk_err EQDMA_ST_C2H_ERR_QID_MISMATCH "Qid mismatch error" EQDMA_C2H_ERR_MASK_ADDR EQDMA_C2H_ERR_STAT_ADDR EqdmaRegs.C2H_ERR_STAT_QID_MISMATCH_MASK EqdmaRegs.GLBL_ERR_STAT_ERR_C2H_ST_MASK eqdma_hw_st_c2h_err_process;
   mk_err EQDMA_ST_C2H_ERR_DESC_RSP_ERR "Descriptor error bit set" EQDMA_C2H_ERR_MASK_ADDR EQDMA_C2H_ERR_STAT_ADDR EqdmaRegs.C2H_ERR_STAT_DESC_RSP_ERR_MASK EqdmaRegs.GLBL_ERR_STAT_ERR_C2H_ST_MASK eqdma_hw_st_c2h_err_process;
   mk_err EQDMA_ST_C2H_ERR_ENG_WPL_DATA_PAR_ERR "Data parity error" EQDMA_C2H_ERR_MASK_ADDR EQDMA_C2H_ERR_STAT_ADDR EqdmaRegs.C2H_ERR_STAT_ENG_WPL_DATA_PAR_ERR_MASK EqdmaRegs.GLBL_ERR_STAT_ERR_C2H_ST_MASK eqdma_hw_st_c2h_err_process;
   mk_err EQDMA_ST_C2H_ERR_MSI_INT_FAIL "MSI got a fail response error" EQDMA_C2H_ERR_MASK_ADDR EQDMA_C2H_ERR_STAT_ADDR EqdmaRegs.C2H_ERR_STAT_MSI_INT_FAIL_MASK EqdmaRegs.GLBL_ERR_STAT_ERR_C2H_ST_MASK eqdma_hw_st_c2h_err_process;
   mk_err EQDMA_ST_C2H_ERR_ERR_DESC_CNT "Descriptor count error" EQDMA_C2H_ERR_MASK_ADDR EQDMA_C2H_ERR_STAT_ADDR EqdmaRegs.C2H_ERR_STAT_ERR_DESC_CNT_MASK EqdmaRegs.GLBL_ERR_STAT_ERR_C2H_ST_MASK eqdma_hw_st_c2h_err_process;
   mk_err EQDMA_ST_C2H_ERR_PORTID_CTXT_MISMATCH "Port id in packet and pfetch ctxt mismatch error" EQDMA_C2H_ERR_MASK_ADDR EQDMA_C2H_ERR_STAT_ADDR EqdmaRegs.C2H_ERR_STAT_PORT_ID_CTXT_MISMATCH_MASK EqdmaRegs.GLBL_ERR_STAT_ERR_C2H_ST_MASK eqdma_hw_st_c2h_err_process].

Definition eqdma_err_info_3 : list hw_err_info :=
  [mk_err EQDMA_ST_C2H_ERR_CMPT_INV_Q_ERR "Writeback on invalid queue error" EQDMA_C2H_ERR_MASK_ADDR EQDMA_C2H_ERR_STAT_ADDR EqdmaRegs.C2H_ERR_STAT_WRB_INV_Q_ERR_MASK EqdmaRegs.GLBL_ERR_STAT_ERR_C2H_ST_MASK eqdma_hw_st_c2h_err_process;
   mk_err EQDMA_ST_C2H_ERR_CMPT_QFULL_ERR "Completion queue gets full error" EQDMA_C2H_ERR_MASK_ADDR EQDMA_C2H_ERR_STAT_ADDR EqdmaRegs.C2H_ERR_STAT_WRB_QFULL_ERR_MASK EqdmaRegs.GLBL_ERR_STAT_ERR_C2H_ST_MASK eqdma_hw_st_c2h_err_process;
   mk_err EQDMA_ST_C2H_ERR_CMPT_CIDX_ERR "Bad CIDX update by the software error" EQDMA_C2H_ERR_MASK_ADDR EQDMA_C2H_ERR_STAT_ADDR EqdmaRegs.C2H_ERR_STAT_WRB_CIDX_ERR_MASK EqdmaRegs.GLBL_ERR_STAT_ERR_C2H_ST_MASK eqdma_hw_st_c2h_err_process;
   mk_err EQDMA_ST_C2H_ERR_CMPT_PRTY_ERR "C2H completion Parity error" EQDMA_C2H_ERR_MASK_ADDR EQDMA_C2H_ERR_STAT_ADDR EqdmaRegs.C2H_ERR_STAT_WRB_PRTY_ERR_MASK EqdmaRegs.GLBL_ERR_STAT_ERR_C2H_ST_MASK eqdma_hw_st_c2h_err_process;
   mk_err EQDMA_ST_C2H_ERR_AVL_RING_DSC "Available ring fetch returns descriptor with error" EQDMA_C2H_ERR_MASK_ADDR EQDMA_C2H_ERR_STAT_ADDR EqdmaRegs.C2H_ERR_STAT_AVL_RING_DSC_ERR_MASK EqdmaRegs.GLBL_ERR_STAT_ERR_C2H_ST_MASK eqdma_hw_st_c2h_err_process;
   mk_err EQDMA_ST_C2H_ERR_HDR_ECC_UNC "multi-bit ecc error on c2h packet header" EQDMA_C2H_ERR_MASK_ADDR EQDMA_C2H_ERR_STAT_ADDR EqdmaRegs.C2H_ERR_STAT_HDR_ECC_UNC_ERR_MASK EqdmaRegs.GLBL_ERR_STAT_ERR_C2H_ST_MASK eqdma_hw_st_c2h_err_process;
   mk_err EQDMA_ST_C2H_ERR_HDR_ECC_COR "single-bit ecc error on c2h packet header" EQDMA_C2H_ERR_MASK_ADDR EQDMA_C2H_ERR_STAT_ADDR EqdmaRegs.C2H_ERR_STAT_HDR_ECC_COR_ERR_MASK EqdmaRegs.GLBL_ERR_STAT_ERR_C2H_ST_MASK eqdma_hw_st_c2h_err_process;
   mk_err EQDMA_ST_C2H_ERR_ALL "All C2h errors" EQDMA_C2H_ERR_MASK_ADDR EQDMA_C2H_ERR_STAT_ADDR EQDMA_C2H_ERR_ALL_MASK EqdmaRegs.GLBL_ERR_STAT_ERR_C2H_ST_MASK eqdma_hw_st_c2h_err_process;
   mk_err EQDMA_ST_FATAL_ERR_MTY_MISMATCH "Fatal MTY mismatch error" EQDMA_C2H_FATAL_ERR_MASK_ADDR EQDMA_C2H_FATAL_ERR_STAT_ADDR EqdmaRegs.C2H_FATAL_ERR_STAT_MTY_MISMATCH_MASK EqdmaRegs.GLBL_ERR_STAT_ERR_C2H_ST_MASK eqdma_hw_st_c2h_err_process;
   mk_err EQDMA_ST_FATAL_ERR_LEN_MISMATCH "Fatal Len mismatch error" EQDMA_C2H_FATAL_ERR_MASK_ADDR EQDMA_C2H_FATAL_ERR_STAT_ADDR EqdmaRegs.C2H_FATAL_ERR_STAT_LEN_MISMATCH_MASK EqdmaRegs.GLBL_ERR_STAT_ERR_C2H_ST_MASK eqdma_hw_st_c2h_err_process;
   mk_err EQDMA_ST_FATAL_ERR_QID_MISMATCH "Fatal Qid mismatch error" EQDMA_C2H_FATAL_ERR_MASK_ADDR EQDMA_C2H_FATAL_ERR_STAT_ADDR EqdmaRegs.C2H_FATAL_ERR_STAT_QID_MISMATCH_MASK EqdmaRegs.GLBL_ERR_STAT_ERR_C2H_ST_MASK eqdma_hw_st_c2h_err_process;
   mk_err EQDMA_ST_FATAL_ERR_TIMER_FIFO_RAM_RDBE "RAM double bit fatal error" EQDMA_C2H_FATAL_ERR_MASK_ADDR EQDMA_C2H_FATAL_ERR_STAT_ADDR EqdmaRegs.C2H_FATAL_ERR_STAT_TIMER_FIFO_RAM_RDBE_MASK EqdmaRegs.GLBL_ERR_STAT_ERR_C2H_ST_MASK eqdma_hw_st_c2h_err_process;
   mk_err EQDMA_ST_FATAL_ERR_PFCH_II_RAM_RDBE "RAM double bit fatal error" EQDMA_C2H_FATAL_ERR_MASK_ADDR EQDMA_C2H_FATAL_ERR_STAT_ADDR EqdmaRegs.C2H_FATAL_ERR_STAT_PFCH_LL_RAM_RDBE_MASK EqdmaRegs.GLBL_ERR_STAT_ERR_C2H_ST_MASK eqdma_hw_st_c2h_err_process;
   mk_err EQDMA_ST_FATAL_ERR_CMPT_CTXT_RAM_RDBE "RAM double bit fatal error" EQDMA_C2H_FATAL_ERR_MASK_ADDR EQDMA_C2H_FATAL_ERR_STAT_ADDR EqdmaRegs.C2H_FATAL_ERR_STAT_WRB_CTXT_RAM_RDBE_MASK EqdmaRegs.GLBL_ERR_STAT_ERR_C2H_ST_MASK eqdma_hw_st_c2h_err_process;
   mk_err EQDMA_ST_FATAL_ERR_PFCH_CTXT_RAM_RDBE "RAM double bit fatal error" EQDMA_C2H_FATAL_ERR_MASK_ADDR EQDMA_C2H_FATAL_ERR_STAT_ADDR EqdmaRegs.C2H_FATAL_ERR_STAT_PFCH_CTXT_RAM_RDBE_MASK EqdmaRegs.GLBL_ERR_STAT_ERR_C2H_ST_MASK eqdma_hw_st_c2h_err_process;
   mk_err EQDMA_ST_FATAL_ERR_DESC_REQ_FIFO_RAM_RDBE "RAM double bit fatal error" EQDMA_C2H_FATAL_ERR_MASK_ADDR EQDMA_C2H_FATAL_ERR_STAT_ADDR EqdmaRegs.C2H_FATAL_ERR_STAT_DESC_REQ_FIFO_RAM_RDBE_MASK EqdmaRegs.GLBL_ERR_STAT_ERR_C2H_ST_MASK eqdma_hw_st_c2h_err_process].

Definition eqdma_err_info_4 : list hw_err_info :=
  [mk_err EQDMA_ST_FATAL_ERR_INT_CTXT_RAM_RDBE "RAM double bit fatal error" EQDMA_C2H_FATAL_ERR_MASK_ADDR EQDMA_C2H_FATAL_ERR_STAT_ADDR EqdmaRegs.C2H_FATAL_ERR_STAT_INT_CTXT_RAM_RDBE_MASK EqdmaRegs.GLBL_ERR_STAT_ERR_C2H_ST_MASK eqdma_hw_st_c2h_err_process;
   mk_err EQDMA_ST_FATAL_ERR_CMPT_COAL_DATA_RAM_RDBE "RAM double bit fatal error" EQDMA_C2H_FATAL_ERR_MASK_ADDR EQDMA_C2H_FATAL_ERR_STAT_ADDR EqdmaRegs.C2H_FATAL_ERR_STAT_WRB_COAL_DATA_RAM_RDBE_MASK EqdmaRegs.GLBL_ERR_STAT_ERR_C2H_ST_MASK eqdma_hw_st_c2h_err_process;
   mk_err EQDMA_ST_FATAL_ERR_CMPT_FIFO_RAM_RDBE "RAM double bit fatal error" EQDMA_C2H_FATAL_ERR_MASK_ADDR EQDMA_C2H_FATAL_ERR_STAT_ADDR EqdmaRegs.C2H_FATAL_ERR_STAT_CMPT_FIFO_RAM_RDBE_MASK EqdmaRegs.GLBL_ERR_STAT_ERR_C2H_ST_MASK eqdma_hw_st_c2h_err_process;
   mk_err EQDMA_ST_FATAL_ERR_QID_FIFO_RAM_RDBE "RAM double bit fatal error" EQDMA_C2H_FATAL_ERR_MASK_ADDR EQDMA_C2H_FATAL_ERR_STAT_ADDR EqdmaRegs.C2H_FATAL_ERR_STAT_QID_FIFO_RAM_RDBE_MASK EqdmaRegs.GLBL_ERR_STAT_ERR_C2H_ST_MASK eqdma_hw_st_c2h_err_process;
   mk_err EQDMA_ST_FATAL_ERR_PAYLOAD_FIFO_RAM_RDBE "RAM double bit fatal error" EQDMA_C2H_FATAL_ERR_MASK_ADDR EQDMA_C2H_FATAL_ERR_STAT_ADDR EqdmaRegs.C2H_FATAL_ERR_STAT_PLD_FIFO_RAM_RDBE_MASK EqdmaRegs.GLBL_ERR_STAT_ERR_C2H_ST_MASK eqdma_hw_st_c2h_err_process;
   mk_err EQDMA_ST_FATAL_ERR_WPL_DATA_PAR "RAM double bit fatal error" EQDMA_C2H_FATAL_ERR_MASK_ADDR EQDMA_C2H_FATAL_ERR_STAT_ADDR EqdmaRegs.C2H_FATAL_ERR_STAT_WPL_DATA_PAR_ERR_MASK EqdmaRegs.GLBL_ERR_STAT_ERR_C2H_ST_MASK eqdma_hw_st_c2h_err_process;
   mk_err EQDMA_ST_FATAL_ERR_AVL_RING_FIFO_RAM_RDBE "RAM double bit fatal error" EQDMA_C2H_FATAL_ERR_MASK_ADDR EQDMA_C2H_FATAL_ERR_STAT_ADDR EqdmaRegs.C2H_FATAL_ERR_STAT_AVL_RING_FIFO_RAM_RDBE_MASK EqdmaRegs.GLBL_ERR_STAT_ERR_C2H_ST_MASK eqdma_hw_st_c2h_err_process;
   mk_err EQDMA_ST_FATAL_ERR_HDR_ECC_UNC "RAM double bit fatal error" EQDMA_C2H_FATAL_ERR_MASK_ADDR EQDMA_C2H_FATAL_ERR_STAT_ADDR EqdmaRegs.C2H_FATAL_ERR_STAT_HDR_ECC_UNC_ERR_MASK EqdmaRegs.GLBL_ERR_STAT_ERR_C2H_ST_MASK eqdma_hw_st_c2h_err_process;
   mk_err EQDMA_ST_FATAL_ERR_ALL "All fatal errors" EQDMA_C2H_FATAL_ERR_MASK_ADDR EQDMA_C2H_FATAL_ERR_STAT_ADDR EQDMA_C2H_FATAL_ERR_ALL_MASK EqdmaRegs.GLBL_ERR_STAT_ERR_C2H_ST_MASK eqdma_hw_st_c2h_err_process;
   mk_err EQDMA_ST_H2C_ERR_ZERO_LEN_DESC "Zero length descriptor error" EQDMA_H2C_ERR_MASK_ADDR EQDMA_H2C_ERR_STAT_ADDR EqdmaRegs.H2C_ERR_STAT_ZERO_LEN_DS_MASK EqdmaRegs.GLBL_ERR_STAT_ERR_H2C_ST_MASK eqdma_hw_st_h2c_err_process;
   mk_err EQDMA_ST_H2C_ERR_SDI_MRKR_REQ_MOP "A non-EOP descriptor received" EQDMA_H2C_ERR_MASK_ADDR EQDMA_H2C_ERR_STAT_ADDR EqdmaRegs.H2C_ERR_STAT_SDI_MRKR_REQ_MOP_ERR_MASK EqdmaRegs.GLBL_ERR_STAT_ERR_H2C_ST_MASK eqdma_hw_st_h2c_err_process;
   mk_err EQDMA_ST_H2C_ERR_NO_DMA_DSC "No DMA descriptor received error" EQDMA_H2C_ERR_MASK_ADDR EQDMA_H2C_ERR_STAT_ADDR EqdmaRegs.H2C_ERR_STAT_NO_DMA_DS_MASK EqdmaRegs.GLBL_ERR_STAT_ERR_H2C_ST_MASK eqdma_hw_st_h2c_err_process;
   mk_err EQDMA_ST_H2C_ERR_SBE "Single bit error detected on H2C-ST data error" EQDMA_H2C_ERR_MASK_ADDR EQDMA_H2C_ERR_STAT_ADDR EqdmaRegs.H2C_ERR_STAT_SBE_MASK EqdmaRegs.GLBL_ERR_STAT_ERR_H2C_ST_MASK eqdma_hw_st_h2c_err_process;
   mk_err EQDMA_ST_H2C_ERR_DBE "Double bit error detected on H2C-ST data error" EQDMA_H2C_ERR_MASK_ADDR EQDMA_H2C_ERR_STAT_ADDR EqdmaRegs.H2C_ERR_STAT_DBE_MASK EqdmaRegs.GLBL_ERR_STAT_ERR_H2C_ST_MASK eqdma_hw_st_h2c_err_process;
   mk_err EQDMA_ST_H2C_ERR_PAR "Internal data parity error" EQDMA_H2C_ERR_MASK_ADDR EQDMA_H2C_ERR_STAT_ADDR EqdmaRegs.H2C_ERR_STAT_PAR_ERR_MASK EqdmaRegs.GLBL_ERR_STAT_ERR_H2C_ST_MASK eqdma_hw_st_h2c_err_process;
   mk_err EQDMA_ST_H2C_ERR_ALL "All H2C errors" EQDMA_H2C_ERR_MASK_ADDR EQDMA_H2C_ERR_STAT_ADDR EQDMA_H2C_ERR_ALL_MASK EqdmaRegs.GLBL_ERR_STAT_ERR_H2C_ST_MASK eqdma_hw_st_h2c_err_process].

Definition eqdma_err_info_5 : list hw_err_info :=
  [mk_err EQDMA_SBE_1_ERR_RC_RRQ_EVEN_RAM "RC RRQ Even RAM single bit ECC error." EQDMA_RAM_SBE_MSK_1_A_ADDR EQDMA_RAM_SBE_STS_1_A_ADDR EqdmaRegs.RAM_SBE_STS_1_A_RC_RRQ_EVEN_RAM_MASK EqdmaRegs.GLBL_ERR_STAT_ERR_RAM_SBE_MASK eqdma_hw_ram_sbe_err_process;
   mk_err EQDMA_SBE_1_ERR_TAG_ODD_RAM "Tag Odd Ram single bit ECC error." EQDMA_RAM_SBE_MSK_1_A_ADDR EQDMA_RAM_SBE_STS_1_A_ADDR EqdmaRegs.RAM_SBE_STS_1_A_TAG_ODD_RAM_MASK EqdmaRegs.GLBL_ERR_STAT_ERR_RAM_SBE_MASK eqdma_hw_ram_sbe_err_process;
   mk_err EQDMA_SBE_1_ERR_TAG_EVEN_RAM "Tag Even Ram single bit ECC error." EQDMA_RAM_SBE_MSK_1_A_ADDR EQDMA_RAM_SBE_STS_1_A_ADDR EqdmaRegs.RAM_SBE_STS_1_A_TAG_EVEN_RAM_MASK EqdmaRegs.GLBL_ERR_STAT_ERR_RAM_SBE_MASK eqdma_hw_ram_sbe_err_process;
   mk_err EQDMA_SBE_1_ERR_PFCH_CTXT_CAM_RAM_0 "Pfch Ctxt CAM RAM 0 single bit ECC error." EQDMA_RAM_SBE_MSK_1_A_ADDR EQDMA_RAM_SBE_STS_1_A_ADDR EqdmaRegs.RAM_SBE_STS_1_A_PFCH_CTXT_CAM_RAM_0_MASK EqdmaRegs.GLBL_ERR_STAT_ERR_RAM_SBE_MASK eqdma_hw_ram_sbe_err_process;
   mk_err EQDMA_SBE_1_ERR_PFCH_CTXT_CAM_RAM_1 "Pfch Ctxt CAM RAM 1 single bit ECC error." EQDMA_RAM_SBE_MSK_1_A_ADDR EQDMA_RAM_SBE_STS_1_A_ADDR EqdmaRegs.RAM_SBE_STS_1_A_PFCH_CTXT_CAM_RAM_1_MASK EqdmaRegs.GLBL_ERR_STAT_ERR_RAM_SBE_MASK eqdma_hw_ram_sbe_err_process;
   mk_err EQDMA_SBE_1_ERR_ALL "All SBE Errors." EQDMA_RAM_SBE_MSK_1_A_ADDR EQDMA_RAM_SBE_STS_1_A_ADDR EQDMA_SBE_ERR_ALL_MASK EqdmaRegs.GLBL_ERR_STAT_ERR_RAM_SBE_MASK eqdma_hw_ram_sbe_err_process;
   mk_err EQDMA_SBE_ERR_MI_H2C0_DAT "H2C MM data buffer single bit ECC error" EQDMA_RAM_SBE_MSK_A_ADDR EQDMA_RAM_SBE_STS_A_ADDR EqdmaRegs.RAM_SBE_STS_A_MI_H2C0_DAT_MASK EqdmaRegs.GLBL_ERR_STAT_ERR_RAM_SBE_MASK eqdma_hw_ram_sbe_err_process;
   mk_err EQDMA_SBE_ERR_MI_H2C1_DAT "H2C MM data buffer single bit ECC error" EQDMA_RAM_SBE_MSK_A_ADDR EQDMA_RAM_SBE_STS_A_ADDR EqdmaRegs.RAM_SBE_STS_A_MI_H2C1_DAT_MASK EqdmaRegs.GLBL_ERR_STAT_ERR_RAM_SBE_MASK eqdma_hw_ram_sbe_err_process;
   mk_err EQDMA_SBE_ERR_MI_H2C2_DAT "H2C MM data buffer single bit ECC error" EQDMA_RAM_SBE_MSK_A_ADDR EQDMA_RAM_SBE_STS_A_ADDR EqdmaRegs.RAM_SBE_STS_A_MI_H2C2_DAT_MASK EqdmaRegs.GLBL_ERR_STAT_ERR_RAM_SBE_MASK eqdma_hw_ram_sbe_err_process;
   mk_err EQDMA_SBE_ERR_MI_H2C3_DAT "H2C MM data buffer single bit ECC error" EQDMA_RAM_SBE_MSK_A_ADDR EQDMA_RAM_SBE_STS_A_ADDR EqdmaRegs.RAM_SBE_STS_A_MI_H2C3_DAT_MASK EqdmaRegs.GLBL_ERR_STAT_ERR_RAM_SBE_MASK eqdma_hw_ram_sbe_err_process;
   mk_err EQDMA_SBE_ERR_MI_C2H0_DAT "C2H MM data buffer single bit ECC error" EQDMA_RAM_SBE_MSK_A_ADDR EQDMA_RAM_SBE_STS_A_ADDR EqdmaRegs.RAM_SBE_STS_A_MI_C2H0_DAT_MASK EqdmaRegs.GLBL_ERR_STAT_ERR_RAM_SBE_MASK eqdma_hw_ram_sbe_err_process;
   mk_err EQDMA_SBE_ERR_MI_C2H1_DAT "C2H MM data buffer single bit ECC error" EQDMA_RAM_SBE_MSK_A_ADDR EQDMA_RAM_SBE_STS_A_ADDR EqdmaRegs.RAM_SBE_STS_A_MI_C2H1_DAT_MASK EqdmaRegs.GLBL_ERR_STAT_ERR_RAM_SBE_MASK eqdma_hw_ram_sbe_err_process;
   mk_err EQDMA_SBE_ERR_MI_C2H2_DAT "C2H MM data buffer single bit ECC error" EQDMA_RAM_SBE_MSK_A_ADDR EQDMA_RAM_SBE_STS_A_ADDR EqdmaRegs.RAM_SBE_STS_A_MI_C2H2_DAT_MASK EqdmaRegs.GLBL_ERR_STAT_ERR_RAM_SBE_MASK eqdma_hw_ram_sbe_err_process;
   mk_err EQDMA_SBE_ERR_MI_C2H3_DAT "C2H MM data buffer single bit ECC error" EQDMA_RAM_SBE_MSK_A_ADDR EQDMA_RAM_SBE_STS_A_ADDR EqdmaRegs.RAM_SBE_STS_A_MI_C2H3_DAT_MASK EqdmaRegs.GLBL_ERR_STAT_ERR_RAM_SBE_MASK eqdma_hw_ram_sbe_err_process;
   mk_err EQDMA_SBE_ERR_H2C_RD_BRG_DAT "Bridge master read single bit ECC error" EQDMA_RAM_SBE_MSK_A_ADDR EQDMA_RAM_SBE_STS_A_ADDR EqdmaRegs.RAM_SBE_STS_A_H2C_RD_BRG_DAT_MASK EqdmaRegs.GLBL_ERR_STAT_ERR_RAM_SBE_MASK eqdma_hw_ram_sbe_err_process;
   mk_err EQDMA_SBE_ERR_H2C_WR_BRG_DAT "Bridge master write single bit ECC error" EQDMA_RAM_SBE_MSK_A_ADDR EQDMA_RAM_SBE_STS_A_ADDR EqdmaRegs.RAM_SBE_STS_A_H2C_WR_BRG_DAT_MASK EqdmaRegs.GLBL_ERR_STAT_ERR_RAM_SBE_MASK eqdma_hw_ram_sbe_err_process].

Definition eqdma_err_info_6 : list hw_err_info :=
  [mk_err EQDMA_SBE_ERR_C2H_RD_BRG_DAT "Bridge slave read data buffer single bit ECC error" EQDMA_RAM_SBE_MSK_A_ADDR EQDMA_RAM_SBE_STS_A_ADDR EqdmaRegs.RAM_SBE_STS_A_C2H_RD_BRG_DAT_MASK EqdmaRegs.GLBL_ERR_STAT_ERR_RAM_SBE_MASK eqdma_hw_ram_sbe_err_process;
   mk_err EQDMA_SBE_ERR_C2H_WR_BRG_DAT "Bridge slave write data buffer single bit ECC error" EQDMA_RAM_SBE_MSK_A_ADDR EQDMA_RAM_SBE_STS_A_ADDR EqdmaRegs.RAM_SBE_STS_A_C2H_WR_BRG_DAT_MASK EqdmaRegs.GLBL_ERR_STAT_ERR_RAM_SBE_MASK eqdma_hw_ram_sbe_err_process;
   mk_err EQDMA_SBE_ERR_FUNC_MAP "Function map RAM single bit ECC error" EQDMA_RAM_SBE_MSK_A_ADDR EQDMA_RAM_SBE_STS_A_ADDR EqdmaRegs.RAM_SBE_STS_A_FUNC_MAP_MASK EqdmaRegs.GLBL_ERR_STAT_ERR_RAM_SBE_MASK eqdma_hw_ram_sbe_err_process;
   mk_err EQDMA_SBE_ERR_DSC_HW_CTXT "Descriptor engine hardware context RAM single bit ECC error" EQDMA_RAM_SBE_MSK_A_ADDR EQDMA_RAM_SBE_STS_A_ADDR EqdmaRegs.RAM_SBE_STS_A_DSC_HW_CTXT_MASK EqdmaRegs.GLBL_ERR_STAT_ERR_RAM_SBE_MASK eqdma_hw_ram_sbe_err_process;
   mk_err EQDMA_SBE_ERR_DSC_CRD_RCV "Descriptor engine receive credit context RAM single bit ECC error" EQDMA_RAM_SBE_MSK_A_ADDR EQDMA_RAM_SBE_STS_A_ADDR EqdmaRegs.RAM_SBE_STS_A_DSC_CRD_RCV_MASK EqdmaRegs.GLBL_ERR_STAT_ERR_RAM_SBE_MASK eqdma_hw_ram_sbe_err_process;
   mk_err EQDMA_SBE_ERR_DSC_SW_CTXT "Descriptor engine software context RAM single bit ECC error" EQDMA_RAM_SBE_MSK_A_ADDR EQDMA_RAM_SBE_STS_A_ADDR EqdmaRegs.RAM_SBE_STS_A_DSC_SW_CTXT_MASK EqdmaRegs.GLBL_ERR_STAT_ERR_RAM_SBE_MASK eqdma_hw_ram_sbe_err_process;
   mk_err EQDMA_SBE_ERR_DSC_CPLI "Descriptor engine fetch completion information RAM single bit ECC error" EQDMA_RAM_SBE_MSK_A_ADDR EQDMA_RAM_SBE_STS_A_ADDR EqdmaRegs.RAM_SBE_STS_A_DSC_CPLI_MASK EqdmaRegs.GLBL_ERR_STAT_ERR_RAM_SBE_MASK eqdma_hw_ram_sbe_err_process;
   mk_err EQDMA_SBE_ERR_DSC_CPLD "Descriptor engine fetch completion data RAM single bit ECC error" EQDMA_RAM_SBE_MSK_A_ADDR EQDMA_RAM_SBE_STS_A_ADDR EqdmaRegs.RAM_SBE_STS_A_DSC_CPLD_MASK EqdmaRegs.GLBL_ERR_STAT_ERR_RAM_SBE_MASK eqdma_hw_ram_sbe_err_process;
   mk_err EQDMA_SBE_ERR_MI_TL_SLV_FIFO_RAM "TL Slavle FIFO RAM single bit ECC error" EQDMA_RAM_SBE_MSK_A_ADDR EQDMA_RAM_SBE_STS_A_ADDR EqdmaRegs.RAM_SBE_STS_A_MI_TL_SLV_FIFO_RAM_MASK EqdmaRegs.GLBL_ERR_STAT_ERR_RAM_SBE_MASK eqdma_hw_ram_sbe_err_process;
   mk_err EQDMA_SBE_ERR_TIMER_FIFO_RAM "Timer fifo RAM single bit ECC error" EQDMA_RAM_SBE_MSK_A_ADDR EQDMA_RAM_SBE_STS_A_ADDR EqdmaRegs.RAM_SBE_STS_A_TIMER_FIFO_RAM_MASK EqdmaRegs.GLBL_ERR_STAT_ERR_RAM_SBE_MASK eqdma_hw_ram_sbe_err_process;
   mk_err EQDMA_SBE_ERR_QID_FIFO_RAM "C2H ST QID FIFO RAM single bit ECC error" EQDMA_RAM_SBE_MSK_A_ADDR EQDMA_RAM_SBE_STS_A_ADDR EqdmaRegs.RAM_SBE_STS_A_QID_FIFO_RAM_MASK EqdmaRegs.GLBL_ERR_STAT_ERR_RAM_SBE_MASK eqdma_hw_ram_sbe_err_process;
   mk_err EQDMA_SBE_ERR_WRB_COAL_DATA_RAM "Writeback Coalescing RAM single bit ECC error" EQDMA_RAM_SBE_MSK_A_ADDR EQDMA_RAM_SBE_STS_A_ADDR EqdmaRegs.RAM_SBE_STS_A_WRB_COAL_DATA_RAM_MASK EqdmaRegs.GLBL_ERR_STAT_ERR_RAM_SBE_MASK eqdma_hw_ram_sbe_err_process;
   mk_err EQDMA_SBE_ERR_INT_CTXT_RAM "Interrupt context RAM single bit ECC error" EQDMA_RAM_SBE_MSK_A_ADDR EQDMA_RAM_SBE_STS_A_ADDR EqdmaRegs.RAM_SBE_STS_A_INT_CTXT_RAM_MASK EqdmaRegs.GLBL_ERR_STAT_ERR_RAM_SBE_MASK eqdma_hw_ram_sbe_err_process;
   mk_err EQDMA_SBE_ERR_DESC_REQ_FIFO_RAM "C2H ST descriptor request RAM single bit ECC error" EQDMA_RAM_SBE_MSK_A_ADDR EQDMA_RAM_SBE_STS_A_ADDR EqdmaRegs.RAM_SBE_STS_A_DESC_REQ_FIFO_RAM_MASK EqdmaRegs.GLBL_ERR_STAT_ERR_RAM_SBE_MASK eqdma_hw_ram_sbe_err_process;
   mk_err EQDMA_SBE_ERR_PFCH_CTXT_RAM "C2H ST prefetch RAM single bit ECC error" EQDMA_RAM_SBE_MSK_A_ADDR EQDMA_RAM_SBE_STS_A_ADDR EqdmaRegs.RAM_SBE_STS_A_PFCH_CTXT_RAM_MASK EqdmaRegs.GLBL_ERR_STAT_ERR_RAM_SBE_MASK eqdma_hw_ram_sbe_err_process;
   mk_err EQDMA_SBE_ERR_WRB_CTXT_RAM "C2H ST completion context RAM single bit ECC error" EQDMA_RAM_SBE_MSK_A_ADDR EQDMA_RAM_SBE_STS_A_ADDR EqdmaRegs.RAM_SBE_STS_A_WRB_CTXT_RAM_MASK EqdmaRegs.GLBL_ERR_STAT_ERR_RAM_SBE_MASK eqdma_hw_ram_sbe_err_process].

Definition eqdma_err_info_7 : list hw_err_info :=
  [mk_err EQDMA_SBE_ERR_PFCH_LL_RAM "C2H ST prefetch list RAM single bit ECC error" EQDMA_RAM_SBE_MSK_A_ADDR EQDMA_RAM_SBE_STS_A_ADDR EqdmaRegs.RAM_SBE_STS_A_PFCH_LL_RAM_MASK EqdmaRegs.GLBL_ERR_STAT_ERR_RAM_SBE_MASK eqdma_hw_ram_sbe_err_process;
   mk_err EQDMA_SBE_ERR_PEND_FIFO_RAM "Pend FIFO RAM single bit ECC error" EQDMA_RAM_SBE_MSK_A_ADDR EQDMA_RAM_SBE_STS_A_ADDR EqdmaRegs.RAM_SBE_STS_A_PEND_FIFO_RAM_MASK EqdmaRegs.GLBL_ERR_STAT_ERR_RAM_SBE_MASK eqdma_hw_ram_sbe_err_process;
   mk_err EQDMA_SBE_ERR_RC_RRQ_ODD_RAM "RC RRQ Odd RAM single bit ECC error." EQDMA_RAM_SBE_MSK_A_ADDR EQDMA_RAM_SBE_STS_A_ADDR EqdmaRegs.RAM_SBE_STS_A_RC_RRQ_ODD_RAM_MASK EqdmaRegs.GLBL_ERR_STAT_ERR_RAM_SBE_MASK eqdma_hw_ram_sbe_err_process;
   mk_err EQDMA_SBE_ERR_ALL "All SBE errors" EQDMA_RAM_SBE_MSK_A_ADDR EQDMA_RAM_SBE_STS_A_ADDR EQDMA_SBE_ERR_ALL_MASK EqdmaRegs.GLBL_ERR_STAT_ERR_RAM_SBE_MASK eqdma_hw_ram_sbe_err_process;
   mk_err EQDMA_DBE_1_ERR_RC_RRQ_EVEN_RAM "RC RRQ Odd RAM double bit ECC error." EQDMA_RAM_DBE_MSK_1_A_ADDR EQDMA_RAM_DBE_STS_1_A_ADDR EqdmaRegs.RAM_DBE_STS_1_A_RC_RRQ_EVEN_RAM_MASK EqdmaRegs.GLBL_ERR_STAT_ERR_RAM_DBE_MASK eqdma_hw_ram_dbe_err_process;
   mk_err EQDMA_DBE_1_ERR_TAG_ODD_RAM "Tag Odd Ram double bit ECC error." EQDMA_RAM_DBE_MSK_1_A_ADDR EQDMA_RAM_DBE_STS_1_A_ADDR EqdmaRegs.RAM_DBE_STS_1_A_TAG_ODD_RAM_MASK EqdmaRegs.GLBL_ERR_STAT_ERR_RAM_DBE_MASK eqdma_hw_ram_dbe_err_process;
   mk_err EQDMA_DBE_1_ERR_TAG_EVEN_RAM "Tag Even Ram double bit ECC error." EQDMA_RAM_DBE_MSK_1_A_ADDR EQDMA_RAM_DBE_STS_1_A_ADDR EqdmaRegs.RAM_DBE_STS_1_A_TAG_EVEN_RAM_MASK EqdmaRegs.GLBL_ERR_STAT_ERR_RAM_DBE_MASK eqdma_hw_ram_dbe_err_process;
   mk_err EQDMA_DBE_1_ERR_PFCH_CTXT_CAM_RAM_0 "Pfch Ctxt CAM RAM 0 double bit ECC error." EQDMA_RAM_DBE_MSK_1_A_ADDR EQDMA_RAM_DBE_STS_1_A_ADDR EqdmaRegs.RAM_DBE_STS_1_A_PFCH_CTXT_CAM_RAM_0_MASK EqdmaRegs.GLBL_ERR_STAT_ERR_RAM_DBE_MASK eqdma_hw_ram_dbe_err_process;
   mk_err EQDMA_DBE_1_ERR_PFCH_CTXT_CAM_RAM_1 "Pfch Ctxt CAM RAM double bit ECC error." EQDMA_RAM_DBE_MSK_1_A_ADDR EQDMA_RAM_DBE_STS_1_A_ADDR EqdmaRegs.RAM_DBE_STS_1_A_PFCH_CTXT_CAM_RAM_0_MASK EqdmaRegs.GLBL_ERR_STAT_ERR_RAM_DBE_MASK eqdma_hw_ram_dbe_err_process;
   mk_err EQDMA_DBE_1_ERR_ALL "All DBE errors" EQDMA_RAM_DBE_MSK_1_A_ADDR EQDMA_RAM_DBE_STS_1_A_ADDR EQDMA_DBE_ERR_ALL_MASK EqdmaRegs.GLBL_ERR_STAT_ERR_RAM_DBE_MASK eqdma_hw_ram_dbe_err_process;
   mk_err EQDMA_DBE_ERR_MI_H2C0_DAT "H2C MM data buffer double bit ECC error" EQDMA_RAM_DBE_MSK_A_ADDR EQDMA_RAM_DBE_STS_A_ADDR EqdmaRegs.RAM_DBE_STS_A_MI_H2C0_DAT_MASK EqdmaRegs.GLBL_ERR_STAT_ERR_RAM_DBE_MASK eqdma_hw_ram_dbe_err_process;
   mk_err EQDMA_DBE_ERR_MI_H2C1_DAT "H2C MM data buffer double bit ECC error" EQDMA_RAM_DBE_MSK_A_ADDR EQDMA_RAM_DBE_STS_A_ADDR EqdmaRegs.RAM_DBE_STS_A_MI_H2C1_DAT_MASK EqdmaRegs.GLBL_ERR_STAT_ERR_RAM_DBE_MASK eqdma_hw_ram_dbe_err_process;
   mk_err EQDMA_DBE_ERR_MI_H2C2_DAT "H2C MM data buffer double bit ECC error" EQDMA_RAM_DBE_MSK_A_ADDR EQDMA_RAM_DBE_STS_A_ADDR EqdmaRegs.RAM_DBE_STS_A_MI_H2C2_DAT_MASK EqdmaRegs.GLBL_ERR_STAT_ERR_RAM_DBE_MASK eqdma_hw_ram_dbe_err_process;
   mk_err EQDMA_DBE_ERR_MI_H2C3_DAT "H2C MM data buffer double bit ECC error" EQDMA_RAM_DBE_MSK_A_ADDR EQDMA_RAM_DBE_STS_A_ADDR EqdmaRegs.RAM_DBE_STS_A_MI_H2C3_DAT_MASK EqdmaRegs.GLBL_ERR_STAT_ERR_RAM_DBE_MASK eqdma_hw_ram_dbe_err_process;
   mk_err EQDMA_DBE_ERR_MI_C2H0_DAT "C2H MM data buffer double bit ECC error" EQDMA_RAM_DBE_MSK_A_ADDR EQDMA_RAM_DBE_STS_A_ADDR EqdmaRegs.RAM_DBE_STS_A_MI_C2H0_DAT_MASK EqdmaRegs.GLBL_ERR_STAT_ERR_RAM_DBE_MASK eqdma_hw_ram_dbe_err_process;
   mk_err EQDMA_DBE_ERR_MI_C2H1_DAT "C2H MM data buffer double bit ECC error" EQDMA_RAM_DBE_MSK_A_ADDR EQDMA_RAM_DBE_STS_A_ADDR EqdmaRegs.RAM_DBE_STS_A_MI_C2H1_DAT_MASK EqdmaRegs.GLBL_ERR_STAT_ERR_RAM_DBE_MASK eqdma_hw_ram_dbe_err_process].

Definition eqdma_err_info_8 : list hw_err_info :=
  [mk_err EQDMA_DBE_ERR_MI_C2H2_DAT "C2H MM data buffer double bit ECC error" EQDMA_RAM_DBE_MSK_A_ADDR EQDMA_RAM_DBE_STS_A_ADDR EqdmaRegs.RAM_DBE_STS_A_MI_C2H2_DAT_MASK EqdmaRegs.GLBL_ERR_STAT_ERR_RAM_DBE_MASK eqdma_hw_ram_dbe_err_process;
   mk_err EQDMA_DBE_ERR_MI_C2H3_DAT "C2H MM data buffer double bit ECC error" EQDMA_RAM_DBE_MSK_A_ADDR EQDMA_RAM_DBE_STS_A_ADDR EqdmaRegs.RAM_DBE_STS_A_MI_C2H3_DAT_MASK EqdmaRegs.GLBL_ERR_STAT_ERR_RAM_DBE_MASK eqdma_hw_ram_dbe_err_process;
   mk_err EQDMA_DBE_ERR_H2C_RD_BRG_DAT "Bridge master read double bit ECC error" EQDMA_RAM_DBE_MSK_A_ADDR EQDMA_RAM_DBE_STS_A_ADDR EqdmaRegs.RAM_DBE_STS_A_H2C_RD_BRG_DAT_MASK EqdmaRegs.GLBL_ERR_STAT_ERR_RAM_DBE_MASK eqdma_hw_ram_dbe_err_process;
   mk_err EQDMA_DBE_ERR_H2C_WR_BRG_DAT "Bridge master write double bit ECC error" EQDMA_RAM_DBE_MSK_A_ADDR EQDMA_RAM_DBE_STS_A_ADDR EqdmaRegs.RAM_DBE_STS_A_H2C_WR_BRG_DAT_MASK EqdmaRegs.GLBL_ERR_STAT_ERR_RAM_DBE_MASK eqdma_hw_ram_dbe_err_process;
   mk_err EQDMA_DBE_ERR_C2H_RD_BRG_DAT "Bridge slave read data buffer double bit ECC error" EQDMA_RAM_DBE_MSK_A_ADDR EQDMA_RAM_DBE_STS_A_ADDR EqdmaRegs.RAM_DBE_STS_A_C2H_RD_BRG_DAT_MASK EqdmaRegs.GLBL_ERR_STAT_ERR_RAM_DBE_MASK eqdma_hw_ram_dbe_err_process;
   mk_err EQDMA_DBE_ERR_C2H_WR_BRG_DAT "Bridge slave write data buffer double bit ECC error" EQDMA_RAM_DBE_MSK_A_ADDR EQDMA_RAM_DBE_STS_A_ADDR EqdmaRegs.RAM_DBE_STS_A_C2H_WR_BRG_DAT_MASK EqdmaRegs.GLBL_ERR_STAT_ERR_RAM_DBE_MASK eqdma_hw_ram_dbe_err_process;
   mk_err EQDMA_DBE_ERR_FUNC_MAP "Function map RAM double bit ECC error" EQDMA_RAM_DBE_MSK_A_ADDR EQDMA_RAM_DBE_STS_A_ADDR EqdmaRegs.RAM_DBE_STS_A_FUNC_MAP_MASK EqdmaRegs.GLBL_ERR_STAT_ERR_RAM_DBE_MASK eqdma_hw_ram_dbe_err_process;
   mk_err EQDMA_DBE_ERR_DSC_HW_CTXT "Descriptor engine hardware context RAM double bit ECC error" EQDMA_RAM_DBE_MSK_A_ADDR EQDMA_RAM_DBE_STS_A_ADDR EqdmaRegs.RAM_DBE_STS_A_DSC_HW_CTXT_MASK EqdmaRegs.GLBL_ERR_STAT_ERR_RAM_DBE_MASK eqdma_hw_ram_dbe_err_process;
   mk_err EQDMA_DBE_ERR_DSC_CRD_RCV "Descriptor engine receive credit context RAM double bit ECC error" EQDMA_RAM_DBE_MSK_A_ADDR EQDMA_RAM_DBE_STS_A_ADDR EqdmaRegs.RAM_DBE_STS_A_DSC_CRD_RCV_MASK EqdmaRegs.GLBL_ERR_STAT_ERR_RAM_DBE_MASK eqdma_hw_ram_dbe_err_process;
   mk_err EQDMA_DBE_ERR_DSC_SW_CTXT "Descriptor engine software context RAM double bit ECC error" EQDMA_RAM_DBE_MSK_A_ADDR EQDMA_RAM_DBE_STS_A_ADDR EqdmaRegs.RAM_DBE_STS_A_DSC_SW_CTXT_MASK EqdmaRegs.GLBL_ERR_STAT_ERR_RAM_DBE_MASK eqdma_hw_ram_dbe_err_process;
   mk_err EQDMA_DBE_ERR_DSC_CPLI "Descriptor engine fetch completion information RAM double bit ECC error" EQDMA_RAM_DBE_MSK_A_ADDR EQDMA_RAM_DBE_STS_A_ADDR EqdmaRegs.RAM_DBE_STS_A_DSC_CPLI_MASK EqdmaRegs.GLBL_ERR_STAT_ERR_RAM_DBE_MASK eqdma_hw_ram_dbe_err_process;
   mk_err EQDMA_DBE_ERR_DSC_CPLD "Descriptor engine fetch completion data RAM double bit ECC error" EQDMA_RAM_DBE_MSK_A_ADDR EQDMA_RAM_DBE_STS_A_ADDR EqdmaRegs.RAM_DBE_STS_A_DSC_CPLD_MASK EqdmaRegs.GLBL_ERR_STAT_ERR_RAM_DBE_MASK eqdma_hw_ram_dbe_err_process;
   mk_err EQDMA_DBE_ERR_MI_TL_SLV_FIFO_RAM "TL Slave FIFO RAM double bit ECC error" EQDMA_RAM_DBE_MSK_A_ADDR EQDMA_RAM_DBE_STS_A_ADDR EqdmaRegs.RAM_DBE_STS_A_MI_TL_SLV_FIFO_RAM_MASK EqdmaRegs.GLBL_ERR_STAT_ERR_RAM_DBE_MASK eqdma_hw_ram_dbe_err_process;
   mk_err EQDMA_DBE_ERR_TIMER_FIFO_RAM "Timer fifo RAM double bit ECC error" EQDMA_RAM_DBE_MSK_A_ADDR EQDMA_RAM_DBE_STS_A_ADDR EqdmaRegs.RAM_DBE_STS_A_TIMER_FIFO_RAM_MASK EqdmaRegs.GLBL_ERR_STAT_ERR_RAM_DBE_MASK eqdma_hw_ram_dbe_err_process;
   mk_err EQDMA_DBE_ERR_QID_FIFO_RAM "C2H ST QID FIFO RAM double bit ECC error" EQDMA_RAM_DBE_MSK_A_ADDR EQDMA_RAM_DBE_STS_A_ADDR EqdmaRegs.RAM_DBE_STS_A_QID_FIFO_RAM_MASK EqdmaRegs.GLBL_ERR_STAT_ERR_RAM_DBE_MASK eqdma_hw_ram_dbe_err_process;
   mk_err EQDMA_DBE_ERR_WRB_COAL_DATA_RAM "Writeback Coalescing RAM double bit ECC error" EQDMA_RAM_DBE_MSK_A_ADDR EQDMA_RAM_DBE_STS_A_ADDR EqdmaRegs.RAM_DBE_STS_A_WRB_COAL_DATA_RAM_MASK EqdmaRegs.GLBL_ERR_STAT_ERR_RAM_DBE_MASK eqdma_hw_ram_dbe_err_process].

Definition eqdma_err_info_9 : list hw_err_info :=
  [mk_err EQDMA_DBE_ERR_INT_CTXT_RAM "Interrupt context RAM double bit ECC error" EQDMA_RAM_DBE_MSK_A_ADDR EQDMA_RAM_DBE_STS_A_ADDR EqdmaRegs.RAM_DBE_STS_A_INT_CTXT_RAM_MASK EqdmaRegs.GLBL_ERR_STAT_ERR_RAM_DBE_MASK eqdma_hw_ram_dbe_err_process;
   mk_err EQDMA_DBE_ERR_DESC_REQ_FIFO_RAM "C2H ST descriptor request RAM double bit ECC error" EQDMA_RAM_DBE_MSK_A_ADDR EQDMA_RAM_DBE_STS_A_ADDR EqdmaRegs.RAM_DBE_STS_A_DESC_REQ_FIFO_RAM_MASK EqdmaRegs.GLBL_ERR_STAT_ERR_RAM_DBE_MASK eqdma_hw_ram_dbe_err_process;
   mk_err EQDMA_DBE_ERR_PFCH_CTXT_RAM "C2H ST prefetch RAM double bit ECC error" EQDMA_RAM_DBE_MSK_A_ADDR EQDMA_RAM_DBE_STS_A_ADDR EqdmaRegs.RAM_DBE_STS_A_PFCH_CTXT_RAM_MASK EqdmaRegs.GLBL_ERR_STAT_ERR_RAM_DBE_MASK eqdma_hw_ram_dbe_err_process;
   mk_err EQDMA_DBE_ERR_WRB_CTXT_RAM "C2H ST completion context RAM double bit ECC error" EQDMA_RAM_DBE_MSK_A_ADDR EQDMA_RAM_DBE_STS_A_ADDR EqdmaRegs.RAM_DBE_STS_A_WRB_CTXT_RAM_MASK EqdmaRegs.GLBL_ERR_STAT_ERR_RAM_DBE_MASK eqdma_hw_ram_dbe_err_process;
   mk_err EQDMA_DBE_ERR_PFCH_LL_RAM "C2H ST prefetch list RAM double bit ECC error" EQDMA_RAM_DBE_MSK_A_ADDR EQDMA_RAM_DBE_STS_A_ADDR EqdmaRegs.RAM_DBE_STS_A_PFCH_LL_RAM_MASK EqdmaRegs.GLBL_ERR_STAT_ERR_RAM_DBE_MASK eqdma_hw_ram_dbe_err_process;
   mk_err EQDMA_DBE_ERR_PEND_FIFO_RAM "Pend FIFO RAM double bit ECC error" EQDMA_RAM_DBE_MSK_A_ADDR EQDMA_RAM_DBE_STS_A_ADDR EqdmaRegs.RAM_DBE_STS_A_PEND_FIFO_RAM_MASK EqdmaRegs.GLBL_ERR_STAT_ERR_RAM_DBE_MASK eqdma_hw_ram_dbe_err_process;
   mk_err EQDMA_DBE_ERR_RC_RRQ_ODD_RAM "RC RRQ Odd RAM double bit ECC error." EQDMA_RAM_DBE_MSK_A_ADDR EQDMA_RAM_DBE_STS_A_ADDR EqdmaRegs.RAM_DBE_STS_A_RC_RRQ_ODD_RAM_MASK EqdmaRegs.GLBL_ERR_STAT_ERR_RAM_DBE_MASK eqdma_hw_ram_dbe_err_process;
   mk_err EQDMA_DBE_ERR_ALL "All DBE errors" EQDMA_RAM_DBE_MSK_A_ADDR EQDMA_RAM_DBE_STS_A_ADDR EQDMA_DBE_ERR_ALL_MASK EqdmaRegs.GLBL_ERR_STAT_ERR_RAM_DBE_MASK eqdma_hw_ram_dbe_err_process].

Definition eqdma_err_info : list hw_err_info :=
  eqdma_err_info_1 ++ eqdma_err_info_2 ++ eqdma_err_info_3 ++ eqdma_err_info_4 ++ eqdma_err_info_5 ++ eqdma_err_info_6 ++ eqdma_err_info_7 ++ eqdma_err_info_8 ++ eqdma_err_info_9.

(** The last of each group of errors, which stands for the group, and the first. *)

Definition all_eqdma_hw_errs : list Z :=
  map eqdma_error_idx_code [EQDMA_DSC_ERR_ALL; EQDMA_TRQ_ERR_ALL; EQDMA_ST_C2H_ERR_ALL; EQDMA_ST_FATAL_ERR_ALL; EQDMA_ST_H2C_ERR_ALL; EQDMA_SBE_1_ERR_ALL; EQDMA_SBE_ERR_ALL; EQDMA_DBE_1_ERR_ALL; EQDMA_DBE_ERR_ALL].

Definition eqdma_hw_err_position : list Z :=
  map eqdma_error_idx_code [EQDMA_DSC_ERR_POISON; EQDMA_TRQ_ERR_CSR_UNMAPPED; EQDMA_ST_C2H_ERR_MTY_MISMATCH; EQDMA_ST_FATAL_ERR_MTY_MISMATCH; EQDMA_ST_H2C_ERR_ZERO_LEN_DESC; EQDMA_SBE_1_ERR_RC_RRQ_EVEN_RAM; EQDMA_SBE_ERR_MI_H2C0_DAT; EQDMA_DBE_1_ERR_RC_RRQ_EVEN_RAM; EQDMA_DBE_ERR_MI_H2C0_DAT].

Definition eqdma_hw_errs : err_lib :=
  {| err_info := eqdma_err_info; err_alls := all_eqdma_hw_errs; err_positions := eqdma_hw_err_position;
     err_st_positions := map eqdma_error_idx_code [EQDMA_ST_C2H_ERR_MTY_MISMATCH; EQDMA_ST_FATAL_ERR_MTY_MISMATCH; EQDMA_ST_H2C_ERR_ZERO_LEN_DESC];
     err_st_alls := map eqdma_error_idx_code [EQDMA_ST_C2H_ERR_ALL; EQDMA_ST_FATAL_ERR_ALL; EQDMA_ST_H2C_ERR_ALL];
     errs_all := EQDMA_ERRS_ALL; glbl_stat := EQDMA_GLBL_ERR_STAT_ADDR; glbl_mask := EQDMA_GLBL_ERR_MASK_ADDR |}.

Definition eqdma_hw_get_error_name : Z -> option string := hw_get_error_name eqdma_hw_errs.

Section errors.
Context {S : Type} `{HasTrace S} `{MmioDevice}.

Definition eqdma_hw_error_process : M S (Z * list (option string)) :=
  hw_error_process eqdma_hw_errs EqdmaCsr.eqdma_caps (fun a => eqdma_dump_reg_info a 1 None).
Definition eqdma_hw_error_enable : Z -> M S Z := hw_error_enable eqdma_hw_errs EqdmaCsr.eqdma_caps.
End errors.
