(* ===== verification/SoftErrs.v ===== *)
(** * SoftErrs: the hardware errors of the soft QDMA

    From [qdma_soft_access.c] and [qdma_soft_reg.h]: the errors, and for each its name, the registers that report and
    enable it, its bits there and in the global register, and what is printed when it is found. *)

From S2P Require Import Prelude Mmio Fields RegTables RegDump HwErrs.
From S2P Require SoftCsr.
Local Open Scope string_scope.
Local Open Scope list_scope.
Local Open Scope Z_scope.

Abbreviation QDMA_OFFSET_GLBL_DSC_ERR_STS := (0x254).
Abbreviation QDMA_OFFSET_GLBL_DSC_ERR_LOG0 := (0x25C).
Abbreviation QDMA_OFFSET_GLBL_DSC_ERR_LOG1 := (0x260).
Abbreviation QDMA_OFFSET_GLBL_TRQ_ERR_STS := (0x264).
Abbreviation QDMA_OFFSET_GLBL_TRQ_ERR_LOG := (0x26C).
Abbreviation QDMA_OFFSET_GLBL_DSC_DBG_DAT0 := (0x270).
Abbreviation QDMA_OFFSET_GLBL_DSC_DBG_DAT1 := (0x274).
Abbreviation QDMA_OFFSET_GLBL_DSC_ERR_LOG2 := (0x27C).
Abbreviation QDMA_OFFSET_C2H_STAT_S_AXIS_C2H_ACCEPTED := (0xA88).
Abbreviation QDMA_OFFSET_C2H_STAT_S_AXIS_CMPT_ACCEPTED := (0xA8C).
Abbreviation QDMA_OFFSET_C2H_STAT_DESC_RSP_PKT_ACCEPTED := (0xA90).
Abbreviation QDMA_OFFSET_C2H_STAT_AXIS_PKG_CMP := (0xA94).
Abbreviation QDMA_OFFSET_C2H_STAT_DESC_RSP_DROP_ACCEPTED := (0xB10).
Abbreviation QDMA_OFFSET_C2H_STAT_DESC_RSP_ERR_ACCEPTED := (0xB14).
Abbreviation QDMA_OFFSET_C2H_STAT_DEBUG_DMA_ENG_0 := (0xB1C).
Abbreviation QDMA_OFFSET_C2H_STAT_DEBUG_DMA_ENG_1 := (0xB20).
Abbreviation QDMA_OFFSET_C2H_STAT_DEBUG_DMA_ENG_2 := (0xB24).
Abbreviation QDMA_OFFSET_C2H_STAT_DEBUG_DMA_ENG_3 := (0xB28).
Abbreviation QDMA_OFFSET_C2H_FIRST_ERR_QID := (0xB30).
Abbreviation QDMA_OFFSET_H2C_FIRST_ERR_QID := (0xE08).
Abbreviation QDMA_OFFSET_H2C_DBG_REG0 := (0xE0C).
Abbreviation QDMA_OFFSET_H2C_DBG_REG1 := (0xE10).
Abbreviation QDMA_OFFSET_H2C_DBG_REG2 := (0xE14).
Abbreviation QDMA_OFFSET_H2C_DBG_REG3 := (0xE18).
Abbreviation QDMA_OFFSET_H2C_DBG_REG4 := (0xE1C).
Abbreviation QDMA_OFFSET_GLBL_ERR_STAT := (0x248).
Abbreviation QDMA_OFFSET_GLBL_ERR_MASK := (0x24C).
Abbreviation QDMA_GLBL_ERR_RAM_SBE_MASK := (BIT 0).
Abbreviation QDMA_GLBL_ERR_RAM_DBE_MASK := (BIT 1).
Abbreviation QDMA_GLBL_ERR_DSC_MASK := (BIT 2).
Abbreviation QDMA_GLBL_ERR_TRQ_MASK := (BIT 3).
Abbreviation QDMA_GLBL_ERR_ST_C2H_MASK := (BIT 8).
Abbreviation QDMA_GLBL_ERR_ST_H2C_MASK := (BIT 11).
Abbreviation QDMA_OFFSET_C2H_ERR_STAT := (0xAF0).
Abbreviation QDMA_OFFSET_C2H_ERR_MASK := (0xAF4).
Abbreviation QDMA_C2H_ERR_MTY_MISMATCH_MASK := (BIT 0).
Abbreviation QDMA_C2H_ERR_LEN_MISMATCH_MASK := (BIT 1).
Abbreviation QDMA_C2H_ERR_QID_MISMATCH_MASK := (BIT 3).
Abbreviation QDMA_C2H_ERR_DESC_RSP_ERR_MASK := (BIT 4).
Abbreviation QDMA_C2H_ERR_ENG_WPL_DATA_PAR_ERR_MASK := (BIT 6).
Abbreviation QDMA_C2H_ERR_MSI_INT_FAIL_MASK := (BIT 7).
Abbreviation QDMA_C2H_ERR_ERR_DESC_CNT_MASK := (BIT 9).
Abbreviation QDMA_C2H_ERR_PORTID_CTXT_MISMATCH_MASK := (BIT 10).
Abbreviation QDMA_C2H_ERR_PORTID_BYP_IN_MISMATCH_MASK := (BIT 11).
Abbreviation QDMA_C2H_ERR_CMPT_INV_Q_ERR_MASK := (BIT 12).
Abbreviation QDMA_C2H_ERR_CMPT_QFULL_ERR_MASK := (BIT 13).
Abbreviation QDMA_C2H_ERR_CMPT_CIDX_ERR_MASK := (BIT 14).
Abbreviation QDMA_C2H_ERR_CMPT_PRTY_ERR_MASK := (BIT 15).
Abbreviation QDMA_C2H_ERR_ALL_MASK := (0xFEDB).
Abbreviation QDMA_OFFSET_C2H_FATAL_ERR_STAT := (0xAF8).
Abbreviation QDMA_OFFSET_C2H_FATAL_ERR_MASK := (0xAFC).
Abbreviation QDMA_C2H_FATAL_ERR_MTY_MISMATCH_MASK := (BIT 0).
Abbreviation QDMA_C2H_FATAL_ERR_LEN_MISMATCH_MASK := (BIT 1).
Abbreviation QDMA_C2H_FATAL_ERR_QID_MISMATCH_MASK := (BIT 3).
Abbreviation QDMA_C2H_FATAL_ERR_TIMER_FIFO_RAM_RDBE_MASK := (BIT 4).
Abbreviation QDMA_C2H_FATAL_ERR_PFCH_II_RAM_RDBE_MASK := (BIT 8).
Abbreviation QDMA_C2H_FATAL_ERR_CMPT_CTXT_RAM_RDBE_MASK := (BIT 9).
Abbreviation QDMA_C2H_FATAL_ERR_PFCH_CTXT_RAM_RDBE_MASK := (BIT 10).
Abbreviation QDMA_C2H_FATAL_ERR_DESC_REQ_FIFO_RAM_RDBE_MASK := (BIT 11).
Abbreviation QDMA_C2H_FATAL_ERR_INT_CTXT_RAM_RDBE_MASK := (BIT 12).
Abbreviation QDMA_C2H_FATAL_ERR_CMPT_COAL_DATA_RAM_RDBE_MASK := (BIT 14).
Abbreviation QDMA_C2H_FATAL_ERR_TUSER_FIFO_RAM_RDBE_MASK := (BIT 15).
Abbreviation QDMA_C2H_FATAL_ERR_QID_FIFO_RAM_RDBE_MASK := (BIT 16).
Abbreviation QDMA_C2H_FATAL_ERR_PAYLOAD_FIFO_RAM_RDBE_MASK := (BIT 17).
Abbreviation QDMA_C2H_FATAL_ERR_WPL_DATA_PAR_MASK := (BIT 18).
Abbreviation QDMA_C2H_FATAL_ERR_ALL_MASK := (0x7DF1B).
Abbreviation QDMA_OFFSET_H2C_ERR_STAT := (0xE00).
Abbreviation QDMA_OFFSET_H2C_ERR_MASK := (0xE04).
Abbreviation QDMA_H2C_ERR_ZERO_LEN_DESC_MASK := (BIT 0).
Abbreviation QDMA_H2C_ERR_CSI_MOP_MASK := (BIT 1).
Abbreviation QDMA_H2C_ERR_NO_DMA_DSC_MASK := (BIT 2).
Abbreviation QDMA_H2C_ERR_SBE_MASK := (BIT 3).
Abbreviation QDMA_H2C_ERR_DBE_MASK := (BIT 4).
Abbreviation QDMA_H2C_ERR_ALL_MASK := (0x1F).
Abbreviation QDMA_OFFSET_GLBL_DSC_ERR_STAT := (0x254).
Abbreviation QDMA_OFFSET_GLBL_DSC_ERR_MASK := (0x258).
Abbreviation QDMA_GLBL_DSC_ERR_POISON_MASK := (BIT 0).
Abbreviation QDMA_GLBL_DSC_ERR_UR_CA_MASK := (BIT 1).
Abbreviation QDMA_GLBL_DSC_ERR_PARAM_MASK := (BIT 2).
Abbreviation QDMA_GLBL_DSC_ERR_ADDR_MASK := (BIT 3).
Abbreviation QDMA_GLBL_DSC_ERR_TAG_MASK := (BIT 4).
Abbreviation QDMA_GLBL_DSC_ERR_FLR_MASK := (BIT 5).
Abbreviation QDMA_GLBL_DSC_ERR_TIMEOUT_MASK := (BIT 9).
Abbreviation QDMA_GLBL_DSC_ERR_DAT_POISON_MASK := (BIT 16).
Abbreviation QDMA_GLBL_DSC_ERR_FLR_CANCEL_MASK := (BIT 19).
Abbreviation QDMA_GLBL_DSC_ERR_DMA_MASK := (BIT 20).
Abbreviation QDMA_GLBL_DSC_ERR_DSC_MASK := (BIT 21).
Abbreviation QDMA_GLBL_DSC_ERR_RQ_CANCEL_MASK := (BIT 22).
Abbreviation QDMA_GLBL_DSC_ERR_DBE_MASK := (BIT 23).
Abbreviation QDMA_GLBL_DSC_ERR_SBE_MASK := (BIT 24).
Abbreviation QDMA_GLBL_DSC_ERR_ALL_MASK := (0x1F9023F).
Abbreviation QDMA_OFFSET_GLBL_TRQ_ERR_STAT := (0x264).
Abbreviation QDMA_OFFSET_GLBL_TRQ_ERR_MASK := (0x268).
Abbreviation QDMA_GLBL_TRQ_ERR_UNMAPPED_MASK := (BIT 0).
Abbreviation QDMA_GLBL_TRQ_ERR_QID_RANGE_MASK := (BIT 1).
Abbreviation QDMA_GLBL_TRQ_ERR_VF_ACCESS_MASK := (BIT 2).
Abbreviation QDMA_GLBL_TRQ_ERR_TCP_TIMEOUT_MASK := (BIT 3).
Abbreviation QDMA_GLBL_TRQ_ERR_ALL_MASK := (0xF).
Abbreviation QDMA_OFFSET_RAM_SBE_STAT := (0xF4).
Abbreviation QDMA_OFFSET_RAM_SBE_MASK := (0xF0).
Abbreviation QDMA_SBE_ERR_MI_H2C0_DAT_MASK := (BIT 0).
Abbreviation QDMA_SBE_ERR_MI_C2H0_DAT_MASK := (BIT 4).
Abbreviation QDMA_SBE_ERR_H2C_RD_BRG_DAT_MASK := (BIT 9).
Abbreviation QDMA_SBE_ERR_H2C_WR_BRG_DAT_MASK := (BIT 10).
Abbreviation QDMA_SBE_ERR_C2H_RD_BRG_DAT_MASK := (BIT 11).
Abbreviation QDMA_SBE_ERR_C2H_WR_BRG_DAT_MASK := (BIT 12).
Abbreviation QDMA_SBE_ERR_FUNC_MAP_MASK := (BIT 13).
Abbreviation QDMA_SBE_ERR_DSC_HW_CTXT_MASK := (BIT 14).
Abbreviation QDMA_SBE_ERR_DSC_CRD_RCV_MASK := (BIT 15).
Abbreviation QDMA_SBE_ERR_DSC_SW_CTXT_MASK := (BIT 16).
Abbreviation QDMA_SBE_ERR_DSC_CPLI_MASK := (BIT 17).
Abbreviation QDMA_SBE_ERR_DSC_CPLD_MASK := (BIT 18).
Abbreviation QDMA_SBE_ERR_PASID_CTXT_RAM_MASK := (BIT 19).
Abbreviation QDMA_SBE_ERR_TIMER_FIFO_RAM_MASK := (BIT 20).
Abbreviation QDMA_SBE_ERR_PAYLOAD_FIFO_RAM_MASK := (BIT 21).
Abbreviation QDMA_SBE_ERR_QID_FIFO_RAM_MASK := (BIT 22).
Abbreviation QDMA_SBE_ERR_TUSER_FIFO_RAM_MASK := (BIT 23).
Abbreviation QDMA_SBE_ERR_WRB_COAL_DATA_RAM_MASK := (BIT 24).
Abbreviation QDMA_SBE_ERR_INT_QID2VEC_RAM_MASK := (BIT 25).
Abbreviation QDMA_SBE_ERR_INT_CTXT_RAM_MASK := (BIT 26).
Abbreviation QDMA_SBE_ERR_DESC_REQ_FIFO_RAM_MASK := (BIT 27).
Abbreviation QDMA_SBE_ERR_PFCH_CTXT_RAM_MASK := (BIT 28).
Abbreviation QDMA_SBE_ERR_WRB_CTXT_RAM_MASK := (BIT 29).
Abbreviation QDMA_SBE_ERR_PFCH_LL_RAM_MASK := (BIT 30).
Abbreviation QDMA_SBE_ERR_H2C_PEND_FIFO_MASK := (BIT 31).
Abbreviation QDMA_SBE_ERR_ALL_MASK := (0xFFFFFF11).
Abbreviation QDMA_OFFSET_RAM_DBE_STAT := (0xFC).
Abbreviation QDMA_OFFSET_RAM_DBE_MASK := (0xF8).
Abbreviation QDMA_DBE_ERR_MI_H2C0_DAT_MASK := (BIT 0).
Abbreviation QDMA_DBE_ERR_MI_C2H0_DAT_MASK := (BIT 4).
Abbreviation QDMA_DBE_ERR_H2C_RD_BRG_DAT_MASK := (BIT 9).
Abbreviation QDMA_DBE_ERR_H2C_WR_BRG_DAT_MASK := (BIT 10).
Abbreviation QDMA_DBE_ERR_C2H_RD_BRG_DAT_MASK := (BIT 11).
Abbreviation QDMA_DBE_ERR_C2H_WR_BRG_DAT_MASK := (BIT 12).
Abbreviation QDMA_DBE_ERR_FUNC_MAP_MASK := (BIT 13).
Abbreviation QDMA_DBE_ERR_DSC_HW_CTXT_MASK := (BIT 14).
Abbreviation QDMA_DBE_ERR_DSC_CRD_RCV_MASK := (BIT 15).
Abbreviation QDMA_DBE_ERR_DSC_SW_CTXT_MASK := (BIT 16).
Abbreviation QDMA_DBE_ERR_DSC_CPLI_MASK := (BIT 17).
Abbreviation QDMA_DBE_ERR_DSC_CPLD_MASK := (BIT 18).
Abbreviation QDMA_DBE_ERR_PASID_CTXT_RAM_MASK := (BIT 19).
Abbreviation QDMA_DBE_ERR_TIMER_FIFO_RAM_MASK := (BIT 20).
Abbreviation QDMA_DBE_ERR_PAYLOAD_FIFO_RAM_MASK := (BIT 21).
Abbreviation QDMA_DBE_ERR_QID_FIFO_RAM_MASK := (BIT 22).
Abbreviation QDMA_DBE_ERR_TUSER_FIFO_RAM_MASK := (BIT 23).
Abbreviation QDMA_DBE_ERR_WRB_COAL_DATA_RAM_MASK := (BIT 24).
Abbreviation QDMA_DBE_ERR_INT_QID2VEC_RAM_MASK := (BIT 25).
Abbreviation QDMA_DBE_ERR_INT_CTXT_RAM_MASK := (BIT 26).
Abbreviation QDMA_DBE_ERR_DESC_REQ_FIFO_RAM_MASK := (BIT 27).
Abbreviation QDMA_DBE_ERR_PFCH_CTXT_RAM_MASK := (BIT 28).
Abbreviation QDMA_DBE_ERR_WRB_CTXT_RAM_MASK := (BIT 29).
Abbreviation QDMA_DBE_ERR_PFCH_LL_RAM_MASK := (BIT 30).
Abbreviation QDMA_DBE_ERR_H2C_PEND_FIFO_MASK := (BIT 31).
Abbreviation QDMA_DBE_ERR_ALL_MASK := (0xFFFFFF11).

(** The indices of the errors. *)

Inductive qdma_error_idx :=
| QDMA_DSC_ERR_POISON
| QDMA_DSC_ERR_UR_CA
| QDMA_DSC_ERR_PARAM
| QDMA_DSC_ERR_ADDR
| QDMA_DSC_ERR_TAG
| QDMA_DSC_ERR_FLR
| QDMA_DSC_ERR_TIMEOUT
| QDMA_DSC_ERR_DAT_POISON
| QDMA_DSC_ERR_FLR_CANCEL
| QDMA_DSC_ERR_DMA
| QDMA_DSC_ERR_DSC
| QDMA_DSC_ERR_RQ_CANCEL
| QDMA_DSC_ERR_DBE
| QDMA_DSC_ERR_SBE
| QDMA_DSC_ERR_ALL
| QDMA_TRQ_ERR_UNMAPPED
| QDMA_TRQ_ERR_QID_RANGE
| QDMA_TRQ_ERR_VF_ACCESS
| QDMA_TRQ_ERR_TCP_TIMEOUT
| QDMA_TRQ_ERR_ALL
| QDMA_ST_C2H_ERR_MTY_MISMATCH
| QDMA_ST_C2H_ERR_LEN_MISMATCH
| QDMA_ST_C2H_ERR_QID_MISMATCH
| QDMA_ST_C2H_ERR_DESC_RSP_ERR
| QDMA_ST_C2H_ERR_ENG_WPL_DATA_PAR_ERR
| QDMA_ST_C2H_ERR_MSI_INT_FAIL
| QDMA_ST_C2H_ERR_ERR_DESC_CNT
| QDMA_ST_C2H_ERR_PORTID_CTXT_MISMATCH
| QDMA_ST_C2H_ERR_PORTID_BYP_IN_MISMATCH
| QDMA_ST_C2H_ERR_CMPT_INV_Q_ERR
| QDMA_ST_C2H_ERR_CMPT_QFULL_ERR
| QDMA_ST_C2H_ERR_CMPT_CIDX_ERR
| QDMA_ST_C2H_ERR_CMPT_PRTY_ERR
| QDMA_ST_C2H_ERR_ALL
| QDMA_ST_FATAL_ERR_MTY_MISMATCH
| QDMA_ST_FATAL_ERR_LEN_MISMATCH
| QDMA_ST_FATAL_ERR_QID_MISMATCH
| QDMA_ST_FATAL_ERR_TIMER_FIFO_RAM_RDBE
| QDMA_ST_FATAL_ERR_PFCH_II_RAM_RDBE
| QDMA_ST_FATAL_ERR_CMPT_CTXT_RAM_RDBE
| QDMA_ST_FATAL_ERR_PFCH_CTXT_RAM_RDBE
| QDMA_ST_FATAL_ERR_DESC_REQ_FIFO_RAM_RDBE
| QDMA_ST_FATAL_ERR_INT_CTXT_RAM_RDBE
| QDMA_ST_FATAL_ERR_CMPT_COAL_DATA_RAM_RDBE
| QDMA_ST_FATAL_ERR_TUSER_FIFO_RAM_RDBE
| QDMA_ST_FATAL_ERR_QID_FIFO_RAM_RDBE
| QDMA_ST_FATAL_ERR_PAYLOAD_FIFO_RAM_RDBE
| QDMA_ST_FATAL_ERR_WPL_DATA_PAR
| QDMA_ST_FATAL_ERR_ALL
| QDMA_ST_H2C_ERR_ZERO_LEN_DESC
| QDMA_ST_H2C_ERR_CSI_MOP
| QDMA_ST_H2C_ERR_NO_DMA_DSC
| QDMA_ST_H2C_ERR_SBE
| QDMA_ST_H2C_ERR_DBE
| QDMA_ST_H2C_ERR_ALL
| QDMA_SBE_ERR_MI_H2C0_DAT
| QDMA_SBE_ERR_MI_C2H0_DAT
| QDMA_SBE_ERR_H2C_RD_BRG_DAT
| QDMA_SBE_ERR_H2C_WR_BRG_DAT
| QDMA_SBE_ERR_C2H_RD_BRG_DAT
| QDMA_SBE_ERR_C2H_WR_BRG_DAT
| QDMA_SBE_ERR_FUNC_MAP
| QDMA_SBE_ERR_DSC_HW_CTXT
| QDMA_SBE_ERR_DSC_CRD_RCV
| QDMA_SBE_ERR_DSC_SW_CTXT
| QDMA_SBE_ERR_DSC_CPLI
| QDMA_SBE_ERR_DSC_CPLD
| QDMA_SBE_ERR_PASID_CTXT_RAM
| QDMA_SBE_ERR_TIMER_FIFO_RAM
| QDMA_SBE_ERR_PAYLOAD_FIFO_RAM
| QDMA_SBE_ERR_QID_FIFO_RAM
| QDMA_SBE_ERR_TUSER_FIFO_RAM
| QDMA_SBE_ERR_WRB_COAL_DATA_RAM
| QDMA_SBE_ERR_INT_QID2VEC_RAM
| QDMA_SBE_ERR_INT_CTXT_RAM
| QDMA_SBE_ERR_DESC_REQ_FIFO_RAM
| QDMA_SBE_ERR_PFCH_CTXT_RAM
| QDMA_SBE_ERR_WRB_CTXT_RAM
| QDMA_SBE_ERR_PFCH_LL_RAM
| QDMA_SBE_ERR_H2C_PEND_FIFO
| QDMA_SBE_ERR_ALL
| QDMA_DBE_ERR_MI_H2C0_DAT
| QDMA_DBE_ERR_MI_C2H0_DAT
| QDMA_DBE_ERR_H2C_RD_BRG_DAT
| QDMA_DBE_ERR_H2C_WR_BRG_DAT
| QDMA_DBE_ERR_C2H_RD_BRG_DAT
| QDMA_DBE_ERR_C2H_WR_BRG_DAT
| QDMA_DBE_ERR_FUNC_MAP
| QDMA_DBE_ERR_DSC_HW_CTXT
| QDMA_DBE_ERR_DSC_CRD_RCV
| QDMA_DBE_ERR_DSC_SW_CTXT
| QDMA_DBE_ERR_DSC_CPLI
| QDMA_DBE_ERR_DSC_CPLD
| QDMA_DBE_ERR_PASID_CTXT_RAM
| QDMA_DBE_ERR_TIMER_FIFO_RAM
| QDMA_DBE_ERR_PAYLOAD_FIFO_RAM
| QDMA_DBE_ERR_QID_FIFO_RAM
| QDMA_DBE_ERR_TUSER_FIFO_RAM
| QDMA_DBE_ERR_WRB_COAL_DATA_RAM
| QDMA_DBE_ERR_INT_QID2VEC_RAM
| QDMA_DBE_ERR_INT_CTXT_RAM
| QDMA_DBE_ERR_DESC_REQ_FIFO_RAM
| QDMA_DBE_ERR_PFCH_CTXT_RAM
| QDMA_DBE_ERR_WRB_CTXT_RAM
| QDMA_DBE_ERR_PFCH_LL_RAM
| QDMA_DBE_ERR_H2C_PEND_FIFO
| QDMA_DBE_ERR_ALL
| QDMA_ERRS_ALL.

Definition qdma_error_idx_code (e : qdma_error_idx) : Z :=
  match e with
  | QDMA_DSC_ERR_POISON => 0
  | QDMA_DSC_ERR_UR_CA => 1
  | QDMA_DSC_ERR_PARAM => 2
  | QDMA_DSC_ERR_ADDR => 3
  | QDMA_DSC_ERR_TAG => 4
  | QDMA_DSC_ERR_FLR => 5
  | QDMA_DSC_ERR_TIMEOUT => 6
  | QDMA_DSC_ERR_DAT_POISON => 7
  | QDMA_DSC_ERR_FLR_CANCEL => 8
  | QDMA_DSC_ERR_DMA => 9
  | QDMA_DSC_ERR_DSC => 10
  | QDMA_DSC_ERR_RQ_CANCEL => 11
  | QDMA_DSC_ERR_DBE => 12
  | QDMA_DSC_ERR_SBE => 13
  | QDMA_DSC_ERR_ALL => 14
  | QDMA_TRQ_ERR_UNMAPPED => 15
  | QDMA_TRQ_ERR_QID_RANGE => 16
  | QDMA_TRQ_ERR_VF_ACCESS => 17
  | QDMA_TRQ_ERR_TCP_TIMEOUT => 18
  | QDMA_TRQ_ERR_ALL => 19
  | QDMA_ST_C2H_ERR_MTY_MISMATCH => 20
  | QDMA_ST_C2H_ERR_LEN_MISMATCH => 21
  | QDMA_ST_C2H_ERR_QID_MISMATCH => 22
  | QDMA_ST_C2H_ERR_DESC_RSP_ERR => 23
  | QDMA_ST_C2H_ERR_ENG_WPL_DATA_PAR_ERR => 24
  | QDMA_ST_C2H_ERR_MSI_INT_FAIL => 25
  | QDMA_ST_C2H_ERR_ERR_DESC_CNT => 26
  | QDMA_ST_C2H_ERR_PORTID_CTXT_MISMATCH => 27
  | QDMA_ST_C2H_ERR_PORTID_BYP_IN_MISMATCH => 28
  | QDMA_ST_C2H_ERR_CMPT_INV_Q_ERR => 29
  | QDMA_ST_C2H_ERR_CMPT_QFULL_ERR => 30
  | QDMA_ST_C2H_ERR_CMPT_CIDX_ERR => 31
  | QDMA_ST_C2H_ERR_CMPT_PRTY_ERR => 32
  | QDMA_ST_C2H_ERR_ALL => 33
  | QDMA_ST_FATAL_ERR_MTY_MISMATCH => 34
  | QDMA_ST_FATAL_ERR_LEN_MISMATCH => 35
  | QDMA_ST_FATAL_ERR_QID_MISMATCH => 36
  | QDMA_ST_FATAL_ERR_TIMER_FIFO_RAM_RDBE => 37
  | QDMA_ST_FATAL_ERR_PFCH_II_RAM_RDBE => 38
  | QDMA_ST_FATAL_ERR_CMPT_CTXT_RAM_RDBE => 39
  | QDMA_ST_FATAL_ERR_PFCH_CTXT_RAM_RDBE => 40
  | QDMA_ST_FATAL_ERR_DESC_REQ_FIFO_RAM_RDBE => 41
  | QDMA_ST_FATAL_ERR_INT_CTXT_RAM_RDBE => 42
  | QDMA_ST_FATAL_ERR_CMPT_COAL_DATA_RAM_RDBE => 43
  | QDMA_ST_FATAL_ERR_TUSER_FIFO_RAM_RDBE => 44
  | QDMA_ST_FATAL_ERR_QID_FIFO_RAM_RDBE => 45
  | QDMA_ST_FATAL_ERR_PAYLOAD_FIFO_RAM_RDBE => 46
  | QDMA_ST_FATAL_ERR_WPL_DATA_PAR => 47
  | QDMA_ST_FATAL_ERR_ALL => 48
  | QDMA_ST_H2C_ERR_ZERO_LEN_DESC => 49
  | QDMA_ST_H2C_ERR_CSI_MOP => 50
  | QDMA_ST_H2C_ERR_NO_DMA_DSC => 51
  | QDMA_ST_H2C_ERR_SBE => 52
  | QDMA_ST_H2C_ERR_DBE => 53
  | QDMA_ST_H2C_ERR_ALL => 54
  | QDMA_SBE_ERR_MI_H2C0_DAT => 55
  | QDMA_SBE_ERR_MI_C2H0_DAT => 56
  | QDMA_SBE_ERR_H2C_RD_BRG_DAT => 57
  | QDMA_SBE_ERR_H2C_WR_BRG_DAT => 58
  | QDMA_SBE_ERR_C2H_RD_BRG_DAT => 59
  | QDMA_SBE_ERR_C2H_WR_BRG_DAT => 60
  | QDMA_SBE_ERR_FUNC_MAP => 61
  | QDMA_SBE_ERR_DSC_HW_CTXT => 62
  | QDMA_SBE_ERR_DSC_CRD_RCV => 63
  | QDMA_SBE_ERR_DSC_SW_CTXT => 64
  | QDMA_SBE_ERR_DSC_CPLI => 65
  | QDMA_SBE_ERR_DSC_CPLD => 66
  | QDMA_SBE_ERR_PASID_CTXT_RAM => 67
  | QDMA_SBE_ERR_TIMER_FIFO_RAM => 68
  | QDMA_SBE_ERR_PAYLOAD_FIFO_RAM => 69
  | QDMA_SBE_ERR_QID_FIFO_RAM => 70
  | QDMA_SBE_ERR_TUSER_FIFO_RAM => 71
  | QDMA_SBE_ERR_WRB_COAL_DATA_RAM => 72
  | QDMA_SBE_ERR_INT_QID2VEC_RAM => 73
  | QDMA_SBE_ERR_INT_CTXT_RAM => 74
  | QDMA_SBE_ERR_DESC_REQ_FIFO_RAM => 75
  | QDMA_SBE_ERR_PFCH_CTXT_RAM => 76
  | QDMA_SBE_ERR_WRB_CTXT_RAM => 77
  | QDMA_SBE_ERR_PFCH_LL_RAM => 78
  | QDMA_SBE_ERR_H2C_PEND_FIFO => 79
  | QDMA_SBE_ERR_ALL => 80
  | QDMA_DBE_ERR_MI_H2C0_DAT => 81
  | QDMA_DBE_ERR_MI_C2H0_DAT => 82
  | QDMA_DBE_ERR_H2C_RD_BRG_DAT => 83
  | QDMA_DBE_ERR_H2C_WR_BRG_DAT => 84
  | QDMA_DBE_ERR_C2H_RD_BRG_DAT => 85
  | QDMA_DBE_ERR_C2H_WR_BRG_DAT => 86
  | QDMA_DBE_ERR_FUNC_MAP => 87
  | QDMA_DBE_ERR_DSC_HW_CTXT => 88
  | QDMA_DBE_ERR_DSC_CRD_RCV => 89
  | QDMA_DBE_ERR_DSC_SW_CTXT => 90
  | QDMA_DBE_ERR_DSC_CPLI => 91
  | QDMA_DBE_ERR_DSC_CPLD => 92
  | QDMA_DBE_ERR_PASID_CTXT_RAM => 93
  | QDMA_DBE_ERR_TIMER_FIFO_RAM => 94
  | QDMA_DBE_ERR_PAYLOAD_FIFO_RAM => 95
  | QDMA_DBE_ERR_QID_FIFO_RAM => 96
  | QDMA_DBE_ERR_TUSER_FIFO_RAM => 97
  | QDMA_DBE_ERR_WRB_COAL_DATA_RAM => 98
  | QDMA_DBE_ERR_INT_QID2VEC_RAM => 99
  | QDMA_DBE_ERR_INT_CTXT_RAM => 100
  | QDMA_DBE_ERR_DESC_REQ_FIFO_RAM => 101
  | QDMA_DBE_ERR_PFCH_CTXT_RAM => 102
  | QDMA_DBE_ERR_WRB_CTXT_RAM => 103
  | QDMA_DBE_ERR_PFCH_LL_RAM => 104
  | QDMA_DBE_ERR_H2C_PEND_FIFO => 105
  | QDMA_DBE_ERR_ALL => 106
  | QDMA_ERRS_ALL => 107
  end.
Coercion qdma_error_idx_code : qdma_error_idx >-> Z.

(** The registers that are printed for an error. *)

Definition qdma_hw_ram_sbe_err_process : list Z :=
  [QDMA_OFFSET_RAM_SBE_STAT].
Definition qdma_hw_ram_dbe_err_process : list Z :=
  [QDMA_OFFSET_RAM_DBE_STAT].
Definition qdma_hw_desc_err_process : list Z :=
  [QDMA_OFFSET_GLBL_DSC_ERR_STS; QDMA_OFFSET_GLBL_DSC_ERR_LOG0; QDMA_OFFSET_GLBL_DSC_ERR_LOG1; QDMA_OFFSET_GLBL_DSC_DBG_DAT0; QDMA_OFFSET_GLBL_DSC_DBG_DAT1; QDMA_OFFSET_GLBL_DSC_ERR_LOG2].
Definition qdma_hw_trq_err_process : list Z :=
  [QDMA_OFFSET_GLBL_TRQ_ERR_STS; QDMA_OFFSET_GLBL_TRQ_ERR_LOG].
Definition qdma_hw_st_h2c_err_process : list Z :=
  [QDMA_OFFSET_H2C_ERR_STAT; QDMA_OFFSET_H2C_FIRST_ERR_QID; QDMA_OFFSET_H2C_DBG_REG0; QDMA_OFFSET_H2C_DBG_REG1; QDMA_OFFSET_H2C_DBG_REG2; QDMA_OFFSET_H2C_DBG_REG3; QDMA_OFFSET_H2C_DBG_REG4].
Definition qdma_hw_st_c2h_err_process : list Z :=
  [QDMA_OFFSET_C2H_ERR_STAT; QDMA_OFFSET_C2H_FATAL_ERR_STAT; QDMA_OFFSET_C2H_FIRST_ERR_QID; QDMA_OFFSET_C2H_STAT_S_AXIS_C2H_ACCEPTED; QDMA_OFFSET_C2H_STAT_S_AXIS_CMPT_ACCEPTED; QDMA_OFFSET_C2H_STAT_DESC_RSP_PKT_ACCEPTED; QDMA_OFFSET_C2H_STAT_AXIS_PKG_CMP; QDMA_OFFSET_C2H_STAT_DEBUG_DMA_ENG_0; QDMA_OFFSET_C2H_STAT_DEBUG_DMA_ENG_1; QDMA_OFFSET_C2H_STAT_DEBUG_DMA_ENG_2; QDMA_OFFSET_C2H_STAT_DEBUG_DMA_ENG_3; QDMA_OFFSET_C2H_STAT_DESC_RSP_DROP_ACCEPTED; QDMA_OFFSET_C2H_STAT_DESC_RSP_ERR_ACCEPTED].

Definition qdma_err_info_1 : list hw_err_info :=
  [mk_err QDMA_DSC_ERR_POISON "Poison error" QDMA_OFFSET_GLBL_DSC_ERR_MASK QDMA_OFFSET_GLBL_DSC_ERR_STAT QDMA_GLBL_DSC_ERR_POISON_MASK QDMA_GLBL_ERR_DSC_MASK qdma_hw_desc_err_process;
   mk_err QDMA_DSC_ERR_UR_CA "Unsupported request or completer aborted error" QDMA_OFFSET_GLBL_DSC_ERR_MASK QDMA_OFFSET_GLBL_DSC_ERR_STAT QDMA_GLBL_DSC_ERR_UR_CA_MASK QDMA_GLBL_ERR_DSC_MASK qdma_hw_desc_err_process;
   mk_err QDMA_DSC_ERR_PARAM "Parameter mismatch error" QDMA_OFFSET_GLBL_DSC_ERR_MASK QDMA_OFFSET_GLBL_DSC_ERR_STAT QDMA_GLBL_DSC_ERR_PARAM_MASK QDMA_GLBL_ERR_DSC_MASK qdma_hw_desc_err_process;
   mk_err QDMA_DSC_ERR_ADDR "Address mismatch error" QDMA_OFFSET_GLBL_DSC_ERR_MASK QDMA_OFFSET_GLBL_DSC_ERR_STAT QDMA_GLBL_DSC_ERR_ADDR_MASK QDMA_GLBL_ERR_DSC_MASK qdma_hw_desc_err_process;
   mk_err QDMA_DSC_ERR_TAG "Unexpected tag error" QDMA_OFFSET_GLBL_DSC_ERR_MASK QDMA_OFFSET_GLBL_DSC_ERR_STAT QDMA_GLBL_DSC_ERR_TAG_MASK QDMA_GLBL_ERR_DSC_MASK qdma_hw_desc_err_process;
   mk_err QDMA_DSC_ERR_FLR "FLR error" QDMA_OFFSET_GLBL_DSC_ERR_MASK QDMA_OFFSET_GLBL_DSC_ERR_STAT QDMA_GLBL_DSC_ERR_FLR_MASK QDMA_GLBL_ERR_DSC_MASK qdma_hw_desc_err_process;
   mk_err QDMA_DSC_ERR_TIMEOUT "Timed out error" QDMA_OFFSET_GLBL_DSC_ERR_MASK QDMA_OFFSET_GLBL_DSC_ERR_STAT QDMA_GLBL_DSC_ERR_TIMEOUT_MASK QDMA_GLBL_ERR_DSC_MASK qdma_hw_desc_err_process;
   mk_err QDMA_DSC_ERR_DAT_POISON "Poison data error" QDMA_OFFSET_GLBL_DSC_ERR_MASK QDMA_OFFSET_GLBL_DSC_ERR_STAT QDMA_GLBL_DSC_ERR_DAT_POISON_MASK QDMA_GLBL_ERR_DSC_MASK qdma_hw_desc_err_process;
   mk_err QDMA_DSC_ERR_FLR_CANCEL "Descriptor fetch cancelled due to FLR error" QDMA_OFFSET_GLBL_DSC_ERR_MASK QDMA_OFFSET_GLBL_DSC_ERR_STAT QDMA_GLBL_DSC_ERR_FLR_CANCEL_MASK QDMA_GLBL_ERR_DSC_MASK qdma_hw_desc_err_process;
   mk_err QDMA_DSC_ERR_DMA "DMA engine error" QDMA_OFFSET_GLBL_DSC_ERR_MASK QDMA_OFFSET_GLBL_DSC_ERR_STAT QDMA_GLBL_DSC_ERR_DMA_MASK QDMA_GLBL_ERR_DSC_MASK qdma_hw_desc_err_process;
   mk_err QDMA_DSC_ERR_DSC "Invalid PIDX update error" QDMA_OFFSET_GLBL_DSC_ERR_MASK QDMA_OFFSET_GLBL_DSC_ERR_STAT QDMA_GLBL_DSC_ERR_DSC_MASK QDMA_GLBL_ERR_DSC_MASK qdma_hw_desc_err_process;
   mk_err QDMA_DSC_ERR_RQ_CANCEL "Descriptor fetch cancelled due to disable register status error" QDMA_OFFSET_GLBL_DSC_ERR_MASK QDMA_OFFSET_GLBL_DSC_ERR_STAT QDMA_GLBL_DSC_ERR_RQ_CANCEL_MASK QDMA_GLBL_ERR_DSC_MASK qdma_hw_desc_err_process;
   mk_err QDMA_DSC_ERR_DBE "UNC_ERR_RAM_DBE error" QDMA_OFFSET_GLBL_DSC_ERR_MASK QDMA_OFFSET_GLBL_DSC_ERR_STAT QDMA_GLBL_DSC_ERR_DBE_MASK QDMA_GLBL_ERR_DSC_MASK qdma_hw_desc_err_process;
   mk_err QDMA_DSC_ERR_SBE "UNC_ERR_RAM_SBE error" QDMA_OFFSET_GLBL_DSC_ERR_MASK QDMA_OFFSET_GLBL_DSC_ERR_STAT QDMA_GLBL_DSC_ERR_SBE_MASK QDMA_GLBL_ERR_DSC_MASK qdma_hw_desc_err_process;
   mk_err QDMA_DSC_ERR_ALL "All Descriptor errors" QDMA_OFFSET_GLBL_DSC_ERR_MASK QDMA_OFFSET_GLBL_DSC_ERR_STAT QDMA_GLBL_DSC_ERR_ALL_MASK QDMA_GLBL_ERR_DSC_MASK qdma_hw_desc_err_process;
   mk_err QDMA_TRQ_ERR_UNMAPPED "Access targeted unmapped register space error" QDMA_OFFSET_GLBL_TRQ_ERR_MASK QDMA_OFFSET_GLBL_TRQ_ERR_STAT QDMA_GLBL_TRQ_ERR_UNMAPPED_MASK QDMA_GLBL_ERR_TRQ_MASK qdma_hw_trq_err_process].

Definition qdma_err_info_2 : list hw_err_info :=
  [mk_err QDMA_TRQ_ERR_QID_RANGE "Qid range error" QDMA_OFFSET_GLBL_TRQ_ERR_MASK QDMA_OFFSET_GLBL_TRQ_ERR_STAT QDMA_GLBL_TRQ_ERR_QID_RANGE_MASK QDMA_GLBL_ERR_TRQ_MASK qdma_hw_trq_err_process;
   mk_err QDMA_TRQ_ERR_VF_ACCESS "Invalid VF access error" QDMA_OFFSET_GLBL_TRQ_ERR_MASK QDMA_OFFSET_GLBL_TRQ_ERR_STAT QDMA_GLBL_TRQ_ERR_VF_ACCESS_MASK QDMA_GLBL_ERR_TRQ_MASK qdma_hw_trq_err_process;
   mk_err QDMA_TRQ_ERR_TCP_TIMEOUT "Timeout on request error" QDMA_OFFSET_GLBL_TRQ_ERR_MASK QDMA_OFFSET_GLBL_TRQ_ERR_STAT QDMA_GLBL_TRQ_ERR_TCP_TIMEOUT_MASK QDMA_GLBL_ERR_TRQ_MASK qdma_hw_trq_err_process;
   mk_err QDMA_TRQ_ERR_ALL "All TRQ errors" QDMA_OFFSET_GLBL_TRQ_ERR_MASK QDMA_OFFSET_GLBL_TRQ_ERR_STAT QDMA_GLBL_TRQ_ERR_ALL_MASK QDMA_GLBL_ERR_TRQ_MASK qdma_hw_trq_err_process;
   mk_err QDMA_ST_C2H_ERR_MTY_MISMATCH "MTY mismatch error" QDMA_OFFSET_C2H_ERR_MASK QDMA_OFFSET_C2H_ERR_STAT QDMA_C2H_ERR_MTY_MISMATCH_MASK QDMA_GLBL_ERR_ST_C2H_MASK qdma_hw_st_c2h_err_process;
   mk_err QDMA_ST_C2H_ERR_LEN_MISMATCH "Packet length mismatch error" QDMA_OFFSET_C2H_ERR_MASK QDMA_OFFSET_C2H_ERR_STAT QDMA_C2H_ERR_LEN_MISMATCH_MASK QDMA_GLBL_ERR_ST_C2H_MASK qdma_hw_st_c2h_err_process;
   mk_err QDMA_ST_C2H_ERR_QID_MISMATCH "Qid mismatch error" QDMA_OFFSET_C2H_ERR_MASK QDMA_OFFSET_C2H_ERR_STAT QDMA_C2H_ERR_QID_MISMATCH_MASK QDMA_GLBL_ERR_ST_C2H_MASK qdma_hw_st_c2h_err_process;
   mk_err QDMA_ST_C2H_ERR_DESC_RSP_ERR "Descriptor error bit set" QDMA_OFFSET_C2H_ERR_MASK QDMA_OFFSET_C2H_ERR_STAT QDMA_C2H_ERR_DESC_RSP_ERR_MASK QDMA_GLBL_ERR_ST_C2H_MASK qdma_hw_st_c2h_err_process;
   mk_err QDMA_ST_C2H_ERR_ENG_WPL_DATA_PAR_ERR "Data parity error" QDMA_OFFSET_C2H_ERR_MASK QDMA_OFFSET_C2H_ERR_STAT QDMA_C2H_ERR_ENG_WPL_DATA_PAR_ERR_MASK QDMA_GLBL_ERR_ST_C2H_MASK qdma_hw_st_c2h_err_process;
   mk_err QDMA_ST_C2H_ERR_MSI_INT_FAIL "MSI got a fail response error" QDMA_OFFSET_C2H_ERR_MASK QDMA_OFFSET_C2H_ERR_STAT QDMA_C2H_ERR_MSI_INT_FAIL_MASK QDMA_GLBL_ERR_ST_C2H_MASK qdma_hw_st_c2h_err_process;
   mk_err QDMA_ST_C2H_ERR_ERR_DESC_CNT "Descriptor count error" QDMA_OFFSET_C2H_ERR_MASK QDMA_OFFSET_C2H_ERR_STAT QDMA_C2H_ERR_ERR_DESC_CNT_MASK QDMA_GLBL_ERR_ST_C2H_MASK qdma_hw_st_c2h_err_process;
   mk_err QDMA_ST_C2H_ERR_PORTID_CTXT_MISMATCH "Port id in packet and pfetch ctxt mismatch error" QDMA_OFFSET_C2H_ERR_MASK QDMA_OFFSET_C2H_ERR_STAT QDMA_C2H_ERR_PORTID_CTXT_MISMATCH_MASK QDMA_GLBL_ERR_ST_C2H_MASK qdma_hw_st_c2h_err_process;
   mk_err QDMA_ST_C2H_ERR_PORTID_BYP_IN_MISMATCH "Port id in packet and bypass interface mismatch error" QDMA_OFFSET_C2H_ERR_MASK QDMA_OFFSET_C2H_ERR_STAT QDMA_C2H_ERR_PORTID_BYP_IN_MISMATCH_MASK QDMA_GLBL_ERR_ST_C2H_MASK qdma_hw_st_c2h_err_process;
   mk_err QDMA_ST_C2H_ERR_CMPT_INV_Q_ERR "Writeback on invalid queue error" QDMA_OFFSET_C2H_ERR_MASK QDMA_OFFSET_C2H_ERR_STAT QDMA_C2H_ERR_CMPT_INV_Q_ERR_MASK QDMA_GLBL_ERR_ST_C2H_MASK qdma_hw_st_c2h_err_process;
   mk_err QDMA_ST_C2H_ERR_CMPT_QFULL_ERR "Completion queue gets full error" QDMA_OFFSET_C2H_ERR_MASK QDMA_OFFSET_C2H_ERR_STAT QDMA_C2H_ERR_CMPT_QFULL_ERR_MASK QDMA_GLBL_ERR_ST_C2H_MASK qdma_hw_st_c2h_err_process;
   mk_err QDMA_ST_C2H_ERR_CMPT_CIDX_ERR "Bad CIDX update by the software error" QDMA_OFFSET_C2H_ERR_MASK QDMA_OFFSET_C2H_ERR_STAT QDMA_C2H_ERR_CMPT_CIDX_ERR_MASK QDMA_GLBL_ERR_ST_C2H_MASK qdma_hw_st_c2h_err_process].

Definition qdma_err_info_3 : list hw_err_info :=
  [mk_err QDMA_ST_C2H_ERR_CMPT_PRTY_ERR "C2H completion Parity error" QDMA_OFFSET_C2H_ERR_MASK QDMA_OFFSET_C2H_ERR_STAT QDMA_C2H_ERR_CMPT_PRTY_ERR_MASK QDMA_GLBL_ERR_ST_C2H_MASK qdma_hw_st_c2h_err_process;
   mk_err QDMA_ST_C2H_ERR_ALL "All C2h errors" QDMA_OFFSET_C2H_ERR_MASK QDMA_OFFSET_C2H_ERR_STAT QDMA_C2H_ERR_ALL_MASK QDMA_GLBL_ERR_ST_C2H_MASK qdma_hw_st_c2h_err_process;
   mk_err QDMA_ST_FATAL_ERR_MTY_MISMATCH "Fatal MTY mismatch error" QDMA_OFFSET_C2H_FATAL_ERR_MASK QDMA_OFFSET_C2H_FATAL_ERR_STAT QDMA_C2H_FATAL_ERR_MTY_MISMATCH_MASK QDMA_GLBL_ERR_ST_C2H_MASK qdma_hw_st_c2h_err_process;
   mk_err QDMA_ST_FATAL_ERR_LEN_MISMATCH "Fatal Len mismatch error" QDMA_OFFSET_C2H_FATAL_ERR_MASK QDMA_OFFSET_C2H_FATAL_ERR_STAT QDMA_C2H_FATAL_ERR_LEN_MISMATCH_MASK QDMA_GLBL_ERR_ST_C2H_MASK qdma_hw_st_c2h_err_process;
   mk_err QDMA_ST_FATAL_ERR_QID_MISMATCH "Fatal Qid mismatch error" QDMA_OFFSET_C2H_FATAL_ERR_MASK QDMA_OFFSET_C2H_FATAL_ERR_STAT QDMA_C2H_FATAL_ERR_QID_MISMATCH_MASK QDMA_GLBL_ERR_ST_C2H_MASK qdma_hw_st_c2h_err_process;
   mk_err QDMA_ST_FATAL_ERR_TIMER_FIFO_RAM_RDBE "RAM double bit fatal error" QDMA_OFFSET_C2H_FATAL_ERR_MASK QDMA_OFFSET_C2H_FATAL_ERR_STAT QDMA_C2H_FATAL_ERR_TIMER_FIFO_RAM_RDBE_MASK QDMA_GLBL_ERR_ST_C2H_MASK qdma_hw_st_c2h_err_process;
   mk_err QDMA_ST_FATAL_ERR_PFCH_II_RAM_RDBE "RAM double bit fatal error" QDMA_OFFSET_C2H_FATAL_ERR_MASK QDMA_OFFSET_C2H_FATAL_ERR_STAT QDMA_C2H_FATAL_ERR_PFCH_II_RAM_RDBE_MASK QDMA_GLBL_ERR_ST_C2H_MASK qdma_hw_st_c2h_err_process;
   mk_err QDMA_ST_FATAL_ERR_CMPT_CTXT_RAM_RDBE "RAM double bit fatal error" QDMA_OFFSET_C2H_FATAL_ERR_MASK QDMA_OFFSET_C2H_FATAL_ERR_STAT QDMA_C2H_FATAL_ERR_CMPT_CTXT_RAM_RDBE_MASK QDMA_GLBL_ERR_ST_C2H_MASK qdma_hw_st_c2h_err_process;
   mk_err QDMA_ST_FATAL_ERR_PFCH_CTXT_RAM_RDBE "RAM double bit fatal error" QDMA_OFFSET_C2H_FATAL_ERR_MASK QDMA_OFFSET_C2H_FATAL_ERR_STAT QDMA_C2H_FATAL_ERR_PFCH_CTXT_RAM_RDBE_MASK QDMA_GLBL_ERR_ST_C2H_MASK qdma_hw_st_c2h_err_process;
   mk_err QDMA_ST_FATAL_ERR_DESC_REQ_FIFO_RAM_RDBE "RAM double bit fatal error" QDMA_OFFSET_C2H_FATAL_ERR_MASK QDMA_OFFSET_C2H_FATAL_ERR_STAT QDMA_C2H_FATAL_ERR_DESC_REQ_FIFO_RAM_RDBE_MASK QDMA_GLBL_ERR_ST_C2H_MASK qdma_hw_st_c2h_err_process;
   mk_err QDMA_ST_FATAL_ERR_INT_CTXT_RAM_RDBE "RAM double bit fatal error" QDMA_OFFSET_C2H_FATAL_ERR_MASK QDMA_OFFSET_C2H_FATAL_ERR_STAT QDMA_C2H_FATAL_ERR_INT_CTXT_RAM_RDBE_MASK QDMA_GLBL_ERR_ST_C2H_MASK qdma_hw_st_c2h_err_process;
   mk_err QDMA_ST_FATAL_ERR_CMPT_COAL_DATA_RAM_RDBE "RAM double bit fatal error" QDMA_OFFSET_C2H_FATAL_ERR_MASK QDMA_OFFSET_C2H_FATAL_ERR_STAT QDMA_C2H_FATAL_ERR_CMPT_COAL_DATA_RAM_RDBE_MASK QDMA_GLBL_ERR_ST_C2H_MASK qdma_hw_st_c2h_err_process;
   mk_err QDMA_ST_FATAL_ERR_TUSER_FIFO_RAM_RDBE "RAM double bit fatal error" QDMA_OFFSET_C2H_FATAL_ERR_MASK QDMA_OFFSET_C2H_FATAL_ERR_STAT QDMA_C2H_FATAL_ERR_TUSER_FIFO_RAM_RDBE_MASK QDMA_GLBL_ERR_ST_C2H_MASK qdma_hw_st_c2h_err_process;
   mk_err QDMA_ST_FATAL_ERR_QID_FIFO_RAM_RDBE "RAM double bit fatal error" QDMA_OFFSET_C2H_FATAL_ERR_MASK QDMA_OFFSET_C2H_FATAL_ERR_STAT QDMA_C2H_FATAL_ERR_QID_FIFO_RAM_RDBE_MASK QDMA_GLBL_ERR_ST_C2H_MASK qdma_hw_st_c2h_err_process;
   mk_err QDMA_ST_FATAL_ERR_PAYLOAD_FIFO_RAM_RDBE "RAM double bit fatal error" QDMA_OFFSET_C2H_FATAL_ERR_MASK QDMA_OFFSET_C2H_FATAL_ERR_STAT QDMA_C2H_FATAL_ERR_PAYLOAD_FIFO_RAM_RDBE_MASK QDMA_GLBL_ERR_ST_C2H_MASK qdma_hw_st_c2h_err_process;
   mk_err QDMA_ST_FATAL_ERR_WPL_DATA_PAR "RAM double bit fatal error" QDMA_OFFSET_C2H_FATAL_ERR_MASK QDMA_OFFSET_C2H_FATAL_ERR_STAT QDMA_C2H_FATAL_ERR_WPL_DATA_PAR_MASK QDMA_GLBL_ERR_ST_C2H_MASK qdma_hw_st_c2h_err_process].

Definition qdma_err_info_4 : list hw_err_info :=
  [mk_err QDMA_ST_FATAL_ERR_ALL "All fatal errors" QDMA_OFFSET_C2H_FATAL_ERR_MASK QDMA_OFFSET_C2H_FATAL_ERR_STAT QDMA_C2H_FATAL_ERR_ALL_MASK QDMA_GLBL_ERR_ST_C2H_MASK qdma_hw_st_c2h_err_process;
   mk_err QDMA_ST_H2C_ERR_ZERO_LEN_DESC "Zero length descriptor error" QDMA_OFFSET_H2C_ERR_MASK QDMA_OFFSET_H2C_ERR_STAT QDMA_H2C_ERR_ZERO_LEN_DESC_MASK QDMA_GLBL_ERR_ST_H2C_MASK qdma_hw_st_h2c_err_process;
   mk_err QDMA_ST_H2C_ERR_CSI_MOP "Non EOP descriptor received error" QDMA_OFFSET_H2C_ERR_MASK QDMA_OFFSET_H2C_ERR_STAT QDMA_H2C_ERR_CSI_MOP_MASK QDMA_GLBL_ERR_ST_H2C_MASK qdma_hw_st_h2c_err_process;
   mk_err QDMA_ST_H2C_ERR_NO_DMA_DSC "No DMA descriptor received error" QDMA_OFFSET_H2C_ERR_MASK QDMA_OFFSET_H2C_ERR_STAT QDMA_H2C_ERR_NO_DMA_DSC_MASK QDMA_GLBL_ERR_ST_H2C_MASK qdma_hw_st_h2c_err_process;
   mk_err QDMA_ST_H2C_ERR_SBE "Single bit error detected on H2C-ST data error" QDMA_OFFSET_H2C_ERR_MASK QDMA_OFFSET_H2C_ERR_STAT QDMA_H2C_ERR_SBE_MASK QDMA_GLBL_ERR_ST_H2C_MASK qdma_hw_st_h2c_err_process;
   mk_err QDMA_ST_H2C_ERR_DBE "Double bit error detected on H2C-ST data error" QDMA_OFFSET_H2C_ERR_MASK QDMA_OFFSET_H2C_ERR_STAT QDMA_H2C_ERR_DBE_MASK QDMA_GLBL_ERR_ST_H2C_MASK qdma_hw_st_h2c_err_process;
   mk_err QDMA_ST_H2C_ERR_ALL "All H2C errors" QDMA_OFFSET_H2C_ERR_MASK QDMA_OFFSET_H2C_ERR_STAT QDMA_H2C_ERR_ALL_MASK QDMA_GLBL_ERR_ST_H2C_MASK qdma_hw_st_h2c_err_process;
   mk_err QDMA_SBE_ERR_MI_H2C0_DAT "H2C MM data buffer single bit ECC error" QDMA_OFFSET_RAM_SBE_MASK QDMA_OFFSET_RAM_SBE_STAT QDMA_SBE_ERR_MI_H2C0_DAT_MASK QDMA_GLBL_ERR_RAM_SBE_MASK qdma_hw_ram_sbe_err_process;
   mk_err QDMA_SBE_ERR_MI_C2H0_DAT "C2H MM data buffer single bit ECC error" QDMA_OFFSET_RAM_SBE_MASK QDMA_OFFSET_RAM_SBE_STAT QDMA_SBE_ERR_MI_C2H0_DAT_MASK QDMA_GLBL_ERR_RAM_SBE_MASK qdma_hw_ram_sbe_err_process;
   mk_err QDMA_SBE_ERR_H2C_RD_BRG_DAT "Bridge master read single bit ECC error" QDMA_OFFSET_RAM_SBE_MASK QDMA_OFFSET_RAM_SBE_STAT QDMA_SBE_ERR_H2C_RD_BRG_DAT_MASK QDMA_GLBL_ERR_RAM_SBE_MASK qdma_hw_ram_sbe_err_process;
   mk_err QDMA_SBE_ERR_H2C_WR_BRG_DAT "Bridge master write single bit ECC error" QDMA_OFFSET_RAM_SBE_MASK QDMA_OFFSET_RAM_SBE_STAT QDMA_SBE_ERR_H2C_WR_BRG_DAT_MASK QDMA_GLBL_ERR_RAM_SBE_MASK qdma_hw_ram_sbe_err_process;
   mk_err QDMA_SBE_ERR_C2H_RD_BRG_DAT "Bridge slave read data buffer single bit ECC error" QDMA_OFFSET_RAM_SBE_MASK QDMA_OFFSET_RAM_SBE_STAT QDMA_SBE_ERR_C2H_RD_BRG_DAT_MASK QDMA_GLBL_ERR_RAM_SBE_MASK qdma_hw_ram_sbe_err_process;
   mk_err QDMA_SBE_ERR_C2H_WR_BRG_DAT "Bridge slave write data buffer single bit ECC error" QDMA_OFFSET_RAM_SBE_MASK QDMA_OFFSET_RAM_SBE_STAT QDMA_SBE_ERR_C2H_WR_BRG_DAT_MASK QDMA_GLBL_ERR_RAM_SBE_MASK qdma_hw_ram_sbe_err_process;
   mk_err QDMA_SBE_ERR_FUNC_MAP "Function map RAM single bit ECC error" QDMA_OFFSET_RAM_SBE_MASK QDMA_OFFSET_RAM_SBE_STAT QDMA_SBE_ERR_FUNC_MAP_MASK QDMA_GLBL_ERR_RAM_SBE_MASK qdma_hw_ram_sbe_err_process;
   mk_err QDMA_SBE_ERR_DSC_HW_CTXT "Descriptor engine hardware context RAM single bit ECC error" QDMA_OFFSET_RAM_SBE_MASK QDMA_OFFSET_RAM_SBE_STAT QDMA_SBE_ERR_DSC_HW_CTXT_MASK QDMA_GLBL_ERR_RAM_SBE_MASK qdma_hw_ram_sbe_err_process;
   mk_err QDMA_SBE_ERR_DSC_CRD_RCV "Descriptor engine receive credit context RAM single bit ECC error" QDMA_OFFSET_RAM_SBE_MASK QDMA_OFFSET_RAM_SBE_STAT QDMA_SBE_ERR_DSC_CRD_RCV_MASK QDMA_GLBL_ERR_RAM_SBE_MASK qdma_hw_ram_sbe_err_process].

Definition qdma_err_info_5 : list hw_err_info :=
  [mk_err QDMA_SBE_ERR_DSC_SW_CTXT "Descriptor engine software context RAM single bit ECC error" QDMA_OFFSET_RAM_SBE_MASK QDMA_OFFSET_RAM_SBE_STAT QDMA_SBE_ERR_DSC_SW_CTXT_MASK QDMA_GLBL_ERR_RAM_SBE_MASK qdma_hw_ram_sbe_err_process;
   mk_err QDMA_SBE_ERR_DSC_CPLI "Descriptor engine fetch completion information RAM single bit ECC error" QDMA_OFFSET_RAM_SBE_MASK QDMA_OFFSET_RAM_SBE_STAT QDMA_SBE_ERR_DSC_CPLI_MASK QDMA_GLBL_ERR_RAM_SBE_MASK qdma_hw_ram_sbe_err_process;
   mk_err QDMA_SBE_ERR_DSC_CPLD "Descriptor engine fetch completion data RAM single bit ECC error" QDMA_OFFSET_RAM_SBE_MASK QDMA_OFFSET_RAM_SBE_STAT QDMA_SBE_ERR_DSC_CPLD_MASK QDMA_GLBL_ERR_RAM_SBE_MASK qdma_hw_ram_sbe_err_process;
   mk_err QDMA_SBE_ERR_PASID_CTXT_RAM "PASID configuration RAM single bit ECC error" QDMA_OFFSET_RAM_SBE_MASK QDMA_OFFSET_RAM_SBE_STAT QDMA_SBE_ERR_PASID_CTXT_RAM_MASK QDMA_GLBL_ERR_RAM_SBE_MASK qdma_hw_ram_sbe_err_process;
   mk_err QDMA_SBE_ERR_TIMER_FIFO_RAM "Timer fifo RAM single bit ECC error" QDMA_OFFSET_RAM_SBE_MASK QDMA_OFFSET_RAM_SBE_STAT QDMA_SBE_ERR_TIMER_FIFO_RAM_MASK QDMA_GLBL_ERR_RAM_SBE_MASK qdma_hw_ram_sbe_err_process;
   mk_err QDMA_SBE_ERR_PAYLOAD_FIFO_RAM "C2H ST payload RAM single bit ECC error" QDMA_OFFSET_RAM_SBE_MASK QDMA_OFFSET_RAM_SBE_STAT QDMA_SBE_ERR_PAYLOAD_FIFO_RAM_MASK QDMA_GLBL_ERR_RAM_SBE_MASK qdma_hw_ram_sbe_err_process;
   mk_err QDMA_SBE_ERR_QID_FIFO_RAM "C2H ST QID FIFO RAM single bit ECC error" QDMA_OFFSET_RAM_SBE_MASK QDMA_OFFSET_RAM_SBE_STAT QDMA_SBE_ERR_QID_FIFO_RAM_MASK QDMA_GLBL_ERR_RAM_SBE_MASK qdma_hw_ram_sbe_err_process;
   mk_err QDMA_SBE_ERR_TUSER_FIFO_RAM "C2H ST TUSER RAM single bit ECC error" QDMA_OFFSET_RAM_SBE_MASK QDMA_OFFSET_RAM_SBE_STAT QDMA_SBE_ERR_TUSER_FIFO_RAM_MASK QDMA_GLBL_ERR_RAM_SBE_MASK qdma_hw_ram_sbe_err_process;
   mk_err QDMA_SBE_ERR_WRB_COAL_DATA_RAM "Completion Coalescing RAM single bit ECC error" QDMA_OFFSET_RAM_SBE_MASK QDMA_OFFSET_RAM_SBE_STAT QDMA_SBE_ERR_WRB_COAL_DATA_RAM_MASK QDMA_GLBL_ERR_RAM_SBE_MASK qdma_hw_ram_sbe_err_process;
   mk_err QDMA_SBE_ERR_INT_QID2VEC_RAM "Interrupt QID2VEC RAM single bit ECC error" QDMA_OFFSET_RAM_SBE_MASK QDMA_OFFSET_RAM_SBE_STAT QDMA_SBE_ERR_INT_QID2VEC_RAM_MASK QDMA_GLBL_ERR_RAM_SBE_MASK qdma_hw_ram_sbe_err_process;
   mk_err QDMA_SBE_ERR_INT_CTXT_RAM "Interrupt context RAM single bit ECC error" QDMA_OFFSET_RAM_SBE_MASK QDMA_OFFSET_RAM_SBE_STAT QDMA_SBE_ERR_INT_CTXT_RAM_MASK QDMA_GLBL_ERR_RAM_SBE_MASK qdma_hw_ram_sbe_err_process;
   mk_err QDMA_SBE_ERR_DESC_REQ_FIFO_RAM "C2H ST descriptor request RAM single bit ECC error" QDMA_OFFSET_RAM_SBE_MASK QDMA_OFFSET_RAM_SBE_STAT QDMA_SBE_ERR_DESC_REQ_FIFO_RAM_MASK QDMA_GLBL_ERR_RAM_SBE_MASK qdma_hw_ram_sbe_err_process;
   mk_err QDMA_SBE_ERR_PFCH_CTXT_RAM "C2H ST prefetch RAM single bit ECC error" QDMA_OFFSET_RAM_SBE_MASK QDMA_OFFSET_RAM_SBE_STAT QDMA_SBE_ERR_PFCH_CTXT_RAM_MASK QDMA_GLBL_ERR_RAM_SBE_MASK qdma_hw_ram_sbe_err_process;
   mk_err QDMA_SBE_ERR_WRB_CTXT_RAM "C2H ST completion context RAM single bit ECC error" QDMA_OFFSET_RAM_SBE_MASK QDMA_OFFSET_RAM_SBE_STAT QDMA_SBE_ERR_WRB_CTXT_RAM_MASK QDMA_GLBL_ERR_RAM_SBE_MASK qdma_hw_ram_sbe_err_process;
   mk_err QDMA_SBE_ERR_PFCH_LL_RAM "C2H ST prefetch list RAM single bit ECC error" QDMA_OFFSET_RAM_SBE_MASK QDMA_OFFSET_RAM_SBE_STAT QDMA_SBE_ERR_PFCH_LL_RAM_MASK QDMA_GLBL_ERR_RAM_SBE_MASK qdma_hw_ram_sbe_err_process;
   mk_err QDMA_SBE_ERR_H2C_PEND_FIFO "H2C ST pending fifo RAM single bit ECC error" QDMA_OFFSET_RAM_SBE_MASK QDMA_OFFSET_RAM_SBE_STAT QDMA_SBE_ERR_H2C_PEND_FIFO_MASK QDMA_GLBL_ERR_RAM_SBE_MASK qdma_hw_ram_sbe_err_process].

Definition qdma_err_info_6 : list hw_err_info :=
  [mk_err QDMA_SBE_ERR_ALL "All SBE errors" QDMA_OFFSET_RAM_SBE_MASK QDMA_OFFSET_RAM_SBE_STAT QDMA_SBE_ERR_ALL_MASK QDMA_GLBL_ERR_RAM_SBE_MASK qdma_hw_ram_sbe_err_process;
   mk_err QDMA_DBE_ERR_MI_H2C0_DAT "H2C MM data buffer double bit ECC error" QDMA_OFFSET_RAM_DBE_MASK QDMA_OFFSET_RAM_DBE_STAT QDMA_DBE_ERR_MI_H2C0_DAT_MASK QDMA_GLBL_ERR_RAM_DBE_MASK qdma_hw_ram_dbe_err_process;
   mk_err QDMA_DBE_ERR_MI_C2H0_DAT "C2H MM data buffer double bit ECC error" QDMA_OFFSET_RAM_DBE_MASK QDMA_OFFSET_RAM_DBE_STAT QDMA_DBE_ERR_MI_C2H0_DAT_MASK QDMA_GLBL_ERR_RAM_DBE_MASK qdma_hw_ram_dbe_err_process;
   mk_err QDMA_DBE_ERR_H2C_RD_BRG_DAT "Bridge master read double bit ECC error" QDMA_OFFSET_RAM_DBE_MASK QDMA_OFFSET_RAM_DBE_STAT QDMA_DBE_ERR_H2C_RD_BRG_DAT_MASK QDMA_GLBL_ERR_RAM_DBE_MASK qdma_hw_ram_dbe_err_process;
   mk_err QDMA_DBE_ERR_H2C_WR_BRG_DAT "Bridge master write double bit ECC error" QDMA_OFFSET_RAM_DBE_MASK QDMA_OFFSET_RAM_DBE_STAT QDMA_DBE_ERR_H2C_WR_BRG_DAT_MASK QDMA_GLBL_ERR_RAM_DBE_MASK qdma_hw_ram_dbe_err_process;
   mk_err QDMA_DBE_ERR_C2H_RD_BRG_DAT "Bridge slave read data buffer double bit ECC error" QDMA_OFFSET_RAM_DBE_MASK QDMA_OFFSET_RAM_DBE_STAT QDMA_DBE_ERR_C2H_RD_BRG_DAT_MASK QDMA_GLBL_ERR_RAM_DBE_MASK qdma_hw_ram_dbe_err_process;
   mk_err QDMA_DBE_ERR_C2H_WR_BRG_DAT "Bridge slave write data buffer double bit ECC error" QDMA_OFFSET_RAM_DBE_MASK QDMA_OFFSET_RAM_DBE_STAT QDMA_DBE_ERR_C2H_WR_BRG_DAT_MASK QDMA_GLBL_ERR_RAM_DBE_MASK qdma_hw_ram_dbe_err_process;
   mk_err QDMA_DBE_ERR_FUNC_MAP "Function map RAM double bit ECC error" QDMA_OFFSET_RAM_DBE_MASK QDMA_OFFSET_RAM_DBE_STAT QDMA_DBE_ERR_FUNC_MAP_MASK QDMA_GLBL_ERR_RAM_DBE_MASK qdma_hw_ram_dbe_err_process;
   mk_err QDMA_DBE_ERR_DSC_HW_CTXT "Descriptor engine hardware context RAM double bit ECC error" QDMA_OFFSET_RAM_DBE_MASK QDMA_OFFSET_RAM_DBE_STAT QDMA_DBE_ERR_DSC_HW_CTXT_MASK QDMA_GLBL_ERR_RAM_DBE_MASK qdma_hw_ram_dbe_err_process;
   mk_err QDMA_DBE_ERR_DSC_CRD_RCV "Descriptor engine receive credit context RAM double bit ECC error" QDMA_OFFSET_RAM_DBE_MASK QDMA_OFFSET_RAM_DBE_STAT QDMA_DBE_ERR_DSC_CRD_RCV_MASK QDMA_GLBL_ERR_RAM_DBE_MASK qdma_hw_ram_dbe_err_process;
   mk_err QDMA_DBE_ERR_DSC_SW_CTXT "Descriptor engine software context RAM double bit ECC error" QDMA_OFFSET_RAM_DBE_MASK QDMA_OFFSET_RAM_DBE_STAT QDMA_DBE_ERR_DSC_SW_CTXT_MASK QDMA_GLBL_ERR_RAM_DBE_MASK qdma_hw_ram_dbe_err_process;
   mk_err QDMA_DBE_ERR_DSC_CPLI "Descriptor engine fetch completion information RAM double bit ECC error" QDMA_OFFSET_RAM_DBE_MASK QDMA_OFFSET_RAM_DBE_STAT QDMA_DBE_ERR_DSC_CPLI_MASK QDMA_GLBL_ERR_RAM_DBE_MASK qdma_hw_ram_dbe_err_process;
   mk_err QDMA_DBE_ERR_DSC_CPLD "Descriptor engine fetch completion data RAM double bit ECC error" QDMA_OFFSET_RAM_DBE_MASK QDMA_OFFSET_RAM_DBE_STAT QDMA_DBE_ERR_DSC_CPLD_MASK QDMA_GLBL_ERR_RAM_DBE_MASK qdma_hw_ram_dbe_err_process;
   mk_err QDMA_DBE_ERR_PASID_CTXT_RAM "PASID configuration RAM double bit ECC error" QDMA_OFFSET_RAM_DBE_MASK QDMA_OFFSET_RAM_DBE_STAT QDMA_DBE_ERR_PASID_CTXT_RAM_MASK QDMA_GLBL_ERR_RAM_DBE_MASK qdma_hw_ram_dbe_err_process;
   mk_err QDMA_DBE_ERR_TIMER_FIFO_RAM "Timer fifo RAM double bit ECC error" QDMA_OFFSET_RAM_DBE_MASK QDMA_OFFSET_RAM_DBE_STAT QDMA_DBE_ERR_TIMER_FIFO_RAM_MASK QDMA_GLBL_ERR_RAM_DBE_MASK qdma_hw_ram_dbe_err_process;
   mk_err QDMA_DBE_ERR_PAYLOAD_FIFO_RAM "C2H ST payload RAM double bit ECC error" QDMA_OFFSET_RAM_DBE_MASK QDMA_OFFSET_RAM_DBE_STAT QDMA_DBE_ERR_PAYLOAD_FIFO_RAM_MASK QDMA_GLBL_ERR_RAM_DBE_MASK qdma_hw_ram_dbe_err_process].

Definition qdma_err_info_7 : list hw_err_info :=
  [mk_err QDMA_DBE_ERR_QID_FIFO_RAM "C2H ST QID FIFO RAM double bit ECC error" QDMA_OFFSET_RAM_DBE_MASK QDMA_OFFSET_RAM_DBE_STAT QDMA_DBE_ERR_QID_FIFO_RAM_MASK QDMA_GLBL_ERR_RAM_DBE_MASK qdma_hw_ram_dbe_err_process;
   mk_err QDMA_DBE_ERR_TUSER_FIFO_RAM "C2H ST TUSER RAM double bit ECC error" QDMA_OFFSET_RAM_DBE_MASK QDMA_OFFSET_RAM_DBE_STAT QDMA_DBE_ERR_TUSER_FIFO_RAM_MASK QDMA_GLBL_ERR_RAM_DBE_MASK qdma_hw_ram_dbe_err_process;
   mk_err QDMA_DBE_ERR_WRB_COAL_DATA_RAM "Completion Coalescing RAM double bit ECC error" QDMA_OFFSET_RAM_DBE_MASK QDMA_OFFSET_RAM_DBE_STAT QDMA_DBE_ERR_WRB_COAL_DATA_RAM_MASK QDMA_GLBL_ERR_RAM_DBE_MASK qdma_hw_ram_dbe_err_process;
   mk_err QDMA_DBE_ERR_INT_QID2VEC_RAM "Interrupt QID2VEC RAM double bit ECC error" QDMA_OFFSET_RAM_DBE_MASK QDMA_OFFSET_RAM_DBE_STAT QDMA_DBE_ERR_INT_QID2VEC_RAM_MASK QDMA_GLBL_ERR_RAM_DBE_MASK qdma_hw_ram_dbe_err_process;
   mk_err QDMA_DBE_ERR_INT_CTXT_RAM "Interrupt context RAM double bit ECC error" QDMA_OFFSET_RAM_DBE_MASK QDMA_OFFSET_RAM_DBE_STAT QDMA_DBE_ERR_INT_CTXT_RAM_MASK QDMA_GLBL_ERR_RAM_DBE_MASK qdma_hw_ram_dbe_err_process;
   mk_err QDMA_DBE_ERR_DESC_REQ_FIFO_RAM "C2H ST descriptor request RAM double bit ECC error" QDMA_OFFSET_RAM_DBE_MASK QDMA_OFFSET_RAM_DBE_STAT QDMA_DBE_ERR_DESC_REQ_FIFO_RAM_MASK QDMA_GLBL_ERR_RAM_DBE_MASK qdma_hw_ram_dbe_err_process;
   mk_err QDMA_DBE_ERR_PFCH_CTXT_RAM "C2H ST prefetch RAM double bit ECC error" QDMA_OFFSET_RAM_DBE_MASK QDMA_OFFSET_RAM_DBE_STAT QDMA_DBE_ERR_PFCH_CTXT_RAM_MASK QDMA_GLBL_ERR_RAM_DBE_MASK qdma_hw_ram_dbe_err_process;
   mk_err QDMA_DBE_ERR_WRB_CTXT_RAM "C2H ST completion context RAM double bit ECC error" QDMA_OFFSET_RAM_DBE_MASK QDMA_OFFSET_RAM_DBE_STAT QDMA_DBE_ERR_WRB_CTXT_RAM_MASK QDMA_GLBL_ERR_RAM_DBE_MASK qdma_hw_ram_dbe_err_process;
   mk_err QDMA_DBE_ERR_PFCH_LL_RAM "C2H ST prefetch list RAM double bit ECC error" QDMA_OFFSET_RAM_DBE_MASK QDMA_OFFSET_RAM_DBE_STAT QDMA_DBE_ERR_PFCH_LL_RAM_MASK QDMA_GLBL_ERR_RAM_DBE_MASK qdma_hw_ram_dbe_err_process;
   mk_err QDMA_DBE_ERR_H2C_PEND_FIFO "H2C pending fifo RAM double bit ECC error" QDMA_OFFSET_RAM_DBE_MASK QDMA_OFFSET_RAM_DBE_STAT QDMA_DBE_ERR_H2C_PEND_FIFO_MASK QDMA_GLBL_ERR_RAM_DBE_MASK qdma_hw_ram_dbe_err_process;
   mk_err QDMA_DBE_ERR_ALL "All DBE errors" QDMA_OFFSET_RAM_DBE_MASK QDMA_OFFSET_RAM_DBE_STAT QDMA_DBE_ERR_ALL_MASK QDMA_GLBL_ERR_RAM_DBE_MASK qdma_hw_ram_dbe_err_process].

Definition qdma_err_info : list hw_err_info :=
  qdma_err_info_1 ++ qdma_err_info_2 ++ qdma_err_info_3 ++ qdma_err_info_4 ++ qdma_err_info_5 ++ qdma_err_info_6 ++ qdma_err_info_7.

(** The last of each group of errors, which stands for the group, and the first. *)

Definition all_hw_errs : list Z :=
  map qdma_error_idx_code [QDMA_DSC_ERR_ALL; QDMA_TRQ_ERR_ALL; QDMA_ST_C2H_ERR_ALL; QDMA_ST_FATAL_ERR_ALL; QDMA_ST_H2C_ERR_ALL; QDMA_SBE_ERR_ALL; QDMA_DBE_ERR_ALL].

Definition qdma_hw_err_position : list Z :=
  map qdma_error_idx_code [QDMA_DSC_ERR_POISON; QDMA_TRQ_ERR_UNMAPPED; QDMA_ST_C2H_ERR_MTY_MISMATCH; QDMA_ST_FATAL_ERR_MTY_MISMATCH; QDMA_ST_H2C_ERR_ZERO_LEN_DESC; QDMA_SBE_ERR_MI_H2C0_DAT; QDMA_DBE_ERR_MI_H2C0_DAT].

Definition qdma_hw_errs : err_lib :=
  {| err_info := qdma_err_info; err_alls := all_hw_errs; err_positions := qdma_hw_err_position;
     err_st_positions := map qdma_error_idx_code [QDMA_ST_C2H_ERR_MTY_MISMATCH; QDMA_ST_FATAL_ERR_MTY_MISMATCH; QDMA_ST_H2C_ERR_ZERO_LEN_DESC];
     err_st_alls := map qdma_error_idx_code [QDMA_ST_C2H_ERR_ALL; QDMA_ST_FATAL_ERR_ALL; QDMA_ST_H2C_ERR_ALL];
     errs_all := QDMA_ERRS_ALL; glbl_stat := QDMA_OFFSET_GLBL_ERR_STAT; glbl_mask := QDMA_OFFSET_GLBL_ERR_MASK |}.

Definition qdma_hw_get_error_name : Z -> option string := hw_get_error_name qdma_hw_errs.

Section errors.
Context {S : Type} `{HasTrace S} `{MmioDevice}.

Definition qdma_hw_error_process : M S (Z * list (option string)) :=
  hw_error_process qdma_hw_errs SoftCsr.qdma_caps (fun a => qdma_dump_reg_info a 1 None).
Definition qdma_hw_error_enable : Z -> M S Z := hw_error_enable qdma_hw_errs SoftCsr.qdma_caps.
End errors.
