(* ===== verification/S80Errs.v ===== *)
(** * S80Errs: the hardware errors of the hard QDMA

    From [qdma_s80_hard_access.c] and [qdma_s80_hard_reg.h]: the errors, and for each its name, the registers that report and
    enable it, its bits there and in the global register, and what is printed when it is found. *)

From S2P Require Import Prelude Mmio Fields RegTables RegDump HwErrs.
From S2P Require S80Csr S80Regs.
Local Open Scope string_scope.
Local Open Scope list_scope.
Local Open Scope Z_scope.

Abbreviation QDMA_S80_HARD_RAM_SBE_MSK_A_ADDR := (0xF0).
Abbreviation QDMA_S80_HARD_RAM_SBE_STS_A_ADDR := (0xF4).
Abbreviation QDMA_S80_HARD_RAM_DBE_MSK_A_ADDR := (0xF8).
Abbreviation QDMA_S80_HARD_RAM_DBE_STS_A_ADDR := (0xFC).
Abbreviation QDMA_S80_HARD_GLBL_ERR_STAT_ADDR := (0x248).
Abbreviation QDMA_S80_HARD_GLBL_ERR_MASK_ADDR := (0x24C).
Abbreviation QDMA_S80_HARD_GLBL_DSC_ERR_STS_ADDR := (0x254).
Abbreviation QDMA_S80_HARD_GLBL_DSC_ERR_MSK_ADDR := (0x258).
Abbreviation QDMA_S80_HARD_GLBL_DSC_ERR_LOG0_ADDR := (0x25C).
Abbreviation QDMA_S80_HARD_GLBL_DSC_ERR_LOG1_ADDR := (0x260).
Abbreviation QDMA_S80_HARD_GLBL_TRQ_ERR_STS_ADDR := (0x264).
Abbreviation QDMA_S80_HARD_GLBL_TRQ_ERR_MSK_ADDR := (0x268).
Abbreviation QDMA_S80_HARD_GLBL_TRQ_ERR_LOG_ADDR := (0x26C).
Abbreviation QDMA_S80_HARD_GLBL_DSC_DBG_DAT0_ADDR := (0x270).
Abbreviation QDMA_S80_HARD_GLBL_DSC_DBG_DAT1_ADDR := (0x274).
Abbreviation QDMA_S80_HARD_C2H_STAT_S_AXIS_C2H_ACCEPTED_ADDR := (0xA88).
Abbreviation QDMA_S80_HARD_C2H_STAT_S_AXIS_WRB_ACCEPTED_ADDR := (0xA8C).
Abbreviation QDMA_S80_HARD_C2H_STAT_DESC_RSP_PKT_ACCEPTED_ADDR := (0xA90).
Abbreviation QDMA_S80_HARD_C2H_STAT_AXIS_PKG_CMP_ADDR := (0xA94).
Abbreviation QDMA_S80_HARD_C2H_ERR_STAT_ADDR := (0xAF0).
Abbreviation QDMA_S80_HARD_C2H_ERR_MASK_ADDR := (0xAF4).
Abbreviation QDMA_S80_HARD_C2H_FATAL_ERR_STAT_ADDR := (0xAF8).
Abbreviation QDMA_S80_HARD_C2H_FATAL_ERR_MASK_ADDR := (0xAFC).
Abbreviation QDMA_S80_HARD_C2H_STAT_DESC_RSP_DROP_ACCEPTED_ADDR := (0xB10).
Abbreviation QDMA_S80_HARD_C2H_STAT_DESC_RSP_ERR_ACCEPTED_ADDR := (0xB14).
Abbreviation QDMA_S80_HARD_C2H_STAT_DBG_DMA_ENG_0_ADDR := (0xB1C).
Abbreviation QDMA_S80_HARD_C2H_STAT_DBG_DMA_ENG_1_ADDR := (0xB20).
Abbreviation QDMA_S80_HARD_C2H_STAT_DBG_DMA_ENG_2_ADDR := (0xB24).
Abbreviation QDMA_S80_HARD_C2H_STAT_DBG_DMA_ENG_3_ADDR := (0xB28).
Abbreviation QDMA_S80_HARD_C2H_FIRST_ERR_QID_ADDR := (0xB30).
Abbreviation QDMA_S80_HARD_H2C_ERR_STAT_ADDR := (0xE00).
Abbreviation QDMA_S80_HARD_H2C_ERR_MASK_ADDR := (0xE04).
Abbreviation QDMA_S80_HARD_H2C_FIRST_ERR_QID_ADDR := (0xE08).
Abbreviation QDMA_S80_HARD_H2C_DBG_REG0_ADDR := (0xE0C).
Abbreviation QDMA_S80_HARD_H2C_DBG_REG1_ADDR := (0xE10).
Abbreviation QDMA_S80_HARD_H2C_DBG_REG2_ADDR := (0xE14).
Abbreviation QDMA_S80_HARD_H2C_DBG_REG3_ADDR := (0xE18).
Abbreviation QDMA_S80_HARD_H2C_DBG_REG4_ADDR := (0xE1C).
Abbreviation QDMA_S80_HARD_GLBL_TRQ_ERR_ALL_MASK := (0xB3).
Abbreviation QDMA_S80_HARD_C2H_ERR_ALL_MASK := (0x3F6DF).
Abbreviation QDMA_S80_HARD_C2H_FATAL_ERR_ALL_MASK := (0x1FDF1B).
Abbreviation QDMA_S80_HARD_H2C_ERR_ALL_MASK := (0x3F).
Abbreviation QDMA_S80_HARD_SBE_ERR_ALL_MASK := (0xFFFFFFFF).
Abbreviation QDMA_S80_HARD_DBE_ERR_ALL_MASK := (0xFFFFFFFF).

(** The indices of the errors. *)

Inductive qdma_s80_hard_error_idx :=
| QDMA_S80_HARD_DSC_ERR_POISON
| QDMA_S80_HARD_DSC_ERR_UR_CA
| QDMA_S80_HARD_DSC_ERR_PARAM
| QDMA_S80_HARD_DSC_ERR_ADDR
| QDMA_S80_HARD_DSC_ERR_TAG
| QDMA_S80_HARD_DSC_ERR_FLR
| QDMA_S80_HARD_DSC_ERR_TIMEOUT
| QDMA_S80_HARD_DSC_ERR_DAT_POISON
| QDMA_S80_HARD_DSC_ERR_FLR_CANCEL
| QDMA_S80_HARD_DSC_ERR_DMA
| QDMA_S80_HARD_DSC_ERR_DSC
| QDMA_S80_HARD_DSC_ERR_RQ_CANCEL
| QDMA_S80_HARD_DSC_ERR_DBE
| QDMA_S80_HARD_DSC_ERR_SBE
| QDMA_S80_HARD_DSC_ERR_ALL
| QDMA_S80_HARD_TRQ_ERR_UNMAPPED
| QDMA_S80_HARD_TRQ_ERR_QID_RANGE
| QDMA_S80_HARD_TRQ_ERR_VF_ACCESS_ERR
| QDMA_S80_HARD_TRQ_ERR_TCP_TIMEOUT
| QDMA_S80_HARD_TRQ_ERR_ALL
| QDMA_S80_HARD_ST_C2H_ERR_MTY_MISMATCH
| QDMA_S80_HARD_ST_C2H_ERR_LEN_MISMATCH
| QDMA_S80_HARD_ST_C2H_ERR_QID_MISMATCH
| QDMA_S80_HARD_ST_C2H_ERR_DESC_RSP_ERR
| QDMA_S80_HARD_ST_C2H_ERR_ENG_WPL_DATA_PAR_ERR
| QDMA_S80_HARD_ST_C2H_ERR_MSI_INT_FAIL
| QDMA_S80_HARD_ST_C2H_ERR_ERR_DESC_CNT
| QDMA_S80_HARD_ST_C2H_ERR_PORTID_CTXT_MISMATCH
| QDMA_S80_HARD_ST_C2H_ERR_PORTID_BYP_IN_MISMATCH
| QDMA_S80_HARD_ST_C2H_ERR_WRB_INV_Q_ERR
| QDMA_S80_HARD_ST_C2H_ERR_WRB_QFULL_ERR
| QDMA_S80_HARD_ST_C2H_ERR_WRB_CIDX_ERR
| QDMA_S80_HARD_ST_C2H_ERR_WRB_PRTY_ERR
| QDMA_S80_HARD_ST_C2H_ERR_ALL
| QDMA_S80_HARD_ST_FATAL_ERR_MTY_MISMATCH
| QDMA_S80_HARD_ST_FATAL_ERR_LEN_MISMATCH
| QDMA_S80_HARD_ST_FATAL_ERR_QID_MISMATCH
| QDMA_S80_HARD_ST_FATAL_ERR_TIMER_FIFO_RAM_RDBE
| QDMA_S80_HARD_ST_FATAL_ERR_PFCH_II_RAM_RDBE
| QDMA_S80_HARD_ST_FATAL_ERR_WRB_CTXT_RAM_RDBE
| QDMA_S80_HARD_ST_FATAL_ERR_PFCH_CTXT_RAM_RDBE
| QDMA_S80_HARD_ST_FATAL_ERR_DESC_REQ_FIFO_RAM_RDBE
| QDMA_S80_HARD_ST_FATAL_ERR_INT_CTXT_RAM_RDBE
| QDMA_S80_HARD_ST_FATAL_ERR_INT_QID2VEC_RAM_RDBE
| QDMA_S80_HARD_ST_FATAL_ERR_WRB_COAL_DATA_RAM_RDBE
| QDMA_S80_HARD_ST_FATAL_ERR_TUSER_FIFO_RAM_RDBE
| QDMA_S80_HARD_ST_FATAL_ERR_QID_FIFO_RAM_RDBE
| QDMA_S80_HARD_ST_FATAL_ERR_PAYLOAD_FIFO_RAM_RDBE
| QDMA_S80_HARD_ST_FATAL_ERR_WPL_DATA_PAR_ERR
| QDMA_S80_HARD_ST_FATAL_ERR_ALL
| QDMA_S80_HARD_ST_H2C_ERR_ZERO_LEN_DESC_ERR
| QDMA_S80_HARD_ST_H2C_ERR_SDI_MRKR_REQ_MOP_ERR
| QDMA_S80_HARD_ST_H2C_ERR_NO_DMA_DSC
| QDMA_S80_HARD_ST_H2C_ERR_DBE
| QDMA_S80_HARD_ST_H2C_ERR_SBE
| QDMA_S80_HARD_ST_H2C_ERR_ALL
| QDMA_S80_HARD_SBE_ERR_MI_H2C0_DAT
| QDMA_S80_HARD_SBE_ERR_MI_C2H0_DAT
| QDMA_S80_HARD_SBE_ERR_H2C_RD_BRG_DAT
| QDMA_S80_HARD_SBE_ERR_H2C_WR_BRG_DAT
| QDMA_S80_HARD_SBE_ERR_C2H_RD_BRG_DAT
| QDMA_S80_HARD_SBE_ERR_C2H_WR_BRG_DAT
| QDMA_S80_HARD_SBE_ERR_FUNC_MAP
| QDMA_S80_HARD_SBE_ERR_DSC_HW_CTXT
| QDMA_S80_HARD_SBE_ERR_DSC_CRD_RCV
| QDMA_S80_HARD_SBE_ERR_DSC_SW_CTXT
| QDMA_S80_HARD_SBE_ERR_DSC_CPLI
| QDMA_S80_HARD_SBE_ERR_DSC_CPLD
| QDMA_S80_HARD_SBE_ERR_PASID_CTXT_RAM
| QDMA_S80_HARD_SBE_ERR_TIMER_FIFO_RAM
| QDMA_S80_HARD_SBE_ERR_PAYLOAD_FIFO_RAM
| QDMA_S80_HARD_SBE_ERR_QID_FIFO_RAM
| QDMA_S80_HARD_SBE_ERR_TUSER_FIFO_RAM
| QDMA_S80_HARD_SBE_ERR_WRB_COAL_DATA_RAM
| QDMA_S80_HARD_SBE_ERR_INT_QID2VEC_RAM
| QDMA_S80_HARD_SBE_ERR_INT_CTXT_RAM
| QDMA_S80_HARD_SBE_ERR_DESC_REQ_FIFO_RAM
| QDMA_S80_HARD_SBE_ERR_PFCH_CTXT_RAM
| QDMA_S80_HARD_SBE_ERR_WRB_CTXT_RAM
| QDMA_S80_HARD_SBE_ERR_PFCH_LL_RAM
| QDMA_S80_HARD_SBE_ERR_ALL
| QDMA_S80_HARD_DBE_ERR_MI_H2C0_DAT
| QDMA_S80_HARD_DBE_ERR_MI_C2H0_DAT
| QDMA_S80_HARD_DBE_ERR_H2C_RD_BRG_DAT
| QDMA_S80_HARD_DBE_ERR_H2C_WR_BRG_DAT
| QDMA_S80_HARD_DBE_ERR_C2H_RD_BRG_DAT
| QDMA_S80_HARD_DBE_ERR_C2H_WR_BRG_DAT
| QDMA_S80_HARD_DBE_ERR_FUNC_MAP
| QDMA_S80_HARD_DBE_ERR_DSC_HW_CTXT
| QDMA_S80_HARD_DBE_ERR_DSC_CRD_RCV
| QDMA_S80_HARD_DBE_ERR_DSC_SW_CTXT
| QDMA_S80_HARD_DBE_ERR_DSC_CPLI
| QDMA_S80_HARD_DBE_ERR_DSC_CPLD
| QDMA_S80_HARD_DBE_ERR_PASID_CTXT_RAM
| QDMA_S80_HARD_DBE_ERR_TIMER_FIFO_RAM
| QDMA_S80_HARD_DBE_ERR_PAYLOAD_FIFO_RAM
| QDMA_S80_HARD_DBE_ERR_QID_FIFO_RAM
| QDMA_S80_HARD_DBE_ERR_WRB_COAL_DATA_RAM
| QDMA_S80_HARD_DBE_ERR_INT_QID2VEC_RAM
| QDMA_S80_HARD_DBE_ERR_INT_CTXT_RAM
| QDMA_S80_HARD_DBE_ERR_DESC_REQ_FIFO_RAM
| QDMA_S80_HARD_DBE_ERR_PFCH_CTXT_RAM
| QDMA_S80_HARD_DBE_ERR_WRB_CTXT_RAM
| QDMA_S80_HARD_DBE_ERR_PFCH_LL_RAM
| QDMA_S80_HARD_DBE_ERR_ALL
| QDMA_S80_HARD_ERRS_ALL.

Definition qdma_s80_hard_error_idx_code (e : qdma_s80_hard_error_idx) : Z :=
  match e with
  | QDMA_S80_HARD_DSC_ERR_POISON => 0
  | QDMA_S80_HARD_DSC_ERR_UR_CA => 1
  | QDMA_S80_HARD_DSC_ERR_PARAM => 2
  | QDMA_S80_HARD_DSC_ERR_ADDR => 3
  | QDMA_S80_HARD_DSC_ERR_TAG => 4
  | QDMA_S80_HARD_DSC_ERR_FLR => 5
  | QDMA_S80_HARD_DSC_ERR_TIMEOUT => 6
  | QDMA_S80_HARD_DSC_ERR_DAT_POISON => 7
  | QDMA_S80_HARD_DSC_ERR_FLR_CANCEL => 8
  | QDMA_S80_HARD_DSC_ERR_DMA => 9
  | QDMA_S80_HARD_DSC_ERR_DSC => 10
  | QDMA_S80_HARD_DSC_ERR_RQ_CANCEL => 11
  | QDMA_S80_HARD_DSC_ERR_DBE => 12
  | QDMA_S80_HARD_DSC_ERR_SBE => 13
  | QDMA_S80_HARD_DSC_ERR_ALL => 14
  | QDMA_S80_HARD_TRQ_ERR_UNMAPPED => 15
  | QDMA_S80_HARD_TRQ_ERR_QID_RANGE => 16
  | QDMA_S80_HARD_TRQ_ERR_VF_ACCESS_ERR => 17
  | QDMA_S80_HARD_TRQ_ERR_TCP_TIMEOUT => 18
  | QDMA_S80_HARD_TRQ_ERR_ALL => 19
  | QDMA_S80_HARD_ST_C2H_ERR_MTY_MISMATCH => 20
  | QDMA_S80_HARD_ST_C2H_ERR_LEN_MISMATCH => 21
  | QDMA_S80_HARD_ST_C2H_ERR_QID_MISMATCH => 22
  | QDMA_S80_HARD_ST_C2H_ERR_DESC_RSP_ERR => 23
  | QDMA_S80_HARD_ST_C2H_ERR_ENG_WPL_DATA_PAR_ERR => 24
  | QDMA_S80_HARD_ST_C2H_ERR_MSI_INT_FAIL => 25
  | QDMA_S80_HARD_ST_C2H_ERR_ERR_DESC_CNT => 26
  | QDMA_S80_HARD_ST_C2H_ERR_PORTID_CTXT_MISMATCH => 27
  | QDMA_S80_HARD_ST_C2H_ERR_PORTID_BYP_IN_MISMATCH => 28
  | QDMA_S80_HARD_ST_C2H_ERR_WRB_INV_Q_ERR => 29
  | QDMA_S80_HARD_ST_C2H_ERR_WRB_QFULL_ERR => 30
  | QDMA_S80_HARD_ST_C2H_ERR_WRB_CIDX_ERR => 31
  | QDMA_S80_HARD_ST_C2H_ERR_WRB_PRTY_ERR => 32
  | QDMA_S80_HARD_ST_C2H_ERR_ALL => 33
  | QDMA_S80_HARD_ST_FATAL_ERR_MTY_MISMATCH => 34
  | QDMA_S80_HARD_ST_FATAL_ERR_LEN_MISMATCH => 35
  | QDMA_S80_HARD_ST_FATAL_ERR_QID_MISMATCH => 36
  | QDMA_S80_HARD_ST_FATAL_ERR_TIMER_FIFO_RAM_RDBE => 37
  | QDMA_S80_HARD_ST_FATAL_ERR_PFCH_II_RAM_RDBE => 38
  | QDMA_S80_HARD_ST_FATAL_ERR_WRB_CTXT_RAM_RDBE => 39
  | QDMA_S80_HARD_ST_FATAL_ERR_PFCH_CTXT_RAM_RDBE => 40
  | QDMA_S80_HARD_ST_FATAL_ERR_DESC_REQ_FIFO_RAM_RDBE => 41
  | QDMA_S80_HARD_ST_FATAL_ERR_INT_CTXT_RAM_RDBE => 42
  | QDMA_S80_HARD_ST_FATAL_ERR_INT_QID2VEC_RAM_RDBE => 43
  | QDMA_S80_HARD_ST_FATAL_ERR_WRB_COAL_DATA_RAM_RDBE => 44
  | QDMA_S80_HARD_ST_FATAL_ERR_TUSER_FIFO_RAM_RDBE => 45
  | QDMA_S80_HARD_ST_FATAL_ERR_QID_FIFO_RAM_RDBE => 46
  | QDMA_S80_HARD_ST_FATAL_ERR_PAYLOAD_FIFO_RAM_RDBE => 47
  | QDMA_S80_HARD_ST_FATAL_ERR_WPL_DATA_PAR_ERR => 48
  | QDMA_S80_HARD_ST_FATAL_ERR_ALL => 49
  | QDMA_S80_HARD_ST_H2C_ERR_ZERO_LEN_DESC_ERR => 50
  | QDMA_S80_HARD_ST_H2C_ERR_SDI_MRKR_REQ_MOP_ERR => 51
  | QDMA_S80_HARD_ST_H2C_ERR_NO_DMA_DSC => 52
  | QDMA_S80_HARD_ST_H2C_ERR_DBE => 53
  | QDMA_S80_HARD_ST_H2C_ERR_SBE => 54
  | QDMA_S80_HARD_ST_H2C_ERR_ALL => 55
  | QDMA_S80_HARD_SBE_ERR_MI_H2C0_DAT => 56
  | QDMA_S80_HARD_SBE_ERR_MI_C2H0_DAT => 57
  | QDMA_S80_HARD_SBE_ERR_H2C_RD_BRG_DAT => 58
  | QDMA_S80_HARD_SBE_ERR_H2C_WR_BRG_DAT => 59
  | QDMA_S80_HARD_SBE_ERR_C2H_RD_BRG_DAT => 60
  | QDMA_S80_HARD_SBE_ERR_C2H_WR_BRG_DAT => 61
  | QDMA_S80_HARD_SBE_ERR_FUNC_MAP => 62
  | QDMA_S80_HARD_SBE_ERR_DSC_HW_CTXT => 63
  | QDMA_S80_HARD_SBE_ERR_DSC_CRD_RCV => 64
  | QDMA_S80_HARD_SBE_ERR_DSC_SW_CTXT => 65
  | QDMA_S80_HARD_SBE_ERR_DSC_CPLI => 66
  | QDMA_S80_HARD_SBE_ERR_DSC_CPLD => 67
  | QDMA_S80_HARD_SBE_ERR_PASID_CTXT_RAM => 68
  | QDMA_S80_HARD_SBE_ERR_TIMER_FIFO_RAM => 69
  | QDMA_S80_HARD_SBE_ERR_PAYLOAD_FIFO_RAM => 70
  | QDMA_S80_HARD_SBE_ERR_QID_FIFO_RAM => 71
  | QDMA_S80_HARD_SBE_ERR_TUSER_FIFO_RAM => 72
  | QDMA_S80_HARD_SBE_ERR_WRB_COAL_DATA_RAM => 73
  | QDMA_S80_HARD_SBE_ERR_INT_QID2VEC_RAM => 74
  | QDMA_S80_HARD_SBE_ERR_INT_CTXT_RAM => 75
  | QDMA_S80_HARD_SBE_ERR_DESC_REQ_FIFO_RAM => 76
  | QDMA_S80_HARD_SBE_ERR_PFCH_CTXT_RAM => 77
  | QDMA_S80_HARD_SBE_ERR_WRB_CTXT_RAM => 78
  | QDMA_S80_HARD_SBE_ERR_PFCH_LL_RAM => 79
  | QDMA_S80_HARD_SBE_ERR_ALL => 80
  | QDMA_S80_HARD_DBE_ERR_MI_H2C0_DAT => 81
  | QDMA_S80_HARD_DBE_ERR_MI_C2H0_DAT => 82
  | QDMA_S80_HARD_DBE_ERR_H2C_RD_BRG_DAT => 83
  | QDMA_S80_HARD_DBE_ERR_H2C_WR_BRG_DAT => 84
  | QDMA_S80_HARD_DBE_ERR_C2H_RD_BRG_DAT => 85
  | QDMA_S80_HARD_DBE_ERR_C2H_WR_BRG_DAT => 86
  | QDMA_S80_HARD_DBE_ERR_FUNC_MAP => 87
  | QDMA_S80_HARD_DBE_ERR_DSC_HW_CTXT => 88
  | QDMA_S80_HARD_DBE_ERR_DSC_CRD_RCV => 89
  | QDMA_S80_HARD_DBE_ERR_DSC_SW_CTXT => 90
  | QDMA_S80_HARD_DBE_ERR_DSC_CPLI => 91
  | QDMA_S80_HARD_DBE_ERR_DSC_CPLD => 92
  | QDMA_S80_HARD_DBE_ERR_PASID_CTXT_RAM => 93
  | QDMA_S80_HARD_DBE_ERR_TIMER_FIFO_RAM => 94
  | QDMA_S80_HARD_DBE_ERR_PAYLOAD_FIFO_RAM => 95
  | QDMA_S80_HARD_DBE_ERR_QID_FIFO_RAM => 96
  | QDMA_S80_HARD_DBE_ERR_WRB_COAL_DATA_RAM => 97
  | QDMA_S80_HARD_DBE_ERR_INT_QID2VEC_RAM => 98
  | QDMA_S80_HARD_DBE_ERR_INT_CTXT_RAM => 99
  | QDMA_S80_HARD_DBE_ERR_DESC_REQ_FIFO_RAM => 100
  | QDMA_S80_HARD_DBE_ERR_PFCH_CTXT_RAM => 101
  | QDMA_S80_HARD_DBE_ERR_WRB_CTXT_RAM => 102
  | QDMA_S80_HARD_DBE_ERR_PFCH_LL_RAM => 103
  | QDMA_S80_HARD_DBE_ERR_ALL => 104
  | QDMA_S80_HARD_ERRS_ALL => 105
  end.
Coercion qdma_s80_hard_error_idx_code : qdma_s80_hard_error_idx >-> Z.

(** The registers that are printed for an error. *)

Definition qdma_s80_hard_hw_ram_sbe_err_process : list Z :=
  [QDMA_S80_HARD_RAM_SBE_STS_A_ADDR].
Definition qdma_s80_hard_hw_ram_dbe_err_process : list Z :=
  [QDMA_S80_HARD_RAM_DBE_STS_A_ADDR].
Definition qdma_s80_hard_hw_desc_err_process : list Z :=
  [QDMA_S80_HARD_GLBL_DSC_ERR_STS_ADDR; QDMA_S80_HARD_GLBL_DSC_ERR_LOG0_ADDR; QDMA_S80_HARD_GLBL_DSC_ERR_LOG1_ADDR; QDMA_S80_HARD_GLBL_DSC_DBG_DAT0_ADDR; QDMA_S80_HARD_GLBL_DSC_DBG_DAT1_ADDR].
Definition qdma_s80_hard_hw_trq_err_process : list Z :=
  [QDMA_S80_HARD_GLBL_TRQ_ERR_STS_ADDR; QDMA_S80_HARD_GLBL_TRQ_ERR_LOG_ADDR].
Definition qdma_s80_hard_hw_st_h2c_err_process : list Z :=
  [QDMA_S80_HARD_H2C_ERR_STAT_ADDR; QDMA_S80_HARD_H2C_FIRST_ERR_QID_ADDR; QDMA_S80_HARD_H2C_DBG_REG0_ADDR; QDMA_S80_HARD_H2C_DBG_REG1_ADDR; QDMA_S80_HARD_H2C_DBG_REG2_ADDR; QDMA_S80_HARD_H2C_DBG_REG3_ADDR; QDMA_S80_HARD_H2C_DBG_REG4_ADDR].
Definition qdma_s80_hard_hw_st_c2h_err_process : list Z :=
  [QDMA_S80_HARD_C2H_ERR_STAT_ADDR; QDMA_S80_HARD_C2H_FATAL_ERR_STAT_ADDR; QDMA_S80_HARD_C2H_FIRST_ERR_QID_ADDR; QDMA_S80_HARD_C2H_STAT_S_AXIS_C2H_ACCEPTED_ADDR; QDMA_S80_HARD_C2H_STAT_S_AXIS_WRB_ACCEPTED_ADDR; QDMA_S80_HARD_C2H_STAT_DESC_RSP_PKT_ACCEPTED_ADDR; QDMA_S80_HARD_C2H_STAT_AXIS_PKG_CMP_ADDR; QDMA_S80_HARD_C2H_STAT_DBG_DMA_ENG_0_ADDR; QDMA_S80_HARD_C2H_STAT_DBG_DMA_ENG_1_ADDR; QDMA_S80_HARD_C2H_STAT_DBG_DMA_ENG_2_ADDR; QDMA_S80_HARD_C2H_STAT_DBG_DMA_ENG_3_ADDR; QDMA_S80_HARD_C2H_STAT_DESC_RSP_DROP_ACCEPTED_ADDR; QDMA_S80_HARD_C2H_STAT_DESC_RSP_ERR_ACCEPTED_ADDR].

Definition qdma_s80_hard_err_info_1 : list hw_err_info :=
  [mk_err QDMA_S80_HARD_DSC_ERR_POISON "Poison error" QDMA_S80_HARD_GLBL_DSC_ERR_MSK_ADDR QDMA_S80_HARD_GLBL_DSC_ERR_STS_ADDR S80Regs.GLBL_DSC_ERR_STS_POISON_MASK S80Regs.GLBL_ERR_STAT_ERR_DSC_MASK qdma_s80_hard_hw_desc_err_process;
   mk_err QDMA_S80_HARD_DSC_ERR_UR_CA "Unsupported request or completer aborted error" QDMA_S80_HARD_GLBL_DSC_ERR_MSK_ADDR QDMA_S80_HARD_GLBL_DSC_ERR_STS_ADDR S80Regs.GLBL_DSC_ERR_STS_UR_CA_MASK S80Regs.GLBL_ERR_STAT_ERR_DSC_MASK qdma_s80_hard_hw_desc_err_process;
   mk_err QDMA_S80_HARD_DSC_ERR_PARAM "Parameter mismatch error" QDMA_S80_HARD_GLBL_DSC_ERR_MSK_ADDR QDMA_S80_HARD_GLBL_DSC_ERR_STS_ADDR S80Regs.GLBL_DSC_ERR_STS_PARAM_MASK S80Regs.GLBL_ERR_STAT_ERR_DSC_MASK qdma_s80_hard_hw_desc_err_process;
   mk_err QDMA_S80_HARD_DSC_ERR_ADDR "Address mismatch error" QDMA_S80_HARD_GLBL_DSC_ERR_MSK_ADDR QDMA_S80_HARD_GLBL_DSC_ERR_STS_ADDR S80Regs.GLBL_DSC_ERR_STS_ADDR_MASK S80Regs.GLBL_ERR_STAT_ERR_DSC_MASK qdma_s80_hard_hw_desc_err_process;
   mk_err QDMA_S80_HARD_DSC_ERR_TAG "Unexpected tag error" QDMA_S80_HARD_GLBL_DSC_ERR_MSK_ADDR QDMA_S80_HARD_GLBL_DSC_ERR_STS_ADDR S80Regs.GLBL_DSC_ERR_STS_TAG_MASK S80Regs.GLBL_ERR_STAT_ERR_DSC_MASK qdma_s80_hard_hw_desc_err_process;
   mk_err QDMA_S80_HARD_DSC_ERR_FLR "FLR error" QDMA_S80_HARD_GLBL_DSC_ERR_MSK_ADDR QDMA_S80_HARD_GLBL_DSC_ERR_STS_ADDR S80Regs.GLBL_DSC_ERR_STS_FLR_MASK S80Regs.GLBL_ERR_STAT_ERR_DSC_MASK qdma_s80_hard_hw_desc_err_process;
   mk_err QDMA_S80_HARD_DSC_ERR_TIMEOUT "Timed out error" QDMA_S80_HARD_GLBL_DSC_ERR_MSK_ADDR QDMA_S80_HARD_GLBL_DSC_ERR_STS_ADDR S80Regs.GLBL_DSC_ERR_STS_TIMEOUT_MASK S80Regs.GLBL_ERR_STAT_ERR_DSC_MASK qdma_s80_hard_hw_desc_err_process;
   mk_err QDMA_S80_HARD_DSC_ERR_DAT_POISON "Poison data error" QDMA_S80_HARD_GLBL_DSC_ERR_MSK_ADDR QDMA_S80_HARD_GLBL_DSC_ERR_STS_ADDR S80Regs.GLBL_DSC_ERR_STS_DAT_POISON_MASK S80Regs.GLBL_ERR_STAT_ERR_DSC_MASK qdma_s80_hard_hw_desc_err_process;
   mk_err QDMA_S80_HARD_DSC_ERR_FLR_CANCEL "Descriptor fetch cancelled due to FLR error" QDMA_S80_HARD_GLBL_DSC_ERR_MSK_ADDR QDMA_S80_HARD_GLBL_DSC_ERR_STS_ADDR S80Regs.GLBL_DSC_ERR_STS_FLR_CANCEL_MASK S80Regs.GLBL_ERR_STAT_ERR_DSC_MASK qdma_s80_hard_hw_desc_err_process;
   mk_err QDMA_S80_HARD_DSC_ERR_DMA "DMA engine error" QDMA_S80_HARD_GLBL_DSC_ERR_MSK_ADDR QDMA_S80_HARD_GLBL_DSC_ERR_STS_ADDR S80Regs.GLBL_DSC_ERR_STS_DMA_MASK S80Regs.GLBL_ERR_STAT_ERR_DSC_MASK qdma_s80_hard_hw_desc_err_process;
   mk_err QDMA_S80_HARD_DSC_ERR_DSC "Invalid PIDX update error" QDMA_S80_HARD_GLBL_DSC_ERR_MSK_ADDR QDMA_S80_HARD_GLBL_DSC_ERR_STS_ADDR S80Regs.GLBL_DSC_ERR_STS_DSC_MASK S80Regs.GLBL_ERR_STAT_ERR_DSC_MASK qdma_s80_hard_hw_desc_err_process;
   mk_err QDMA_S80_HARD_DSC_ERR_RQ_CANCEL "Descriptor fetch cancelled due to disable register status error" QDMA_S80_HARD_GLBL_DSC_ERR_MSK_ADDR QDMA_S80_HARD_GLBL_DSC_ERR_STS_ADDR S80Regs.GLBL_DSC_ERR_STS_RQ_CANCEL_MASK S80Regs.GLBL_ERR_STAT_ERR_DSC_MASK qdma_s80_hard_hw_desc_err_process;
   mk_err QDMA_S80_HARD_DSC_ERR_DBE "UNC_ERR_RAM_DBE error" QDMA_S80_HARD_GLBL_DSC_ERR_MSK_ADDR QDMA_S80_HARD_GLBL_DSC_ERR_STS_ADDR S80Regs.GLBL_DSC_ERR_STS_DBE_MASK S80Regs.GLBL_ERR_STAT_ERR_DSC_MASK qdma_s80_hard_hw_desc_err_process;
   mk_err QDMA_S80_HARD_DSC_ERR_SBE "UNC_ERR_RAM_SBE error" QDMA_S80_HARD_GLBL_DSC_ERR_MSK_ADDR QDMA_S80_HARD_GLBL_DSC_ERR_STS_ADDR S80Regs.GLBL_DSC_ERR_STS_SBE_MASK S80Regs.GLBL_ERR_STAT_ERR_DSC_MASK qdma_s80_hard_hw_desc_err_process;
   mk_err QDMA_S80_HARD_DSC_ERR_ALL "All Descriptor errors" QDMA_S80_HARD_GLBL_DSC_ERR_MSK_ADDR QDMA_S80_HARD_GLBL_DSC_ERR_STS_ADDR QDMA_S80_HARD_DBE_ERR_ALL_MASK S80Regs.GLBL_ERR_STAT_ERR_DSC_MASK qdma_s80_hard_hw_desc_err_process;
   mk_err QDMA_S80_HARD_TRQ_ERR_UNMAPPED "Access targeted unmapped register space via CSR pathway error" QDMA_S80_HARD_GLBL_TRQ_ERR_MSK_ADDR QDMA_S80_HARD_GLBL_TRQ_ERR_STS_ADDR S80Regs.GLBL_TRQ_ERR_STS_UNMAPPED_MASK S80Regs.GLBL_ERR_STAT_ERR_TRQ_MASK qdma_s80_hard_hw_trq_err_process].

Definition qdma_s80_hard_err_info_2 : list hw_err_info :=
  [mk_err QDMA_S80_HARD_TRQ_ERR_QID_RANGE "Qid range error" QDMA_S80_HARD_GLBL_TRQ_ERR_MSK_ADDR QDMA_S80_HARD_GLBL_TRQ_ERR_STS_ADDR S80Regs.GLBL_TRQ_ERR_STS_QID_RANGE_MASK S80Regs.GLBL_ERR_STAT_ERR_TRQ_MASK qdma_s80_hard_hw_trq_err_process;
   mk_err QDMA_S80_HARD_TRQ_ERR_VF_ACCESS_ERR "VF attempted to access Global register space or Function map" QDMA_S80_HARD_GLBL_TRQ_ERR_MSK_ADDR QDMA_S80_HARD_GLBL_TRQ_ERR_STS_ADDR S80Regs.GLBL_TRQ_ERR_STS_VF_ACCESS_ERR_MASK S80Regs.GLBL_ERR_STAT_ERR_TRQ_MASK qdma_s80_hard_hw_trq_err_process;
   mk_err QDMA_S80_HARD_TRQ_ERR_TCP_TIMEOUT "Timeout on request to dma internal csr register" QDMA_S80_HARD_GLBL_TRQ_ERR_MSK_ADDR QDMA_S80_HARD_GLBL_TRQ_ERR_STS_ADDR S80Regs.GLBL_TRQ_ERR_STS_TCP_TIMEOUT_MASK S80Regs.GLBL_ERR_STAT_ERR_TRQ_MASK qdma_s80_hard_hw_trq_err_process;
   mk_err QDMA_S80_HARD_TRQ_ERR_ALL "All TRQ errors" QDMA_S80_HARD_GLBL_TRQ_ERR_MSK_ADDR QDMA_S80_HARD_GLBL_TRQ_ERR_STS_ADDR QDMA_S80_HARD_GLBL_TRQ_ERR_ALL_MASK S80Regs.GLBL_ERR_STAT_ERR_TRQ_MASK qdma_s80_hard_hw_trq_err_process;
   mk_err QDMA_S80_HARD_ST_C2H_ERR_MTY_MISMATCH "MTY mismatch error" QDMA_S80_HARD_C2H_ERR_MASK_ADDR QDMA_S80_HARD_C2H_ERR_STAT_ADDR S80Regs.C2H_ERR_STAT_MTY_MISMATCH_MASK S80Regs.GLBL_ERR_STAT_ERR_C2H_ST_MASK qdma_s80_hard_hw_st_c2h_err_process;
   mk_err QDMA_S80_HARD_ST_C2H_ERR_LEN_MISMATCH "Packet length mismatch error" QDMA_S80_HARD_C2H_ERR_MASK_ADDR QDMA_S80_HARD_C2H_ERR_STAT_ADDR S80Regs.C2H_ERR_STAT_LEN_MISMATCH_MASK S80Regs.GLBL_ERR_STAT_ERR_C2H_ST_MASK qdma_s80_hard_hw_st_c2h_err_process;
   mk_err QDMA_S80_HARD_ST_C2H_ERR_QID_MISMATCH "Qid mismatch error" QDMA_S80_HARD_C2H_ERR_MASK_ADDR QDMA_S80_HARD_C2H_ERR_STAT_ADDR S80Regs.C2H_ERR_STAT_QID_MISMATCH_MASK S80Regs.GLBL_ERR_STAT_ERR_C2H_ST_MASK qdma_s80_hard_hw_st_c2h_err_process;
   mk_err QDMA_S80_HARD_ST_C2H_ERR_DESC_RSP_ERR "Descriptor error bit set" QDMA_S80_HARD_C2H_ERR_MASK_ADDR QDMA_S80_HARD_C2H_ERR_STAT_ADDR S80Regs.C2H_ERR_STAT_DESC_RSP_ERR_MASK S80Regs.GLBL_ERR_STAT_ERR_C2H_ST_MASK qdma_s80_hard_hw_st_c2h_err_process;
   mk_err QDMA_S80_HARD_ST_C2H_ERR_ENG_WPL_DATA_PAR_ERR "Data parity error" QDMA_S80_HARD_C2H_ERR_MASK_ADDR QDMA_S80_HARD_C2H_ERR_STAT_ADDR S80Regs.C2H_ERR_STAT_ENG_WPL_DATA_PAR_ERR_MASK S80Regs.GLBL_ERR_STAT_ERR_C2H_ST_MASK qdma_s80_hard_hw_st_c2h_err_process;
   mk_err QDMA_S80_HARD_ST_C2H_ERR_MSI_INT_FAIL "MSI got a fail response error" QDMA_S80_HARD_C2H_ERR_MASK_ADDR QDMA_S80_HARD_C2H_ERR_STAT_ADDR S80Regs.C2H_ERR_STAT_MSI_INT_FAIL_MASK S80Regs.GLBL_ERR_STAT_ERR_C2H_ST_MASK qdma_s80_hard_hw_st_c2h_err_process;
   mk_err QDMA_S80_HARD_ST_C2H_ERR_ERR_DESC_CNT "Descriptor count error" QDMA_S80_HARD_C2H_ERR_MASK_ADDR QDMA_S80_HARD_C2H_ERR_STAT_ADDR S80Regs.C2H_ERR_STAT_ERR_DESC_CNT_MASK S80Regs.GLBL_ERR_STAT_ERR_C2H_ST_MASK qdma_s80_hard_hw_st_c2h_err_process;
   mk_err QDMA_S80_HARD_ST_C2H_ERR_PORTID_CTXT_MISMATCH "Port id in packet and pfetch ctxt mismatch error" QDMA_S80_HARD_C2H_ERR_MASK_ADDR QDMA_S80_HARD_C2H_ERR_STAT_ADDR S80Regs.C2H_ERR_STAT_PORT_ID_CTXT_MISMATCH_MASK S80Regs.GLBL_ERR_STAT_ERR_C2H_ST_MASK qdma_s80_hard_hw_st_c2h_err_process;
   mk_err QDMA_S80_HARD_ST_C2H_ERR_PORTID_BYP_IN_MISMATCH "Port id in packet and bypass in mismatch error" QDMA_S80_HARD_C2H_ERR_MASK_ADDR QDMA_S80_HARD_C2H_ERR_STAT_ADDR S80Regs.C2H_ERR_STAT_PORT_ID_CTXT_MISMATCH_MASK S80Regs.GLBL_ERR_STAT_ERR_C2H_ST_MASK qdma_s80_hard_hw_st_c2h_err_process;
   mk_err QDMA_S80_HARD_ST_C2H_ERR_WRB_INV_Q_ERR "Writeback on invalid queue error" QDMA_S80_HARD_C2H_ERR_MASK_ADDR QDMA_S80_HARD_C2H_ERR_STAT_ADDR S80Regs.C2H_ERR_STAT_WRB_INV_Q_ERR_MASK S80Regs.GLBL_ERR_STAT_ERR_C2H_ST_MASK qdma_s80_hard_hw_st_c2h_err_process;
   mk_err QDMA_S80_HARD_ST_C2H_ERR_WRB_QFULL_ERR "Completion queue gets full error" QDMA_S80_HARD_C2H_ERR_MASK_ADDR QDMA_S80_HARD_C2H_ERR_STAT_ADDR S80Regs.C2H_ERR_STAT_WRB_QFULL_ERR_MASK S80Regs.GLBL_ERR_STAT_ERR_C2H_ST_MASK qdma_s80_hard_hw_st_c2h_err_process;
   mk_err QDMA_S80_HARD_ST_C2H_ERR_WRB_CIDX_ERR "Bad CIDX update by the software error" QDMA_S80_HARD_C2H_ERR_MASK_ADDR QDMA_S80_HARD_C2H_ERR_STAT_ADDR S80Regs.C2H_ERR_STAT_WRB_CIDX_ERR_MASK S80Regs.GLBL_ERR_STAT_ERR_C2H_ST_MASK qdma_s80_hard_hw_st_c2h_err_process].

Definition qdma_s80_hard_err_info_3 : list hw_err_info :=
  [mk_err QDMA_S80_HARD_ST_C2H_ERR_WRB_PRTY_ERR "C2H completion Parity error" QDMA_S80_HARD_C2H_ERR_MASK_ADDR QDMA_S80_HARD_C2H_ERR_STAT_ADDR S80Regs.C2H_ERR_STAT_WRB_PRTY_ERR_MASK S80Regs.GLBL_ERR_STAT_ERR_C2H_ST_MASK qdma_s80_hard_hw_st_c2h_err_process;
   mk_err QDMA_S80_HARD_ST_C2H_ERR_ALL "All C2h errors" QDMA_S80_HARD_C2H_ERR_MASK_ADDR QDMA_S80_HARD_C2H_ERR_STAT_ADDR QDMA_S80_HARD_C2H_ERR_ALL_MASK S80Regs.GLBL_ERR_STAT_ERR_C2H_ST_MASK qdma_s80_hard_hw_st_c2h_err_process;
   mk_err QDMA_S80_HARD_ST_FATAL_ERR_MTY_MISMATCH "Fatal MTY mismatch error" QDMA_S80_HARD_C2H_FATAL_ERR_MASK_ADDR QDMA_S80_HARD_C2H_FATAL_ERR_STAT_ADDR S80Regs.C2H_FATAL_ERR_STAT_MTY_MISMATCH_MASK S80Regs.GLBL_ERR_STAT_ERR_C2H_ST_MASK qdma_s80_hard_hw_st_c2h_err_process;
   mk_err QDMA_S80_HARD_ST_FATAL_ERR_LEN_MISMATCH "Fatal Len mismatch error" QDMA_S80_HARD_C2H_FATAL_ERR_MASK_ADDR QDMA_S80_HARD_C2H_FATAL_ERR_STAT_ADDR S80Regs.C2H_FATAL_ERR_STAT_LEN_MISMATCH_MASK S80Regs.GLBL_ERR_STAT_ERR_C2H_ST_MASK qdma_s80_hard_hw_st_c2h_err_process;
   mk_err QDMA_S80_HARD_ST_FATAL_ERR_QID_MISMATCH "Fatal Qid mismatch error" QDMA_S80_HARD_C2H_FATAL_ERR_MASK_ADDR QDMA_S80_HARD_C2H_FATAL_ERR_STAT_ADDR S80Regs.C2H_FATAL_ERR_STAT_QID_MISMATCH_MASK S80Regs.GLBL_ERR_STAT_ERR_C2H_ST_MASK qdma_s80_hard_hw_st_c2h_err_process;
   mk_err QDMA_S80_HARD_ST_FATAL_ERR_TIMER_FIFO_RAM_RDBE "RAM double bit fatal error" QDMA_S80_HARD_C2H_FATAL_ERR_MASK_ADDR QDMA_S80_HARD_C2H_FATAL_ERR_STAT_ADDR S80Regs.C2H_FATAL_ERR_STAT_TIMER_FIFO_RAM_RDBE_MASK S80Regs.GLBL_ERR_STAT_ERR_C2H_ST_MASK qdma_s80_hard_hw_st_c2h_err_process;
   mk_err QDMA_S80_HARD_ST_FATAL_ERR_PFCH_II_RAM_RDBE "RAM double bit fatal error" QDMA_S80_HARD_C2H_FATAL_ERR_MASK_ADDR QDMA_S80_HARD_C2H_FATAL_ERR_STAT_ADDR S80Regs.C2H_FATAL_ERR_STAT_PFCH_LL_RAM_RDBE_MASK S80Regs.GLBL_ERR_STAT_ERR_C2H_ST_MASK qdma_s80_hard_hw_st_c2h_err_process;
   mk_err QDMA_S80_HARD_ST_FATAL_ERR_WRB_CTXT_RAM_RDBE "RAM double bit fatal error" QDMA_S80_HARD_C2H_FATAL_ERR_MASK_ADDR QDMA_S80_HARD_C2H_FATAL_ERR_STAT_ADDR S80Regs.C2H_FATAL_ERR_STAT_WRB_CTXT_RAM_RDBE_MASK S80Regs.GLBL_ERR_STAT_ERR_C2H_ST_MASK qdma_s80_hard_hw_st_c2h_err_process;
   mk_err QDMA_S80_HARD_ST_FATAL_ERR_PFCH_CTXT_RAM_RDBE "RAM double bit fatal error" QDMA_S80_HARD_C2H_FATAL_ERR_MASK_ADDR QDMA_S80_HARD_C2H_FATAL_ERR_STAT_ADDR S80Regs.C2H_FATAL_ERR_STAT_PFCH_CTXT_RAM_RDBE_MASK S80Regs.GLBL_ERR_STAT_ERR_C2H_ST_MASK qdma_s80_hard_hw_st_c2h_err_process;
   mk_err QDMA_S80_HARD_ST_FATAL_ERR_DESC_REQ_FIFO_RAM_RDBE "RAM double bit fatal error" QDMA_S80_HARD_C2H_FATAL_ERR_MASK_ADDR QDMA_S80_HARD_C2H_FATAL_ERR_STAT_ADDR S80Regs.C2H_FATAL_ERR_STAT_DESC_REQ_FIFO_RAM_RDBE_MASK S80Regs.GLBL_ERR_STAT_ERR_C2H_ST_MASK qdma_s80_hard_hw_st_c2h_err_process;
   mk_err QDMA_S80_HARD_ST_FATAL_ERR_INT_CTXT_RAM_RDBE "RAM double bit fatal error" QDMA_S80_HARD_C2H_FATAL_ERR_MASK_ADDR QDMA_S80_HARD_C2H_FATAL_ERR_STAT_ADDR S80Regs.C2H_FATAL_ERR_STAT_INT_CTXT_RAM_RDBE_MASK S80Regs.GLBL_ERR_STAT_ERR_C2H_ST_MASK qdma_s80_hard_hw_st_c2h_err_process;
   mk_err QDMA_S80_HARD_ST_FATAL_ERR_INT_QID2VEC_RAM_RDBE "RAM double bit fatal error" QDMA_S80_HARD_C2H_FATAL_ERR_MASK_ADDR QDMA_S80_HARD_C2H_FATAL_ERR_STAT_ADDR S80Regs.C2H_FATAL_ERR_STAT_INT_QID2VEC_RAM_RDBE_MASK S80Regs.GLBL_ERR_STAT_ERR_C2H_ST_MASK qdma_s80_hard_hw_st_c2h_err_process;
   mk_err QDMA_S80_HARD_ST_FATAL_ERR_WRB_COAL_DATA_RAM_RDBE "RAM double bit fatal error" QDMA_S80_HARD_C2H_FATAL_ERR_MASK_ADDR QDMA_S80_HARD_C2H_FATAL_ERR_STAT_ADDR S80Regs.C2H_FATAL_ERR_STAT_WRB_COAL_DATA_RAM_RDBE_MASK S80Regs.GLBL_ERR_STAT_ERR_C2H_ST_MASK qdma_s80_hard_hw_st_c2h_err_process;
   mk_err QDMA_S80_HARD_ST_FATAL_ERR_TUSER_FIFO_RAM_RDBE "RAM double bit fatal error" QDMA_S80_HARD_C2H_FATAL_ERR_MASK_ADDR QDMA_S80_HARD_C2H_FATAL_ERR_STAT_ADDR S80Regs.C2H_FATAL_ERR_STAT_TUSER_FIFO_RAM_RDBE_MASK S80Regs.GLBL_ERR_STAT_ERR_C2H_ST_MASK qdma_s80_hard_hw_st_c2h_err_process;
   mk_err QDMA_S80_HARD_ST_FATAL_ERR_QID_FIFO_RAM_RDBE "RAM double bit fatal error" QDMA_S80_HARD_C2H_FATAL_ERR_MASK_ADDR QDMA_S80_HARD_C2H_FATAL_ERR_STAT_ADDR S80Regs.C2H_FATAL_ERR_STAT_QID_FIFO_RAM_RDBE_MASK S80Regs.GLBL_ERR_STAT_ERR_C2H_ST_MASK qdma_s80_hard_hw_st_c2h_err_process;
   mk_err QDMA_S80_HARD_ST_FATAL_ERR_PAYLOAD_FIFO_RAM_RDBE "RAM double bit fatal error" QDMA_S80_HARD_C2H_FATAL_ERR_MASK_ADDR QDMA_S80_HARD_C2H_FATAL_ERR_STAT_ADDR S80Regs.C2H_FATAL_ERR_STAT_PLD_FIFO_RAM_RDBE_MASK S80Regs.GLBL_ERR_STAT_ERR_C2H_ST_MASK qdma_s80_hard_hw_st_c2h_err_process].

Definition qdma_s80_hard_err_info_4 : list hw_err_info :=
  [mk_err QDMA_S80_HARD_ST_FATAL_ERR_WPL_DATA_PAR_ERR "RAM double bit fatal error" QDMA_S80_HARD_C2H_FATAL_ERR_MASK_ADDR QDMA_S80_HARD_C2H_FATAL_ERR_STAT_ADDR S80Regs.C2H_FATAL_ERR_STAT_WPL_DATA_PAR_ERR_MASK S80Regs.GLBL_ERR_STAT_ERR_C2H_ST_MASK qdma_s80_hard_hw_st_c2h_err_process;
   mk_err QDMA_S80_HARD_ST_FATAL_ERR_ALL "All fatal errors" QDMA_S80_HARD_C2H_FATAL_ERR_MASK_ADDR QDMA_S80_HARD_C2H_FATAL_ERR_STAT_ADDR QDMA_S80_HARD_C2H_FATAL_ERR_ALL_MASK S80Regs.GLBL_ERR_STAT_ERR_C2H_ST_MASK qdma_s80_hard_hw_st_c2h_err_process;
   mk_err QDMA_S80_HARD_ST_H2C_ERR_ZERO_LEN_DESC_ERR "Zero length descriptor error" QDMA_S80_HARD_H2C_ERR_MASK_ADDR QDMA_S80_HARD_H2C_ERR_STAT_ADDR S80Regs.H2C_ERR_STAT_ZERO_LEN_DS_MASK S80Regs.GLBL_ERR_STAT_ERR_H2C_ST_MASK qdma_s80_hard_hw_st_h2c_err_process;
   mk_err QDMA_S80_HARD_ST_H2C_ERR_SDI_MRKR_REQ_MOP_ERR "A non-EOP descriptor received" QDMA_S80_HARD_H2C_ERR_MASK_ADDR QDMA_S80_HARD_H2C_ERR_STAT_ADDR S80Regs.H2C_ERR_STAT_SDI_MRKR_REQ_MOP_ERR_MASK S80Regs.GLBL_ERR_STAT_ERR_H2C_ST_MASK qdma_s80_hard_hw_st_h2c_err_process;
   mk_err QDMA_S80_HARD_ST_H2C_ERR_NO_DMA_DSC "No DMA descriptor received error" QDMA_S80_HARD_H2C_ERR_MASK_ADDR QDMA_S80_HARD_H2C_ERR_STAT_ADDR S80Regs.H2C_ERR_STAT_NO_DMA_DS_MASK S80Regs.GLBL_ERR_STAT_ERR_H2C_ST_MASK qdma_s80_hard_hw_st_h2c_err_process;
   mk_err QDMA_S80_HARD_ST_H2C_ERR_DBE "Double bit error detected on H2C-ST data error" QDMA_S80_HARD_H2C_ERR_MASK_ADDR QDMA_S80_HARD_H2C_ERR_STAT_ADDR S80Regs.H2C_ERR_STAT_DBE_MASK S80Regs.GLBL_ERR_STAT_ERR_H2C_ST_MASK qdma_s80_hard_hw_st_h2c_err_process;
   mk_err QDMA_S80_HARD_ST_H2C_ERR_SBE "Single bit error detected on H2C-ST data error" QDMA_S80_HARD_H2C_ERR_MASK_ADDR QDMA_S80_HARD_H2C_ERR_STAT_ADDR S80Regs.H2C_ERR_STAT_SBE_MASK S80Regs.GLBL_ERR_STAT_ERR_H2C_ST_MASK qdma_s80_hard_hw_st_h2c_err_process;
   mk_err QDMA_S80_HARD_ST_H2C_ERR_ALL "All H2C errors" QDMA_S80_HARD_H2C_ERR_MASK_ADDR QDMA_S80_HARD_H2C_ERR_STAT_ADDR QDMA_S80_HARD_H2C_ERR_ALL_MASK S80Regs.GLBL_ERR_STAT_ERR_H2C_ST_MASK qdma_s80_hard_hw_st_h2c_err_process;
   mk_err QDMA_S80_HARD_SBE_ERR_MI_H2C0_DAT "H2C MM data buffer single bit ECC error" QDMA_S80_HARD_RAM_SBE_MSK_A_ADDR QDMA_S80_HARD_RAM_SBE_STS_A_ADDR S80Regs.RAM_SBE_STS_A_MI_H2C0_DAT_MASK S80Regs.GLBL_ERR_STAT_ERR_RAM_SBE_MASK qdma_s80_hard_hw_ram_sbe_err_process;
   mk_err QDMA_S80_HARD_SBE_ERR_MI_C2H0_DAT "C2H MM data buffer single bit ECC error" QDMA_S80_HARD_RAM_SBE_MSK_A_ADDR QDMA_S80_HARD_RAM_SBE_STS_A_ADDR S80Regs.RAM_SBE_STS_A_MI_C2H0_DAT_MASK S80Regs.GLBL_ERR_STAT_ERR_RAM_SBE_MASK qdma_s80_hard_hw_ram_sbe_err_process;
   mk_err QDMA_S80_HARD_SBE_ERR_H2C_RD_BRG_DAT "Bridge master read single bit ECC error" QDMA_S80_HARD_RAM_SBE_MSK_A_ADDR QDMA_S80_HARD_RAM_SBE_STS_A_ADDR S80Regs.RAM_SBE_STS_A_H2C_RD_BRG_DAT_MASK S80Regs.GLBL_ERR_STAT_ERR_RAM_SBE_MASK qdma_s80_hard_hw_ram_sbe_err_process;
   mk_err QDMA_S80_HARD_SBE_ERR_H2C_WR_BRG_DAT "Bridge master write single bit ECC error" QDMA_S80_HARD_RAM_SBE_MSK_A_ADDR QDMA_S80_HARD_RAM_SBE_STS_A_ADDR S80Regs.RAM_SBE_STS_A_H2C_WR_BRG_DAT_MASK S80Regs.GLBL_ERR_STAT_ERR_RAM_SBE_MASK qdma_s80_hard_hw_ram_sbe_err_process;
   mk_err QDMA_S80_HARD_SBE_ERR_C2H_RD_BRG_DAT "Bridge slave read data buffer single bit ECC error" QDMA_S80_HARD_RAM_SBE_MSK_A_ADDR QDMA_S80_HARD_RAM_SBE_STS_A_ADDR S80Regs.RAM_SBE_STS_A_C2H_RD_BRG_DAT_MASK S80Regs.GLBL_ERR_STAT_ERR_RAM_SBE_MASK qdma_s80_hard_hw_ram_sbe_err_process;
   mk_err QDMA_S80_HARD_SBE_ERR_C2H_WR_BRG_DAT "Bridge slave write data buffer single bit ECC error" QDMA_S80_HARD_RAM_SBE_MSK_A_ADDR QDMA_S80_HARD_RAM_SBE_STS_A_ADDR S80Regs.RAM_SBE_STS_A_C2H_WR_BRG_DAT_MASK S80Regs.GLBL_ERR_STAT_ERR_RAM_SBE_MASK qdma_s80_hard_hw_ram_sbe_err_process;
   mk_err QDMA_S80_HARD_SBE_ERR_FUNC_MAP "Function map RAM single bit ECC error" QDMA_S80_HARD_RAM_SBE_MSK_A_ADDR QDMA_S80_HARD_RAM_SBE_STS_A_ADDR S80Regs.RAM_SBE_STS_A_FUNC_MAP_MASK S80Regs.GLBL_ERR_STAT_ERR_RAM_SBE_MASK qdma_s80_hard_hw_ram_sbe_err_process;
   mk_err QDMA_S80_HARD_SBE_ERR_DSC_HW_CTXT "Descriptor engine hardware context RAM single bit ECC error" QDMA_S80_HARD_RAM_SBE_MSK_A_ADDR QDMA_S80_HARD_RAM_SBE_STS_A_ADDR S80Regs.RAM_SBE_STS_A_DSC_HW_CTXT_MASK S80Regs.GLBL_ERR_STAT_ERR_RAM_SBE_MASK qdma_s80_hard_hw_ram_sbe_err_process].

Definition qdma_s80_hard_err_info_5 : list hw_err_info :=
  [mk_err QDMA_S80_HARD_SBE_ERR_DSC_CRD_RCV "Descriptor engine receive credit context RAM single bit ECC error" QDMA_S80_HARD_RAM_SBE_MSK_A_ADDR QDMA_S80_HARD_RAM_SBE_STS_A_ADDR S80Regs.RAM_SBE_STS_A_DSC_CRD_RCV_MASK S80Regs.GLBL_ERR_STAT_ERR_RAM_SBE_MASK qdma_s80_hard_hw_ram_sbe_err_process;
   mk_err QDMA_S80_HARD_SBE_ERR_DSC_SW_CTXT "Descriptor engine software context RAM single bit ECC error" QDMA_S80_HARD_RAM_SBE_MSK_A_ADDR QDMA_S80_HARD_RAM_SBE_STS_A_ADDR S80Regs.RAM_SBE_STS_A_DSC_SW_CTXT_MASK S80Regs.GLBL_ERR_STAT_ERR_RAM_SBE_MASK qdma_s80_hard_hw_ram_sbe_err_process;
   mk_err QDMA_S80_HARD_SBE_ERR_DSC_CPLI "Descriptor engine fetch completion information RAM single bit ECC error" QDMA_S80_HARD_RAM_SBE_MSK_A_ADDR QDMA_S80_HARD_RAM_SBE_STS_A_ADDR S80Regs.RAM_SBE_STS_A_DSC_CPLI_MASK S80Regs.GLBL_ERR_STAT_ERR_RAM_SBE_MASK qdma_s80_hard_hw_ram_sbe_err_process;
   mk_err QDMA_S80_HARD_SBE_ERR_DSC_CPLD "Descriptor engine fetch completion data RAM single bit ECC error" QDMA_S80_HARD_RAM_SBE_MSK_A_ADDR QDMA_S80_HARD_RAM_SBE_STS_A_ADDR S80Regs.RAM_SBE_STS_A_DSC_CPLD_MASK S80Regs.GLBL_ERR_STAT_ERR_RAM_SBE_MASK qdma_s80_hard_hw_ram_sbe_err_process;
   mk_err QDMA_S80_HARD_SBE_ERR_PASID_CTXT_RAM "Pasid ctxt FIFO RAM single bit ECC error" QDMA_S80_HARD_RAM_SBE_MSK_A_ADDR QDMA_S80_HARD_RAM_SBE_STS_A_ADDR S80Regs.RAM_SBE_STS_A_PASID_CTXT_RAM_MASK S80Regs.GLBL_ERR_STAT_ERR_RAM_SBE_MASK qdma_s80_hard_hw_ram_sbe_err_process;
   mk_err QDMA_S80_HARD_SBE_ERR_TIMER_FIFO_RAM "Timer fifo RAM single bit ECC error" QDMA_S80_HARD_RAM_SBE_MSK_A_ADDR QDMA_S80_HARD_RAM_SBE_STS_A_ADDR S80Regs.RAM_SBE_STS_A_TIMER_FIFO_RAM_MASK S80Regs.GLBL_ERR_STAT_ERR_RAM_SBE_MASK qdma_s80_hard_hw_ram_sbe_err_process;
   mk_err QDMA_S80_HARD_SBE_ERR_PAYLOAD_FIFO_RAM "C2H ST payload FIFO RAM single bit ECC error" QDMA_S80_HARD_RAM_SBE_MSK_A_ADDR QDMA_S80_HARD_RAM_SBE_STS_A_ADDR S80Regs.RAM_SBE_STS_A_PLD_FIFO_RAM_MASK S80Regs.GLBL_ERR_STAT_ERR_RAM_SBE_MASK qdma_s80_hard_hw_ram_sbe_err_process;
   mk_err QDMA_S80_HARD_SBE_ERR_QID_FIFO_RAM "C2H ST QID FIFO RAM single bit ECC error" QDMA_S80_HARD_RAM_SBE_MSK_A_ADDR QDMA_S80_HARD_RAM_SBE_STS_A_ADDR S80Regs.RAM_SBE_STS_A_QID_FIFO_RAM_MASK S80Regs.GLBL_ERR_STAT_ERR_RAM_SBE_MASK qdma_s80_hard_hw_ram_sbe_err_process;
   mk_err QDMA_S80_HARD_SBE_ERR_TUSER_FIFO_RAM "C2H ST TUSER FIFO RAM single bit ECC error" QDMA_S80_HARD_RAM_SBE_MSK_A_ADDR QDMA_S80_HARD_RAM_SBE_STS_A_ADDR S80Regs.RAM_SBE_STS_A_TUSER_FIFO_RAM_MASK S80Regs.GLBL_ERR_STAT_ERR_RAM_SBE_MASK qdma_s80_hard_hw_ram_sbe_err_process;
   mk_err QDMA_S80_HARD_SBE_ERR_WRB_COAL_DATA_RAM "Writeback Coalescing RAM single bit ECC error" QDMA_S80_HARD_RAM_SBE_MSK_A_ADDR QDMA_S80_HARD_RAM_SBE_STS_A_ADDR S80Regs.RAM_SBE_STS_A_WRB_COAL_DATA_RAM_MASK S80Regs.GLBL_ERR_STAT_ERR_RAM_SBE_MASK qdma_s80_hard_hw_ram_sbe_err_process;
   mk_err QDMA_S80_HARD_SBE_ERR_INT_QID2VEC_RAM "Interrupt QID2VEC RAM single bit ECC error" QDMA_S80_HARD_RAM_SBE_MSK_A_ADDR QDMA_S80_HARD_RAM_SBE_STS_A_ADDR S80Regs.RAM_SBE_STS_A_INT_QID2VEC_RAM_MASK S80Regs.GLBL_ERR_STAT_ERR_RAM_SBE_MASK qdma_s80_hard_hw_ram_sbe_err_process;
   mk_err QDMA_S80_HARD_SBE_ERR_INT_CTXT_RAM "Interrupt context RAM single bit ECC error" QDMA_S80_HARD_RAM_SBE_MSK_A_ADDR QDMA_S80_HARD_RAM_SBE_STS_A_ADDR S80Regs.RAM_SBE_STS_A_INT_CTXT_RAM_MASK S80Regs.GLBL_ERR_STAT_ERR_RAM_SBE_MASK qdma_s80_hard_hw_ram_sbe_err_process;
   mk_err QDMA_S80_HARD_SBE_ERR_DESC_REQ_FIFO_RAM "C2H ST descriptor request RAM single bit ECC error" QDMA_S80_HARD_RAM_SBE_MSK_A_ADDR QDMA_S80_HARD_RAM_SBE_STS_A_ADDR S80Regs.RAM_SBE_STS_A_DESC_REQ_FIFO_RAM_MASK S80Regs.GLBL_ERR_STAT_ERR_RAM_SBE_MASK qdma_s80_hard_hw_ram_sbe_err_process;
   mk_err QDMA_S80_HARD_SBE_ERR_PFCH_CTXT_RAM "C2H ST prefetch RAM single bit ECC error" QDMA_S80_HARD_RAM_SBE_MSK_A_ADDR QDMA_S80_HARD_RAM_SBE_STS_A_ADDR S80Regs.RAM_SBE_STS_A_PFCH_CTXT_RAM_MASK S80Regs.GLBL_ERR_STAT_ERR_RAM_SBE_MASK qdma_s80_hard_hw_ram_sbe_err_process;
   mk_err QDMA_S80_HARD_SBE_ERR_WRB_CTXT_RAM "C2H ST completion context RAM single bit ECC error" QDMA_S80_HARD_RAM_SBE_MSK_A_ADDR QDMA_S80_HARD_RAM_SBE_STS_A_ADDR S80Regs.RAM_SBE_STS_A_WRB_CTXT_RAM_MASK S80Regs.GLBL_ERR_STAT_ERR_RAM_SBE_MASK qdma_s80_hard_hw_ram_sbe_err_process;
   mk_err QDMA_S80_HARD_SBE_ERR_PFCH_LL_RAM "C2H ST prefetch list RAM single bit ECC error" QDMA_S80_HARD_RAM_SBE_MSK_A_ADDR QDMA_S80_HARD_RAM_SBE_STS_A_ADDR S80Regs.RAM_SBE_STS_A_PFCH_LL_RAM_MASK S80Regs.GLBL_ERR_STAT_ERR_RAM_SBE_MASK qdma_s80_hard_hw_ram_sbe_err_process].

Definition qdma_s80_hard_err_info_6 : list hw_err_info :=
  [mk_err QDMA_S80_HARD_SBE_ERR_ALL "All SBE errors" QDMA_S80_HARD_RAM_SBE_MSK_A_ADDR QDMA_S80_HARD_RAM_SBE_STS_A_ADDR QDMA_S80_HARD_SBE_ERR_ALL_MASK S80Regs.GLBL_ERR_STAT_ERR_RAM_SBE_MASK qdma_s80_hard_hw_ram_sbe_err_process;
   mk_err QDMA_S80_HARD_DBE_ERR_MI_H2C0_DAT "H2C MM data buffer single bit ECC error" QDMA_S80_HARD_RAM_DBE_MSK_A_ADDR QDMA_S80_HARD_RAM_DBE_STS_A_ADDR S80Regs.RAM_DBE_STS_A_MI_H2C0_DAT_MASK S80Regs.GLBL_ERR_STAT_ERR_RAM_DBE_MASK qdma_s80_hard_hw_ram_dbe_err_process;
   mk_err QDMA_S80_HARD_DBE_ERR_MI_C2H0_DAT "C2H MM data buffer single bit ECC error" QDMA_S80_HARD_RAM_DBE_MSK_A_ADDR QDMA_S80_HARD_RAM_DBE_STS_A_ADDR S80Regs.RAM_DBE_STS_A_MI_C2H0_DAT_MASK S80Regs.GLBL_ERR_STAT_ERR_RAM_DBE_MASK qdma_s80_hard_hw_ram_dbe_err_process;
   mk_err QDMA_S80_HARD_DBE_ERR_H2C_RD_BRG_DAT "Bridge master read single bit ECC error" QDMA_S80_HARD_RAM_DBE_MSK_A_ADDR QDMA_S80_HARD_RAM_DBE_STS_A_ADDR S80Regs.RAM_DBE_STS_A_H2C_RD_BRG_DAT_MASK S80Regs.GLBL_ERR_STAT_ERR_RAM_DBE_MASK qdma_s80_hard_hw_ram_dbe_err_process;
   mk_err QDMA_S80_HARD_DBE_ERR_H2C_WR_BRG_DAT "Bridge master write single bit ECC error" QDMA_S80_HARD_RAM_DBE_MSK_A_ADDR QDMA_S80_HARD_RAM_DBE_STS_A_ADDR S80Regs.RAM_DBE_STS_A_H2C_WR_BRG_DAT_MASK S80Regs.GLBL_ERR_STAT_ERR_RAM_DBE_MASK qdma_s80_hard_hw_ram_dbe_err_process;
   mk_err QDMA_S80_HARD_DBE_ERR_C2H_RD_BRG_DAT "Bridge slave read data buffer single bit ECC error" QDMA_S80_HARD_RAM_DBE_MSK_A_ADDR QDMA_S80_HARD_RAM_DBE_STS_A_ADDR S80Regs.RAM_DBE_STS_A_C2H_RD_BRG_DAT_MASK S80Regs.GLBL_ERR_STAT_ERR_RAM_DBE_MASK qdma_s80_hard_hw_ram_dbe_err_process;
   mk_err QDMA_S80_HARD_DBE_ERR_C2H_WR_BRG_DAT "Bridge slave write data buffer single bit ECC error" QDMA_S80_HARD_RAM_DBE_MSK_A_ADDR QDMA_S80_HARD_RAM_DBE_STS_A_ADDR S80Regs.RAM_DBE_STS_A_C2H_WR_BRG_DAT_MASK S80Regs.GLBL_ERR_STAT_ERR_RAM_DBE_MASK qdma_s80_hard_hw_ram_dbe_err_process;
   mk_err QDMA_S80_HARD_DBE_ERR_FUNC_MAP "Function map RAM single bit ECC error" QDMA_S80_HARD_RAM_DBE_MSK_A_ADDR QDMA_S80_HARD_RAM_DBE_STS_A_ADDR S80Regs.RAM_DBE_STS_A_FUNC_MAP_MASK S80Regs.GLBL_ERR_STAT_ERR_RAM_DBE_MASK qdma_s80_hard_hw_ram_dbe_err_process;
   mk_err QDMA_S80_HARD_DBE_ERR_DSC_HW_CTXT "Descriptor engine hardware context RAM single bit ECC error" QDMA_S80_HARD_RAM_DBE_MSK_A_ADDR QDMA_S80_HARD_RAM_DBE_STS_A_ADDR S80Regs.RAM_DBE_STS_A_DSC_HW_CTXT_MASK S80Regs.GLBL_ERR_STAT_ERR_RAM_DBE_MASK qdma_s80_hard_hw_ram_dbe_err_process;
   mk_err QDMA_S80_HARD_DBE_ERR_DSC_CRD_RCV "Descriptor engine receive credit context RAM single bit ECC error" QDMA_S80_HARD_RAM_DBE_MSK_A_ADDR QDMA_S80_HARD_RAM_DBE_STS_A_ADDR S80Regs.RAM_DBE_STS_A_DSC_CRD_RCV_MASK S80Regs.GLBL_ERR_STAT_ERR_RAM_DBE_MASK qdma_s80_hard_hw_ram_dbe_err_process;
   mk_err QDMA_S80_HARD_DBE_ERR_DSC_SW_CTXT "Descriptor engine software context RAM single bit ECC error" QDMA_S80_HARD_RAM_DBE_MSK_A_ADDR QDMA_S80_HARD_RAM_DBE_STS_A_ADDR S80Regs.RAM_DBE_STS_A_DSC_SW_CTXT_MASK S80Regs.GLBL_ERR_STAT_ERR_RAM_DBE_MASK qdma_s80_hard_hw_ram_dbe_err_process;
   mk_err QDMA_S80_HARD_DBE_ERR_DSC_CPLI "Descriptor engine fetch completion information RAM single bit ECC error" QDMA_S80_HARD_RAM_DBE_MSK_A_ADDR QDMA_S80_HARD_RAM_DBE_STS_A_ADDR S80Regs.RAM_DBE_STS_A_DSC_CPLI_MASK S80Regs.GLBL_ERR_STAT_ERR_RAM_DBE_MASK qdma_s80_hard_hw_ram_dbe_err_process;
   mk_err QDMA_S80_HARD_DBE_ERR_DSC_CPLD "Descriptor engine fetch completion data RAM single bit ECC error" QDMA_S80_HARD_RAM_DBE_MSK_A_ADDR QDMA_S80_HARD_RAM_DBE_STS_A_ADDR S80Regs.RAM_DBE_STS_A_DSC_CPLD_MASK S80Regs.GLBL_ERR_STAT_ERR_RAM_DBE_MASK qdma_s80_hard_hw_ram_dbe_err_process;
   mk_err QDMA_S80_HARD_DBE_ERR_PASID_CTXT_RAM "PASID CTXT RAM single bit ECC error" QDMA_S80_HARD_RAM_DBE_MSK_A_ADDR QDMA_S80_HARD_RAM_DBE_STS_A_ADDR S80Regs.RAM_DBE_STS_A_PASID_CTXT_RAM_MASK S80Regs.GLBL_ERR_STAT_ERR_RAM_DBE_MASK qdma_s80_hard_hw_ram_dbe_err_process;
   mk_err QDMA_S80_HARD_DBE_ERR_TIMER_FIFO_RAM "Timer fifo RAM single bit ECC error" QDMA_S80_HARD_RAM_DBE_MSK_A_ADDR QDMA_S80_HARD_RAM_DBE_STS_A_ADDR S80Regs.RAM_DBE_STS_A_TIMER_FIFO_RAM_MASK S80Regs.GLBL_ERR_STAT_ERR_RAM_DBE_MASK qdma_s80_hard_hw_ram_dbe_err_process;
   mk_err QDMA_S80_HARD_DBE_ERR_PAYLOAD_FIFO_RAM "Payload fifo RAM single bit ECC error" QDMA_S80_HARD_RAM_DBE_MSK_A_ADDR QDMA_S80_HARD_RAM_DBE_STS_A_ADDR S80Regs.RAM_DBE_STS_A_PLD_FIFO_RAM_MASK S80Regs.GLBL_ERR_STAT_ERR_RAM_DBE_MASK qdma_s80_hard_hw_ram_dbe_err_process].

Definition qdma_s80_hard_err_info_7 : list hw_err_info :=
  [mk_err QDMA_S80_HARD_DBE_ERR_QID_FIFO_RAM "C2H ST QID FIFO RAM single bit ECC error" QDMA_S80_HARD_RAM_DBE_MSK_A_ADDR QDMA_S80_HARD_RAM_DBE_STS_A_ADDR S80Regs.RAM_DBE_STS_A_QID_FIFO_RAM_MASK S80Regs.GLBL_ERR_STAT_ERR_RAM_DBE_MASK qdma_s80_hard_hw_ram_dbe_err_process;
   mk_err QDMA_S80_HARD_DBE_ERR_WRB_COAL_DATA_RAM "Writeback Coalescing RAM single bit ECC error" QDMA_S80_HARD_RAM_DBE_MSK_A_ADDR QDMA_S80_HARD_RAM_DBE_STS_A_ADDR S80Regs.RAM_DBE_STS_A_WRB_COAL_DATA_RAM_MASK S80Regs.GLBL_ERR_STAT_ERR_RAM_DBE_MASK qdma_s80_hard_hw_ram_dbe_err_process;
   mk_err QDMA_S80_HARD_DBE_ERR_INT_QID2VEC_RAM "QID2VEC RAM single bit ECC error" QDMA_S80_HARD_RAM_DBE_MSK_A_ADDR QDMA_S80_HARD_RAM_DBE_STS_A_ADDR S80Regs.RAM_DBE_STS_A_INT_QID2VEC_RAM_MASK S80Regs.GLBL_ERR_STAT_ERR_RAM_DBE_MASK qdma_s80_hard_hw_ram_dbe_err_process;
   mk_err QDMA_S80_HARD_DBE_ERR_INT_CTXT_RAM "Interrupt context RAM single bit ECC error" QDMA_S80_HARD_RAM_DBE_MSK_A_ADDR QDMA_S80_HARD_RAM_DBE_STS_A_ADDR S80Regs.RAM_DBE_STS_A_INT_CTXT_RAM_MASK S80Regs.GLBL_ERR_STAT_ERR_RAM_DBE_MASK qdma_s80_hard_hw_ram_dbe_err_process;
   mk_err QDMA_S80_HARD_DBE_ERR_DESC_REQ_FIFO_RAM "C2H ST descriptor request RAM single bit ECC error" QDMA_S80_HARD_RAM_DBE_MSK_A_ADDR QDMA_S80_HARD_RAM_DBE_STS_A_ADDR S80Regs.RAM_DBE_STS_A_DESC_REQ_FIFO_RAM_MASK S80Regs.GLBL_ERR_STAT_ERR_RAM_DBE_MASK qdma_s80_hard_hw_ram_dbe_err_process;
   mk_err QDMA_S80_HARD_DBE_ERR_PFCH_CTXT_RAM "C2H ST prefetch RAM single bit ECC error" QDMA_S80_HARD_RAM_DBE_MSK_A_ADDR QDMA_S80_HARD_RAM_DBE_STS_A_ADDR S80Regs.RAM_DBE_STS_A_PFCH_CTXT_RAM_MASK S80Regs.GLBL_ERR_STAT_ERR_RAM_DBE_MASK qdma_s80_hard_hw_ram_dbe_err_process;
   mk_err QDMA_S80_HARD_DBE_ERR_WRB_CTXT_RAM "C2H ST completion context RAM single bit ECC error" QDMA_S80_HARD_RAM_DBE_MSK_A_ADDR QDMA_S80_HARD_RAM_DBE_STS_A_ADDR S80Regs.RAM_DBE_STS_A_WRB_CTXT_RAM_MASK S80Regs.GLBL_ERR_STAT_ERR_RAM_DBE_MASK qdma_s80_hard_hw_ram_dbe_err_process;
   mk_err QDMA_S80_HARD_DBE_ERR_PFCH_LL_RAM "C2H ST prefetch list RAM single bit ECC error" QDMA_S80_HARD_RAM_DBE_MSK_A_ADDR QDMA_S80_HARD_RAM_DBE_STS_A_ADDR S80Regs.RAM_DBE_STS_A_PFCH_LL_RAM_MASK S80Regs.GLBL_ERR_STAT_ERR_RAM_DBE_MASK qdma_s80_hard_hw_ram_dbe_err_process;
   mk_err QDMA_S80_HARD_DBE_ERR_ALL "All DBE errors" QDMA_S80_HARD_RAM_DBE_MSK_A_ADDR QDMA_S80_HARD_RAM_DBE_STS_A_ADDR QDMA_S80_HARD_DBE_ERR_ALL_MASK S80Regs.GLBL_ERR_STAT_ERR_RAM_DBE_MASK qdma_s80_hard_hw_ram_dbe_err_process].

Definition qdma_s80_hard_err_info : list hw_err_info :=
  qdma_s80_hard_err_info_1 ++ qdma_s80_hard_err_info_2 ++ qdma_s80_hard_err_info_3 ++ qdma_s80_hard_err_info_4 ++ qdma_s80_hard_err_info_5 ++ qdma_s80_hard_err_info_6 ++ qdma_s80_hard_err_info_7.

(** The last of each group of errors, which stands for the group, and the first. *)

Definition all_qdma_s80_hard_hw_errs : list Z :=
  map qdma_s80_hard_error_idx_code [QDMA_S80_HARD_DSC_ERR_ALL; QDMA_S80_HARD_TRQ_ERR_ALL; QDMA_S80_HARD_ST_C2H_ERR_ALL; QDMA_S80_HARD_ST_FATAL_ERR_ALL; QDMA_S80_HARD_ST_H2C_ERR_ALL; QDMA_S80_HARD_SBE_ERR_ALL; QDMA_S80_HARD_DBE_ERR_ALL].

Definition qdma_s80_hard_hw_err_position : list Z :=
  map qdma_s80_hard_error_idx_code [QDMA_S80_HARD_DSC_ERR_POISON; QDMA_S80_HARD_TRQ_ERR_UNMAPPED; QDMA_S80_HARD_ST_C2H_ERR_MTY_MISMATCH; QDMA_S80_HARD_ST_FATAL_ERR_MTY_MISMATCH; QDMA_S80_HARD_ST_H2C_ERR_ZERO_LEN_DESC_ERR; QDMA_S80_HARD_SBE_ERR_MI_H2C0_DAT; QDMA_S80_HARD_DBE_ERR_MI_H2C0_DAT].

Definition qdma_s80_hard_hw_errs : err_lib :=
  {| err_info := qdma_s80_hard_err_info; err_alls := all_qdma_s80_hard_hw_errs; err_positions := qdma_s80_hard_hw_err_position;
     err_st_positions := map qdma_s80_hard_error_idx_code [QDMA_S80_HARD_ST_C2H_ERR_MTY_MISMATCH; QDMA_S80_HARD_ST_FATAL_ERR_MTY_MISMATCH; QDMA_S80_HARD_ST_H2C_ERR_ZERO_LEN_DESC_ERR];
     err_st_alls := map qdma_s80_hard_error_idx_code [QDMA_S80_HARD_ST_C2H_ERR_ALL; QDMA_S80_HARD_ST_FATAL_ERR_ALL; QDMA_S80_HARD_ST_H2C_ERR_ALL];
     errs_all := QDMA_S80_HARD_ERRS_ALL; glbl_stat := QDMA_S80_HARD_GLBL_ERR_STAT_ADDR; glbl_mask := QDMA_S80_HARD_GLBL_ERR_MASK_ADDR |}.

Definition qdma_s80_hard_hw_get_error_name : Z -> option string := hw_get_error_name qdma_s80_hard_hw_errs.

Section errors.
Context {S : Type} `{HasTrace S} `{MmioDevice}.

Definition qdma_s80_hard_hw_error_process : M S (Z * list (option string)) :=
  hw_error_process qdma_s80_hard_hw_errs S80Csr.qdma_s80_hard_caps (fun a => qdma_s80_hard_dump_reg_info a 1 None).
Definition qdma_s80_hard_hw_error_enable : Z -> M S Z := hw_error_enable qdma_s80_hard_hw_errs S80Csr.qdma_s80_hard_caps.
End errors.
