(* ===== verification/HwErrsProps.v ===== *)
(** * HwErrsProps: finding and enabling hardware errors

    Every group's status is acknowledged with the value it showed, the errors it shows are
    reported, and nothing else is written; enabling all errors sets every group's mask and its bit in the global mask.  The
    tables are checked: where they say of two errors the same, or leave an error out, is stated at the end. *)

From S2P Require Import Prelude Mmio CLayout Contexts Fields Text RegTables QdmaErrors.
From S2P Require Import Indirect IndirectMem Csr CsrProps RegList RegDump RegDumpProps HwErrs.
From S2P Require EqdmaErrs SoftErrs S80Errs.
Local Open Scope string_scope.
Local Open Scope list_scope.
Local Open Scope Z_scope.

(** ** The tables of the libraries *)

Definition errs_of (l : library) : err_lib :=
  match l with
  | EQDMA => EqdmaErrs.eqdma_hw_errs | QDMA_SOFT => SoftErrs.qdma_hw_errs | QDMA_S80 => S80Errs.qdma_s80_hard_hw_errs
  end.

Definition groups (e : err_lib) : list (Z * Z) := zip (err_positions e) (err_alls e).

Definition row_at (e : err_lib) (idx : Z) : hw_err_info :=
  default (mk_err 0 "" 0 0 0 0 []) (err_info e !! Z.to_nat idx).

(** The rows are numbered; the groups are one after the other and make up the table; the rows of a group
    have its registers and its bit; and no two groups share a register, nor use the global ones. *)
Definition group_ok (e : err_lib) (g : Z * Z) : bool :=
  let stat := stat_reg_addr (row_at e g.1) in
  let mask := mask_reg_addr (row_at e g.1) in
  let glbl := global_err_mask (row_at e g.1) in
  (0 <=? g.1) && (g.1 <? g.2) && (g.2 <? errs_all e) && mask_ok glbl && (Z.log2 glbl =? FIELD_SHIFT glbl) &&
  forallb (fun idx => let r := row_at e idx in
             (err_idx r =? idx) && (stat_reg_addr r =? stat) && (mask_reg_addr r =? mask) && (global_err_mask r =? glbl) &&
             (0 <? leaf_err_mask r) && (leaf_err_mask r <? 2 ^ 32))
    (seqZ g.1 (g.2 - g.1 + 1)).

Definition tables_fit (e : err_lib) : bool :=
  forallb (group_ok e) (groups e) &&
  bool_decide (flat_map (fun g => seqZ g.1 (g.2 - g.1 + 1)) (groups e) = seqZ 0 (errs_all e)) &&
  (Z.of_nat (length (err_info e)) =? errs_all e) &&
  distinct (glbl_stat e :: glbl_mask e ::
            flat_map (fun g => [stat_reg_addr (row_at e g.1); mask_reg_addr (row_at e g.1)]) (groups e)).

Lemma err_tables_fit l : tables_fit (errs_of l) = true.
Proof. destruct l; vm_compute; reflexivity. Qed.

Lemma errs_small l : (length (err_info (errs_of l)) < 1000)%nat.
Proof. destruct l; vm_compute; lia. Qed.

Lemma row_lookup l idx :
  0 <= idx < errs_all (errs_of l) -> err_info (errs_of l) !! Z.to_nat idx = Some (row_at (errs_of l) idx).
Proof.
  intros Hi. pose proof (err_tables_fit l) as H. unfold tables_fit in H. rewrite !andb_true_iff in H.
  destruct H as [[[_ _] Hn] _]. apply Z.eqb_eq in Hn. unfold row_at.
  destruct (lookup_lt_is_Some_2 (err_info (errs_of l)) (Z.to_nat idx)) as [r Hr]; [lia|]. by rewrite Hr.
Qed.

Lemma group_fits l g :
  g ∈ groups (errs_of l) ->
  0 <= g.1 < g.2 /\ g.2 < errs_all (errs_of l) /\ mask_ok (global_err_mask (row_at (errs_of l) g.1)) = true /\
  (forall idx, g.1 <= idx <= g.2 -> stat_reg_addr (row_at (errs_of l) idx) = stat_reg_addr (row_at (errs_of l) g.1) /\
     mask_reg_addr (row_at (errs_of l) idx) = mask_reg_addr (row_at (errs_of l) g.1) /\
     global_err_mask (row_at (errs_of l) idx) = global_err_mask (row_at (errs_of l) g.1) /\
     is_u32 (leaf_err_mask (row_at (errs_of l) idx))).
Proof.
  intros Hg. pose proof (err_tables_fit l) as H. unfold tables_fit in H. rewrite !andb_true_iff in H.
  destruct H as [[[H _] _] _]. rewrite forallb_forall in H. specialize (H g (proj1 (list_elem_of_In _ _) Hg)).
  unfold group_ok in H. rewrite !andb_true_iff, Z.leb_le, !Z.ltb_lt in H.
  destruct H as [[[[[H0 H1] H2] H3] _] H4]. split_and!; [done..|]. intros idx Hi. rewrite forallb_forall in H4.
  specialize (H4 idx). rewrite <- list_elem_of_In, elem_of_seqZ in H4. specialize (H4 ltac:(lia)).
  rewrite !andb_true_iff, !Z.eqb_eq, !Z.ltb_lt in H4. unfold is_u32. change 4294967296 with (2 ^ 32). naive_solver lia.
Qed.

Section props.
Context {S : Type} `{HasTrace S} `{MmioDevice}.
Implicit Types (s : S) (l : library) (g : Z * Z).

(** ** What is printed does not write *)

Lemma find_reg_found regs k a i :
  find_reg regs k a = Some i -> exists x, regs !! (i - k)%nat = Some x /\ x_addr x = a /\ (k <= i)%nat.
Proof.
  revert k. induction regs as [|y regs IH]; intros k; cbn [find_reg]; [done|].
  destruct (Z.eqb_spec (x_addr y) a) as [E|]; intros Hi.
  - injection Hi as <-. exists y. by rewrite Nat.sub_diag.
  - destruct (IH _ Hi) as (x & Hx & Ha & Hk). exists x. split_and!; [|done|lia].
    by replace (i - k)%nat with (Datatypes.S (i - Datatypes.S k)) by lia.
Qed.

Lemma dump_quiet l a s :
  exists r s', dump_reg_info_of l a 1 None s = Ret r s' /\ writes (trace_of s') = writes (trace_of s).
Proof.
  destruct (find_reg (regs_table l) 0 a) as [i|] eqn:E.
  - destruct (find_reg_found _ _ _ _ E) as (x & Hx & <- & _). rewrite Nat.sub_0_r in Hx.
    assert (rows l !! i = Some x) as Hi.
    { destruct l; [done| |done]. cbn [rows]. rewrite lookup_take_lt; [done|].
      pose proof (lookup_lt_Some _ _ _ Hx) as Hlt. change (length (regs_table QDMA_SOFT)) with 154%nat in Hlt.
      destruct (decide (i = 153%nat)) as [->|]; [exfalso|lia].
      injection Hx as <-. vm_compute in E. discriminate. }
    destruct (reg_info_run l i x None s Hi) as (skips & s1 & _ & W & R); [done|].
    cbn zeta in R. eexists _, _. split; [exact R|]. unfold log. by rewrite trace_of_with.
  - rewrite dump_reg_info_of_eq. unfold dump_reg_info. destruct (skips_run l s) as (skips & s1 & Hs & W).
    rewrite (bind_Ret _ _ _ _ _ Hs), E. by eexists _, s1.
Qed.

(** ** Finding errors *)

(** The rows of a group, but the one that stands for all, whose bits are set in [v]. *)
Definition errors_in (e : err_lib) (g : Z * Z) (v : Z) : list Z :=
  filter (fun idx => Z.land v (leaf_err_mask (row_at e idx)) <> 0) (seqZ g.1 (g.2 - g.1)).

Lemma err_row_run l idx s :
  0 <= idx < errs_all (errs_of l) -> err_row (errs_of l) idx s = Ret (row_at (errs_of l) idx) s.
Proof. intros Hi. unfold err_row, deref. by rewrite row_lookup. Qed.

Lemma report_run l n v idx s :
  0 <= idx -> idx + Z.of_nat n <= errs_all (errs_of l) ->
  report (errs_of l) n v idx s =
  Ret (hw_get_error_name (errs_of l) <$> errors_in (errs_of l) (idx, idx + Z.of_nat n) v) s.
Proof.
  revert idx. induction n as [|n IH]; intros idx Hi Hn.
  { unfold errors_in. cbn [fst snd]. rewrite Z.add_0_r, Z.sub_diag. done. }
  cbn [report]. rewrite (bind_Ret _ _ _ _ _ (err_row_run l idx s ltac:(lia))).
  rewrite (bind_Ret _ _ _ _ _ (IH (idx + 1) ltac:(lia) ltac:(lia))).
  unfold errors_in. cbn [fst snd]. replace (idx + Z.of_nat (Datatypes.S n) - idx) with (Z.of_nat (Datatypes.S n)) by lia.
  rewrite (seqZ_cons idx) by lia. replace (idx + 1 + Z.of_nat n - (idx + 1)) with (Z.of_nat n) by lia.
  replace (Z.pred (Z.of_nat (Datatypes.S n))) with (Z.of_nat n) by lia. rewrite filter_cons.
  destruct (Z.eqb_spec (Z.land v (leaf_err_mask (row_at (errs_of l) idx))) 0).
  - rewrite decide_False by tauto. done.
  - rewrite decide_True by done. done.
Qed.

Lemma for_each_quiet {A} (xs : list A) (f : A -> M S unit) s :
  (forall x s, exists s', f x s = Ret tt s' /\ writes (trace_of s') = writes (trace_of s)) ->
  exists s', for_each xs f s = Ret tt s' /\ writes (trace_of s') = writes (trace_of s).
Proof.
  intros Hf. revert s. induction xs as [|x xs IH]; intros s; [by exists s|]. cbn [for_each].
  destruct (Hf x s) as (s1 & E1 & W1). destruct (IH s1) as (s2 & E2 & W2). exists s2.
  rewrite (bind_Ret _ _ _ _ _ E1). split; [done|congruence].
Qed.

Definition dump_of l (a : Z) : M S (Z * string) := dump_reg_info_of l a 1 None.

Definition stat_of (e : err_lib) g : Z := stat_reg_addr (row_at e g.1).

(** What a group writes when its status is [v]. *)
Definition acks (e : err_lib) g (v : Z) : list (Z * Z) := if v =? 0 then [] else [(stat_of e g, v)].

Lemma process_group_run l g s :
  g ∈ groups (errs_of l) ->
  let v := reading (trace_of s) (stat_of (errs_of l) g) in
  exists s', process_group (errs_of l) (dump_of l) g.1 g.2 s =
    Ret (if v =? 0 then [] else hw_get_error_name (errs_of l) <$> errors_in (errs_of l) g v) s' /\
    writes (trace_of s') = writes (trace_of s) ++ acks (errs_of l) g v.
Proof.
  intros Hg v. destruct (group_fits l g Hg) as ((Hg0 & Hg1) & Hg2 & _ & _).
  unfold process_group. rewrite (bind_Ret _ _ _ _ _ (err_row_run l g.1 s ltac:(lia))).
  rewrite (bind_Ret _ _ _ _ _ (read_run _ _)). fold (stat_of (errs_of l) g). fold v. unfold acks.
  destruct (Z.eqb_spec v 0) as [E|E].
  { eexists. split; [reflexivity|]. unfold log. by rewrite trace_of_with, app_nil_r. }
  destruct (for_each_quiet (hw_err_process (row_at (errs_of l) g.1)) (fun a => _ ← dump_of l a; mret tt)
              (log (Rd (stat_of (errs_of l) g) v) s)) as (s1 & E1 & W1).
  { intros a s0. destruct (dump_quiet l a s0) as (r & s1 & E1 & W1). exists s1. unfold dump_of.
    by rewrite (bind_Ret _ _ _ _ _ E1). }
  rewrite (bind_Ret _ _ _ _ _ E1), (bind_Ret _ _ _ _ _ (report_run l (Z.to_nat (g.2 - g.1)) v g.1 s1 ltac:(lia) ltac:(lia))).
  rewrite Z2Nat.id by lia. replace (g.1, g.1 + (g.2 - g.1)) with g by (destruct g; cbn [fst snd]; f_equal; lia).
  eexists. split; [reflexivity|]. unfold log. rewrite trace_of_with. cbn [writes].
  rewrite W1. unfold log. rewrite trace_of_with. cbn [writes]. f_equal. f_equal. f_equal. apply u32_small, u32_range.
Qed.

(** The groups that a device with or without streaming has. *)
Definition present (e : err_lib) (st_en : bool) : list (Z * Z) :=
  filter (fun g => negb (negb st_en && one_of (err_st_positions e) g.1) = true) (groups e).

Definition found_in (e : err_lib) (gv : (Z * Z) * Z) : list (option string) :=
  hw_get_error_name e <$> errors_in e gv.1 gv.2.

Definition acks_of (e : err_lib) (gv : (Z * Z) * Z) : list (Z * Z) := acks e gv.1 gv.2.

Lemma errors_in_zero e g : errors_in e g 0 = [].
Proof.
  unfold errors_in. induction (seqZ g.1 (g.2 - g.1)) as [|i is_ IH]; [done|].
  rewrite filter_cons, decide_False by (rewrite Z.land_0_l; tauto). exact IH.
Qed.

Lemma process_groups_run l st_en gs s :
  (forall g, g ∈ gs -> g ∈ groups (errs_of l)) ->
  let here := filter (fun g => negb (negb st_en && one_of (err_st_positions (errs_of l)) g.1) = true) gs in
  exists vs s', process_groups (errs_of l) (dump_of l) st_en gs s =
      Ret (flat_map (found_in (errs_of l)) (zip here vs)) s' /\
    Forall2 (fun g v => exists tr, v = reading tr (stat_of (errs_of l) g)) here vs /\
    writes (trace_of s') = writes (trace_of s) ++ flat_map (acks_of (errs_of l)) (zip here vs).
Proof.
  revert s. induction gs as [|[bit last] gs IH]; intros s Hin.
  { exists [], s. split_and!; [done|constructor|by rewrite app_nil_r]. }
  assert (forall g, g ∈ gs -> g ∈ groups (errs_of l)) as Hin' by (intros g Hg; apply Hin; by right).
  cbn zeta. cbn [process_groups]. rewrite filter_cons. cbn [fst].
  destruct (negb st_en && one_of (err_st_positions (errs_of l)) bit) eqn:E; cbn [negb].
  { rewrite decide_False by done. by apply IH. }
  rewrite decide_True by done.
  destruct (process_group_run l (bit, last) s) as (s1 & E1 & W1); [apply Hin; by left|]. cbn [fst snd] in E1.
  destruct (IH s1 Hin') as (vs & s2 & E2 & F2 & W2). set (v := reading (trace_of s) (stat_of (errs_of l) (bit, last))) in *.
  exists (v :: vs), s2. rewrite (bind_Ret _ _ _ _ _ E1), (bind_Ret _ _ _ _ _ E2). split_and!.
  - cbn [zip zip_with flat_map]. apply (f_equal (fun t => Ret (t ++ _) s2)). unfold found_in. cbn [fst snd].
    destruct (Z.eqb_spec v 0) as [E0|]; [by rewrite E0, errors_in_zero|done].
  - constructor; [by exists (trace_of s)|done].
  - rewrite W2, W1. cbn [zip zip_with flat_map]. by rewrite app_assoc.
Qed.

Definition hw_error_process_of l : M S (Z * list (option string)) :=
  match l with
  | EQDMA => EqdmaErrs.eqdma_hw_error_process | QDMA_SOFT => SoftErrs.qdma_hw_error_process
  | QDMA_S80 => S80Errs.qdma_s80_hard_hw_error_process
  end.

Definition hw_error_enable_of l : Z -> M S Z :=
  match l with
  | EQDMA => EqdmaErrs.eqdma_hw_error_enable | QDMA_SOFT => SoftErrs.qdma_hw_error_enable
  | QDMA_S80 => S80Errs.qdma_s80_hard_hw_error_enable
  end.

Lemma hw_error_process_of_eq l : hw_error_process_of l = hw_error_process (errs_of l) (caps_of l) (dump_of l).
Proof. by destruct l. Qed.

Lemma hw_error_enable_of_eq l err_idx : hw_error_enable_of l err_idx = hw_error_enable (errs_of l) (caps_of l) err_idx.
Proof. by destruct l. Qed.
End props.

(** ** Enabling errors *)

Section enable.
Context (l : library) (init : Z -> Z).
Implicit Types (tr : trace) (g : Z * Z) (a w : Z).

Local Abbreviation e := (errs_of l).
Local Abbreviation mem := (regfile init).

(** The group's bit in the global mask, and its mask register. *)
Definition bit_of (e : err_lib) g : Z := FIELD_SET (global_err_mask (row_at e g.2)) 1.
Definition mask_of (e : err_lib) g : Z := mask_reg_addr (row_at e g.2).
Definition leafs_of (e : err_lib) g : Z := leaf_err_mask (row_at e g.2).

Lemma set_bits_run reg w tr :
  exists tr', @set_bits trace _ (mem) reg w tr = Ret tt tr' /\
    forall a, mem tr' a = if reg =? a then u32 (Z.lor (u32 (mem tr reg)) w) else mem tr a.
Proof.
  eexists. split; [reflexivity|]. intros a. unfold regfile at 1, log. cbn [last_write trace_of with_trace trace_state].
  destruct (Z.eqb_spec reg a) as [->|]; [reflexivity|done].
Qed.

Lemma groups_registers g g' :
  g ∈ groups e -> g' ∈ groups e -> mask_of e g <> glbl_mask e /\ (mask_of e g = mask_of e g' -> g = g').
Proof.
  assert (forallb (fun g => negb (mask_of e g =? glbl_mask e) &&
            forallb (fun g' => negb (mask_of e g =? mask_of e g') || bool_decide (g = g')) (groups e)) (groups e) = true) as Hf
    by (destruct l; vm_compute; reflexivity).
  intros Hg Hg'. rewrite forallb_forall in Hf. specialize (Hf g (proj1 (list_elem_of_In _ _) Hg)).
  apply andb_true_iff in Hf as [Hn Hf]. rewrite forallb_forall in Hf.
  specialize (Hf g' (proj1 (list_elem_of_In _ _) Hg')). rewrite negb_true_iff, Z.eqb_neq in Hn. split; [done|].
  intros E. rewrite E, Z.eqb_refl in Hf. cbn [negb orb] in Hf. by apply bool_decide_eq_true in Hf.
Qed.

Lemma st_lists g : g ∈ groups e -> one_of (err_st_alls e) g.2 = one_of (err_st_positions e) g.1.
Proof.
  assert (forallb (fun g => Bool.eqb (one_of (err_st_alls e) g.2) (one_of (err_st_positions e) g.1)) (groups e) = true) as Hf
    by (destruct l; vm_compute; reflexivity).
  intros Hg. rewrite forallb_forall in Hf. apply eqb_prop. apply Hf. by apply list_elem_of_In.
Qed.

Lemma enable_group_run st_en g tr :
  g ∈ groups e -> negb (negb st_en && one_of (err_st_positions e) g.1) = true ->
  exists tr', @enable_group trace _ mem e st_en g.2 tr = Ret tt tr' /\
    forall a, mem tr' a = if glbl_mask e =? a then u32 (Z.lor (u32 (mem tr (glbl_mask e))) (bit_of e g))
                          else if mask_of e g =? a then leafs_of e g else mem tr a.
Proof.
  intros Hg Hp. unfold enable_group. rewrite (st_lists g Hg). apply negb_true_iff in Hp. rewrite Hp.
  destruct (group_fits l g Hg) as ((H0 & H1) & H2 & _ & Hrows).
  destruct (Hrows g.2 ltac:(lia)) as (_ & _ & _ & Hleaf).
  rewrite (bind_Ret _ _ _ _ _ (err_row_run l g.2 tr ltac:(lia))).
  set (row := row_at e g.2) in *.
  change (write32_data ?a ?v ≫= ?k) with (modify (log (Wr a (u32 v))) ≫= k).
  unfold mbind at 1, M_bind at 1, modify at 1. unfold log at 1. cbn [trace_of with_trace trace_state].
  destruct (set_bits_run (glbl_mask e) (FIELD_SET (global_err_mask row) 1)
              (Wr (mask_reg_addr row) (u32 (leaf_err_mask row)) :: tr)) as (tr' & E & Hm).
  exists tr'. split; [exact E|]. intros a. rewrite Hm. destruct (groups_registers g g Hg Hg) as [Hne _].
  change (mask_reg_addr row) with (mask_of e g). change (leaf_err_mask row) with (leafs_of e g).
  assert (forall b, mem (Wr (mask_of e g) (u32 (leafs_of e g)) :: tr) b =
                    if mask_of e g =? b then leafs_of e g else mem tr b) as Hw.
  { intros b. unfold regfile. cbn [last_write]. destruct (mask_of e g =? b); [by rewrite u32_small|done]. }
  rewrite !Hw. by rewrite (proj2 (Z.eqb_neq _ _) Hne).
Qed.

Lemma last_write_writes tr a :
  last_write tr a = foldl (fun r (av : Z * Z) => if av.1 =? a then Some av.2 else r) None (writes tr).
Proof.
  induction tr as [|[b v|b v] tr IH]; cbn [last_write writes]; [done|exact IH|].
  rewrite foldl_app. cbn [foldl fst snd]. by destruct (b =? a).
Qed.

Lemma regfile_writes tr tr' a : writes tr' = writes tr -> mem tr' a = mem tr a.
Proof. intros E. unfold regfile. by rewrite !last_write_writes, E. Qed.

(** [v] has the bits [w]. *)
Definition has_bits (v w : Z) : Prop := Z.land v w = w.

Lemma has_bits_lor v w m : has_bits v w -> has_bits (Z.lor v m) w.
Proof. unfold has_bits. intros E. rewrite Z.land_lor_distr_l, E. apply Z.bits_inj'. intros n Hn. rewrite Z.lor_spec, Z.land_spec. by destruct (Z.testbit w n), (Z.testbit m n). Qed.

Lemma has_bits_own v w : has_bits (Z.lor v w) w.
Proof. unfold has_bits. apply Z.bits_inj'. intros n Hn. rewrite Z.land_spec, Z.lor_spec. by destruct (Z.testbit w n), (Z.testbit v n). Qed.

Lemma bit_of_u32 g : g ∈ groups e -> is_u32 (bit_of e g).
Proof.
  intros Hg. destruct (group_fits l g Hg) as ((H0 & H1) & H2 & Hok & Hrows).
  destruct (Hrows g.2 ltac:(lia)) as (_ & _ & Hglbl & _). unfold bit_of. rewrite Hglbl.
  unfold mask_ok in Hok. rewrite !andb_true_iff, !Z.ltb_lt in Hok. destruct Hok as [[_ Hlt] Hr].
  by apply set_range.
Qed.

Lemma enable_groups_run st_en gs tr :
  (forall g, g ∈ gs -> g ∈ groups e) -> NoDup gs ->
  let here := filter (fun g => negb (negb st_en && one_of (err_st_positions e) g.1) = true) gs in
  exists tr', @for_each trace Z (gs.*2) (@enable_group trace _ mem e st_en) tr = Ret tt tr' /\
    (forall g, g ∈ here -> mem tr' (mask_of e g) = leafs_of e g /\ has_bits (u32 (mem tr' (glbl_mask e))) (bit_of e g)) /\
    (forall w, has_bits (u32 (mem tr (glbl_mask e))) w -> has_bits (u32 (mem tr' (glbl_mask e))) w) /\
    (forall a, a <> glbl_mask e -> a ∉ mask_of e <$> here -> mem tr' a = mem tr a).
Proof.
  revert tr. induction gs as [|g gs IH]; intros tr Hin Hnd.
  { exists tr. split_and!; [done|by intros g Hg%not_elem_of_nil|done|done]. }
  assert (forall g, g ∈ gs -> g ∈ groups e) as Hin' by (intros g' Hg; apply Hin; by right).
  assert (g ∈ groups e) as Hg by (apply Hin; by left). apply NoDup_cons in Hnd as [Hng Hnd].
  cbn zeta. rewrite filter_cons. cbn [fmap list_fmap for_each].
  destruct (negb (negb st_en && one_of (err_st_positions e) g.1)) eqn:Ep.
  2:{ rewrite decide_False by done. destruct (IH tr Hin' Hnd) as (tr' & E & H1 & H2 & H3). exists tr'.
      split_and!; [|done..].
      assert (@enable_group trace _ mem e st_en g.2 tr = Ret tt tr) as Eg.
      { unfold enable_group. rewrite (st_lists g Hg). apply negb_false_iff in Ep. by rewrite Ep. }
      by rewrite (bind_Ret _ _ _ _ _ Eg). }
  rewrite decide_True by done. destruct (enable_group_run st_en g tr Hg Ep) as (tr1 & E1 & M1).
  destruct (IH tr1 Hin' Hnd) as (tr2 & E2 & H1 & H2 & H3). set (here := filter _ gs) in *.
  exists tr2. rewrite (bind_Ret _ _ _ _ _ E1). split; [exact E2|].
  pose proof (M1 (glbl_mask e)) as Mg. rewrite Z.eqb_refl in Mg.
  assert (u32 (mem tr1 (glbl_mask e)) = Z.lor (u32 (mem tr (glbl_mask e))) (bit_of e g)) as Hglbl.
  { rewrite Mg, u32_idem. apply u32_small. apply lor_u32; [apply u32_range|by apply bit_of_u32]. }
  assert (g ∉ here) as Hnh.
  { intros Hh. unfold here in Hh. apply list_elem_of_filter in Hh as [_ Hh]. done. }
  split_and!.
  - intros g' [->|Hg']%elem_of_cons; [|by apply H1]. split.
    + rewrite H3; [|by apply (groups_registers g g)|].
      * rewrite M1. rewrite (proj2 (Z.eqb_neq _ _)) by (intros E; symmetry in E; by apply (groups_registers g g) in E).
        by rewrite Z.eqb_refl.
      * intros (g' & Heq & Hg')%list_elem_of_fmap. apply groups_registers in Heq; [by subst|done|].
        unfold here in Hg'. apply list_elem_of_filter in Hg' as [_ Hg']. by apply Hin'.
    + apply H2. rewrite Hglbl. apply has_bits_own.
  - intros w Hw. apply H2. rewrite Hglbl. by apply has_bits_lor.
  - intros a Ha Hn. cbn [fmap list_fmap] in Hn. apply not_elem_of_cons in Hn as [Hne Hn]. rewrite H3 by done.
    rewrite M1. rewrite (proj2 (Z.eqb_neq _ _)) by done. by rewrite (proj2 (Z.eqb_neq _ _)) by done.
Qed.
End enable.

(** ** Theorems *)

(** C31. Errors are acknowledged as they are seen.  In every library and on every device, when the global status shows
    nothing, nothing is written and the code says so.  Otherwise the handler succeeds, and there is one value
    read from the status register of each group that the device has (without streaming, not those of the
    streams), such that what is reported is,
    group by group, the errors of the group that have a bit in its value by the library's table (see
    [eqdma_cam_ram_1_missed]), and what is written is, group by group, the value back to the status register unless it
    is zero, and at last the global status with the value it had: no bit is cleared that was not seen. *)
Theorem hw_errors_acknowledged {S : Type} `{HasTrace S} `{MmioDevice} l (s : S) :
  exists caps s0, caps_of l s = Ret caps s0 /\
  let e := errs_of l in
  let glbl := reading (trace_of s0) (glbl_stat e) in
  exists rv found s', hw_error_process_of l s = Ret (rv, found) s' /\
    if glbl =? 0 then rv = QDMA_HW_ERR_NOT_DETECTED /\ found = [] /\ writes (trace_of s') = writes (trace_of s)
    else exists vs, let seen := zip (present e (streams caps)) vs in
      rv = 0 /\ Forall2 (fun g v => exists tr, v = reading tr (stat_of e g)) (present e (streams caps)) vs /\
      found = flat_map (fun gv => hw_get_error_name e <$> errors_in e gv.1 gv.2) seen /\
      writes (trace_of s') = writes (trace_of s) ++
        flat_map (fun gv => if gv.2 =? 0 then [] else [(stat_of e gv.1, gv.2)]) seen ++ [(glbl_stat e, glbl)].
Proof.
  destruct (caps_run l s) as (caps & s0 & Hc & W0). exists caps, s0. split; [done|]. intros e glbl.
  rewrite hw_error_process_of_eq. unfold hw_error_process. rewrite (bind_Ret _ _ _ _ _ Hc), (bind_Ret _ _ _ _ _ (read_run _ _)).
  fold e. fold glbl. set (s1 := log (Rd (glbl_stat e) glbl) s0).
  assert (writes (trace_of s1) = writes (trace_of s)) as W1 by (unfold s1, log; by rewrite trace_of_with).
  destruct (glbl =? 0); [by eexists _, _, s1|].
  destruct (process_groups_run l (streams caps) (groups e) s1) as (vs & s2 & E2 & F2 & W2); [done|].
  rewrite (bind_Ret _ _ _ _ _ E2). eexists _, _, _. split; [reflexivity|]. exists vs.
  split_and!; [done|exact F2|done|]. unfold log. rewrite trace_of_with. cbn [writes]. rewrite W2, W1, <- app_assoc.
  do 3 f_equal. do 2 f_equal. apply u32_small, u32_range.
Qed.

(** A device that shows the descriptor errors of poison and of a timeout, and that there are any. *)
Definition poisoned : MmioDevice := fun _ a =>
  if a =? 0x248 then 4 else if a =? 0x254 then Z.lor (2 ^ 1) (2 ^ 9) else 0.

Example poisoned_reported :
  exists s', @hw_error_process_of trace _ poisoned EQDMA [] = Ret (0, [Some "Poison error"; Some "Timed out error"]) s' /\
    writes s' = [(0x254, 0x202); (0x248, 4)].
Proof. eexists. split; vm_compute; reflexivity. Qed.

(** C34. Enabling all errors.  On a device whose registers hold what is written to them, in every library, it
    succeeds; the mask register of every group that the device has then holds the mask of its row for all errors, and the global mask has the
    group's bit and the bits it had; every other register, those of the streams' groups on a device
    without streaming among them, is as it was. *)
Theorem hw_errors_enabled l init (s : trace) :
  exists caps s0 s', @caps_of trace _ (regfile init) l s = Ret caps s0 /\
    @hw_error_enable_of trace _ (regfile init) l (errs_all (errs_of l)) s = Ret 0 s' /\
    let e := errs_of l in
    let here := present e (streams caps) in
    (forall g, g ∈ here -> regfile init s' (mask_of e g) = leafs_of e g /\
                           has_bits (u32 (regfile init s' (glbl_mask e))) (bit_of e g)) /\
    has_bits (u32 (regfile init s' (glbl_mask e))) (u32 (regfile init s (glbl_mask e))) /\
    (forall a, a <> glbl_mask e -> a ∉ mask_of e <$> here -> regfile init s' a = regfile init s a).
Proof.
  destruct (@caps_run trace _ (regfile init) l s) as (caps & s0 & Hc & W0).
  assert (forall a, regfile init s0 a = regfile init s a) as Hsame by (intros a; by apply regfile_writes).
  rewrite hw_error_enable_of_eq. unfold hw_error_enable. rewrite Z.ltb_irrefl, (bind_Ret _ _ _ _ _ Hc), Z.eqb_refl.
  assert ((groups (errs_of l)).*2 = err_alls (errs_of l)) as <- by (destruct l; reflexivity).
  destruct (enable_groups_run l init (streams caps) (groups (errs_of l)) s0) as (s' & E & H1 & H2 & H3); [done| |].
  { apply (bool_decide_unpack _). destruct l; vm_compute; exact I. }
  exists caps, s0, s'. rewrite (bind_Ret _ _ _ _ _ E). split_and!; [done..|exact H1| |].
  - rewrite <- Hsame. apply H2. unfold has_bits. apply Z.land_diag.
  - intros a Ha Hn. rewrite <- Hsame. by apply H3.
Qed.

(** ** What the tables leave out *)

#[export] Instance has_bits_dec v w : Decision (has_bits v w).
Proof. unfold has_bits. apply _. Defined.

(** The errors of a group whose bits the mask for all errors of the group does not have: they stay
    disabled when all are enabled. *)
Definition left_out (l : library) : list string :=
  let e := errs_of l in
  flat_map (fun g =>
    err_name <$> filter (fun r => ~ has_bits (leafs_of e g) (leaf_err_mask r)) (row_at e <$> seqZ g.1 (g.2 - g.1)))
    (groups e).

Lemma left_disabled :
  left_out EQDMA = ["Timeout on request to dma internal csr register"; "single-bit ecc error on c2h packet header";
                    "RAM double bit fatal error"] /\
  left_out QDMA_SOFT = [] /\
  left_out QDMA_S80 = ["VF attempted to access Global register space or Function map";
                       "Timeout on request to dma internal csr register"; "RAM double bit fatal error";
                       "RAM double bit fatal error"].
Proof. split_and!; vm_compute; reflexivity. Qed.

(** The second half of the prefetch context's memory has a bit of its own, 16; but it is the first half's, 8, that is
    taken for both. *)
Lemma eqdma_cam_ram_1_missed :
  errors_in (errs_of EQDMA) (100, 105) 16 = [] /\
  hw_get_error_name (errs_of EQDMA) <$> errors_in (errs_of EQDMA) (100, 105) 8 =
    [Some "Pfch Ctxt CAM RAM 0 double bit ECC error."; Some "Pfch Ctxt CAM RAM double bit ECC error."].
Proof. split; vm_compute; reflexivity. Qed.

(** The hard QDMA reports two errors of a port for the same bit. *)
Lemma s80_port_reported_twice :
  hw_get_error_name (errs_of QDMA_S80) <$> errors_in (errs_of QDMA_S80) (20, 33) 1024 =
    [Some "Port id in packet and pfetch ctxt mismatch error"; Some "Port id in packet and bypass in mismatch error"].
Proof. vm_compute; reflexivity. Qed.

(** Enabling the errors of one group by the row that stands for all of them sets one bit of
    its mask. *)
Lemma group_enabled_in_part :
  exists s', @hw_error_enable_of trace _ (regfile (fun _ => 0)) EQDMA (EqdmaErrs.eqdma_error_idx_code EqdmaErrs.EQDMA_DSC_ERR_ALL) [] = Ret 0 s' /\
    writes s' = [(0x258, 2); (0x24C, 4)].
Proof. eexists. split; vm_compute; reflexivity. Qed.

(** What the soft QDMA would print of an error, but does not find: the registers after the first of a row. *)
Lemma soft_registers_not_found :
  Forall (fun a => find_reg (regs_table QDMA_SOFT) 0 a = None) [0x260; 0x274; 0xB20; 0xB24; 0xB28; 0xE10; 0xE14; 0xE18; 0xE1C] /\
  0x260 ∈ SoftErrs.qdma_hw_desc_err_process /\ 0xB20 ∈ SoftErrs.qdma_hw_st_c2h_err_process /\
  0xE10 ∈ SoftErrs.qdma_hw_st_h2c_err_process.
Proof.
  split; [repeat constructor; vm_compute; reflexivity|].
  split_and!; apply (bool_decide_unpack _); vm_compute; exact I.
Qed.
