(* ===== verification/MboxMsg.v ===== *)
(** * MboxMsg: mailbox messages ([qdma_mbox_protocol.c], first and last parts)

    A message is the memory behind a pointer [uint32_t *raw_data], as an
    integer (CLayout): the [MBOX_MSG_REG_MAX] words of the array, and past them
    whatever the memory holds next.  [union qdma_mbox_txrx] overlays that memory;
    its members are the [cfield]s below, at the offsets x86-64 compilers give
    them.  The virtual function composes requests and takes responses apart; the
    handler of the physical function is in MboxPf, the mailbox registers are in
    MboxHw. *)

From S2P Require Import Prelude QdmaErrors ResourceMgmt CLayout.
Local Open Scope Z_scope.

Definition MBOX_MSG_REG_MAX : nat := 32.
Definition MBOX_MSG_OP_RSP_OFFSET : Z := 128.

Definition QDMA_MBOX_VF_ONLINE : Z := 1.
Definition QDMA_MBOX_VF_OFFLINE : Z := -1.
Definition QDMA_MBOX_VF_RESET : Z := 2.
Definition QDMA_MBOX_PF_RESET_DONE : Z := 3.
Definition QDMA_MBOX_PF_BYE : Z := 4.
Definition QDMA_MBOX_VF_RESET_BYE : Z := 5.

(** ** Operations *)

(** The requests; the response to one has its number plus
    [MBOX_MSG_OP_RSP_OFFSET]. *)
Inductive mbox_msg_op :=
| MBOX_OP_VF_BYE | MBOX_OP_HELLO | MBOX_OP_FMAP | MBOX_OP_CSR | MBOX_OP_QREQ
| MBOX_OP_QNOTIFY_ADD | MBOX_OP_QNOTIFY_DEL | MBOX_OP_GET_QACTIVE_CNT
| MBOX_OP_QCTXT_WRT | MBOX_OP_QCTXT_RD | MBOX_OP_QCTXT_CLR | MBOX_OP_QCTXT_INV
| MBOX_OP_INTR_CTXT_WRT | MBOX_OP_INTR_CTXT_RD | MBOX_OP_INTR_CTXT_CLR
| MBOX_OP_INTR_CTXT_INV | MBOX_OP_RESET_PREPARE | MBOX_OP_RESET_DONE
| MBOX_OP_REG_LIST_READ | MBOX_OP_PF_BYE | MBOX_OP_PF_RESET_VF_BYE.

#[export] Instance mbox_msg_op_eq_dec : EqDecision mbox_msg_op.
Proof. solve_decision. Defined.

Definition mbox_msg_ops : list mbox_msg_op :=
  [MBOX_OP_VF_BYE; MBOX_OP_HELLO; MBOX_OP_FMAP; MBOX_OP_CSR; MBOX_OP_QREQ;
   MBOX_OP_QNOTIFY_ADD; MBOX_OP_QNOTIFY_DEL; MBOX_OP_GET_QACTIVE_CNT;
   MBOX_OP_QCTXT_WRT; MBOX_OP_QCTXT_RD; MBOX_OP_QCTXT_CLR; MBOX_OP_QCTXT_INV;
   MBOX_OP_INTR_CTXT_WRT; MBOX_OP_INTR_CTXT_RD; MBOX_OP_INTR_CTXT_CLR;
   MBOX_OP_INTR_CTXT_INV; MBOX_OP_RESET_PREPARE; MBOX_OP_RESET_DONE;
   MBOX_OP_REG_LIST_READ; MBOX_OP_PF_BYE; MBOX_OP_PF_RESET_VF_BYE].

(** The number of the enumerator: its position, the first one being 0. *)
Definition op_code (op : mbox_msg_op) : Z :=
  match op with
  | MBOX_OP_VF_BYE => 0 | MBOX_OP_HELLO => 1 | MBOX_OP_FMAP => 2 | MBOX_OP_CSR => 3
  | MBOX_OP_QREQ => 4 | MBOX_OP_QNOTIFY_ADD => 5 | MBOX_OP_QNOTIFY_DEL => 6
  | MBOX_OP_GET_QACTIVE_CNT => 7 | MBOX_OP_QCTXT_WRT => 8 | MBOX_OP_QCTXT_RD => 9
  | MBOX_OP_QCTXT_CLR => 10 | MBOX_OP_QCTXT_INV => 11 | MBOX_OP_INTR_CTXT_WRT => 12
  | MBOX_OP_INTR_CTXT_RD => 13 | MBOX_OP_INTR_CTXT_CLR => 14 | MBOX_OP_INTR_CTXT_INV => 15
  | MBOX_OP_RESET_PREPARE => 16 | MBOX_OP_RESET_DONE => 17 | MBOX_OP_REG_LIST_READ => 18
  | MBOX_OP_PF_BYE => 19 | MBOX_OP_PF_RESET_VF_BYE => 20
  end.

(** The [..._RESP] enumerators. *)
Definition resp_code (op : mbox_msg_op) : Z := op_code op + MBOX_MSG_OP_RSP_OFFSET.

Inductive mbox_cmpt_ctxt_type :=
| QDMA_MBOX_CMPT_CTXT_ONLY | QDMA_MBOX_CMPT_WITH_MM | QDMA_MBOX_CMPT_WITH_ST
| QDMA_MBOX_CMPT_CTXT_NONE.

#[export] Instance mbox_cmpt_ctxt_type_eq_dec : EqDecision mbox_cmpt_ctxt_type.
Proof. solve_decision. Defined.

Definition cmpt_type_code (t : mbox_cmpt_ctxt_type) : Z :=
  match t with
  | QDMA_MBOX_CMPT_CTXT_ONLY => 0 | QDMA_MBOX_CMPT_WITH_MM => 1
  | QDMA_MBOX_CMPT_WITH_ST => 2 | QDMA_MBOX_CMPT_CTXT_NONE => 3
  end.

(** The two-bit field is one of the four enumerators. *)
Definition cmpt_type_of (v : Z) : mbox_cmpt_ctxt_type :=
  if v =? 0 then QDMA_MBOX_CMPT_CTXT_ONLY else if v =? 1 then QDMA_MBOX_CMPT_WITH_MM
  else if v =? 2 then QDMA_MBOX_CMPT_WITH_ST else QDMA_MBOX_CMPT_CTXT_NONE.

Definition q_type_code (t : qdma_dev_q_type) : Z :=
  match t with
  | QDMA_DEV_Q_TYPE_H2C => 0 | QDMA_DEV_Q_TYPE_C2H => 1 | QDMA_DEV_Q_TYPE_CMPT => 2
  | QDMA_DEV_Q_TYPE_MAX => 3
  end.

(** A number received as a queue type; the [switch]es on it treat every
    number but 0, 1 and 2 alike. *)
Definition q_type_of (v : Z) : qdma_dev_q_type :=
  if v =? 0 then QDMA_DEV_Q_TYPE_H2C else if v =? 1 then QDMA_DEV_Q_TYPE_C2H
  else if v =? 2 then QDMA_DEV_Q_TYPE_CMPT else QDMA_DEV_Q_TYPE_MAX.

(** ** Layout of the message *)

(** [union qdma_mbox_txrx]: the largest member, the queue context message, has
    152 bytes. *)
Definition qdma_mbox_txrx : cfield := bytes_at 0 152.
(** [uint32_t raw[MBOX_MSG_REG_MAX]]: what the mailbox carries. *)
Definition raw_words : cfield := bytes_at 0 128.
Definition raw_word (i : nat) : cfield := bytes_at (4 * Z.of_nat i) 4.

Module hdr.
Definition op := bytes_at 0 1.
Definition status := bytes_at 1 1.
Definition src_func_id := bytes_at 2 2.
Definition dst_func_id := bytes_at 4 2.
End hdr.

Module hello.
Definition qbase := bytes_at 8 4.
Definition qmax := bytes_at 12 4.
Definition dev_cap := bytes_at 16 8.
Definition dma_device_index := bytes_at 24 4.
End hello.

Module active_qcnt.
Definition h2c_queues := bytes_at 8 4.
Definition c2h_queues := bytes_at 12 4.
Definition cmpt_queues := bytes_at 16 4.
End active_qcnt.

Module fmap.
Definition qbase := bytes_at 8 4.
Definition qmax := bytes_at 12 4.
End fmap.

Module csr.
Definition csr_info := bytes_at 6 98.
End csr.

Module q_notify.
Definition qid_hw := bytes_at 6 2.
Definition q_type := bytes_at 8 4.
End q_notify.

Module qctxt.
Definition qid_hw := bytes_at 6 2.
Definition st := bits_at 8 0 1.
Definition c2h := bits_at 8 1 1.
Definition cmpt_ctxt_type := bits_at 8 2 2.
Definition descq_conf := bytes_at 16 32.
Definition descq_ctxt := bytes_at 16 136.
End qctxt.

Definition QDMA_NUM_DATA_VEC_FOR_INTR_CXT : Z := 1.

Module intr_ctxt.
Definition ctxt := bytes_at 8 40.
Definition num_rings := bytes_at 8 1.
Definition ring_index_list (i : Z) := bytes_at (12 + 4 * i) 4.
Definition ictxt (i : Z) := bytes_at (16 + 32 * i) 32.
End intr_ctxt.

Module reg_read_list.
Definition group_num := bytes_at 6 2.
Definition num_regs := bytes_at 8 2.
Definition reg_list := bytes_at 12 112.
End reg_read_list.

(** [struct mbox_descq_conf]. *)
Module descq_conf.
Definition ring_bs_addr := bytes_at 0 8.
Definition cmpt_ring_bs_addr := bytes_at 8 8.
Definition forced_en := bits_at 16 0 1.
Definition en_bypass := bits_at 16 1 1.
Definition irq_arm := bits_at 16 2 1.
Definition wbi_intvl_en := bits_at 16 3 1.
Definition wbi_chk := bits_at 16 4 1.
Definition at_ := bits_at 16 5 1.
Definition wbk_en := bits_at 16 6 1.
Definition irq_en := bits_at 16 7 1.
Definition pfch_en := bits_at 17 0 1.
Definition en_bypass_prefetch := bits_at 17 1 1.
Definition dis_overflow_check := bits_at 17 2 1.
Definition cmpt_int_en := bits_at 17 3 1.
Definition cmpt_at := bits_at 17 4 1.
Definition cmpt_color := bits_at 17 5 1.
Definition cmpt_full_upd := bits_at 17 6 1.
Definition cmpl_stat_en := bits_at 17 7 1.
Definition desc_sz := bits_at 18 0 2.
Definition cmpt_desc_sz := bits_at 18 2 2.
Definition triggermode := bits_at 18 4 3.
Definition func_id := bits_at 20 0 16.
Definition cnt_thres := bits_at 22 0 8.
Definition timer_thres := bits_at 23 0 8.
Definition intr_id := bits_at 24 0 11.
Definition intr_aggr := bits_at 25 3 1.
Definition ringsz := bytes_at 26 2.
Definition bufsz := bytes_at 28 2.
Definition cmpt_ringsz := bytes_at 30 2.
End descq_conf.

(** [qctxt.descq_conf.f] *)
Definition conf (f : cfield) : cfield := inside qctxt.descq_conf f.

Section messages.
Implicit Types (m : Z) (raw_data : option Z).

(** [qdma_mbox_memset(to, 0, size)] and [qdma_mbox_memcpy] on a member; their
    [size] is a [uint8_t]. *)
Definition qdma_mbox_memset (size m : Z) : Z := put (bytes_at 0 (u8 size)) 0 m.

Definition size_of (f : cfield) : Z := f_width f / 8.

(** ** Requests *)

(** What all functions that compose a message do: refuse a null pointer, clear
    the whole union, set the operation and one function id, then the rest. *)
Definition compose (rest : Z -> Z) raw_data : Z * option Z :=
  match raw_data with
  | None => (neg QDMA_ERR_INV_PARAM, None)
  | Some m => (0, Some (rest (qdma_mbox_memset (size_of qdma_mbox_txrx) m)))
  end.

Definition request (op : mbox_msg_op) (func_id m : Z) : Z :=
  put hdr.src_func_id func_id (put hdr.op (op_code op) m).

Definition qmda_mbox_compose_vf_online (func_id qmax qbase : Z) : option Z -> Z * option Z :=
  compose (fun m => put fmap.qmax qmax (put fmap.qbase qbase (request MBOX_OP_HELLO func_id m))).

Definition qdma_mbox_compose_vf_offline (func_id : Z) : option Z -> Z * option Z :=
  compose (request MBOX_OP_VF_BYE func_id).

Definition qdma_mbox_compose_vf_reset_offline (func_id : Z) : option Z -> Z * option Z :=
  compose (request MBOX_OP_PF_RESET_VF_BYE func_id).

Definition qdma_mbox_compose_vf_qreq (func_id qmax qbase : Z) : option Z -> Z * option Z :=
  compose (fun m => put fmap.qmax qmax (put fmap.qbase qbase (request MBOX_OP_QREQ func_id m))).

Definition qdma_mbox_compose_vf_notify_qadd (func_id qid_hw : Z) (q_type : qdma_dev_q_type)
    : option Z -> Z * option Z :=
  compose (fun m => put q_notify.q_type (q_type_code q_type)
    (put q_notify.qid_hw qid_hw (request MBOX_OP_QNOTIFY_ADD func_id m))).

Definition qdma_mbox_compose_vf_get_device_active_qcnt (func_id : Z) : option Z -> Z * option Z :=
  compose (request MBOX_OP_GET_QACTIVE_CNT func_id).

Definition qdma_mbox_compose_vf_notify_qdel (func_id qid_hw : Z) (q_type : qdma_dev_q_type)
    : option Z -> Z * option Z :=
  compose (fun m => put q_notify.q_type (q_type_code q_type)
    (put q_notify.qid_hw qid_hw (request MBOX_OP_QNOTIFY_DEL func_id m))).

Definition qdma_mbox_compose_vf_fmap_prog (func_id qmax qbase : Z) : option Z -> Z * option Z :=
  compose (fun m => put fmap.qmax qmax (put fmap.qbase qbase (request MBOX_OP_FMAP func_id m))).

(** The part the four queue context requests share. *)
Definition qctxt_request (op : mbox_msg_op) (func_id qid_hw st c2h : Z)
    (cmpt_ctxt_type : mbox_cmpt_ctxt_type) (m : Z) : Z :=
  put qctxt.cmpt_ctxt_type (cmpt_type_code cmpt_ctxt_type)
    (put qctxt.st st (put qctxt.c2h c2h (put qctxt.qid_hw qid_hw (request op func_id m)))).

Definition qdma_mbox_compose_vf_qctxt_write (func_id qid_hw st c2h : Z)
    (cmpt_ctxt_type : mbox_cmpt_ctxt_type) (descq_conf : Z) : option Z -> Z * option Z :=
  compose (fun m => put qctxt.descq_conf descq_conf
    (qctxt_request MBOX_OP_QCTXT_WRT func_id qid_hw st c2h cmpt_ctxt_type m)).

Definition qdma_mbox_compose_vf_qctxt_read (func_id qid_hw st c2h : Z)
    (cmpt_ctxt_type : mbox_cmpt_ctxt_type) : option Z -> Z * option Z :=
  compose (qctxt_request MBOX_OP_QCTXT_RD func_id qid_hw st c2h cmpt_ctxt_type).

Definition qdma_mbox_compose_vf_qctxt_invalidate (func_id qid_hw st c2h : Z)
    (cmpt_ctxt_type : mbox_cmpt_ctxt_type) : option Z -> Z * option Z :=
  compose (qctxt_request MBOX_OP_QCTXT_INV func_id qid_hw st c2h cmpt_ctxt_type).

Definition qdma_mbox_compose_vf_qctxt_clear (func_id qid_hw st c2h : Z)
    (cmpt_ctxt_type : mbox_cmpt_ctxt_type) : option Z -> Z * option Z :=
  compose (qctxt_request MBOX_OP_QCTXT_CLR func_id qid_hw st c2h cmpt_ctxt_type).

Definition qdma_mbox_compose_csr_read (func_id : Z) : option Z -> Z * option Z :=
  compose (request MBOX_OP_CSR func_id).

Definition qdma_mbox_compose_reg_read (func_id group_num : Z) : option Z -> Z * option Z :=
  compose (fun m => put reg_read_list.group_num group_num (request MBOX_OP_REG_LIST_READ func_id m)).

(** The four interrupt context requests copy a [struct mbox_msg_intr_ctxt]. *)
Definition qdma_mbox_compose_vf_intr_ctxt_write (func_id intr_ctxt : Z) : option Z -> Z * option Z :=
  compose (fun m => put intr_ctxt.ctxt intr_ctxt (request MBOX_OP_INTR_CTXT_WRT func_id m)).

Definition qdma_mbox_compose_vf_intr_ctxt_read (func_id intr_ctxt : Z) : option Z -> Z * option Z :=
  compose (fun m => put intr_ctxt.ctxt intr_ctxt (request MBOX_OP_INTR_CTXT_RD func_id m)).

Definition qdma_mbox_compose_vf_intr_ctxt_clear (func_id intr_ctxt : Z) : option Z -> Z * option Z :=
  compose (fun m => put intr_ctxt.ctxt intr_ctxt (request MBOX_OP_INTR_CTXT_CLR func_id m)).

Definition qdma_mbox_compose_vf_intr_ctxt_invalidate (func_id intr_ctxt : Z)
    : option Z -> Z * option Z :=
  compose (fun m => put intr_ctxt.ctxt intr_ctxt (request MBOX_OP_INTR_CTXT_INV func_id m)).

(** ** Messages of the physical function *)

Definition pf_message (op : mbox_msg_op) (src_funcid dest_funcid : Z) : option Z -> Z * option Z :=
  compose (fun m => put hdr.dst_func_id (u8 dest_funcid) (request op (u8 src_funcid) m)).

Definition qdma_mbox_compose_vf_reset_message (src_funcid dest_funcid : Z)
    : option Z -> Z * option Z :=
  pf_message MBOX_OP_RESET_PREPARE src_funcid dest_funcid.

Definition qdma_mbox_compose_pf_reset_done_message (src_funcid dest_funcid : Z)
    : option Z -> Z * option Z :=
  pf_message MBOX_OP_RESET_DONE src_funcid dest_funcid.

Definition qdma_mbox_compose_pf_offline (src_funcid dest_funcid : Z) : option Z -> Z * option Z :=
  pf_message MBOX_OP_PF_BYE src_funcid dest_funcid.

(** ** Taking messages apart *)

(** The sum is an [int], the operation received a [uint8_t]. *)
Definition qdma_mbox_is_msg_response (send_data rcv_data : Z) : bool :=
  fld hdr.op send_data + MBOX_MSG_OP_RSP_OFFSET =? fld hdr.op rcv_data.

(** The status is a [char], which is signed. *)
Definition qdma_mbox_vf_response_status (rcv_data : Z) : Z := i8 (fld hdr.status rcv_data).

(** The function id is returned as a [uint8_t]. *)
Definition qdma_mbox_vf_func_id_get (rcv_data : Z) (is_vf : bool) : Z :=
  u8 (if is_vf then fld hdr.dst_func_id rcv_data else fld hdr.src_func_id rcv_data).

Definition qdma_mbox_vf_active_queues_get (rcv_data : Z) (q_type : qdma_dev_q_type) : Z :=
  match q_type with
  | QDMA_DEV_Q_TYPE_H2C => i32 (fld active_qcnt.h2c_queues rcv_data)
  | QDMA_DEV_Q_TYPE_C2H => i32 (fld active_qcnt.c2h_queues rcv_data)
  | QDMA_DEV_Q_TYPE_CMPT => i32 (fld active_qcnt.cmpt_queues rcv_data)
  | QDMA_DEV_Q_TYPE_MAX => 0
  end.

Definition qdma_mbox_vf_parent_func_id_get (rcv_data : Z) : Z := u8 (fld hdr.src_func_id rcv_data).

(** The functions below return the status with what they extract. *)
Definition qdma_mbox_vf_dev_info_get (rcv_data : Z) : Z * (Z * Z) :=
  (qdma_mbox_vf_response_status rcv_data,
   (fld hello.dev_cap rcv_data, fld hello.dma_device_index rcv_data)).

(** [*qbase] is an [int], [*qmax] a [uint16_t]. *)
Definition qdma_mbox_vf_qinfo_get (rcv_data : Z) : Z * (Z * Z) :=
  (qdma_mbox_vf_response_status rcv_data,
   (i32 (fld fmap.qbase rcv_data), u16 (fld fmap.qmax rcv_data))).

Definition qdma_mbox_vf_csr_get (rcv_data : Z) : Z * Z :=
  (qdma_mbox_vf_response_status rcv_data, fld csr.csr_info rcv_data).

(** The number of bytes copied into the caller's list is a [uint8_t]. *)
Definition qdma_mbox_vf_reg_list_get (rcv_data reg_list : Z) : Z * (Z * Z) :=
  let num_regs := fld reg_read_list.num_regs rcv_data in
  let size := u8 (num_regs * 8) in
  (qdma_mbox_vf_response_status rcv_data,
   (num_regs, put (bytes_at 0 size) (fld (bytes_at 12 size) rcv_data) reg_list)).

Definition qdma_mbox_vf_context_get (rcv_data : Z) : Z * Z :=
  (qdma_mbox_vf_response_status rcv_data, fld qctxt.descq_ctxt rcv_data).

Definition qdma_mbox_vf_intr_context_get (rcv_data : Z) : Z * Z :=
  (qdma_mbox_vf_response_status rcv_data, fld intr_ctxt.ctxt rcv_data).

(** ** Requests of the physical function, handled by a virtual one *)

Definition vf_response (rcv resp : Z) : Z :=
  put hdr.src_func_id (fld hdr.dst_func_id rcv)
    (put hdr.dst_func_id (fld hdr.src_func_id rcv)
      (put hdr.op (fld hdr.op rcv + MBOX_MSG_OP_RSP_OFFSET) resp)).

(** The value returned and the response. *)
Definition qdma_mbox_vf_rcv_msg_handler (rcv resp : Z) : Z * Z :=
  let op := fld hdr.op rcv in
  if op =? op_code MBOX_OP_RESET_PREPARE then (QDMA_MBOX_VF_RESET, vf_response rcv resp)
  else if op =? op_code MBOX_OP_RESET_DONE then (QDMA_MBOX_PF_RESET_DONE, vf_response rcv resp)
  else if op =? op_code MBOX_OP_PF_BYE then (QDMA_MBOX_PF_BYE, vf_response rcv resp)
  else (0, resp).
End messages.

(** ** Facts about the numbering *)

Lemma op_code_range op : 0 <= op_code op <= 20.
Proof. destruct op; simpl; lia. Qed.

Lemma op_code_inj op1 op2 : op_code op1 = op_code op2 -> op1 = op2.
Proof. destruct op1, op2; simpl; congruence || lia. Qed.

Lemma cmpt_type_roundtrip t : cmpt_type_of (cmpt_type_code t) = t.
Proof. by destruct t. Qed.

Lemma q_type_roundtrip t : q_type_of (q_type_code t) = t.
Proof. by destruct t. Qed.

#[export] Hint Rewrite cmpt_type_roundtrip q_type_roundtrip : wraps.
