(* ===== verification/MboxHw.v ===== *)
(** * MboxHw: the mailbox registers ([qdma_mbox_protocol.c], last part)

    Sending, receiving and acknowledging messages.  The register block of the
    mailbox is at an offset that depends on the hardware and on whether the caller is
    a virtual function: [mbox_base].  The registers themselves are an
    [MmioDevice]. *)

From S2P Require Import Prelude QdmaErrors Mmio CLayout MboxMsg.
Local Open Scope Z_scope.

Definition MBOX_FN_STATUS : Z := 0.
Definition M_MBOX_FN_STATUS_IN_MSG : Z := 1.
Definition F_MBOX_FN_STATUS_OUT_MSG : Z := Z.shiftl 1 1.
Definition F_MBOX_FN_STATUS_ACK : Z := Z.shiftl 1 2.
Definition S_MBOX_FN_STATUS_SRC : Z := 4.
Definition M_MBOX_FN_STATUS_SRC : Z := 4095.
Definition G_MBOX_FN_STATUS_SRC (x : Z) : Z :=
  Z.land (Z.shiftr x S_MBOX_FN_STATUS_SRC) M_MBOX_FN_STATUS_SRC.
Definition MBOX_FN_CMD : Z := 4.
Definition F_MBOX_FN_CMD_SND : Z := Z.shiftl 1 0.
Definition F_MBOX_FN_CMD_RCV : Z := Z.shiftl 1 1.
Definition MBOX_ISR_VEC : Z := 8.
Definition MBOX_FN_TARGET : Z := 12.
Definition V_MBOX_FN_TARGET_ID (x : Z) : Z := Z.land x 4095.
Definition MBOX_ISR_EN : Z := 16.
Definition MBOX_PF_ACK_BASE : Z := 32.
Definition MBOX_PF_ACK_STEP : Z := 4.
Definition MBOX_PF_ACK_COUNT : nat := 8.
Definition MBOX_IN_MSG_BASE : Z := 2048.
Definition MBOX_OUT_MSG_BASE : Z := 3072.
Definition MBOX_MSG_STEP : Z := 4.

(** [hw->mbox_base_vf] and [hw->mbox_base_pf]. *)
Class MboxBase := { mbox_base_vf : Z; mbox_base_pf : Z }.

(** The values of the two kinds of hardware. *)
Definition eqdma_mbox : MboxBase := {| mbox_base_vf := 20480; mbox_base_pf := 140288 |}.
Definition qdma_soft_mbox : MboxBase := {| mbox_base_vf := 4096; mbox_base_pf := 9216 |}.

Section registers.
Context {S : Type} `{HasTrace S} `{MmioDevice} `{MboxBase}.

Definition get_mbox_offset (is_vf : bool) : Z := if is_vf then mbox_base_vf else mbox_base_pf.

Definition mbox_reg (is_vf : bool) (reg : Z) : Z := u32 (get_mbox_offset is_vf + reg).

Definition mbox_pf_hw_clear_func_ack (func_id : Z) : M S unit :=
  let idx := func_id / 32 in
  let bit := func_id mod 32 in
  write32_data (mbox_reg false (MBOX_PF_ACK_BASE + idx * MBOX_PF_ACK_STEP)) (Z.shiftl 1 bit).

Definition qdma_mbox_pf_hw_clear_ack : M S unit :=
  v ← read32_data (mbox_reg false MBOX_FN_STATUS);
  if Z.land v F_MBOX_FN_STATUS_ACK =? 0 then mret tt
  else
    for_each (seq 0 MBOX_PF_ACK_COUNT) (fun i =>
      let reg := mbox_reg false (MBOX_PF_ACK_BASE + Z.of_nat i * MBOX_PF_ACK_STEP) in
      v ← read32_data reg;
      if v =? 0 then mret tt else write32_data reg v).

Definition out_msg_reg (is_vf : bool) (i : nat) : Z :=
  mbox_reg is_vf (MBOX_OUT_MSG_BASE + Z.of_nat i * MBOX_MSG_STEP).
Definition in_msg_reg (is_vf : bool) (i : nat) : Z :=
  mbox_reg is_vf (MBOX_IN_MSG_BASE + Z.of_nat i * MBOX_MSG_STEP).

Definition qdma_mbox_send (is_vf : bool) (raw_data : Z) : M S Z :=
  let dst_func_id := fld hdr.dst_func_id raw_data in
  v ← read32_data (mbox_reg is_vf MBOX_FN_STATUS);
  if negb (Z.land v F_MBOX_FN_STATUS_OUT_MSG =? 0) then mret (neg QDMA_ERR_MBOX_SEND_BUSY)
  else
    (if is_vf then mret tt
     else write32_data (mbox_reg is_vf MBOX_FN_TARGET) (V_MBOX_FN_TARGET_ID dst_func_id));;
    for_each (seq 0 MBOX_MSG_REG_MAX)
      (fun i => write32_data (out_msg_reg is_vf i) (fld (raw_word i) raw_data));;
    (if is_vf then mret tt else mbox_pf_hw_clear_func_ack dst_func_id);;
    write32_data (mbox_reg is_vf MBOX_FN_CMD) F_MBOX_FN_CMD_SND;;
    mret 0.

(** The loop that reads the words: the message and [all_zero_msg]. *)
Fixpoint rcv_words (is_vf : bool) (idxs : list nat) (raw_data : Z) (all_zero_msg : bool)
    : M S (Z * bool) :=
  match idxs with
  | [] => mret (raw_data, all_zero_msg)
  | i :: idxs' =>
      w ← read32_data (in_msg_reg is_vf i);
      rcv_words is_vf idxs' (put (raw_word i) w raw_data) (all_zero_msg && (w =? 0))
  end.

(** The code and the message. *)
Definition qdma_mbox_rcv (is_vf : bool) (raw_data : Z) : M S (Z * Z) :=
  v ← read32_data (mbox_reg is_vf MBOX_FN_STATUS);
  if Z.land v M_MBOX_FN_STATUS_IN_MSG =? 0 then mret (neg QDMA_ERR_MBOX_NO_MSG_IN, raw_data)
  else
    let from_id := if is_vf then 0 else G_MBOX_FN_STATUS_SRC v in
    (if is_vf then mret tt else write32_data (mbox_reg is_vf MBOX_FN_TARGET) from_id);;
    '(raw_data, all_zero_msg) ← rcv_words is_vf (seq 0 MBOX_MSG_REG_MAX) raw_data true;
    write32_data (mbox_reg is_vf MBOX_FN_CMD) F_MBOX_FN_CMD_RCV;;
    if (all_zero_msg : bool) then mret (neg QDMA_ERR_MBOX_ALL_ZERO_MSG, raw_data)
    else
      mret (0, if negb is_vf && negb (from_id =? fld hdr.src_func_id raw_data)
               then put hdr.src_func_id from_id raw_data else raw_data).

Definition qdma_mbox_hw_init (is_vf : bool) : M S unit :=
  if is_vf then
    v ← read32_data (mbox_reg is_vf MBOX_FN_STATUS);
    if Z.land v M_MBOX_FN_STATUS_IN_MSG =? 0 then mret tt
    else write32_data (mbox_reg is_vf MBOX_FN_CMD) F_MBOX_FN_CMD_RCV
  else qdma_mbox_pf_hw_clear_ack.

Definition qdma_mbox_enable_interrupts (is_vf : bool) : M S unit :=
  let vector := 0 in
  write32_data (mbox_reg is_vf MBOX_ISR_VEC) vector;;
  write32_data (mbox_reg is_vf MBOX_ISR_EN) 1.

Definition qdma_mbox_disable_interrupts (is_vf : bool) : M S unit :=
  write32_data (mbox_reg is_vf MBOX_ISR_EN) 0.

Definition qdma_mbox_out_status (is_vf : bool) : M S Z :=
  v ← read32_data (mbox_reg is_vf MBOX_FN_STATUS);
  mret (if Z.land v F_MBOX_FN_STATUS_OUT_MSG =? 0 then 0 else 1).
End registers.
