(* ===== verification/MboxPf.v ===== *)
(** * MboxPf: the mailbox of the physical function ([qdma_mbox_protocol.c])

    [qdma_mbox_pf_rcv_msg_handler] carries out a request of a virtual function
    and fills in the response.  It works on the resource manager (ResourceMgmt),
    on the two messages (MboxMsg) and on the hardware, which it reaches through
    the table of functions [struct qdma_hw_access].  Here a call through that
    table is a value of [hw_call] appended to a history; what the call returns and
    what it leaves in the object it is given is the interface [HwAccess], so that
    the theorems hold for each of the access libraries. *)

From S2P Require Import Prelude QdmaErrors ResourceMgmt Mmio CLayout Contexts MboxMsg.
Local Open Scope Z_scope.

(** ** The hardware access table *)

(** A call with its arguments.  [data] is the object the call is given to write
    to the hardware, where it is given one. *)
Inductive hw_call :=
| qdma_fmap_conf (func_id qbase qmax : Z) (access : qdma_hw_access_type)
| qdma_sw_ctx_conf (c2h hw_qid : Z) (data : option Z) (access : qdma_hw_access_type)
| qdma_hw_ctx_conf (c2h hw_qid : Z) (access : qdma_hw_access_type)
| qdma_credit_ctx_conf (c2h hw_qid : Z) (access : qdma_hw_access_type)
| qdma_pfetch_ctx_conf (hw_qid : Z) (data : option Z) (access : qdma_hw_access_type)
| qdma_cmpt_ctx_conf (hw_qid : Z) (data : option Z) (access : qdma_hw_access_type)
| qdma_global_csr_conf (index : Z) (count : nat) (csr_type : qdma_global_csr_type)
    (access : qdma_hw_access_type)
| qdma_indirect_intr_ctx_conf (ring_index : Z) (data : option Z) (access : qdma_hw_access_type)
| qdma_get_device_attributes
| qdma_read_reg_list (is_vf group : Z).

#[export] Instance hw_call_eq_dec : EqDecision hw_call.
Proof. solve_decision. Defined.

(** What a call returns and, when it is given an object to fill in, what that
    object holds afterwards: functions of the calls before it (the newest first),
    the call, and what the object held. *)
Class HwAccess := {
  hw_code : list hw_call -> hw_call -> Z;
  hw_output : list hw_call -> hw_call -> Z -> Z }.

(** ** State of the handler *)

Record pf_state := mk_pf {
  pf_rm : rm_state;
  hw_calls : list hw_call;
  rcv_msg : Z;
  resp_msg : Z }.

Definition set_rm (st : rm_state) (s : pf_state) : pf_state :=
  mk_pf st (hw_calls s) (rcv_msg s) (resp_msg s).
Definition set_hw (cs : list hw_call) (s : pf_state) : pf_state :=
  mk_pf (pf_rm s) cs (rcv_msg s) (resp_msg s).
Definition put_rcv (f : cfield) (v : Z) (s : pf_state) : pf_state :=
  mk_pf (pf_rm s) (hw_calls s) (put f v (rcv_msg s)) (resp_msg s).
Definition put_resp (f : cfield) (v : Z) (s : pf_state) : pf_state :=
  mk_pf (pf_rm s) (hw_calls s) (rcv_msg s) (put f v (resp_msg s)).

Definition PF : Type -> Type := M pf_state.

Definition rcv (f : cfield) : PF Z := gets (fun s => fld f (rcv_msg s)).
Definition set_rcv (f : cfield) (v : Z) : PF unit := modify (put_rcv f v).
Definition set_resp (f : cfield) (v : Z) : PF unit := modify (put_resp f v).
Definition rm_query {A} (f : rm_state -> A) : PF A := gets (fun s => f (pf_rm s)).

(** A function of the resource manager that returns a code. *)
Definition rm_do (f : rm_state -> Z * rm_state) : PF Z := fun s =>
  let '(rv, st) := f (pf_rm s) in Ret rv (set_rm st s).

(** [rv = step; if (rv < 0) return rv; k] *)
Definition or_return (step k : PF Z) : PF Z := rv ← step; if rv <? 0 then mret rv else k.
Notation "m ;? k" := (or_return m k) (at level 100, k at level 200, right associativity)
  : reconic_scope.
Local Open Scope reconic_scope.

Definition when (b : bool) (m : PF Z) : PF Z := if b then m else mret 0.

Section pf.
Context `{HwAccess}.

(** A call that fills nothing in. *)
Definition hw (c : hw_call) : PF Z := fun s =>
  Ret (hw_code (hw_calls s) c) (set_hw (c :: hw_calls s) s).

(** A call that fills in an object which held [old]. *)
Definition hw_fill (c : hw_call) (old : Z) : PF (Z * Z) := fun s =>
  Ret (hw_code (hw_calls s) c, hw_output (hw_calls s) c old) (set_hw (c :: hw_calls s) s).

(** A call that fills in a member of the response. *)
Definition hw_into (f : cfield) (c : hw_call) : PF Z :=
  old ← gets (fun s => fld f (resp_msg s));
  '(rv, v) ← hw_fill c old;
  set_resp f v;;
  mret rv.

(** ** Indices of the global registers *)

(** The array of sixteen words, zero before it is read. *)
Definition csr_call (csr_type : qdma_global_csr_type) : hw_call :=
  qdma_global_csr_conf 0 QDMA_GLOBAL_CSR_ARRAY_SZ csr_type QDMA_HW_ACCESS_READ.

Definition csr_array (csr_type : qdma_global_csr_type) : PF (Z * Z) := hw_fill (csr_call csr_type) 0.

Definition csr_words (a : Z) : list Z :=
  (fun i => fld (raw_word i) a) <$> seq 0 QDMA_GLOBAL_CSR_ARRAY_SZ.

(** The four searches: the position of the first word that matches.  Any code but
    0 of the hardware is returned; the index is then still 0. *)
Definition find_idx (csr_type : qdma_global_csr_type) (matches : Z -> bool)
    (err : qdma_access_error_codes) : PF (Z * Z) :=
  '(rv, a) ← csr_array csr_type;
  if negb (rv =? 0) then mret (rv, 0)
  else mret (match find_pos matches (csr_words a) with
             | Some i => (0, Z.of_nat i)
             | None => (neg err, 0)
             end).

Definition get_ring_idx (ring_sz : Z) : PF (Z * Z) :=
  find_idx QDMA_CSR_RING_SZ (fun w => ring_sz =? u32 (w - 1)) QDMA_ERR_MBOX_INV_RINGSZ.
Definition get_buf_idx (buf_sz : Z) : PF (Z * Z) :=
  find_idx QDMA_CSR_BUF_SZ (fun w => w =? buf_sz) QDMA_ERR_MBOX_INV_BUFSZ.
Definition get_cntr_idx (cntr_val : Z) : PF (Z * Z) :=
  find_idx QDMA_CSR_CNT_TH (fun w => w =? cntr_val) QDMA_ERR_MBOX_INV_CNTR_TH.
Definition get_tmr_idx (tmr_val : Z) : PF (Z * Z) :=
  find_idx QDMA_CSR_TIMER_CNT (fun w => w =? tmr_val) QDMA_ERR_MBOX_INV_TMR_TH.

(** ** Contexts from a queue configuration *)

(** What the three functions below assign, in order, to a context that
    holds zeros; [m] is the message. *)
Definition sw_ctxt_of (rng_idx m : Z) : Z :=
  let q f := fld (conf f) m in
  let st := fld qctxt.st m in
  let c := assign
    [(sw_ctxt.vec, q descq_conf.intr_id);
     (sw_ctxt.intr_aggr, q descq_conf.intr_aggr);
     (sw_ctxt.ring_bs_addr, q descq_conf.ring_bs_addr);
     (sw_ctxt.wbi_chk, q descq_conf.wbi_chk);
     (sw_ctxt.wbi_intvl_en, q descq_conf.wbi_intvl_en);
     (sw_ctxt.rngsz_idx, rng_idx);
     (sw_ctxt.bypass, q descq_conf.en_bypass);
     (sw_ctxt.wbk_en, q descq_conf.wbk_en);
     (sw_ctxt.irq_en, q descq_conf.irq_en);
     (sw_ctxt.is_mm, Z.lnot st);
     (sw_ctxt.mm_chn, 0);
     (sw_ctxt.qen, 1);
     (sw_ctxt.frcd_en, q descq_conf.forced_en);
     (sw_ctxt.desc_sz, q descq_conf.desc_sz);
     (sw_ctxt.fnc_id, q descq_conf.func_id);
     (sw_ctxt.irq_arm, q descq_conf.irq_arm)] 0 in
  if negb (st =? 0) && negb (fld qctxt.c2h m =? 0)
  then assign [(sw_ctxt.irq_en, 0); (sw_ctxt.irq_arm, 0); (sw_ctxt.wbk_en, 0);
               (sw_ctxt.wbi_chk, 0)] c
  else c.

Definition mbox_compose_sw_context (m : Z) : PF (Z * Z) :=
  '(rv, rng_idx) ← get_ring_idx (fld (conf descq_conf.ringsz) m);
  mret (if rv <? 0 then (rv, 0) else (0, sw_ctxt_of rng_idx m)).

Definition pfetch_ctxt_of (buf_idx m : Z) : Z :=
  assign
    [(pfetch_ctxt.valid, 1);
     (pfetch_ctxt.bypass, fld (conf descq_conf.en_bypass_prefetch) m);
     (pfetch_ctxt.bufsz_idx, buf_idx);
     (pfetch_ctxt.pfch_en, fld (conf descq_conf.pfch_en) m)] 0.

Definition mbox_compose_prefetch_context (m : Z) : PF (Z * Z) :=
  '(rv, buf_idx) ← get_buf_idx (fld (conf descq_conf.bufsz) m);
  mret (if rv <? 0 then (rv, 0) else (0, pfetch_ctxt_of buf_idx m)).

Definition cmpt_ctxt_of (cntr_idx tmr_idx rng_idx m : Z) : Z :=
  let q f := fld (conf f) m in
  assign
    [(cmpt_ctxt.bs_addr, q descq_conf.cmpt_ring_bs_addr);
     (cmpt_ctxt.en_stat_desc, q descq_conf.cmpl_stat_en);
     (cmpt_ctxt.en_int, q descq_conf.cmpt_int_en);
     (cmpt_ctxt.trig_mode, q descq_conf.triggermode);
     (cmpt_ctxt.fnc_id, q descq_conf.func_id);
     (cmpt_ctxt.timer_idx, tmr_idx);
     (cmpt_ctxt.counter_idx, cntr_idx);
     (cmpt_ctxt.color, 1);
     (cmpt_ctxt.ringsz_idx, rng_idx);
     (cmpt_ctxt.desc_sz, q descq_conf.cmpt_desc_sz);
     (cmpt_ctxt.valid, 1);
     (cmpt_ctxt.ovf_chk_dis, q descq_conf.dis_overflow_check);
     (cmpt_ctxt.vec, q descq_conf.intr_id);
     (cmpt_ctxt.int_aggr, q descq_conf.intr_aggr)] 0.

Definition mbox_compose_cmpt_context (m : Z) : PF (Z * Z) :=
  '(rv, cntr_idx) ← get_cntr_idx (fld (conf descq_conf.cnt_thres) m);
  if rv <? 0 then mret (rv, 0) else
  '(rv, tmr_idx) ← get_tmr_idx (fld (conf descq_conf.timer_thres) m);
  if rv <? 0 then mret (rv, 0) else
  '(rv, rng_idx) ← get_ring_idx (fld (conf descq_conf.cmpt_ringsz) m);
  mret (if rv <? 0 then (rv, 0) else (0, cmpt_ctxt_of cntr_idx tmr_idx rng_idx m)).

(** ** Clearing, invalidating, writing and reading contexts *)

Definition has_cmpt (t : mbox_cmpt_ctxt_type) : bool :=
  bool_decide (t = QDMA_MBOX_CMPT_WITH_MM) || bool_decide (t = QDMA_MBOX_CMPT_WITH_ST).

Definition is_st_c2h (st c2h : Z) : bool := negb (st =? 0) && negb (c2h =? 0).

(** Clearing and invalidating make the same calls with another access type.  The
    return value for a queue that is not in range is [rv], the code of
    [qdma_dev_qinfo_get]. *)
Definition drop_queue_contexts (access : qdma_hw_access_type) (dma_device_index func_id qid_hw st c2h : Z)
    (cmpt_ctxt_type : mbox_cmpt_ctxt_type) : PF Z :=
  if bool_decide (cmpt_ctxt_type = QDMA_MBOX_CMPT_CTXT_ONLY) then
    hw (qdma_cmpt_ctx_conf qid_hw None access) ;? mret 0
  else
    rv ← rm_query (fun st => (qdma_dev_qinfo_get dma_device_index func_id st).1);
    if rv <? 0 then mret rv else
    q_range ← rm_query (qdma_dev_is_queue_in_range dma_device_index func_id qid_hw);
    if negb (bool_decide (q_range = QDMA_DEV_Q_IN_RANGE)) then mret rv else
    hw (qdma_sw_ctx_conf c2h qid_hw None access) ;?
    hw (qdma_hw_ctx_conf c2h qid_hw access) ;?
    hw (qdma_credit_ctx_conf c2h qid_hw access) ;?
    when (is_st_c2h st c2h) (hw (qdma_pfetch_ctx_conf qid_hw None access)) ;?
    when (has_cmpt cmpt_ctxt_type) (hw (qdma_cmpt_ctx_conf qid_hw None access)) ;?
    mret 0.

Definition mbox_clear_queue_contexts := drop_queue_contexts QDMA_HW_ACCESS_CLEAR.
Definition mbox_invalidate_queue_contexts := drop_queue_contexts QDMA_HW_ACCESS_INVALIDATE.

(** [rv = compose(); if (rv < 0) return rv; k] with what was composed. *)
Definition composed (step : PF (Z * Z)) (k : Z -> PF Z) : PF Z :=
  '(rv, c) ← step; if rv <? 0 then mret rv else k c.

Definition when_composed (b : bool) (step : PF (Z * Z)) (k : Z -> PF Z) : PF Z :=
  if b then composed step k else k 0.

Definition mbox_write_queue_contexts (dma_device_index m : Z) : PF Z :=
  let qid_hw := fld qctxt.qid_hw m in
  let func_id := fld (conf descq_conf.func_id) m in
  let st := fld qctxt.st m in
  let c2h := fld qctxt.c2h m in
  let cmpt_ctxt_type := cmpt_type_of (fld qctxt.cmpt_ctxt_type m) in
  rv ← rm_query (fun st => (qdma_dev_qinfo_get dma_device_index func_id st).1);
  if rv <? 0 then mret rv else
  q_range ← rm_query (qdma_dev_is_queue_in_range dma_device_index func_id qid_hw);
  if negb (bool_decide (q_range = QDMA_DEV_Q_IN_RANGE)) then mret rv else
  if bool_decide (cmpt_ctxt_type = QDMA_MBOX_CMPT_CTXT_ONLY) then
    composed (mbox_compose_cmpt_context m) (fun cmpt_ctxt =>
    hw (qdma_cmpt_ctx_conf qid_hw None QDMA_HW_ACCESS_CLEAR) ;?
    hw (qdma_cmpt_ctx_conf qid_hw (Some cmpt_ctxt) QDMA_HW_ACCESS_WRITE) ;?
    mret 0)
  else
    composed (mbox_compose_sw_context m) (fun sw_ctxt =>
    when_composed (is_st_c2h st c2h) (mbox_compose_prefetch_context m) (fun pfetch_ctxt =>
    when_composed (has_cmpt cmpt_ctxt_type) (mbox_compose_cmpt_context m) (fun cmpt_ctxt =>
    mbox_clear_queue_contexts dma_device_index func_id qid_hw st c2h cmpt_ctxt_type ;?
    hw (qdma_sw_ctx_conf c2h qid_hw (Some sw_ctxt) QDMA_HW_ACCESS_WRITE) ;?
    when (is_st_c2h st c2h)
      (hw (qdma_pfetch_ctx_conf qid_hw (Some pfetch_ctxt) QDMA_HW_ACCESS_WRITE)) ;?
    when (has_cmpt cmpt_ctxt_type)
      (hw (qdma_cmpt_ctx_conf qid_hw (Some cmpt_ctxt) QDMA_HW_ACCESS_WRITE)) ;?
    mret 0))).

(** [ctxt] is the member of the response that is filled in. *)
Definition mbox_read_queue_contexts (qid_hw st c2h : Z) (cmpt_ctxt_type : mbox_cmpt_ctxt_type)
    (ctxt : cfield) : PF Z :=
  hw_into (inside ctxt descq_ctxt.sw) (qdma_sw_ctx_conf c2h qid_hw None QDMA_HW_ACCESS_READ) ;?
  hw_into (inside ctxt descq_ctxt.hw) (qdma_hw_ctx_conf c2h qid_hw QDMA_HW_ACCESS_READ) ;?
  hw_into (inside ctxt descq_ctxt.cr) (qdma_credit_ctx_conf c2h qid_hw QDMA_HW_ACCESS_READ) ;?
  when (is_st_c2h st c2h)
    (hw_into (inside ctxt descq_ctxt.pfetch)
       (qdma_pfetch_ctx_conf qid_hw None QDMA_HW_ACCESS_READ)) ;?
  when (has_cmpt cmpt_ctxt_type)
    (hw_into (inside ctxt descq_ctxt.cmpt) (qdma_cmpt_ctx_conf qid_hw None QDMA_HW_ACCESS_READ)) ;?
  mret 0.

(** ** The requests *)

(** How a request ends: with [goto exit_func] or [break], [rv] being the status
    sent back and [ret] the value returned, or with a [return] that leaves the
    response alone. *)
Inductive verdict := Respond (rv ret : Z) | ReturnNow (code : Z).

Definition with_rv (ret : Z) (m : PF Z) : PF verdict := rv ← m; mret (Respond rv ret).

Definition QDMA_DEV_fmap_clear (src : Z) : hw_call := qdma_fmap_conf src 0 0 QDMA_HW_ACCESS_WRITE.

(** [MBOX_OP_VF_BYE] and [MBOX_OP_PF_RESET_VF_BYE] differ in [ret] only. *)
Definition op_bye (dma_device_index ret : Z) : PF verdict :=
  src ← rcv hdr.src_func_id;
  rv ← hw (QDMA_DEV_fmap_clear src);
  _ ← rm_do (fun st => (0, qdma_dev_entry_destroy dma_device_index src st));
  mret (Respond rv ret).

Definition op_hello (dma_device_index : Z) : PF verdict :=
  src ← rcv hdr.src_func_id;
  '(rv, q) ← rm_query (qdma_dev_qinfo_get dma_device_index src);
  match q with
  | Some (b, n) => set_rcv fmap.qbase b;; set_rcv fmap.qmax n
  | None => mret tt
  end;;
  rv ← (if rv <? 0 then rm_do (qdma_dev_entry_create dma_device_index src) else mret rv);
  (if rv =? 0 then
     b ← rcv fmap.qbase;
     n ← rcv fmap.qmax;
     set_resp hello.qbase b;;
     set_resp hello.qmax n;;
     set_resp hello.dma_device_index dma_device_index;;
     _ ← hw_into hello.dev_cap qdma_get_device_attributes;
     mret tt
   else mret tt);;
  _ ← hw (QDMA_DEV_fmap_clear src);
  mret (Respond rv QDMA_MBOX_VF_ONLINE).

(** The members of [struct qdma_fmap_cfg] are [uint16_t]. *)
Definition op_fmap : PF verdict :=
  src ← rcv hdr.src_func_id;
  b ← rcv fmap.qbase;
  n ← rcv fmap.qmax;
  rv ← hw (qdma_fmap_conf src (u16 b) (u16 n) QDMA_HW_ACCESS_WRITE);
  mret (if rv <? 0 then ReturnNow rv else Respond rv 0).

(** A code that makes the CSR request stop. *)
Definition csr_fails (rv : Z) : bool :=
  (rv <? 0) && negb (rv =? neg QDMA_ERR_HWACC_FEATURE_NOT_SUPPORTED).

(** Read an array when [b]; stop the request with the code of a read that fails. *)
Definition csr_read (b : bool) (csr_type : qdma_global_csr_type) (rv : Z)
    (k : Z -> Z -> PF Z) : PF Z :=
  if b then
    '(rv, a) ← csr_array csr_type;
    if csr_fails rv then mret rv else k rv a
  else k rv 0.

Definition csr_fill (rv ringsz bufsz tmr_th cntr_th : Z) : PF unit :=
  for_each (seq 0 QDMA_GLOBAL_CSR_ARRAY_SZ) (fun i =>
    set_resp (inside csr.csr_info (csr_info.ringsz i)) (Z.land (fld (raw_word i) ringsz) 65535);;
    if rv =? 0 then
      set_resp (inside csr.csr_info (csr_info.bufsz i)) (Z.land (fld (raw_word i) bufsz) 65535);;
      set_resp (inside csr.csr_info (csr_info.timer_cnt i)) (Z.land (fld (raw_word i) tmr_th) 255);;
      set_resp (inside csr.csr_info (csr_info.cnt_thres i)) (Z.land (fld (raw_word i) cntr_th) 255)
    else mret tt).

(** [dev_cap] is a local variable that the access function fills in. *)
Definition op_csr : PF verdict :=
  with_rv 0 (
    '(rv, ringsz) ← csr_array QDMA_CSR_RING_SZ;
    if rv <? 0 then mret rv else
    '(_, dev_cap) ← hw_fill qdma_get_device_attributes 0;
    let st_en := negb (fld dev_attributes.st_en dev_cap =? 0) in
    let mm_cmpt_en := negb (fld dev_attributes.mm_cmpt_en dev_cap =? 0) in
    csr_read st_en QDMA_CSR_BUF_SZ rv (fun rv bufsz =>
    csr_read (st_en || mm_cmpt_en) QDMA_CSR_TIMER_CNT rv (fun rv tmr_th =>
    csr_read (st_en || mm_cmpt_en) QDMA_CSR_CNT_TH rv (fun rv cntr_th =>
    csr_fill rv ringsz bufsz tmr_th cntr_th;;
    mret (if rv =? neg QDMA_ERR_HWACC_FEATURE_NOT_SUPPORTED then 0 else rv))))).

Definition op_qreq (dma_device_index : Z) : PF verdict :=
  src ← rcv hdr.src_func_id;
  qmax ← rcv fmap.qmax;
  qbase ← rcv fmap.qbase;
  '(rv, b) ← (fun s => let '(rv, b, st) := qdma_dev_update dma_device_index src qmax (i32 qbase) (pf_rm s)
                       in Ret (rv, b) (set_rm st s));
  set_rcv fmap.qbase b;;
  rv ← (if rv =? 0 then
          '(rv, q) ← rm_query (qdma_dev_qinfo_get dma_device_index src);
          match q with
          | Some (b, n) => set_resp fmap.qbase b;; set_resp fmap.qmax n
          | None => mret tt
          end;;
          mret rv
        else mret rv);
  if rv <? 0 then mret (Respond (neg QDMA_ERR_MBOX_NUM_QUEUES) 0)
  else _ ← hw (QDMA_DEV_fmap_clear src); mret (Respond rv 0).

(** Counting a queue of the sender in or out. *)
Definition op_qnotify (dma_device_index : Z)
    (count : Z -> Z -> qdma_dev_q_type -> rm_state -> Z * rm_state) : PF verdict :=
  with_rv 0 (
    src ← rcv hdr.src_func_id;
    qid_hw ← rcv q_notify.qid_hw;
    q_type ← rcv q_notify.q_type;
    q_range ← rm_query (qdma_dev_is_queue_in_range dma_device_index src qid_hw);
    if negb (bool_decide (q_range = QDMA_DEV_Q_IN_RANGE)) then mret (neg QDMA_ERR_MBOX_INV_QID)
    else rm_do (count dma_device_index src (q_type_of q_type))).

Definition op_qnotify_add (dma_device_index : Z) : PF verdict :=
  op_qnotify dma_device_index qdma_dev_increment_active_queue.
Definition op_qnotify_del (dma_device_index : Z) : PF verdict :=
  op_qnotify dma_device_index qdma_dev_decrement_active_queue.

Definition op_get_qactive_cnt (dma_device_index : Z) : PF verdict :=
  with_rv 0 (
    src ← rcv hdr.src_func_id;
    rv ← rm_query (qdma_get_device_active_queue_count dma_device_index src QDMA_DEV_Q_TYPE_H2C);
    set_resp active_qcnt.h2c_queues rv;;
    rv ← rm_query (qdma_get_device_active_queue_count dma_device_index src QDMA_DEV_Q_TYPE_C2H);
    set_resp active_qcnt.c2h_queues rv;;
    rv ← rm_query (qdma_get_device_active_queue_count dma_device_index src QDMA_DEV_Q_TYPE_CMPT);
    set_resp active_qcnt.cmpt_queues rv;;
    mret rv).

(** A member of a message; going past the union is out of range. *)
Definition in_union (f : cfield) : PF unit :=
  if f_bit f + f_width f <=? f_width qdma_mbox_txrx then mret tt else crash.

(** The loops over the rings of an interrupt context message: [rv] is the code of
    the last call, and a failure is also noted in the status. *)
Fixpoint each_ring (rings : list nat) (rv : Z) (body : Z -> Z -> PF Z) : PF Z :=
  match rings with
  | [] => mret rv
  | i :: rings' =>
      let i := Z.of_nat i in
      in_union (intr_ctxt.ring_index_list i);;
      ring_index ← rcv (intr_ctxt.ring_index_list i);
      rv ← body i ring_index;
      each_ring rings' rv body
  end.

Definition note_status (m : PF Z) : PF Z :=
  rv ← m; (if rv <? 0 then set_resp hdr.status rv else mret tt);; mret rv.

Definition rings (body : Z -> Z -> PF Z) : PF verdict :=
  with_rv 0 (
    num_rings ← rcv intr_ctxt.num_rings;
    each_ring (seq 0 (Z.to_nat num_rings)) 0 body).

(** [ring_index] becomes a [uint16_t] in the call. *)
Definition op_intr_ctxt_wrt : PF verdict :=
  rings (fun i ring_index =>
    in_union (intr_ctxt.ictxt i);;
    ctxt ← rcv (intr_ctxt.ictxt i);
    _ ← note_status (hw (qdma_indirect_intr_ctx_conf (u16 ring_index) None QDMA_HW_ACCESS_CLEAR));
    note_status (hw (qdma_indirect_intr_ctx_conf (u16 ring_index) (Some ctxt) QDMA_HW_ACCESS_WRITE))).

Definition op_intr_ctxt_rd : PF verdict :=
  rings (fun i ring_index =>
    in_union (intr_ctxt.ictxt i);;
    note_status (hw_into (intr_ctxt.ictxt i)
      (qdma_indirect_intr_ctx_conf (u16 ring_index) None QDMA_HW_ACCESS_READ))).

Definition op_intr_ctxt_clr : PF verdict :=
  rings (fun _ ring_index =>
    note_status (hw (qdma_indirect_intr_ctx_conf (u16 ring_index) None QDMA_HW_ACCESS_CLEAR))).

Definition op_intr_ctxt_inv : PF verdict :=
  rings (fun _ ring_index =>
    note_status (hw (qdma_indirect_intr_ctx_conf (u16 ring_index) None QDMA_HW_ACCESS_INVALIDATE))).

(** The part the four queue context requests share. *)
Definition op_qctxt (f : Z -> Z -> Z -> Z -> mbox_cmpt_ctxt_type -> PF Z) : PF verdict :=
  with_rv 0 (
    src ← rcv hdr.src_func_id;
    qid_hw ← rcv qctxt.qid_hw;
    st ← rcv qctxt.st;
    c2h ← rcv qctxt.c2h;
    t ← rcv qctxt.cmpt_ctxt_type;
    f src qid_hw st c2h (cmpt_type_of t)).

Definition op_qctxt_inv (dma_device_index : Z) : PF verdict :=
  op_qctxt (mbox_invalidate_queue_contexts dma_device_index).
Definition op_qctxt_clr (dma_device_index : Z) : PF verdict :=
  op_qctxt (mbox_clear_queue_contexts dma_device_index).
Definition op_qctxt_rd : PF verdict :=
  op_qctxt (fun _ qid_hw st c2h t =>
    mbox_read_queue_contexts qid_hw st c2h t qctxt.descq_ctxt).

Definition op_qctxt_wrt (dma_device_index : Z) : PF verdict :=
  with_rv 0 (
    src ← rcv hdr.src_func_id;
    set_rcv (conf descq_conf.func_id) src;;
    m ← gets rcv_msg;
    mbox_write_queue_contexts dma_device_index m).

(** The access function fills in [num_regs] and [reg_list]; what it fills in is
    seen as one object that starts with [num_regs]. *)
Definition reg_list_area : cfield := bytes_at 8 116.

Definition op_reg_list_read : PF verdict :=
  with_rv 0 (
    group ← rcv reg_read_list.group_num;
    rv ← hw_into reg_list_area (qdma_read_reg_list 1 group);
    n ← gets (fun s => fld reg_read_list.num_regs (resp_msg s));
    mret (if (rv <? 0) || (n =? 0) then neg QDMA_ERR_MBOX_REG_READ_FAILED else rv)).

(** ** The handler *)

Definition invalid_msg : PF verdict := mret (ReturnNow (neg QDMA_ERR_MBOX_INV_MSG)).

Definition op_of (code : Z) : option mbox_msg_op := mbox_msg_ops !! Z.to_nat code.

Definition handle (dma_device_index : Z) (op : mbox_msg_op) : PF verdict :=
  match op with
  | MBOX_OP_VF_BYE => op_bye dma_device_index QDMA_MBOX_VF_OFFLINE
  | MBOX_OP_PF_RESET_VF_BYE => op_bye dma_device_index QDMA_MBOX_VF_RESET_BYE
  | MBOX_OP_HELLO => op_hello dma_device_index
  | MBOX_OP_FMAP => op_fmap
  | MBOX_OP_CSR => op_csr
  | MBOX_OP_QREQ => op_qreq dma_device_index
  | MBOX_OP_QNOTIFY_ADD => op_qnotify_add dma_device_index
  | MBOX_OP_QNOTIFY_DEL => op_qnotify_del dma_device_index
  | MBOX_OP_GET_QACTIVE_CNT => op_get_qactive_cnt dma_device_index
  | MBOX_OP_INTR_CTXT_WRT => op_intr_ctxt_wrt
  | MBOX_OP_INTR_CTXT_RD => op_intr_ctxt_rd
  | MBOX_OP_INTR_CTXT_CLR => op_intr_ctxt_clr
  | MBOX_OP_INTR_CTXT_INV => op_intr_ctxt_inv
  | MBOX_OP_QCTXT_INV => op_qctxt_inv dma_device_index
  | MBOX_OP_QCTXT_CLR => op_qctxt_clr dma_device_index
  | MBOX_OP_QCTXT_RD => op_qctxt_rd
  | MBOX_OP_QCTXT_WRT => op_qctxt_wrt dma_device_index
  | MBOX_OP_REG_LIST_READ => op_reg_list_read
  | MBOX_OP_RESET_PREPARE | MBOX_OP_RESET_DONE | MBOX_OP_PF_BYE => invalid_msg
  end.

(** The [switch] on the operation received. *)
Definition dispatch (dma_device_index op : Z) : PF verdict :=
  if op =? resp_code MBOX_OP_RESET_PREPARE then mret (ReturnNow QDMA_MBOX_VF_RESET)
  else if op =? resp_code MBOX_OP_RESET_DONE then mret (ReturnNow QDMA_MBOX_PF_RESET_DONE)
  else if op =? resp_code MBOX_OP_PF_BYE then mret (ReturnNow QDMA_MBOX_PF_BYE)
  else match op_of op with
       | Some op => handle dma_device_index op
       | None => invalid_msg
       end.

(** The label [exit_func]. *)
Definition exit_func (func_id rv ret : Z) : PF Z :=
  op ← rcv hdr.op;
  src ← rcv hdr.src_func_id;
  set_resp hdr.op (op + MBOX_MSG_OP_RSP_OFFSET);;
  set_resp hdr.dst_func_id src;;
  set_resp hdr.src_func_id func_id;;
  set_resp hdr.status rv;;
  mret ret.

Definition pf_handler (dma_device_index func_id : Z) : PF Z :=
  op ← rcv hdr.op;
  v ← dispatch dma_device_index op;
  match v with
  | ReturnNow code => mret code
  | Respond rv ret => exit_func func_id rv ret
  end.

(** [rcv_msg] may be a null pointer. *)
Definition qdma_mbox_pf_rcv_msg_handler (dma_device_index func_id : Z) (rcv_msg : option Z)
    (resp_msg : Z) (st : rm_state) (calls : list hw_call) : outcome pf_state Z :=
  match rcv_msg with
  | None => Ret (neg QDMA_ERR_INV_PARAM) (mk_pf st calls 0 resp_msg)
  | Some m => pf_handler dma_device_index func_id (mk_pf st calls m resp_msg)
  end.
End pf.
