(* ===== verification/MboxInv.v ===== *)
(** * MboxInv: what a run of the mailbox handler can change

    A small program logic for the handler of MboxPf: [moves safe R m] says that [m]
    takes every state to one related to it by [R], and, when [safe] holds, that it
    ends normally.  The rules are proved for any preorder that the primitive
    steps respect; the requests are walked through once, and the properties of the
    handler are obtained by choosing the preorder. *)

From S2P Require Import Prelude QdmaErrors ResourceMgmt ResourceSys ResourceView Mmio CLayout Contexts.
From S2P Require Import MboxMsg MboxPf.
Local Open Scope Z_scope.

Definition moves_at (safe : Prop) (R : pf_state -> pf_state -> Prop) {A} (m : PF A) (s : pf_state)
    : Prop :=
  match m s with
  | Ret _ s' => R s s'
  | Exit s' | Crash s' | Hang s' => ~ safe /\ R s s'
  end.

Definition moves (safe : Prop) (R : pf_state -> pf_state -> Prop) {A} (m : PF A) : Prop :=
  forall s, moves_at safe R m s.

Section logic.
Context (safe : Prop) (R : pf_state -> pf_state -> Prop) `{!PreOrder R}.
Local Abbreviation mv := (moves safe R).

Lemma moves_at_ret {A} (a : A) s : moves_at safe R (mret a) s.
Proof. unfold moves_at; simpl. reflexivity. Qed.

Lemma moves_at_bind {A B} (m : PF A) (k : A -> PF B) s :
  moves_at safe R m s -> (forall a s', m s = Ret a s' -> moves_at safe R (k a) s') ->
  moves_at safe R (m ≫= k) s.
Proof.
  unfold moves_at, mbind, M_bind. intros Hm Hk. destruct (m s) as [a s'|s'|s'|s']; try done.
  specialize (Hk a s' eq_refl).
  destruct (k a s') as [b s2|s2|s2|s2]; [by transitivity s'|..];
    (destruct Hk; split; [done|by transitivity s']).
Qed.

Lemma moves_bind {A B} (m : PF A) (k : A -> PF B) : mv m -> (forall a, mv (k a)) -> mv (m ≫= k).
Proof. intros Hm Hk s. apply moves_at_bind; [apply Hm|]. intros a s' _. apply Hk. Qed.

Lemma moves_ret {A} (a : A) : mv (mret a).
Proof. intros s. apply moves_at_ret. Qed.

Lemma moves_gets {A} (f : pf_state -> A) : mv (gets f).
Proof. intros s. unfold moves_at; simpl. reflexivity. Qed.

Lemma moves_if {A} (b : bool) (m1 m2 : PF A) : mv m1 -> mv m2 -> mv (if b then m1 else m2).
Proof. by destruct b. Qed.

Lemma moves_or_return (m k : PF Z) : mv m -> mv k -> mv (or_return m k).
Proof.
  intros Hm Hk. apply moves_bind; [done|]. intros rv. by apply moves_if; [apply moves_ret|].
Qed.

Lemma moves_when b (m : PF Z) : (b = true -> mv m) -> mv (when b m).
Proof. intros Hm. destruct b; [by apply Hm|apply moves_ret]. Qed.

Lemma moves_for_each {A} (l : list A) (body : A -> PF unit) :
  (forall x, mv (body x)) -> mv (for_each l body).
Proof.
  intros Hb. induction l as [|x l IH]; simpl; [apply moves_ret|].
  apply moves_bind; [apply Hb|done].
Qed.

(** Reading a member first: what is read is known. *)
Lemma moves_at_rcv {A} f (k : Z -> PF A) s :
  moves_at safe R (k (fld f (rcv_msg s))) s -> moves_at safe R (rcv f ≫= k) s.
Proof. done. Qed.

Lemma moves_at_query {A B} (f : rm_state -> A) (k : A -> PF B) s :
  moves_at safe R (k (f (pf_rm s))) s -> moves_at safe R (rm_query f ≫= k) s.
Proof. done. Qed.
End logic.

(** *** Steps that leave the request as it is *)

Definition same_rcv (s s' : pf_state) : Prop := rcv_msg s' = rcv_msg s.

#[export] Instance same_rcv_preorder : PreOrder same_rcv.
Proof. split; [by intros s|]. unfold same_rcv. by intros s1 s2 s3 -> ->. Qed.

Section same_rcv.
Context `{HwAccess}.
Local Abbreviation keeps := (moves False same_rcv).

Lemma keeps_hw c : keeps (hw c).
Proof. by intros s. Qed.
Lemma keeps_set_resp f v : keeps (set_resp f v).
Proof. by intros s. Qed.
Lemma keeps_in_union f : keeps (in_union f).
Proof. intros s. unfold moves_at, in_union. destruct (_ <=? _); simpl; [reflexivity|]. split; [tauto|reflexivity]. Qed.

Lemma keeps_hw_into f c : keeps (hw_into f c).
Proof.
  apply moves_bind; [apply _|apply moves_gets; apply _|]. intros old.
  apply moves_bind; [apply _|by intros s|]. intros [rv v].
  apply moves_bind; [apply _|apply keeps_set_resp|]. intros _. apply moves_ret; apply _.
Qed.

Lemma keeps_note_status m : keeps m -> keeps (note_status m).
Proof.
  intros Hm. apply moves_bind; [apply _|done|]. intros rv. apply moves_bind; [apply _| |intros _; apply moves_ret; apply _].
  case_match; [apply keeps_set_resp|apply moves_ret; apply _].
Qed.
End same_rcv.

(** ** The primitive steps *)

(** The requests about interrupt contexts, which are those of rings. *)
Definition about_rings (op : mbox_msg_op) : bool :=
  match op with
  | MBOX_OP_INTR_CTXT_WRT | MBOX_OP_INTR_CTXT_RD | MBOX_OP_INTR_CTXT_CLR
  | MBOX_OP_INTR_CTXT_INV => true
  | _ => false
  end.

Section steps.
Context `{HwAccess} (safe : Prop) (R : pf_state -> pf_state -> Prop) `{!PreOrder R}.
Local Abbreviation mv := (moves safe R).

(** Steps that [R] respects: calls that satisfy [okc], assignments to members of
    the request that satisfy [okf], any assignment to the response.  Calls that do
    not concern the context of a queue satisfy [okc], those that set the function
    map for the function [src]. *)
Record respects (okc : hw_call -> Prop) (okf : cfield -> Prop) (src : Z) : Prop := {
  r_hw c s : okc c -> R s (set_hw (c :: hw_calls s) s);
  r_rcv f v s : okf f -> R s (put_rcv f v s);
  r_resp f v s : R s (put_resp f v s);
  r_csr t : okc (qdma_global_csr_conf 0 QDMA_GLOBAL_CSR_ARRAY_SZ t QDMA_HW_ACCESS_READ);
  r_attr : okc qdma_get_device_attributes;
  r_regs v g : okc (qdma_read_reg_list v g);
  r_map b n : okc (qdma_fmap_conf src b n QDMA_HW_ACCESS_WRITE);
  r_qbase : okf fmap.qbase;
  r_qmax : okf fmap.qmax }.

Context (okc : hw_call -> Prop) (okf : cfield -> Prop) (src : Z) (HR : respects okc okf src).

Lemma moves_hw c : okc c -> mv (hw c).
Proof. intros Hc s. unfold moves_at; simpl. by apply (r_hw _ _ _ HR). Qed.
Lemma moves_hw_fill c old : okc c -> mv (hw_fill c old).
Proof. intros Hc s. unfold moves_at; simpl. by apply (r_hw _ _ _ HR). Qed.
Lemma moves_set_rcv f v : okf f -> mv (set_rcv f v).
Proof. intros Hf s. unfold moves_at; simpl. by apply (r_rcv _ _ _ HR). Qed.
Lemma moves_set_resp f v : mv (set_resp f v).
Proof. intros s. unfold moves_at; simpl. apply (r_resp _ _ _ HR). Qed.
Lemma moves_rcv f : mv (rcv f).
Proof. apply moves_gets; apply _. Qed.
Lemma moves_query {A} (f : rm_state -> A) : mv (rm_query f).
Proof. apply moves_gets; apply _. Qed.

Lemma moves_hw_into f c : okc c -> mv (hw_into f c).
Proof.
  intros Hc. apply moves_bind; [done|apply moves_gets; apply _|]. intros old.
  apply moves_bind; [done|by apply moves_hw_fill|]. intros [rv v].
  apply moves_bind; [done|apply moves_set_resp|]. intros _. apply moves_ret; apply _.
Qed.

Lemma moves_in_union f :
  (safe -> f_bit f + f_width f <= f_width qdma_mbox_txrx) -> mv (in_union f).
Proof.
  intros Hf s. unfold moves_at, in_union.
  destruct (Z.leb_spec (f_bit f + f_width f) (f_width qdma_mbox_txrx)) as [|Hgt]; simpl; [reflexivity|].
  split; [|reflexivity]. intros Hs. specialize (Hf Hs). lia.
Qed.

(** [walk] takes a program apart down to the primitive steps; what is left are the
    conditions on the steps. *)
Ltac walk1 :=
  match goal with
  | |- moves _ _ (mbind _ _) => apply moves_bind; [apply _| |intros ?]
  | |- moves _ _ (mret _) => apply moves_ret; apply _
  | |- moves _ _ (or_return _ _) => apply moves_or_return; [apply _|..]
  | |- moves _ _ (when _ _) => apply moves_when; [apply _|intros ?]
  | |- moves _ _ (hw_into _ _) => apply moves_hw_into
  | |- moves _ _ (hw_fill _ _) => apply moves_hw_fill
  | |- moves _ _ (hw _) => apply moves_hw
  | |- moves _ _ (set_resp _ _) => apply moves_set_resp
  | |- moves _ _ (set_rcv _ _) => apply moves_set_rcv
  | |- moves _ _ (rcv _) => apply moves_rcv
  | |- moves _ _ (rm_query _) => apply moves_query
  | |- moves _ _ (gets _) => apply moves_gets; apply _
  | |- moves _ _ (in_union _) => apply moves_in_union
  | |- moves _ _ (for_each _ _) => apply moves_for_each; [apply _|intros ?]
  | |- moves _ _ (if ?b then _ else _) => destruct b eqn:?
  | |- moves _ _ (match ?x with _ => _ end) => destruct x eqn:?
  | |- moves _ _ (let _ := _ in _) => cbv zeta
  | |- moves _ _ ((fun _ => _) _) => cbv beta
  end.
Ltac walk := repeat walk1.

Lemma moves_note_status m : mv m -> mv (note_status m).
Proof. intros Hm. unfold note_status. by walk. Qed.

Lemma moves_find_idx t p e : mv (find_idx t p e).
Proof. unfold find_idx, csr_array. walk. apply (r_csr _ _ _ HR). Qed.

Lemma moves_compose_sw m : mv (mbox_compose_sw_context m).
Proof. unfold mbox_compose_sw_context. walk. apply moves_find_idx. Qed.
Lemma moves_compose_prefetch m : mv (mbox_compose_prefetch_context m).
Proof. unfold mbox_compose_prefetch_context. walk. apply moves_find_idx. Qed.
Lemma moves_compose_cmpt m : mv (mbox_compose_cmpt_context m).
Proof. unfold mbox_compose_cmpt_context. walk; apply moves_find_idx. Qed.

Lemma moves_composed step k : mv step -> (forall c, mv (k c)) -> mv (composed step k).
Proof. intros Hs Hk. unfold composed. by walk. Qed.

Lemma moves_when_composed b step k :
  mv step -> (forall c, mv (k c)) -> mv (when_composed b step k).
Proof. intros Hs Hk. unfold when_composed. walk; [by apply moves_composed|done]. Qed.

(** The calls on the contexts of one queue. *)
Definition queue_calls (qid : Z) (access : qdma_hw_access_type) : Prop :=
  (forall c2h d, okc (qdma_sw_ctx_conf c2h qid d access)) /\
  (forall c2h, okc (qdma_hw_ctx_conf c2h qid access)) /\
  (forall c2h, okc (qdma_credit_ctx_conf c2h qid access)) /\
  (forall d, okc (qdma_pfetch_ctx_conf qid d access)) /\
  (forall d, okc (qdma_cmpt_ctx_conf qid d access)).

Lemma moves_drop access idx fid qid st c2h t :
  queue_calls qid access -> mv (drop_queue_contexts access idx fid qid st c2h t).
Proof.
  intros (? & ? & ? & ? & ?). unfold drop_queue_contexts. by walk.
Qed.

Lemma moves_write idx m :
  queue_calls (fld qctxt.qid_hw m) QDMA_HW_ACCESS_CLEAR ->
  queue_calls (fld qctxt.qid_hw m) QDMA_HW_ACCESS_WRITE -> mv (mbox_write_queue_contexts idx m).
Proof.
  intros Hclr (? & ? & ? & ? & ?). unfold mbox_write_queue_contexts. walk.
  - apply moves_composed; [apply moves_compose_cmpt|intros]. walk; [|done]. by destruct Hclr as (? & ? & ? & ? & ?).
  - apply moves_composed; [apply moves_compose_sw|intros].
    apply moves_when_composed; [apply moves_compose_prefetch|intros].
    apply moves_when_composed; [apply moves_compose_cmpt|intros].
    walk; [|done..]. by apply moves_drop.
Qed.

Lemma moves_read qid st c2h t ctxt :
  queue_calls qid QDMA_HW_ACCESS_READ -> mv (mbox_read_queue_contexts qid st c2h t ctxt).
Proof. intros (? & ? & ? & ? & ?). unfold mbox_read_queue_contexts. by walk. Qed.

(** *** Requests that do not concern queue contexts or the resource manager *)

(** The rings are those that the request names. *)
Definition named_ring (m i : Z) : Z := fld (intr_ctxt.ring_index_list i) m.

Lemma moves_at_each_ring n rv body s :
  (safe -> Z.of_nat n <= 4) -> (forall i r, moves False same_rcv (body i r)) ->
  (forall i, 0 <= i < Z.of_nat n -> mv (body i (named_ring (rcv_msg s) i))) ->
  moves_at safe R (each_ring (seq 0 n) rv body) s.
Proof.
  intros Hsafe Hk Hb. assert (forall l rv s', (forall i, i ∈ l -> (i < n)%nat) -> rcv_msg s' = rcv_msg s ->
    moves_at safe R (each_ring l rv body) s') as H'; [|apply H'; [|done]; intros i Hi; apply elem_of_seq in Hi; lia].
  induction l as [|i l IH]; intros rv' s' Hl Hs; simpl; [apply moves_at_ret; apply _|].
  pose proof (Hl i ltac:(set_solver)) as Hi. apply moves_at_bind; [apply _| |].
  - apply moves_in_union. intros Hsf. specialize (Hsafe Hsf).
    unfold qdma_mbox_txrx, intr_ctxt.ring_index_list, bytes_at. cbn [f_bit f_width]. lia.
  - intros [] s1 E. assert (s1 = s') as -> by (revert E; unfold in_union; case_match; by intros [= <-]).
    apply moves_at_rcv. fold (named_ring (rcv_msg s') (Z.of_nat i)). rewrite Hs.
    apply moves_at_bind; [apply _|apply Hb; lia|]. intros rv1 s2 E2.
    apply IH; [set_solver|]. rewrite <- Hs. pose proof (Hk (Z.of_nat i) (named_ring (rcv_msg s) (Z.of_nat i)) s') as Hk'.
    unfold moves_at in Hk'. by rewrite E2 in Hk'.
Qed.

Lemma ictxt_in_union n i :
  (safe -> n <= 4) -> 0 <= i < n ->
  safe -> f_bit (intr_ctxt.ictxt i) + f_width (intr_ctxt.ictxt i) <= f_width qdma_mbox_txrx.
Proof.
  intros Hsafe Hi Hs. specialize (Hsafe Hs).
  unfold qdma_mbox_txrx, intr_ctxt.ictxt, bytes_at. cbn [f_bit f_width]. lia.
Qed.

(** The number of rings of a request is in its first member. *)
Definition few_rings (s : pf_state) : Prop := safe -> fld intr_ctxt.num_rings (rcv_msg s) <= 4.

Lemma moves_at_rings s body :
  few_rings s -> (forall i r, moves False same_rcv (body i r)) ->
  (forall n i, (safe -> n <= 4) -> 0 <= i < n -> n = fld intr_ctxt.num_rings (rcv_msg s) ->
     mv (body i (named_ring (rcv_msg s) i))) ->
  moves_at safe R (rings body) s.
Proof.
  intros Hn Hk Hb. unfold rings, with_rv. apply moves_at_bind; [apply _| |intros; apply moves_at_ret; apply _].
  apply moves_at_rcv. set (n := fld intr_ctxt.num_rings (rcv_msg s)) in *.
  assert (0 <= n) by (apply fld_range; by vm_compute).
  apply moves_at_each_ring; [rewrite Z2Nat.id by done; exact Hn|done|].
  intros i Hi. apply (Hb n); [exact Hn| |done]. by rewrite Z2Nat.id in Hi by done.
Qed.

(** Calls on the rings a request names are fine. *)
Definition named_rings (m : Z) : Prop := forall i d a,
  0 <= i < fld intr_ctxt.num_rings m -> okc (qdma_indirect_intr_ctx_conf (u16 (named_ring m i)) d a).

Section rings.
Context (s : pf_state) (Hn : few_rings s) (Hr : named_rings (rcv_msg s)).

Lemma moves_intr_wrt : moves_at safe R op_intr_ctxt_wrt s.
Proof.
  apply moves_at_rings; [done| |].
  - intros i r. repeat first [apply keeps_note_status, keeps_hw|apply keeps_in_union|apply moves_bind; [apply _| |intros ?]].
    apply moves_gets; apply _.
  - intros n i Hs Hi ->. walk; [by eapply ictxt_in_union|apply moves_note_status, moves_hw; by apply Hr..].
Qed.

Lemma moves_intr_rd : moves_at safe R op_intr_ctxt_rd s.
Proof.
  apply moves_at_rings; [done| |].
  - intros i r. apply moves_bind; [apply _|apply keeps_in_union|intros ?]. apply keeps_note_status, keeps_hw_into.
  - intros n i Hs Hi ->. walk; [by eapply ictxt_in_union|apply moves_note_status, moves_hw_into; by apply Hr].
Qed.

Lemma moves_intr_clr : moves_at safe R op_intr_ctxt_clr s.
Proof.
  apply moves_at_rings; [done|intros; apply keeps_note_status, keeps_hw|].
  intros n i Hs Hi ->. apply moves_note_status, moves_hw. by apply Hr.
Qed.

Lemma moves_intr_inv : moves_at safe R op_intr_ctxt_inv s.
Proof.
  apply moves_at_rings; [done|intros; apply keeps_note_status, keeps_hw|].
  intros n i Hs Hi ->. apply moves_note_status, moves_hw. by apply Hr.
Qed.
End rings.

Lemma moves_csr_read b t rv k : (forall rv a, mv (k rv a)) -> mv (csr_read b t rv k).
Proof. intros Hk. unfold csr_read, csr_array. walk; [apply (r_csr _ _ _ HR)|apply Hk|apply Hk]. Qed.

Lemma moves_csr : mv op_csr.
Proof.
  unfold op_csr, with_rv, csr_array. walk; [apply (r_csr _ _ _ HR)|apply (r_attr _ _ _ HR)|].
  do 3 (apply moves_csr_read; intros). walk. unfold csr_fill. walk.
Qed.

Lemma moves_reg_list : mv op_reg_list_read.
Proof. unfold op_reg_list_read, with_rv. walk. apply (r_regs _ _ _ HR). Qed.

Lemma moves_qactive idx : mv (op_get_qactive_cnt idx).
Proof. unfold op_get_qactive_cnt, with_rv. walk. Qed.

(** *** Requests that concern the function map and the resource manager *)

Context (idx : Z).
Context (okr : (rm_state -> Z * rm_state) -> Prop).
Context (Rrm : forall f s, okr f -> R s (set_rm (f (pf_rm s)).2 s)).

Lemma moves_rm_do f : okr f -> mv (rm_do f).
Proof.
  intros Hf s. unfold moves_at, rm_do. destruct (f (pf_rm s)) as [rv st] eqn:E.
  replace st with (f (pf_rm s)).2 by by rewrite E. by apply Rrm.
Qed.

Lemma moves_bye s ret :
  fld hdr.src_func_id (rcv_msg s) = src -> okr (fun st => (0, qdma_dev_entry_destroy idx src st)) ->
  moves_at safe R (op_bye idx ret) s.
Proof.
  intros Hs Hr. unfold op_bye. apply moves_at_rcv. rewrite Hs. revert s Hs.
  enough (forall s, moves_at safe R _ s) by (intros; eauto). fold (@moves safe R verdict).
  match goal with |- forall s, moves_at _ _ ?m s => change (mv m) end.
  walk; [apply (r_map _ _ _ HR)|by apply moves_rm_do].
Qed.

Lemma moves_hello s :
  fld hdr.src_func_id (rcv_msg s) = src -> okr (qdma_dev_entry_create idx src) ->
  moves_at safe R (op_hello idx) s.
Proof.
  intros Hs Hr. unfold op_hello. apply moves_at_rcv. rewrite Hs. clear Hs. revert s.
  match goal with |- forall s, moves_at _ _ ?m s => change (mv m) end.
  walk; [apply (r_qbase _ _ _ HR)|apply (r_qmax _ _ _ HR)|by apply moves_rm_do
    |apply (r_attr _ _ _ HR)|apply (r_map _ _ _ HR)].
Qed.

Lemma moves_fmap s :
  fld hdr.src_func_id (rcv_msg s) = src -> moves_at safe R op_fmap s.
Proof.
  intros Hs. unfold op_fmap. apply moves_at_rcv. rewrite Hs. clear Hs. revert s.
  match goal with |- forall s, moves_at _ _ ?m s => change (mv m) end.
  walk. apply (r_map _ _ _ HR).
Qed.

Lemma moves_qnotify s count :
  fld hdr.src_func_id (rcv_msg s) = src -> (forall t, okr (count idx src t)) ->
  moves_at safe R (op_qnotify idx count) s.
Proof.
  intros Hs Hr. unfold op_qnotify, with_rv.
  apply moves_at_bind; [apply _| |intros; apply moves_at_ret; apply _].
  apply moves_at_rcv. rewrite Hs. clear Hs. revert s.
  match goal with |- forall s, moves_at _ _ ?m s => change (mv m) end.
  walk. by apply moves_rm_do.
Qed.

(** The resize; the code of [rm_do] and the new base. *)
Definition rm_update (n b : Z) (st : rm_state) : Z * rm_state :=
  let '(rv, b', st') := qdma_dev_update idx src n b st in (rv, st').

Lemma moves_qreq s :
  fld hdr.src_func_id (rcv_msg s) = src ->
  okr (rm_update (fld fmap.qmax (rcv_msg s)) (i32 (fld fmap.qbase (rcv_msg s)))) ->
  moves_at safe R (op_qreq idx) s.
Proof.
  intros Hs Hr. unfold op_qreq. do 3 apply moves_at_rcv. rewrite Hs.
  apply moves_at_bind; [apply _| |].
  - unfold moves_at. pose proof (Rrm _ s Hr) as Hm. unfold rm_update in Hm.
    by destruct (qdma_dev_update _ _ _ _ _) as [[rv b] st].
  - intros [rv b] s' _. revert s'.
    match goal with |- forall s, moves_at _ _ ?m s => change (mv m) end.
    walk; [apply (r_qbase _ _ _ HR)|apply (r_map _ _ _ HR)].
Qed.

(** *** The handler *)

Lemma moves_at_qctxt s f :
  (let m := rcv_msg s in
   moves_at safe R
     (f (fld hdr.src_func_id m) (fld qctxt.qid_hw m) (fld qctxt.st m) (fld qctxt.c2h m)
        (cmpt_type_of (fld qctxt.cmpt_ctxt_type m))) s) ->
  moves_at safe R (op_qctxt f) s.
Proof.
  intros Hf. unfold op_qctxt, with_rv.
  apply moves_at_bind; [apply _| |intros; apply moves_at_ret; apply _].
  do 5 apply moves_at_rcv. apply Hf.
Qed.

Lemma moves_qctxt_inv s :
  queue_calls (fld qctxt.qid_hw (rcv_msg s)) QDMA_HW_ACCESS_INVALIDATE ->
  moves_at safe R (op_qctxt_inv idx) s.
Proof. intros Hq. apply moves_at_qctxt. exact (moves_drop _ _ _ _ _ _ _ Hq s). Qed.

Lemma moves_qctxt_clr s :
  queue_calls (fld qctxt.qid_hw (rcv_msg s)) QDMA_HW_ACCESS_CLEAR ->
  moves_at safe R (op_qctxt_clr idx) s.
Proof. intros Hq. apply moves_at_qctxt. exact (moves_drop _ _ _ _ _ _ _ Hq s). Qed.

Lemma moves_qctxt_rd s :
  queue_calls (fld qctxt.qid_hw (rcv_msg s)) QDMA_HW_ACCESS_READ ->
  moves_at safe R op_qctxt_rd s.
Proof. intros Hq. apply moves_at_qctxt. exact (moves_read _ _ _ _ _ Hq s). Qed.

Lemma moves_qctxt_wrt s :
  okf (conf descq_conf.func_id) ->
  queue_calls (fld qctxt.qid_hw (rcv_msg s)) QDMA_HW_ACCESS_CLEAR ->
  queue_calls (fld qctxt.qid_hw (rcv_msg s)) QDMA_HW_ACCESS_WRITE ->
  moves_at safe R (op_qctxt_wrt idx) s.
Proof.
  intros Hf Hclr Hwr. unfold op_qctxt_wrt, with_rv.
  apply moves_at_bind; [apply _| |intros; apply moves_at_ret; apply _].
  apply moves_at_rcv, moves_at_bind; [apply _|by apply (r_rcv _ _ _ HR)|].
  intros [] s' [= <-]. apply moves_at_bind; [apply _|apply moves_gets; apply _|].
  intros m s'' [= <- <-].
  refine (moves_write idx _ _ _ _); simpl; by fields.
Qed.

(** What remains to be shown for a choice of [R]. *)
Definition qctxt_ok (op : mbox_msg_op) (s : pf_state) : Prop :=
  match op with
  | MBOX_OP_QCTXT_INV => moves_at safe R (op_qctxt_inv idx) s
  | MBOX_OP_QCTXT_CLR => moves_at safe R (op_qctxt_clr idx) s
  | MBOX_OP_QCTXT_RD => moves_at safe R op_qctxt_rd s
  | MBOX_OP_QCTXT_WRT => moves_at safe R (op_qctxt_wrt idx) s
  | _ => True
  end.

Definition rm_ok (op : mbox_msg_op) (s : pf_state) : Prop :=
  okr (fun st => (0, qdma_dev_entry_destroy idx src st)) /\
  okr (qdma_dev_entry_create idx src) /\
  (forall t, okr (qdma_dev_increment_active_queue idx src t)) /\
  (forall t, okr (qdma_dev_decrement_active_queue idx src t)) /\
  (op = MBOX_OP_QREQ ->
   okr (rm_update (fld fmap.qmax (rcv_msg s)) (i32 (fld fmap.qbase (rcv_msg s))))).

(** Only the requests about interrupt contexts have a number of rings. *)
Definition rings_ok (op : mbox_msg_op) (s : pf_state) : Prop :=
  about_rings op = true -> few_rings s /\ named_rings (rcv_msg s).

Lemma moves_handle op s :
  fld hdr.src_func_id (rcv_msg s) = src -> rings_ok op s -> qctxt_ok op s -> rm_ok op s ->
  moves_at safe R (handle idx op) s.
Proof.
  intros Hs Hn Hctx (Hd & Hc & Hi & Hdec & Hq). destruct op; cbn [handle qctxt_ok] in *.
  - by apply moves_bye.
  - by apply moves_hello.
  - by apply moves_fmap.
  - apply moves_csr.
  - apply moves_qreq; [done|]. by apply Hq.
  - by apply moves_qnotify.
  - by apply moves_qnotify.
  - apply moves_qactive.
  - exact Hctx.
  - exact Hctx.
  - exact Hctx.
  - exact Hctx.
  - by apply moves_intr_wrt; apply Hn.
  - by apply moves_intr_rd; apply Hn.
  - by apply moves_intr_clr; apply Hn.
  - by apply moves_intr_inv; apply Hn.
  - apply moves_at_ret; apply _.
  - apply moves_at_ret; apply _.
  - apply moves_reg_list.
  - apply moves_at_ret; apply _.
  - by apply moves_bye.
Qed.

(** It is enough that every call on a queue context is fine. *)
Lemma qctxt_ok_all op s :
  okf (conf descq_conf.func_id) -> (forall qid acc, queue_calls qid acc) -> qctxt_ok op s.
Proof.
  intros Hf Hq. destruct op; cbn [qctxt_ok]; try match goal with |- True => exact I end.
  - by apply moves_qctxt_wrt.
  - by apply moves_qctxt_rd.
  - by apply moves_qctxt_clr.
  - by apply moves_qctxt_inv.
Qed.

Lemma moves_exit fid rv ret : mv (exit_func fid rv ret).
Proof. unfold exit_func. walk. Qed.

Lemma op_of_code op : op_of (op_code op) = Some op.
Proof. by destruct op. Qed.

Lemma op_of_Some v op : 0 <= v -> op_of v = Some op -> v = op_code op.
Proof.
  intros Hv Ho. unfold op_of in Ho.
  assert (Z.to_nat v < 21)%nat as Hlt.
  { change 21%nat with (length mbox_msg_ops). by eapply lookup_lt_Some. }
  rewrite <- (Z2Nat.id v Hv). revert Ho. generalize (Z.to_nat v) Hlt. clear. intros n Hn.
  do 21 (destruct n as [|n]; [by intros [= <-]|]). lia.
Qed.

Lemma moves_dispatch s :
  fld hdr.src_func_id (rcv_msg s) = src ->
  (forall op, fld hdr.op (rcv_msg s) = op_code op ->
     rings_ok op s /\ qctxt_ok op s /\ rm_ok op s) ->
  moves_at safe R (dispatch idx (fld hdr.op (rcv_msg s))) s.
Proof.
  intros Hs Hr. unfold dispatch. do 3 (case_if; [apply moves_at_ret; apply _|]).
  destruct (op_of _) as [op|] eqn:Eo; [|apply moves_at_ret; apply _].
  destruct (Hr op) as (? & ? & ?); [|apply moves_handle; assumption].
  apply op_of_Some; [|done]. by apply fld_range.
Qed.

Lemma moves_pf_handler fid s :
  fld hdr.src_func_id (rcv_msg s) = src ->
  (forall op, fld hdr.op (rcv_msg s) = op_code op ->
     rings_ok op s /\ qctxt_ok op s /\ rm_ok op s) ->
  moves_at safe R (pf_handler idx fid) s.
Proof.
  intros Hs Hr. unfold pf_handler. apply moves_at_rcv.
  apply moves_at_bind; [apply _|by apply moves_dispatch|].
  intros [] s' _; [apply moves_exit|apply moves_at_ret; apply _].
Qed.
End steps.

(** ** What a message does to the resource manager *)

Definition calls_run (cs : list rm_call) (st : rm_state) : rm_state :=
  foldl (fun st c => rm_exec c st) st cs.

(** The resource manager has executed calls made for the function [src]. *)
Definition rm_by (idx src : Z) (s s' : pf_state) : Prop :=
  exists cs, Forall (fun c => call_ok c /\ call_by idx src c) cs /\
             pf_rm s' = calls_run cs (pf_rm s).

#[export] Instance rm_by_preorder idx src : PreOrder (rm_by idx src).
Proof.
  split.
  - intros s. by exists [].
  - intros s1 s2 s3 (cs1 & H1 & E1) (cs2 & H2 & E2). exists (cs1 ++ cs2).
    split; [by apply Forall_app_2|]. unfold calls_run in *. by rewrite foldl_app, <- E1.
Qed.

Definition executes (idx src : Z) (f : rm_state -> Z * rm_state) : Prop :=
  exists c, call_ok c /\ call_by idx src c /\ forall st, (f st).2 = rm_exec c st.

(** A request for queues whose end does not wrap around. *)
Definition no_wrap (m : Z) : Prop :=
  fld hdr.op m = op_code MBOX_OP_QREQ ->
  i32 (fld fmap.qbase m) + fld fmap.qmax m < 4294967296.

Section rm_by.
Context `{HwAccess} (idx src : Z).

Lemma rm_by_same s s' : pf_rm s' = pf_rm s -> rm_by idx src s s'.
Proof. intros E. by exists []. Qed.

Lemma rm_by_do f s : executes idx src f -> rm_by idx src s (set_rm (f (pf_rm s)).2 s).
Proof. intros (c & Hok & Hby & Hf). exists [c]. split; [by repeat constructor|]. simpl. by rewrite Hf. Qed.

Lemma executes_intro f c :
  call_ok c -> call_by idx src c -> (forall st, (f st).2 = rm_exec c st) -> executes idx src f.
Proof. intros. by exists c. Qed.

Lemma rm_ok_executes op s :
  fld hdr.op (rcv_msg s) = op_code op -> no_wrap (rcv_msg s) ->
  rm_ok src idx (executes idx src) op s.
Proof.
  intros Ho Hw. split_and!; try intros t.
  - apply (executes_intro _ (DestroyDev idx src)); simpl; done.
  - apply (executes_intro _ (CreateDev idx src)); simpl; done.
  - apply (executes_intro _ (IncrementActive idx src t)); simpl; done.
  - apply (executes_intro _ (DecrementActive idx src t)); simpl; done.
  - subst op. eapply (executes_intro _ (UpdateDev idx src _ _)); [|by split|].
    + split; [apply (fld_range fmap.qmax); by vm_compute|]. by apply Hw.
    + intros st. unfold rm_update; simpl. by destruct (qdma_dev_update _ _ _ _ _) as [[? ?] ?].
Qed.

Lemma rm_by_respects : respects (rm_by idx src) (fun _ => True) (fun _ => True) src.
Proof. split; try exact I; intros; first [exact I|by apply rm_by_same]. Qed.

Lemma rm_by_queue_calls qid acc : queue_calls (fun _ => True) qid acc.
Proof. unfold queue_calls. tauto. Qed.

Lemma moves_handler_rm fid s :
  fld hdr.src_func_id (rcv_msg s) = src -> no_wrap (rcv_msg s) ->
  moves_at False (rm_by idx src) (pf_handler idx fid) s.
Proof.
  intros Hs Hw. pose proof rm_by_respects as HR.
  apply (moves_pf_handler False _ _ _ _ HR idx (executes idx src)); [|exact Hs|].
  - intros f s' Hf. by apply rm_by_do.
  - intros op Ho. split_and!; [intros _; split; [by intros []|done]| |by apply rm_ok_executes].
    apply (qctxt_ok_all _ _ _ _ _ HR); [done|apply rm_by_queue_calls].
Qed.
End rm_by.

(** ** What a message does to the hardware *)

(** The calls made satisfy [P]. *)
Definition calls_by (P : hw_call -> Prop) (s s' : pf_state) : Prop :=
  exists new, Forall P new /\ hw_calls s' = new ++ hw_calls s.

#[export] Instance calls_by_preorder P : PreOrder (calls_by P).
Proof.
  split.
  - intros s. by exists [].
  - intros s1 s2 s3 (n1 & H1 & E1) (n2 & H2 & E2). exists (n2 ++ n1).
    split; [by apply Forall_app_2|]. by rewrite E2, E1, app_assoc.
Qed.

(** The queue whose contexts a call changes. *)
Definition queue_changed (c : hw_call) : option Z :=
  match c with
  | qdma_sw_ctx_conf _ q _ a | qdma_hw_ctx_conf _ q a | qdma_credit_ctx_conf _ q a
  | qdma_pfetch_ctx_conf q _ a | qdma_cmpt_ctx_conf q _ a =>
      if bool_decide (a = QDMA_HW_ACCESS_READ) then None else Some q
  | _ => None
  end.

(** The function whose map a call sets. *)
Definition function_mapped (c : hw_call) : option Z :=
  match c with qdma_fmap_conf f _ _ _ => Some f | _ => None end.

(** The ring whose context a call changes. *)
Definition ring_changed (c : hw_call) : option Z :=
  match c with
  | qdma_indirect_intr_ctx_conf r _ a => if bool_decide (a = QDMA_HW_ACCESS_READ) then None else Some r
  | _ => None
  end.

(** Whether a call changes global registers. *)
Definition global_changed (c : hw_call) : bool :=
  match c with qdma_global_csr_conf _ _ _ a => negb (bool_decide (a = QDMA_HW_ACCESS_READ)) | _ => false end.

(** Calls that change contexts of queues in [Q] and of rings in [G] only, and the map of [src]
    only, and no global register. *)
Definition confined (Q G : Z -> Prop) (src : Z) (c : hw_call) : Prop :=
  (forall q, queue_changed c = Some q -> Q q) /\
  (forall f, function_mapped c = Some f -> f = src) /\
  global_changed c = false /\
  (forall r, ring_changed c = Some r -> G r).

Section calls_by.
Context `{HwAccess} (Q G : Z -> Prop) (idx src : Z).

Lemma calls_by_respects (okf : cfield -> Prop) :
  okf fmap.qbase -> okf fmap.qmax -> respects (calls_by (confined Q G src)) (confined Q G src) okf src.
Proof.
  intros Hb Hm. split; try done; intros.
  - exists [c]. split; [by apply Forall_singleton|done].
  - by exists [].
  - by exists [].
  - split; [done|]. split; [by intros f [= <-]|done].
Qed.

Lemma confined_ring r d a : G r -> confined Q G src (qdma_indirect_intr_ctx_conf r d a).
Proof. intros Hr. unfold confined; simpl. split_and!; try done. intros r'. case_bool_decide; [done|]. by intros [= <-]. Qed.

Lemma confined_queue qid acc : Q qid -> queue_calls (confined Q G src) qid acc.
Proof.
  intros Hq. unfold queue_calls, confined; simpl.
  split_and!; intros; (split; [intros q'; by case_bool_decide; [|intros [= <-]]|done]).
Qed.

Lemma confined_read qid : queue_calls (confined Q G src) qid QDMA_HW_ACCESS_READ.
Proof. by unfold queue_calls, confined. Qed.
End calls_by.

(** ** The header of the request and the response *)

Definition header : cfield := bytes_at 0 6.

Definition header_kept (s s' : pf_state) : Prop :=
  fld header (rcv_msg s') = fld header (rcv_msg s).

#[export] Instance header_kept_preorder : PreOrder header_kept.
Proof. split; [by intros s|]. unfold header_kept. by intros s1 s2 s3 -> ->. Qed.

Definition off_header (f : cfield) : Prop := field_ok f /\ apart f header.

Section header_kept.
Context `{HwAccess} (idx src : Z).

Lemma header_kept_respects : respects header_kept (fun _ => True) off_header src.
Proof.
  split; try (intros; exact I); try done.
  - intros f v s [Hf Ha]. unfold header_kept; simpl. apply fld_put_apart; [by vm_compute|done|].
    unfold apart in *. lia.
  - split; [by vm_compute|]. right. by vm_compute.
  - split; [by vm_compute|]. right. by vm_compute.
Qed.

(** The request is carried out to its end, its header being unchanged. *)
Lemma moves_dispatch_header s :
  fld hdr.src_func_id (rcv_msg s) = src ->
  (forall op, fld hdr.op (rcv_msg s) = op_code op -> about_rings op = true -> few_rings True s) ->
  moves_at True header_kept (dispatch idx (fld hdr.op (rcv_msg s))) s.
Proof.
  intros Hs Hn. pose proof header_kept_respects as HR.
  apply (moves_dispatch True _ _ _ _ HR idx (fun _ => True)); [done|exact Hs|].
  intros op Ho. split; [intros Ha; split; [by apply (Hn op)|done]|]. split; [|done].
  apply (qctxt_ok_all _ _ _ _ _ HR); [split; [by vm_compute|right; by vm_compute]|done].
Qed.
End header_kept.

(** ** Which requests are answered *)

(** [m] ends with a response whenever it ends normally. *)
Definition answers (m : PF verdict) : Prop :=
  forall s v s', m s = Ret v s' -> exists rv ret, v = Respond rv ret.

Lemma answers_ret rv ret : answers (mret (Respond rv ret)).
Proof. intros s v s' [= <- <-]. eauto. Qed.

Lemma answers_bind {A} (m : PF A) (k : A -> PF verdict) :
  (forall a, answers (k a)) -> answers (m ≫= k).
Proof.
  intros Hk s v s'. unfold mbind, M_bind. destruct (m s) as [a s1|s1|s1|s1]; [apply Hk|done..].
Qed.

Lemma answers_with_rv ret m : answers (with_rv ret m).
Proof. apply answers_bind. intros rv. apply answers_ret. Qed.

(** The requests a virtual function makes, other than setting its function map
    (which answers only when it succeeds). *)
Definition answered (op : mbox_msg_op) : bool :=
  match op with
  | MBOX_OP_FMAP | MBOX_OP_RESET_PREPARE | MBOX_OP_RESET_DONE | MBOX_OP_PF_BYE => false
  | _ => true
  end.

Lemma handle_answers `{HwAccess} idx op : answered op = true -> answers (handle idx op).
Proof.
  destruct op; intros Ha; try discriminate Ha; cbn [handle]; try apply answers_with_rv;
    repeat (first [apply answers_ret|apply answers_bind; intros ?|case_match]).
Qed.
