(* ===== verification/MboxProps.v ===== *)
(** * MboxProps: properties of the mailbox

    What a message of a virtual function can do to the resource manager and to the
    hardware, that it is answered, and that the registers carry it.  MboxFlows has
    what the two sides understand of each other, MboxLimits where the code does
    less than it should. *)

From S2P Require Import Prelude QdmaErrors ResourceMgmt ResourceInv ResourceSys ResourceProps.
From S2P Require Import ResourceView Mmio CLayout Contexts MboxMsg MboxHw MboxPf MboxInv.
Local Open Scope Z_scope.

(** ** Isolation *)

Lemma calls_run_reachable al st idx src cs :
  rm_reachable al st -> Forall (fun c => call_ok c /\ call_by idx src c) cs ->
  rm_reachable al (calls_run cs st).
Proof.
  intros Hr Hcs. revert st Hr. induction Hcs as [|c cs [Hc _] _ IH]; intros st Hr; [done|].
  apply IH. unfold rm_reachable in *. econstructor; [exact Hr|by constructor].
Qed.

Lemma calls_run_view idx src idx' fid' cs st :
  (idx', fid') <> (idx, src) -> Forall (fun c => call_ok c /\ call_by idx src c) cs ->
  dev_view idx' fid' (calls_run cs st) = dev_view idx' fid' st.
Proof.
  intros Hne Hcs. revert st. induction Hcs as [|c cs [_ Hc] _ IH]; intros st; [done|].
  simpl. etransitivity; [apply IH|]. by apply (call_view idx src).
Qed.

Lemma moves_at_end {A} safe R (m : PF A) s : moves_at safe R m s -> R s (end_state (m s)).
Proof. unfold moves_at. destruct (m s); simpl; tauto. Qed.

(** C4. A message cannot harm the bookkeeping of the queues, nor touch that of other
    functions.  Whatever a virtual function sends, and whatever the hardware
    answers, the resource manager stays in a reachable state (so its invariants
    and the isolation of queues still hold), and every function but the sender
    sees its own queues and counts unchanged.  The one condition is that a request
    for queues has an end that fits 32 bits, as in all messages the driver
    composes. *)
Theorem handler_confined `{HwAccess} al idx func_id m resp st calls :
  rm_reachable al st -> no_wrap m ->
  let st' := pf_rm (end_state (qdma_mbox_pf_rcv_msg_handler idx func_id (Some m) resp st calls)) in
  rm_reachable al st' /\
  forall idx' fid', (idx', fid') <> (idx, fld hdr.src_func_id m) ->
    dev_view idx' fid' st' = dev_view idx' fid' st.
Proof.
  intros Hr Hw. simpl.
  destruct (moves_at_end _ _ _ _ (moves_handler_rm idx _ func_id (mk_pf st calls m resp) eq_refl Hw))
    as (cs & Hcs & ->).
  split; [by eapply calls_run_reachable|]. intros idx' fid' Hne. by eapply calls_run_view.
Qed.

(** The request clears or invalidates a completion context on its own. *)
Definition drops_cmpt_only (m : Z) : Prop :=
  (fld hdr.op m = op_code MBOX_OP_QCTXT_CLR \/ fld hdr.op m = op_code MBOX_OP_QCTXT_INV) /\
  cmpt_type_of (fld qctxt.cmpt_ctxt_type m) = QDMA_MBOX_CMPT_CTXT_ONLY.

(** The rings that a request about interrupt contexts names.  Whose they are is not looked at
    ([any_ring_is_changed] in MboxLimits). *)
Definition rings_named (m r : Z) : Prop :=
  (exists op, fld hdr.op m = op_code op /\ about_rings op = true) /\
  exists i, 0 <= i < fld intr_ctxt.num_rings m /\ r = u16 (named_ring m i).

Section contexts.
Context `{HwAccess} (idx src : Z) (G : Z -> Prop).
Implicit Types (s : pf_state).

Definition in_range_for (st : rm_state) (q : Z) : Prop :=
  is_u32 q /\ qdma_dev_is_queue_in_range idx src q st = QDMA_DEV_Q_IN_RANGE.

#[local] Instance in_range_for_dec st q : Decision (in_range_for st q).
Proof. unfold in_range_for, is_u32. apply _. Defined.

(** The number of a queue, as a message carries it. *)
Lemma qid_hw_u32 m : is_u32 (fld qctxt.qid_hw m).
Proof.
  pose proof (fld_range qctxt.qid_hw m ltac:(by vm_compute)) as Hr. cbn in Hr. unfold is_u32. lia.
Qed.

Definition ctx_confined (st : rm_state) : pf_state -> pf_state -> Prop :=
  calls_by (confined (in_range_for st) G src).

Lemma ctx_respects st :
  respects (ctx_confined st) (confined (in_range_for st) G src) (fun _ => True) src.
Proof. by apply calls_by_respects. Qed.

Lemma ctx_ret {A} st (a : A) s : moves_at False (ctx_confined st) (mret a) s.
Proof. apply moves_at_ret. apply calls_by_preorder. Qed.

(** Contexts are dropped, and written, for queues in range only. *)
Lemma drop_confined acc qid st c2h t s :
  is_u32 qid -> t <> QDMA_MBOX_CMPT_CTXT_ONLY ->
  moves_at False (ctx_confined (pf_rm s)) (drop_queue_contexts acc idx src qid st c2h t) s.
Proof.
  intros Hu Ht. destruct (decide (in_range_for (pf_rm s) qid)) as [Hin|Hout].
  { exact (moves_drop False _ _ _ _ (ctx_respects _) acc idx src qid st c2h t
             (confined_queue _ G src qid acc Hin) s). }
  unfold drop_queue_contexts. rewrite bool_decide_eq_false_2 by done.
  apply moves_at_query. case_if; [apply ctx_ret|].
  apply moves_at_query. rewrite bool_decide_eq_false_2 by (by intros Hr; destruct Hout). apply ctx_ret.
Qed.

Lemma write_confined m s :
  fld (conf descq_conf.func_id) m = src ->
  moves_at False (ctx_confined (pf_rm s)) (mbox_write_queue_contexts idx m) s.
Proof.
  intros Hf. destruct (decide (in_range_for (pf_rm s) (fld qctxt.qid_hw m))) as [Hin|Hout].
  { exact (moves_write False _ _ _ _ (ctx_respects _) idx m
             (confined_queue _ G src _ _ Hin) (confined_queue _ G src _ _ Hin) s). }
  unfold mbox_write_queue_contexts. rewrite Hf. apply moves_at_query. case_if; [apply ctx_ret|].
  apply moves_at_query.
  rewrite bool_decide_eq_false_2 by (intros Hr; destruct Hout; split; [apply qid_hw_u32|done]). apply ctx_ret.
Qed.

Lemma qctxt_confined op s :
  fld hdr.op (rcv_msg s) = op_code op -> fld hdr.src_func_id (rcv_msg s) = src ->
  ~ drops_cmpt_only (rcv_msg s) ->
  qctxt_ok False (ctx_confined (pf_rm s)) idx op s.
Proof.
  intros Ho Hsrc Hn. destruct op; cbn [qctxt_ok]; try match goal with |- True => exact I end.
  - unfold op_qctxt_wrt, with_rv.
    apply moves_at_bind; [apply calls_by_preorder| |intros; apply ctx_ret].
    apply moves_at_rcv, moves_at_bind; [apply calls_by_preorder|by exists []|].
    intros [] s' [= <-]. apply moves_at_bind; [apply calls_by_preorder|by exists []|].
    intros m s'' [= <- <-]. rewrite Hsrc. apply (write_confined _ (put_rcv _ _ s)); simpl. fields.
    rewrite <- Hsrc. apply Z.mod_small, (fld_range hdr.src_func_id). by vm_compute.
  - apply (moves_qctxt_rd _ _ _ _ _ (ctx_respects _)), confined_read.
  - apply moves_at_qctxt; [apply calls_by_preorder|]. cbv zeta. rewrite Hsrc. apply drop_confined.
    + apply qid_hw_u32.
    + intros Ht. destruct Hn. split; [by left|done].
  - apply moves_at_qctxt; [apply calls_by_preorder|]. cbv zeta. rewrite Hsrc. apply drop_confined.
    + apply qid_hw_u32.
    + intros Ht. destruct Hn. split; [by right|done].
Qed.
End contexts.

(** The calls a request leads to. *)
Lemma contexts_confined_calls `{HwAccess} idx func_id m resp st calls :
  ~ drops_cmpt_only m ->
  let src := fld hdr.src_func_id m in
  exists new, Forall (confined (in_range_for idx src st) (rings_named m) src) new /\
    hw_calls (end_state (qdma_mbox_pf_rcv_msg_handler idx func_id (Some m) resp st calls)) = new ++ calls.
Proof.
  intros Hn src. set (s := mk_pf st calls m resp).
  assert (moves_at False (ctx_confined idx src (rings_named m) st) (pf_handler idx func_id) s) as Hmv.
  { apply (moves_pf_handler False _ _ _ _ (ctx_respects idx src (rings_named m) st) idx (fun _ => True));
      [intros; by exists []|done|].
    intros op Ho. split_and!; [| |done].
    { intros Hr. split; [by intros []|]. intros i d a Hi. apply confined_ring. split; [by exists op|by exists i]. }
    by apply qctxt_confined. }
  exact (moves_at_end _ _ _ _ Hmv).
Qed.

(** C12. What a message can change.  Except when it asks to clear or invalidate a completion
    context on its own, every context of a queue that is written, cleared or invalidated belongs to a
    queue in range for the sender, so for no other function; the function map is set for the sender
    only, whom the physical function identifies by what the hardware reports; contexts of
    interrupt rings are changed for the rings a message about rings names, and by no other message;
    no global register is set. *)
Theorem contexts_confined `{HwAccess} al idx func_id m resp st calls :
  rm_reachable al st -> ~ drops_cmpt_only m ->
  let src := fld hdr.src_func_id m in
  exists new,
    hw_calls (end_state (qdma_mbox_pf_rcv_msg_handler idx func_id (Some m) resp st calls)) =
      new ++ calls /\
    forall c, c ∈ new ->
      (forall q, queue_changed c = Some q ->
         qdma_dev_is_queue_in_range idx src q st = QDMA_DEV_Q_IN_RANGE /\
         forall fid, fid <> src ->
           qdma_dev_is_queue_in_range idx fid q st = QDMA_DEV_Q_OUT_OF_RANGE) /\
      (forall f, function_mapped c = Some f -> f = src) /\
      (forall r, ring_changed c = Some r -> rings_named m r) /\
      global_changed c = false.
Proof.
  intros Hr Hn src. destruct (contexts_confined_calls idx func_id m resp st calls Hn) as (new & Hnew & E).
  exists new. split; [exact E|].
  intros c Hc. rewrite Forall_forall in Hnew. destruct (Hnew c Hc) as (Hq & Hf & Hg & Hri).
  split; [|done]. intros q Hcq. destruct (Hq q Hcq) as [Hu Hin]. split; [done|].
  by apply (in_range_exclusive al).
Qed.

(** ** Every request is answered *)

(** The requests that virtual functions make; the other messages are those of the physical
    function, about a reset or its end. *)
Definition is_request (m : Z) (op : mbox_msg_op) : Prop :=
  fld hdr.op m = op_code op /\ (answered op = true \/ op = MBOX_OP_FMAP).

Lemma dispatch_request `{HwAccess} idx op :
  answered op = true \/ op = MBOX_OP_FMAP -> dispatch idx (op_code op) = handle idx op.
Proof. by destruct op as [ | | | | | | | | | | | | | | | | | | | | ]; intros [[=]|[=]]. Qed.

Lemma fld_header f s s' :
  field_ok f -> within f header -> header_kept s s' -> fld f (rcv_msg s') = fld f (rcv_msg s).
Proof. intros Hf Hw Hk. by eapply fld_eq_within; [| |exact Hw|exact Hk]. Qed.

(** A function map that cannot be set is not answered. *)
Lemma fmap_answers `{HwAccess} s v s' :
  op_fmap s = Ret v s' -> (exists rv ret, v = Respond rv ret) \/ exists rv, v = ReturnNow rv /\ rv < 0 /\ resp_msg s' = resp_msg s.
Proof.
  unfold op_fmap, rcv, hw, gets, mbind, M_bind, mret, M_ret. intros [= <- <-].
  destruct (Z.ltb_spec (hw_code (hw_calls s) (qdma_fmap_conf (fld hdr.src_func_id (rcv_msg s))
    (u16 (fld fmap.qbase (rcv_msg s))) (u16 (fld fmap.qmax (rcv_msg s))) QDMA_HW_ACCESS_WRITE)) 0); [right|left]; eauto.
Qed.

Lemma request_answers `{HwAccess} idx op s v s' :
  answered op = true \/ op = MBOX_OP_FMAP -> handle idx op s = Ret v s' ->
  (exists rv ret, v = Respond rv ret) \/
  op = MBOX_OP_FMAP /\ exists rv, v = ReturnNow rv /\ rv < 0 /\ resp_msg s' = resp_msg s.
Proof.
  intros [Ha | ->] E; [left; exact (handle_answers idx op Ha _ _ _ E)|].
  destruct (fmap_answers s v s' E) as [?|?]; [by left|by right].
Qed.

(** C27. Requests of virtual functions and their answers.  Whatever the hardware
    does, the handler comes to an end and leaves a response that carries the
    request's operation plus 0x80 (what the sender checks for), is addressed to the
    sender and names the function that answers; but for a request for a function map that the
    hardware refuses: the handler returns the code, and nothing is put into the response.  A
    request about interrupt rings must name at most four (see [ring_count_unchecked]). *)
Theorem handler_responds `{HwAccess} idx func_id m op resp st calls :
  is_request m op -> is_u16 func_id ->
  (about_rings op = true -> fld intr_ctxt.num_rings m <= 4) ->
  exists ret s',
    qdma_mbox_pf_rcv_msg_handler idx func_id (Some m) resp st calls = Ret ret s' /\
    (qdma_mbox_is_msg_response m (resp_msg s') = true /\
     fld hdr.dst_func_id (resp_msg s') = fld hdr.src_func_id m /\
     fld hdr.src_func_id (resp_msg s') = func_id \/
     op = MBOX_OP_FMAP /\ ret < 0 /\ resp_msg s' = resp).
Proof.
  intros [Ho Ha] Hid Hn. simpl. set (s := mk_pf st calls m resp).
  assert (moves_at True header_kept (dispatch idx (fld hdr.op (rcv_msg s))) s) as Hm.
  { apply (moves_dispatch_header idx _ s eq_refl). intros op' Ho' Hr _. simpl in Ho'.
    rewrite Ho in Ho'. apply op_code_inj in Ho' as <-. by apply Hn. }
  unfold pf_handler, rcv at 1. unfold mbind, M_bind, gets. simpl in Hm |- *.
  rewrite Ho, dispatch_request in * by done. unfold moves_at in Hm.
  destruct (handle idx op s) as [v s1|s1|s1|s1] eqn:E; [|by destruct Hm..].
  destruct (request_answers idx op _ _ _ Ha E) as [(rv & ret & ->) | (Hop & rv & -> & Hrv & Hs1)];
    [|exists rv, s1; split; [done|by right]].
  unfold exit_func, rcv, set_resp, gets, modify, mbind, M_bind. simpl.
  rewrite (fld_header hdr.op s s1), (fld_header hdr.src_func_id s s1)
    by (try exact Hm; by vm_compute).
  eexists ret, _. split; [done|]. left. unfold qdma_mbox_is_msg_response. simpl. fields. simpl.
  rewrite Ho. pose proof (op_code_range op) as Hr.
  split_and!.
  - apply Z.eqb_eq. symmetry. apply Z.mod_small. unfold MBOX_MSG_OP_RSP_OFFSET. simpl. lia.
  - apply Z.mod_small, (fld_range hdr.src_func_id). by vm_compute.
  - by apply Z.mod_small.
Qed.

(** ** The mailbox carries messages *)

Section words.
Implicit Types (m : Z) (l : list nat).

Lemma raw_word_ok i : field_ok (raw_word i).
Proof. unfold field_ok; simpl. lia. Qed.

Lemma raw_word_apart i j : i <> j -> apart (raw_word i) (raw_word j).
Proof. unfold apart; simpl. lia. Qed.

Lemma raw_word_u32 i m : u32 (fld (raw_word i) m) = fld (raw_word i) m.
Proof. apply u32_small, (fld_range (raw_word i)), raw_word_ok. Qed.

(** The words make up the message. *)
Lemma raw_words_eq m m' :
  (forall i, (i < MBOX_MSG_REG_MAX)%nat -> fld (raw_word i) m = fld (raw_word i) m') ->
  fld raw_words m = fld raw_words m'.
Proof.
  intros Hw. apply Z.bits_inj'. intros n Hn. rewrite !fld_testbit by (done || by vm_compute).
  destruct (Z.ltb_spec n (f_width raw_words)) as [Hlt|]; [|by rewrite !andb_false_r].
  change (f_width raw_words) with 1024 in Hlt. change (f_bit raw_words) with 0.
  rewrite Z.add_0_r, !andb_true_r. set (i := Z.to_nat (n / 32)).
  assert (Z.of_nat i = n / 32) as Ei by (apply Z2Nat.id; by apply Z.div_pos).
  pose proof (Z_div_mod_eq_full n 32) as Hd. pose proof (Z.mod_pos_bound n 32 ltac:(lia)) as Hm.
  assert (i < MBOX_MSG_REG_MAX)%nat as Hi.
  { unfold MBOX_MSG_REG_MAX. apply Nat2Z.inj_lt. rewrite Ei. apply Z.div_lt_upper_bound; lia. }
  specialize (Hw i Hi).
  apply (f_equal (fun w => Z.testbit w (n mod 32))) in Hw.
  rewrite !fld_testbit in Hw by (lia || apply raw_word_ok).
  unfold raw_word, bytes_at in Hw. cbn [f_bit f_width] in Hw.
  replace (n mod 32 + 8 * (4 * Z.of_nat i)) with n in Hw by lia.
  by rewrite (proj2 (Z.ltb_lt (n mod 32) (8 * 4))), !andb_true_r in Hw by lia.
Qed.

(** A member of the message is known when the words are. *)
Lemma fld_raw f m m' :
  field_ok f -> within f raw_words -> fld raw_words m = fld raw_words m' -> fld f m = fld f m'.
Proof. intros Hf Hw E. by eapply fld_eq_within; [| |exact Hw|exact E]. Qed.

Definition copy_words m l (raw : Z) : Z :=
  foldl (fun r i => put (raw_word i) (fld (raw_word i) m) r) raw l.

Lemma copy_words_other m l raw i :
  i ∉ l -> fld (raw_word i) (copy_words m l raw) = fld (raw_word i) raw.
Proof.
  revert raw. induction l as [|j l IH]; intros raw Hi; [done|]. simpl.
  rewrite not_elem_of_cons in Hi. destruct Hi as [Hij Hi]. etransitivity; [by apply IH|].
  apply fld_put_apart; [apply raw_word_ok..|by apply raw_word_apart].
Qed.

Lemma copy_words_in m l raw i :
  NoDup l -> i ∈ l -> fld (raw_word i) (copy_words m l raw) = fld (raw_word i) m.
Proof.
  revert raw. induction l as [|j l IH]; intros raw Hl Hi; [by apply not_elem_of_nil in Hi|].
  apply NoDup_cons in Hl as [Hj Hl]. simpl. apply elem_of_cons in Hi as [->|Hi]; [|by apply IH].
  etransitivity; [by apply copy_words_other|]. rewrite fld_put_same by apply raw_word_ok.
  apply Z.mod_small, fld_range, raw_word_ok.
Qed.

Lemma copy_words_all m raw :
  fld raw_words (copy_words m (seq 0 MBOX_MSG_REG_MAX) raw) = fld raw_words m.
Proof.
  apply raw_words_eq. intros i Hi. apply copy_words_in; [apply NoDup_seq|].
  apply elem_of_seq. lia.
Qed.
End words.

Section registers.
Context {S : Type} `{HasTrace S} `{MmioDevice} `{MboxBase}.

Lemma for_each_writes {A} (l : list A) (reg val : A -> Z) (s : S) :
  for_each l (fun x => write32_data (reg x) (val x)) s =
  write_all (map (fun x => (reg x, val x)) l) s.
Proof.
  unfold write_all. revert s. induction l as [|x l IH]; intros s; [done|]. simpl.
  unfold mbind, M_bind. destruct (write32_data _ _ s); [apply IH|done..].
Qed.

(** What a message that is sent writes, the busy bit being clear. *)
Definition sent_writes (is_vf : bool) (m : Z) : list (Z * Z) :=
  let dst := fld hdr.dst_func_id m in
  (if is_vf then [] else [(mbox_reg is_vf MBOX_FN_TARGET, V_MBOX_FN_TARGET_ID dst)]) ++
  ((fun i => (out_msg_reg is_vf i, fld (raw_word i) m)) <$> seq 0 MBOX_MSG_REG_MAX) ++
  (if is_vf then []
   else [(mbox_reg false (MBOX_PF_ACK_BASE + dst / 32 * 4), Z.shiftl 1 (dst mod 32))]) ++
  [(mbox_reg is_vf MBOX_FN_CMD, F_MBOX_FN_CMD_SND)].

Lemma write_one a v (s : S) : write32_data a v s = write_all [(a, v)] s.
Proof. done. Qed.

Lemma write_all_app l1 l2 (s : S) : (write_all l1;; write_all l2) s = write_all (l1 ++ l2) s.
Proof. unfold write_all. by rewrite for_each_app. Qed.

Lemma send_run is_vf m (s : S) :
  let v := u32 (mmio_value (trace_of s) (mbox_reg is_vf MBOX_FN_STATUS)) in
  let s1 := log (Rd (mbox_reg is_vf MBOX_FN_STATUS) v) s in
  qdma_mbox_send is_vf m s =
  if negb (Z.land v F_MBOX_FN_STATUS_OUT_MSG =? 0) then Ret (neg QDMA_ERR_MBOX_SEND_BUSY) s1
  else Ret 0 (with_trace (written_trace (sent_writes is_vf m) (trace_of s1)) s1).
Proof.
  intros v s1. unfold qdma_mbox_send. unfold mbind at 1, M_bind, read32_data at 1. fold v s1.
  case_match; [done|]. pose proof (write_all_run (sent_writes is_vf m) s1) as Hrun.
  unfold sent_writes in *. set (words := _ <$> _) in *. unfold mbox_pf_hw_clear_func_ack.
  assert (forall s : S, for_each (seq 0 MBOX_MSG_REG_MAX)
            (fun i => write32_data (out_msg_reg is_vf i) (fld (raw_word i) m)) s = write_all words s)
    as Hw by (intros; apply for_each_writes).
  revert Hrun. destruct is_vf; cbn [app].
  - rewrite <- write_all_app. unfold mbind, M_bind, mret, M_ret. cbv beta iota. rewrite Hw.
    destruct (write_all words s1) as [u s2|s2|s2|s2]; [|done..]. rewrite write_one. by intros ->.
  - change (?a :: words ++ ?l) with ([a] ++ words ++ l).
    rewrite <- write_all_app. unfold mbind, M_bind. rewrite write_one.
    destruct (write_all [_] s1) as [u s2|s2|s2|s2]; [|done..]. rewrite Hw, <- write_all_app.
    unfold mbind, M_bind. destruct (write_all words s2) as [u3 s3|s3|s3|s3]; [|done..].
    change ([?a; ?b]) with ([a] ++ [b]). rewrite <- write_all_app. unfold mbind, M_bind.
    rewrite write_one. destruct (write_all [_] s3) as [u4 s4|s4|s4|s4]; [|done..].
    rewrite write_one. by intros ->.
Qed.

(** What is received, the incoming registers holding the message [m]. *)
Definition holds_message (is_vf : bool) (m : Z) : Prop :=
  forall tr i, (i < MBOX_MSG_REG_MAX)%nat ->
    u32 (mmio_value tr (in_msg_reg is_vf i)) = fld (raw_word i) m.

Lemma rcv_words_run is_vf m l raw z (s : S) :
  holds_message is_vf m -> (forall i, i ∈ l -> (i < MBOX_MSG_REG_MAX)%nat) ->
  exists s', rcv_words is_vf l raw z s =
    Ret (copy_words m l raw, z && forallb (fun i => fld (raw_word i) m =? 0) l) s' /\
    writes (trace_of s') = writes (trace_of s).
Proof.
  intros Hm. revert raw z s. induction l as [|i l IH]; intros raw z s Hl; simpl.
  { exists s. by rewrite andb_true_r. }
  unfold mbind, M_bind, read32_data. rewrite Hm by (apply Hl; set_solver).
  edestruct IH as (s' & -> & Hw); [set_solver|]. exists s'. split; [by rewrite andb_assoc|].
  rewrite Hw. unfold log. by rewrite trace_of_with.
Qed.

Lemma all_zero m :
  forallb (fun i => fld (raw_word i) m =? 0) (seq 0 MBOX_MSG_REG_MAX) = true ->
  fld raw_words m = 0.
Proof.
  intros Hz. rewrite forallb_forall in Hz. rewrite <- (fld_zero raw_words). apply raw_words_eq.
  intros i Hi. rewrite fld_zero. apply Z.eqb_eq, Hz, in_seq. lia.
Qed.

(** The registers used for receiving. *)
Definition rcv_writes (is_vf : bool) (from_id : Z) : list (Z * Z) :=
  (if is_vf then [] else [(mbox_reg is_vf MBOX_FN_TARGET, from_id)]) ++
  [(mbox_reg is_vf MBOX_FN_CMD, F_MBOX_FN_CMD_RCV)].

Definition named_by_hardware (is_vf : bool) (from_id m : Z) : Z :=
  if is_vf then m else put hdr.src_func_id from_id m.

Lemma src_range v : is_u32 (G_MBOX_FN_STATUS_SRC v).
Proof.
  unfold G_MBOX_FN_STATUS_SRC, M_MBOX_FN_STATUS_SRC. change 4095 with (Z.ones 12).
  rewrite land_low by lia. pose proof (Z.mod_pos_bound (Z.shiftr v S_MBOX_FN_STATUS_SRC) (2 ^ 12)).
  unfold is_u32. lia.
Qed.

Lemma rename_sender is_vf from_id m m' :
  fld raw_words m' = fld raw_words m ->
  fld raw_words (if negb is_vf && negb (from_id =? fld hdr.src_func_id m')
                 then put hdr.src_func_id from_id m' else m') =
  fld raw_words (named_by_hardware is_vf from_id m).
Proof.
  intros E. unfold named_by_hardware. destruct is_vf; simpl; [exact E|].
  assert (forall x, fld raw_words (put hdr.src_func_id x m') = fld raw_words (put hdr.src_func_id x m))
    as Hc by (intros; apply fld_put_congr; [by vm_compute..|exact E]).
  destruct (Z.eqb_spec from_id (fld hdr.src_func_id m')) as [->|]; simpl; [|apply Hc].
  rewrite <- Hc, put_fld; [done|by vm_compute].
Qed.

Lemma rcv_run is_vf m raw (s : S) :
  let v := u32 (mmio_value (trace_of s) (mbox_reg is_vf MBOX_FN_STATUS)) in
  let from_id := if is_vf then 0 else G_MBOX_FN_STATUS_SRC v in
  Z.land v M_MBOX_FN_STATUS_IN_MSG <> 0 -> holds_message is_vf m -> fld raw_words m <> 0 ->
  exists m' s', qdma_mbox_rcv is_vf raw s = Ret (0, m') s' /\
    fld raw_words m' = fld raw_words (named_by_hardware is_vf from_id m) /\
    writes (trace_of s') = writes (trace_of s) ++ rcv_writes is_vf from_id.
Proof.
  intros v from_id Hin Hm Hnz. unfold qdma_mbox_rcv.
  unfold mbind at 1, M_bind at 1, read32_data at 1. fold v.
  rewrite (proj2 (Z.eqb_neq _ _)) by done. fold from_id.
  set (s1 := log (Rd _ v) s).
  assert (exists s2, (if is_vf then mret tt else write32_data (mbox_reg is_vf MBOX_FN_TARGET) from_id) s1
            = Ret tt s2 /\
          writes (trace_of s2) = writes (trace_of s) ++
            (if is_vf then [] else [(mbox_reg is_vf MBOX_FN_TARGET, from_id)])) as (s2 & E2 & Hw2).
  { destruct is_vf; eexists; (split; [done|]); unfold s1, log; rewrite ?trace_of_with; simpl;
      rewrite ?trace_of_with, ?app_nil_r; simpl; [done|].
    unfold from_id. by rewrite u32_small by apply src_range. }
  destruct (rcv_words_run is_vf m (seq 0 MBOX_MSG_REG_MAX) raw true s2 Hm) as (s3 & E3 & Hw3).
  { intros i Hi%elem_of_seq. lia. }
  assert (forallb (fun i => fld (raw_word i) m =? 0) (seq 0 MBOX_MSG_REG_MAX) = false) as Ez.
  { apply not_true_is_false. intros Ez. exact (Hnz (all_zero m Ez)). }
  rewrite Ez, andb_false_r in E3. eexists _, _.
  erewrite bind_Ret by exact E2. erewrite bind_Ret by exact E3. cbv beta iota.
  erewrite bind_Ret by done. split; [done|]. split.
  - apply rename_sender, copy_words_all.
  - unfold log. rewrite trace_of_with. simpl. rewrite Hw3, Hw2. unfold rcv_writes.
    by rewrite <- app_assoc.
Qed.
End registers.

Section transport.
Context `{MboxBase}.

Lemma mbox_reg_inj is_vf a b :
  0 <= a < 65536 -> 0 <= b < 65536 -> mbox_reg is_vf a = mbox_reg is_vf b -> a = b.
Proof.
  unfold mbox_reg, u32. generalize (get_mbox_offset is_vf). intros o Ha Hb E.
  Z.div_mod_to_equations. lia.
Qed.

Definition out_offsets : list Z :=
  (fun i => MBOX_OUT_MSG_BASE + Z.of_nat i * MBOX_MSG_STEP) <$> seq 0 MBOX_MSG_REG_MAX.

(** The offsets written when sending, [ack] being that of the acknowledgement. *)
Definition sent_offsets (is_vf : bool) (ack : Z) : list Z :=
  if is_vf then out_offsets ++ [MBOX_FN_CMD]
  else MBOX_FN_TARGET :: ack :: MBOX_FN_CMD :: out_offsets.

Lemma sent_offsets_ok is_vf ack :
  32 <= ack <= 540 ->
  NoDup (sent_offsets is_vf ack) /\ forall o, o ∈ sent_offsets is_vf ack -> 0 <= o < 65536.
Proof.
  intros Hack.
  assert (forall o, o ∈ out_offsets -> 3072 <= o < 3200) as Hr.
  { apply Forall_forall. apply (bool_decide_unpack _). by vm_compute. }
  assert (NoDup out_offsets) as Hn by (apply (bool_decide_unpack _); by vm_compute).
  destruct is_vf; cbn [sent_offsets].
  - split; [apply (bool_decide_unpack _); by vm_compute|].
    intros o [Hi%Hr | ->%list_elem_of_singleton]%elem_of_app; unfold MBOX_FN_CMD; lia.
  - unfold MBOX_FN_TARGET, MBOX_FN_CMD. split.
    + rewrite !NoDup_cons, !not_elem_of_cons. split_and!; try lia; try done; intros Hi%Hr; lia.
    + intros o. rewrite !elem_of_cons. intros [Hi|[Hi|[Hi|Hi%Hr]]]; lia.
Qed.

Lemma sent_regs_distinct is_vf m :
  (is_vf = false -> fld hdr.dst_func_id m < 4096) -> NoDup (sent_writes is_vf m).*1.
Proof.
  intros Hd. set (dst := fld hdr.dst_func_id m) in *.
  assert (0 <= dst) by (apply fld_range; by vm_compute).
  set (ack := if is_vf then 32 else MBOX_PF_ACK_BASE + dst / 32 * 4).
  destruct (sent_offsets_ok is_vf ack) as [Hn Ho].
  { unfold ack, MBOX_PF_ACK_BASE. destruct is_vf; [lia|]. specialize (Hd eq_refl).
    Z.div_mod_to_equations. lia. }
  assert ((sent_writes is_vf m).*1 ≡ₚ mbox_reg is_vf <$> sent_offsets is_vf ack) as ->.
  { unfold sent_writes, sent_offsets, out_offsets. fold dst.
    generalize (seq 0 MBOX_MSG_REG_MAX). intros l. destruct is_vf.
    - by rewrite !fmap_app, <- !list_fmap_compose.
    - rewrite !fmap_app, !fmap_cons, <- !list_fmap_compose. cbn [fmap list_fmap app fst].
      change (list_fmap nat Z) with (@fmap list _ nat Z). set (out := _ <$> l).
      set (c := mbox_reg false MBOX_FN_CMD). set (a := mbox_reg false (_ + _)).
      change (mbox_reg false ack) with a.
      apply Permutation_cons; [done|]. rewrite (Permutation_app_comm out). by simpl. }
  apply NoDup_fmap_2_strong; [|done]. intros a b Ha Hb. apply mbox_reg_inj; by apply Ho.
Qed.

(** C28. The mailbox carries messages.  When the outgoing mailbox is free, sending
    succeeds, the last register written being the send command; and when the
    incoming registers of the other side show what was written to the outgoing ones
    and its status register announces a message, receiving succeeds, acknowledges
    the message, and yields its 32 words (all zeros are taken for a fault).  On the
    physical function the sender is the one the hardware names, whatever the message
    said: a virtual function cannot send in the name of another. *)
Theorem message_transport {Ss Sr} `{HasTrace Ss} `{HasTrace Sr} (Ds Dr : MmioDevice)
    from_vf to_vf m raw (s : Ss) (r : Sr) :
  let status_s := u32 (mmio_value (MmioDevice:=Ds) (trace_of s) (mbox_reg from_vf MBOX_FN_STATUS)) in
  let status_r := u32 (mmio_value (MmioDevice:=Dr) (trace_of r) (mbox_reg to_vf MBOX_FN_STATUS)) in
  let from_id := if to_vf then 0 else G_MBOX_FN_STATUS_SRC status_r in
  Z.land status_s F_MBOX_FN_STATUS_OUT_MSG = 0 ->
  Z.land status_r M_MBOX_FN_STATUS_IN_MSG <> 0 ->
  fld raw_words m <> 0 ->
  (from_vf = false -> fld hdr.dst_func_id m < 4096) ->
  exists s', qdma_mbox_send (H0:=Ds) from_vf m s = Ret 0 s' /\
    last (writes (trace_of s')) = Some (mbox_reg from_vf MBOX_FN_CMD, F_MBOX_FN_CMD_SND) /\
    ((forall tr i, (i < MBOX_MSG_REG_MAX)%nat ->
        last_write (trace_of s') (out_msg_reg from_vf i) =
        Some (u32 (mmio_value (MmioDevice:=Dr) tr (in_msg_reg to_vf i)))) ->
     exists m' r', qdma_mbox_rcv (H0:=Dr) to_vf raw r = Ret (0, m') r' /\
       fld raw_words m' = fld raw_words (named_by_hardware to_vf from_id m) /\
       last (writes (trace_of r')) = Some (mbox_reg to_vf MBOX_FN_CMD, F_MBOX_FN_CMD_RCV)).
Proof.
  intros status_s status_r from_id Hs Hr Hnz Hd.
  rewrite (send_run (H0:=Ds)). fold status_s. rewrite Hs. simpl. eexists. split; [done|].
  rewrite !trace_of_with, written_trace_writes. split.
  { unfold sent_writes. rewrite !map_app, !app_assoc. simpl. by rewrite last_snoc. }
  intros Hwire. destruct (rcv_run (H0:=Dr) to_vf m raw r) as (m' & r' & E & Hm & Hw); [done| |done|].
  - intros tr i Hi. specialize (Hwire tr i Hi).
    rewrite (written_last _ _ _ (fld (raw_word i) m)), raw_word_u32 in Hwire.
    + by injection Hwire.
    + by apply sent_regs_distinct.
    + unfold sent_writes. rewrite !elem_of_app. right. left. apply list_elem_of_fmap.
      exists i. split; [done|]. apply elem_of_seq. lia.
  - exists m', r'. split; [exact E|]. split; [exact Hm|]. rewrite Hw. unfold rcv_writes.
    by rewrite !app_assoc, last_snoc.
Qed.
End transport.

(** ** Concrete runs *)

(** Hardware on which every call succeeds and which holds sixteen consecutive
    values in each array of global registers. *)
Definition sample_csr (t : qdma_global_csr_type) : Z :=
  foldl (fun a i => put (raw_word i) (65 + Z.of_nat i) a) 0 (seq 0 QDMA_GLOBAL_CSR_ARRAY_SZ).

Definition sample_hw : HwAccess := {|
  hw_code _ _ := 0;
  hw_output _ c old :=
    match c with qdma_global_csr_conf _ _ t _ => sample_csr t | _ => old end |}.

(** The message [f] composes, as received from function [src]. *)
Definition sent_by (src : Z) (f : option Z -> Z * option Z) : Z :=
  put hdr.src_func_id src (default 0 (f (Some 0)).2).

Definition sample_qreq : Z := sent_by 6 (qdma_mbox_compose_vf_qreq 6 8 200).
Definition sample_clear (t : mbox_cmpt_ctxt_type) (qid : Z) : Z :=
  sent_by 6 (qdma_mbox_compose_vf_qctxt_clear 6 qid 0 0 t).

Lemma handler_confined_witness :
  let st' := pf_rm (end_state (@qdma_mbox_pf_rcv_msg_handler sample_hw 0 1 (Some sample_qreq) 0
                                 sample_state [])) in
  rm_reachable [] st' /\ dev_view 0 4 st' = dev_view 0 4 sample_state /\
  qdma_dev_qinfo_get 0 6 st' = (0, Some (200, 8)).
Proof.
  destruct (@handler_confined sample_hw [] 0 1 sample_qreq 0 sample_state [] sample_reachable
              ltac:(intros _; by vm_compute)) as [Hr Hv].
  split; [exact Hr|]. split; [by apply Hv|by vm_compute].
Defined.

Lemma contexts_confined_witness :
  exists new,
    hw_calls (end_state (@qdma_mbox_pf_rcv_msg_handler sample_hw 0 1
      (Some (sample_clear QDMA_MBOX_CMPT_CTXT_NONE 110)) 0 sample_state [])) = new ++ [] /\
    length new = 3%nat.
Proof.
  destruct (@contexts_confined sample_hw [] 0 1 (sample_clear QDMA_MBOX_CMPT_CTXT_NONE 110) 0
              sample_state [] sample_reachable ltac:(intros [_ H]; by vm_compute in H))
    as (new & E & _).
  exists new. split; [exact E|]. rewrite app_nil_r in E. rewrite <- E. by vm_compute.
Defined.

Lemma handler_responds_witness :
  exists ret s',
    @qdma_mbox_pf_rcv_msg_handler sample_hw 0 1 (Some sample_qreq) 0 sample_state [] = Ret ret s' /\
    qdma_mbox_is_msg_response sample_qreq (resp_msg s') = true.
Proof.
  destruct (@handler_responds sample_hw 0 1 sample_qreq MBOX_OP_QREQ 0 sample_state [])
    as (ret & s' & H & [(Hr & _) | ([=] & _)]); [by split; [vm_compute|left; vm_compute]|by vm_compute|done|].
  exists ret, s'. split; assumption.
Defined.

(** The two ends of a wire: the sender's registers are free, the receiver's show
    the message [m] from function 6. *)
Definition free_end : MmioDevice := fun _ _ => 0.
Definition announcing_end (m : Z) : MmioDevice := fun _ a =>
  if a =? @mbox_reg eqdma_mbox false MBOX_FN_STATUS then 1 + 16 * 6
  else fld (raw_word (Z.to_nat ((a - @mbox_reg eqdma_mbox false MBOX_IN_MSG_BASE) / 4))) m.

Definition wire_msg : Z := default 0 (qdma_mbox_compose_vf_qreq 9 8 200 (Some 0)).2.

Lemma wire_shows tr i : (i < MBOX_MSG_REG_MAX)%nat ->
  last_write (trace_of (end_state (@qdma_mbox_send trace _ free_end eqdma_mbox true wire_msg [])))
    (@out_msg_reg eqdma_mbox true i) =
  Some (u32 (@mmio_value (announcing_end wire_msg) tr (@in_msg_reg eqdma_mbox false i))).
Proof.
  intros Hi. change (mmio_value tr ?a) with (announcing_end wire_msg [] a).
  assert (Forall (fun i =>
      last_write (trace_of (end_state (@qdma_mbox_send trace _ free_end eqdma_mbox true wire_msg [])))
      (@out_msg_reg eqdma_mbox true i) =
      Some (u32 (announcing_end wire_msg [] (@in_msg_reg eqdma_mbox false i))))
      (seq 0 MBOX_MSG_REG_MAX)) as Hall
    by (apply (bool_decide_unpack _); vm_compute; exact I).
  rewrite Forall_forall in Hall. apply Hall, elem_of_seq. lia.
Qed.

Lemma message_transport_witness :
  exists m' r',
    @qdma_mbox_rcv trace _ (announcing_end wire_msg) eqdma_mbox false 0 [] = Ret (0, m') r'.
Proof.
  destruct (@message_transport eqdma_mbox trace trace _ _ free_end (announcing_end wire_msg)
    true false wire_msg 0 [] [] ltac:(by vm_compute) ltac:(by vm_compute) ltac:(by vm_compute)
    ltac:(intros [=])) as (s' & E & _ & Hrcv).
  destruct Hrcv as (m' & r' & Er & _).
  - apply (f_equal end_state) in E. cbn [end_state] in E. rewrite <- E. exact wire_shows.
  - exists m', r'. exact Er.
Defined.
