(* ===== verification/MboxFlows.v ===== *)
(** * MboxFlows: requests from one end of the mailbox to the other

    A virtual function composes a request, the registers carry its words, the
    physical function handles it, and the virtual function reads the response:
    asking for queues, and setting the contexts of a queue up. *)

From S2P Require Import Prelude QdmaErrors ResourceMgmt ResourceInv ResourceSys ResourceProps.
From S2P Require Import ResourceView Mmio CLayout Contexts MboxMsg MboxHw MboxPf MboxInv MboxProps.
Local Open Scope Z_scope.

(** ** Asking for queues *)

Section qreq.
Context `{HwAccess} (idx src func_id : Z).

Lemma i8_small z : -128 <= z < 128 -> i8 (u8 z) = z.
Proof.
  intros Hz. unfold i8, u8. rewrite Zmod_mod.
  destruct (Z.ltb_spec (z mod 256) 128); Z.div_mod_to_equations; lia.
Qed.

(** The response to [m] with status [rv], the body being that of [resp]. *)
Definition response_to (op : mbox_msg_op) (rv resp : Z) : Z :=
  put hdr.status rv (put hdr.src_func_id func_id
    (put hdr.dst_func_id src (put hdr.op (resp_code op) resp))).

Context (m resp : Z) (st : rm_state) (calls : list hw_call) (rv b : Z) (st' : rm_state).
Context (Ho : fld hdr.op m = op_code MBOX_OP_QREQ) (Hs : fld hdr.src_func_id m = src).
Context (E : qdma_dev_update idx src (fld fmap.qmax m) (i32 (fld fmap.qbase m)) st = (rv, b, st')).

Lemma put_rcv_header f v (s : pf_state) g :
  field_ok f -> field_ok g -> apart g f -> fld g (rcv_msg (put_rcv f v s)) = fld g (rcv_msg s).
Proof. intros Hf Hg Ha. by apply fld_put_apart. Qed.

Ltac run_qreq :=
  unfold qdma_mbox_pf_rcv_msg_handler, pf_handler, rcv at 1, gets, mbind at 1, M_bind at 1;
  cbn [rcv_msg]; rewrite Ho; change (dispatch idx _) with (op_qreq idx);
  unfold exit_func, op_qreq, hw, rcv, set_rcv, set_resp, rm_query, gets, modify, mbind, M_bind;
  simpl; rewrite Hs, E; simpl.

(** What the handler does with a request for queues that is granted, ... *)
Lemma qreq_granted n :
  rv = 0 -> qdma_dev_qinfo_get idx src st' = (0, Some (b, n)) ->
  exists s', qdma_mbox_pf_rcv_msg_handler idx func_id (Some m) resp st calls = Ret 0 s' /\
    pf_rm s' = st' /\
    resp_msg s' = response_to MBOX_OP_QREQ 0 (put fmap.qmax n (put fmap.qbase b resp)).
Proof.
  intros -> Hq. run_qreq. rewrite Hq. simpl. eexists. split; [done|]. split; [done|].
  simpl. fields. by rewrite Ho, Hs.
Qed.

(** ... and one that is not. *)
Lemma qreq_refused :
  rv < 0 ->
  exists s', qdma_mbox_pf_rcv_msg_handler idx func_id (Some m) resp st calls = Ret 0 s' /\
    pf_rm s' = st' /\
    resp_msg s' = response_to MBOX_OP_QREQ (neg QDMA_ERR_MBOX_NUM_QUEUES) resp.
Proof.
  intros Hlt. run_qreq. rewrite (proj2 (Z.eqb_neq rv 0)) by lia. simpl.
  rewrite (proj2 (Z.ltb_lt rv 0)) by lia. simpl.
  eexists. split; [done|]. split; [done|]. simpl. fields. by rewrite Ho, Hs.
Qed.
End qreq.

(** The request as the physical function receives it. *)
Lemma qreq_received func qmax qbase src m0 m m' :
  qdma_mbox_compose_vf_qreq func qmax qbase (Some m0) = (0, Some m) ->
  fld raw_words m' = fld raw_words (put hdr.src_func_id src m) ->
  is_u16 qmax -> is_i32 qbase -> is_u16 src ->
  fld hdr.op m = op_code MBOX_OP_QREQ /\ fld hdr.op m' = op_code MBOX_OP_QREQ /\
  fld hdr.src_func_id m' = src /\ fld fmap.qmax m' = qmax /\ i32 (fld fmap.qbase m') = qbase.
Proof.
  intros [= <-] Hm Hq Hb Hs.
  repeat match goal with |- context [fld ?f m'] => rewrite (fld_raw f _ _ ltac:(by vm_compute) ltac:(by vm_compute) Hm) end.
  unfold request, is_u16 in *. fields. split_and!; try done.
  - by apply Z.mod_small.
  - apply Z.mod_small. simpl. lia.
  - change (qbase mod 2 ^ f_width fmap.qbase) with (u32 qbase). rewrite i32_u32. by apply i32_small.
Qed.

(** C8. A request for queues, from one end of the mailbox to the other.  When a
    virtual function asks for [qmax] queues at [qbase], the physical function asks the
    resource manager for just that in the name of the sender, and what the virtual
    function reads in the response is the outcome: the range it now holds when the
    request is granted, and [QDMA_ERR_MBOX_NUM_QUEUES] when it is refused. *)
Theorem qreq_end_to_end `{HwAccess} al st idx func src func_id i j mst d qmax qbase m0 m m' resp calls :
  rm_reachable al st -> allocs_ok al -> dev_at idx src st i j mst d ->
  is_u16 qmax -> is_i32 qbase -> is_u16 src ->
  qdma_mbox_compose_vf_qreq func qmax qbase (Some m0) = (0, Some m) ->
  fld raw_words m' = fld raw_words (put hdr.src_func_id src m) ->
  exists rv b st' s',
    qdma_dev_update idx src qmax qbase st = (rv, b, st') /\
    qdma_mbox_pf_rcv_msg_handler idx func_id (Some m') resp st calls = Ret 0 s' /\
    pf_rm s' = st' /\
    forall r, fld raw_words r = fld raw_words (resp_msg s') ->
      qdma_mbox_is_msg_response m r = true /\
      (rv = 0 -> qdma_mbox_vf_qinfo_get r = (0, (b, qmax)) /\
                 qdma_dev_qinfo_get idx src st' = (0, Some (b, qmax))) /\
      (rv <> 0 -> qdma_mbox_vf_response_status r = neg QDMA_ERR_MBOX_NUM_QUEUES).
Proof.
  intros Hr Hal Hat Hq Hb Hs Hc Hm.
  destruct (qreq_received _ _ _ _ _ _ _ Hc Hm Hq Hb Hs) as (Hom & Ho & Hsrc & Hqm & Hqb).
  destruct (qdma_dev_update idx src qmax qbase st) as [[rv b] st'] eqn:E.
  exists rv, b, st'. rewrite <- Hqm, <- Hqb in E.
  assert (rv = 0 /\ qdma_dev_qinfo_get idx src st' = (0, Some (b, qmax)) /\ is_i32 b \/ rv < 0)
    as Hout.
  { rewrite Hqm, Hqb in E. unfold is_u16, is_i32 in *.
    destruct (decide (idle d)) as [Hi|Hi].
    - destruct (dev_update_idle al st idx src i j mst d qmax qbase rv b st' Hr Hal Hat ltac:(lia) ltac:(lia) E Hi)
        as (? & [[? ?]|[-> ?]]); [left; split_and!; try done; lia|by right].
    - destruct (dev_update_busy _ _ _ _ _ _ _ _ _ _ _ _ Hat E Hi) as [-> _]. by right. }
  unfold qdma_mbox_is_msg_response, qdma_mbox_vf_qinfo_get, qdma_mbox_vf_response_status.
  destruct Hout as [(-> & Hqi & Hi32)|Hlt].
  - destruct (qreq_granted idx src func_id m' resp st calls _ _ _ Ho Hsrc E qmax eq_refl Hqi)
      as (s' & Hrun & Hrm & Hresp).
    exists s'. split_and!; [done..|]. intros r Hw. rewrite Hresp in Hw.
    repeat match goal with |- context [fld ?f r] =>
      rewrite (fld_raw f _ _ ltac:(by vm_compute) ltac:(by vm_compute) Hw) end.
    rewrite Hom. unfold response_to. fields. split_and!; [done| |done].
    intros _. split; [|done]. f_equal. f_equal.
    + change (b mod 2 ^ f_width fmap.qbase) with (u32 b). rewrite i32_u32. by apply i32_small.
    + change (qmax mod 2 ^ f_width fmap.qmax) with (u32 qmax). unfold is_u16 in Hq. by unwrap_ints.
  - destruct (qreq_refused idx src func_id m' resp st calls _ _ _ Ho Hsrc E Hlt)
      as (s' & Hrun & Hrm & Hresp).
    exists s'. split_and!; [done..|]. intros r Hw. rewrite Hresp in Hw.
    repeat match goal with |- context [fld ?f r] =>
      rewrite (fld_raw f _ _ ltac:(by vm_compute) ltac:(by vm_compute) Hw) end.
    rewrite Hom. unfold response_to. fields. split_and!; [done|lia|done].
Qed.

(** ** Setting a queue up *)

Lemma in_range_qinfo idx fid q st :
  qdma_dev_is_queue_in_range idx fid q st = QDMA_DEV_Q_IN_RANGE ->
  (qdma_dev_qinfo_get idx fid st).1 = 0.
Proof.
  unfold qdma_dev_is_queue_in_range, qdma_dev_qinfo_get. rewrite !with_dev_view.
  by destruct (dev_view idx fid st) as [[d|]|].
Qed.

Lemma pf_bind {A B} (m : PF A) (k : A -> PF B) s a s' : m s = Ret a s' -> (m ≫= k) s = k a s'.
Proof. intros E. unfold mbind, M_bind. by rewrite E. Qed.

(** Hardware on which every call succeeds and the global registers hold the
    arrays [csr]. *)
Record healthy `{HwAccess} (csr : qdma_global_csr_type -> Z) : Prop := {
  ok_code log c : hw_code log c = 0;
  ok_csr log t : hw_output log (csr_call t) 0 = csr t }.

(** The indices a configuration stands for. *)
Record csr_indices (csr : qdma_global_csr_type -> Z) (q : cfield -> Z)
    (ring buf cntr tmr cmpt_ring : nat) : Prop := {
  i_ring : find_pos (fun w => q descq_conf.ringsz =? u32 (w - 1)) (csr_words (csr QDMA_CSR_RING_SZ)) = Some ring;
  i_buf : find_pos (fun w => w =? q descq_conf.bufsz) (csr_words (csr QDMA_CSR_BUF_SZ)) = Some buf;
  i_cntr : find_pos (fun w => w =? q descq_conf.cnt_thres) (csr_words (csr QDMA_CSR_CNT_TH)) = Some cntr;
  i_tmr : find_pos (fun w => w =? q descq_conf.timer_thres) (csr_words (csr QDMA_CSR_TIMER_CNT)) = Some tmr;
  i_cmpt : find_pos (fun w => q descq_conf.cmpt_ringsz =? u32 (w - 1)) (csr_words (csr QDMA_CSR_RING_SZ))
             = Some cmpt_ring }.

(** The calls that set the contexts of a queue, the newest first. *)
Definition setup_calls (c2h qid : Z) (st_c2h cmpt : bool) (sw pfetch cm : Z) : list hw_call :=
  (if cmpt then [qdma_cmpt_ctx_conf qid (Some cm) QDMA_HW_ACCESS_WRITE] else []) ++
  (if st_c2h then [qdma_pfetch_ctx_conf qid (Some pfetch) QDMA_HW_ACCESS_WRITE] else []) ++
  [qdma_sw_ctx_conf c2h qid (Some sw) QDMA_HW_ACCESS_WRITE] ++
  (if cmpt then [qdma_cmpt_ctx_conf qid None QDMA_HW_ACCESS_CLEAR] else []) ++
  (if st_c2h then [qdma_pfetch_ctx_conf qid None QDMA_HW_ACCESS_CLEAR] else []) ++
  [qdma_credit_ctx_conf c2h qid QDMA_HW_ACCESS_CLEAR; qdma_hw_ctx_conf c2h qid QDMA_HW_ACCESS_CLEAR;
   qdma_sw_ctx_conf c2h qid None QDMA_HW_ACCESS_CLEAR].

Section write.
Context `{HwAccess} (idx : Z) (csr : qdma_global_csr_type -> Z) (Hok : healthy csr).

Lemma find_idx_run t matches e k s :
  find_pos matches (csr_words (csr t)) = Some k ->
  find_idx t matches e s = Ret (0, Z.of_nat k) (set_hw (csr_call t :: hw_calls s) s).
Proof.
  intros Hi. unfold find_idx, csr_array, hw_fill, mbind, M_bind. cbv beta iota.
  by rewrite (ok_csr _ Hok), (ok_code _ Hok), Hi.
Qed.

Lemma hw_run c s : hw c s = Ret 0 (set_hw (c :: hw_calls s) s).
Proof. unfold hw. by rewrite (ok_code _ Hok). Qed.

(** Running one step of a sequence that goes on as long as nothing fails. *)
Lemma or_return_run (m k : PF Z) s s1 : m s = Ret 0 s1 -> or_return m k s = k s1.
Proof. intros E. unfold or_return. by erewrite pf_bind by exact E. Qed.

Lemma when_run b c s : when b (hw c) s = Ret 0 (set_hw ((if b then [c] else []) ++ hw_calls s) s).
Proof. destruct b; [apply hw_run|]. by destruct s. Qed.

Lemma composed_run step k c s s1 : step s = Ret (0, c) s1 -> composed step k s = k c s1.
Proof. intros E. unfold composed. by erewrite pf_bind by exact E. Qed.

Lemma when_composed_run b step k c s s1 :
  step s = Ret (0, c) s1 ->
  when_composed b step k s = if b then k c s1 else k 0 s.
Proof. intros E. destruct b; [by apply composed_run|done]. Qed.

Lemma query_run {A B} (f : rm_state -> A) (k : A -> PF B) s : (rm_query f ≫= k) s = k (f (pf_rm s)) s.
Proof. done. Qed.

Context (m : Z) (ring buf cntr tmr cmpt_ring : nat).
Context (Hi : csr_indices csr (fun f => fld (conf f) m) ring buf cntr tmr cmpt_ring).

Lemma compose_sw_run s :
  mbox_compose_sw_context m s =
  Ret (0, sw_ctxt_of (Z.of_nat ring) m) (set_hw (csr_call QDMA_CSR_RING_SZ :: hw_calls s) s).
Proof.
  unfold mbox_compose_sw_context, get_ring_idx.
  erewrite pf_bind by (apply find_idx_run, (i_ring _ _ _ _ _ _ _ Hi)). done.
Qed.

Lemma compose_prefetch_run s :
  mbox_compose_prefetch_context m s =
  Ret (0, pfetch_ctxt_of (Z.of_nat buf) m) (set_hw (csr_call QDMA_CSR_BUF_SZ :: hw_calls s) s).
Proof.
  unfold mbox_compose_prefetch_context, get_buf_idx.
  erewrite pf_bind by (apply find_idx_run, (i_buf _ _ _ _ _ _ _ Hi)). done.
Qed.

Lemma compose_cmpt_run s :
  mbox_compose_cmpt_context m s =
  Ret (0, cmpt_ctxt_of (Z.of_nat cntr) (Z.of_nat tmr) (Z.of_nat cmpt_ring) m)
    (set_hw ([csr_call QDMA_CSR_RING_SZ; csr_call QDMA_CSR_TIMER_CNT; csr_call QDMA_CSR_CNT_TH]
             ++ hw_calls s) s).
Proof.
  unfold mbox_compose_cmpt_context, get_cntr_idx, get_tmr_idx, get_ring_idx.
  erewrite pf_bind by (apply find_idx_run, (i_cntr _ _ _ _ _ _ _ Hi)). cbv beta iota. change (0 <? 0) with false. cbv beta iota.
  erewrite pf_bind by (apply find_idx_run, (i_tmr _ _ _ _ _ _ _ Hi)). cbv beta iota. change (0 <? 0) with false. cbv beta iota.
  erewrite pf_bind by (apply find_idx_run, (i_cmpt _ _ _ _ _ _ _ Hi)).
  cbv beta iota. change (0 <? 0) with false. cbv beta iota. reflexivity.
Qed.

Lemma drop_run acc fid qid st c2h t s :
  qdma_dev_is_queue_in_range idx fid qid (pf_rm s) = QDMA_DEV_Q_IN_RANGE ->
  t <> QDMA_MBOX_CMPT_CTXT_ONLY ->
  drop_queue_contexts acc idx fid qid st c2h t s =
  Ret 0 (set_hw
    ((if has_cmpt t then [qdma_cmpt_ctx_conf qid None acc] else []) ++
     (if is_st_c2h st c2h then [qdma_pfetch_ctx_conf qid None acc] else []) ++
     [qdma_credit_ctx_conf c2h qid acc; qdma_hw_ctx_conf c2h qid acc; qdma_sw_ctx_conf c2h qid None acc]
     ++ hw_calls s) s).
Proof.
  intros Hin Ht. unfold drop_queue_contexts. rewrite bool_decide_eq_false_2 by done.
  rewrite query_run, (in_range_qinfo _ _ _ _ Hin). change (0 <? 0) with false. cbv beta iota.
  rewrite query_run, Hin, bool_decide_eq_true_2 by done. cbn [negb].
  do 3 erewrite or_return_run by apply hw_run. do 2 erewrite or_return_run by apply when_run. done.
Qed.

(** What follows once the contexts are composed, and the old ones dropped. *)
Lemma write_tail (b1 b2 : bool) c1 c2 c3 s :
  (hw c1 ;? when b1 (hw c2) ;? when b2 (hw c3) ;? mret 0)%reconic s =
  Ret 0 (set_hw ((if b2 then [c3] else []) ++ (if b1 then [c2] else []) ++ [c1] ++ hw_calls s) s).
Proof.
  erewrite or_return_run by apply hw_run. do 2 erewrite or_return_run by apply when_run. reflexivity.
Qed.

Lemma write_run s :
  let qid := fld qctxt.qid_hw m in
  let c2h := fld qctxt.c2h m in
  let st_c2h := is_st_c2h (fld qctxt.st m) c2h in
  let t := cmpt_type_of (fld qctxt.cmpt_ctxt_type m) in
  qdma_dev_is_queue_in_range idx (fld (conf descq_conf.func_id) m) qid (pf_rm s) = QDMA_DEV_Q_IN_RANGE ->
  t <> QDMA_MBOX_CMPT_CTXT_ONLY ->
  exists csrs, Forall (fun c => exists t, c = csr_call t) csrs /\
  mbox_write_queue_contexts idx m s =
  Ret 0 (set_hw
    (setup_calls c2h qid st_c2h (has_cmpt t) (sw_ctxt_of (Z.of_nat ring) m)
       (pfetch_ctxt_of (Z.of_nat buf) m)
       (cmpt_ctxt_of (Z.of_nat cntr) (Z.of_nat tmr) (Z.of_nat cmpt_ring) m) ++ csrs ++ hw_calls s) s).
Proof.
  intros qid c2h st_c2h t Hin Ht. unfold mbox_write_queue_contexts. fold qid c2h st_c2h t.
  rewrite query_run, (in_range_qinfo _ _ _ _ Hin). change (0 <? 0) with false. cbv beta iota.
  rewrite query_run, Hin, bool_decide_eq_true_2 by done. cbn [negb].
  rewrite bool_decide_eq_false_2 by done.
  erewrite composed_run by apply compose_sw_run.
  erewrite when_composed_run by apply compose_prefetch_run.
  assert (forall pf cm s0, pf_rm s0 = pf_rm s ->
    (mbox_clear_queue_contexts idx (fld (conf descq_conf.func_id) m) qid (fld qctxt.st m) c2h t ;?
     hw (qdma_sw_ctx_conf c2h qid (Some (sw_ctxt_of (Z.of_nat ring) m)) QDMA_HW_ACCESS_WRITE) ;?
     when st_c2h (hw (qdma_pfetch_ctx_conf qid (Some pf) QDMA_HW_ACCESS_WRITE)) ;?
     when (has_cmpt t) (hw (qdma_cmpt_ctx_conf qid (Some cm) QDMA_HW_ACCESS_WRITE)) ;?
     mret 0)%reconic s0 =
    Ret 0 (set_hw (setup_calls c2h qid st_c2h (has_cmpt t) (sw_ctxt_of (Z.of_nat ring) m) pf cm
                   ++ hw_calls s0) s0)) as Htail.
  { intros pf cm s0 E0. erewrite or_return_run by (apply drop_run; [by rewrite E0|done]).
    rewrite write_tail. fold st_c2h. unfold setup_calls, set_hw. cbn [hw_calls].
    by destruct st_c2h, (has_cmpt t). }
  exists ((if has_cmpt t then csr_call <$> [QDMA_CSR_RING_SZ; QDMA_CSR_TIMER_CNT; QDMA_CSR_CNT_TH]
           else []) ++ (if st_c2h then [csr_call QDMA_CSR_BUF_SZ] else [])
          ++ [csr_call QDMA_CSR_RING_SZ]).
  split; [destruct st_c2h, (has_cmpt t); repeat (constructor; [eexists; reflexivity|]); constructor|].
  destruct st_c2h; erewrite when_composed_run by apply compose_cmpt_run;
    destruct (has_cmpt t) eqn:Ec; rewrite Htail by done; reflexivity.
Qed.

End write.

Lemma compose_Some rest m0 m1 :
  compose rest (Some m0) = (0, Some m1) ->
  m1 = rest (qdma_mbox_memset (size_of qdma_mbox_txrx) m0).
Proof. by intros [= <-]. Qed.

(** The message with which a queue is set up, as the physical function works on
    it: the function in the configuration is the sender. *)
Lemma qctxt_received func qid st c2h t dc src m0 m1 m2 :
  qdma_mbox_compose_vf_qctxt_write func qid st c2h t dc (Some m0) = (0, Some m1) ->
  fld raw_words m2 = fld raw_words (put hdr.src_func_id src m1) ->
  is_u16 qid -> is_u16 src -> 0 <= st < 2 -> 0 <= c2h < 2 ->
  let m3 := put (conf descq_conf.func_id) src m2 in
  fld hdr.op m2 = op_code MBOX_OP_QCTXT_WRT /\ fld hdr.src_func_id m2 = src /\
  fld qctxt.qid_hw m3 = qid /\ fld qctxt.st m3 = st /\ fld qctxt.c2h m3 = c2h /\
  cmpt_type_of (fld qctxt.cmpt_ctxt_type m3) = t /\
  fld (conf descq_conf.func_id) m3 = src /\
  forall f, field_ok f -> apart f descq_conf.func_id -> within f (bytes_at 0 32) ->
    fld (conf f) m3 = fld f dc.
Proof.
  intros Hm1%compose_Some Hm Hq Hs Hst Hc m3. unfold is_u16 in *.
  assert (forall f, field_ok f -> within f raw_words -> apart f (conf descq_conf.func_id) ->
    fld f m3 = fld f (put hdr.src_func_id src m1)) as Hf.
  { intros f Hok Hin Ha. unfold m3. rewrite fld_put_apart by (done || by vm_compute).
    by apply fld_raw. }
  rewrite (fld_raw hdr.op _ _ ltac:(by vm_compute) ltac:(by vm_compute) Hm).
  rewrite (fld_raw hdr.src_func_id _ _ ltac:(by vm_compute) ltac:(by vm_compute) Hm).
  rewrite (Hf qctxt.qid_hw), (Hf qctxt.st), (Hf qctxt.c2h), (Hf qctxt.cmpt_ctxt_type)
    by (vm_compute; intuition congruence).
  assert (fld (conf descq_conf.func_id) m3 = src) as Hfn.
  { unfold m3. rewrite fld_put_same by by vm_compute. by apply Z.mod_small. }
  split_and!; [subst m1; unfold qctxt_request, request; fields; by try apply Z.mod_small..| |exact Hfn|].
  { subst m1; unfold qctxt_request, request; fields. by destruct t. }
  intros f Hok Ha Hin.
  assert (fld (conf f) m3 = fld (conf f) m1) as ->.
  { rewrite (Hf (conf f)); [|unfold field_ok, apart, within, conf, inside in *; simpl in *; lia..].
    apply fld_put_apart; [..|by vm_compute|]; unfold field_ok, apart, conf, inside in *; simpl in *; lia. }
  subst m1. unfold conf. apply fld_put_inside; [by vm_compute|done|].
  unfold within in Hin. simpl in *. lia.
Qed.

(** Values that fit the member they are assigned to. *)
Ltac small_fields :=
  split_and!; first [done|apply fld_mod; by vm_compute|by apply Z.mod_small].

(** The contexts hold what the configuration says. *)
Lemma sw_ctxt_fields k m :
  0 <= k < 256 ->
  let c := sw_ctxt_of k m in
  let q f := fld (conf f) m in
  let unless_st_c2h v := if is_st_c2h (fld qctxt.st m) (fld qctxt.c2h m) then 0 else v in
  fld sw_ctxt.ring_bs_addr c = q descq_conf.ring_bs_addr /\ fld sw_ctxt.rngsz_idx c = k /\
  fld sw_ctxt.qen c = 1 /\ fld sw_ctxt.fnc_id c = u8 (q descq_conf.func_id) /\
  fld sw_ctxt.is_mm c mod 2 = 1 - fld qctxt.st m /\
  fld sw_ctxt.desc_sz c = q descq_conf.desc_sz /\ fld sw_ctxt.vec c = q descq_conf.intr_id /\
  fld sw_ctxt.wbk_en c = unless_st_c2h (q descq_conf.wbk_en) /\
  fld sw_ctxt.irq_en c = unless_st_c2h (q descq_conf.irq_en) /\
  fld sw_ctxt.irq_arm c = unless_st_c2h (q descq_conf.irq_arm).
Proof.
  intros Hk c q unless. unfold c, sw_ctxt_of, unless, is_st_c2h.
  assert (0 <= fld qctxt.st m < 2) as Hst by (apply fld_range; by vm_compute).
  set (st := fld qctxt.st m) in *. set (c2h := fld qctxt.c2h m).
  assert (Z.lnot st mod 2 ^ f_width sw_ctxt.is_mm mod 2 = 1 - st) as Hmm.
  { assert (st = 0 \/ st = 1) as [-> | ->] by lia; done. }
  destruct (negb (st =? 0) && negb (c2h =? 0)); cbn [assign foldl]; fields; small_fields.
Qed.

Lemma pfetch_ctxt_fields k m :
  0 <= k < 256 ->
  let c := pfetch_ctxt_of k m in
  fld pfetch_ctxt.valid c = 1 /\ fld pfetch_ctxt.bufsz_idx c = k /\
  fld pfetch_ctxt.pfch_en c = fld (conf descq_conf.pfch_en) m.
Proof.
  intros Hk c. unfold c, pfetch_ctxt_of. cbn [assign foldl]. fields. small_fields.
Qed.

Lemma cmpt_ctxt_fields i j k m :
  0 <= i < 256 -> 0 <= j < 256 -> 0 <= k < 256 ->
  let c := cmpt_ctxt_of i j k m in
  let q f := fld (conf f) m in
  fld cmpt_ctxt.bs_addr c = q descq_conf.cmpt_ring_bs_addr /\ fld cmpt_ctxt.valid c = 1 /\
  fld cmpt_ctxt.counter_idx c = i /\ fld cmpt_ctxt.timer_idx c = j /\
  fld cmpt_ctxt.ringsz_idx c = k /\ fld cmpt_ctxt.trig_mode c = q descq_conf.triggermode /\
  fld cmpt_ctxt.fnc_id c = u8 (q descq_conf.func_id) /\
  fld cmpt_ctxt.desc_sz c = q descq_conf.cmpt_desc_sz.
Proof.
  intros Hi Hj Hk c q. unfold c, cmpt_ctxt_of. cbn [assign foldl]. fields. small_fields.
Qed.

Lemma find_pos_words p a k : find_pos p (csr_words a) = Some k -> 0 <= Z.of_nat k < 256.
Proof.
  intros (x & Hx & _)%find_pos_Some. apply lookup_lt_Some in Hx.
  unfold csr_words, QDMA_GLOBAL_CSR_ARRAY_SZ in Hx. rewrite length_fmap, length_seq in Hx. lia.
Qed.

(** What the contexts of a queue must hold for the configuration [dc]: the
    switches for interrupts and writeback are off for a streaming queue to the
    host, whose completions take their place. *)
Definition contexts_for (dc src stm : Z) (st_c2h : bool) (ring buf cntr tmr cmpt_ring : Z)
    (sw pf cm : Z) : Prop :=
  let unless_st_c2h v := if st_c2h then 0 else v in
  (fld sw_ctxt.ring_bs_addr sw = fld descq_conf.ring_bs_addr dc /\
   fld sw_ctxt.rngsz_idx sw = ring /\ fld sw_ctxt.qen sw = 1 /\
   fld sw_ctxt.fnc_id sw = u8 src /\ fld sw_ctxt.is_mm sw mod 2 = 1 - stm /\
   fld sw_ctxt.desc_sz sw = fld descq_conf.desc_sz dc /\
   fld sw_ctxt.vec sw = fld descq_conf.intr_id dc /\
   fld sw_ctxt.wbk_en sw = unless_st_c2h (fld descq_conf.wbk_en dc) /\
   fld sw_ctxt.irq_en sw = unless_st_c2h (fld descq_conf.irq_en dc) /\
   fld sw_ctxt.irq_arm sw = unless_st_c2h (fld descq_conf.irq_arm dc)) /\
  (fld pfetch_ctxt.valid pf = 1 /\ fld pfetch_ctxt.bufsz_idx pf = buf /\
   fld pfetch_ctxt.pfch_en pf = fld descq_conf.pfch_en dc) /\
  (fld cmpt_ctxt.bs_addr cm = fld descq_conf.cmpt_ring_bs_addr dc /\ fld cmpt_ctxt.valid cm = 1 /\
   fld cmpt_ctxt.counter_idx cm = cntr /\ fld cmpt_ctxt.timer_idx cm = tmr /\
   fld cmpt_ctxt.ringsz_idx cm = cmpt_ring /\
   fld cmpt_ctxt.trig_mode cm = fld descq_conf.triggermode dc /\
   fld cmpt_ctxt.fnc_id cm = u8 src /\ fld cmpt_ctxt.desc_sz cm = fld descq_conf.cmpt_desc_sz dc).

(** From a request that is answered to the handler. *)
Lemma handler_run `{HwAccess} idx func_id m op resp st calls rv ret s1 :
  let s := mk_pf st calls m resp in
  fld hdr.op m = op_code op -> answered op = true ->
  handle idx op s = Ret (Respond rv ret) s1 -> header_kept s s1 ->
  qdma_mbox_pf_rcv_msg_handler idx func_id (Some m) resp st calls =
  Ret ret (mk_pf (pf_rm s1) (hw_calls s1) (rcv_msg s1)
    (response_to (fld hdr.src_func_id m) func_id op rv (resp_msg s1))).
Proof.
  intros s Ho Ha E Hk.
  unfold qdma_mbox_pf_rcv_msg_handler, pf_handler, rcv at 1, gets, mbind at 1, M_bind at 1.
  cbn [rcv_msg]. rewrite Ho, dispatch_request by by left. fold s. erewrite pf_bind by exact E.
  unfold exit_func, rcv, set_resp, gets, modify, mbind, M_bind, put_resp. simpl.
  rewrite (fld_header hdr.op s s1), (fld_header hdr.src_func_id s s1)
    by (try exact Hk; by vm_compute).
  unfold response_to, resp_code. simpl. by rewrite Ho.
Qed.

Lemma response_status src func_id op rv resp :
  -128 <= rv < 128 ->
  qdma_mbox_vf_response_status (response_to src func_id op rv resp) = rv.
Proof.
  intros Hrv. unfold qdma_mbox_vf_response_status, response_to. fields. by apply i8_small.
Qed.

(** The handler on a request to write contexts. *)
Lemma wrt_run `{HwAccess} idx func_id m src resp st calls rv s1 :
  fld hdr.op m = op_code MBOX_OP_QCTXT_WRT -> fld hdr.src_func_id m = src ->
  let m3 := put (conf descq_conf.func_id) src m in
  mbox_write_queue_contexts idx m3 (mk_pf st calls m3 resp) = Ret rv s1 ->
  rcv_msg s1 = m3 -> resp_msg s1 = resp ->
  qdma_mbox_pf_rcv_msg_handler idx func_id (Some m) resp st calls =
  Ret 0 (mk_pf (pf_rm s1) (hw_calls s1) m3 (response_to src func_id MBOX_OP_QCTXT_WRT rv resp)).
Proof.
  intros Ho Hs m3 E Er Ep. rewrite (handler_run _ _ _ MBOX_OP_QCTXT_WRT _ _ _ rv 0 s1); try done.
  - by rewrite Hs, Er, Ep.
  - cbn [handle]. unfold op_qctxt_wrt, with_rv, rcv, set_rcv, gets, modify, mbind, M_bind.
    unfold put_rcv. cbn [rcv_msg pf_rm hw_calls resp_msg]. rewrite Hs. fold m3. rewrite E. reflexivity.
  - unfold header_kept. rewrite Er. simpl. unfold m3. by rewrite fld_put_apart by layout_side.
Qed.

(** Members of the configuration, in the message worked on. *)
Ltac configured H Hdc m3 :=
  repeat match type of H with
  | context [fld (conf ?f) m3] => rewrite (Hdc f) in H by (vm_compute; intuition congruence)
  end.

(** C9. Setting a queue up, from one end of the mailbox to the other.  When a virtual
    function asks to write the contexts of one of its queues, and the sizes and
    thresholds it names are among the global ones, the physical function first
    clears the software, hardware and credit contexts (the prefetch and completion
    contexts too, where the queue has them), then writes the new ones; these hold
    the addresses, sizes and options of the configuration sent, with the sender as
    the function.  The response reports success and the resource manager is not
    concerned. *)
Theorem queue_setup `{HwAccess} csr idx st func src func_id qid stm c2h t dc
    ring buf cntr tmr cmpt_ring m0 m1 m2 resp calls :
  healthy csr -> csr_indices csr (fun f => fld f dc) ring buf cntr tmr cmpt_ring ->
  is_u16 qid -> is_u16 src -> 0 <= stm < 2 -> 0 <= c2h < 2 ->
  qdma_dev_is_queue_in_range idx src qid st = QDMA_DEV_Q_IN_RANGE ->
  t <> QDMA_MBOX_CMPT_CTXT_ONLY ->
  qdma_mbox_compose_vf_qctxt_write func qid stm c2h t dc (Some m0) = (0, Some m1) ->
  fld raw_words m2 = fld raw_words (put hdr.src_func_id src m1) ->
  exists s' csrs sw pf cm,
    qdma_mbox_pf_rcv_msg_handler idx func_id (Some m2) resp st calls = Ret 0 s' /\
    pf_rm s' = st /\ qdma_mbox_vf_response_status (resp_msg s') = 0 /\
    hw_calls s' = setup_calls c2h qid (is_st_c2h stm c2h) (has_cmpt t) sw pf cm ++ csrs ++ calls /\
    Forall (fun c => exists t, c = csr_call t) csrs /\
    contexts_for dc src stm (is_st_c2h stm c2h) (Z.of_nat ring) (Z.of_nat buf) (Z.of_nat cntr)
      (Z.of_nat tmr) (Z.of_nat cmpt_ring) sw pf cm.
Proof.
  intros Hok Hi Hq Hs Hst Hc Hin Ht Hm1 Hm2.
  destruct (qctxt_received _ _ _ _ _ _ _ _ _ _ Hm1 Hm2 Hq Hs Hst Hc)
    as (Ho & Hsrc & Eq & Est & Ec & Et & Ef & Hdc).
  set (m3 := put (conf descq_conf.func_id) src m2) in *.
  assert (csr_indices csr (fun f => fld (conf f) m3) ring buf cntr tmr cmpt_ring) as Hi3.
  { destruct Hi as [I1 I2 I3 I4 I5].
    split; cbn beta; rewrite Hdc; try done; vm_compute; intuition congruence. }
  destruct (write_run idx csr Hok m3 ring buf cntr tmr cmpt_ring Hi3 (mk_pf st calls m3 resp))
    as (csrs & Hcsrs & Hrun); [by rewrite Eq, Ef|by rewrite Et|].
  rewrite Eq, Est, Ec, Et in Hrun.
  pose proof (wrt_run idx func_id m2 src resp st calls _ _ Ho Hsrc Hrun eq_refl eq_refl) as Hh.
  eexists _, csrs, _, _, _. split; [exact Hh|]. cbn [pf_rm hw_calls resp_msg].
  split; [done|]. split; [|split; [done|split; [exact Hcsrs|]]].
  { unfold qdma_mbox_vf_response_status, response_to. by fields. }
  pose proof (find_pos_words _ _ _ (i_ring _ _ _ _ _ _ _ Hi)).
  pose proof (find_pos_words _ _ _ (i_buf _ _ _ _ _ _ _ Hi)).
  pose proof (find_pos_words _ _ _ (i_cntr _ _ _ _ _ _ _ Hi)).
  pose proof (find_pos_words _ _ _ (i_tmr _ _ _ _ _ _ _ Hi)).
  pose proof (find_pos_words _ _ _ (i_cmpt _ _ _ _ _ _ _ Hi)).
  pose proof (sw_ctxt_fields (Z.of_nat ring) m3 ltac:(done)) as Hsw.
  pose proof (pfetch_ctxt_fields (Z.of_nat buf) m3 ltac:(done)) as Hpf.
  pose proof (cmpt_ctxt_fields (Z.of_nat cntr) (Z.of_nat tmr) (Z.of_nat cmpt_ring) m3
                ltac:(done) ltac:(done) ltac:(done)) as Hcm.
  cbv beta zeta in Hsw, Hpf, Hcm. rewrite Est, Ec, Ef in Hsw. rewrite Ef in Hcm.
  configured Hsw Hdc m3. configured Hpf Hdc m3. configured Hcm Hdc m3.
  split; [exact Hsw|split; [exact Hpf|exact Hcm]].
Qed.

(** ** Concrete runs *)

Lemma qreq_end_to_end_witness :
  exists s',
    @qdma_mbox_pf_rcv_msg_handler sample_hw 0 1 (Some sample_qreq) 0 sample_state [] = Ret 0 s' /\
    qdma_mbox_vf_qinfo_get (resp_msg s') = (0, (200, 8)).
Proof.
  destruct (@qreq_end_to_end sample_hw [] sample_state 0 9 6 1 0 2 sample_master (sample_dev 2) 8 200
    0 (default 0 (qdma_mbox_compose_vf_qreq 9 8 200 (Some 0)).2)
    sample_qreq 0 []
    sample_reachable) as (rv & b & st' & s' & Hu & Hrun & _ & Hr).
  - constructor.
  - apply sample_at. rewrite !elem_of_cons. right. right. left. reflexivity.
  - by vm_compute.
  - by vm_compute.
  - by vm_compute.
  - reflexivity.
  - vm_compute. reflexivity.
  - exists s'. split; [exact Hrun|].
    destruct (Hr (resp_msg s') eq_refl) as (_ & H0 & _).
    assert (rv = 0 /\ b = 200) as [-> ->].
    { apply (f_equal (fun x => (x.1.1, x.1.2))) in Hu. vm_compute in Hu.
      injection Hu as <- <-. by split. }
    exact (proj1 (H0 eq_refl)).
Defined.

(** A configuration whose sizes and thresholds are among the sample ones. *)
Definition sample_conf : Z :=
  put descq_conf.ringsz 66 (put descq_conf.bufsz 70 (put descq_conf.cnt_thres 66
    (put descq_conf.timer_thres 67 (put descq_conf.cmpt_ringsz 70 0)))).

Lemma sample_healthy : @healthy sample_hw sample_csr.
Proof. split; reflexivity. Qed.

Lemma sample_indices : csr_indices sample_csr (fun f => fld f sample_conf) 2 5 1 2 6.
Proof. split; by vm_compute. Qed.

Lemma queue_setup_witness :
  exists s',
    @qdma_mbox_pf_rcv_msg_handler sample_hw 0 1
      (Some (sent_by 6 (qdma_mbox_compose_vf_qctxt_write 9 110 0 0 QDMA_MBOX_CMPT_CTXT_NONE sample_conf)))
      0 sample_state [] = Ret 0 s' /\
    qdma_mbox_vf_response_status (resp_msg s') = 0.
Proof.
  destruct (@queue_setup sample_hw sample_csr 0 sample_state 9 6 1 110 0 0 QDMA_MBOX_CMPT_CTXT_NONE
    sample_conf 2 5 1 2 6 0
    (default 0 (qdma_mbox_compose_vf_qctxt_write 9 110 0 0 QDMA_MBOX_CMPT_CTXT_NONE sample_conf (Some 0)).2)
    (sent_by 6 (qdma_mbox_compose_vf_qctxt_write 9 110 0 0 QDMA_MBOX_CMPT_CTXT_NONE sample_conf))
    0 [] sample_healthy sample_indices) as (s' & csrs & sw & pf & cm & Hrun & _ & Hst & _).
  - by vm_compute.
  - by vm_compute.
  - lia.
  - lia.
  - by vm_compute.
  - discriminate.
  - reflexivity.
  - reflexivity.
  - exists s'. split; [exact Hrun|exact Hst].
Defined.
