(* ===== verification/MboxLimits.v ===== *)
(** * MboxLimits: where the mailbox falls short

    What the code does less well than it should: a message that is longer than
    the mailbox, a context that does not fit in one, ranges and lengths taken from a
    message without a check, and a refusal reported as success. *)

From S2P Require Import Prelude QdmaErrors ResourceMgmt ResourceInv ResourceSys ResourceProps.
From S2P Require Import ResourceView Mmio CLayout Contexts MboxMsg MboxHw MboxPf MboxInv MboxProps.
From S2P Require Import MboxFlows.
Local Open Scope Z_scope.

(** ** Where the mailbox falls short *)

(** The memory right after the words of a message. *)
Definition past_words : cfield := bytes_at 128 24.

(** Every function that composes a message. *)
Definition composers (func_id src dst qid st c2h qmax qbase group : Z) (qt : qdma_dev_q_type)
    (t : mbox_cmpt_ctxt_type) (dc ictxt : Z) : list (option Z -> Z * option Z) :=
  [qmda_mbox_compose_vf_online func_id qmax qbase; qdma_mbox_compose_vf_offline func_id;
   qdma_mbox_compose_vf_reset_offline func_id; qdma_mbox_compose_vf_qreq func_id qmax qbase;
   qdma_mbox_compose_vf_notify_qadd func_id qid qt;
   qdma_mbox_compose_vf_get_device_active_qcnt func_id;
   qdma_mbox_compose_vf_notify_qdel func_id qid qt;
   qdma_mbox_compose_vf_fmap_prog func_id qmax qbase;
   qdma_mbox_compose_vf_qctxt_write func_id qid st c2h t dc;
   qdma_mbox_compose_vf_qctxt_read func_id qid st c2h t;
   qdma_mbox_compose_vf_qctxt_invalidate func_id qid st c2h t;
   qdma_mbox_compose_vf_qctxt_clear func_id qid st c2h t; qdma_mbox_compose_csr_read func_id;
   qdma_mbox_compose_reg_read func_id group;
   qdma_mbox_compose_vf_intr_ctxt_write func_id ictxt;
   qdma_mbox_compose_vf_intr_ctxt_read func_id ictxt;
   qdma_mbox_compose_vf_intr_ctxt_clear func_id ictxt;
   qdma_mbox_compose_vf_intr_ctxt_invalidate func_id ictxt;
   qdma_mbox_compose_vf_reset_message src dst; qdma_mbox_compose_pf_reset_done_message src dst;
   qdma_mbox_compose_pf_offline src dst].

(** Composing a message writes past it.  The union that overlays a message has
    152 bytes, the array of words it overlays has 128, and every function that
    composes a message starts by clearing the whole union: whatever the 24 bytes
    after the array held, they hold zeros afterwards. *)
Theorem compose_overruns func_id src dst qid st c2h qmax qbase group qt t dc ictxt m0 f :
  f ∈ composers func_id src dst qid st c2h qmax qbase group qt t dc ictxt ->
  exists m, f (Some m0) = (0, Some m) /\ fld past_words m = 0.
Proof.
  intros Hf. repeat (apply elem_of_cons in Hf as [->|Hf];
    [eexists; split; [reflexivity|]; unfold qctxt_request, request, qdma_mbox_memset; by fields|]).
  by apply not_elem_of_nil in Hf.
Qed.

(** A completion context does not fit in a message.  A virtual function that
    reads the contexts of a queue gets the software, hardware, credit and prefetch
    contexts as the physical function put them in its response; of the
    completion context, all from the valid bit on lies past the 32 words that the
    mailbox carries, and reads as zero whatever the hardware holds. *)
Theorem context_read_truncated func_id qid st c2h t m0 resp :
  match qdma_mbox_compose_vf_qctxt_read func_id qid st c2h t (Some m0) with
  | (_, Some m) =>
      let r := put raw_words (fld raw_words resp) m in
      let ctxt := (qdma_mbox_vf_context_get r).2 in
      (forall f, f ∈ [descq_ctxt.sw; descq_ctxt.hw; descq_ctxt.cr; descq_ctxt.pfetch] ->
         fld f ctxt = fld (inside qctxt.descq_ctxt f) resp) /\
      (forall f, f ∈ [cmpt_ctxt.valid; cmpt_ctxt.ovf_chk_dis; cmpt_ctxt.int_aggr] ->
         fld (inside descq_ctxt.cmpt f) ctxt = 0)
  | _ => False
  end.
Proof.
  unfold qdma_mbox_compose_vf_qctxt_read, compose. cbv zeta.
  set (m := qctxt_request _ _ _ _ _ _ _). unfold qdma_mbox_vf_context_get. cbn [snd].
  split; intros f Hf; repeat (apply elem_of_cons in Hf as [->|Hf]);
    try (by apply not_elem_of_nil in Hf); rewrite fld_inside by by vm_compute.
  1-4: match goal with |- fld ?g (put ?w _ _) = _ => change g with (inside w g) at 1 end;
    rewrite fld_put_inside by (vm_compute; intuition congruence);
    match goal with |- fld ?g (fld _ _) = _ => rewrite (fld_inside raw_words g) by (vm_compute; intuition congruence) end;
    reflexivity.
  all: rewrite fld_put_apart by layout_side; unfold m, qctxt_request, request, qdma_mbox_memset; by fields.
Qed.

(** A queue that is not the sender's is refused in silence.  A request to clear,
    invalidate or write the contexts of a queue out of range changes nothing in the
    hardware, as it should, but the response reports success: the code that is
    returned is that of the look-up before, which succeeded. *)
Theorem out_of_range_silent `{HwAccess} idx func_id m op resp st calls :
  let src := fld hdr.src_func_id m in
  op ∈ [MBOX_OP_QCTXT_CLR; MBOX_OP_QCTXT_INV; MBOX_OP_QCTXT_WRT] -> fld hdr.op m = op_code op ->
  cmpt_type_of (fld qctxt.cmpt_ctxt_type m) <> QDMA_MBOX_CMPT_CTXT_ONLY ->
  (qdma_dev_qinfo_get idx src st).1 = 0 ->
  qdma_dev_is_queue_in_range idx src (fld qctxt.qid_hw m) st = QDMA_DEV_Q_OUT_OF_RANGE ->
  exists s', qdma_mbox_pf_rcv_msg_handler idx func_id (Some m) resp st calls = Ret 0 s' /\
    hw_calls s' = calls /\ qdma_mbox_vf_response_status (resp_msg s') = 0.
Proof.
  intros src Hop Ho Ht Hq Hout.
  assert (forall acc, drop_queue_contexts acc idx src (fld qctxt.qid_hw m) (fld qctxt.st m)
    (fld qctxt.c2h m) (cmpt_type_of (fld qctxt.cmpt_ctxt_type m)) (mk_pf st calls m resp)
    = Ret 0 (mk_pf st calls m resp)) as Hdrop.
  { intros acc. unfold drop_queue_contexts. rewrite bool_decide_eq_false_2 by done.
    rewrite query_run. cbn [pf_rm]. rewrite Hq. change (0 <? 0) with false. cbv beta iota.
    rewrite query_run. cbn [pf_rm]. by rewrite Hout. }
  apply elem_of_cons in Hop as [->|Hop]; [|apply elem_of_cons in Hop as [->|Hop%list_elem_of_singleton]].
  - eexists. split; [apply (handler_run _ _ _ MBOX_OP_QCTXT_CLR _ _ _ 0 0 (mk_pf st calls m resp))|];
      try done.
    + cbn [handle]. unfold op_qctxt_clr, op_qctxt, with_rv, rcv, gets, mbind, M_bind. cbn [rcv_msg].
      unfold mbox_clear_queue_contexts. fold src. by rewrite Hdrop.
    + split; [done|]. by apply response_status.
  - eexists. split; [apply (handler_run _ _ _ MBOX_OP_QCTXT_INV _ _ _ 0 0 (mk_pf st calls m resp))|];
      try done.
    + cbn [handle]. unfold op_qctxt_inv, op_qctxt, with_rv, rcv, gets, mbind, M_bind. cbn [rcv_msg].
      unfold mbox_invalidate_queue_contexts. fold src. by rewrite Hdrop.
    + split; [done|]. by apply response_status.
  - subst op. set (m3 := put (conf descq_conf.func_id) src m).
    eexists. split; [apply (wrt_run _ _ _ src _ _ _ 0 (mk_pf st calls m3 resp)); try done|].
    + unfold mbox_write_queue_contexts. fold m3.
      assert (fld (conf descq_conf.func_id) m3 = src) as ->.
      { unfold m3. rewrite fld_put_same by layout_side. apply Z.mod_small, (fld_range hdr.src_func_id). by vm_compute. }
      assert (fld qctxt.qid_hw m3 = fld qctxt.qid_hw m) as -> by (unfold m3; by fields).
      rewrite query_run. cbn [pf_rm]. rewrite Hq. change (0 <? 0) with false. cbv beta iota.
      rewrite query_run. cbn [pf_rm]. by rewrite Hout.
    + split; [done|]. by apply response_status.
Qed.

(** Completion contexts of other functions are not protected.  A request to clear
    or invalidate a completion context on its own is carried out for whatever queue
    it names: no look-up is made, and the sender need not hold the queue, or even
    be known to the resource manager. *)
Theorem cmpt_only_unchecked `{HwAccess} idx func_id m op acc resp st calls :
  (op, acc) ∈ [(MBOX_OP_QCTXT_CLR, QDMA_HW_ACCESS_CLEAR); (MBOX_OP_QCTXT_INV, QDMA_HW_ACCESS_INVALIDATE)] ->
  fld hdr.op m = op_code op ->
  cmpt_type_of (fld qctxt.cmpt_ctxt_type m) = QDMA_MBOX_CMPT_CTXT_ONLY ->
  exists s', qdma_mbox_pf_rcv_msg_handler idx func_id (Some m) resp st calls = Ret 0 s' /\
    hw_calls s' = qdma_cmpt_ctx_conf (fld qctxt.qid_hw m) None acc :: calls.
Proof.
  intros Hop Ho Ht. set (s := mk_pf st calls m resp).
  assert (exists rv s1, handle idx op s = Ret (Respond rv 0) s1 /\ header_kept s s1 /\
    hw_calls s1 = qdma_cmpt_ctx_conf (fld qctxt.qid_hw m) None acc :: calls) as (rv & s1 & E & Hk & Hc).
  { unfold s. repeat (apply elem_of_cons in Hop as [[= -> ->]|Hop]);
      [..|by apply not_elem_of_nil in Hop];
      cbn [handle]; unfold op_qctxt_clr, op_qctxt_inv, op_qctxt, mbox_clear_queue_contexts,
        mbox_invalidate_queue_contexts, drop_queue_contexts, with_rv, or_return, hw, rcv, gets, mbind, M_bind;
      cbn [rcv_msg]; rewrite Ht; simpl; unfold header_kept; destruct (_ <? 0);
      eexists _, _; (split; [reflexivity|done]). }
  eexists. split; [apply (handler_run _ _ _ op _ _ _ rv 0 s1); try done|exact Hc].
  repeat (apply elem_of_cons in Hop as [[= -> ->]|Hop]); [done..|by apply not_elem_of_nil in Hop].
Qed.

(** The first rings of a request are read into the response. *)
Lemma read_ring `{HwAccess} i ring (s : pf_state) :
  0 <= i < 4 ->
  exists rv s', (in_union (intr_ctxt.ictxt i);;
    note_status (hw_into (intr_ctxt.ictxt i)
      (qdma_indirect_intr_ctx_conf (u16 ring) None QDMA_HW_ACCESS_READ))) s = Ret rv s'.
Proof.
  intros Hi. unfold in_union. rewrite (proj2 (Z.leb_le _ _)).
  - unfold note_status, hw_into, hw_fill, set_resp, gets, modify, mbind, M_bind. simpl.
    destruct (_ <? 0); eexists _, _; reflexivity.
  - unfold intr_ctxt.ictxt, qdma_mbox_txrx, bytes_at. cbn [f_bit f_width]. lia.
Qed.

Lemma read_rings `{HwAccess} l rest body rv (s : pf_state) :
  (forall i, i ∈ l -> (i < 4)%nat) ->
  body = (fun i ring_index => in_union (intr_ctxt.ictxt i);;
    note_status (hw_into (intr_ctxt.ictxt i)
      (qdma_indirect_intr_ctx_conf (u16 ring_index) None QDMA_HW_ACCESS_READ))) ->
  exists rv' s', each_ring (l ++ rest) rv body s = each_ring rest rv' body s'.
Proof.
  intros Hl Hb. revert rv s. induction l as [|i l IH]; intros rv s; [by eexists _, _|].
  assert (i < 4)%nat as Hi by (apply Hl; set_solver). cbn [app each_ring].
  assert (in_union (intr_ctxt.ring_index_list (Z.of_nat i)) = mret tt) as ->.
  { unfold in_union. by rewrite (proj2 (Z.leb_le _ _))
      by (unfold intr_ctxt.ring_index_list, qdma_mbox_txrx, bytes_at; cbn [f_bit f_width]; lia). }
  erewrite pf_bind by reflexivity. unfold rcv at 1, gets at 1. erewrite pf_bind by reflexivity.
  subst body. destruct (read_ring (Z.of_nat i)
    (fld (intr_ctxt.ring_index_list (Z.of_nat i)) (rcv_msg s)) s ltac:(lia)) as (rv1 & s1 & E).
  erewrite pf_bind by exact E. apply IH. set_solver.
Qed.

Lemma ring_too_far `{HwAccess} l rv k (s : pf_state) :
  each_ring (4%nat :: l) rv (fun i ring_index => in_union (intr_ctxt.ictxt i);; k i ring_index) s
  = Crash s.
Proof.
  cbn [each_ring]. change (in_union (intr_ctxt.ring_index_list (Z.of_nat 4))) with (mret tt : PF unit).
  erewrite pf_bind by reflexivity. unfold rcv, gets. erewrite pf_bind by reflexivity.
  change (in_union (intr_ctxt.ictxt (Z.of_nat 4))) with (crash : PF unit). reflexivity.
Qed.

(** The number of rings in a request is not checked.  A request to read interrupt
    contexts says how many, up to 255, while a message has room for one; at the
    fifth the handler would have the context read from the hardware stored past
    the end of the response, in whatever memory the physical function has there.
    The model stops at that point. *)
Theorem ring_count_unchecked `{HwAccess} idx func_id m resp st calls :
  fld hdr.op m = op_code MBOX_OP_INTR_CTXT_RD -> 4 < fld intr_ctxt.num_rings m ->
  exists s', qdma_mbox_pf_rcv_msg_handler idx func_id (Some m) resp st calls = Crash s'.
Proof.
  intros Ho Hn. set (s := mk_pf st calls m resp).
  assert (exists s', handle idx MBOX_OP_INTR_CTXT_RD s = Crash s') as [s' E].
  { cbn [handle]. unfold op_intr_ctxt_rd, rings, with_rv. unfold rcv at 1, gets.
    match goal with |- context [each_ring _ _ ?b] => set (body := b) end.
    unfold mbind at 1, M_bind at 1. unfold mbind at 1, M_bind at 1. cbn [rcv_msg].
    change (rcv_msg s) with m. set (n := Z.to_nat (fld intr_ctxt.num_rings m)).
    assert (4 < n)%nat as Hn4 by lia. clearbody n.
    assert (seq 0 n = [0%nat; 1%nat; 2%nat; 3%nat] ++ seq 4 (n - 4)) as ->.
    { change [0%nat; 1%nat; 2%nat; 3%nat] with (seq 0 4). rewrite <- seq_app. f_equal. lia. }
    destruct (read_rings [0%nat; 1%nat; 2%nat; 3%nat] (seq 4 (n - 4)) body 0 s) as (rv' & s1 & ->);
      [intros i; rewrite !elem_of_cons; intros Hi; destruct_or! Hi; subst; try lia;
       by apply not_elem_of_nil in Hi|done|].
    destruct (n - 4)%nat as [|k] eqn:Ek; [lia|].
    cbn [seq]. unfold body. rewrite ring_too_far. by eexists. }
  unfold qdma_mbox_pf_rcv_msg_handler, pf_handler, rcv at 1, gets, mbind at 1, M_bind at 1.
  cbn [rcv_msg]. rewrite Ho, dispatch_request by by left. fold s.
  unfold mbind, M_bind. rewrite E. by eexists.
Qed.

(** ** Concrete runs *)

Lemma compose_overruns_witness :
  exists m, qdma_mbox_compose_csr_read 6 (Some (2 ^ 1216 - 1)) = (0, Some m) /\ fld past_words m = 0.
Proof.
  apply (compose_overruns 6 0 0 0 0 0 0 0 0 QDMA_DEV_Q_TYPE_H2C QDMA_MBOX_CMPT_CTXT_NONE 0 0).
  unfold composers. rewrite !elem_of_cons. do 12 right. left. reflexivity.
Defined.

(** Function 4 asks to clear a queue of function 6. *)
Definition foreign_clear (t : mbox_cmpt_ctxt_type) : Z :=
  put hdr.src_func_id 4 (sample_clear t 110).

Lemma out_of_range_silent_witness :
  exists s', @qdma_mbox_pf_rcv_msg_handler sample_hw 0 1 (Some (foreign_clear QDMA_MBOX_CMPT_CTXT_NONE))
      0 sample_state [] = Ret 0 s' /\
    hw_calls s' = [] /\ qdma_mbox_vf_response_status (resp_msg s') = 0.
Proof.
  apply (@out_of_range_silent sample_hw 0 1 (foreign_clear QDMA_MBOX_CMPT_CTXT_NONE) MBOX_OP_QCTXT_CLR
           0 sample_state []).
  - apply elem_of_cons. left. reflexivity.
  - by vm_compute.
  - by vm_compute.
  - by vm_compute.
  - by vm_compute.
Defined.

Lemma cmpt_only_unchecked_witness :
  exists s', @qdma_mbox_pf_rcv_msg_handler sample_hw 0 1 (Some (foreign_clear QDMA_MBOX_CMPT_CTXT_ONLY))
      0 sample_state [] = Ret 0 s' /\
    hw_calls s' = [qdma_cmpt_ctx_conf (fld qctxt.qid_hw (foreign_clear QDMA_MBOX_CMPT_CTXT_ONLY)) None
                     QDMA_HW_ACCESS_CLEAR].
Proof.
  apply (@cmpt_only_unchecked sample_hw 0 1 (foreign_clear QDMA_MBOX_CMPT_CTXT_ONLY) MBOX_OP_QCTXT_CLR
           QDMA_HW_ACCESS_CLEAR 0 sample_state []).
  - apply elem_of_cons. left. reflexivity.
  - by vm_compute.
  - by vm_compute.
Defined.

(** Nor does the handler look at whose ring it is: functions 6 and 9, whatever queues they hold,
    both clear the context of ring 77. *)
Definition clear_ring (src r : Z) : Z :=
  put hdr.op 14 (put hdr.src_func_id src (put intr_ctxt.num_rings 1 (put (intr_ctxt.ring_index_list 0) r 0))).

Lemma any_ring_is_changed :
  let run src := @qdma_mbox_pf_rcv_msg_handler sample_hw 0 1 (Some (clear_ring src 77)) 0 sample_state [] in
  hw_calls (end_state (run 6)) = [qdma_indirect_intr_ctx_conf 77 None QDMA_HW_ACCESS_CLEAR] /\
  hw_calls (end_state (run 9)) = [qdma_indirect_intr_ctx_conf 77 None QDMA_HW_ACCESS_CLEAR] /\
  qdma_dev_qinfo_get 0 9 sample_state <> qdma_dev_qinfo_get 0 6 sample_state.
Proof. by vm_compute. Qed.

Lemma ring_count_unchecked_witness :
  exists s', @qdma_mbox_pf_rcv_msg_handler sample_hw 0 1
      (Some (put hdr.op 13 (put intr_ctxt.num_rings 5 0))) 0 sample_state [] = Crash s'.
Proof.
  apply (@ring_count_unchecked sample_hw 0 1 _ 0 sample_state []).
  - by vm_compute.
  - by vm_compute.
Defined.
