(* ===== verification/HwTable.v ===== *)
(** * HwTable: the table of functions ([qdma_hw_access_init])

    [struct qdma_hw_access] holds, for the hardware that was found, the functions of one of the
    access libraries; the functions a library does not replace are the soft QDMA's.  The
    mailbox of the physical function reaches the hardware through this table only
    (MboxPf): here the calls it makes are carried out by the libraries, on the registers,
    which is an implementation of the interface [HwAccess]. *)

From S2P Require Import Prelude QdmaErrors Mmio CLayout Contexts Fields Indirect Access.
From S2P Require Import EqdmaCtxt SoftCtxt S80Ctxt Csr.
From S2P Require EqdmaCsr SoftCsr S80Csr.
From S2P Require Import CsrProps RegList MboxMsg.
From S2P Require MboxPf.
Local Open Scope Z_scope.

Section table.
Context {S : Type} `{HasTrace S} `{MmioDevice}.

(** The functions of the table that the mailbox uses. *)
Record qdma_hw_access := mk_access {
  access_fmap_conf : Z -> option Z -> qdma_hw_access_type -> M S (Z * option Z);
  access_sw_ctx_conf : Z -> Z -> option Z -> qdma_hw_access_type -> M S (Z * option Z);
  access_hw_ctx_conf : Z -> Z -> option Z -> qdma_hw_access_type -> M S (Z * option Z);
  access_credit_ctx_conf : Z -> Z -> option Z -> qdma_hw_access_type -> M S (Z * option Z);
  access_pfetch_ctx_conf : Z -> option Z -> qdma_hw_access_type -> M S (Z * option Z);
  access_cmpt_ctx_conf : Z -> option Z -> qdma_hw_access_type -> M S (Z * option Z);
  access_indirect_intr_ctx_conf : Z -> option Z -> qdma_hw_access_type -> M S (Z * option Z);
  access_global_csr_conf : Z -> Z -> option (list Z) -> qdma_global_csr_type -> qdma_hw_access_type ->
    M S (Z * option (list Z));
  access_get_device_attributes : option Z -> M S (Z * option Z);
  access_read_reg_list : Z -> Z -> option (list (Z * Z)) -> M S (Z * option (list (Z * Z))) }.

Definition qdma_hw_access_init (ip_type : library) : qdma_hw_access :=
  match ip_type with
  | QDMA_SOFT =>
      mk_access qdma_fmap_conf qdma_sw_ctx_conf qdma_hw_ctx_conf qdma_credit_ctx_conf
        qdma_pfetch_ctx_conf qdma_cmpt_ctx_conf qdma_indirect_intr_ctx_conf
        SoftCsr.qdma_global_csr_conf SoftCsr.qdma_get_device_attributes qdma_read_reg_list
  | QDMA_S80 =>
      mk_access qdma_s80_hard_fmap_conf qdma_s80_hard_sw_ctx_conf qdma_s80_hard_hw_ctx_conf
        qdma_s80_hard_credit_ctx_conf qdma_s80_hard_pfetch_ctx_conf qdma_s80_hard_cmpt_ctx_conf
        qdma_s80_hard_indirect_intr_ctx_conf
        SoftCsr.qdma_global_csr_conf S80Csr.qdma_s80_hard_get_device_attributes qdma_s80_hard_read_reg_list
  | EQDMA =>
      mk_access qdma_fmap_conf eqdma_sw_ctx_conf eqdma_hw_ctx_conf eqdma_credit_ctx_conf
        eqdma_pfetch_ctx_conf eqdma_cmpt_ctx_conf eqdma_indirect_intr_ctx_conf
        SoftCsr.qdma_global_csr_conf EqdmaCsr.eqdma_get_device_attributes eqdma_read_reg_list
  end.

(** ** Carrying out a call of the mailbox *)

(** The object of a call: what is filled in when it reads, what it is given
    otherwise. *)
Definition object (access : qdma_hw_access_type) (data : option Z) (old : Z) : option Z :=
  match access with QDMA_HW_ACCESS_READ => Some old | _ => data end.

Definition filled (old : Z) (m : M S (Z * option Z)) : M S (Z * Z) :=
  '(rv, v) ← m;
  mret (rv, default old v).

Definition fmap_config (qbase qmax : Z) : Z := assign [(fmap_cfg.qbase, qbase); (fmap_cfg.qmax, qmax)] 0.

(** An array of words as one object. *)
Definition words_object (ws : list Z) (old : Z) : Z :=
  foldl (fun o '(i, w) => put (raw_word i) w o) old (zip (seq 0 (length ws)) ws).

(** The number of registers and the list, as they lie in the message. *)
Definition list_object (l : list (Z * Z)) (old : Z) : Z :=
  foldl (fun o '(i, (a, v)) => put (bytes_at (8 + 8 * Z.of_nat i) 4) v (put (bytes_at (4 + 8 * Z.of_nat i) 4) a o))
    (put (bytes_at 0 2) (Z.of_nat (length l)) old) (zip (seq 0 (length l)) l).

Definition run_call (t : qdma_hw_access)
    (c : MboxPf.hw_call) (old : Z) : M S (Z * Z) :=
  match c with
  | MboxPf.qdma_fmap_conf func_id qbase qmax a =>
      filled old (access_fmap_conf t func_id (Some (fmap_config qbase qmax)) a)
  | MboxPf.qdma_sw_ctx_conf c2h hw_qid data a => filled old (access_sw_ctx_conf t c2h hw_qid (object a data old) a)
  | MboxPf.qdma_hw_ctx_conf c2h hw_qid a => filled old (access_hw_ctx_conf t c2h hw_qid (object a None old) a)
  | MboxPf.qdma_credit_ctx_conf c2h hw_qid a =>
      filled old (access_credit_ctx_conf t c2h hw_qid (object a None old) a)
  | MboxPf.qdma_pfetch_ctx_conf hw_qid data a => filled old (access_pfetch_ctx_conf t hw_qid (object a data old) a)
  | MboxPf.qdma_cmpt_ctx_conf hw_qid data a => filled old (access_cmpt_ctx_conf t hw_qid (object a data old) a)
  | MboxPf.qdma_global_csr_conf index count ty a =>
      '(rv, v) ← access_global_csr_conf t index (Z.of_nat count) (Some (MboxPf.csr_words old)) ty a;
      mret (rv, words_object (default [] v) old)
  | MboxPf.qdma_indirect_intr_ctx_conf ring_index data a =>
      filled old (access_indirect_intr_ctx_conf t ring_index (object a data old) a)
  | MboxPf.qdma_get_device_attributes => filled old (access_get_device_attributes t (Some old))
  | MboxPf.qdma_read_reg_list is_vf group =>
      '(rv, l) ← access_read_reg_list t is_vf group (Some []);
      mret (rv, if rv =? 0 then list_object (default [] l) old else old)
  end.
End table.

Arguments qdma_hw_access S : clear implicits.

(** ** The interface *)

Section implementation.
Context (ip_type : library) (D : MmioDevice).
Local Existing Instance D.

Definition run (c : MboxPf.hw_call) (old : Z) : M trace (Z * Z) :=
  run_call (qdma_hw_access_init ip_type) c old.

Definition after {S A} (s : S) (r : outcome S A) : S :=
  match r with Ret _ s' | Exit s' | Crash s' | Hang s' => s' end.

Definition result (r : outcome trace (Z * Z)) : Z * Z := match r with Ret a _ => a | _ => (0, 0) end.

(** The history of register accesses that calls, the newest first, have led to. *)
Fixpoint replay (calls : list MboxPf.hw_call) : trace :=
  match calls with
  | [] => []
  | c :: calls' => let tr := replay calls' in after tr (run c 0 tr)
  end.

Definition library_access : MboxPf.HwAccess := {|
  MboxPf.hw_code calls c := (result (run c 0 (replay calls))).1;
  MboxPf.hw_output calls c old := (result (run c old (replay calls))).2 |}.
End implementation.
