(* ===== verification/HwTableProps.v ===== *)
(** * HwTableProps: from a message to the memory of contexts

    The libraries, behind the table, carry out the calls of the mailbox on the registers of a
    device that keeps contexts (IndirectMem).  A call changes the contexts it names and
    no others; together with what the mailbox calls (MboxProps), a virtual function
    reaches the contexts of its own queues only, down to the registers. *)

From stdpp Require Import gmap.
From S2P Require Import Prelude QdmaErrors ResourceMgmt ResourceSys ResourceProps Mmio CLayout Contexts Fields Indirect IndirectMem.
From S2P Require Import Codec Access EqdmaCtxt SoftCtxt S80Ctxt Formats Csr CsrProps RegList MboxMsg HwTable.
From S2P Require MboxPf MboxInv MboxProps.
Local Open Scope Z_scope.

(** ** Frames *)

Section frames.
Context (l : library) (D : MmioDevice).
Local Existing Instance D.
Context `{!@ContextMemory (csr_regs l) D}.
Implicit Types (s : trace) (P : Z * Z -> Prop).

Abbreviation memory s := (@contexts trace _ (csr_regs l) D _ s).
Abbreviation ind_read := (@indirect_reg_read trace _ D (csr_regs l)).
Abbreviation ind_write := (@indirect_reg_write trace _ D (csr_regs l)).
Abbreviation ind_clear := (@indirect_reg_clear trace _ D (csr_regs l)).
Abbreviation ind_inv := (@indirect_reg_invalidate trace _ D (csr_regs l)).

(** [m] returns, having changed contexts at keys in [P] at most. *)
Definition only P {A} (m : M trace A) : Prop :=
  forall s, exists a s', m s = Ret a s' /\ forall k, ~ P k -> memory s' !! k = memory s !! k.

Lemma only_ret P {A} (a : A) : only P (mret a).
Proof. intros s. by exists a, s. Qed.

Lemma only_bind P {A B} (m : M trace A) (k : A -> M trace B) :
  only P m -> (forall a, only P (k a)) -> only P (m ≫= k).
Proof.
  intros Hm Hk s. destruct (Hm s) as (a & s1 & E1 & H1). destruct (Hk a s1) as (b & s2 & E2 & H2).
  exists b, s2. rewrite (bind_Ret _ _ _ _ _ E1). split; [done|]. intros k' Hk'. by rewrite H2, H1.
Qed.

Lemma only_if P {A} (b : bool) (m1 m2 : M trace A) : only P m1 -> only P m2 -> only P (if b then m1 else m2).
Proof. by destruct b. Qed.

Lemma only_weaken P P' {A} (m : M trace A) : only P m -> (forall k, P k -> P' k) -> only P' m.
Proof.
  intros Hm HP s. destruct (Hm s) as (a & s' & E & Hk). exists a, s'. split; [done|].
  intros k HkP. apply Hk. auto.
Qed.

(** What writes nothing changes nothing. *)
Lemma only_reads P {A} (m : M trace A) :
  (forall s, exists a s', m s = Ret a s' /\ writes s' = writes s) -> only P m.
Proof.
  intros Hm s. destruct (Hm s) as (a & s' & E & W). exists a, s'. split; [done|].
  intros k _. unfold contexts, ind_of. change (trace_of s') with s'. change (trace_of s) with s. by rewrite W.
Qed.

Lemma only_ind_read P sel q n : (n <= @ind_num_regs (csr_regs l))%nat -> only P (ind_read sel q n).
Proof.
  intros Hn s. destruct (@indirect_read_run _ _ (csr_regs l) D _ sel q n s Hn) as (s' & E & Hm).
  eexists _, s'. split; [exact E|]. intros k _. by rewrite Hm.
Qed.

Lemma only_insert P (m : M trace Z) key :
  P key -> (forall s, exists s' c, m s = Ret 0 s' /\ memory s' = <[key := c]> (memory s)) -> only P m.
Proof.
  intros HP Hm s. destruct (Hm s) as (s' & c & E & Hk). exists 0, s'. split; [done|].
  intros k HkP. rewrite Hk. apply lookup_insert_ne. by intros ->.
Qed.

Lemma only_ind_write P sel q data : Forall is_u32 data -> P (ctxt_key sel q) -> only P (ind_write sel q data).
Proof.
  intros Hd HP. apply (only_insert _ _ _ HP). intros s.
  destruct (@indirect_write_run _ _ (csr_regs l) D _ sel q data s Hd) as (s' & E & Hk). eauto.
Qed.

Lemma only_ind_clear P sel q : P (ctxt_key sel q) -> only P (ind_clear sel q).
Proof.
  intros HP. apply (only_insert _ _ _ HP). intros s.
  destruct (@indirect_clear_run _ _ (csr_regs l) D _ sel q s) as (s' & E & Hk). eauto.
Qed.

Lemma only_ind_inv P sel q : P (ctxt_key sel q) -> only P (ind_inv sel q).
Proof.
  intros HP. apply (only_insert _ _ _ HP). intros s.
  destruct (@indirect_invalidate_run _ _ (csr_regs l) D _ sel q s) as (s' & E & Hk). eauto.
Qed.

(** A function that configures a context, from its parts. *)
Definition changes P (a : qdma_hw_access_type) (key : Z * Z) : Prop := a <> QDMA_HW_ACCESS_READ -> P key.

Lemma only_keeping P {A} (a : A) (m : M trace Z) : only P m -> only P (keeping a m).
Proof. intros Hm. apply only_bind; [done|]. intros. apply only_ret. Qed.

Lemma only_read P unpack n sel q ctxt :
  (n <= @ind_num_regs (csr_regs l))%nat -> only P (@context_read trace _ D (csr_regs l) unpack n sel q ctxt).
Proof.
  intros Hn. unfold context_read. destruct ctxt; [|apply only_ret].
  apply only_bind; [by apply only_ind_read|]. intros []. apply only_ret.
Qed.

Lemma only_write P ok pack sel q ctxt :
  (forall c, Forall is_u32 (pack c)) -> P (ctxt_key sel q) ->
  only P (@context_write trace _ D (csr_regs l) ok pack sel q ctxt).
Proof.
  intros Hp HP. unfold context_write. destruct ctxt; [|apply only_ret].
  apply only_if; [by apply only_ind_write|apply only_ret].
Qed.

Lemma only_access P a ctxt read write clear invalidate :
  (a = QDMA_HW_ACCESS_READ -> only P (read ctxt)) -> (a = QDMA_HW_ACCESS_WRITE -> only P (write ctxt)) ->
  (a = QDMA_HW_ACCESS_CLEAR -> only P clear) -> (a = QDMA_HW_ACCESS_INVALIDATE -> only P invalidate) ->
  only P (@by_access trace a ctxt read write clear invalidate).
Proof. destruct a; cbn [by_access]; intros; [auto|apply only_keeping; auto..]. Qed.

Lemma only_direction P c2h ctxt m : only P m -> only P (@direction_ok trace c2h ctxt m).
Proof. intros Hm. apply only_if; [apply only_ret|done]. Qed.
End frames.

(** The function maps of the hard QDMA are 256 registers, before the indirect ones. *)
Definition fmap_ok (l : library) (f : Z) : Prop := l = QDMA_S80 -> 0 <= f < 256.

(** The contexts a call may change. *)
Definition touched (l : library) (c : MboxPf.hw_call) (k : Z * Z) : Prop :=
  match c with
  | MboxPf.qdma_sw_ctx_conf c2h q _ a => a <> QDMA_HW_ACCESS_READ /\ k = ctxt_key (sw_sel c2h) q
  | MboxPf.qdma_hw_ctx_conf c2h q a => a <> QDMA_HW_ACCESS_READ /\ k = ctxt_key (hw_sel c2h) q
  | MboxPf.qdma_credit_ctx_conf c2h q a => a <> QDMA_HW_ACCESS_READ /\ k = ctxt_key (cr_sel c2h) q
  | MboxPf.qdma_pfetch_ctx_conf q _ a => a <> QDMA_HW_ACCESS_READ /\ k = ctxt_key QDMA_CTXT_SEL_PFTCH q
  | MboxPf.qdma_cmpt_ctx_conf q _ a => a <> QDMA_HW_ACCESS_READ /\ k = ctxt_key QDMA_CTXT_SEL_CMPT q
  | MboxPf.qdma_indirect_intr_ctx_conf r _ a => a <> QDMA_HW_ACCESS_READ /\ k = ctxt_key QDMA_CTXT_SEL_INT_COAL r
  | MboxPf.qdma_fmap_conf f _ _ a => a <> QDMA_HW_ACCESS_READ /\ (fmap_ok l f -> k = ctxt_key QDMA_CTXT_SEL_FMAP f)
  | MboxPf.qdma_global_csr_conf _ _ _ a => a <> QDMA_HW_ACCESS_READ
  | MboxPf.qdma_get_device_attributes | MboxPf.qdma_read_reg_list _ _ => False
  end.

(** The words of every format are 32-bit values. *)
Ltac codec_of_words pack :=
  lazymatch pack with
  | eqdma_sw_context_words => constr:(eqdma_sw_codec_good)
  | eqdma_pfetch_context_words => constr:(eqdma_pfetch_codec_good)
  | eqdma_cmpt_context_words => constr:(eqdma_cmpt_codec_good)
  | eqdma_indirect_intr_context_words => constr:(eqdma_intr_codec_good)
  | qdma_sw_context_words => constr:(qdma_sw_codec_good)
  | qdma_pfetch_context_words => constr:(qdma_pfetch_codec_good)
  | qdma_cmpt_context_words => constr:(qdma_cmpt_codec_good)
  | qdma_indirect_intr_context_words => constr:(qdma_intr_codec_good)
  | qdma_s80_hard_sw_context_words => constr:(qdma_s80_hard_sw_codec_good)
  | qdma_s80_hard_pfetch_context_words => constr:(qdma_s80_hard_pfetch_codec_good)
  | qdma_s80_hard_cmpt_context_words => constr:(qdma_s80_hard_cmpt_codec_good)
  | qdma_s80_hard_indirect_intr_context_words => constr:(qdma_s80_hard_intr_codec_good)
  | qdma_fmap_words => constr:(qdma_fmap_codec_good)
  end.

Ltac packed :=
  intros c;
  lazymatch goal with
  | |- Forall is_u32 (?pack c) => let good := codec_of_words pack in exact (proj2 (@cd_words _ good c))
  end.

Ltac key := split; [discriminate|reflexivity || intros _; reflexivity].

Ltac frame :=
  repeat lazymatch goal with
    | |- only _ _ _ (direction_ok _ _ _) => apply only_direction
    | |- only _ _ _ (by_access _ _ _ _ _ _) => apply only_access; intros ->
    | |- only _ _ _ (mret _) => apply only_ret
    | |- only _ _ _ unsupported => apply only_ret
    | |- only _ _ _ (context_read _ _ _ _ _) => apply only_read; cbv; lia
    | |- only _ _ _ (context_write _ _ _ _ _) => apply only_write; [packed|key]
    | |- only _ _ _ (indirect_reg_clear _ _) => apply only_ind_clear; key
    | |- only _ _ _ (indirect_reg_invalidate _ _) => apply only_ind_inv; key
    end.

Create HintDb conf.
#[local] Hint Unfold eqdma_sw_ctx_conf eqdma_sw_context_read eqdma_sw_context_clear
   eqdma_sw_context_invalidate eqdma_sw_context_write eqdma_pfetch_ctx_conf eqdma_pfetch_context_read
   eqdma_pfetch_context_clear eqdma_pfetch_context_invalidate eqdma_pfetch_context_write
   eqdma_cmpt_ctx_conf eqdma_cmpt_context_read eqdma_cmpt_context_clear eqdma_cmpt_context_invalidate
   eqdma_cmpt_context_write eqdma_hw_ctx_conf eqdma_hw_context_read eqdma_hw_context_clear
   eqdma_hw_context_invalidate eqdma_credit_ctx_conf eqdma_credit_context_read
   eqdma_credit_context_clear eqdma_credit_context_invalidate eqdma_indirect_intr_ctx_conf
   eqdma_indirect_intr_context_read eqdma_indirect_intr_context_clear
   eqdma_indirect_intr_context_invalidate eqdma_indirect_intr_context_write qdma_fmap_conf
   qdma_fmap_read qdma_fmap_write qdma_fmap_clear qdma_sw_ctx_conf qdma_sw_context_read
   qdma_sw_context_clear qdma_sw_context_invalidate qdma_sw_context_write qdma_pfetch_ctx_conf
   qdma_pfetch_context_read qdma_pfetch_context_clear qdma_pfetch_context_invalidate
   qdma_pfetch_context_write qdma_cmpt_ctx_conf qdma_cmpt_context_read qdma_cmpt_context_clear
   qdma_cmpt_context_invalidate qdma_cmpt_context_write qdma_hw_ctx_conf qdma_hw_context_read
   qdma_hw_context_clear qdma_hw_context_invalidate qdma_credit_ctx_conf qdma_credit_context_read
   qdma_credit_context_clear qdma_credit_context_invalidate qdma_indirect_intr_ctx_conf
   qdma_indirect_intr_context_read qdma_indirect_intr_context_clear
   qdma_indirect_intr_context_invalidate qdma_indirect_intr_context_write qdma_s80_hard_fmap_conf
   qdma_s80_hard_fmap_read qdma_s80_hard_fmap_write qdma_s80_hard_fmap_clear
   qdma_s80_hard_sw_ctx_conf qdma_s80_hard_sw_context_read qdma_s80_hard_sw_context_clear
   qdma_s80_hard_sw_context_invalidate qdma_s80_hard_sw_context_write qdma_s80_hard_pfetch_ctx_conf
   qdma_s80_hard_pfetch_context_read qdma_s80_hard_pfetch_context_clear
   qdma_s80_hard_pfetch_context_invalidate qdma_s80_hard_pfetch_context_write
   qdma_s80_hard_cmpt_ctx_conf qdma_s80_hard_cmpt_context_read qdma_s80_hard_cmpt_context_clear
   qdma_s80_hard_cmpt_context_invalidate qdma_s80_hard_cmpt_context_write qdma_s80_hard_hw_ctx_conf
   qdma_s80_hard_hw_context_read qdma_s80_hard_hw_context_clear qdma_s80_hard_hw_context_invalidate
   qdma_s80_hard_credit_ctx_conf qdma_s80_hard_credit_context_read qdma_s80_hard_credit_context_clear
   qdma_s80_hard_credit_context_invalidate qdma_s80_hard_indirect_intr_ctx_conf
   qdma_s80_hard_indirect_intr_context_read qdma_s80_hard_indirect_intr_context_clear
   qdma_s80_hard_indirect_intr_context_invalidate qdma_s80_hard_indirect_intr_context_write qdma_s80_hard_qid2vec_read : conf.

Section calls.
Context (l : library) (D : MmioDevice).
Local Existing Instance D.
Context `{!@ContextMemory (csr_regs l) D}.

Lemma only_filled P old m : only l D P m -> only l D P (filled old m).
Proof. intros Hm. apply only_bind; [done|]. intros []. apply only_ret. Qed.

(** The table keeps the soft QDMA's function for global registers. *)
Lemma only_csr index count vals ty a :
  only l D (fun _ => a <> QDMA_HW_ACCESS_READ) (SoftCsr.qdma_global_csr_conf index count vals ty a).
Proof.
  change (SoftCsr.qdma_global_csr_conf index count vals ty a) with (csr_conf_of QDMA_SOFT index count vals ty a).
  destruct a; rewrite csr_conf_eq; cbn [csr_access]; [|intros s|apply only_ret..].
  - apply only_reads. intros s. unfold csr_read. destruct vals; [|by eexists _, s].
    case_match; [by eexists _, s|]. case_match; [by eexists _, s|].
    destruct (attrs_run QDMA_SOFT ty s) as (caps & s0 & E & W & _). rewrite (bind_Ret _ _ _ _ _ E).
    case_match; [|by eexists _, s0].
    destruct (read_csr_run (table ty) index (Z.to_nat count) s0) as (vs & s1 & E1 & _ & W1).
    rewrite (bind_Ret _ _ _ _ _ E1). eexists _, s1. split; [done|]. exact (eq_trans W1 W).
  - assert (exists a s', csr_write 16 (table ty) (attrs_of QDMA_SOFT ty) (have_of ty) index count vals s = Ret a s')
      as (a & s' & E).
    { unfold csr_write. destruct vals; [|by eexists _, s].
      case_match; [by eexists _, s|]. case_match; [by eexists _, s|].
      destruct (attrs_run QDMA_SOFT ty s) as (caps & s0 & E & _ & _). rewrite (bind_Ret _ _ _ _ _ E).
      case_match; [|by eexists _, s0].
      destruct (write_csr_run (table ty) index (Z.to_nat count) l0 s0) as (s1 & E1 & _).
      rewrite (bind_Ret _ _ _ _ _ E1). by eexists _, s1. }
    rewrite (bind_Ret _ _ _ _ _ E). eexists _, s'. split; [done|]. intros k Hk. by destruct Hk.
Qed.

Lemma only_reg_list P is_vf group r : only l D P (reg_list_of l is_vf group r).
Proof.
  apply only_reads. intros s. destruct (reg_list_run l is_vf group r s) as (rv & r' & s' & E & W & _). eauto.
Qed.
End calls.

Ltac call_only :=
  unfold run; cbn [run_call qdma_hw_access_init access_fmap_conf access_sw_ctx_conf access_hw_ctx_conf
    access_credit_ctx_conf access_pfetch_ctx_conf access_cmpt_ctx_conf access_indirect_intr_ctx_conf
    access_global_csr_conf access_get_device_attributes access_read_reg_list].

(** A function map of the hard QDMA is set in its register, which is not one of
    the indirect ones. *)
Lemma only_s80_fmap (D : MmioDevice) `{!@ContextMemory (csr_regs QDMA_S80) D} f qbase qmax a v :
  a <> QDMA_HW_ACCESS_READ ->
  only QDMA_S80 D (touched QDMA_S80 (MboxPf.qdma_fmap_conf f qbase qmax a))
    (write32_data (qdma_s80_hard_fmap_reg f) v;; mret 0).
Proof.
  intros Ha s. exists 0, (log (Wr (qdma_s80_hard_fmap_reg f) (u32 v)) s). split; [done|].
  intros k Hk. destruct (decide (0 <= f < 256)) as [Hf|Hf].
  2: { destruct Hk. split; [done|]. intros Hok. by destruct Hf; apply Hok. }
  destruct (ind_of_write QDMA_S80 D (qdma_s80_hard_fmap_reg f) v s) as (s' & [= <-] & Hm);
    [..|exact (f_equal (fun memory => memory !! k) Hm)].
  all: unfold qdma_s80_hard_fmap_reg, QDMA_S80_HARD_TRQ_SEL_FMAP_0_ADDR, QDMA_S80_HARD_REG_TRQ_SEL_FMAP_STEP;
    rewrite u32_small by (unfold is_u32; lia); intros; unfold ind_data_reg; cbn; lia.
Qed.

(** A call changes the contexts it names, and no other. *)
Lemma run_call_only l (D : MmioDevice) `{!@ContextMemory (csr_regs l) D} c old :
  only l D (touched l c) (run l D c old).
Proof.
  destruct c; call_only.
  10: { apply only_bind; [destruct l; apply only_reg_list|intros []; apply only_ret]. }
  9: { apply only_filled. apply only_reads. intros s. destruct l; (eexists _, _; split; [reflexivity|done]). }
  7: { apply only_bind; [destruct l; exact (only_csr _ D _ _ _ _ _)|intros []; apply only_ret]. }
  all: apply only_filled; destruct l; call_only; autounfold with conf; frame.
  - apply only_reads. intros s. eexists _, _. by split.
  - by apply only_s80_fmap.
  - by apply only_s80_fmap.
  - cbn [object]. apply only_bind; [apply only_ind_read; cbv; lia|]. intros [rv w]. apply only_if; [apply only_ret|].
    apply only_bind; [apply only_read; cbv; lia|]. intros []. apply only_ret.
Qed.

(** ** Virtual functions are apart, in the memory of contexts *)

Section isolation.
Context (l : library) (D : MmioDevice).
Local Existing Instance D.
Context `{!@ContextMemory (csr_regs l) D}.

Abbreviation memory s := (@contexts trace _ (csr_regs l) D _ s).

(** The memory after calls, the newest first. *)
Definition memory_after (calls : list MboxPf.hw_call) : gmap (Z * Z) (list Z) := memory (replay l D calls).

Lemma replay_only new calls k :
  Forall (fun c => ~ touched l c k) new -> memory_after (new ++ calls) !! k = memory_after calls !! k.
Proof.
  induction 1 as [|c new Hc _ IH]; [done|]. rewrite <- IH. unfold memory_after. cbn [app replay].
  destruct (run_call_only l D c 0 (replay l D (new ++ calls))) as (a & s' & -> & Hk). by apply Hk.
Qed.

(** Queues in range are those the resource manager gives for the function. *)
Lemma in_range_info idx fid q st :
  qdma_dev_is_queue_in_range idx fid q st = QDMA_DEV_Q_IN_RANGE ->
  exists qb n, qdma_dev_qinfo_get idx fid st = (0, Some (qb, n)) /\ n <> 0 /\ q < u32 (qb + n).
Proof.
  unfold qdma_dev_is_queue_in_range, qdma_dev_qinfo_get. unfold with_dev.
  repeat (case_match; try done). intros _. eexists _, _. split; [done|].
  match goal with E : _ && _ && _ = true |- _ => apply andb_prop in E; destruct E as [E _] end.
  match goal with E : _ && _ = true |- _ => apply andb_prop in E; destruct E as [E1 E2] end.
  split; [by apply Z.eqb_neq, negb_true_iff|by apply Z.ltb_lt].
Qed.

Lemma key_eq sel q sel' q' :
  0 <= q < 2048 -> 0 <= q' < 2048 -> ctxt_key sel q = ctxt_key sel' q' -> cmd_sel_code sel = cmd_sel_code sel' /\ q = q'.
Proof. unfold ctxt_key. change (2 ^ 11) with 2048. intros ?? [= ->]. rewrite !Z.mod_small in * by lia. done. Qed.

Lemma queue_sel_apart sel sel' q q' :
  sel ∈ queue_sels -> 8 <= cmd_sel_code sel' -> ctxt_key sel q <> ctxt_key sel' q'.
Proof.
  intros Hsel Hs [= E _]. assert (cmd_sel_code sel < 8); [|lia].
  revert Hsel. rewrite list_elem_of_In. cbn. intuition subst; vm_compute; reflexivity.
Qed.

(** A confined call leaves the contexts of the queues that are not in range. *)
Lemma confined_untouched idx src st G c sel q :
  (forall qb n, qdma_dev_qinfo_get idx src st = (0, Some (qb, n)) -> n <> 0 -> u32 (qb + n) <= 2048) ->
  fmap_ok l src -> MboxInv.confined (MboxProps.in_range_for idx src st) G src c ->
  sel ∈ queue_sels -> 0 <= q < 2048 -> qdma_dev_is_queue_in_range idx src q st = QDMA_DEV_Q_OUT_OF_RANGE ->
  ~ touched l c (ctxt_key sel q).
Proof.
  intros Hmax Hf (Hq & Hm & Hg & _) Hsel Hqr Hout.
  assert (forall sel' q', MboxInv.queue_changed c = Some q' -> ctxt_key sel q <> ctxt_key sel' q') as Hother.
  { intros sel' q' Hc E. destruct (Hq q' Hc) as [Hu Hin]. destruct (in_range_info _ _ _ _ Hin) as (qb & n & Hi & Hn & Hlt).
    specialize (Hmax _ _ Hi Hn). destruct (key_eq sel q sel' q') as [_ ->]; [done| |done|].
    - unfold is_u32 in Hu. lia.
    - by rewrite Hout in Hin. }
  destruct c; cbn [touched]; try (intros [Ha E]; revert E; apply Hother; cbn [MboxInv.queue_changed];
    by rewrite bool_decide_eq_false_2); [| | |by intros []..].
  - intros [_ E]. rewrite (Hm func_id eq_refl) in E. by apply (queue_sel_apart sel QDMA_CTXT_SEL_FMAP q src) in Hsel; auto.
  - intros Ha. cbn in Hg. by rewrite bool_decide_eq_false_2 in Hg.
  - intros [_ E]. by apply (queue_sel_apart sel QDMA_CTXT_SEL_INT_COAL q ring_index) in Hsel.
Qed.

(** C2. Virtual functions cannot touch each other's contexts, down to the registers.
    Whichever access library is behind the table, on any device that keeps contexts,
    a message leaves in the device's memory every context of every queue that is not in
    range for the function the hardware reports as its sender; unless the message asks to drop a
    completion context on its own.  The queues of the sender must be numbers the
    command register can name, which has eleven bits for them, and on the
    hard QDMA its number that of one of the 256 function maps. *)
Theorem vf_contexts_isolated idx func_id m resp st calls sel q :
  let src := fld hdr.src_func_id m in
  let calls' := MboxPf.hw_calls (end_state (@MboxPf.qdma_mbox_pf_rcv_msg_handler (library_access l D) idx func_id
                                     (Some m) resp st calls)) in
  ~ MboxProps.drops_cmpt_only m -> fmap_ok l src ->
  (forall qb n, qdma_dev_qinfo_get idx src st = (0, Some (qb, n)) -> n <> 0 -> u32 (qb + n) <= 2048) ->
  sel ∈ queue_sels -> 0 <= q < 2048 -> qdma_dev_is_queue_in_range idx src q st = QDMA_DEV_Q_OUT_OF_RANGE ->
  memory_after calls' !! ctxt_key sel q = memory_after calls !! ctxt_key sel q.
Proof.
  intros src calls' Hn Hf Hmax Hsel Hq Hout. unfold calls'.
  destruct (@MboxProps.contexts_confined_calls (library_access l D) idx func_id m resp st calls Hn) as (new & Hnew & ->).
  apply replay_only. eapply Forall_impl; [exact Hnew|]. intros c Hc.
  by apply (confined_untouched idx src st (MboxProps.rings_named m)).
Qed.
End isolation.

(** Function 6 clears the contexts of its queue 110; those of queue 5 are as they were. *)
Lemma vf_contexts_isolated_witness :
  let D := @memory_device eqdma_regs in
  let m := MboxProps.sample_clear QDMA_MBOX_CMPT_CTXT_NONE 110 in
  let calls' := MboxPf.hw_calls (end_state (@MboxPf.qdma_mbox_pf_rcv_msg_handler (library_access EQDMA D) 0 1
                                     (Some m) 0 sample_state [])) in
  memory_after EQDMA D calls' !! ctxt_key QDMA_CTXT_SEL_SW_H2C 110 = Some (replicate 8 0) /\
  memory_after EQDMA D calls' !! ctxt_key QDMA_CTXT_SEL_SW_H2C 5 = memory_after EQDMA D [] !! ctxt_key QDMA_CTXT_SEL_SW_H2C 5.
Proof.
  intros D m calls'. split; [vm_compute; reflexivity|].
  refine (vf_contexts_isolated EQDMA D 0 1 m 0 sample_state [] QDMA_CTXT_SEL_SW_H2C 5 _ _ _ _ _ _).
  - intros [_ H]. by vm_compute in H.
  - discriminate.
  - intros qb n Hi _. vm_compute in Hi. injection Hi as <- <-. by vm_compute.
  - apply list_elem_of_In. cbn. tauto.
  - lia.
  - by vm_compute.
Defined.
