(* ===== verification/Descq.v ===== *)
(** * Descq: descriptor queues ([qdma_descq.c], [qdma_descq.h], [libqdma_export.c])

    A queue of the driver is a ring of descriptors in host memory that the
    driver fills and the DMA engine empties.  Requests (scatter-gather lists) wait
    in [work_list] until all their descriptors are in the ring, then in
    [pend_list] until the engine has consumed them; the engine writes its
    consumer index to host memory, and the driver learns from it how many
    descriptors are free again.  Modelled are the queues for memory-mapped
    transfers in both directions and for streaming to the card.

    The engine is a parameter ([DmaEngine]): what the driver finds in the
    completion status, given everything that happened to the queue so far.  The
    doorbells are those of the access libraries ([SoftCsr], [S80Csr]).  The spin
    lock of a queue makes its entry points run one after the other.  A user-logic
    callback that fills descriptors ([fp_bypass_desc_fill]) is not modelled: the
    queue has none. *)

From S2P Require Import Prelude QdmaErrors Mmio CLayout Contexts Csr SoftCsr S80Csr.
Local Open Scope Z_scope.

(** ** Data *)

(** Codes of [enum queue_type_t]. *)
Definition Q_H2C : Z := 0.
Definition Q_C2H : Z := 1.
Definition Q_CMPT : Z := 2.

Inductive q_state_t := Q_STATE_DISABLED | Q_STATE_ENABLED | Q_STATE_ONLINE.

Inductive qdma_drv_mode :=
| AUTO_MODE | POLL_MODE | DIRECT_INTR_MODE | INDIRECT_INTR_MODE | LEGACY_INTR_MODE.

#[export] Instance q_state_eq_dec : EqDecision q_state_t.
Proof. solve_decision. Defined.
#[export] Instance drv_mode_eq_dec : EqDecision qdma_drv_mode.
Proof. solve_decision. Defined.

(** A piece of host memory: its page, the offset and length in the page, and its
    address for the device. *)
Record qdma_sw_sg := mk_sg { sg_pg : Z; sg_offset_ : Z; sg_len : Z; sg_dma_addr : Z }.

Definition set_dma_addr (a : Z) (g : qdma_sw_sg) : qdma_sw_sg :=
  mk_sg (sg_pg g) (sg_offset_ g) (sg_len g) a.

(** The part of a request the driver keeps its progress in.  [cb_sg] is the next
    entry of the list, as an index. *)
Record qdma_sgt_req_cb := mk_cb {
  desc_nr : Z;
  offset : Z;
  cb_sg_offset : Z;
  cb_sg : option Z;
  status : Z;
  done_ : bool;
  unmap_needed : bool }.

Definition cb_zero : qdma_sgt_req_cb := mk_cb 0 0 0 None 0 false false.

(** A request; [req_id] stands for its address.  Its list has [sgcnt]
    entries.  [fp_done] tells whether it has a callback. *)
Record qdma_request := mk_req {
  req_id : nat;
  fp_done : bool;
  timeout_ms : Z;
  count : Z;
  ep_addr : Z;
  write : bool;
  dma_mapped : bool;
  check_qstate_disabled : bool;
  sgl : list qdma_sw_sg }.

Definition sgcnt (r : qdma_request) : Z := Z.of_nat (length (sgl r)).

Definition set_sgl (l : list qdma_sw_sg) (r : qdma_request) : qdma_request :=
  mk_req (req_id r) (fp_done r) (timeout_ms r) (count r) (ep_addr r) (write r) (dma_mapped r)
    (check_qstate_disabled r) l.

(** A request in a list of the queue, with its progress. *)
Record job := mk_job { req : qdma_request; cb : qdma_sgt_req_cb }.

Definition set_cb (c : qdma_sgt_req_cb) (j : job) : job := mk_job (req j) c.
Definition jid (j : job) : nat := req_id (req j).

(** Descriptors. *)
Record qdma_mm_desc := mk_mm { src_addr : Z; flag_len : Z; rsvd0 : Z; dst_addr : Z; rsvd1 : Z }.
Record qdma_h2c_desc := mk_h2c {
  cdh_flags : Z; pld_len : Z; h2c_len : Z; flags : Z; h2c_src_addr : Z }.

Inductive slot := MmSlot (d : qdma_mm_desc) | H2cSlot (d : qdma_h2c_desc).

Definition S_DESC_F_DV : Z := 28.
Definition S_DESC_F_SOP : Z := 29.
Definition S_DESC_F_EOP : Z := 30.
Definition S_H2C_DESC_F_SOP : Z := 1.
Definition S_H2C_DESC_F_EOP : Z := 2.
Definition S_H2C_DESC_F_ZERO_CDH : Z := 13.
Definition QDMA_DESC_BLEN_BITS : Z := 28.
Definition QDMA_DESC_BLEN_MAX : Z := Z.shiftl 1 QDMA_DESC_BLEN_BITS - 1.

(** The page size of the kernel on x86-64. *)
Definition PAGE_SIZE : Z := 4096.

(** The configuration the code below reads.  [rngsz] is the number of
    descriptors; [c2h_packet] tells whether [fp_descq_c2h_packet] is set;
    [drv_mode], [hw_hard] and [is_vf] belong to the device. *)
Record queue_conf := mk_conf {
  qidx : Z;
  q_type : Z;
  st : bool;
  rngsz : Z;
  aperture_size : Z;
  pidx_acc : Z;
  desc_bypass : bool;
  ping_pong_en : bool;
  c2h_packet : bool;
  drv_mode : qdma_drv_mode;
  hw_hard : bool;
  is_vf : Z }.

Inductive dma_event := DmaMap (pg addr : Z) | DmaUnmap (addr : Z).

Record qdma_descq := mk_descq {
  conf : queue_conf;
  q_state : q_state_t;
  q_stop_wait : bool;
  proc_req_running : bool;
  pend_list_empty : bool;
  avail : Z;
  pidx : Z;
  cidx : Z;
  credit : Z;
  desc_pend : Z;
  pidx_info : Z;  (* [struct qdma_q_pidx_reg_info], as the doorbells take it *)
  work_list : list job;
  work_req_pend : Z;
  pend_list : list job;
  desc : list slot;  (* the ring *)
  total_cmpl_descs : Z;
  total_pkts : list Z;  (* counters of the device: memory-mapped H2C and C2H, streaming H2C and C2H *)
  finished : list job;  (* requests that are done, the last one first *)
  dma_log : list dma_event;  (* mappings of pages, the newest first *)
  stamps : list (Z * Z);  (* time stamps written into pages: address, time *)
  tx_pos : option Z;  (* the variable [tx_time_pkt_offset] of the function for streaming *)
  regs : trace }.  (* accesses to registers *)

Definition set_conf (v : queue_conf) (s : qdma_descq) : qdma_descq :=
  mk_descq v (q_state s) (q_stop_wait s) (proc_req_running s) (pend_list_empty s) (avail s) (pidx s)
    (cidx s) (credit s) (desc_pend s) (pidx_info s) (work_list s) (work_req_pend s) (pend_list s)
    (desc s) (total_cmpl_descs s) (total_pkts s) (finished s) (dma_log s) (stamps s) (tx_pos s)
    (regs s).
Definition set_q_state (v : q_state_t) (s : qdma_descq) : qdma_descq :=
  mk_descq (conf s) v (q_stop_wait s) (proc_req_running s) (pend_list_empty s) (avail s) (pidx s)
    (cidx s) (credit s) (desc_pend s) (pidx_info s) (work_list s) (work_req_pend s) (pend_list s)
    (desc s) (total_cmpl_descs s) (total_pkts s) (finished s) (dma_log s) (stamps s) (tx_pos s)
    (regs s).
Definition set_q_stop_wait (v : bool) (s : qdma_descq) : qdma_descq :=
  mk_descq (conf s) (q_state s) v (proc_req_running s) (pend_list_empty s) (avail s) (pidx s) (cidx
    s) (credit s) (desc_pend s) (pidx_info s) (work_list s) (work_req_pend s) (pend_list s) (desc s)
    (total_cmpl_descs s) (total_pkts s) (finished s) (dma_log s) (stamps s) (tx_pos s) (regs s).
Definition set_proc_req_running (v : bool) (s : qdma_descq) : qdma_descq :=
  mk_descq (conf s) (q_state s) (q_stop_wait s) v (pend_list_empty s) (avail s) (pidx s) (cidx s)
    (credit s) (desc_pend s) (pidx_info s) (work_list s) (work_req_pend s) (pend_list s) (desc s)
    (total_cmpl_descs s) (total_pkts s) (finished s) (dma_log s) (stamps s) (tx_pos s) (regs s).
Definition set_pend_list_empty (v : bool) (s : qdma_descq) : qdma_descq :=
  mk_descq (conf s) (q_state s) (q_stop_wait s) (proc_req_running s) v (avail s) (pidx s) (cidx s)
    (credit s) (desc_pend s) (pidx_info s) (work_list s) (work_req_pend s) (pend_list s) (desc s)
    (total_cmpl_descs s) (total_pkts s) (finished s) (dma_log s) (stamps s) (tx_pos s) (regs s).
Definition set_avail (v : Z) (s : qdma_descq) : qdma_descq :=
  mk_descq (conf s) (q_state s) (q_stop_wait s) (proc_req_running s) (pend_list_empty s) v (pidx s)
    (cidx s) (credit s) (desc_pend s) (pidx_info s) (work_list s) (work_req_pend s) (pend_list s)
    (desc s) (total_cmpl_descs s) (total_pkts s) (finished s) (dma_log s) (stamps s) (tx_pos s)
    (regs s).
Definition set_pidx (v : Z) (s : qdma_descq) : qdma_descq :=
  mk_descq (conf s) (q_state s) (q_stop_wait s) (proc_req_running s) (pend_list_empty s) (avail s) v
    (cidx s) (credit s) (desc_pend s) (pidx_info s) (work_list s) (work_req_pend s) (pend_list s)
    (desc s) (total_cmpl_descs s) (total_pkts s) (finished s) (dma_log s) (stamps s) (tx_pos s)
    (regs s).
Definition set_cidx (v : Z) (s : qdma_descq) : qdma_descq :=
  mk_descq (conf s) (q_state s) (q_stop_wait s) (proc_req_running s) (pend_list_empty s) (avail s)
    (pidx s) v (credit s) (desc_pend s) (pidx_info s) (work_list s) (work_req_pend s) (pend_list s)
    (desc s) (total_cmpl_descs s) (total_pkts s) (finished s) (dma_log s) (stamps s) (tx_pos s)
    (regs s).
Definition set_credit (v : Z) (s : qdma_descq) : qdma_descq :=
  mk_descq (conf s) (q_state s) (q_stop_wait s) (proc_req_running s) (pend_list_empty s) (avail s)
    (pidx s) (cidx s) v (desc_pend s) (pidx_info s) (work_list s) (work_req_pend s) (pend_list s)
    (desc s) (total_cmpl_descs s) (total_pkts s) (finished s) (dma_log s) (stamps s) (tx_pos s)
    (regs s).
Definition set_desc_pend (v : Z) (s : qdma_descq) : qdma_descq :=
  mk_descq (conf s) (q_state s) (q_stop_wait s) (proc_req_running s) (pend_list_empty s) (avail s)
    (pidx s) (cidx s) (credit s) v (pidx_info s) (work_list s) (work_req_pend s) (pend_list s) (desc
    s) (total_cmpl_descs s) (total_pkts s) (finished s) (dma_log s) (stamps s) (tx_pos s) (regs s).
Definition set_pidx_info (v : Z) (s : qdma_descq) : qdma_descq :=
  mk_descq (conf s) (q_state s) (q_stop_wait s) (proc_req_running s) (pend_list_empty s) (avail s)
    (pidx s) (cidx s) (credit s) (desc_pend s) v (work_list s) (work_req_pend s) (pend_list s) (desc
    s) (total_cmpl_descs s) (total_pkts s) (finished s) (dma_log s) (stamps s) (tx_pos s) (regs s).
Definition set_work_list (v : list job) (s : qdma_descq) : qdma_descq :=
  mk_descq (conf s) (q_state s) (q_stop_wait s) (proc_req_running s) (pend_list_empty s) (avail s)
    (pidx s) (cidx s) (credit s) (desc_pend s) (pidx_info s) v (work_req_pend s) (pend_list s) (desc
    s) (total_cmpl_descs s) (total_pkts s) (finished s) (dma_log s) (stamps s) (tx_pos s) (regs s).
Definition set_work_req_pend (v : Z) (s : qdma_descq) : qdma_descq :=
  mk_descq (conf s) (q_state s) (q_stop_wait s) (proc_req_running s) (pend_list_empty s) (avail s)
    (pidx s) (cidx s) (credit s) (desc_pend s) (pidx_info s) (work_list s) v (pend_list s) (desc s)
    (total_cmpl_descs s) (total_pkts s) (finished s) (dma_log s) (stamps s) (tx_pos s) (regs s).
Definition set_pend_list (v : list job) (s : qdma_descq) : qdma_descq :=
  mk_descq (conf s) (q_state s) (q_stop_wait s) (proc_req_running s) (pend_list_empty s) (avail s)
    (pidx s) (cidx s) (credit s) (desc_pend s) (pidx_info s) (work_list s) (work_req_pend s) v (desc
    s) (total_cmpl_descs s) (total_pkts s) (finished s) (dma_log s) (stamps s) (tx_pos s) (regs s).
Definition set_desc (v : list slot) (s : qdma_descq) : qdma_descq :=
  mk_descq (conf s) (q_state s) (q_stop_wait s) (proc_req_running s) (pend_list_empty s) (avail s)
    (pidx s) (cidx s) (credit s) (desc_pend s) (pidx_info s) (work_list s) (work_req_pend s)
    (pend_list s) v (total_cmpl_descs s) (total_pkts s) (finished s) (dma_log s) (stamps s) (tx_pos
    s) (regs s).
Definition set_total_cmpl_descs (v : Z) (s : qdma_descq) : qdma_descq :=
  mk_descq (conf s) (q_state s) (q_stop_wait s) (proc_req_running s) (pend_list_empty s) (avail s)
    (pidx s) (cidx s) (credit s) (desc_pend s) (pidx_info s) (work_list s) (work_req_pend s)
    (pend_list s) (desc s) v (total_pkts s) (finished s) (dma_log s) (stamps s) (tx_pos s) (regs s).
Definition set_total_pkts (v : list Z) (s : qdma_descq) : qdma_descq :=
  mk_descq (conf s) (q_state s) (q_stop_wait s) (proc_req_running s) (pend_list_empty s) (avail s)
    (pidx s) (cidx s) (credit s) (desc_pend s) (pidx_info s) (work_list s) (work_req_pend s)
    (pend_list s) (desc s) (total_cmpl_descs s) v (finished s) (dma_log s) (stamps s) (tx_pos s)
    (regs s).
Definition set_finished (v : list job) (s : qdma_descq) : qdma_descq :=
  mk_descq (conf s) (q_state s) (q_stop_wait s) (proc_req_running s) (pend_list_empty s) (avail s)
    (pidx s) (cidx s) (credit s) (desc_pend s) (pidx_info s) (work_list s) (work_req_pend s)
    (pend_list s) (desc s) (total_cmpl_descs s) (total_pkts s) v (dma_log s) (stamps s) (tx_pos s)
    (regs s).
Definition set_dma_log (v : list dma_event) (s : qdma_descq) : qdma_descq :=
  mk_descq (conf s) (q_state s) (q_stop_wait s) (proc_req_running s) (pend_list_empty s) (avail s)
    (pidx s) (cidx s) (credit s) (desc_pend s) (pidx_info s) (work_list s) (work_req_pend s)
    (pend_list s) (desc s) (total_cmpl_descs s) (total_pkts s) (finished s) v (stamps s) (tx_pos s)
    (regs s).
Definition set_stamps (v : list (Z * Z)) (s : qdma_descq) : qdma_descq :=
  mk_descq (conf s) (q_state s) (q_stop_wait s) (proc_req_running s) (pend_list_empty s) (avail s)
    (pidx s) (cidx s) (credit s) (desc_pend s) (pidx_info s) (work_list s) (work_req_pend s)
    (pend_list s) (desc s) (total_cmpl_descs s) (total_pkts s) (finished s) (dma_log s) v (tx_pos s)
    (regs s).
Definition set_tx_pos (v : option Z) (s : qdma_descq) : qdma_descq :=
  mk_descq (conf s) (q_state s) (q_stop_wait s) (proc_req_running s) (pend_list_empty s) (avail s)
    (pidx s) (cidx s) (credit s) (desc_pend s) (pidx_info s) (work_list s) (work_req_pend s)
    (pend_list s) (desc s) (total_cmpl_descs s) (total_pkts s) (finished s) (dma_log s) (stamps s) v
    (regs s).
Definition set_regs (v : trace) (s : qdma_descq) : qdma_descq :=
  mk_descq (conf s) (q_state s) (q_stop_wait s) (proc_req_running s) (pend_list_empty s) (avail s)
    (pidx s) (cidx s) (credit s) (desc_pend s) (pidx_info s) (work_list s) (work_req_pend s)
    (pend_list s) (desc s) (total_cmpl_descs s) (total_pkts s) (finished s) (dma_log s) (stamps s)
    (tx_pos s) v.

#[export] Instance descq_has_trace : HasTrace qdma_descq.
Proof. by refine {| trace_of := regs; with_trace := set_regs |}; intros []. Defined.

(** The hardware and the kernel: the consumer index in the completion status
    of a queue, the time stamp counter, and the address a page is mapped to. *)
Class DmaEngine := {
  cmpl_status_cidx : qdma_descq -> Z;
  rdtsc_gettime : qdma_descq -> Z;
  dma_map_page : Z -> Z }.

(** What [dma_map_page] returns when it fails. *)
Definition DMA_MAPPING_ERROR : Z := 18446744073709551615.

(** ** Indices of a ring *)

Definition ring_idx_delta (new old rngsz : Z) : Z :=
  if new >=? old then u32 (new - old) else u32 (new + (rngsz - old)).

Definition ring_idx_incr (idx cnt rngsz : Z) : Z :=
  let idx := u32 (idx + cnt) in if idx >=? rngsz then u32 (idx - rngsz) else idx.

Definition ring_idx_decr (idx cnt rngsz : Z) : Z :=
  if idx >=? cnt then u32 (idx - cnt) else u32 (rngsz - (cnt - idx)).

Definition incr_pidx (pidx incr_val ring_sz : Z) : Z :=
  let pidx := u32 (pidx + incr_val) in if pidx >=? ring_sz then u32 (pidx - ring_sz) else pidx.

(** ** Requests *)

(** The loop of [qdma_sgl_find_offset], from entry [i] with [len] bytes before
    it: the entry that [offset] lies in, and where. *)
Fixpoint find_offset_from (l : list qdma_sw_sg) (i len offset : Z) : Z * Z :=
  match l with
  | [] => (i, 0)
  | g :: l' =>
      let len := u32 (len + sg_len g) in
      if len =? offset then (i + 1, 0)
      else if len >? offset then (i, u32 (sg_len g - u32 (len - offset)))
      else find_offset_from l' (i + 1) len offset
  end.

(** The index of the entry, or an error, and the offset in it. *)
Definition qdma_sgl_find_offset (j : job) : Z * Z :=
  if count (req j) =? 0 then (0, 0)
  else
    let '(i, o) := find_offset_from (sgl (req j)) 0 0 (offset (cb j)) in
    if i <? sgcnt (req j) then (i, o) else (- EINVAL, o).

Definition qdma_work_queue_add (j : job) : M qdma_descq unit :=
  modify (fun s => set_work_req_pend (u32 (work_req_pend s + 1)) (set_work_list (work_list s ++ [j]) s)).

(** The request is the first one of the list. *)
Definition qdma_work_queue_del : M qdma_descq unit :=
  modify (fun s => set_work_req_pend (u32 (work_req_pend s - 1)) (set_work_list (tail (work_list s)) s)).

Definition qdma_work_queue_len (s : qdma_descq) : Z := i32 (work_req_pend s).

(** The progress of the first request of the work list. *)
Definition advance (num_desc data_cnt sg_offset : Z) (sg : option Z) (c : qdma_sgt_req_cb) :
    qdma_sgt_req_cb :=
  mk_cb (u32 (desc_nr c + num_desc)) (u32 (offset c + data_cnt)) sg_offset sg (status c) (done_ c)
    (unmap_needed c).

Definition qdma_update_request (j : job) (num_desc data_cnt sg_offset : Z) (sg : option Z) :
    M qdma_descq unit :=
  let j := set_cb (advance num_desc data_cnt sg_offset sg (cb j)) j in
  if offset (cb j) >=? count (req j) then
    qdma_work_queue_del;;
    modify (fun s => set_pend_list (pend_list s ++ [j]) s)
  else modify (fun s => set_work_list (j :: tail (work_list s)) s).

(** ** Mapping pages *)

(** [sgl_unmap]: the entries afterwards and the pages unmapped. *)
Fixpoint sgl_unmap (l : list qdma_sw_sg) : list qdma_sw_sg * list dma_event :=
  match l with
  | [] => ([], [])
  | g :: l' =>
      if sg_pg g =? 0 then (g :: l', [])
      else
        let '(r, ev) := sgl_unmap l' in
        if sg_dma_addr g =? 0 then (g :: r, ev)
        else (set_dma_addr 0 g :: r, DmaUnmap (u64 (sg_dma_addr g - sg_offset_ g)) :: ev)
  end.

Section descq.
Context `{DmaEngine}.

(** The loop of [sgl_map]: the entries afterwards, the pages mapped, and
    whether all were. *)
Fixpoint sgl_map_from (l : list qdma_sw_sg) : list qdma_sw_sg * list dma_event * bool :=
  match l with
  | [] => ([], [], true)
  | g :: l' =>
      let a := u64 (dma_map_page (sg_pg g)) in
      if a =? DMA_MAPPING_ERROR then (set_dma_addr a g :: l', [], false)
      else
        let '(r, ev, ok) := sgl_map_from l' in
        (set_dma_addr (u64 (a + sg_offset_ g)) g :: r, DmaMap (sg_pg g) a :: ev, ok)
  end.

(** On a failure the entries mapped before are unmapped again. *)
Definition sgl_map (l : list qdma_sw_sg) : list qdma_sw_sg * list dma_event * Z :=
  let '(r, ev, ok) := sgl_map_from l in
  if ok then (r, ev, 0)
  else
    let i := length ev in
    let '(r1, ev1) := sgl_unmap (take i r) in
    (r1 ++ drop i r, ev ++ ev1, - EIO).

Definition log_dma (ev : list dma_event) : M qdma_descq unit :=
  modify (fun s => set_dma_log (rev ev ++ dma_log s) s).

(** ** Doorbells *)

Definition queue_pidx_update : M qdma_descq Z := fun s =>
  let c := conf s in
  if hw_hard c then
    qdma_s80_hard_queue_pidx_update (is_vf c) (u16 (qidx c)) (u8 (q_type c)) (Some (pidx_info s)) s
  else qdma_queue_pidx_update (is_vf c) (u16 (qidx c)) (u8 (q_type c)) (Some (pidx_info s)) s.

Definition qdma_pidx_update (force : bool) : M qdma_descq Z :=
  s ← gets id;
  if force || (avail s >? u32 (u32 (rngsz (conf s) - 1) - pidx_acc (conf s)))
     || negb (desc_pend s <? pidx_acc (conf s))
  then
    ret ← queue_pidx_update;
    if ret <? 0 then mret (- EINVAL) else modify (set_desc_pend 0);; mret ret
  else mret 0.

(** ** Completions *)

Definition incr_cmpl_desc_cnt (cnt : Z) : M qdma_descq unit :=
  modify (fun s =>
    let k := Z.lor (Z.shiftl (Z.b2z (st (conf s))) 1) (q_type (conf s)) in
    set_total_pkts (if k <? 4 then alter (fun n => u64 (n + cnt)) (Z.to_nat k) (total_pkts s) else total_pkts s)
      (set_total_cmpl_descs (u64 (total_cmpl_descs s + cnt)) s)).

(** Whether the ring has drained, or for a queue that receives, the free list
    is used up. *)
Definition drained (s : qdma_descq) : bool :=
  if c2h_packet (conf s) then true
  else if st (conf s) && (q_type (conf s) =? Q_C2H) then avail s =? 0
  else avail s =? u32 (rngsz (conf s) - 1).

(** The request is the first one of the pending list. *)
Definition qdma_sgt_req_done (j : job) (error : Z) : M qdma_descq unit :=
  modify (fun s => set_pend_list (tail (pend_list s)) s);;
  c ← gets conf;
  j ← (if unmap_needed (cb j) then
         let '(l, ev) := sgl_unmap (sgl (req j)) in
         log_dma ev;; mret (mk_job (set_sgl l (req j)) (cb j))
       else mret j);
  let error :=
    if fp_done (req j) && negb (offset (cb j) =? count (req j)) && negb (st c && (q_type c =? Q_C2H))
    then - EINVAL else error in
  let j := set_cb (mk_cb (desc_nr (cb j)) (offset (cb j)) (cb_sg_offset (cb j)) (cb_sg (cb j)) error true false) j in
  modify (fun s => set_finished (j :: finished s) s);;
  modify (fun s => set_pend_list_empty (drained s) s).

(** The loop of [descq_mm_n_h2c_cmpl_status]: [cr] credits for the requests of the
    pending list; what is left of them. *)
Fixpoint retire (l : list job) (cr : Z) : M qdma_descq Z :=
  match l with
  | [] => mret cr
  | j :: l' =>
      if cr >=? desc_nr (cb j) then
        let cr := u32 (cr - desc_nr (cb j)) in
        qdma_sgt_req_done j 0;;
        if cr =? 0 then mret cr else retire l' cr
      else
        let c := cb j in
        let j := set_cb (mk_cb (u32 (desc_nr c - cr)) (offset c) (cb_sg_offset c) (cb_sg c) (status c)
                           (done_ c) (unmap_needed c)) j in
        modify (fun s => set_pend_list (j :: tail (pend_list s)) s);;
        mret 0
  end.

Definition descq_mm_n_h2c_cmpl_status : M qdma_descq Z :=
  s ← gets id;
  if pidx s =? cidx s then mret 0
  else
    let cidx_hw := u16 (cmpl_status_cidx s) in
    if cidx_hw =? cidx s then mret 0
    else
      let cr := if cidx_hw <? cidx s then u32 (u32 (rngsz (conf s) - cidx s) + cidx_hw)
                else u32 (cidx_hw - cidx s) in
      modify (fun s => set_credit (u32 (credit s + cr)) (set_avail (u32 (avail s + cr)) (set_cidx cidx_hw s)));;
      incr_cmpl_desc_cnt cr;;
      s ← gets id;
      cr ← retire (pend_list s) (credit s);
      modify (set_credit cr);;
      _ ← qdma_pidx_update true;
      mret 0.

Definition descq_poll_mm_n_h2c_cmpl_status : M qdma_descq Z :=
  s ← gets id;
  match drv_mode (conf s) with
  | POLL_MODE | AUTO_MODE => modify (set_proc_req_running true);; descq_mm_n_h2c_cmpl_status
  | _ => mret 0
  end.

(** ** Filling the ring

    The loops that write descriptors work on the variables of the function:
    the ring, the index of the next descriptor ([pidx] and [desc], which advance
    together), the addresses and lengths that are left. *)
Record fill := mk_fill {
  f_ring : list slot;
  f_pidx : Z;
  f_ep : Z;
  f_src : Z;
  f_tlen : Z;
  f_sg_offset : Z;
  f_data : Z;
  f_cnt : Z;
  f_end : option Z;   (* [desc_end], as an index *)
  f_stamp : option Z  (* [tx_time_pkt_offset] *) }.

Definition fill_start (s : qdma_descq) (ep sg_offset : Z) : fill :=
  mk_fill (desc s) (pidx s) ep 0 0 sg_offset 0 0 None None.

(** Storing to a descriptor. *)
Definition at_slot (i : Z) (f : slot -> slot) (ring : list slot) : list slot := alter f (Z.to_nat i) ring.

Definition next_pidx (rngsz p : Z) : Z := let p := u32 (p + 1) in if p =? rngsz then 0 else p.

Definition set_flag_len (f : Z -> Z) (d : slot) : slot :=
  match d with
  | MmSlot d => MmSlot (mk_mm (src_addr d) (f (flag_len d)) (rsvd0 d) (dst_addr d) (rsvd1 d))
  | H2cSlot d => H2cSlot d
  end.

Definition clear_flags (d : slot) : slot :=
  match d with
  | MmSlot d => MmSlot d
  | H2cSlot d => H2cSlot (mk_h2c 0 (pld_len d) (h2c_len d) 0 (h2c_src_addr d))
  end.

(** The next entry of the list, of which [f_sg_offset] bytes were transferred
    before. *)
Definition next_sg (g : qdma_sw_sg) (f : fill) : fill :=
  let o := f_sg_offset f in
  mk_fill (f_ring f) (f_pidx f) (f_ep f)
    (if o =? 0 then sg_dma_addr g else u64 (sg_dma_addr g + o))
    (if o =? 0 then sg_len g else u32 (sg_len g - o))
    0 (f_data f) (f_cnt f) (f_end f) (f_stamp f).

(** The [do .. while] loop over the pieces of an entry; [n] descriptors are
    free besides the next one. *)
Fixpoint do_pieces (piece : fill -> fill) (n : nat) (f : fill) : fill :=
  let f := piece f in
  match n with
  | O => f
  | S n' => if f_tlen f =? 0 then f else do_pieces piece n' f
  end.

(** The [for] loop over the entries from [i], with its index at the end. *)
Fixpoint for_sgl (enter : fill -> fill) (piece : Z -> qdma_sw_sg -> fill -> fill) (desc_max : Z)
    (l : list qdma_sw_sg) (i : Z) (f : fill) : Z * fill :=
  match l with
  | [] => (i, f)
  | g :: l' =>
      if f_cnt f <? desc_max then
        let f := do_pieces (piece i g) (Z.to_nat (desc_max - f_cnt f - 1)) (next_sg g (enter f)) in
        let f := if f_tlen f =? 0 then
                   mk_fill (f_ring f) (f_pidx f) (f_ep f) (f_src f) (f_tlen f) 0 (f_data f) (f_cnt f)
                     (f_end f) (f_stamp f)
                 else f in
        for_sgl enter piece desc_max l' (i + 1) f
      else (i, f)
  end.

(** *** Memory-mapped transfers *)

(** [aperture] and [keyhole_en]. *)
Definition aperture (c : queue_conf) : Z :=
  if aperture_size c =? 0 then QDMA_DESC_BLEN_MAX else aperture_size c.
Definition keyhole_en (c : queue_conf) : bool := negb (aperture_size c =? 0).

Definition ep_addr_max (c : queue_conf) (r : qdma_request) : Z := u64 (ep_addr r + aperture c - 1).

(** The address on the card at which a request goes on. *)
Definition ep_start (c : queue_conf) (j : job) : Z :=
  if keyhole_en c then u64 (ep_addr (req j) + Z.land (offset (cb j)) (u32 (aperture c - 1)))
  else u64 (ep_addr (req j) + offset (cb j)).

(** The address on the card and the length of the next piece. *)
Definition mm_extent (c : queue_conf) (r : qdma_request) (f : fill) : Z * Z :=
  let len := Z.min (f_tlen f) (aperture c) in
  if keyhole_en c then
    let ep := if f_ep f >? ep_addr_max c r then ep_addr r else f_ep f in
    (ep, if u64 (ep + len) >? ep_addr_max c r then u32 (ep_addr_max c r - ep + 1) else len)
  else (f_ep f, len).

Definition mm_piece (c : queue_conf) (r : qdma_request) (i : Z) (g : qdma_sw_sg) (f : fill) : fill :=
  let '(ep, len) := mm_extent c r f in
  let c2h := q_type c =? Q_C2H in
  let d := mk_mm (if c2h then ep else f_src f) (Z.lor len (Z.shiftl 1 S_DESC_F_DV)) 0
             (if c2h then f_src f else ep) 0 in
  mk_fill (at_slot (f_pidx f) (fun _ => MmSlot d) (f_ring f)) (next_pidx (rngsz c) (f_pidx f))
    (u64 (ep + len)) (u64 (f_src f + len)) (u32 (f_tlen f - len)) (u32 (f_sg_offset f + len))
    (u32 (f_data f + len)) (u32 (f_cnt f + 1)) (Some (f_pidx f)) (f_stamp f).

(** [desc->flag_len = 0] *)
Definition mm_enter (f : fill) : fill :=
  mk_fill (at_slot (f_pidx f) (set_flag_len (fun _ => 0)) (f_ring f)) (f_pidx f) (f_ep f) (f_src f)
    (f_tlen f) (f_sg_offset f) (f_data f) (f_cnt f) (f_end f) (f_stamp f).

(** The descriptors for as much of a request as [desc_max] allows. *)
Definition mm_fill (s : qdma_descq) (j : job) (i sg_offset desc_max : Z) : Z * fill :=
  for_sgl mm_enter (mm_piece (conf s) (req j)) desc_max (drop (Z.to_nat i) (sgl (req j))) i
    (fill_start s (ep_start (conf s) j) sg_offset).

(** The last descriptor ends the packet and the first one starts it. *)
Definition mm_mark (first last : Z) (ring : list slot) : list slot :=
  at_slot first (set_flag_len (fun v => Z.lor v (Z.shiftl 1 S_DESC_F_SOP)))
    (at_slot last (set_flag_len (fun v => Z.lor v (Z.shiftl 1 S_DESC_F_EOP))) ring).

(** Where a request goes on: the entry and the offset in it. *)
Definition rest_of (n i : Z) (f : fill) : Z * option Z :=
  if i =? n then (0, None) else (f_sg_offset f, Some i).

(** The number of free descriptors; one that has none polls for completions. *)
Definition find_room : M qdma_descq Z :=
  n ← gets avail;
  if n =? 0 then _ ← descq_poll_mm_n_h2c_cmpl_status; gets avail else mret n.

(** What the functions below do to the queue when the descriptors for the first
    request are in the ring. *)
Definition commit (j : job) (ring : list slot) (i : Z) (f : fill) : M qdma_descq unit :=
  let '(o, sg) := rest_of (sgcnt (req j)) i f in
  modify (set_desc ring);;
  qdma_update_request j (f_cnt f) (f_data f) o sg;;
  modify (fun s => set_avail (u32 (avail s - f_cnt f)) (set_pidx (f_pidx f) s)).

(** One turn of the loop over the work list: [None] if the loop is left, or else
    the number of descriptors written. *)
Definition mm_turn (j : job) : M qdma_descq (option Z) :=
  desc_max ← find_room;
  if desc_max =? 0 then mret None
  else
    let '(rv, o) := qdma_sgl_find_offset j in
    if rv <? 0 then qdma_update_request j 0 0 0 None;; mret (Some 0)
    else
      s ← gets id;
      let '(i, f) := mm_fill s j rv o desc_max in
      match f_end f with
      | None => modify (set_desc (f_ring f));; mret None
      | Some last => commit j (mm_mark (pidx s) last (f_ring f)) i f;; mret (Some (f_cnt f))
      end.

(** [while (!list_empty(&descq->work_list))], with the number of descriptors
    written so far. *)
Fixpoint work_loop (turn : job -> M qdma_descq (option Z)) (fuel : nat) (desc_written : Z) :
    M qdma_descq Z :=
  match fuel with
  | O => hang
  | S fuel' =>
      l ← gets work_list;
      match l with
      | [] => mret desc_written
      | j :: _ =>
          n ← turn j;
          match n with
          | None => mret desc_written
          | Some n => work_loop turn fuel' (u32 (desc_written + n))
          end
      end
  end.

(** Telling the engine about the new descriptors. *)
Definition submit_descs : M qdma_descq Z :=
  modify (fun s => set_pidx_info (put pidx_info.pidx (pidx s) (Descq.pidx_info s)) (set_pend_list_empty false s));;
  queue_pidx_update.

(** Whether the functions below have something to do. *)
Definition can_proceed (s : qdma_descq) : bool :=
  bool_decide (q_state s = Q_STATE_ONLINE) && negb (proc_req_running s).

Definition descq_mm_proc_request (fuel : nat) : M qdma_descq Z :=
  s ← gets id;
  if q_stop_wait s then _ ← descq_mm_n_h2c_cmpl_status; mret 0
  else if negb (can_proceed s) then mret 0
  else
    _ ← descq_poll_mm_n_h2c_cmpl_status;
    desc_written ← work_loop mm_turn fuel 0;
    rv ← (if desc_written =? 0 then mret 0
          else
            rv ← submit_descs;
            if rv <? 0 then mret (- EINVAL) else _ ← descq_poll_mm_n_h2c_cmpl_status; mret 0);
    if rv <? 0 then mret rv
    else modify (set_proc_req_running false);; mret 0.

(** *** Streaming to the card *)

(** The size of a packet; [min_t] compares as [unsigned int]. *)
Definition pktsz (r : qdma_request) : Z :=
  if ep_addr r =? 0 then PAGE_SIZE else Z.min (u32 (ep_addr r)) PAGE_SIZE.

(** The first and the last entry of the list are marked for a queue in bypass
    mode. *)
Definition h2c_marks (c : queue_conf) (sg_max i : Z) : Z :=
  if desc_bypass c then
    Z.lor (if i =? 0 then S_H2C_DESC_F_SOP else 0) (if i =? sg_max - 1 then S_H2C_DESC_F_EOP else 0)
  else 0.

Definition h2c_store (src len marks : Z) (d : slot) : slot :=
  match d with
  | H2cSlot d => H2cSlot (mk_h2c (Z.lor (cdh_flags d) S_H2C_DESC_F_ZERO_CDH) (u16 len) (u16 len)
                            (Z.lor (flags d) marks) src)
  | MmSlot d => MmSlot d
  end.

Definition h2c_piece (c : queue_conf) (r : qdma_request) (i : Z) (g : qdma_sw_sg) (f : fill) : fill :=
  let len := Z.min (f_tlen f) (pktsz r) in
  let ring := at_slot (f_pidx f) (h2c_store (f_src f) len (h2c_marks c (sgcnt r) i)) (f_ring f) in
  let p := next_pidx (rngsz c) (f_pidx f) in
  mk_fill (if p =? 0 then ring else at_slot p clear_flags ring) p
    (f_ep f) (u64 (f_src f + len)) (u32 (f_tlen f - len)) (u32 (f_sg_offset f + len))
    (u32 (f_data f + len)) (u32 (f_cnt f + 1)) (f_end f) (Some (sg_pg g + sg_offset_ g)).

Definition h2c_fill (s : qdma_descq) (j : job) (i sg_offset desc_max : Z) : Z * fill :=
  let f := fill_start s 0 sg_offset in
  for_sgl id (h2c_piece (conf s) (req j)) desc_max (drop (Z.to_nat i) (sgl (req j))) i
    (mk_fill (at_slot (f_pidx f) clear_flags (f_ring f)) (f_pidx f) (f_ep f) (f_src f) (f_tlen f)
       (f_sg_offset f) (f_data f) (f_cnt f) (f_end f) (f_stamp f)).

Definition h2c_turn (j : job) : M qdma_descq (option Z) :=
  desc_max ← find_room;
  if desc_max =? 0 then mret None
  else
    let '(rv, o) := qdma_sgl_find_offset j in
    if rv <? 0 then qdma_update_request j 0 0 0 None;; mret (Some 0)
    else
      s ← gets id;
      let '(i, f) := h2c_fill s j rv o desc_max in
      modify (fun s => set_tx_pos (match f_stamp f with Some a => Some a | None => tx_pos s end) s);;
      commit j (f_ring f) i f;;
      if f_cnt f =? 0 then mret None else mret (Some (f_cnt f)).

(** The time stamp of a latency measurement, which goes into the last page. *)
Definition stamp_packet : M qdma_descq unit :=
  s ← gets id;
  if ping_pong_en (conf s) then
    match tx_pos s with
    | Some a => modify (fun s => set_stamps ((a, rdtsc_gettime s) :: stamps s) s)
    | None => mret tt
    end
  else mret tt.

Definition submit_packets : M qdma_descq Z :=
  modify (fun s => set_pidx_info (put pidx_info.pidx (pidx s) (Descq.pidx_info s)) (set_pend_list_empty false s));;
  stamp_packet;;
  queue_pidx_update.

Definition descq_proc_st_h2c_request (fuel : nat) : M qdma_descq Z :=
  s ← gets id;
  if q_stop_wait s then _ ← descq_mm_n_h2c_cmpl_status; mret 0
  else if negb (can_proceed s) then mret 0
  else
    modify (set_tx_pos None);;
    _ ← descq_poll_mm_n_h2c_cmpl_status;
    desc_written ← work_loop h2c_turn fuel 0;
    rv ← (if desc_written =? 0 then mret 0
          else
            rv ← submit_packets;
            if rv <? 0 then mret (- EINVAL) else _ ← descq_poll_mm_n_h2c_cmpl_status; mret 0);
    if rv <? 0 then mret rv
    else modify (set_proc_req_running false);; mret 0.

Definition qdma_descq_proc_sgt_request (fuel : nat) : M qdma_descq Z :=
  c ← gets conf;
  if negb (st c) then descq_mm_proc_request fuel
  else if q_type c =? Q_H2C then descq_proc_st_h2c_request fuel
  else mret (- EINVAL).

(** [qdma_descq_service_cmpl_update] for a queue that does not receive a
    stream. *)
Definition service_mm_n_h2c (fuel : nat) : M qdma_descq Z :=
  s ← gets id;
  match drv_mode (conf s) with
  | POLL_MODE | AUTO_MODE =>
      if proc_req_running s then mret 0 else _ ← qdma_descq_proc_sgt_request fuel; mret 0
  | _ =>
      _ ← descq_mm_n_h2c_cmpl_status;
      s ← gets id;
      if negb (qdma_work_queue_len s =? 0) || negb (desc_pend s =? 0)
      then qdma_descq_proc_sgt_request fuel else mret 0
  end.

(** Descriptors for user logic: the index of the first one, or an error. *)
Definition qdma_q_desc_get (desc_cnt : Z) : M qdma_descq (Z + Z) :=
  s ← gets id;
  if desc_cnt >=? rngsz (conf s) then mret (inr (- EINVAL))
  else
    (if avail s <? desc_cnt then _ ← descq_mm_n_h2c_cmpl_status; mret tt else mret tt);;
    s ← gets id;
    if avail s <? desc_cnt then mret (inr (- EBUSY))
    else
      modify (set_avail (u32 (avail s - desc_cnt)));;
      modify (set_pidx (incr_pidx (pidx s) desc_cnt (rngsz (conf s))));;
      mret (inl (pidx s)).

(** ** Submitting requests *)

(** The checks of [qdma_request_submit] on a queue that was found. *)
Definition submit_checks (s : qdma_descq) (r : qdma_request) : bool :=
  negb (bool_decide (q_state s = Q_STATE_DISABLED)) && negb (q_type (conf s) =? Q_CMPT) &&
  negb ((write r && negb (q_type (conf s) =? Q_H2C)) ||
        (negb (write r) && negb (q_type (conf s) =? Q_C2H))).

(** The pages of a request are mapped if they are not yet; a new job, or the error
    and the request as it is then. *)
Definition map_request (r : qdma_request) : M qdma_descq (job + Z * qdma_request) :=
  if dma_mapped r then mret (inl (mk_job r cb_zero))
  else
    let '(l, ev, rv) := sgl_map (sgl r) in
    log_dma ev;;
    if rv <? 0 then mret (inr (rv, set_sgl l r))
    else mret (inl (mk_job (set_sgl l r) (mk_cb 0 0 0 None 0 false true))).

Definition unmap_request (r : qdma_request) : M qdma_descq unit :=
  if dma_mapped r then mret tt else log_dma (sgl_unmap (sgl r)).2.

Definition is_job (k : nat) (j : job) : bool := Nat.eqb (jid j) k.

Definition find_job (k : nat) (l : list job) : option job := find (is_job k) l.

(** [list_del] of a request that may be in either list. *)
Definition unlink (k : nat) (s : qdma_descq) : qdma_descq :=
  set_work_list (List.filter (fun j => negb (is_job k j)) (work_list s))
    (set_pend_list (List.filter (fun j => negb (is_job k j)) (pend_list s)) s).

(** [others] is what the rest of the driver does to the queue while the caller
    sleeps.  A caller without a timeout sleeps until the request is done. *)
Definition qdma_request_wait_for_cmpl (others : M qdma_descq unit) (r : qdma_request) : M qdma_descq Z :=
  others;;
  s ← gets id;
  match find_job (req_id r) (finished s) with
  | Some j => mret (if status (cb j) =? 0 then 0 else - EIO)
  | None =>
      if timeout_ms r =? 0 then hang
      else modify (unlink (req_id r));; mret (- EIO)
  end.

(** How much of a request was transferred. *)
Definition bytes_done (k : nat) (s : qdma_descq) : Z :=
  match find_job k (finished s) with Some j => offset (cb j) | None => 0 end.

(** The request of a job as it is when the job may be done. *)
Definition latest (j : job) (s : qdma_descq) : qdma_request :=
  match find_job (jid j) (finished s) with Some j' => req j' | None => req j end.

(** [qdma_request_submit] for a queue that does not receive a stream. *)
Definition qdma_request_submit (fuel : nat) (others : M qdma_descq unit) (r : qdma_request) : M qdma_descq Z :=
  s ← gets id;
  if negb (submit_checks s r) then mret (- EINVAL)
  else
    jr ← map_request r;
    match jr with
    | inr (rv, r) => unmap_request r;; mret rv
    | inl j =>
        s ← gets id;
        if negb (bool_decide (q_state s = Q_STATE_ONLINE)) then unmap_request (req j);; mret (- EINVAL)
        else
          qdma_work_queue_add j;;
          _ ← qdma_descq_proc_sgt_request fuel;
          if fp_done r then mret 0
          else
            rv ← qdma_request_wait_for_cmpl others r;
            s ← gets id;
            if rv <? 0 then unmap_request (latest j s);; mret rv
            else gets (bytes_done (req_id r))
    end.

(** The first loop of [qdma_batch_request_submit]: a request whose pages cannot be
    mapped is reported to its caller ([refused]), and kept. *)
Fixpoint map_batch (l : list qdma_request) : M qdma_descq (list job * list nat) :=
  match l with
  | [] => mret ([], [])
  | r :: l' =>
      jr ← map_request r;
      rest ← map_batch l';
      match jr with
      | inl j => mret (j :: rest.1, rest.2)
      | inr (_, r) => mret (mk_job r (mk_cb 0 0 0 None 0 false true) :: rest.1, req_id r :: rest.2)
      end
  end.

(** [qdma_batch_request_submit] for a queue that does not receive a stream: the
    result, and the requests reported as failed. *)
Definition qdma_batch_request_submit (fuel : nat) (l : list qdma_request) : M qdma_descq (Z * list nat) :=
  match l with
  | [] => crash
  | r0 :: _ =>
      s ← gets id;
      if (q_type (conf s) =? Q_CMPT) || (write r0 && negb (q_type (conf s) =? Q_H2C)) ||
         (negb (write r0) && negb (q_type (conf s) =? Q_C2H)) || negb (fp_done r0)
      then mret (- EINVAL, [])
      else
        '(jobs, refused) ← map_batch l;
        s ← gets id;
        if negb (bool_decide (q_state s = Q_STATE_ONLINE)) then mret (- EINVAL, refused)
        else
          modify (fun s => set_work_list (work_list s ++ jobs) s);;
          _ ← qdma_descq_proc_sgt_request fuel;
          mret (0, refused)
  end.

(** The request of a job of the work list is updated in place. *)
Definition update_work (k : nat) (f : job -> job) (s : qdma_descq) : qdma_descq :=
  set_work_list (map (fun j => if is_job k j then f j else j) (work_list s)) s.

(** The caller of [qdma_queue_packet_write] has prepared [j]. *)
Definition qdma_queue_packet_write (fuel : nat) (j : job) : M qdma_descq Z :=
  s ← gets id;
  let r := req j in
  if negb (st (conf s)) || (q_type (conf s) =? Q_C2H) then mret (- EINVAL)
  else
    qdma_work_queue_add j;;
    '(r', rv, mapped) ← (if dma_mapped r then mret (r, 0, unmap_needed (cb j))
      else
        let '(l, ev, rv) := sgl_map (sgl r) in
        log_dma ev;;
        let set_job (m : bool) (j : job) := mk_job (set_sgl l (req j))
          (mk_cb (desc_nr (cb j)) (offset (cb j)) (cb_sg_offset (cb j)) (cb_sg (cb j)) (status (cb j))
             (done_ (cb j)) (m || unmap_needed (cb j))) in
        modify (update_work (req_id r) (set_job (negb (rv <? 0))));;
        mret (set_sgl l r, rv, negb (rv <? 0) || unmap_needed (cb j)));
    let unmap_sgl (rv : Z) : M qdma_descq Z :=
      (if mapped : bool then
         let '(l, ev) := sgl_unmap (sgl r') in
         log_dma ev;; modify (update_work (req_id r) (fun j => mk_job (set_sgl l (req j)) (cb j)))
       else mret tt);;
      mret rv in
    if rv <? 0 then unmap_sgl rv
    else
      s ← gets id;
      if negb (check_qstate_disabled r) && negb (bool_decide (q_state s = Q_STATE_ONLINE))
      then unmap_sgl (- EINVAL)
      else _ ← qdma_descq_proc_sgt_request fuel; mret (count r).
End descq.

(** The ring of a queue that has been configured ([qdma_descq_config_complete])
    and allocated, its conf given: empty. *)
Definition empty_slot (c : queue_conf) : slot :=
  if st c then H2cSlot (mk_h2c 0 0 0 0 0) else MmSlot (mk_mm 0 0 0 0 0).

Definition ring_reset (s : qdma_descq) : qdma_descq :=
  set_work_req_pend 0 (set_credit 0 (set_cidx 0 (set_pidx 0 (set_pend_list_empty true
    (set_avail (u32 (rngsz (conf s) - 1)) s))))).

(** A queue after [qdma_descq_init] (all zero), with a configuration and a
    ring. *)
Definition new_queue (c : queue_conf) (irq_en : Z) : qdma_descq :=
  ring_reset (mk_descq c Q_STATE_ONLINE false false false 0 0 0 0 0 (put pidx_info.irq_en irq_en 0) [] 0 []
    (replicate (Z.to_nat (rngsz c)) (empty_slot c)) 0 [0; 0; 0; 0] [] [] [] None []).
