(* ===== verification/DescqFill.v ===== *)
(** * DescqFill: what the loops of [Descq] write into the ring

    The loops that fill the ring, for any way of making one descriptor
    ([piece_spec]): the new descriptors transfer the next bytes of the request, in
    order and each once, and the descriptors the engine still has are left
    alone.  The transfer a descriptor stands for is a list of [B]: pairs of
    addresses for memory-mapped transfers, addresses for streams. *)

From S2P Require Import Prelude Mmio Descq.
Local Open Scope Z_scope.

(** ** Scatter-gather lists as memory *)

Fixpoint sum_len (l : list qdma_sw_sg) : Z :=
  match l with [] => 0 | g :: l' => sg_len g + sum_len l' end.

(** The address of byte [k]. *)
Fixpoint host_addr (l : list qdma_sw_sg) (k : Z) : Z :=
  match l with
  | [] => 0
  | g :: l' => if k <? sg_len g then sg_dma_addr g + k else host_addr l' (k - sg_len g)
  end.

(** An entry with some bytes, in the address space of the device. *)
Definition sg_ok (g : qdma_sw_sg) : Prop :=
  0 < sg_len g /\ 0 <= sg_dma_addr g /\ sg_dma_addr g + sg_len g < 18446744073709551616.

Lemma sum_len_app l1 l2 : sum_len (l1 ++ l2) = sum_len l1 + sum_len l2.
Proof. induction l1; simpl; lia. Qed.

Lemma sum_len_nonneg l : Forall sg_ok l -> 0 <= sum_len l.
Proof. induction 1 as [|g l [? ?]]; simpl; lia. Qed.

Lemma host_addr_app l1 l2 k :
  Forall sg_ok l1 -> 0 <= k -> host_addr (l1 ++ l2) (sum_len l1 + k) = host_addr l2 k.
Proof.
  intros Hl Hk. induction Hl as [|g l1 Hg Hl IH]; [done|]. simpl.
  pose proof (sum_len_nonneg _ Hl). destruct (Z.ltb_spec (sg_len g + sum_len l1 + k) (sg_len g)); [lia|].
  by replace (sg_len g + sum_len l1 + k - sg_len g) with (sum_len l1 + k) by lia.
Qed.

(** ** [qdma_sgl_find_offset] *)

Lemma find_offset_from_spec l i len offset :
  Forall sg_ok l -> 0 <= len <= offset -> offset < len + sum_len l -> len + sum_len l < 4294967296 ->
  exists pre g post o, l = pre ++ g :: post /\
    find_offset_from l i len offset = (i + Z.of_nat (length pre), o) /\
    0 <= o < sg_len g /\ len + sum_len pre + o = offset.
Proof.
  intros Hl. revert i len. induction Hl as [|g l Hg Hl IH]; intros i len Hlen Hlt Hmax; simpl in *; [lia|].
  destruct Hg as [Hg _]. pose proof (sum_len_nonneg _ Hl). unwrap_ints.
  destruct (Z.eqb_spec (len + sg_len g) offset) as [He|He].
  - destruct l as [|g' l]; simpl in *; [lia|]. inversion Hl as [|?? [Hg' _]]; subst.
    exists [g], g', l, 0. split_and!; simpl; try done; lia.
  - destruct (Z.gtb_spec (len + sg_len g) offset) as [Hgt|Hle].
    + unwrap_ints. exists [], g, l, (sg_len g - (len + sg_len g - offset)). simpl.
      split_and!; try done; try lia. f_equal; lia.
    + destruct (IH (i + 1) (len + sg_len g)) as (pre & g' & post & o & -> & Hf & Ho & Hs); [lia..|].
      exists (g :: pre), g', post, o. simpl. split_and!; try done; try lia.
      rewrite Hf. f_equal. lia.
Qed.

Lemma find_offset_spec j :
  Forall sg_ok (sgl (req j)) -> count (req j) = sum_len (sgl (req j)) -> count (req j) < 4294967296 ->
  0 <= offset (cb j) < count (req j) ->
  exists pre g post o, sgl (req j) = pre ++ g :: post /\
    qdma_sgl_find_offset j = (Z.of_nat (length pre), o) /\
    0 <= o < sg_len g /\ sum_len pre + o = offset (cb j).
Proof.
  intros Hl Hc Hmax Ho. unfold qdma_sgl_find_offset, sgcnt.
  destruct (find_offset_from_spec (sgl (req j)) 0 0 (offset (cb j))) as (pre & g & post & o & Hs & Hf & H1 & H2);
    [done|lia..|].
  exists pre, g, post, o. rewrite Hf. split_and!; try done; try lia.
  destruct (Z.eqb_spec (count (req j)) 0); [lia|].
  destruct (Z.ltb_spec (0 + Z.of_nat (length pre)) (Z.of_nat (length (sgl (req j))))) as [|Hn]; [done|].
  rewrite Hs, length_app in Hn. simpl in Hn. lia.
Qed.

(** ** The loops *)

Section loops.
Context {B : Type} (vis : slot -> list B) (at_ : Z -> Z -> B).
Context (size : Z) (good : Z -> fill -> Prop).

(** The transfer of the descriptor at an index. *)
Definition vis_at (ring : list slot) (i : Z) : list B :=
  match ring !! Z.to_nat i with Some d => vis d | None => [] end.

(** The transfers of [cnt] descriptors from [p0] on, around the ring. *)
Definition window (ring : list slot) (p0 cnt : Z) : list B :=
  concat (map (fun n => vis_at ring ((p0 + n) mod size)) (seqZ 0 cnt)).

(** The bytes [from] .. [from + n - 1] of a request. *)
Definition stream (l : list qdma_sw_sg) (from n : Z) : list B :=
  map (fun k => at_ (host_addr l k) k) (seqZ from n).

(** The state of the variables before a piece, at byte [k] of the request, of
    which [lim] bytes are to be transferred at most. *)
Record ready (k lim : Z) (f : fill) : Prop := {
  rd_ring : length (f_ring f) = Z.to_nat size;
  rd_pidx : 0 <= f_pidx f < size;
  rd_tlen : 0 < f_tlen f;
  rd_src : 0 <= f_src f /\ f_src f + f_tlen f < 18446744073709551616;
  rd_pos : 0 <= k /\ k + f_tlen f <= lim /\ lim < 4294967296;
  rd_sg : 0 <= f_sg_offset f /\ f_sg_offset f + f_tlen f <= lim;
  rd_data : 0 <= f_data f <= k;
  rd_cnt : 0 <= f_cnt f < size;
  rd_good : good k f }.

(** One descriptor for the next [len] bytes; the other descriptors stand for what
    they stood for before. *)
Record stepped (k len : Z) (f f' : fill) : Prop := {
  st_len : 0 < len <= f_tlen f;
  st_ring : length (f_ring f') = Z.to_nat size;
  st_pidx : f_pidx f' = (f_pidx f + 1) mod size;
  st_src : f_src f' = f_src f + len;
  st_tlen : f_tlen f' = f_tlen f - len;
  st_sg : f_sg_offset f' = f_sg_offset f + len;
  st_data : f_data f' = f_data f + len;
  st_cnt : f_cnt f' = f_cnt f + 1;
  st_new : vis_at (f_ring f') (f_pidx f) = map (fun n => at_ (f_src f + n) (k + n)) (seqZ 0 len);
  st_old i : 0 <= i -> i <> f_pidx f -> vis_at (f_ring f') i = vis_at (f_ring f) i;
  st_good : good (k + len) f' }.

Definition piece_spec (lim : Z) (piece : fill -> fill) : Prop :=
  forall k f, ready k lim f -> exists len, stepped k len f (piece f).

(** Entering an entry may change the next descriptor only. *)
Definition enter_spec (enter : fill -> fill) : Prop :=
  forall k f, 0 <= f_pidx f -> good k f -> good k (enter f) /\ length (f_ring (enter f)) = length (f_ring f) /\
    f_pidx (enter f) = f_pidx f /\ f_sg_offset (enter f) = f_sg_offset f /\
    f_data (enter f) = f_data f /\ f_cnt (enter f) = f_cnt f /\
    forall i, 0 <= i -> i <> f_pidx f -> vis_at (f_ring (enter f)) i = vis_at (f_ring f) i.

(** Addresses in host memory and lengths do not count for [good]. *)
Definition good_local : Prop :=
  forall k f f', f_ep f' = f_ep f -> f_cnt f' = f_cnt f -> f_pidx f' = f_pidx f -> f_end f' = f_end f ->
    f_ring f' = f_ring f -> good k f -> good k f'.

(** The ring after [f_cnt] descriptors for the bytes of [l] from [k0] on. *)
Record filled (l : list qdma_sw_sg) (ring0 : list slot) (p0 k0 dmax : Z) (f : fill) : Prop := {
  fl_ring : length (f_ring f) = Z.to_nat size;
  fl_cnt : 0 <= f_cnt f <= dmax;
  fl_pidx : f_pidx f = (p0 + f_cnt f) mod size;
  fl_data : 0 <= f_cnt f <= f_data f;
  fl_new : window (f_ring f) p0 (f_cnt f) = stream l k0 (f_data f);
  fl_old n : dmax <= n < size -> vis_at (f_ring f) ((p0 + n) mod size) = vis_at ring0 ((p0 + n) mod size);
  fl_good : good (k0 + f_data f) f }.

Lemma seqZ_snoc m n : 0 <= n -> seqZ m (n + 1) = seqZ m n ++ [m + n].
Proof.
  intros Hn. rewrite seqZ_app by lia. done.
Qed.

Lemma stream_app l k n1 n2 : 0 <= n1 -> 0 <= n2 -> stream l k (n1 + n2) = stream l k n1 ++ stream l (k + n1) n2.
Proof. intros H1 H2. unfold stream. by rewrite seqZ_app, map_app by lia. Qed.

Lemma window_snoc ring p0 n :
  0 <= n -> window ring p0 (n + 1) = window ring p0 n ++ vis_at ring ((p0 + n) mod size).
Proof.
  intros Hn. unfold window. rewrite seqZ_snoc, map_app, concat_app by lia. simpl.
  by rewrite app_nil_r, Z.add_0_l.
Qed.

(** Different places of a window are different indices. *)
Lemma window_apart p0 n m :
  0 <= n < size -> 0 <= m < size -> (p0 + n) mod size = (p0 + m) mod size -> n = m.
Proof.
  intros Hn Hm He. pose proof (Z.div_mod (p0 + n) size ltac:(lia)) as E1.
  pose proof (Z.div_mod (p0 + m) size ltac:(lia)) as E2. rewrite He in E1.
  revert E1 E2. generalize ((p0 + n) / size) ((p0 + m) / size) ((p0 + m) mod size). clear He.
  intros q1 q2 r E1 E2. assert (size * (q1 - q2) = n - m) by lia. assert (q1 - q2 = 0) by nia. nia.
Qed.

Lemma window_ext ring ring' p0 n :
  (forall m, 0 <= m < n -> vis_at ring' ((p0 + m) mod size) = vis_at ring ((p0 + m) mod size)) ->
  window ring' p0 n = window ring p0 n.
Proof.
  intros He. unfold window. f_equal. apply map_ext_in. intros m Hm.
  apply list_elem_of_In, elem_of_seqZ in Hm. apply He. lia.
Qed.

Lemma stream_sg l k src len :
  (forall n, 0 <= n < len -> host_addr l (k + n) = src + n) ->
  stream l k len = map (fun n => at_ (src + n) (k + n)) (seqZ 0 len).
Proof.
  intros Ha. unfold stream. destruct (Z.le_gt_cases len 0).
  { by rewrite !seqZ_nil by lia. }
  replace (seqZ k len) with (Z.add k <$> seqZ 0 len) by (rewrite fmap_add_seqZ; f_equal; lia).
  unfold fmap. rewrite map_map. apply map_ext_in. intros n Hn.
  apply list_elem_of_In, elem_of_seqZ in Hn. rewrite Ha by lia. done.
Qed.
Context (Hgood : good_local).

Lemma filled_step l ring0 p0 k0 dmax lim f f' len :
  0 <= p0 < size -> dmax < size -> filled l ring0 p0 k0 dmax f -> f_cnt f < dmax ->
  ready (k0 + f_data f) lim f -> stepped (k0 + f_data f) len f f' ->
  (forall n, 0 <= n < f_tlen f -> host_addr l (k0 + f_data f + n) = f_src f + n) ->
  filled l ring0 p0 k0 dmax f'.
Proof.
  intros Hp0 Hd [] Hc Hr Hs Ha. destruct Hs.
  assert (Hne : forall m, 0 <= m < size -> m <> f_cnt f -> (p0 + m) mod size <> f_pidx f).
  { intros m Hm Hne He. apply Hne. rewrite fl_pidx0 in He. apply (window_apart p0); [lia..|done]. }
  split.
  - done.
  - lia.
  - rewrite st_pidx0, st_cnt0, fl_pidx0, Zplus_mod_idemp_l. f_equal. lia.
  - lia.
  - rewrite st_cnt0, st_data0, window_snoc, stream_app by lia. f_equal.
    + rewrite <- fl_new0. apply window_ext. intros m Hm. apply st_old0; [apply Z.mod_pos_bound; lia|].
      apply Hne; lia.
    + rewrite <- fl_pidx0, st_new0. symmetry. apply stream_sg. intros n Hn. apply Ha. lia.
  - intros n Hn. rewrite st_old0, fl_old0; [done|lia|apply Z.mod_pos_bound; lia|apply Hne; lia].
  - by rewrite st_data0, Z.add_assoc.
Qed.

(** The pieces of one entry, of which [f_tlen f] bytes are left. *)
Lemma do_pieces_spec piece l ring0 p0 k0 dmax lim n f :
  0 <= p0 < size -> dmax < size -> piece_spec lim piece ->
  filled l ring0 p0 k0 dmax f -> Z.of_nat n = dmax - f_cnt f - 1 ->
  ready (k0 + f_data f) lim f ->
  (forall n, 0 <= n < f_tlen f -> host_addr l (k0 + f_data f + n) = f_src f + n) ->
  exists m f', do_pieces piece n f = f' /\ filled l ring0 p0 k0 dmax f' /\
    0 < m <= f_tlen f /\ f_data f' = f_data f + m /\ f_tlen f' = f_tlen f - m /\
    f_cnt f < f_cnt f' /\ (f_tlen f' = 0 \/ f_cnt f' = dmax) /\ f_sg_offset f' = f_sg_offset f + m.
Proof.
  intros Hp0 Hd Hpiece. revert f. induction n as [|n IH]; intros f Hf Hn Hr Ha;
    destruct (Hpiece _ _ Hr) as [len Hs];
    pose proof (filled_step _ _ _ _ _ _ _ _ _ Hp0 Hd Hf ltac:(lia) Hr Hs Ha) as Hf'; destruct Hs; simpl.
  { exists len, (piece f). split_and!; try done; try lia. }
  destruct (Z.eqb_spec (f_tlen (piece f)) 0) as [Hz|Hz].
  { exists len, (piece f). split_and!; try done; try lia. }
  destruct (IH (piece f)) as (m & f' & He & Hf'' & ? & ? & ? & ? & ? & ?); [done|lia|..].
  - destruct Hr. split; try done; try lia; rewrite ?st_pidx0, ?st_data0.
    + apply Z.mod_pos_bound. lia.
    + by rewrite Z.add_assoc.
  - intros i Hi. rewrite st_data0, st_src0. replace (k0 + (f_data f + len) + i) with (k0 + f_data f + (len + i)) by lia.
    rewrite Ha by lia. lia.
  - exists (len + m), f'. split_and!; try done; try lia.
Qed.

(** All entries from [l2] on.  The request has the entries [l1 ++ l2]. *)
Lemma for_sgl_spec enter piece l1 l2 ring0 p0 k0 dmax lim i f :
  0 <= p0 < size -> 0 <= dmax < size -> lim < 4294967296 ->
  (forall i g, piece_spec lim (piece i g)) -> enter_spec enter ->
  Forall sg_ok (l1 ++ l2) -> lim = sum_len (l1 ++ l2) -> 0 <= k0 ->
  filled (l1 ++ l2) ring0 p0 k0 dmax f ->
  k0 + f_data f = sum_len l1 + f_sg_offset f -> 0 <= f_sg_offset f ->
  (l2 = [] -> f_sg_offset f = 0) ->
  (forall g l2', l2 = g :: l2' -> f_sg_offset f < sg_len g) ->
  exists i' f', for_sgl enter piece dmax l2 i f = (i', f') /\
    filled (l1 ++ l2) ring0 p0 k0 dmax f' /\ f_data f <= f_data f' /\
    k0 + f_data f' <= lim /\ (k0 + f_data f' = lim \/ f_cnt f' = dmax) /\
    (l2 <> [] -> f_cnt f < dmax -> f_data f < f_data f' /\ f_cnt f < f_cnt f').
Proof.
  intros Hp0 Hd Hlim Hpiece Henter. revert l1 i f.
  induction l2 as [|g l2 IH]; intros l1 i f Hok Hl Hk0 Hf Hpos Ho Hnil Hlt; simpl.
  { exists i, f. rewrite app_nil_r in *. specialize (Hnil eq_refl). split_and!; try done; lia. }
  pose proof Hok as [Hok1 [Hg Hok2]%Forall_cons]%Forall_app.
  pose proof (sum_len_nonneg _ Hok1). pose proof (sum_len_nonneg _ Hok2).
  rewrite sum_len_app in Hl. simpl in Hl. specialize (Hlt g l2 eq_refl).
  destruct (Z.ltb_spec (f_cnt f) dmax) as [Hc|Hc].
  2: { exists i, f. destruct Hf. split_and!; try done; lia. }
  set (f1 := next_sg g (enter f)).
  destruct (Henter (k0 + f_data f) f) as (Hg1 & Hr1 & Hp1 & Ho1 & Hd1 & Hc1 & Hv1);
    [destruct Hf; rewrite fl_pidx0; apply Z.mod_pos_bound; lia|by destruct Hf|].
  assert (Hf1 : filled (l1 ++ g :: l2) ring0 p0 k0 dmax f1).
  { destruct Hf. split; unfold f1, next_sg; cbn [f_ring f_cnt f_pidx f_data f_ep f_end];
      rewrite ?Hr1, ?Hp1, ?Hd1, ?Hc1; try done.
    - rewrite <- fl_new0. apply window_ext. intros m Hm. apply Hv1; [apply Z.mod_pos_bound; lia|].
      rewrite fl_pidx0. intros He%window_apart; lia.
    - intros n Hn. rewrite Hv1, fl_old0; [done|lia|apply Z.mod_pos_bound; lia|].
      rewrite fl_pidx0. intros He%window_apart; lia.
    - by apply (Hgood _ (enter f)). }
  assert (Hsrc : f_src f1 = sg_dma_addr g + f_sg_offset f /\ f_tlen f1 = sg_len g - f_sg_offset f).
  { unfold f1, next_sg. cbn [f_src f_tlen]. rewrite Ho1. destruct Hg as (? & ? & ?).
    destruct (Z.eqb_spec (f_sg_offset f) 0) as [->|]; [lia|]. unwrap_ints. done. }
  assert (Hsame : f_data f1 = f_data f /\ f_cnt f1 = f_cnt f /\ f_sg_offset f1 = 0) by (unfold f1; simpl; lia).
  destruct Hsame as (Hdf & Hcf & Hof), Hsrc as [Hs1 Hs2].
  destruct (do_pieces_spec (piece i g) (l1 ++ g :: l2) ring0 p0 k0 dmax lim (Z.to_nat (dmax - f_cnt f - 1)) f1)
    as (m & f2 & -> & Hf2 & Hm1 & Hm2 & Hm3 & Hm4 & Hm5 & Hm6); [done|lia|done|done|..].
  { destruct Hf. lia. }
  { destruct Hf1 as [? ? ? ? _ _ ?]. destruct Hg as (? & ? & ?). split; try done; try lia.
    rewrite fl_pidx0. apply Z.mod_pos_bound. lia. }
  { intros n Hn. rewrite Hdf, Hs1. replace (k0 + f_data f + n) with (sum_len l1 + (f_sg_offset f + n)) by lia.
    rewrite host_addr_app by (done || lia). simpl. destruct (Z.ltb_spec (f_sg_offset f + n) (sg_len g)); lia. }
  destruct (Z.eqb_spec (f_tlen f2) 0) as [Hz|Hz].
  - set (f3 := mk_fill _ _ _ _ _ _ _ _ _ _).
    destruct (IH (l1 ++ [g]) (i + 1) f3) as (i' & f' & He & Hf' & H1 & H2 & H3 & H4).
    + by rewrite <- app_assoc.
    + rewrite <- app_assoc, sum_len_app. simpl. lia.
    + done.
    + rewrite <- app_assoc. destruct Hf2. split; try done. by apply (Hgood _ f2).
    + rewrite sum_len_app. simpl. lia.
    + done.
    + done.
    + intros g' l2' ->. simpl. apply Forall_cons in Hok2 as [[? _] _]. lia.
    + rewrite <- app_assoc in Hf'. exists i', f'. simpl in *. split_and!; try done; try lia.
      intros _ _. split; [lia|]. destruct (decide (l2 = [])) as [->|Hne].
      * simpl in He. injection He as <- <-. simpl. lia.
      * destruct (Z.lt_ge_cases (f_cnt f2) dmax); [specialize (H4 Hne ltac:(lia)); lia|].
        destruct Hf' as [_ ? _ _ _ _ _], l2; [done|]. simpl in He.
        destruct (Z.ltb_spec (f_cnt f2) dmax); [lia|]. injection He as <- <-. simpl. lia.
  - exists (i + 1), f2. destruct Hm5 as [|Hm5]; [done|]. destruct l2 as [|g' l2]; simpl.
    + split_and!; try done; try lia.
    + destruct (Z.ltb_spec (f_cnt f2) dmax); [lia|]. split_and!; try done; try lia.
Qed.

End loops.
