(* ===== verification/DescqPass.v ===== *)
(** * DescqPass: one pass over a request

    What a pass of [mm_fill] or [h2c_fill] puts into the ring: descriptors that
    transfer the next bytes of the request, each byte of host memory to or from
    the byte of the card it belongs to. *)

From S2P Require Import Prelude Mmio Descq DescqFill.
Local Open Scope Z_scope.

(** ** Requests and queues *)

(** The list of a request has the bytes the request announces. *)
Record request_ok (r : qdma_request) : Prop := {
  rq_sgl : Forall sg_ok (sgl r);
  rq_count : count r = sum_len (sgl r);
  rq_range : 0 < count r <= 2147483648 }.

(** A ring whose indices fit the doorbell, and an aperture that a queue can be
    started with, of a length that fits a descriptor. *)
Record conf_ok (c : queue_conf) : Prop := {
  cf_rngsz : 2 <= rngsz c < 65536;
  cf_aperture : aperture_size c = 0 \/ exists a, 0 <= a < 28 /\ aperture_size c = 2 ^ a }.

(** The memory of the card that a request addresses. *)
Definition card_ok (c : queue_conf) (r : qdma_request) : Prop :=
  0 <= ep_addr r /\
  ep_addr r + (if keyhole_en c then 2 * aperture_size c else count r) < 18446744073709551616.

(** The address on the card of byte [k]. *)
Definition card_addr (c : queue_conf) (r : qdma_request) (k : Z) : Z :=
  ep_addr r + (if keyhole_en c then k mod aperture_size c else k).

(** *** A small queue *)

(** A queue of eight descriptors, and requests for some pages, of ten bytes each. *)
Definition small_conf (q_type aperture_size : Z) (stream : bool) (mode : qdma_drv_mode) : queue_conf :=
  mk_conf 3 q_type stream 8 aperture_size 0 false false false mode false 0.

Definition pages (n : nat) : list qdma_sw_sg :=
  map (fun i => mk_sg (Z.of_nat i + 1) 16 10 (0x10000 * (Z.of_nat i + 1))) (seq 0 n).

Definition request (k n : nat) (w : bool) : qdma_request :=
  mk_req k true 0 (10 * Z.of_nat n) 0x2000 w true false (pages n).

(** ** Memory-mapped transfers *)

Definition mm_len (d : qdma_mm_desc) : Z := Z.land (flag_len d) QDMA_DESC_BLEN_MAX.

(** The bytes a descriptor transfers: addresses in host memory and on the
    card. *)
Definition mm_bytes (c2h : bool) (d : slot) : list (Z * Z) :=
  match d with
  | MmSlot d =>
      map (fun n => if c2h then (dst_addr d + n, src_addr d + n) else (src_addr d + n, dst_addr d + n))
        (seqZ 0 (mm_len d))
  | H2cSlot _ => []
  end.

Definition mm_at (c : queue_conf) (r : qdma_request) (h k : Z) : Z * Z := (h, card_addr c r k).

(** [ep_addr] before byte [k], and [desc_end] once there is a descriptor. *)
Definition mm_good (c : queue_conf) (r : qdma_request) (k : Z) (f : fill) : Prop :=
  (f_ep f = card_addr c r k \/
   keyhole_en c = true /\ k mod aperture_size c = 0 /\ f_ep f = ep_addr r + aperture_size c) /\
  (0 < f_cnt f -> f_end f = Some ((f_pidx f - 1) mod rngsz c)).

Lemma mm_good_local c r : good_local (mm_good c r).
Proof. intros k f f' He Hc Hp Hn _ [Hg1 Hg2]. unfold mm_good. by rewrite He, Hc, Hp, Hn. Qed.

Lemma flags_disjoint len b : 0 <= len < 268435456 -> 28 <= b -> Z.land (Z.lor len (Z.shiftl 1 b)) QDMA_DESC_BLEN_MAX = len.
Proof.
  intros Hl Hb. change QDMA_DESC_BLEN_MAX with (Z.ones 28). rewrite Z.land_lor_distr_l, land_low by lia.
  rewrite Z.mod_small by lia. rewrite land_low by lia.
  replace (Z.shiftl 1 b mod 2 ^ 28) with 0; [apply Z.lor_0_r|]. rewrite Z.shiftl_1_l.
  replace b with ((b - 28) + 28) by lia. rewrite Z.pow_add_r by lia. by rewrite Z_mod_mult.
Qed.

(** Marking the start or the end of a packet does not change what is
    transferred. *)
Lemma set_flag_bytes c2h b d : 28 <= b -> mm_bytes c2h (set_flag_len (fun v => Z.lor v (Z.shiftl 1 b)) d) = mm_bytes c2h d.
Proof.
  intros Hb. destruct d as [d|d]; [|done]. simpl. unfold mm_len. simpl.
  assert (E : forall v, Z.land (Z.lor v (Z.shiftl 1 b)) QDMA_DESC_BLEN_MAX = Z.land v QDMA_DESC_BLEN_MAX).
  { intros v. rewrite Z.land_lor_distr_l. replace (Z.land (Z.shiftl 1 b) QDMA_DESC_BLEN_MAX) with 0; [apply Z.lor_0_r|].
    pose proof (flags_disjoint 0 b ltac:(lia) Hb) as E. by rewrite Z.lor_0_l in E. }
  by rewrite E.
Qed.

Lemma aperture_values c : conf_ok c ->
  aperture c = (if keyhole_en c then aperture_size c else 268435455) /\ 0 < aperture c < 268435456.
Proof.
  intros [_ Ha]. unfold aperture, keyhole_en. destruct (Z.eqb_spec (aperture_size c) 0) as [|Hn]; simpl.
  { split; [done|vm_compute; done]. }
  split; [done|]. destruct Ha as [|(a & Ha & ->)]; [done|].
  split; [apply Z.pow_pos_nonneg; lia|]. change 268435456 with (2 ^ 28). apply Z.pow_lt_mono_r; lia.
Qed.

(** The piece of a transfer at byte [k]: it starts at the address of that byte and does not
    pass the end of the aperture. *)
Lemma mm_extent_spec c r k f :
  conf_ok c -> card_ok c r -> 0 <= k -> 0 < f_tlen f -> k + f_tlen f <= count r -> count r < 4294967296 ->
  mm_good c r k f ->
  exists len, mm_extent c r f = (card_addr c r k, len) /\ 0 < len <= f_tlen f /\ len < 268435456 /\
    is_u64 (card_addr c r k + len) /\
    (forall n, 0 <= n < len -> card_addr c r k + n = card_addr c r (k + n)) /\
    (card_addr c r k + len = card_addr c r (k + len) \/
     keyhole_en c = true /\ (k + len) mod aperture_size c = 0 /\
     card_addr c r k + len = ep_addr r + aperture_size c).
Proof.
  intros Hc [He1 He2] Hk Ht Hkt Hcnt [Hg _]. destruct (aperture_values c Hc) as [Ha1 Ha2].
  unfold mm_extent, ep_addr_max, card_addr in *. destruct (keyhole_en c); rewrite Ha1 in *.
  2: { destruct Hg as [->|[[=] _]]. exists (Z.min (f_tlen f) 268435455). split_and!; try in_range; done || (intros; lia). }
  set (ap := aperture_size c) in *. pose proof (Z.mod_pos_bound k ap ltac:(lia)) as Hm.
  assert (Hep : (if f_ep f >? u64 (ep_addr r + ap - 1) then ep_addr r else f_ep f) = ep_addr r + k mod ap).
  { rewrite u64_small by in_range. destruct Hg as [->|(_ & H0 & ->)].
    - destruct (Z.gtb_spec (ep_addr r + k mod ap) (ep_addr r + ap - 1)); lia.
    - rewrite H0. destruct (Z.gtb_spec (ep_addr r + ap) (ep_addr r + ap - 1)); lia. }
  rewrite Hep. clear Hep. pose proof (Z.div_mod k ap ltac:(lia)) as Hdm.
  exists (Z.min (f_tlen f) (ap - k mod ap)).
  assert (Hnext : forall n, 0 <= n < ap - k mod ap -> (k + n) mod ap = k mod ap + n).
  { intros n Hn. symmetry. apply (Z.mod_unique_pos _ _ (k / ap)); lia. }
  split_and!; try in_range.
  - f_equal. unwrap_ints.
    destruct (Z.gtb_spec (ep_addr r + k mod ap + Z.min (f_tlen f) ap) (ep_addr r + ap - 1)); unwrap_ints; lia.
  - intros n Hn. rewrite Hnext by lia. lia.
  - destruct (Z.lt_ge_cases (f_tlen f) (ap - k mod ap)).
    + left. rewrite Z.min_l, Hnext by lia. lia.
    + right. rewrite Z.min_r by lia. split; [done|]. split; [|lia].
      symmetry. apply (Z.mod_unique_pos _ _ (k / ap + 1)); lia.
Qed.

Lemma lookup_at_slot_same ring i f :
  0 <= i -> at_slot i f ring !! Z.to_nat i = f <$> (ring !! Z.to_nat i).
Proof. intros. apply list_lookup_alter_eq. Qed.

Lemma lookup_at_slot_other ring i j f :
  0 <= i -> 0 <= j -> j <> i -> at_slot i f ring !! Z.to_nat j = ring !! Z.to_nat j.
Proof. intros. apply list_lookup_alter_ne. lia. Qed.

Lemma next_pidx_mod size p : 0 <= p < size -> size < 65536 -> next_pidx size p = (p + 1) mod size.
Proof.
  intros Hp Hs. unfold next_pidx. unwrap_ints. destruct (Z.eqb_spec (p + 1) size) as [->|].
  - by rewrite Z_mod_same_full.
  - rewrite Z.mod_small; lia.
Qed.

Lemma vis_at_other {B} (vis : slot -> list B) ring i j f :
  0 <= i -> 0 <= j -> j <> i -> vis_at vis (at_slot i f ring) j = vis_at vis ring j.
Proof. intros. unfold vis_at. by rewrite lookup_at_slot_other. Qed.

(** Storing what does not change a transfer. *)
Lemma vis_at_keep {B} (vis : slot -> list B) ring i j f :
  (forall d, vis (f d) = vis d) -> vis_at vis (at_slot i f ring) j = vis_at vis ring j.
Proof.
  intros Hf. unfold vis_at, at_slot. destruct (decide (Z.to_nat j = Z.to_nat i)) as [->|Hn].
  - rewrite list_lookup_alter_eq. destruct (ring !! Z.to_nat i); simpl; [apply Hf|done].
  - by rewrite list_lookup_alter_ne.
Qed.

Lemma mm_piece_spec c r i g :
  conf_ok c -> card_ok c r -> count r < 4294967296 ->
  piece_spec (mm_bytes (q_type c =? Q_C2H)) (mm_at c r) (rngsz c) (mm_good c r) (count r) (mm_piece c r i g).
Proof.
  intros Hc Hcard Hcnt k f []. destruct Hc as [Hsz Hap] eqn:E. clear E.
  destruct (mm_extent_spec c r k f) as (len & Hext & Hl1 & Hl2 & Hu & Hn & Hend); try done; try lia.
  exists len. unfold mm_piece. rewrite Hext. unwrap_ints.
  split; cbn [f_ring f_pidx f_src f_tlen f_sg_offset f_data f_cnt f_ep f_end]; try done; try lia.
  - unfold at_slot. by rewrite length_alter.
  - apply next_pidx_mod; lia.
  - unfold vis_at. rewrite lookup_at_slot_same by lia.
    destruct (lookup_lt_is_Some_2 (f_ring f) (Z.to_nat (f_pidx f))) as [d ->]; [lia|]. simpl.
    unfold mm_len. simpl. rewrite flags_disjoint by (unfold S_DESC_F_DV; lia).
    apply map_ext_in. intros n Hin. apply list_elem_of_In, elem_of_seqZ in Hin. unfold mm_at.
    rewrite <- Hn by lia. by destruct (q_type c =? Q_C2H).
  - intros j Hj Hne. apply vis_at_other; lia.
  - split; cbn [f_ep f_cnt f_pidx f_end]; [done|]. intros _. f_equal.
    rewrite next_pidx_mod, Zminus_mod_idemp_l by lia. rewrite Z.add_simpl_r. by rewrite Z.mod_small.
Qed.

Lemma mm_enter_spec c r c2h : enter_spec (mm_bytes c2h) (mm_good c r) mm_enter.
Proof.
  intros k f Hp Hg. split_and!; try done.
  - unfold mm_enter, at_slot. simpl. by rewrite length_alter.
  - intros j Hj Hne. by apply vis_at_other.
Qed.

(** What a pass from byte [offset (cb j)] leaves, if the ring has [dmax] free
    descriptors: [i'] is the entry it stopped at. *)
Record passed {B} (vis : slot -> list B) (at_ : Z -> Z -> B) (s : qdma_descq) (j : job) (dmax : Z)
    (ring : list slot) (f : fill) : Prop := {
  ps_ring : length ring = Z.to_nat (rngsz (conf s));
  ps_cnt : 0 < f_cnt f <= dmax;
  ps_pidx : f_pidx f = (pidx s + f_cnt f) mod rngsz (conf s);
  ps_data : 0 < f_data f;
  ps_end : offset (cb j) + f_data f <= count (req j);
  ps_all : offset (cb j) + f_data f = count (req j) \/ f_cnt f = dmax;
  ps_few : f_cnt f <= f_data f;
  ps_new : window vis (rngsz (conf s)) ring (pidx s) (f_cnt f) =
             stream at_ (sgl (req j)) (offset (cb j)) (f_data f);
  ps_old n : dmax <= n < rngsz (conf s) ->
    vis_at vis ring ((pidx s + n) mod rngsz (conf s)) = vis_at vis (desc s) ((pidx s + n) mod rngsz (conf s)) }.

Lemma window_keep {B} (vis : slot -> list B) size ring i p n f :
  (forall d, vis (f d) = vis d) ->
  window vis size (at_slot i f ring) p n = window vis size ring p n.
Proof. intros Hf. apply window_ext. intros m Hm. by apply vis_at_keep. Qed.

Lemma mm_start_good c j :
  conf_ok c -> card_ok c (req j) -> 0 <= offset (cb j) < count (req j) -> count (req j) < 4294967296 ->
  forall s o, mm_good c (req j) (offset (cb j)) (fill_start s (ep_start c j) o).
Proof.
  intros Hc [He1 He2] Ho Hcnt s o. split; [left|simpl; lia]. simpl. unfold ep_start, card_addr.
  destruct (aperture_values c Hc) as [Ha1 Ha2]. revert He2 Ha1. destruct (keyhole_en c) eqn:Ek; intros He2 Ha1.
  2: by rewrite u64_small by in_range.
  destruct Hc as [_ [H0|(a & Ha & Hap)]]; [unfold keyhole_en in Ek; by rewrite H0 in Ek|].
  assert (0 < 2 ^ a < 2 ^ 28) by (split; [apply Z.pow_pos_nonneg; lia|apply Z.pow_lt_mono_r; lia]).
  rewrite Ha1, Hap in *. rewrite (u32_small (2 ^ a - 1)) by in_range.
  replace (2 ^ a - 1) with (Z.ones a) by (rewrite Z.ones_equiv; lia). rewrite land_low by lia.
  pose proof (Z.mod_pos_bound (offset (cb j)) (2 ^ a)). apply u64_small. in_range.
Qed.

Lemma pass_spec {B} (vis : slot -> list B) at_ good s j pre g post o dmax enter piece f0 :
  good_local good -> conf_ok (conf s) -> request_ok (req j) -> 0 <= offset (cb j) < count (req j) ->
  length (desc s) = Z.to_nat (rngsz (conf s)) -> 0 <= pidx s < rngsz (conf s) -> 0 < dmax < rngsz (conf s) ->
  sgl (req j) = pre ++ g :: post -> 0 <= o < sg_len g -> sum_len pre + o = offset (cb j) ->
  (forall i g, piece_spec vis at_ (rngsz (conf s)) good (count (req j)) (piece i g)) -> enter_spec vis good enter ->
  good (offset (cb j)) f0 -> f_pidx f0 = pidx s -> f_sg_offset f0 = o -> f_data f0 = 0 -> f_cnt f0 = 0 ->
  length (f_ring f0) = length (desc s) ->
  (forall i, 0 <= i -> vis_at vis (f_ring f0) i = vis_at vis (desc s) i) ->
  exists i f, for_sgl enter piece dmax (drop (length pre) (sgl (req j))) (Z.of_nat (length pre)) f0 = (i, f) /\
    passed vis at_ s j dmax (f_ring f) f /\ good (offset (cb j) + f_data f) f.
Proof.
  intros Hgood Hc Hr Hoff Hlen Hp Hd Hsgl Ho Hsum Hpiece Henter Hg0 Hp0 Ho0 Hd0 Hc0 Hl0 Hv0.
  destruct Hr as [Hok Hcnt Hmax]. destruct Hc as [Hsz _].
  destruct (for_sgl_spec vis at_ (rngsz (conf s)) good Hgood enter piece pre (g :: post) (desc s) (pidx s)
    (offset (cb j)) dmax (count (req j)) (Z.of_nat (length pre)) f0) as (i & f & He & Hf & H1 & H2 & H3 & H4);
    rewrite <- ?Hsgl; try done; try lia.
  - split; rewrite ?Hl0, ?Hc0, ?Hd0, ?Hp0, ?Z.add_0_r; try done; try lia.
    + by rewrite Z.mod_small.
    + intros n Hn. apply Hv0, Z.mod_pos_bound. lia.
  - intros g' l' [= <- <-]. lia.
  - rewrite <- Hsgl in *. specialize (H4 ltac:(done) ltac:(lia)).
    exists i, f. rewrite Hsgl at 1. rewrite drop_app_length. split; [done|].
    destruct Hf as [F1 F2 F3 F4 F5 F6 F7]. split; [|done]. split; try done; lia.
Qed.

Lemma passed_keep {B} (vis : slot -> list B) at_ s j dmax ring ring' f :
  (length ring' = length ring /\ forall i, vis_at vis ring' i = vis_at vis ring i) ->
  passed vis at_ s j dmax ring f -> passed vis at_ s j dmax ring' f.
Proof.
  intros [Hl Hk] []. split; try done; try lia.
  - rewrite <- ps_new0. apply window_ext. intros. apply Hk.
  - intros n Hn. rewrite Hk. by apply ps_old0.
Qed.

Lemma mm_mark_keep c2h first last ring :
  length (mm_mark first last ring) = length ring /\
  forall i, vis_at (mm_bytes c2h) (mm_mark first last ring) i = vis_at (mm_bytes c2h) ring i.
Proof.
  unfold mm_mark. split; [unfold at_slot; by rewrite !length_alter|].
  intros i. rewrite !vis_at_keep; [done|..]; intros d; by apply set_flag_bytes.
Qed.

Lemma mm_pass s j dmax :
  conf_ok (conf s) -> request_ok (req j) -> card_ok (conf s) (req j) ->
  0 <= offset (cb j) < count (req j) ->
  length (desc s) = Z.to_nat (rngsz (conf s)) -> 0 <= pidx s < rngsz (conf s) -> 0 < dmax < rngsz (conf s) ->
  exists i o i' f, qdma_sgl_find_offset j = (i, o) /\ 0 <= i /\
    mm_fill s j i o dmax = (i', f) /\
    let last := (pidx s + f_cnt f - 1) mod rngsz (conf s) in
    f_end f = Some last /\
    passed (mm_bytes (q_type (conf s) =? Q_C2H)) (mm_at (conf s) (req j)) s j dmax
      (mm_mark (pidx s) last (f_ring f)) f.
Proof.
  intros Hc Hr Hcard Hoff Hlen Hp Hd. pose proof Hr as [Hok Hcnt Hmax].
  destruct (find_offset_spec j) as (pre & g & post & o & Hsgl & Hfind & Ho & Hsum); try done; try lia.
  destruct (pass_spec (mm_bytes (q_type (conf s) =? Q_C2H)) (mm_at (conf s) (req j)) (mm_good (conf s) (req j))
    s j pre g post o dmax mm_enter (mm_piece (conf s) (req j)) (fill_start s (ep_start (conf s) j) o))
    as (i & f & He & Hf & _ & Hend); try done.
  - apply mm_good_local.
  - intros. apply mm_piece_spec; [done..|lia].
  - apply mm_enter_spec.
  - apply mm_start_good; done || lia.
  - exists (Z.of_nat (length pre)), o, i, f. cbv zeta.
    split_and!; try done; [lia|unfold mm_fill; by rewrite Nat2Z.id|..].
    + rewrite Hend by (destruct Hf; lia). f_equal. rewrite (ps_pidx _ _ _ _ _ _ _ Hf).
      by rewrite Zminus_mod_idemp_l.
    + apply (passed_keep _ _ _ _ _ (f_ring f)); [apply mm_mark_keep|done].
Qed.

(** C23. A pass over a memory-mapped request.  The descriptors written for it are those
    of the next bytes of the request: taken in the order of the ring they transfer each of these bytes
    exactly once, between its place in the scatter-gather list and its place on the card (in
    a keyhole transfer the place wraps around in the aperture); the pass writes at least
    one descriptor, ends with the request or with the free descriptors, and the descriptors the engine still has to read are left as they were.  The list has
    as many bytes as the request counts ([request_ok]), and an aperture is a power of two below 2^28
    ([conf_ok]). *)
Theorem mm_pass_transfers s j dmax :
  conf_ok (conf s) -> request_ok (req j) -> card_ok (conf s) (req j) ->
  0 <= offset (cb j) < count (req j) ->
  length (desc s) = Z.to_nat (rngsz (conf s)) -> 0 <= pidx s < rngsz (conf s) -> 0 < dmax < rngsz (conf s) ->
  exists i o i' f, qdma_sgl_find_offset j = (i, o) /\ 0 <= i /\
    mm_fill s j i o dmax = (i', f) /\
    let last := (pidx s + f_cnt f - 1) mod rngsz (conf s) in
    f_end f = Some last /\
    passed (mm_bytes (q_type (conf s) =? Q_C2H)) (mm_at (conf s) (req j)) s j dmax
      (mm_mark (pidx s) last (f_ring f)) f.
Proof. apply mm_pass. Qed.

(** ** Streaming to the card *)

(** The bytes a descriptor sends. *)
Definition h2c_bytes (d : slot) : list Z :=
  match d with
  | H2cSlot d => map (fun n => h2c_src_addr d + n) (seqZ 0 (h2c_len d))
  | MmSlot _ => []
  end.

Definition is_h2c (d : slot) : Prop := match d with H2cSlot _ => True | MmSlot _ => False end.

Definition h2c_good (k : Z) (f : fill) : Prop := Forall is_h2c (f_ring f).

Lemma at_slot_h2c ring i f :
  (forall d, is_h2c d -> is_h2c (f d)) -> Forall is_h2c ring -> Forall is_h2c (at_slot i f ring).
Proof. intros Hf Hr. unfold at_slot. apply Forall_alter; [done|]. intros d _ Hd. by apply Hf. Qed.

Lemma clear_flags_bytes d : h2c_bytes (clear_flags d) = h2c_bytes d.
Proof. by destruct d. Qed.

Lemma h2c_piece_spec c r i g :
  conf_ok c -> 0 < pktsz r -> count r < 4294967296 ->
  piece_spec h2c_bytes (fun h _ => h) (rngsz c) h2c_good (count r) (h2c_piece c r i g).
Proof.
  intros [Hsz _] Hpk Hcnt k f []. exists (Z.min (f_tlen f) (pktsz r)).
  assert (Hpage : pktsz r <= 4096) by (unfold pktsz, PAGE_SIZE; destruct (ep_addr r =? 0); lia).
  unfold h2c_piece. rewrite next_pidx_mod by lia. unwrap_ints.
  pose proof (Z.mod_pos_bound (f_pidx f + 1) (rngsz c) ltac:(lia)) as Hp.
  set (p := (f_pidx f + 1) mod rngsz c) in *. set (ring := at_slot (f_pidx f) _ _).
  assert (Hvis : forall j, vis_at h2c_bytes (if p =? 0 then ring else at_slot p clear_flags ring) j =
                           vis_at h2c_bytes ring j).
  { intros j. destruct (p =? 0); [done|]. apply vis_at_keep, clear_flags_bytes. }
  split; cbn [f_ring f_pidx f_src f_tlen f_sg_offset f_data f_cnt f_ep f_end]; try done; try lia.
  - destruct (p =? 0); unfold ring, at_slot; by rewrite !length_alter.
  - rewrite Hvis. unfold vis_at, ring. rewrite lookup_at_slot_same by lia.
    destruct (lookup_lt_is_Some_2 (f_ring f) (Z.to_nat (f_pidx f))) as [d Hd]; [lia|].
    pose proof (Forall_lookup_1 _ _ _ _ rd_good Hd) as Hh. rewrite Hd. destruct d; [done|]. simpl.
    rewrite u16_small by in_range. done.
  - intros j Hj Hne. rewrite Hvis. apply vis_at_other; lia.
  - unfold h2c_good in *. cbn [f_ring].
    assert (Forall is_h2c ring) by (apply at_slot_h2c; [by intros []|done]).
    destruct (p =? 0); [done|]. apply at_slot_h2c; [by intros []|done].
Qed.

Lemma h2c_pass s j dmax :
  conf_ok (conf s) -> request_ok (req j) -> 0 < pktsz (req j) -> Forall is_h2c (desc s) ->
  0 <= offset (cb j) < count (req j) ->
  length (desc s) = Z.to_nat (rngsz (conf s)) -> 0 <= pidx s < rngsz (conf s) -> 0 < dmax < rngsz (conf s) ->
  exists i o i' f, qdma_sgl_find_offset j = (i, o) /\ 0 <= i /\ h2c_fill s j i o dmax = (i', f) /\
    Forall is_h2c (f_ring f) /\ passed h2c_bytes (fun h _ => h) s j dmax (f_ring f) f.
Proof.
  intros Hc Hr Hpk Hh Hoff Hlen Hp Hd. pose proof Hr as [Hok Hcnt Hmax].
  destruct (find_offset_spec j) as (pre & g & post & o & Hsgl & Hfind & Ho & Hsum); try done; try lia.
  set (f0 := fill_start s 0 o).
  destruct (pass_spec h2c_bytes (fun h _ => h) h2c_good s j pre g post o dmax id (h2c_piece (conf s) (req j))
    (mk_fill (at_slot (f_pidx f0) clear_flags (f_ring f0)) (f_pidx f0) (f_ep f0) (f_src f0) (f_tlen f0)
       (f_sg_offset f0) (f_data f0) (f_cnt f0) (f_end f0) (f_stamp f0)))
    as (i & f & He & Hf & Hgood); try done.
  - intros k f f' _ _ _ _ Hr' Hg. unfold h2c_good. by rewrite Hr'.
  - intros. apply h2c_piece_spec; [done..|lia].
  - apply at_slot_h2c; [by intros []|done].
  - simpl. unfold at_slot. by rewrite length_alter.
  - intros k Hk. simpl. apply vis_at_keep, clear_flags_bytes.
  - exists (Z.of_nat (length pre)), o, i, f. split_and!; try done; [lia|].
    unfold h2c_fill. by rewrite Nat2Z.id.
Qed.

(** A pass over a request for streaming.  As for memory-mapped transfers: the new
    descriptors send the next bytes of the request in order and each once, and those the engine
    still has send what they sent. *)
Theorem h2c_pass_sends s j dmax :
  conf_ok (conf s) -> request_ok (req j) -> 0 < pktsz (req j) -> Forall is_h2c (desc s) ->
  0 <= offset (cb j) < count (req j) ->
  length (desc s) = Z.to_nat (rngsz (conf s)) -> 0 <= pidx s < rngsz (conf s) -> 0 < dmax < rngsz (conf s) ->
  exists i o i' f, qdma_sgl_find_offset j = (i, o) /\ 0 <= i /\ h2c_fill s j i o dmax = (i', f) /\
    Forall is_h2c (f_ring f) /\ passed h2c_bytes (fun h _ => h) s j dmax (f_ring f) f.
Proof. apply h2c_pass. Qed.

(** ** At concrete inputs *)

Lemma small_conf_ok q strm mode : conf_ok (small_conf q 0 strm mode).
Proof. split; [simpl; lia|by left]. Qed.

Lemma request_ok_small k w : request_ok (request k 3 w) /\ request_ok (request k 10 w).
Proof. split; split; try done; repeat constructor; done. Qed.

(** A keyhole transfer from the card that goes on in the middle of a page. *)
Definition keyhole_conf : queue_conf := small_conf Q_C2H 8 false POLL_MODE.
Definition started_job (w : bool) : job := mk_job (request 1 10 w) (mk_cb 2 14 0 None 0 false false).

Lemma mm_pass_transfers_witness :
  exists i o i' f, qdma_sgl_find_offset (started_job false) = (i, o) /\ 0 <= i /\
    mm_fill (new_queue keyhole_conf 0) (started_job false) i o 5 = (i', f) /\
    let last := (0 + f_cnt f - 1) mod 8 in
    f_end f = Some last /\
    passed (mm_bytes true) (mm_at keyhole_conf (request 1 10 false)) (new_queue keyhole_conf 0) (started_job false) 5
      (mm_mark 0 last (f_ring f)) f.
Proof.
  apply (mm_pass_transfers (new_queue keyhole_conf 0) (started_job false) 5).
  - split; [simpl; lia|right; exists 3; split; [lia|reflexivity]].
  - apply request_ok_small.
  - split; [simpl; lia|vm_compute; reflexivity].
  - simpl. lia.
  - reflexivity.
  - simpl. lia.
  - simpl. lia.
Defined.

Definition stream_conf : queue_conf := small_conf Q_H2C 0 true POLL_MODE.

Lemma h2c_pass_sends_witness :
  exists i o i' f, qdma_sgl_find_offset (started_job true) = (i, o) /\ 0 <= i /\
    h2c_fill (new_queue stream_conf 0) (started_job true) i o 5 = (i', f) /\
    Forall is_h2c (f_ring f) /\
    passed h2c_bytes (fun h _ => h) (new_queue stream_conf 0) (started_job true) 5 (f_ring f) f.
Proof.
  apply (h2c_pass_sends (new_queue stream_conf 0) (started_job true) 5).
  - apply small_conf_ok.
  - apply request_ok_small.
  - vm_compute. reflexivity.
  - repeat constructor.
  - simpl. lia.
  - reflexivity.
  - simpl. lia.
  - simpl. lia.
Defined.
