(* ===== verification/DescqInv.v ===== *)
(** * DescqInv: the invariant of a descriptor queue

    The ring, the credits and the requests of a queue fit together
    ([queue_ok]): the descriptors in the ring are those of the requests that wait for
    them, less the credits already given.  Handling completions and writing
    descriptors keeps this, and moves requests on in the order in which they were
    submitted ([progress]). *)

From S2P Require Import Prelude Mmio CLayout Contexts Csr SoftCsr S80Csr Descq DescqFill DescqPass.
Local Open Scope Z_scope.

(** ** The invariant *)

(** Descriptors written that the engine is not known to have read. *)
Definition outstanding (s : qdma_descq) : Z := (pidx s - cidx s) mod rngsz (conf s).

Definition nr (j : job) : Z := desc_nr (cb j).

Fixpoint sum_nr (l : list job) : Z :=
  match l with [] => 0 | j :: l' => nr j + sum_nr l' end.

Definition head_nr (l : list job) : Z := match l with [] => 0 | j :: _ => nr j end.

(** A request the queue can transfer. *)
Definition job_ok (c : queue_conf) (j : job) : Prop :=
  request_ok (req j) /\ (if st c then 0 < pktsz (req j) else card_ok c (req j)).

(** A job whose descriptors are all in the ring. *)
Definition written (j : job) : Prop := 0 < nr j < 4294967296 /\ offset (cb j) = count (req j).

(** A job that has not been started. *)
Definition fresh (j : job) : Prop := offset (cb j) = 0 /\ nr j = 0.

(** A job that is done. *)
Definition completed (j : job) : Prop :=
  status (cb j) = 0 /\ done_ (cb j) = true /\ offset (cb j) = count (req j).

(** Only the first job of the work list has been started. *)
Definition work_ok (l : list job) : Prop :=
  match l with
  | [] => True
  | j :: l' => 0 <= offset (cb j) < count (req j) /\ 0 <= nr j <= offset (cb j) /\ Forall fresh l'
  end.

Record queue_ok (s : qdma_descq) : Prop := {
  qo_conf : conf_ok (conf s);
  qo_desc : length (desc s) = Z.to_nat (rngsz (conf s));
  qo_slots : st (conf s) = true -> Forall is_h2c (desc s);
  qo_pidx : 0 <= pidx s < rngsz (conf s);
  qo_cidx : 0 <= cidx s < rngsz (conf s);
  qo_avail : avail s = rngsz (conf s) - 1 - outstanding s;
  qo_jobs : Forall (job_ok (conf s)) (work_list s);
  qo_work : work_ok (work_list s);
  qo_pend : Forall written (pend_list s);
  qo_range : 0 <= credit s <= 2147483648;
  qo_credit : sum_nr (pend_list s) + head_nr (work_list s) = outstanding s + credit s;
  qo_drained : outstanding s = 0 -> pend_list s = [] }.

(** The requests of a queue in the order they were submitted. *)
Definition fifo (s : qdma_descq) : list nat :=
  map jid (rev (finished s)) ++ map jid (pend_list s) ++ map jid (work_list s).

(** What handling a queue does to it: the configuration stays, no request is lost,
    added or overtaken, and those that become done were transferred without
    error. *)
Record progress (s s' : qdma_descq) : Prop := {
  pr_conf : conf s' = conf s;
  pr_state : q_state s' = q_state s;
  pr_stop : q_stop_wait s' = q_stop_wait s;
  pr_fifo : fifo s' = fifo s;
  pr_done : exists new, finished s' = new ++ finished s /\ Forall completed new }.

Lemma progress_refl s : progress s s.
Proof. split; try done. by exists []. Qed.

Lemma progress_trans s1 s2 s3 : progress s1 s2 -> progress s2 s3 -> progress s1 s3.
Proof.
  intros [C1 S1 Q1 F1 (n1 & D1 & A1)] [C2 S2 Q2 F2 (n2 & D2 & A2)]. split; try congruence.
  exists (n2 ++ n1). rewrite D2, D1, app_assoc. split; [done|]. by apply Forall_app.
Qed.

(** The engine reports an index between the driver's own two. *)
Definition engine_ok `{DmaEngine} : Prop :=
  forall s, queue_ok s -> 0 <= cmpl_status_cidx s < rngsz (conf s) /\
    (cmpl_status_cidx s - cidx s) mod rngsz (conf s) <= outstanding s.

(** ** Lists of jobs *)

Lemma sum_nr_app l1 l2 : sum_nr (l1 ++ l2) = sum_nr l1 + sum_nr l2.
Proof. induction l1; simpl; lia. Qed.

Lemma sum_nr_nonneg l : Forall written l -> 0 <= sum_nr l.
Proof. induction 1 as [|j l [? ?]]; simpl; lia. Qed.

Lemma sum_nr_zero l : Forall written l -> sum_nr l = 0 -> l = [].
Proof. intros [|j l' [Hj _] Hl]; [done|]. simpl. pose proof (sum_nr_nonneg _ Hl). lia. Qed.

Lemma outstanding_range s : queue_ok s -> 0 <= outstanding s < rngsz (conf s).
Proof. intros []. destruct qo_conf0. apply Z.mod_pos_bound. lia. Qed.

(** ** Doorbells *)

Lemma queue_pidx_update_run s : exists tr, queue_pidx_update s = Ret 0 (set_regs tr s).
Proof.
  unfold queue_pidx_update. destruct (hw_hard (conf s));
    unfold qdma_s80_hard_queue_pidx_update, qdma_queue_pidx_update, doorbell, write32_data, modify, log;
    by eexists.
Qed.

Lemma qdma_pidx_update_force s : exists tr, qdma_pidx_update true s = Ret 0 (set_desc_pend 0 (set_regs tr s)).
Proof.
  destruct (queue_pidx_update_run s) as [tr Htr]. exists tr.
  unfold qdma_pidx_update, gets, modify. unfold mbind, M_bind. simpl. by rewrite Htr.
Qed.

(** ** Indices *)

(** The functions on indices count modulo the size of the ring. *)
Lemma ring_idx_mod i n size :
  0 < size < 65536 -> 0 <= i < size -> 0 <= n < size ->
  ring_idx_delta i n size = (i - n) mod size /\ ring_idx_incr i n size = (i + n) mod size /\
  ring_idx_decr i n size = (i - n) mod size /\ incr_pidx i n size = (i + n) mod size.
Proof.
  intros Hs Hi Hn. unfold ring_idx_delta, ring_idx_incr, ring_idx_decr, incr_pidx. unwrap_ints.
  assert (Hsub : (if i >=? n then i - n else i - n + size) = (i - n) mod size).
  { destruct (Z.geb_spec i n); [symmetry; apply Z.mod_small; lia|]. apply (Z.mod_unique_pos _ _ (-1)); lia. }
  assert (Hadd : (if i + n >=? size then i + n - size else i + n) = (i + n) mod size).
  { destruct (Z.geb_spec (i + n) size); [|symmetry; apply Z.mod_small; lia]. apply (Z.mod_unique_pos _ _ 1); lia. }
  rewrite <- Hsub, <- Hadd.
  destruct (Z.geb_spec i n), (Z.geb_spec (i + n) size); unwrap_ints; split_and!; lia.
Qed.

(** ** Running a handler *)

Lemma bind_modify {S B} (f : S -> S) (k : unit -> M S B) s : (modify f ≫= k) s = k tt (f s).
Proof. done. Qed.

Lemma bind_gets {S A B} (f : S -> A) (k : A -> M S B) s : (gets f ≫= k) s = k (f s) s.
Proof. done. Qed.

Lemma bind_mret {S A B} (a : A) (k : A -> M S B) s : (mret a ≫= k) s = k a s.
Proof. done. Qed.

Section inv.
Context `{DmaEngine}.

(** ** Completing requests *)

(** The parts of a queue that [retire] leaves alone. *)
Record same_ring (s s' : qdma_descq) : Prop := {
  sr_conf : conf s' = conf s;
  sr_state : q_state s' = q_state s;
  sr_stop : q_stop_wait s' = q_stop_wait s;
  sr_running : proc_req_running s' = proc_req_running s;
  sr_avail : avail s' = avail s;
  sr_pidx : pidx s' = pidx s;
  sr_cidx : cidx s' = cidx s;
  sr_desc : desc s' = desc s;
  sr_work : work_list s' = work_list s }.

Lemma qdma_sgt_req_done_run j s :
  offset (cb j) = count (req j) ->
  exists s' j', qdma_sgt_req_done j 0 s = Ret tt s' /\ same_ring s s' /\
    pend_list s' = tail (pend_list s) /\ finished s' = j' :: finished s /\ completed j' /\ jid j' = jid j.
Proof.
  intros Ho. unfold qdma_sgt_req_done, gets, log_dma, modify. unfold mbind, M_bind, mret, M_ret. simpl.
  destruct (unmap_needed (cb j)); simpl; [destruct (sgl_unmap (sgl (req j))) as [l ev]; simpl|];
    rewrite Ho, Z.eqb_refl, andb_false_r; simpl; eexists _, _; split_and!; try done; by split.
Qed.

(** [retire] gives the credits to the first jobs: those that are covered are done. *)
Lemma retire_run l cr s :
  pend_list s = l -> Forall written l -> 0 <= cr < 4294967296 ->
  exists cr' s', retire l cr s = Ret cr' s' /\ same_ring s s' /\ Forall written (pend_list s') /\
    0 <= cr' <= cr /\ sum_nr l - cr = sum_nr (pend_list s') - cr' /\ (cr' = 0 \/ pend_list s' = []) /\
    fifo s' = fifo s /\ exists new, finished s' = new ++ finished s /\ Forall completed new.
Proof.
  revert cr s. induction l as [|j l IH]; intros cr s Hl Hw Hcr; simpl.
  { exists cr, s. rewrite Hl. split_and!; try done; try lia; [by right|by exists []]. }
  apply Forall_cons in Hw as [[Hj Ho] Hw]. fold (nr j).
  destruct (Z.geb_spec cr (nr j)) as [Hge|Hlt].
  - destruct (qdma_sgt_req_done_run j s Ho) as (s1 & j' & Hrun & Hsame & Hp1 & Hf1 & Hc1 & Hid).
    rewrite Hl in Hp1. simpl in Hp1.
    assert (Hfifo : fifo s1 = fifo s).
    { unfold fifo. rewrite Hf1, Hp1, Hl, (sr_work _ _ Hsame). simpl. rewrite map_app. simpl.
      by rewrite Hid, <- app_assoc. }
    unfold mbind at 1, M_bind at 1. rewrite Hrun. unwrap_ints.
    destruct (Z.eqb_spec (cr - nr j) 0) as [Hz|Hz].
    + exists (cr - nr j), s1. rewrite Hp1. split_and!; try done; try lia.
      exists [j']. rewrite Hf1. split; [done|]. by constructor.
    + destruct (IH (cr - nr j) s1) as (cr' & s' & Hr & Hs & ? & ? & ? & ? & Hff & new & Hn & Hnc); [done..|lia|].
      exists cr', s'. split_and!; try done; try lia.
      * destruct Hsame, Hs. split; congruence.
      * congruence.
      * exists (new ++ [j']). rewrite Hn, Hf1, <- app_assoc. split; [done|]. apply Forall_app. by split; [|constructor].
  - eexists _, _. split; [reflexivity|]. unfold nr in *. simpl. rewrite Hl. simpl. unwrap_ints.
    split_and!; try done; try lia; try (by split); try (by left).
    + constructor; [|done]. split; [|done]. unfold nr. simpl. lia.
    + unfold nr. simpl. lia.
    + unfold fifo. simpl. by rewrite Hl.
    + by exists [].
Qed.

Lemma same_ring_outstanding s s' : same_ring s s' -> outstanding s' = outstanding s.
Proof. intros []. unfold outstanding. congruence. Qed.

(** The credits between two positions of the engine. *)
Lemma credits_between size p c h :
  0 < size < 65536 -> 0 <= p < size -> 0 <= c < size -> 0 <= h < size ->
  (h - c) mod size <= (p - c) mod size -> h <> c ->
  let cr := if h <? c then u32 (u32 (size - c) + h) else u32 (h - c) in
  cr = (h - c) mod size /\ 0 < cr /\ (p - h) mod size = (p - c) mod size - cr.
Proof.
  intros Hs Hp Hc Hh Hle Hne. cbv zeta.
  assert (Hcr : (if h <? c then u32 (u32 (size - c) + h) else u32 (h - c)) = (h - c) mod size).
  { destruct (Z.ltb_spec h c); unwrap_ints; [|by rewrite Z.mod_small by lia].
    apply (Z.mod_unique_pos _ _ (-1)); lia. }
  rewrite Hcr. split; [done|]. pose proof (Z.mod_pos_bound (h - c) size ltac:(lia)) as Hb.
  pose proof (Z.mod_pos_bound (p - c) size ltac:(lia)) as Hb'.
  assert (Hd : (p - h) mod size = (p - c) mod size - (h - c) mod size).
  { replace (p - h) with ((p - c) - (h - c)) by lia. rewrite Zminus_mod. apply Z.mod_small. lia. }
  split; [|done]. destruct (Z.eq_dec ((h - c) mod size) 0) as [H0|]; [|lia].
  exfalso. apply Z.mod_divide in H0 as [q Hq]; [|lia]. assert (q = 0) by nia. lia.
Qed.

Lemma incr_cmpl_desc_cnt_run cnt s :
  exists pk td, incr_cmpl_desc_cnt cnt s = Ret tt (set_total_pkts pk (set_total_cmpl_descs td s)).
Proof. unfold incr_cmpl_desc_cnt, modify. by eexists _, _. Qed.

(** Handling completions.  If the engine has read everything, every request
    written is done. *)
Lemma cmpl_status_run s :
  engine_ok -> queue_ok s ->
  exists s', descq_mm_n_h2c_cmpl_status s = Ret 0 s' /\ queue_ok s' /\ progress s s' /\
    work_list s' = work_list s /\ pidx s' = pidx s /\ desc s' = desc s /\
    proc_req_running s' = proc_req_running s /\
    cidx s' = (if pidx s =? cidx s then cidx s else cmpl_status_cidx s) /\ avail s <= avail s'.
Proof.
  intros He Hq. unfold descq_mm_n_h2c_cmpl_status. rewrite bind_gets. unfold id.
  destruct (Z.eqb_spec (pidx s) (cidx s)) as [Hpc|Hpc].
  { exists s. split_and!; done || lia || apply progress_refl. }
  destruct (He s Hq) as [Hh Hle]. pose proof Hq as Hq'. destruct Hq as [[Hsz Hap] Hdesc Hslots Hp Hc Hav Hjobs Hwork Hpend Hcr Hsum Hdr].
  rewrite (u16_small (cmpl_status_cidx s)) by in_range.
  destruct (Z.eqb_spec (cmpl_status_cidx s) (cidx s)) as [Heq|Hne].
  { exists s. split_and!; done || lia || apply progress_refl. }
  set (h := cmpl_status_cidx s) in *. unfold outstanding in *.
  destruct (credits_between (rngsz (conf s)) (pidx s) (cidx s) h) as (Hcr1 & Hcr2 & Hcr3); try done; try lia.
  set (cr := if h <? cidx s then _ else _) in *.
  set (s1 := set_credit (u32 (credit s + cr)) (set_avail (u32 (avail s + cr)) (set_cidx h s))).
  rewrite bind_modify. cbv beta. fold s1.
  destruct (incr_cmpl_desc_cnt_run cr s1) as (pk & td & Hincr). rewrite (bind_Ret _ _ _ _ _ Hincr).
  set (s2 := set_total_pkts pk (set_total_cmpl_descs td s1)). rewrite bind_gets. unfold id.
  pose proof (Z.mod_pos_bound (pidx s - cidx s) (rngsz (conf s)) ltac:(lia)) as Hob.
  assert (Hs2 : pend_list s2 = pend_list s /\ credit s2 = credit s + cr) by (simpl; unwrap_ints; done).
  destruct Hs2 as [Hp2 Hc2]. rewrite Hc2.
  destruct (retire_run (pend_list s2) (credit s + cr) s2) as (cr' & s3 & Hrun & Hsame & Hw3 & Hcr' & Hs3 & Hz & Hfifo & Hdone);
    [done|by rewrite Hp2|lia|].
  rewrite (bind_Ret _ _ _ _ _ Hrun), bind_modify.
  destruct (qdma_pidx_update_force (set_credit cr' s3)) as [tr Htr]. rewrite (bind_Ret _ _ _ _ _ Htr). eexists. split; [reflexivity|].
  destruct Hsame as [E1 E2 E3 E4 E5 E6 E7 E8 E9].
  change (conf s2) with (conf s) in E1. change (q_state s2) with (q_state s) in E2.
  change (q_stop_wait s2) with (q_stop_wait s) in E3. change (proc_req_running s2) with (proc_req_running s) in E4.
  change (avail s2) with (u32 (avail s + cr)) in E5. change (pidx s2) with (pidx s) in E6.
  change (cidx s2) with h in E7. change (desc s2) with (desc s) in E8. change (work_list s2) with (work_list s) in E9.
  rewrite Hp2 in Hs3. rewrite (u32_small (avail s + cr)) in E5 by in_range.
  pose proof (sum_nr_nonneg _ Hw3) as Hnn.
  assert (Hhead : 0 <= head_nr (work_list s) <= 2147483648).
  { destruct (work_list s) as [|j l]; simpl; [lia|]. simpl in Hwork. apply Forall_cons in Hjobs as [[[_ _ ?] _] _]. lia. }
  split_and!; try done; [|simpl; lia].
  split; unfold outstanding; cbn [conf desc pidx cidx avail work_list pend_list credit set_desc_pend set_regs set_credit];
    rewrite ?E1, ?E5, ?E6, ?E7, ?E8, ?E9; try done; try lia.
  { destruct Hz as [->|Hz]; [lia|]. rewrite Hz in Hs3. simpl in Hs3.
    pose proof (Z.mod_pos_bound (pidx s - h) (rngsz (conf s))). lia. }
  intros H0. apply sum_nr_zero; [done|]. destruct Hz as [->|Hz]; [|by rewrite Hz]. lia.
Qed.

(** What [queue_ok] and [progress] look at. *)
Lemma queue_ok_ext s s' :
  conf s' = conf s -> avail s' = avail s -> pidx s' = pidx s -> cidx s' = cidx s -> desc s' = desc s ->
  work_list s' = work_list s -> pend_list s' = pend_list s -> credit s' = credit s ->
  queue_ok s -> queue_ok s'.
Proof.
  intros E1 E2 E3 E4 E5 E6 E7 E8 []. split; unfold outstanding in *; rewrite ?E1, ?E2, ?E3, ?E4, ?E5, ?E6, ?E7, ?E8; done.
Qed.

Lemma progress_ext s s' :
  conf s' = conf s -> q_state s' = q_state s -> q_stop_wait s' = q_stop_wait s ->
  work_list s' = work_list s -> pend_list s' = pend_list s -> finished s' = finished s -> progress s s'.
Proof. intros E1 E2 E3 E4 E5 E6. split; try done; [unfold fifo; by rewrite E4, E5, E6|by exists []]. Qed.

Lemma poll_run s :
  engine_ok -> queue_ok s ->
  exists s', descq_poll_mm_n_h2c_cmpl_status s = Ret 0 s' /\ queue_ok s' /\ progress s s' /\
    work_list s' = work_list s /\ avail s <= avail s'.
Proof.
  intros He Hq. unfold descq_poll_mm_n_h2c_cmpl_status. rewrite bind_gets. unfold id.
  assert (Hpoll : exists s', (modify (set_proc_req_running true);; descq_mm_n_h2c_cmpl_status) s = Ret 0 s' /\
    queue_ok s' /\ progress s s' /\ work_list s' = work_list s /\ avail s <= avail s').
  { rewrite bind_modify.
    destruct (cmpl_status_run (set_proc_req_running true s)) as (s' & Hr & Hok & Hpr & Hw & _ & _ & _ & _ & Ha); [done|by apply (queue_ok_ext s)|].
    exists s'. split_and!; try done. eapply progress_trans; [|exact Hpr]. by apply progress_ext. }
  destruct (drv_mode (conf s)); try exact Hpoll; exists s; split_and!; done || lia || apply progress_refl.
Qed.

Lemma find_room_run s :
  engine_ok -> queue_ok s ->
  exists s', find_room s = Ret (avail s') s' /\ queue_ok s' /\ progress s s' /\
    work_list s' = work_list s /\ (avail s <> 0 -> s' = s).
Proof.
  intros He Hq. unfold find_room. rewrite bind_gets. destruct (Z.eqb_spec (avail s) 0).
  - destruct (poll_run s He Hq) as (s' & Hr & ? & ? & ? & _). rewrite (bind_Ret _ _ _ _ _ Hr). by exists s'.
  - exists s. split_and!; try done. apply progress_refl.
Qed.

(** ** Writing descriptors *)

(** Bytes of the requests of the work list that have no descriptor yet. *)
Fixpoint bytes_left (l : list job) : Z :=
  match l with [] => 0 | j :: l' => count (req j) - offset (cb j) + bytes_left l' end.

Lemma bytes_left_nonneg c l : Forall (job_ok c) l -> work_ok l -> 0 <= bytes_left l.
Proof.
  intros Hj. destruct Hj as [|j l Hj Hl]; [done|]. simpl. intros (? & _ & Hf).
  assert (0 <= bytes_left l); [|lia]. induction Hl as [|j' l [[_ _ ?] _] Hl IH]; [done|].
  apply Forall_cons in Hf as [[Ho _] Hf]. simpl. specialize (IH Hf). lia.
Qed.

(** The first job moves on, or to the pending list. *)
Lemma update_request_run j l num data o sg s :
  work_list s = j :: l ->
  0 <= nr j + num < 4294967296 -> 0 <= offset (cb j) + data < 4294967296 ->
  exists s' j', qdma_update_request j num data o sg s = Ret tt s' /\
    req j' = req j /\ nr j' = nr j + num /\ offset (cb j') = offset (cb j) + data /\
    (if offset (cb j') >=? count (req j) then work_list s' = l /\ pend_list s' = pend_list s ++ [j']
     else work_list s' = j' :: l /\ pend_list s' = pend_list s) /\
    conf s' = conf s /\ q_state s' = q_state s /\ q_stop_wait s' = q_stop_wait s /\ avail s' = avail s /\
    pidx s' = pidx s /\ cidx s' = cidx s /\ desc s' = desc s /\ credit s' = credit s /\ finished s' = finished s.
Proof.
  intros Hl Hn Ho. unfold qdma_update_request, nr in *. simpl.
  rewrite (u32_small (offset (cb j) + data)) by in_range.
  destruct (offset (cb j) + data >=? count (req j)) eqn:E; eexists _, (set_cb (advance num data o sg (cb j)) j);
    (split; [reflexivity|]); simpl; rewrite ?Hl; simpl; rewrite ?E; unwrap_ints; rewrite ?E; split_and!; done.
Qed.

Lemma fresh_work c l : Forall (job_ok c) l -> Forall fresh l -> work_ok l /\ head_nr l = 0.
Proof.
  intros Hj Hf. destruct Hj as [|j l [[_ _ ?] _] Hj]; [done|]. apply Forall_cons in Hf as [[Ho Hn] Hf].
  simpl. rewrite Ho, Hn. split; [|done]. split_and!; done || lia.
Qed.

Lemma commit_run {B} (vis : slot -> list B) at_ s j l ring i f :
  queue_ok s -> work_list s = j :: l -> passed vis at_ s j (avail s) ring f ->
  (st (conf s) = true -> Forall is_h2c ring) ->
  exists s', commit j ring i f s = Ret tt s' /\ queue_ok s' /\ progress s s' /\
    bytes_left (work_list s') = bytes_left (work_list s) - f_data f /\ desc s' = ring.
Proof.
  intros Hq Hl [P1 P2 P3 P4 P5 P6 P7 _ _] Hst. pose proof (outstanding_range _ Hq) as Hor.
  destruct Hq as [[Hsz Hap] Hdesc Hslots Hp Hc Hav Hjobs Hwork Hpend Hcr Hsum Hdr].
  rewrite Hl in *. simpl in Hwork, Hsum. destruct Hwork as (Ho & Hn & Hfresh). apply Forall_cons in Hjobs as [Hj Hjobs].
  pose proof Hj as [[_ _ Hcnt] _].
  unfold commit. destruct (rest_of (sgcnt (req j)) i f) as [o sg]. rewrite bind_modify.
  destruct (update_request_run j l (f_cnt f) (f_data f) o sg (set_desc ring s))
    as (s1 & j' & Hrun & R1 & R2 & R3 & R4 & E1 & E2 & E3 & E4 & E5 & E6 & E7 & E8 & E9); [done|lia..|].
  rewrite (bind_Ret _ _ _ _ _ Hrun). eexists. split; [reflexivity|]. simpl in *.
  assert (Hout : (f_pidx f - cidx s) mod rngsz (conf s) = outstanding s + f_cnt f).
  { unfold outstanding in *. rewrite P3, Zminus_mod_idemp_l.
    replace (pidx s + f_cnt f - cidx s) with ((pidx s - cidx s) + f_cnt f) by lia.
    rewrite <- Zplus_mod_idemp_l. apply Z.mod_small. lia. }
  assert (Hpidx : 0 <= f_pidx f < rngsz (conf s)) by (rewrite P3; apply Z.mod_pos_bound; lia).
  assert (Hav' : u32 (avail s1 - f_cnt f) = rngsz (conf s) - 1 - (f_pidx f - cidx s) mod rngsz (conf s)).
  { rewrite E4, Hout, u32_small by in_range. lia. }
  destruct (fresh_work _ _ Hjobs Hfresh) as [Hwl Hhl].
  destruct (Z.geb_spec (offset (cb j')) (count (req j))) as [Hge|Hlt]; destruct R4 as [R4 R5]; split_and!; try done.
  - split; unfold outstanding; simpl; rewrite ?E1, ?E6, ?E7, ?E8, ?R4, ?R5; try done; try lia.
    + apply Forall_app. split; [done|]. repeat constructor; rewrite ?R1, ?R2, ?R3; lia.
    + rewrite sum_nr_app, Hout. simpl. lia.
  - split; simpl; try done; [unfold fifo; simpl; rewrite E9, R4, R5, Hl, map_app; simpl|by exists []].
    rewrite <- app_assoc. simpl. unfold jid. by rewrite R1.
  - rewrite R4. simpl. lia.
  - split; unfold outstanding; simpl; rewrite ?E1, ?E6, ?E7, ?E8, ?R4, ?R5; try done; try lia.
    + constructor; [|done]. by unfold job_ok in *; rewrite R1.
    + simpl. rewrite R1. split_and!; try done; lia.
    + simpl. rewrite Hout. lia.
  - split; simpl; try done; [unfold fifo; simpl; rewrite E9, R4, R5, Hl; simpl|by exists []].
    unfold jid. by rewrite R1.
  - rewrite R4. simpl. rewrite R1. lia.
Qed.
End inv.
