(* ===== verification/DescqProps.v ===== *)
(** * DescqProps: requests through a descriptor queue

    Handling a queue ends, keeps its invariant and moves requests on in
    order; when the engine has read all descriptors, all requests are done.
    The last part has inputs on which the code does something else than it
    means to. *)

From S2P Require Import Prelude QdmaErrors Mmio CLayout Contexts Descq DescqFill DescqPass DescqInv.
Local Open Scope Z_scope.

Section props.
Context `{DmaEngine}.

(** ** Turns of the loop over the work list *)

(** A turn writes descriptors for the first request, or there is no room. *)
Definition turn_spec (stream : bool) (turn : job -> M qdma_descq (option Z)) : Prop :=
  forall s j l, queue_ok s -> st (conf s) = stream -> work_list s = j :: l ->
  exists r s', turn j s = Ret r s' /\ queue_ok s' /\ progress s s' /\
    match r with
    | None => work_list s' = work_list s /\ avail s' = 0 /\ avail s = 0
    | Some n => bytes_left (work_list s') < bytes_left (work_list s)
    end.

(** The two kinds of turns differ in how they fill the ring. *)
Lemma no_room s s1 j l :
  work_list s = j :: l -> queue_ok s1 -> work_list s1 = work_list s -> (avail s <> 0 -> s1 = s) -> avail s1 = 0 ->
  work_list s1 = work_list s /\ avail s1 = 0 /\ avail s = 0.
Proof. intros _ _ Hw Hs Ha. split_and!; try done. destruct (Z.eq_dec (avail s) 0) as [|Hn]; [done|]. by rewrite <- (Hs Hn). Qed.

Lemma mm_turn_spec : engine_ok -> turn_spec false mm_turn.
Proof.
  intros He s j l Hq Hst Hl. unfold mm_turn.
  destruct (find_room_run s He Hq) as (s1 & Hr1 & Hq1 & Hpr1 & Hl1 & Hs1).
  rewrite (bind_Ret _ _ _ _ _ Hr1). pose proof (outstanding_range _ Hq1) as Hor.
  destruct (Z.eqb_spec (avail s1) 0) as [H0|H0].
  { exists None, s1. split_and!; try done. by apply (no_room s s1 j l). }
  pose proof Hq1 as [Hc Hdesc _ Hp _ Hav Hjobs Hwork _ _ _ _]. rewrite <- Hl1 in Hl.
  rewrite Hl in Hjobs, Hwork. apply Forall_cons in Hjobs as [[Hreq Hcard] _]. destruct Hwork as (Ho & _ & _).
  assert (Hst1 : st (conf s1) = false) by (by rewrite (pr_conf _ _ Hpr1)). rewrite Hst1 in Hcard.
  destruct (mm_pass s1 j (avail s1)) as (i & o & i' & f & Hfind & Hi & Hfill & Hend & Hpass); try done; try lia.
  rewrite Hfind. destruct (Z.ltb_spec i 0); [lia|]. rewrite bind_gets. unfold id. rewrite Hfill, Hend.
  destruct (commit_run _ _ s1 j l _ i' f Hq1 Hl Hpass) as (s2 & Hr2 & Hq2 & Hpr2 & Hb & _); [by rewrite Hst1|].
  rewrite (bind_Ret _ _ _ _ _ Hr2). exists (Some (f_cnt f)), s2. split_and!; try done.
  - by eapply progress_trans.
  - rewrite Hb, Hl1. destruct Hpass. lia.
Qed.

Lemma h2c_turn_spec : engine_ok -> turn_spec true h2c_turn.
Proof.
  intros He s j l Hq Hst Hl. unfold h2c_turn.
  destruct (find_room_run s He Hq) as (s1 & Hr1 & Hq1 & Hpr1 & Hl1 & Hs1).
  rewrite (bind_Ret _ _ _ _ _ Hr1). pose proof (outstanding_range _ Hq1) as Hor.
  destruct (Z.eqb_spec (avail s1) 0) as [H0|H0].
  { exists None, s1. split_and!; try done. by apply (no_room s s1 j l). }
  pose proof Hq1 as [Hc Hdesc Hslots Hp _ Hav Hjobs Hwork _ _ _ _]. rewrite <- Hl1 in Hl.
  rewrite Hl in Hjobs, Hwork. apply Forall_cons in Hjobs as [[Hreq Hpk] _]. destruct Hwork as (Ho & _ & _).
  assert (Hst1 : st (conf s1) = true) by (by rewrite (pr_conf _ _ Hpr1)). rewrite Hst1 in Hpk.
  destruct (h2c_pass s1 j (avail s1)) as (i & o & i' & f & Hfind & Hi & Hfill & Hslots' & Hpass); try done; try lia.
  { by apply Hslots. }
  rewrite Hfind. destruct (Z.ltb_spec i 0); [lia|]. rewrite bind_gets. unfold id. rewrite Hfill, bind_modify.
  set (s2 := set_tx_pos _ s1).
  destruct (commit_run h2c_bytes (fun h _ => h) s2 j l (f_ring f) i' f) as (s3 & Hr3 & Hq3 & Hpr3 & Hb & _); try done.
  { by apply (queue_ok_ext s1). }
  { destruct Hpass. by split. }
  rewrite (bind_Ret _ _ _ _ _ Hr3). destruct (Z.eqb_spec (f_cnt f) 0) as [Hz|Hz]; [destruct Hpass; lia|].
  exists (Some (f_cnt f)), s3. split_and!; try done.
  - eapply progress_trans; [exact Hpr1|]. eapply progress_trans; [|exact Hpr3]. by apply progress_ext.
  - rewrite Hb. simpl. rewrite Hl1. destruct Hpass. lia.
Qed.

(** ** Handling a queue *)

Lemma work_loop_run strm turn : turn_spec strm turn ->
  forall fuel s w, queue_ok s -> st (conf s) = strm -> bytes_left (work_list s) < Z.of_nat fuel ->
  exists w' s', work_loop turn fuel w s = Ret w' s' /\ queue_ok s' /\ progress s s' /\
    (work_list s' = [] \/ avail s' = 0) /\
    bytes_left (work_list s') <= bytes_left (work_list s) /\
    (work_list s <> [] -> avail s <> 0 -> bytes_left (work_list s') < bytes_left (work_list s)).
Proof.
  intros Ht. induction fuel as [|fuel IH]; intros s w Hq Hst Hb; pose proof Hq as [_ _ _ _ _ _ Hj Hw _ _ _ _];
    pose proof (bytes_left_nonneg _ _ Hj Hw) as Hnn; [lia|]. simpl. rewrite bind_gets.
  destruct (work_list s) as [|j l] eqn:Hl.
  { exists w, s. rewrite Hl. split_and!; try done; [apply progress_refl|by left]. }
  destruct (Ht s j l Hq Hst Hl) as (r & s1 & Hr & Hq1 & Hpr & Hrest). rewrite Hl in Hrest.
  rewrite (bind_Ret _ _ _ _ _ Hr). destruct r as [n|].
  - destruct (IH s1 (u32 (w + n))) as (w' & s' & Hrun & Hq' & Hpr' & He & Hle & _); [done|by rewrite (pr_conf _ _ Hpr)|lia|].
    exists w', s'. split_and!; try done; try lia. by eapply progress_trans.
  - destruct Hrest as (E1 & E2 & E3). exists w, s1. rewrite E1. split_and!; try done; try lia.
Qed.

Lemma submit_descs_run s : queue_ok s -> exists s', submit_descs s = Ret 0 s' /\ queue_ok s' /\ progress s s' /\
  work_list s' = work_list s.
Proof.
  intros Hq. unfold submit_descs. rewrite bind_modify.
  match goal with |- context [queue_pidx_update ?s1] => destruct (queue_pidx_update_run s1) as [tr Htr] end.
  rewrite Htr. eexists. split; [reflexivity|]. split_and!; try done; [by apply (queue_ok_ext s)|by apply progress_ext].
Qed.

(** What the two functions do once the work list has been gone through. *)
Lemma finish_run (w : Z) (m : M qdma_descq Z) s :
  engine_ok -> queue_ok s ->
  (forall s, queue_ok s -> exists s', m s = Ret 0 s' /\ queue_ok s' /\ progress s s' /\ work_list s' = work_list s) ->
  exists s', (rv ← (if w =? 0 then mret 0
          else rv ← m; if rv <? 0 then mret (- EINVAL) else _ ← descq_poll_mm_n_h2c_cmpl_status; mret 0);
    if rv <? 0 then mret rv else modify (set_proc_req_running false);; mret 0) s = Ret 0 s' /\
    queue_ok s' /\ progress s s' /\ work_list s' = work_list s /\ proc_req_running s' = false.
Proof.
  intros He Hq Hm. destruct (w =? 0).
  - exists (set_proc_req_running false s). split_and!; try done; [by apply (queue_ok_ext s)|by apply progress_ext].
  - destruct (Hm s Hq) as (s1 & Hr1 & Hq1 & Hpr1 & Hw1). destruct (poll_run s1 He Hq1) as (s2 & Hr2 & Hq2 & Hpr2 & Hw2 & _).
    rewrite bind_assoc, (bind_Ret _ _ _ _ _ Hr1). simpl. rewrite bind_assoc, (bind_Ret _ _ _ _ _ Hr2).
    exists (set_proc_req_running false s2). split_and!; try done.
    + by apply (queue_ok_ext s2).
    + eapply progress_trans; [exact Hpr1|]. eapply progress_trans; [exact Hpr2|]. by apply progress_ext.
    + simpl. by rewrite Hw2.
Qed.

(** Both functions, from the loop on. *)
Lemma proc_run strm turn (m : M qdma_descq Z) fuel s :
  engine_ok -> turn_spec strm turn -> queue_ok s -> st (conf s) = strm ->
  bytes_left (work_list s) < Z.of_nat fuel ->
  (forall s, queue_ok s -> exists s', m s = Ret 0 s' /\ queue_ok s' /\ progress s s' /\ work_list s' = work_list s) ->
  exists s', (_ ← descq_poll_mm_n_h2c_cmpl_status; w ← work_loop turn fuel 0;
    rv ← (if w =? 0 then mret 0
          else rv ← m; if rv <? 0 then mret (- EINVAL) else _ ← descq_poll_mm_n_h2c_cmpl_status; mret 0);
    if rv <? 0 then mret rv else modify (set_proc_req_running false);; mret 0) s = Ret 0 s' /\
    queue_ok s' /\ progress s s' /\ proc_req_running s' = false /\
    bytes_left (work_list s') <= bytes_left (work_list s) /\
    (work_list s <> [] -> avail s <> 0 -> bytes_left (work_list s') < bytes_left (work_list s)).
Proof.
  intros He Ht Hq Hst Hf Hm. destruct (poll_run s He Hq) as (s1 & Hr1 & Hq1 & Hpr1 & Hw1 & Ha1).
  rewrite (bind_Ret _ _ _ _ _ Hr1).
  destruct (work_loop_run strm turn Ht fuel s1 0) as (w & s3 & Hr3 & Hq3 & Hpr3 & _ & Hle & Hlt);
    [done|by rewrite (pr_conf _ _ Hpr1)|by rewrite Hw1|].
  rewrite (bind_Ret _ _ _ _ _ Hr3).
  destruct (finish_run w m s3 He Hq3 Hm) as (s4 & Hr4 & Hq4 & Hpr4 & Hw4 & Hrun). exists s4. split_and!; try done.
  - eauto using progress_trans.
  - by rewrite Hw4, <- Hw1.
  - intros Hne Ha. rewrite Hw4, <- Hw1. apply Hlt; [by rewrite Hw1|].
    pose proof (outstanding_range _ Hq). destruct Hq. lia.
Qed.

Lemma stamp_packet_run s : exists l, stamp_packet s = Ret tt (set_stamps l s).
Proof.
  unfold stamp_packet. rewrite bind_gets. unfold id.
  destruct (ping_pong_en (conf s)); [destruct (tx_pos s)|]; try (by eexists); exists (stamps s); by destruct s.
Qed.

Lemma submit_packets_run s : queue_ok s -> exists s', submit_packets s = Ret 0 s' /\ queue_ok s' /\ progress s s' /\
  work_list s' = work_list s.
Proof.
  intros Hq. unfold submit_packets. rewrite bind_modify.
  match goal with |- context [(stamp_packet;; _) ?s1] => destruct (stamp_packet_run s1) as [l Hl] end.
  rewrite (bind_Ret _ _ _ _ _ Hl).
  match goal with |- context [queue_pidx_update ?s1] => destruct (queue_pidx_update_run s1) as [tr Htr] end.
  rewrite Htr. eexists. split; [reflexivity|]. split_and!; try done; [by apply (queue_ok_ext s)|by apply progress_ext].
Qed.

(** Whether handling a queue writes descriptors. *)
Definition busy (s : qdma_descq) : Prop :=
  q_stop_wait s = false /\ can_proceed s = true /\ work_list s <> [] /\ avail s <> 0.

Lemma idle_not_busy s : can_proceed s = false \/ q_stop_wait s = true -> ~ busy s.
Proof. intros [Hc|Hc] (H1 & H2 & _); congruence. Qed.

Lemma proc_sgt_request_run s fuel :
  engine_ok -> queue_ok s -> (st (conf s) = true -> q_type (conf s) = Q_H2C) ->
  bytes_left (work_list s) < Z.of_nat fuel ->
  exists s', qdma_descq_proc_sgt_request fuel s = Ret 0 s' /\ queue_ok s' /\ progress s s' /\
    bytes_left (work_list s') <= bytes_left (work_list s) /\
    (busy s -> bytes_left (work_list s') < bytes_left (work_list s)).
Proof.
  intros He Hq Hty Hf. unfold qdma_descq_proc_sgt_request. rewrite bind_gets.
  assert (Hstop : q_stop_wait s = true -> exists s', (_ ← descq_mm_n_h2c_cmpl_status; mret 0) s = Ret 0 s' /\
    queue_ok s' /\ progress s s' /\ bytes_left (work_list s') <= bytes_left (work_list s) /\
    (busy s -> bytes_left (work_list s') < bytes_left (work_list s))).
  { intros Hs. destruct (cmpl_status_run s He Hq) as (s' & Hr & ? & ? & Hw & _).
    exists s'. rewrite (bind_Ret _ _ _ _ _ Hr), Hw.
    split_and!; try done || lia. intros Hb. destruct (idle_not_busy s (or_intror Hs) Hb). }
  assert (Hidle : can_proceed s = false -> exists s', mret (M := M qdma_descq) 0 s = Ret 0 s' /\
    queue_ok s' /\ progress s s' /\ bytes_left (work_list s') <= bytes_left (work_list s) /\
    (busy s -> bytes_left (work_list s') < bytes_left (work_list s))).
  { intros Hs. exists s. split_and!; try done; [apply progress_refl|].
    intros Hb. destruct (idle_not_busy s (or_introl Hs) Hb). }
  destruct (st (conf s)) eqn:Hst; simpl.
  - rewrite (Hty eq_refl). simpl. unfold descq_proc_st_h2c_request. rewrite bind_gets. unfold id.
    destruct (q_stop_wait s) eqn:Es; [by apply Hstop|]. destruct (can_proceed s) eqn:Ec; [simpl|by apply Hidle].
    rewrite bind_modify.
    destruct (proc_run true h2c_turn submit_packets fuel (set_tx_pos None s)) as (s' & Hr & ? & Hpr & _ & ? & Hlt); try done.
    + by apply h2c_turn_spec.
    + by apply (queue_ok_ext s).
    + apply submit_packets_run.
    + exists s'. split_and!; try done; [eapply progress_trans; [|exact Hpr]; by apply progress_ext|].
      intros (_ & _ & ? & ?). by apply Hlt.
  - unfold descq_mm_proc_request. rewrite bind_gets. unfold id.
    destruct (q_stop_wait s) eqn:Es; [by apply Hstop|]. destruct (can_proceed s) eqn:Ec; [simpl|by apply Hidle].
    destruct (proc_run false mm_turn submit_descs fuel s) as (s' & Hr & ? & Hpr & _ & ? & Hlt); try done.
    + by apply mm_turn_spec.
    + apply submit_descs_run.
    + exists s'. split_and!; try done. intros (_ & _ & ? & ?). by apply Hlt.
Qed.

(** ** Histories of a queue *)

(** A request that the queue accepts: in the direction of the queue, with a
    callback, and after its pages are mapped, if they are not yet, one that can
    be transferred. *)
Record submittable (c : queue_conf) (r : qdma_request) : Prop := {
  sb_done : fp_done r = true;
  sb_dir : q_type c = if write r then Q_H2C else Q_C2H;
  sb_ok : if dma_mapped r then job_ok c (mk_job r cb_zero)
          else exists l ev, sgl_map (sgl r) = (l, ev, 0) /\ job_ok c (mk_job (set_sgl l r) cb_zero) }.

Inductive op := Submit (r : qdma_request) | Service.

Definition run_op (fuel : nat) (o : op) : M qdma_descq Z :=
  match o with
  | Submit r => qdma_request_submit fuel (mret tt) r
  | Service => service_mm_n_h2c fuel
  end.

Definition run_ops (fuel : nat) (l : list op) : M qdma_descq unit :=
  for_each l (fun o => _ ← run_op fuel o; mret tt).

Definition op_ok (c : queue_conf) (o : op) : Prop :=
  match o with Submit r => submittable c r | Service => True end.

(** The requests submitted, and their bytes. *)
Fixpoint submitted (l : list op) : list nat :=
  match l with [] => [] | Submit r :: l' => req_id r :: submitted l' | Service :: l' => submitted l' end.

Fixpoint total_bytes (l : list op) : Z :=
  match l with [] => 0 | Submit r :: l' => count r + total_bytes l' | Service :: l' => total_bytes l' end.

(** A queue that is on, and not being stopped. *)
Definition serving (s : qdma_descq) : Prop :=
  queue_ok s /\ q_state s = Q_STATE_ONLINE /\ (st (conf s) = true -> q_type (conf s) = Q_H2C).

Lemma serving_progress s s' : serving s -> queue_ok s' -> progress s s' -> serving s'.
Proof. intros (_ & H2 & H3) Hq [C S _ _ _]. split; [done|]. by rewrite C, S. Qed.

Lemma service_run s fuel :
  engine_ok -> serving s -> bytes_left (work_list s) < Z.of_nat fuel ->
  exists rv s', service_mm_n_h2c fuel s = Ret rv s' /\ serving s' /\ progress s s' /\
    bytes_left (work_list s') <= bytes_left (work_list s).
Proof.
  intros He Hs Hf. pose proof Hs as (Hq & _ & Hty). unfold service_mm_n_h2c. rewrite bind_gets. unfold id.
  assert (Hproc : forall s, serving s -> bytes_left (work_list s) < Z.of_nat fuel ->
    exists s', qdma_descq_proc_sgt_request fuel s = Ret 0 s' /\ serving s' /\ progress s s' /\
      bytes_left (work_list s') <= bytes_left (work_list s)).
  { intros s0 Hs0 Hf0. pose proof Hs0 as (Hq0 & _ & Hty0).
    destruct (proc_sgt_request_run s0 fuel He Hq0 Hty0 Hf0) as (s' & Hr & ? & ? & ? & _).
    exists s'. split_and!; try done. by apply (serving_progress s0). }
  assert (Hsame : exists rv s', mret (M := M qdma_descq) 0 s = Ret rv s' /\ serving s' /\ progress s s' /\
    bytes_left (work_list s') <= bytes_left (work_list s)).
  { exists 0, s. split_and!; try done; apply progress_refl. }
  destruct (Hproc s Hs Hf) as (s1 & Hr1 & Hs1 & Hpr1 & Hle1).
  destruct (cmpl_status_run s He Hq) as (s2 & Hr2 & Hq2 & Hpr2 & Hw2 & _).
  assert (Hs2 : serving s2) by by apply (serving_progress s).
  destruct (drv_mode (conf s)).
  1, 2: destruct (proc_req_running s); [exact Hsame|]; rewrite (bind_Ret _ _ _ _ _ Hr1); by exists 0, s1.
  all: rewrite (bind_Ret _ _ _ _ _ Hr2), bind_gets; destruct (_ || _);
    [|exists 0, s2; rewrite Hw2; split_and!; done || lia];
    destruct (Hproc s2) as (s3 & Hr3 & Hs3 & Hpr3 & Hle3); [done|by rewrite Hw2|]; exists 0, s3;
    rewrite <- Hw2; split_and!; try done; by eapply progress_trans.
Qed.

(** A request whose pages are mapped, as the queue takes it in. *)
Definition accepted (c : queue_conf) (r : qdma_request) (j : job) : Prop :=
  job_ok c j /\ fresh j /\ jid j = req_id r /\ count (req j) = count r.

Lemma map_request_run s r :
  submittable (conf s) r ->
  exists j log, map_request r s = Ret (inl j) (set_dma_log log s) /\ accepted (conf s) r j.
Proof.
  intros [_ _ Hok]. unfold map_request. destruct (dma_mapped r).
  - exists (mk_job r cb_zero), (dma_log s). split; [by destruct s|]. by split_and!.
  - destruct Hok as (l & ev & -> & Hj). unfold log_dma. rewrite bind_modify. simpl.
    eexists _, _. split; [reflexivity|]. by split_and!.
Qed.

Lemma bytes_left_app l1 l2 : bytes_left (l1 ++ l2) = bytes_left l1 + bytes_left l2.
Proof. induction l1; simpl; lia. Qed.

Lemma work_add_ok s j r :
  queue_ok s -> accepted (conf s) r j ->
  queue_ok (set_work_req_pend (u32 (work_req_pend s + 1)) (set_work_list (work_list s ++ [j]) s)).
Proof.
  intros [Q1 Q2 Q3 Q4 Q5 Q6 Q7 Q8 Q9 Q10 Q11 Q12] (Hj & Hf & _). split; unfold outstanding in *; simpl; try done.
  - apply Forall_app. split; [done|]. by constructor.
  - destruct (work_list s) as [|j' l]; simpl in *.
    + destruct Hj as [[_ _ ?] _], Hf as [-> ->]. split_and!; done || lia.
    + destruct Q8 as (? & ? & ?). split_and!; try lia. apply Forall_app. split; [done|]. by constructor.
  - rewrite <- Q11. destruct (work_list s); simpl; [destruct Hf; lia|done].
Qed.

Lemma submit_run s fuel r :
  engine_ok -> serving s -> submittable (conf s) r ->
  bytes_left (work_list s) + count r < Z.of_nat fuel ->
  exists s', qdma_request_submit fuel (mret tt) r s = Ret 0 s' /\ serving s' /\ conf s' = conf s /\
    fifo s' = fifo s ++ [req_id r] /\
    (exists new, finished s' = new ++ finished s /\ Forall completed new) /\
    bytes_left (work_list s') <= bytes_left (work_list s) + count r.
Proof.
  intros He (Hq & Hon & Hty) Hr Hf. unfold qdma_request_submit. rewrite bind_gets. unfold id.
  pose proof Hr as [Hd Hdir _].
  assert (Hchk : submit_checks s r = true).
  { unfold submit_checks. rewrite Hon, Hdir. by destruct (write r). }
  rewrite Hchk. simpl. destruct (map_request_run s r Hr) as (j & log & Hm & Hacc).
  rewrite (bind_Ret _ _ _ _ _ Hm), bind_gets. simpl. rewrite bool_decide_true by done. simpl.
  unfold qdma_work_queue_add. rewrite bind_modify. simpl.
  set (s1 := set_work_req_pend _ _).
  pose proof Hacc as (_ & [Ho0 Hn0] & Hid & Hcnt).
  assert (Hq1 : queue_ok s1) by (apply (work_add_ok (set_dma_log log s) j r); [by apply (queue_ok_ext s)|done]).
  assert (Hb1 : bytes_left (work_list s1) = bytes_left (work_list s) + count r).
  { simpl. rewrite bytes_left_app. simpl. rewrite Ho0, Hcnt. lia. }
  destruct (proc_sgt_request_run s1 fuel He Hq1) as (s2 & Hr2 & Hq2 & Hpr2 & Hle2 & _); [done|by rewrite Hb1|].
  rewrite (bind_Ret _ _ _ _ _ Hr2), Hd. exists s2. split; [done|].
  destruct Hpr2 as [C S _ F D]. split_and!; try done.
  - split; [done|]. by rewrite C, S.
  - rewrite F. unfold fifo. simpl. by rewrite map_app, !app_assoc, <- Hid.
  - by rewrite <- Hb1.
Qed.

Lemma run_ops_run fuel l s :
  engine_ok -> serving s -> Forall (op_ok (conf s)) l -> bytes_left (work_list s) + total_bytes l < Z.of_nat fuel ->
  exists s', run_ops fuel l s = Ret tt s' /\ serving s' /\ fifo s' = fifo s ++ submitted l /\
    exists new, finished s' = new ++ finished s /\ Forall completed new.
Proof.
  intros He. revert s. induction l as [|o l IH]; intros s Hs Hl Hf.
  { exists s. split_and!; try done; [by rewrite app_nil_r|by exists []]. }
  apply Forall_cons in Hl as [Ho Hl]. unfold run_ops. simpl.
  assert (Htot : 0 <= total_bytes l).
  { clear -Hl. induction Hl as [|[r|] l Ho Hl IH]; simpl; try lia. destruct Ho as [_ _ Hj].
    destruct (dma_mapped r); [destruct Hj as [[_ _ ?] _]|destruct Hj as (? & ? & _ & [[_ _ ?] _])]; simpl in *; lia. }
  assert (Hstep : exists rv s1, run_op fuel o s = Ret rv s1 /\ serving s1 /\ conf s1 = conf s /\
    fifo s1 = fifo s ++ submitted [o] /\ (exists new, finished s1 = new ++ finished s /\ Forall completed new) /\
    bytes_left (work_list s1) + total_bytes l <= bytes_left (work_list s) + total_bytes (o :: l)).
  { destruct o as [r|]; simpl in *.
    - destruct (submit_run s fuel r) as (s1 & ? & ? & ? & ? & ? & ?); try done; [lia|]. exists 0, s1. split_and!; try done; lia.
    - destruct (service_run s fuel) as (rv & s1 & ? & ? & [C _ _ F D] & ?); try done; [lia|]. exists rv, s1.
      rewrite app_nil_r. split_and!; try done; lia. }
  destruct Hstep as (rv & s1 & Hr & Hs1 & Hc1 & Hf1 & (n1 & Hn1 & Hd1) & Hb1).
  rewrite bind_assoc, (bind_Ret _ _ _ _ _ Hr).
  destruct (IH s1) as (s' & Hr' & Hs' & Hf' & n2 & Hn2 & Hd2); [done|by rewrite Hc1|lia|].
  exists s'. split_and!; try done.
  - rewrite Hf', Hf1, <- app_assoc. f_equal. by destruct o.
  - exists (n2 ++ n1). rewrite Hn2, Hn1, app_assoc. split; [done|]. by apply Forall_app.
Qed.

Lemma new_queue_serving c irq :
  conf_ok c -> (st c = true -> q_type c = Q_H2C) -> serving (new_queue c irq).
Proof.
  intros Hc Hty. split; [|done]. pose proof Hc as [Hsz _]. unfold new_queue, ring_reset. simpl.
  split; unfold outstanding; simpl; rewrite ?Zmod_0_l; try done; try lia.
  - by rewrite length_replicate.
  - intros Hst. apply Forall_replicate. unfold empty_slot. by rewrite Hst.
  - unwrap_ints. lia.
Qed.

(** ** Properties *)

(** C13. The life of a queue.  Whatever sequence of submittable requests is submitted to a queue, and
    whenever it is serviced in between, every call returns; the requests are in the queue's lists in the
    order in which they were submitted, none lost and none twice; and those that are done were transferred
    completely and without an error.  The descriptors in the ring, the credits and the requests that wait
    for them fit together all the time.  A request is [submittable] when it has a callback (nobody sleeps
    until it is done), is not empty and of at most 2^31 bytes, its list has as many bytes as it counts and
    can be mapped, its direction is that of the queue, and its addresses on the card are below 2^64 (or, of
    a stream, its packets not empty); for others see [short_list_never_ends] and [timeout_shifts_credits].
    The queue is memory-mapped or sends a stream, with a ring of 2 to 65535 descriptors and an aperture, if
    any, that is a power of two below 2^28 ([conf_ok]); the engine never reads beyond the descriptors it
    was given ([engine_ok]). *)
Theorem queue_history c irq l fuel :
  engine_ok -> conf_ok c -> (st c = true -> q_type c = Q_H2C) -> Forall (op_ok c) l ->
  total_bytes l < Z.of_nat fuel ->
  exists s', run_ops fuel l (new_queue c irq) = Ret tt s' /\ queue_ok s' /\
    fifo s' = submitted l /\ Forall completed (finished s').
Proof.
  intros He Hc Hty Hl Hf. destruct (run_ops_run fuel l (new_queue c irq)) as (s' & Hr & (Hq & _) & Hfifo & new & Hn & Hd);
    [done|by apply new_queue_serving|done|done|].
  exists s'. split_and!; try done. rewrite Hn. simpl. by rewrite app_nil_r.
Qed.

(** C25. Handling a queue ends, with fuel for the bytes that wait; it loses no request and leaves the
    queue in order; and if the queue is
    online and not about to stop, and the ring has room, bytes that waited have their descriptors afterwards
    ([busy]). *)
Theorem handling_goes_on s fuel :
  engine_ok -> queue_ok s -> (st (conf s) = true -> q_type (conf s) = Q_H2C) ->
  bytes_left (work_list s) < Z.of_nat fuel ->
  exists s', qdma_descq_proc_sgt_request fuel s = Ret 0 s' /\ queue_ok s' /\ progress s s' /\
    bytes_left (work_list s') <= bytes_left (work_list s) /\
    (busy s -> bytes_left (work_list s') < bytes_left (work_list s)).
Proof. apply proc_sgt_request_run. Qed.

(** C24. No request is forgotten.  When all descriptors of the queue's requests are in the ring and
    the engine has read them, looking at the completion status completes every request, in
    order, and the ring is free again. *)
Theorem all_read_all_done s :
  engine_ok -> queue_ok s -> work_list s = [] -> cmpl_status_cidx s = pidx s ->
  exists s', descq_mm_n_h2c_cmpl_status s = Ret 0 s' /\ progress s s' /\
    map jid (rev (finished s')) = fifo s /\ avail s' = rngsz (conf s) - 1.
Proof.
  intros He Hq Hw Hall. destruct (cmpl_status_run s He Hq) as (s' & Hr & Hq' & Hpr & Hw' & Hp & _ & _ & Hc & _).
  exists s'. split; [done|]. split; [done|].
  assert (Hout : outstanding s' = 0).
  { unfold outstanding. rewrite Hp, Hc, Hall. destruct (Z.eqb_spec (pidx s) (cidx s)) as [<-|];
      by rewrite Z.sub_diag, Zmod_0_l. }
  pose proof (qo_drained _ Hq' Hout) as Hpend. split.
  - rewrite <- (pr_fifo _ _ Hpr). unfold fifo. by rewrite Hpend, Hw', Hw, !app_nil_r.
  - rewrite (qo_avail _ Hq'), Hout, (pr_conf _ _ Hpr). lia.
Qed.
End props.

(** ** A queue and an engine that reads at once *)

#[local] Instance fast_engine : DmaEngine :=
  {| cmpl_status_cidx := pidx; rdtsc_gettime _ := 0; dma_map_page p := p |}.

Lemma fast_engine_ok : engine_ok.
Proof. intros s Hq. split; [apply (qo_pidx _ Hq)|]. done. Qed.

Definition mm_conf : queue_conf := small_conf Q_H2C 0 false POLL_MODE.

Lemma submittable_small k n :
  request_ok (request k n true) -> submittable mm_conf (request k n true).
Proof. intros Hr. split; [done..|]. split; [done|]. split; [simpl; lia|]. destruct Hr. simpl in *. lia. Qed.

(** Requests that need more descriptors than the ring has. *)
Definition some_ops : list op := [Submit (request 1 3 true); Submit (request 2 10 true); Service; Service].

Lemma queue_history_witness :
  exists s', run_ops 200 some_ops (new_queue mm_conf 0) = Ret tt s' /\ queue_ok s' /\
    fifo s' = [1; 2]%nat /\ Forall completed (finished s').
Proof.
  apply (queue_history mm_conf 0 some_ops 200).
  - apply fast_engine_ok.
  - apply small_conf_ok.
  - done.
  - do 2 (apply Forall_cons; split; [apply submittable_small; apply (request_ok_small _ true)|]).
    by repeat (apply Forall_cons; split).
  - vm_compute. reflexivity.
Defined.

(** A queue with a request in its work list. *)
Definition waiting : qdma_descq :=
  let s := new_queue mm_conf 0 in
  set_work_req_pend (u32 (work_req_pend s + 1))
    (set_work_list (work_list s ++ [mk_job (request 1 3 true) cb_zero]) s).

Lemma waiting_ok : queue_ok waiting.
Proof.
  destruct (new_queue_serving mm_conf 0) as [Hq _]; [apply small_conf_ok|done|].
  apply (work_add_ok _ _ (request 1 3 true)); [exact Hq|].
  split; [|by split_and!]. split; [apply (request_ok_small 1 true)|]. split; [simpl; lia|vm_compute; reflexivity].
Qed.

Lemma handling_goes_on_witness :
  exists s', qdma_descq_proc_sgt_request 200 waiting = Ret 0 s' /\ queue_ok s' /\ progress waiting s' /\
    bytes_left (work_list s') <= bytes_left (work_list waiting) /\
    (busy waiting -> bytes_left (work_list s') < bytes_left (work_list waiting)).
Proof.
  apply (handling_goes_on waiting 200).
  - apply fast_engine_ok.
  - apply waiting_ok.
  - done.
  - vm_compute. reflexivity.
Defined.

(** A queue whose only request has its descriptor in the ring. *)
Definition one_written : qdma_descq :=
  set_pidx 1 (set_avail 6 (set_pend_list [mk_job (request 1 3 true) (mk_cb 1 30 0 None 0 false false)]
    (new_queue mm_conf 0))).

Lemma one_written_ok : queue_ok one_written.
Proof.
  pose proof (new_queue_serving mm_conf 0 (small_conf_ok _ _ _) (fun _ => eq_refl)) as [[] _].
  split; try done; simpl; try lia. by repeat constructor.
Qed.

Lemma all_read_all_done_witness :
  exists s', descq_mm_n_h2c_cmpl_status one_written = Ret 0 s' /\ progress one_written s' /\
    map jid (rev (finished s')) = [1]%nat /\ avail s' = 7.
Proof.
  apply (all_read_all_done one_written).
  - apply fast_engine_ok.
  - apply one_written_ok.
  - reflexivity.
  - reflexivity.
Defined.

(** ** Where the code does something else

    Each is a run of the definitions on a concrete input. *)

(** An engine that has read [n] descriptors. *)
Definition read_engine (n : Z) : DmaEngine :=
  {| cmpl_status_cidx _ := n; rdtsc_gettime _ := 0; dma_map_page p := p |}.

Definition intr_conf : queue_conf := small_conf Q_H2C 0 false DIRECT_INTR_MODE.

(** A request that is waited for with a timeout. *)
Definition impatient : qdma_request := mk_req 1 false 5 10 0x2000 true true false (pages 1).

(** A request times out and is unlinked, its descriptor stays in the ring.  When the engine has read
    that one descriptor, the next request, whose descriptor it has not read, is
    reported done. *)
Definition timed_out : outcome qdma_descq Z :=
  (_ ← qdma_request_submit (H := read_engine 0) 100 (mret tt) impatient;
   _ ← qdma_request_submit (H := read_engine 0) 100 (mret tt) (request 2 1 true);
   descq_mm_n_h2c_cmpl_status (H := read_engine 1)) (new_queue intr_conf 1).

Lemma timeout_shifts_credits :
  match timed_out with
  | Ret _ s => cidx s = 1 /\ pidx s = 2 /\
      map (fun j => (jid j, status (cb j), offset (cb j))) (finished s) = [(2%nat, 0, 10)]
  | _ => False
  end.
Proof. by vm_compute. Qed.

(** An aperture of 2^28 bytes is a power of two and is accepted; a piece of that length does not
    fit the length of a descriptor, which is then 0. *)
Lemma aperture_overflows_length :
  let c := small_conf Q_H2C 268435456 false POLL_MODE in
  let r := mk_req 1 true 0 268435456 0 true true false [mk_sg 1 0 268435456 4096] in
  let '(_, f) := mm_fill (new_queue c 0) (mk_job r cb_zero) 0 0 7 in
  f_data f = 268435456 /\ match f_ring f with MmSlot d :: _ => mm_len d = 0 | _ => False end.
Proof. by vm_compute. Qed.

(** A request that announces more bytes than its list has is never taken off the work
    list: the function runs on for ever, with the lock of the queue held. *)
Definition short_request : qdma_request := mk_req 1 true 0 100 0 true true false (pages 1).

Lemma short_list_turn (D : DmaEngine) s o sg n st_ :
  n <> 0 -> avail s = n ->
  exists s', mm_turn (mk_job short_request (mk_cb o 10 sg st_ 0 false false)) s = Ret (Some 0) s' /\
    avail s' = n /\ exists o', work_list s' = mk_job short_request (mk_cb o' 10 0 None 0 false false) :: tail (work_list s).
Proof.
  intros Hn Ha. unfold mm_turn, find_room. rewrite bind_assoc, bind_gets, Ha.
  destruct (Z.eqb_spec n 0); [done|]. rewrite bind_mret. destruct (Z.eqb_spec n 0); [done|].
  change (qdma_sgl_find_offset _) with (- EINVAL, 0). cbv beta iota. change (- EINVAL <? 0) with true. cbv iota.
  eexists. split; [reflexivity|]. split; [done|]. by eexists.
Qed.

Lemma short_list_loop (D : DmaEngine) fuel s w o sg st_ :
  avail s <> 0 -> work_list s = [mk_job short_request (mk_cb o 10 sg st_ 0 false false)] ->
  exists s', work_loop mm_turn fuel w s = Hang s'.
Proof.
  revert s w o sg st_. induction fuel as [|fuel IH]; intros s w o sg st_ Ha Hl; [by eexists|].
  simpl. rewrite bind_gets, Hl.
  destruct (short_list_turn D s o sg (avail s) st_) as (s' & Hr & Ha' & o' & Hl'); [done..|].
  rewrite (bind_Ret _ _ _ _ _ Hr). apply (IH _ _ o' 0 None); [by rewrite Ha'|]. by rewrite Hl', Hl.
Qed.

(** Its ten bytes have their descriptor. *)
Definition short_queue : qdma_descq :=
  set_work_list [mk_job short_request (mk_cb 1 10 0 None 0 false false)] (new_queue intr_conf 1).

Lemma short_list_never_ends fuel :
  exists s', qdma_descq_proc_sgt_request (H := read_engine 0) fuel short_queue = Hang s'.
Proof.
  destruct (short_list_loop (read_engine 0) fuel short_queue 0 1 0 None) as [s' Hs']; [done..|].
  exists s'. unfold qdma_descq_proc_sgt_request. rewrite bind_gets. cbn [st conf short_queue negb].
  change (negb (st (conf short_queue))) with true. cbv iota.
  unfold descq_mm_proc_request. rewrite bind_gets. cbv iota.
  change (q_stop_wait (id short_queue)) with false. change (can_proceed (id short_queue)) with true. cbn [negb].
  assert (Hp : descq_poll_mm_n_h2c_cmpl_status (H := read_engine 0) short_queue = Ret 0 short_queue) by reflexivity.
  rewrite (bind_Ret _ _ _ _ _ Hp). unfold mbind at 1, M_bind at 1. by rewrite Hs'.
Qed.

(** The flag for a packet without header is the number of its bit, not the bit: what is
    set is a number of user fields and of header entries. *)
Lemma zero_cdh_is_not_set :
  match f_ring (h2c_fill (new_queue stream_conf 0) (started_job true) 0 0 1).2 with
  | H2cSlot d :: _ => cdh_flags d = 13 /\ Z.testbit (cdh_flags d) 13 = false
  | _ => False
  end.
Proof. by vm_compute. Qed.

(** When the ring wraps, the flags of descriptor 0 are not cleared: in bypass mode it
    still starts and ends a packet, although it is now in the middle of one. *)
Definition bypass_conf : queue_conf := mk_conf 3 Q_H2C true 8 0 0 true false false POLL_MODE false 0.

Lemma descriptor_0_keeps_flags :
  match run_ops (H := fast_engine) 200 
      [Submit (request 1 1 true); Submit (request 2 3 true); Submit (request 3 6 true)] (new_queue bypass_conf 0) with
  | Ret _ s => match desc s with
      | H2cSlot d :: _ => flags d = Z.lor S_H2C_DESC_F_SOP S_H2C_DESC_F_EOP /\ h2c_src_addr d = 0x50000
      | _ => False
      end
  | _ => False
  end.
Proof. by vm_compute. Qed.

(** When a page cannot be mapped, the entry keeps the error value as its address, and
    unmapping the request unmaps that address, too. *)
Definition broken_map : DmaEngine :=
  {| cmpl_status_cidx := pidx; rdtsc_gettime _ := 0; dma_map_page p := if p =? 2 then DMA_MAPPING_ERROR else 0x1000 * p |}.

Lemma failed_mapping_is_unmapped :
  match qdma_request_submit (H := broken_map) 100 (mret tt) (mk_req 1 true 0 20 0 true false false (pages 2))
          (new_queue mm_conf 0) with
  | Ret rv s => rv = - EIO /\ head (dma_log s) = Some (DmaUnmap (DMA_MAPPING_ERROR - 16))
  | _ => False
  end.
Proof. by vm_compute. Qed.

(** [qdma_queue_packet_write] puts the request on the work list first: when its pages
    cannot be mapped the caller gets an error, but the request is sent with
    the next one, from addresses that are not mapped. *)
Lemma refused_packet_is_sent :
  match (rv ← qdma_queue_packet_write (H := broken_map) 100 (mk_job (mk_req 1 true 0 20 0 true false false (pages 2)) cb_zero);
         _ ← qdma_request_submit (H := broken_map) 100 (mret tt) (request 2 1 true); mret rv) (new_queue stream_conf 0) with
  | Ret rv s => rv = - EIO /\
      map (fun j => (jid j, status (cb j), map sg_dma_addr (sgl (req j)))) (finished s) =
        [(2%nat, 0, [0x10000]); (1%nat, 0, [0; DMA_MAPPING_ERROR])]
  | _ => False
  end.
Proof. by vm_compute. Qed.

(** [qdma_batch_request_submit] does not count the requests it adds to the work list, but
    they are counted when they leave it. *)
Lemma batch_not_counted :
  match qdma_batch_request_submit (H := fast_engine) 100 [request 1 1 true] (new_queue mm_conf 0) with
  | Ret (rv, _) s => rv = 0 /\ work_list s = [] /\ work_req_pend s = 4294967295 /\ qdma_work_queue_len s = -1
  | _ => False
  end.
Proof. by vm_compute. Qed.
