(* ===== verification/C2h.v ===== *)
(** * C2h: queues that receive a stream ([qdma_st_c2h.c], [qdma_descq.c], [libqdma_export.c])

    The card writes packets into buffers in host memory.  The driver keeps a ring of buffers,
    the free list, cut from a pool of pages.  For every packet the card writes an entry of the
    completion ring with the length of the packet; a color tells new entries from those of the
    previous round.  The driver takes the entries in order and knows from the lengths which
    buffers are filled.  Either it hands the buffers of a packet to a callback (the network driver),
    and fills the ring with new ones, or it copies their bytes to the readers that wait in
    [pend_list] and uses the buffers again.

    The card and the kernel are a parameter ([C2hEngine]): what the card writes into the
    completion ring, what allocators return, what callbacks do.  Pages, their mappings and the
    numbers of references are a log of events.  [memcpy] is a log of copies.  Entry points are
    atomic (the spin lock of a queue).  The work list of such a queue is empty: no function adds
    to it.  The statistics of [ping_pong_en] are left out. *)

From S2P Require Import Prelude QdmaErrors Mmio CLayout Contexts Csr SoftCsr S80Csr.
From S2P Require Import Descq.
Local Open Scope Z_scope.

(** [ENODEV], [ENODATA] *)
Definition ENODEV : Z := 19.
Definition ENODATA : Z := 61.

(** ** Data *)

(** What happens to pages.  A page is its address, 0 is [NULL]; an allocated page has
    one reference.  [PgFree] is [__free_pages]. *)
Inductive page_event :=
| PgAlloc (pg order : Z) | PgFree (pg : Z) | PgRef (pg : Z) | PgPut (pg : Z)
| PgMap (pg addr : Z) | PgUnmap (addr : Z).

(** A page of the pool; [pg_offset] is where its next buffer begins. *)
Record qdma_sw_pg_sg := mk_pg { pg_base : Z; pg_dma_base_addr : Z; pg_offset : Z }.

Record qdma_sdesc_info := mk_info { valid : bool; sop : bool; eop : bool; info_cidx : Z }.

Definition info_zero : qdma_sdesc_info := mk_info false false false 0.

(** A call of [memcpy] between two pages. *)
Record copy := mk_copy { dst_pg : Z; dst_off : Z; src_pg : Z; src_off : Z; copy_len : Z }.

(** What [fp_descq_c2h_packet] is called with: the length, the number of buffers, the first
    one, and where in the completion ring the user data are. *)
Record packet := mk_packet { pkt_len : Z; pkt_sgcnt : Z; pkt_first : option Z; pkt_udd : option Z }.

(** The part of a request the driver keeps its progress in. *)
Record qdma_sgt_req_cb := mk_cb {
  sg_idx : Z; sg_offset : Z; left : Z; offset : Z; status : Z; done_ : bool; unmap_needed : bool }.

Definition cb_zero : qdma_sgt_req_cb := mk_cb 0 0 0 0 0 false false.

(** A request with its progress. *)
Record job := mk_job { req : qdma_request; no_memcpy : bool; cb : qdma_sgt_req_cb }.

Definition jid (j : job) : nat := req_id (req j).
Definition set_cb (c : qdma_sgt_req_cb) (j : job) : job := mk_job (req j) (no_memcpy j) c.
Definition set_left (v : Z) (c : qdma_sgt_req_cb) : qdma_sgt_req_cb :=
  mk_cb (sg_idx c) (sg_offset c) v (offset c) (status c) (done_ c) (unmap_needed c).

(** The free list. *)
Record qdma_flq := mk_flq {
  size : Z;
  desc_buf_size : Z;
  num_pages : Z;
  num_pgs_mask : Z;
  num_bufs_per_pg : Z;
  alloc_idx : Z;
  recycle_idx : Z;
  max_pg_offset : Z;
  desc_pg_order : Z;
  desc_pg_shift : Z;
  flq_desc : list Z;  (* the ring: [dst_addr] of each descriptor *)
  udd_cnt : Z;
  pkt_cnt : Z;
  pkt_dlen : Z;
  alloc_fail : Z;
  mapping_err : Z;
  pidx_pend : Z;
  pg_sdesc : list qdma_sw_pg_sg;
  sdesc : list qdma_sw_sg;  (* a ring: the [next] of an entry is the one after it *)
  sdesc_info : list qdma_sdesc_info }.  (* likewise *)

Definition set_size (v : Z) (f : qdma_flq) : qdma_flq :=
  mk_flq v (desc_buf_size f) (num_pages f) (num_pgs_mask f) (num_bufs_per_pg f) (alloc_idx f)
    (recycle_idx f) (max_pg_offset f) (desc_pg_order f) (desc_pg_shift f) (flq_desc f) (udd_cnt f)
    (pkt_cnt f) (pkt_dlen f) (alloc_fail f) (mapping_err f) (pidx_pend f) (pg_sdesc f) (sdesc f)
    (sdesc_info f).
Definition set_desc_buf_size (v : Z) (f : qdma_flq) : qdma_flq :=
  mk_flq (size f) v (num_pages f) (num_pgs_mask f) (num_bufs_per_pg f) (alloc_idx f) (recycle_idx f)
    (max_pg_offset f) (desc_pg_order f) (desc_pg_shift f) (flq_desc f) (udd_cnt f) (pkt_cnt f)
    (pkt_dlen f) (alloc_fail f) (mapping_err f) (pidx_pend f) (pg_sdesc f) (sdesc f) (sdesc_info f).
Definition set_num_pages (v : Z) (f : qdma_flq) : qdma_flq :=
  mk_flq (size f) (desc_buf_size f) v (num_pgs_mask f) (num_bufs_per_pg f) (alloc_idx f) (recycle_idx f)
    (max_pg_offset f) (desc_pg_order f) (desc_pg_shift f) (flq_desc f) (udd_cnt f) (pkt_cnt f)
    (pkt_dlen f) (alloc_fail f) (mapping_err f) (pidx_pend f) (pg_sdesc f) (sdesc f) (sdesc_info f).
Definition set_num_pgs_mask (v : Z) (f : qdma_flq) : qdma_flq :=
  mk_flq (size f) (desc_buf_size f) (num_pages f) v (num_bufs_per_pg f) (alloc_idx f) (recycle_idx f)
    (max_pg_offset f) (desc_pg_order f) (desc_pg_shift f) (flq_desc f) (udd_cnt f) (pkt_cnt f)
    (pkt_dlen f) (alloc_fail f) (mapping_err f) (pidx_pend f) (pg_sdesc f) (sdesc f) (sdesc_info f).
Definition set_num_bufs_per_pg (v : Z) (f : qdma_flq) : qdma_flq :=
  mk_flq (size f) (desc_buf_size f) (num_pages f) (num_pgs_mask f) v (alloc_idx f) (recycle_idx f)
    (max_pg_offset f) (desc_pg_order f) (desc_pg_shift f) (flq_desc f) (udd_cnt f) (pkt_cnt f)
    (pkt_dlen f) (alloc_fail f) (mapping_err f) (pidx_pend f) (pg_sdesc f) (sdesc f) (sdesc_info f).
Definition set_alloc_idx (v : Z) (f : qdma_flq) : qdma_flq :=
  mk_flq (size f) (desc_buf_size f) (num_pages f) (num_pgs_mask f) (num_bufs_per_pg f) v (recycle_idx f)
    (max_pg_offset f) (desc_pg_order f) (desc_pg_shift f) (flq_desc f) (udd_cnt f) (pkt_cnt f)
    (pkt_dlen f) (alloc_fail f) (mapping_err f) (pidx_pend f) (pg_sdesc f) (sdesc f) (sdesc_info f).
Definition set_recycle_idx (v : Z) (f : qdma_flq) : qdma_flq :=
  mk_flq (size f) (desc_buf_size f) (num_pages f) (num_pgs_mask f) (num_bufs_per_pg f) (alloc_idx f) v
    (max_pg_offset f) (desc_pg_order f) (desc_pg_shift f) (flq_desc f) (udd_cnt f) (pkt_cnt f)
    (pkt_dlen f) (alloc_fail f) (mapping_err f) (pidx_pend f) (pg_sdesc f) (sdesc f) (sdesc_info f).
Definition set_max_pg_offset (v : Z) (f : qdma_flq) : qdma_flq :=
  mk_flq (size f) (desc_buf_size f) (num_pages f) (num_pgs_mask f) (num_bufs_per_pg f) (alloc_idx f)
    (recycle_idx f) v (desc_pg_order f) (desc_pg_shift f) (flq_desc f) (udd_cnt f) (pkt_cnt f)
    (pkt_dlen f) (alloc_fail f) (mapping_err f) (pidx_pend f) (pg_sdesc f) (sdesc f) (sdesc_info f).
Definition set_desc_pg_order (v : Z) (f : qdma_flq) : qdma_flq :=
  mk_flq (size f) (desc_buf_size f) (num_pages f) (num_pgs_mask f) (num_bufs_per_pg f) (alloc_idx f)
    (recycle_idx f) (max_pg_offset f) v (desc_pg_shift f) (flq_desc f) (udd_cnt f) (pkt_cnt f)
    (pkt_dlen f) (alloc_fail f) (mapping_err f) (pidx_pend f) (pg_sdesc f) (sdesc f) (sdesc_info f).
Definition set_desc_pg_shift (v : Z) (f : qdma_flq) : qdma_flq :=
  mk_flq (size f) (desc_buf_size f) (num_pages f) (num_pgs_mask f) (num_bufs_per_pg f) (alloc_idx f)
    (recycle_idx f) (max_pg_offset f) (desc_pg_order f) v (flq_desc f) (udd_cnt f) (pkt_cnt f)
    (pkt_dlen f) (alloc_fail f) (mapping_err f) (pidx_pend f) (pg_sdesc f) (sdesc f) (sdesc_info f).
Definition set_flq_desc (v : list Z) (f : qdma_flq) : qdma_flq :=
  mk_flq (size f) (desc_buf_size f) (num_pages f) (num_pgs_mask f) (num_bufs_per_pg f) (alloc_idx f)
    (recycle_idx f) (max_pg_offset f) (desc_pg_order f) (desc_pg_shift f) v (udd_cnt f) (pkt_cnt f)
    (pkt_dlen f) (alloc_fail f) (mapping_err f) (pidx_pend f) (pg_sdesc f) (sdesc f) (sdesc_info f).
Definition set_udd_cnt (v : Z) (f : qdma_flq) : qdma_flq :=
  mk_flq (size f) (desc_buf_size f) (num_pages f) (num_pgs_mask f) (num_bufs_per_pg f) (alloc_idx f)
    (recycle_idx f) (max_pg_offset f) (desc_pg_order f) (desc_pg_shift f) (flq_desc f) v (pkt_cnt f)
    (pkt_dlen f) (alloc_fail f) (mapping_err f) (pidx_pend f) (pg_sdesc f) (sdesc f) (sdesc_info f).
Definition set_pkt_cnt (v : Z) (f : qdma_flq) : qdma_flq :=
  mk_flq (size f) (desc_buf_size f) (num_pages f) (num_pgs_mask f) (num_bufs_per_pg f) (alloc_idx f)
    (recycle_idx f) (max_pg_offset f) (desc_pg_order f) (desc_pg_shift f) (flq_desc f) (udd_cnt f) v
    (pkt_dlen f) (alloc_fail f) (mapping_err f) (pidx_pend f) (pg_sdesc f) (sdesc f) (sdesc_info f).
Definition set_pkt_dlen (v : Z) (f : qdma_flq) : qdma_flq :=
  mk_flq (size f) (desc_buf_size f) (num_pages f) (num_pgs_mask f) (num_bufs_per_pg f) (alloc_idx f)
    (recycle_idx f) (max_pg_offset f) (desc_pg_order f) (desc_pg_shift f) (flq_desc f) (udd_cnt f)
    (pkt_cnt f) v (alloc_fail f) (mapping_err f) (pidx_pend f) (pg_sdesc f) (sdesc f) (sdesc_info f).
Definition set_alloc_fail (v : Z) (f : qdma_flq) : qdma_flq :=
  mk_flq (size f) (desc_buf_size f) (num_pages f) (num_pgs_mask f) (num_bufs_per_pg f) (alloc_idx f)
    (recycle_idx f) (max_pg_offset f) (desc_pg_order f) (desc_pg_shift f) (flq_desc f) (udd_cnt f)
    (pkt_cnt f) (pkt_dlen f) v (mapping_err f) (pidx_pend f) (pg_sdesc f) (sdesc f) (sdesc_info f).
Definition set_mapping_err (v : Z) (f : qdma_flq) : qdma_flq :=
  mk_flq (size f) (desc_buf_size f) (num_pages f) (num_pgs_mask f) (num_bufs_per_pg f) (alloc_idx f)
    (recycle_idx f) (max_pg_offset f) (desc_pg_order f) (desc_pg_shift f) (flq_desc f) (udd_cnt f)
    (pkt_cnt f) (pkt_dlen f) (alloc_fail f) v (pidx_pend f) (pg_sdesc f) (sdesc f) (sdesc_info f).
Definition set_pidx_pend (v : Z) (f : qdma_flq) : qdma_flq :=
  mk_flq (size f) (desc_buf_size f) (num_pages f) (num_pgs_mask f) (num_bufs_per_pg f) (alloc_idx f)
    (recycle_idx f) (max_pg_offset f) (desc_pg_order f) (desc_pg_shift f) (flq_desc f) (udd_cnt f)
    (pkt_cnt f) (pkt_dlen f) (alloc_fail f) (mapping_err f) v (pg_sdesc f) (sdesc f) (sdesc_info f).
Definition set_pg_sdesc (v : list qdma_sw_pg_sg) (f : qdma_flq) : qdma_flq :=
  mk_flq (size f) (desc_buf_size f) (num_pages f) (num_pgs_mask f) (num_bufs_per_pg f) (alloc_idx f)
    (recycle_idx f) (max_pg_offset f) (desc_pg_order f) (desc_pg_shift f) (flq_desc f) (udd_cnt f)
    (pkt_cnt f) (pkt_dlen f) (alloc_fail f) (mapping_err f) (pidx_pend f) v (sdesc f) (sdesc_info f).
Definition set_sdesc (v : list qdma_sw_sg) (f : qdma_flq) : qdma_flq :=
  mk_flq (size f) (desc_buf_size f) (num_pages f) (num_pgs_mask f) (num_bufs_per_pg f) (alloc_idx f)
    (recycle_idx f) (max_pg_offset f) (desc_pg_order f) (desc_pg_shift f) (flq_desc f) (udd_cnt f)
    (pkt_cnt f) (pkt_dlen f) (alloc_fail f) (mapping_err f) (pidx_pend f) (pg_sdesc f) v (sdesc_info f).
Definition set_sdesc_info (v : list qdma_sdesc_info) (f : qdma_flq) : qdma_flq :=
  mk_flq (size f) (desc_buf_size f) (num_pages f) (num_pgs_mask f) (num_bufs_per_pg f) (alloc_idx f)
    (recycle_idx f) (max_pg_offset f) (desc_pg_order f) (desc_pg_shift f) (flq_desc f) (udd_cnt f)
    (pkt_cnt f) (pkt_dlen f) (alloc_fail f) (mapping_err f) (pidx_pend f) (pg_sdesc f) (sdesc f) v.

(** The configuration of a queue that receives a stream, and what it reads of the
    device. *)
Record c2h_conf := mk_conf {
  qidx : Z;
  rngsz : Z;
  rngsz_cmpt : Z;
  desc_rng_sz_idx : Z;
  cmpl_rng_sz_idx : Z;
  c2h_buf_sz_idx : Z;
  c2h_bufsz : Z;
  cmpl_desc_sz : Z;
  cmpl_trig_mode : Z;
  cmpl_timer_idx : Z;
  cmpl_cnt_th_idx : Z;
  cmpl_en_intr : Z;
  cmpl_stat_en : Z;
  cmpl_udd_en : bool;
  desc_bypass : bool;
  latency_optimize : bool;
  adaptive_rx : bool;
  init_pidx_dis : bool;
  c2h_packet : bool;  (* whether [fp_descq_c2h_packet] is set *)
  drv_mode : qdma_drv_mode;  (* of the device, as the next three *)
  intr_moderation : bool;
  hw_hard : bool;
  is_vf : Z;
  ring_sz : list Z;  (* [csr_info] of the device *)
  c2h_buf_sz : list Z;
  c2h_cnt_th : list Z;
  dev_sorted_idx : list Z }.  (* [xdev->sorted_c2h_cntr_idx] *)

Definition set_qidx (v : Z) (c : c2h_conf) : c2h_conf :=
  mk_conf v (rngsz c) (rngsz_cmpt c) (desc_rng_sz_idx c) (cmpl_rng_sz_idx c) (c2h_buf_sz_idx c)
    (c2h_bufsz c) (cmpl_desc_sz c) (cmpl_trig_mode c) (cmpl_timer_idx c) (cmpl_cnt_th_idx c)
    (cmpl_en_intr c) (cmpl_stat_en c) (cmpl_udd_en c) (desc_bypass c) (latency_optimize c)
    (adaptive_rx c) (init_pidx_dis c) (c2h_packet c) (drv_mode c) (intr_moderation c) (hw_hard c)
    (is_vf c) (ring_sz c) (c2h_buf_sz c) (c2h_cnt_th c) (dev_sorted_idx c).
Definition set_rngsz (v : Z) (c : c2h_conf) : c2h_conf :=
  mk_conf (qidx c) v (rngsz_cmpt c) (desc_rng_sz_idx c) (cmpl_rng_sz_idx c) (c2h_buf_sz_idx c)
    (c2h_bufsz c) (cmpl_desc_sz c) (cmpl_trig_mode c) (cmpl_timer_idx c) (cmpl_cnt_th_idx c)
    (cmpl_en_intr c) (cmpl_stat_en c) (cmpl_udd_en c) (desc_bypass c) (latency_optimize c)
    (adaptive_rx c) (init_pidx_dis c) (c2h_packet c) (drv_mode c) (intr_moderation c) (hw_hard c)
    (is_vf c) (ring_sz c) (c2h_buf_sz c) (c2h_cnt_th c) (dev_sorted_idx c).
Definition set_rngsz_cmpt (v : Z) (c : c2h_conf) : c2h_conf :=
  mk_conf (qidx c) (rngsz c) v (desc_rng_sz_idx c) (cmpl_rng_sz_idx c) (c2h_buf_sz_idx c) (c2h_bufsz c)
    (cmpl_desc_sz c) (cmpl_trig_mode c) (cmpl_timer_idx c) (cmpl_cnt_th_idx c) (cmpl_en_intr c)
    (cmpl_stat_en c) (cmpl_udd_en c) (desc_bypass c) (latency_optimize c) (adaptive_rx c)
    (init_pidx_dis c) (c2h_packet c) (drv_mode c) (intr_moderation c) (hw_hard c) (is_vf c) (ring_sz c)
    (c2h_buf_sz c) (c2h_cnt_th c) (dev_sorted_idx c).
Definition set_desc_rng_sz_idx (v : Z) (c : c2h_conf) : c2h_conf :=
  mk_conf (qidx c) (rngsz c) (rngsz_cmpt c) v (cmpl_rng_sz_idx c) (c2h_buf_sz_idx c) (c2h_bufsz c)
    (cmpl_desc_sz c) (cmpl_trig_mode c) (cmpl_timer_idx c) (cmpl_cnt_th_idx c) (cmpl_en_intr c)
    (cmpl_stat_en c) (cmpl_udd_en c) (desc_bypass c) (latency_optimize c) (adaptive_rx c)
    (init_pidx_dis c) (c2h_packet c) (drv_mode c) (intr_moderation c) (hw_hard c) (is_vf c) (ring_sz c)
    (c2h_buf_sz c) (c2h_cnt_th c) (dev_sorted_idx c).
Definition set_cmpl_rng_sz_idx (v : Z) (c : c2h_conf) : c2h_conf :=
  mk_conf (qidx c) (rngsz c) (rngsz_cmpt c) (desc_rng_sz_idx c) v (c2h_buf_sz_idx c) (c2h_bufsz c)
    (cmpl_desc_sz c) (cmpl_trig_mode c) (cmpl_timer_idx c) (cmpl_cnt_th_idx c) (cmpl_en_intr c)
    (cmpl_stat_en c) (cmpl_udd_en c) (desc_bypass c) (latency_optimize c) (adaptive_rx c)
    (init_pidx_dis c) (c2h_packet c) (drv_mode c) (intr_moderation c) (hw_hard c) (is_vf c) (ring_sz c)
    (c2h_buf_sz c) (c2h_cnt_th c) (dev_sorted_idx c).
Definition set_c2h_buf_sz_idx (v : Z) (c : c2h_conf) : c2h_conf :=
  mk_conf (qidx c) (rngsz c) (rngsz_cmpt c) (desc_rng_sz_idx c) (cmpl_rng_sz_idx c) v (c2h_bufsz c)
    (cmpl_desc_sz c) (cmpl_trig_mode c) (cmpl_timer_idx c) (cmpl_cnt_th_idx c) (cmpl_en_intr c)
    (cmpl_stat_en c) (cmpl_udd_en c) (desc_bypass c) (latency_optimize c) (adaptive_rx c)
    (init_pidx_dis c) (c2h_packet c) (drv_mode c) (intr_moderation c) (hw_hard c) (is_vf c) (ring_sz c)
    (c2h_buf_sz c) (c2h_cnt_th c) (dev_sorted_idx c).
Definition set_c2h_bufsz (v : Z) (c : c2h_conf) : c2h_conf :=
  mk_conf (qidx c) (rngsz c) (rngsz_cmpt c) (desc_rng_sz_idx c) (cmpl_rng_sz_idx c) (c2h_buf_sz_idx c) v
    (cmpl_desc_sz c) (cmpl_trig_mode c) (cmpl_timer_idx c) (cmpl_cnt_th_idx c) (cmpl_en_intr c)
    (cmpl_stat_en c) (cmpl_udd_en c) (desc_bypass c) (latency_optimize c) (adaptive_rx c)
    (init_pidx_dis c) (c2h_packet c) (drv_mode c) (intr_moderation c) (hw_hard c) (is_vf c) (ring_sz c)
    (c2h_buf_sz c) (c2h_cnt_th c) (dev_sorted_idx c).
Definition set_cmpl_desc_sz (v : Z) (c : c2h_conf) : c2h_conf :=
  mk_conf (qidx c) (rngsz c) (rngsz_cmpt c) (desc_rng_sz_idx c) (cmpl_rng_sz_idx c) (c2h_buf_sz_idx c)
    (c2h_bufsz c) v (cmpl_trig_mode c) (cmpl_timer_idx c) (cmpl_cnt_th_idx c) (cmpl_en_intr c)
    (cmpl_stat_en c) (cmpl_udd_en c) (desc_bypass c) (latency_optimize c) (adaptive_rx c)
    (init_pidx_dis c) (c2h_packet c) (drv_mode c) (intr_moderation c) (hw_hard c) (is_vf c) (ring_sz c)
    (c2h_buf_sz c) (c2h_cnt_th c) (dev_sorted_idx c).
Definition set_cmpl_trig_mode (v : Z) (c : c2h_conf) : c2h_conf :=
  mk_conf (qidx c) (rngsz c) (rngsz_cmpt c) (desc_rng_sz_idx c) (cmpl_rng_sz_idx c) (c2h_buf_sz_idx c)
    (c2h_bufsz c) (cmpl_desc_sz c) v (cmpl_timer_idx c) (cmpl_cnt_th_idx c) (cmpl_en_intr c)
    (cmpl_stat_en c) (cmpl_udd_en c) (desc_bypass c) (latency_optimize c) (adaptive_rx c)
    (init_pidx_dis c) (c2h_packet c) (drv_mode c) (intr_moderation c) (hw_hard c) (is_vf c) (ring_sz c)
    (c2h_buf_sz c) (c2h_cnt_th c) (dev_sorted_idx c).
Definition set_cmpl_timer_idx (v : Z) (c : c2h_conf) : c2h_conf :=
  mk_conf (qidx c) (rngsz c) (rngsz_cmpt c) (desc_rng_sz_idx c) (cmpl_rng_sz_idx c) (c2h_buf_sz_idx c)
    (c2h_bufsz c) (cmpl_desc_sz c) (cmpl_trig_mode c) v (cmpl_cnt_th_idx c) (cmpl_en_intr c)
    (cmpl_stat_en c) (cmpl_udd_en c) (desc_bypass c) (latency_optimize c) (adaptive_rx c)
    (init_pidx_dis c) (c2h_packet c) (drv_mode c) (intr_moderation c) (hw_hard c) (is_vf c) (ring_sz c)
    (c2h_buf_sz c) (c2h_cnt_th c) (dev_sorted_idx c).
Definition set_cmpl_cnt_th_idx (v : Z) (c : c2h_conf) : c2h_conf :=
  mk_conf (qidx c) (rngsz c) (rngsz_cmpt c) (desc_rng_sz_idx c) (cmpl_rng_sz_idx c) (c2h_buf_sz_idx c)
    (c2h_bufsz c) (cmpl_desc_sz c) (cmpl_trig_mode c) (cmpl_timer_idx c) v (cmpl_en_intr c)
    (cmpl_stat_en c) (cmpl_udd_en c) (desc_bypass c) (latency_optimize c) (adaptive_rx c)
    (init_pidx_dis c) (c2h_packet c) (drv_mode c) (intr_moderation c) (hw_hard c) (is_vf c) (ring_sz c)
    (c2h_buf_sz c) (c2h_cnt_th c) (dev_sorted_idx c).
Definition set_cmpl_en_intr (v : Z) (c : c2h_conf) : c2h_conf :=
  mk_conf (qidx c) (rngsz c) (rngsz_cmpt c) (desc_rng_sz_idx c) (cmpl_rng_sz_idx c) (c2h_buf_sz_idx c)
    (c2h_bufsz c) (cmpl_desc_sz c) (cmpl_trig_mode c) (cmpl_timer_idx c) (cmpl_cnt_th_idx c) v
    (cmpl_stat_en c) (cmpl_udd_en c) (desc_bypass c) (latency_optimize c) (adaptive_rx c)
    (init_pidx_dis c) (c2h_packet c) (drv_mode c) (intr_moderation c) (hw_hard c) (is_vf c) (ring_sz c)
    (c2h_buf_sz c) (c2h_cnt_th c) (dev_sorted_idx c).
Definition set_cmpl_stat_en (v : Z) (c : c2h_conf) : c2h_conf :=
  mk_conf (qidx c) (rngsz c) (rngsz_cmpt c) (desc_rng_sz_idx c) (cmpl_rng_sz_idx c) (c2h_buf_sz_idx c)
    (c2h_bufsz c) (cmpl_desc_sz c) (cmpl_trig_mode c) (cmpl_timer_idx c) (cmpl_cnt_th_idx c)
    (cmpl_en_intr c) v (cmpl_udd_en c) (desc_bypass c) (latency_optimize c) (adaptive_rx c)
    (init_pidx_dis c) (c2h_packet c) (drv_mode c) (intr_moderation c) (hw_hard c) (is_vf c) (ring_sz c)
    (c2h_buf_sz c) (c2h_cnt_th c) (dev_sorted_idx c).
Definition set_cmpl_udd_en (v : bool) (c : c2h_conf) : c2h_conf :=
  mk_conf (qidx c) (rngsz c) (rngsz_cmpt c) (desc_rng_sz_idx c) (cmpl_rng_sz_idx c) (c2h_buf_sz_idx c)
    (c2h_bufsz c) (cmpl_desc_sz c) (cmpl_trig_mode c) (cmpl_timer_idx c) (cmpl_cnt_th_idx c)
    (cmpl_en_intr c) (cmpl_stat_en c) v (desc_bypass c) (latency_optimize c) (adaptive_rx c)
    (init_pidx_dis c) (c2h_packet c) (drv_mode c) (intr_moderation c) (hw_hard c) (is_vf c) (ring_sz c)
    (c2h_buf_sz c) (c2h_cnt_th c) (dev_sorted_idx c).
Definition set_desc_bypass (v : bool) (c : c2h_conf) : c2h_conf :=
  mk_conf (qidx c) (rngsz c) (rngsz_cmpt c) (desc_rng_sz_idx c) (cmpl_rng_sz_idx c) (c2h_buf_sz_idx c)
    (c2h_bufsz c) (cmpl_desc_sz c) (cmpl_trig_mode c) (cmpl_timer_idx c) (cmpl_cnt_th_idx c)
    (cmpl_en_intr c) (cmpl_stat_en c) (cmpl_udd_en c) v (latency_optimize c) (adaptive_rx c)
    (init_pidx_dis c) (c2h_packet c) (drv_mode c) (intr_moderation c) (hw_hard c) (is_vf c) (ring_sz c)
    (c2h_buf_sz c) (c2h_cnt_th c) (dev_sorted_idx c).
Definition set_latency_optimize (v : bool) (c : c2h_conf) : c2h_conf :=
  mk_conf (qidx c) (rngsz c) (rngsz_cmpt c) (desc_rng_sz_idx c) (cmpl_rng_sz_idx c) (c2h_buf_sz_idx c)
    (c2h_bufsz c) (cmpl_desc_sz c) (cmpl_trig_mode c) (cmpl_timer_idx c) (cmpl_cnt_th_idx c)
    (cmpl_en_intr c) (cmpl_stat_en c) (cmpl_udd_en c) (desc_bypass c) v (adaptive_rx c)
    (init_pidx_dis c) (c2h_packet c) (drv_mode c) (intr_moderation c) (hw_hard c) (is_vf c) (ring_sz c)
    (c2h_buf_sz c) (c2h_cnt_th c) (dev_sorted_idx c).
Definition set_adaptive_rx (v : bool) (c : c2h_conf) : c2h_conf :=
  mk_conf (qidx c) (rngsz c) (rngsz_cmpt c) (desc_rng_sz_idx c) (cmpl_rng_sz_idx c) (c2h_buf_sz_idx c)
    (c2h_bufsz c) (cmpl_desc_sz c) (cmpl_trig_mode c) (cmpl_timer_idx c) (cmpl_cnt_th_idx c)
    (cmpl_en_intr c) (cmpl_stat_en c) (cmpl_udd_en c) (desc_bypass c) (latency_optimize c) v
    (init_pidx_dis c) (c2h_packet c) (drv_mode c) (intr_moderation c) (hw_hard c) (is_vf c) (ring_sz c)
    (c2h_buf_sz c) (c2h_cnt_th c) (dev_sorted_idx c).
Definition set_init_pidx_dis (v : bool) (c : c2h_conf) : c2h_conf :=
  mk_conf (qidx c) (rngsz c) (rngsz_cmpt c) (desc_rng_sz_idx c) (cmpl_rng_sz_idx c) (c2h_buf_sz_idx c)
    (c2h_bufsz c) (cmpl_desc_sz c) (cmpl_trig_mode c) (cmpl_timer_idx c) (cmpl_cnt_th_idx c)
    (cmpl_en_intr c) (cmpl_stat_en c) (cmpl_udd_en c) (desc_bypass c) (latency_optimize c)
    (adaptive_rx c) v (c2h_packet c) (drv_mode c) (intr_moderation c) (hw_hard c) (is_vf c) (ring_sz c)
    (c2h_buf_sz c) (c2h_cnt_th c) (dev_sorted_idx c).
Definition set_c2h_packet (v : bool) (c : c2h_conf) : c2h_conf :=
  mk_conf (qidx c) (rngsz c) (rngsz_cmpt c) (desc_rng_sz_idx c) (cmpl_rng_sz_idx c) (c2h_buf_sz_idx c)
    (c2h_bufsz c) (cmpl_desc_sz c) (cmpl_trig_mode c) (cmpl_timer_idx c) (cmpl_cnt_th_idx c)
    (cmpl_en_intr c) (cmpl_stat_en c) (cmpl_udd_en c) (desc_bypass c) (latency_optimize c)
    (adaptive_rx c) (init_pidx_dis c) v (drv_mode c) (intr_moderation c) (hw_hard c) (is_vf c)
    (ring_sz c) (c2h_buf_sz c) (c2h_cnt_th c) (dev_sorted_idx c).
Definition set_drv_mode (v : qdma_drv_mode) (c : c2h_conf) : c2h_conf :=
  mk_conf (qidx c) (rngsz c) (rngsz_cmpt c) (desc_rng_sz_idx c) (cmpl_rng_sz_idx c) (c2h_buf_sz_idx c)
    (c2h_bufsz c) (cmpl_desc_sz c) (cmpl_trig_mode c) (cmpl_timer_idx c) (cmpl_cnt_th_idx c)
    (cmpl_en_intr c) (cmpl_stat_en c) (cmpl_udd_en c) (desc_bypass c) (latency_optimize c)
    (adaptive_rx c) (init_pidx_dis c) (c2h_packet c) v (intr_moderation c) (hw_hard c) (is_vf c)
    (ring_sz c) (c2h_buf_sz c) (c2h_cnt_th c) (dev_sorted_idx c).
Definition set_intr_moderation (v : bool) (c : c2h_conf) : c2h_conf :=
  mk_conf (qidx c) (rngsz c) (rngsz_cmpt c) (desc_rng_sz_idx c) (cmpl_rng_sz_idx c) (c2h_buf_sz_idx c)
    (c2h_bufsz c) (cmpl_desc_sz c) (cmpl_trig_mode c) (cmpl_timer_idx c) (cmpl_cnt_th_idx c)
    (cmpl_en_intr c) (cmpl_stat_en c) (cmpl_udd_en c) (desc_bypass c) (latency_optimize c)
    (adaptive_rx c) (init_pidx_dis c) (c2h_packet c) (drv_mode c) v (hw_hard c) (is_vf c) (ring_sz c)
    (c2h_buf_sz c) (c2h_cnt_th c) (dev_sorted_idx c).
Definition set_hw_hard (v : bool) (c : c2h_conf) : c2h_conf :=
  mk_conf (qidx c) (rngsz c) (rngsz_cmpt c) (desc_rng_sz_idx c) (cmpl_rng_sz_idx c) (c2h_buf_sz_idx c)
    (c2h_bufsz c) (cmpl_desc_sz c) (cmpl_trig_mode c) (cmpl_timer_idx c) (cmpl_cnt_th_idx c)
    (cmpl_en_intr c) (cmpl_stat_en c) (cmpl_udd_en c) (desc_bypass c) (latency_optimize c)
    (adaptive_rx c) (init_pidx_dis c) (c2h_packet c) (drv_mode c) (intr_moderation c) v (is_vf c)
    (ring_sz c) (c2h_buf_sz c) (c2h_cnt_th c) (dev_sorted_idx c).
Definition set_is_vf (v : Z) (c : c2h_conf) : c2h_conf :=
  mk_conf (qidx c) (rngsz c) (rngsz_cmpt c) (desc_rng_sz_idx c) (cmpl_rng_sz_idx c) (c2h_buf_sz_idx c)
    (c2h_bufsz c) (cmpl_desc_sz c) (cmpl_trig_mode c) (cmpl_timer_idx c) (cmpl_cnt_th_idx c)
    (cmpl_en_intr c) (cmpl_stat_en c) (cmpl_udd_en c) (desc_bypass c) (latency_optimize c)
    (adaptive_rx c) (init_pidx_dis c) (c2h_packet c) (drv_mode c) (intr_moderation c) (hw_hard c) v
    (ring_sz c) (c2h_buf_sz c) (c2h_cnt_th c) (dev_sorted_idx c).
Definition set_ring_sz (v : list Z) (c : c2h_conf) : c2h_conf :=
  mk_conf (qidx c) (rngsz c) (rngsz_cmpt c) (desc_rng_sz_idx c) (cmpl_rng_sz_idx c) (c2h_buf_sz_idx c)
    (c2h_bufsz c) (cmpl_desc_sz c) (cmpl_trig_mode c) (cmpl_timer_idx c) (cmpl_cnt_th_idx c)
    (cmpl_en_intr c) (cmpl_stat_en c) (cmpl_udd_en c) (desc_bypass c) (latency_optimize c)
    (adaptive_rx c) (init_pidx_dis c) (c2h_packet c) (drv_mode c) (intr_moderation c) (hw_hard c)
    (is_vf c) v (c2h_buf_sz c) (c2h_cnt_th c) (dev_sorted_idx c).
Definition set_c2h_buf_sz (v : list Z) (c : c2h_conf) : c2h_conf :=
  mk_conf (qidx c) (rngsz c) (rngsz_cmpt c) (desc_rng_sz_idx c) (cmpl_rng_sz_idx c) (c2h_buf_sz_idx c)
    (c2h_bufsz c) (cmpl_desc_sz c) (cmpl_trig_mode c) (cmpl_timer_idx c) (cmpl_cnt_th_idx c)
    (cmpl_en_intr c) (cmpl_stat_en c) (cmpl_udd_en c) (desc_bypass c) (latency_optimize c)
    (adaptive_rx c) (init_pidx_dis c) (c2h_packet c) (drv_mode c) (intr_moderation c) (hw_hard c)
    (is_vf c) (ring_sz c) v (c2h_cnt_th c) (dev_sorted_idx c).
Definition set_c2h_cnt_th (v : list Z) (c : c2h_conf) : c2h_conf :=
  mk_conf (qidx c) (rngsz c) (rngsz_cmpt c) (desc_rng_sz_idx c) (cmpl_rng_sz_idx c) (c2h_buf_sz_idx c)
    (c2h_bufsz c) (cmpl_desc_sz c) (cmpl_trig_mode c) (cmpl_timer_idx c) (cmpl_cnt_th_idx c)
    (cmpl_en_intr c) (cmpl_stat_en c) (cmpl_udd_en c) (desc_bypass c) (latency_optimize c)
    (adaptive_rx c) (init_pidx_dis c) (c2h_packet c) (drv_mode c) (intr_moderation c) (hw_hard c)
    (is_vf c) (ring_sz c) (c2h_buf_sz c) v (dev_sorted_idx c).
Definition set_dev_sorted_idx (v : list Z) (c : c2h_conf) : c2h_conf :=
  mk_conf (qidx c) (rngsz c) (rngsz_cmpt c) (desc_rng_sz_idx c) (cmpl_rng_sz_idx c) (c2h_buf_sz_idx c)
    (c2h_bufsz c) (cmpl_desc_sz c) (cmpl_trig_mode c) (cmpl_timer_idx c) (cmpl_cnt_th_idx c)
    (cmpl_en_intr c) (cmpl_stat_en c) (cmpl_udd_en c) (desc_bypass c) (latency_optimize c)
    (adaptive_rx c) (init_pidx_dis c) (c2h_packet c) (drv_mode c) (intr_moderation c) (hw_hard c)
    (is_vf c) (ring_sz c) (c2h_buf_sz c) (c2h_cnt_th c) v.

(** The state of the adaptive counter threshold. *)
Record c2h_cntr := mk_cntr {
  sorted_c2h_cntr_idx : Z;
  c2h_pend_pkt_moving_avg : Z;
  c2h_pend_pkt_avg_thr_hi : Z;
  c2h_pend_pkt_avg_thr_lo : Z;
  c2h_cntr_monitor_cnt : Z }.

Definition set_sorted_c2h_cntr_idx (v : Z) (a : c2h_cntr) : c2h_cntr :=
  mk_cntr v (c2h_pend_pkt_moving_avg a) (c2h_pend_pkt_avg_thr_hi a) (c2h_pend_pkt_avg_thr_lo a)
    (c2h_cntr_monitor_cnt a).
Definition set_c2h_pend_pkt_moving_avg (v : Z) (a : c2h_cntr) : c2h_cntr :=
  mk_cntr (sorted_c2h_cntr_idx a) v (c2h_pend_pkt_avg_thr_hi a) (c2h_pend_pkt_avg_thr_lo a)
    (c2h_cntr_monitor_cnt a).
Definition set_c2h_pend_pkt_avg_thr_hi (v : Z) (a : c2h_cntr) : c2h_cntr :=
  mk_cntr (sorted_c2h_cntr_idx a) (c2h_pend_pkt_moving_avg a) v (c2h_pend_pkt_avg_thr_lo a)
    (c2h_cntr_monitor_cnt a).
Definition set_c2h_pend_pkt_avg_thr_lo (v : Z) (a : c2h_cntr) : c2h_cntr :=
  mk_cntr (sorted_c2h_cntr_idx a) (c2h_pend_pkt_moving_avg a) (c2h_pend_pkt_avg_thr_hi a) v
    (c2h_cntr_monitor_cnt a).
Definition set_c2h_cntr_monitor_cnt (v : Z) (a : c2h_cntr) : c2h_cntr :=
  mk_cntr (sorted_c2h_cntr_idx a) (c2h_pend_pkt_moving_avg a) (c2h_pend_pkt_avg_thr_hi a)
    (c2h_pend_pkt_avg_thr_lo a) v.

(** A queue that receives a stream ([struct qdma_descq]). *)
Record c2h_descq := mk_c2h {
  conf : c2h_conf;
  q_state : q_state_t;
  q_stop_wait : bool;
  err : bool;
  color : Z;
  avail : Z;
  pidx : Z;
  cidx_cmpt : Z;
  pidx_cmpt : Z;
  cmpt_entry_len : Z;
  desc_cmpt_cur : Z;  (* in bytes from [desc_cmpt] *)
  cmpt_cidx_info : Z;  (* [struct qdma_q_cmpt_cidx_reg_info], as the doorbells take it *)
  pidx_info : Z;
  pend_list_empty : bool;
  cntr : c2h_cntr;
  pend_list : list job;
  total_cmpl_descs : Z;
  total_st_c2h_pkts : Z;  (* of the device *)
  flq : qdma_flq;
  page_log : list page_event;  (* what happened to pages, the newest first *)
  copies : list copy;  (* the calls of [memcpy], the newest first *)
  packets : list packet;  (* what was handed to [fp_descq_c2h_packet], the newest first *)
  finished : list job;  (* requests that are done, the last one first *)
  regs : trace }.  (* accesses to registers *)

Definition set_conf (v : c2h_conf) (s : c2h_descq) : c2h_descq :=
  mk_c2h v (q_state s) (q_stop_wait s) (err s) (color s) (avail s) (pidx s) (cidx_cmpt s) (pidx_cmpt s)
    (cmpt_entry_len s) (desc_cmpt_cur s) (cmpt_cidx_info s) (pidx_info s) (pend_list_empty s) (cntr s)
    (pend_list s) (total_cmpl_descs s) (total_st_c2h_pkts s) (flq s) (page_log s) (copies s) (packets s)
    (finished s) (regs s).
Definition set_q_state (v : q_state_t) (s : c2h_descq) : c2h_descq :=
  mk_c2h (conf s) v (q_stop_wait s) (err s) (color s) (avail s) (pidx s) (cidx_cmpt s) (pidx_cmpt s)
    (cmpt_entry_len s) (desc_cmpt_cur s) (cmpt_cidx_info s) (pidx_info s) (pend_list_empty s) (cntr s)
    (pend_list s) (total_cmpl_descs s) (total_st_c2h_pkts s) (flq s) (page_log s) (copies s) (packets s)
    (finished s) (regs s).
Definition set_q_stop_wait (v : bool) (s : c2h_descq) : c2h_descq :=
  mk_c2h (conf s) (q_state s) v (err s) (color s) (avail s) (pidx s) (cidx_cmpt s) (pidx_cmpt s)
    (cmpt_entry_len s) (desc_cmpt_cur s) (cmpt_cidx_info s) (pidx_info s) (pend_list_empty s) (cntr s)
    (pend_list s) (total_cmpl_descs s) (total_st_c2h_pkts s) (flq s) (page_log s) (copies s) (packets s)
    (finished s) (regs s).
Definition set_err (v : bool) (s : c2h_descq) : c2h_descq :=
  mk_c2h (conf s) (q_state s) (q_stop_wait s) v (color s) (avail s) (pidx s) (cidx_cmpt s) (pidx_cmpt s)
    (cmpt_entry_len s) (desc_cmpt_cur s) (cmpt_cidx_info s) (pidx_info s) (pend_list_empty s) (cntr s)
    (pend_list s) (total_cmpl_descs s) (total_st_c2h_pkts s) (flq s) (page_log s) (copies s) (packets s)
    (finished s) (regs s).
Definition set_color (v : Z) (s : c2h_descq) : c2h_descq :=
  mk_c2h (conf s) (q_state s) (q_stop_wait s) (err s) v (avail s) (pidx s) (cidx_cmpt s) (pidx_cmpt s)
    (cmpt_entry_len s) (desc_cmpt_cur s) (cmpt_cidx_info s) (pidx_info s) (pend_list_empty s) (cntr s)
    (pend_list s) (total_cmpl_descs s) (total_st_c2h_pkts s) (flq s) (page_log s) (copies s) (packets s)
    (finished s) (regs s).
Definition set_avail (v : Z) (s : c2h_descq) : c2h_descq :=
  mk_c2h (conf s) (q_state s) (q_stop_wait s) (err s) (color s) v (pidx s) (cidx_cmpt s) (pidx_cmpt s)
    (cmpt_entry_len s) (desc_cmpt_cur s) (cmpt_cidx_info s) (pidx_info s) (pend_list_empty s) (cntr s)
    (pend_list s) (total_cmpl_descs s) (total_st_c2h_pkts s) (flq s) (page_log s) (copies s) (packets s)
    (finished s) (regs s).
Definition set_pidx (v : Z) (s : c2h_descq) : c2h_descq :=
  mk_c2h (conf s) (q_state s) (q_stop_wait s) (err s) (color s) (avail s) v (cidx_cmpt s) (pidx_cmpt s)
    (cmpt_entry_len s) (desc_cmpt_cur s) (cmpt_cidx_info s) (pidx_info s) (pend_list_empty s) (cntr s)
    (pend_list s) (total_cmpl_descs s) (total_st_c2h_pkts s) (flq s) (page_log s) (copies s) (packets s)
    (finished s) (regs s).
Definition set_cidx_cmpt (v : Z) (s : c2h_descq) : c2h_descq :=
  mk_c2h (conf s) (q_state s) (q_stop_wait s) (err s) (color s) (avail s) (pidx s) v (pidx_cmpt s)
    (cmpt_entry_len s) (desc_cmpt_cur s) (cmpt_cidx_info s) (pidx_info s) (pend_list_empty s) (cntr s)
    (pend_list s) (total_cmpl_descs s) (total_st_c2h_pkts s) (flq s) (page_log s) (copies s) (packets s)
    (finished s) (regs s).
Definition set_pidx_cmpt (v : Z) (s : c2h_descq) : c2h_descq :=
  mk_c2h (conf s) (q_state s) (q_stop_wait s) (err s) (color s) (avail s) (pidx s) (cidx_cmpt s) v
    (cmpt_entry_len s) (desc_cmpt_cur s) (cmpt_cidx_info s) (pidx_info s) (pend_list_empty s) (cntr s)
    (pend_list s) (total_cmpl_descs s) (total_st_c2h_pkts s) (flq s) (page_log s) (copies s) (packets s)
    (finished s) (regs s).
Definition set_cmpt_entry_len (v : Z) (s : c2h_descq) : c2h_descq :=
  mk_c2h (conf s) (q_state s) (q_stop_wait s) (err s) (color s) (avail s) (pidx s) (cidx_cmpt s)
    (pidx_cmpt s) v (desc_cmpt_cur s) (cmpt_cidx_info s) (pidx_info s) (pend_list_empty s) (cntr s)
    (pend_list s) (total_cmpl_descs s) (total_st_c2h_pkts s) (flq s) (page_log s) (copies s) (packets s)
    (finished s) (regs s).
Definition set_desc_cmpt_cur (v : Z) (s : c2h_descq) : c2h_descq :=
  mk_c2h (conf s) (q_state s) (q_stop_wait s) (err s) (color s) (avail s) (pidx s) (cidx_cmpt s)
    (pidx_cmpt s) (cmpt_entry_len s) v (cmpt_cidx_info s) (pidx_info s) (pend_list_empty s) (cntr s)
    (pend_list s) (total_cmpl_descs s) (total_st_c2h_pkts s) (flq s) (page_log s) (copies s) (packets s)
    (finished s) (regs s).
Definition set_cmpt_cidx_info (v : Z) (s : c2h_descq) : c2h_descq :=
  mk_c2h (conf s) (q_state s) (q_stop_wait s) (err s) (color s) (avail s) (pidx s) (cidx_cmpt s)
    (pidx_cmpt s) (cmpt_entry_len s) (desc_cmpt_cur s) v (pidx_info s) (pend_list_empty s) (cntr s)
    (pend_list s) (total_cmpl_descs s) (total_st_c2h_pkts s) (flq s) (page_log s) (copies s) (packets s)
    (finished s) (regs s).
Definition set_pidx_info (v : Z) (s : c2h_descq) : c2h_descq :=
  mk_c2h (conf s) (q_state s) (q_stop_wait s) (err s) (color s) (avail s) (pidx s) (cidx_cmpt s)
    (pidx_cmpt s) (cmpt_entry_len s) (desc_cmpt_cur s) (cmpt_cidx_info s) v (pend_list_empty s) (cntr s)
    (pend_list s) (total_cmpl_descs s) (total_st_c2h_pkts s) (flq s) (page_log s) (copies s) (packets s)
    (finished s) (regs s).
Definition set_pend_list_empty (v : bool) (s : c2h_descq) : c2h_descq :=
  mk_c2h (conf s) (q_state s) (q_stop_wait s) (err s) (color s) (avail s) (pidx s) (cidx_cmpt s)
    (pidx_cmpt s) (cmpt_entry_len s) (desc_cmpt_cur s) (cmpt_cidx_info s) (pidx_info s) v (cntr s)
    (pend_list s) (total_cmpl_descs s) (total_st_c2h_pkts s) (flq s) (page_log s) (copies s) (packets s)
    (finished s) (regs s).
Definition set_cntr (v : c2h_cntr) (s : c2h_descq) : c2h_descq :=
  mk_c2h (conf s) (q_state s) (q_stop_wait s) (err s) (color s) (avail s) (pidx s) (cidx_cmpt s)
    (pidx_cmpt s) (cmpt_entry_len s) (desc_cmpt_cur s) (cmpt_cidx_info s) (pidx_info s)
    (pend_list_empty s) v (pend_list s) (total_cmpl_descs s) (total_st_c2h_pkts s) (flq s) (page_log s)
    (copies s) (packets s) (finished s) (regs s).
Definition set_pend_list (v : list job) (s : c2h_descq) : c2h_descq :=
  mk_c2h (conf s) (q_state s) (q_stop_wait s) (err s) (color s) (avail s) (pidx s) (cidx_cmpt s)
    (pidx_cmpt s) (cmpt_entry_len s) (desc_cmpt_cur s) (cmpt_cidx_info s) (pidx_info s)
    (pend_list_empty s) (cntr s) v (total_cmpl_descs s) (total_st_c2h_pkts s) (flq s) (page_log s)
    (copies s) (packets s) (finished s) (regs s).
Definition set_total_cmpl_descs (v : Z) (s : c2h_descq) : c2h_descq :=
  mk_c2h (conf s) (q_state s) (q_stop_wait s) (err s) (color s) (avail s) (pidx s) (cidx_cmpt s)
    (pidx_cmpt s) (cmpt_entry_len s) (desc_cmpt_cur s) (cmpt_cidx_info s) (pidx_info s)
    (pend_list_empty s) (cntr s) (pend_list s) v (total_st_c2h_pkts s) (flq s) (page_log s) (copies s)
    (packets s) (finished s) (regs s).
Definition set_total_st_c2h_pkts (v : Z) (s : c2h_descq) : c2h_descq :=
  mk_c2h (conf s) (q_state s) (q_stop_wait s) (err s) (color s) (avail s) (pidx s) (cidx_cmpt s)
    (pidx_cmpt s) (cmpt_entry_len s) (desc_cmpt_cur s) (cmpt_cidx_info s) (pidx_info s)
    (pend_list_empty s) (cntr s) (pend_list s) (total_cmpl_descs s) v (flq s) (page_log s) (copies s)
    (packets s) (finished s) (regs s).
Definition set_flq (v : qdma_flq) (s : c2h_descq) : c2h_descq :=
  mk_c2h (conf s) (q_state s) (q_stop_wait s) (err s) (color s) (avail s) (pidx s) (cidx_cmpt s)
    (pidx_cmpt s) (cmpt_entry_len s) (desc_cmpt_cur s) (cmpt_cidx_info s) (pidx_info s)
    (pend_list_empty s) (cntr s) (pend_list s) (total_cmpl_descs s) (total_st_c2h_pkts s) v (page_log s)
    (copies s) (packets s) (finished s) (regs s).
Definition set_page_log (v : list page_event) (s : c2h_descq) : c2h_descq :=
  mk_c2h (conf s) (q_state s) (q_stop_wait s) (err s) (color s) (avail s) (pidx s) (cidx_cmpt s)
    (pidx_cmpt s) (cmpt_entry_len s) (desc_cmpt_cur s) (cmpt_cidx_info s) (pidx_info s)
    (pend_list_empty s) (cntr s) (pend_list s) (total_cmpl_descs s) (total_st_c2h_pkts s) (flq s) v
    (copies s) (packets s) (finished s) (regs s).
Definition set_copies (v : list copy) (s : c2h_descq) : c2h_descq :=
  mk_c2h (conf s) (q_state s) (q_stop_wait s) (err s) (color s) (avail s) (pidx s) (cidx_cmpt s)
    (pidx_cmpt s) (cmpt_entry_len s) (desc_cmpt_cur s) (cmpt_cidx_info s) (pidx_info s)
    (pend_list_empty s) (cntr s) (pend_list s) (total_cmpl_descs s) (total_st_c2h_pkts s) (flq s)
    (page_log s) v (packets s) (finished s) (regs s).
Definition set_packets (v : list packet) (s : c2h_descq) : c2h_descq :=
  mk_c2h (conf s) (q_state s) (q_stop_wait s) (err s) (color s) (avail s) (pidx s) (cidx_cmpt s)
    (pidx_cmpt s) (cmpt_entry_len s) (desc_cmpt_cur s) (cmpt_cidx_info s) (pidx_info s)
    (pend_list_empty s) (cntr s) (pend_list s) (total_cmpl_descs s) (total_st_c2h_pkts s) (flq s)
    (page_log s) (copies s) v (finished s) (regs s).
Definition set_finished (v : list job) (s : c2h_descq) : c2h_descq :=
  mk_c2h (conf s) (q_state s) (q_stop_wait s) (err s) (color s) (avail s) (pidx s) (cidx_cmpt s)
    (pidx_cmpt s) (cmpt_entry_len s) (desc_cmpt_cur s) (cmpt_cidx_info s) (pidx_info s)
    (pend_list_empty s) (cntr s) (pend_list s) (total_cmpl_descs s) (total_st_c2h_pkts s) (flq s)
    (page_log s) (copies s) (packets s) v (regs s).
Definition set_regs (v : trace) (s : c2h_descq) : c2h_descq :=
  mk_c2h (conf s) (q_state s) (q_stop_wait s) (err s) (color s) (avail s) (pidx s) (cidx_cmpt s)
    (pidx_cmpt s) (cmpt_entry_len s) (desc_cmpt_cur s) (cmpt_cidx_info s) (pidx_info s)
    (pend_list_empty s) (cntr s) (pend_list s) (total_cmpl_descs s) (total_st_c2h_pkts s) (flq s)
    (page_log s) (copies s) (packets s) (finished s) v.

#[export] Instance c2h_has_trace : HasTrace c2h_descq.
Proof. by refine {| trace_of := regs; with_trace := set_regs |}; intros []. Defined.

(** A completion entry, parsed; [entry] is where it is in the ring. *)
Record qdma_ul_cmpt_info := mk_cmpl {
  entry : Z; f_format : bool; f_color : bool; f_err : bool; f_desc_used : bool; f_eot : bool;
  cmpl_len : Z; cmpl_pidx : Z }.

Definition cmpl_zero : qdma_ul_cmpt_info := mk_cmpl 0 false false false false false 0 0.

(** The card and the kernel.  The first three are what a read of host memory finds: the
    producer index the card has written, and the first word of the completion entry at an
    offset.  [fp_proc_ul_cmpt_entry] is the parser of user logic, if there is one.
    [packet_handler] is what [fp_descq_c2h_packet] does to pages, and its result. *)
Class C2hEngine := {
  cs_pidx : c2h_descq -> Z;
  cmpt_word : c2h_descq -> Z -> Z;
  fp_proc_ul_cmpt_entry : option (c2h_descq -> Z -> Z * qdma_ul_cmpt_info);
  packet_handler : c2h_descq -> packet -> Z * list page_event;
  kzalloc_ok : c2h_descq -> Z -> bool;
  alloc_pages : c2h_descq -> Z -> Z;
  map_page : c2h_descq -> Z -> Z }.

(** ** Access to arrays *)

Definition on_flq (f : qdma_flq -> qdma_flq) (s : c2h_descq) : c2h_descq := set_flq (f (flq s)) s.

(** Element [i] of an array of the free list. *)
Definition at_flq {A} (get : qdma_flq -> list A) (i : Z) : M c2h_descq A :=
  deref (fun s => get (flq s) !! Z.to_nat i).

(** [flq->pg_sdesc + k], which is [NULL] if there is no pool and [k] is 0. *)
Definition page_ptr (k : Z) : M c2h_descq (option qdma_sw_pg_sg) := fun s =>
  match pg_sdesc (flq s) with
  | [] => if k =? 0 then Ret None s else Crash s
  | l => match l !! Z.to_nat k with Some p => Ret (Some p) s | None => Crash s end
  end.

Definition store_flq {A} (get : qdma_flq -> list A) (set : list A -> qdma_flq -> qdma_flq) (i : Z)
    (f : A -> A) : M c2h_descq unit :=
  a ← at_flq get i;
  modify (on_flq (fun q => set (<[Z.to_nat i := f a]> (get q)) q)).

Definition store_sdesc : Z -> (qdma_sw_sg -> qdma_sw_sg) -> M c2h_descq unit := store_flq sdesc set_sdesc.
Definition store_desc : Z -> (Z -> Z) -> M c2h_descq unit := store_flq flq_desc set_flq_desc.
Definition store_page : Z -> (qdma_sw_pg_sg -> qdma_sw_pg_sg) -> M c2h_descq unit :=
  store_flq pg_sdesc set_pg_sdesc.
Definition store_info : Z -> (qdma_sdesc_info -> qdma_sdesc_info) -> M c2h_descq unit :=
  store_flq sdesc_info set_sdesc_info.

Definition log_page (e : page_event) : M c2h_descq unit :=
  modify (fun s => set_page_log (e :: page_log s) s).

Definition set_sg_len (v : Z) (g : qdma_sw_sg) : qdma_sw_sg :=
  mk_sg (sg_pg g) (sg_offset_ g) v (sg_dma_addr g).
Definition set_pg_offset (v : Z) (p : qdma_sw_pg_sg) : qdma_sw_pg_sg :=
  mk_pg (pg_base p) (pg_dma_base_addr p) v.

(** [fls], and the next power of two.  Shifting by [fls(0) - 1] is undefined. *)
Definition fls (v : Z) : Z := if v =? 0 then 0 else Z.log2 v + 1.

Definition get_next_powof2 (value : Z) : option Z :=
  let num_bits := fls value - 1 in
  if num_bits <? 0 then None
  else
    let mask := u32 (Z.shiftl 1 num_bits - 1) in
    Some (u32 (Z.shiftl (Z.shiftr (u32 (value + mask)) num_bits) num_bits)).

Section c2h.
Context `{C2hEngine}.

(** ** Pages and buffers *)

Definition flq_free_one (i : Z) : M c2h_descq unit :=
  g ← at_flq sdesc i;
  (if sg_dma_addr g =? 0 then mret tt
   else store_desc i (fun _ => 0);; store_sdesc i (set_dma_addr 0));;
  if sg_pg g =? 0 then mret tt
  else store_sdesc i (fun g => mk_sg 0 0 (sg_len g) (sg_dma_addr g)).

(** Buffer [i] of the ring is the next one of the pool. *)
Definition flq_fill_one (i : Z) : M c2h_descq Z :=
  s ← gets id;
  let f := flq s in
  if num_pages f =? 0 then mret (- EINVAL)
  else
    let buf_sz := desc_buf_size f in
    let pg_idx := Z.land (alloc_idx f) (num_pgs_mask f) in
    if pg_idx >=? num_pages f then mret (- EINVAL)
    else
      p ← page_ptr pg_idx;
      match p with
      | None => mret (- EINVAL)
      | Some p =>
          if pg_base p =? 0 then mret (- EINVAL)
          else if u32 (pg_offset p + buf_sz) >? max_pg_offset f then mret (- ENOMEM)
          else
            let addr := u64 (pg_dma_base_addr p + pg_offset p) in
            let next := u32 (pg_offset p + buf_sz) in
            store_sdesc i (fun _ => mk_sg (pg_base p) (pg_offset p) (c2h_bufsz (conf s)) addr);;
            store_desc i (fun _ => addr);;
            log_page (PgRef (pg_base p));;
            store_page pg_idx (set_pg_offset next);;
            (if u32 (next + buf_sz) >? max_pg_offset f
             then modify (on_flq (set_alloc_idx (u32 (alloc_idx f + 1)))) else mret tt);;
            mret 0
      end.

Definition flq_unmap_page_one (k : Z) : M c2h_descq unit :=
  p ← page_ptr k;
  match p with
  | None => mret tt
  | Some p =>
      if pg_dma_base_addr p =? 0 then mret tt
      else
        log_page (PgUnmap (pg_dma_base_addr p));;
        store_page k (fun p => mk_pg (pg_base p) 0 (pg_offset p))
  end.

(** One reference for each buffer, and one of the page itself, are given up. *)
Definition flq_free_page_one (k : Z) : M c2h_descq unit :=
  p ← page_ptr k;
  match p with
  | None => mret tt
  | Some p =>
      if pg_base p =? 0 then mret tt
      else
        shift ← gets (fun s => desc_pg_shift (flq s));
        let page_count := u32 (Z.shiftr (pg_offset p) shift + 1) in
        flq_unmap_page_one k;;
        for_each (seq 0 (Z.to_nat page_count)) (fun _ => log_page (PgPut (pg_base p)));;
        store_page k (fun p => mk_pg 0 0 (pg_offset p))
  end.

Definition flq_zero : qdma_flq :=
  mk_flq 0 0 0 0 0 0 0 0 0 0 [] 0 0 0 0 0 0 [] [] [].

Definition descq_flq_free_page_resource : M c2h_descq unit :=
  n ← gets (fun s => num_pages (flq s));
  for_each (seqZ 0 n) flq_free_page_one;;
  modify (set_flq flq_zero).

Definition descq_flq_free_resource : M c2h_descq unit :=
  f ← gets flq;
  match sdesc f with
  | [] => mret tt
  | _ =>
      for_each (seqZ 0 (size f)) flq_free_one;;
      modify (on_flq (fun q => set_sdesc_info [] (set_sdesc [] q)))
  end.

Definition flq_fill_page_one (k : Z) : M c2h_descq Z :=
  s ← gets id;
  let order := desc_pg_order (flq s) in
  let pg := u64 (alloc_pages s order) in
  if pg =? 0 then mret (- ENOMEM)
  else
    log_page (PgAlloc pg order);;
    s ← gets id;
    let mapping := u64 (map_page s pg) in
    if mapping =? DMA_MAPPING_ERROR then log_page (PgFree pg);; mret (- EINVAL)
    else
      log_page (PgMap pg mapping);;
      store_page k (fun _ => mk_pg pg mapping 0);;
      mret 0.

(** A loop that ends with the first error. *)
Fixpoint all_or_error (f : Z -> M c2h_descq Z) (l : list Z) : M c2h_descq Z :=
  match l with
  | [] => mret 0
  | k :: l' => rv ← f k; if rv <? 0 then mret rv else all_or_error f l'
  end.

(** The number of pages of a pool for [size] buffers. *)
Definition pool_pages (size num_bufs_per_pg : Z) : option Z :=
  n ← get_next_powof2 (size / num_bufs_per_pg + (if size mod num_bufs_per_pg =? 0 then 0 else 1));
  Some (if n <? size then u32 (Z.shiftl n 1) else n).

(** [sizeof] of an element of the pool, and of a buffer with its information. *)
Definition sizeof_pg_sg : Z := 24.
Definition sizeof_sdesc : Z := 32 + 16.

Definition descq_flq_alloc_resource : M c2h_descq Z :=
  f ← gets flq;
  let per_pg := u32 (Z.shiftr (max_pg_offset f) (desc_pg_shift f)) in
  modify (on_flq (set_num_bufs_per_pg per_pg));;
  if per_pg =? 0 then mret (- EINVAL)
  else
    n ← deref (fun _ => pool_pages (size f) per_pg);
    modify (on_flq (fun q => set_num_pgs_mask (u32 (n - 1)) (set_num_pages n q)));;
    s ← gets id;
    if negb (kzalloc_ok s (n * sizeof_pg_sg)) then mret (- ENOMEM)
    else
      modify (on_flq (set_pg_sdesc (replicate (Z.to_nat n) (mk_pg 0 0 0))));;
      rv ← all_or_error flq_fill_page_one (seqZ 0 n);
      if rv <? 0 then descq_flq_free_page_resource;; mret rv
      else
        s ← gets id;
        if negb (kzalloc_ok s (size f * sizeof_sdesc)) then descq_flq_free_page_resource;; mret (- ENOMEM)
        else
          modify (on_flq (fun q => set_alloc_idx 0
            (set_sdesc_info (replicate (Z.to_nat (size f)) info_zero)
               (set_sdesc (replicate (Z.to_nat (size f)) (mk_sg 0 0 0 0)) q))));;
          rv ← all_or_error flq_fill_one (seqZ 0 (size f));
          if rv <? 0 then descq_flq_free_resource;; descq_flq_free_page_resource;; mret rv
          else mret 0.

(** The part of [qdma_descq_alloc_resource] that prepares the free list of a queue with the
    ring [ring], and its error path ([qdma_descq_free_resource]).  [PAGE_SHIFT] is 12.  The
    members [buf_pg_shift] and [buf_pg_mask] are not used. *)
Definition c2h_alloc_resource (ring : list Z) : M c2h_descq Z :=
  c ← gets conf;
  buf_size ← deref (fun _ => get_next_powof2 (c2h_bufsz c));
  let shift := u8 (fls buf_size - 1) in
  let order := if shift <? 12 then 0 else u8 (shift - 12) in
  modify (on_flq (fun q => set_flq_desc ring (set_size (rngsz c) (set_desc_buf_size buf_size
    (set_desc_pg_shift shift (set_desc_pg_order order
       (set_max_pg_offset (u32 (Z.shiftl PAGE_SIZE order)) q)))))));;
  rv ← descq_flq_alloc_resource;
  if rv <? 0 then descq_flq_free_resource;; descq_flq_free_page_resource;; mret (- ENOMEM)
  else mret 0.

(** ** Refilling the ring *)

(** One turn of the first loop gives back the buffers of a page, and its inner loop one
    buffer. *)
Definition release_one (k pg : Z) (put : bool) : M c2h_descq unit :=
  size ← gets (fun s => desc_buf_size (flq s));
  store_page k (fun p => set_pg_offset (u32 (pg_offset p - size)) p);;
  if put then log_page (PgPut pg) else mret tt.

Fixpoint release_loop (fuel : nat) (count i n_recycle_index : Z) (put : bool) :
    M c2h_descq (option Z) :=
  match fuel with
  | O => hang
  | S fuel' =>
      if i <? count then
        f ← gets flq;
        let k := Z.land n_recycle_index (num_pgs_mask f) in
        p ← page_ptr k;
        match p with
        | None => mret None
        | Some p =>
            let free_bufs_in_pg := Z.min (Z.shiftr (pg_offset p) (desc_pg_shift f)) (u32 (count - i)) in
            for_each (seq 0 (Z.to_nat free_bufs_in_pg)) (fun _ => release_one k (pg_base p) put);;
            p ← at_flq pg_sdesc k;
            release_loop fuel' count (u32 (i + free_bufs_in_pg))
              (if pg_offset p =? 0 then u32 (n_recycle_index + 1) else n_recycle_index) put
        end
      else mret (Some n_recycle_index)
  end.

(** The second loop replaces the pages that have been given back completely. *)
Fixpoint replace_loop (fuel : nat) : M c2h_descq Z :=
  match fuel with
  | O => hang
  | S fuel' =>
      f ← gets flq;
      let k := Z.land (recycle_idx f) (num_pgs_mask f) in
      p ← page_ptr k;
      match p with
      | None => mret (- EINVAL)
      | Some p =>
          if negb (pg_offset p =? 0) || (recycle_idx f =? alloc_idx f) then mret 0
          else
            flq_unmap_page_one k;;
            log_page (PgPut (pg_base p));;
            rv ← flq_fill_page_one k;
            if rv <? 0 then mret 0
            else modify (on_flq (set_recycle_idx (u32 (recycle_idx f + 1))));; replace_loop fuel'
      end
  end.

Definition flq_refill_pages (fuel : nat) (count : Z) (recycle : bool) : M c2h_descq Z :=
  s ← gets id;
  n ← release_loop fuel count 0 (recycle_idx (flq s)) (negb recycle && negb (c2h_packet (conf s)));
  match n with
  | None => mret (- EINVAL)
  | Some n => if recycle then modify (on_flq (set_recycle_idx n));; mret 0 else replace_loop fuel
  end.

(** The loop of [qdma_flq_refill] with [n] turns left, and its index [i] at the end. *)
Fixpoint refill_loop (n : nat) (recycle : bool) (idx i : Z) : M c2h_descq Z :=
  match n with
  | O => mret i
  | S n' =>
      s ← gets id;
      let idx := if idx =? size (flq s) then 0 else idx in
      ok ← (if recycle then store_sdesc idx (set_sg_len (c2h_bufsz (conf s)));; mret true
            else
              flq_free_one idx;;
              rv ← flq_fill_one idx;
              if rv <? 0 then
                modify (on_flq (fun f => if rv =? - ENOMEM then set_alloc_fail (u64 (alloc_fail f + 1)) f
                                         else set_mapping_err (u64 (mapping_err f + 1)) f));;
                mret false
              else mret true);
      if ok : bool then
        store_info idx (fun d => mk_info false false false (info_cidx d));;
        modify (fun s => set_avail (u32 (avail s + 1)) s);;
        refill_loop n' recycle (idx + 1) (i + 1)
      else mret i
  end.

Definition qdma_flq_refill (fuel : nat) (idx count : Z) (recycle : bool) : M c2h_descq Z :=
  (if recycle then mret tt else _ ← flq_refill_pages fuel count recycle; mret tt);;
  i ← refill_loop (Z.to_nat count) recycle idx 0;
  modify (fun s => match pend_list s with [] => set_pend_list_empty true s | _ => s end);;
  mret i.

(** ** Doorbells *)

Definition queue_pidx_update : M c2h_descq Z := fun s =>
  let c := conf s in
  if hw_hard c then
    qdma_s80_hard_queue_pidx_update (is_vf c) (u16 (qidx c)) (u8 Q_C2H) (Some (pidx_info s)) s
  else qdma_queue_pidx_update (is_vf c) (u16 (qidx c)) (u8 Q_C2H) (Some (pidx_info s)) s.

Definition queue_cmpt_cidx_update : M c2h_descq Z := fun s =>
  let c := conf s in
  if hw_hard c then
    qdma_s80_hard_queue_cmpt_cidx_update (is_vf c) (u16 (qidx c)) (Some (cmpt_cidx_info s)) s
  else qdma_queue_cmpt_cidx_update (is_vf c) (u16 (qidx c)) (Some (cmpt_cidx_info s)) s.

Definition put_cmpt (f : cfield) (v : Z) : M c2h_descq unit :=
  modify (fun s => set_cmpt_cidx_info (put f v (cmpt_cidx_info s)) s).
Definition put_pidx (v : Z) : M c2h_descq unit :=
  modify (fun s => set_pidx_info (put pidx_info.pidx v (C2h.pidx_info s)) s).

(** ** Reading *)

Definition incr_cmpl_desc_cnt (cnt : Z) : M c2h_descq unit :=
  modify (fun s => set_total_st_c2h_pkts (u64 (total_st_c2h_pkts s + cnt))
                     (set_total_cmpl_descs (u64 (total_cmpl_descs s + cnt)) s)).

(** Where the loops of [descq_st_c2h_read] are: [tsg], [j] and [tsgoff], how much they
    have copied in all and ([foff]) from the present buffer, and the copies. *)
Record reading := mk_rd {
  rd_tsg : list qdma_sw_sg; rd_j : Z; rd_tsgoff : Z; rd_copied : Z; rd_foff : Z; rd_log : list copy }.

(** [while (flen && tsg)], on the buffer [fsg]. *)
Fixpoint copy_buffer (fuel : nat) (no_memcpy : bool) (fsg : qdma_sw_sg) (flen : Z) (r : reading) :
    option reading :=
  match fuel with
  | O => None
  | S fuel' =>
      match rd_tsg r with
      | [] => Some r
      | tsg :: rest =>
          if flen =? 0 then Some r
          else
            let toff := u32 (sg_offset_ tsg + rd_tsgoff r) in
            let n := Z.min flen (u32 (sg_len tsg - rd_tsgoff r)) in
            let c := mk_copy (sg_pg tsg) toff (sg_pg fsg) (sg_offset_ fsg + rd_foff r) n in
            let tsgoff := u32 (rd_tsgoff r + n) in
            let next := tsgoff =? sg_len tsg in
            copy_buffer fuel' no_memcpy fsg (u32 (flen - n))
              (mk_rd (if next then rest else tsg :: rest) (if next then u32 (rd_j r + 1) else rd_j r)
                 (if next then 0 else tsgoff) (u32 (rd_copied r + n)) (u32 (rd_foff r + n))
                 (if no_memcpy then rd_log r else c :: rd_log r))
      end
  end.

(** [while (i < fsgcnt && tsg)]: the number of buffers done, the present one, and the rest. *)
Fixpoint copy_ring (fuel : nat) (no_memcpy : bool) (bufs : list qdma_sw_sg) (fsgcnt i fi : Z)
    (r : reading) : option (Z * Z * reading) :=
  match fuel with
  | O => None
  | S fuel' =>
      if (i <? fsgcnt) && negb (bool_decide (rd_tsg r = [])) then
        fsg ← bufs !! Z.to_nat fi;
        r ← copy_buffer (2 + length (rd_tsg r)) no_memcpy fsg (sg_len fsg)
              (mk_rd (rd_tsg r) (rd_j r) (rd_tsgoff r) (rd_copied r) 0 (rd_log r));
        if rd_foff r =? sg_len fsg then
          copy_ring fuel' no_memcpy bufs fsgcnt (i + 1) ((fi + 1) mod Z.of_nat (length bufs))
            (mk_rd (rd_tsg r) (rd_j r) (rd_tsgoff r) (rd_copied r) 0 (rd_log r))
        else copy_ring fuel' no_memcpy bufs fsgcnt i fi r
      else Some (i, fi, r)
  end.

(** How much was copied, or an error, and the request afterwards. *)
Definition descq_st_c2h_read (fuel : nat) (j : job) (update_pidx refill : bool) :
    M c2h_descq (Z * job) :=
  s ← gets id;
  let f := flq s in
  let c := cb j in
  let fsgcnt := ring_idx_delta (pidx s) (pidx_pend f) (size f) in
  if fsgcnt =? 0 then mret (0, j)
  else
    let tsg := drop (Z.to_nat (sg_idx c)) (sgl (req j)) in
    if negb (sg_idx c =? 0) && bool_decide (tsg = []) then mret (- EINVAL, j)
    else
      '(i, fi, r) ← deref (fun _ =>
        copy_ring (2 + Z.to_nat fsgcnt) (no_memcpy j) (sdesc f) fsgcnt 0 (pidx_pend f)
          (mk_rd tsg (sg_idx c) (sg_offset c) 0 0 []));
      modify (fun s => set_copies (rd_log r ++ copies s) s);;
      incr_cmpl_desc_cnt i;;
      (if refill && negb (i =? 0) then _ ← qdma_flq_refill fuel (pidx_pend f) i true; mret tt
       else mret tt);;
      let pend := ring_idx_incr (pidx_pend f) i (size f) in
      modify (on_flq (set_pidx_pend pend));;
      (if rd_foff r =? 0 then mret tt
       else store_sdesc fi (fun g => mk_sg (sg_pg g) (u32 (sg_offset_ g + rd_foff r))
                                       (u32 (sg_len g - rd_foff r)) (sg_dma_addr g)));;
      rv ← (if negb (i =? 0) && update_pidx then
              put_pidx (ring_idx_decr pend 1 (size f));; queue_pidx_update
            else mret 0);
      if rv <? 0 then mret (- EINVAL, j)
      else
        modify (on_flq (fun q => set_pkt_dlen (u32 (pkt_dlen q - rd_copied r)) q));;
        mret (i32 (rd_copied r),
              set_cb (mk_cb (rd_j r) (rd_tsgoff r) (u32 (left c - rd_copied r)) (offset c) (status c)
                        (done_ c) (unmap_needed c)) j).

(** The first request of [pend_list] is done.  Its list was not mapped.  [pend_list_empty]
    asks whether all buffers are in use. *)
Definition qdma_sgt_req_done (j : job) (error : Z) : M c2h_descq unit :=
  modify (fun s => set_pend_list (tail (pend_list s)) s);;
  let c := cb j in
  modify (fun s => set_finished
    (set_cb (mk_cb (sg_idx c) (sg_offset c) (left c) (offset c) error true false) j :: finished s) s);;
  modify (fun s => set_pend_list_empty (if c2h_packet (conf s) then true else avail s =? 0) s).

(** The loop of [qdma_c2h_packets_proc_dflt], which takes requests off the list it goes over. *)
Fixpoint proc_pending (fuel : nat) (l : list job) : M c2h_descq unit :=
  match l with
  | [] => mret tt
  | j :: l' =>
      if left (cb j) =? 0 then qdma_sgt_req_done j 0
      else
        '(rv, j) ← descq_st_c2h_read fuel j false false;
        modify (fun s => set_pend_list (j :: tail (pend_list s)) s);;
        if rv <? 0 then qdma_sgt_req_done j rv;; proc_pending fuel l'
        else if left (cb j) =? 0 then qdma_sgt_req_done j 0;; proc_pending fuel l'
        else mret tt
  end.

Definition qdma_c2h_packets_proc_dflt (fuel : nat) : M c2h_descq Z :=
  l ← gets pend_list;
  proc_pending fuel l;;
  mret 0.

(** ** The completion ring *)

Definition cmpt_next : M c2h_descq unit :=
  modify (fun s => set_desc_cmpt_cur (desc_cmpt_cur s + cmpt_entry_len s) s);;
  modify (fun s => set_cidx_cmpt (u32 (cidx_cmpt s + 1)) s);;
  s ← gets id;
  if cidx_cmpt s =? rngsz_cmpt (conf s) then
    modify (fun s => set_desc_cmpt_cur 0 (set_color (Z.lxor (color s) 1) (set_cidx_cmpt 0 s)))
  else mret tt.

Definition is_new_cmpl_entry (s : c2h_descq) (cmpl : qdma_ul_cmpt_info) : bool :=
  Z.b2z (f_color cmpl) =? color s.

Definition S_C2H_CMPT_ENTRY_F_FORMAT : Z := 0.
Definition S_C2H_CMPT_ENTRY_F_COLOR : Z := 1.
Definition S_C2H_CMPT_ENTRY_F_ERR : Z := 2.
Definition S_C2H_CMPT_ENTRY_F_DESC_USED : Z := 3.
Definition S_C2H_CMPT_ENTRY_LENGTH : Z := 4.
Definition M_C2H_CMPT_ENTRY_LENGTH : Z := 0xFFFF.
Definition S_C2H_CMPT_ENTRY_F_EOT : Z := 20.

(** The flag at a bit: [(cmpt[0] & (1 << bit)) ? 1 : 0] *)
Definition entry_flag (w bit : Z) : bool := negb (Z.land w (Z.shiftl 1 bit) =? 0).

Definition parse_word (cur w : Z) : qdma_ul_cmpt_info :=
  let format := entry_flag w S_C2H_CMPT_ENTRY_F_FORMAT in
  let desc_used := entry_flag w S_C2H_CMPT_ENTRY_F_DESC_USED in
  mk_cmpl cur format (entry_flag w S_C2H_CMPT_ENTRY_F_COLOR) (entry_flag w S_C2H_CMPT_ENTRY_F_ERR)
    desc_used (entry_flag w S_C2H_CMPT_ENTRY_F_EOT)
    (if negb format && desc_used
     then Z.land (Z.shiftr w S_C2H_CMPT_ENTRY_LENGTH) M_C2H_CMPT_ENTRY_LENGTH else 0) 0.

Definition parse_cmpl_entry : M c2h_descq (Z * qdma_ul_cmpt_info) :=
  s ← gets id;
  mret (0, parse_word (desc_cmpt_cur s) (u64 (cmpt_word s (desc_cmpt_cur s)))).

(** [while (l_len >= c2h_bufsz)]: the number of buffers and what is left. *)
Fixpoint fl_loop (fuel : nat) (bufsz n l_len : Z) : option (Z * Z) :=
  match fuel with
  | O => None
  | S fuel' =>
      if l_len >=? bufsz then fl_loop fuel' bufsz (n + 1) (u32 (l_len - bufsz)) else Some (n, l_len)
  end.

(** The number of buffers a packet takes and the length of its last one.  Without an end
    of the loop there is none. *)
Definition get_fl_nr (len c2h_bufsz pg_shift pg_mask : Z) : option (Z * Z) :=
  if Z.land len (u32 (len - 1)) =? 0 then
    let l_fl_nr := if len =? 0 then 1 else Z.shiftr (u32 (len + pg_mask)) pg_shift in
    let l_len := Z.land len pg_mask in
    Some (l_fl_nr, if l_len =? 0 then c2h_bufsz else l_len)
  else if len <=? c2h_bufsz then Some (1, len)
  else
    '(n, l_len) ← fl_loop (S (Z.to_nat len)) c2h_bufsz 0 len;
    Some (if l_len =? 0 then (n, c2h_bufsz) else (n + 1, l_len)).

(** The loop over the buffers of a packet. *)
Definition mark_info (first fl_nr cidx_next : Z) : M c2h_descq unit :=
  f ← gets flq;
  for_each (seqZ 0 fl_nr) (fun k =>
    store_info ((first + k) mod size f) (fun d => mk_info true (sop d) (eop d) cidx_next)).

(** A packet of [len] bytes has arrived; the result and where the next packet begins. *)
Definition rcv_pkt (cmpl : qdma_ul_cmpt_info) (len : Z) : M c2h_descq (Z * Z) :=
  s ← gets id;
  let f := flq s in
  let pidx := cmpl_pidx cmpl in
  let pg_mask := u32 (Z.shiftl 1 (desc_pg_shift f) - 1) in
  match get_fl_nr len (c2h_bufsz (conf s)) (desc_pg_shift f) pg_mask with
  | None => hang
  | Some (fl_nr, l_len) =>
      let last := ring_idx_incr pidx (u32 (fl_nr - 1)) (rngsz (conf s)) in
      let next := ring_idx_incr last 1 (rngsz (conf s)) in
      let cidx_next := ring_idx_incr (cidx_cmpt s) 1 (rngsz_cmpt (conf s)) in
      store_sdesc last (set_sg_len (if len =? 0 then 0 else l_len));;
      if avail s <? fl_nr then mret (- EBUSY, pidx)
      else
        modify (fun s => set_avail (u32 (avail s - fl_nr)) s);;
        if c2h_packet (conf s) then
          s ← gets id;
          let p := mk_packet len fl_nr (Some pidx) (if cmpl_udd_en (conf s) then Some (entry cmpl) else None) in
          let '(rv, ev) := packet_handler s p in
          modify (fun s => set_page_log (rev ev ++ page_log s) (set_packets (p :: packets s) s));;
          if rv <? 0 then mret (rv, pidx)
          else modify (on_flq (set_pidx_pend next));; mret (0, next)
        else
          mark_info pidx fl_nr cidx_next;;
          store_info pidx (fun d => mk_info (valid d) true (eop d) (info_cidx d));;
          store_info last (fun d => mk_info (valid d) (sop d) true (info_cidx d));;
          modify (on_flq (fun q => set_pkt_dlen (u32 (pkt_dlen q + len)) q));;
          (if cmpl_udd_en (conf s) then modify (on_flq (fun q => set_udd_cnt (u32 (udd_cnt q + 1)) q))
           else mret tt);;
          mret (0, next)
  end.

(** An entry with user data only. *)
Definition rcv_udd_only (cmpl : qdma_ul_cmpt_info) : M c2h_descq Z :=
  s ← gets id;
  if c2h_packet (conf s) then
    let p := mk_packet 0 0 None (Some (entry cmpl)) in
    let '(rv, ev) := packet_handler s p in
    modify (fun s => set_page_log (rev ev ++ page_log s) (set_packets (p :: packets s) s));;
    mret rv
  else modify (on_flq (fun q => set_udd_cnt (u32 (udd_cnt q + 1)) q));; mret 0.

(** ** The adaptive counter threshold *)

Definition on_cntr (f : c2h_cntr -> c2h_cntr) (s : c2h_descq) : c2h_descq := set_cntr (f (cntr s)) s.

(** The thresholds in ascending order: entry [k] of [xdev->sorted_c2h_cntr_idx], and the
    threshold with an index. *)
Definition sorted_idx (k : Z) : M c2h_descq Z := deref (fun s => dev_sorted_idx (conf s) !! Z.to_nat k).
Definition cnt_th (i : Z) : M c2h_descq Z := deref (fun s => c2h_cnt_th (conf s) !! Z.to_nat i).

Definition QDMA_CSR_LAST : Z := Z.of_nat QDMA_GLOBAL_CSR_ARRAY_SZ - 1.

Definition descq_adjust_c2h_cntr_avgs : M c2h_descq unit :=
  s ← gets id;
  let lat := latency_optimize (conf s) in
  let k := sorted_c2h_cntr_idx (cntr s) in
  avg ← cnt_th (fld cmpt_cidx_info.counter_idx (cmpt_cidx_info s));
  i ← sorted_idx (if k =? QDMA_CSR_LAST then k else k + 1);
  hi ← cnt_th i;
  i ← sorted_idx (if k >? 0 then k - 1 else k);
  lo ← cnt_th i;
  modify (on_cntr (fun a =>
    mk_cntr (sorted_c2h_cntr_idx a) avg
      (Z.shiftr (u32 (if lat then hi + hi else avg + hi)) 1)
      (Z.shiftr (u32 (if lat then lo + lo else avg + lo)) 1) (c2h_cntr_monitor_cnt a))).

(** Going to position [k] of the sorted thresholds, which is threshold [idx]. *)
Definition move_cntr (k idx : Z) : M c2h_descq unit :=
  put_cmpt cmpt_cidx_info.counter_idx idx;;
  modify (on_cntr (set_sorted_c2h_cntr_idx k));;
  descq_adjust_c2h_cntr_avgs.

Definition descq_incr_c2h_cntr_th : M c2h_descq unit :=
  s ← gets id;
  let i := sorted_c2h_cntr_idx (cntr s) in
  if i =? QDMA_CSR_LAST then mret tt
  else
    modify (on_cntr (set_c2h_cntr_monitor_cnt 0));;
    c ← sorted_idx i;
    curr ← cnt_th c;
    idx ← sorted_idx (u8 (i + 1));
    new ← cnt_th idx;
    let '(curr, new, avg) := (u8 curr, u8 new, c2h_pend_pkt_moving_avg (cntr s)) in
    if (new >=? avg) && (u32 (new - avg) >=? u32 (avg - curr)) then mret tt
    else if new <? Z.shiftr (rngsz (conf s)) 1 then move_cntr (u8 (i + 1)) (u8 idx)
    else mret tt.

Definition descq_decr_c2h_cntr_th (budget : Z) : M c2h_descq unit :=
  s ← gets id;
  let i := sorted_c2h_cntr_idx (cntr s) in
  if i =? 0 then mret tt
  else
    modify (on_cntr (set_c2h_cntr_monitor_cnt 0));;
    c ← sorted_idx i;
    curr ← cnt_th c;
    idx ← sorted_idx (u8 (i - 1));
    new ← cnt_th idx;
    let '(curr, new, avg) := (u8 curr, u8 new, c2h_pend_pkt_moving_avg (cntr s)) in
    if (new <=? avg) && (u32 (avg - new) >=? u32 (curr - avg)) then mret tt
    else if negb (latency_optimize (conf s)) && (new <? u32 (budget - 2)) then mret tt
    else move_cntr (u8 (i - 1)) (u8 idx).

Definition MAX_C2H_CNTR_STAGNANT_CNT : Z := 16.

Definition descq_adjust_c2h_cntr_th (pend budget : Z) : M c2h_descq unit :=
  modify (on_cntr (fun a => set_c2h_pend_pkt_moving_avg
    (Z.shiftr (u32 (c2h_pend_pkt_moving_avg a + pend)) 1) a));;
  a ← gets cntr;
  let avg := c2h_pend_pkt_moving_avg a in
  if c2h_pend_pkt_avg_thr_hi a <=? avg then descq_incr_c2h_cntr_th
  else if c2h_pend_pkt_avg_thr_lo a >=? avg then descq_decr_c2h_cntr_th budget
  else
    modify (on_cntr (set_c2h_cntr_monitor_cnt (u8 (c2h_cntr_monitor_cnt a + 1))));;
    a ← gets cntr;
    if c2h_cntr_monitor_cnt a =? MAX_C2H_CNTR_STAGNANT_CNT then
      descq_decr_c2h_cntr_th budget;;
      modify (on_cntr (set_c2h_cntr_monitor_cnt 0))
    else mret tt.

(** ** Processing completions *)

Definition descq_cmpl_err_check (cmpl : qdma_ul_cmpt_info) : M c2h_descq Z :=
  c ← gets conf;
  if f_format cmpl || (negb (f_desc_used cmpl) && negb (cmpl_udd_en c)) || f_err cmpl
  then modify (set_err true);; mret (- EINVAL)
  else mret 0.

(** The entry that is next, parsed by user logic if the queue says so. *)
Definition next_entry : M c2h_descq (Z * qdma_ul_cmpt_info) :=
  s ← gets id;
  match fp_proc_ul_cmpt_entry with
  | Some parse => if desc_bypass (conf s) then mret (parse s (desc_cmpt_cur s)) else parse_cmpl_entry
  | None => parse_cmpl_entry
  end.

Definition at_pidx (p : Z) (c : qdma_ul_cmpt_info) : qdma_ul_cmpt_info :=
  mk_cmpl (entry c) (f_format c) (f_color c) (f_err c) (f_desc_used c) (f_eot c) (cmpl_len c) p.

(** What a packet or a piece of user data does: the result and where the next packet begins. *)
Definition rcv_entry (cmpl : qdma_ul_cmpt_info) : M c2h_descq (Z * Z) :=
  c ← gets conf;
  if f_desc_used cmpl then rcv_pkt cmpl (cmpl_len cmpl)
  else if cmpl_udd_en c then rv ← rcv_udd_only cmpl; mret (rv, cmpl_pidx cmpl)
  else mret (0, cmpl_pidx cmpl).

(** How the loop over the entries ends: an error that the function returns at once, or where
    the next packet begins and the number of entries that were taken. *)
Inductive walk := Halted (rv : Z) | Walked (pidx proc_cnt : Z).

(** [while (likely(proc_cnt < budget))] with [n] turns left. *)
Fixpoint cmpl_loop (n : nat) (pidx proc_cnt : Z) : M c2h_descq walk :=
  match n with
  | O => mret (Walked pidx proc_cnt)
  | S n' =>
      '(rv, cmpl) ← next_entry;
      if rv <? 0 then mret (Halted rv)
      else
        rv ← descq_cmpl_err_check cmpl;
        if rv <? 0 then mret (Halted rv)
        else
          s ← gets id;
          if negb (is_new_cmpl_entry s cmpl) then mret (Walked pidx proc_cnt)
          else
            '(rv, next) ← rcv_entry (at_pidx pidx cmpl);
            if rv <? 0 then mret (Walked pidx proc_cnt)
            else cmpt_next;; cmpl_loop n' next (proc_cnt + 1)
  end.

Definition TRIG_MODE_COMBO : Z := 5.

(** The entries that are not processed yet, as [flq->pkt_cnt]. *)
Definition count_pending : M c2h_descq Z :=
  s ← gets id;
  let pend := ring_idx_delta (u16 (cs_pidx s)) (cidx_cmpt s) (rngsz_cmpt (conf s)) in
  modify (on_flq (set_pkt_cnt pend));;
  mret pend.

(** The interrupt and the counter threshold are adapted to the traffic. *)
Definition moderate (read_weight proc_cnt : Z) : M c2h_descq unit :=
  s ← gets id;
  if intr_moderation (conf s) && (fld cmpt_cidx_info.trig_mode (cmpt_cidx_info s) =? TRIG_MODE_COMBO) then
    pend ← count_pending;
    put_cmpt cmpt_cidx_info.irq_en (if negb (read_weight =? 0) && (pend >? u32 read_weight) then 0 else 1);;
    if adaptive_rx (conf s) then descq_adjust_c2h_cntr_th (u32 (i32 pend + proc_cnt)) (u32 read_weight)
    else mret tt
  else mret tt.

(** The buffers that were consumed since [old] go back into the ring. *)
Definition give_back (fuel : nat) (old : Z) (upd_cmpl : bool) : M c2h_descq Z :=
  s ← gets id;
  let f := flq s in
  if pidx_pend f =? old then mret 0
  else
    let pend := ring_idx_delta (pidx_pend f) old (size f) in
    _ ← qdma_flq_refill fuel old pend (negb (c2h_packet (conf s)));
    if upd_cmpl && negb (q_stop_wait s) then
      put_pidx (ring_idx_decr (pidx_pend f) 1 (size f));;
      if c2h_packet (conf s) then mret 0
      else ret ← queue_pidx_update; mret (if ret <? 0 then - EINVAL else 0)
    else mret 0.

(** What is done when [proc_cnt] entries were taken. *)
Definition finish_walk (fuel : nat) (pidx_cmpt pidx old : Z) (upd_cmpl : bool) : M c2h_descq Z :=
  modify (fun s => set_pidx pidx (set_pidx_cmpt pidx_cmpt s));;
  s ← gets id;
  put_cmpt cmpt_cidx_info.wrb_cidx (cidx_cmpt s);;
  rv ← (if c2h_packet (conf s) then mret 0
        else
          rv ← queue_cmpt_cidx_update;
          if rv <? 0 then mret (- EINVAL) else qdma_c2h_packets_proc_dflt fuel);
  if rv <? 0 then mret rv
  else _ ← count_pending; give_back fuel old upd_cmpl.

Definition descq_process_completion_st_c2h (fuel : nat) (budget : Z) (upd_cmpl : bool) : M c2h_descq Z :=
  s ← gets id;
  if err s then mret (- EINVAL)
  else
    let pidx_cmpt := u16 (cs_pidx s) in
    let pend := i32 (ring_idx_delta pidx_cmpt (cidx_cmpt s) (rngsz_cmpt (conf s))) in
    if pend =? 0 then
      rv ← (if bool_decide (drv_mode (conf s) = POLL_MODE) then mret 0 else queue_cmpt_cidx_update);
      mret (if rv <? 0 then - EINVAL else - ENODATA)
    else
      modify (on_flq (set_pkt_cnt (u32 pend)));;
      let n := if (budget =? 0) || (budget >? pend) then pend else budget in
      w ← cmpl_loop (Z.to_nat n) (pidx s) 0;
      match w with
      | Halted rv => mret rv
      | Walked next proc_cnt =>
          modify (on_flq (fun q => set_pkt_cnt (u32 (pkt_cnt q - proc_cnt)) q));;
          moderate budget proc_cnt;;
          if proc_cnt =? 0 then mret 0
          else finish_walk fuel pidx_cmpt next (pidx_pend (flq s)) upd_cmpl
      end.

(** [qdma_descq_service_cmpl_update] for a queue that receives a stream. *)
Definition service_st_c2h (fuel : nat) (budget : Z) (c2h_upd_cmpl : bool) : M c2h_descq Z :=
  s ← gets id;
  if bool_decide (q_state s = Q_STATE_ONLINE) then descq_process_completion_st_c2h fuel budget c2h_upd_cmpl
  else mret (- EINVAL).

(** ** Requests *)

(** Functions on a queue that was found.  The three numbers of [qdma_queue_c2h_peek]. *)
Definition qdma_queue_c2h_peek : M c2h_descq (Z * Z * Z) :=
  f ← gets flq;
  mret (udd_cnt f, pkt_cnt f, pkt_dlen f).

Record qdma_cmpl_ctrl := mk_ctrl {
  cnt_th_idx : Z; timer_idx : Z; trigger_mode : Z; en_stat_desc : Z; cmpl_en_intr_ : Z }.

Definition set_ctrl (t : qdma_cmpl_ctrl) (c : c2h_conf) : c2h_conf :=
  set_cmpl_stat_en (en_stat_desc t) (set_cmpl_en_intr (cmpl_en_intr_ t)
    (set_cmpl_cnt_th_idx (cnt_th_idx t) (set_cmpl_timer_idx (timer_idx t)
       (set_cmpl_trig_mode (trigger_mode t) c)))).

Definition apply_ctrl (t : qdma_cmpl_ctrl) : M c2h_descq Z :=
  modify (fun s => set_conf (set_ctrl t (conf s)) s);;
  put_cmpt cmpt_cidx_info.trig_mode (trigger_mode t);;
  put_cmpt cmpt_cidx_info.timer_idx (timer_idx t);;
  put_cmpt cmpt_cidx_info.counter_idx (cnt_th_idx t);;
  put_cmpt cmpt_cidx_info.irq_en (cmpl_en_intr_ t);;
  put_cmpt cmpt_cidx_info.wrb_en (en_stat_desc t);;
  s ← gets id;
  put_cmpt cmpt_cidx_info.wrb_cidx (cidx_cmpt s);;
  queue_cmpt_cidx_update.

(** The result is an [int]. *)
Definition qdma_queue_packet_read (fuel : nat) (j : job) (cctrl : option qdma_cmpl_ctrl) : M c2h_descq Z :=
  rv ← (match cctrl with Some t => apply_ctrl t | None => mret 0 end);
  if rv <? 0 then mret (- EINVAL)
  else
    '(_, j) ← descq_st_c2h_read fuel (set_cb cb_zero j) true true;
    mret (i32 (u32 (count (req j) - left (cb j)))).

Definition is_job (k : nat) (j : job) : bool := Nat.eqb (jid j) k.
Definition find_job (k : nat) (l : list job) : option job := find (is_job k) l.

(** [list_del] of a request. *)
Definition unlink (k : nat) (s : c2h_descq) : c2h_descq :=
  set_pend_list (List.filter (fun j => negb (is_job k j)) (pend_list s)) s.

(** [others] is what the rest of the driver does while the caller sleeps.  Without a timeout
    the caller sleeps until the request is done. *)
Definition qdma_request_wait_for_cmpl (others : M c2h_descq unit) (r : qdma_request) : M c2h_descq Z :=
  others;;
  s ← gets id;
  match find_job (req_id r) (finished s) with
  | Some j => mret (if status (cb j) =? 0 then 0 else - EIO)
  | None =>
      if timeout_ms r =? 0 then hang
      else modify (unlink (req_id r));; mret (- EIO)
  end.

(** What is left of a request, which is where the last change of it is. *)
Definition left_of (k : nat) (s : c2h_descq) : Z :=
  match find_job k (finished s) with Some j => left (cb j) | None => 0 end.

(** [j] has been cleared by the caller; [cmplthp] wakes a thread, which is one of [others]. *)
Definition qdma_request_submit_st_c2h (fuel : nat) (others : M c2h_descq unit) (j : job) : M c2h_descq Z :=
  let r := req j in
  let j := set_cb (set_left (count r) (cb j)) j in
  s ← gets id;
  if q_stop_wait s then mret 0
  else if negb (bool_decide (q_state s = Q_STATE_ONLINE)) then mret (- EINVAL)
  else
    modify (fun s => set_pend_list (pend_list s ++ [j]) s);;
    '(_, j) ← descq_st_c2h_read fuel j true true;
    if left (cb j) =? 0 then modify (unlink (jid j));; mret (i64 (count r))
    else
      modify (fun s => set_pend_list_empty false
        (set_pend_list (map (fun x => if is_job (jid j) x then j else x) (pend_list s)) s));;
      if fp_done r then mret 0
      else
        rv ← qdma_request_wait_for_cmpl others r;
        if rv <? 0 then
          (if dma_mapped r then mret tt
           else for_each (sgl_unmap (sgl r)).2 (fun e =>
                  match e with DmaUnmap a => log_page (PgUnmap a) | _ => mret tt end));;
          mret rv
        else s ← gets id; mret (i64 (u32 (count r - left_of (req_id r) s))).

(** [qdma_request_submit] and [qdma_batch_request_submit] for such a queue; the latter
    reports a request that failed or is complete to its owner, with the arguments of
    [fp_done], which only the first request is known to have. *)
Definition qdma_request_submit (fuel : nat) (others : M c2h_descq unit) (j : job) : M c2h_descq Z :=
  if write (req j) then mret (- EINVAL)
  else qdma_request_submit_st_c2h fuel others (set_cb cb_zero j).

Fixpoint submit_all (fuel : nat) (others : M c2h_descq unit) (l : list job) :
    M c2h_descq (list (nat * Z * Z)) :=
  match l with
  | [] => mret []
  | j :: l' =>
      rv ← qdma_request_submit_st_c2h fuel others (set_cb cb_zero j);
      let rv := i32 rv in
      if (rv <? 0) || (u32 rv =? count (req j)) then
        if fp_done (req j) then rest ← submit_all fuel others l'; mret ((jid j, u32 rv, rv) :: rest)
        else crash
      else submit_all fuel others l'
  end.

Definition qdma_batch_request_submit (fuel : nat) (others : M c2h_descq unit) (l : list job) :
    M c2h_descq (Z * list (nat * Z * Z)) :=
  match l with
  | [] => crash
  | j0 :: _ =>
      if write (req j0) || negb (fp_done (req j0)) then mret (- EINVAL, [])
      else done ← submit_all fuel others l; mret (0, done)
  end.

(** ** Setting up *)

(** The search for a completion ring that is larger than the one asked for. *)
Definition better_fit (sizes : list Z) (v : Z) (best : option nat) (i : nat) : option nat :=
  let sz := nth i sizes 0 in
  if sz >? v then
    match best with
    | None => Some i
    | Some b => if sz <? nth b sizes 0 then Some i else best
    end
  else best.

Definition best_fit_idx (sizes : list Z) (v : Z) : option nat :=
  fold_left (better_fit sizes v) (seq 0 QDMA_GLOBAL_CSR_ARRAY_SZ) None.

(** [list[i]] of an array of the configuration. *)
Definition at_conf (get : c2h_conf -> list Z) (i : Z) : M c2h_descq Z :=
  deref (fun s => get (conf s) !! Z.to_nat i).

(** The place of threshold [idx] among the sorted ones, if it is there. *)
Fixpoint place_of (idx : Z) (l : list Z) (k : Z) : option Z :=
  match l with
  | [] => None
  | x :: l' => if x =? idx then Some k else place_of idx l' (k + 1)
  end.

Definition qdma_descq_config_complete : M c2h_descq Z :=
  c ← gets conf;
  n ← at_conf ring_sz (desc_rng_sz_idx c);
  v ← at_conf ring_sz (cmpl_rng_sz_idx c);
  let k := match best_fit_idx (ring_sz c) v with Some b => Z.of_nat b | None => cmpl_rng_sz_idx c end in
  m ← at_conf ring_sz k;
  b ← at_conf c2h_buf_sz (c2h_buf_sz_idx c);
  modify (fun s => set_conf (set_c2h_bufsz b (set_rngsz_cmpt (u32 (m - 1))
    (set_cmpl_rng_sz_idx k (set_rngsz (u32 (n - 1)) c)))) s);;
  put_cmpt cmpt_cidx_info.irq_en (cmpl_en_intr c);;
  put_cmpt cmpt_cidx_info.trig_mode (cmpl_trig_mode c);;
  put_cmpt cmpt_cidx_info.timer_idx (cmpl_timer_idx c);;
  put_cmpt cmpt_cidx_info.counter_idx (cmpl_cnt_th_idx c);;
  put_cmpt cmpt_cidx_info.wrb_en (cmpl_stat_en c);;
  modify (fun s =>
    set_cmpt_entry_len (Z.shiftl 8 (cmpl_desc_sz c)) (set_pidx_cmpt 0 (set_cidx_cmpt 0 (set_pidx 0
      (set_pend_list_empty true (set_avail (u32 (rngsz (conf s) - 1))
        (set_pidx_info (put pidx_info.irq_en 0 (C2h.pidx_info s)) s)))))));;
  avg ← cnt_th (cmpl_cnt_th_idx c);
  a ← gets cntr;
  let k := default (sorted_c2h_cntr_idx a)
             (place_of (cmpl_cnt_th_idx c) (take QDMA_GLOBAL_CSR_ARRAY_SZ (dev_sorted_idx c)) 0) in
  i ← sorted_idx (if k =? QDMA_CSR_LAST then k else k + 1);
  hi ← cnt_th i;
  i ← sorted_idx (if k =? 0 then 0 else k - 1);
  lo ← cnt_th i;
  modify (on_cntr (fun a =>
    mk_cntr k avg (Z.shiftr (u32 (avg + hi)) 1) (Z.shiftr (u32 (avg + lo)) 1) (c2h_cntr_monitor_cnt a)));;
  mret 0.

(** Telling the card where the rings begin. *)
Definition init_pointers : M c2h_descq Z :=
  put_cmpt cmpt_cidx_info.wrb_cidx 0;;
  rv ← queue_cmpt_cidx_update;
  if rv <? 0 then mret (- EINVAL)
  else
    s ← gets id;
    put_pidx (u32 (rngsz (conf s) - 1));;
    rv ← queue_pidx_update;
    mret (if rv <? 0 then - EINVAL else rv).

(** The part of [qdma_descq_prog_hw] after the contexts are set up. *)
Definition prog_pointers (rv : Z) : M c2h_descq Z :=
  s ← gets id;
  if init_pidx_dis (conf s) then mret rv else init_pointers.

Definition qdma_q_init_pointers : M c2h_descq Z :=
  s ← gets id;
  if init_pidx_dis (conf s) then
    rv ← init_pointers; mret (if rv <? 0 then rv else 0)
  else mret (- EINVAL).

Definition qdma_queue_update_pointers : M c2h_descq Z :=
  s ← gets id;
  if negb (bool_decide (q_state s = Q_STATE_ONLINE)) then mret (- ENODEV)
  else
    ret ← queue_cmpt_cidx_update;
    if ret <? 0 then mret (- EBUSY)
    else ret ← queue_pidx_update; mret (if ret <? 0 then - EBUSY else ret).
End c2h.

(** ** The order of the thresholds

    One round of [qdma_sort_c2h_cntr_th_values]: the last index with the smallest threshold that
    is at least [least_max], other than [ref_idx]; without one, [idx] and the value stay. *)
Definition candidate (th : list Z) (least_max : Z) (ref_idx : option nat) (i : nat) : bool :=
  negb (bool_decide (ref_idx = Some i)) && negb (nth i th 0 <? least_max).

Fixpoint sort_scan (th : list Z) (least_max : Z) (ref_idx : option nat) (l : list nat) (idx val : Z) : Z * Z :=
  match l with
  | [] => (idx, val)
  | i :: l' =>
      if candidate th least_max ref_idx i && (val >=? nth i th 0)
      then sort_scan th least_max ref_idx l' (Z.of_nat i) (u8 (nth i th 0))
      else sort_scan th least_max ref_idx l' idx val
  end.

(** The first loop of a round finds the first candidate, the second one goes on from it. *)
Fixpoint sort_first (th : list Z) (least_max : Z) (ref_idx : option nat) (l : list nat) (idx val : Z) : Z * Z :=
  match l with
  | [] => (idx, val)
  | i :: l' =>
      if candidate th least_max ref_idx i
      then sort_scan th least_max ref_idx l (Z.of_nat i) (u8 (nth i th 0))
      else sort_first th least_max ref_idx l' idx val
  end.

Fixpoint sort_rounds (n : nat) (th : list Z) (least_max : Z) (ref_idx : option nat) (j idx val : Z) : list Z :=
  match n with
  | O => []
  | S n' =>
      let '(idx, val) := sort_first th least_max ref_idx (seq 0 QDMA_GLOBAL_CSR_ARRAY_SZ) idx val in
      idx :: sort_rounds n' th val (Some (Z.to_nat idx)) (j + 1) (j + 1) val
  end.

Definition qdma_sort_c2h_cntr_th_values (th : list Z) : list Z :=
  sort_rounds QDMA_GLOBAL_CSR_ARRAY_SZ th 0 None 0 0 (u8 (nth 0 th 0)).
