(* ===== verification/C2hRead.v ===== *)
(** * C2hRead: what reading from a stream does

    The bytes that wait in the buffers of a queue are a stream, the places a request still has
    to fill are a list; [descq_st_c2h_read] fills the next places with the next bytes. *)

From S2P Require Import Prelude QdmaErrors Mmio CLayout Contexts Csr SoftCsr S80Csr.
From S2P Require Import Descq DescqInv C2h.
Local Open Scope Z_scope.

(** ** Bytes of pages *)

(** A byte is named by its page and its place there. *)
Definition range (pg a n : Z) : list (Z * Z) := pair pg <$> seqZ a n.

Definition sg_bytes (g : qdma_sw_sg) : list (Z * Z) := range (sg_pg g) (sg_offset_ g) (sg_len g).

Definition bytes_of (l : list qdma_sw_sg) : list (Z * Z) := mjoin (sg_bytes <$> l).

(** The pairs of bytes (to, from) of calls of [memcpy], the newest first. *)
Definition copy_pairs (c : copy) : list ((Z * Z) * (Z * Z)) :=
  zip (range (dst_pg c) (dst_off c) (copy_len c)) (range (src_pg c) (src_off c) (copy_len c)).

Definition pairs_of (l : list copy) : list ((Z * Z) * (Z * Z)) := mjoin (copy_pairs <$> rev l).

Lemma range_length pg a n : length (range pg a n) = Z.to_nat n.
Proof. unfold range. by rewrite length_fmap, length_seqZ. Qed.

Lemma range_split pg a n m :
  0 <= m <= n -> range pg a n = range pg a m ++ range pg (a + m) (n - m).
Proof.
  intros Hm. unfold range. rewrite <- fmap_app. f_equal.
  replace n with (m + (n - m)) at 1 by lia. apply seqZ_app; lia.
Qed.

Lemma range_drop pg a n m :
  0 <= m <= n -> drop (Z.to_nat m) (range pg a n) = range pg (a + m) (n - m).
Proof.
  intros Hm. rewrite (range_split _ _ n m) by done. apply drop_app_length'. by rewrite range_length.
Qed.

Lemma pairs_of_cons c l : pairs_of (c :: l) = pairs_of l ++ copy_pairs c.
Proof. unfold pairs_of. simpl. by rewrite fmap_app, join_app; simpl; rewrite app_nil_r. Qed.

Lemma bytes_of_cons g l : bytes_of (g :: l) = sg_bytes g ++ bytes_of l.
Proof. done. Qed.

Lemma zip_app_l {A B} (a a' : list A) (b b' : list B) :
  length a = length b -> zip (a ++ a') (b ++ b') = zip a b ++ zip a' b'.
Proof. intros H. by apply zip_with_app. Qed.

(** Pieces of memory the driver can address. *)
Definition sg_ok (g : qdma_sw_sg) : Prop :=
  0 <= sg_len g /\ 0 <= sg_offset_ g /\ is_u32 (sg_offset_ g + sg_len g).

(** ** One buffer *)

Section copy_buffer.
Context (L : list qdma_sw_sg).

(** What a reader of the list [L] still has to fill. *)
Definition todo (r : reading) : list (Z * Z) := drop (Z.to_nat (rd_tsgoff r)) (bytes_of (rd_tsg r)).

Definition rd_ok (r : reading) : Prop :=
  0 <= rd_j r <= Z.of_nat (length L) /\ rd_tsg r = drop (Z.to_nat (rd_j r)) L /\
  match rd_tsg r with [] => True | t :: _ => 0 <= rd_tsgoff r <= sg_len t end /\
  0 <= rd_copied r /\ rd_copied r + Z.of_nat (length (todo r)) < 2147483648 /\
  0 <= rd_foff r.

Context (HL : Forall sg_ok L) (Hn : Z.of_nat (length L) < 4294967296).

Lemma drop_cons_next {A} (l : list A) n x rest : drop n l = x :: rest -> rest = drop (S n) l /\ (n < length l)%nat.
Proof.
  intros H. assert (Hl : (n < length l)%nat).
  { destruct (decide (n < length l)%nat); [done|]. rewrite drop_ge in H by lia. done. }
  split; [|done]. replace (S n) with (n + 1)%nat by lia. rewrite <- drop_drop, H. done.
Qed.

(** What is left to fill begins with what is left of the present entry. *)
Lemma todo_head r t rest m :
  rd_tsg r = t :: rest -> sg_ok t -> 0 <= rd_tsgoff r -> 0 <= m -> rd_tsgoff r + m <= sg_len t ->
  todo r = range (sg_pg t) (sg_offset_ t + rd_tsgoff r) m ++
           (range (sg_pg t) (sg_offset_ t + rd_tsgoff r + m) (sg_len t - rd_tsgoff r - m) ++ bytes_of rest).
Proof.
  intros Ht (? & ? & ?) ? ? ?. unfold todo. rewrite Ht, bytes_of_cons.
  rewrite drop_app_le by (unfold sg_bytes; rewrite range_length; lia).
  unfold sg_bytes. rewrite range_drop by lia.
  rewrite (range_split _ _ (sg_len t - rd_tsgoff r) m) by lia. by rewrite app_assoc.
Qed.

(** The state after a turn of the loop that copies [n] bytes. *)
Definition turn (nm : bool) (fsg t : qdma_sw_sg) (rest : list qdma_sw_sg) (n : Z) (r : reading) : reading :=
  let c := mk_copy (sg_pg t) (u32 (sg_offset_ t + rd_tsgoff r)) (sg_pg fsg) (sg_offset_ fsg + rd_foff r) n in
  let next := u32 (rd_tsgoff r + n) =? sg_len t in
  mk_rd (if next then rest else t :: rest) (if next then u32 (rd_j r + 1) else rd_j r)
    (if next then 0 else u32 (rd_tsgoff r + n)) (u32 (rd_copied r + n)) (u32 (rd_foff r + n))
    (if nm then rd_log r else c :: rd_log r).

Lemma turn_ok nm fsg t rest n r :
  rd_ok r -> rd_tsg r = t :: rest -> 0 <= n -> rd_tsgoff r + n <= sg_len t ->
  is_u32 (rd_foff r + n) ->
  let r' := turn nm fsg t rest n r in
  let a := range (sg_pg t) (sg_offset_ t + rd_tsgoff r) n in
  rd_ok r' /\ todo r = a ++ todo r' /\ rd_copied r' = rd_copied r + n /\ rd_foff r' = rd_foff r + n /\
  pairs_of (rd_log r') = pairs_of (rd_log r) ++
    (if nm then [] else zip a (range (sg_pg fsg) (sg_offset_ fsg + rd_foff r) n)) /\
  (length (rd_tsg r') = length rest \/ (length (rd_tsg r') = S (length rest) /\ rd_tsgoff r + n < sg_len t)).
Proof.
  intros (Hj & Htsg & Hoff & Hc & Hb & Hfo) E Hn0 Hle Hfu r' a.
  assert (Hin : t ∈ L /\ rest = drop (S (Z.to_nat (rd_j r))) L /\ (Z.to_nat (rd_j r) < length L)%nat).
  { rewrite E in Htsg. symmetry in Htsg. destruct (drop_cons_next _ _ _ _ Htsg) as [H1 H2].
    split; [|done]. apply (list_elem_of_lookup_2 _ (Z.to_nat (rd_j r))).
    rewrite <- (Nat.add_0_r (Z.to_nat _)), <- lookup_drop, Htsg. done. }
  destruct Hin as (Hin & Hrest & Hlt).
  assert (Ht : sg_ok t) by (by apply (proj1 (Forall_forall _ _) HL)).
  rewrite E in Hoff. destruct Ht as (? & ? & Hu). unfold is_u32 in *.
  assert (Hto : u32 (rd_tsgoff r + n) = rd_tsgoff r + n) by (apply u32_small; unfold is_u32; lia).
  assert (HT : todo r = a ++ todo r').
  { rewrite (todo_head r t rest n) by (try done; try lia; by repeat split). f_equal.
    unfold r', turn, todo. rewrite Hto. destruct (Z.eqb_spec (rd_tsgoff r + n) (sg_len t)) as [Heq|Hne]; cbn -[bytes_of].
    - replace (sg_len t - rd_tsgoff r - n) with 0 by lia. done.
    - rewrite bytes_of_cons, drop_app_le by (unfold sg_bytes; rewrite range_length; lia).
      unfold sg_bytes. rewrite range_drop by lia. f_equal. f_equal; lia. }
  assert (Hlen : (length (todo r) = Z.to_nat n + length (todo r'))%nat).
  { rewrite HT, length_app. unfold a. by rewrite range_length. }
  assert (Hcp : rd_copied r' = rd_copied r + n).
  { unfold r', turn. cbn. apply u32_small. unfold is_u32. lia. }
  assert (Hff : rd_foff r' = rd_foff r + n) by (unfold r', turn; cbn; by apply u32_small).
  split; [|split; [done|split; [done|split; [done|split]]]].
  - assert (Hpos : (rd_tsg r', rd_j r', rd_tsgoff r') =
                   if rd_tsgoff r + n =? sg_len t then (rest, rd_j r + 1, 0) else (t :: rest, rd_j r, rd_tsgoff r + n)).
    { unfold r', turn. rewrite Hto. destruct (_ =? _); cbn; [|done].
      by rewrite u32_small by (unfold is_u32; lia). }
    unfold rd_ok. rewrite Hcp, Hff. clearbody r'.
    destruct (Z.eqb_spec (rd_tsgoff r + n) (sg_len t)) as [Heq|Hne]; injection Hpos as -> -> ->.
    + replace (Z.to_nat (rd_j r + 1)) with (S (Z.to_nat (rd_j r))) by lia.
      repeat split; try lia; try done. destruct rest as [|t' rest']; [done|].
      split; [lia|]. assert (Ht' : sg_ok t').
      { apply (proj1 (Forall_forall _ _) HL). apply (list_elem_of_lookup_2 _ (S (Z.to_nat (rd_j r)) + 0)).
        rewrite <- lookup_drop, <- Hrest. done. }
      destruct Ht'; lia.
    + rewrite E in Htsg. repeat split; try lia; done.
  - unfold r', turn. cbn [rd_log]. destruct nm; [by rewrite app_nil_r|].
    rewrite pairs_of_cons. f_equal. unfold copy_pairs. cbn. f_equal. f_equal.
    apply u32_small. unfold is_u32. lia.
  - unfold r', turn. cbn [rd_tsg]. rewrite Hto.
    destruct (Z.eqb_spec (rd_tsgoff r + n) (sg_len t)); [by left|right]. simpl. split; [done|lia].
Qed.

Lemma zip_nil_r {A B} (l : list A) : zip l ([] : list B) = [].
Proof. by destruct l. Qed.

Lemma copy_buffer_run fuel nm fsg (flen : Z) r :
  (length (rd_tsg r) + (if (flen =? 0)%Z then 1 else 2) <= fuel)%nat ->
  rd_ok r -> sg_ok fsg -> 0 <= flen -> rd_foff r + flen = sg_len fsg ->
  let src := range (sg_pg fsg) (sg_offset_ fsg + rd_foff r) flen in
  let k := Z.min flen (Z.of_nat (length (todo r))) in
  exists r', copy_buffer fuel nm fsg flen r = Some r' /\ rd_ok r' /\
    pairs_of (rd_log r') = pairs_of (rd_log r) ++ (if nm then [] else zip (todo r) src) /\
    todo r' = drop (Z.to_nat flen) (todo r) /\
    rd_copied r' = rd_copied r + k /\ rd_foff r' = rd_foff r + k /\
    (k < flen -> rd_tsg r' = []).
Proof.
  revert flen r. induction fuel as [|fuel IH]; intros flen r Hfuel Hr Hf Hflen Hsum src k.
  { destruct (flen =? 0); lia. }
  cbn [copy_buffer]. destruct (rd_tsg r) as [|t rest] eqn:E.
  { assert (HT : todo r = []) by (unfold todo; rewrite E; apply drop_nil).
    exists r. unfold k. rewrite HT, drop_nil. cbn [length zip_with]. split; [done|].
    replace (if nm then [] else []) with (@nil ((Z * Z) * (Z * Z))) by (by destruct nm).
    rewrite app_nil_r. repeat split; try apply Hr; try lia; done. }
  destruct (Z.eqb_spec flen 0) as [->|Hpos].
  { exists r. unfold k, src. split; [done|]. change (range _ _ 0) with (@nil (Z * Z)). rewrite zip_nil_r.
    replace (if nm then [] else []) with (@nil ((Z * Z) * (Z * Z))) by (by destruct nm).
    rewrite app_nil_r. repeat split; try apply Hr; try lia; done. }
  set (n := Z.min flen (u32 (sg_len t - rd_tsgoff r))).
  pose proof Hr as (Hj & Htsg & Hoff & _). rewrite E in Htsg, Hoff.
  assert (Hts : sg_ok t).
  { apply (proj1 (Forall_forall _ _) HL). apply (list_elem_of_lookup_2 _ (Z.to_nat (rd_j r) + 0)).
    rewrite <- lookup_drop, <- Htsg. done. }
  assert (Hn' : n = Z.min flen (sg_len t - rd_tsgoff r)).
  { unfold n. rewrite u32_small; [done|]. destruct Hts as (? & ? & ?). unfold is_u32 in *. lia. }
  assert (Hfo : 0 <= rd_foff r) by apply Hr.
  assert (Hfu : is_u32 (rd_foff r + n)) by (destruct Hf as (? & ? & ?); unfold is_u32 in *; lia).
  destruct (turn_ok nm fsg t rest n r) as (Hr1 & HT1 & Hc1 & Hf1 & Hp1 & Hl1); try done; [lia|lia|].
  change (exists r', copy_buffer fuel nm fsg (u32 (flen - n)) (turn nm fsg t rest n r) = Some r' /\ rd_ok r' /\
    pairs_of (rd_log r') = pairs_of (rd_log r) ++ (if nm then [] else zip (todo r) src) /\
    todo r' = drop (Z.to_nat flen) (todo r) /\
    rd_copied r' = rd_copied r + k /\ rd_foff r' = rd_foff r + k /\ (k < flen -> rd_tsg r' = [])).
  rewrite u32_small by (destruct Hf as (? & ? & ?); unfold is_u32 in *; lia).
  set (r1 := turn nm fsg t rest n r) in *.
  assert (Hlen : (length (todo r) = Z.to_nat n + length (todo r1))%nat).
  { rewrite HT1, length_app. by rewrite range_length. }
  destruct (IH (flen - n) r1) as (r' & Hrun & Hr' & Hp' & HT' & Hc' & Hf' & Hend); try done; [| |lia|].
  { simpl in Hfuel. destruct Hl1 as [->|[-> Hlt]]; [destruct (_ =? 0); lia|].
    replace (flen - n) with 0 by lia. simpl. lia. }
  { lia. }
  exists r'. split; [done|]. split; [done|]. repeat split.
  - rewrite Hp', Hp1, <- app_assoc. f_equal. destruct nm; [done|]. unfold src.
    rewrite (range_split _ _ flen n), HT1 by lia. rewrite zip_app_l by (by rewrite !range_length).
    f_equal. f_equal. f_equal. lia.
  - rewrite HT', HT1. rewrite drop_app_ge by (rewrite range_length; lia). rewrite range_length. f_equal. lia.
  - rewrite Hc', Hc1. unfold k. lia.
  - rewrite Hf', Hf1. unfold k. lia.
  - intros Hk. apply Hend. unfold k in Hk. lia.
Qed.
End copy_buffer.

(** ** The buffers of a queue *)

Definition sg_null : qdma_sw_sg := mk_sg 0 0 0 0.

(** [n] buffers of a ring, from [fi] on. *)
Fixpoint window (bufs : list qdma_sw_sg) (fi : Z) (n : nat) : list qdma_sw_sg :=
  match n with
  | O => []
  | S n' => nth (Z.to_nat fi) bufs sg_null :: window bufs ((fi + 1) mod Z.of_nat (length bufs)) n'
  end.

Lemma zip_short {A B} (l : list A) (k k' : list B) :
  (length l <= length k)%nat -> zip l (k ++ k') = zip l k.
Proof. revert k. induction l as [|x l IH]; intros [|y k] H; simpl in *; [done..|lia|f_equal; apply IH; lia]. Qed.

Lemma zip_drop {A B} (l : list A) (k k' : list B) :
  (length k <= length l)%nat -> zip l (k ++ k') = zip l k ++ zip (drop (length k) l) k'.
Proof.
  revert k. induction l as [|x l IH]; intros [|y k] H; simpl in *; try done; try lia.
  f_equal. apply IH. lia.
Qed.

Section copy_ring.
Context (L bufs : list qdma_sw_sg) (nm : bool).
Context (HL : Forall sg_ok L) (Hn : Z.of_nat (length L) < 4294967296) (Hb : Forall sg_ok bufs).

Definition in_ring (fi : Z) : Prop := 0 <= fi < Z.of_nat (length bufs).

Lemma in_ring_ok fi : in_ring fi -> sg_ok (nth (Z.to_nat fi) bufs sg_null) /\
  bufs !! Z.to_nat fi = Some (nth (Z.to_nat fi) bufs sg_null).
Proof.
  intros Hfi. assert (E : bufs !! Z.to_nat fi = Some (nth (Z.to_nat fi) bufs sg_null)).
  { apply nth_lookup_Some_2 || (apply list_lookup_lookup_total_lt || idtac).
    destruct (lookup_lt_is_Some_2 bufs (Z.to_nat fi)) as [x Hx]; [unfold in_ring in Hfi; lia|].
    by rewrite (nth_lookup_Some _ _ _ _ Hx). }
  split; [|done]. apply (proj1 (Forall_forall _ _) Hb). by eapply list_elem_of_lookup_2.
Qed.

Lemma in_ring_next fi : in_ring fi -> in_ring ((fi + 1) mod Z.of_nat (length bufs)).
Proof. unfold in_ring. intros H. apply Z.mod_pos_bound. lia. Qed.

Lemma copy_ring_run fuel fsgcnt i fi r n :
  (n + 2 <= fuel)%nat -> i + Z.of_nat n = fsgcnt -> in_ring fi -> rd_ok L r -> rd_foff r = 0 ->
  let src := bytes_of (window bufs fi n) in
  let k := Z.min (Z.of_nat (length src)) (Z.of_nat (length (todo r))) in
  exists d r',
    copy_ring fuel nm bufs fsgcnt i fi r = Some (i + Z.of_nat d, (fi + Z.of_nat d) mod Z.of_nat (length bufs), r') /\
    (d <= n)%nat /\ rd_ok L r' /\
    pairs_of (rd_log r') = pairs_of (rd_log r) ++ (if nm then [] else zip (todo r) src) /\
    todo r' = drop (length src) (todo r) /\ rd_copied r' = rd_copied r + k /\
    drop (Z.to_nat k) src =
      drop (Z.to_nat (rd_foff r')) (bytes_of (window bufs ((fi + Z.of_nat d) mod Z.of_nat (length bufs)) (n - d))) /\
    (rd_foff r' = 0 \/ (d < n)%nat /\
       rd_foff r' < sg_len (nth (Z.to_nat ((fi + Z.of_nat d) mod Z.of_nat (length bufs))) bufs sg_null)).
Proof.
  revert i fi r n. induction fuel as [|fuel IH]; intros i fi r n Hfuel Hi Hfi Hr H0 src k; [lia|].
  assert (Hmod : (fi + Z.of_nat 0) mod Z.of_nat (length bufs) = fi).
  { rewrite Z.add_0_r. apply Z.mod_small. done. }
  assert (Hstop : todo r = [] \/ n = O -> rd_tsg r = [] \/ n = O ->
    exists d r', Some (i, fi, r) = Some (i + Z.of_nat d, (fi + Z.of_nat d) mod Z.of_nat (length bufs), r') /\
    (d <= n)%nat /\ rd_ok L r' /\
    pairs_of (rd_log r') = pairs_of (rd_log r) ++ (if nm then [] else zip (todo r) src) /\
    todo r' = drop (length src) (todo r) /\ rd_copied r' = rd_copied r + k /\
    drop (Z.to_nat k) src =
      drop (Z.to_nat (rd_foff r')) (bytes_of (window bufs ((fi + Z.of_nat d) mod Z.of_nat (length bufs)) (n - d))) /\
    (rd_foff r' = 0 \/ (d < n)%nat /\
       rd_foff r' < sg_len (nth (Z.to_nat ((fi + Z.of_nat d) mod Z.of_nat (length bufs))) bufs sg_null))).
  { intros Hs _. exists O, r. rewrite Hmod, Nat.sub_0_r, H0, Z.add_0_r. fold src.
    assert (k = 0 /\ zip (todo r) src = [] /\ drop (length src) (todo r) = todo r) as (-> & -> & ->).
    { unfold k, src. destruct Hs as [->| ->].
      - rewrite drop_nil. simpl. split; [lia|done].
      - cbn [window]. change (bytes_of []) with (@nil (Z * Z)). rewrite zip_nil_r. simpl. split; [lia|done]. }
    replace (if nm then [] else []) with (@nil ((Z * Z) * (Z * Z))) by (by destruct nm).
    rewrite app_nil_r. repeat split; try done; try lia; try (by apply Hr). }
  cbn [copy_ring]. destruct n as [|m].
  { rewrite (proj2 (Z.ltb_ge _ _)) by lia. simpl. apply Hstop; by right. }
  rewrite (proj2 (Z.ltb_lt _ _)) by lia. cbn [andb].
  case_bool_decide as Hts; cbn [negb].
  { apply Hstop; left; [|done]. unfold todo. rewrite Hts. apply drop_nil. }
  clear Hstop. destruct (in_ring_ok fi Hfi) as [Hok ->]. cbn [mbind option_bind].
  set (fsg := nth (Z.to_nat fi) bufs sg_null) in *.
  assert (Hsrc : src = sg_bytes fsg ++ bytes_of (window bufs ((fi + 1) mod Z.of_nat (length bufs)) m)) by done.
  destruct r as [tsg j tsgoff copied foff lg]. cbn [rd_foff] in H0. subst foff. cbn [rd_tsg rd_j rd_tsgoff rd_copied rd_log] in *.
  set (r := mk_rd tsg j tsgoff copied 0 lg) in *.
  destruct (copy_buffer_run L HL Hn (2 + length tsg) nm fsg (sg_len fsg) r) as (r1 & Hrun & Hr1 & Hp1 & HT1 & Hc1 & Hf1 & Hend);
    [simpl; destruct (_ =? _); lia|done|done|apply Hok|done|].
  rewrite Hrun. cbn [mbind option_bind]. replace (rd_foff r) with 0 in * by done. rewrite Z.add_0_r, Z.add_0_l in *.
  destruct (Z.eqb_spec (rd_foff r1) (sg_len fsg)) as [Hall|Hpart].
  - (* the buffer is done *)
    assert (0 <= sg_len fsg) by apply Hok.
    set (r2 := mk_rd (rd_tsg r1) (rd_j r1) (rd_tsgoff r1) (rd_copied r1) 0 (rd_log r1)).
    assert (HT2 : todo r2 = todo r1) by done.
    assert (Hge : (Z.to_nat (sg_len fsg) <= length (todo r))%nat) by lia.
    assert (Hlb : length (sg_bytes fsg) = Z.to_nat (sg_len fsg)) by apply range_length.
    destruct (IH (i + 1) ((fi + 1) mod Z.of_nat (length bufs)) r2 m) as (d & r' & Hrun' & Hd & Hr' & Hp' & HT' & Hc' & Hrest & Hfo);
      [lia|lia|by apply in_ring_next| |done|].
    { destruct Hr1 as (? & ? & ? & ? & ? & ?). unfold rd_ok. rewrite HT2. subst r2. cbn -[todo].
      split_and!; try done; lia. }
    assert (Hidx : ((fi + 1) mod Z.of_nat (length bufs) + Z.of_nat d) mod Z.of_nat (length bufs) =
                   (fi + Z.of_nat (S d)) mod Z.of_nat (length bufs)).
    { rewrite Zplus_mod_idemp_l. f_equal. lia. }
    rewrite Hidx in *. exists (S d), r'. rewrite Hrun'.
    split; [do 3 f_equal; lia|]. split; [lia|]. split; [done|].
    change (rd_log r2) with (rd_log r1) in Hp'. change (rd_copied r2) with (rd_copied r1) in Hc'.
    rewrite HT2, HT1 in Hp', HT', Hc', Hrest.
    rewrite length_drop in Hc', Hrest. unfold k. rewrite Hsrc, length_app, Hlb.
    repeat split.
    + rewrite Hp', Hp1, <- app_assoc. f_equal. destruct nm; [done|].
      rewrite zip_drop by lia. by rewrite Hlb.
    + rewrite HT', drop_drop. done.
    + rewrite Hc', Hc1. change (rd_copied r) with copied. lia.
    + replace (S m - S d)%nat with (m - d)%nat by lia. rewrite <- Hrest.
      rewrite drop_app_ge by lia. f_equal. lia.
    + destruct Hfo as [?|[? ?]]; [by left|right; split; [lia|done]].
  - (* the reader is satisfied *)
    assert (Hlt : Z.of_nat (length (todo r)) < sg_len fsg) by lia.
    assert (Hlb : length (sg_bytes fsg) = Z.to_nat (sg_len fsg)) by apply range_length.
    assert (Hk : k = Z.of_nat (length (todo r))).
    { unfold k. rewrite Hsrc, length_app. lia. }
    destruct fuel as [|fuel]; [lia|]. cbn [copy_ring].
    rewrite Hend by lia. rewrite bool_decide_eq_true_2 by done. rewrite andb_false_r.
    exists O, r1. change (Z.of_nat 0) with 0. rewrite !Z.add_0_r, Hmod, Nat.sub_0_r. fold src fsg.
    split; [done|]. split; [lia|]. split; [done|]. rewrite Hk. repeat split.
    + rewrite Hp1. f_equal. destruct nm; [done|]. rewrite Hsrc. rewrite zip_short by lia. done.
    + rewrite HT1, !drop_ge; [done| |lia]. rewrite Hsrc, length_app. lia.
    + rewrite Hc1. change (rd_copied r) with copied. lia.
    + f_equal. rewrite Hf1. lia.
    + right. split; [lia|]. lia.
Qed.
End copy_ring.

(** ** Windows of a ring that changes elsewhere *)

Lemma buffers_ext bufs bufs' fi n :
  length bufs' = length bufs ->
  0 <= fi < Z.of_nat (length bufs) ->
  (forall d, 0 <= d < Z.of_nat n ->
     bufs' !! Z.to_nat ((fi + d) mod Z.of_nat (length bufs)) = bufs !! Z.to_nat ((fi + d) mod Z.of_nat (length bufs))) ->
  window bufs' fi n = window bufs fi n.
Proof.
  intros Hlen. revert fi. induction n as [|n IH]; intros fi Hfi H; [done|].
  cbn [window]. rewrite Hlen. f_equal.
  - specialize (H 0 ltac:(lia)). rewrite Z.add_0_r, Z.mod_small in H by done.
    rewrite !nth_lookup. by rewrite H.
  - apply IH; [apply Z.mod_pos_bound; lia|]. intros d Hd.
    specialize (H (d + 1) ltac:(lia)). rewrite !Zplus_mod_idemp_l.
    replace (fi + 1 + d) with (fi + (d + 1)) by lia. done.
Qed.

Lemma mod_apart N fi d e :
  0 < N -> 0 <= d < N -> 0 <= e < N -> (fi + d) mod N = (fi + e) mod N -> d = e.
Proof.
  intros HN Hd He H. apply Z.cong_iff_0 in H.
  replace (fi + d - (fi + e)) with (d - e) in H by lia.
  apply Z.mod_divide in H as [q Hq]; [|lia]. assert (q = 0) by nia. nia.
Qed.

Section c2h.
Context `{C2hEngine}.

(** ** Steps that always succeed *)

Lemma c2h_pidx_update_run s : exists tr, queue_pidx_update s = Ret 0 (set_regs tr s).
Proof.
  unfold queue_pidx_update. destruct (hw_hard (conf s));
    unfold qdma_s80_hard_queue_pidx_update, qdma_queue_pidx_update, doorbell, write32_data, modify, log;
    by eexists.
Qed.

Lemma queue_cmpt_cidx_update_run s : exists tr, queue_cmpt_cidx_update s = Ret 0 (set_regs tr s).
Proof.
  unfold queue_cmpt_cidx_update. destruct (hw_hard (conf s));
    unfold qdma_s80_hard_queue_cmpt_cidx_update, qdma_queue_cmpt_cidx_update, doorbell, write32_data, modify, log;
    by eexists.
Qed.

Lemma store_flq_run {A} (get : qdma_flq -> list A) set i f s a :
  get (flq s) !! Z.to_nat i = Some a ->
  store_flq get set i f s = Ret tt (on_flq (fun q => set (<[Z.to_nat i := f a]> (get q)) q) s).
Proof. intros E. unfold store_flq, at_flq, deref, modify, mbind, M_bind. by rewrite E. Qed.

(** ** Giving buffers back to the card for use again *)

(** The arrays of the free list have an element for each descriptor of the ring. *)
Record arrays_ok (N : Z) (f : qdma_flq) : Prop := {
  ao_N : 0 < N < 65536;
  ao_size : size f = N;
  ao_sdesc : Z.of_nat (length (sdesc f)) = N;
  ao_info : Z.of_nat (length (sdesc_info f)) = N;
  ao_desc : Z.of_nat (length (flq_desc f)) = N }.

Lemma lookup_in {A} (l : list A) i N : Z.of_nat (length l) = N -> 0 <= i < N -> exists a, l !! Z.to_nat i = Some a.
Proof. intros Hl Hi. apply lookup_lt_is_Some_2. lia. Qed.

(** [i] is one of [n] places of the ring from [idx] on. *)
Definition among (N idx n i : Z) : Prop := exists d, 0 <= d < n /\ i = (idx + d) mod N.

Lemma refill_recycle_run N n idx i s :
  arrays_ok N (flq s) -> 0 <= idx <= N -> Z.of_nat n < N ->
  exists sd info,
    refill_loop n true idx i s =
      Ret (i + Z.of_nat n)
        (set_avail (match n with O => avail s | _ => u32 (avail s + Z.of_nat n) end)
           (on_flq (fun f => set_sdesc_info info (set_sdesc sd f)) s)) /\
    length sd = length (sdesc (flq s)) /\ length info = length (sdesc_info (flq s)) /\
    (forall k, 0 <= k < N -> ~ among N idx (Z.of_nat n) k ->
       sd !! Z.to_nat k = sdesc (flq s) !! Z.to_nat k /\ info !! Z.to_nat k = sdesc_info (flq s) !! Z.to_nat k) /\
    (forall k, 0 <= k < N -> among N idx (Z.of_nat n) k ->
       sd !! Z.to_nat k = set_sg_len (c2h_bufsz (conf s)) <$> sdesc (flq s) !! Z.to_nat k).
Proof.
  revert idx i s. induction n as [|n IH]; intros idx i s Ha Hidx Hn.
  { exists (sdesc (flq s)), (sdesc_info (flq s)). cbn [refill_loop]. split.
    - rewrite Z.add_0_r. destruct s as [? ? ? ? ? ? ? ? ? ? ? ? ? ? ? ? ? ? [] ? ? ? ? ?]. done.
    - split_and!; try done. intros k _ (d & ? & _). lia. }
  cbn [refill_loop]. rewrite (bind_Ret _ _ s s s) by done. rewrite (ao_size _ _ Ha).
  set (p := if idx =? N then 0 else idx).
  assert (Hp : 0 <= p < N) by (unfold p; destruct Ha; destruct (Z.eqb_spec idx N); lia).
  assert (Hpm : p = idx mod N).
  { unfold p. destruct (Z.eqb_spec idx N) as [->|]; [by rewrite Z_mod_same_full|by rewrite Z.mod_small by lia]. }
  destruct (lookup_in (sdesc (flq s)) p N) as [g Hg]; [apply Ha|done|].
  destruct (lookup_in (sdesc_info (flq s)) p N) as [d Hd]; [apply Ha|done|].
  set (s1 := on_flq (fun q => set_sdesc (<[Z.to_nat p := set_sg_len (c2h_bufsz (conf s)) g]> (sdesc q)) q) s).
  rewrite (bind_Ret _ _ s true s1).
  2: { unfold store_sdesc, mbind, M_bind. rewrite (store_flq_run _ _ _ _ _ g) by done. done. }
  cbn beta iota. unfold store_info.
  rewrite (bind_Ret _ _ _ _ _ (store_flq_run _ _ _ _ s1 d Hd)).
  set (s2 := on_flq _ s1).
  rewrite (bind_Ret _ _ _ tt (set_avail (u32 (avail s2 + 1)) s2)) by done.
  set (s3 := set_avail _ s2).
  assert (Ha3 : arrays_ok N (flq s3)).
  { destruct Ha. split; cbn; rewrite ?length_insert; done. }
  destruct (IH (p + 1) (i + 1) s3 Ha3) as (sd & info & Hrun & Hsd & Hinfo & Hout & Hin); [lia|lia|].
  exists sd, info. rewrite Hrun.
  assert (Hamong : forall k, 0 <= k < N -> among N idx (Z.of_nat (S n)) k <-> k = p \/ among N (p + 1) (Z.of_nat n) k).
  { intros k Hk. split.
    - intros (e & He & ->). destruct (decide (e = 0)) as [->|]; [left; by rewrite Z.add_0_r, Hpm|].
      right. exists (e - 1). split; [lia|]. rewrite Hpm, <- (Zplus_mod_idemp_l (idx mod N + 1)).
      rewrite (Zplus_mod_idemp_l idx), Zplus_mod_idemp_l. f_equal. lia.
    - intros [->|(e & He & ->)]; [exists 0; split; [lia|by rewrite Z.add_0_r]|].
      exists (e + 1). split; [lia|]. rewrite Hpm, <- (Zplus_mod_idemp_l (idx mod N + 1)).
      rewrite (Zplus_mod_idemp_l idx), Zplus_mod_idemp_l. f_equal. lia. }
  split; [|split; [|split; [|split]]].
  - f_equal; [lia|]. unfold s3, s2, s1, on_flq. destruct s as [? ? ? ? ? av ? ? ? ? ? ? ? ? ? ? ? ? [] ? ? ? ? ?].
    assert (E : (match n with O => u32 (av + 1) | S _ => u32 (u32 (av + 1) + Z.of_nat n) end) = u32 (av + Z.of_nat (S n))).
    { destruct n as [|n']; [done|]. unfold u32. rewrite Zplus_mod_idemp_l. f_equal. lia. }
    cbn -[Z.of_nat]. by rewrite <- E.
  - rewrite Hsd. cbn. by rewrite length_insert.
  - rewrite Hinfo. cbn. by rewrite length_insert.
  - intros k Hk Hn'. rewrite Hamong in Hn' by done.
    assert (k <> p) by tauto. destruct (Hout k Hk) as [-> ->]; [tauto|].
    cbn. by rewrite !list_lookup_insert_ne by lia.
  - assert (Hpp : ~ among N (p + 1) (Z.of_nat n) p).
    { intros (e & He & E). assert (e + 1 = 0); [|lia]. apply (mod_apart N p); [lia|lia|lia|].
      replace (p + (e + 1)) with (p + 1 + e) by lia. by rewrite Z.add_0_r, <- E, Hpm, Zmod_mod. }
    intros k Hk Hin'. rewrite Hamong in Hin' by done. destruct Hin' as [->|Hy].
    + destruct (Hout p Hk Hpp) as [-> _]. cbn.
      rewrite list_lookup_insert_eq by (apply lookup_lt_Some in Hg; done). by rewrite Hg.
    + rewrite (Hin k Hk Hy). cbn. rewrite list_lookup_insert_ne; [done|]. intros E. apply Hpp.
      assert (k = p) by lia. congruence.
Qed.

(** ** The stream and its readers *)

(** The number of buffers with data nobody has read, and the bytes in them. *)
Definition waiting (s : c2h_descq) : Z := ring_idx_delta (pidx s) (pidx_pend (flq s)) (size (flq s)).

Definition stream (s : c2h_descq) : list (Z * Z) :=
  bytes_of (window (sdesc (flq s)) (pidx_pend (flq s)) (Z.to_nat (waiting s))).

(** The bytes a request has still to be given. *)
Definition places (j : job) : list (Z * Z) :=
  drop (Z.to_nat (sg_offset (cb j))) (bytes_of (drop (Z.to_nat (sg_idx (cb j))) (sgl (req j)))).

Record rx_ok (N : Z) (s : c2h_descq) : Prop := {
  rx_arrays : arrays_ok N (flq s);
  rx_pidx : 0 <= pidx s < N;
  rx_pend : 0 <= pidx_pend (flq s) < N;
  rx_bufs : Forall sg_ok (sdesc (flq s));
  rx_avail : is_u32 (avail s);
  rx_dlen : is_u32 (pkt_dlen (flq s)) }.

(** A request that is not complete: its progress is a place in its list. *)
Record rq_ok (j : job) : Prop := {
  rq_list : Forall sg_ok (sgl (req j));
  rq_total : Z.of_nat (length (bytes_of (sgl (req j)))) < 2147483648;
  rq_len : Z.of_nat (length (sgl (req j))) < 4294967296;
  rq_left : is_u32 (left (cb j));
  rq_idx : 0 <= sg_idx (cb j) <= Z.of_nat (length (sgl (req j)));
  rq_more : sg_idx (cb j) = 0 \/ sg_idx (cb j) < Z.of_nat (length (sgl (req j)));
  rq_off : match drop (Z.to_nat (sg_idx (cb j))) (sgl (req j)) with
           | [] => True | g :: _ => 0 <= sg_offset (cb j) <= sg_len g end }.

(** What reading leaves alone. *)
Definition rest (s : c2h_descq) :=
  (conf s, q_state s, q_stop_wait s, err s, color s, pidx s, (cidx_cmpt s, pidx_cmpt s, cmpt_entry_len s,
   desc_cmpt_cur s, cmpt_cidx_info s, cntr s, pend_list s, page_log s, packets s, finished s)).
Definition flq_rest (f : qdma_flq) :=
  (size f, desc_buf_size f, num_pages f, num_pgs_mask f, num_bufs_per_pg f, alloc_idx f, recycle_idx f,
   (max_pg_offset f, desc_pg_order f, desc_pg_shift f, flq_desc f, udd_cnt f, pkt_cnt f, pg_sdesc f)).

Lemma waiting_mod N s : rx_ok N s -> waiting s = (pidx s - pidx_pend (flq s)) mod N.
Proof.
  intros Hs. unfold waiting. rewrite (ao_size _ _ (rx_arrays _ _ Hs)).
  apply ring_idx_mod; apply Hs || (destruct (rx_arrays _ _ Hs); lia).
Qed.

Lemma bytes_of_app l l' : bytes_of (l ++ l') = bytes_of l ++ bytes_of l'.
Proof. unfold bytes_of. by rewrite fmap_app, join_app. Qed.

Lemma places_le j : (length (places j) <= length (bytes_of (sgl (req j))))%nat.
Proof.
  unfold places. rewrite length_drop.
  rewrite <- (take_drop (Z.to_nat (sg_idx (cb j))) (sgl (req j))) at 2. rewrite bytes_of_app, length_app. lia.
Qed.

(** The state after a reading, step by step: [sd] and [info] are the arrays after buffers
    were given back. *)
Definition after_ring (r : reading) (i : Z) (s : c2h_descq) : c2h_descq :=
  let s := set_copies (rd_log r ++ copies s) s in
  set_total_st_c2h_pkts (u64 (total_st_c2h_pkts s + i)) (set_total_cmpl_descs (u64 (total_cmpl_descs s + i)) s).

Definition partly_read (foff : Z) (g : qdma_sw_sg) : qdma_sw_sg :=
  mk_sg (sg_pg g) (u32 (sg_offset_ g + foff)) (u32 (sg_len g - foff)) (sg_dma_addr g).

(** Giving buffers back within the reading function. *)
Lemma flq_refill_recycle_run N fuel d idx s :
  arrays_ok N (flq s) -> 0 <= idx < N -> Z.of_nat d < N -> is_u32 (avail s) ->
  exists sd info b,
    qdma_flq_refill fuel idx (Z.of_nat d) true s =
      Ret (Z.of_nat d) (set_pend_list_empty b (set_avail (u32 (avail s + Z.of_nat d))
        (on_flq (fun f => set_sdesc_info info (set_sdesc sd f)) s))) /\
    length sd = length (sdesc (flq s)) /\ length info = length (sdesc_info (flq s)) /\
    (forall k, 0 <= k < N -> ~ among N idx (Z.of_nat d) k -> sd !! Z.to_nat k = sdesc (flq s) !! Z.to_nat k) /\
    (forall k, 0 <= k < N -> among N idx (Z.of_nat d) k ->
       sd !! Z.to_nat k = set_sg_len (c2h_bufsz (conf s)) <$> sdesc (flq s) !! Z.to_nat k) /\
    b = match pend_list s with [] => true | _ => pend_list_empty s end.
Proof.
  intros Ha Hi Hd Hu. destruct (refill_recycle_run N d idx 0 s Ha) as (sd & info & Hrun & H1 & H2 & H3 & H4); [lia|lia|].
  exists sd, info, (match pend_list s with [] => true | _ => pend_list_empty s end).
  split; [|split_and!; try done; intros k Hk Hn; by apply H3].
  unfold qdma_flq_refill. rewrite (bind_Ret _ _ s tt s) by done. rewrite Nat2Z.id.
  rewrite (bind_Ret _ _ _ _ _ Hrun). rewrite Z.add_0_l.
  assert (E : match d with O => avail s | _ => u32 (avail s + Z.of_nat d) end = u32 (avail s + Z.of_nat d)).
  { destruct d; [|done]. rewrite Z.add_0_r. symmetry. by apply u32_small. }
  rewrite E. unfold modify, mbind, M_bind, mret, M_ret. cbn.
  destruct s as [? ? ? ? ? ? ? ? ? ? ? ? ? ? ? [] ? ? ? ? ? ? ? ?]; done.
Qed.

Lemma window_partly bufs fi m foff g :
  0 <= fi < Z.of_nat (length bufs) -> (0 < m <= length bufs)%nat ->
  bufs !! Z.to_nat fi = Some g -> sg_ok g -> 0 <= foff <= sg_len g ->
  bytes_of (window (<[Z.to_nat fi := partly_read foff g]> bufs) fi m) =
  drop (Z.to_nat foff) (bytes_of (window bufs fi m)).
Proof.
  intros Hfi Hm Hg (Hl & Ho & Hu) Hf. destruct m as [|m]; [lia|]. cbn [window].
  rewrite length_insert, !bytes_of_cons.
  rewrite !nth_lookup, list_lookup_insert_eq, Hg by (apply lookup_lt_Some in Hg; done). cbn [default from_option id].
  rewrite (buffers_ext bufs (<[Z.to_nat fi := partly_read foff g]> bufs)).
  - rewrite drop_app_le by (unfold sg_bytes; rewrite range_length; lia). f_equal.
    unfold sg_bytes. rewrite range_drop by lia. cbn. unfold is_u32 in Hu.
    by rewrite !u32_small by (unfold is_u32; lia).
  - by rewrite length_insert.
  - apply Z.mod_pos_bound. lia.
  - intros d Hd. apply list_lookup_insert_ne. intros E.
    assert (d + 1 = 0); [|lia]. apply (mod_apart (Z.of_nat (length bufs)) fi); [lia|lia|lia|].
    rewrite Z.add_0_r, (Z.mod_small fi) by lia. rewrite Zplus_mod_idemp_l in E.
    replace (fi + (d + 1)) with (fi + 1 + d) by lia.
    pose proof (Z.mod_pos_bound (fi + 1 + d) (Z.of_nat (length bufs)) ltac:(lia)). lia.
Qed.

Lemma deref_run {A} (g : c2h_descq -> option A) s a : g s = Some a -> deref g s = Ret a s.
Proof. unfold deref. by intros ->. Qed.

(** Where a reader stands is where the loops start. *)
Lemma start_ok j : rq_ok j ->
  rd_ok (sgl (req j)) (mk_rd (drop (Z.to_nat (sg_idx (cb j))) (sgl (req j))) (sg_idx (cb j)) (sg_offset (cb j)) 0 0 []).
Proof.
  intros Hj. unfold rd_ok. cbn -[todo]. pose proof (places_le j). destruct Hj.
  split_and!; try done; try lia. change (todo _) with (places j). lia.
Qed.

Lemma end_ok j r : rq_ok j -> rd_ok (sgl (req j)) r ->
  let j' := set_cb (mk_cb (rd_j r) (rd_tsgoff r) (u32 (left (cb j) - rd_copied r)) (offset (cb j))
                      (status (cb j)) (done_ (cb j)) (unmap_needed (cb j))) j in
  places j' = todo r /\ (rq_ok j' \/ places j' = []).
Proof.
  intros Hj (H1 & H2 & H3 & _) j'.
  assert (Hp : places j' = todo r) by (unfold places, todo; cbn -[bytes_of]; by rewrite H2).
  split; [done|]. rewrite Hp. destruct (decide (rd_tsg r = [])) as [E|E].
  - right. unfold todo. rewrite E. apply drop_nil.
  - left. destruct Hj. split; cbn; try done; try lia.
    + apply u32_range.
    + right. destruct (decide (rd_j r < Z.of_nat (length (sgl (req j))))); [done|].
      destruct E. rewrite H2. apply drop_ge. lia.
    + by rewrite <- H2.
Qed.

(** The last steps of the function. *)
Lemma read_tail_run j r pend (d : nat) upd s :
  is_u32 (rd_copied r) -> rd_copied r < 2147483648 ->
  exists tr pi,
  ((rv ← (if negb (Z.of_nat d =? 0) && upd then put_pidx pend;; queue_pidx_update else mret 0);
    if rv <? 0 then mret (- EINVAL, j)
    else
      modify (on_flq (fun q => set_pkt_dlen (u32 (pkt_dlen q - rd_copied r)) q));;
      mret (i32 (rd_copied r),
            set_cb (mk_cb (rd_j r) (rd_tsgoff r) (u32 (left (cb j) - rd_copied r)) (offset (cb j)) (status (cb j))
                      (done_ (cb j)) (unmap_needed (cb j))) j)) : M c2h_descq (Z * job)) s =
  Ret (rd_copied r, set_cb (mk_cb (rd_j r) (rd_tsgoff r) (u32 (left (cb j) - rd_copied r)) (offset (cb j)) (status (cb j))
                      (done_ (cb j)) (unmap_needed (cb j))) j)
    (on_flq (fun q => set_pkt_dlen (u32 (pkt_dlen q - rd_copied r)) q) (set_regs tr (set_pidx_info pi s))).
Proof.
  intros Hu Hc.
  assert (Hi : i32 (rd_copied r) = rd_copied r).
  { unfold i32. rewrite u32_small by done. by rewrite (proj2 (Z.ltb_lt _ _) Hc). }
  assert (Hst : forall s, exists tr pi,
    (if negb (Z.of_nat d =? 0) && upd then put_pidx pend;; queue_pidx_update else mret 0 : M c2h_descq Z) s =
    Ret 0 (set_regs tr (set_pidx_info pi s))).
  { intros s0. destruct (_ && _).
    - unfold put_pidx. cbn. unfold mbind, M_bind, modify. 
      match goal with |- context [queue_pidx_update ?x] => destruct (c2h_pidx_update_run x) as [tr Htr] end.
      rewrite Htr. by eexists _, _.
    - exists (regs s0), (pidx_info s0). by destruct s0. }
  destruct (Hst s) as (tr & pi & E). exists tr, pi. rewrite (bind_Ret _ _ _ _ _ E). cbn. by rewrite Hi.
Qed.

(** Buffers stay addressable when they are given back. *)
Definition reusable (s : c2h_descq) : Prop :=
  0 <= c2h_bufsz (conf s) /\ Forall (fun g => is_u32 (sg_offset_ g + c2h_bufsz (conf s))) (sdesc (flq s)).

Lemma Forall_places (P Q : qdma_sw_sg -> Prop) N l l' :
  Z.of_nat (length l) = N -> length l' = length l -> Forall P l ->
  (forall k g g', 0 <= k < N -> l !! Z.to_nat k = Some g -> P g -> l' !! Z.to_nat k = Some g' -> Q g') ->
  Forall Q l'.
Proof.
  intros Hl Hl' HP H'. apply Forall_lookup. intros i g' Hg'.
  pose proof (lookup_lt_Some _ _ _ Hg').
  destruct (lookup_lt_is_Some_2 l i) as [g Hg]; [lia|].
  apply (H' (Z.of_nat i) g); rewrite ?Nat2Z.id; try done; [lia|].
  by apply (proj1 (Forall_lookup _ _) HP i).
Qed.

(** The buffers after a reading: [d] of them are done, from [p] on, and given back if
    [refill]; [foff] bytes of the next one were read. *)
Definition buffers_after (N p : Z) (d : nat) (foff bufsz : Z) (refill : bool) (l l' : list qdma_sw_sg) : Prop :=
  length l' = length l /\
  forall k, 0 <= k < N ->
    l' !! Z.to_nat k =
      (if decide (k = (p + Z.of_nat d) mod N /\ foff <> 0) then partly_read foff else id) <$>
      (match bool_decide (k ∈ (fun e => (p + e) mod N) <$> seqZ 0 (Z.of_nat d)) && refill with
       | true => set_sg_len bufsz <$> l !! Z.to_nat k
       | false => l !! Z.to_nat k
       end).

Lemma among_seqZ N p d k : among N p d k <-> k ∈ (fun e => (p + e) mod N) <$> seqZ 0 d.
Proof.
  unfold among. rewrite list_elem_of_fmap. split; intros (e & He).
  - exists e. rewrite elem_of_seqZ. split; [apply He|lia].
  - exists e. rewrite elem_of_seqZ in He. split; [lia|apply He].
Qed.

(** The window that is left. *)
Lemma buffers_after_window N p d foff bufsz refill l l' n :
  Z.of_nat (length l) = N -> 0 <= p < N -> (d <= n)%nat -> Z.of_nat n < N -> Forall sg_ok l ->
  foff = 0 \/ (d < n)%nat /\ 0 <= foff < sg_len (nth (Z.to_nat ((p + Z.of_nat d) mod N)) l sg_null) ->
  buffers_after N p d foff bufsz refill l l' ->
  bytes_of (window l' ((p + Z.of_nat d) mod N) (n - d)) =
  drop (Z.to_nat foff) (bytes_of (window l ((p + Z.of_nat d) mod N) (n - d))).
Proof.
  intros Hl Hp Hd Hn Hok Hf [Hlen Hb]. set (fi := (p + Z.of_nat d) mod N) in *.
  assert (Hfi : 0 <= fi < N) by (apply Z.mod_pos_bound; lia).
  (* the buffers given back are elsewhere *)
  assert (Hapart : forall e, 0 <= e < Z.of_nat (n - d) ->
    bool_decide ((fi + e) mod N ∈ (fun e => (p + e) mod N) <$> seqZ 0 (Z.of_nat d)) = false).
  { intros e He. apply bool_decide_eq_false_2. intros (e' & E & He')%list_elem_of_fmap.
    rewrite elem_of_seqZ in He'. unfold fi in E. rewrite Zplus_mod_idemp_l, <- Z.add_assoc in E.
    apply mod_apart in E; lia. }
  assert (Hat : forall e, 0 <= e < Z.of_nat (n - d) ->
    l' !! Z.to_nat ((fi + e) mod N) =
      (if decide ((fi + e) mod N = fi /\ foff <> 0) then partly_read foff else id) <$> l !! Z.to_nat ((fi + e) mod N)).
  { intros e He. rewrite Hb by (apply Z.mod_pos_bound; lia). by rewrite Hapart. }
  destruct Hf as [->|[Hdn Hf]].
  - rewrite drop_0. f_equal. apply buffers_ext; [done|lia|]. rewrite Hl. intros e He.
    rewrite Hat by done. rewrite decide_False by tauto. by destruct (_ !! _).
  - destruct (lookup_in l fi N Hl Hfi) as [g Hg].
    rewrite (nth_lookup_Some _ _ _ _ Hg) in Hf.
    assert (sg_ok g) by (by apply (proj1 (Forall_lookup _ _) Hok (Z.to_nat fi))).
    rewrite <- (window_partly l fi (n - d) foff g); [|lia|lia|done|done|lia].
    f_equal. rewrite <- (buffers_ext (<[Z.to_nat fi:=partly_read foff g]> l) l'); [done| | |].
    + by rewrite length_insert.
    + rewrite length_insert. lia.
    + rewrite length_insert, Hl. intros e He. rewrite Hat by done.
      pose proof (Z.mod_pos_bound (fi + e) N ltac:(lia)).
      destruct (decide ((fi + e) mod N = fi)) as [E|E].
      * rewrite E, Hg. rewrite list_lookup_insert_eq by (apply lookup_lt_Some in Hg; done).
        destruct (decide (fi = fi /\ foff <> 0)) as [|Hz]; [done|].
        assert (foff = 0) as -> by (destruct (decide (foff = 0)); naive_solver).
        cbn. f_equal. destruct g as [gp go gl ga]. destruct H0 as (? & ? & ?). cbn in *.
        unfold partly_read. cbn. unfold is_u32 in *. rewrite Z.add_0_r, Z.sub_0_r.
        by rewrite !u32_small by (unfold is_u32; lia).
      * rewrite decide_False by tauto. rewrite list_lookup_insert_ne by lia. by destruct (l !! Z.to_nat ((fi + e) mod N)).
Qed.

(** What a reading of [k] bytes by [j] did: [d] buffers are done. *)
Record reading_done (N : Z) (s : c2h_descq) (j : job) (refill : bool) (k : nat) (d : nat)
    (j' : job) (s' : c2h_descq) : Prop := {
  rn_pairs : pairs_of (copies s') =
    pairs_of (copies s) ++ (if no_memcpy j then [] else zip (places j) (stream s));
  rn_places : places j' = drop k (places j);
  rn_stream : stream s' = drop k (stream s);
  rn_left : left (cb j') = u32 (left (cb j) - Z.of_nat k);
  rn_req : req j' = req j /\ no_memcpy j' = no_memcpy j /\ offset (cb j') = offset (cb j);
  rn_next : rq_ok j' \/ places j' = [];
  rn_ok : rx_ok N s';
  rn_rest : rest s' = rest s /\ flq_rest (flq s') = flq_rest (flq s);
  rn_done : Z.of_nat d <= waiting s;
  rn_pend : pidx_pend (flq s') = (pidx_pend (flq s) + Z.of_nat d) mod N;
  rn_avail : avail s' = (if refill then u32 (avail s + Z.of_nat d) else avail s);
  rn_dlen : pkt_dlen (flq s') = u32 (pkt_dlen (flq s) - Z.of_nat k);
  rn_bufs : exists foff, 0 <= foff /\ (foff <> 0 -> Z.of_nat d < waiting s) /\
    buffers_after N (pidx_pend (flq s)) d foff (c2h_bufsz (conf s)) refill (sdesc (flq s)) (sdesc (flq s')) }.

Lemma buffers_after_ok N p d foff bufsz refill l l' :
  Z.of_nat (length l) = N -> Forall sg_ok l -> 0 <= foff ->
  (foff <> 0 -> foff < sg_len (nth (Z.to_nat ((p + Z.of_nat d) mod N)) l sg_null)) ->
  Z.of_nat d < N ->
  (refill = true -> 0 <= bufsz /\ Forall (fun g => is_u32 (sg_offset_ g + bufsz)) l) ->
  buffers_after N p d foff bufsz refill l l' -> Forall sg_ok l'.
Proof.
  intros Hl Hok Hf Hfl Hd Hre [Hlen Hb]. apply Forall_lookup. intros i g' Hg'.
  pose proof (lookup_lt_Some _ _ _ Hg') as Hi.
  destruct (lookup_lt_is_Some_2 l i) as [g Hg]; [lia|].
  pose proof (proj1 (Forall_lookup _ _) Hok _ _ Hg) as (H1 & H2 & H3). unfold is_u32 in *.
  specialize (Hb (Z.of_nat i) ltac:(lia)). rewrite Nat2Z.id, Hg, Hg' in Hb.
  assert (Hlast : foff <> 0 -> Z.of_nat i = (p + Z.of_nat d) mod N -> foff < sg_len g /\
    bool_decide (Z.of_nat i ∈ (fun e => (p + e) mod N) <$> seqZ 0 (Z.of_nat d)) = false).
  { intros Hnz E. specialize (Hfl Hnz). rewrite <- E, Nat2Z.id, (nth_lookup_Some _ _ _ _ Hg) in Hfl.
    split; [done|]. apply bool_decide_eq_false_2. rewrite E.
    intros (e' & E' & He')%list_elem_of_fmap. rewrite elem_of_seqZ in He'. apply mod_apart in E'; lia. }
  destruct (decide (Z.of_nat i = (p + Z.of_nat d) mod N /\ foff <> 0)) as [[Hi1 Hi2]|_].
  - destruct (Hlast Hi2 Hi1) as [Hlt Hbd]. rewrite Hbd in Hb. cbn in Hb. injection Hb as ->.
    unfold sg_ok, partly_read, is_u32. cbn. rewrite !u32_small by (unfold is_u32; lia). lia.
  - destruct (bool_decide _ && refill) eqn:E; injection Hb as ->; cbn; [|unfold sg_ok, is_u32; lia].
    apply andb_prop in E as [_ ->]. destruct (Hre eq_refl) as [Hz Hu].
    pose proof (proj1 (Forall_lookup _ _) Hu _ _ Hg) as Hu'. unfold sg_ok, is_u32 in *. cbn. lia.
Qed.

(** Storing how far the next buffer was read. *)
Lemma store_partly_run N p d foff bufsz refill l s :
  Z.of_nat (length l) = N -> 0 < N -> Z.of_nat d < N ->
  buffers_after N p d 0 bufsz refill l (sdesc (flq s)) ->
  exists sd,
    ((if foff =? 0 then mret tt
      else store_sdesc ((p + Z.of_nat d) mod N) (fun g => mk_sg (sg_pg g) (u32 (sg_offset_ g + foff))
                                       (u32 (sg_len g - foff)) (sg_dma_addr g))) : M c2h_descq unit) s =
      Ret tt (on_flq (set_sdesc sd) s) /\
    buffers_after N p d foff bufsz refill l sd.
Proof.
  intros Hl HN Hd [Hlen Hb]. set (fi := (p + Z.of_nat d) mod N).
  assert (Hfi : 0 <= fi < N) by (apply Z.mod_pos_bound; lia).
  destruct (Z.eqb_spec foff 0) as [->|Hf].
  - exists (sdesc (flq s)). split; [|done]. unfold on_flq.
    destruct s as [? ? ? ? ? ? ? ? ? ? ? ? ? ? ? ? ? ? [] ? ? ? ? ?]. done.
  - destruct (lookup_in (sdesc (flq s)) fi N) as [g Hg]; [lia|done|].
    exists (<[Z.to_nat fi := partly_read foff g]> (sdesc (flq s))). split.
    + unfold store_sdesc. rewrite (store_flq_run _ _ _ _ _ g) by done. done.
    + split; [by rewrite length_insert|]. intros k Hk. specialize (Hb k Hk).
      rewrite decide_False in Hb by tauto.
      destruct (decide (k = fi)) as [->|Hne].
      * rewrite list_lookup_insert_eq by (apply lookup_lt_Some in Hg; done).
        rewrite decide_True by done. rewrite Hg in Hb.
        destruct (if _ && _ then _ else _) as [g0|]; [|done]. cbn in Hb |- *. congruence.
      * rewrite list_lookup_insert_ne by lia. rewrite decide_False by (intros [? _]; done). done.
Qed.

(** Giving the buffers back, or not. *)
Lemma maybe_refill_run N fuel (refill : bool) d s :
  rx_ok N s -> Z.of_nat d < N ->
  exists sd info b,
    ((if refill && negb (Z.of_nat d =? 0)
      then _ ← qdma_flq_refill fuel (pidx_pend (flq s)) (Z.of_nat d) true; mret tt
      else mret tt) : M c2h_descq unit) s =
    Ret tt (set_pend_list_empty b (set_avail (if refill then u32 (avail s + Z.of_nat d) else avail s)
      (on_flq (fun f => set_sdesc_info info (set_sdesc sd f)) s))) /\
    length info = length (sdesc_info (flq s)) /\
    buffers_after N (pidx_pend (flq s)) d 0 (c2h_bufsz (conf s)) refill (sdesc (flq s)) sd.
Proof.
  intros Hs Hd. pose proof (rx_arrays _ _ Hs) as Ha. pose proof (rx_avail _ _ Hs) as Hu.
  assert (Hsame : refill = false \/ d = O ->
    ((mret tt : M c2h_descq unit) s = Ret tt (set_pend_list_empty (pend_list_empty s)
      (set_avail (if refill then u32 (avail s + Z.of_nat d) else avail s)
      (on_flq (fun f => set_sdesc_info (sdesc_info (flq s)) (set_sdesc (sdesc (flq s)) f)) s)))) /\
    length (sdesc_info (flq s)) = length (sdesc_info (flq s)) /\
    buffers_after N (pidx_pend (flq s)) d 0 (c2h_bufsz (conf s)) refill (sdesc (flq s)) (sdesc (flq s))).
  { intros Hor. split; [|split; [done|split; [done|]]].
    - replace (if refill then u32 (avail s + Z.of_nat d) else avail s) with (avail s).
      + destruct s as [? ? ? ? ? ? ? ? ? ? ? ? ? ? ? ? ? ? [] ? ? ? ? ?]. done.
      + destruct Hor as [->| ->]; [done|]. destruct refill; [|done]. rewrite Z.add_0_r. symmetry. by apply u32_small.
    - intros k Hk. rewrite decide_False by tauto.
      replace (bool_decide _ && refill) with false; [by destruct (sdesc (flq s) !! Z.to_nat k)|].
      destruct Hor as [->| ->]; [by rewrite andb_false_r|done]. }
  destruct refill; cbn [andb].
  - destruct (Z.eqb_spec (Z.of_nat d) 0) as [Hz|Hz]; cbn [negb].
    { destruct Hsame as (H1 & H2 & H3); [right; lia|]. eexists _, _, _. done. }
    destruct (flq_refill_recycle_run N fuel d (pidx_pend (flq s)) s Ha) as (sd & info & b & Hrun & Hl & Hi & Hout & Hin & _);
      [apply Hs|done|done|].
    exists sd, info, b. rewrite (bind_Ret _ _ _ _ _ Hrun). split; [done|]. split; [done|]. split; [done|].
    intros k Hk. rewrite decide_False by tauto. rewrite andb_true_r.
    case_bool_decide as Hamong.
    + rewrite (Hin k Hk) by (by apply among_seqZ). by destruct (_ !! _).
    + rewrite (Hout k Hk) by (by rewrite among_seqZ). by destruct (_ !! _).
  - destruct Hsame as (H1 & H2 & H3); [by left|]. eexists _, _, _. done.
Qed.

Lemma st_c2h_read_run N fuel j upd refill s :
  rx_ok N s -> rq_ok j -> (refill = true -> reusable s) ->
  let k := Nat.min (length (stream s)) (length (places j)) in
  exists j' s' d, descq_st_c2h_read fuel j upd refill s = Ret (Z.of_nat k, j') s' /\
    reading_done N s j refill k d j' s'.
Proof.
  intros Hs Hj Hre k. pose proof (rx_avail _ _ Hs) as Hu. pose proof (rx_arrays _ _ Hs) as Ha.
  pose proof (waiting_mod N s Hs) as Hw. assert (HN : 0 < N < 65536) by apply Ha.
  pose proof (Z.mod_pos_bound (pidx s - pidx_pend (flq s)) N ltac:(lia)) as Hwb. rewrite <- Hw in Hwb.
  assert (Hsz : size (flq s) = N) by apply Ha.
  assert (Hlen : Z.of_nat (length (sdesc (flq s))) = N) by apply Ha.
  pose proof (places_le j) as Hpl. pose proof (rq_total _ Hj) as Htot.
  unfold descq_st_c2h_read. rewrite (bind_Ret _ _ s s s) by done.
  change (ring_idx_delta (pidx s) (pidx_pend (flq s)) (size (flq s))) with (waiting s).
  destruct (Z.eqb_spec (waiting s) 0) as [Hz|Hz].
  { assert (Hst : stream s = []) by (unfold stream; by rewrite Hz).
    assert (Hk : k = O) by (unfold k; by rewrite Hst). rewrite Hk.
    exists j, s, O. split; [done|]. split; try done; try lia.
    - rewrite Hst, zip_nil_r. replace (if no_memcpy j then [] else []) with (@nil ((Z * Z) * (Z * Z))) by (by destruct (no_memcpy j)).
      by rewrite app_nil_r.
    - rewrite Z.sub_0_r, u32_small by apply Hj. done.
    - by left.
    - rewrite Z.add_0_r, Z.mod_small by apply Hs. done.
    - rewrite Z.add_0_r, u32_small by done. by destruct refill.
    - rewrite Z.sub_0_r, u32_small by apply Hs. done.
    - exists 0. split; [lia|]. split; [done|]. split; [done|]. intros i Hi. rewrite decide_False by tauto.
      by destruct (sdesc (flq s) !! Z.to_nat i). }
  assert (Hnot : negb (sg_idx (cb j) =? 0) &&
     bool_decide (drop (Z.to_nat (sg_idx (cb j))) (sgl (req j)) = []) = false).
  { destruct (rq_more _ Hj) as [->|Hlt]; [done|]. rewrite bool_decide_eq_false_2; [by rewrite andb_false_r|].
    intros E. apply (f_equal length) in E. rewrite length_drop in E. simpl in E.
    destruct (rq_idx _ Hj). lia. }
  rewrite Hnot.
  destruct (copy_ring_run (sgl (req j)) (sdesc (flq s)) (no_memcpy j) (rq_list _ Hj) (rq_len _ Hj) (rx_bufs _ _ Hs)
    (2 + Z.to_nat (waiting s)) (waiting s) 0 (pidx_pend (flq s)) _ (Z.to_nat (waiting s))
    ltac:(lia) ltac:(lia) ltac:(unfold in_ring; rewrite Hlen; apply Hs) (start_ok j Hj) eq_refl)
    as (d & r & Hrun & Hd & Hr & Hpairs & Htodo & Hcop & Hrest & Hfo).
  fold (stream s) in *.
  match type of Hcop with context [todo ?x] => change (todo x) with (places j) in * end.
  rewrite Hlen in *. cbn [rd_copied rd_log] in Hcop, Hpairs. cbn [pairs_of] in Hpairs.
  rewrite (bind_Ret _ _ _ _ _ (deref_run _ _ _ Hrun)). cbn beta iota. rewrite !Z.add_0_l in *.
  assert (Hck : rd_copied r = Z.of_nat k) by lia.
  assert (Hdw : Z.of_nat d <= waiting s) by lia.
  (* the copies are logged and the buffers counted *)
  rewrite (bind_Ret _ _ s tt (set_copies (rd_log r ++ copies s) s)) by done.
  set (s1 := set_copies _ s).
  rewrite (bind_Ret _ _ s1 tt (after_ring r (Z.of_nat d) s)) by done.
  set (s2 := after_ring r (Z.of_nat d) s).
  assert (Hs2 : rx_ok N s2) by (destruct Hs; by split).
  (* they are given back *)
  destruct (maybe_refill_run N fuel refill d s2 Hs2) as (sd & info & b & Hrefill & Hinfo & Hba); [lia|].
  rewrite (bind_Ret _ _ _ _ _ Hrefill). set (s3 := set_pend_list_empty _ _).
  rewrite Hsz. destruct (ring_idx_mod (pidx_pend (flq s)) (Z.of_nat d) N) as (_ & -> & _ & _); [done|apply Hs|lia|].
  rewrite (bind_Ret _ _ s3 tt (on_flq (set_pidx_pend ((pidx_pend (flq s) + Z.of_nat d) mod N)) s3)) by done.
  set (s4 := on_flq _ s3).
  destruct (store_partly_run N (pidx_pend (flq s)) d (rd_foff r) (c2h_bufsz (conf s)) refill (sdesc (flq s)) s4)
    as (sd' & Hstore & Hba'); [done|lia|lia|done|].
  rewrite (bind_Ret _ _ _ _ _ Hstore).
  match goal with |- context [ring_idx_decr ?a 1 N] =>
    destruct (read_tail_run j r (ring_idx_decr a 1 N) d upd (on_flq (set_sdesc sd') s4)) as (tr & pi & Htail) end;
    [unfold is_u32; lia|lia|].
  rewrite Htail, Hck.
  destruct (end_ok j r Hj Hr) as [Hplaces Hnext].
  eexists _, _, d. split; [reflexivity|]. rewrite Hck in Hplaces, Hnext.
  assert (Hf0 : 0 <= rd_foff r) by apply Hr.
  split; try done.
  - cbn. unfold pairs_of. rewrite rev_app_distr, fmap_app, join_app. f_equal.
    cbn in Hpairs. rewrite <- Hpairs. done.
  - rewrite Hplaces, Htodo. unfold k. destruct (decide (length (stream s) <= length (places j))%nat).
    + f_equal. lia. + rewrite !drop_ge by lia. done.
  - unfold stream at 1. unfold waiting. cbn -[window bytes_of]. rewrite Hsz.
    destruct (ring_idx_mod (pidx s) ((pidx_pend (flq s) + Z.of_nat d) mod N) N) as (-> & _);
      [done|apply Hs|apply Z.mod_pos_bound; lia|].
    assert (Hm : (pidx s - (pidx_pend (flq s) + Z.of_nat d) mod N) mod N = waiting s - Z.of_nat d).
    { rewrite Zminus_mod_idemp_r. replace (pidx s - (pidx_pend (flq s) + Z.of_nat d))
        with (pidx s - pidx_pend (flq s) - Z.of_nat d) by lia.
      rewrite <- Zminus_mod_idemp_l, <- Hw. apply Z.mod_small. lia. }
    rewrite Hm. replace (Z.to_nat (waiting s - Z.of_nat d)) with (Z.to_nat (waiting s) - d)%nat by lia.
    rewrite (buffers_after_window N _ d (rd_foff r) _ _ _ _ (Z.to_nat (waiting s)) Hlen (rx_pend _ _ Hs) Hd ltac:(lia)
               (rx_bufs _ _ Hs) ltac:(destruct Hfo as [?|[? ?]]; [by left|right; auto with lia]) Hba').
    rewrite <- Hrest. f_equal. lia.
  - split; cbn; try apply Hs; try (by apply u32_range).
    + destruct Ha. split; cbn; try done. destruct Hba' as [Hl' _]. lia. cbn in Hinfo. lia.
    + apply Z.mod_pos_bound. lia.
    + apply (buffers_after_ok N (pidx_pend (flq s)) d (rd_foff r) (c2h_bufsz (conf s)) refill (sdesc (flq s))); try done.
      * apply Hs.
      * intros Hnz. destruct Hfo as [?|[_ ?]]; done.
      * lia.
    + destruct refill; [apply u32_range|done].
  - exists (rd_foff r). split; [done|]. split; [|done]. intros Hnz. destruct Hfo as [?|[? _]]; [done|lia].
Qed.
End c2h.
