(* ===== verification/C2hCntr.v ===== *)
(** * C2hCntr: the adaptive counter threshold of a completion ring

    The card interrupts when as many completions are pending as the threshold with the index in
    [cmpt_cidx_info].  The driver adapts the index to a moving average of the load: it walks up and
    down the list of the card's thresholds in ascending order ([qdma_sort_c2h_cntr_th_values]). *)

From S2P Require Import Prelude QdmaErrors Mmio CLayout Contexts Csr SoftCsr S80Csr.
From S2P Require Import Descq C2h.
From Stdlib Require Import Sorting.Sorted.
Local Open Scope Z_scope.

(** ** The invariant *)

(** The tables have 16 entries, and the queue's threshold is the one at its place in the
    sorted list. *)
Record cntr_ok (s : c2h_descq) : Prop := {
  ck_th : length (c2h_cnt_th (conf s)) = QDMA_GLOBAL_CSR_ARRAY_SZ;
  ck_sorted : length (dev_sorted_idx (conf s)) = QDMA_GLOBAL_CSR_ARRAY_SZ;
  ck_idx : Forall (fun i => 0 <= i <= QDMA_CSR_LAST) (dev_sorted_idx (conf s));
  ck_place : 0 <= sorted_c2h_cntr_idx (cntr s) <= QDMA_CSR_LAST;
  ck_here : dev_sorted_idx (conf s) !! Z.to_nat (sorted_c2h_cntr_idx (cntr s)) =
              Some (fld cmpt_cidx_info.counter_idx (cmpt_cidx_info s)) }.

(** Only the state of the threshold and the index of the counter change. *)
Definition only_cntr (s s' : c2h_descq) : Prop :=
  exists a i, s' = set_cntr a (set_cmpt_cidx_info i s) /\
    forall f, field_ok f -> apart f cmpt_cidx_info.counter_idx -> fld f i = fld f (cmpt_cidx_info s).

Lemma only_cntr_refl s : only_cntr s s.
Proof. exists (cntr s), (cmpt_cidx_info s). split; [by destruct s|done]. Qed.

Lemma only_cntr_trans s s' s'' : only_cntr s s' -> only_cntr s' s'' -> only_cntr s s''.
Proof.
  intros (a & i & -> & Hi) (a' & i' & -> & Hi'). exists a', i'. split; [by destruct s|].
  intros f Hf Ha. rewrite Hi' by done. cbn. by apply Hi.
Qed.

(** ** Steps *)

Lemma sorted_idx_run s k :
  cntr_ok s -> 0 <= k <= QDMA_CSR_LAST -> exists i, sorted_idx k s = Ret i s /\
    dev_sorted_idx (conf s) !! Z.to_nat k = Some i /\ 0 <= i <= QDMA_CSR_LAST.
Proof.
  intros Hs Hk. destruct (lookup_lt_is_Some_2 (dev_sorted_idx (conf s)) (Z.to_nat k)) as [i Hi].
  { rewrite (ck_sorted _ Hs). unfold QDMA_CSR_LAST, QDMA_GLOBAL_CSR_ARRAY_SZ in *. lia. }
  exists i. split; [unfold sorted_idx, deref; by rewrite Hi|]. split; [done|].
  by apply (proj1 (Forall_lookup _ _) (ck_idx _ Hs) _ _ Hi).
Qed.

Lemma cnt_th_run s i :
  length (c2h_cnt_th (conf s)) = QDMA_GLOBAL_CSR_ARRAY_SZ -> 0 <= i <= QDMA_CSR_LAST ->
  cnt_th i s = Ret (nth (Z.to_nat i) (c2h_cnt_th (conf s)) 0) s.
Proof.
  intros Hs Hi. destruct (lookup_lt_is_Some_2 (c2h_cnt_th (conf s)) (Z.to_nat i)) as [v Hv].
  { unfold QDMA_CSR_LAST, QDMA_GLOBAL_CSR_ARRAY_SZ in *. lia. }
  unfold cnt_th, deref. by rewrite Hv, (nth_lookup_Some _ _ _ _ Hv).
Qed.

Lemma ck_counter s : cntr_ok s -> 0 <= fld cmpt_cidx_info.counter_idx (cmpt_cidx_info s) <= QDMA_CSR_LAST.
Proof. intros Hs. apply (proj1 (Forall_lookup _ _) (ck_idx _ Hs) _ _ (ck_here _ Hs)). Qed.

(** The averages are computed without leaving the tables. *)
Lemma adjust_avgs_run s :
  cntr_ok s -> exists a, descq_adjust_c2h_cntr_avgs s = Ret tt (set_cntr a s) /\
    sorted_c2h_cntr_idx a = sorted_c2h_cntr_idx (cntr s).
Proof.
  intros Hs. unfold descq_adjust_c2h_cntr_avgs. rewrite (bind_Ret _ _ s s s) by done.
  rewrite (bind_Ret _ _ _ _ _ (cnt_th_run s _ (ck_th _ Hs) (ck_counter s Hs))).
  set (k := sorted_c2h_cntr_idx (cntr s)). pose proof (ck_place _ Hs) as Hk. fold k in Hk.
  destruct (sorted_idx_run s (if k =? QDMA_CSR_LAST then k else k + 1) Hs) as (i & Hi & _ & Hir).
  { destruct (Z.eqb_spec k QDMA_CSR_LAST); lia. }
  rewrite (bind_Ret _ _ _ _ _ Hi), (bind_Ret _ _ _ _ _ (cnt_th_run s i (ck_th _ Hs) Hir)).
  destruct (sorted_idx_run s (if k >? 0 then k - 1 else k) Hs) as (i' & Hi' & _ & Hir').
  { destruct (Z.gtb_spec k 0); lia. }
  rewrite (bind_Ret _ _ _ _ _ Hi'), (bind_Ret _ _ _ _ _ (cnt_th_run s i' (ck_th _ Hs) Hir')).
  eexists. split; [reflexivity|done].
Qed.

(** Going to a neighbour. *)
Lemma move_cntr_run s k idx :
  cntr_ok s -> 0 <= k <= QDMA_CSR_LAST -> dev_sorted_idx (conf s) !! Z.to_nat k = Some idx ->
  exists s', move_cntr k idx s = Ret tt s' /\ cntr_ok s' /\ only_cntr s s' /\ sorted_c2h_cntr_idx (cntr s') = k.
Proof.
  intros Hs Hk Hidx. unfold move_cntr, put_cmpt.
  rewrite (bind_Ret _ _ s tt _) by reflexivity. set (s1 := set_cmpt_cidx_info _ s).
  rewrite (bind_Ret _ _ s1 tt _) by reflexivity. set (s2 := on_cntr _ s1).
  assert (Hir : 0 <= idx <= QDMA_CSR_LAST) by (by apply (proj1 (Forall_lookup _ _) (ck_idx _ Hs) _ _ Hidx)).
  assert (Hs2 : cntr_ok s2).
  { destruct Hs. split; cbn; try done. rewrite fld_put_same by (split; cbn; lia).
    rewrite Hidx. f_equal. symmetry. apply Z.mod_small. unfold QDMA_CSR_LAST, QDMA_GLOBAL_CSR_ARRAY_SZ in Hir. cbn. lia. }
  destruct (adjust_avgs_run s2 Hs2) as (a & Hrun & Ha). exists (set_cntr a s2).
  split; [done|]. split; [|split; [|done]].
  - destruct Hs2. split; cbn in *; rewrite ?Ha; done.
  - eexists _, _. split; [reflexivity|]. cbn. intros f Hf Hap. apply fld_put_apart; try done.
Qed.

Lemma set_monitor_ok s n :
  cntr_ok s -> cntr_ok (on_cntr (set_c2h_cntr_monitor_cnt n) s) /\ only_cntr s (on_cntr (set_c2h_cntr_monitor_cnt n) s) /\
  sorted_c2h_cntr_idx (cntr (on_cntr (set_c2h_cntr_monitor_cnt n) s)) = sorted_c2h_cntr_idx (cntr s).
Proof.
  intros [? ? ? ? ?]. split; [by split|]. split; [|done].
  exists (set_c2h_cntr_monitor_cnt n (cntr s)), (cmpt_cidx_info s). split; [by destruct s|done].
Qed.

Definition threshold (s : c2h_descq) (k : Z) : Z :=
  u8 (nth (Z.to_nat (nth (Z.to_nat k) (dev_sorted_idx (conf s)) 0)) (c2h_cnt_th (conf s)) 0).

(** One step up or none. *)
Lemma incr_run s :
  cntr_ok s -> exists s', descq_incr_c2h_cntr_th s = Ret tt s' /\ cntr_ok s' /\ only_cntr s s' /\
    let k := sorted_c2h_cntr_idx (cntr s) in
    (sorted_c2h_cntr_idx (cntr s') = k \/
     sorted_c2h_cntr_idx (cntr s') = k + 1 /\ threshold s (k + 1) < Z.shiftr (rngsz (conf s)) 1).
Proof.
  intros Hs. unfold descq_incr_c2h_cntr_th. rewrite (bind_Ret _ _ s s s) by done.
  set (k := sorted_c2h_cntr_idx (cntr s)). pose proof (ck_place _ Hs) as Hk. fold k in Hk.
  destruct (Z.eqb_spec k QDMA_CSR_LAST) as [|Hne].
  { exists s. split; [done|]. split; [done|]. split; [apply only_cntr_refl|]. by left. }
  rewrite (bind_Ret _ _ s tt _) by reflexivity. destruct (set_monitor_ok s 0 Hs) as (Hs1 & Ho1 & Hk1).
  set (s1 := on_cntr _ s) in *.
  destruct (sorted_idx_run s1 k Hs1 Hk) as (i & Hi & _ & Hir).
  rewrite (bind_Ret _ _ _ _ _ Hi), (bind_Ret _ _ _ _ _ (cnt_th_run s1 i (ck_th _ Hs1) Hir)).
  assert (Hu : u8 (k + 1) = k + 1) by (apply u8_small; unfold is_u8, QDMA_CSR_LAST, QDMA_GLOBAL_CSR_ARRAY_SZ in *; lia).
  rewrite Hu. destruct (sorted_idx_run s1 (k + 1) Hs1) as (i' & Hi' & Hlk & Hir'); [lia|].
  rewrite (bind_Ret _ _ _ _ _ Hi'), (bind_Ret _ _ _ _ _ (cnt_th_run s1 i' (ck_th _ Hs1) Hir')). cbn beta iota zeta.
  destruct (_ && _).
  { exists s1. split; [done|]. split; [done|]. split; [done|]. by left. }
  assert (Hi8 : u8 i' = i') by (apply u8_small; unfold is_u8, QDMA_CSR_LAST, QDMA_GLOBAL_CSR_ARRAY_SZ in *; lia).
  destruct (Z.ltb_spec (u8 (nth (Z.to_nat i') (c2h_cnt_th (conf s1)) 0)) (Z.shiftr (rngsz (conf s)) 1)) as [Hlt|].
  2: { exists s1. split; [done|]. split; [done|]. split; [done|]. by left. }
  rewrite Hi8. destruct (move_cntr_run s1 (k + 1) i' Hs1) as (s' & Hrun & Hs' & Ho' & Hk'); [lia|done|].
  exists s'. split; [done|]. split; [done|]. split; [exact (only_cntr_trans _ _ _ Ho1 Ho')|].
  right. split; [done|].
  unfold threshold. change (conf s) with (conf s1). by rewrite (nth_lookup_Some _ _ _ _ Hlk).
Qed.

(** One step down or none. *)
Lemma decr_run s budget :
  cntr_ok s -> exists s', descq_decr_c2h_cntr_th budget s = Ret tt s' /\ cntr_ok s' /\ only_cntr s s' /\
    let k := sorted_c2h_cntr_idx (cntr s) in
    (sorted_c2h_cntr_idx (cntr s') = k \/
     sorted_c2h_cntr_idx (cntr s') = k - 1 /\
     (latency_optimize (conf s) = true \/ u32 (budget - 2) <= threshold s (k - 1))).
Proof.
  intros Hs. unfold descq_decr_c2h_cntr_th. rewrite (bind_Ret _ _ s s s) by done.
  set (k := sorted_c2h_cntr_idx (cntr s)). pose proof (ck_place _ Hs) as Hk. fold k in Hk.
  destruct (Z.eqb_spec k 0) as [|Hne].
  { exists s. split; [done|]. split; [done|]. split; [apply only_cntr_refl|]. by left. }
  rewrite (bind_Ret _ _ s tt _) by reflexivity. destruct (set_monitor_ok s 0 Hs) as (Hs1 & Ho1 & Hk1).
  set (s1 := on_cntr _ s) in *.
  destruct (sorted_idx_run s1 k Hs1 Hk) as (i & Hi & _ & Hir).
  rewrite (bind_Ret _ _ _ _ _ Hi), (bind_Ret _ _ _ _ _ (cnt_th_run s1 i (ck_th _ Hs1) Hir)).
  assert (Hu : u8 (k - 1) = k - 1) by (apply u8_small; unfold is_u8, QDMA_CSR_LAST, QDMA_GLOBAL_CSR_ARRAY_SZ in *; lia).
  rewrite Hu. destruct (sorted_idx_run s1 (k - 1) Hs1) as (i' & Hi' & Hlk & Hir'); [lia|].
  rewrite (bind_Ret _ _ _ _ _ Hi'), (bind_Ret _ _ _ _ _ (cnt_th_run s1 i' (ck_th _ Hs1) Hir')). cbn beta iota zeta.
  assert (Hi8 : u8 i' = i') by (apply u8_small; unfold is_u8, QDMA_CSR_LAST, QDMA_GLOBAL_CSR_ARRAY_SZ in *; lia).
  destruct (_ && _).
  { exists s1. split; [done|]. split; [done|]. split; [done|]. by left. }
  destruct (negb (latency_optimize (conf s)) && (u8 (nth (Z.to_nat i') (c2h_cnt_th (conf s1)) 0) <? u32 (budget - 2))) eqn:E.
  { exists s1. split; [done|]. split; [done|]. split; [done|]. by left. }
  rewrite Hi8. destruct (move_cntr_run s1 (k - 1) i' Hs1) as (s' & Hrun & Hs' & Ho' & Hk'); [lia|done|].
  exists s'. split; [done|]. split; [done|]. split; [exact (only_cntr_trans _ _ _ Ho1 Ho')|].
  right. split; [done|].
  unfold threshold. change (conf s) with (conf s1). rewrite (nth_lookup_Some _ _ _ _ Hlk).
  apply andb_false_iff in E as [E|E]; [left; by apply negb_false_iff in E|right].
  by apply Z.ltb_ge in E.
Qed.

(** The average with the newest load. *)
Definition new_avg (s : c2h_descq) (pend : Z) : Z := Z.shiftr (u32 (c2h_pend_pkt_moving_avg (cntr s) + pend)) 1.

(** One adaptation: the index stays within the tables and moves by a step at most; up only if
    the average has reached the upper mark, and not beyond half of the ring; down not below
    the budget unless latency matters. *)
Definition adapted (s s' : c2h_descq) (pend budget : Z) : Prop :=
  let k := sorted_c2h_cntr_idx (cntr s) in
  let k' := sorted_c2h_cntr_idx (cntr s') in
  cntr_ok s' /\ only_cntr s s' /\
  (k' = k \/
   k' = k + 1 /\ c2h_pend_pkt_avg_thr_hi (cntr s) <= new_avg s pend /\ threshold s k' < Z.shiftr (rngsz (conf s)) 1 \/
   k' = k - 1 /\ new_avg s pend < c2h_pend_pkt_avg_thr_hi (cntr s) /\
     (latency_optimize (conf s) = true \/ u32 (budget - 2) <= threshold s k')).

Lemma adjust_run s pend budget :
  cntr_ok s -> exists s', descq_adjust_c2h_cntr_th pend budget s = Ret tt s' /\ adapted s s' pend budget.
Proof.
  intros Hs. unfold descq_adjust_c2h_cntr_th.
  rewrite (bind_Ret _ _ s tt _) by reflexivity. set (s1 := on_cntr _ s).
  assert (Hs1 : cntr_ok s1) by (destruct Hs; by split).
  assert (Ho1 : only_cntr s s1) by (exists (cntr s1), (cmpt_cidx_info s); split; [by destruct s|done]).
  rewrite (bind_Ret _ _ s1 (cntr s1) s1) by done. cbn zeta.
  change (c2h_pend_pkt_moving_avg (cntr s1)) with (new_avg s pend).
  change (c2h_pend_pkt_avg_thr_hi (cntr s1)) with (c2h_pend_pkt_avg_thr_hi (cntr s)).
  assert (Hdecr : forall s2, cntr_ok s2 -> only_cntr s s2 -> conf s2 = conf s ->
    sorted_c2h_cntr_idx (cntr s2) = sorted_c2h_cntr_idx (cntr s) ->
    new_avg s pend < c2h_pend_pkt_avg_thr_hi (cntr s) ->
    exists s', descq_decr_c2h_cntr_th budget s2 = Ret tt s' /\ adapted s s' pend budget).
  { intros s2 Hs2 Ho2 Hc2 Hk2 Hlt. destruct (decr_run s2 budget Hs2) as (s' & Hrun & Hs' & Ho' & Hk').
    exists s'. split; [done|]. split; [done|]. split; [exact (only_cntr_trans _ _ _ Ho2 Ho')|]. cbn zeta in Hk'. rewrite Hk2 in Hk'.
    destruct Hk' as [?|[E Hb]]; [by left|right; right]. split; [done|]. split; [done|]. rewrite E.
    unfold threshold in *. by rewrite Hc2 in Hb. }
  destruct (Z.leb_spec (c2h_pend_pkt_avg_thr_hi (cntr s)) (new_avg s pend)) as [Hle|Hlt].
  { destruct (incr_run s1 Hs1) as (s' & Hrun & Hs' & Ho' & Hk'). exists s'. split; [done|].
    split; [done|]. split; [exact (only_cntr_trans _ _ _ Ho1 Ho')|]. destruct Hk' as [?|[E Hb]]; [by left|right; left].
    split; [done|]. split; [done|]. by rewrite E. }
  destruct (_ >=? _); [by apply Hdecr|].
  rewrite (bind_Ret _ _ s1 tt _) by reflexivity.
  match goal with |- context [on_cntr ?f s1] => set (s2 := on_cntr f s1) end.
  match type of (eq_refl s2) with _ = _ => idtac end.
  destruct (set_monitor_ok s1 (u8 (c2h_cntr_monitor_cnt (cntr s1) + 1)) Hs1) as (Hs2 & Ho2 & Hk2).
  fold s2 in Hs2, Ho2, Hk2. assert (Ho02 : only_cntr s s2) by exact (only_cntr_trans _ _ _ Ho1 Ho2).
  rewrite (bind_Ret _ _ s2 (cntr s2) s2) by done.
  destruct (_ =? _).
  - destruct (Hdecr s2 Hs2 Ho02 eq_refl Hk2 Hlt) as (s3 & Hrun & Hs3 & Ho3 & Hk3).
    rewrite (bind_Ret _ _ _ _ _ Hrun). destruct (set_monitor_ok s3 0 Hs3) as (Hs4 & Ho4 & Hk4).
    eexists. split; [reflexivity|]. split; [done|]. split; [exact (only_cntr_trans _ _ _ Ho3 Ho4)|]. by rewrite Hk4.
  - exists s2. split; [done|]. split; [done|]. split; [done|]. by left.
Qed.

(** The adaptive threshold: adapting it to any load ends normally, never leaves the tables of
    thresholds, changes nothing else of the queue, and moves by at most one place: up only
    under load and below half of the ring, down not below the budget unless latency is preferred. *)
Theorem adaptive_threshold s pend budget :
  cntr_ok s -> returns (descq_adjust_c2h_cntr_th pend budget) s (fun _ s' => adapted s s' pend budget).
Proof. intros Hs. destruct (adjust_run s pend budget Hs) as (s' & Hrun & Ha). unfold returns. by rewrite Hrun. Qed.

(** ** The order of the thresholds *)

Section sorting.
Context (th : list Z).
Context (Hlen : length th = QDMA_GLOBAL_CSR_ARRAY_SZ) (Hu8 : Forall is_u8 th) (Hdup : NoDup th).

Definition val (i : nat) : Z := nth i th 0.

Lemma val_lookup i : (i < QDMA_GLOBAL_CSR_ARRAY_SZ)%nat -> th !! i = Some (val i).
Proof.
  intros Hi. destruct (lookup_lt_is_Some_2 th i) as [x Hx]; [lia|].
  unfold val. by rewrite (nth_lookup_Some _ _ _ _ Hx).
Qed.

Lemma val_u8 i : (i < QDMA_GLOBAL_CSR_ARRAY_SZ)%nat -> u8 (val i) = val i.
Proof. intros Hi. apply u8_small. apply (proj1 (Forall_lookup _ _) Hu8 i). by apply val_lookup. Qed.

Lemma val_inj i j :
  (i < QDMA_GLOBAL_CSR_ARRAY_SZ)%nat -> (j < QDMA_GLOBAL_CSR_ARRAY_SZ)%nat -> val i = val j -> i = j.
Proof.
  intros Hi Hj E. apply (NoDup_lookup th i j (val i) Hdup); [by apply val_lookup|].
  rewrite E. by apply val_lookup.
Qed.

Definition below (l : list nat) : Prop := Forall (fun i => (i < QDMA_GLOBAL_CSR_ARRAY_SZ)%nat) l.

(** A candidate with the smallest value. *)
Definition least_of (lm : Z) (ref : option nat) (l : list nat) (r : Z * Z) (i : nat) : Prop :=
  r = (Z.of_nat i, val i) /\ candidate th lm ref i = true /\ i ∈ l /\
  forall j, j ∈ l -> candidate th lm ref j = true -> val i <= val j.

Lemma sort_scan_least lm ref l i :
  below l -> candidate th lm ref i = true ->
  exists k, sort_scan th lm ref l (Z.of_nat i) (val i) = (Z.of_nat k, val k) /\
    candidate th lm ref k = true /\ (k = i \/ k ∈ l) /\ val k <= val i /\
    forall j, j ∈ l -> candidate th lm ref j = true -> val k <= val j.
Proof.
  intros Hl. revert i. induction Hl as [|x l Hx Hl IH]; intros i Hi.
  { exists i. cbn. split_and!; try done; [by left|]. intros j Hj. by apply not_elem_of_nil in Hj. }
  cbn [sort_scan]. change (nth x th 0) with (val x).
  destruct (candidate th lm ref x && (val i >=? val x)) eqn:E.
  - apply andb_prop in E as [Hc Hge]. rewrite Z.geb_leb in Hge. apply Z.leb_le in Hge. rewrite val_u8 by done.
    destruct (IH x Hc) as (k & Hk & Hck & Hin & Hle & Hmin). exists k. split; [done|]. split; [done|]. split.
    { destruct Hin as [->|]; right; [by left|by right]. }
    split; [lia|]. intros j [->|Hj]%elem_of_cons Hcj; [lia|by apply Hmin].
  - destruct (IH i Hi) as (k & Hk & Hck & Hin & Hle & Hmin). exists k. split; [done|]. split; [done|]. split.
    { destruct Hin as [->|]; [by left|right; by right]. }
    split; [done|]. intros j [->|Hj]%elem_of_cons Hcj; [|by apply Hmin].
    rewrite Hcj in E. cbn in E. rewrite Z.geb_leb in E. apply Z.leb_gt in E. lia.
Qed.

Lemma sort_first_least lm ref l idx v :
  below l -> (exists i, i ∈ l /\ candidate th lm ref i = true) ->
  exists k, least_of lm ref l (sort_first th lm ref l idx v) k.
Proof.
  intros Hl. induction Hl as [|x l Hx Hl IH]; intros (i & Hi & Hc); [by apply not_elem_of_nil in Hi|].
  cbn [sort_first]. destruct (candidate th lm ref x) eqn:E.
  - change (nth x th 0) with (val x). rewrite val_u8 by done.
    destruct (sort_scan_least lm ref (x :: l) x) as (k & Hk & Hck & Hin & _ & Hmin); [by constructor|done|].
    exists k. split; [done|]. split; [done|]. split; [|done]. destruct Hin as [->|]; [by left|done].
  - apply elem_of_cons in Hi as [->|Hi]; [congruence|].
    destruct IH as (k & Hk & Hck & Hin & Hmin); [by exists i|]. exists k. split; [done|]. split; [done|].
    split; [by right|]. intros j [->|Hj]%elem_of_cons Hcj; [congruence|by apply Hmin].
Qed.

(** After some rounds: the candidates are the indices that were not chosen, and larger. *)
Definition round_ok (chosen : list nat) (lm : Z) (ref : option nat) : Prop :=
  (forall i, (i < QDMA_GLOBAL_CSR_ARRAY_SZ)%nat -> candidate th lm ref i = true <-> i ∉ chosen) /\
  (forall c i, c ∈ chosen -> (i < QDMA_GLOBAL_CSR_ARRAY_SZ)%nat -> i ∉ chosen -> val c < val i) /\
  NoDup chosen /\ below chosen.

Lemma elem_of_seq0 i : i ∈ seq 0 QDMA_GLOBAL_CSR_ARRAY_SZ <-> (i < QDMA_GLOBAL_CSR_ARRAY_SZ)%nat.
Proof. rewrite elem_of_seq. lia. Qed.

Lemma below_seq : below (seq 0 QDMA_GLOBAL_CSR_ARRAY_SZ).
Proof. apply Forall_forall. intros i Hi. by apply elem_of_seq0. Qed.

(** Fewer than all indices leave one out. *)
Lemma some_left chosen :
  (length chosen < QDMA_GLOBAL_CSR_ARRAY_SZ)%nat -> exists i, (i < QDMA_GLOBAL_CSR_ARRAY_SZ)%nat /\ i ∉ chosen.
Proof.
  intros Hl. destruct (decide (Exists (fun i => i ∉ chosen) (seq 0 QDMA_GLOBAL_CSR_ARRAY_SZ))) as [He|Hn].
  - apply Exists_exists in He as (i & Hi & Hc). exists i. split; [by apply elem_of_seq0|done].
  - exfalso. apply (Nat.lt_irrefl QDMA_GLOBAL_CSR_ARRAY_SZ). eapply Nat.le_lt_trans; [|exact Hl].
    rewrite <- (length_seq QDMA_GLOBAL_CSR_ARRAY_SZ 0) at 1. apply submseteq_length.
    apply NoDup_submseteq; [apply NoDup_seq|]. intros i Hi.
    destruct (decide (i ∈ chosen)); [done|]. exfalso. apply Hn. apply Exists_exists. by exists i.
Qed.

Lemma sort_rounds_sorted n chosen lm ref j idx v :
  round_ok chosen lm ref -> (n + length chosen = QDMA_GLOBAL_CSR_ARRAY_SZ)%nat ->
  exists P, sort_rounds n th lm ref j idx v = Z.of_nat <$> P /\ length P = n /\
    NoDup (chosen ++ P) /\ below P /\ StronglySorted Z.lt (val <$> P) /\
    forall p, p ∈ P -> p ∉ chosen.
Proof.
  revert chosen lm ref j idx v. induction n as [|n IH]; intros chosen lm ref j idx v (Hc & Hlt & Hnd & Hbl) Hn.
  { exists []. rewrite app_nil_r. split_and!; try done; constructor || (intros p Hp; by apply not_elem_of_nil in Hp). }
  destruct (some_left chosen) as (i0 & Hi0 & Hni0); [lia|].
  destruct (sort_first_least lm ref (seq 0 QDMA_GLOBAL_CSR_ARRAY_SZ) idx v below_seq) as (k & Hk & Hck & Hin & Hmin).
  { exists i0. split; [by apply elem_of_seq0|by apply Hc]. }
  apply elem_of_seq0 in Hin. assert (Hnk : k ∉ chosen) by (by apply Hc).
  cbn [sort_rounds]. rewrite Hk, Nat2Z.id.
  assert (Hmin' : forall i, (i < QDMA_GLOBAL_CSR_ARRAY_SZ)%nat -> i ∉ chosen -> i <> k -> val k < val i).
  { intros i Hi Hni Hne. assert (val k <= val i) by (apply Hmin; [by apply elem_of_seq0|by apply Hc]).
    assert (val k <> val i) by (intros E; apply Hne; symmetry; by apply val_inj). lia. }
  destruct (IH (chosen ++ [k]) (val k) (Some k) (j + 1) (j + 1) (val k)) as (P & HP & HlP & HndP & HbP & HsP & HniP).
  { split; [|split; [|split]].
    - intros i Hi. unfold candidate. change (nth i th 0) with (val i).
      rewrite not_elem_of_app, list_elem_of_singleton, andb_true_iff, !negb_true_iff, bool_decide_eq_false, Z.ltb_ge.
      split.
      + intros [Hne Hge]. assert (i <> k) by congruence. split; [|done]. intros Hic.
        pose proof (Hlt i k Hic Hin Hnk). lia.
      + intros [Hni Hne]. split; [congruence|]. pose proof (Hmin' i Hi Hni Hne). lia.
    - intros c i [Hcc| ->%list_elem_of_singleton]%elem_of_app Hi Hni;
        rewrite not_elem_of_app, list_elem_of_singleton in Hni; destruct Hni; [by apply Hlt|by apply Hmin'].
    - apply NoDup_app. split; [done|]. split; [|by apply NoDup_singleton].
      intros x Hx ->%list_elem_of_singleton. done.
    - apply Forall_app. split; [done|]. by constructor. }
  { rewrite length_app. cbn. lia. }
  exists (k :: P). rewrite HP. split; [done|]. split; [cbn; lia|].
  rewrite <- app_assoc in HndP. split; [done|]. split; [by constructor|]. split.
  - cbn. constructor; [done|]. apply Forall_fmap, Forall_forall. intros p Hp. cbn.
    pose proof (HniP p Hp) as Hnp. rewrite not_elem_of_app, list_elem_of_singleton in Hnp. destruct Hnp.
    apply Hmin'; [|done|done]. by apply (proj1 (Forall_forall _ _) HbP).
  - intros p [->|Hp]%elem_of_cons; [done|]. specialize (HniP p Hp).
    rewrite not_elem_of_app in HniP. tauto.
Qed.

Lemma sort_run :
  exists P, qdma_sort_c2h_cntr_th_values th = Z.of_nat <$> P /\ P ≡ₚ seq 0 QDMA_GLOBAL_CSR_ARRAY_SZ /\
    StronglySorted Z.lt (val <$> P).
Proof.
  destruct (sort_rounds_sorted QDMA_GLOBAL_CSR_ARRAY_SZ [] 0 None 0 0 (u8 (nth 0 th 0))) as (P & HP & HlP & Hnd & Hb & Hs & _).
  - split; [|split; [|split]].
    + intros i Hi. unfold candidate. change (nth i th 0) with (val i).
      rewrite bool_decide_eq_false_2 by done. cbn [negb andb].
      split; [intros _; apply not_elem_of_nil|intros _]. rewrite negb_true_iff. apply Z.ltb_ge.
      pose proof (proj1 (Forall_lookup _ _) Hu8 i _ (val_lookup i Hi)). unfold is_u8 in *. lia.
    + intros c i Hc. by apply not_elem_of_nil in Hc.
    + constructor.
    + constructor.
  - apply Nat.add_0_r.
  - exists P. split; [exact HP|]. split; [|done]. apply submseteq_length_Permutation.
    + apply NoDup_submseteq; [done|]. intros i Hi. apply elem_of_seq0. by apply (proj1 (Forall_forall _ _) Hb).
    + rewrite length_seq. lia.
Qed.
End sorting.

(** The driver's sort of the thresholds lists every index once, in ascending order of the
    thresholds, if these are distinct and fit into a byte. *)
Theorem sort_thresholds th :
  length th = QDMA_GLOBAL_CSR_ARRAY_SZ -> Forall is_u8 th -> NoDup th ->
  let l := qdma_sort_c2h_cntr_th_values th in
  l ≡ₚ Z.of_nat <$> seq 0 QDMA_GLOBAL_CSR_ARRAY_SZ /\
  StronglySorted Z.lt ((fun i => nth (Z.to_nat i) th 0) <$> l).
Proof.
  intros Hl Hu Hd. destruct (sort_run th Hl Hu Hd) as (P & E & Hp & Hs). cbn zeta. rewrite E. split; [by rewrite Hp|].
  rewrite <- list_fmap_compose. erewrite list_fmap_ext; [exact Hs|].
  intros i x _. unfold val. cbn. by rewrite Nat2Z.id.
Qed.

(** ** Setting up *)

Lemma place_of_run l idx k :
  idx ∈ l -> exists i, place_of idx l k = Some (k + Z.of_nat i) /\ l !! i = Some idx.
Proof.
  revert k. induction l as [|x l IH]; intros k Hin; [by apply not_elem_of_nil in Hin|].
  cbn [place_of]. destruct (Z.eqb_spec x idx) as [->|Hne].
  - exists O. split; [f_equal; lia|done].
  - apply elem_of_cons in Hin as [?|Hin]; [congruence|]. destruct (IH (k + 1) Hin) as (i & E & Hi).
    exists (S i). rewrite E. split; [f_equal; lia|done].
Qed.

(** A queue's indices into the tables of its device. *)
Record conf_ok (c : c2h_conf) : Prop := {
  cf_th : length (c2h_cnt_th c) = QDMA_GLOBAL_CSR_ARRAY_SZ;
  cf_u8 : Forall is_u8 (c2h_cnt_th c);
  cf_dup : NoDup (c2h_cnt_th c);
  cf_sorted : dev_sorted_idx c = qdma_sort_c2h_cntr_th_values (c2h_cnt_th c);
  cf_sizes : length (ring_sz c) = QDMA_GLOBAL_CSR_ARRAY_SZ /\ length (c2h_buf_sz c) = QDMA_GLOBAL_CSR_ARRAY_SZ;
  cf_idx : Forall (fun i => 0 <= i <= QDMA_CSR_LAST)
             [desc_rng_sz_idx c; cmpl_rng_sz_idx c; c2h_buf_sz_idx c; cmpl_cnt_th_idx c] }.

Lemma at_conf_run get i s :
  length (get (conf s)) = QDMA_GLOBAL_CSR_ARRAY_SZ -> 0 <= i <= QDMA_CSR_LAST ->
  exists v, at_conf get i s = Ret v s /\ get (conf s) !! Z.to_nat i = Some v.
Proof.
  intros Hl Hi. destruct (lookup_lt_is_Some_2 (get (conf s)) (Z.to_nat i)) as [v Hv].
  { unfold QDMA_CSR_LAST, QDMA_GLOBAL_CSR_ARRAY_SZ in *. lia. }
  exists v. split; [|done]. unfold at_conf, deref. by rewrite Hv.
Qed.

Lemma better_fit_spec sizes v best i :
  match best with Some b => (b < i)%nat /\ v < nth b sizes 0 | None => True end ->
  match better_fit sizes v best i with Some b => (b < S i)%nat /\ v < nth b sizes 0 | None => True end.
Proof.
  unfold better_fit. intros Hb. destruct (Z.gtb_spec (nth i sizes 0) v).
  - destruct best as [b|]; [destruct (_ <? _)|]; lia.
  - destruct best; [|done]. lia.
Qed.

Lemma larger_ring_spec sizes v :
  match best_fit_idx sizes v with Some b => (b < QDMA_GLOBAL_CSR_ARRAY_SZ)%nat /\ v < nth b sizes 0 | None => True end.
Proof.
  unfold best_fit_idx. generalize QDMA_GLOBAL_CSR_ARRAY_SZ. intros n. induction n as [|n IH]; [done|].
  rewrite seq_S, fold_left_app. cbn [fold_left]. rewrite Nat.add_0_l. by apply better_fit_spec.
Qed.

(** A configured queue: its threshold is in the sorted list, and its completion ring is not
    smaller than asked for. *)
Lemma config_complete_run s :
  conf_ok (conf s) ->
  exists s', qdma_descq_config_complete s = Ret 0 s' /\ cntr_ok s' /\
    avail s' = u32 (rngsz (conf s') - 1) /\ pidx s' = 0 /\ cidx_cmpt s' = 0 /\
    nth (Z.to_nat (cmpl_rng_sz_idx (conf s))) (ring_sz (conf s)) 0 <= nth (Z.to_nat (cmpl_rng_sz_idx (conf s'))) (ring_sz (conf s)) 0.
Proof.
  intros [Hth Hu8 Hdup Hsrt [Hs1 Hs2] Hidx]. destruct (sort_run _ Hth Hu8 Hdup) as (P & HP & Hperm & _).
  rewrite <- Hsrt in HP.
  assert (Hlen : length (dev_sorted_idx (conf s)) = QDMA_GLOBAL_CSR_ARRAY_SZ).
  { by rewrite HP, length_fmap, Hperm, length_seq. }
  assert (Hrange : Forall (fun i => 0 <= i <= QDMA_CSR_LAST) (dev_sorted_idx (conf s))).
  { rewrite HP. apply Forall_fmap, Forall_forall. intros i Hi. rewrite Hperm in Hi. apply (elem_of_seq0 _ Hth) in Hi.
    cbn. unfold QDMA_CSR_LAST. lia. }
  apply Forall_cons in Hidx as [Hi1 [Hi2 [Hi3 [Hi4 _]%Forall_cons]%Forall_cons]%Forall_cons].
  unfold qdma_descq_config_complete. rewrite (bind_Ret _ _ s (conf s) s) by done.
  destruct (at_conf_run ring_sz _ s Hs1 Hi1) as (n & Hn & _). rewrite (bind_Ret _ _ _ _ _ Hn).
  destruct (at_conf_run ring_sz _ s Hs1 Hi2) as (v & Hv & Hvl). rewrite (bind_Ret _ _ _ _ _ Hv). cbn zeta.
  set (k := match best_fit_idx (ring_sz (conf s)) v with Some b => Z.of_nat b | None => cmpl_rng_sz_idx (conf s) end).
  pose proof (larger_ring_spec (ring_sz (conf s)) v) as Hfit.
  assert (Hk : 0 <= k <= QDMA_CSR_LAST).
  { unfold k, QDMA_CSR_LAST. destruct (best_fit_idx _ _); [lia|done]. }
  destruct (at_conf_run ring_sz k s Hs1 Hk) as (m & Hm & _). rewrite (bind_Ret _ _ _ _ _ Hm).
  destruct (at_conf_run c2h_buf_sz _ s Hs2 Hi3) as (b & Hb & _). rewrite (bind_Ret _ _ _ _ _ Hb).
  unfold put_cmpt. do 7 (rewrite (bind_Ret _ _ _ tt _) by reflexivity).
  match goal with |- exists s', (_ ≫= _) ?x = _ /\ _ => set (s1 := x) end.
  rewrite (bind_Ret _ _ _ _ _ (cnt_th_run s1 (cmpl_cnt_th_idx (conf s)) Hth Hi4)).
  rewrite (bind_Ret _ _ s1 (cntr s1) s1) by done.
  assert (Hin : cmpl_cnt_th_idx (conf s) ∈ take QDMA_GLOBAL_CSR_ARRAY_SZ (dev_sorted_idx (conf s))).
  { rewrite take_ge by lia. rewrite HP. apply list_elem_of_fmap. exists (Z.to_nat (cmpl_cnt_th_idx (conf s))).
    split; [lia|]. rewrite Hperm. apply (elem_of_seq0 _ Hth). unfold QDMA_CSR_LAST, QDMA_GLOBAL_CSR_ARRAY_SZ in *. lia. }
  destruct (place_of_run _ _ 0 Hin) as (i & Hpl & Hli). rewrite Hpl. cbn [default from_option].
  rewrite take_ge in Hli by lia. pose proof (lookup_lt_Some _ _ _ Hli) as Hilt. rewrite Hlen in Hilt.
  change (id (0 + Z.of_nat i)) with (0 + Z.of_nat i). rewrite Z.add_0_l.
  assert (Hi : 0 <= Z.of_nat i <= QDMA_CSR_LAST) by (unfold QDMA_CSR_LAST; lia).
  assert (Hsidx : forall j, 0 <= j <= QDMA_CSR_LAST -> exists x, sorted_idx j s1 = Ret x s1 /\ 0 <= x <= QDMA_CSR_LAST).
  { intros j Hj. destruct (lookup_lt_is_Some_2 (dev_sorted_idx (conf s)) (Z.to_nat j)) as [x Hx].
    { rewrite Hlen. unfold QDMA_CSR_LAST in Hj. lia. }
    exists x. split; [|by apply (proj1 (Forall_lookup _ _) Hrange _ _ Hx)].
    unfold sorted_idx, deref. change (dev_sorted_idx (conf s1)) with (dev_sorted_idx (conf s)). by rewrite Hx. }
  destruct (Hsidx (if Z.of_nat i =? QDMA_CSR_LAST then Z.of_nat i else Z.of_nat i + 1)) as (x & Hx & Hxr).
  { destruct (Z.eqb_spec (Z.of_nat i) QDMA_CSR_LAST); lia. }
  rewrite (bind_Ret _ _ _ _ _ Hx), (bind_Ret _ _ _ _ _ (cnt_th_run s1 x Hth Hxr)).
  destruct (Hsidx (if Z.of_nat i =? 0 then 0 else Z.of_nat i - 1)) as (y & Hy & Hyr).
  { destruct (Z.eqb_spec (Z.of_nat i) 0); unfold QDMA_CSR_LAST in *; lia. }
  rewrite (bind_Ret _ _ _ _ _ Hy), (bind_Ret _ _ _ _ _ (cnt_th_run s1 y Hth Hyr)).
  rewrite (bind_Ret _ _ s1 tt _) by reflexivity.
  eexists. split; [reflexivity|]. split; [|split; [done|split; [done|split; [done|]]]].
  - split; cbn; try done. rewrite Nat2Z.id, Hli. f_equal.
    rewrite fld_put_apart by ((split; cbn; lia) || (right; cbn; lia) || (left; cbn; lia)).
    rewrite fld_put_same by (split; cbn; lia). symmetry. apply Z.mod_small.
    unfold QDMA_CSR_LAST, QDMA_GLOBAL_CSR_ARRAY_SZ in Hi4. cbn. lia.
  - cbn. fold k. rewrite (nth_lookup_Some _ _ _ _ Hvl). unfold k. destruct (best_fit_idx _ _) as [bf|].
    + rewrite Nat2Z.id. lia.
    + by rewrite (nth_lookup_Some _ _ _ _ Hvl).
Qed.

(** Thresholds of a card, distinct. *)
Definition some_thresholds : list Z := [2; 4; 8; 16; 24; 32; 48; 64; 80; 96; 112; 128; 144; 160; 176; 192].

Lemma sort_thresholds_witness :
  NoDup (rev some_thresholds) /\ qdma_sort_c2h_cntr_th_values (rev some_thresholds) = rev (Z.of_nat <$> seq 0 16) /\
  let l := qdma_sort_c2h_cntr_th_values (rev some_thresholds) in
  l ≡ₚ Z.of_nat <$> seq 0 QDMA_GLOBAL_CSR_ARRAY_SZ /\
  StronglySorted Z.lt ((fun i => nth (Z.to_nat i) (rev some_thresholds) 0) <$> l).
Proof.
  assert (Hn : NoDup (rev some_thresholds)) by (apply (bool_decide_unpack _); vm_compute; exact I).
  split; [exact Hn|]. split; [vm_compute; reflexivity|].
  apply (sort_thresholds (rev some_thresholds)); [reflexivity| |exact Hn].
  apply (bool_decide_unpack _). vm_compute. exact I.
Defined.

(** With equal thresholds only the last index is left out of the next round: two indices take
    turns and the larger thresholds are never reached. *)
Lemma sort_misses_larger :
  qdma_sort_c2h_cntr_th_values [5; 5; 7; 9; 11; 13; 15; 17; 19; 21; 23; 25; 27; 29; 31; 33] =
  [1; 0; 1; 0; 1; 0; 1; 0; 1; 0; 1; 0; 1; 0; 1; 0].
Proof. by vm_compute. Qed.

(** A configured queue, and its threshold under load: the counter moves one place up. *)
Definition demo_blank_queue : c2h_descq :=
  let sizes := replicate QDMA_GLOBAL_CSR_ARRAY_SZ 2049 in
  mk_c2h (mk_conf 0 0 0 0 0 0 0 0 5 0 3 1 1 false false false true false false POLL_MODE true false 0
            sizes (replicate QDMA_GLOBAL_CSR_ARRAY_SZ 4096) some_thresholds (qdma_sort_c2h_cntr_th_values some_thresholds))
    Q_STATE_ENABLED false false 0 0 0 0 0 0 0 0 0 false (mk_cntr 0 0 0 0 0) [] 0 0 flq_zero [] [] [] [] [].

Lemma demo_conf_ok : conf_ok (conf demo_blank_queue).
Proof.
  split; try reflexivity.
  - apply (bool_decide_unpack _). vm_compute. exact I.
  - apply (bool_decide_unpack _). vm_compute. exact I.
  - split; reflexivity.
  - cbn. unfold QDMA_CSR_LAST, QDMA_GLOBAL_CSR_ARRAY_SZ. repeat constructor; cbn; lia.
Qed.

Definition demo_configured : c2h_descq := end_state (qdma_descq_config_complete demo_blank_queue).

Lemma demo_cntr_ok : cntr_ok demo_configured.
Proof.
  destruct (config_complete_run demo_blank_queue demo_conf_ok) as (s' & Hrun & Hck & _).
  unfold demo_configured. by rewrite Hrun.
Qed.

Lemma adaptive_threshold_witness :
  cntr_ok demo_configured /\ sorted_c2h_cntr_idx (cntr demo_configured) = 3 /\
  sorted_c2h_cntr_idx (cntr (end_state (descq_adjust_c2h_cntr_th 40 0 demo_configured))) = 4 /\
  returns (descq_adjust_c2h_cntr_th 40 0) demo_configured (fun _ s' => adapted demo_configured s' 40 0).
Proof.
  split; [exact demo_cntr_ok|]. split; [vm_compute; reflexivity|]. split; [vm_compute; reflexivity|].
  exact (adaptive_threshold demo_configured 40 0 demo_cntr_ok).
Defined.
