(* ===== verification/C2hCmpl.v ===== *)
(** * C2hCmpl: what processing completions does

    A queue that receives a stream and has no callback is a channel of bytes: the packets the
    card reports become the stream ([C2hRead.stream]), the requests that wait are given its bytes
    in order, and the buffers that have been read go back to the card. *)

From S2P Require Import Prelude QdmaErrors Mmio CLayout Contexts Csr SoftCsr S80Csr.
From S2P Require Import Descq DescqInv C2h C2hRead C2hCntr.
Local Open Scope Z_scope.

(** ** How many buffers a packet takes *)

(** The number of pieces of [b] bytes, the last one not empty, and its length. *)
Definition pieces (len b : Z) : Z * Z :=
  let n := (len - 1) / b + 1 in (n, len - (n - 1) * b).

Lemma fl_loop_run fuel b n l :
  0 < b -> is_u32 l -> (Z.to_nat l < fuel)%nat -> fl_loop fuel b n l = Some (n + l / b, l mod b).
Proof.
  intros Hb. revert n l. induction fuel as [|fuel IH]; intros n l Hl Hf; [lia|].
  cbn [fl_loop]. unfold is_u32 in Hl. destruct (Z.geb_spec l b) as [Hge|Hlt].
  - rewrite u32_small by (unfold is_u32; lia). rewrite IH by (unfold is_u32; lia).
    do 2 f_equal.
    + replace l with (l - b + 1 * b) at 2 by lia. rewrite Z.div_add by lia. lia.
    + replace l with (l - b + 1 * b) at 2 by lia. by rewrite Z_mod_plus_full.
  - rewrite Z.div_small, Z.mod_small by lia. do 2 f_equal. lia.
Qed.

(** [(len & (len - 1)) == 0] for powers of two. *)
Lemma land_pred_pow2 len : 0 < len -> Z.land len (len - 1) = 0 -> exists k, 0 <= k /\ len = 2 ^ k.
Proof.
  intros Hl E. exists (Z.log2 len). split; [apply Z.log2_nonneg|].
  destruct (Z.log2_spec len Hl) as [H1 H2]. destruct (Z.eq_dec len (2 ^ Z.log2 len)) as [|Hne]; [done|exfalso].
  assert (Hb : Z.testbit (Z.land len (len - 1)) (Z.log2 len) = true).
  { rewrite Z.land_spec, Z.bit_log2 by done. cbn [andb].
    assert (Z.log2 (len - 1) = Z.log2 len) as <- by (apply Z.log2_unique; [apply Z.log2_nonneg|lia]).
    apply Z.bit_log2. pose proof (Z.pow_pos_nonneg 2 (Z.log2 len) ltac:(lia) (Z.log2_nonneg _)). lia. }
  by rewrite E, Z.bits_0 in Hb.
Qed.

Lemma get_fl_nr_run len shift :
  is_u16 len -> 0 <= shift < 31 ->
  get_fl_nr len (2 ^ shift) shift (u32 (Z.shiftl 1 shift - 1)) =
  Some (if len =? 0 then (1, 2 ^ shift) else pieces len (2 ^ shift)).
Proof.
  intros Hl Hs. unfold is_u16 in Hl. set (b := 2 ^ shift).
  assert (Hb : 0 < b <= 2 ^ 30) by (unfold b; split; [apply Z.pow_pos_nonneg; lia|apply Z.pow_le_mono_r; lia]).
  change (2 ^ 30) with 1073741824 in Hb.
  assert (Hmask : u32 (Z.shiftl 1 shift - 1) = b - 1).
  { rewrite Z.shiftl_1_l. fold b. apply u32_small. unfold is_u32. lia. }
  rewrite Hmask. unfold get_fl_nr. destruct (Z.eqb_spec len 0) as [->|Hne].
  { cbn [Z.land Z.eqb]. done. }
  rewrite (u32_small (len - 1)) by (unfold is_u32; lia).
  assert (Hmod : Z.land len (b - 1) = len mod b).
  { replace (b - 1) with (Z.ones shift) by (unfold b; rewrite Z.ones_equiv; lia). apply Z.land_ones. lia. }
  assert (Hpieces : pieces len b = if len mod b =? 0 then (len / b, b) else (len / b + 1, len mod b)).
  { unfold pieces. pose proof (Z.div_mod len b ltac:(lia)). pose proof (Z.mod_pos_bound len b ltac:(lia)).
    destruct (Z.eqb_spec (len mod b) 0) as [E|E].
    - assert ((len - 1) / b = len / b - 1) as ->; [|f_equal; lia].
      symmetry. apply (Z.div_unique_pos _ _ _ (b - 1)); lia.
    - assert ((len - 1) / b = len / b) as ->; [|f_equal; lia].
      symmetry. apply (Z.div_unique_pos _ _ _ (len mod b - 1)); lia. }
  destruct (Z.eqb_spec (Z.land len (len - 1)) 0) as [Hp|Hp].
  - (* a power of two *)
    rewrite Hmod, Hpieces. rewrite u32_small by (unfold is_u32; lia).
    rewrite Z.shiftr_div_pow2 by lia. fold b.
    assert (Hup : (len + (b - 1)) / b = if len mod b =? 0 then len / b else len / b + 1).
    { pose proof (Z.div_mod len b ltac:(lia)). pose proof (Z.mod_pos_bound len b ltac:(lia)).
      destruct (Z.eqb_spec (len mod b) 0).
      - symmetry. apply (Z.div_unique_pos _ _ _ (b - 1)); lia.
      - symmetry. apply (Z.div_unique_pos _ _ _ (len mod b - 1)); lia. }
    rewrite Hup. by destruct (len mod b =? 0).
  - destruct (Z.leb_spec len b) as [Hle|Hgt].
    + unfold pieces. rewrite Z.div_small by lia. do 2 f_equal; lia.
    + rewrite fl_loop_run by (unfold is_u32; lia). cbn [mbind option_bind]. rewrite Hpieces, Z.add_0_l.
      by destruct (len mod b =? 0).
Qed.

(** C20. [get_fl_nr] computes the number of buffers of a packet and the length in its last one, if
    the buffers' size is a power of two, for every length the completion entry can have;
    an empty packet takes one buffer. *)
Theorem get_fl_nr_pieces len shift :
  is_u16 len -> 0 <= shift < 31 ->
  get_fl_nr len (2 ^ shift) shift (u32 (Z.shiftl 1 shift - 1)) =
  Some (if len =? 0 then (1, 2 ^ shift) else pieces len (2 ^ shift)).
Proof. apply get_fl_nr_run. Qed.

Lemma get_fl_nr_pieces_witness :
  is_u16 9000 /\ 0 <= 12 < 31 /\
  get_fl_nr 9000 (2 ^ 12) 12 (u32 (Z.shiftl 1 12 - 1)) = Some (if 9000 =? 0 then (1, 2 ^ 12) else pieces 9000 (2 ^ 12)).
Proof. split; [unfold is_u16; lia|split; [lia|]]. apply (get_fl_nr_pieces 9000 12); [unfold is_u16|]; lia. Defined.

(** With buffers of another size the shortcut for powers of two rounds to the next power of
    two of the size: a packet of 4096 bytes in buffers of 3968 is taken for one buffer. *)
Lemma get_fl_nr_too_few :
  get_next_powof2 3968 = Some 4096 /\
  get_fl_nr 4096 3968 12 4095 = Some (1, 3968) /\ pieces 4096 3968 = (2, 128).
Proof. by vm_compute. Qed.

(** ** Packets in the buffers of the ring *)

Lemma window_app bufs fi a b :
  0 <= fi < Z.of_nat (length bufs) ->
  window bufs fi (a + b) = window bufs fi a ++ window bufs ((fi + Z.of_nat a) mod Z.of_nat (length bufs)) b.
Proof.
  revert fi. induction a as [|a IH]; intros fi Hfi.
  - by rewrite Z.add_0_r, Z.mod_small.
  - cbn [Nat.add window app]. f_equal. rewrite IH by (apply Z.mod_pos_bound; lia).
    f_equal. f_equal. rewrite Zplus_mod_idemp_l. f_equal. lia.
Qed.

Lemma sg_bytes_trim l g : 0 <= l <= sg_len g -> sg_bytes (set_sg_len l g) = take (Z.to_nat l) (sg_bytes g).
Proof.
  intros Hl. unfold sg_bytes. cbn. rewrite (range_split _ _ (sg_len g) l) by done.
  rewrite take_app_length'; [done|]. by rewrite range_length.
Qed.

(** Buffers of a packet of [len] bytes, and the length of the last one. *)
Definition packet_bufs (len b : Z) : Z := if len =? 0 then 1 else (pieces len b).1.
Definition packet_last (len b : Z) : Z := if len =? 0 then 0 else (pieces len b).2.

Lemma packet_pieces len b :
  0 <= len -> 0 < b ->
  let n := packet_bufs len b in
  1 <= n /\ 0 <= packet_last len b <= b /\ len = (n - 1) * b + packet_last len b.
Proof.
  intros Hl Hb. unfold packet_bufs, packet_last, pieces. destruct (Z.eqb_spec len 0) as [->|]; cbn; [lia|].
  pose proof (Z.div_mod (len - 1) b ltac:(lia)). pose proof (Z.mod_pos_bound (len - 1) b ltac:(lia)).
  pose proof (Z.div_pos (len - 1) b ltac:(lia) ltac:(lia)). nia.
Qed.

(** The bytes of a packet that begins in buffer [p]: the first ones of its buffers. *)
Definition packet_bytes (bufs : list qdma_sw_sg) (b p len : Z) : list (Z * Z) :=
  take (Z.to_nat len) (bytes_of (window bufs p (Z.to_nat (packet_bufs len b)))).

(** Buffers that are full from [p] on. *)
Definition full_from (N : Z) (bufs : list qdma_sw_sg) (b p n : Z) : Prop :=
  forall e g, 0 <= e < n -> bufs !! Z.to_nat ((p + e) mod N) = Some g -> sg_len g = b.

Lemma full_window_bytes N bufs b p n :
  Z.of_nat (length bufs) = N -> 0 <= p < N -> 0 <= b -> full_from N bufs b p (Z.of_nat n) ->
  Z.of_nat (length (bytes_of (window bufs p n))) = Z.of_nat n * b.
Proof.
  intros HN. revert p. induction n as [|n IH]; intros p Hp Hb Hf; [done|].
  cbn [window]. rewrite bytes_of_cons, length_app. rewrite HN.
  assert (Hg : sg_len (nth (Z.to_nat p) bufs sg_null) = b).
  { destruct (lookup_in bufs p N HN Hp) as [g Hg]. rewrite (nth_lookup_Some _ _ _ _ Hg).
    apply (Hf 0); [lia|]. by rewrite Z.add_0_r, Z.mod_small. }
  rewrite Nat2Z.inj_add, IH; [|apply Z.mod_pos_bound; lia|done|].
  - unfold sg_bytes. rewrite range_length, Hg. lia.
  - intros e g He Hg'. apply (Hf (e + 1) g); [lia|]. rewrite Zplus_mod_idemp_l in Hg'.
    by replace (p + (e + 1)) with (p + 1 + e) by lia.
Qed.

(** The length of the last buffer is set: what is in the buffers is the packet. *)
Lemma packet_in_window N bufs b p len g :
  Z.of_nat (length bufs) = N -> 0 <= p < N -> 0 < b -> 0 <= len ->
  packet_bufs len b <= N -> full_from N bufs b p (packet_bufs len b) ->
  let last := (p + packet_bufs len b - 1) mod N in
  bufs !! Z.to_nat last = Some g ->
  bytes_of (window (<[Z.to_nat last := set_sg_len (packet_last len b) g]> bufs) p (Z.to_nat (packet_bufs len b))) =
  packet_bytes bufs b p len.
Proof.
  intros HN Hp Hb Hl Hn Hf last Hg. destruct (packet_pieces len b Hl Hb) as (H1 & H2 & H3).
  set (n := packet_bufs len b) in *. set (l := packet_last len b) in *.
  unfold packet_bytes. fold n. replace (Z.to_nat n) with (Z.to_nat (n - 1) + 1)%nat by lia.
  assert (Hlast : (p + Z.of_nat (Z.to_nat (n - 1))) mod N = last) by (unfold last; f_equal; lia).
  assert (Hlb : 0 <= last < N) by (apply Z.mod_pos_bound; lia).
  rewrite !window_app by (rewrite ?length_insert; lia). rewrite length_insert, HN, Hlast, !bytes_of_app.
  rewrite (buffers_ext bufs (<[Z.to_nat last:=set_sg_len l g]> bufs)); [|by rewrite length_insert|lia|].
  2: { intros d Hd. apply list_lookup_insert_ne. rewrite HN. intros E.
       pose proof (Z.mod_pos_bound (p + d) N ltac:(lia)).
       assert (d = n - 1); [|lia]. apply (mod_apart N p); [lia|lia|lia|].
       replace (p + (n - 1)) with (p + n - 1) by lia. fold last. lia. }
  assert (HA : Z.of_nat (length (bytes_of (window bufs p (Z.to_nat (n - 1))))) = (n - 1) * b).
  { rewrite (full_window_bytes N bufs b); [rewrite Z2Nat.id; lia|done|done|lia|].
    intros e g' He Hg'. apply (Hf e g'); [lia|done]. }
  rewrite take_app_ge by lia. f_equal.
  cbn [window]. rewrite !nth_lookup, list_lookup_insert_eq, Hg by (apply lookup_lt_Some in Hg; done).
  cbn [default from_option id]. unfold bytes_of. cbn [fmap list_fmap mjoin list_join]. rewrite !app_nil_r.
  assert (sg_len g = b).
  { apply (Hf (n - 1)); [lia|]. by replace (p + (n - 1)) with (p + n - 1) by lia. }
  rewrite sg_bytes_trim by lia. f_equal. unfold bytes_of in HA. lia.
Qed.

Section c2h.
Context `{C2hEngine}.

(** ** One packet *)

(** A queue without a callback, the next packet of which begins in buffer [p]: the free buffers
    are those that are not waiting, less one, and full. *)
Record rxq (N shift p : Z) (s : c2h_descq) : Prop := {
  q_rx : rx_ok N (set_pidx p s);
  q_avail : avail s = N - 1 - waiting (set_pidx p s);
  q_full : full_from N (sdesc (flq s)) (c2h_bufsz (conf s)) p (N - waiting (set_pidx p s));
  q_reuse : reusable s;
  q_ring : rngsz (conf s) = N;
  q_dflt : c2h_packet (conf s) = false;
  q_shift : 0 <= shift < 31 /\ desc_pg_shift (flq s) = shift /\ c2h_bufsz (conf s) = 2 ^ shift }.

(** The stream, with the packets before [p]. *)
Definition stream_to (p : Z) (s : c2h_descq) : list (Z * Z) := stream (set_pidx p s).

(** What taking completion entries leaves alone. *)
Definition rest' (s : c2h_descq) :=
  (conf s, q_state s, q_stop_wait s, err s, pidx s, pidx_cmpt s, cmpt_entry_len s,
   (cmpt_cidx_info s, pidx_info s, pend_list_empty s, cntr s, pend_list s, copies s, page_log s, packets s, finished s, regs s)).
Definition flq_rest' (f : qdma_flq) :=
  (size f, desc_buf_size f, num_pages f, num_pgs_mask f, num_bufs_per_pg f, alloc_idx f, recycle_idx f,
   (max_pg_offset f, desc_pg_order f, desc_pg_shift f, flq_desc f, pkt_cnt f, pg_sdesc f, pidx_pend f)).
Definition place' (s : c2h_descq) := (cidx_cmpt s, color s, desc_cmpt_cur s).

(** Marks in [sdesc_info]. *)
Lemma store_infos_run (l : list Z) (f : Z -> Z) g s :
  (forall k, k ∈ l -> (Z.to_nat (f k) < length (sdesc_info (flq s)))%nat) ->
  exists info, for_each l (fun k => store_info (f k) g) s = Ret tt (on_flq (set_sdesc_info info) s) /\
    length info = length (sdesc_info (flq s)).
Proof.
  revert s. induction l as [|k l IH]; intros s Hl.
  - exists (sdesc_info (flq s)). split; [|done]. unfold on_flq.
    destruct s as [? ? ? ? ? ? ? ? ? ? ? ? ? ? ? ? ? ? [] ? ? ? ? ?]. done.
  - destruct (lookup_lt_is_Some_2 (sdesc_info (flq s)) (Z.to_nat (f k))) as [d Hd]; [apply Hl; by left|].
    assert (E : store_info (f k) g s =
      Ret tt (on_flq (fun q => set_sdesc_info (<[Z.to_nat (f k) := g d]> (sdesc_info q)) q) s)) by (by apply store_flq_run).
    cbn [for_each]. rewrite (bind_Ret _ _ _ _ _ E).
    destruct (IH (on_flq (fun q => set_sdesc_info (<[Z.to_nat (f k) := g d]> (sdesc_info q)) q) s)) as (info & Hrun & Hlen).
    { intros k' Hk'. cbn. rewrite length_insert. apply Hl. by right. }
    exists info. rewrite Hrun. split; [done|]. rewrite Hlen. cbn. by rewrite length_insert.
Qed.

Lemma store_info_run i g s :
  (Z.to_nat i < length (sdesc_info (flq s)))%nat ->
  exists info, store_info i g s = Ret tt (on_flq (set_sdesc_info info) s) /\
    length info = length (sdesc_info (flq s)).
Proof.
  intros Hi. destruct (lookup_lt_is_Some_2 _ _ Hi) as [d Hd].
  unfold store_info. rewrite (store_flq_run _ _ _ _ s d Hd). eexists. split; [done|]. by rewrite length_insert.
Qed.

(** What a packet of [len] bytes changes. *)
Lemma rcv_pkt_run N shift p s cmpl len :
  rxq N shift p s -> cmpl_pidx cmpl = p -> is_u16 len ->
  packet_bufs len (c2h_bufsz (conf s)) <= avail s ->
  let n := packet_bufs len (c2h_bufsz (conf s)) in
  let last := (p + n - 1) mod N in
  exists info u g,
    sdesc (flq s) !! Z.to_nat last = Some g /\
    length info = length (sdesc_info (flq s)) /\
    rcv_pkt cmpl len s = Ret (0, (p + n) mod N)
      (on_flq (fun f => set_udd_cnt u (set_pkt_dlen (u32 (pkt_dlen f + len)) (set_sdesc_info info
        (set_sdesc (<[Z.to_nat last := set_sg_len (packet_last len (c2h_bufsz (conf s))) g]> (sdesc f)) f))))
        (set_avail (avail s - n) s)).
Proof.
  intros Hq Hp Hlen Hn n last.
  pose proof (q_rx _ _ _ _ Hq) as Hrx. pose proof (rx_arrays _ _ Hrx) as Ha. cbn in Ha.
  assert (HN : 0 < N < 65536) by apply Ha. assert (Hpb : 0 <= p < N) by apply (rx_pidx _ _ Hrx).
  destruct (q_shift _ _ _ _ Hq) as (Hs & Hsh & Hb).
  assert (Hbpos : 0 < c2h_bufsz (conf s)) by (rewrite Hb; apply Z.pow_pos_nonneg; lia).
  pose proof (packet_pieces len _ (proj1 Hlen) Hbpos) as (H1 & H2 & H3). fold n in H1, H3, Hn.
  pose proof (q_avail _ _ _ _ Hq) as Hav. pose proof (rx_avail _ _ Hrx) as Hu. cbn in Hu.
  pose proof (waiting_mod N _ Hrx) as Hw. pose proof (Z.mod_pos_bound (pidx (set_pidx p s) - pidx_pend (flq (set_pidx p s))) N ltac:(lia)) as Hwb.
  rewrite <- Hw in Hwb.
  assert (Hlb : 0 <= last < N) by (apply Z.mod_pos_bound; lia).
  destruct (lookup_in (sdesc (flq s)) last N (ao_sdesc _ _ Ha) Hlb) as [g Hg].
  unfold rcv_pkt. rewrite (bind_Ret _ _ s s s) by done.
  rewrite Hsh, Hb, get_fl_nr_run by (done || lia). rewrite <- Hb, Hp, (q_ring _ _ _ _ Hq).
  set (l_len := if len =? 0 then 2 ^ shift else (pieces len (2 ^ shift)).2).
  assert (Hfl : (if len =? 0 then (1, c2h_bufsz (conf s)) else pieces len (c2h_bufsz (conf s))) = (n, l_len)).
  { unfold n, packet_bufs, l_len. rewrite <- Hb. destruct (len =? 0); [done|]. apply surjective_pairing. }
  rewrite Hfl. cbn beta iota.
  assert (Hll : (if len =? 0 then 0 else l_len) = packet_last len (c2h_bufsz (conf s))).
  { unfold l_len, packet_last. rewrite <- Hb. by destruct (len =? 0). }
  rewrite Hll, (u32_small (n - 1)) by (unfold is_u32; lia).
  destruct (ring_idx_mod p (n - 1) N) as (_ & -> & _); [done|done|lia|].
  replace (p + (n - 1)) with (p + n - 1) by lia. fold last.
  destruct (ring_idx_mod last 1 N) as (_ & -> & _); [done|done|lia|].
  assert (Hnext : (last + 1) mod N = (p + n) mod N).
  { unfold last. rewrite Zplus_mod_idemp_l. f_equal. lia. }
  rewrite Hnext.
  rewrite (bind_Ret _ _ _ _ _ (store_flq_run sdesc set_sdesc last _ s g Hg : store_sdesc last _ s = _)).
  set (s1 := on_flq _ s). rewrite (proj2 (Z.ltb_ge _ _)) by lia.
  rewrite (bind_Ret _ _ s1 tt (set_avail (u32 (avail s1 - n)) s1)) by done.
  rewrite (q_dflt _ _ _ _ Hq).
  assert (Hs1 : Z.of_nat (length (sdesc_info (flq s1))) = N) by apply Ha.
  set (s2 := set_avail _ s1). unfold mark_info.
  rewrite (bind_assoc). rewrite (bind_Ret _ _ s2 (flq s2) s2) by done.
  assert (Hsz : size (flq s2) = N) by apply Ha. rewrite Hsz.
  match goal with |- context [for_each ?l (fun k => store_info (@?f k) ?h)] =>
    destruct (store_infos_run l f h s2) as (i1 & Hi1 & Hl1) end.
  { intros k _. pose proof (Z.mod_pos_bound (p + k) N ltac:(lia)). change (flq s2) with (flq s1). lia. }
  rewrite (bind_Ret _ _ _ _ _ Hi1).
  match goal with |- context [store_info p ?h] =>
    destruct (store_info_run p h (on_flq (set_sdesc_info i1) s2)) as (i2 & Hi2 & Hl2) end.
  { change (Z.to_nat p < length i1)%nat. rewrite Hl1. change (flq s2) with (flq s1). lia. }
  rewrite (bind_Ret _ _ _ _ _ Hi2).
  match goal with |- context [store_info last ?h] =>
    destruct (store_info_run last h (on_flq (set_sdesc_info i2) (on_flq (set_sdesc_info i1) s2))) as (i3 & Hi3 & Hl3) end.
  { change (Z.to_nat last < length i2)%nat. rewrite Hl2. change (Z.to_nat last < length i1)%nat.
    rewrite Hl1. change (flq s2) with (flq s1). lia. }
  rewrite (bind_Ret _ _ _ _ _ Hi3).
  rewrite (bind_Ret _ _ _ tt _) by reflexivity.
  exists i3, (if cmpl_udd_en (conf s) then u32 (udd_cnt (flq s) + 1) else udd_cnt (flq s)), g.
  split; [done|]. split; [rewrite Hl3; change (length i2 = length (sdesc_info (flq s))); rewrite Hl2; exact Hl1|].
  assert (Hua : u32 (avail s1 - n) = avail s - n) by (apply u32_small; cbn; unfold is_u32 in *; lia).
  unfold s2. rewrite Hua. destruct (cmpl_udd_en (conf s)); [done|].
  destruct s as [? ? ? ? ? ? ? ? ? ? ? ? ? ? ? ? ? ? [] ? ? ? ? ?]. done.
Qed.

(** The free buffers from [p] on are the same. *)
Definition same_free (N p n : Z) (s s' : c2h_descq) : Prop :=
  forall e, 0 <= e < n -> sdesc (flq s') !! Z.to_nat ((p + e) mod N) = sdesc (flq s) !! Z.to_nat ((p + e) mod N).

(** A packet of [len] bytes was taken: the stream is longer. *)
Record packet_taken (N shift p len : Z) (s : c2h_descq) (p' : Z) (s' : c2h_descq) : Prop := {
  pt_rxq : rxq N shift p' s';
  pt_stream : stream_to p' s' = stream_to p s ++ packet_bytes (sdesc (flq s)) (c2h_bufsz (conf s)) p len;
  pt_rest : rest' s' = rest' s /\ flq_rest' (flq s') = flq_rest' (flq s) /\ place' s' = place' s;
  pt_avail : avail s' = avail s - packet_bufs len (c2h_bufsz (conf s));
  pt_next : p' = (p + packet_bufs len (c2h_bufsz (conf s))) mod N;
  pt_free : same_free N p' (N - waiting (set_pidx p' s')) s s' }.

Lemma rcv_pkt_takes N shift p s cmpl len :
  rxq N shift p s -> cmpl_pidx cmpl = p -> is_u16 len ->
  packet_bufs len (c2h_bufsz (conf s)) <= avail s ->
  exists p' s', rcv_pkt cmpl len s = Ret (0, p') s' /\ packet_taken N shift p len s p' s'.
Proof.
  intros Hq Hp Hlen Hn. set (b := c2h_bufsz (conf s)) in *. set (n := packet_bufs len b) in *.
  destruct (rcv_pkt_run N shift p s cmpl len Hq Hp Hlen Hn) as (info & u & g & Hg & Hinfo & Hrun).
  fold b n in Hg, Hrun. set (last := (p + n - 1) mod N) in *. set (p' := (p + n) mod N) in *.
  match type of Hrun with _ = Ret _ ?x => set (s' := x) in * end.
  exists p', s'. split; [done|].
  pose proof (q_rx _ _ _ _ Hq) as Hrx. pose proof (rx_arrays _ _ Hrx) as Ha. cbn in Ha.
  assert (HN : 0 < N < 65536) by apply Ha. assert (Hpb : 0 <= p < N) by apply (rx_pidx _ _ Hrx).
  destruct (q_shift _ _ _ _ Hq) as (Hs & Hsh & Hb). fold b in Hb.
  assert (Hbpos : 0 < b) by (rewrite Hb; apply Z.pow_pos_nonneg; lia).
  pose proof (packet_pieces len b (proj1 Hlen) Hbpos) as (H1 & H2 & H3). fold n in H1, H3.
  pose proof (q_avail _ _ _ _ Hq) as Hav. pose proof (rx_avail _ _ Hrx) as Hu. cbn in Hu.
  pose proof (waiting_mod N _ Hrx) as Hw. cbn in Hw. set (w := waiting (set_pidx p s)) in *.
  set (pend := pidx_pend (flq s)) in *. assert (Hpend : 0 <= pend < N) by apply (rx_pend _ _ Hrx).
  assert (Hwb : 0 <= w < N) by (rewrite Hw; apply Z.mod_pos_bound; lia).
  assert (Hlb : 0 <= last < N) by (apply Z.mod_pos_bound; lia).
  assert (Hl : Z.of_nat (length (sdesc (flq s))) = N) by apply Ha.
  assert (Hpw : p = (pend + w) mod N).
  { rewrite Hw, Zplus_mod_idemp_r. replace (pend + (p - pend)) with p by lia. symmetry. by apply Z.mod_small. }
  assert (Hw' : waiting (set_pidx p' s') = w + n).
  { change (ring_idx_delta p' pend (size (flq s)) = w + n). rewrite (ao_size _ _ Ha).
    destruct (ring_idx_mod p' pend N) as (-> & _); [done|apply Z.mod_pos_bound; lia|done|].
    unfold p'. rewrite Zminus_mod_idemp_l. replace (p + n - pend) with (p - pend + n) by lia.
    rewrite <- Zplus_mod_idemp_l, <- Hw. apply Z.mod_small. lia. }
  assert (Hlen' : Z.of_nat (length (sdesc (flq s'))) = N) by (cbn; rewrite length_insert; done).
  assert (Hother : forall e, 0 <= e < N -> e <> w + n - 1 ->
    sdesc (flq s') !! Z.to_nat ((pend + e) mod N) = sdesc (flq s) !! Z.to_nat ((pend + e) mod N)).
  { intros e He Hne. cbn. apply list_lookup_insert_ne. intros E.
    pose proof (Z.mod_pos_bound (pend + e) N ltac:(lia)). apply Hne.
    apply (mod_apart N pend); [lia|lia|lia|]. transitivity last; [lia|]. unfold last. rewrite Hpw.
    replace ((pend + w) mod N + n - 1) with ((pend + w) mod N + (n - 1)) by lia.
    rewrite Zplus_mod_idemp_l. f_equal. lia. }
  assert (Hfree : same_free N p' (N - (w + n)) s s').
  { intros e He. assert (E : (p' + e) mod N = (pend + (w + n + e)) mod N); [|rewrite E; apply Hother; lia].
    unfold p'. rewrite Zplus_mod_idemp_l, Hpw, <- Z.add_assoc, Zplus_mod_idemp_l. f_equal. lia. }
  assert (Hfull : full_from N (sdesc (flq s)) b p n).
  { intros e g' He. apply (q_full _ _ _ _ Hq). fold w. lia. }
  assert (Hgl : sg_len g = b).
  { apply (q_full _ _ _ _ Hq (n - 1)); [fold w; lia|]. by replace (p + (n - 1)) with (p + n - 1) by lia. }
  split.
  - split.
    + split; cbn; try apply Hrx.
      * destruct Ha. split; cbn; rewrite ?length_insert, ?Hinfo; done.
      * apply Z.mod_pos_bound. lia.
      * apply Forall_insert; [apply (rx_bufs _ _ Hrx)|].
        pose proof (proj1 (Forall_lookup _ _) (rx_bufs _ _ Hrx) _ _ Hg) as (? & ? & ?). fold b.
        unfold sg_ok, is_u32 in *. cbn. lia.
      * unfold is_u32 in *. lia.
      * apply u32_range.
    + rewrite Hw'. cbn. lia.
    + rewrite Hw'. intros e g' He Hg'. rewrite Hfree in Hg' by lia.
      apply (q_full _ _ _ _ Hq (n + e) g'); [fold w; lia|]. rewrite <- Hg'. unfold p'.
      rewrite Zplus_mod_idemp_l. do 3 f_equal. lia.
    + destruct (q_reuse _ _ _ _ Hq) as [? Hr]. split; [done|]. cbn. apply Forall_insert; [done|].
      cbn. by apply (proj1 (Forall_lookup _ _) Hr _ _ Hg).
    + apply Hq.
    + apply Hq.
    + done.
  - unfold stream_to, stream. rewrite Hw'. fold w. cbn [flq set_pidx]. fold pend.
    change (pidx_pend (flq s')) with pend.
    replace (Z.to_nat (w + n)) with (Z.to_nat w + Z.to_nat n)%nat by lia.
    rewrite window_app by lia. rewrite Hlen', bytes_of_app. f_equal.
    + f_equal. apply buffers_ext; [cbn; by rewrite length_insert|lia|]. rewrite Hl. intros d Hd. apply Hother; lia.
    + rewrite Z2Nat.id by lia. rewrite <- Hpw. unfold b, n. rewrite <- (packet_in_window N _ _ _ _ g); try done.
      * apply Hlen. * fold b n. lia.
  - done.
  - done.
  - done.
  - by rewrite Hw'.
Qed.

(** ** The entries of the completion ring *)

(** Entry [cidx] of a ring of [R] entries of [el] bytes is new, and a packet of [len] bytes, and
    so on: the color changes at the end of the ring. *)
Fixpoint packets_at (R el : Z) (w : Z -> Z) (cidx color : Z) (lens : list Z) : Prop :=
  match lens with
  | [] => True
  | len :: lens' =>
      let e := parse_word (cidx * el) (u64 (w (cidx * el))) in
      f_format e = false /\ f_err e = false /\ f_desc_used e = true /\ Z.b2z (f_color e) = color /\ cmpl_len e = len /\
      if cidx + 1 =? R then packets_at R el w 0 (Z.lxor color 1) lens'
      else packets_at R el w (cidx + 1) color lens'
  end.

(** The buffers that packets take together, and their bytes. *)
Definition total_bufs (b : Z) (lens : list Z) : Z := foldr Z.add 0 (map (fun l => packet_bufs l b) lens).

Fixpoint payload (bufs : list qdma_sw_sg) (b p : Z) (lens : list Z) : list (Z * Z) :=
  match lens with
  | [] => []
  | len :: lens' =>
      packet_bytes bufs b p len ++ payload bufs b ((p + packet_bufs len b) mod Z.of_nat (length bufs)) lens'
  end.

(** The position in the completion ring. *)
Record ring_pos (R : Z) (s : c2h_descq) : Prop := {
  rp_R : 0 < R < 65536;
  rp_conf : rngsz_cmpt (conf s) = R;
  rp_cidx : 0 <= cidx_cmpt s < R;
  rp_cur : desc_cmpt_cur s = cidx_cmpt s * cmpt_entry_len s }.

Fixpoint pos_after (R : Z) (n : nat) (cc : Z * Z) : Z * Z :=
  match n with
  | O => cc
  | S n' => pos_after R n' (if cc.1 + 1 =? R then (0, Z.lxor cc.2 1) else (cc.1 + 1, cc.2))
  end.

Lemma cmpt_next_run R s :
  ring_pos R s ->
  exists s', cmpt_next s = Ret tt s' /\ ring_pos R s' /\
    (cidx_cmpt s', color s') = pos_after R 1 (cidx_cmpt s, color s) /\
    rest' s' = rest' s /\ flq s' = flq s /\ avail s' = avail s.
Proof.
  intros [HR Hc Hi Hcur]. unfold cmpt_next.
  rewrite (bind_Ret _ _ s tt _) by reflexivity. set (s1 := set_desc_cmpt_cur _ s).
  rewrite (bind_Ret _ _ s1 tt _) by reflexivity. set (s2 := set_cidx_cmpt _ s1).
  rewrite (bind_Ret _ _ s2 s2 s2) by reflexivity.
  assert (Hcs : cidx_cmpt s2 = cidx_cmpt s + 1) by (apply u32_small; unfold is_u32; cbn; lia).
  rewrite Hcs. change (rngsz_cmpt (conf s2)) with (rngsz_cmpt (conf s)). rewrite Hc. cbn [pos_after fst snd].
  destruct (Z.eqb_spec (cidx_cmpt s + 1) R) as [E|E].
  - eexists. split; [reflexivity|]. split; [split; cbn; [done|done|lia|done]|]. done.
  - exists s2. split; [reflexivity|]. split; [split; [done|done|rewrite Hcs; lia|]|].
    + rewrite Hcs. cbn. rewrite Hcur. lia.
    + rewrite Hcs. done.
Qed.

Lemma packet_bufs_pos len b : 0 <= len -> 0 < b -> 1 <= packet_bufs len b.
Proof. intros Hl Hb. by destruct (packet_pieces len b Hl Hb). Qed.

Lemma total_bufs_nonneg b lens : 0 < b -> Forall is_u16 lens -> 0 <= total_bufs b lens.
Proof.
  intros Hb. induction 1 as [|len lens Hl _ IH]; [done|]. unfold total_bufs in *. cbn.
  pose proof (packet_bufs_pos len b (proj1 Hl) Hb). lia.
Qed.

Lemma payload_ext bufs bufs' b p lens :
  length bufs' = length bufs -> 0 < b -> Forall is_u16 lens -> 0 <= p < Z.of_nat (length bufs) ->
  (forall e, 0 <= e < total_bufs b lens ->
     bufs' !! Z.to_nat ((p + e) mod Z.of_nat (length bufs)) = bufs !! Z.to_nat ((p + e) mod Z.of_nat (length bufs))) ->
  payload bufs' b p lens = payload bufs b p lens.
Proof.
  intros Hlen Hb Hu. revert p. induction Hu as [|len lens Hl Hu IH]; intros p Hp He; [done|].
  pose proof (packet_bufs_pos len b (proj1 Hl) Hb). pose proof (total_bufs_nonneg b lens Hb Hu).
  unfold total_bufs in *. cbn [map foldr] in *. cbn [payload]. f_equal.
  - unfold packet_bytes. f_equal. f_equal. apply buffers_ext; [done|done|].
    intros d Hd. apply He. lia.
  - rewrite Hlen. apply IH; [apply Z.mod_pos_bound; lia|]. intros e He'. rewrite Zplus_mod_idemp_l.
    replace (p + packet_bufs len b + e) with (p + (packet_bufs len b + e)) by lia. apply He. lia.
Qed.

Lemma parse_word_len cur x : is_u16 (cmpl_len (parse_word cur x)).
Proof.
  unfold parse_word. cbn. destruct (_ && _); [|unfold is_u16; lia].
  unfold M_C2H_CMPT_ENTRY_LENGTH. change 0xFFFF with (Z.ones 16). rewrite Z.land_ones by lia.
  apply Z.mod_pos_bound. lia.
Qed.

Lemma packets_at_u16 R el w cidx color lens : packets_at R el w cidx color lens -> Forall is_u16 lens.
Proof.
  revert cidx color. induction lens as [|len lens IH]; intros cidx color Hp; constructor.
  - destruct Hp as (_ & _ & _ & _ & <- & _). apply parse_word_len.
  - destruct Hp as (_ & _ & _ & _ & _ & Hp). destruct (_ =? R); by eapply IH.
Qed.

(** [n] entries were taken and became the stream. *)
Record entries_taken (N shift R p : Z) (lens : list Z) (s : c2h_descq) (p' : Z) (s' : c2h_descq) : Prop := {
  et_rxq : rxq N shift p' s';
  et_ring : ring_pos R s';
  et_stream : stream_to p' s' = stream_to p s ++ payload (sdesc (flq s)) (c2h_bufsz (conf s)) p lens;
  et_pos : (cidx_cmpt s', color s') = pos_after R (length lens) (cidx_cmpt s, color s);
  et_rest : rest' s' = rest' s /\ flq_rest' (flq s') = flq_rest' (flq s);
  et_avail : avail s' = avail s - total_bufs (c2h_bufsz (conf s)) lens;
  et_next : p' = (p + total_bufs (c2h_bufsz (conf s)) lens) mod N }.

Lemma rxq_same N shift p s s' :
  flq s' = flq s -> avail s' = avail s -> conf s' = conf s -> rxq N shift p s -> rxq N shift p s'.
Proof.
  intros Hf Ha Hc [[H1 H2 H3 H4 H5 H6] Hav Hfull [Hr1 Hr2] Hring Hd Hs].
  assert (Hw : waiting (set_pidx p s') = waiting (set_pidx p s)) by (unfold waiting; cbn; by rewrite Hf).
  cbn in *. split.
  - split; cbn; rewrite ?Hf, ?Ha; done.
  - by rewrite Ha, Hw.
  - by rewrite Hf, Hc, Hw.
  - unfold reusable. by rewrite Hf, Hc.
  - by rewrite Hc.
  - by rewrite Hc.
  - by rewrite Hf, Hc.
Qed.

Section walk.
Context (w : Z -> Z) (Hword : forall s pos, cmpt_word s pos = w pos) (Hparse : fp_proc_ul_cmpt_entry = None).

Lemma rest'_conf s s' : rest' s' = rest' s -> conf s' = conf s.
Proof. unfold rest'. congruence. Qed.

Lemma cmpl_loop_run N shift R lens p cnt s :
  rxq N shift p s -> ring_pos R s ->
  packets_at R (cmpt_entry_len s) w (cidx_cmpt s) (color s) lens ->
  total_bufs (c2h_bufsz (conf s)) lens <= avail s ->
  exists p' s', cmpl_loop (length lens) p cnt s = Ret (Walked p' (cnt + Z.of_nat (length lens))) s' /\
    entries_taken N shift R p lens s p' s'.
Proof.
  revert p cnt s. induction lens as [|len lens IH]; intros p cnt s Hq Hr Hat Htot.
  { exists p, s. cbn [cmpl_loop length]. rewrite Z.add_0_r. split; [done|]. split; try done.
    - cbn [payload]. by rewrite app_nil_r.
    - unfold total_bufs. cbn. lia.
    - unfold total_bufs. cbn. rewrite Z.add_0_r. symmetry. apply Z.mod_small.
      apply (rx_pidx _ _ (q_rx _ _ _ _ Hq)). }
  pose proof (packets_at_u16 _ _ _ _ _ _ Hat) as Hu. inversion Hu as [|? ? Hl Hu']; subst.
  destruct (q_shift _ _ _ _ Hq) as (Hs & _ & Hb).
  assert (Hbpos : 0 < c2h_bufsz (conf s)) by (rewrite Hb; apply Z.pow_pos_nonneg; lia).
  destruct Hat as (Hfmt & Herr & Hused & Hcol & Hlen & Hat).
  set (b := c2h_bufsz (conf s)) in *.
  pose proof (total_bufs_nonneg b lens Hbpos Hu') as Hnn.
  assert (Htot' : total_bufs b (len :: lens) = packet_bufs len b + total_bufs b lens) by done.
  cbn [cmpl_loop length]. set (cmpl := parse_word (cidx_cmpt s * cmpt_entry_len s) (u64 (w (cidx_cmpt s * cmpt_entry_len s)))) in *.
  assert (Hne : next_entry s = Ret (0, cmpl) s).
  { unfold next_entry. rewrite (bind_Ret _ _ s s s) by done. rewrite Hparse. unfold parse_cmpl_entry.
    rewrite (bind_Ret _ _ s s s) by done. by rewrite Hword, (rp_cur _ _ Hr). }
  rewrite (bind_Ret _ _ _ _ _ Hne). cbn [Z.ltb Z.compare].
  assert (Hck : descq_cmpl_err_check cmpl s = Ret 0 s).
  { unfold descq_cmpl_err_check. rewrite (bind_Ret _ _ s (conf s) s) by done. by rewrite Hfmt, Herr, Hused. }
  rewrite (bind_Ret _ _ _ _ _ Hck). cbn [Z.ltb Z.compare].
  rewrite (bind_Ret _ _ s s s) by done. unfold is_new_cmpl_entry. rewrite Hcol, Z.eqb_refl. cbn [negb].
  destruct (rcv_pkt_takes N shift p s (at_pidx p cmpl) len Hq eq_refl Hl) as (p1 & s1 & Hrcv & Ht); [fold b; lia|].
  assert (Hre : rcv_entry (at_pidx p cmpl) s = Ret (0, p1) s1).
  { unfold rcv_entry. rewrite (bind_Ret _ _ s (conf s) s) by done. cbn [at_pidx f_desc_used cmpl_len].
    by rewrite Hused, Hlen. }
  rewrite (bind_Ret _ _ _ _ _ Hre). cbn [Z.ltb Z.compare].
  destruct Ht as [Hq1 Hst1 (Hrest1 & Hflq1 & Hpl1) Hav1 Hp1 Hfree1].
  assert (Hc1 : conf s1 = conf s) by (by apply rest'_conf).
  assert (Hr1 : ring_pos R s1).
  { destruct Hr as [? ? ? ?]. unfold place' in Hpl1. unfold rest' in Hrest1. split; try done; congruence. }
  destruct (cmpt_next_run R s1 Hr1) as (s2 & Hnx & Hr2 & Hpos2 & Hrest2 & Hflq2 & Hav2).
  rewrite (bind_Ret _ _ _ _ _ Hnx).
  assert (Hc2 : conf s2 = conf s) by (rewrite (rest'_conf _ _ Hrest2); done).
  assert (Hstr2 : forall q, stream_to q s2 = stream_to q s1).
  { intros q. unfold stream_to, stream, waiting. cbn. by rewrite Hflq2. }
  assert (Hw2 : forall q, waiting (set_pidx q s2) = waiting (set_pidx q s1)).
  { intros q. unfold waiting. cbn. by rewrite Hflq2. }
  assert (Hq2 : rxq N shift p1 s2).
  { apply (rxq_same _ _ _ s1); congruence. }
  assert (Hpc : cidx_cmpt s1 = cidx_cmpt s /\ color s1 = color s) by (unfold place' in Hpl1; split; congruence).
  destruct Hpc as [Hci1 Hco1]. rewrite Hci1, Hco1 in Hpos2. cbn [pos_after fst snd] in Hpos2.
  assert (Hel : cmpt_entry_len s2 = cmpt_entry_len s) by (unfold rest' in *; congruence).
  destruct (IH p1 (cnt + 1) s2 Hq2 Hr2) as (p' & s' & Hrun & [Hq' Hr' Hst' Hpos' (Hrest' & Hflq') Hav' Hp']).
  { rewrite Hel. destruct (cidx_cmpt s + 1 =? R); injection Hpos2 as -> ->; done. }
  { rewrite Hc2, Hav2, Hav1. fold b. lia. }
  exists p', s'. rewrite Hrun. split; [do 2 f_equal; lia|].
  pose proof (rx_arrays _ _ (q_rx _ _ _ _ Hq)) as Ha. cbn in Ha. assert (HN : 0 < N < 65536) by apply Ha.
  assert (Hl1 : Z.of_nat (length (sdesc (flq s1))) = N) by apply (q_rx _ _ _ _ Hq1).
  assert (Hl0 : Z.of_nat (length (sdesc (flq s))) = N) by apply Ha.
  rewrite Hc2 in Hst', Hav', Hp'. fold b in Hav', Hp', Hst', Hav1, Hp1, Hst1. split; try done.
  - rewrite Hst', Hstr2, Hst1, <- app_assoc. f_equal. fold b. cbn [payload]. f_equal. rewrite Hflq2, Hl0, <- Hp1.
    apply payload_ext; [lia|done|done| |].
    + rewrite Hp1, Hl0. apply Z.mod_pos_bound. lia.
    + rewrite Hl0. intros e He. apply Hfree1.
      pose proof (q_avail _ _ _ _ Hq1). lia.
  - rewrite Hpos', Hpos2. by cbn.
  - rewrite Hrest', Hrest2, Hrest1. rewrite Hflq', Hflq2, Hflq1. done.
  - fold b. rewrite Hav', Hav2, Hav1, Htot'. lia.
  - fold b. rewrite Hp', Hp1, Htot', Zplus_mod_idemp_l. f_equal. lia.
Qed.
End walk.

(** ** Giving the stream to the requests that wait *)

(** A request that waits: it asks for as many bytes as its list has room for, and is not
    complete. *)
Record job_ok (j : job) : Prop := {
  jo_rq : rq_ok j;
  jo_left : Z.of_nat (length (places j)) = left (cb j);
  jo_some : 0 < left (cb j);
  jo_copy : no_memcpy j = false }.

Definition wants (l : list job) : list (Z * Z) := mjoin (places <$> l).

(** A request that was completed without error. *)
Definition completed (j : job) : Prop := status (cb j) = 0 /\ done_ (cb j) = true /\ left (cb j) = 0.

Definition rest_d (s : c2h_descq) :=
  (conf s, q_state s, q_stop_wait s, err s, color s, pidx s, (cidx_cmpt s, pidx_cmpt s, cmpt_entry_len s,
   desc_cmpt_cur s, cmpt_cidx_info s, cntr s, page_log s, packets s, avail s)).

(** The buffers of the stream, as far as they were read, and the others. *)
Record consumed (N : Z) (s s' : c2h_descq) : Prop := {
  cs_moved : exists d, 0 <= d <= waiting s /\ pidx_pend (flq s') = (pidx_pend (flq s) + d) mod N;
  cs_free : same_free N (pidx s) (N - waiting s) s s' }.

Lemma same_free_trans N p n s s' s'' : same_free N p n s s' -> same_free N p n s' s'' -> same_free N p n s s''.
Proof. intros H1 H2 e He. rewrite H2, H1 by done. done. Qed.

(** One request reads. *)
Lemma read_by_job N fuel j s :
  rx_ok N s -> job_ok j ->
  exists j' s' k, descq_st_c2h_read fuel j false false s = Ret (Z.of_nat k, j') s' /\
    pairs_of (copies s') = pairs_of (copies s) ++ zip (places j) (stream s) /\
    places j' = drop k (places j) /\ stream s' = drop k (stream s) /\ req j' = req j /\
    k = Nat.min (length (stream s)) (length (places j)) /\
    (left (cb j') = 0 /\ k = length (places j) \/ 0 < left (cb j') /\ job_ok j' /\ k = length (stream s)) /\
    rx_ok N s' /\ rest_d s' = rest_d s /\ flq_rest (flq s') = flq_rest (flq s) /\
    pend_list s' = pend_list s /\ finished s' = finished s /\ consumed N s s'.
Proof.
  intros Hs [Hrq Hleft Hpos Hcopy].
  destruct (st_c2h_read_run N fuel j false false s Hs Hrq ltac:(done)) as (j' & s' & d & Hrun & Hd).
  set (k := Nat.min (length (stream s)) (length (places j))) in *.
  exists j', s', k. split; [done|]. destruct Hd as [Hp Hpl Hst Hl (Hr & Hn & _) Hnext Hok (Hrest & Hflq) Hdone Hpend Hav _ Hbufs].
  rewrite Hcopy in Hp. split; [done|]. split; [done|]. split; [done|]. split; [done|]. split; [done|].
  assert (Hl' : left (cb j') = Z.of_nat (length (places j'))).
  { rewrite Hl, Hpl, length_drop. rewrite u32_small; [lia|].
    pose proof (rq_left _ Hrq). unfold is_u32 in *. lia. }
  split.
  { destruct (decide (left (cb j') = 0)) as [E|E].
    - left. split; [done|]. rewrite Hl', Hpl, length_drop in E. lia.
    - right. split; [lia|]. rewrite Hl', Hpl, length_drop in E. split; [|lia]. split.
      + destruct Hnext as [|E']; [done|]. rewrite Hpl in E'. apply (f_equal length) in E'.
        rewrite length_drop in E'. simpl in E'. lia.
      + by rewrite Hl'.
      + rewrite Hl', Hpl, length_drop. lia.
      + by rewrite Hn. }
  split; [done|]. cbn in Hav. split; [unfold rest, rest_d in *; congruence|].
  split; [done|]. split; [unfold rest in Hrest; congruence|]. split; [unfold rest in Hrest; congruence|].
  pose proof (rx_arrays _ _ Hs) as Ha. assert (HN : 0 < N < 65536) by apply Ha.
  pose proof (waiting_mod N s Hs) as Hw. pose proof (Z.mod_pos_bound (pidx s - pidx_pend (flq s)) N ltac:(lia)) as Hwb.
  rewrite <- Hw in Hwb.
  split; [exists (Z.of_nat d); split; [lia|done]|].
  intros e He. destruct Hbufs as (foff & Hf & Hlt & Hlen & Hb).
  assert (E : (pidx s + e) mod N = (pidx_pend (flq s) + (waiting s + e)) mod N).
  { replace (pidx_pend (flq s) + (waiting s + e)) with (waiting s + (pidx_pend (flq s) + e)) by lia.
    rewrite Hw, Zplus_mod_idemp_l. f_equal. lia. }
  rewrite E, Hb by (apply Z.mod_pos_bound; lia). rewrite andb_false_r.
  rewrite decide_False; [by destruct (sdesc (flq s) !! _)|].
  intros [Hi Hnz]. apply mod_apart in Hi; [|lia|lia|lia]. specialize (Hlt Hnz). lia.
Qed.

Lemma consumed_trans N s s1 s2 :
  0 < N < 65536 -> rx_ok N s -> rx_ok N s1 -> pidx s1 = pidx s -> consumed N s s1 -> consumed N s1 s2 -> consumed N s s2.
Proof.
  intros HN Hs Hs1 Hp [(d & Hd & E) Hf] [(d' & Hd' & E') Hf'].
  pose proof (waiting_mod N s Hs) as Hw. pose proof (waiting_mod N s1 Hs1) as Hw1. rewrite Hp, E in Hw1.
  pose proof (Z.mod_pos_bound (pidx s - pidx_pend (flq s)) N ltac:(lia)) as Hwb. rewrite <- Hw in Hwb.
  assert (Hww : waiting s1 = waiting s - d).
  { rewrite Hw1, Zminus_mod_idemp_r. replace (pidx s - (pidx_pend (flq s) + d)) with (pidx s - pidx_pend (flq s) - d) by lia.
    rewrite <- Zminus_mod_idemp_l, <- Hw. apply Z.mod_small. lia. }
  split.
  - exists (d + d'). split; [lia|]. rewrite E', E, Zplus_mod_idemp_l. f_equal. lia.
  - intros e He. rewrite <- Hp. rewrite Hf' by lia. rewrite Hp. by apply Hf.
Qed.

Lemma zip_app_drop {A B} (a a' : list A) (b : list B) :
  zip a b ++ zip (drop (length b) a ++ a') (drop (length a) b) = zip (a ++ a') b.
Proof.
  revert b. induction a as [|x a IH]; intros [|y b]; cbn; try done.
  f_equal. apply IH.
Qed.

(** What the loop over the pending requests does. *)
Record delivered (N : Z) (l : list job) (s s' : c2h_descq) : Prop := {
  dl_pairs : pairs_of (copies s') = pairs_of (copies s) ++ zip (wants l) (stream s);
  dl_stream : stream s' = drop (length (wants l)) (stream s);
  dl_wants : wants (pend_list s') = drop (length (stream s)) (wants l);
  dl_jobs : Forall job_ok (pend_list s');
  dl_done : exists dn, finished s' = rev dn ++ finished s /\ req <$> l = (req <$> dn) ++ (req <$> pend_list s') /\
              Forall completed dn;
  dl_ok : rx_ok N s';
  dl_rest : rest_d s' = rest_d s /\ flq_rest (flq s') = flq_rest (flq s);
  dl_cons : consumed N s s' }.

Lemma consumed_refl N s : 0 < N < 65536 -> rx_ok N s -> consumed N s s.
Proof.
  intros HN Hs. pose proof (waiting_mod N s Hs) as Hw.
  pose proof (Z.mod_pos_bound (pidx s - pidx_pend (flq s)) N ltac:(lia)) as Hwb. rewrite <- Hw in Hwb.
  split; [exists 0; split; [lia|]|done]. rewrite Z.add_0_r. symmetry. apply Z.mod_small, Hs.
Qed.

(** A request leaves the list. *)
Lemma req_done_run j l e s :
  pend_list s = j :: l ->
  exists b c, qdma_sgt_req_done j e s =
    Ret tt (set_pend_list_empty b (set_finished (set_cb c j :: finished s) (set_pend_list l s))) /\
    (left (cb j) = 0 -> e = 0 -> completed (set_cb c j)).
Proof.
  intros Hl. unfold qdma_sgt_req_done. eexists _, _. unfold mbind, M_bind, modify. cbn. rewrite Hl. split; [done|].
  intros H0 ->. by repeat split.
Qed.

Lemma proc_pending_run N fuel l s :
  rx_ok N s -> Forall job_ok l -> pend_list s = l ->
  exists s', proc_pending fuel l s = Ret tt s' /\ delivered N l s s'.
Proof.
  revert s. induction l as [|j l IH]; intros s Hs Hl Hpl.
  { exists s. pose proof (ao_N _ _ (rx_arrays _ _ Hs)). split; [done|]. split; try done.
    - cbn. by rewrite app_nil_r.
    - rewrite Hpl. cbn. by rewrite drop_nil.
    - by rewrite Hpl.
    - exists []. by rewrite Hpl.
    - by apply consumed_refl. }
  inversion Hl as [|? ? Hj Hl']; subst. pose proof (ao_N _ _ (rx_arrays _ _ Hs)) as HN.
  cbn [proc_pending]. rewrite (proj2 (Z.eqb_neq _ _)) by (destruct Hj; lia).
  destruct (read_by_job N fuel j s Hs Hj) as (j1 & s1 & k & Hrun & Hp1 & Hpl1 & Hst1 & Hr1 & Hk & Hcase & Hok1 & Hrest1 & Hflq1 & Hpd1 & Hfin1 & Hc1).
  rewrite (bind_Ret _ _ _ _ _ Hrun). cbn beta iota.
  rewrite (bind_Ret _ _ s1 tt _) by reflexivity. set (s2 := set_pend_list _ s1).
  rewrite (proj2 (Z.ltb_ge _ _)) by lia.
  assert (Hpd2 : pend_list s2 = j1 :: l) by (cbn; by rewrite Hpd1, Hpl).
  assert (Hwants : wants (j :: l) = places j ++ wants l) by done.
  destruct Hcase as [[H0 Hk1]|(H0 & Hj1 & Hk1)].
  - (* the request is complete *)
    rewrite H0. cbn [Z.eqb].
    destruct (req_done_run j1 l 0 s2 Hpd2) as (b & c & Hdone & Hcompl). rewrite (bind_Ret _ _ _ _ _ Hdone).
    set (s3 := set_pend_list_empty _ _).
    assert (Hok3 : rx_ok N s3) by (destruct Hok1; by split).
    destruct (IH s3 Hok3 Hl' eq_refl) as (s' & Hrun' & [Hp' Hst' Hw' Hj' (dn & Hf' & Hq' & Hcm') Hok' (Hrest' & Hflq') Hc']).
    exists s'. split; [done|]. change (stream s3) with (stream s1) in *.
    assert (Hd : drop (length (stream s)) (places j) = []) by (apply drop_ge; lia).
    assert (Hst1' : stream s1 = drop (length (places j)) (stream s)) by (rewrite Hst1, Hk1; done).
    split.
    + rewrite Hp'. change (copies s3) with (copies s1). rewrite Hp1, <- app_assoc. f_equal.
      rewrite Hwants, <- zip_app_drop, Hd, Hst1'. done.
    + rewrite Hst', Hst1', drop_drop, Hwants, length_app. done.
    + rewrite Hw', Hst1', length_drop, Hwants, drop_app_ge by lia. done.
    + done.
    + exists (set_cb c j1 :: dn). rewrite Hf'. cbn. rewrite <- app_assoc. cbn.
      change (finished s1) with (finished s1). rewrite Hfin1. split; [done|]. split.
      * rewrite Hq'. cbn. by rewrite Hr1.
      * constructor; [|done]. by apply Hcompl.
    + done.
    + rewrite Hrest', Hflq'. split; [|done]. transitivity (rest_d s1); done.
    + apply (consumed_trans N s s3 s'); try done.
      * unfold rest_d in Hrest1. cbn. congruence.
      * destruct Hc1. by split.
  - (* the stream is exhausted *)
    rewrite (proj2 (Z.eqb_neq _ _)) by lia. exists s2. split; [done|].
    assert (Hd : drop (length (places j)) (stream s) = []) by (apply drop_ge; lia).
    split.
    + change (copies s2) with (copies s1). rewrite Hp1. f_equal. rewrite Hwants, <- zip_app_drop, Hd. by rewrite zip_nil_r, app_nil_r.
    + change (stream s2) with (stream s1). rewrite Hst1, Hk1, Hwants, length_app, !drop_ge by lia. done.
    + rewrite Hpd2, Hwants. change (wants (j1 :: l)) with (places j1 ++ wants l).
      rewrite Hpl1, Hk1, drop_app_le by lia. done.
    + rewrite Hpd2. by constructor.
    + exists []. rewrite Hpd2. split; [done|]. split; [|done]. cbn. by rewrite Hr1.
    + destruct Hok1; by split.
    + done.
    + destruct Hc1. by split.
Qed.

(** ** The buffers go back to the card *)

(** What does not change when they do. *)
Definition rest_g (s : c2h_descq) :=
  (conf s, q_state s, q_stop_wait s, err s, color s, pidx s, (cidx_cmpt s, pidx_cmpt s, cmpt_entry_len s,
   desc_cmpt_cur s, cmpt_cidx_info s, cntr s, page_log s, packets s, pend_list s, finished s, copies s)).

Lemma window_same N bufs bufs' p n :
  Z.of_nat (length bufs) = N -> length bufs' = length bufs -> 0 <= p < N ->
  (forall e, 0 <= e < Z.of_nat n -> bufs' !! Z.to_nat ((p + e) mod N) = bufs !! Z.to_nat ((p + e) mod N)) ->
  window bufs' p n = window bufs p n.
Proof. intros <- Hl Hp He. by apply buffers_ext. Qed.

(** [d] buffers from [old] on are given back. *)
Lemma recycle_rxq N shift old d s sd info b :
  rx_ok N s -> 0 <= old < N -> pidx_pend (flq s) = (old + d) mod N ->
  0 <= d <= (pidx s - old) mod N -> avail s = N - 1 - (pidx s - old) mod N ->
  full_from N (sdesc (flq s)) (c2h_bufsz (conf s)) (pidx s) (N - (pidx s - old) mod N) ->
  rngsz (conf s) = N -> c2h_packet (conf s) = false ->
  0 <= shift < 31 /\ desc_pg_shift (flq s) = shift /\ c2h_bufsz (conf s) = 2 ^ shift ->
  length sd = length (sdesc (flq s)) -> length info = length (sdesc_info (flq s)) ->
  (forall k, 0 <= k < N -> ~ among N old d k -> sd !! Z.to_nat k = sdesc (flq s) !! Z.to_nat k) ->
  (forall k, 0 <= k < N -> among N old d k ->
     sd !! Z.to_nat k = set_sg_len (c2h_bufsz (conf s)) <$> sdesc (flq s) !! Z.to_nat k) ->
  let s' := set_pend_list_empty b (set_avail (u32 (avail s + d))
              (on_flq (fun f => set_sdesc_info info (set_sdesc sd f)) s)) in
  stream s' = stream s /\ (reusable s' -> rxq N shift (pidx s') s').
Proof.
  intros Hs Hold Hpend Hd Hav Hfull Hring Hdflt Hshift Hsd Hinfo Hout Hin s'.
  pose proof (rx_arrays _ _ Hs) as Ha. pose proof (ao_N _ _ Ha) as HN.
  set (w := (pidx s - old) mod N) in *.
  assert (Hw : 0 <= w < N) by (apply Z.mod_pos_bound; lia).
  assert (Hl : Z.of_nat (length (sdesc (flq s))) = N) by apply Ha.
  assert (Hpw : pidx s = (old + w) mod N).
  { unfold w. rewrite Zplus_mod_idemp_r. replace (old + (pidx s - old)) with (pidx s) by lia.
    symmetry. apply Z.mod_small, Hs. }
  assert (Hww : waiting s = w - d).
  { rewrite (waiting_mod N s Hs), Hpend, Zminus_mod_idemp_r.
    replace (pidx s - (old + d)) with (pidx s - old - d) by lia.
    rewrite <- Zminus_mod_idemp_l. fold w. apply Z.mod_small. lia. }
  assert (Hapart : forall e, 0 <= e < N - d -> ~ among N old d ((old + (d + e)) mod N)).
  { intros e He (e' & He' & E). apply mod_apart in E; lia. }
  split.
  - unfold stream. change (waiting s') with (waiting s). f_equal.
    change (sdesc (flq s')) with sd. change (pidx_pend (flq s')) with (pidx_pend (flq s)).
    apply (window_same N); [done|done|apply Hs|]. intros e He. apply Hout; [apply Z.mod_pos_bound; lia|].
    rewrite Hpend, Zplus_mod_idemp_l, <- Z.add_assoc. apply Hapart. lia.
  - intros [Hb0 Hre].
    assert (Hu : u32 (avail s + d) = avail s + d) by (apply u32_small; unfold is_u32; lia).
    assert (Hw' : waiting (set_pidx (pidx s') s') = w - d) by exact Hww.
    split.
    + split; cbn; try apply Hs; try lia; try (rewrite Hu; unfold is_u32; lia).
      * destruct Ha. split; cbn; try done; lia.
      * apply Forall_lookup. intros i g' Hg'. pose proof (lookup_lt_Some _ _ _ Hg') as Hi.
        destruct (lookup_lt_is_Some_2 (sdesc (flq s)) i) as [g Hg]; [lia|].
        pose proof (proj1 (Forall_lookup _ _) (rx_bufs _ _ Hs) _ _ Hg) as (H1 & H2 & H3).
        assert (Hi' : 0 <= Z.of_nat i < N) by lia.
        destruct (decide (Z.of_nat i ∈ (fun e => (old + e) mod N) <$> seqZ 0 d)) as [Hy|Hn].
        -- pose proof (Hin _ Hi' (proj2 (among_seqZ _ _ _ _) Hy)) as E. rewrite Nat2Z.id, Hg, Hg' in E.
           injection E as ->. pose proof (proj1 (Forall_lookup _ _) Hre _ _ Hg') as Hr. cbn in Hr, Hb0.
           unfold sg_ok in *. cbn. split; [lia|]. split; [lia|]. exact Hr.
        -- assert (E := Hout _ Hi' (fun H => Hn (proj1 (among_seqZ _ _ _ _) H))).
           rewrite Nat2Z.id, Hg, Hg' in E. injection E as ->. by split.
    + rewrite Hw'. cbn. rewrite Hu. lia.
    + rewrite Hw'. intros e g' He Hg'. change (sdesc (flq s')) with sd in Hg'.
      change (pidx s') with (pidx s) in Hg'. change (conf s') with (conf s).
      destruct (decide (e < N - w)) as [Hlt|Hge].
      * rewrite Hout in Hg'; [apply (Hfull e g'); [lia|exact Hg']|apply Z.mod_pos_bound; lia|].
        rewrite Hpw, Zplus_mod_idemp_l. replace (old + w + e) with (old + (d + (w - d + e))) by lia. apply Hapart. lia.
      * assert (Ham : among N old d ((pidx s + e) mod N)).
        { exists (e - (N - w)). split; [lia|]. rewrite Hpw, Zplus_mod_idemp_l.
          replace (old + w + e) with (old + (e - (N - w)) + 1 * N) by lia. apply Z_mod_plus_full. }
        rewrite Hin in Hg'; [|apply Z.mod_pos_bound; lia|done].
        destruct (sdesc (flq s) !! _); [|done]. cbn in Hg'. by injection Hg' as <-.
    + split; [done|exact Hre].
    + done.
    + done.
    + done.
Qed.

Lemma give_back_run N shift fuel old d upd s :
  rx_ok N s -> 0 <= old < N -> pidx_pend (flq s) = (old + d) mod N ->
  0 <= d <= (pidx s - old) mod N -> avail s = N - 1 - (pidx s - old) mod N ->
  full_from N (sdesc (flq s)) (c2h_bufsz (conf s)) (pidx s) (N - (pidx s - old) mod N) ->
  rngsz (conf s) = N -> c2h_packet (conf s) = false ->
  0 <= shift < 31 /\ desc_pg_shift (flq s) = shift /\ c2h_bufsz (conf s) = 2 ^ shift ->
  exists s', give_back fuel old upd s = Ret 0 s' /\ rest_g s' = rest_g s /\ stream s' = stream s /\
    (reusable s' -> rxq N shift (pidx s') s').
Proof.
  intros Hs Hold Hpend Hd Hav Hfull Hring Hdflt Hshift.
  pose proof (rx_arrays _ _ Hs) as Ha. pose proof (ao_N _ _ Ha) as HN.
  assert (Hw : 0 <= (pidx s - old) mod N < N) by (apply Z.mod_pos_bound; lia).
  unfold give_back. rewrite (bind_Ret _ _ s s s) by done. rewrite Hpend.
  destruct (Z.eqb_spec ((old + d) mod N) old) as [E|E].
  - assert (d = 0) as ->.
    { apply (mod_apart N old); [lia|lia|lia|]. rewrite E, Z.add_0_r. symmetry. by apply Z.mod_small. }
    exists s. split; [done|]. split; [done|].
    destruct (recycle_rxq N shift old 0 s (sdesc (flq s)) (sdesc_info (flq s)) (pend_list_empty s) Hs Hold Hpend Hd Hav Hfull Hring Hdflt Hshift) as [_ Hq];
      [done|done|done|intros k _ (e & ? & _); lia|].
    split; [done|]. rewrite Z.add_0_r, u32_small in Hq by apply Hs.
    replace (set_pend_list_empty _ _) with s in Hq; [done|].
    destruct s as [? ? ? ? ? ? ? ? ? ? ? ? ? ? ? ? ? ? [] ? ? ? ? ?]. done.
  - rewrite (ao_size _ _ Ha).
    destruct (ring_idx_mod ((old + d) mod N) old N) as (-> & _ & _ & _); [done|apply Z.mod_pos_bound; lia|done|].
    assert (Hdd : ((old + d) mod N - old) mod N = d).
    { rewrite Zminus_mod_idemp_l. replace (old + d - old) with d by lia. apply Z.mod_small. lia. }
    rewrite Hdd, Hdflt. cbn [negb].
    destruct (flq_refill_recycle_run N fuel (Z.to_nat d) old s Ha Hold) as (sd & info & b & Hrun & Hsd & Hinfo & Hout & Hin & Hbb);
      [lia|apply Hs|]. rewrite Z2Nat.id in Hrun, Hout, Hin by lia.
    rewrite (bind_Ret _ _ _ _ _ Hrun). cbn zeta.
    destruct (recycle_rxq N shift old d s sd info b Hs Hold Hpend Hd Hav Hfull Hring Hdflt Hshift Hsd Hinfo Hout Hin) as [Hst Hq].
    set (s1 := set_pend_list_empty _ _) in *.
    destruct (upd && negb (q_stop_wait s)).
    + unfold put_pidx. rewrite (bind_Ret _ _ s1 tt _) by reflexivity. set (s2 := set_pidx_info _ s1).
      destruct (c2h_pidx_update_run s2) as [tr Htr]. rewrite (bind_Ret _ _ _ _ _ Htr).
      eexists. split; [reflexivity|]. split; [done|]. split; [exact Hst|].
      intros Hr. apply (rxq_same _ _ _ s1); try done. by apply Hq.
    + exists s1. done.
Qed.

(** ** The whole handler *)

(** The free list but for [pkt_cnt], which only reports. *)
Definition flq_view (f : qdma_flq) : qdma_flq := set_pkt_cnt 0 f.

Lemma flq_view_parts f f' :
  flq_view f' = flq_view f ->
  size f' = size f /\ sdesc f' = sdesc f /\ sdesc_info f' = sdesc_info f /\ flq_desc f' = flq_desc f /\
  pidx_pend f' = pidx_pend f /\ pkt_dlen f' = pkt_dlen f /\ desc_pg_shift f' = desc_pg_shift f.
Proof. destruct f, f'. unfold flq_view, set_pkt_cnt. cbn. by intros [=]. Qed.

Lemma view_waiting s s' : flq_view (flq s') = flq_view (flq s) -> pidx s' = pidx s -> waiting s' = waiting s.
Proof. intros (H1 & _ & _ & _ & H5 & _)%flq_view_parts Hp. unfold waiting. congruence. Qed.

Lemma view_stream s s' : flq_view (flq s') = flq_view (flq s) -> pidx s' = pidx s -> stream s' = stream s.
Proof.
  intros Hf Hp. unfold stream. rewrite (view_waiting s s' Hf Hp).
  apply flq_view_parts in Hf as (_ & -> & _ & _ & -> & _). done.
Qed.

Lemma view_rx N s s' :
  flq_view (flq s') = flq_view (flq s) -> pidx s' = pidx s -> avail s' = avail s -> rx_ok N s -> rx_ok N s'.
Proof.
  intros (H1 & H2 & H3 & H4 & H5 & H6 & _)%flq_view_parts Hp Ha [[? ? ? ? ?] ? ? ? ? ?].
  split; [split|..]; congruence.
Qed.

Lemma view_rxq N shift p s s' :
  flq_view (flq s') = flq_view (flq s) -> avail s' = avail s -> conf s' = conf s -> rxq N shift p s -> rxq N shift p s'.
Proof.
  intros Hf Ha Hc [Hrx Hav Hfull [Hr1 Hr2] Hring Hd Hs].
  assert (Hw : waiting (set_pidx p s') = waiting (set_pidx p s)) by (by apply view_waiting).
  pose proof (flq_view_parts _ _ Hf) as (H1 & H2 & H3 & H4 & H5 & H6 & H7).
  split; try congruence.
  - by apply (view_rx N (set_pidx p s)).
  - by rewrite H2, Hc, Hw.
  - unfold reusable. by rewrite H2, Hc.
Qed.

(** Adapting the interrupts changes nothing of the rings. *)
Definition moderated (s s' : c2h_descq) : Prop :=
  (exists a i n, s' = set_cntr a (set_cmpt_cidx_info i (on_flq (set_pkt_cnt n) s))) /\ (cntr_ok s -> cntr_ok s').

Lemma only_cntr_moderated s s' : only_cntr s s' -> cntr_ok s' -> moderated s s'.
Proof.
  intros (a & i & -> & _) Hok. split; [|done]. exists a, i, (pkt_cnt (flq s)). f_equal. f_equal. unfold on_flq.
  destruct s as [? ? ? ? ? ? ? ? ? ? ? ? ? ? ? ? ? ? [] ? ? ? ? ?]. done.
Qed.

Lemma moderated_trans s s' s'' : moderated s s' -> moderated s' s'' -> moderated s s''.
Proof.
  intros [(a & i & n & ->) H1] [(a' & i' & n' & ->) H2]. split; [|tauto]. exists a', i', n'.
  unfold on_flq. destruct s as [? ? ? ? ? ? ? ? ? ? ? ? ? ? ? ? ? ? [] ? ? ? ? ?]. done.
Qed.

Lemma moderate_run weight cnt s :
  (adaptive_rx (conf s) = true -> cntr_ok s) -> exists s', moderate weight cnt s = Ret tt s' /\ moderated s s'.
Proof.
  intros Hok. unfold moderate. rewrite (bind_Ret _ _ s s s) by done.
  destruct (_ && _).
  - unfold count_pending at 1. rewrite bind_assoc. rewrite (bind_Ret _ _ s s s) by done.
    rewrite bind_assoc. rewrite (bind_Ret _ _ s tt _) by reflexivity.
    set (pend := ring_idx_delta _ _ _). set (s1 := on_flq _ s).
    rewrite (bind_Ret _ _ s1 pend s1) by done. unfold put_cmpt at 1.
    rewrite (bind_Ret _ _ s1 tt _) by reflexivity. set (s2 := set_cmpt_cidx_info _ s1).
    assert (Hck : cntr_ok s -> cntr_ok s2).
    { intros [? ? ? ? Hh]. split; cbn; try done. rewrite Hh. f_equal. symmetry. apply fld_put_apart; [split; cbn; lia..|].
      left. cbn. lia. }
    assert (Hm : moderated s s2).
    { split; [|done]. exists (cntr s), (cmpt_cidx_info s2), pend. by destruct s. }
    change (conf s2) with (conf s). destruct (adaptive_rx (conf s)) eqn:Ead.
    + destruct (adjust_run s2 (u32 (i32 pend + cnt)) (u32 weight) (Hck (Hok eq_refl))) as (s3 & Hrun & Ha).
      exists s3. split; [done|]. apply (moderated_trans _ s2); [done|]. apply only_cntr_moderated; apply Ha.
    + exists s2. done.
  - exists s. split; [done|]. split; [|done]. exists (cntr s), (cmpt_cidx_info s), (pkt_cnt (flq s)).
    unfold on_flq. destruct s as [? ? ? ? ? ? ? ? ? ? ? ? ? ? ? ? ? ? [] ? ? ? ? ?]. done.
Qed.

(** A call that took packets of lengths [lens] with the bytes [bs]: they are in the stream, and the
    stream went to the requests that waited. *)
Record processed (N shift R : Z) (lens : list Z) (bs : list (Z * Z)) (s s' : c2h_descq) : Prop := {
  pr_pairs : pairs_of (copies s') = pairs_of (copies s) ++ zip (wants (pend_list s)) (stream s ++ bs);
  pr_stream : stream s' = drop (length (wants (pend_list s))) (stream s ++ bs);
  pr_wants : wants (pend_list s') = drop (length (stream s ++ bs)) (wants (pend_list s));
  pr_jobs : Forall job_ok (pend_list s');
  pr_done : exists dn, finished s' = rev dn ++ finished s /\
    req <$> pend_list s = (req <$> dn) ++ (req <$> pend_list s') /\ Forall completed dn;
  pr_rxq : reusable s' -> rxq N shift (pidx s') s';
  pr_ring : ring_pos R s';
  pr_pos : (cidx_cmpt s', color s') = pos_after R (length lens) (cidx_cmpt s, color s);
  pr_pidx : pidx s' = (pidx s + total_bufs (c2h_bufsz (conf s)) lens) mod N;
  pr_conf : conf s' = conf s /\ err s' = err s /\ q_state s' = q_state s /\ q_stop_wait s' = q_stop_wait s /\
            cmpt_entry_len s' = cmpt_entry_len s /\ packets s' = packets s /\ page_log s' = page_log s;
  pr_cntr : cntr_ok s -> cntr_ok s' }.

Lemma set_pidx_self s : set_pidx (pidx s) s = s.
Proof. by destruct s. Qed.

(** What [finish_walk] leaves alone. *)
Definition rest_f (s : c2h_descq) :=
  (conf s, err s, q_state s, q_stop_wait s, cidx_cmpt s, color s, (cmpt_entry_len s, desc_cmpt_cur s,
   packets s, page_log s, cntr s)).

Lemma cntr_ok_same s s' :
  conf s' = conf s -> cntr s' = cntr s ->
  fld cmpt_cidx_info.counter_idx (cmpt_cidx_info s') = fld cmpt_cidx_info.counter_idx (cmpt_cidx_info s) ->
  cntr_ok s -> cntr_ok s'.
Proof. intros Hc Hn Hf [? ? ? ? ?]. split; rewrite ?Hc, ?Hn, ?Hf; done. Qed.

Lemma finish_walk_run N shift fuel pidx_cmpt p upd s :
  rxq N shift p s -> Forall job_ok (pend_list s) ->
  exists s', finish_walk fuel pidx_cmpt p (pidx_pend (flq s)) upd s = Ret 0 s' /\
    pairs_of (copies s') = pairs_of (copies s) ++ zip (wants (pend_list s)) (stream_to p s) /\
    stream s' = drop (length (wants (pend_list s))) (stream_to p s) /\
    wants (pend_list s') = drop (length (stream_to p s)) (wants (pend_list s)) /\
    Forall job_ok (pend_list s') /\
    (exists dn, finished s' = rev dn ++ finished s /\
      req <$> pend_list s = (req <$> dn) ++ (req <$> pend_list s') /\ Forall completed dn) /\
    (reusable s' -> rxq N shift (pidx s') s') /\ pidx s' = p /\ rest_f s' = rest_f s /\
    (cntr_ok s -> cntr_ok s').
Proof.
  intros Hq Hj. unfold finish_walk. rewrite (bind_Ret _ _ s tt _) by reflexivity.
  set (s1 := set_pidx p _). rewrite (bind_Ret _ _ s1 s1 s1) by done. unfold put_cmpt.
  rewrite (bind_Ret _ _ s1 tt _) by reflexivity. set (s2 := set_cmpt_cidx_info _ s1).
  change (c2h_packet (conf s1)) with (c2h_packet (conf s)). rewrite (q_dflt _ _ _ _ Hq).
  destruct (queue_cmpt_cidx_update_run s2) as [tr Htr].
  rewrite bind_assoc. rewrite (bind_Ret _ _ _ _ _ Htr). cbn [Z.ltb Z.compare]. set (s3 := set_regs tr s2).
  unfold qdma_c2h_packets_proc_dflt. rewrite bind_assoc. rewrite (bind_Ret _ _ s3 (pend_list s) s3) by done.
  assert (Hrx3 : rx_ok N s3) by (apply (view_rx N (set_pidx p s)); [done..|apply Hq]).
  destruct (proc_pending_run N fuel (pend_list s) s3 Hrx3 Hj eq_refl) as (s4 & Hrun & [Hp Hst Hw Hj' Hdn Hok4 (Hrest & Hflq) Hcons]).
  rewrite bind_assoc. rewrite (bind_Ret _ _ _ _ _ Hrun). rewrite (bind_Ret _ _ s4 0 s4) by done. cbn [Z.ltb Z.compare].
  unfold count_pending. rewrite bind_assoc. rewrite (bind_Ret _ _ s4 s4 s4) by done. rewrite bind_assoc.
  rewrite (bind_Ret _ _ s4 tt _) by reflexivity. set (s5 := on_flq _ s4).
  rewrite (bind_Ret _ _ s5 _ s5) by reflexivity.
  change (stream s3) with (stream_to p s) in *.
  assert (Hc4 : conf s4 = conf s /\ pidx s4 = p /\ avail s4 = avail s).
  { unfold rest_d in Hrest. cbn in Hrest. repeat split; congruence. }
  destruct Hc4 as (Hc4 & Hp4 & Ha4).
  destruct Hcons as [(d & Hd & Hpend) Hfree].
  pose proof (rx_arrays _ _ Hrx3) as Har. pose proof (ao_N _ _ Har) as HN.
  pose proof (waiting_mod N s3 Hrx3) as Hw3. change (pidx s3) with p in *.
  change (pidx_pend (flq s3)) with (pidx_pend (flq s)) in *.
  assert (Hwp : waiting s3 = waiting (set_pidx p s)) by done.
  assert (Hrx5 : rx_ok N s5) by (apply (view_rx N s4); done).
  destruct (give_back_run N shift fuel (pidx_pend (flq s)) d upd s5) as (s6 & Hgb & Hrg & Hst6 & Hq6).
  - done.
  - apply (rx_pend _ _ Hrx3).
  - exact Hpend.
  - change (pidx s5) with (pidx s4). rewrite Hp4, <- Hw3. done.
  - change (pidx s5) with (pidx s4). rewrite Hp4, <- Hw3, Hwp. change (avail s5) with (avail s4). rewrite Ha4. apply Hq.
  - change (pidx s5) with (pidx s4). change (conf s5) with (conf s4). rewrite Hp4, Hc4, <- Hw3.
    intros e g He Hg. apply (q_full _ _ _ _ Hq e g); [by rewrite <- Hwp|]. rewrite <- Hg.
    symmetry. apply (Hfree e). done.
  - change (conf s5) with (conf s4). rewrite Hc4. apply Hq.
  - change (conf s5) with (conf s4). rewrite Hc4. apply Hq.
  - change (conf s5) with (conf s4). rewrite Hc4. change (desc_pg_shift (flq s5)) with (desc_pg_shift (flq s4)).
    assert (desc_pg_shift (flq s4) = desc_pg_shift (flq s)) as -> by (unfold flq_rest in Hflq; cbn in Hflq; congruence).
    apply Hq.
  - exists s6. rewrite Hgb. split; [done|].
    assert (Hs6 : copies s6 = copies s4 /\ pend_list s6 = pend_list s4 /\ finished s6 = finished s4 /\ pidx s6 = p /\ conf s6 = conf s).
    { change (rest_g s5) with (rest_g s4) in Hrg. clear - Hrg Hp4 Hc4. unfold rest_g in Hrg. split_and!; congruence. }
    destruct Hs6 as (E1 & E2 & E3 & E4 & E5). rewrite E1, E2, E3.
    split; [exact Hp|]. split; [rewrite Hst6; exact Hst|]. split; [exact Hw|]. split; [done|]. split; [exact Hdn|].
    split; [done|]. split; [done|].
    assert (Hrf4 : rest_f s4 = rest_f s3 /\ cmpt_cidx_info s4 = cmpt_cidx_info s3).
    { clearbody s3. unfold rest_d in Hrest. unfold rest_f. split; congruence. }
    assert (Hrf : rest_f s6 = rest_f s /\ cmpt_cidx_info s6 = cmpt_cidx_info s2).
    { destruct Hrf4 as [Hrf4 Hi4]. change (rest_f s) with (rest_f s3). change (cmpt_cidx_info s2) with (cmpt_cidx_info s3).
      rewrite <- Hrf4, <- Hi4. change (rest_g s5) with (rest_g s4) in Hrg. unfold rest_g in Hrg. unfold rest_f.
      clear - Hrg. split; congruence. }
    split; [apply Hrf|]. destruct Hrf as [Hrf Hinfo]. apply cntr_ok_same; [done|clear - Hrf; unfold rest_f in Hrf; congruence|].
    rewrite Hinfo. cbn. apply fld_put_apart; [split; cbn; lia..|]. right. cbn. lia.
Qed.

Section process.
Context (w : Z -> Z) (Hword : forall s pos, cmpt_word s pos = w pos) (Hparse : fp_proc_ul_cmpt_entry = None).

(** How many entries a call takes. *)
Definition to_take (s : c2h_descq) (budget : Z) : Z :=
  let pend := i32 (ring_idx_delta (u16 (cs_pidx s)) (cidx_cmpt s) (rngsz_cmpt (conf s))) in
  if (budget =? 0) || (budget >? pend) then pend else budget.

(** The card has written packets of lengths [lens], as many as the call takes, and had buffers
    for them. *)
Record arrived (N R : Z) (s : c2h_descq) (budget : Z) (lens : list Z) : Prop := {
  ar_some : lens <> [];
  ar_count : to_take s budget = Z.of_nat (length lens);
  ar_at : packets_at R (cmpt_entry_len s) w (cidx_cmpt s) (color s) lens;
  ar_room : total_bufs (c2h_bufsz (conf s)) lens <= avail s }.

Lemma stream_to_self s : stream_to (pidx s) s = stream s.
Proof. unfold stream_to. by rewrite set_pidx_self. Qed.

Lemma moderated_view s s' :
  moderated s s' -> flq_view (flq s') = flq_view (flq s) /\ avail s' = avail s /\ conf s' = conf s /\ pidx s' = pidx s /\
    copies s' = copies s /\ pend_list s' = pend_list s /\ finished s' = finished s /\ cidx_cmpt s' = cidx_cmpt s /\
    color s' = color s /\ (err s', q_state s', q_stop_wait s', cmpt_entry_len s', desc_cmpt_cur s', packets s', page_log s') =
    (err s, q_state s, q_stop_wait s, cmpt_entry_len s, desc_cmpt_cur s, packets s, page_log s).
Proof. intros [(a & i & n & ->) _]. by destruct s as [? ? ? ? ? ? ? ? ? ? ? ? ? ? ? ? ? ? [] ? ? ? ? ?]. Qed.

Lemma process_run N shift R fuel budget upd lens s :
  rxq N shift (pidx s) s -> ring_pos R s -> err s = false -> Forall job_ok (pend_list s) ->
  (adaptive_rx (conf s) = true -> cntr_ok s) -> arrived N R s budget lens ->
  exists s', descq_process_completion_st_c2h fuel budget upd s = Ret 0 s' /\ processed N shift R lens (payload (sdesc (flq s)) (c2h_bufsz (conf s)) (pidx s) lens) s s'.
Proof.
  intros Hq Hr Herr Hj Had [Hsome Hcount Hat Hroom].
  unfold descq_process_completion_st_c2h. rewrite (bind_Ret _ _ s s s) by done. rewrite Herr.
  unfold to_take in Hcount.
  set (pend := i32 (ring_idx_delta (u16 (cs_pidx s)) (cidx_cmpt s) (rngsz_cmpt (conf s)))) in *. cbn zeta in Hcount.
  destruct (Z.eqb_spec pend 0) as [Hz|Hz].
  { exfalso. destruct lens; [done|]. cbn in Hcount. rewrite Hz in Hcount.
    destruct (Z.eqb_spec budget 0); cbn in Hcount; [lia|]. destruct (Z.gtb_spec budget 0); cbn in Hcount; lia. }
  rewrite (bind_Ret _ _ s tt _) by reflexivity. set (s1 := on_flq _ s). cbn zeta. rewrite Hcount, Nat2Z.id.
  assert (Hq1 : rxq N shift (pidx s) s1) by (by apply (view_rxq _ _ _ s)).
  assert (Hr1 : ring_pos R s1) by (destruct Hr; by split).
  destruct (cmpl_loop_run w Hword Hparse N shift R lens (pidx s) 0 s1 Hq1 Hr1 Hat Hroom) as (p' & s2 & Hrun & [Hq2 Hr2 Hst2 Hpos2 (Hrest2 & Hflq2) _ Hp']).
  rewrite (bind_Ret _ _ _ _ _ Hrun). rewrite Z.add_0_l.
  rewrite (bind_Ret _ _ s2 tt _) by reflexivity. set (s3 := on_flq _ s2).
  assert (Hc2 : conf s2 = conf s) by (by rewrite (rest'_conf _ _ Hrest2)).
  assert (Hrest2' : copies s2 = copies s /\ pend_list s2 = pend_list s /\ finished s2 = finished s /\ cntr s2 = cntr s /\
    cmpt_cidx_info s2 = cmpt_cidx_info s /\
    (err s2, q_state s2, q_stop_wait s2, cmpt_entry_len s2, packets s2, page_log s2) =
    (err s, q_state s, q_stop_wait s, cmpt_entry_len s, packets s, page_log s)).
  { change (rest' s1) with (rest' s) in Hrest2. clear - Hrest2. unfold rest' in Hrest2. split_and!; congruence. }
  destruct Hrest2' as (Hcp2 & Hpl2 & Hfi2 & Hcn2 & Hin2 & Hro2).
  assert (Hck3 : cntr_ok s -> cntr_ok s3) by (apply cntr_ok_same; cbn; congruence).
  destruct (moderate_run budget (Z.of_nat (length lens)) s3) as (s4 & Hmod & Hm).
  { change (conf s3) with (conf s2). rewrite Hc2. auto. }
  rewrite (bind_Ret _ _ _ _ _ Hmod). rewrite (proj2 (Z.eqb_neq _ _)) by (destruct lens; [done|cbn; lia]).
  destruct (moderated_view _ _ Hm) as (Hv4 & Ha4 & Hc4 & _ & Hcp4 & Hpl4 & Hfi4 & Hci4 & Hco4 & Hro4).
  assert (Hq4 : rxq N shift p' s4).
  { apply (view_rxq _ _ _ s3); try done. by apply (view_rxq _ _ _ s2). }
  assert (Hj4 : Forall job_ok (pend_list s4)).
  { rewrite Hpl4. change (pend_list s3) with (pend_list s2). by rewrite Hpl2. }
  assert (Hpend4 : pidx_pend (flq s4) = pidx_pend (flq s)).
  { apply flq_view_parts in Hv4 as (_ & _ & _ & _ & -> & _). change (pidx_pend (flq s3)) with (pidx_pend (flq s2)).
    clear - Hflq2. unfold flq_rest' in Hflq2. cbn in Hflq2. congruence. }
  rewrite <- Hpend4.
  destruct (finish_walk_run N shift fuel (u16 (cs_pidx s)) p' upd s4 Hq4 Hj4) as (s5 & Hfin & Hp5 & Hst5 & Hw5 & Hj5 & Hd5 & Hq5 & Hpi5 & Hrf5 & Hck5).
  exists s5. rewrite Hfin. split; [done|].
  assert (Hst4 : stream_to p' s4 = stream s ++ payload (sdesc (flq s)) (c2h_bufsz (conf s)) (pidx s) lens).
  { transitivity (stream_to p' s2); [by apply view_stream|]. rewrite Hst2.
    change (stream_to (pidx s) s1) with (stream_to (pidx s) s). by rewrite stream_to_self. }
  rewrite Hst4 in Hp5, Hst5, Hw5. rewrite Hpl4, Hfi4 in Hd5. rewrite Hpl4 in Hp5, Hst5, Hw5. rewrite Hcp4 in Hp5.
  change (pend_list s3) with (pend_list s2) in *. change (copies s3) with (copies s2) in *. change (finished s3) with (finished s2) in *.
  rewrite Hpl2 in *. rewrite Hcp2 in *. rewrite Hfi2 in *.
  assert (Hfin5 : conf s5 = conf s /\ cidx_cmpt s5 = cidx_cmpt s2 /\ color s5 = color s2 /\
    (err s5, q_state s5, q_stop_wait s5, cmpt_entry_len s5, packets s5, page_log s5) =
    (err s, q_state s, q_stop_wait s, cmpt_entry_len s, packets s, page_log s) /\ desc_cmpt_cur s5 = desc_cmpt_cur s2).
  { clear - Hrf5 Hro4 Hro2 Hc4 Hc2 Hci4 Hco4. unfold rest_f in Hrf5. cbn in Hro4, Hci4, Hco4, Hc4. split_and!; congruence. }
  destruct Hfin5 as (Hc5 & Hci5 & Hco5 & Hro5 & Hcur5).
  split; try done.
  - destruct Hr2 as [HR Hrc Hri Hrcur]. split; [done|congruence|congruence|]. rewrite Hcur5, Hci5, Hrcur.
    f_equal. clear - Hro5 Hro2. congruence.
  - rewrite Hci5, Hco5, Hpos2. done.
  - rewrite Hpi5, Hp'. done.
  - clear - Hc5 Hro5. split_and!; congruence.
  - intros Hck. apply Hck5, Hm, Hck3, Hck.
Qed.
End process.
End c2h.
