(* ===== verification/C2hChan.v ===== *)
(** * C2hChan: a queue that receives a stream is a channel of bytes

    A history of a queue is any sequence of requests and of calls of its handler, with any
    packets the card has buffers for.  However they interleave, what the readers get is what
    the card sent, in order. *)

From S2P Require Import Prelude QdmaErrors Mmio CLayout Contexts Csr SoftCsr S80Csr.
From S2P Require Import Descq DescqInv C2h C2hRead C2hCntr C2hCmpl.
Local Open Scope Z_scope.

(** ** Where the card writes *)

(** A packet is written from the bus addresses in the descriptors on, and an address of the bus is in
    the page of the pool that is mapped there. *)
Definition mapped_at (f : qdma_flq) (x : Z) (p : qdma_sw_pg_sg) : bool :=
  (pg_dma_base_addr p <=? x) && (x <? pg_dma_base_addr p + max_pg_offset f).

Definition dma_place (f : qdma_flq) (x : Z) : Z * Z :=
  match List.find (mapped_at f x) (pg_sdesc f) with
  | Some p => (pg_base p, x - pg_dma_base_addr p)
  | None => (0, x)
  end.

Definition dst_addr (f : qdma_flq) (i : Z) : Z := nth (Z.to_nat i) (flq_desc f) 0.

(** [n] buffers of [b] bytes from descriptor [p] on. *)
Fixpoint landing (f : qdma_flq) (b p : Z) (n : nat) : list (Z * Z) :=
  match n with
  | O => []
  | S n' => (dma_place f <$> seqZ (dst_addr f p) b) ++ landing f b ((p + 1) mod Z.of_nat (length (flq_desc f))) n'
  end.

(** Packets of lengths [lens], each in buffers of its own. *)
Fixpoint landed (f : qdma_flq) (b p : Z) (lens : list Z) : list (Z * Z) :=
  match lens with
  | [] => []
  | len :: lens' =>
      take (Z.to_nat len) (landing f b p (Z.to_nat (packet_bufs len b))) ++
      landed f b ((p + packet_bufs len b) mod Z.of_nat (length (flq_desc f))) lens'
  end.

(** The pages of the pool are mapped apart from each other. *)
Definition pool_apart (f : qdma_flq) : Prop := forall i j p p',
  pg_sdesc f !! i = Some p -> pg_sdesc f !! j = Some p' -> i <> j ->
  pg_dma_base_addr p + max_pg_offset f <= pg_dma_base_addr p' \/ pg_dma_base_addr p' + max_pg_offset f <= pg_dma_base_addr p.

(** Buffer [i] lies in a page of the pool, and its offset is that of the address in its descriptor, as it is when
    the buffer has been cut from the page ([fill_one_in_place]). *)
Definition in_place (f : qdma_flq) (b i : Z) : Prop := exists k p g,
  pg_sdesc f !! k = Some p /\ sdesc f !! Z.to_nat i = Some g /\ sg_pg g = pg_base p /\
  flq_desc f !! Z.to_nat i = Some (pg_dma_base_addr p + sg_offset_ g) /\
  0 <= sg_offset_ g /\ sg_offset_ g + b <= max_pg_offset f.

(** So are the buffers that packets of lengths [lens] go to. *)
Definition told_where (s : c2h_descq) (lens : list Z) : Prop :=
  pool_apart (flq s) /\ forall e, 0 <= e < total_bufs (c2h_bufsz (conf s)) lens ->
    in_place (flq s) (c2h_bufsz (conf s)) ((pidx s + e) mod Z.of_nat (length (flq_desc (flq s)))).

Lemma dma_place_page f k p x :
  pool_apart f -> pg_sdesc f !! k = Some p -> pg_dma_base_addr p <= x < pg_dma_base_addr p + max_pg_offset f ->
  dma_place f x = (pg_base p, x - pg_dma_base_addr p).
Proof.
  intros Ha Hk Hx. unfold dma_place. destruct (List.find _ _) as [p'|] eqn:E.
  - apply List.find_some in E as [Hin Hm]. apply list_elem_of_In, list_elem_of_lookup in Hin as [j Hj].
    unfold mapped_at in Hm. destruct (decide (j = k)) as [->|Hne]; [congruence|].
    destruct (Ha _ _ _ _ Hj Hk Hne); lia.
  - exfalso. pose proof (List.find_none _ _ E p) as Hn. unfold mapped_at in Hn.
    assert (In p (pg_sdesc f)) as Hin by (apply list_elem_of_In; by eapply list_elem_of_lookup_2). specialize (Hn Hin). lia.
Qed.

Lemma landing_buffer f b i g :
  pool_apart f -> in_place f b i -> sdesc f !! Z.to_nat i = Some g -> sg_len g = b ->
  dma_place f <$> seqZ (dst_addr f i) b = sg_bytes g.
Proof.
  intros Ha (k & p & g' & Hp & Hg' & Hpg & Hd & Ho & Hm) Hg Hl. rewrite Hg in Hg'. injection Hg' as <-.
  unfold dst_addr, sg_bytes, range. rewrite (nth_lookup_Some _ _ _ _ Hd), Hl.
  apply list_eq. intros n. rewrite !list_lookup_fmap.
  destruct (decide (Z.of_nat n < b)) as [Hn|Hn].
  - rewrite !lookup_seqZ_lt by done. cbn. f_equal. rewrite (dma_place_page f k p) by (done || lia).
    rewrite Hpg. f_equal. lia.
  - by rewrite !lookup_seqZ_ge by lia.
Qed.

Lemma landing_window f b p n :
  pool_apart f -> length (sdesc f) = length (flq_desc f) -> 0 <= p < Z.of_nat (length (sdesc f)) ->
  (forall e, 0 <= e < Z.of_nat n -> let i := (p + e) mod Z.of_nat (length (sdesc f)) in
     in_place f b i /\ forall g, sdesc f !! Z.to_nat i = Some g -> sg_len g = b) ->
  landing f b p n = bytes_of (window (sdesc f) p n).
Proof.
  intros Ha Hlen. revert p. induction n as [|n IH]; intros p Hp He; [done|]. cbn [landing window]. rewrite bytes_of_cons, <- Hlen.
  destruct (lookup_in (sdesc f) p _ eq_refl Hp) as [g Hg]. rewrite (nth_lookup_Some _ _ _ _ Hg).
  destruct (He 0) as [Hin Hl]; [lia|]. rewrite Z.add_0_r, Z.mod_small in Hin, Hl by done.
  f_equal; [by apply landing_buffer; [..|apply Hl]|]. apply IH; [apply Z.mod_pos_bound; lia|]. intros e Hb. cbn zeta.
  rewrite Zplus_mod_idemp_l. replace (p + 1 + e) with (p + (1 + e)) by lia. apply He. lia.
Qed.

Lemma landed_is_payload f b p lens :
  pool_apart f -> length (sdesc f) = length (flq_desc f) -> 0 < b -> Forall is_u16 lens ->
  0 <= p < Z.of_nat (length (sdesc f)) ->
  (forall e, 0 <= e < total_bufs b lens -> let i := (p + e) mod Z.of_nat (length (sdesc f)) in
     in_place f b i /\ forall g, sdesc f !! Z.to_nat i = Some g -> sg_len g = b) ->
  landed f b p lens = payload (sdesc f) b p lens.
Proof.
  intros Ha Hlen Hb Hu. revert p. induction Hu as [|len lens Hl Hu IH]; intros p Hp He; [done|].
  pose proof (packet_bufs_pos len b (proj1 Hl) Hb). pose proof (total_bufs_nonneg b lens Hb Hu).
  unfold total_bufs in *. cbn [map foldr] in *. cbn [landed payload]. rewrite <- Hlen. f_equal.
  - unfold packet_bytes. f_equal. apply landing_window; [done..|]. intros e Hee. apply He. lia.
  - apply IH; [apply Z.mod_pos_bound; lia|]. intros e Hee. cbn zeta. rewrite Zplus_mod_idemp_l.
    replace (p + packet_bufs len b + e) with (p + (packet_bufs len b + e)) by lia. apply He. lia.
Qed.

Section chan.
Context `{C2hEngine}.
Context (w : Z -> Z) (Hword : forall s pos, cmpt_word s pos = w pos) (Hparse : fp_proc_ul_cmpt_entry = None).
Context (N shift R : Z).

(** ** The invariant *)

(** Between calls: rings, credits and requests fit together, and either nothing waits to be
    read or nobody waits for it. *)
Record chan (s : c2h_descq) : Prop := {
  ch_rxq : rxq N shift (pidx s) s;
  ch_ring : ring_pos R s;
  ch_err : err s = false;
  ch_jobs : Forall job_ok (pend_list s);
  ch_idle : pend_list s = [] \/ stream s = [];
  ch_cntr : adaptive_rx (conf s) = true -> cntr_ok s }.

(** The bytes of the packets are where the driver will look for them. *)
Lemma landed_payload s budget lens :
  chan s -> arrived w N R s budget lens -> told_where s lens ->
  landed (flq s) (c2h_bufsz (conf s)) (pidx s) lens = payload (sdesc (flq s)) (c2h_bufsz (conf s)) (pidx s) lens.
Proof.
  intros [Hq _ _ _ _ _] [_ _ Hat Hroom] [Hp Hin]. destruct Hq as [[Har Hpidx _ _ _ _] Hav Hfull _ _ _ (Hsh & _ & Hb)].
  assert (Ha : arrays_ok N (flq s)) by exact Har. destruct Ha as [HN _ Hsd _ Hde]. change (pidx (set_pidx (pidx s) s)) with (pidx s) in Hpidx.
  assert (Hl : length (sdesc (flq s)) = length (flq_desc (flq s))) by lia.
  assert (0 < c2h_bufsz (conf s)) by (rewrite Hb; apply Z.pow_pos_nonneg; lia).
  apply landed_is_payload; [done..|by eapply packets_at_u16|by rewrite Hsd|].
  intros e He i. split; [subst i; rewrite Hl; by apply Hin|]. intros g. subst i. rewrite Hsd. apply Hfull. lia.
Qed.

Lemma wants_nil l : Forall job_ok l -> wants l = [] -> l = [].
Proof.
  intros Hl Hw. destruct Hl as [|j l Hj _]; [done|]. unfold wants in Hw. cbn in Hw.
  apply app_eq_nil in Hw as [Hp _]. destruct Hj as [_ Hlf Hpos _]. rewrite Hp in Hlf. cbn in Hlf. lia.
Qed.

(** C18. Packets go to those who wait for them.  When the card has written completion entries for packets it
    had buffers for, one call of the handler takes them all (or as many as the budget), and, whatever was
    waiting before, the bytes at the addresses at which the card was told to write them fill the places of
    the waiting requests in order, each once; the requests that are full are completed in order without
    error; the buffers that were read are given back; ring positions, color and credits fit together again.
    The queue has no callback for packets, entries of the default format without errors and buffers of a
    power of two; the waiting requests are copied to lists with room for what they still want; and the
    buffers the card has filled are where the driver takes them to be ([told_where]): none of them was given back after having been read in parts, which
    moves its offset ([offset_is_not_reset] in C2hLimits). *)
Theorem receive_delivers fuel budget upd lens s :
  chan s -> q_state s = Q_STATE_ONLINE -> arrived w N R s budget lens -> told_where s lens ->
  returns (service_st_c2h fuel budget upd) s (fun rv s' =>
    rv = 0 /\ processed N shift R lens (landed (flq s) (c2h_bufsz (conf s)) (pidx s) lens) s s').
Proof.
  intros Hch Hon Har Ht. unfold service_st_c2h, returns. rewrite (bind_Ret _ _ s s s) by done.
  rewrite bool_decide_eq_true_2, (landed_payload s budget lens Hch Har Ht) by done. destruct Hch as [Hq Hr He Hj _ Hck].
  destruct (process_run w Hword Hparse N shift R fuel budget upd lens s Hq Hr He Hj Hck Har) as (s' & Hrun & Hp).
  by rewrite Hrun.
Qed.

(** ** A request *)

(** A request a caller may make: not known to the queue, with a callback, for as many bytes as
    its list has room for, and to be copied. *)
Record request_ok (s : c2h_descq) (j : job) : Prop := {
  ro_online : q_state s = Q_STATE_ONLINE /\ q_stop_wait s = false;
  ro_new : Forall (fun j' => jid j' <> jid j) (pend_list s);
  ro_async : fp_done (req j) = true /\ write (req j) = false /\ no_memcpy j = false;
  ro_list : Forall sg_ok (sgl (req j));
  ro_total : 0 < Z.of_nat (length (bytes_of (sgl (req j)))) < 2147483648;
  ro_len : Z.of_nat (length (sgl (req j))) < 4294967296;
  ro_count : count (req j) = Z.of_nat (length (bytes_of (sgl (req j)))) }.

(** The request as the queue takes it. *)
Definition fresh (j : job) : job := set_cb (set_left (count (req j)) cb_zero) j.

Lemma fresh_places j : places (fresh j) = bytes_of (sgl (req j)).
Proof. reflexivity. Qed.

Lemma fresh_ok s j : request_ok s j -> job_ok (fresh j).
Proof.
  intros [_ _ (_ & _ & Hcp) Hl Ht Hn Hc]. split.
  - split; cbn; try done; try lia; try (unfold is_u32; lia).
    change (Z.to_nat 0) with O. rewrite drop_0. destruct (sgl (req j)) as [|g l] eqn:E; [done|].
      apply Forall_cons in Hl as [[? ?] _]. lia.
  - rewrite fresh_places. cbn. lia.
  - cbn. lia.
  - done.
Qed.

(** After a reading with the buffers given back, the queue is in order again. *)
Lemma reading_rxq s j k d j' s' :
  rxq N shift (pidx s) s -> reading_done N s j true k d j' s' -> reusable s' -> rxq N shift (pidx s') s'.
Proof.
  intros Hq [_ _ _ _ _ _ Hok (Hrest & Hflq) Hd Hpend Hav _ (foff & Hf & Hlt & Hlen & Hb)] Hre.
  assert (Hc : conf s' = conf s /\ pidx s' = pidx s) by (unfold rest in Hrest; split; congruence). destruct Hc as [Hc Hp].
  pose proof (q_rx _ _ _ _ Hq) as Hrx. rewrite set_pidx_self in Hrx.
  pose proof (rx_arrays _ _ Hrx) as Ha. pose proof (ao_N _ _ Ha) as HN.
  pose proof (q_avail _ _ _ _ Hq) as Hqa. rewrite set_pidx_self in Hqa.
  pose proof (waiting_mod N s Hrx) as Hw. pose proof (waiting_mod N s' Hok) as Hw'. rewrite Hp, Hpend in Hw'.
  pose proof (Z.mod_pos_bound (pidx s - pidx_pend (flq s)) N ltac:(lia)) as Hwb. rewrite <- Hw in Hwb.
  assert (Hww : waiting s' = waiting s - Z.of_nat d).
  { rewrite Hw', Zminus_mod_idemp_r. replace (pidx s - (pidx_pend (flq s) + Z.of_nat d))
      with (pidx s - pidx_pend (flq s) - Z.of_nat d) by lia.
    rewrite <- Zminus_mod_idemp_l, <- Hw. apply Z.mod_small. lia. }
  assert (Hpw : pidx s = (pidx_pend (flq s) + waiting s) mod N).
  { rewrite Hw, Zplus_mod_idemp_r. replace (pidx_pend (flq s) + (pidx s - pidx_pend (flq s))) with (pidx s) by lia.
    symmetry. apply Z.mod_small, Hrx. }
  split; rewrite ?set_pidx_self; try done.
  - rewrite Hav, Hww. rewrite u32_small by (unfold is_u32; lia). lia.
  - rewrite Hww, Hc, Hp. intros e g' He Hg'.
    assert (E : (pidx s + e) mod N = (pidx_pend (flq s) + (waiting s + e)) mod N).
    { rewrite Hpw at 1. rewrite Zplus_mod_idemp_l. f_equal. lia. }
    rewrite Hb in Hg' by (apply Z.mod_pos_bound; lia). rewrite andb_true_r in Hg'.
    rewrite decide_False in Hg'.
    2: { intros [Ei Hnz]. specialize (Hlt Hnz). rewrite E in Ei.
         destruct (decide (e < N - waiting s)).
         - apply mod_apart in Ei; lia.
         - replace (pidx_pend (flq s) + (waiting s + e)) with (pidx_pend (flq s) + (waiting s + e - N) + 1 * N) in Ei by lia.
           rewrite Z_mod_plus_full in Ei. apply mod_apart in Ei; lia. }
    case_bool_decide as Hin.
    + destruct (sdesc (flq s) !! _); [|done]. cbn in Hg'. by injection Hg' as <-.
    + destruct (sdesc (flq s) !! Z.to_nat ((pidx s + e) mod N)) as [g|] eqn:Eg; [|done]. cbn in Hg'. injection Hg' as <-.
      apply (q_full _ _ _ _ Hq e g); [|done]. rewrite set_pidx_self. split; [lia|].
      destruct (decide (e < N - waiting s)); [done|exfalso]. apply Hin. apply among_seqZ.
      exists (e - (N - waiting s)). split; [lia|]. rewrite E.
      replace (pidx_pend (flq s) + (waiting s + e)) with (pidx_pend (flq s) + (e - (N - waiting s)) + 1 * N) by lia.
      apply Z_mod_plus_full.
  - rewrite Hc. apply Hq.
  - rewrite Hc. apply Hq.
  - rewrite Hc. destruct (q_shift _ _ _ _ Hq) as (H1 & H2 & H3). split; [done|]. split; [|done].
    unfold flq_rest in Hflq. congruence.
Qed.

Lemma filter_others l k : Forall (fun j' => jid j' <> k) l -> List.filter (fun j => negb (is_job k j)) l = l.
Proof.
  induction 1 as [|j l Hj _ IH]; [done|]. cbn. unfold is_job. rewrite (proj2 (Nat.eqb_neq _ _) Hj). cbn. by f_equal.
Qed.

Lemma map_others l k (j : job) :
  Forall (fun j' => jid j' <> k) l -> map (fun x => if is_job k x then j else x) l = l.
Proof.
  induction 1 as [|x l Hx _ IH]; [done|]. cbn. unfold is_job. rewrite (proj2 (Nat.eqb_neq _ _) Hx). by f_equal.
Qed.

(** What a request does. *)
Lemma submit_c2h_run fuel others j s :
  chan s -> request_ok s j ->
  exists rv s', qdma_request_submit fuel others j s = Ret rv s' /\
    pairs_of (copies s') = pairs_of (copies s) ++ zip (bytes_of (sgl (req j))) (stream s) /\
    stream s' = drop (length (bytes_of (sgl (req j)))) (stream s) /\
    wants (pend_list s') = wants (pend_list s) ++ drop (length (stream s)) (bytes_of (sgl (req j))) /\
    (rv = count (req j) /\ pend_list s' = pend_list s \/
     rv = 0 /\ exists j', pend_list s' = pend_list s ++ [j'] /\ req j' = req j) /\
    conf s' = conf s /\ pidx s' = pidx s /\ finished s' = finished s /\
    (reusable s' -> chan s').
Proof.
  intros [Hq Hr He Hj Hidle Hck] Hro. pose proof (fresh_ok s j Hro) as Hf. pose proof Hf as [Hrq Hleft Hpos Hcp].
  rewrite fresh_places in Hleft.
  unfold qdma_request_submit. destruct (ro_async _ _ Hro) as (Hfp & Hwr & Hnm). rewrite Hwr.
  unfold qdma_request_submit_st_c2h. cbn zeta.
  change (set_cb (set_left (count (req (set_cb cb_zero j))) (cb (set_cb cb_zero j))) (set_cb cb_zero j)) with (fresh j).
  change (req (set_cb cb_zero j)) with (req j).
  rewrite (bind_Ret _ _ s s s) by done. destruct (ro_online _ _ Hro) as [Hon Hst]. rewrite Hst.
  rewrite bool_decide_eq_true_2 by done. cbn [negb].
  rewrite (bind_Ret _ _ s tt _) by reflexivity. set (s1 := set_pend_list _ s).
  assert (Hrx1 : rx_ok N s1).
  { pose proof (q_rx _ _ _ _ Hq) as Hrx. rewrite set_pidx_self in Hrx. destruct Hrx. by split. }
  destruct (st_c2h_read_run N fuel (fresh j) true true s1 Hrx1 Hrq (fun _ => q_reuse _ _ _ _ Hq)) as (j' & s2 & d & Hrun & Hd).
  set (k := Nat.min _ _) in *. change (stream s1) with (stream s) in *.
  change (places (fresh j)) with (bytes_of (sgl (req j))) in *.
  rewrite (bind_Ret _ _ _ _ _ Hrun). cbn beta iota.
  pose proof Hd as [Hp Hpl Hs' Hl' (Hrj & Hnj & _) Hnext Hok (Hrest & Hflq) _ _ _ _ _].
  change (stream s1) with (stream s) in Hp, Hs'. change (places (fresh j)) with (bytes_of (sgl (req j))) in Hp, Hpl.
  assert (Hre2 : forall s3, flq s3 = flq s2 -> conf s3 = conf s2 -> avail s3 = avail s2 -> pidx s3 = pidx s2 ->
    reusable s3 -> rxq N shift (pidx s3) s3).
  { intros s3 E1 E2 E3 E4 Hr3. rewrite E4. apply (rxq_same _ _ _ s2); try done.
    apply (reading_rxq s1 (fresh j) k d j' s2); [|done|].
    - by apply (rxq_same _ _ _ s).
    - unfold reusable in *. by rewrite <- E1, <- E2. }
  assert (Hfr : conf s2 = conf s /\ q_state s2 = q_state s /\ err s2 = err s /\ color s2 = color s /\ pidx s2 = pidx s /\
    cidx_cmpt s2 = cidx_cmpt s /\ cmpt_entry_len s2 = cmpt_entry_len s /\ desc_cmpt_cur s2 = desc_cmpt_cur s /\
    cmpt_cidx_info s2 = cmpt_cidx_info s /\ cntr s2 = cntr s /\ pend_list s2 = pend_list s ++ [fresh j] /\ finished s2 = finished s).
  { change (rest s1) with (rest (set_pend_list (pend_list s ++ [fresh j]) s)) in Hrest. clear - Hrest.
    unfold rest in Hrest. cbn in Hrest. split_and!; congruence. }
  destruct Hfr as (F1 & F2 & F3 & F4 & F5 & F6 & F7 & F8 & F9 & F10 & F11 & F12).
  assert (Hchan : forall s3, reusable s3 -> (flq s3, conf s3, avail s3, pidx s3) = (flq s2, conf s2, avail s2, pidx s2) ->
    (cidx_cmpt s3, cmpt_entry_len s3, desc_cmpt_cur s3, err s3, cmpt_cidx_info s3, cntr s3) =
    (cidx_cmpt s2, cmpt_entry_len s2, desc_cmpt_cur s2, err s2, cmpt_cidx_info s2, cntr s2) ->
    Forall job_ok (pend_list s3) -> pend_list s3 = [] \/ stream s3 = [] -> chan s3).
  { intros s3 Hr3 E1 E2 Hj3 Hi3. split; try done.
    - apply Hre2; congruence || done.
    - destruct Hr as [? ? ? ?]. split; try done; congruence.
    - congruence.
    - intros Hadp. apply (cntr_ok_same s); [congruence|congruence| |apply Hck; congruence].
      f_equal. congruence. }
  change (left (cb (fresh j))) with (count (req j)) in *. change (req (fresh j)) with (req j) in *.
  pose proof (ro_total _ _ Hro) as Htot. pose proof (ro_count _ _ Hro) as Hcnt.
  assert (Hlk : left (cb j') = Z.of_nat (length (places j'))).
  { rewrite Hl', Hpl, length_drop. rewrite u32_small; unfold is_u32, k; lia. }
  assert (Hid : jid j' = jid j) by (unfold jid; by rewrite Hrj).
  assert (Hp' : pairs_of (copies s2) = pairs_of (copies s) ++ zip (bytes_of (sgl (req j))) (stream s)).
  { rewrite Hp. change (no_memcpy (fresh j)) with (no_memcpy j). by rewrite Hnm. }
  assert (Hst2 : stream s2 = drop (length (bytes_of (sgl (req j)))) (stream s)).
  { rewrite Hs'. unfold k. destruct (decide (length (stream s) <= length (bytes_of (sgl (req j))))%nat).
    - rewrite !drop_ge by lia. done.
    - f_equal. lia. }
  destruct (Z.eqb_spec (left (cb j')) 0) as [Hz|Hz].
  - (* complete at once *)
    rewrite Hz, Hpl, length_drop in Hlk.
    rewrite (bind_Ret _ _ s2 tt _) by reflexivity. set (s3 := unlink _ s2).
    assert (Hpl3 : pend_list s3 = pend_list s).
    { cbn. rewrite F11, Hid, List.filter_app, filter_others by apply Hro. cbn. unfold is_job.
      change (jid (fresh j)) with (jid j). rewrite Nat.eqb_refl. cbn. apply app_nil_r. }
    assert (Hpn : pend_list s = []).
    { destruct Hidle as [?|E]; [done|]. exfalso. unfold k in Hlk. rewrite E in Hlk. cbn in Hlk. lia. }
    exists (i64 (count (req j))), s3. split; [done|]. split; [done|]. split; [done|].
    assert (Hnone : drop (length (stream s)) (bytes_of (sgl (req j))) = []) by (apply drop_ge; unfold k in Hlk; lia).
    split; [by rewrite Hpl3, Hnone, app_nil_r|]. split.
    { left. split; [|done]. unfold i64, u64. rewrite Z.mod_small by lia.
      by rewrite (proj2 (Z.ltb_lt _ _)) by lia. }
    split; [done|]. split; [done|]. split; [done|]. intros Hr3. apply Hchan; try done; rewrite Hpl3, Hpn; [done|by left].
  - (* it waits *)
    rewrite (bind_Ret _ _ s2 tt _) by reflexivity. set (s3 := set_pend_list_empty _ _). rewrite Hfp.
    assert (Hpl3 : pend_list s3 = pend_list s ++ [j']).
    { cbn. rewrite F11, Hid, map_app, map_others by apply Hro. cbn. unfold is_job.
      change (jid (fresh j)) with (jid j). by rewrite Nat.eqb_refl. }
    assert (Hkk : k = length (stream s)).
    { rewrite Hlk, Hpl, length_drop in Hz. unfold k in *. lia. }
    exists 0, s3. split; [done|]. split; [done|]. split; [done|].
    split.
    { rewrite Hpl3. unfold wants. rewrite fmap_app, join_app. f_equal. cbn. by rewrite app_nil_r, Hpl, Hkk. }
    split; [right; split; [done|]; by exists j'|]. split; [done|]. split; [done|]. split; [done|].
    intros Hr3. apply Hchan; try done.
    + rewrite Hpl3. apply Forall_app. split; [done|]. constructor; [|done]. split.
      * destruct Hnext as [|E]; [done|]. rewrite E in Hlk. done.
      * done.
      * lia.
      * rewrite Hnj. exact Hnm.
    + right. change (stream s3) with (stream s2). rewrite Hst2. apply drop_ge. unfold k in Hkk. lia.
Qed.

(** ** Histories *)

(** A call: a request, or the handler with what the card has written since. *)
Inductive call := Submit (j : job) | Service (budget : Z) (upd : bool) (lens : list Z).

Definition call_ok (s : c2h_descq) (c : call) : Prop :=
  match c with
  | Submit j => request_ok s j
  | Service budget _ lens => q_state s = Q_STATE_ONLINE /\ arrived w N R s budget lens /\ told_where s lens
  end.

Definition run_call (fuel : nat) (c : call) : M c2h_descq Z :=
  match c with
  | Submit j => qdma_request_submit fuel (mret tt) j
  | Service budget upd _ => service_st_c2h fuel budget upd
  end.

(** What a call wants to be given, and what it brings. *)
Definition call_wants (c : call) : list (Z * Z) :=
  match c with Submit j => bytes_of (sgl (req j)) | Service _ _ _ => [] end.
Definition call_brings (s : c2h_descq) (c : call) : list (Z * Z) :=
  match c with
  | Submit _ => []
  | Service _ _ lens => landed (flq s) (c2h_bufsz (conf s)) (pidx s) lens
  end.

(** [history fuel s ws bs s']: calls lead from [s] to [s']; they want [ws] and bring [bs].  The
    driver does not reset the offsets of buffers ([offset_is_not_reset] in C2hLimits): after
    every call they still have to fit 32 bits, and packets that arrive must go to buffers that are
    in place. *)
Inductive history (fuel : nat) (s : c2h_descq) : list (Z * Z) -> list (Z * Z) -> c2h_descq -> Prop :=
| history_nil : history fuel s [] [] s
| history_call ws bs s1 c rv s2 :
    history fuel s ws bs s1 -> call_ok s1 c -> run_call fuel c s1 = Ret rv s2 -> reusable s2 ->
    history fuel s (ws ++ call_wants c) (bs ++ call_brings s1 c) s2.

(** A call on a queue in order. *)
Lemma call_run fuel s c :
  chan s -> call_ok s c ->
  exists rv s', run_call fuel c s = Ret rv s' /\ 0 <= rv /\ (reusable s' -> chan s') /\
    pairs_of (copies s') = pairs_of (copies s) ++
      zip (wants (pend_list s) ++ call_wants c) (stream s ++ call_brings s c) /\
    stream s' = drop (length (wants (pend_list s) ++ call_wants c)) (stream s ++ call_brings s c) /\
    wants (pend_list s') = drop (length (stream s ++ call_brings s c)) (wants (pend_list s) ++ call_wants c).
Proof.
  intros Hch Hc. pose proof Hch as [Hq Hr He Hj Hidle Hck]. destruct c as [j|budget upd lens]; cbn [call_ok run_call call_wants call_brings] in *.
  - destruct (submit_c2h_run fuel (mret tt) j s Hch Hc) as (rv & s' & Hrun & Hp & Hs & Hw & Hrv & _ & _ & _ & Hchan).
    exists rv, s'. split; [done|]. split.
    { destruct Hrv as [[-> _]|[-> _]]; [|lia]. pose proof (ro_total _ _ Hc). rewrite (ro_count _ _ Hc). lia. }
    split; [done|]. rewrite app_nil_r. destruct Hidle as [E|E].
    + assert (Hwn : wants (pend_list s) = []) by (by rewrite E). rewrite Hwn in *. done.
    + rewrite E in *. cbn [length] in *. rewrite !zip_nil_r in *. rewrite !drop_nil in *. done.
  - destruct Hc as (Hon & Har & Ht). rewrite (landed_payload s budget lens Hch Har Ht). unfold service_st_c2h. rewrite (bind_Ret _ _ s s s) by done.
    rewrite bool_decide_eq_true_2 by done.
    destruct (process_run w Hword Hparse N shift R fuel budget upd lens s Hq Hr He Hj Hck Har) as (s' & Hrun & Hp).
    exists 0, s'. split; [done|]. split; [done|]. rewrite app_nil_r.
    destruct Hp as [Hp1 Hp2 Hp3 Hp4 Hp5 Hp6 Hp7 Hp8 Hp9 (Hp10 & Hp11 & _) Hp12].
    split; [|done]. intros Hre. split; try done; [auto|congruence| |].
    + destruct (decide (length (wants (pend_list s)) <= length (stream s ++ payload (sdesc (flq s)) (c2h_bufsz (conf s)) (pidx s) lens))%nat).
      * left. apply wants_nil; [done|]. rewrite Hp3. apply drop_ge. lia.
      * right. rewrite Hp2. apply drop_ge. lia.
    + rewrite Hp10. auto.
Qed.

Lemma zip_extend {A B} (ws ws' : list A) (bs bs' : list B) :
  zip (ws ++ ws') (bs ++ bs') = zip ws bs ++ zip (drop (length bs) ws ++ ws') (drop (length ws) bs ++ bs').
Proof.
  revert bs. induction ws as [|x ws IH]; intros [|y bs]; cbn; try done.
  f_equal. apply IH.
Qed.

Lemma drop_extend {A B} (ws ws' : list A) (bs bs' : list B) :
  drop (length (drop (length bs) ws ++ ws')) (drop (length ws) bs ++ bs') = drop (length (ws ++ ws')) (bs ++ bs').
Proof. revert bs. induction ws as [|x ws IH]; intros [|y bs]; try done. apply IH. Qed.

(** C14. A queue is a channel.  Over any sequence of requests and calls of the handler, with any packets the
    card had buffers for, every call returns without error; the bytes copied so far are those at the
    addresses at which the card was told to write, in order, each to the next place some request asked to be
    filled, in the order of the requests; what is left over is what waits in the stream, or what requests
    still want.  The queue has no callback for packets, entries of the default format without errors and
    buffers of a power of two; requests are new, not empty, copied, have a callback and a list as long as
    they count ([request_ok]); and packets arrive in buffers that are where the driver takes them to be
    ([told_where]): not in one that was given back after having been read in parts, whose bytes the driver
    looks for at the wrong offset ([offset_is_not_reset] in C2hLimits). *)
Theorem channel_history fuel s0 ws bs s :
  chan s0 -> pend_list s0 = [] -> stream s0 = [] -> copies s0 = [] -> history fuel s0 ws bs s ->
  pairs_of (copies s) = zip ws bs /\
  stream s = drop (length ws) bs /\ wants (pend_list s) = drop (length bs) ws /\
  chan s /\ forall c, call_ok s c -> returns (run_call fuel c) s (fun rv _ => 0 <= rv).
Proof.
  intros Hc0 Hpl0 Hst0 Hcp0 Hh.
  assert (Hinv : chan s /\ pairs_of (copies s) = zip ws bs /\ stream s = drop (length ws) bs /\
    wants (pend_list s) = drop (length bs) ws).
  { induction Hh as [|ws bs s1 c rv s2 Hh (IHc & IHp & IHs & IHw) Hc Hrun Hre].
    - rewrite Hpl0, Hst0, Hcp0. done.
    - destruct (call_run fuel s1 c IHc Hc) as (rv' & s' & Hrun' & _ & Hch & Hp & Hs & Hw).
      rewrite Hrun in Hrun'. injection Hrun' as <- <-.
      split; [auto|]. rewrite Hp, Hs, Hw, IHp, IHs, IHw. split; [symmetry; apply zip_extend|].
      split; apply drop_extend. }
  destruct Hinv as (Hc & Hp & Hs & Hw). split; [done|]. split; [done|]. split; [done|]. split; [done|].
  intros c Hcok. destruct (call_run fuel s c Hc Hcok) as (rv & s' & Hrun & Hrv & _). unfold returns. by rewrite Hrun.
Qed.
End chan.

(** ** A queue at work *)

(** The first word of an entry for a packet of [len] bytes, with the color of the first round. *)
Definition demo_word (len : Z) : Z := Z.lor 10 (Z.shiftl len 4).

(** A card that has sent packets of 20 and 5 bytes. *)
Definition demo_ring (pos : Z) : Z :=
  if pos =? 0 then demo_word 20 else if pos =? 8 then demo_word 5 else 0.

#[local] Instance demo_card : C2hEngine := {|
  cs_pidx := fun _ => 2;
  cmpt_word := fun _ pos => demo_ring pos;
  fp_proc_ul_cmpt_entry := None;
  packet_handler := fun _ _ => (0, []);
  kzalloc_ok := fun _ _ => true;
  alloc_pages := fun s _ => 4096 * (1 + Z.of_nat (length (page_log s)));
  map_page := fun _ pg => 1048576 + pg |}.

(** A queue of four buffers of 16 bytes, as it is when its buffers have been allocated. *)
Definition demo_conf : c2h_conf :=
  mk_conf 0 4 4 0 0 0 16 0 0 0 0 0 0 false false false false false false POLL_MODE false false 0 [] [] [] [].

Definition demo_blank : c2h_descq :=
  mk_c2h demo_conf Q_STATE_ONLINE false false 1 3 0 0 0 8 0 0 0 true (mk_cntr 0 0 0 0 0) [] 0 0 flq_zero [] [] [] [] [].

Definition demo_0 : c2h_descq := Eval vm_compute in end_state (c2h_alloc_resource [0; 0; 0; 0] demo_blank).

(** A request for 8 bytes, the packets, and a request for 40 bytes. *)
Definition demo_job (id : nat) (pg len : Z) : job :=
  mk_job (mk_req id true 0 len 0 false false false [mk_sg pg 0 len 0]) false cb_zero.

Definition demo_1 : c2h_descq := Eval vm_compute in end_state (run_call 9 (Submit (demo_job 1 77 8)) demo_0).
Definition demo_2 : c2h_descq := Eval vm_compute in end_state (run_call 9 (Service 0 true [20; 5]) demo_1).
Definition demo_3 : c2h_descq := Eval vm_compute in end_state (run_call 9 (Submit (demo_job 2 78 40)) demo_2).

Lemma demo_0_chan : chan 4 4 4 demo_0.
Proof.
  split; [|split; vm_compute; try done; by split|done|by constructor|by left|done].
  split; [|done| | |done|done|by split; [lia|]].
  - split; [split; cbn; lia|cbn; lia|cbn; lia| |cbn; unfold is_u32; lia|cbn; unfold is_u32; lia].
    cbn. repeat constructor; cbn; try lia; unfold is_u32; lia.
  - intros e g He Hg. change (4 - waiting _) with 4 in He.
    assert (e = 0 \/ e = 1 \/ e = 2 \/ e = 3) as [ -> | [ -> | [ -> | -> ]]] by lia;
      vm_compute in Hg; injection Hg as <-; done.
  - split; [cbn; lia|]. cbn. repeat constructor; cbn; lia.
Qed.

Lemma demo_request_ok s id pg len :
  q_state s = Q_STATE_ONLINE -> q_stop_wait s = false -> Forall (fun j' => jid j' <> id) (pend_list s) ->
  0 < len < 65536 -> request_ok s (demo_job id pg len).
Proof.
  intros H1 H2 H3 H4. assert (Hb : length (bytes_of [mk_sg pg 0 len 0]) = Z.to_nat len).
  { unfold bytes_of. cbn -[sg_bytes]. rewrite app_nil_r. apply range_length. }
  split; try done; cbn -[bytes_of]; rewrite ?Hb; try lia.
  repeat constructor; cbn; unfold is_u32; lia.
Qed.

Lemma demo_run_1 : run_call 9 (Submit (demo_job 1 77 8)) demo_0 = Ret 0 demo_1.
Proof. vm_compute. reflexivity. Qed.
Lemma demo_run_2 : run_call 9 (Service 0 true [20; 5]) demo_1 = Ret 0 demo_2.
Proof. vm_compute. reflexivity. Qed.
Lemma demo_run_3 : run_call 9 (Submit (demo_job 2 78 40)) demo_2 = Ret 0 demo_3.
Proof. vm_compute. reflexivity. Qed.

(** [told_where], as a test. *)
Definition placed_at (f : qdma_flq) (b i : Z) : bool :=
  match sdesc f !! Z.to_nat i, flq_desc f !! Z.to_nat i with
  | Some g, Some x =>
      (0 <=? sg_offset_ g) && (sg_offset_ g + b <=? max_pg_offset f) &&
      existsb (fun p => (sg_pg g =? pg_base p) && (x =? pg_dma_base_addr p + sg_offset_ g)) (pg_sdesc f)
  | _, _ => false
  end.

Lemma placed_in_place f b i : placed_at f b i = true -> in_place f b i.
Proof.
  unfold placed_at. destruct (sdesc f !! _) as [g|] eqn:Eg; [|discriminate].
  destruct (flq_desc f !! _) as [x|] eqn:Ex; [|discriminate].
  rewrite !andb_true_iff, existsb_exists. intros [[Ho Hm] (p & Hp & [Hg Hx]%andb_prop)].
  apply list_elem_of_In, list_elem_of_lookup in Hp as [k Hk]. exists k, p, g. split_and!; try done; [lia| |lia|lia].
  rewrite Ex. f_equal. lia.
Qed.

Definition pages_apart (f : qdma_flq) : bool :=
  let ps := imap pair (pg_sdesc f) in
  forallb (fun '(i, p) => forallb (fun '(j, p') => Nat.eqb i j ||
    (pg_dma_base_addr p + max_pg_offset f <=? pg_dma_base_addr p') ||
    (pg_dma_base_addr p' + max_pg_offset f <=? pg_dma_base_addr p)) ps) ps.

Lemma pages_pool_apart f : pages_apart f = true -> pool_apart f.
Proof.
  unfold pages_apart. rewrite forallb_forall. intros Ha i j p p' Hi Hj Hne.
  assert (forall k q, pg_sdesc f !! k = Some q -> In (k, q) (imap pair (pg_sdesc f))) as Hin.
  { intros k q Hk. apply list_elem_of_In, (list_elem_of_lookup_2 _ k). by rewrite list_lookup_imap, Hk. }
  specialize (Ha _ (Hin i p Hi)). rewrite forallb_forall in Ha. specialize (Ha _ (Hin j p' Hj)). cbn in Ha.
  rewrite !orb_true_iff in Ha. destruct Ha as [[E%Nat.eqb_eq | ?] | ?]; [done|left|right]; lia.
Qed.

Lemma test_told_where s lens :
  pages_apart (flq s) = true ->
  forallb (fun e => placed_at (flq s) (c2h_bufsz (conf s)) ((pidx s + e) mod Z.of_nat (length (flq_desc (flq s)))))
    (seqZ 0 (total_bufs (c2h_bufsz (conf s)) lens)) = true ->
  told_where s lens.
Proof.
  intros Hp He. split; [by apply pages_pool_apart|]. intros e Hee. rewrite forallb_forall in He.
  apply placed_in_place, He, list_elem_of_In, elem_of_seqZ. lia.
Qed.

Lemma demo_told_where : told_where demo_1 [20; 5].
Proof. apply test_told_where; vm_compute; reflexivity. Qed.

Lemma demo_arrived : arrived demo_ring 4 4 demo_1 0 [20; 5].
Proof. split; [done|vm_compute; reflexivity|vm_compute; tauto|vm_compute; discriminate]. Qed.

Definition small_offsets (s : c2h_descq) : bool :=
  (0 <=? c2h_bufsz (conf s)) &&
  forallb (fun g => (0 <=? sg_offset_ g + c2h_bufsz (conf s)) && (sg_offset_ g + c2h_bufsz (conf s) <? 4294967296)) (sdesc (flq s)).

Lemma small_reusable s : small_offsets s = true -> reusable s.
Proof.
  unfold small_offsets. intros [Hb Hf]%andb_prop. split; [lia|]. rewrite forallb_forall in Hf.
  apply Forall_forall. intros g Hg%list_elem_of_In. specialize (Hf g Hg). unfold is_u32. lia.
Qed.

Definition demo_wants : list (Z * Z) :=
  (([] ++ call_wants (Submit (demo_job 1 77 8))) ++ call_wants (Service 0 true [20; 5])) ++
  call_wants (Submit (demo_job 2 78 40)).
Definition demo_brings : list (Z * Z) :=
  (([] ++ call_brings demo_0 (Submit (demo_job 1 77 8))) ++ call_brings demo_1 (Service 0 true [20; 5])) ++
  call_brings demo_2 (Submit (demo_job 2 78 40)).

Lemma demo_history : history demo_ring 4 4 9 demo_0 demo_wants demo_brings demo_3.
Proof.
  eapply history_call; [|exact (demo_request_ok demo_2 2 78 40 eq_refl eq_refl ltac:(constructor) ltac:(lia))
                        |exact demo_run_3|apply small_reusable; vm_compute; reflexivity].
  eapply history_call; [|split; [reflexivity|split; [exact demo_arrived|exact demo_told_where]]
                        |exact demo_run_2|apply small_reusable; vm_compute; reflexivity].
  eapply history_call; [|exact (demo_request_ok demo_0 1 77 8 eq_refl eq_refl ltac:(constructor) ltac:(lia))
                        |exact demo_run_1|apply small_reusable; vm_compute; reflexivity].
  apply history_nil.
Qed.

(** The three calls, and what they did: 25 bytes were copied, and the second request still wants
    23. *)
Lemma channel_history_witness :
  exists ws bs, chan 4 4 4 demo_0 /\ history demo_ring 4 4 9 demo_0 ws bs demo_3 /\
    length ws = 48%nat /\ length bs = 25%nat /\
    pairs_of (copies demo_3) = zip ws bs /\ stream demo_3 = drop (length ws) bs /\
    wants (pend_list demo_3) = drop (length bs) ws /\
    chan 4 4 4 demo_3 /\ forall c, call_ok demo_ring 4 4 demo_3 c -> returns (run_call 9 c) demo_3 (fun rv _ => 0 <= rv).
Proof.
  exists demo_wants, demo_brings. split; [apply demo_0_chan|]. split; [exact demo_history|].
  split; [vm_compute; reflexivity|]. split; [vm_compute; reflexivity|].
  exact (channel_history demo_ring (fun _ _ => eq_refl) eq_refl 4 4 4 9 demo_0 _ _ demo_3 demo_0_chan eq_refl eq_refl eq_refl demo_history).
Defined.

(** The handler in the history above: it takes two packets. *)
Lemma receive_delivers_witness :
  chan 4 4 4 demo_1 /\ arrived demo_ring 4 4 demo_1 0 [20; 5] /\ told_where demo_1 [20; 5] /\
  returns (service_st_c2h 9 0 true) demo_1 (fun rv s' =>
    rv = 0 /\ processed 4 4 4 [20; 5] (landed (flq demo_1) 16 (pidx demo_1) [20; 5]) demo_1 s').
Proof.
  assert (Hc : chan 4 4 4 demo_1).
  { destruct (submit_c2h_run 4 4 4 9 (mret tt) (demo_job 1 77 8) demo_0 demo_0_chan
      (demo_request_ok demo_0 1 77 8 eq_refl eq_refl ltac:(constructor) ltac:(lia)))
      as (rv & s' & Hrun & _ & _ & _ & _ & _ & _ & _ & Hch).
    pose proof (eq_trans (eq_sym demo_run_1) Hrun) as E. injection E as _ <-. apply Hch.
    apply small_reusable. vm_compute. reflexivity. }
  split; [exact Hc|]. split; [exact demo_arrived|]. split; [exact demo_told_where|].
  exact (receive_delivers demo_ring (fun _ _ => eq_refl) eq_refl 4 4 4 9 0 true [20; 5] demo_1 Hc eq_refl demo_arrived demo_told_where).
Defined.
