(* ===== verification/C2hPool.v ===== *)
(** * C2hPool: the pages behind the buffers of a queue

    Allocating the buffers of a queue cuts them from a pool of pages, one after the other, and
    takes a reference on the page of each.  Freeing them gives every reference back. *)

From S2P Require Import Prelude QdmaErrors Mmio CLayout Contexts Csr SoftCsr S80Csr.
From S2P Require Import Descq DescqInv C2h C2hRead C2hCntr C2hCmpl C2hChan.
Local Open Scope Z_scope.

(** ** Powers of two *)

(** [get_next_powof2] is the next power of two that is not smaller. *)
Lemma get_next_powof2_run v : 0 < v <= 2147483648 -> get_next_powof2 v = Some (2 ^ Z.log2_up v).
Proof.
  intros Hv. unfold get_next_powof2, fls. rewrite (proj2 (Z.eqb_neq v 0)) by lia.
  replace (Z.log2 v + 1 - 1) with (Z.log2 v) by lia.
  pose proof (Z.log2_nonneg v) as Hk. rewrite (proj2 (Z.ltb_ge _ _)) by done.
  destruct (Z.log2_spec v ltac:(lia)) as [H1 H2]. set (k := Z.log2 v) in *.
  assert (Hk31 : k <= 31).
  { unfold k. transitivity (Z.log2 2147483648); [apply Z.log2_le_mono; lia|]. by vm_compute. }
  assert (Hp : 0 < 2 ^ k <= 2147483648).
  { split; [by apply Z.pow_pos_nonneg|]. change 2147483648 with (2 ^ 31). by apply Z.pow_le_mono_r. }
  rewrite Z.shiftl_1_l, (u32_small (2 ^ k - 1)) by (unfold is_u32; lia).
  rewrite (u32_small (v + (2 ^ k - 1))) by (unfold is_u32; lia).
  rewrite Z.shiftr_div_pow2, Z.shiftl_mul_pow2 by done.
  rewrite Z.pow_succ_r in H2 by done. do 2 f_equal.
  destruct (Z.eq_dec v (2 ^ k)) as [E|E].
  - rewrite E at 2. rewrite Z.log2_up_pow2 by done. rewrite E at 1.
    replace (2 ^ k + (2 ^ k - 1)) with (2 ^ k - 1 + 1 * 2 ^ k) by lia. rewrite Z.div_add by lia.
    rewrite Z.div_small by lia. rewrite Z.add_0_l, Z.mul_1_l. apply u32_small. unfold is_u32. lia.
  - assert (Hd : (v + (2 ^ k - 1)) / 2 ^ k = 2).
    { symmetry. apply (Z.div_unique_pos _ _ _ (v - 2 ^ k - 1)); lia. }
    rewrite Hd. assert (Hup : Z.log2_up v = k + 1).
    { apply Z.log2_up_unique; [lia|]. replace (Z.pred (k + 1)) with k by lia.
      rewrite Z.pow_add_r by lia. lia. }
    rewrite Hup, Z.pow_add_r by lia. change (2 ^ 1) with 2. rewrite Z.mul_comm. apply u32_small. unfold is_u32.
    assert (k <> 31) by (intros ->; change (2 ^ 31) with 2147483648 in *; lia).
    assert (2 ^ k <= 2 ^ 30) by (apply Z.pow_le_mono_r; lia). change (2 ^ 30) with 1073741824 in *. lia.
Qed.

(** ** Loops that keep an invariant *)

Lemma seqZ_next a m : 0 < m -> seqZ a m = a :: seqZ (a + 1) (m - 1).
Proof. intros. rewrite seqZ_cons by lia. done. Qed.

Lemma all_or_error_keeps (P : Z -> c2h_descq -> Prop) (Q : c2h_descq -> Prop) f m :
  forall a s, (forall k s', a <= k < a + Z.of_nat m -> P k s' ->
     returns (f k) s' (fun rv s'' => if rv <? 0 then Q s'' else P (k + 1) s'')) ->
  P a s ->
  returns (all_or_error f (seqZ a (Z.of_nat m))) s
    (fun rv s' => if rv <? 0 then Q s' else rv = 0 /\ P (a + Z.of_nat m) s').
Proof.
  induction m as [|m IH]; intros a s Hf Hs.
  { unfold returns. cbn. by rewrite Z.add_0_r. }
  rewrite seqZ_next by lia. cbn [all_or_error]. apply returns_bind.
  eapply returns_mono; [|apply (Hf a s); [lia|done]]. cbn beta. intros rv s' Hrv.
  destruct (Z.ltb_spec rv 0) as [Hlt|_].
  - unfold returns. cbn. by rewrite (proj2 (Z.ltb_lt _ _)).
  - replace (Z.of_nat (S m) - 1) with (Z.of_nat m) by lia.
    replace (a + Z.of_nat (S m)) with (a + 1 + Z.of_nat m) by lia.
    apply IH; [|done]. intros k s'' Hk. apply Hf. lia.
Qed.

Lemma for_each_keeps (P : Z -> c2h_descq -> Prop) f m :
  forall a s, (forall k s', a <= k < a + Z.of_nat m -> P k s' -> returns (f k) s' (fun _ s'' => P (k + 1) s'')) ->
  P a s -> returns (for_each (seqZ a (Z.of_nat m)) f) s (fun _ s' => P (a + Z.of_nat m) s').
Proof.
  induction m as [|m IH]; intros a s Hf Hs.
  { unfold returns. cbn. by rewrite Z.add_0_r. }
  rewrite seqZ_next by lia. cbn [for_each]. apply returns_bind.
  eapply returns_mono; [|apply (Hf a s); [lia|done]]. cbn beta. intros _ s' Hs'.
  replace (Z.of_nat (S m) - 1) with (Z.of_nat m) by lia.
  replace (a + Z.of_nat (S m)) with (a + 1 + Z.of_nat m) by lia.
  apply IH; [|done]. intros k s'' Hk. apply Hf. lia.
Qed.

(** ** Accounts *)

(** The references the driver has taken on a page and not given back, and the mappings at
    an address. *)
Definition refs_by (pg : Z) (e : page_event) : Z :=
  match e with
  | PgAlloc p _ | PgRef p => if p =? pg then 1 else 0
  | PgFree p | PgPut p => if p =? pg then -1 else 0
  | PgMap _ _ | PgUnmap _ => 0
  end.
Definition maps_by (a : Z) (e : page_event) : Z :=
  match e with
  | PgMap _ x => if x =? a then 1 else 0
  | PgUnmap x => if x =? a then -1 else 0
  | _ => 0
  end.

Definition total {A} (f : A -> Z) (l : list A) : Z := foldr (fun x acc => f x + acc) 0 l.
Arguments total : simpl never.

Lemma total_cons {A} (f : A -> Z) x l : total f (x :: l) = f x + total f l.
Proof. done. Qed.

Lemma total_app {A} (f : A -> Z) l l' : total f (l ++ l') = total f l + total f l'.
Proof. induction l as [|x l IH]; [done|]. cbn [app]. rewrite !total_cons, IH. lia. Qed.

(** Nothing is kept: as many references given back as taken, as many mappings undone as made. *)
Definition balanced (l : list page_event) : Prop :=
  (forall pg, pg <> 0 -> total (refs_by pg) l = 0) /\ (forall a, a <> 0 -> total (maps_by a) l = 0).

(** What an element of the pool stands for: the reference of the page and one for each
    buffer cut from it, and its mapping. *)
Definition held (shift pg : Z) (p : qdma_sw_pg_sg) : Z :=
  if pg_base p =? pg then 1 + Z.shiftr (C2h.pg_offset p) shift else 0.
Definition mapped (a : Z) (p : qdma_sw_pg_sg) : Z := if pg_dma_base_addr p =? a then 1 else 0.

Lemma total_insert {A} (f : A -> Z) (l : list A) i p p' :
  l !! i = Some p -> total f (<[i := p']> l) = total f l - f p + f p'.
Proof.
  revert i. induction l as [|x l IH]; intros [|i]; simpl; try done.
  - intros [= ->]. rewrite !total_cons. lia.
  - intros Hi. rewrite !total_cons, (IH i Hi). lia.
Qed.

Lemma total_zero {A} (f : A -> Z) (l : list A) : Forall (fun x => f x = 0) l -> total f l = 0.
Proof. induction 1 as [|x l Hx _ IH]; [done|]. rewrite total_cons. lia. Qed.

(** An element of the pool; without a page there is no mapping. *)
Record page_ok (p : qdma_sw_pg_sg) : Prop := {
  pk_offset : 0 <= C2h.pg_offset p <= 65536;
  pk_null : pg_base p = 0 -> pg_dma_base_addr p = 0 }.

Lemma held_none shift pg p : pg <> 0 -> pg_base p = 0 -> held shift pg p = 0.
Proof. intros Hpg E. unfold held. rewrite E. by rewrite (proj2 (Z.eqb_neq _ _)). Qed.

Lemma mapped_none a p : a <> 0 -> pg_dma_base_addr p = 0 -> mapped a p = 0.
Proof. intros Ha E. unfold mapped. rewrite E. by rewrite (proj2 (Z.eqb_neq _ _)). Qed.

(** The pool of [n] pages of a queue of [m] buffers accounts for all events. *)
Record pool (n m : nat) (s : c2h_descq) : Prop := {
  po_len : length (pg_sdesc (flq s)) = n /\ (0 < n)%nat;
  po_num : num_pages (flq s) = Z.of_nat n /\ 0 <= num_pgs_mask (flq s);
  po_size : size (flq s) = Z.of_nat m;
  po_shift : 0 <= desc_pg_shift (flq s) <= 16 /\ desc_buf_size (flq s) = 2 ^ desc_pg_shift (flq s);
  po_max : 0 <= max_pg_offset (flq s) <= 65536;
  po_desc : (m <= length (flq_desc (flq s)))%nat;
  po_pages : Forall page_ok (pg_sdesc (flq s));
  po_refs : forall pg, pg <> 0 ->
    total (refs_by pg) (page_log s) = total (held (desc_pg_shift (flq s)) pg) (pg_sdesc (flq s));
  po_maps : forall a, a <> 0 -> total (maps_by a) (page_log s) = total (mapped a) (pg_sdesc (flq s)) }.

(** No element of the pool has a page. *)
Definition no_pages (s : c2h_descq) : Prop :=
  Forall (fun p => pg_base p = 0 /\ pg_dma_base_addr p = 0) (pg_sdesc (flq s)).

Lemma pool_empty n m s : pool n m s -> no_pages s -> balanced (page_log s).
Proof.
  intros Hp Hn. split.
  - intros pg Hpg. rewrite (po_refs _ _ _ Hp pg Hpg). apply total_zero. eapply Forall_impl; [exact Hn|].
    intros p [E _]. by apply held_none.
  - intros a Ha. rewrite (po_maps _ _ _ Hp a Ha). apply total_zero. eapply Forall_impl; [exact Hn|].
    intros p [_ E]. by apply mapped_none.
Qed.

Section c2h.
Context `{C2hEngine}.

Lemma page_ptr_run k s p : pg_sdesc (flq s) !! Z.to_nat k = Some p -> page_ptr k s = Ret (Some p) s.
Proof. intros E. unfold page_ptr. destruct (pg_sdesc (flq s)); [done|]. by rewrite E. Qed.

Lemma page_at n m s k : pool n m s -> 0 <= k < Z.of_nat n ->
  exists p, pg_sdesc (flq s) !! Z.to_nat k = Some p /\ page_ok p.
Proof.
  intros Hp Hk. destruct (lookup_lt_is_Some_2 (pg_sdesc (flq s)) (Z.to_nat k)) as [p E].
  { destruct (po_len _ _ _ Hp). lia. }
  exists p. split; [done|]. eapply Forall_lookup_1; [apply Hp|done].
Qed.

(** Changing one element of the pool keeps the accounts if the events make up for it. *)
Lemma pool_step n m s k p p' evs log' :
  pool n m s -> pg_sdesc (flq s) !! Z.to_nat k = Some p -> page_ok p' ->
  log' = evs ++ page_log s ->
  (forall pg, pg <> 0 -> total (refs_by pg) evs =
     held (desc_pg_shift (flq s)) pg p' - held (desc_pg_shift (flq s)) pg p) ->
  (forall a, a <> 0 -> total (maps_by a) evs = mapped a p' - mapped a p) ->
  pool n m (set_page_log log' (on_flq (set_pg_sdesc (<[Z.to_nat k := p']> (pg_sdesc (flq s)))) s)).
Proof.
  intros [] E Hp' -> Hr Hm.
  split; cbn; try done.
  - by rewrite length_insert.
  - by apply Forall_insert.
  - intros pg Hpg. rewrite total_app, Hr, po_refs0, (total_insert _ _ _ _ _ E) by done. lia.
  - intros a Ha. rewrite total_app, Hm, po_maps0, (total_insert _ _ _ _ _ E) by done. lia.
Qed.

(** ** Pages *)

(** The elements of the pool from [k] on have no page. *)
Definition filled (n m : nat) (k : Z) (s : c2h_descq) : Prop :=
  pool n m s /\ sdesc (flq s) = [] /\
  forall i p, k <= i -> pg_sdesc (flq s) !! Z.to_nat i = Some p -> p = mk_pg 0 0 0.

Lemma fill_page_keeps n m k s :
  filled n m k s -> 0 <= k < Z.of_nat n ->
  returns (flq_fill_page_one k) s (fun rv s' => if rv <? 0 then pool n m s' /\ sdesc (flq s') = [] else filled n m (k + 1) s').
Proof.
  intros (Hp & Hsd & Hz) Hk. destruct (page_at _ _ _ _ Hp Hk) as (p & E & _).
  assert (p = mk_pg 0 0 0) as -> by (by apply (Hz k)).
  unfold flq_fill_page_one, returns. rewrite (bind_Ret _ _ s s s) by done.
  set (pg := u64 (alloc_pages s (desc_pg_order (flq s)))).
  destruct (Z.eqb_spec pg 0) as [|Hpg]; [by cbn|].
  set (s1 := set_page_log (PgAlloc pg (desc_pg_order (flq s)) :: page_log s) s).
  rewrite (bind_Ret _ _ s tt s1) by done. rewrite (bind_Ret _ _ s1 s1 s1) by done.
  set (a := u64 (map_page s1 pg)). destruct (a =? DMA_MAPPING_ERROR).
  - cbn. split; [|done]. destruct Hp. split; cbn; try done; intros x Hx.
    rewrite !total_cons, po_refs0 by done. cbn. destruct (pg =? x); lia.
  - rewrite (bind_Ret _ _ s1 tt (set_page_log (PgMap pg a :: page_log s1) s1)) by done.
    unfold store_page. rewrite (bind_Ret _ _ _ _ _ (store_flq_run _ _ k _ (set_page_log (PgMap pg a :: page_log s1) s1) _ E)).
    cbn [mret M_ret]. change (0 <? 0) with false. cbn iota.
    assert (Hp' : pool n m (set_page_log (PgMap pg a :: PgAlloc pg (desc_pg_order (flq s)) :: page_log s)
      (on_flq (set_pg_sdesc (<[Z.to_nat k := mk_pg pg a 0]> (pg_sdesc (flq s)))) s))).
    { apply (pool_step _ _ _ _ _ _ [PgMap pg a; PgAlloc pg (desc_pg_order (flq s))] _ Hp E); [split; cbn; [lia|done]|done| |].
      - intros x Hx. rewrite !total_cons, (held_none _ _ (mk_pg 0 0 0)) by done. unfold held. cbn [pg_base C2h.pg_offset refs_by].
        rewrite Z.shiftr_0_l. change (total _ []) with 0. destruct (pg =? x); lia.
      - intros x Hx. rewrite !total_cons, (mapped_none _ (mk_pg 0 0 0)) by done. unfold mapped. cbn [pg_dma_base_addr maps_by].
        change (total _ []) with 0. destruct (a =? x); lia. }
    split; [exact Hp'|]. split; [done|]. intros i q Hi. cbn. rewrite list_lookup_insert_ne by lia. apply Hz. lia.
Qed.

(** The elements of the pool before [k] have no page. *)
Definition freed (n m : nat) (k : Z) (s : c2h_descq) : Prop :=
  pool n m s /\
  forall i p, 0 <= i < k -> pg_sdesc (flq s) !! Z.to_nat i = Some p -> pg_base p = 0 /\ pg_dma_base_addr p = 0.

Lemma puts_run pg c s :
  for_each (seq 0 c) (fun _ => log_page (PgPut pg)) s = Ret tt (set_page_log (replicate c (PgPut pg) ++ page_log s) s).
Proof.
  generalize 0%nat. revert s. induction c as [|c IH]; intros s i.
  { cbn. by destruct s. }
  cbn [seq for_each]. rewrite (bind_Ret _ _ s tt (set_page_log (PgPut pg :: page_log s) s)) by done.
  rewrite IH. change (replicate (S c) (PgPut pg)) with (PgPut pg :: replicate c (PgPut pg)).
  by rewrite replicate_cons_app, <- app_assoc.
Qed.

Lemma total_puts f pg c : total f (replicate c (PgPut pg)) = Z.of_nat c * f (PgPut pg).
Proof. induction c as [|c IH]; [done|]. cbn [replicate]. rewrite total_cons, IH. lia. Qed.

Lemma unmap_run k s p :
  pg_sdesc (flq s) !! Z.to_nat k = Some p ->
  flq_unmap_page_one k s =
    Ret tt (if pg_dma_base_addr p =? 0 then s
            else set_page_log (PgUnmap (pg_dma_base_addr p) :: page_log s)
                   (on_flq (set_pg_sdesc (<[Z.to_nat k := mk_pg (pg_base p) 0 (C2h.pg_offset p)]> (pg_sdesc (flq s)))) s)).
Proof.
  intros E. unfold flq_unmap_page_one. rewrite (bind_Ret _ _ _ _ _ (page_ptr_run _ _ _ E)).
  destruct (pg_dma_base_addr p =? 0); [done|].
  set (s1 := set_page_log (PgUnmap (pg_dma_base_addr p) :: page_log s) s).
  rewrite (bind_Ret _ _ s tt s1) by done. unfold store_page. by rewrite (store_flq_run _ _ k _ s1 _ E).
Qed.

Lemma free_page_keeps n m k s :
  freed n m k s -> 0 <= k < Z.of_nat n -> returns (flq_free_page_one k) s (fun _ s' => freed n m (k + 1) s').
Proof.
  intros [Hp Hz] Hk. destruct (page_at _ _ _ _ Hp Hk) as (p & E & Hoff & Hnull).
  assert (Hlt : (Z.to_nat k < length (pg_sdesc (flq s)))%nat) by (by apply lookup_lt_Some in E).
  assert (Hsh : 0 <= Z.shiftr (C2h.pg_offset p) (desc_pg_shift (flq s)) <= 65536).
  { destruct (po_shift _ _ _ Hp) as [Hs _]. rewrite Z.shiftr_div_pow2 by lia. split; [apply Z.div_pos; lia|].
    transitivity (C2h.pg_offset p); [|lia]. apply Z.div_le_upper_bound; nia. }
  unfold flq_free_page_one, returns. rewrite (bind_Ret _ _ _ _ _ (page_ptr_run _ _ _ E)).
  destruct (Z.eqb_spec (pg_base p) 0) as [E0|E0].
  { split; [done|]. intros i q Hi Hq. destruct (decide (i = k)) as [->|]; [|apply (Hz i q); [lia|done]].
    rewrite E in Hq. injection Hq as <-. auto. }
  rewrite (bind_Ret _ _ s (desc_pg_shift (flq s)) s) by done.
  rewrite u32_small by (unfold is_u32; lia). rewrite (bind_Ret _ _ _ _ _ (unmap_run _ _ _ E)).
  set (c := Z.to_nat _). set (s1 := if pg_dma_base_addr p =? 0 then _ else _).
  set (evs := if pg_dma_base_addr p =? 0 then [] else [PgUnmap (pg_dma_base_addr p)]).
  assert (Hs1 : page_log s1 = evs ++ page_log s /\
    set_page_log (replicate c (PgPut (pg_base p)) ++ page_log s1)
      (on_flq (set_pg_sdesc (<[Z.to_nat k := mk_pg 0 0 (C2h.pg_offset p)]> (pg_sdesc (flq s1)))) s1) =
    set_page_log (replicate c (PgPut (pg_base p)) ++ evs ++ page_log s)
      (on_flq (set_pg_sdesc (<[Z.to_nat k := mk_pg 0 0 (C2h.pg_offset p)]> (pg_sdesc (flq s)))) s) /\
    exists q, pg_sdesc (flq s1) !! Z.to_nat k = Some q /\ C2h.pg_offset q = C2h.pg_offset p).
  { unfold s1, evs. destruct (pg_dma_base_addr p =? 0); [by split_and!; [..|exists p]|].
    split_and!; [done| |].
    - unfold on_flq. cbn. by rewrite list_insert_insert_eq.
    - cbn. rewrite list_lookup_insert_eq by done. by eexists. }
  destruct Hs1 as (_ & Hs' & q & Hq & Hqo). clearbody s1.
  rewrite (bind_Ret _ _ _ _ _ (puts_run _ _ _)). unfold store_page.
  rewrite (store_flq_run _ _ k _ (set_page_log _ s1) q) by done. rewrite Hqo.
  change (freed n m (k + 1) (set_page_log (replicate c (PgPut (pg_base p)) ++ page_log s1)
      (on_flq (set_pg_sdesc (<[Z.to_nat k := mk_pg 0 0 (C2h.pg_offset p)]> (pg_sdesc (flq s1)))) s1))).
  rewrite Hs'. split.
  - apply (pool_step _ _ _ _ _ _ (replicate c (PgPut (pg_base p)) ++ evs) _ Hp E); [split; cbn; [lia|done]|by rewrite app_assoc| |].
    + intros x Hx. rewrite total_app, total_puts, (held_none _ _ (mk_pg 0 0 _)) by done. unfold held, evs, refs_by, c.
      assert (total (refs_by x) evs = 0) by (unfold evs; by destruct (pg_dma_base_addr p =? 0)).
      fold (refs_by x). replace (total _ _) with 0 by done. destruct (pg_base p =? x); lia.
    + intros a Ha. rewrite total_app, total_puts, (mapped_none _ (mk_pg 0 0 _)) by done. unfold mapped, evs.
      destruct (Z.eqb_spec (pg_dma_base_addr p) 0) as [-> | ].
      * rewrite (proj2 (Z.eqb_neq 0 a)) by done. change (total _ []) with 0. cbn. lia.
      * rewrite total_cons. change (total _ []) with 0. cbn [maps_by]. destruct (_ =? a); lia.
  - intros i r Hi. cbn. destruct (decide (i = k)) as [->|].
    + rewrite list_lookup_insert_eq by done. by intros [= <-].
    + rewrite list_lookup_insert_ne by lia. apply Hz. lia.
Qed.

(** ** Buffers *)

(** The arrays of the ring are there. *)
Definition ringed (n m : nat) (s : c2h_descq) : Prop := pool n m s /\ length (sdesc (flq s)) = m.

(** A change of other members of the free list. *)
Lemma pool_same n m s s' :
  pool n m s -> page_log s' = page_log s -> length (flq_desc (flq s')) = length (flq_desc (flq s)) ->
  (num_pages (flq s'), num_pgs_mask (flq s'), size (flq s'), desc_pg_shift (flq s'), desc_buf_size (flq s'),
   (max_pg_offset (flq s'), pg_sdesc (flq s'))) =
  (num_pages (flq s), num_pgs_mask (flq s), size (flq s), desc_pg_shift (flq s), desc_buf_size (flq s),
   (max_pg_offset (flq s), pg_sdesc (flq s))) ->
  pool n m s'.
Proof.
  intros [] Hl Hd E. injection E as E1 E2 E3 E4 E5 E6 E7.
  split; rewrite ?Hl, ?Hd, ?E1, ?E2, ?E3, ?E4, ?E5, ?E6, ?E7; done.
Qed.

Lemma fill_one_keeps n m i s :
  ringed n m s -> 0 <= i < Z.of_nat m -> returns (flq_fill_one i) s (fun _ s' => ringed n m s').
Proof.
  intros [Hp Hl] Hi. unfold flq_fill_one, returns. rewrite (bind_Ret _ _ s s s) by done.
  destruct (num_pages (flq s) =? 0); [done|].
  set (k := Z.land (alloc_idx (flq s)) (num_pgs_mask (flq s))).
  destruct (po_num _ _ _ Hp) as [Hnum Hmask]. rewrite Hnum. destruct (Z.geb_spec k (Z.of_nat n)); [done|].
  assert (Hk : 0 <= k < Z.of_nat n) by (split; [apply Z.land_nonneg; by right|done]). clearbody k.
  destruct (page_at _ _ _ _ Hp Hk) as (p & E & Hoff & _).
  rewrite (bind_Ret _ _ _ _ _ (page_ptr_run _ _ _ E)). destruct (Z.eqb_spec (pg_base p) 0) as [|Hb]; [done|].
  destruct (po_shift _ _ _ Hp) as [Hs Hbuf]. destruct (po_max _ _ _ Hp) as [_ Hmax].
  assert (H2 : 0 < 2 ^ desc_pg_shift (flq s) <= 65536).
  { split; [apply Z.pow_pos_nonneg; lia|]. change 65536 with (2 ^ 16). apply Z.pow_le_mono_r; lia. }
  rewrite Hbuf. rewrite (u32_small (C2h.pg_offset p + _)) by (unfold is_u32; lia).
  destruct (Z.gtb_spec (C2h.pg_offset p + 2 ^ desc_pg_shift (flq s)) (max_pg_offset (flq s))) as [|Hfit]; [done|].
  set (next := C2h.pg_offset p + 2 ^ desc_pg_shift (flq s)) in *. set (addr := u64 _).
  destruct (lookup_in (sdesc (flq s)) i (Z.of_nat m)) as [g Hg]; [lia|done|].
  destruct (lookup_in (flq_desc (flq s)) i (Z.of_nat (length (flq_desc (flq s))))) as [d Hd];
    [done|destruct (po_desc _ _ _ Hp); lia|].
  unfold store_sdesc. rewrite (bind_Ret _ _ _ _ _ (store_flq_run _ _ i _ s _ Hg)). set (s1 := on_flq _ s).
  unfold store_desc. rewrite (bind_Ret _ _ _ _ _ (store_flq_run _ _ i _ s1 _ Hd)). set (s2 := on_flq _ s1).
  set (s3 := set_page_log (PgRef (pg_base p) :: page_log s2) s2). rewrite (bind_Ret _ _ s2 tt s3) by done.
  unfold store_page. rewrite (bind_Ret _ _ _ _ _ (store_flq_run _ _ k _ s3 _ E)). set (s4 := on_flq _ s3).
  assert (Hp2 : pool n m s2).
  { apply (pool_same _ _ _ _ Hp); cbn; [done|by rewrite length_insert|done]. }
  assert (H4 : ringed n m s4).
  { split; [|cbn; by rewrite length_insert].
    apply (pool_step n m s2 k p (C2h.set_pg_offset next p) [PgRef (pg_base p)] _ Hp2 E); [|done| |].
    - split; cbn; [|]; [unfold next; lia|by intros].
    - intros x Hx. rewrite total_cons. change (total _ []) with 0. unfold held. cbn [pg_base C2h.pg_offset C2h.set_pg_offset refs_by].
      change (desc_pg_shift (flq s2)) with (desc_pg_shift (flq s)). unfold next. rewrite !Z.shiftr_div_pow2 by lia.
      rewrite <- (Z.mul_1_l (2 ^ _)) at 1. rewrite Z.div_add by lia. destruct (pg_base p =? x); lia.
    - intros a Ha. rewrite total_cons. change (total _ []) with 0. unfold mapped. cbn [pg_dma_base_addr C2h.set_pg_offset maps_by]. lia. }
  clearbody s4. destruct (u32 _ >? _); [|exact H4]. destruct H4 as [H4 Hl4].
  split; [|exact Hl4]. by apply (pool_same _ _ _ _ H4).
Qed.

(** A buffer that has been cut from the pool is in place: the address in its descriptor is that of the page
    and offset the driver keeps. *)
Lemma fill_one_in_place n m i s :
  ringed n m s -> 0 <= i < Z.of_nat m ->
  Forall (fun p => 0 <= pg_dma_base_addr p /\ pg_dma_base_addr p + max_pg_offset (flq s) <= 2 ^ 64) (pg_sdesc (flq s)) ->
  returns (flq_fill_one i) s (fun rv s' => rv < 0 \/ in_place (flq s') (2 ^ desc_pg_shift (flq s)) i).
Proof.
  intros [Hp Hl] Hi Hdma. unfold flq_fill_one, returns. rewrite (bind_Ret _ _ s s s) by done.
  destruct (num_pages (flq s) =? 0); [by left|].
  set (k := Z.land (alloc_idx (flq s)) (num_pgs_mask (flq s))).
  destruct (po_num _ _ _ Hp) as [Hnum Hmask]. rewrite Hnum. destruct (Z.geb_spec k (Z.of_nat n)); [by left|].
  assert (Hk : 0 <= k < Z.of_nat n) by (split; [apply Z.land_nonneg; by right|done]). clearbody k.
  destruct (page_at _ _ _ _ Hp Hk) as (p & E & Hoff & _).
  rewrite (bind_Ret _ _ _ _ _ (page_ptr_run _ _ _ E)). destruct (Z.eqb_spec (pg_base p) 0) as [|Hb]; [by left|].
  destruct (po_shift _ _ _ Hp) as [Hs Hbuf]. destruct (po_max _ _ _ Hp) as [_ Hmax].
  assert (H2 : 0 < 2 ^ desc_pg_shift (flq s) <= 65536).
  { split; [apply Z.pow_pos_nonneg; lia|]. change 65536 with (2 ^ 16). apply Z.pow_le_mono_r; lia. }
  rewrite Hbuf. rewrite (u32_small (C2h.pg_offset p + _)) by (unfold is_u32; lia).
  destruct (Z.gtb_spec (C2h.pg_offset p + 2 ^ desc_pg_shift (flq s)) (max_pg_offset (flq s))) as [|Hfit]; [by left|].
  destruct (proj1 (Forall_lookup _ _) Hdma _ _ E) as [Hd0 Hd64].
  rewrite (u64_small (pg_dma_base_addr p + _)) by (unfold is_u64; lia).
  set (next := C2h.pg_offset p + 2 ^ desc_pg_shift (flq s)) in *. set (addr := _ + C2h.pg_offset p).
  destruct (lookup_in (sdesc (flq s)) i (Z.of_nat m)) as [g Hg]; [lia|done|].
  destruct (lookup_in (flq_desc (flq s)) i (Z.of_nat (length (flq_desc (flq s))))) as [d Hd];
    [done|destruct (po_desc _ _ _ Hp); lia|].
  unfold store_sdesc. rewrite (bind_Ret _ _ _ _ _ (store_flq_run _ _ i _ s _ Hg)). set (s1 := on_flq _ s).
  unfold store_desc. rewrite (bind_Ret _ _ _ _ _ (store_flq_run _ _ i _ s1 _ Hd)). set (s2 := on_flq _ s1).
  set (s3 := set_page_log (PgRef (pg_base p) :: page_log s2) s2). rewrite (bind_Ret _ _ s2 tt s3) by done.
  unfold store_page. rewrite (bind_Ret _ _ _ _ _ (store_flq_run _ _ k _ s3 _ E)). set (s4 := on_flq _ s3).
  assert (H4 : in_place (flq s4) (2 ^ desc_pg_shift (flq s)) i).
  { exists (Z.to_nat k), (C2h.set_pg_offset next p). eexists. cbn. split_and!.
    - apply list_lookup_insert_eq. by eapply lookup_lt_Some.
    - apply list_lookup_insert_eq. by eapply lookup_lt_Some.
    - done.
    - apply list_lookup_insert_eq. by eapply lookup_lt_Some.
    - cbn. lia.
    - cbn. fold next. lia. }
  clearbody s4. destruct (u32 _ >? _); by right.
Qed.

Lemma free_one_keeps n m i s :
  ringed n m s -> 0 <= i < Z.of_nat m -> returns (flq_free_one i) s (fun _ s' => ringed n m s').
Proof.
  intros [Hp Hl] Hi. destruct (lookup_in (sdesc (flq s)) i (Z.of_nat m)) as [g Hg]; [lia|done|].
  destruct (lookup_in (flq_desc (flq s)) i (Z.of_nat (length (flq_desc (flq s))))) as [d Hd];
    [done|destruct (po_desc _ _ _ Hp); lia|].
  assert (Hlt : (Z.to_nat i < length (sdesc (flq s)))%nat) by lia.
  unfold flq_free_one. apply returns_bind. unfold returns at 1. unfold at_flq, deref. rewrite Hg.
  apply returns_bind.
  assert (H1 : returns (if sg_dma_addr g =? 0 then mret tt
     else store_desc i (fun _ => 0);; store_sdesc i (set_dma_addr 0)) s (fun _ s' => ringed n m s')).
  { destruct (sg_dma_addr g =? 0); [done|]. unfold store_desc, returns.
    rewrite (bind_Ret _ _ _ _ _ (store_flq_run _ _ i _ s _ Hd)). set (s1 := on_flq _ s).
    unfold store_sdesc. rewrite (store_flq_run _ _ i _ s1 _ Hg). split; [|cbn; by rewrite length_insert].
    apply (pool_same _ _ _ _ Hp); cbn; [done|by rewrite length_insert|done]. }
  eapply returns_mono; [|exact H1]. cbn beta. intros _ s' [Hp' Hl'].
  destruct (sg_pg g =? 0); [done|]. destruct (lookup_in (sdesc (flq s')) i (Z.of_nat m)) as [g' Hg']; [lia|done|].
  unfold store_sdesc, returns. rewrite (store_flq_run _ _ i _ s' _ Hg'). split; [|cbn; by rewrite length_insert].
  by apply (pool_same _ _ _ _ Hp').
Qed.

(** ** Freeing everything *)

Lemma free_pages_run n m s :
  pool n m s -> returns descq_flq_free_page_resource s (fun _ s' =>
    balanced (page_log s') /\ flq s' = flq_zero).
Proof.
  intros Hp. unfold descq_flq_free_page_resource. apply returns_bind. unfold returns at 1.
  cbn. rewrite (proj1 (po_num _ _ _ Hp)). apply returns_bind.
  eapply returns_mono; [|apply (for_each_keeps (freed n m) flq_free_page_one n 0 s)].
  - cbn beta. intros _ s' [Hp' Hz]. unfold returns. cbn. split; [|done].
    apply (pool_empty n m); [done|]. apply Forall_lookup_2. intros i p Hi.
    apply (Hz (Z.of_nat i)); [|by rewrite Nat2Z.id]. apply lookup_lt_Some in Hi. destruct (po_len _ _ _ Hp'). lia.
  - intros k s' Hk Hs'. by apply free_page_keeps.
  - split; [done|]. lia.
Qed.

(** Both functions: buffers first, then pages. *)
Definition free_all : M c2h_descq unit := descq_flq_free_resource;; descq_flq_free_page_resource.

Lemma free_all_run n m s :
  ringed n m s -> returns free_all s (fun _ s' => balanced (page_log s') /\ flq s' = flq_zero).
Proof.
  intros [Hp Hl]. unfold free_all. apply returns_bind. unfold descq_flq_free_resource.
  apply returns_bind. unfold returns at 1. cbn. destruct (sdesc (flq s)) as [|g l] eqn:E.
  { unfold returns at 1. cbn. by apply (free_pages_run n m). }
  apply returns_bind. rewrite (po_size _ _ _ Hp).
  eapply returns_mono; [|apply (for_each_keeps (fun _ => ringed n m) flq_free_one m 0 s)].
  - cbn beta. intros _ s' [Hp' _]. unfold returns at 1. cbn. apply (free_pages_run n m).
    by apply (pool_same _ _ _ _ Hp').
  - intros k s' Hk Hs'. by apply free_one_keeps.
  - split; [done|]. by rewrite E.
Qed.

Lemma free_all_zero s : flq s = flq_zero ->
  returns free_all s (fun _ s' => page_log s' = page_log s /\ flq s' = flq_zero).
Proof.
  intros E. unfold free_all, descq_flq_free_resource, descq_flq_free_page_resource, returns, mbind, M_bind, gets.
  rewrite E. cbn. unfold mret, M_ret. rewrite E. cbn. by rewrite seqZ_nil.
Qed.

(** ** Allocating *)

Lemma log2_up_16 v : 0 < v <= 65536 -> 0 <= Z.log2_up v <= 16.
Proof.
  intros Hv. split; [apply Z.log2_up_nonneg|]. etransitivity; [apply Z.log2_up_le_mono; exact (proj2 Hv)|].
  by vm_compute.
Qed.

Lemma le_log2_up v : 0 < v -> v <= 2 ^ Z.log2_up v.
Proof. intros Hv. destruct (decide (v = 1)) as [->|]; [done|]. pose proof (Z.log2_up_spec v ltac:(lia)). lia. Qed.

(** A pool has at least one page, and enough for all buffers. *)
Lemma pool_pages_run size per : 0 < size < 65536 -> 0 < per ->
  exists n, pool_pages size per = Some n /\ 0 < n <= 131072 /\ size <= n * per.
Proof.
  intros Hs Hper. unfold pool_pages.
  set (v := size / per + (if size mod per =? 0 then 0 else 1)).
  assert (Hv : 0 < v <= 65536 /\ size <= v * per).
  { pose proof (Z.div_mod size per ltac:(lia)). pose proof (Z.mod_pos_bound size per Hper).
    assert (0 <= size / per <= size).
    { split; [apply Z.div_pos; lia|]. apply Z.div_le_upper_bound; nia. }
    unfold v. destruct (Z.eqb_spec (size mod per) 0); nia. }
  destruct Hv as [Hv Hcov]. clearbody v. rewrite get_next_powof2_run by lia.
  pose proof (log2_up_16 v Hv) as H16. set (k := Z.log2_up v) in *.
  assert (Hle : v <= 2 ^ k).
  { apply le_log2_up. lia. }
  assert (Hk : 2 ^ k <= 65536) by (change 65536 with (2 ^ 16); apply Z.pow_le_mono_r; lia).
  cbn. destruct (2 ^ k <? size); eexists; (split; [reflexivity|]); [|nia].
  rewrite Z.shiftl_mul_pow2 by lia. change (2 ^ 1) with 2. rewrite u32_small by (unfold is_u32; lia). nia.
Qed.

(** What a caller configures: buffers of up to 64 KB, and a ring of up to 65535. *)
Record pool_conf (ring : list Z) (s : c2h_descq) : Prop := {
  pf_bufsz : 0 < c2h_bufsz (conf s) <= 65536;
  pf_rngsz : 0 < rngsz (conf s) < 65536;
  pf_ring : Z.of_nat (length ring) = rngsz (conf s);
  pf_zero : flq s = flq_zero;
  pf_log : balanced (page_log s) }.

(** The members that the sizes of buffers and pages are computed into. *)
Definition sized (ring : list Z) (shift : Z) (s : c2h_descq) : c2h_descq :=
  let order := if shift <? 12 then 0 else shift - 12 in
  on_flq (fun q => set_flq_desc ring (C2h.set_size (rngsz (conf s)) (set_desc_buf_size (2 ^ shift)
    (set_desc_pg_shift shift (set_desc_pg_order order (set_max_pg_offset (4096 * 2 ^ order) q)))))) s.

Lemma alloc_start ring s :
  pool_conf ring s ->
  let shift := Z.log2_up (c2h_bufsz (conf s)) in
  0 <= shift <= 16 /\ c2h_bufsz (conf s) <= 2 ^ shift /\
  c2h_alloc_resource ring s =
    (rv ← descq_flq_alloc_resource; if rv <? 0 then free_all;; mret (- ENOMEM) else mret 0) (sized ring shift s).
Proof.
  intros [Hb _ _ _ _] shift. pose proof (log2_up_16 _ Hb) as H16. fold shift in H16. split; [done|].
  assert (Hle : c2h_bufsz (conf s) <= 2 ^ shift).
  { apply le_log2_up. lia. }
  split; [done|]. unfold c2h_alloc_resource. rewrite (bind_Ret _ _ s (conf s) s) by done.
  rewrite (bind_Ret _ _ s (2 ^ shift) s) by (unfold deref; rewrite get_next_powof2_run by lia; done).
  assert (Hp : 0 < 2 ^ shift) by (apply Z.pow_pos_nonneg; lia).
  assert (Hf : u8 (fls (2 ^ shift) - 1) = shift).
  { unfold fls. rewrite (proj2 (Z.eqb_neq _ _)) by lia. rewrite Z.log2_pow2 by lia. rewrite u8_small; [lia|]. unfold is_u8. lia. }
  rewrite Hf. assert (Ho : (if shift <? 12 then 0 else u8 (shift - 12)) = if shift <? 12 then 0 else shift - 12).
  { destruct (Z.ltb_spec shift 12); [done|]. rewrite u8_small; [done|]. unfold is_u8. lia. }
  rewrite Ho. set (order := if shift <? 12 then 0 else shift - 12).
  assert (Hord : 0 <= order <= 4) by (unfold order; destruct (Z.ltb_spec shift 12); lia).
  assert (Hm : u32 (Z.shiftl PAGE_SIZE order) = 4096 * 2 ^ order).
  { rewrite Z.shiftl_mul_pow2 by lia. apply u32_small. assert (2 ^ order <= 2 ^ 4) by (apply Z.pow_le_mono_r; lia).
    assert (0 < 2 ^ order) by (apply Z.pow_pos_nonneg; lia). change (2 ^ 4) with 16 in *. unfold is_u32, PAGE_SIZE. lia. }
  rewrite Hm. rewrite (bind_Ret _ _ s tt (sized ring shift s)) by done. unfold free_all.
  unfold mbind, M_bind. destruct (descq_flq_alloc_resource _) as [rv s'| | |]; [|done..].
  destruct (rv <? 0); [|done]. by destruct (descq_flq_free_resource s').
Qed.

(** The reply of the allocator for the array of the pool. *)
Definition pool_array_ok (size bufsz : Z) : Prop :=
  let shift := Z.log2_up bufsz in
  let order := if shift <? 12 then 0 else shift - 12 in
  forall s n, pg_sdesc (flq s) = [] -> pool_pages size (4096 * 2 ^ order / 2 ^ shift) = Some n ->
    kzalloc_ok s (n * sizeof_pg_sg) = true.

Lemma per_page shift order : 0 <= shift <= 16 -> order = (if shift <? 12 then 0 else shift - 12) ->
  0 <= order <= 4 /\ 0 < 4096 * 2 ^ order <= 65536 /\ 0 < 4096 * 2 ^ order / 2 ^ shift <= 4096.
Proof.
  intros Hs ->. destruct (Z.ltb_spec shift 12) as [Hlt|Hge].
  - split; [lia|]. change (4096 * 2 ^ 0) with 4096. split; [lia|].
    assert (E : 4096 = 2 ^ (12 - shift) * 2 ^ shift).
    { rewrite <- Z.pow_add_r by lia. by replace (12 - shift + shift) with 12 by lia. }
    assert (0 < 2 ^ shift) by (apply Z.pow_pos_nonneg; lia).
    assert (0 < 2 ^ (12 - shift)) by (apply Z.pow_pos_nonneg; lia).
    rewrite E at 1 2. rewrite Z.div_mul by lia. nia.
  - split; [lia|]. assert (E : 4096 * 2 ^ (shift - 12) = 2 ^ shift).
    { change 4096 with (2 ^ 12). rewrite <- Z.pow_add_r by lia. by replace (12 + (shift - 12)) with shift by lia. }
    assert (0 < 2 ^ shift) by (apply Z.pow_pos_nonneg; lia).
    assert (2 ^ shift <= 2 ^ 16) by (apply Z.pow_le_mono_r; lia). change (2 ^ 16) with 65536 in *.
    rewrite E, Z.div_same; lia.
Qed.

(** The state with an empty pool of [n] pages. *)
Lemma sized_pool ring s n :
  pool_conf ring s -> 0 < n ->
  let s1 := sized ring (Z.log2_up (c2h_bufsz (conf s))) s in
  forall per, filled (Z.to_nat n) (Z.to_nat (rngsz (conf s))) 0
    (on_flq (set_pg_sdesc (replicate (Z.to_nat n) (mk_pg 0 0 0)))
       (on_flq (fun q => set_num_pgs_mask (u32 (n - 1)) (set_num_pages n q)) (on_flq (set_num_bufs_per_pg per) s1))).
Proof.
  intros Hc Hn s1 per. destruct Hc as [Hb Hr Hl Hz [Hlr Hlm]]. pose proof (log2_up_16 _ Hb) as H16.
  destruct (per_page _ _ H16 eq_refl) as (_ & Hmax & _).
  split; [|split].
  - split; cbn -[Z.mul Z.pow total]; rewrite ?length_replicate; try lia.
    + split; [lia|]. apply u32_range.
    + apply Forall_replicate. split; cbn; [lia|done].
    + intros pg Hpg. rewrite Hlr, total_zero by (try apply Forall_replicate; try apply held_none; done). done.
    + intros a Ha. rewrite Hlm, total_zero by (try apply Forall_replicate; try apply mapped_none; done). done.
  - cbn. by rewrite Hz.
  - intros i p _ Hp. cbn in Hp. by apply lookup_replicate in Hp as [-> _].
Qed.

(** What an allocation leaves: all that is needed to free it, or nothing at all. *)
Definition allocated (rv : Z) (s : c2h_descq) : Prop :=
  if rv <? 0 then (balanced (page_log s) /\ flq s = flq_zero) else exists n m, ringed n m s.

Lemma returns_then {A B} (m : M c2h_descq A) (k : A -> M c2h_descq B) s a s' Q :
  m s = Ret a s' -> returns (k a) s' Q -> returns (m ≫= k) s Q.
Proof. intros E HQ. apply returns_bind. unfold returns at 1. by rewrite E. Qed.

(** The free list with an empty ring of [m] buffers. *)
Definition with_ring (m : nat) (q : qdma_flq) : qdma_flq :=
  set_alloc_idx 0 (set_sdesc_info (replicate m info_zero) (set_sdesc (replicate m (mk_sg 0 0 0 0)) q)).

Lemma with_ring_ringed n m s : filled n m (Z.of_nat n) s -> ringed n m (on_flq (with_ring m) s).
Proof. intros (Hp & _). split; [by apply (pool_same _ _ _ _ Hp)|]. cbn. apply length_replicate. Qed.

(** Filling the ring from a full pool. *)
Lemma fill_ring_run n m s :
  filled n m (Z.of_nat n) s ->
  returns (s ← gets id;
     if negb (kzalloc_ok s (Z.of_nat m * sizeof_sdesc)) then descq_flq_free_page_resource;; mret (- ENOMEM)
     else
       modify (on_flq (with_ring m));;
       rv ← all_or_error flq_fill_one (seqZ 0 (Z.of_nat m));
       if rv <? 0 then descq_flq_free_resource;; descq_flq_free_page_resource;; mret rv
       else mret 0) s allocated.
Proof.
  intros Hf. pose proof (with_ring_ringed _ _ _ Hf) as H1. destruct Hf as (Hp & Hsd & _).
  apply (returns_then _ _ s s s); [done|]. destruct (negb _).
  - apply returns_bind. eapply returns_mono; [|by apply (free_pages_run n m)]. by intros _ s' [Hl Hf].
  - set (s1 := on_flq (with_ring m) s) in *. apply (returns_then _ _ s tt s1); [done|].
    clearbody s1. apply returns_bind. eapply returns_mono;
      [|apply (all_or_error_keeps (fun _ => ringed n m) (ringed n m) flq_fill_one m 0 s1)].
    + cbn beta. intros rv s' Hrv. destruct (Z.ltb_spec rv 0) as [Hlt|_].
      * pose proof (free_all_run n m s' Hrv) as Hfree. unfold free_all, returns, mbind, M_bind in *.
        destruct (descq_flq_free_resource s') as [[] s''| | |]; try done.
        destruct (descq_flq_free_page_resource s'') as [[] s3| | |]; try done.
        unfold allocated. cbn. by rewrite (proj2 (Z.ltb_lt _ _)).
      * exists n, m. apply Hrv.
    + intros k s' Hk Hs'. eapply returns_mono; [|by apply (fill_one_keeps n m)]. cbn beta. intros rv s'' ?.
      by destruct (rv <? 0).
    + done.
Qed.

Lemma alloc_pool_run ring s :
  pool_conf ring s -> pool_array_ok (rngsz (conf s)) (c2h_bufsz (conf s)) ->
  returns descq_flq_alloc_resource (sized ring (Z.log2_up (c2h_bufsz (conf s))) s) allocated.
Proof.
  intros Hc Hk. pose proof Hc as [Hb Hr Hl Hz Hlog]. pose proof (log2_up_16 _ Hb) as H16.
  destruct (per_page _ _ H16 eq_refl) as (Hord & Hmax & Hper).
  pose proof (fun n Hn => sized_pool ring s n Hc Hn) as Hfilled. unfold pool_array_ok in Hk. cbv zeta in Hk, Hfilled.
  set (shift := Z.log2_up (c2h_bufsz (conf s))) in *. set (s1 := sized ring shift s) in *.
  unfold descq_flq_alloc_resource. apply (returns_then _ _ s1 (flq s1) s1); [done|].
  assert (Eper : u32 (Z.shiftr (max_pg_offset (flq s1)) (desc_pg_shift (flq s1))) =
    4096 * 2 ^ (if shift <? 12 then 0 else shift - 12) / 2 ^ shift).
  { cbn -[Z.mul Z.pow]. rewrite Z.shiftr_div_pow2 by lia. apply u32_small. unfold is_u32. lia. }
  rewrite Eper. set (per := _ / _) in *. set (s2 := on_flq (set_num_bufs_per_pg per) s1).
  apply (returns_then _ _ s1 tt s2); [done|]. rewrite (proj2 (Z.eqb_neq per 0)) by lia.
  destruct (pool_pages_run (rngsz (conf s)) per Hr ltac:(lia)) as (n & Hn & Hn0 & _).
  apply (returns_then _ _ s2 n s2); [unfold deref; cbn -[pool_pages]; by rewrite Hn|].
  set (s3 := on_flq (fun q => set_num_pgs_mask (u32 (n - 1)) (set_num_pages n q)) s2).
  apply (returns_then _ _ s2 tt s3); [done|]. apply (returns_then _ _ s3 s3 s3); [done|].
  rewrite (Hk s3 n); [cbn [negb]|cbn; by rewrite Hz|exact Hn].
  set (s4 := on_flq (set_pg_sdesc (replicate (Z.to_nat n) (mk_pg 0 0 0))) s3).
  apply (returns_then _ _ s3 tt s4); [done|].
  specialize (Hfilled n ltac:(lia) per). change (filled (Z.to_nat n) (Z.to_nat (rngsz (conf s))) 0 s4) in Hfilled.
  change (C2h.size (flq s1)) with (rngsz (conf s)). clearbody s4. clear s2 s3 Hk.
  set (m := Z.to_nat (rngsz (conf s))) in *. replace (rngsz (conf s)) with (Z.of_nat m) by lia.
  apply returns_bind. replace n with (Z.of_nat (Z.to_nat n)) at 1 by lia.
  eapply returns_mono; [|apply (all_or_error_keeps (filled (Z.to_nat n) m)
     (fun s' => pool (Z.to_nat n) m s' /\ sdesc (flq s') = []) flq_fill_page_one (Z.to_nat n) 0 s4)].
  - cbn beta. intros rv s' Hrv. destruct (Z.ltb_spec rv 0) as [Hlt|_].
    + apply returns_bind. eapply returns_mono; [|exact (free_pages_run _ _ _ (proj1 Hrv))].
      cbn beta. intros _ s'' Hs''. unfold returns, allocated. cbn. by rewrite (proj2 (Z.ltb_lt _ _)).
    + apply (fill_ring_run (Z.to_nat n)). rewrite Z.add_0_l in Hrv. apply Hrv.
  - intros k s' Hk' Hs'. apply fill_page_keeps; [done|]. lia.
  - done.
Qed.

Lemma returns_eq {A} (m m' : M c2h_descq A) s s' Q : m s = m' s' -> returns m' s' Q -> returns m s Q.
Proof. unfold returns. by intros ->. Qed.

Lemma returns_mret {A} (a : A) (s : c2h_descq) Q : Q a s -> returns (mret a) s Q.
Proof. done. Qed.

Lemma free_all_empty s : balanced (page_log s) -> flq s = flq_zero ->
  returns free_all s (fun _ s2 => balanced (page_log s2) /\ flq s2 = flq_zero).
Proof.
  intros Hb Hz. eapply returns_mono; [|by apply free_all_zero]. cbn beta. intros _ s2 [El Ef]. by rewrite El.
Qed.

Lemma free_twice s :
  returns free_all s (fun _ s2 => balanced (page_log s2) /\ flq s2 = flq_zero) ->
  returns free_all s (fun _ s2 => balanced (page_log s2) /\ flq s2 = flq_zero /\
    returns free_all s2 (fun _ s3 => page_log s3 = page_log s2 /\ flq s3 = flq_zero)).
Proof. apply returns_mono. intros _ s2 [Hb Hz]. split_and!; [done..|by apply free_all_zero]. Qed.

(** C19. The buffers of a queue cost no page: whatever the allocators and the mapping answer, if
    only the array of the pool is there, allocating the buffers ends, with success or with an error;
    after an error every reference on a page has been given back and every mapping undone, and
    after a success freeing the buffers does just that; freeing once more does no harm. *)
Theorem pool_balanced ring s :
  pool_conf ring s -> pool_array_ok (rngsz (conf s)) (c2h_bufsz (conf s)) ->
  returns (c2h_alloc_resource ring) s (fun rv s1 =>
    (rv < 0 -> balanced (page_log s1) /\ flq s1 = flq_zero) /\
    returns free_all s1 (fun _ s2 =>
      balanced (page_log s2) /\ flq s2 = flq_zero /\
      returns free_all s2 (fun _ s3 => page_log s3 = page_log s2 /\ flq s3 = flq_zero))).
Proof.
  intros Hc Hk. destruct (alloc_start ring s Hc) as (_ & _ & E). apply (returns_eq _ _ _ _ _ E). clear E.
  apply returns_bind. eapply returns_mono; [|by apply alloc_pool_run]. unfold allocated. cbn beta. intros rv s1 Hs1.
  destruct (Z.ltb_spec rv 0) as [Hlt|Hge].
  - destruct Hs1 as [Hb Hz]. apply returns_bind. eapply returns_mono; [|by apply free_all_empty].
    cbn beta. intros _ s2 [Hb2 Hz2]. apply returns_mret. split; [done|]. by apply free_twice, free_all_empty.
  - destruct Hs1 as (n & m & Hr). apply returns_mret. split; [lia|]. by apply free_twice, (free_all_run n m).
Qed.
End c2h.

(** ** A queue that gets its pages, and one that does not *)

(** A card as [demo_card], but with only one page to give. *)
#[local] Instance poor_card : C2hEngine := {|
  cs_pidx := fun _ => 0;
  cmpt_word := fun _ _ => 0;
  fp_proc_ul_cmpt_entry := None;
  packet_handler := fun _ _ => (0, []);
  kzalloc_ok := fun _ _ => true;
  alloc_pages := fun s _ => if Z.of_nat (length (page_log s)) <? 2 then 4096 * (1 + Z.of_nat (length (page_log s))) else 0;
  map_page := fun _ pg => 1048576 + pg |}.

Lemma demo_pool_conf : pool_conf [0; 0; 0; 0] demo_blank.
Proof. split; cbn; try lia; try done. Qed.

Lemma pool_balanced_witness :
  @c2h_alloc_resource demo_card [0; 0; 0; 0] demo_blank = Ret 0 demo_0 /\
  length (page_log demo_0) = 8%nat /\
  (exists s', @c2h_alloc_resource poor_card [0; 0; 0; 0] demo_blank = Ret (- ENOMEM) s') /\
  page_log (end_state (@c2h_alloc_resource poor_card [0; 0; 0; 0] demo_blank)) =
    [PgPut 4096; PgUnmap 1052672; PgMap 4096 1052672; PgAlloc 4096 0] /\
  returns (@c2h_alloc_resource poor_card [0; 0; 0; 0]) demo_blank (fun rv s1 =>
    (rv < 0 -> balanced (page_log s1) /\ flq s1 = flq_zero) /\
    returns free_all s1 (fun _ s2 =>
      balanced (page_log s2) /\ flq s2 = flq_zero /\
      returns free_all s2 (fun _ s3 => page_log s3 = page_log s2 /\ flq s3 = flq_zero))).
Proof.
  split; [vm_compute; reflexivity|]. split; [vm_compute; reflexivity|]. split; [eexists; vm_compute; reflexivity|].
  split; [vm_compute; reflexivity|].
  apply (@pool_balanced poor_card [0; 0; 0; 0] demo_blank demo_pool_conf).
  intros s n _ _. reflexivity.
Defined.
