(* ===== verification/C2hLimits.v ===== *)
(** * C2hLimits: where the receiving side of a queue does not do what it should

    Each lemma runs the functions of [C2h] on one queue. *)

From S2P Require Import Prelude QdmaErrors Mmio CLayout Contexts Csr SoftCsr S80Csr.
From S2P Require Import Descq DescqInv C2h C2hRead C2hCntr C2hCmpl C2hChan C2hPool.
Local Open Scope Z_scope.

(** ** A buffer that was read in two parts *)

(** The first request takes half of a packet.  Reading moves the offset of the buffer, and
    giving the buffer back to the card restores only its length: the card still writes to
    the address in the descriptor, and the next packet will be read 8 bytes further on, into
    the buffer behind it: the bytes that are copied are not those of the packet. *)
Lemma offset_is_not_reset :
  sdesc (flq demo_0) !! 0%nat = Some (mk_sg 4096 0 16 1052672) /\
  sdesc (flq demo_3) !! 0%nat = Some (mk_sg 4096 8 16 1052672) /\
  flq_desc (flq demo_3) !! 0%nat = Some 1052672 /\
  sdesc (flq demo_3) !! 1%nat = Some (mk_sg 4096 16 16 1052688) /\
  landed (flq demo_3) 16 0 [4] = [(4096, 0); (4096, 1); (4096, 2); (4096, 3)] /\
  payload (sdesc (flq demo_3)) 16 0 [4] = [(4096, 8); (4096, 9); (4096, 10); (4096, 11)].
Proof. by vm_compute. Qed.

(** ** Queues that hand packets to the network driver *)

(** A card whose packets are kept, with as many pages as asked for, or none. *)
Definition net_card (pages ok : bool) (rv : Z) : C2hEngine := {|
  cs_pidx := fun _ => 1;
  cmpt_word := fun _ pos => if pos =? 0 then demo_word 20 else 0;
  fp_proc_ul_cmpt_entry := None;
  packet_handler := fun _ _ => (rv, []);
  kzalloc_ok := fun _ _ => ok;
  alloc_pages := fun s _ => if pages then 4096 * (1 + Z.of_nat (length (page_log s))) else 0;
  map_page := fun _ pg => 1073741824 + pg |}.

Definition net_conf (size bufsz : Z) : c2h_conf :=
  mk_conf 0 size 4 0 0 0 bufsz 0 0 0 0 0 0 false false false false false true POLL_MODE false false 0 [] [] [] [].

Definition net_blank (size bufsz : Z) : c2h_descq :=
  mk_c2h (net_conf size bufsz) Q_STATE_ONLINE false false 1 (size - 1) 0 0 0 8 0 0 0 true (mk_cntr 0 0 0 0 0) [] 0 0
    flq_zero [] [] [] [] [].

Definition net_queue (size bufsz : Z) : c2h_descq :=
  end_state (@c2h_alloc_resource (net_card true true 0) (replicate (Z.to_nat size) 0) (net_blank size bufsz)).

(** A ring of 15 buffers of 1024 bytes, four in a page: 14 have been used.  To refill them the
    driver counts the buffers of a page as free from its end on.  Of the fourth page it takes back two,
    and cuts them again from offset 1024; but it is buffer 14, at offset 2048, that is still in
    the ring.  Now buffer 1 has the same address. *)
Lemma refill_overlaps :
  let s := net_queue 15 1024 in
  let s' := end_state (@qdma_flq_refill (net_card true true 0) 20 0 14 false s) in
  NoDup (flq_desc (flq s)) /\
  avail s' = avail s + 14 /\
  flq_desc (flq s') !! 1%nat = flq_desc (flq s') !! 14%nat /\
  sdesc (flq s') !! 1%nat = sdesc (flq s') !! 14%nat /\ is_Some (sdesc (flq s') !! 1%nat).
Proof.
  split.
  - apply (bool_decide_unpack _). vm_compute. exact I.
  - split; [vm_compute; reflexivity|]. split; [vm_compute; reflexivity|]. split; [vm_compute; reflexivity|].
    vm_compute. by eexists.
Qed.

(** A page that cannot be replaced stays in the pool although its mapping was undone and its last
    reference given back; the next buffer is cut from it all the same, and the card is told
    to write to address 0.  (The network driver gives back the reference of the buffer.) *)
Definition give_up_page (pg : Z) (s : c2h_descq) : c2h_descq := set_page_log (PgPut pg :: page_log s) s.

Lemma freed_page_used_again :
  let s := give_up_page 4096 (net_queue 2 4096) in
  let s' := end_state (@qdma_flq_refill (net_card false true 0) 9 0 1 false s) in
  total (refs_by 4096) (page_log s) = 1 /\
  page_log s' = [PgRef 4096; PgPut 4096; PgUnmap 1073745920] ++ page_log s /\
  sdesc (flq s') !! 0%nat = Some (mk_sg 4096 0 4096 0) /\ flq_desc (flq s') !! 0%nat = Some 0 /\
  avail s' = avail s + 1.
Proof. by vm_compute. Qed.

(** A packet the network driver refuses is to be offered again; but the buffers of it are taken
    off the count each time, until the count is used up and nothing is offered any more. *)
Lemma refused_packet_uses_buffers :
  let serve := @service_st_c2h (net_card true true (-1)) 9 0 true in
  let s := net_queue 4 16 in
  let s1 := end_state (serve s) in
  let s2 := end_state (serve s1) in
  avail s = 3 /\ avail s1 = 1 /\ cidx_cmpt s1 = cidx_cmpt s /\ length (packets s1) = 1%nat /\
  avail s2 = 1 /\ length (packets s2) = 1%nat.
Proof. by vm_compute. Qed.

(** ** Allocation *)

(** The array of the pool is allocated after the number of its pages was noted; without the array
    the error path goes over a null pointer. *)
Lemma no_pool_array_crashes :
  exists s, @c2h_alloc_resource (net_card true false 0) (replicate 4 0) (net_blank 4 16) = Crash s.
Proof. eexists. vm_compute. reflexivity. Qed.

(** ** Requests *)

(** [qdma_queue_packet_read] returns the length asked for and what was read, added up: all 25
    bytes that are waiting go to a request for 40. *)
Lemma packet_read_counts_twice :
  let s := end_state (@service_st_c2h demo_card 9 0 true demo_0) in
  exists s', @qdma_queue_packet_read demo_card 9 (demo_job 1 77 40) None s = Ret (40 + 25) s' /\
    length (pairs_of (copies s')) = 25%nat.
Proof. eexists. split; [vm_compute; reflexivity|vm_compute; reflexivity]. Qed.

(** In a batch a request that could be served at once is reported to its owner, but with the
    number of its bytes in the place of the error. *)
Lemma batch_reports_count_as_error :
  let s := end_state (@service_st_c2h demo_card 9 0 true demo_0) in
  exists s', @qdma_batch_request_submit demo_card 9 (mret tt) [demo_job 1 77 25] s = Ret (0, [(1%nat, 25, 25)]) s'.
Proof. eexists. vm_compute. reflexivity. Qed.
