(* ===== verification/MemoryApi.v ===== *)
(** * MemoryApi: bulk transfers to and from the device memory ([memory_api.c])

    [read_to_buffer] and [write_from_buffer] move a buffer through the character
    device in chunks of at most [RW_MAX_SIZE] bytes.  The system calls [lseek],
    [read] and [write] are not part of the repository: they are the class
    [CharDevice], which gives the value each call returns after the calls made so
    far.  A run returns the value of the function with the log of its calls. *)

From S2P Require Import Prelude QdmaErrors.
Local Open Scope Z_scope.

Definition DEVICE_MEMORY_ADDRESS_MASK : Z := 137438953471.   (* 0x1FFFFFFFFF *)
Definition RW_MAX_SIZE : Z := 2147479552.                    (* 0x7ffff000 *)

(** The calls: [lseek(fd, offset, SEEK_SET)] and the transfer of [bytes] bytes
    at position [buf] of the buffer, with the value they returned. *)
Inductive io_call :=
| Lseek (offset rc : Z)
| Transfer (buf bytes rc : Z).

(** Newest call first. *)
Class CharDevice := {
  sys_lseek : list io_call -> Z -> Z;
  sys_transfer : list io_call -> Z -> Z }.

Section transfer.
Context `{CharDevice}.

(** The [do ... while] loop both functions have; [None] is exhausted fuel. *)
Fixpoint transfer_loop (fuel : nat) (size count buf offset : Z) (calls : list io_call)
    : option (Z * list io_call) :=
  match fuel with
  | O => None
  | S fuel =>
      let bytes := u64 (size - count) in
      let bytes := if bytes >? RW_MAX_SIZE then RW_MAX_SIZE else bytes in
      let rc := sys_lseek calls offset in
      let calls := Lseek offset rc :: calls in
      if rc <? 0 then Some (- EIO, calls)
      else if negb (rc =? offset) then Some (- EIO, calls)
      else
        let rc := sys_transfer calls bytes in
        let calls := Transfer buf bytes rc :: calls in
        if rc <? 0 then Some (- EIO, calls)
        else if negb (rc =? bytes) then Some (- EIO, calls)
        else
          let count := u64 (count + bytes) in
          if count <? size then transfer_loop fuel size count (buf + bytes) (i64 (offset + bytes)) calls
          else if negb (count =? size) then Some (- EIO, calls)
          else Some (i64 count, calls)
  end.

Definition read_to_buffer (fuel : nat) (size dev_offset : Z) : option (Z * list io_call) :=
  transfer_loop fuel size 0 0 (Z.land dev_offset DEVICE_MEMORY_ADDRESS_MASK) [].

Definition write_from_buffer (fuel : nat) (size dev_offset : Z) : option (Z * list io_call) :=
  transfer_loop fuel size 0 0 (Z.land dev_offset DEVICE_MEMORY_ADDRESS_MASK) [].
End transfer.

(** The number of chunks. *)
Definition chunks (size : Z) : nat := S (Z.to_nat (size / RW_MAX_SIZE)).

(** A device whose calls do what they are asked to. *)
Definition obliging : CharDevice :=
  {| sys_lseek _ offset := offset; sys_transfer _ bytes := bytes |}.

(** ** What the calls do to the device memory *)

(** The memory after the calls, for a write from the buffer [src]: every call
    that was obeyed moved the file position or copied bytes to it. *)
Fixpoint written (src : Z -> Z) (calls : list io_call) (mem : Z -> Z) : Z * (Z -> Z) :=
  match calls with
  | [] => (0, mem)
  | Lseek _ rc :: calls' => let '(_, mem') := written src calls' mem in (rc, mem')
  | Transfer buf _ rc :: calls' =>
      let '(pos, mem') := written src calls' mem in
      (pos + rc, fun a => if (pos <=? a) && (a <? pos + rc) then src (buf + (a - pos)) else mem' a)
  end.

Section transfer_lemmas.
Implicit Types (calls : list io_call).

(** One round of the loop leaves at most [size / RW_MAX_SIZE] rounds. *)
Lemma chunk_measure size count :
  0 <= count -> count < size -> size - count > RW_MAX_SIZE ->
  Z.to_nat ((size - (count + RW_MAX_SIZE)) / RW_MAX_SIZE) = pred (Z.to_nat ((size - count) / RW_MAX_SIZE)) /\
  (0 < Z.to_nat ((size - count) / RW_MAX_SIZE))%nat.
Proof.
  intros Hc Hs Hr. replace (size - count) with (size - (count + RW_MAX_SIZE) + 1 * RW_MAX_SIZE) by lia.
  rewrite Z.div_add by done.
  assert (0 <= (size - (count + RW_MAX_SIZE)) / RW_MAX_SIZE) by (apply Z.div_pos; [lia|done]). lia.
Qed.

(** No call asks for more than [RW_MAX_SIZE] bytes or for a negative number. *)
Definition call_bounded (c : io_call) : Prop :=
  match c with
  | Lseek _ _ => True
  | Transfer _ bytes _ => 0 <= bytes <= RW_MAX_SIZE
  end.

Lemma transfer_loop_total `{CharDevice} fuel size count buf offset calls :
  0 <= count <= size -> (count < size \/ count = 0) -> size < 9223372036854775808 ->
  (Z.to_nat ((size - count) / RW_MAX_SIZE) < fuel)%nat -> Forall call_bounded calls ->
  exists rc calls', transfer_loop fuel size count buf offset calls = Some (rc, calls') /\
    (rc = - EIO \/ rc = size) /\ Forall call_bounded calls'.
Proof.
  assert (0 < RW_MAX_SIZE) as Hmax by done.
  revert count buf offset calls. induction fuel as [|fuel IH]; intros count buf offset calls
    Hc Hlt Hs Hf Hb; [lia|].
  simpl. rewrite (u64_small (size - count)) by in_range. rewrite Z.gtb_ltb.
  assert (forall rc, Forall call_bounded (Lseek offset rc :: calls)) as Hb1 by (by constructor).
  destruct (sys_lseek calls offset <? 0); [eauto 10|].
  destruct (negb _); [eauto 10|].
  destruct (Z.ltb_spec RW_MAX_SIZE (size - count)) as [Hr|Hr].
  - assert (forall rc, Forall call_bounded
      (Transfer buf RW_MAX_SIZE rc :: Lseek offset (sys_lseek calls offset) :: calls)) as Hb2
      by (constructor; [simpl; lia|done]).
    destruct (sys_transfer _ _ <? 0); [eauto 10|]. destruct (negb _); [eauto 10|].
    rewrite u64_small by in_range. destruct (Z.ltb_spec (count + RW_MAX_SIZE) size); [|lia].
    destruct (chunk_measure size count); [lia..|]. apply IH; [lia..|done].
  - assert (forall rc, Forall call_bounded
      (Transfer buf (size - count) rc :: Lseek offset (sys_lseek calls offset) :: calls)) as Hb2
      by (constructor; [simpl; lia|done]).
    destruct (sys_transfer _ _ <? 0); [eauto 10|]. destruct (negb _); [eauto 10|].
    rewrite u64_small by in_range. replace (count + (size - count)) with size by lia.
    rewrite Z.ltb_irrefl, Z.eqb_refl. simpl. rewrite i64_small by lia. eauto 10.
Qed.

(** The memory after [count] bytes of [src] were copied to [off]. *)
Definition copied (src : Z -> Z) (off count : Z) (mem : Z -> Z) (a : Z) : Z :=
  if (off <=? a) && (a <? off + count) then src (a - off) else mem a.

Lemma copied_more src off count n mem m a :
  0 <= count -> 0 <= n -> (forall a, m a = copied src off count mem a) ->
  (if (off + count <=? a) && (a <? off + count + n) then src (count + (a - (off + count))) else m a)
  = copied src off (count + n) mem a.
Proof.
  intros Hc Hn Hm. rewrite Hm. unfold copied.
  repeat match goal with
  | |- context [?a <=? ?b] => destruct (Z.leb_spec a b)
  | |- context [?a <? ?b] => destruct (Z.ltb_spec a b)
  end; simpl; try lia; f_equal; lia.
Qed.

(** The loop on a device that obeys every call. *)
Lemma transfer_loop_copies src mem fuel size count off calls :
  0 <= count <= size -> (count < size \/ count = 0) -> size < 9223372036854775808 ->
  0 <= off -> off + size < 9223372036854775808 ->
  (Z.to_nat ((size - count) / RW_MAX_SIZE) < fuel)%nat ->
  (forall a, (written src calls mem).2 a = copied src off count mem a) ->
  exists calls',
    transfer_loop (H := obliging) fuel size count count (off + count) calls = Some (size, calls') /\
    forall a, (written src calls' mem).2 a = copied src off size mem a.
Proof.
  assert (0 < RW_MAX_SIZE) as Hmax by done.
  revert count calls. induction fuel as [|fuel IH]; intros count calls Hc Hlt Hs Ho Hos Hf Hw; [lia|].
  simpl. rewrite (u64_small (size - count)) by in_range. rewrite Z.gtb_ltb.
  destruct (Z.ltb_spec (off + count) 0); [lia|]. rewrite Z.eqb_refl. simpl.
  assert (forall n, 0 <= n -> forall a,
    (written src (Transfer count n n :: Lseek (off + count) (off + count) :: calls) mem).2 a
    = copied src off (count + n) mem a) as Hstep.
  { intros n Hn a. simpl. destruct (written src calls mem) as [pos m] eqn:E. simpl in *.
    apply copied_more; [lia|lia|done]. }
  destruct (Z.ltb_spec RW_MAX_SIZE (size - count)) as [Hr|Hr].
  - rewrite Z.eqb_refl. destruct (Z.ltb_spec RW_MAX_SIZE 0); [lia|]. simpl.
    rewrite u64_small by in_range. destruct (Z.ltb_spec (count + RW_MAX_SIZE) size); [|lia].
    destruct (chunk_measure size count); [lia..|].
    rewrite i64_small by lia. rewrite <- Z.add_assoc.
    apply IH; try lia. apply Hstep. lia.
  - rewrite Z.eqb_refl. destruct (Z.ltb_spec (size - count) 0); [lia|]. simpl.
    rewrite u64_small by in_range. specialize (Hstep (size - count) ltac:(lia)).
    replace (count + (size - count)) with size in * by lia.
    rewrite Z.ltb_irrefl, Z.eqb_refl. simpl. rewrite i64_small by lia.
    eexists. split; [done|]. exact Hstep.
Qed.

Lemma masked_offset_range dev_offset :
  0 <= dev_offset -> 0 <= Z.land dev_offset DEVICE_MEMORY_ADDRESS_MASK < 137438953472.
Proof.
  intros H. change DEVICE_MEMORY_ADDRESS_MASK with (Z.ones 37). rewrite Z.land_ones by lia.
  apply Z.mod_pos_bound. lia.
Qed.
End transfer_lemmas.

(** ** Properties *)

(** C40. Whatever the system calls return, a transfer ends within one round per
    chunk of [RW_MAX_SIZE] bytes, returns either -EIO or the full size (never a
    partial count), and no call asks for more than [RW_MAX_SIZE] bytes. *)
Theorem transfer_all_or_eio `{CharDevice} size dev_offset :
  0 <= size < 9223372036854775808 ->
  exists rc calls, write_from_buffer (chunks size) size dev_offset = Some (rc, calls) /\
    read_to_buffer (chunks size) size dev_offset = Some (rc, calls) /\
    (rc = - EIO \/ rc = size) /\ Forall call_bounded calls.
Proof.
  intros Hs. unfold write_from_buffer, read_to_buffer.
  destruct (transfer_loop_total (chunks size) size 0 0
    (Z.land dev_offset DEVICE_MEMORY_ADDRESS_MASK) []) as (rc & calls & E & Hr & Hb);
    [lia|lia|lia|unfold chunks; rewrite Z.sub_0_r; lia|constructor|].
  eauto 10.
Qed.

(** C39. On a device that obeys every call, writing a buffer returns its size and
    copies every byte of it, and nothing else, to the device offset (the low
    37 bits of the given address), however many chunks that takes. *)
Theorem write_copies_buffer src mem size dev_offset :
  0 <= size < 4611686018427387904 -> 0 <= dev_offset ->
  exists calls,
    write_from_buffer (H := obliging) (chunks size) size dev_offset = Some (size, calls) /\
    forall a, (written src calls mem).2 a =
      let off := Z.land dev_offset DEVICE_MEMORY_ADDRESS_MASK in
      if (off <=? a) && (a <? off + size) then src (a - off) else mem a.
Proof.
  intros Hs Hd. unfold write_from_buffer.
  pose proof (masked_offset_range dev_offset Hd).
  destruct (transfer_loop_copies src mem (chunks size) size 0
    (Z.land dev_offset DEVICE_MEMORY_ADDRESS_MASK) []) as (calls & E & Hw);
    [lia|lia|lia|lia|lia|unfold chunks; rewrite Z.sub_0_r; lia| |].
  - intros a. unfold copied. simpl.
    match goal with |- context [?x <=? a] => destruct (Z.leb_spec x a) end; [|done].
    match goal with |- context [a <? ?x] => destruct (Z.ltb_spec a x) end; [lia|done].
  - rewrite Z.add_0_r in E. exists calls. split; [exact E|]. intros a. rewrite Hw. done.
Qed.

(** ** Witnesses *)

Lemma transfer_all_or_eio_witness :
  exists rc calls,
    write_from_buffer (H := obliging) (chunks 5000000000) 5000000000 4096 = Some (rc, calls) /\
    (rc = - EIO \/ rc = 5000000000).
Proof.
  destruct (@transfer_all_or_eio obliging 5000000000 4096) as (rc & calls & E & _ & Hr & _); [lia|].
  exists rc, calls. by split.
Defined.

Lemma write_copies_buffer_witness :
  exists calls,
    write_from_buffer (H := obliging) (chunks 5000000000) 5000000000 4096 = Some (5000000000, calls) /\
    (written (fun i => i mod 251) calls (fun _ => 0)).2 4196 = 100.
Proof.
  destruct (write_copies_buffer (fun i => i mod 251) (fun _ => 0) 5000000000 4096)
    as (calls & E & Hw); [lia|lia|].
  exists calls. split; [exact E|]. rewrite Hw. by vm_compute.
Defined.
