(* ===== verification/ReconicReg.v ===== *)
(** * ReconicReg: register map of the card ([reconic_reg.h])

    The byte offsets, in the PCIe BAR, of the registers the user-space library
    uses: the compute logic, the RDMA engine (global, protection domain table and
    per-queue registers) and the address translation windows of the QDMA AXI
    bridge. *)

From S2P Require Import Prelude.
Local Open Scope Z_scope.

Definition AXI_BAR_SIZE : Z := 0xffffffffff.
Definition ADDR_MASK : Z := 0xffffffff.
Definition RN_PC_BASE_ADDRESS : Z := 0x100000.
Definition RN_CLR_OFFSET : Z := 0x3000.
Definition RN_SCR_MAP_SIZE : Z := 0x400000.
Definition TIMEOUT_THRESHOLD : Z := 1000.
Definition RN_RDMA_BASE_ADDRESS : Z := 0x40000.
Definition RN_QDMA_CSR_BASE_ADDRESS : Z := 0x14000.

Definition RN_CLR_CTL_CMD : Z := Eval cbv in (RN_PC_BASE_ADDRESS + RN_CLR_OFFSET + 0x0).
Definition RN_CLR_KER_STS : Z := Eval cbv in (RN_PC_BASE_ADDRESS + RN_CLR_OFFSET + 0x4).
Definition RN_CLR_JOB_SUBMITTED : Z := Eval cbv in (RN_PC_BASE_ADDRESS + RN_CLR_OFFSET + 0x8).
Definition RN_CLR_JOB_COMPLETED_NOT_READ : Z := Eval cbv in (RN_PC_BASE_ADDRESS + RN_CLR_OFFSET + 0xc).
Definition RN_CLR_TEMPLATE : Z := Eval cbv in (RN_PC_BASE_ADDRESS + RN_CLR_OFFSET + 0x200).
Definition RN_RDMA_GCSR_XRNICCONF : Z := Eval cbv in (RN_RDMA_BASE_ADDRESS + 0x20000).
Definition RN_RDMA_GCSR_XRNICADCONF : Z := Eval cbv in (RN_RDMA_BASE_ADDRESS + 0x20004).
Definition RN_RDMA_GCSR_MACXADDLSB : Z := Eval cbv in (RN_RDMA_BASE_ADDRESS + 0x20010).
Definition RN_RDMA_GCSR_MACXADDMSB : Z := Eval cbv in (RN_RDMA_BASE_ADDRESS + 0x20014).
Definition RN_RDMA_GCSR_IPV4XADD : Z := Eval cbv in (RN_RDMA_BASE_ADDRESS + 0x20070).
Definition RN_RDMA_GCSR_ERRBUFBA : Z := Eval cbv in (RN_RDMA_BASE_ADDRESS + 0x20060).
Definition RN_RDMA_GCSR_ERRBUFBAMSB : Z := Eval cbv in (RN_RDMA_BASE_ADDRESS + 0x20064).
Definition RN_RDMA_GCSR_ERRBUFSZ : Z := Eval cbv in (RN_RDMA_BASE_ADDRESS + 0x20068).
Definition RN_RDMA_GCSR_ERRBUFWPTR : Z := Eval cbv in (RN_RDMA_BASE_ADDRESS + 0x2006c).
Definition RN_RDMA_GCSR_IPKTERRQBA : Z := Eval cbv in (RN_RDMA_BASE_ADDRESS + 0x20088).
Definition RN_RDMA_GCSR_IPKTERRQBAMSB : Z := Eval cbv in (RN_RDMA_BASE_ADDRESS + 0x2008c).
Definition RN_RDMA_GCSR_IPKTERRQSZ : Z := Eval cbv in (RN_RDMA_BASE_ADDRESS + 0x20090).
Definition RN_RDMA_GCSR_IPKTERRQWPTR : Z := Eval cbv in (RN_RDMA_BASE_ADDRESS + 0x20094).
Definition RN_RDMA_GCSR_DATBUFBA : Z := Eval cbv in (RN_RDMA_BASE_ADDRESS + 0x200a0).
Definition RN_RDMA_GCSR_DATBUFBAMSB : Z := Eval cbv in (RN_RDMA_BASE_ADDRESS + 0x200a4).
Definition RN_RDMA_GCSR_DATBUFSZ : Z := Eval cbv in (RN_RDMA_BASE_ADDRESS + 0x200a8).
Definition RN_RDMA_GCSR_INSRRPKTCNT : Z := Eval cbv in (RN_RDMA_BASE_ADDRESS + 0x20100).
Definition RN_RDMA_GCSR_INAMPKTCNT : Z := Eval cbv in (RN_RDMA_BASE_ADDRESS + 0x20104).
Definition RN_RDMA_GCSR_OUTIOPKTCNT : Z := Eval cbv in (RN_RDMA_BASE_ADDRESS + 0x20108).
Definition RN_RDMA_GCSR_LSTINPKT : Z := Eval cbv in (RN_RDMA_BASE_ADDRESS + 0x20110).
Definition RN_RDMA_GCSR_LSTOUTPKT : Z := Eval cbv in (RN_RDMA_BASE_ADDRESS + 0x20114).
Definition RN_RDMA_GCSR_ININVDUPCNT : Z := Eval cbv in (RN_RDMA_BASE_ADDRESS + 0x20118).
Definition RN_RDMA_GCSR_INNCKPKTSTS : Z := Eval cbv in (RN_RDMA_BASE_ADDRESS + 0x2011c).
Definition RN_RDMA_GCSR_OUTRNRPKTSTS : Z := Eval cbv in (RN_RDMA_BASE_ADDRESS + 0x20120).
Definition RN_RDMA_GCSR_WQEPROCSTS : Z := Eval cbv in (RN_RDMA_BASE_ADDRESS + 0x20124).
Definition RN_RDMA_GCSR_QPMSTS : Z := Eval cbv in (RN_RDMA_BASE_ADDRESS + 0x2012c).
Definition RN_RDMA_GCSR_INTEN : Z := Eval cbv in (RN_RDMA_BASE_ADDRESS + 0x20180).
Definition RN_RDMA_GCSR_OUTAMPKTCNT : Z := Eval cbv in (RN_RDMA_BASE_ADDRESS + 0x2010c).
Definition RN_RDMA_GCSR_INALLDRPPKTCNT : Z := Eval cbv in (RN_RDMA_BASE_ADDRESS + 0x20130).
Definition RN_RDMA_GCSR_INNAKPKTCNT : Z := Eval cbv in (RN_RDMA_BASE_ADDRESS + 0x20134).
Definition RN_RDMA_GCSR_OUTNAKPKTCNT : Z := Eval cbv in (RN_RDMA_BASE_ADDRESS + 0x20138).
Definition RN_RDMA_GCSR_RESPHNDSTS : Z := Eval cbv in (RN_RDMA_BASE_ADDRESS + 0x2013c).
Definition RN_RDMA_GCSR_RETRYCNTSTS : Z := Eval cbv in (RN_RDMA_BASE_ADDRESS + 0x20140).
Definition RN_RDMA_GCSR_INCNPPKTCNT : Z := Eval cbv in (RN_RDMA_BASE_ADDRESS + 0x20174).
Definition RN_RDMA_GCSR_OUTCNPPKTCNT : Z := Eval cbv in (RN_RDMA_BASE_ADDRESS + 0x20178).
Definition RN_RDMA_GCSR_OUTRDRSPPKTCNT : Z := Eval cbv in (RN_RDMA_BASE_ADDRESS + 0x2017c).
Definition RN_RDMA_GCSR_INTSTS : Z := Eval cbv in (RN_RDMA_BASE_ADDRESS + 0x20184).
Definition RN_RDMA_GCSR_RQINTSTS1 : Z := Eval cbv in (RN_RDMA_BASE_ADDRESS + 0x20190).
Definition RN_RDMA_GCSR_RQINTSTS2 : Z := Eval cbv in (RN_RDMA_BASE_ADDRESS + 0x20194).
Definition RN_RDMA_GCSR_RQINTSTS3 : Z := Eval cbv in (RN_RDMA_BASE_ADDRESS + 0x20198).
Definition RN_RDMA_GCSR_RQINTSTS4 : Z := Eval cbv in (RN_RDMA_BASE_ADDRESS + 0x2019c).
Definition RN_RDMA_GCSR_RQINTSTS5 : Z := Eval cbv in (RN_RDMA_BASE_ADDRESS + 0x201a0).
Definition RN_RDMA_GCSR_RQINTSTS6 : Z := Eval cbv in (RN_RDMA_BASE_ADDRESS + 0x201a4).
Definition RN_RDMA_GCSR_RQINTSTS7 : Z := Eval cbv in (RN_RDMA_BASE_ADDRESS + 0x201a8).
Definition RN_RDMA_GCSR_RQINTSTS8 : Z := Eval cbv in (RN_RDMA_BASE_ADDRESS + 0x201ac).
Definition RN_RDMA_GCSR_CQINTSTS1 : Z := Eval cbv in (RN_RDMA_BASE_ADDRESS + 0x201b0).
Definition RN_RDMA_GCSR_CQINTSTS2 : Z := Eval cbv in (RN_RDMA_BASE_ADDRESS + 0x201b4).
Definition RN_RDMA_GCSR_CQINTSTS3 : Z := Eval cbv in (RN_RDMA_BASE_ADDRESS + 0x201b8).
Definition RN_RDMA_GCSR_CQINTSTS4 : Z := Eval cbv in (RN_RDMA_BASE_ADDRESS + 0x201bc).
Definition RN_RDMA_GCSR_CQINTSTS5 : Z := Eval cbv in (RN_RDMA_BASE_ADDRESS + 0x201c0).
Definition RN_RDMA_GCSR_CQINTSTS6 : Z := Eval cbv in (RN_RDMA_BASE_ADDRESS + 0x201c4).
Definition RN_RDMA_GCSR_CQINTSTS7 : Z := Eval cbv in (RN_RDMA_BASE_ADDRESS + 0x201c8).
Definition RN_RDMA_GCSR_CQINTSTS8 : Z := Eval cbv in (RN_RDMA_BASE_ADDRESS + 0x201cc).
Definition RN_RDMA_GCSR_RESPERRPKTBA : Z := Eval cbv in (RN_RDMA_BASE_ADDRESS + 0x200b0).
Definition RN_RDMA_GCSR_RESPERRPKTBAMSB : Z := Eval cbv in (RN_RDMA_BASE_ADDRESS + 0x200b4).
Definition RN_RDMA_GCSR_RESPERRSZ : Z := Eval cbv in (RN_RDMA_BASE_ADDRESS + 0x200b8).
Definition RN_RDMA_GCSR_RESPERRSZMSB : Z := Eval cbv in (RN_RDMA_BASE_ADDRESS + 0x200bc).
Definition RN_RDMA_PDT_PDPDNUM : Z := Eval cbv in (RN_RDMA_BASE_ADDRESS + 0x0).
Definition RN_RDMA_PDT_VIRTADDRLSB : Z := Eval cbv in (RN_RDMA_BASE_ADDRESS + 0x4).
Definition RN_RDMA_PDT_VIRTADDRMSB : Z := Eval cbv in (RN_RDMA_BASE_ADDRESS + 0x8).
Definition RN_RDMA_PDT_BUFBASEADDRLSB : Z := Eval cbv in (RN_RDMA_BASE_ADDRESS + 0xc).
Definition RN_RDMA_PDT_BUFBASEADDRMSB : Z := Eval cbv in (RN_RDMA_BASE_ADDRESS + 0x10).
Definition RN_RDMA_PDT_BUFRKEY : Z := Eval cbv in (RN_RDMA_BASE_ADDRESS + 0x14).
Definition RN_RDMA_PDT_WRRDBUFLEN : Z := Eval cbv in (RN_RDMA_BASE_ADDRESS + 0x18).
Definition RN_RDMA_PDT_ACCESSDESC : Z := Eval cbv in (RN_RDMA_BASE_ADDRESS + 0x1c).
Definition RN_RDMA_QCSR_QPCONFi : Z := Eval cbv in (RN_RDMA_BASE_ADDRESS + 0x20200).
Definition RN_RDMA_QCSR_QPADVCONFi : Z := Eval cbv in (RN_RDMA_BASE_ADDRESS + 0x20204).
Definition RN_RDMA_QCSR_RQBAi : Z := Eval cbv in (RN_RDMA_BASE_ADDRESS + 0x20208).
Definition RN_RDMA_QCSR_RQBAMSBi : Z := Eval cbv in (RN_RDMA_BASE_ADDRESS + 0x202c0).
Definition RN_RDMA_QCSR_SQBAi : Z := Eval cbv in (RN_RDMA_BASE_ADDRESS + 0x20210).
Definition RN_RDMA_QCSR_SQBAMSBi : Z := Eval cbv in (RN_RDMA_BASE_ADDRESS + 0x202c8).
Definition RN_RDMA_QCSR_CQBAi : Z := Eval cbv in (RN_RDMA_BASE_ADDRESS + 0x20218).
Definition RN_RDMA_QCSR_CQBAMSBi : Z := Eval cbv in (RN_RDMA_BASE_ADDRESS + 0x202d0).
Definition RN_RDMA_QCSR_RQWPTRDBADDi : Z := Eval cbv in (RN_RDMA_BASE_ADDRESS + 0x20220).
Definition RN_RDMA_QCSR_RQWPTRDBADDMSBi : Z := Eval cbv in (RN_RDMA_BASE_ADDRESS + 0x20224).
Definition RN_RDMA_QCSR_CQDBADDi : Z := Eval cbv in (RN_RDMA_BASE_ADDRESS + 0x20228).
Definition RN_RDMA_QCSR_CQDBADDMSBi : Z := Eval cbv in (RN_RDMA_BASE_ADDRESS + 0x2022c).
Definition RN_RDMA_QCSR_CQHEADi : Z := Eval cbv in (RN_RDMA_BASE_ADDRESS + 0x20230).
Definition RN_RDMA_QCSR_RQCIi : Z := Eval cbv in (RN_RDMA_BASE_ADDRESS + 0x20234).
Definition RN_RDMA_QCSR_SQPIi : Z := Eval cbv in (RN_RDMA_BASE_ADDRESS + 0x20238).
Definition RN_RDMA_QCSR_QDEPTHi : Z := Eval cbv in (RN_RDMA_BASE_ADDRESS + 0x2023c).
Definition RN_RDMA_QCSR_SQPSNi : Z := Eval cbv in (RN_RDMA_BASE_ADDRESS + 0x20240).
Definition RN_RDMA_QCSR_LSTRQREQi : Z := Eval cbv in (RN_RDMA_BASE_ADDRESS + 0x20244).
Definition RN_RDMA_QCSR_DESTQPCONFi : Z := Eval cbv in (RN_RDMA_BASE_ADDRESS + 0x20248).
Definition RN_RDMA_QCSR_MACDESADDLSBi : Z := Eval cbv in (RN_RDMA_BASE_ADDRESS + 0x20250).
Definition RN_RDMA_QCSR_MACDESADDMSBi : Z := Eval cbv in (RN_RDMA_BASE_ADDRESS + 0x20254).
Definition RN_RDMA_QCSR_IPDESADDR1i : Z := Eval cbv in (RN_RDMA_BASE_ADDRESS + 0x20260).
Definition RN_RDMA_QCSR_STATSSNi : Z := Eval cbv in (RN_RDMA_BASE_ADDRESS + 0x20280).
Definition RN_RDMA_QCSR_STATMSNi : Z := Eval cbv in (RN_RDMA_BASE_ADDRESS + 0x20284).
Definition RN_RDMA_QCSR_STATQPi : Z := Eval cbv in (RN_RDMA_BASE_ADDRESS + 0x20288).
Definition RN_RDMA_QCSR_STATCURSQPTRi : Z := Eval cbv in (RN_RDMA_BASE_ADDRESS + 0x2028c).
Definition RN_RDMA_QCSR_STATRESPSNi : Z := Eval cbv in (RN_RDMA_BASE_ADDRESS + 0x20290).
Definition RN_RDMA_QCSR_STATRQBUFCAi : Z := Eval cbv in (RN_RDMA_BASE_ADDRESS + 0x20294).
Definition RN_RDMA_QCSR_STATWQEi : Z := Eval cbv in (RN_RDMA_BASE_ADDRESS + 0x20298).
Definition RN_RDMA_QCSR_STATRQPIDBi : Z := Eval cbv in (RN_RDMA_BASE_ADDRESS + 0x2029c).
Definition RN_RDMA_QCSR_PDi : Z := Eval cbv in (RN_RDMA_BASE_ADDRESS + 0x202b0).
Definition RN_RDMA_QCSR_STATRQBUFCAMSBi : Z := Eval cbv in (RN_RDMA_BASE_ADDRESS + 0x202d8).
Definition AXIB_BDF_ADDR_TRANSLATE_ADDR_LSB : Z := Eval cbv in (RN_QDMA_CSR_BASE_ADDRESS + 0x2420).
Definition AXIB_BDF_ADDR_TRANSLATE_ADDR_MSB : Z := Eval cbv in (RN_QDMA_CSR_BASE_ADDRESS + 0x2424).
Definition AXIB_BDF_PASID_RESERVED_ADDR : Z := Eval cbv in (RN_QDMA_CSR_BASE_ADDRESS + 0x2428).
Definition AXIB_BDF_FUNCTION_NUM_ADDR : Z := Eval cbv in (RN_QDMA_CSR_BASE_ADDRESS + 0x242c).
Definition AXIB_BDF_MAP_CONTROL_ADDR : Z := Eval cbv in (RN_QDMA_CSR_BASE_ADDRESS + 0x2430).
Definition AXIB_BDF_RESERVED_ADDR : Z := Eval cbv in (RN_QDMA_CSR_BASE_ADDRESS + 0x2434).
