(* ===== verification/Reconic.v ===== *)
(** * Reconic: the RecoNIC device ([reconic.c], [control_api.c], [auxiliary.c])

    The data types of the user-space library and its state, the address
    conversions, the configuration of the AXI bridge windows, the buffer
    allocator, the compute commands and the time helper.

    A pointer to an object of the library (a queue pair, a protection domain) is
    a position in a list of the state; NULL is [None].  [malloc] does not fail;
    messages on stderr are not part of the state. *)

From S2P Require Import Prelude Mmio ReconicReg.
Local Open Scope Z_scope.

Definition DEVICE_MEM_SIZE : Z := 4294967296.
Definition HARDWARE_PAGE_SIZE : Z := 4096.
Definition HARDWARE_PAGE_SIZE_ALIGNMENT_MASK : Z := 0xfffffffffffff000.
Definition HARDWARE_PAGE_SIZE_ADDRESS_MASK : Z := 0xfff.
Definition PAGE_SHIFT : Z := 12.
Definition PAGEMAP_LENGTH : Z := 8.
Definition DEVICE_MEM_OFFSET : Z := 0xa350000000000000.

(** ** Data types *)

Record mac_addr_t := mk_mac { mac_lsb : Z; mac_msb : Z }.

Record rdma_buff_t := mk_buff { buffer : Z; dma_addr : Z; buf_size : Z }.

Record rn_dev_t := mk_rn {
  rn_axil_ctl : Z;                 (* a pointer: 0 is NULL *)
  base_buf : rdma_buff_t;
  buffer_offset : Z;
  dev_buffer_offset : Z;
  rn_num_qp : Z;                   (* unsigned char *)
  win_size_lsb : Z;                (* of the shared [winSize] *)
  win_size_msb : Z }.

Definition set_offsets (host dev : Z) (rn : rn_dev_t) : rn_dev_t :=
  mk_rn (rn_axil_ctl rn) (base_buf rn) host dev (rn_num_qp rn) (win_size_lsb rn) (win_size_msb rn).
Definition set_win_size (lsb msb : Z) (rn : rn_dev_t) : rn_dev_t :=
  mk_rn (rn_axil_ctl rn) (base_buf rn) (buffer_offset rn) (dev_buffer_offset rn) (rn_num_qp rn)
    lsb msb.

(** ** Addresses *)

Definition get_win_size : Z := AXI_BAR_SIZE.

Definition is_device_address (address : Z) : bool :=
  Z.land address 0xfff0000000000000 =? DEVICE_MEM_OFFSET.

Definition convert_mac_addr_to_uint (c : list Z) : mac_addr_t :=
  let ch i := nth i c 0 in
  mk_mac
    (Z.land (Z.lor (Z.lor (Z.lor (Z.shiftl (ch 2%nat) 24) (Z.shiftl (ch 3%nat) 16))
                      (Z.shiftl (ch 4%nat) 8)) (ch 5%nat)) 0xffffffff)
    (Z.land (Z.lor (Z.shiftl (ch 0%nat) 8) (ch 1%nat)) 0xffff).

(** The page map of the process (/proc/self/pagemap): the first seven bytes of
    the entry at a file offset, [None] when they cannot be read, and the page
    size. *)
Class PageMap := {
  pagemap_seek : Z -> bool;
  pagemap_read : Z -> option Z;
  getpagesize : Z }.

Section paging.
Context `{PageMap} {S : Type}.

Definition get_page_frame_number_of_address (addr : Z) : M S Z :=
  let offset := u64 (addr / getpagesize * PAGEMAP_LENGTH) in
  if negb (pagemap_seek offset) then exit_failure
  else match pagemap_read offset with
       | None => mret (u64 (-1))
       | Some page_frame_number => mret (Z.land page_frame_number 0x7fffffffffffff)
       end.

Definition get_buffer_paddr (addr : Z) : M S Z :=
  page_frame_number ← get_page_frame_number_of_address addr;
  let distance_from_page_boundary := addr mod getpagesize in
  mret (u64 (u64 (Z.shiftl page_frame_number PAGE_SHIFT) + distance_from_page_boundary)).
End paging.

(** ** The buffer allocator *)

Inductive buf_location := HOST_MEM | DEVICE_MEM | OTHER_LOCATION.

#[export] Instance buf_location_eq_dec : EqDecision buf_location.
Proof. solve_decision. Defined.

(** The offset at which a buffer of [size] bytes is placed: a buffer of at most
    a page does not cross a page boundary, a larger one starts on one. *)
Definition place (offset size : Z) : Z :=
  if size <=? HARDWARE_PAGE_SIZE then
    if u64 (Z.land offset HARDWARE_PAGE_SIZE_ADDRESS_MASK + size) >? HARDWARE_PAGE_SIZE
    then Z.land (u64 (offset + HARDWARE_PAGE_SIZE)) HARDWARE_PAGE_SIZE_ALIGNMENT_MASK
    else offset
  else
    if negb (Z.land offset HARDWARE_PAGE_SIZE_ADDRESS_MASK =? 0)
    then Z.land (u64 (offset + HARDWARE_PAGE_SIZE)) HARDWARE_PAGE_SIZE_ALIGNMENT_MASK
    else offset.

(** A program state with a RecoNIC device in it. *)
Class HasRnDev (S : Type) := {
  rn_of : S -> rn_dev_t;
  with_rn : rn_dev_t -> S -> S }.

Section allocator.
Context `{PageMap} {S : Type} `{HasRnDev S}.

Definition allocate_rdma_buffer (size : Z) (loc : buf_location) : M S rdma_buff_t :=
  rn ← gets rn_of;
  match loc with
  | HOST_MEM =>
      let offset := place (buffer_offset rn) size in
      let addr := u64 (buffer (base_buf rn) + offset) in
      modify (with_rn (set_offsets (u64 (offset + size)) (dev_buffer_offset rn) rn));;
      paddr ← get_buffer_paddr addr;
      mret (mk_buff addr paddr (u32 size))
  | DEVICE_MEM =>
      let offset := place (dev_buffer_offset rn) size in
      let addr := Z.lor offset DEVICE_MEM_OFFSET in
      modify (with_rn (set_offsets (buffer_offset rn) (u64 (offset + size)) rn));;
      assert (u64 (offset + size) <=? DEVICE_MEM_SIZE);;
      mret (mk_buff addr addr (u32 size))
  | OTHER_LOCATION => exit_failure
  end.
End allocator.

(** ** The windows of the AXI bridge *)

Section bridge.
Context {S : Type} `{HasTrace S} `{HasRnDev S}.

Definition bdf_win_config : Z :=
  Z.lor 0xC0000000 (u32 (Z.land (Z.shiftr (Z.shiftr AXI_BAR_SIZE 3 + 1) 12) 0xffffffff)).

Definition config_rn_dev_axib_bdf (high_addr low_addr : Z) : M S unit :=
  let win_size := get_win_size in
  let msb := u32 (Z.shiftr (Z.land win_size 0xffffffff00000000) 32) in
  let lsb := u32 (Z.land win_size 0xffffffff) in
  modify (fun s => with_rn (set_win_size lsb msb (rn_of s)) s);;
  let bdf_addr_high := Z.land high_addr (u32 (ADDR_MASK - msb)) in
  let bdf_addr_low := Z.land low_addr (u32 (ADDR_MASK - lsb)) in
  for_each [0; 1; 2; 3; 4; 5; 6; 7] (fun i =>
    write32_data (AXIB_BDF_ADDR_TRANSLATE_ADDR_LSB + i * 0x20) bdf_addr_low;;
    write32_data (AXIB_BDF_ADDR_TRANSLATE_ADDR_MSB + i * 0x20) (u32 (bdf_addr_high + i * 0x20));;
    write32_data (AXIB_BDF_PASID_RESERVED_ADDR + i * 0x20) 0;;
    write32_data (AXIB_BDF_FUNCTION_NUM_ADDR + i * 0x20) 0;;
    write32_data (AXIB_BDF_MAP_CONTROL_ADDR + i * 0x20) bdf_win_config;;
    write32_data (AXIB_BDF_RESERVED_ADDR + i * 0x20) 0).
End bridge.

(** ** Compute commands ([control_api.c]) *)

Record ctl_cmd_t := mk_cmd {
  ctl_cmd_size : Z;
  a_baseaddr : Z;
  b_baseaddr : Z;
  c_baseaddr : Z;
  a_row : Z;        (* uint16_t, as the next three *)
  a_col : Z;
  b_col : Z;
  work_id : Z }.

Definition gen_ctl_cmd (a_base b_base c_base size row col bcol id : Z) : ctl_cmd_t :=
  mk_cmd size a_base b_base c_base row col bcol id.

(** Two 16-bit values in one 32-bit word. *)
Definition pack16 (hi lo : Z) : Z :=
  Z.lor (Z.land (Z.shiftl hi 16) 0xffff0000) (Z.land lo 0xffff).

Section control.
Context {S : Type} `{HasTrace S} `{MmioDevice}.

Definition issue_ctl_cmd (offset : Z) (ctl_cmd : ctl_cmd_t) : M S unit :=
  write32_data offset (ctl_cmd_size ctl_cmd);;
  write32_data offset (a_baseaddr ctl_cmd);;
  write32_data offset (b_baseaddr ctl_cmd);;
  write32_data offset (c_baseaddr ctl_cmd);;
  write32_data offset (pack16 (a_row ctl_cmd) (a_col ctl_cmd));;
  write32_data offset (pack16 (b_col ctl_cmd) (work_id ctl_cmd)).

(** Polls until the register is not zero. *)
Fixpoint wait_compute (fuel : nat) (offset : Z) : M S Z :=
  match fuel with
  | O => hang
  | Datatypes.S fuel =>
      compute_done ← read32_data offset;
      if compute_done =? 0 then wait_compute fuel offset else mret compute_done
  end.
End control.

(** ** Time ([auxiliary.c]) *)

Record timespec := mk_timespec { tv_sec : Z; tv_nsec : Z }.

Definition timespec_check (t : timespec) : Z :=
  if (tv_nsec t <? 0) || (tv_nsec t >=? 1000000000) then -1 else 0.

(** The new value of [t1].  [time_t] and [long] are 64-bit integers. *)
Definition timespec_sub (t1 t2 : timespec) : timespec :=
  if timespec_check t1 <? 0 then t1
  else if timespec_check t2 <? 0 then t1
  else
    let sec := i64 (tv_sec t1 - tv_sec t2) in
    let nsec := i64 (tv_nsec t1 - tv_nsec t2) in
    if nsec >=? 1000000000 then mk_timespec (i64 (sec + 1)) (i64 (nsec - 1000000000))
    else if nsec <? 0 then mk_timespec (i64 (sec - 1)) (i64 (nsec + 1000000000))
    else mk_timespec sec nsec.
