(* ===== verification/RdmaApi.v ===== *)
(** * RdmaApi: the user-space RDMA library ([rdma_api.c])

    The state of the library, and one definition per function of the file, in
    the monad of Mmio: the device, the global configuration, protection domains
    and memory regions, queue pairs, work queue entries, doorbells, recovery and
    destruction.

    [Debug] prints nothing ([debug] is 0) and its arguments are not evaluated.
    Where C leaves the order of two reads open (the operands of [!=], the
    arguments of [fprintf]) the model reads from left to right. *)

From S2P Require Import Prelude Mmio MemoryApi ReconicReg Reconic.
From stdpp Require Import gmap.
Local Open Scope Z_scope.

Definition RQE_SIZE : Z := 512.

(** ** Data types *)

Record rdma_glb_csr_t := mk_csr {
  data_buf_size : Z;
  data_buf_baseaddr : Z;
  ipkt_err_stat_q_size : Z;
  ipkt_err_stat_q_baseaddr : Z;
  err_buf_baseaddr : Z;
  err_buf_size : Z;
  resp_err_pkt_buf_baseaddr : Z;
  resp_err_pkt_buf_size : Z;
  interrupt_enable : Z;
  src_mac : mac_addr_t;
  src_ip : Z;
  udp_sport : Z;
  num_qp_enabled : Z;
  xrnic_conf : Z;
  xrnic_advanced_conf : Z }.

(** [glb_csr] is allocated without contents, filled by [open_rdma_dev] and
    freed by [destroy_rdma_dev]. *)
Inductive csr_object := CsrUninit | CsrSet (csr : rdma_glb_csr_t) | CsrFreed.

Record rdma_dev_t := mk_rdma {
  glb_csr : csr_object;
  qps_ptr : list (option nat);     (* [num_qp] pointers to queue pairs *)
  axil_ctl : Z;
  num_qp : Z }.

Record rdma_pd_t := mk_pd {
  pd_num : Z;
  virtual_addr_lsb : Z;
  virtual_addr_msb : Z;
  dma_addr_lsb : Z;
  dma_addr_msb : Z;
  pd_r_key : Z;
  buffer_size_lsb : Z;
  buffer_size_msb : Z;             (* uint16_t *)
  pd_access_type : Z;              (* uint16_t *)
  mr_buffer : option rdma_buff_t }.

(** The doorbell counters are [int]s.  A field [malloc] leaves without value is
    [None]. *)
Record rdma_qp_t := mk_qp {
  qpid : Z;
  sq : rdma_buff_t;
  sq_psn : option Z;
  sq_pidb : Z;
  sq_cidb : Z;
  cq : rdma_buff_t;
  cq_cidb_addr : Z;
  cq_cidb : Z;
  rq : rdma_buff_t;
  rq_cidb_addr : Z;
  rq_cidb : Z;
  rq_pidb : Z;
  pd_entry : nat;
  dst_qpid : Z;
  qdepth : Z;
  last_rq_psn : option Z;
  dst_mac : mac_addr_t;
  dst_ip : Z;
  buffers_freed : bool }.          (* [sq], [rq] and [cq] were freed *)

Record rdma_wqe_t := mk_wqe {
  wrid : Z;
  laddr_low : Z;
  laddr_high : Z;
  length_ : Z;
  opcode : Z;
  remote_offset_low : Z;
  remote_offset_high : Z;
  r_key : Z;
  send_small_payload0 : Z;
  send_small_payload1 : Z;
  send_small_payload2 : Z;
  send_small_payload3 : Z;
  immdt_data : Z }.

(** The 16 words of a work queue element; the reserved fields are zero. *)
Definition wqe_words (w : rdma_wqe_t) : list Z :=
  [wrid w; laddr_low w; laddr_high w; length_ w; opcode w; remote_offset_low w;
   remote_offset_high w; r_key w; send_small_payload0 w; send_small_payload1 w;
   send_small_payload2 w; send_small_payload3 w; immdt_data w; 0; 0; 0].

Definition WQE_SIZE : Z := 64.

(** ** The state *)

Record lib_state := mk_lib {
  l_trace : trace;
  l_rn : rn_dev_t;
  base_buf_freed : bool;
  l_rdma : option rdma_dev_t;          (* the RDMA device; NULL is [None] *)
  qps : list rdma_qp_t;                (* the queue pair objects *)
  pds : list (option rdma_pd_t);       (* the protection domain objects; freed is [None] *)
  host_mem : gmap Z Z;                 (* 32-bit words of host memory *)
  sq_transfers : list (list Z * Z);    (* elements sent to device memory, newest first *)
  debug_env : bool }.                  (* the environment has DEBUG=1 *)

#[export] Instance lib_has_trace : HasTrace lib_state.
Proof.
  refine {| trace_of := l_trace;
            with_trace tr s := mk_lib tr (l_rn s) (base_buf_freed s) (l_rdma s) (qps s) (pds s)
                                 (host_mem s) (sq_transfers s) (debug_env s) |};
    by intros; try destruct s.
Defined.

#[export] Instance lib_has_rn : HasRnDev lib_state :=
  {| rn_of := l_rn;
     with_rn rn s := mk_lib (l_trace s) rn (base_buf_freed s) (l_rdma s) (qps s) (pds s)
                       (host_mem s) (sq_transfers s) (debug_env s) |}.

Definition with_rdma (d : option rdma_dev_t) (s : lib_state) : lib_state :=
  mk_lib (l_trace s) (l_rn s) (base_buf_freed s) d (qps s) (pds s) (host_mem s)
    (sq_transfers s) (debug_env s).
Definition with_qps (q : list rdma_qp_t) (s : lib_state) : lib_state :=
  mk_lib (l_trace s) (l_rn s) (base_buf_freed s) (l_rdma s) q (pds s) (host_mem s)
    (sq_transfers s) (debug_env s).
Definition with_pds (p : list (option rdma_pd_t)) (s : lib_state) : lib_state :=
  mk_lib (l_trace s) (l_rn s) (base_buf_freed s) (l_rdma s) (qps s) p (host_mem s)
    (sq_transfers s) (debug_env s).
Definition with_mem (h : gmap Z Z) (s : lib_state) : lib_state :=
  mk_lib (l_trace s) (l_rn s) (base_buf_freed s) (l_rdma s) (qps s) (pds s) h
    (sq_transfers s) (debug_env s).
Definition with_transfers (t : list (list Z * Z)) (s : lib_state) : lib_state :=
  mk_lib (l_trace s) (l_rn s) (base_buf_freed s) (l_rdma s) (qps s) (pds s) (host_mem s)
    t (debug_env s).
Definition with_base_freed (s : lib_state) : lib_state :=
  mk_lib (l_trace s) (l_rn s) true (l_rdma s) (qps s) (pds s) (host_mem s)
    (sq_transfers s) (debug_env s).

(** Updates of a queue pair. *)
Definition set_doorbells (sqp sqc cqc rqc rqp : Z) (q : rdma_qp_t) : rdma_qp_t :=
  mk_qp (qpid q) (sq q) (sq_psn q) sqp sqc (cq q) (cq_cidb_addr q) cqc (rq q)
    (rq_cidb_addr q) rqc rqp (pd_entry q) (dst_qpid q) (qdepth q) (last_rq_psn q)
    (dst_mac q) (dst_ip q) (buffers_freed q).
Definition set_sq_pidb (v : Z) (q : rdma_qp_t) : rdma_qp_t :=
  set_doorbells v (sq_cidb q) (cq_cidb q) (rq_cidb q) (rq_pidb q) q.
Definition set_sq_cidb (v : Z) (q : rdma_qp_t) : rdma_qp_t :=
  set_doorbells (sq_pidb q) v (cq_cidb q) (rq_cidb q) (rq_pidb q) q.
Definition set_cq_cidb (v : Z) (q : rdma_qp_t) : rdma_qp_t :=
  set_doorbells (sq_pidb q) (sq_cidb q) v (rq_cidb q) (rq_pidb q) q.
Definition set_rq_cidb (v : Z) (q : rdma_qp_t) : rdma_qp_t :=
  set_doorbells (sq_pidb q) (sq_cidb q) (cq_cidb q) v (rq_pidb q) q.
Definition set_rq_pidb (v : Z) (q : rdma_qp_t) : rdma_qp_t :=
  set_doorbells (sq_pidb q) (sq_cidb q) (cq_cidb q) (rq_cidb q) v q.
Definition set_psns (rqpsn sqpsn : option Z) (q : rdma_qp_t) : rdma_qp_t :=
  mk_qp (qpid q) (sq q) sqpsn (sq_pidb q) (sq_cidb q) (cq q) (cq_cidb_addr q) (cq_cidb q) (rq q)
    (rq_cidb_addr q) (rq_cidb q) (rq_pidb q) (pd_entry q) (dst_qpid q) (qdepth q) rqpsn
    (dst_mac q) (dst_ip q) (buffers_freed q).
Definition set_freed (q : rdma_qp_t) : rdma_qp_t :=
  mk_qp (qpid q) (sq q) (sq_psn q) (sq_pidb q) (sq_cidb q) (cq q) (cq_cidb_addr q) (cq_cidb q) (rq q)
    (rq_cidb_addr q) (rq_cidb q) (rq_pidb q) (pd_entry q) (dst_qpid q) (qdepth q) (last_rq_psn q)
    (dst_mac q) (dst_ip q) true.

(** ** Following pointers *)

Definition the_dev : M lib_state rdma_dev_t := deref l_rdma.

(** [rdma_dev->qps_ptr[id]], used as a pointer. *)
Definition qp_at (id : Z) : M lib_state nat :=
  d ← the_dev;
  deref (fun _ => if id <? 0 then None else mjoin (qps_ptr d !! Z.to_nat id)).

Definition load_qp (p : nat) : M lib_state rdma_qp_t := deref (fun s => qps s !! p).
Definition update_qp (p : nat) (f : rdma_qp_t -> rdma_qp_t) : M lib_state unit :=
  modify (fun s => with_qps (alter f p (qps s)) s).

Definition load_pd (p : nat) : M lib_state rdma_pd_t := deref (fun s => mjoin (pds s !! p)).

(** ** Register addresses *)

Definition get_rdma_per_q_config_addr (offset id : Z) : Z := u32 (offset + u32 (0x100 * u32 (id - 1))).

Definition get_rdma_pd_config_addr (offset num : Z) : Z := u32 (offset + u32 (0x100 * num)).

(** The low and high words of an address as the RDMA engine sees it: a host
    address is reduced to its offset in the window. *)
Definition split_address (rn : rn_dev_t) (a : Z) : Z * Z :=
  if is_device_address a
  then (u32 (Z.land a 0xffffffff), u32 (Z.land (Z.shiftr a 32) 0xffffffff))
  else (Z.land (u32 (Z.land a 0xffffffff)) (win_size_lsb rn),
        Z.land (u32 (Z.land (Z.shiftr a 32) 0xffffffff)) (win_size_msb rn)).

(** ** The device *)

Section operations.
Context `{MmioDevice} `{PageMap} (char_dev : nat -> CharDevice).

Definition write_reg (a v : Z) : M lib_state unit := write32_data a v.
Definition read_reg (a : Z) : M lib_state Z := read32_data a.

(** Per-queue registers. *)
Definition write_q (r id v : Z) : M lib_state unit := write_reg (get_rdma_per_q_config_addr r id) v.
Definition read_q (r id : Z) : M lib_state Z := read_reg (get_rdma_per_q_config_addr r id).

Definition create_rdma_dev : M lib_state unit :=
  modify (fun s =>
    with_rdma (Some (mk_rdma CsrUninit (replicate (Z.to_nat (rn_num_qp (l_rn s))) None)
                       (rn_axil_ctl (l_rn s)) (rn_num_qp (l_rn s)))) s).

Definition config_rdma_global_csr : M lib_state unit :=
  d ← the_dev;
  csr ← deref (fun _ => match glb_csr d with CsrSet c => Some c | _ => None end);
  rn ← gets l_rn;
  let data := split_address rn (data_buf_baseaddr csr) in
  let ipkt := split_address rn (ipkt_err_stat_q_baseaddr csr) in
  let errb := split_address rn (err_buf_baseaddr csr) in
  let resp := split_address rn (resp_err_pkt_buf_baseaddr csr) in
  write_reg RN_RDMA_GCSR_DATBUFBA data.1;;
  write_reg RN_RDMA_GCSR_DATBUFBAMSB data.2;;
  write_reg RN_RDMA_GCSR_DATBUFSZ (data_buf_size csr);;
  write_reg RN_RDMA_GCSR_IPKTERRQBA ipkt.1;;
  write_reg RN_RDMA_GCSR_IPKTERRQBAMSB ipkt.2;;
  write_reg RN_RDMA_GCSR_IPKTERRQSZ (ipkt_err_stat_q_size csr);;
  write_reg RN_RDMA_GCSR_ERRBUFBA errb.1;;
  write_reg RN_RDMA_GCSR_ERRBUFBAMSB errb.2;;
  write_reg RN_RDMA_GCSR_ERRBUFSZ (err_buf_size csr);;
  write_reg RN_RDMA_GCSR_RESPERRPKTBA resp.1;;
  write_reg RN_RDMA_GCSR_RESPERRPKTBAMSB resp.2;;
  write_reg RN_RDMA_GCSR_RESPERRSZ (u32 (Z.land (resp_err_pkt_buf_size csr) 0xffffffff));;
  write_reg RN_RDMA_GCSR_RESPERRSZMSB
    (u32 (Z.land (Z.shiftr (resp_err_pkt_buf_size csr) 32) 0xffffffff));;
  write_reg RN_RDMA_GCSR_INTEN (interrupt_enable csr);;
  write_reg RN_RDMA_GCSR_MACXADDLSB (mac_lsb (src_mac csr));;
  write_reg RN_RDMA_GCSR_MACXADDMSB (mac_msb (src_mac csr));;
  write_reg RN_RDMA_GCSR_IPV4XADD (src_ip csr);;
  write_reg RN_RDMA_GCSR_XRNICCONF (xrnic_conf csr);;
  write_reg RN_RDMA_GCSR_XRNICADCONF (xrnic_advanced_conf csr).

(** The two configuration words [open_rdma_dev] composes. *)
Definition xrnic_conf_word (sport qp_num : Z) : Z :=
  let reserved1 := 0 in
  let reserved2 := 0 in
  let err_buf_en := 1 in
  let tx_ack_gen := 0 in
  let en_ernic := 1 in
  let config_8bit :=
    Z.lor (Z.lor (Z.lor (Z.lor (Z.land (Z.shiftl reserved1 6) 0xc0)
      (Z.land (Z.shiftl err_buf_en 5) 0x20)) (Z.land (Z.shiftl tx_ack_gen 3) 0x18))
      (Z.land (Z.shiftl reserved2 1) 0x6)) (Z.land en_ernic 0x1) in
  Z.lor (Z.lor (Z.land (u32 (Z.shiftl sport 16)) 0xffff0000)
               (Z.land (u32 (Z.shiftl qp_num 8)) 0xff00)) (Z.land config_8bit 0xff).

Definition xrnic_advanced_conf_word : Z :=
  let sw_override_enable := 0 in
  let retry_cnt_fatal_dis := 1 in
  let base_count_width := 10 in
  let sw_override_qp_num := 0 in
  let config_16bit :=
    Z.land 0xf (Z.lor (Z.land sw_override_enable 0x1) (Z.land (Z.shiftl retry_cnt_fatal_dis 2) 0x4)) in
  Z.lor (Z.lor config_16bit (Z.land (Z.shiftl base_count_width 16) 0xf0000))
        (Z.land (Z.shiftl sw_override_qp_num 24) 0xff000000).

Definition open_rdma_dev (local_mac : mac_addr_t) (local_ip sport num_data_buf per_data_buf_size
    data_base ipkt_size ipkt_base num_err_buf per_err_buf_size err_base resp_size resp_base : Z)
    : M lib_state unit :=
  d ← the_dev;
  deref (fun _ => match glb_csr d with CsrFreed => None | _ => Some tt end);;
  let csr :=
    mk_csr (Z.lor (u32 (Z.shiftl per_data_buf_size 16)) num_data_buf) data_base
      ipkt_size ipkt_base err_base (Z.lor (u32 (Z.shiftl per_err_buf_size 16)) num_err_buf)
      resp_base resp_size 0xff local_mac local_ip (u16 sport) (u8 (num_qp d))
      (xrnic_conf_word sport (num_qp d)) xrnic_advanced_conf_word in
  modify (with_rdma (Some (mk_rdma (CsrSet csr) (qps_ptr d) (axil_ctl d) (num_qp d))));;
  config_rdma_global_csr.

(** ** Protection domains and memory regions *)

(** Returns the new object. *)
Definition allocate_rdma_pd (num : Z) : M lib_state nat :=
  d ← gets l_rdma;
  match d with
  | None => exit_failure
  | Some _ =>
      p ← gets (fun s => length (pds s));
      write_reg (get_rdma_pd_config_addr RN_RDMA_PDT_PDPDNUM num) num;;
      modify (fun s => with_pds (pds s ++ [Some (mk_pd num 0 0 0 0 0 0 0 (Z.land 2 0xffff) None)]) s);;
      mret p
  end.

Definition rdma_register_memory_region (pd : option nat) (key : Z) (buf : option rdma_buff_t)
    : M lib_state unit :=
  (* rdma_dev->winSize is read before rdma_dev is compared with NULL *)
  d ← the_dev;
  rn ← gets l_rn;
  match pd, buf with
  | None, _ | _, None => exit_failure
  | Some p, Some b =>
      o ← load_pd p;
      let a := split_address rn (dma_addr b) in
      let size := buf_size b in
      let o' := mk_pd (pd_num o) (u32 (Z.land (buffer b) 0xffffffff))
                  (u32 (Z.land (Z.shiftr (buffer b) 32) 0xffffffff)) a.1 a.2 key
                  (u32 (Z.land size 0xffffffff))
                  (u16 (u32 (Z.land (Z.shiftr size 32) 0xffffffff))) (pd_access_type o) (Some b) in
      modify (fun s => with_pds (<[p := Some o']> (pds s)) s);;
      if axil_ctl d =? 0 then exit_failure
      else
        let addr r := get_rdma_pd_config_addr r (pd_num o') in
        write_reg (addr RN_RDMA_PDT_VIRTADDRLSB) (virtual_addr_lsb o');;
        write_reg (addr RN_RDMA_PDT_VIRTADDRMSB) (virtual_addr_msb o');;
        write_reg (addr RN_RDMA_PDT_BUFBASEADDRLSB) (dma_addr_lsb o');;
        write_reg (addr RN_RDMA_PDT_BUFBASEADDRMSB) (dma_addr_msb o');;
        write_reg (addr RN_RDMA_PDT_BUFRKEY) key;;
        write_reg (addr RN_RDMA_PDT_WRRDBUFLEN) (u32 size);;
        write_reg (addr RN_RDMA_PDT_ACCESSDESC)
          (Z.lor (u32 (Z.shiftl (buffer_size_msb o') 16)) (pd_access_type o'))
  end.

(** ** Queue pairs *)

Definition config_last_rq_psn (id psn : Z) : M lib_state unit :=
  let rq_opcode := 0xa in
  let rq_conf := Z.lor (Z.land (Z.shiftl rq_opcode 24) 0xff000000) (Z.land psn 0xffffff) in
  the_dev;;
  write_q RN_RDMA_QCSR_LSTRQREQi id rq_conf;;
  p ← qp_at id;
  q ← load_qp p;
  update_qp p (set_psns (Some psn) (sq_psn q)).

Definition config_sq_psn (id psn : Z) : M lib_state unit :=
  the_dev;;
  write_q RN_RDMA_QCSR_SQPSNi id psn;;
  p ← qp_at id;
  q ← load_qp p;
  update_qp p (set_psns (last_rq_psn q) (Some psn)).

(** The control word of a queue pair. *)
Definition qp_config_word : Z :=
  let en_qp := 1 in
  let mtu_config := 4 in
  let rq_buffer_entry_size := RQE_SIZE in
  Z.lor (Z.lor (Z.lor (Z.lor (Z.land en_qp 0x1) (Z.land 0xc 0xc)) (Z.land 0x30 0xf0))
    (Z.land (Z.shiftl mtu_config 8) 0xff00)) (Z.land (Z.shiftl rq_buffer_entry_size 16) 0xffff0000).

Definition qp_adv_conf_word (partion_key : Z) : Z :=
  let traffic_class := 0 in
  let time_to_live := 64 in
  Z.lor (Z.lor (Z.land (u32 (Z.shiftl partion_key 16)) 0xffff0000)
    (Z.land (Z.shiftl time_to_live 8) 0xff00)) (Z.land traffic_class 0xff).

(** The register writes of [allocate_rdma_qp], for the new object. *)
Definition configure_qp (rn : rn_dev_t) (q : rdma_qp_t) (partion_key : Z) : M lib_state unit :=
  let id := qpid q in
  let sq_addr := split_address rn (dma_addr (sq q)) in
  let cq_addr := split_address rn (dma_addr (cq q)) in
  let rq_addr := split_address rn (dma_addr (rq q)) in
  let cq_cidb_a := split_address rn (cq_cidb_addr q) in
  let rq_cidb_a := split_address rn (rq_cidb_addr q) in
  write_q RN_RDMA_QCSR_IPDESADDR1i id (dst_ip q);;
  write_q RN_RDMA_QCSR_MACDESADDLSBi id (mac_lsb (dst_mac q));;
  write_q RN_RDMA_QCSR_MACDESADDMSBi id (mac_msb (dst_mac q));;
  write_q RN_RDMA_QCSR_SQBAi id sq_addr.1;;
  write_q RN_RDMA_QCSR_SQBAMSBi id sq_addr.2;;
  write_q RN_RDMA_QCSR_CQBAi id cq_addr.1;;
  write_q RN_RDMA_QCSR_CQBAMSBi id cq_addr.2;;
  write_q RN_RDMA_QCSR_RQBAi id rq_addr.1;;
  write_q RN_RDMA_QCSR_RQBAMSBi id rq_addr.2;;
  write_q RN_RDMA_QCSR_CQDBADDi id cq_cidb_a.1;;
  write_q RN_RDMA_QCSR_CQDBADDMSBi id cq_cidb_a.2;;
  write_q RN_RDMA_QCSR_RQWPTRDBADDi id rq_cidb_a.1;;
  write_q RN_RDMA_QCSR_RQWPTRDBADDMSBi id rq_cidb_a.2;;
  write_q RN_RDMA_QCSR_DESTQPCONFi id (dst_qpid q);;
  write_q RN_RDMA_QCSR_QDEPTHi id (Z.lor (qdepth q) (u32 (Z.shiftl (qdepth q) 16)));;
  write_q RN_RDMA_QCSR_QPCONFi id qp_config_word;;
  write_q RN_RDMA_QCSR_QPADVCONFi id (qp_adv_conf_word partion_key);;
  pd ← load_pd (pd_entry q);
  write_q RN_RDMA_QCSR_PDi id (pd_num pd).

(** Returns the new object. *)
Definition allocate_rdma_qp (id dst_id : Z) (pd : nat) (cq_db rq_db depth : Z) (loc : buf_location)
    (dmac : mac_addr_t) (dip partion_key : Z) : M lib_state nat :=
  d ← the_dev;
  sq ← allocate_rdma_buffer (u32 (u32 (num_qp d * depth) * 64)) loc;
  cq ← allocate_rdma_buffer (u32 (u32 (num_qp d * depth) * 4)) loc;
  rq ← allocate_rdma_buffer (u32 (u32 (num_qp d * depth) * RQE_SIZE)) loc;
  let q := mk_qp id sq None 0 0 cq cq_db 0 rq rq_db 0 0 pd dst_id depth None dmac dip false in
  if Z.of_nat (length (qps_ptr d)) <=? id then crash
  else
    p ← gets (fun s => length (qps s));
    modify (fun s => with_qps (qps s ++ [q]) s);;
    modify (with_rdma (Some (mk_rdma (glb_csr d) (<[Z.to_nat id := Some p]> (qps_ptr d))
                               (axil_ctl d) (num_qp d))));;
    if axil_ctl d =? 0 then exit_failure
    else
      rn ← gets l_rn;
      configure_qp rn q partion_key;;
      mret p.

(** ** Work queue elements *)

(** Words stored one after the other from [a]. *)
Fixpoint store_words (a : Z) (ws : list Z) (mem : gmap Z Z) : gmap Z Z :=
  match ws with
  | [] => mem
  | w :: ws' => <[a := w]> (store_words (a + 4) ws' mem)
  end.

(** The element [create_a_wqe] composes. *)
Definition compose_wqe (rn : rn_dev_t) (id laddr len op remote_offset key p0 p1 p2 p3 immdt : Z)
    : rdma_wqe_t :=
  let a := split_address rn laddr in
  mk_wqe id a.1 a.2 len (Z.land op 0xff) (u32 (Z.land remote_offset 0xffffffff))
    (u32 (Z.shiftr (Z.land remote_offset 0xffffffff00000000) 32)) key p0 p1 p2 p3 immdt.

Definition create_a_wqe (id wr_id wqe_idx laddr len op remote_offset key p0 p1 p2 p3 immdt : Z)
    : M lib_state unit :=
  the_dev;;
  rn ← gets l_rn;
  p ← qp_at id;
  q ← load_qp p;
  let ws := wqe_words (compose_wqe rn wr_id laddr len op remote_offset key p0 p1 p2 p3 immdt) in
  if is_device_address (dma_addr (sq q)) then
    n ← gets (fun s => length (sq_transfers s));
    let offset := u64 (dma_addr (sq q) + wqe_idx * WQE_SIZE) in
    modify (fun s => with_transfers ((ws, offset) :: sq_transfers s) s);;
    match write_from_buffer (H := char_dev n) (chunks WQE_SIZE) WQE_SIZE offset with
    | None => hang
    | Some (rc, _) => if rc <? 0 then exit_failure else mret tt
    end
  else
    modify (fun s => with_mem (store_words (u64 (buffer (sq q) + wqe_idx * WQE_SIZE)) ws (host_mem s)) s).
(** The registers [dump_registers] reads, in its order: global and per queue. *)
Definition dumped_gcsr : list Z :=
  [RN_RDMA_GCSR_ERRBUFWPTR; RN_RDMA_GCSR_IPKTERRQWPTR; RN_RDMA_GCSR_INSRRPKTCNT;
    RN_RDMA_GCSR_INAMPKTCNT; RN_RDMA_GCSR_OUTIOPKTCNT; RN_RDMA_GCSR_OUTAMPKTCNT;
    RN_RDMA_GCSR_LSTINPKT; RN_RDMA_GCSR_LSTOUTPKT; RN_RDMA_GCSR_ININVDUPCNT;
    RN_RDMA_GCSR_INNCKPKTSTS; RN_RDMA_GCSR_OUTRNRPKTSTS; RN_RDMA_GCSR_WQEPROCSTS;
    RN_RDMA_GCSR_QPMSTS; RN_RDMA_GCSR_INALLDRPPKTCNT; RN_RDMA_GCSR_INNAKPKTCNT;
    RN_RDMA_GCSR_OUTNAKPKTCNT; RN_RDMA_GCSR_RESPHNDSTS; RN_RDMA_GCSR_RETRYCNTSTS;
    RN_RDMA_GCSR_INCNPPKTCNT; RN_RDMA_GCSR_OUTCNPPKTCNT; RN_RDMA_GCSR_OUTRDRSPPKTCNT;
    RN_RDMA_GCSR_INTSTS; RN_RDMA_GCSR_RQINTSTS1; RN_RDMA_GCSR_RQINTSTS2; RN_RDMA_GCSR_RQINTSTS3;
    RN_RDMA_GCSR_RQINTSTS4; RN_RDMA_GCSR_RQINTSTS5; RN_RDMA_GCSR_RQINTSTS6;
    RN_RDMA_GCSR_RQINTSTS7; RN_RDMA_GCSR_RQINTSTS8; RN_RDMA_GCSR_CQINTSTS1;
    RN_RDMA_GCSR_CQINTSTS2; RN_RDMA_GCSR_CQINTSTS3; RN_RDMA_GCSR_CQINTSTS4;
    RN_RDMA_GCSR_CQINTSTS5; RN_RDMA_GCSR_CQINTSTS6; RN_RDMA_GCSR_CQINTSTS7;
    RN_RDMA_GCSR_CQINTSTS8].

Definition dumped_qcsr : list Z :=
  [RN_RDMA_QCSR_CQHEADi; RN_RDMA_QCSR_STATSSNi; RN_RDMA_QCSR_STATMSNi; RN_RDMA_QCSR_STATQPi;
    RN_RDMA_QCSR_STATCURSQPTRi; RN_RDMA_QCSR_STATRESPSNi; RN_RDMA_QCSR_STATRQBUFCAi;
    RN_RDMA_QCSR_STATWQEi; RN_RDMA_QCSR_STATRQPIDBi; RN_RDMA_QCSR_STATRQBUFCAMSBi].

Definition dump_registers (is_sender : bool) (id : Z) : M lib_state unit :=
  for_each dumped_gcsr (fun r => read32_ignored r);;
  for_each dumped_qcsr (fun r => read32_ignored (get_rdma_per_q_config_addr r id));;
  if is_sender then read32_ignored (get_rdma_per_q_config_addr RN_RDMA_QCSR_SQPIi id) else mret tt.

(** ** Doorbells *)

Fixpoint poll_rq_from (fuel : nat) (id old pidb : Z) : M lib_state Z :=
  if pidb =? old then
    match fuel with
    | O => hang
    | S fuel =>
        v ← read_q RN_RDMA_QCSR_STATRQPIDBi id;
        poll_rq_from fuel id old (i32 v)
    end
  else mret pidb.

Definition poll_rq_pidb (fuel : nat) (id : Z) : M lib_state Z :=
  p ← qp_at id;
  q ← load_qp p;
  v ← read_q RN_RDMA_QCSR_STATRQPIDBi id;
  debug ← gets debug_env;
  (if (debug : bool) then dump_registers false id else mret tt);;
  pidb ← poll_rq_from fuel id (rq_pidb q) (i32 v);
  update_qp p (set_rq_pidb pidb);;
  mret pidb.

(** The polling loop, after [TIMEOUT_THRESHOLD - n] rounds; the result is the
    value read last and whether the loop timed out. *)
Fixpoint poll_cq_from (n : nat) (id sq_cidb cq_cidb : Z) : M lib_state (Z * bool) :=
  if cq_cidb =? sq_cidb then
    v ← read_q RN_RDMA_QCSR_CQHEADi id;
    match n with
    | O => mret (i32 v, true)
    | S n => poll_cq_from n id sq_cidb (i32 v)
    end
  else mret (cq_cidb, false).

Definition poll_cq_cidb (id sq_cidb : Z) : M lib_state Z :=
  the_dev;;
  v ← read_q RN_RDMA_QCSR_CQHEADi id;
  r ← poll_cq_from (Z.to_nat TIMEOUT_THRESHOLD) id sq_cidb (i32 v);
  if (r : Z * bool).2 then dump_registers true id;; mret (-1) else mret r.1.

Definition rdma_post_send (id : Z) : M lib_state Z :=
  d ← gets l_rdma;
  match d with
  | None => exit_failure
  | Some _ =>
      p ← qp_at id;
      q ← load_qp p;
      let pidb := i32 (sq_pidb q + 1) in
      update_qp p (set_sq_pidb pidb);;
      write_q RN_RDMA_QCSR_SQPIi id (u32 pidb);;
      c ← poll_cq_cidb id (sq_cidb q);
      update_qp p (fun q => set_sq_cidb (i32 (sq_cidb q + 1)) (set_cq_cidb c q));;
      mret (if c <? 0 then -1 else 0)
  end.

(** The loop of the batch: until the completion index reaches [pidb]. *)
Fixpoint batch_loop (fuel : nat) (p : nat) (id : Z) : M lib_state unit :=
  q ← load_qp p;
  if cq_cidb q <? sq_pidb q then
    match fuel with
    | O => hang
    | S fuel =>
        c ← poll_cq_cidb id (sq_cidb q);
        update_qp p (fun q => set_sq_cidb c (set_cq_cidb c q));;
        batch_loop fuel p id
    end
  else mret tt.

Definition rdma_post_batch_send (fuel : nat) (id batch_size : Z) : M lib_state Z :=
  d ← gets l_rdma;
  match d with
  | None => exit_failure
  | Some _ =>
      p ← qp_at id;
      q ← load_qp p;
      let pidb := i32 (u32 (sq_pidb q) + batch_size) in
      update_qp p (set_sq_pidb pidb);;
      if (qdepth q <? batch_size) || (u32 pidb >? qdepth q) then exit_failure
      else
        write_q RN_RDMA_QCSR_SQPIi id (u32 pidb);;
        batch_loop fuel p id;;
        q ← load_qp p;
        mret (if cq_cidb q <? 0 then -1 else 0)
  end.

Definition write_rq_cidb (p : nat) (db_val : Z) : M lib_state unit :=
  q ← load_qp p;
  update_qp p (set_rq_cidb (i32 db_val));;
  write_q RN_RDMA_QCSR_RQCIi (qpid q) db_val.

(** The address of the received entry; [None] is NULL. *)
Definition rdma_post_receive (fuel : nat) (qp : option nat) : M lib_state (option Z) :=
  d ← gets l_rdma;
  match d, qp with
  | None, _ | _, None => mret None
  | Some _, Some p =>
      q ← load_qp p;
      pidb ← poll_rq_pidb fuel (qpid q);
      if pidb =? -1 then exit_failure
      else if pidb =? 0 then
        mret (Some (u64 (buffer (rq q) + u32 (u32 (qdepth q - 1) * RQE_SIZE))))
      else mret (Some (u64 (buffer (rq q) + u64 (i32 (i32 (pidb - 1) * RQE_SIZE)))))
  end.

Definition rdma_release_rq_consumed (p : nat) : M lib_state Z :=
  the_dev;;
  q ← load_qp p;
  v ← read_q RN_RDMA_QCSR_STATRQPIDBi (qpid q);
  write_rq_cidb p (u32 (rq_pidb q));;
  mret (if i32 v =? rq_pidb q then 0 else 1).

(** ** Recovery and destruction *)

(** Step 1: wait until the send queues are empty. *)
Definition wait_sq_empty (fuel : nat) (id : Z) : M lib_state unit :=
  while_loop fuel (
    v ← read_q RN_RDMA_QCSR_STATQPi id;
    mret (Z.land (Z.shiftr v 9) 0x3 =? 0)).

(** Step 2: wait until the indices agree, [n] more rounds. *)
Fixpoint wait_heads (n : nat) (id : Z) : M lib_state unit :=
  head ← read_q RN_RDMA_QCSR_CQHEADi id;
  pi ← read_q RN_RDMA_QCSR_SQPIi id;
  if (head : Z) =? pi then mret tt
  else match n with
       | O => read_q RN_RDMA_QCSR_CQHEADi id;; read_q RN_RDMA_QCSR_SQPIi id;; exit_failure
       | S n => wait_heads n id
       end.

Definition rdma_qp_fatal_recovery (fuel : nat) (id : Z) : M lib_state unit :=
  the_dev;;
  wait_sq_empty fuel id;;
  wait_heads (Z.to_nat 100000) id;;
  v ← read_q RN_RDMA_QCSR_QPCONFi id;
  write_q RN_RDMA_QCSR_QPCONFi id (u32 (Z.ldiff v (Z.shiftl 1 0)));;
  v ← read_q RN_RDMA_QCSR_QPCONFi id;
  write_q RN_RDMA_QCSR_QPCONFi id (u32 (Z.lor v (Z.shiftl 1 6)));;
  read_q RN_RDMA_QCSR_QPCONFi id;;
  mret tt.

Definition destroy_rdma_pd_entry (pd : option nat) : M lib_state unit :=
  match pd with
  | None => mret tt
  | Some p => load_pd p;; modify (fun s => with_pds (<[p := None]> (pds s)) s)
  end.

(** [STATQPi] of a queue pair that can be destroyed without recovery. *)
Definition statqp_clean (v : Z) : bool :=
  (Z.land v 0xff =? 0) && (Z.land (Z.shiftr v 9) 0x3 =? 0x3).

(** The registers of a queue pair that [destroy_rdma_qp] resets. *)
Definition reset_registers : list Z :=
  [RN_RDMA_QCSR_RQWPTRDBADDi; RN_RDMA_QCSR_SQPIi; RN_RDMA_QCSR_CQHEADi; RN_RDMA_QCSR_RQCIi;
   RN_RDMA_QCSR_STATRQPIDBi; RN_RDMA_QCSR_STATCURSQPTRi; RN_RDMA_QCSR_SQPSNi;
   RN_RDMA_QCSR_LSTRQREQi; RN_RDMA_QCSR_STATMSNi].

Definition destroy_rdma_qp (fuel : nat) (qp : option nat) : M lib_state Z :=
  match qp with
  | None => mret 0
  | Some p =>
      q ← load_qp p;
      let id := qpid q in
      v ← read_q RN_RDMA_QCSR_STATQPi id;
      (if negb (statqp_clean v) then rdma_qp_fatal_recovery fuel id else mret tt);;
      v ← read_q RN_RDMA_QCSR_CQHEADi id;
      pi ← read_q RN_RDMA_QCSR_SQPIi id;
      (if negb ((v : Z) =? pi) then rdma_qp_fatal_recovery fuel id else mret tt);;
      v ← read_reg RN_RDMA_GCSR_XRNICADCONF;
      write_reg RN_RDMA_GCSR_XRNICADCONF (Z.lor v 0x1);;
      v ← read_q RN_RDMA_QCSR_QPCONFi id;
      write_q RN_RDMA_QCSR_QPCONFi id (Z.land v 0xfffffffe);;
      for_each reset_registers (fun r => write_q r id 0);;
      v ← read_q RN_RDMA_QCSR_QPCONFi id;
      read_q RN_RDMA_QCSR_CQHEADi id;;
      write_q RN_RDMA_QCSR_QPCONFi id (Z.lor v 0x40);;
      read_q RN_RDMA_QCSR_CQHEADi id;;
      v ← read_reg RN_RDMA_GCSR_XRNICADCONF;
      write_reg RN_RDMA_GCSR_XRNICADCONF (Z.land v 0xfffffffe);;
      read_q RN_RDMA_QCSR_CQHEADi id;;
      (if buffers_freed q then crash else update_qp p set_freed);;
      destroy_rdma_pd_entry (Some (pd_entry q));;
      mret 0
  end.

Definition destroy_rdma_dev (fuel : nat) : M lib_state Z :=
  d ← gets l_rdma;
  match d with
  | None => mret 0
  | Some d =>
      match glb_csr d with
      | CsrFreed => crash
      | _ =>
          modify (with_rdma (Some (mk_rdma CsrFreed (qps_ptr d) (axil_ctl d) (num_qp d))));;
          for_each (qps_ptr d) (fun qp => destroy_rdma_qp fuel qp;; mret tt);;
          write_reg RN_RDMA_GCSR_XRNICCONF 0;;
          mret 0
      end
  end.

Definition destroy_rn_dev (fuel : nat) : M lib_state Z :=
  freed ← gets base_buf_freed;
  if (freed : bool) then crash
  else modify with_base_freed;; destroy_rdma_dev fuel;; mret 0.
End operations.
