(* ===== verification/ReconicProps.v ===== *)
(** * ReconicProps: correctness of the RecoNIC device functions

    The buffer allocator hands out disjoint buffers placed as the hardware
    wants them; the AXI bridge windows translate the masked addresses back; the
    compute command and time helpers. *)

From S2P Require Import Prelude Mmio ReconicReg Reconic MemoryApi RdmaApi.
Local Open Scope Z_scope.

(** ** Placement *)

Lemma page_offset o : Z.land o HARDWARE_PAGE_SIZE_ADDRESS_MASK = o mod 4096.
Proof. exact (land_low o 12 ltac:(lia)). Qed.

Lemma page_align o :
  0 <= o < 18446744073709551616 -> Z.land o HARDWARE_PAGE_SIZE_ALIGNMENT_MASK = o / 4096 * 4096.
Proof.
  intros Ho. change HARDWARE_PAGE_SIZE_ALIGNMENT_MASK with (Z.shiftl (Z.ones 52) 12).
  rewrite land_field by lia. change (2 ^ 12) with 4096. f_equal. apply Z.mod_small.
  split; [apply Z.div_pos; lia|]. apply Z.div_lt_upper_bound; lia.
Qed.

Lemma next_page o : o mod 4096 <> 0 -> (o + 4096) / 4096 * 4096 = o - o mod 4096 + 4096.
Proof. Z.div_mod_to_equations. lia. Qed.

Lemma next_page_gen o : (o + 4096) / 4096 * 4096 = o - o mod 4096 + 4096.
Proof. Z.div_mod_to_equations. lia. Qed.

Lemma place_spec o size :
  0 <= o < 9223372036854775808 -> 0 <= size < 9223372036854775808 ->
  o <= place o size < o + 4097 /\
  (0 < size <= 4096 -> place o size / 4096 = (place o size + size - 1) / 4096) /\
  (4096 < size -> place o size mod 4096 = 0).
Proof.
  intros Ho Hs. unfold place, HARDWARE_PAGE_SIZE. rewrite page_offset.
  rewrite (u64_small (o + 4096)), page_align, next_page_gen by in_range.
  rewrite u64_small by (unfold is_u64; Z.div_mod_to_equations; lia).
  destruct (Z.leb_spec size 4096).
  - rewrite Z.gtb_ltb. destruct (Z.ltb_spec 4096 (o mod 4096 + size));
      split_and!; try (intros; Z.div_mod_to_equations; lia).
  - destruct (Z.eqb_spec (o mod 4096) 0); simpl;
      split_and!; try (intros; Z.div_mod_to_equations; lia).
Qed.

Lemma device_address o :
  0 <= o < 281474976710656 -> Z.lor o DEVICE_MEM_OFFSET = DEVICE_MEM_OFFSET + o.
Proof.
  intros Ho. rewrite Z.lor_comm. change DEVICE_MEM_OFFSET with (0xa350 * 2 ^ 48) at 1.
  by rewrite lor_add by (change (2 ^ 48) with 281474976710656; lia).
Qed.

Lemma is_device_address_spec a :
  0 <= a < 18446744073709551616 -> is_device_address a = (a / 4503599627370496 =? 0xa35).
Proof.
  intros Ha. unfold is_device_address.
  change 0xfff0000000000000 with (Z.shiftl (Z.ones 12) 52). rewrite land_field by lia.
  change (2 ^ 52) with 4503599627370496. rewrite Z.mod_small.
  - change DEVICE_MEM_OFFSET with (0xa35 * 4503599627370496).
    destruct (Z.eqb_spec (a / 4503599627370496) 0xa35) as [->|Hne]; [done|].
    apply Z.eqb_neq. lia.
  - split; [apply Z.div_pos; lia|]. apply Z.div_lt_upper_bound; lia.
Qed.

(** ** Allocation *)

Section allocation.
Context `{PageMap}.
Implicit Types (s : lib_state).

(** The state after a device allocation. *)
Definition device_allocated (size : Z) (s : lib_state) : lib_state :=
  with_rn (set_offsets (buffer_offset (l_rn s))
             (place (dev_buffer_offset (l_rn s)) size + size) (l_rn s)) s.

Lemma allocate_device_run s size :
  0 <= dev_buffer_offset (l_rn s) < 281474976710656 -> 0 <= size < 9223372036854775808 ->
  let start := place (dev_buffer_offset (l_rn s)) size in
  allocate_rdma_buffer size DEVICE_MEM s =
    if start + size <=? DEVICE_MEM_SIZE
    then Ret (mk_buff (DEVICE_MEM_OFFSET + start) (DEVICE_MEM_OFFSET + start) (u32 size))
           (device_allocated size s)
    else Exit (device_allocated size s).
Proof.
  intros Ho Hs start. destruct (place_spec (dev_buffer_offset (l_rn s)) size) as [Hp _]; [lia..|].
  fold start in Hp. unfold allocate_rdma_buffer, mbind, M_bind, gets, modify, device_allocated. simpl.
  fold start. rewrite (u64_small (start + size)) by in_range.
  destruct (Z.leb_spec (start + size) DEVICE_MEM_SIZE) as [Hle|]; simpl; [|done].
  unfold DEVICE_MEM_SIZE in Hle. rewrite device_address by lia. done.
Qed.

(** Allocating several device buffers. *)
Fixpoint allocate_all (sizes : list Z) : M lib_state (list rdma_buff_t) :=
  match sizes with
  | [] => mret []
  | size :: sizes' =>
      b ← allocate_rdma_buffer size DEVICE_MEM;
      bs ← allocate_all sizes';
      mret (b :: bs)
  end.

(** Buffers that follow one another from [lo] on, page rules included. *)
Fixpoint laid_out (lo : Z) (bs : list rdma_buff_t) (sizes : list Z) : Prop :=
  match bs, sizes with
  | [], [] => True
  | b :: bs', size :: sizes' =>
      let start := dma_addr b - DEVICE_MEM_OFFSET in
      lo <= start /\ start + size <= DEVICE_MEM_SIZE /\ is_device_address (dma_addr b) = true /\
      (0 < size <= HARDWARE_PAGE_SIZE ->
         start / HARDWARE_PAGE_SIZE = (start + size - 1) / HARDWARE_PAGE_SIZE) /\
      (HARDWARE_PAGE_SIZE < size -> start mod HARDWARE_PAGE_SIZE = 0) /\
      laid_out (start + size) bs' sizes'
  | _, _ => False
  end.

Lemma allocate_all_laid_out sizes s bs s' :
  Forall (fun n => 0 <= n < 9223372036854775808) sizes ->
  0 <= dev_buffer_offset (l_rn s) < 281474976710656 ->
  allocate_all sizes s = Ret bs s' ->
  laid_out (dev_buffer_offset (l_rn s)) bs sizes.
Proof.
  intros Hn. revert s bs. induction Hn as [|n sizes Hn _ IH]; intros s bs Ho; simpl.
  { by intros [= <- <-]. }
  pose proof (allocate_device_run s n Ho Hn) as Hrun. simpl in Hrun.
  unfold mbind, M_bind. rewrite Hrun.
  destruct (Z.leb_spec (place (dev_buffer_offset (l_rn s)) n + n) DEVICE_MEM_SIZE) as [Hle|]; [|done].
  destruct (allocate_all sizes _) as [bs' s1| | |] eqn:E; intros [= <- <-].
  destruct (place_spec (dev_buffer_offset (l_rn s)) n) as (Hp & Hpage & Halign); [lia..|].
  unfold DEVICE_MEM_SIZE, HARDWARE_PAGE_SIZE in *.
  apply IH in E; [|simpl; lia]. simpl in E |- *. rewrite Z.add_simpl_l.
  split_and!; [lia|done| |done|done|done].
  rewrite is_device_address_spec by (unfold DEVICE_MEM_OFFSET; lia). apply Z.eqb_eq.
  symmetry. apply (Z.div_unique _ _ _ (place (dev_buffer_offset (l_rn s)) n));
    unfold DEVICE_MEM_OFFSET; lia.
Qed.

Lemma laid_out_above bs sizes lo j b :
  laid_out lo bs sizes -> Forall (fun n => 0 <= n) sizes -> bs !! j = Some b ->
  lo <= dma_addr b - DEVICE_MEM_OFFSET.
Proof.
  revert sizes lo j. induction bs as [|b0 bs IH]; intros [|n sizes] lo j; simpl; try done.
  intros (Hlo & _ & _ & _ & _ & Hrest) [Hn Hns]%Forall_cons. destruct j as [|j]; simpl.
  - by intros [= ->].
  - intros Hj. specialize (IH _ _ _ Hrest Hns Hj). lia.
Qed.

Lemma laid_out_disjoint bs sizes lo i j b b' n :
  laid_out lo bs sizes -> Forall (fun n => 0 <= n) sizes ->
  bs !! i = Some b -> sizes !! i = Some n -> bs !! j = Some b' -> (i < j)%nat ->
  dma_addr b + n <= dma_addr b'.
Proof.
  revert sizes lo i j. induction bs as [|b0 bs IH]; intros [|n0 sizes] lo i j; simpl; try done.
  intros (Hlo & _ & _ & _ & _ & Hrest) [Hn Hns]%Forall_cons Hi Hni Hj Hij.
  destruct j as [|j]; [lia|]. simpl in Hj. destruct i as [|i]; simpl in *.
  - injection Hi as ->. injection Hni as ->.
    pose proof (laid_out_above _ _ _ _ _ Hrest Hns Hj). lia.
  - eapply (IH sizes); eauto. lia.
Qed.
End allocation.

(** However many device buffers are allocated, of whatever sizes: when all
    allocations succeed, the buffers lie in the device memory in the order of
    allocation without overlap, one of at most a page never crosses a page
    boundary, a larger one starts on a page, and the library recognises each of
    them as a device address. *)
Theorem device_buffers_disjoint `{PageMap} sizes s bs s' :
  Forall (fun n => 0 <= n < 9223372036854775808) sizes ->
  0 <= dev_buffer_offset (l_rn s) <= DEVICE_MEM_SIZE ->
  allocate_all sizes s = Ret bs s' ->
  laid_out (dev_buffer_offset (l_rn s)) bs sizes /\
  forall i j b b' n, bs !! i = Some b -> sizes !! i = Some n -> bs !! j = Some b' ->
    (i < j)%nat -> dma_addr b + n <= dma_addr b'.
Proof.
  intros Hn Ho E. unfold DEVICE_MEM_SIZE in Ho.
  assert (laid_out (dev_buffer_offset (l_rn s)) bs sizes) as Hl
    by (eapply allocate_all_laid_out; eauto; lia).
  split; [done|]. intros i j b b' n Hi Hni Hj Hij. eapply laid_out_disjoint; eauto.
  eapply Forall_impl; [exact Hn|]. simpl. lia.
Qed.

(** ** Physical addresses of host buffers *)

(** The physical address of byte [a], from the page map. *)
Definition phys `{PageMap} (a : Z) : Z :=
  Z.land (default 0 (pagemap_read (a / 4096 * 8))) 0x7fffffffffffff * 4096 + a mod 4096.

(** A page map with 4 KB pages all of whose entries can be read and name a frame
    below 2^52. *)
Definition pages_known `{PageMap} : Prop :=
  getpagesize = 4096 /\ (forall o, pagemap_seek o = true) /\
  forall o, exists e, pagemap_read o = Some e /\ 0 <= Z.land e 0x7fffffffffffff < 4503599627370496.

Lemma get_buffer_paddr_phys `{PageMap} {S} (s : S) a :
  pages_known -> 0 <= a < 18446744073709551616 -> get_buffer_paddr a s = Ret (phys a) s.
Proof.
  intros (Hps & Hseek & Hread) Ha. unfold get_buffer_paddr, get_page_frame_number_of_address, phys.
  rewrite Hps, Hseek. unfold PAGEMAP_LENGTH. simpl.
  rewrite u64_small by (unfold is_u64; Z.div_mod_to_equations; lia).
  destruct (Hread (a / 4096 * 8)) as (e & -> & He). unfold mbind, M_bind, mret, M_ret. simpl.
  unfold PAGE_SHIFT. rewrite Z.shiftl_mul_pow2 by lia. change (2 ^ 12) with 4096.
  rewrite (u64_small (_ * 4096)) by in_range.
  rewrite u64_small by (unfold is_u64; Z.div_mod_to_equations; lia). done.
Qed.

(** A host buffer of at most a page is physically contiguous: the physical
    address of its [k]-th byte is the DMA address given for the buffer plus
    [k].  (The page rule of the allocator is what makes this true.) *)
Theorem host_buffer_contiguous `{PageMap} s size b s' k :
  pages_known -> 0 < size <= HARDWARE_PAGE_SIZE -> 0 <= k < size ->
  buffer (base_buf (l_rn s)) mod 4096 = 0 ->
  0 <= buffer (base_buf (l_rn s)) < 4611686018427387904 ->
  0 <= buffer_offset (l_rn s) < 4611686018427387904 ->
  allocate_rdma_buffer size HOST_MEM s = Ret b s' ->
  phys (buffer b + k) = dma_addr b + k.
Proof.
  unfold HARDWARE_PAGE_SIZE. intros Hp Hs Hk Hal Hb Ho.
  destruct (place_spec (buffer_offset (l_rn s)) size) as (Hpl & Hpage & _); [lia..|].
  specialize (Hpage Hs). unfold allocate_rdma_buffer, mbind, M_bind, gets, modify. simpl.
  set (st := place (buffer_offset (l_rn s)) size) in *.
  set (base := buffer (base_buf (l_rn s))) in *.
  rewrite (u64_small (base + st)) by in_range.
  rewrite get_buffer_paddr_phys by (done || lia). intros [= <- _]. simpl. unfold phys.
  assert (st / 4096 = (st + k) / 4096) as Hsk.
  { apply Z.le_antisymm; [apply Z.div_le_mono; lia|]. rewrite Hpage. apply Z.div_le_mono; lia. }
  assert ((base + st + k) / 4096 = (base + st) / 4096) as ->
    by (Z.div_mod_to_equations; lia).
  assert ((base + st + k) mod 4096 = (base + st) mod 4096 + k) as ->; [|lia].
  Z.div_mod_to_equations; lia.
Qed.

(** ** The AXI bridge *)

(** The writes of one window. *)
Definition window_writes (high low i : Z) : list (Z * Z) :=
  [(AXIB_BDF_ADDR_TRANSLATE_ADDR_LSB + i * 0x20, low);
   (AXIB_BDF_ADDR_TRANSLATE_ADDR_MSB + i * 0x20, u32 (high + i * 0x20));
   (AXIB_BDF_PASID_RESERVED_ADDR + i * 0x20, 0);
   (AXIB_BDF_FUNCTION_NUM_ADDR + i * 0x20, 0);
   (AXIB_BDF_MAP_CONTROL_ADDR + i * 0x20, bdf_win_config);
   (AXIB_BDF_RESERVED_ADDR + i * 0x20, 0)].

Definition windows : list Z := [0; 1; 2; 3; 4; 5; 6; 7].

(** The state in which the library works: windows of 2^40 - 1. *)
Definition windowed (s : lib_state) : lib_state :=
  with_rn (set_win_size 0xffffffff 0xff (l_rn s)) s.

Lemma config_bridge_run s high low :
  config_rn_dev_axib_bdf high low s =
  write_all (concat (map (window_writes (Z.land high 0xffffff00) (Z.land low 0)) windows))
    (windowed s).
Proof. reflexivity. Qed.

Lemma windows_NoDup high low :
  NoDup (concat (map (window_writes high low) windows)).*1.
Proof.
  assert (forall l : list Z, bool_decide (NoDup l) = true -> NoDup l) as Hd
    by (intros l; apply bool_decide_eq_true).
  apply Hd. vm_compute. reflexivity.
Qed.

Lemma high_mask h : 0 <= h < 4294967296 -> Z.land h 0xffffff00 = h / 256 * 256.
Proof.
  intros Hh. change 0xffffff00 with (Z.shiftl (Z.ones 24) 8). rewrite land_field by lia.
  change (2 ^ 8) with 256. f_equal. apply Z.mod_small.
  split; [apply Z.div_pos; lia|]. apply Z.div_lt_upper_bound; lia.
Qed.

(** The address a host address is reduced to. *)
Lemma split_host_address rn p :
  win_size_lsb rn = 0xffffffff -> win_size_msb rn = 0xff ->
  0 <= p < 18446744073709551616 -> is_device_address p = false ->
  split_address rn p = (p mod 4294967296, p / 4294967296 mod 256).
Proof.
  intros Hl Hm Hp Hd. unfold split_address. rewrite Hd, Hl, Hm.
  change 0xffffffff with (Z.ones 32). change 0xff with (Z.ones 8).
  rewrite !Z.land_ones, Z.shiftr_div_pow2 by lia.
  change (2 ^ 32) with 4294967296. change (2 ^ 8) with 256. unfold u32. f_equal.
  - by rewrite !Z.mod_mod.
  - rewrite Z.mod_mod by done. rewrite (Z.mod_small (p / 4294967296) 4294967296); [done|].
    split; [apply Z.div_pos; lia|]. apply Z.div_lt_upper_bound; lia.
Qed.

(** C37. The bridge undoes the address reduction.  After the windows are
    configured for a physical base address, take any host address [p] in the
    same terabyte: the address [a] the RDMA engine is given for it selects one
    of the eight 128 GB windows, and the translation base written for that
    window plus the offset of [a] in it is [p] again. *)
Theorem bridge_translates_back s high low p :
  0 <= high < 4294967296 -> 0 <= p < 18446744073709551616 -> is_device_address p = false ->
  p / 1099511627776 = high / 256 ->
  exists s' lo hi, config_rn_dev_axib_bdf high low s = Ret tt s' /\
    let '(lsb, msb) := split_address (l_rn s') p in
    let a := msb * 4294967296 + lsb in
    let i := a / 137438953472 in
    0 <= i < 8 /\
    last_write (l_trace s') (AXIB_BDF_ADDR_TRANSLATE_ADDR_LSB + i * 0x20) = Some lo /\
    last_write (l_trace s') (AXIB_BDF_ADDR_TRANSLATE_ADDR_MSB + i * 0x20) = Some hi /\
    last_write (l_trace s') (AXIB_BDF_MAP_CONTROL_ADDR + i * 0x20) = Some 0xC2000000 /\
    hi * 4294967296 + lo + a mod 137438953472 = p.
Proof.
  intros Hh Hp Hd Hreg. rewrite config_bridge_run, write_all_run.
  set (ws := concat _). set (a := p mod 1099511627776).
  assert (0 <= a < 1099511627776) as Ha by (apply Z.mod_pos_bound; lia).
  assert (0 <= a / 137438953472 < 8) as Hi by (Z.div_mod_to_equations; lia).
  eexists _, 0, (high / 256 * 256 + a / 137438953472 * 32). split; [done|]. simpl.
  rewrite split_host_address by done.
  assert (p / 4294967296 mod 256 * 4294967296 + p mod 4294967296 = a) as ->
    by (subst a; Z.div_mod_to_equations; lia).
  assert (high / 256 * 256 + a / 137438953472 * 32 < 4294967296 /\ 0 <= high / 256) as [Hw H0]
    by (Z.div_mod_to_equations; lia).
  assert (forall x, x ∈ window_writes (Z.land high 0xffffff00) (Z.land low 0) (a / 137438953472) ->
            last_write (written_trace ws (l_trace (windowed s))) x.1 = Some (u32 x.2)) as Hlast.
  { intros [r v] Hx. apply written_last; [apply windows_NoDup|].
    apply list_elem_of_In, in_concat. eexists. split; [|by apply list_elem_of_In].
    apply in_map.
    unfold windows. simpl. lia. }
  split; [done|]. split_and!.
  - specialize (Hlast (AXIB_BDF_ADDR_TRANSLATE_ADDR_LSB + a / 137438953472 * 32, Z.land low 0)).
    rewrite Z.land_0_r in Hlast. apply Hlast. left.
  - pose proof (Hlast (AXIB_BDF_ADDR_TRANSLATE_ADDR_MSB + a / 137438953472 * 32,
       u32 (Z.land high 0xffffff00 + a / 137438953472 * 32))) as H1.
    simpl in H1. rewrite H1 by (right; left).
    rewrite u32_idem, high_mask by lia. f_equal. apply u32_small. in_range.
  - exact (Hlast (AXIB_BDF_MAP_CONTROL_ADDR + a / 137438953472 * 32, bdf_win_config)
             ltac:(do 4 right; left)).
  - rewrite Z.add_0_r. subst a. Z.div_mod_to_equations. lia.
Qed.

(** ** Compute commands *)

Lemma pack16_sum hi lo : is_u16 hi -> is_u16 lo -> pack16 hi lo = hi * 65536 + lo.
Proof.
  unfold is_u16. intros Hh Hl. unfold pack16.
  change 0xffff0000 with (Z.shiftl (Z.ones 16) 16). rewrite land_field by lia.
  change 0xffff with (Z.ones 16). rewrite Z.land_ones by lia.
  rewrite Z.shiftl_mul_pow2 by lia. change (2 ^ 16) with 65536.
  rewrite Z.div_mul, !Z.mod_small by lia. apply (lor_add hi lo 16); [lia|]. by change (2 ^ 16) with 65536.
Qed.

(** Issuing a generated command writes six words to the command register, in
    the order size, three base addresses, dimensions, and (column, work id);
    every 16-bit field can be read back from its word. *)
Theorem ctl_cmd_issued off a b c size row col bcol id (s : lib_state) :
  is_u32 a -> is_u32 b -> is_u32 c -> is_u32 size ->
  is_u16 row -> is_u16 col -> is_u16 bcol -> is_u16 id ->
  exists s', issue_ctl_cmd off (gen_ctl_cmd a b c size row col bcol id) s = Ret tt s' /\
    writes (l_trace s') = writes (l_trace s) ++
      [(off, size); (off, a); (off, b); (off, c);
       (off, row * 65536 + col); (off, bcol * 65536 + id)].
Proof.
  intros Ha Hb Hc Hs Hr Hcol Hbc Hid.
  exists (with_trace (written_trace [(off, size); (off, a); (off, b); (off, c);
       (off, pack16 row col); (off, pack16 bcol id)] (l_trace s)) s).
  split; [reflexivity|]. cbn [l_trace with_trace lib_has_trace].
  rewrite written_trace_writes. simpl. rewrite !pack16_sum by done.
  by rewrite !u32_small by (unfold is_u16, is_u32 in *; lia).
Qed.

Lemma repeat_push {A} (x : A) k l : repeat x k ++ x :: l = x :: repeat x k ++ l.
Proof. induction k as [|k IH]; simpl; [done|]. by rewrite IH. Qed.

(** Waiting for the computation ends with the first non-zero status, having
    read the status register and written nothing, as soon as the device reports
    one: [n] zero readings cost exactly [n + 1] reads. *)
Theorem wait_compute_ends `{MmioDevice} n off (s : lib_state) fuel :
  (forall k, (k < n)%nat ->
     u32 (mmio_value (repeat (Rd off 0) k ++ l_trace s) off) = 0) ->
  u32 (mmio_value (repeat (Rd off 0) n ++ l_trace s) off) <> 0 -> (n < fuel)%nat ->
  exists v s', wait_compute fuel off s = Ret v s' /\ v <> 0 /\
    writes (l_trace s') = writes (l_trace s) /\
    count_reads (l_trace s') = (count_reads (l_trace s) + S n)%nat.
Proof.
  revert s fuel. induction n as [|n IH]; intros s [|fuel] Hz Hnz Hf; [lia| |lia|]; simpl;
    unfold mbind, M_bind, read32_data; simpl.
  - simpl in Hnz. apply Z.eqb_neq in Hnz as E. simpl in E. rewrite E.
    eexists _, _. split; [done|]. simpl. split_and!; [done|done|lia].
  - specialize (Hz 0%nat ltac:(lia)) as H0. simpl in H0. rewrite H0, Z.eqb_refl.
    destruct (IH (log (Rd off 0) s) fuel) as (v & s' & E & Hv & Hw & Hr); simpl.
    + intros k Hk. specialize (Hz (S k) ltac:(lia)). simpl in Hz.
      by rewrite repeat_push.
    + intros Hc. apply Hnz. simpl in *. by rewrite repeat_push in Hc.
    + lia.
    + exists v, s'. split_and!; [done|done|done|]. rewrite Hr. simpl. lia.
Qed.

(** ** Time *)

Definition normalised (t : timespec) : Prop := 0 <= tv_nsec t < 1000000000.
Definition nanoseconds (t : timespec) : Z := tv_sec t * 1000000000 + tv_nsec t.

Lemma timespec_check_spec t : (timespec_check t <? 0) = false <-> normalised t.
Proof.
  unfold timespec_check, normalised. rewrite Z.geb_leb.
  destruct (Z.ltb_spec (tv_nsec t) 0), (Z.leb_spec 1000000000 (tv_nsec t)); simpl; split; lia.
Qed.

(** Subtracting two normalised times gives the normalised difference, to
    the nanosecond; a time that is not normalised leaves the result alone. *)
Theorem timespec_sub_exact t1 t2 :
  -2305843009213693952 < tv_sec t1 < 2305843009213693952 ->
  -2305843009213693952 < tv_sec t2 < 2305843009213693952 ->
  (normalised t1 -> normalised t2 ->
     normalised (timespec_sub t1 t2) /\
     nanoseconds (timespec_sub t1 t2) = nanoseconds t1 - nanoseconds t2) /\
  (~ (normalised t1 /\ normalised t2) -> timespec_sub t1 t2 = t1).
Proof.
  intros H1 H2. unfold timespec_sub. split.
  - intros N1 N2. rewrite (proj2 (timespec_check_spec t1) N1), (proj2 (timespec_check_spec t2) N2).
    unfold normalised, nanoseconds in *. rewrite !(i64_small (_ - _)) by lia.
    rewrite Z.geb_leb.
    destruct (Z.leb_spec 1000000000 (tv_nsec t1 - tv_nsec t2)); [lia|].
    destruct (Z.ltb_spec (tv_nsec t1 - tv_nsec t2) 0); simpl; [|lia].
    rewrite !i64_small by lia. lia.
  - intros Hn. destruct (timespec_check t1 <? 0) eqn:E1; [done|].
    destruct (timespec_check t2 <? 0) eqn:E2; [done|].
    apply timespec_check_spec in E1, E2. by destruct Hn.
Qed.

(** ** Witnesses *)

Definition sample_rn : rn_dev_t :=
  mk_rn 1 (mk_buff 0x7f0000000000 0x1280000000 0) 100 8000 8 0xffffffff 0xff.
Definition sample_lib : lib_state := mk_lib [] sample_rn false None [] [] ∅ [] false.

(** A page map in which page [n] is in frame [n]. *)
Definition identity_pages : PageMap :=
  {| pagemap_seek _ := true;
     pagemap_read o := Some (o / 8 mod 4503599627370496);
     getpagesize := 4096 |}.

Lemma identity_pages_known : @pages_known identity_pages.
Proof.
  split; [done|]. split; [done|]. intros o. eexists. split; [done|].
  change 0x7fffffffffffff with (Z.ones 55). rewrite Z.land_ones by lia.
  change (2 ^ 55) with 36028797018963968.
  pose proof (Z.mod_pos_bound (o / 8) 4503599627370496).
  rewrite (Z.mod_small (_ mod _)) by lia. lia.
Qed.

Lemma device_buffers_disjoint_witness :
  exists bs s', allocate_all (H := identity_pages) [512; 4096; 10000; 64] sample_lib = Ret bs s' /\
    dma_addr <$> bs = [DEVICE_MEM_OFFSET + 8192; DEVICE_MEM_OFFSET + 12288;
                       DEVICE_MEM_OFFSET + 16384; DEVICE_MEM_OFFSET + 26384] /\
    laid_out 8000 bs [512; 4096; 10000; 64].
Proof.
  eexists _, _. split; [by vm_compute|]. split; [by vm_compute|].
  refine (proj1 (@device_buffers_disjoint identity_pages _ sample_lib _ _ _ _ _));
    [repeat constructor; lia|split; vm_compute; discriminate|by vm_compute].
Defined.

Lemma host_buffer_contiguous_witness :
  exists b s', allocate_rdma_buffer (H := identity_pages) 4090 HOST_MEM sample_lib = Ret b s' /\
    @phys identity_pages (buffer b + 4000) = dma_addr b + 4000.
Proof.
  eexists _, _. split; [by vm_compute|].
  refine (@host_buffer_contiguous identity_pages sample_lib 4090 _ _ 4000 identity_pages_known
    _ _ _ _ _ _); vm_compute; try done; by split.
Defined.

Lemma bridge_translates_back_witness :
  exists s' lo hi, config_rn_dev_axib_bdf 0x112 0x80000000 sample_lib = Ret tt s' /\
    last_write (l_trace s') (AXIB_BDF_ADDR_TRANSLATE_ADDR_LSB + 5 * 0x20) = Some lo /\
    last_write (l_trace s') (AXIB_BDF_ADDR_TRANSLATE_ADDR_MSB + 5 * 0x20) = Some hi /\
    hi * 4294967296 + lo + 0x1000 = 0x1a000001000.
Proof.
  destruct (bridge_translates_back sample_lib 0x112 0x80000000 0x1a000001000)
    as (s' & lo & hi & E & H); [lia|lia|by vm_compute|by vm_compute|].
  exists s', lo, hi. split; [exact E|].
  vm_compute in E. injection E as <-. vm_compute in H.
  destruct H as (_ & H1 & H2 & _ & H3). injection H1 as <-. injection H2 as <-. by vm_compute.
Defined.

Lemma ctl_cmd_issued_witness :
  exists s', issue_ctl_cmd RN_CLR_CTL_CMD (gen_ctl_cmd 1 2 3 6 16 32 16 7) sample_lib = Ret tt s' /\
    writes (l_trace s') = [(RN_CLR_CTL_CMD, 6); (RN_CLR_CTL_CMD, 1); (RN_CLR_CTL_CMD, 2);
      (RN_CLR_CTL_CMD, 3); (RN_CLR_CTL_CMD, 1048608); (RN_CLR_CTL_CMD, 1048583)].
Proof.
  destruct (ctl_cmd_issued RN_CLR_CTL_CMD 1 2 3 6 16 32 16 7 sample_lib) as (s' & E & Hw);
    [unfold is_u32, is_u16; lia..|].
  exists s'. split; [exact E|]. rewrite Hw. by vm_compute.
Defined.

(** A device that reports a result at the fourth read. *)
Definition busy_three : MmioDevice := fun tr _ => if Nat.ltb (count_reads tr) 3 then 0 else 5.

Lemma wait_compute_ends_witness :
  exists v s', wait_compute (H0 := busy_three) 10 RN_CLR_KER_STS sample_lib = Ret v s' /\
    v <> 0 /\ count_reads (l_trace s') = 4%nat.
Proof.
  destruct (@wait_compute_ends busy_three 3 RN_CLR_KER_STS sample_lib 10)
    as (v & s' & E & Hv & _ & Hr).
  - intros [|[|[|k]]] Hk; [by vm_compute..|lia].
  - by vm_compute.
  - lia.
  - exists v, s'. split_and!; [exact E|exact Hv|exact Hr].
Defined.

Lemma timespec_sub_exact_witness :
  timespec_sub (mk_timespec 10 5) (mk_timespec 8 900000000) = mk_timespec 1 100000005 /\
  nanoseconds (timespec_sub (mk_timespec 10 5) (mk_timespec 8 900000000)) = 1100000005.
Proof.
  split; [by vm_compute|].
  destruct (timespec_sub_exact (mk_timespec 10 5) (mk_timespec 8 900000000)) as [H _];
    [simpl; lia|simpl; lia|].
  destruct H as [_ H]; [unfold normalised; simpl; lia|unfold normalised; simpl; lia|].
  rewrite H. by vm_compute.
Defined.
