(* ===== verification/RdmaProps.v ===== *)
(** * RdmaProps: correctness of the RDMA library

    Configuration of the device, memory regions and queue pairs: the registers
    that are written, with which values, and that nothing else is.  Work queue
    elements, doorbells and completions.  Recovery and destruction. *)

From S2P Require Import Prelude Mmio MemoryApi ReconicReg Reconic RdmaApi ReconicProps.
From stdpp Require Import gmap.
Local Open Scope Z_scope.

(** ** Tactics *)

(** Membership in, and absence of duplicates from, a list of constants. *)
Ltac in_list := first [left; reflexivity | right; in_list].
Ltac no_dup := apply (proj1 (bool_decide_eq_true _)); vm_compute; reflexivity.

(** Runs the monad on a state as far as it is known. *)
Ltac run := unfold mbind, M_bind, mret, M_ret, gets, modify, deref in *; simpl in *.

(** ** Register blocks *)

(** The block of registers of a queue pair. *)
Definition qp_block (id : Z) : Z := 0x60200 + 0x100 * (id - 1).
Definition in_qp_block (id a : Z) : Prop := qp_block id <= a < qp_block id + 0x100.

Definition is_qcsr (r : Z) : Prop := 0x60200 <= r < 0x60300.

Lemma q_addr r id :
  is_qcsr r -> 1 <= id < 65536 -> get_rdma_per_q_config_addr r id = r + 0x100 * (id - 1).
Proof.
  unfold is_qcsr. intros Hr Hid. unfold get_rdma_per_q_config_addr. by unwrap_ints.
Qed.

Lemma q_addr_block r id :
  is_qcsr r -> 1 <= id < 65536 -> in_qp_block id (get_rdma_per_q_config_addr r id).
Proof. intros Hr Hid. rewrite q_addr by done. unfold in_qp_block, qp_block, is_qcsr in *. lia. Qed.

Lemma qp_blocks_disjoint id id' a : in_qp_block id a -> in_qp_block id' a -> id = id'.
Proof. unfold in_qp_block, qp_block. lia. Qed.

(** A list of writes to registers of one queue pair. *)
Definition q_writes (id : Z) (l : list (Z * Z)) : list (Z * Z) :=
  map (fun '(r, v) => (get_rdma_per_q_config_addr r id, v)) l.

Section q_writes.
Implicit Types (l : list (Z * Z)) (tr : trace).

Lemma q_writes_other id l tr a :
  1 <= id < 65536 -> Forall (fun x => is_qcsr x.1) l -> ~ in_qp_block id a ->
  last_write (written_trace (q_writes id l) tr) a = last_write tr a.
Proof.
  intros Hid Hl Ha. apply written_other. intros Hin.
  apply list_elem_of_fmap in Hin as ([b v] & -> & Hin). apply list_elem_of_In, in_map_iff in Hin.
  destruct Hin as ([r w] & [= <- <-] & Hr%list_elem_of_In). apply Ha. simpl.
  apply q_addr_block; [|done]. exact (proj1 (Forall_forall _ _) Hl _ Hr).
Qed.

Lemma q_writes_last id l tr r v :
  1 <= id < 65536 -> Forall (fun x => is_qcsr x.1) l -> NoDup l.*1 -> (r, v) ∈ l ->
  last_write (written_trace (q_writes id l) tr) (get_rdma_per_q_config_addr r id) = Some (u32 v).
Proof.
  intros Hid Hl Hn Hin. apply written_last.
  - assert ((q_writes id l).*1 = (fun r => get_rdma_per_q_config_addr r id) <$> l.*1) as ->.
    { unfold q_writes. clear. induction l as [|[b w] l IH]; [done|]. simpl. f_equal. exact IH. }
    apply NoDup_fmap_2_strong; [|done]. intros x y Hx Hy Heq.
    assert (forall z, z ∈ l.*1 -> is_qcsr z) as Hq.
    { intros z ([? ?] & -> & Hz)%list_elem_of_fmap. exact (proj1 (Forall_forall _ _) Hl _ Hz). }
    rewrite !q_addr in Heq by auto. lia.
  - unfold q_writes. apply list_elem_of_In, in_map_iff. exists (r, v).
    split; [done|]. by apply list_elem_of_In.
Qed.
End q_writes.

(** ** The global configuration *)

Section global.
Context `{MmioDevice}.

(** The registers of the global configuration with their values. *)
Definition csr_writes (rn : rn_dev_t) (csr : rdma_glb_csr_t) : list (Z * Z) :=
  let data := split_address rn (data_buf_baseaddr csr) in
  let ipkt := split_address rn (ipkt_err_stat_q_baseaddr csr) in
  let errb := split_address rn (err_buf_baseaddr csr) in
  let resp := split_address rn (resp_err_pkt_buf_baseaddr csr) in
  [(RN_RDMA_GCSR_DATBUFBA, data.1); (RN_RDMA_GCSR_DATBUFBAMSB, data.2);
   (RN_RDMA_GCSR_DATBUFSZ, data_buf_size csr);
   (RN_RDMA_GCSR_IPKTERRQBA, ipkt.1); (RN_RDMA_GCSR_IPKTERRQBAMSB, ipkt.2);
   (RN_RDMA_GCSR_IPKTERRQSZ, ipkt_err_stat_q_size csr);
   (RN_RDMA_GCSR_ERRBUFBA, errb.1); (RN_RDMA_GCSR_ERRBUFBAMSB, errb.2);
   (RN_RDMA_GCSR_ERRBUFSZ, err_buf_size csr);
   (RN_RDMA_GCSR_RESPERRPKTBA, resp.1); (RN_RDMA_GCSR_RESPERRPKTBAMSB, resp.2);
   (RN_RDMA_GCSR_RESPERRSZ, u32 (Z.land (resp_err_pkt_buf_size csr) 0xffffffff));
   (RN_RDMA_GCSR_RESPERRSZMSB, u32 (Z.land (Z.shiftr (resp_err_pkt_buf_size csr) 32) 0xffffffff));
   (RN_RDMA_GCSR_INTEN, interrupt_enable csr);
   (RN_RDMA_GCSR_MACXADDLSB, mac_lsb (src_mac csr)); (RN_RDMA_GCSR_MACXADDMSB, mac_msb (src_mac csr));
   (RN_RDMA_GCSR_IPV4XADD, src_ip csr); (RN_RDMA_GCSR_XRNICCONF, xrnic_conf csr);
   (RN_RDMA_GCSR_XRNICADCONF, xrnic_advanced_conf csr)].

Lemma csr_writes_NoDup rn csr : NoDup (csr_writes rn csr).*1.
Proof. no_dup. Qed.

Lemma config_csr_run (s : lib_state) d csr :
  l_rdma s = Some d -> glb_csr d = CsrSet csr ->
  config_rdma_global_csr s = write_all (csr_writes (l_rn s) csr) s.
Proof.
  intros Hd Hcsr. unfold config_rdma_global_csr, the_dev. run. rewrite Hd, Hcsr. reflexivity.
Qed.

Lemma xrnic_conf_word_sum sport n :
  0 <= sport -> 0 <= n < 256 ->
  xrnic_conf_word sport n = sport mod 65536 * 65536 + n * 256 + 0x21.
Proof.
  intros Hs Hn. unfold xrnic_conf_word. simpl (Z.land _ 0xff).
  change 0xffff0000 with (Z.shiftl (Z.ones 16) 16). change 0xff00 with (Z.shiftl (Z.ones 8) 8).
  rewrite !land_field, !Z.shiftl_mul_pow2 by lia.
  change (2 ^ 16) with 65536. change (2 ^ 8) with 256. unfold u32.
  assert (sport * 65536 mod 4294967296 / 65536 mod 65536 = sport mod 65536) as -> by
    (Z.div_mod_to_equations; lia).
  assert (n * 256 mod 4294967296 / 256 mod 256 = n) as -> by (Z.div_mod_to_equations; lia).
  rewrite (lor_add _ (n * 256) 16) by (change (2 ^ 16) with 65536; lia).
  replace (sport mod 65536 * 2 ^ 16 + n * 256) with ((sport mod 65536 * 256 + n) * 2 ^ 8) by
    (change (2 ^ 16) with 65536; change (2 ^ 8) with 256; lia).
  rewrite (lor_add _ 0x21 8) by (change (2 ^ 8) with 256; lia).
  change (2 ^ 8) with 256. lia.
Qed.
End global.

(** Opening the RDMA device ends normally and leaves every global register
    of the engine with the value the configuration record holds for it; the
    control register has the UDP port in its upper half, the number of queue
    pairs in its second byte, and the error buffer and engine enable bits.  No
    other register is written. *)
Theorem open_rdma_dev_configures `{MmioDevice} (s : lib_state) d mac ip sport nbuf bufsz dbase
    ipsz ipbase nerr errsz ebase rsz rbase :
  l_rdma s = Some d -> glb_csr d <> CsrFreed -> 0 <= sport < 65536 -> 0 <= num_qp d < 256 ->
  exists s' csr,
    open_rdma_dev mac ip sport nbuf bufsz dbase ipsz ipbase nerr errsz ebase rsz rbase s
      = Ret tt s' /\
    (exists d', l_rdma s' = Some d' /\ glb_csr d' = CsrSet csr /\ qps_ptr d' = qps_ptr d) /\
    xrnic_conf csr = sport * 65536 + num_qp d * 256 + 0x21 /\
    (forall r v, (r, v) ∈ csr_writes (l_rn s) csr -> last_write (l_trace s') r = Some (u32 v)) /\
    (forall a, a ∉ (csr_writes (l_rn s) csr).*1 -> last_write (l_trace s') a = last_write (l_trace s) a).
Proof.
  intros Hd Hf Hsp Hq. unfold open_rdma_dev, the_dev. run. rewrite Hd. simpl.
  set (csr := mk_csr _ _ _ _ _ _ _ _ _ _ _ _ _ _ _).
  assert ((match glb_csr d with CsrFreed => None | _ => Some tt end) = Some tt) as ->
    by (by destruct (glb_csr d)).
  erewrite config_csr_run; [|reflexivity|reflexivity]. rewrite write_all_run.
  eexists _, csr. split; [reflexivity|]. split; [by eexists; split_and!|].
  split; [|split].
  - subst csr. cbn [xrnic_conf]. rewrite xrnic_conf_word_sum by lia. by rewrite Z.mod_small.
  - intros r v Hin. apply written_last; [apply csr_writes_NoDup|done].
  - intros a Ha. by apply written_other.
Qed.

(** ** Queue pairs *)

Section queue_pairs.
Context `{MmioDevice} `{PageMap}.

(** The registers of a queue pair with their values. *)
Definition qp_writes (rn : rn_dev_t) (q : rdma_qp_t) (partion_key pd : Z) : list (Z * Z) :=
  let sq_addr := split_address rn (dma_addr (sq q)) in
  let cq_addr := split_address rn (dma_addr (cq q)) in
  let rq_addr := split_address rn (dma_addr (rq q)) in
  let cq_db := split_address rn (cq_cidb_addr q) in
  let rq_db := split_address rn (rq_cidb_addr q) in
  [(RN_RDMA_QCSR_IPDESADDR1i, dst_ip q); (RN_RDMA_QCSR_MACDESADDLSBi, mac_lsb (dst_mac q));
   (RN_RDMA_QCSR_MACDESADDMSBi, mac_msb (dst_mac q));
   (RN_RDMA_QCSR_SQBAi, sq_addr.1); (RN_RDMA_QCSR_SQBAMSBi, sq_addr.2);
   (RN_RDMA_QCSR_CQBAi, cq_addr.1); (RN_RDMA_QCSR_CQBAMSBi, cq_addr.2);
   (RN_RDMA_QCSR_RQBAi, rq_addr.1); (RN_RDMA_QCSR_RQBAMSBi, rq_addr.2);
   (RN_RDMA_QCSR_CQDBADDi, cq_db.1); (RN_RDMA_QCSR_CQDBADDMSBi, cq_db.2);
   (RN_RDMA_QCSR_RQWPTRDBADDi, rq_db.1); (RN_RDMA_QCSR_RQWPTRDBADDMSBi, rq_db.2);
   (RN_RDMA_QCSR_DESTQPCONFi, dst_qpid q);
   (RN_RDMA_QCSR_QDEPTHi, Z.lor (qdepth q) (u32 (Z.shiftl (qdepth q) 16)));
   (RN_RDMA_QCSR_QPCONFi, qp_config_word); (RN_RDMA_QCSR_QPADVCONFi, qp_adv_conf_word partion_key);
   (RN_RDMA_QCSR_PDi, pd)].

Lemma qp_writes_NoDup rn q key pd : NoDup (qp_writes rn q key pd).*1.
Proof. no_dup. Qed.

Lemma qp_writes_qcsr rn q key pd : Forall (fun x => is_qcsr x.1) (qp_writes rn q key pd).
Proof. repeat constructor; by vm_compute. Qed.

Lemma configure_qp_run s rn q key o :
  mjoin (pds s !! pd_entry q) = Some o ->
  configure_qp rn q key s = write_all (q_writes (qpid q) (qp_writes rn q key (pd_num o))) s.
Proof.
  intros Hpd. unfold configure_qp, load_pd.
  change (mjoin (pds s !! pd_entry q)) with
    ((fun s => mjoin (pds s !! pd_entry q)) s) in Hpd.
  unfold mbind, M_bind, deref, write_q, write_reg, write32_data, modify. simpl. simpl in Hpd.
  rewrite Hpd. reflexivity.
Qed.

(** What a buffer allocation leaves alone. *)
Definition same_but_rn (s s' : lib_state) : Prop :=
  l_trace s' = l_trace s /\ l_rdma s' = l_rdma s /\ qps s' = qps s /\ pds s' = pds s /\
  host_mem s' = host_mem s /\ sq_transfers s' = sq_transfers s /\
  win_size_lsb (l_rn s') = win_size_lsb (l_rn s) /\ win_size_msb (l_rn s') = win_size_msb (l_rn s).

Lemma same_but_rn_trans s1 s2 s3 : same_but_rn s1 s2 -> same_but_rn s2 s3 -> same_but_rn s1 s3.
Proof. unfold same_but_rn. intuition congruence. Qed.

Lemma get_buffer_paddr_same {T} a (s : T) v s' : get_buffer_paddr a s = Ret v s' -> s' = s.
Proof.
  unfold get_buffer_paddr, get_page_frame_number_of_address. run.
  destruct (negb _); [done|]. destruct (pagemap_read _); by intros [= <- <-].
Qed.

Lemma allocate_buffer_same size loc s b s' :
  allocate_rdma_buffer size loc s = Ret b s' -> same_but_rn s s'.
Proof.
  unfold allocate_rdma_buffer. run. destruct loc; [| |done].
  - destruct (get_buffer_paddr _ _) as [v s1| | |] eqn:E; try done. intros [= <- <-].
    apply get_buffer_paddr_same in E as ->. by split_and!.
  - unfold assert. case_if; [|done]. intros [= <- <-]. by split_and!.
Qed.
End queue_pairs.

(** The registers of queue pair [id], from what its creator asks for: the buffers allocated at bus
    addresses [sq], [cq] and [rq], the places [cqdb] and [rqdb] of the doorbells of its completions and
    receptions, the pair [dst] at the other end with its addresses, the depth, the key and the
    number of the protection domain. *)
Definition asked_for (rn : rn_dev_t) (sq cq rq cqdb rqdb dst depth : Z) (dmac : mac_addr_t) (dip key pd : Z) : list (Z * Z) :=
  let place lsb msb a := [(lsb, (split_address rn a).1); (msb, (split_address rn a).2)] in
  [(RN_RDMA_QCSR_IPDESADDR1i, dip);
   (RN_RDMA_QCSR_MACDESADDLSBi, mac_lsb dmac); (RN_RDMA_QCSR_MACDESADDMSBi, mac_msb dmac)] ++
  place RN_RDMA_QCSR_SQBAi RN_RDMA_QCSR_SQBAMSBi sq ++
  place RN_RDMA_QCSR_CQBAi RN_RDMA_QCSR_CQBAMSBi cq ++
  place RN_RDMA_QCSR_RQBAi RN_RDMA_QCSR_RQBAMSBi rq ++
  place RN_RDMA_QCSR_CQDBADDi RN_RDMA_QCSR_CQDBADDMSBi cqdb ++
  place RN_RDMA_QCSR_RQWPTRDBADDi RN_RDMA_QCSR_RQWPTRDBADDMSBi rqdb ++
  [(RN_RDMA_QCSR_DESTQPCONFi, dst);
   (RN_RDMA_QCSR_QDEPTHi, Z.lor depth (u32 (Z.shiftl depth 16)));
   (RN_RDMA_QCSR_QPCONFi, qp_config_word); (RN_RDMA_QCSR_QPADVCONFi, qp_adv_conf_word key);
   (RN_RDMA_QCSR_PDi, pd)].

(** C38. Allocating queue pair [id], from 1 on.  When it returns, the three buffers have been
    allocated, in order and of the sizes the depth asks for; the object returned is a new one, with these buffers,
    the arguments and doorbell counters of zero, and is registered at index [id]; every register of
    the pair's block has its value, from the arguments and the buffers' addresses (reduced to
    the window); and no register outside that block has changed, so no other queue
    pair and no global setting is disturbed.  (Number 0 is not a block of its own, see
    [queue_pair_numbers].) *)
Theorem allocate_rdma_qp_frame `{MmioDevice} `{PageMap} (s : lib_state) id dst pd cqdb rqdb depth loc
    dmac dip key p s' :
  1 <= id < 65536 -> allocate_rdma_qp id dst pd cqdb rqdb depth loc dmac dip key s = Ret p s' ->
  exists d o sq s1 cq s2 rq s3,
    l_rdma s = Some d /\ mjoin (pds s !! pd) = Some o /\
    allocate_rdma_buffer (u32 (u32 (num_qp d * depth) * 64)) loc s = Ret sq s1 /\
    allocate_rdma_buffer (u32 (u32 (num_qp d * depth) * 4)) loc s1 = Ret cq s2 /\
    allocate_rdma_buffer (u32 (u32 (num_qp d * depth) * RQE_SIZE)) loc s2 = Ret rq s3 /\
    p = length (qps s) /\
    qps s' = qps s ++ [mk_qp id sq None 0 0 cq cqdb 0 rq rqdb 0 0 pd dst depth None dmac dip false] /\
    l_rdma s' = Some (mk_rdma (glb_csr d) (<[Z.to_nat id := Some p]> (qps_ptr d)) (axil_ctl d) (num_qp d)) /\
    id < Z.of_nat (length (qps_ptr d)) /\
    (forall r v, (r, v) ∈ asked_for (l_rn s) (dma_addr sq) (dma_addr cq) (dma_addr rq) cqdb rqdb dst depth dmac dip key (pd_num o) ->
       last_write (l_trace s') (get_rdma_per_q_config_addr r id) = Some (u32 v)) /\
    (forall a, ~ in_qp_block id a -> last_write (l_trace s') a = last_write (l_trace s) a).
Proof.
  intros Hid. unfold allocate_rdma_qp, the_dev. run.
  destruct (l_rdma s) as [d|] eqn:Ed; [|done].
  destruct (allocate_rdma_buffer _ _ s) as [sq s1| | |] eqn:E1; try done.
  destruct (allocate_rdma_buffer _ _ s1) as [cq s2| | |] eqn:E2; try done.
  destruct (allocate_rdma_buffer _ _ s2) as [rq s3| | |] eqn:E3; try done.
  pose proof (same_but_rn_trans _ _ _ (allocate_buffer_same _ _ _ _ _ E1)
    (same_but_rn_trans _ _ _ (allocate_buffer_same _ _ _ _ _ E2) (allocate_buffer_same _ _ _ _ _ E3))) as Hs.
  destruct (Z.leb_spec (Z.of_nat (length (qps_ptr d))) id) as [|Hlt]; [done|].
  destruct (axil_ctl d =? 0); [done|].
  set (q := mk_qp _ _ _ _ _ _ _ _ _ _ _ _ _ _ _ _ _ _ _).
  set (s4 := with_rdma _ _).
  destruct Hs as (Htr & _ & Hqps & Hpds & _ & _ & Hw1 & Hw2).
  destruct (mjoin (pds s !! pd)) as [o|] eqn:Ho.
  2: { unfold configure_qp, load_pd. run. by rewrite Hpds, Ho. }
  rewrite (configure_qp_run s4 _ q key o), write_all_run by (simpl; by rewrite Hpds).
  intros Heq. injection Heq as Hp Hs'.
  assert (asked_for (l_rn s) (dma_addr sq) (dma_addr cq) (dma_addr rq) cqdb rqdb dst depth dmac dip key (pd_num o) =
          qp_writes (l_rn s3) q key (pd_num o)) as Hwrites.
  { unfold asked_for, qp_writes, split_address. by rewrite Hw1, Hw2. }
  assert (l_trace s' = written_trace (q_writes id (qp_writes (l_rn s3) q key (pd_num o))) (l_trace s3)) as Htrace
    by by rewrite <- Hs'.
  exists d, o, sq, s1, cq, s2, rq, s3. rewrite Hwrites, Htrace, <- Hs', <- Hp. rewrite Hqps in *.
  split_and!; try done.
  - intros r v Hin. apply q_writes_last; [done|apply qp_writes_qcsr|apply qp_writes_NoDup|done].
  - intros a Ha. rewrite q_writes_other; [by rewrite Htr|done|apply qp_writes_qcsr|done].
Qed.

(** ** Following the pointer to a queue pair *)

(** [qps_ptr[id]] points to the object at [p], which is [q]. *)
Definition has_qp (s : lib_state) (id : Z) (p : nat) (q : rdma_qp_t) : Prop :=
  exists d, l_rdma s = Some d /\ 0 <= id /\ qps_ptr d !! Z.to_nat id = Some (Some p) /\
            qps s !! p = Some q.

Lemma has_qp_dev s id p q : has_qp s id p q -> exists d, the_dev s = Ret d s.
Proof. intros (d & Hd & _). exists d. unfold the_dev. run. by rewrite Hd. Qed.

Lemma qp_at_run s id p q : has_qp s id p q -> qp_at id s = Ret p s.
Proof.
  intros (d & Hd & Hid & Hp & _). unfold qp_at, the_dev. run. rewrite Hd.
  destruct (Z.ltb_spec id 0); [lia|]. by rewrite Hp.
Qed.

Lemma load_qp_run s id p q : has_qp s id p q -> load_qp p s = Ret q s.
Proof. intros (d & _ & _ & _ & Hq). unfold load_qp. run. by rewrite Hq. Qed.

(** Changing the object. *)
Lemma has_qp_update s id p q f :
  has_qp s id p q -> has_qp (with_qps (alter f p (qps s)) s) id p (f q).
Proof.
  intros (d & Hd & Hid & Hp & Hq). exists d. split_and!; try done. simpl.
  by rewrite list_lookup_alter_eq, Hq.
Qed.

Lemma has_qp_trace s id p q tr : has_qp s id p q -> has_qp (with_trace tr s) id p q.
Proof. done. Qed.

(** ** Work queue elements *)

Lemma store_words_lookup ws a mem k w :
  ws !! k = Some w -> store_words a ws mem !! (a + 4 * Z.of_nat k) = Some w.
Proof.
  revert a k. induction ws as [|x ws IH]; intros a [|k]; simpl; try done.
  - intros [= ->]. rewrite Z.add_0_r. apply lookup_insert_eq.
  - intros Hk. rewrite lookup_insert_ne by lia.
    replace (a + 4 * Z.of_nat (S k)) with (a + 4 + 4 * Z.of_nat k) by lia. by apply IH.
Qed.

Lemma store_words_other ws a mem b :
  ~ (a <= b < a + 4 * Z.of_nat (length ws)) -> store_words a ws mem !! b = mem !! b.
Proof.
  revert a. induction ws as [|x ws IH]; intros a Hb; simpl; [done|]. simpl in Hb.
  rewrite lookup_insert_ne by lia. apply IH. lia.
Qed.

(** The address an RDMA operation is given for a local buffer. *)
Definition reduced (a : Z) : Z := if is_device_address a then a else a mod 1099511627776.

Lemma halves a : 0 <= a < 18446744073709551616 ->
  u32 (Z.land (Z.shiftr a 32) 0xffffffff) * 4294967296 + u32 (Z.land a 0xffffffff) = a.
Proof.
  intros Ha. change 0xffffffff with (Z.ones 32). rewrite !Z.land_ones, Z.shiftr_div_pow2 by lia.
  unfold u32. change (2 ^ 32) with 4294967296. rewrite !Z.mod_mod by done.
  rewrite (Z.mod_small (a / _)); [Z.div_mod_to_equations; lia|].
  split; [apply Z.div_pos; lia|]. apply Z.div_lt_upper_bound; lia.
Qed.

Lemma upper_half a : 0 <= a < 18446744073709551616 ->
  Z.shiftr (Z.land a 0xffffffff00000000) 32 = Z.land (Z.shiftr a 32) 0xffffffff.
Proof.
  intros Ha. change 0xffffffff00000000 with (Z.shiftl (Z.ones 32) 32).
  rewrite land_field, Z.shiftr_div_pow2, Z.div_mul, <- Z.land_ones, Z.shiftr_div_pow2 by lia. done.
Qed.

Lemma split_reduced rn a :
  win_size_lsb rn = 0xffffffff -> win_size_msb rn = 0xff -> 0 <= a < 18446744073709551616 ->
  (split_address rn a).2 * 4294967296 + (split_address rn a).1 = reduced a.
Proof.
  intros Hl Hm Ha. unfold reduced. destruct (is_device_address a) eqn:E.
  - unfold split_address. rewrite E. simpl. by apply halves.
  - rewrite split_host_address by done. simpl. Z.div_mod_to_equations. lia.
Qed.

(** A work queue element for a send queue in host memory: it is stored in
    the 64 bytes of its slot and nowhere else; its address words are the local
    address as the engine sees it, its remote offset, operation, length and key
    are the arguments. *)
Theorem create_a_wqe_stores `{MmioDevice} `{PageMap} char_dev s id p q wr_id idx laddr len op roff key
    p0 p1 p2 p3 immdt :
  has_qp s id p q -> is_device_address (dma_addr (sq q)) = false ->
  win_size_lsb (l_rn s) = 0xffffffff -> win_size_msb (l_rn s) = 0xff ->
  0 <= laddr < 18446744073709551616 -> 0 <= roff < 18446744073709551616 ->
  exists s' w, create_a_wqe char_dev id wr_id idx laddr len op roff key p0 p1 p2 p3 immdt s = Ret tt s' /\
    let slot := u64 (buffer (sq q) + idx * 64) in
    (forall k v, wqe_words w !! k = Some v -> host_mem s' !! (slot + 4 * Z.of_nat k) = Some v) /\
    (forall a, ~ (slot <= a < slot + 64) -> host_mem s' !! a = host_mem s !! a) /\
    laddr_high w * 4294967296 + laddr_low w = reduced laddr /\
    remote_offset_high w * 4294967296 + remote_offset_low w = roff /\
    wrid w = wr_id /\ opcode w = op mod 256 /\ length_ w = len /\ r_key w = key.
Proof.
  intros Hqp Hdev Hl Hm Ha Hr. unfold create_a_wqe.
  destruct (has_qp_dev _ _ _ _ Hqp) as [d Hd].
  rewrite (bind_Ret _ _ _ _ _ Hd), (bind_Ret _ _ _ (l_rn s) s) by done.
  rewrite (bind_Ret _ _ _ _ _ (qp_at_run _ _ _ _ Hqp)).
  rewrite (bind_Ret _ _ _ _ _ (load_qp_run _ _ _ _ Hqp)). rewrite Hdev.
  set (w := compose_wqe _ _ _ _ _ _ _ _ _ _ _ _). unfold WQE_SIZE.
  eexists _, w. split; [reflexivity|]. cbv zeta. cbn [host_mem with_mem].
  split; [intros k v; apply store_words_lookup|].
  split; [intros a Hna; by apply store_words_other|].
  subst w. unfold compose_wqe. cbn [laddr_high laddr_low remote_offset_high remote_offset_low
    wrid opcode length_ r_key].
  split; [by apply split_reduced|]. split; [by rewrite upper_half, halves by done|].
  split; [done|]. split; [|done]. exact (Z.land_ones op 8 ltac:(lia)).
Qed.

(** ** Reading only *)

(** [s'] is [s] after [k] reads and no write. *)
Definition only_reads (k : nat) (s s' : lib_state) : Prop :=
  exists tr, s' = with_trace (tr ++ l_trace s) s /\ writes tr = [] /\ count_reads tr = k.

Lemma count_reads_app tr tr' : count_reads (tr ++ tr') = (count_reads tr + count_reads tr')%nat.
Proof. induction tr as [|[] tr IH]; simpl; lia. Qed.

Lemma only_reads_refl s : only_reads 0 s s.
Proof. exists []. by destruct s. Qed.

Lemma only_reads_trans j k s1 s2 s3 :
  only_reads j s1 s2 -> only_reads k s2 s3 -> only_reads (k + j) s1 s3.
Proof.
  intros (t1 & -> & W1 & R1) (t2 & -> & W2 & R2). exists (t2 ++ t1). split_and!.
  - simpl. by rewrite app_assoc.
  - by rewrite writes_app, W1, W2.
  - rewrite count_reads_app. lia.
Qed.

Lemma only_reads_qp k s s' id p q : only_reads k s s' -> has_qp s id p q -> has_qp s' id p q.
Proof. intros (tr & -> & _) Hq. by apply has_qp_trace. Qed.

Lemma only_reads_writes k s s' : only_reads k s s' -> writes (l_trace s') = writes (l_trace s).
Proof. intros (tr & -> & W & _). simpl. by rewrite writes_app, W, app_nil_r. Qed.

Section polling.
Context `{MmioDevice}.

Lemma read_reg_run a s :
  read_reg a s = Ret (u32 (mmio_value (l_trace s) a)) (log (Rd a (u32 (mmio_value (l_trace s) a))) s).
Proof. done. Qed.

Lemma read_reg_only a v s : only_reads 1 s (log (Rd a v) s).
Proof. by exists [Rd a v]. Qed.

Lemma reads_only l s : exists s', for_each l (fun r => read32_ignored r) s = Ret tt s' /\
  only_reads (length l) s s'.
Proof.
  revert s. induction l as [|r l IH]; intros s; [exists s; split; [done|apply only_reads_refl]|].
  destruct (IH (log (Rd r (u32 (mmio_value (l_trace s) r))) s)) as (s' & E & Ho).
  exists s'. split; [exact E|]. simpl. rewrite <- Nat.add_1_r.
  exact (only_reads_trans _ _ _ _ _ (read_reg_only _ _ _) Ho).
Qed.

Lemma for_each_map {A B} (f : A -> B) (l : list A) (body : B -> M lib_state unit) s :
  for_each l (fun x => body (f x)) s = for_each (map f l) body s.
Proof.
  revert s. induction l as [|x l IH]; intros s; [done|]. simpl. unfold mbind, M_bind.
  by destruct (body (f x) s).
Qed.

Lemma dump_registers_only sender id s : exists k s',
  dump_registers sender id s = Ret tt s' /\ only_reads k s s' /\ (k <= 49)%nat.
Proof.
  unfold dump_registers. destruct (reads_only dumped_gcsr s) as (s1 & E1 & O1).
  destruct (reads_only (map (fun r => get_rdma_per_q_config_addr r id) dumped_qcsr) s1)
    as (s2 & E2 & O2).
  rewrite (bind_Ret _ _ _ _ _ E1).
  rewrite (bind_Ret _ _ s1 tt s2) by (by rewrite (for_each_map (fun r => _))).
  pose proof (only_reads_trans _ _ _ _ _ O1 O2) as O. destruct sender.
  - eexists _, _. split; [reflexivity|]. split.
    + exact (only_reads_trans _ _ _ _ _ O (read_reg_only _ _ _)).
    + rewrite length_map. simpl. lia.
  - exists (length (map (fun r => get_rdma_per_q_config_addr r id) dumped_qcsr) + length dumped_gcsr)%nat, s2.
    split; [done|]. split; [done|]. rewrite length_map. simpl. lia.
Qed.

Lemma poll_cq_from_spec n id sqc c s : exists v timeout k s',
  poll_cq_from n id sqc c s = Ret (v, timeout) s' /\ only_reads k s s' /\
  (timeout = false -> v <> sqc /\ (k <= n)%nat) /\ (timeout = true -> k = S n).
Proof.
  revert c s. induction n as [|n IH]; intros c s; simpl; destruct (Z.eqb_spec c sqc) as [->|].
  - eexists _, true, 1%nat, _. split; [reflexivity|]. split; [apply read_reg_only|by split].
  - exists c, false, 0%nat, s. split; [done|]. split; [apply only_reads_refl|by split; [split; [|lia]|]].
  - unfold read_q. rewrite (bind_Ret _ _ _ _ _ (read_reg_run _ _)).
    set (s1 := log _ s).
    destruct (IH (i32 (u32 (mmio_value (l_trace s) (get_rdma_per_q_config_addr RN_RDMA_QCSR_CQHEADi id)))) s1)
      as (v & t & k & s' & E & O & Hf & Ht).
    exists v, t, (k + 1)%nat, s'. split; [exact E|].
    split; [exact (only_reads_trans _ _ _ _ _ (read_reg_only _ _ _) O)|].
    split; [intros Hx; destruct (Hf Hx); split; [done|lia]|intros Hx; specialize (Ht Hx); lia].
  - exists c, false, 0%nat, s. split; [done|]. split; [apply only_reads_refl|by split; [split; [|lia]|]].
Qed.

Lemma poll_cq_spec id sqc s d : l_rdma s = Some d -> exists v k s',
  poll_cq_cidb id sqc s = Ret v s' /\ only_reads k s s' /\
  (v <> sqc /\ (k <= 1001)%nat \/ v = -1 /\ (1002 <= k <= 1051)%nat).
Proof.
  intros Hd. unfold poll_cq_cidb, read_q.
  rewrite (bind_Ret _ _ s d s) by (unfold the_dev; run; by rewrite Hd).
  rewrite (bind_Ret _ _ _ _ _ (read_reg_run _ _)).
  destruct (poll_cq_from_spec (Z.to_nat TIMEOUT_THRESHOLD) id sqc
    (i32 (u32 (mmio_value (l_trace s) (get_rdma_per_q_config_addr RN_RDMA_QCSR_CQHEADi id))))
    (log (Rd (get_rdma_per_q_config_addr RN_RDMA_QCSR_CQHEADi id)
      (u32 (mmio_value (l_trace s) (get_rdma_per_q_config_addr RN_RDMA_QCSR_CQHEADi id)))) s))
    as (v & t & k & s1 & E & O & Hf & Ht).
  rewrite (bind_Ret _ _ _ _ _ E). cbn [fst snd].
  pose proof (only_reads_trans _ _ _ _ _ (read_reg_only _ _ _) O) as O1.
  change (Z.to_nat TIMEOUT_THRESHOLD) with 1000%nat in *. destruct t; cbv iota.
  - destruct (dump_registers_only true id s1) as (k' & s2 & E2 & O2 & Hk).
    rewrite (bind_Ret _ _ _ _ _ E2). eexists _, _, s2. split; [reflexivity|].
    split; [exact (only_reads_trans _ _ _ _ _ O1 O2)|]. right. specialize (Ht eq_refl). lia.
  - eexists _, _, s1. split; [reflexivity|]. split; [exact O1|]. left. destruct (Hf eq_refl).
    split; [done|lia].
Qed.
End polling.

(** Polling for a completion always ends, after at most 1,051 register reads
    and no write: with an index different from the one given, or, after 1,001
    fruitless rounds and a register dump, with -1. *)
Theorem poll_cq_cidb_bounded `{MmioDevice} id sqc s :
  is_Some (l_rdma s) -> exists v k s',
  poll_cq_cidb id sqc s = Ret v s' /\ only_reads k s s' /\ (k <= 1051)%nat /\
  (v <> sqc \/ v = -1 /\ (1002 <= k)%nat).
Proof.
  intros [d Hd]. destruct (poll_cq_spec id sqc s d Hd) as (v & k & s' & E & O & Hv).
  exists v, k, s'. split; [done|]. split; [done|]. intuition lia.
Qed.

(** ** Posting work *)

(** A queue pair whose doorbells are in the range of a positive [int]. *)
Definition doorbell (v : Z) : Prop := 0 <= v < 2147483647.

Section posting.
Context `{MmioDevice}.

Lemma load_qp_read k s s' id p q : only_reads k s s' -> has_qp s id p q -> load_qp p s' = Ret q s'.
Proof. intros O Hq. exact (load_qp_run _ _ _ _ (only_reads_qp _ _ _ _ _ _ O Hq)). Qed.

(** The state after a doorbell was written and a completion polled for. *)
Lemma ring_and_poll s id p q v :
  has_qp s id p q ->
  exists c k s1, (write_q RN_RDMA_QCSR_SQPIi id v;; poll_cq_cidb id (sq_cidb q)) s = Ret c s1 /\
    only_reads k (log (Wr (get_rdma_per_q_config_addr RN_RDMA_QCSR_SQPIi id) (u32 v)) s) s1 /\
    (c <> sq_cidb q \/ c = -1).
Proof.
  intros (d & Hd & _). unfold write_q, write_reg, write32_data.
  rewrite (bind_Ret _ _ s tt (log (Wr (get_rdma_per_q_config_addr RN_RDMA_QCSR_SQPIi id) (u32 v)) s))
    by done.
  set (s0 := log _ s).
  destruct (poll_cq_spec id (sq_cidb q) s0 d Hd) as (c & k & s1 & E & O & Hc).
  exists c, k, s1. split; [done|]. split; [done|]. intuition lia.
Qed.
End posting.

(** Posting one work request always returns: it rings the doorbell of the
    queue pair with the next producer index, exactly one register write, moves
    the producer and the consumer index on by one, touches no other field and no
    other queue pair, and returns -1 exactly when the completion index it stores
    is negative. *)
Theorem rdma_post_send_effect `{MmioDevice} s id p q :
  has_qp s id p q -> doorbell (sq_pidb q) -> doorbell (sq_cidb q) ->
  exists rv c s', rdma_post_send id s = Ret rv s' /\
    writes (l_trace s') = writes (l_trace s) ++
      [(get_rdma_per_q_config_addr RN_RDMA_QCSR_SQPIi id, sq_pidb q + 1)] /\
    qps s' = <[p := set_doorbells (sq_pidb q + 1) (sq_cidb q + 1) c (rq_cidb q) (rq_pidb q) q]> (qps s) /\
    (c <> sq_cidb q \/ c = -1) /\
    (rv = -1 /\ c < 0 \/ rv = 0 /\ 0 <= c).
Proof.
  unfold doorbell. intros Hq Hp Hc. unfold rdma_post_send.
  rewrite (bind_Ret _ _ s (l_rdma s) s) by done.
  destruct (Hq) as (d & Hd & _ & _ & Hqq). rewrite Hd.
  rewrite (bind_Ret _ _ _ _ _ (qp_at_run _ _ _ _ Hq)), (bind_Ret _ _ _ _ _ (load_qp_run _ _ _ _ Hq)).
  rewrite i32_small by in_range. cbv zeta.
  pose proof (has_qp_update _ _ _ _ (set_sq_pidb (sq_pidb q + 1)) Hq) as Hq1.
  rewrite (bind_Ret _ _ s tt (with_qps (alter (set_sq_pidb (sq_pidb q + 1)) p (qps s)) s)) by done.
  destruct (ring_and_poll _ id p _ (u32 (sq_pidb q + 1)) Hq1) as (c & k & s1 & E & O & Hne).
  rewrite <- (bind_assoc (write_q _ _ _)).
  cbn [sq_cidb set_sq_pidb set_doorbells] in E, Hne.
  rewrite (bind_Ret _ _ _ _ _ E).
  exists (if c <? 0 then -1 else 0), c, (with_qps (alter (fun q => set_sq_cidb (i32 (sq_cidb q + 1))
    (set_cq_cidb c q)) p (qps s1)) s1).
  split; [done|]. destruct O as (tr & -> & W & _). split_and!.
  - cbn. rewrite writes_app, W, app_nil_r. cbn. by rewrite u32_idem, u32_small by in_range.
  - cbn. rewrite (alter_as_insert _ (qps s) p q Hqq).
    erewrite alter_as_insert; [|apply list_lookup_insert_eq; by eapply lookup_lt_Some].
    rewrite list_insert_insert_eq. unfold set_sq_cidb, set_cq_cidb, set_sq_pidb. cbn.
    by rewrite i32_small by in_range.
  - done.
  - destruct (Z.ltb_spec c 0); [left|right]; by split.
Qed.

Section batch.
Context `{MmioDevice}.

Lemma has_qp_reads_update k s s1 id p q f :
  only_reads k s s1 -> has_qp s id p q -> has_qp (with_qps (alter f p (qps s1)) s1) id p (f q).
Proof. intros O Hq. apply has_qp_update. by apply (only_reads_qp _ _ _ _ _ _ O). Qed.

(** When the loop ends, the completion index has reached the producer index. *)
Lemma batch_loop_done fuel s id p q s' :
  has_qp s id p q -> batch_loop fuel p id s = Ret tt s' ->
  exists q', has_qp s' id p q' /\ sq_pidb q' = sq_pidb q /\ sq_pidb q' <= cq_cidb q'.
Proof.
  revert s q. induction fuel as [|fuel IH]; intros s q Hq; cbn [batch_loop];
    rewrite (bind_Ret _ _ _ _ _ (load_qp_run _ _ _ _ Hq));
    destruct (Z.ltb_spec (cq_cidb q) (sq_pidb q)) as [Hlt|Hge]; try done;
    try (intros [= <-]; exists q; by split_and!).
  destruct Hq as (d & Hd & Hrest).
  destruct (poll_cq_spec id (sq_cidb q) s d Hd) as (c & k & s1 & E & O & _).
  rewrite (bind_Ret _ _ _ _ _ E). intros Hloop.
  apply (IH (with_qps (alter (fun q => set_sq_cidb c (set_cq_cidb c q)) p (qps s1)) s1)
           (set_sq_cidb c (set_cq_cidb c q))); [|exact Hloop].
  apply (has_qp_reads_update _ _ _ _ _ _ (fun q => set_sq_cidb c (set_cq_cidb c q)) O).
  by exists d.
Qed.
End batch.

(** A batch that returns has completed: the result is 0 and the completion
    index has reached the producer index.  In particular the function never
    returns the -1 its header documents for a failure. *)
Theorem batch_send_never_fails `{MmioDevice} fuel s id p q n rv s' :
  has_qp s id p q -> qdepth q < 2147483648 -> 0 <= n ->
  rdma_post_batch_send fuel id n s = Ret rv s' ->
  rv = 0 /\ exists q', has_qp s' id p q' /\ sq_pidb q' <= cq_cidb q' /\
    0 <= sq_pidb q' <= qdepth q.
Proof.
  intros Hq Hdep Hn. unfold rdma_post_batch_send. rewrite (bind_Ret _ _ s (l_rdma s) s) by done.
  destruct (Hq) as (d & Hd & _ & _ & Hqq). rewrite Hd.
  rewrite (bind_Ret _ _ _ _ _ (qp_at_run _ _ _ _ Hq)), (bind_Ret _ _ _ _ _ (load_qp_run _ _ _ _ Hq)).
  cbv zeta. set (pidb := i32 _).
  rewrite (bind_Ret _ _ s tt (with_qps (alter (set_sq_pidb pidb) p (qps s)) s)) by done.
  pose proof (has_qp_update _ _ _ _ (set_sq_pidb pidb) Hq) as Hq1.
  destruct (Z.ltb_spec (qdepth q) n); [done|]. rewrite Z.gtb_ltb.
  destruct (Z.ltb_spec (qdepth q) (u32 pidb)) as [|Hle]; [done|]. cbn [orb].
  assert (0 <= pidb <= qdepth q) as Hpi.
  { pose proof (i32_range (u32 (sq_pidb q) + n)) as Hr. fold pidb in Hr.
    unfold is_i32 in Hr. unfold u32 in Hle. Z.div_mod_to_equations. lia. }
  rewrite (bind_Ret _ _ _ tt (log (Wr (get_rdma_per_q_config_addr RN_RDMA_QCSR_SQPIi id)
    (u32 (u32 pidb))) (with_qps (alter (set_sq_pidb pidb) p (qps s)) s))) by done.
  set (s1 := log _ _).
  destruct (batch_loop fuel p id s1) as [[] s2| | |] eqn:El; unfold mbind at 1, M_bind at 1;
    rewrite El; try done.
  destruct (batch_loop_done fuel s1 id p (set_sq_pidb pidb q) s2) as (q' & Hq' & Hpq & Hle');
    [exact Hq1|exact El|].
  rewrite (bind_Ret _ _ _ _ _ (load_qp_run _ _ _ _ Hq')). intros [= <- <-].
  cbn in Hpq. destruct (Z.ltb_spec (cq_cidb q') 0); [lia|].
  split; [done|]. exists q'. split; [done|]. lia.
Qed.

(** ** A device that makes no progress *)

(** Every register always reads 0. *)
Definition stuck_device : MmioDevice := fun _ _ => 0.

Lemma stuck_poll_from n id s :
  exists s', @poll_cq_from stuck_device n id 0 0 s = Ret (0, true) s' /\ only_reads (S n) s s'.
Proof.
  revert s. induction n as [|n IH]; intros s.
  - eexists. split; [reflexivity|]. apply read_reg_only.
  - cbn [poll_cq_from]. rewrite Z.eqb_refl. unfold read_q.
    rewrite (bind_Ret _ _ _ _ _ (@read_reg_run stuck_device _ _)).
    change (i32 (u32 (@mmio_value stuck_device _ _))) with 0.
    destruct (IH (log (Rd (get_rdma_per_q_config_addr RN_RDMA_QCSR_CQHEADi id)
      (u32 (@mmio_value stuck_device (l_trace s)
        (get_rdma_per_q_config_addr RN_RDMA_QCSR_CQHEADi id)))) s)) as (s' & E & O).
    exists s'. split; [exact E|]. replace (S (S n)) with (S n + 1)%nat by lia.
    exact (only_reads_trans _ _ _ _ _ (read_reg_only _ _ _) O).
Qed.

(** A poll turns the index 0 into -1, and -1 into 0. *)
Lemma stuck_poll id c s d :
  l_rdma s = Some d -> c = 0 \/ c = -1 ->
  exists k s', @poll_cq_cidb stuck_device id c s = Ret (-1 - c) s' /\ only_reads k s s'.
Proof.
  intros Hd Hc. unfold poll_cq_cidb, read_q.
  rewrite (bind_Ret _ _ s d s) by (unfold the_dev; run; by rewrite Hd).
  rewrite (bind_Ret _ _ _ _ _ (@read_reg_run stuck_device _ _)).
  change (i32 (u32 (@mmio_value stuck_device _ _))) with 0. set (s1 := log _ s).
  assert (only_reads 1 s s1) as O1 by apply read_reg_only.
  destruct Hc as [-> | ->].
  - destruct (stuck_poll_from (Z.to_nat TIMEOUT_THRESHOLD) id s1) as (s2 & E & O2).
    rewrite (bind_Ret _ _ _ _ _ E). cbn [fst snd]. cbv iota.
    destruct (@dump_registers_only stuck_device true id s2) as (k & s3 & E3 & O3 & _).
    rewrite (bind_Ret _ _ _ _ _ E3). eexists _, s3. split; [reflexivity|].
    exact (only_reads_trans _ _ _ _ _ (only_reads_trans _ _ _ _ _ O1 O2) O3).
  - exists 1%nat, s1. split; [|done].
    assert (forall n, @poll_cq_from stuck_device n id (-1) 0 s1 = Ret (0, false) s1) as E
      by (by intros []).
    by rewrite (bind_Ret _ _ _ _ _ (E _)).
Qed.

Lemma stuck_loop fuel s id p q :
  has_qp s id p q -> 0 < sq_pidb q -> cq_cidb q <= 0 -> sq_cidb q = 0 \/ sq_cidb q = -1 ->
  exists s', @batch_loop stuck_device fuel p id s = Hang s'.
Proof.
  revert s q. induction fuel as [|fuel IH]; intros s q Hq Hp Hc Hs; cbn [batch_loop];
    rewrite (bind_Ret _ _ _ _ _ (load_qp_run _ _ _ _ Hq));
    destruct (Z.ltb_spec (cq_cidb q) (sq_pidb q)); try lia; [by eexists|].
  destruct (Hq) as (d & Hd & _).
  destruct (stuck_poll id (sq_cidb q) s d Hd Hs) as (k & s1 & E & O).
  rewrite (bind_Ret _ _ _ _ _ E).
  rewrite (bind_Ret _ _ s1 tt (with_qps (alter (fun q0 => set_sq_cidb (-1 - sq_cidb q)
      (set_cq_cidb (-1 - sq_cidb q) q0)) p (qps s1)) s1)) by done.
  apply (IH _ (set_sq_cidb (-1 - sq_cidb q) (set_cq_cidb (-1 - sq_cidb q) q)));
    [|cbn; lia..].
  by apply (has_qp_reads_update _ _ _ _ _ _ (fun q0 => set_sq_cidb (-1 - sq_cidb q)
      (set_cq_cidb (-1 - sq_cidb q) q0)) O).
Qed.

(** When the card never completes the work (the completion index stays at
    zero), posting a batch never returns, whatever fuel it is given: the timeout
    of the poll only makes the loop start over. *)
Theorem batch_send_stuck fuel s id p q n :
  has_qp s id p q -> sq_pidb q = 0 -> sq_cidb q = 0 -> cq_cidb q = 0 ->
  0 < n <= qdepth q -> qdepth q < 2147483648 ->
  exists s', @rdma_post_batch_send stuck_device fuel id n s = Hang s'.
Proof.
  intros Hq Hp Hs Hc Hn Hd. unfold rdma_post_batch_send. rewrite (bind_Ret _ _ s (l_rdma s) s) by done.
  destruct (Hq) as (d & Hd' & _). rewrite Hd'.
  rewrite (bind_Ret _ _ _ _ _ (qp_at_run _ _ _ _ Hq)), (bind_Ret _ _ _ _ _ (load_qp_run _ _ _ _ Hq)).
  cbv zeta. rewrite Hp, (u32_small 0), Z.add_0_l, i32_small by in_range.
  rewrite (bind_Ret _ _ s tt (with_qps (alter (set_sq_pidb n) p (qps s)) s)) by done.
  rewrite u32_small, Z.gtb_ltb by in_range.
  destruct (Z.ltb_spec (qdepth q) n); [lia|]. cbn [orb].
  pose proof (has_qp_update _ _ _ _ (set_sq_pidb n) Hq) as Hq1.
  set (s0 := with_qps _ s) in *.
  rewrite (bind_Ret _ _ s0 tt (log (Wr (get_rdma_per_q_config_addr RN_RDMA_QCSR_SQPIi id) (u32 n)) s0))
    by done.
  destruct (stuck_loop fuel (log (Wr (get_rdma_per_q_config_addr RN_RDMA_QCSR_SQPIi id) (u32 n)) s0)
    id p (set_sq_pidb n q)) as (s' & E); [exact Hq1|cbn; lia|cbn; lia|cbn; lia|].
  exists s'. unfold mbind, M_bind. by rewrite E.
Qed.

(** ** Receiving *)

Section receiving.
Context `{MmioDevice}.

Lemma poll_rq_from_spec fuel id old v s r s' :
  poll_rq_from fuel id old v s = Ret r s' -> r <> old /\ exists k, only_reads k s s'.
Proof.
  revert v s. induction fuel as [|fuel IH]; intros v s; cbn [poll_rq_from];
    destruct (Z.eqb_spec v old); try done;
    try (intros [= <- <-]; split; [done|]; exists 0%nat; apply only_reads_refl).
  unfold read_q. rewrite (bind_Ret _ _ _ _ _ (read_reg_run _ _)). intros [Hr [k O]]%IH.
  split; [done|]. exists (k + 1)%nat.
  exact (only_reads_trans _ _ _ _ _ (read_reg_only _ _ _) O).
Qed.

Lemma poll_rq_pidb_spec fuel s id p q v s' :
  has_qp s id p q -> poll_rq_pidb fuel id s = Ret v s' ->
  v <> rq_pidb q /\ writes (l_trace s') = writes (l_trace s) /\ has_qp s' id p (set_rq_pidb v q).
Proof.
  intros Hq. unfold poll_rq_pidb, read_q.
  rewrite (bind_Ret _ _ _ _ _ (qp_at_run _ _ _ _ Hq)), (bind_Ret _ _ _ _ _ (load_qp_run _ _ _ _ Hq)).
  rewrite (bind_Ret _ _ _ _ _ (read_reg_run _ _)).
  set (x := u32 _). set (s1 := log _ s). rewrite (bind_Ret _ _ s1 (debug_env s) s1) by done.
  assert (exists k s2, (if debug_env s then dump_registers false id else mret tt) s1 = Ret tt s2 /\
            only_reads k s1 s2) as (k & s2 & E2 & O2).
  { destruct (debug_env s); [|exists 0%nat, s1; split; [done|apply only_reads_refl]].
    destruct (dump_registers_only false id s1) as (k & s2 & E & O & _). exists k, s2. split; [exact E|exact O]. }
  rewrite (bind_Ret _ _ _ _ _ E2).
  destruct (poll_rq_from fuel id (rq_pidb q) (i32 x) s2) as [r s3| | |] eqn:E3;
    unfold mbind at 1, M_bind at 1; rewrite E3; try done.
  apply poll_rq_from_spec in E3 as [Hr [k3 O3]].
  pose proof (only_reads_trans _ _ _ _ _ (only_reads_trans _ _ _ _ _ (read_reg_only _ _ s) O2) O3) as O.
  intros [= <- <-]. split; [done|]. split; [exact (only_reads_writes _ _ _ O)|].
  exact (has_qp_reads_update _ _ _ _ _ _ (set_rq_pidb r) O Hq).
Qed.
End receiving.

(** A received entry lies in the receive queue: when the hardware reports a
    new producer index within the queue depth, the pointer returned is the slot
    before that index, the last slot for index 0, and the whole slot is inside
    the queue's buffer.  Nothing is written to the card. *)
Theorem post_receive_in_ring `{MmioDevice} fuel s p q a s' :
  has_qp s (qpid q) p q -> 0 < qdepth q <= 4194303 -> 0 <= buffer (rq q) ->
  buffer (rq q) + qdepth q * 512 < 18446744073709551616 ->
  rdma_post_receive fuel (Some p) s = Ret (Some a) s' ->
  exists v, has_qp s' (qpid q) p (set_rq_pidb v q) /\ v <> rq_pidb q /\
    writes (l_trace s') = writes (l_trace s) /\
    (0 <= v <= qdepth q ->
       a = buffer (rq q) + (v - 1) mod qdepth q * 512 /\
       buffer (rq q) <= a /\ a + 512 <= buffer (rq q) + qdepth q * 512).
Proof.
  intros Hq Hd Hb Hb'. unfold rdma_post_receive. rewrite (bind_Ret _ _ s (l_rdma s) s) by done.
  destruct (Hq) as (d & Hdev & _). rewrite Hdev.
  rewrite (bind_Ret _ _ _ _ _ (load_qp_run _ _ _ _ Hq)).
  destruct (poll_rq_pidb fuel (qpid q) s) as [v s1| | |] eqn:E;
    unfold mbind at 1, M_bind at 1; rewrite E; try done.
  destruct (poll_rq_pidb_spec _ _ _ _ _ _ _ Hq E) as (Hv & Hw & Hq').
  destruct (Z.eqb_spec v (-1)); [done|]. unfold RQE_SIZE.
  destruct (Z.eqb_spec v 0) as [->|Hv0]; intros [= <- <-]; exists v || exists 0;
    (split; [done|]; split; [done|]; split; [done|]; intros Hr).
  - rewrite (u32_small (qdepth q - 1)), u32_small, u64_small by in_range.
    assert ((0 - 1) mod qdepth q = qdepth q - 1) as ->.
    { symmetry. apply (Z.mod_unique_pos _ _ (-1)); lia. }
    lia.
  - rewrite (i32_small (v - 1)), i32_small, (u64_small ((v - 1) * 512)), u64_small by in_range.
    rewrite Z.mod_small by lia. lia.
Qed.

(** ** Recovery and destruction *)

(** The value a register reads in a state. *)
Definition reg `{MmioDevice} (s : lib_state) (a : Z) : Z := u32 (mmio_value (l_trace s) a).

(** The state after reading a register. *)
Definition after_read `{MmioDevice} (a : Z) (s : lib_state) : lib_state := log (Rd a (reg s a)) s.

(** Recovery of a queue pair whose send queues are seen empty and whose
    indices agree ends normally and makes exactly two writes, both to its
    control register: first bit 0 (enable) cleared, then bit 6 (under recovery)
    set, in the values the register reads.  One of the two bits of [STATQPi] is
    enough for the send queues to count as empty. *)
Theorem fatal_recovery_writes `{MmioDevice} fuel s id :
  let a r := get_rdma_per_q_config_addr r id in
  let s1 := after_read (a RN_RDMA_QCSR_STATQPi) s in
  is_Some (l_rdma s) -> (0 < fuel)%nat ->
  Z.land (Z.shiftr (reg s (a RN_RDMA_QCSR_STATQPi)) 9) 0x3 <> 0 ->
  reg s1 (a RN_RDMA_QCSR_CQHEADi) =
    reg (after_read (a RN_RDMA_QCSR_CQHEADi) s1) (a RN_RDMA_QCSR_SQPIi) ->
  exists v1 v2 s', rdma_qp_fatal_recovery fuel id s = Ret tt s' /\
    writes (l_trace s') = writes (l_trace s) ++
      [(a RN_RDMA_QCSR_QPCONFi, u32 (Z.ldiff v1 1)); (a RN_RDMA_QCSR_QPCONFi, u32 (Z.lor v2 64))] /\
    qps s' = qps s /\ l_rdma s' = l_rdma s.
Proof.
  intros a s1 [d Hd] Hf Hst Hheads. destruct fuel as [|fuel]; [lia|].
  unfold rdma_qp_fatal_recovery. rewrite (bind_Ret _ _ s d s) by (unfold the_dev; run; by rewrite Hd).
  assert (wait_sq_empty (S fuel) id s = Ret tt s1) as E1.
  { unfold wait_sq_empty, read_q. cbn [while_loop]. rewrite bind_assoc.
    rewrite (bind_Ret _ _ _ _ _ (read_reg_run _ _)).
    change (u32 (mmio_value (l_trace s) (get_rdma_per_q_config_addr RN_RDMA_QCSR_STATQPi id)))
      with (reg s (a RN_RDMA_QCSR_STATQPi)).
    unfold mbind, M_bind, mret, M_ret.
    by rewrite (proj2 (Z.eqb_neq _ _) Hst). }
  rewrite (bind_Ret _ _ _ _ _ E1).
  set (s2 := after_read (a RN_RDMA_QCSR_SQPIi) (after_read (a RN_RDMA_QCSR_CQHEADi) s1)).
  assert (forall n, wait_heads n id s1 = Ret tt s2) as E2.
  { intros n. assert (forall x y : Z, x = y -> (x =? y) = true) as Heq by (by intros ?? ->; apply Z.eqb_refl).
    destruct n; cbn [wait_heads]; unfold read_q;
      rewrite (bind_Ret _ _ _ _ _ (read_reg_run _ _)), (bind_Ret _ _ _ _ _ (read_reg_run _ _));
      match goal with |- (if ?t then _ else _) _ = _ => assert (t = true) as -> by (apply Heq, Hheads) end;
      reflexivity. }
  rewrite (bind_Ret _ _ _ _ _ (E2 _)).
  eexists _, _, _. split; [reflexivity|]. cbn. rewrite !u32_idem, <- !app_assoc. by split_and!.
Qed.

Lemma reset_run `{MmioDevice} s id :
  for_each reset_registers (fun r => write_q r id 0) s =
  write_all (q_writes id (map (fun r => (r, 0)) reset_registers)) s.
Proof. reflexivity. Qed.

(** [s'] is [s] after the writes [ws] and some reads. *)
Definition extends (ws : list (Z * Z)) (s s' : lib_state) : Prop :=
  (exists tr, s' = with_trace tr s) /\ writes (l_trace s') = writes (l_trace s) ++ ws.

Section extends.
Implicit Types (s : lib_state).

Lemma extends_refl s : extends [] s s.
Proof. split; [exists (l_trace s); by destruct s|]. by rewrite app_nil_r. Qed.

Lemma extends_read ws s s' a v : extends ws s s' -> extends ws s (log (Rd a v) s').
Proof. intros [[tr ->] Hw]. split; [by eexists|done]. Qed.

Lemma extends_write ws s s' a v : extends ws s s' -> extends (ws ++ [(a, v)]) s (log (Wr a v) s').
Proof.
  intros [[tr ->] Hw]. split; [by eexists|]. cbn in *. by rewrite Hw, app_assoc.
Qed.

Lemma extends_all ws s s' l :
  extends ws s s' ->
  extends (ws ++ map (fun '(a, v) => (a, u32 v)) l) s
    (with_trace (written_trace l (l_trace s')) s').
Proof.
  intros [[tr ->] Hw]. split; [by eexists|]. cbn [l_trace with_trace lib_has_trace] in *.
  by rewrite written_trace_writes, Hw, app_assoc.
Qed.
End extends.

(** Steps over a read or a write, keeping track of the writes in [He]; the value
    read becomes a variable. *)
Tactic Notation "step_read" ident(He) "as" ident(s') ident(v') :=
  rewrite (bind_Ret _ _ _ _ _ (read_reg_run _ _));
  match goal with |- context [log (Rd ?a ?v) ?s] =>
    apply (extends_read _ _ _ a v) in He;
    set (s' := log (Rd a v) s) in *; clearbody s'; set (v' := v) in *; clearbody v'
  end.

Tactic Notation "step_write" ident(He) "as" ident(s') :=
  match goal with |- context [(write_reg ?a ?v ≫= _) ?s] =>
    rewrite (bind_Ret (write_reg a v) _ s tt (log (Wr a (u32 v)) s)) by reflexivity;
    apply (extends_write _ _ _ a (u32 v)) in He;
    set (s' := log (Wr a (u32 v)) s) in *; clearbody s'
  end.

(** Destroying a queue pair that is at rest (status clean, completion head
    equal to the producer index) ends normally and performs this sequence of
    writes and no other: the software override of the engine is enabled, the
    queue pair disabled, its nine doorbell and state registers cleared, the
    recovery bit set, and the override disabled again.  Its buffers and its
    protection domain are freed, and other objects are left alone. *)
Theorem destroy_qp_sequence `{MmioDevice} fuel s p q o :
  let a r := get_rdma_per_q_config_addr r (qpid q) in
  let s1 := after_read (a RN_RDMA_QCSR_STATQPi) s in
  qps s !! p = Some q -> buffers_freed q = false -> mjoin (pds s !! pd_entry q) = Some o ->
  statqp_clean (reg s (a RN_RDMA_QCSR_STATQPi)) = true ->
  reg s1 (a RN_RDMA_QCSR_CQHEADi) =
    reg (after_read (a RN_RDMA_QCSR_CQHEADi) s1) (a RN_RDMA_QCSR_SQPIi) ->
  exists v1 v2 v3 v4 s', destroy_rdma_qp fuel (Some p) s = Ret 0 s' /\
    writes (l_trace s') = writes (l_trace s) ++
      [(RN_RDMA_GCSR_XRNICADCONF, u32 (Z.lor v1 1));
       (a RN_RDMA_QCSR_QPCONFi, u32 (Z.land v2 0xfffffffe))] ++
      map (fun r => (a r, 0)) reset_registers ++
      [(a RN_RDMA_QCSR_QPCONFi, u32 (Z.lor v3 0x40));
       (RN_RDMA_GCSR_XRNICADCONF, u32 (Z.land v4 0xfffffffe))] /\
    qps s' = <[p := set_freed q]> (qps s) /\ pds s' = <[pd_entry q := None]> (pds s) /\
    l_rdma s' = l_rdma s.
Proof.
  intros a s1 Hq Hf Hpd Hclean Hheads. unfold destroy_rdma_qp.
  rewrite (bind_Ret _ _ s q s) by (unfold load_qp; run; by rewrite Hq). cbv zeta.
  unfold read_q, write_q at 1 3. rewrite (bind_Ret _ _ _ _ _ (read_reg_run _ _)).
  change (u32 (mmio_value (l_trace s) (get_rdma_per_q_config_addr RN_RDMA_QCSR_STATQPi (qpid q))))
    with (reg s (a RN_RDMA_QCSR_STATQPi)).
  rewrite Hclean. cbn [negb]. rewrite (bind_Ret _ _ s1 tt s1) by done.
  rewrite (bind_Ret _ _ _ _ _ (read_reg_run _ _)), (bind_Ret _ _ _ _ _ (read_reg_run _ _)).
  set (s2 := log _ (log _ s1)).
  match goal with |- context [negb ?t] => assert (t = true) as -> by apply Z.eqb_eq, Hheads end.
  cbn [negb]. rewrite (bind_Ret _ _ s2 tt s2) by done.
  assert (extends [] s s2) as He by (repeat apply extends_read; apply extends_refl).
  clearbody s2. clear Hclean Hheads s1.
  step_read He as s3 v1. step_write He as s4. step_read He as s5 v2. step_write He as s6.
  rewrite (bind_Ret _ _ s6 tt (with_trace (written_trace (q_writes (qpid q)
    (map (fun r => (r, 0)) reset_registers)) (l_trace s6)) s6)) by (rewrite reset_run; exact (write_all_run (S := lib_state) _ s6)).
  apply (extends_all _ _ _ (q_writes (qpid q) (map (fun r => (r, 0)) reset_registers))) in He.
  set (s7 := with_trace _ s6) in *. clearbody s7.
  step_read He as s8 v3. step_read He as s9 v0. step_write He as s10. step_read He as s11 v5.
  step_read He as s12 v4. step_write He as s13. step_read He as s14 v6.
  destruct He as [[tr ->] Hw].
  eexists v1, v2, v3, v4, _. split; [|split].
  { rewrite Hf. unfold update_qp, destroy_rdma_pd_entry, load_pd. run. rewrite Hpd. reflexivity. }
  { etransitivity; [exact Hw|]. rewrite <- !app_assoc. reflexivity. }
  cbn. by rewrite (alter_as_insert _ _ _ _ Hq).
Qed.

(** ** Memory regions *)

(** Registering a buffer as a memory region fills the entry of the
    protection domain: virtual address, DMA address as the engine sees it, key,
    length, and access rights.  Exactly the seven registers of the entry are
    written. *)
Theorem memory_region_registered `{MmioDevice} s p key b o d :
  l_rdma s = Some d -> axil_ctl d <> 0 -> mjoin (pds s !! p) = Some o ->
  0 <= pd_num o < 512 -> 0 <= buffer b < 18446744073709551616 -> is_u32 (buf_size b) -> is_u32 key ->
  is_u16 (pd_access_type o) ->
  exists s' o' lsb msb, rdma_register_memory_region (Some p) key (Some b) s = Ret tt s' /\
    split_address (l_rn s) (dma_addr b) = (lsb, msb) /\
    pds s' !! p = Some (Some o') /\ mr_buffer o' = Some b /\ pd_num o' = pd_num o /\
    virtual_addr_msb o' * 4294967296 + virtual_addr_lsb o' = buffer b /\
    writes (l_trace s') = writes (l_trace s) ++
      map (fun '(r, v) => (r + 0x100 * pd_num o, v))
        [(RN_RDMA_PDT_VIRTADDRLSB, virtual_addr_lsb o'); (RN_RDMA_PDT_VIRTADDRMSB, virtual_addr_msb o');
         (RN_RDMA_PDT_BUFBASEADDRLSB, u32 lsb); (RN_RDMA_PDT_BUFBASEADDRMSB, u32 msb);
         (RN_RDMA_PDT_BUFRKEY, key); (RN_RDMA_PDT_WRRDBUFLEN, buf_size b);
         (RN_RDMA_PDT_ACCESSDESC, pd_access_type o)].
Proof.
  intros Hd Hax Ho Hn Hb Hsz Hkey Hacc. unfold rdma_register_memory_region.
  rewrite (bind_Ret _ _ s d s) by (unfold the_dev; run; by rewrite Hd).
  rewrite (bind_Ret _ _ s (l_rn s) s) by done.
  rewrite (bind_Ret _ _ s o s) by (unfold load_pd; run; by rewrite Ho). cbv zeta.
  destruct (split_address (l_rn s) (dma_addr b)) as [lsb msb] eqn:Es. cbn [fst snd].
  assert (u16 (u32 (Z.land (Z.shiftr (buf_size b) 32) 0xffffffff)) = 0) as ->.
  { rewrite Z.shiftr_div_pow2, Z.div_small by (done || lia). done. }
  assert (u32 (Z.land (buf_size b) 0xffffffff) = buf_size b) as Hlen.
  { change 0xffffffff with (Z.ones 32). rewrite Z.land_ones by lia.
    rewrite Z.mod_small by done. by apply u32_small. }
  rewrite Hlen. set (o' := mk_pd _ _ _ _ _ _ _ _ _ _).
  rewrite (bind_Ret _ _ s tt (with_pds (<[p := Some o']> (pds s)) s)) by done.
  rewrite (proj2 (Z.eqb_neq _ _) Hax).
  set (s1 := with_pds _ s).
  assert (forall r, 0 <= r < 0x60000 -> get_rdma_pd_config_addr r (pd_num o') = r + 0x100 * pd_num o)
    as Ha by (intros r Hr; unfold get_rdma_pd_config_addr; cbn; by unwrap_ints).
  assert (extends [] s1 s1) as He by apply extends_refl.
  step_write He as s2. step_write He as s3. step_write He as s4. step_write He as s5.
  step_write He as s6. step_write He as s7.
  eexists _, o', lsb, msb. split; [reflexivity|]. split; [done|].
  apply (extends_write _ _ _ (get_rdma_pd_config_addr RN_RDMA_PDT_ACCESSDESC (pd_num o'))
    (u32 (Z.lor (u32 (Z.shiftl (buffer_size_msb o') 16)) (pd_access_type o')))) in He.
  unfold write_reg, write32_data, modify. cbv beta.
  set (s8 := log _ s7) in *. clearbody s8. destruct He as [[tr ->] Hw].
  split; [apply list_lookup_insert_eq; destruct (pds s !! p) eqn:Ep; [by eapply lookup_lt_Some|done]|].
  split; [done|]. split; [done|]. split; [by apply halves|].
  etransitivity; [exact Hw|]. rewrite <- !app_assoc, !Ha by (vm_compute; split; discriminate || done).
  assert (forall x, is_u32 (Z.land x 0xffffffff)) as Hmask.
  { intros x. change 0xffffffff with (Z.ones 32). rewrite Z.land_ones by lia. apply u32_range. }
  f_equal. cbn [app map virtual_addr_lsb virtual_addr_msb dma_addr_lsb dma_addr_msb
    buffer_size_lsb buffer_size_msb pd_access_type o'].
  repeat f_equal; try (rewrite ?u32_idem; apply u32_small; (apply Hmask || done)).
  change (u32 (Z.shiftl 0 16)) with 0. rewrite Z.lor_0_l. apply u32_small.
  unfold is_u16, is_u32 in *. lia.
Qed.

(** ** Two queue pairs of one protection domain *)

(** A card at rest: the send queues are empty, everything else reads as
    written. *)
Definition resting_card : MmioDevice :=
  regfile (fun a => if (a - RN_RDMA_QCSR_STATQPi) mod 0x100 =? 0 then 0x600 else 0).

Definition no_char_dev (n : nat) : CharDevice := obliging.

(** A device with one protection domain used by queue pairs 1 and 2. *)
Definition shared_domain : M lib_state Z :=
  create_rdma_dev;;
  @open_rdma_dev (mk_mac 1 2) 3 17 4 5 6 7 8 9 10 11 12 13;;
  pd ← allocate_rdma_pd 0;
  q1 ← @allocate_rdma_qp identity_pages 1 1 pd 0 0 64 HOST_MEM (mk_mac 1 2) 3 4;
  q2 ← @allocate_rdma_qp identity_pages 2 2 pd 0 0 64 HOST_MEM (mk_mac 1 2) 3 4;
  @destroy_rdma_dev resting_card 10.

(** A protection domain used by two queue pairs is freed twice when the
    device is destroyed: each queue pair frees the entry it points to. *)
Theorem shared_domain_freed_twice :
  match shared_domain sample_lib with
  | Crash s => mjoin (pds s !! 0%nat) = None
  | _ => False
  end.
Proof. vm_compute. reflexivity. Qed.

(** One queue pair, of number [id], on the device of eight. *)
Definition one_queue (id : Z) : M lib_state nat :=
  create_rdma_dev;;
  @open_rdma_dev (mk_mac 1 2) 3 17 4 5 6 7 8 9 10 11 12 13;;
  pd ← allocate_rdma_pd 0;
  @allocate_rdma_qp identity_pages id 1 pd 0 0 64 HOST_MEM (mk_mac 1 2) 3 4.

(** Queue pair numbers count from 1 in the register map but index the pointer
    array from 0: number 0 is accepted and its control word overwrites a global
    counter of the engine, while number 8 of 8 uses a pointer outside the
    array. *)
Theorem queue_pair_numbers :
  (exists s, one_queue 0 sample_lib = Ret 0%nat s /\
     last_write (l_trace s) RN_RDMA_GCSR_INSRRPKTCNT = Some qp_config_word) /\
  (exists s, one_queue 8 sample_lib = Crash s).
Proof. split; eexists; [split|]; vm_compute; reflexivity. Qed.

(** ** Witnesses *)

Definition sample_queue : lib_state := end_state (one_queue 2 sample_lib).
Definition sample_qp : rdma_qp_t :=
  default (mk_qp 0 (mk_buff 0 0 0) None 0 0 (mk_buff 0 0 0) 0 0 (mk_buff 0 0 0) 0 0 0 0 0 0 None
             (mk_mac 0 0) 0 false) (qps sample_queue !! 0%nat).

Lemma sample_has_qp : has_qp sample_queue 2 0 sample_qp.
Proof. eexists. split; [vm_compute; reflexivity|]. split; [lia|]. by vm_compute. Qed.

Lemma open_rdma_dev_configures_witness :
  exists s' csr,
    @open_rdma_dev (mk_mac 1 2) 3 17 4 5 6 7 8 9 10 11 12 13 (end_state (create_rdma_dev sample_lib))
      = Ret tt s' /\
    xrnic_conf csr = 17 * 65536 + 8 * 256 + 33 /\
    last_write (l_trace s') RN_RDMA_GCSR_XRNICCONF = Some (u32 (xrnic_conf csr)).
Proof.
  destruct (@open_rdma_dev_configures resting_card (end_state (create_rdma_dev sample_lib))
    (mk_rdma CsrUninit (replicate 8 None) 1 8) (mk_mac 1 2) 3 17 4 5 6 7 8 9 10 11 12 13)
    as (s' & csr & E & _ & Hx & Hr & _); [by vm_compute|done|lia|simpl; lia|].
  exists s', csr. split; [exact E|]. split; [exact Hx|]. apply Hr. unfold csr_writes. in_list.
Defined.

Lemma allocate_rdma_qp_frame_witness :
  exists p s' q, one_queue 2 sample_lib = Ret p s' /\ qps s' !! p = Some q /\ qpid q = 2 /\
    last_write (l_trace s') (get_rdma_per_q_config_addr RN_RDMA_QCSR_IPDESADDR1i 2) = Some 3 /\
    last_write (l_trace s') RN_RDMA_GCSR_XRNICCONF =
    last_write (l_trace (end_state ((create_rdma_dev;;
      @open_rdma_dev (mk_mac 1 2) 3 17 4 5 6 7 8 9 10 11 12 13;; allocate_rdma_pd 0) sample_lib)))
      RN_RDMA_GCSR_XRNICCONF.
Proof.
  destruct (@allocate_rdma_qp_frame resting_card identity_pages
    (end_state ((create_rdma_dev;;
      @open_rdma_dev (mk_mac 1 2) 3 17 4 5 6 7 8 9 10 11 12 13;; allocate_rdma_pd 0) sample_lib))
    2 1 0 0 0 64 HOST_MEM (mk_mac 1 2) 3 4 0%nat sample_queue)
    as (d & o & sq & s1 & cq & s2 & rq & s3 & _ & _ & _ & _ & _ & Hp & Hq & _ & _ & Hr & Hf);
    [lia|by vm_compute|].
  eexists 0%nat, sample_queue, _. split; [by vm_compute|]. split; [rewrite Hq; reflexivity|]. split; [reflexivity|]. split.
  - apply (Hr RN_RDMA_QCSR_IPDESADDR1i 3). unfold asked_for. in_list.
  - apply Hf. unfold in_qp_block, qp_block, RN_RDMA_GCSR_XRNICCONF. lia.
Defined.

Lemma create_a_wqe_stores_witness :
  exists s' w, @create_a_wqe no_char_dev 2 7 3 0x12345678 100 4 0x9000000010 5 0 0 0 0 0 sample_queue
      = Ret tt s' /\
    host_mem s' !! (u64 (buffer (sq sample_qp) + 3 * 64) + 4 * Z.of_nat 3) = Some 100 /\
    remote_offset_high w * 4294967296 + remote_offset_low w = 0x9000000010.
Proof.
  destruct (@create_a_wqe_stores resting_card identity_pages no_char_dev sample_queue 2 0 sample_qp
    7 3 0x12345678 100 4 0x9000000010 5 0 0 0 0 0 sample_has_qp)
    as (s' & w & E & Hm & _ & _ & Hr & _ & _ & Hl & _);
    [by vm_compute|by vm_compute|by vm_compute|lia|lia|].
  exists s', w. split; [exact E|]. split; [|exact Hr].
  apply Hm. simpl. by rewrite Hl.
Defined.

Lemma poll_cq_cidb_bounded_witness :
  exists v k s', @poll_cq_cidb resting_card 2 0 sample_queue = Ret v s' /\ (k <= 1051)%nat /\
    only_reads k sample_queue s'.
Proof.
  destruct (@poll_cq_cidb_bounded resting_card 2 0 sample_queue) as (v & k & s' & E & O & Hk & _).
  - eexists. vm_compute. reflexivity.
  - exists v, k, s'. split; [exact E|]. split; [exact Hk|exact O].
Defined.

Lemma rdma_post_send_effect_witness :
  exists rv c s', @rdma_post_send resting_card 2 sample_queue = Ret rv s' /\
    qps s' = [set_doorbells 1 1 c 0 0 sample_qp] /\ (rv = -1 /\ c < 0 \/ rv = 0 /\ 0 <= c).
Proof.
  destruct (@rdma_post_send_effect resting_card sample_queue 2 0 sample_qp sample_has_qp)
    as (rv & c & s' & E & _ & Hq & _ & Hr);
    [unfold doorbell; by vm_compute|unfold doorbell; by vm_compute|].
  exists rv, c, s'. split; [exact E|]. split; [|exact Hr]. exact Hq.
Defined.

(** A card that completes everything at once: the completion head is the
    producer index. *)
Definition eager_card : MmioDevice := fun tr a =>
  default 0 (last_write tr (if (a - RN_RDMA_QCSR_CQHEADi) mod 0x100 =? 0 then a + 8 else a)).

Lemma batch_send_never_fails_witness :
  exists s', @rdma_post_batch_send eager_card 5 2 10 sample_queue = Ret 0 s' /\
    exists q', has_qp s' 2 0 q' /\ sq_pidb q' <= cq_cidb q'.
Proof.
  eexists. split; [vm_compute; reflexivity|].
  destruct (@batch_send_never_fails eager_card 5 sample_queue 2 0 sample_qp 10 0 _ sample_has_qp
    ltac:(by vm_compute) ltac:(lia) ltac:(vm_compute; reflexivity)) as (_ & q' & Hq & Hle & _).
  exists q'. split; [exact Hq|exact Hle].
Defined.

Lemma batch_send_stuck_witness :
  exists s', @rdma_post_batch_send stuck_device 3 2 10 sample_queue = Hang s'.
Proof.
  apply (batch_send_stuck 3 sample_queue 2 0 sample_qp 10 sample_has_qp); by vm_compute.
Defined.

(** A card that has received three requests. *)
Definition third_request : MmioDevice := fun tr a =>
  if (a - RN_RDMA_QCSR_STATRQPIDBi) mod 0x100 =? 0 then 3 else 0.

Lemma post_receive_in_ring_witness :
  exists a s' v, @rdma_post_receive third_request 5 (Some 0%nat) sample_queue = Ret (Some a) s' /\
    has_qp s' 2 0 (set_rq_pidb v sample_qp) /\ v <> 0.
Proof.
  eexists _, _, _. split; [vm_compute; reflexivity|].
  destruct (@post_receive_in_ring third_request 5 sample_queue 0 sample_qp
    (buffer (rq sample_qp) + 1024) (end_state (@rdma_post_receive third_request 5 (Some 0%nat) sample_queue)))
    as (v & Hq & Hv & _ & _);
    [exact sample_has_qp|by vm_compute|by vm_compute|by vm_compute|by vm_compute|].
  assert (v = 3) as ->.
  { destruct Hq as (d & _ & _ & _ & Hq). vm_compute in Hq. by injection Hq. }
  split; [exact Hq|exact Hv].
Defined.

Lemma fatal_recovery_writes_witness :
  exists v1 v2 s', @rdma_qp_fatal_recovery resting_card 1 2 sample_queue = Ret tt s' /\
    writes (l_trace s') = writes (l_trace sample_queue) ++
      [(0x60300, u32 (Z.ldiff v1 1)); (0x60300, u32 (Z.lor v2 64))].
Proof.
  destruct (@fatal_recovery_writes resting_card 1 sample_queue 2) as (v1 & v2 & s' & E & Hw & _);
    [eexists; vm_compute; reflexivity|lia|by vm_compute|by vm_compute|].
  exists v1, v2, s'. split; [exact E|exact Hw].
Defined.

Lemma destroy_qp_sequence_witness :
  exists s', @destroy_rdma_qp resting_card 1 (Some 0%nat) sample_queue = Ret 0 s' /\
    qps s' = [set_freed sample_qp] /\ pds s' = [None].
Proof.
  destruct (@destroy_qp_sequence resting_card 1 sample_queue 0 sample_qp
    (mk_pd 0 0 0 0 0 0 0 0 2 None)) as (v1 & v2 & v3 & v4 & s' & E & _ & Hq & Hp & _);
    [by vm_compute..|].
  exists s'. split; [exact E|]. split; [exact Hq|exact Hp].
Defined.

Lemma memory_region_registered_witness :
  exists s' o', rdma_register_memory_region (Some 0%nat) 99 (Some (mk_buff 0x7f0000001000 0x1234567000 8192))
      sample_queue = Ret tt s' /\
    pds s' !! 0%nat = Some (Some o') /\
    virtual_addr_msb o' * 4294967296 + virtual_addr_lsb o' = 0x7f0000001000.
Proof.
  destruct (@memory_region_registered resting_card sample_queue 0 99
    (mk_buff 0x7f0000001000 0x1234567000 8192) (mk_pd 0 0 0 0 0 0 0 0 2 None)
    (default (mk_rdma CsrUninit [] 0 0) (l_rdma sample_queue)))
    as (s' & o' & lsb & msb & E & _ & Ho & _ & _ & Hv & _);
    [by vm_compute|by vm_compute|by vm_compute|simpl; lia|simpl; lia|unfold is_u32; simpl; lia
    |unfold is_u32; lia|unfold is_u16; simpl; lia|].
  exists s', o'. split; [exact E|]. split; [exact Ho|exact Hv].
Defined.
