(* ===== verification/DrvData.v ===== *)
(** * DrvData: the data of the driver's queue interface ([libqdma_export.h], [qdma_descq.h], [xdev.h])

    [struct qdma_queue_conf] is a C object, laid out as the x86-64 ABI lays it out; the device
    and the queues are records of what the functions of the interface use.  The calls that go
    through the table of access functions are values, as for the mailbox (MboxPf), whose
    calls they include. *)

From S2P Require Import Prelude QdmaErrors Mmio CLayout Contexts CsrProps.
From S2P Require MboxPf Descq.
Import Descq(Q_H2C, Q_C2H, Q_CMPT, q_state_t(..), qdma_drv_mode(..)).
#[export] Existing Instances Descq.q_state_eq_dec Descq.drv_mode_eq_dec MboxPf.hw_call_eq_dec.
Local Open Scope Z_scope.

(** ** The configuration of a queue *)

(** [struct qdma_queue_conf], of 120 bytes. *)
Module queue_conf.
Definition qidx := mk_field 0 24.
Definition st := bits_at 3 0 1.
Definition q_type := bits_at 3 1 2.
Definition pipe := bits_at 3 3 1.
Definition irq_en := bits_at 3 4 1.
Definition desc_rng_sz_idx := bits_at 4 0 4.
Definition wb_status_en := bits_at 4 4 1.
Definition cmpl_status_acc_en := bits_at 4 5 1.
Definition cmpl_status_pend_chk := bits_at 4 6 1.
Definition desc_bypass := bits_at 4 7 1.
Definition pfetch_en := bits_at 5 0 1.
Definition fetch_credit := bits_at 5 1 1.
Definition st_pkt_mode := bits_at 5 2 1.
Definition c2h_buf_sz_idx := bits_at 5 3 4.
Definition cmpl_rng_sz_idx := bits_at 6 0 4.
Definition cmpl_desc_sz := bits_at 6 4 2.
Definition cmpl_stat_en := bits_at 6 6 1.
Definition cmpl_udd_en := bits_at 6 7 1.
Definition cmpl_timer_idx := bits_at 7 0 4.
Definition cmpl_cnt_th_idx := bits_at 7 4 4.
Definition cmpl_trig_mode := bits_at 8 0 3.
Definition cmpl_en_intr := bits_at 8 3 1.
Definition sw_desc_sz := bits_at 8 4 2.
Definition pfetch_bypass := bits_at 8 6 1.
Definition cmpl_ovf_chk_dis := bits_at 8 7 1.
Definition port_id := bits_at 9 0 3.
Definition at_ := bits_at 9 3 1.
Definition adaptive_rx := bits_at 9 4 1.
Definition latency_optimize := bits_at 9 5 1.
Definition init_pidx_dis := bits_at 9 6 1.
Definition mm_channel := bits_at 9 7 1.
Definition quld := bytes_at 16 8.
Definition pidx_acc := bits_at 24 0 8.
Definition fp_descq_isr_top := bytes_at 32 8.
Definition fp_descq_c2h_packet := bytes_at 40 8.
Definition fp_bypass_desc_fill := bytes_at 48 8.
Definition fp_proc_ul_cmpt_entry := bytes_at 56 8.
Definition name := bytes_at 64 32.
Definition rngsz := bytes_at 96 4.
Definition rngsz_cmpt := bytes_at 100 4.
Definition c2h_bufsz := bytes_at 104 4.
Definition ping_pong_en := bits_at 108 0 1.
Definition aperture_size := bytes_at 112 4.
End queue_conf.

Definition QDMA_QUEUE_IDX_INVALID : Z := 65535.
Definition QDMA_QUEUE_NAME_MAXLEN : nat := 32.

(** [enum desc_sz_t], [enum cmpt_desc_sz_t], [enum tigger_mode_t] *)
Definition DESC_SZ_8B : Z := 0.
Definition DESC_SZ_16B : Z := 1.
Definition DESC_SZ_32B : Z := 2.
Definition DESC_SZ_64B : Z := 3.
Definition CMPT_DESC_SZ_64B : Z := 3.
Definition TRIG_MODE_COMBO : Z := 5.

(** A flag that is an integer in C. *)
Definition flag (f : cfield) (m : Z) : bool := negb (fld f m =? 0).

(** The two kinds of queue with a completion ring of their own, ... *)
Definition st_c2h (st : bool) (q_type : Z) : bool := st && (q_type =? Q_C2H).
Definition mm_cmpt (st : bool) (q_type : Z) : bool := negb st && (q_type =? Q_CMPT).
(** ... for which completion contexts are set up. *)
Definition has_cmpt_ring (st : bool) (q_type : Z) : bool := st_c2h st q_type || mm_cmpt st q_type.

Definition is_st (c : Z) : bool := flag queue_conf.st c.
Definition type_of (c : Z) : Z := fld queue_conf.q_type c.
Definition conf_st_c2h (c : Z) : bool := st_c2h (is_st c) (type_of c).
Definition conf_has_cmpt (c : Z) : bool := has_cmpt_ring (is_st c) (type_of c).

(** ** Devices *)

(** [struct intr_coal_conf] *)
Record intr_coal_conf := mk_coal {
  vec_id : Z;
  intr_rng_num_entries : Z;
  intr_ring_bus : Z;
  coal_color : Z }.

(** [struct global_csr_conf]; [wb_intvl] is the writeback interval. *)
Record global_csr_conf := mk_csr {
  ring_sz : list Z;
  c2h_timer_cnt : list Z;
  c2h_cnt_th : list Z;
  c2h_buf_sz : list Z;
  wb_intvl : Z }.

(** What the device has been found to be, and how it is configured
    ([struct xlnx_dma_dev], [struct qdma_dev_conf]): [ip_type] selects the access library. *)
Record xlnx_dma_dev := mk_xdev {
  ip_type : library;
  vivado_release : Z;
  dma_device_index : Z;
  func_id : Z;
  dev_cap : Z;  (* [struct qdma_dev_attributes] *)
  drv_mode : qdma_drv_mode;
  master_pf : bool;
  intr_rngsz : Z;
  data_msix_qvec_max : Z;
  qsets_base : Z;
  qsets_max : Z;
  bdf : Z;
  num_vecs : Z;
  dvec_start_idx : Z;
  intr_coal_list : list intr_coal_conf }.

(** [get_intr_ring_index]: unsigned arithmetic, converted to [int]. *)
Definition QDMA_NUM_DATA_VEC_FOR_INTR_CXT : nat := 1.

Definition get_intr_ring_index (x : xlnx_dma_dev) (vector_index : Z) : Z :=
  i32 (u32 (vector_index - dvec_start_idx x) + func_id x * Z.of_nat QDMA_NUM_DATA_VEC_FOR_INTR_CXT).

(** The modes in which interrupts go through rings. *)
Definition intr_rings (m : qdma_drv_mode) : bool :=
  bool_decide (m = INDIRECT_INTR_MODE) || bool_decide (m = AUTO_MODE).

(** ** Queues *)

(** A request that waits in a queue; [req_id] stands for its address, [fp_done] tells whether
    it has a callback. *)
Record drv_request := mk_drv_request { req_id : nat; fp_done : bool }.

(** [struct qdma_descq], as far as its life cycle goes: the rings are known by their
    addresses. *)
Record qdma_descq := mk_descq {
  conf : Z;  (* [struct qdma_queue_conf] *)
  channel : Z;
  q_state : q_state_t;
  qidx_hw : Z;
  q_hndl : Z;
  cpu_assigned : bool;
  intr_work_cpu : Z;
  cmplthp : option nat;  (* the thread that polls the queue, by its number *)
  intr_id : Z;
  work_list : list drv_request;
  work_req_pend : Z;
  pend_list : list drv_request;
  pend_list_empty : bool;
  q_stop_wait : bool;
  avail : Z;
  pidx : Z;
  cidx : Z;
  credit : Z;
  desc : Z;  (* an address, 0 for [NULL] *)
  desc_bus : Z;
  desc_list : Z;  (* likewise *)
  cmpt_entry_len : Z;
  color : Z;
  pidx_cmpt : Z;
  cidx_cmpt : Z;
  total_cmpl_descs : Z;
  desc_cmpt : Z;
  desc_cmpt_bus : Z;
  pidx_info : Z;  (* [struct qdma_q_pidx_reg_info] *)
  cmpt_cidx_info : Z;  (* [struct qdma_q_cmpt_cidx_reg_info] *)
  c2h_pend_pkt_moving_avg : Z;
  c2h_pend_pkt_avg_thr_hi : Z;
  c2h_pend_pkt_avg_thr_lo : Z;
  sorted_c2h_cntr_idx : Z }.

Definition set_conf (v : Z) (d : qdma_descq) : qdma_descq :=
  mk_descq v (channel d) (q_state d) (qidx_hw d) (q_hndl d) (cpu_assigned d) (intr_work_cpu d)
    (cmplthp d) (intr_id d) (work_list d) (work_req_pend d) (pend_list d) (pend_list_empty d)
    (q_stop_wait d) (avail d) (pidx d) (cidx d) (credit d) (desc d) (desc_bus d) (desc_list d)
    (cmpt_entry_len d) (color d) (pidx_cmpt d) (cidx_cmpt d) (total_cmpl_descs d) (desc_cmpt d)
    (desc_cmpt_bus d) (pidx_info d) (cmpt_cidx_info d) (c2h_pend_pkt_moving_avg d)
    (c2h_pend_pkt_avg_thr_hi d) (c2h_pend_pkt_avg_thr_lo d) (sorted_c2h_cntr_idx d).
Definition set_channel (v : Z) (d : qdma_descq) : qdma_descq :=
  mk_descq (conf d) v (q_state d) (qidx_hw d) (q_hndl d) (cpu_assigned d) (intr_work_cpu d) (cmplthp
    d) (intr_id d) (work_list d) (work_req_pend d) (pend_list d) (pend_list_empty d) (q_stop_wait d)
    (avail d) (pidx d) (cidx d) (credit d) (desc d) (desc_bus d) (desc_list d) (cmpt_entry_len d)
    (color d) (pidx_cmpt d) (cidx_cmpt d) (total_cmpl_descs d) (desc_cmpt d) (desc_cmpt_bus d)
    (pidx_info d) (cmpt_cidx_info d) (c2h_pend_pkt_moving_avg d) (c2h_pend_pkt_avg_thr_hi d)
    (c2h_pend_pkt_avg_thr_lo d) (sorted_c2h_cntr_idx d).
Definition set_q_state (v : q_state_t) (d : qdma_descq) : qdma_descq :=
  mk_descq (conf d) (channel d) v (qidx_hw d) (q_hndl d) (cpu_assigned d) (intr_work_cpu d) (cmplthp
    d) (intr_id d) (work_list d) (work_req_pend d) (pend_list d) (pend_list_empty d) (q_stop_wait d)
    (avail d) (pidx d) (cidx d) (credit d) (desc d) (desc_bus d) (desc_list d) (cmpt_entry_len d)
    (color d) (pidx_cmpt d) (cidx_cmpt d) (total_cmpl_descs d) (desc_cmpt d) (desc_cmpt_bus d)
    (pidx_info d) (cmpt_cidx_info d) (c2h_pend_pkt_moving_avg d) (c2h_pend_pkt_avg_thr_hi d)
    (c2h_pend_pkt_avg_thr_lo d) (sorted_c2h_cntr_idx d).
Definition set_qidx_hw (v : Z) (d : qdma_descq) : qdma_descq :=
  mk_descq (conf d) (channel d) (q_state d) v (q_hndl d) (cpu_assigned d) (intr_work_cpu d) (cmplthp
    d) (intr_id d) (work_list d) (work_req_pend d) (pend_list d) (pend_list_empty d) (q_stop_wait d)
    (avail d) (pidx d) (cidx d) (credit d) (desc d) (desc_bus d) (desc_list d) (cmpt_entry_len d)
    (color d) (pidx_cmpt d) (cidx_cmpt d) (total_cmpl_descs d) (desc_cmpt d) (desc_cmpt_bus d)
    (pidx_info d) (cmpt_cidx_info d) (c2h_pend_pkt_moving_avg d) (c2h_pend_pkt_avg_thr_hi d)
    (c2h_pend_pkt_avg_thr_lo d) (sorted_c2h_cntr_idx d).
Definition set_q_hndl (v : Z) (d : qdma_descq) : qdma_descq :=
  mk_descq (conf d) (channel d) (q_state d) (qidx_hw d) v (cpu_assigned d) (intr_work_cpu d)
    (cmplthp d) (intr_id d) (work_list d) (work_req_pend d) (pend_list d) (pend_list_empty d)
    (q_stop_wait d) (avail d) (pidx d) (cidx d) (credit d) (desc d) (desc_bus d) (desc_list d)
    (cmpt_entry_len d) (color d) (pidx_cmpt d) (cidx_cmpt d) (total_cmpl_descs d) (desc_cmpt d)
    (desc_cmpt_bus d) (pidx_info d) (cmpt_cidx_info d) (c2h_pend_pkt_moving_avg d)
    (c2h_pend_pkt_avg_thr_hi d) (c2h_pend_pkt_avg_thr_lo d) (sorted_c2h_cntr_idx d).
Definition set_cpu_assigned (v : bool) (d : qdma_descq) : qdma_descq :=
  mk_descq (conf d) (channel d) (q_state d) (qidx_hw d) (q_hndl d) v (intr_work_cpu d) (cmplthp d)
    (intr_id d) (work_list d) (work_req_pend d) (pend_list d) (pend_list_empty d) (q_stop_wait d)
    (avail d) (pidx d) (cidx d) (credit d) (desc d) (desc_bus d) (desc_list d) (cmpt_entry_len d)
    (color d) (pidx_cmpt d) (cidx_cmpt d) (total_cmpl_descs d) (desc_cmpt d) (desc_cmpt_bus d)
    (pidx_info d) (cmpt_cidx_info d) (c2h_pend_pkt_moving_avg d) (c2h_pend_pkt_avg_thr_hi d)
    (c2h_pend_pkt_avg_thr_lo d) (sorted_c2h_cntr_idx d).
Definition set_intr_work_cpu (v : Z) (d : qdma_descq) : qdma_descq :=
  mk_descq (conf d) (channel d) (q_state d) (qidx_hw d) (q_hndl d) (cpu_assigned d) v (cmplthp d)
    (intr_id d) (work_list d) (work_req_pend d) (pend_list d) (pend_list_empty d) (q_stop_wait d)
    (avail d) (pidx d) (cidx d) (credit d) (desc d) (desc_bus d) (desc_list d) (cmpt_entry_len d)
    (color d) (pidx_cmpt d) (cidx_cmpt d) (total_cmpl_descs d) (desc_cmpt d) (desc_cmpt_bus d)
    (pidx_info d) (cmpt_cidx_info d) (c2h_pend_pkt_moving_avg d) (c2h_pend_pkt_avg_thr_hi d)
    (c2h_pend_pkt_avg_thr_lo d) (sorted_c2h_cntr_idx d).
Definition set_cmplthp (v : option nat) (d : qdma_descq) : qdma_descq :=
  mk_descq (conf d) (channel d) (q_state d) (qidx_hw d) (q_hndl d) (cpu_assigned d) (intr_work_cpu
    d) v (intr_id d) (work_list d) (work_req_pend d) (pend_list d) (pend_list_empty d) (q_stop_wait
    d) (avail d) (pidx d) (cidx d) (credit d) (desc d) (desc_bus d) (desc_list d) (cmpt_entry_len d)
    (color d) (pidx_cmpt d) (cidx_cmpt d) (total_cmpl_descs d) (desc_cmpt d) (desc_cmpt_bus d)
    (pidx_info d) (cmpt_cidx_info d) (c2h_pend_pkt_moving_avg d) (c2h_pend_pkt_avg_thr_hi d)
    (c2h_pend_pkt_avg_thr_lo d) (sorted_c2h_cntr_idx d).
Definition set_intr_id (v : Z) (d : qdma_descq) : qdma_descq :=
  mk_descq (conf d) (channel d) (q_state d) (qidx_hw d) (q_hndl d) (cpu_assigned d) (intr_work_cpu
    d) (cmplthp d) v (work_list d) (work_req_pend d) (pend_list d) (pend_list_empty d) (q_stop_wait
    d) (avail d) (pidx d) (cidx d) (credit d) (desc d) (desc_bus d) (desc_list d) (cmpt_entry_len d)
    (color d) (pidx_cmpt d) (cidx_cmpt d) (total_cmpl_descs d) (desc_cmpt d) (desc_cmpt_bus d)
    (pidx_info d) (cmpt_cidx_info d) (c2h_pend_pkt_moving_avg d) (c2h_pend_pkt_avg_thr_hi d)
    (c2h_pend_pkt_avg_thr_lo d) (sorted_c2h_cntr_idx d).
Definition set_work_list (v : list drv_request) (d : qdma_descq) : qdma_descq :=
  mk_descq (conf d) (channel d) (q_state d) (qidx_hw d) (q_hndl d) (cpu_assigned d) (intr_work_cpu
    d) (cmplthp d) (intr_id d) v (work_req_pend d) (pend_list d) (pend_list_empty d) (q_stop_wait d)
    (avail d) (pidx d) (cidx d) (credit d) (desc d) (desc_bus d) (desc_list d) (cmpt_entry_len d)
    (color d) (pidx_cmpt d) (cidx_cmpt d) (total_cmpl_descs d) (desc_cmpt d) (desc_cmpt_bus d)
    (pidx_info d) (cmpt_cidx_info d) (c2h_pend_pkt_moving_avg d) (c2h_pend_pkt_avg_thr_hi d)
    (c2h_pend_pkt_avg_thr_lo d) (sorted_c2h_cntr_idx d).
Definition set_work_req_pend (v : Z) (d : qdma_descq) : qdma_descq :=
  mk_descq (conf d) (channel d) (q_state d) (qidx_hw d) (q_hndl d) (cpu_assigned d) (intr_work_cpu
    d) (cmplthp d) (intr_id d) (work_list d) v (pend_list d) (pend_list_empty d) (q_stop_wait d)
    (avail d) (pidx d) (cidx d) (credit d) (desc d) (desc_bus d) (desc_list d) (cmpt_entry_len d)
    (color d) (pidx_cmpt d) (cidx_cmpt d) (total_cmpl_descs d) (desc_cmpt d) (desc_cmpt_bus d)
    (pidx_info d) (cmpt_cidx_info d) (c2h_pend_pkt_moving_avg d) (c2h_pend_pkt_avg_thr_hi d)
    (c2h_pend_pkt_avg_thr_lo d) (sorted_c2h_cntr_idx d).
Definition set_pend_list (v : list drv_request) (d : qdma_descq) : qdma_descq :=
  mk_descq (conf d) (channel d) (q_state d) (qidx_hw d) (q_hndl d) (cpu_assigned d) (intr_work_cpu
    d) (cmplthp d) (intr_id d) (work_list d) (work_req_pend d) v (pend_list_empty d) (q_stop_wait d)
    (avail d) (pidx d) (cidx d) (credit d) (desc d) (desc_bus d) (desc_list d) (cmpt_entry_len d)
    (color d) (pidx_cmpt d) (cidx_cmpt d) (total_cmpl_descs d) (desc_cmpt d) (desc_cmpt_bus d)
    (pidx_info d) (cmpt_cidx_info d) (c2h_pend_pkt_moving_avg d) (c2h_pend_pkt_avg_thr_hi d)
    (c2h_pend_pkt_avg_thr_lo d) (sorted_c2h_cntr_idx d).
Definition set_pend_list_empty (v : bool) (d : qdma_descq) : qdma_descq :=
  mk_descq (conf d) (channel d) (q_state d) (qidx_hw d) (q_hndl d) (cpu_assigned d) (intr_work_cpu
    d) (cmplthp d) (intr_id d) (work_list d) (work_req_pend d) (pend_list d) v (q_stop_wait d)
    (avail d) (pidx d) (cidx d) (credit d) (desc d) (desc_bus d) (desc_list d) (cmpt_entry_len d)
    (color d) (pidx_cmpt d) (cidx_cmpt d) (total_cmpl_descs d) (desc_cmpt d) (desc_cmpt_bus d)
    (pidx_info d) (cmpt_cidx_info d) (c2h_pend_pkt_moving_avg d) (c2h_pend_pkt_avg_thr_hi d)
    (c2h_pend_pkt_avg_thr_lo d) (sorted_c2h_cntr_idx d).
Definition set_q_stop_wait (v : bool) (d : qdma_descq) : qdma_descq :=
  mk_descq (conf d) (channel d) (q_state d) (qidx_hw d) (q_hndl d) (cpu_assigned d) (intr_work_cpu
    d) (cmplthp d) (intr_id d) (work_list d) (work_req_pend d) (pend_list d) (pend_list_empty d) v
    (avail d) (pidx d) (cidx d) (credit d) (desc d) (desc_bus d) (desc_list d) (cmpt_entry_len d)
    (color d) (pidx_cmpt d) (cidx_cmpt d) (total_cmpl_descs d) (desc_cmpt d) (desc_cmpt_bus d)
    (pidx_info d) (cmpt_cidx_info d) (c2h_pend_pkt_moving_avg d) (c2h_pend_pkt_avg_thr_hi d)
    (c2h_pend_pkt_avg_thr_lo d) (sorted_c2h_cntr_idx d).
Definition set_avail (v : Z) (d : qdma_descq) : qdma_descq :=
  mk_descq (conf d) (channel d) (q_state d) (qidx_hw d) (q_hndl d) (cpu_assigned d) (intr_work_cpu
    d) (cmplthp d) (intr_id d) (work_list d) (work_req_pend d) (pend_list d) (pend_list_empty d)
    (q_stop_wait d) v (pidx d) (cidx d) (credit d) (desc d) (desc_bus d) (desc_list d)
    (cmpt_entry_len d) (color d) (pidx_cmpt d) (cidx_cmpt d) (total_cmpl_descs d) (desc_cmpt d)
    (desc_cmpt_bus d) (pidx_info d) (cmpt_cidx_info d) (c2h_pend_pkt_moving_avg d)
    (c2h_pend_pkt_avg_thr_hi d) (c2h_pend_pkt_avg_thr_lo d) (sorted_c2h_cntr_idx d).
Definition set_pidx (v : Z) (d : qdma_descq) : qdma_descq :=
  mk_descq (conf d) (channel d) (q_state d) (qidx_hw d) (q_hndl d) (cpu_assigned d) (intr_work_cpu
    d) (cmplthp d) (intr_id d) (work_list d) (work_req_pend d) (pend_list d) (pend_list_empty d)
    (q_stop_wait d) (avail d) v (cidx d) (credit d) (desc d) (desc_bus d) (desc_list d)
    (cmpt_entry_len d) (color d) (pidx_cmpt d) (cidx_cmpt d) (total_cmpl_descs d) (desc_cmpt d)
    (desc_cmpt_bus d) (pidx_info d) (cmpt_cidx_info d) (c2h_pend_pkt_moving_avg d)
    (c2h_pend_pkt_avg_thr_hi d) (c2h_pend_pkt_avg_thr_lo d) (sorted_c2h_cntr_idx d).
Definition set_cidx (v : Z) (d : qdma_descq) : qdma_descq :=
  mk_descq (conf d) (channel d) (q_state d) (qidx_hw d) (q_hndl d) (cpu_assigned d) (intr_work_cpu
    d) (cmplthp d) (intr_id d) (work_list d) (work_req_pend d) (pend_list d) (pend_list_empty d)
    (q_stop_wait d) (avail d) (pidx d) v (credit d) (desc d) (desc_bus d) (desc_list d)
    (cmpt_entry_len d) (color d) (pidx_cmpt d) (cidx_cmpt d) (total_cmpl_descs d) (desc_cmpt d)
    (desc_cmpt_bus d) (pidx_info d) (cmpt_cidx_info d) (c2h_pend_pkt_moving_avg d)
    (c2h_pend_pkt_avg_thr_hi d) (c2h_pend_pkt_avg_thr_lo d) (sorted_c2h_cntr_idx d).
Definition set_credit (v : Z) (d : qdma_descq) : qdma_descq :=
  mk_descq (conf d) (channel d) (q_state d) (qidx_hw d) (q_hndl d) (cpu_assigned d) (intr_work_cpu
    d) (cmplthp d) (intr_id d) (work_list d) (work_req_pend d) (pend_list d) (pend_list_empty d)
    (q_stop_wait d) (avail d) (pidx d) (cidx d) v (desc d) (desc_bus d) (desc_list d)
    (cmpt_entry_len d) (color d) (pidx_cmpt d) (cidx_cmpt d) (total_cmpl_descs d) (desc_cmpt d)
    (desc_cmpt_bus d) (pidx_info d) (cmpt_cidx_info d) (c2h_pend_pkt_moving_avg d)
    (c2h_pend_pkt_avg_thr_hi d) (c2h_pend_pkt_avg_thr_lo d) (sorted_c2h_cntr_idx d).
Definition set_desc (v : Z) (d : qdma_descq) : qdma_descq :=
  mk_descq (conf d) (channel d) (q_state d) (qidx_hw d) (q_hndl d) (cpu_assigned d) (intr_work_cpu
    d) (cmplthp d) (intr_id d) (work_list d) (work_req_pend d) (pend_list d) (pend_list_empty d)
    (q_stop_wait d) (avail d) (pidx d) (cidx d) (credit d) v (desc_bus d) (desc_list d)
    (cmpt_entry_len d) (color d) (pidx_cmpt d) (cidx_cmpt d) (total_cmpl_descs d) (desc_cmpt d)
    (desc_cmpt_bus d) (pidx_info d) (cmpt_cidx_info d) (c2h_pend_pkt_moving_avg d)
    (c2h_pend_pkt_avg_thr_hi d) (c2h_pend_pkt_avg_thr_lo d) (sorted_c2h_cntr_idx d).
Definition set_desc_bus (v : Z) (d : qdma_descq) : qdma_descq :=
  mk_descq (conf d) (channel d) (q_state d) (qidx_hw d) (q_hndl d) (cpu_assigned d) (intr_work_cpu
    d) (cmplthp d) (intr_id d) (work_list d) (work_req_pend d) (pend_list d) (pend_list_empty d)
    (q_stop_wait d) (avail d) (pidx d) (cidx d) (credit d) (desc d) v (desc_list d) (cmpt_entry_len
    d) (color d) (pidx_cmpt d) (cidx_cmpt d) (total_cmpl_descs d) (desc_cmpt d) (desc_cmpt_bus d)
    (pidx_info d) (cmpt_cidx_info d) (c2h_pend_pkt_moving_avg d) (c2h_pend_pkt_avg_thr_hi d)
    (c2h_pend_pkt_avg_thr_lo d) (sorted_c2h_cntr_idx d).
Definition set_desc_list (v : Z) (d : qdma_descq) : qdma_descq :=
  mk_descq (conf d) (channel d) (q_state d) (qidx_hw d) (q_hndl d) (cpu_assigned d) (intr_work_cpu
    d) (cmplthp d) (intr_id d) (work_list d) (work_req_pend d) (pend_list d) (pend_list_empty d)
    (q_stop_wait d) (avail d) (pidx d) (cidx d) (credit d) (desc d) (desc_bus d) v (cmpt_entry_len
    d) (color d) (pidx_cmpt d) (cidx_cmpt d) (total_cmpl_descs d) (desc_cmpt d) (desc_cmpt_bus d)
    (pidx_info d) (cmpt_cidx_info d) (c2h_pend_pkt_moving_avg d) (c2h_pend_pkt_avg_thr_hi d)
    (c2h_pend_pkt_avg_thr_lo d) (sorted_c2h_cntr_idx d).
Definition set_cmpt_entry_len (v : Z) (d : qdma_descq) : qdma_descq :=
  mk_descq (conf d) (channel d) (q_state d) (qidx_hw d) (q_hndl d) (cpu_assigned d) (intr_work_cpu
    d) (cmplthp d) (intr_id d) (work_list d) (work_req_pend d) (pend_list d) (pend_list_empty d)
    (q_stop_wait d) (avail d) (pidx d) (cidx d) (credit d) (desc d) (desc_bus d) (desc_list d) v
    (color d) (pidx_cmpt d) (cidx_cmpt d) (total_cmpl_descs d) (desc_cmpt d) (desc_cmpt_bus d)
    (pidx_info d) (cmpt_cidx_info d) (c2h_pend_pkt_moving_avg d) (c2h_pend_pkt_avg_thr_hi d)
    (c2h_pend_pkt_avg_thr_lo d) (sorted_c2h_cntr_idx d).
Definition set_color (v : Z) (d : qdma_descq) : qdma_descq :=
  mk_descq (conf d) (channel d) (q_state d) (qidx_hw d) (q_hndl d) (cpu_assigned d) (intr_work_cpu
    d) (cmplthp d) (intr_id d) (work_list d) (work_req_pend d) (pend_list d) (pend_list_empty d)
    (q_stop_wait d) (avail d) (pidx d) (cidx d) (credit d) (desc d) (desc_bus d) (desc_list d)
    (cmpt_entry_len d) v (pidx_cmpt d) (cidx_cmpt d) (total_cmpl_descs d) (desc_cmpt d)
    (desc_cmpt_bus d) (pidx_info d) (cmpt_cidx_info d) (c2h_pend_pkt_moving_avg d)
    (c2h_pend_pkt_avg_thr_hi d) (c2h_pend_pkt_avg_thr_lo d) (sorted_c2h_cntr_idx d).
Definition set_pidx_cmpt (v : Z) (d : qdma_descq) : qdma_descq :=
  mk_descq (conf d) (channel d) (q_state d) (qidx_hw d) (q_hndl d) (cpu_assigned d) (intr_work_cpu
    d) (cmplthp d) (intr_id d) (work_list d) (work_req_pend d) (pend_list d) (pend_list_empty d)
    (q_stop_wait d) (avail d) (pidx d) (cidx d) (credit d) (desc d) (desc_bus d) (desc_list d)
    (cmpt_entry_len d) (color d) v (cidx_cmpt d) (total_cmpl_descs d) (desc_cmpt d) (desc_cmpt_bus
    d) (pidx_info d) (cmpt_cidx_info d) (c2h_pend_pkt_moving_avg d) (c2h_pend_pkt_avg_thr_hi d)
    (c2h_pend_pkt_avg_thr_lo d) (sorted_c2h_cntr_idx d).
Definition set_cidx_cmpt (v : Z) (d : qdma_descq) : qdma_descq :=
  mk_descq (conf d) (channel d) (q_state d) (qidx_hw d) (q_hndl d) (cpu_assigned d) (intr_work_cpu
    d) (cmplthp d) (intr_id d) (work_list d) (work_req_pend d) (pend_list d) (pend_list_empty d)
    (q_stop_wait d) (avail d) (pidx d) (cidx d) (credit d) (desc d) (desc_bus d) (desc_list d)
    (cmpt_entry_len d) (color d) (pidx_cmpt d) v (total_cmpl_descs d) (desc_cmpt d) (desc_cmpt_bus
    d) (pidx_info d) (cmpt_cidx_info d) (c2h_pend_pkt_moving_avg d) (c2h_pend_pkt_avg_thr_hi d)
    (c2h_pend_pkt_avg_thr_lo d) (sorted_c2h_cntr_idx d).
Definition set_total_cmpl_descs (v : Z) (d : qdma_descq) : qdma_descq :=
  mk_descq (conf d) (channel d) (q_state d) (qidx_hw d) (q_hndl d) (cpu_assigned d) (intr_work_cpu
    d) (cmplthp d) (intr_id d) (work_list d) (work_req_pend d) (pend_list d) (pend_list_empty d)
    (q_stop_wait d) (avail d) (pidx d) (cidx d) (credit d) (desc d) (desc_bus d) (desc_list d)
    (cmpt_entry_len d) (color d) (pidx_cmpt d) (cidx_cmpt d) v (desc_cmpt d) (desc_cmpt_bus d)
    (pidx_info d) (cmpt_cidx_info d) (c2h_pend_pkt_moving_avg d) (c2h_pend_pkt_avg_thr_hi d)
    (c2h_pend_pkt_avg_thr_lo d) (sorted_c2h_cntr_idx d).
Definition set_desc_cmpt (v : Z) (d : qdma_descq) : qdma_descq :=
  mk_descq (conf d) (channel d) (q_state d) (qidx_hw d) (q_hndl d) (cpu_assigned d) (intr_work_cpu
    d) (cmplthp d) (intr_id d) (work_list d) (work_req_pend d) (pend_list d) (pend_list_empty d)
    (q_stop_wait d) (avail d) (pidx d) (cidx d) (credit d) (desc d) (desc_bus d) (desc_list d)
    (cmpt_entry_len d) (color d) (pidx_cmpt d) (cidx_cmpt d) (total_cmpl_descs d) v (desc_cmpt_bus
    d) (pidx_info d) (cmpt_cidx_info d) (c2h_pend_pkt_moving_avg d) (c2h_pend_pkt_avg_thr_hi d)
    (c2h_pend_pkt_avg_thr_lo d) (sorted_c2h_cntr_idx d).
Definition set_desc_cmpt_bus (v : Z) (d : qdma_descq) : qdma_descq :=
  mk_descq (conf d) (channel d) (q_state d) (qidx_hw d) (q_hndl d) (cpu_assigned d) (intr_work_cpu
    d) (cmplthp d) (intr_id d) (work_list d) (work_req_pend d) (pend_list d) (pend_list_empty d)
    (q_stop_wait d) (avail d) (pidx d) (cidx d) (credit d) (desc d) (desc_bus d) (desc_list d)
    (cmpt_entry_len d) (color d) (pidx_cmpt d) (cidx_cmpt d) (total_cmpl_descs d) (desc_cmpt d) v
    (pidx_info d) (cmpt_cidx_info d) (c2h_pend_pkt_moving_avg d) (c2h_pend_pkt_avg_thr_hi d)
    (c2h_pend_pkt_avg_thr_lo d) (sorted_c2h_cntr_idx d).
Definition set_pidx_info (v : Z) (d : qdma_descq) : qdma_descq :=
  mk_descq (conf d) (channel d) (q_state d) (qidx_hw d) (q_hndl d) (cpu_assigned d) (intr_work_cpu
    d) (cmplthp d) (intr_id d) (work_list d) (work_req_pend d) (pend_list d) (pend_list_empty d)
    (q_stop_wait d) (avail d) (pidx d) (cidx d) (credit d) (desc d) (desc_bus d) (desc_list d)
    (cmpt_entry_len d) (color d) (pidx_cmpt d) (cidx_cmpt d) (total_cmpl_descs d) (desc_cmpt d)
    (desc_cmpt_bus d) v (cmpt_cidx_info d) (c2h_pend_pkt_moving_avg d) (c2h_pend_pkt_avg_thr_hi d)
    (c2h_pend_pkt_avg_thr_lo d) (sorted_c2h_cntr_idx d).
Definition set_cmpt_cidx_info (v : Z) (d : qdma_descq) : qdma_descq :=
  mk_descq (conf d) (channel d) (q_state d) (qidx_hw d) (q_hndl d) (cpu_assigned d) (intr_work_cpu
    d) (cmplthp d) (intr_id d) (work_list d) (work_req_pend d) (pend_list d) (pend_list_empty d)
    (q_stop_wait d) (avail d) (pidx d) (cidx d) (credit d) (desc d) (desc_bus d) (desc_list d)
    (cmpt_entry_len d) (color d) (pidx_cmpt d) (cidx_cmpt d) (total_cmpl_descs d) (desc_cmpt d)
    (desc_cmpt_bus d) (pidx_info d) v (c2h_pend_pkt_moving_avg d) (c2h_pend_pkt_avg_thr_hi d)
    (c2h_pend_pkt_avg_thr_lo d) (sorted_c2h_cntr_idx d).
Definition set_c2h_pend_pkt_moving_avg (v : Z) (d : qdma_descq) : qdma_descq :=
  mk_descq (conf d) (channel d) (q_state d) (qidx_hw d) (q_hndl d) (cpu_assigned d) (intr_work_cpu
    d) (cmplthp d) (intr_id d) (work_list d) (work_req_pend d) (pend_list d) (pend_list_empty d)
    (q_stop_wait d) (avail d) (pidx d) (cidx d) (credit d) (desc d) (desc_bus d) (desc_list d)
    (cmpt_entry_len d) (color d) (pidx_cmpt d) (cidx_cmpt d) (total_cmpl_descs d) (desc_cmpt d)
    (desc_cmpt_bus d) (pidx_info d) (cmpt_cidx_info d) v (c2h_pend_pkt_avg_thr_hi d)
    (c2h_pend_pkt_avg_thr_lo d) (sorted_c2h_cntr_idx d).
Definition set_c2h_pend_pkt_avg_thr_hi (v : Z) (d : qdma_descq) : qdma_descq :=
  mk_descq (conf d) (channel d) (q_state d) (qidx_hw d) (q_hndl d) (cpu_assigned d) (intr_work_cpu
    d) (cmplthp d) (intr_id d) (work_list d) (work_req_pend d) (pend_list d) (pend_list_empty d)
    (q_stop_wait d) (avail d) (pidx d) (cidx d) (credit d) (desc d) (desc_bus d) (desc_list d)
    (cmpt_entry_len d) (color d) (pidx_cmpt d) (cidx_cmpt d) (total_cmpl_descs d) (desc_cmpt d)
    (desc_cmpt_bus d) (pidx_info d) (cmpt_cidx_info d) (c2h_pend_pkt_moving_avg d) v
    (c2h_pend_pkt_avg_thr_lo d) (sorted_c2h_cntr_idx d).
Definition set_c2h_pend_pkt_avg_thr_lo (v : Z) (d : qdma_descq) : qdma_descq :=
  mk_descq (conf d) (channel d) (q_state d) (qidx_hw d) (q_hndl d) (cpu_assigned d) (intr_work_cpu
    d) (cmplthp d) (intr_id d) (work_list d) (work_req_pend d) (pend_list d) (pend_list_empty d)
    (q_stop_wait d) (avail d) (pidx d) (cidx d) (credit d) (desc d) (desc_bus d) (desc_list d)
    (cmpt_entry_len d) (color d) (pidx_cmpt d) (cidx_cmpt d) (total_cmpl_descs d) (desc_cmpt d)
    (desc_cmpt_bus d) (pidx_info d) (cmpt_cidx_info d) (c2h_pend_pkt_moving_avg d)
    (c2h_pend_pkt_avg_thr_hi d) v (sorted_c2h_cntr_idx d).
Definition set_sorted_c2h_cntr_idx (v : Z) (d : qdma_descq) : qdma_descq :=
  mk_descq (conf d) (channel d) (q_state d) (qidx_hw d) (q_hndl d) (cpu_assigned d) (intr_work_cpu
    d) (cmplthp d) (intr_id d) (work_list d) (work_req_pend d) (pend_list d) (pend_list_empty d)
    (q_stop_wait d) (avail d) (pidx d) (cidx d) (credit d) (desc d) (desc_bus d) (desc_list d)
    (cmpt_entry_len d) (color d) (pidx_cmpt d) (cidx_cmpt d) (total_cmpl_descs d) (desc_cmpt d)
    (desc_cmpt_bus d) (pidx_info d) (cmpt_cidx_info d) (c2h_pend_pkt_moving_avg d)
    (c2h_pend_pkt_avg_thr_hi d) (c2h_pend_pkt_avg_thr_lo d) v.


(** ** Calls *)

(** What the driver calls through the table of access functions. *)
Inductive drv_call :=
| Hw (c : MboxPf.hw_call)
| qdma_qid2vec_conf (c2h hw_qid : Z) (data : option Z) (access : qdma_hw_access_type)
| qdma_init_ctxt_memory
| qdma_set_default_global_csr
| qdma_mm_channel_conf (channel is_c2h enable : Z)
| qdma_global_writeback_interval_conf (access : qdma_hw_access_type)
| qdma_legacy_intr_conf (enable : Z)
| qdma_queue_pidx_update (qid is_c2h info : Z)
| qdma_queue_cmpt_cidx_update (qid info : Z).

#[export] Instance drv_call_eq_dec : EqDecision drv_call.
Proof. solve_decision. Defined.

(** What a call returns, and what it leaves in the object it is given: functions of the
    calls before it, the newest first, and of what the object held. *)
Class DrvAccess := {
  drv_code : list drv_call -> drv_call -> Z;
  drv_output : list drv_call -> drv_call -> Z -> Z }.

(** A state with the history of calls in it. *)
Class HasCalls (S : Type) := {
  calls_of : S -> list drv_call;
  with_calls : list drv_call -> S -> S;
  calls_of_with cs s : calls_of (with_calls cs s) = cs;
  with_calls_of s : with_calls (calls_of s) s = s;
  with_calls_twice cs cs' s : with_calls cs (with_calls cs' s) = with_calls cs s }.

#[export] Instance calls_state : HasCalls (list drv_call).
Proof. by refine {| calls_of cs := cs; with_calls cs _ := cs |}. Defined.

Section calls.
Context {S : Type} `{HasCalls S} `{DrvAccess}.

Definition logged (c : drv_call) (s : S) : S := with_calls (c :: calls_of s) s.

(** A call that fills nothing in, and one that fills in an object which held [old]. *)
Definition call (c : drv_call) : M S Z := fun s => Ret (drv_code (calls_of s) c) (logged c s).
Definition call_fill (c : drv_call) (old : Z) : M S (Z * Z) := fun s =>
  Ret (drv_code (calls_of s) c, drv_output (calls_of s) c old) (logged c s).

(** [xdev->hw.qdma_get_error_code(rv)]: the table is read at [-rv]. *)
Definition qdma_get_error_code (rv : Z) : M S Z :=
  match qdma_get_err_code rv with Some e => mret e | None => crash end.

(** [rv = step; if (rv < 0) return xdev->hw.qdma_get_error_code(rv); k] *)
Definition or_error (step k : M S Z) : M S Z :=
  rv ← step; if rv <? 0 then qdma_get_error_code rv else k.

(** The same, the code being returned as it is. *)
Definition or_return (step k : M S Z) : M S Z := rv ← step; if rv <? 0 then mret rv else k.

Definition when (b : bool) (m : M S Z) : M S Z := if b then m else mret 0.

Lemma calls_logged c s : calls_of (logged c s) = c :: calls_of s.
Proof. apply calls_of_with. Qed.

Lemma logged_twice c cs s : logged c (with_calls cs s) = with_calls (c :: cs) s.
Proof. unfold logged. by rewrite calls_of_with, with_calls_twice. Qed.
End calls.

Declare Scope drv_scope.
Notation "m ;! k" := (or_error m k) (at level 100, k at level 200, right associativity) : drv_scope.
Notation "m ;? k" := (or_return m k) (at level 100, k at level 200, right associativity) : drv_scope.
