(* ===== verification/DrvCtxt.v ===== *)
(** * DrvCtxt: the contexts of the driver's queues ([qdma_context.c])

    From the configuration of a queue the driver of a physical function makes the contexts of
    the hardware and has the access library write them, having cleared the old ones; a
    virtual function sends the configuration to its physical function instead.  The text
    dumps of contexts are not modelled. *)

From S2P Require Import Prelude QdmaErrors Mmio CLayout Contexts CsrProps DrvData.
From S2P Require MboxMsg MboxPf Descq.
Import Descq(Q_H2C, Q_C2H, Q_CMPT, q_state_t(..), qdma_drv_mode(..)).
Local Open Scope Z_scope.
Local Open Scope drv_scope.

Abbreviation READ := QDMA_HW_ACCESS_READ.
Abbreviation WRITE := QDMA_HW_ACCESS_WRITE.
Abbreviation CLEAR := QDMA_HW_ACCESS_CLEAR.
Abbreviation INVALIDATE := QDMA_HW_ACCESS_INVALIDATE.

(** ** Making contexts *)

(** The interrupt context of a ring: what is assigned to one that holds zeros. *)
Definition intr_ctxt_of (x : xlnx_dma_dev) (entry : intr_coal_conf) : Z :=
  assign
    [(ind_intr_ctxt.valid, 1);
     (ind_intr_ctxt.vec, vec_id entry);
     (ind_intr_ctxt.baddr_4k, intr_ring_bus entry);
     (ind_intr_ctxt.color, coal_color entry);
     (ind_intr_ctxt.page_size, intr_rngsz x);
     (ind_intr_ctxt.func_id, func_id x)] 0.

(** The list has [QDMA_NUM_DATA_VEC_FOR_INTR_CXT] entries; [None] for [-EINVAL]. *)
Definition make_intr_context (x : xlnx_dma_dev) : option (list Z) :=
  if negb (intr_rings (drv_mode x)) then None
  else Some (intr_ctxt_of x <$> take QDMA_NUM_DATA_VEC_FOR_INTR_CXT (intr_coal_list x)).

Section make.
Context (x : xlnx_dma_dev) (d : qdma_descq).

Abbreviation q f := (fld f (conf d)).

Definition make_sw_context : Z :=
  let st := is_st (conf d) in
  let c := assign
    (if intr_rings (drv_mode x)
     then [(sw_ctxt.vec, get_intr_ring_index x (intr_id d)); (sw_ctxt.intr_aggr, 1)]
     else [(sw_ctxt.vec, intr_id d)]) 0 in
  let c := assign
    [(sw_ctxt.ring_bs_addr, desc_bus d);
     (sw_ctxt.wbi_chk, q queue_conf.cmpl_status_pend_chk);
     (sw_ctxt.wbi_intvl_en, q queue_conf.cmpl_status_acc_en);
     (sw_ctxt.rngsz_idx, q queue_conf.desc_rng_sz_idx);
     (sw_ctxt.bypass, q queue_conf.desc_bypass);
     (sw_ctxt.wbk_en, q queue_conf.wb_status_en);
     (sw_ctxt.irq_en, q queue_conf.irq_en);
     (sw_ctxt.is_mm, Z.lnot (q queue_conf.st));
     (sw_ctxt.qen, 1)] c in
  let c := assign
    (if flag queue_conf.desc_bypass (conf d) && (q queue_conf.sw_desc_sz =? DESC_SZ_64B) then
       [(sw_ctxt.desc_sz, q queue_conf.sw_desc_sz)]
     else if negb st then [(sw_ctxt.desc_sz, DESC_SZ_32B); (sw_ctxt.mm_chn, channel d)]
     else if type_of (conf d) =? Q_C2H then
       [(sw_ctxt.frcd_en, q queue_conf.fetch_credit); (sw_ctxt.desc_sz, DESC_SZ_8B)]
     else if type_of (conf d) =? Q_H2C then
       [(sw_ctxt.frcd_en, q queue_conf.fetch_credit); (sw_ctxt.desc_sz, DESC_SZ_16B)]
     else [(sw_ctxt.desc_sz, DESC_SZ_16B)]) c in
  let c := assign [(sw_ctxt.fnc_id, func_id x); (sw_ctxt.irq_arm, q queue_conf.irq_en)] c in
  let c := assign
    (if conf_st_c2h (conf d)
     then [(sw_ctxt.irq_en, 0); (sw_ctxt.irq_arm, 0); (sw_ctxt.wbk_en, 0); (sw_ctxt.wbi_chk, 0)]
     else []) c in
  assign
    (if negb (flag queue_conf.desc_bypass (conf d)) && (negb st || (type_of (conf d) =? Q_H2C))
     then [(sw_ctxt.mrkr_dis, 1)] else []) c.

Definition make_qid2vec_context : Z :=
  let '(vec_num, en_coal) :=
    if intr_rings (drv_mode x) then (u32 (get_intr_ring_index x (intr_id d)), 1)
    else (u32 (intr_id d), 0) in
  assign
    (if type_of (conf d) =? Q_C2H then
       [(qid2vec.c2h_en_coal, en_coal); (qid2vec.c2h_vector, vec_num)]
     else if type_of (conf d) =? Q_H2C then
       [(qid2vec.h2c_en_coal, en_coal); (qid2vec.h2c_vector, vec_num)]
     else []) 0.

Definition make_prefetch_context : Z :=
  assign
    [(pfetch_ctxt.valid, 1);
     (pfetch_ctxt.bypass, q queue_conf.pfetch_bypass);
     (pfetch_ctxt.bufsz_idx, q queue_conf.c2h_buf_sz_idx);
     (pfetch_ctxt.pfch_en, q queue_conf.pfetch_en)] 0.

Definition make_cmpt_context : Z :=
  let c := assign
    [(cmpt_ctxt.en_stat_desc, q queue_conf.cmpl_stat_en);
     (cmpt_ctxt.en_int, q queue_conf.cmpl_en_intr);
     (cmpt_ctxt.trig_mode, q queue_conf.cmpl_trig_mode);
     (cmpt_ctxt.fnc_id, func_id x);
     (cmpt_ctxt.timer_idx, q queue_conf.cmpl_timer_idx);
     (cmpt_ctxt.counter_idx, q queue_conf.cmpl_cnt_th_idx);
     (cmpt_ctxt.color, 1);
     (cmpt_ctxt.ringsz_idx, q queue_conf.cmpl_rng_sz_idx);
     (cmpt_ctxt.bs_addr, desc_cmpt_bus d);
     (cmpt_ctxt.desc_sz, q queue_conf.cmpl_desc_sz);
     (cmpt_ctxt.full_upd, q queue_conf.adaptive_rx);
     (cmpt_ctxt.valid, 1);
     (cmpt_ctxt.ovf_chk_dis, q queue_conf.cmpl_ovf_chk_dis)] 0 in
  assign
    (if intr_rings (drv_mode x)
     then [(cmpt_ctxt.vec, get_intr_ring_index x (intr_id d)); (cmpt_ctxt.int_aggr, 1)]
     else [(cmpt_ctxt.vec, intr_id d)]) c.
End make.

(** ** Programming contexts *)

(** The members of [struct qdma_descq_context] are in [descq_ctxt], but for the first. *)
Definition descq_ctxt_qid2vec : cfield := bytes_at 0 4.

Section program.
Context {S : Type} `{HasCalls S} `{DrvAccess}.

Definition sw_ctx_conf (ty qid_hw : Z) (data : option Z) (a : qdma_hw_access_type) : M S Z :=
  call (Hw (MboxPf.qdma_sw_ctx_conf (u8 ty) (u16 qid_hw) data a)).
Definition hw_ctx_conf (ty qid_hw : Z) (a : qdma_hw_access_type) : M S Z :=
  call (Hw (MboxPf.qdma_hw_ctx_conf (u8 ty) (u16 qid_hw) a)).
Definition credit_ctx_conf (ty qid_hw : Z) (a : qdma_hw_access_type) : M S Z :=
  call (Hw (MboxPf.qdma_credit_ctx_conf (u8 ty) (u16 qid_hw) a)).
Definition pfetch_ctx_conf (qid_hw : Z) (data : option Z) (a : qdma_hw_access_type) : M S Z :=
  call (Hw (MboxPf.qdma_pfetch_ctx_conf (u16 qid_hw) data a)).
Definition cmpt_ctx_conf (qid_hw : Z) (data : option Z) (a : qdma_hw_access_type) : M S Z :=
  call (Hw (MboxPf.qdma_cmpt_ctx_conf (u16 qid_hw) data a)).
Definition intr_ctx_conf (ring_index : Z) (data : option Z) (a : qdma_hw_access_type) : M S Z :=
  call (Hw (MboxPf.qdma_indirect_intr_ctx_conf (u16 ring_index) data a)).

(** The two branches of the function differ in the type of access only. *)
Definition qdma_descq_context_clear (qid_hw : Z) (st : bool) (ty : Z) (clr : bool) : M S Z :=
  let access := if clr then CLEAR else INVALIDATE in
  when (negb (ty =? Q_CMPT))
    (sw_ctx_conf ty qid_hw None access ;!
     hw_ctx_conf ty qid_hw access ;!
     credit_ctx_conf ty qid_hw access ;!
     when (st_c2h st ty) (pfetch_ctx_conf qid_hw None access) ;!
     mret 0) ;?
  when (has_cmpt_ring st ty) (cmpt_ctx_conf qid_hw None access) ;!
  mret 0.

(** [context] is the object with all contexts of the queue. *)
Definition qdma_descq_context_program (x : xlnx_dma_dev) (qid_hw : Z) (st : bool) (ty : Z) (context : Z) :
    M S Z :=
  qdma_descq_context_clear qid_hw st ty true ;!
  when (negb (ty =? Q_CMPT))
    (sw_ctx_conf ty qid_hw (Some (fld descq_ctxt.sw context)) WRITE ;!
     (if flag dev_attributes.qid2vec_ctx (dev_cap x) && negb (bool_decide (drv_mode x = POLL_MODE)) then
        _ ← call (qdma_qid2vec_conf (u8 ty) (u16 qid_hw) (Some (fld descq_ctxt_qid2vec context)) WRITE);
        mret tt
      else mret tt);;
     when (st && negb (ty =? 0)) (pfetch_ctx_conf qid_hw (Some (fld descq_ctxt.pfetch context)) WRITE) ;!
     mret 0) ;?
  when (has_cmpt_ring st ty) (cmpt_ctx_conf qid_hw (Some (fld descq_ctxt.cmpt context)) WRITE) ;!
  mret 0.

(** All contexts of a queue, in one object. *)
Definition make_context (x : xlnx_dma_dev) (d : qdma_descq) : Z :=
  let c := conf d in
  let queue := negb (type_of c =? Q_CMPT) in
  let context := assign (if queue then [(descq_ctxt.sw, make_sw_context x d)] else []) 0 in
  let context := assign
    (if queue && (flag dev_attributes.qid2vec_ctx (dev_cap x) && negb (bool_decide (drv_mode x = POLL_MODE)))
     then [(descq_ctxt_qid2vec, make_qid2vec_context x d)] else []) context in
  let context := assign
    (if queue && conf_st_c2h c then [(descq_ctxt.pfetch, make_prefetch_context d)] else []) context in
  assign (if conf_has_cmpt c then [(descq_ctxt.cmpt, make_cmpt_context x d)] else []) context.

Definition qdma_descq_context_setup (x : xlnx_dma_dev) (d : qdma_descq) : M S Z :=
  qdma_descq_context_program x (qidx_hw d) (is_st (conf d)) (type_of (conf d)) (make_context x d).

(** Reading fills in the members of an object that has been cleared; the code and the
    object. *)
Definition read_into (f : cfield) (c : drv_call) (context : Z) : M S (Z * Z) :=
  '(rv, v) ← call_fill c (fld f context);
  mret (rv, put f v context).

Definition then_read (b : bool) (f : cfield) (c : drv_call) (context : Z) (k : Z -> M S (Z * Z)) :
    M S (Z * Z) :=
  if b then
    '(rv, context) ← read_into f c context;
    if rv <? 0 then rv ← qdma_get_error_code rv; mret (rv, context) else k context
  else k context.

Definition qdma_descq_context_read (qid_hw : Z) (st : bool) (ty : Z) : M S (Z * Z) :=
  let queue := negb (ty =? Q_CMPT) in
  let c2h := u8 ty in
  let q := u16 qid_hw in
  then_read queue descq_ctxt.sw (Hw (MboxPf.qdma_sw_ctx_conf c2h q None READ)) 0 (fun context =>
  then_read queue descq_ctxt.hw (Hw (MboxPf.qdma_hw_ctx_conf c2h q READ)) context (fun context =>
  then_read queue descq_ctxt.cr (Hw (MboxPf.qdma_credit_ctx_conf c2h q READ)) context (fun context =>
  then_read (queue && (st && negb (ty =? 0))) descq_ctxt.pfetch (Hw (MboxPf.qdma_pfetch_ctx_conf q None READ))
    context (fun context =>
  then_read (has_cmpt_ring st ty) descq_ctxt.cmpt (Hw (MboxPf.qdma_cmpt_ctx_conf q None READ)) context
    (fun context => mret (0, context)))))).

(** ** Interrupt contexts *)

(** A list of rings, each with its context: what a virtual function asks for. *)
Fixpoint qdma_prog_intr_context (rings : list (Z * Z)) : M S Z :=
  match rings with
  | [] => mret 0
  | (ring_index, ctxt) :: rings' => intr_ctx_conf ring_index (Some ctxt) WRITE ;! qdma_prog_intr_context rings'
  end.

Fixpoint setup_rings (rings : list (Z * Z)) : M S Z :=
  match rings with
  | [] => mret 0
  | (ring_index, ctxt) :: rings' =>
      intr_ctx_conf ring_index None CLEAR ;!
      intr_ctx_conf ring_index (Some ctxt) WRITE ;!
      setup_rings rings'
  end.

Definition qdma_intr_context_setup (x : xlnx_dma_dev) : M S Z :=
  if negb (intr_rings (drv_mode x)) then mret 0
  else match make_intr_context x with
       | None => mret (- EINVAL)
       | Some ctxts =>
           setup_rings (imap (fun i c => (get_intr_ring_index x (Z.of_nat i + dvec_start_idx x), c)) ctxts)
       end.

Definition qdma_intr_context_read (ring_index : Z) : M S (Z * Z) :=
  '(rv, ctxt) ← call_fill (Hw (MboxPf.qdma_indirect_intr_ctx_conf (u16 ring_index) None READ)) 0;
  if rv <? 0 then rv ← qdma_get_error_code rv; mret (rv, ctxt) else mret (0, ctxt).
End program.
