(* ===== verification/DrvVf.v ===== *)
(** * DrvVf: what the driver of a virtual function asks for
    ([qdma_context.c], [qdma_device.c], [qdma_regs.c], [libqdma_export.c] with [__QDMA_VF__])

    A virtual function has no access to the contexts: it sends the configuration of a queue
    to its physical function, which makes the contexts and writes them (MboxPf).  How a
    message gets there and back is the interface [VfMailbox]. *)

From S2P Require Import Prelude QdmaErrors ResourceMgmt Mmio CLayout Contexts MboxMsg CsrProps DrvData DrvCtxt.
From S2P Require Descq.
Import Descq(Q_H2C, Q_C2H, Q_CMPT, q_state_t(..), qdma_drv_mode(..)).
Local Open Scope Z_scope.
Local Open Scope drv_scope.

(** Allocating a message (which is all zeros), sending it and waiting for the response, which
    overwrites it, and freeing it. *)
Class VfMailbox (S : Type) := {
  qdma_mbox_msg_alloc : M S bool;
  qdma_mbox_msg_send : Z -> M S (Z * Z);
  qdma_mbox_msg_free : M S unit }.

(** ** Data *)

(** [struct mbox_msg_intr_ctxt] *)
Module intr_list.
Definition num_rings := bytes_at 0 1.
Definition ring_index_list (i : nat) := bytes_at (4 + 4 * Z.of_nat i) 4.
Definition ictxt (i : nat) := bytes_at (8 + 32 * Z.of_nat i) 32.
End intr_list.

(** The last member of [struct qdma_csr_info]. *)
Definition csr_info_wb_intvl : cfield := bytes_at 96 1.

(** A message that has been composed. *)
Definition raw (m : option Z -> Z * option Z) : Z := default 0 (m (Some 0)).2.

(** What is asked to be done with the completion context of a queue. *)
Definition vf_cmpt_ctxt_type (st : bool) (ty : Z) : mbox_cmpt_ctxt_type :=
  if negb st then if ty =? Q_CMPT then QDMA_MBOX_CMPT_CTXT_ONLY else QDMA_MBOX_CMPT_CTXT_NONE
  else if ty =? Q_C2H then QDMA_MBOX_CMPT_WITH_ST else QDMA_MBOX_CMPT_CTXT_NONE.

Definition vf_descq_conf (x : xlnx_dma_dev) (csr : global_csr_conf) (d : qdma_descq) : Z :=
  let q f := fld f (DrvData.conf d) in
  let c := assign
    [(descq_conf.ring_bs_addr, desc_bus d);
     (descq_conf.cmpt_ring_bs_addr, desc_cmpt_bus d);
     (descq_conf.en_bypass, q queue_conf.desc_bypass);
     (descq_conf.irq_arm, q queue_conf.irq_en);
     (descq_conf.wbi_intvl_en, q queue_conf.cmpl_status_acc_en);
     (descq_conf.wbi_chk, q queue_conf.cmpl_status_pend_chk);
     (descq_conf.at_, q queue_conf.at_);
     (descq_conf.wbk_en, q queue_conf.wb_status_en);
     (descq_conf.irq_en, q queue_conf.irq_en);
     (descq_conf.pfch_en, q queue_conf.pfetch_en);
     (descq_conf.en_bypass_prefetch, q queue_conf.pfetch_bypass);
     (descq_conf.dis_overflow_check, q queue_conf.cmpl_ovf_chk_dis);
     (descq_conf.cmpt_int_en, q queue_conf.cmpl_en_intr);
     (descq_conf.cmpl_stat_en, q queue_conf.cmpl_stat_en)] 0 in
  let c := assign
    (if flag queue_conf.desc_bypass (DrvData.conf d) && (q queue_conf.sw_desc_sz =? DESC_SZ_64B) then
       [(descq_conf.desc_sz, q queue_conf.sw_desc_sz)]
     else if negb (q queue_conf.q_type =? Q_CMPT) then
       if negb (is_st (DrvData.conf d)) then [(descq_conf.desc_sz, DESC_SZ_32B)]
       else if negb (q queue_conf.q_type =? 0) then
         [(descq_conf.desc_sz, DESC_SZ_8B); (descq_conf.forced_en, q queue_conf.fetch_credit)]
       else [(descq_conf.desc_sz, DESC_SZ_16B)]
     else []) c in
  let c := assign
    [(descq_conf.cmpt_desc_sz, q queue_conf.cmpl_desc_sz);
     (descq_conf.triggermode, q queue_conf.cmpl_trig_mode);
     (descq_conf.cmpt_at, q queue_conf.at_);
     (descq_conf.cmpt_color, 1);
     (descq_conf.cmpt_full_upd, 0);
     (descq_conf.func_id, func_id x);
     (descq_conf.cnt_thres, nth (Z.to_nat (q queue_conf.cmpl_cnt_th_idx)) (c2h_cnt_th csr) 0);
     (descq_conf.timer_thres, nth (Z.to_nat (q queue_conf.cmpl_timer_idx)) (c2h_timer_cnt csr) 0);
     (descq_conf.ringsz, q queue_conf.rngsz);
     (descq_conf.bufsz, q queue_conf.c2h_bufsz);
     (descq_conf.cmpt_ringsz, q queue_conf.rngsz_cmpt)] c in
  assign
    (if intr_rings (drv_mode x)
     then [(descq_conf.intr_id, Z.land (get_intr_ring_index x (intr_id d)) 4095); (descq_conf.intr_aggr, 1)]
     else [(descq_conf.intr_id, intr_id d)]) c.

(** The request to set a queue up. *)
Definition vf_setup_request (x : xlnx_dma_dev) (csr : global_csr_conf) (d : qdma_descq) : option Z -> Z * option Z :=
  let c := DrvData.conf d in
  qdma_mbox_compose_vf_qctxt_write (func_id x) (u16 (qidx_hw d)) (fld queue_conf.st c) (type_of c)
    (vf_cmpt_ctxt_type (is_st c) (type_of c)) (vf_descq_conf x csr d).

(** ** Requests *)

Section vf.
Context {S : Type} `{VfMailbox S}.

(** A message is sent; [k] takes the response, when there is one. *)
Definition with_msg {A} (m : option Z -> Z * option Z) (fail : Z -> A) (k : Z -> A) : M S A :=
  ok ← qdma_mbox_msg_alloc;
  if negb (ok : bool) then mret (fail (- ENOMEM))
  else
    '(rv, r) ← qdma_mbox_msg_send (raw m);
    qdma_mbox_msg_free;;
    mret (if rv <? 0 then fail rv else k r).

(** [rv = qdma_mbox_vf_response_status(..); if (rv < 0) rv = -EINVAL] *)
Definition or_einval (rv : Z) : Z := if rv <? 0 then - EINVAL else rv.
Definition status_of (r : Z) : Z := or_einval (qdma_mbox_vf_response_status r).

(** A request of which the status is all that matters. *)
Definition ask (m : option Z -> Z * option Z) : M S Z := with_msg m id status_of.

Definition vf_context_clear (x : xlnx_dma_dev) (qid_hw : Z) (st : bool) (ty : Z) (clr : bool) : M S Z :=
  let t := vf_cmpt_ctxt_type st ty in
  ask ((if clr then qdma_mbox_compose_vf_qctxt_clear else qdma_mbox_compose_vf_qctxt_invalidate)
         (func_id x) (u16 qid_hw) (Z.b2z st) ty t).

(** The code, and what [context] holds, which was [old]. *)
Definition vf_context_read (x : xlnx_dma_dev) (qid_hw : Z) (st : bool) (ty old : Z) : M S (Z * Z) :=
  with_msg (qdma_mbox_compose_vf_qctxt_read (func_id x) (u16 qid_hw) (Z.b2z st) ty (vf_cmpt_ctxt_type st ty))
    (fun rv => (rv, old))
    (fun r => let '(rv, context) := qdma_mbox_vf_context_get r in (or_einval rv, context)).

Definition vf_context_setup (x : xlnx_dma_dev) (csr : global_csr_conf) (d : qdma_descq) : M S Z :=
  ask (vf_setup_request x csr d).

Definition vf_intr_context_setup (x : xlnx_dma_dev) : M S Z :=
  if negb (intr_rings (drv_mode x)) then mret 0
  else
    let ctxts := default [] (make_intr_context x) in
    let rings := foldl (fun m i => put (intr_list.ring_index_list i)
                                     (get_intr_ring_index x (dvec_start_idx x + Z.of_nat i)) m)
                   (put intr_list.num_rings (Z.of_nat QDMA_NUM_DATA_VEC_FOR_INTR_CXT) 0)
                   (seq 0 QDMA_NUM_DATA_VEC_FOR_INTR_CXT) in
    let rings := foldl (fun m '(i, c) => put (intr_list.ictxt i) c m) rings
                   (zip (seq 0 QDMA_NUM_DATA_VEC_FOR_INTR_CXT) ctxts) in
    ask (qdma_mbox_compose_vf_intr_ctxt_write (func_id x) rings).

(** When sending fails the function goes on: what it takes for a response is whatever the
    message holds. *)
Definition vf_intr_context_read (x : xlnx_dma_dev) (ring_index old : Z) : M S (Z * Z) :=
  ok ← qdma_mbox_msg_alloc;
  if negb (ok : bool) then mret (- ENOMEM, old)
  else
    '(rv, r) ← qdma_mbox_msg_send (raw (qdma_mbox_compose_vf_intr_ctxt_read (func_id x)
                 (put (intr_list.ring_index_list 0) ring_index (put intr_list.num_rings 1 0))));
    let '(rv, ictxt) := qdma_mbox_vf_intr_context_get r in
    qdma_mbox_msg_free;;
    mret (if rv <? 0 then (- EINVAL, old) else (rv, fld (intr_list.ictxt 0) ictxt)).

Definition qdma_dev_notify_qadd (x : xlnx_dma_dev) (d : qdma_descq) (q_type : Z) : M S Z :=
  ask (qdma_mbox_compose_vf_notify_qadd (func_id x) (u16 (qidx_hw d)) (q_type_of q_type)).

Definition qdma_dev_notify_qdel (x : xlnx_dma_dev) (d : qdma_descq) (q_type : Z) : M S Z :=
  ask (qdma_mbox_compose_vf_notify_qdel (func_id x) (u16 (qidx_hw d)) (q_type_of q_type)).

(** The code and, when they have been assigned, the counts; the message is not freed then. *)
Definition qdma_dev_get_active_qcnt (x : xlnx_dma_dev) : M S (Z * option (Z * Z * Z)) :=
  ok ← qdma_mbox_msg_alloc;
  if negb (ok : bool) then mret (- ENOMEM, None)
  else
    '(rv, r) ← qdma_mbox_msg_send (raw (qdma_mbox_compose_vf_get_device_active_qcnt (func_id x)));
    if rv <? 0 then qdma_mbox_msg_free;; mret (rv, None)
    else
      let rv := qdma_mbox_vf_response_status r in
      if rv <? 0 then qdma_mbox_msg_free;; mret (- EINVAL, None)
      else
        let count t := u32 (qdma_mbox_vf_active_queues_get r t) in
        mret (rv, Some (count QDMA_DEV_Q_TYPE_H2C, count QDMA_DEV_Q_TYPE_C2H, count QDMA_DEV_Q_TYPE_CMPT)).

(** The code, and whether the range counts as set. *)
Definition vf_set_qrange (x : xlnx_dma_dev) (qmax qbase : Z) : M S (Z * bool) :=
  rv ← ask (qdma_mbox_compose_vf_fmap_prog (func_id x) qmax qbase);
  mret (rv, rv =? 0).

(** [*qmax] is an [int] of which the two low bytes are assigned. *)
Definition device_set_qconf (x : xlnx_dma_dev) (qmax qbase : Z) : M S (Z * (Z * Z)) :=
  with_msg (qdma_mbox_compose_vf_qreq (func_id x) (Z.land (u16 qmax) 65535) qbase)
    (fun rv => (rv, (qmax, qbase)))
    (fun r => let '(rv, (b, n)) := qdma_mbox_vf_qinfo_get r in
              (or_einval rv, (i32 (put (bytes_at 0 2) n (u32 qmax)), b))).

(** The registers of the card, as the physical function reports them. *)
Definition csr_of_msg (info : Z) : global_csr_conf :=
  let all f := (fun i => fld (f i) info) <$> seq 0 QDMA_GLOBAL_CSR_ARRAY_SZ in
  mk_csr (all csr_info.ringsz) (all csr_info.timer_cnt) (all csr_info.cnt_thres) (all csr_info.bufsz)
    (fld csr_info_wb_intvl info).

Definition vf_csr_read (x : xlnx_dma_dev) (csr : global_csr_conf) : M S (Z * global_csr_conf) :=
  with_msg (qdma_mbox_compose_csr_read (func_id x)) (fun rv => (rv, csr))
    (fun r => let '(rv, info) := qdma_mbox_vf_csr_get r in
              if rv =? 0 then (0, csr_of_msg info) else (- EINVAL, csr)).
End vf.
