(* ===== verification/DrvCtxtProps.v ===== *)
(** * DrvCtxtProps: the contexts of a queue, from its configuration to the calls

    What the driver's functions on contexts call when nothing fails, what the contexts they
    write hold, what they do when a call fails, and that setting a queue up for a virtual
    function, through the mailbox, comes to the same as doing it for the physical function. *)

From S2P Require Import Prelude QdmaErrors ResourceMgmt Mmio CLayout Contexts MboxMsg CsrProps DrvData DrvCtxt DrvVf.
From S2P Require MboxPf MboxProps MboxFlows ResourceProps Descq.
Import Descq(Q_H2C, Q_C2H, Q_CMPT, q_state_t(..), qdma_drv_mode(..)).
Local Open Scope Z_scope.
Local Open Scope drv_scope.

(** ** Runs in which nothing fails *)

(** Hardware on which every call succeeds. *)
Definition drv_healthy `{DrvAccess} : Prop := forall log c, drv_code log c = 0.

Section run.
Context {S : Type} `{HasCalls S} `{DrvAccess} (Hok : drv_healthy).
Implicit Types (s : S) (m k : M S Z).

(** [s] after calls, the newest first. *)
Definition after_calls (cs : list drv_call) s : S := with_calls (cs ++ calls_of s) s.

Lemma after_nil s : after_calls [] s = s.
Proof. apply with_calls_of. Qed.

Lemma after_app cs cs' s : after_calls cs (after_calls cs' s) = after_calls (cs ++ cs') s.
Proof. unfold after_calls. by rewrite calls_of_with, with_calls_twice, app_assoc. Qed.

Lemma drv_call_run c s : call c s = Ret 0 (after_calls [c] s).
Proof. unfold call. by rewrite Hok. Qed.

Lemma or_error_run m k s s1 : m s = Ret 0 s1 -> (m ;! k) s = k s1.
Proof. intros E. unfold or_error. by rewrite (bind_Ret _ _ _ _ _ E). Qed.

Lemma drv_or_return_run m k s s1 : m s = Ret 0 s1 -> (m ;? k) s = k s1.
Proof. intros E. unfold or_return. by rewrite (bind_Ret _ _ _ _ _ E). Qed.

Lemma drv_when_run (b : bool) m cs s :
  m s = Ret 0 (after_calls cs s) -> when b m s = Ret 0 (after_calls (if b then cs else []) s).
Proof. destruct b; [done|]. intros _. unfold when. by rewrite after_nil. Qed.

Lemma ignored_run (b : bool) c (m : M S Z) s :
  ((if b then _ ← call c; mret tt else mret tt);; m) s = m (after_calls (if b then [c] else []) s).
Proof.
  destruct b; [|by rewrite after_nil]. unfold mbind, M_bind. by rewrite drv_call_run.
Qed.

(** The calls that clear, or invalidate, the contexts of a queue, the newest first. *)
Definition clear_calls (qid_hw : Z) (st : bool) (ty : Z) (a : qdma_hw_access_type) : list drv_call :=
  let c2h := u8 ty in
  let q := u16 qid_hw in
  (if has_cmpt_ring st ty then [Hw (MboxPf.qdma_cmpt_ctx_conf q None a)] else []) ++
  (if negb (ty =? Q_CMPT) then
     (if st_c2h st ty then [Hw (MboxPf.qdma_pfetch_ctx_conf q None a)] else []) ++
     [Hw (MboxPf.qdma_credit_ctx_conf c2h q a); Hw (MboxPf.qdma_hw_ctx_conf c2h q a);
      Hw (MboxPf.qdma_sw_ctx_conf c2h q None a)]
   else []).

Lemma clear_run qid_hw st ty clr s :
  qdma_descq_context_clear qid_hw st ty clr s =
  Ret 0 (after_calls (clear_calls qid_hw st ty (if clr then CLEAR else INVALIDATE)) s).
Proof.
  unfold qdma_descq_context_clear, clear_calls. set (a := if clr then CLEAR else INVALIDATE).
  erewrite drv_or_return_run; [|apply drv_when_run].
  2: { do 3 (erewrite or_error_run; [|apply drv_call_run]). erewrite or_error_run; [|apply drv_when_run, drv_call_run].
       rewrite !after_app. reflexivity. }
  erewrite or_error_run; [|apply drv_when_run, drv_call_run]. rewrite after_app. by rewrite <- !app_assoc.
Qed.

(** The calls that write them. *)
Definition write_calls (x : xlnx_dma_dev) (qid_hw : Z) (st : bool) (ty context : Z) : list drv_call :=
  let c2h := u8 ty in
  let q := u16 qid_hw in
  (if has_cmpt_ring st ty then [Hw (MboxPf.qdma_cmpt_ctx_conf q (Some (fld descq_ctxt.cmpt context)) WRITE)] else []) ++
  (if negb (ty =? Q_CMPT) then
     (if st && negb (ty =? 0)
      then [Hw (MboxPf.qdma_pfetch_ctx_conf q (Some (fld descq_ctxt.pfetch context)) WRITE)] else []) ++
     (if flag dev_attributes.qid2vec_ctx (dev_cap x) && negb (bool_decide (drv_mode x = POLL_MODE))
      then [qdma_qid2vec_conf c2h q (Some (fld descq_ctxt_qid2vec context)) WRITE] else []) ++
     [Hw (MboxPf.qdma_sw_ctx_conf c2h q (Some (fld descq_ctxt.sw context)) WRITE)]
   else []).

Lemma program_run x qid_hw st ty context s :
  qdma_descq_context_program x qid_hw st ty context s =
  Ret 0 (after_calls (write_calls x qid_hw st ty context ++ clear_calls qid_hw st ty CLEAR) s).
Proof.
  unfold qdma_descq_context_program, write_calls.
  erewrite or_error_run; [|apply clear_run]. erewrite drv_or_return_run; [|apply drv_when_run].
  2: { erewrite or_error_run; [|apply drv_call_run]. rewrite ignored_run.
       erewrite or_error_run; [|apply drv_when_run, drv_call_run]. rewrite !after_app. reflexivity. }
  erewrite or_error_run; [|apply drv_when_run, drv_call_run]. rewrite !after_app. unfold mret, M_ret.
  do 2 f_equal. by repeat case_match; rewrite <- ?app_assoc.
Qed.
End run.

(** ** Reading members that have been assigned *)

Definition skipb (f g : cfield) : bool :=
  (0 <=? f_bit g) && (0 <=? f_width g) &&
  ((f_bit f + f_width f <=? f_bit g) || (f_bit g + f_width g <=? f_bit f)).

(** None of the assignments is to [f], or to part of it. *)
Definition skips (f : cfield) (l : list (cfield * Z)) : bool := forallb (fun g => skipb f g.1) l.

Lemma skips_if f (b : bool) l1 l2 : skips f l1 = true -> skips f l2 = true -> skips f (if b then l1 else l2) = true.
Proof. by destruct b. Qed.

Lemma fld_assign_skip f l c : field_ok f -> skips f l = true -> fld f (assign l c) = fld f c.
Proof.
  intros Hf. revert c. induction l as [|[g v] l IH]; intros c; [done|]. cbn [skips forallb fst].
  intros [Hg Hl]%andb_prop. change (fld f (assign l (put g v c)) = fld f c). rewrite (IH (put g v c) Hl).
  unfold skipb in Hg. apply fld_put_apart; [done|unfold field_ok|unfold apart]; lia.
Qed.

Lemma fld_assign_if f (b : bool) l1 l2 c :
  fld f (assign (if b then l1 else l2) c) = if b then fld f (assign l1 c) else fld f (assign l2 c).
Proof. by destruct b. Qed.

(** What the last assignment to [f] is, the others being to other members. *)
Definition sameb (f g : cfield) : bool := (f_bit f =? f_bit g) && (f_width f =? f_width g).
Definition clean (f : cfield) (l : list (cfield * Z)) : bool := forallb (fun g => sameb f g.1 || skipb f g.1) l.

Fixpoint last_value (f : cfield) (l : list (cfield * Z)) (old : Z) : Z :=
  match l with
  | [] => old
  | (g, v) :: l' => last_value f l' (if sameb f g then v mod 2 ^ f_width f else old)
  end.

Lemma fld_assign f l c : field_ok f -> clean f l = true -> fld f (assign l c) = last_value f l (fld f c).
Proof.
  intros Hf. revert c. induction l as [|[g v] l IH]; intros c; [done|]. cbn [clean forallb fst].
  intros [Hg Hl]%andb_prop. change (fld f (assign l (put g v c)) = last_value f l (if sameb f g then v mod 2 ^ f_width f else fld f c)).
  rewrite (IH (put g v c) Hl). f_equal. unfold sameb, skipb in *. destruct f as [fb fw], g as [gb gw]. cbn [f_bit f_width] in *.
  destruct ((fb =? gb) && (fw =? gw)) eqn:E.
  - apply andb_prop in E as [->%Z.eqb_eq ->%Z.eqb_eq]. by rewrite fld_put_same.
  - rewrite orb_false_l in Hg. apply fld_put_apart; [done|unfold field_ok; simpl|unfold apart; simpl]; lia.
Qed.

Lemma last_same f g v l old : sameb f g = true -> last_value f ((g, v) :: l) old = last_value f l (v mod 2 ^ f_width f).
Proof. intros E. cbn [last_value]. by rewrite E. Qed.
Lemma last_other f g v l old : sameb f g = false -> last_value f ((g, v) :: l) old = last_value f l old.
Proof. intros E. cbn [last_value]. by rewrite E. Qed.
Lemma last_nil f old : last_value f [] old = old.
Proof. done. Qed.

Ltac skipping := repeat apply skips_if; reflexivity.

(** The value of a member of a structure built by assignments, some of them conditional. *)
Ltac member :=
  lazymatch goal with
  | |- context [fld ?f (assign ?l ?c)] =>
      first
        [ rewrite (fld_assign_skip f l c); [|layout_side|skipping]
        | lazymatch l with if ?b then ?l1 else ?l2 => rewrite (fld_assign_if f b l1 l2 c) end
        | rewrite (fld_assign f l c); [|layout_side|reflexivity];
          repeat first [rewrite last_same by reflexivity|rewrite last_other by reflexivity];
          rewrite last_nil ]
  end.
Ltac members := repeat member; rewrite ?fld_zero.

(** ** What the contexts of a queue hold *)

(** The vector, or ring, of the interrupts of a queue. *)
Definition intr_vector (x : xlnx_dma_dev) (d : qdma_descq) : Z :=
  if intr_rings (drv_mode x) then get_intr_ring_index x (intr_id d) else intr_id d.

Definition bypass_64b (c : Z) : bool :=
  flag queue_conf.desc_bypass c && (fld queue_conf.sw_desc_sz c =? DESC_SZ_64B).

(** The size of the descriptors of a queue. *)
Definition desc_sz_of (c : Z) : Z :=
  if bypass_64b c then DESC_SZ_64B
  else if negb (is_st c) then DESC_SZ_32B
  else if type_of c =? Q_C2H then DESC_SZ_8B else DESC_SZ_16B.

(** Members with their values. *)
Definition holds (c : Z) (spec : list (cfield * Z)) : Prop := Forall (fun '(f, v) => fld f c = v) spec.

Ltac small :=
  first [reflexivity | apply fld_mod; layout_side | apply Z.mod_mod; discriminate | by apply Z.mod_small].

(** The conditions on a configuration. *)
Ltac cases :=
  unfold intr_vector, desc_sz_of, bypass_64b;
  repeat match goal with
    | |- context [intr_rings ?m] => destruct (intr_rings m)
    | |- context [conf_st_c2h ?c] => destruct (conf_st_c2h c)
    | |- context [flag ?f ?c] => destruct (flag f c)
    | |- context [is_st ?c] => destruct (is_st c)
    | |- context [?a =? ?b] => change (a =? b) with true || change (a =? b) with false
    | |- context [?a =? ?b] => destruct (Z.eqb_spec a b) as [Heq | ?]; [rewrite ?Heq; clear Heq|]
    end; cbn [andb orb negb]; small.

Ltac each := repeat (apply Forall_cons; split); [..|apply Forall_nil; exact I].

Section contents.
Context (x : xlnx_dma_dev) (d : qdma_descq).
Abbreviation q f := (fld f (conf d)).

(** The switches for interrupts and writeback are off for a streaming queue to the host. *)
Definition unless_st_c2h (v : Z) : Z := if conf_st_c2h (conf d) then 0 else v.

(** What is common to a queue of the physical function and one of a virtual one: all members but
    those of [sw_pf_spec] and [sw_vf_spec] below, and [full_upd] of the completion context. *)
Definition sw_spec : list (cfield * Z) :=
  [(sw_ctxt.ring_bs_addr, u64 (desc_bus d));
   (sw_ctxt.rngsz_idx, q queue_conf.desc_rng_sz_idx);
   (sw_ctxt.qen, 1);
   (sw_ctxt.fnc_id, u8 (func_id x));
   (sw_ctxt.vec, u16 (intr_vector x d));
   (sw_ctxt.intr_aggr, Z.b2z (intr_rings (drv_mode x)));
   (sw_ctxt.desc_sz, desc_sz_of (conf d));
   (sw_ctxt.is_mm, u8 (Z.lnot (q queue_conf.st)));
   (sw_ctxt.bypass, q queue_conf.desc_bypass);
   (sw_ctxt.wbi_intvl_en, q queue_conf.cmpl_status_acc_en);
   (sw_ctxt.wbi_chk, unless_st_c2h (q queue_conf.cmpl_status_pend_chk));
   (sw_ctxt.wbk_en, unless_st_c2h (q queue_conf.wb_status_en));
   (sw_ctxt.irq_en, unless_st_c2h (q queue_conf.irq_en));
   (sw_ctxt.irq_arm, unless_st_c2h (q queue_conf.irq_en));
   (sw_ctxt.pidx, 0); (sw_ctxt.at_, 0); (sw_ctxt.fetch_max, 0); (sw_ctxt.port_id, 0); (sw_ctxt.irq_no_last, 0);
   (sw_ctxt.err, 0); (sw_ctxt.err_wb_sent, 0); (sw_ctxt.irq_req, 0); (sw_ctxt.pasid_en, 0);
   (sw_ctxt.dis_intr_on_vf, 0); (sw_ctxt.virtio_en, 0); (sw_ctxt.pack_byp_out, 0); (sw_ctxt.irq_byp, 0);
   (sw_ctxt.host_id, 0); (sw_ctxt.pasid, 0); (sw_ctxt.virtio_dsc_base, 0)].

Definition pfetch_spec : list (cfield * Z) :=
  [(pfetch_ctxt.valid, 1);
   (pfetch_ctxt.bypass, q queue_conf.pfetch_bypass);
   (pfetch_ctxt.bufsz_idx, q queue_conf.c2h_buf_sz_idx);
   (pfetch_ctxt.pfch_en, q queue_conf.pfetch_en);
   (pfetch_ctxt.sw_crdt, 0); (pfetch_ctxt.port_id, 0); (pfetch_ctxt.var_desc, 0); (pfetch_ctxt.num_pftch, 0);
   (pfetch_ctxt.err, 0); (pfetch_ctxt.pfch, 0)].

Definition cmpt_spec : list (cfield * Z) :=
  [(cmpt_ctxt.bs_addr, u64 (desc_cmpt_bus d));
   (cmpt_ctxt.en_stat_desc, q queue_conf.cmpl_stat_en);
   (cmpt_ctxt.en_int, q queue_conf.cmpl_en_intr);
   (cmpt_ctxt.trig_mode, q queue_conf.cmpl_trig_mode);
   (cmpt_ctxt.fnc_id, u8 (func_id x));
   (cmpt_ctxt.timer_idx, q queue_conf.cmpl_timer_idx);
   (cmpt_ctxt.counter_idx, q queue_conf.cmpl_cnt_th_idx);
   (cmpt_ctxt.color, 1);
   (cmpt_ctxt.ringsz_idx, q queue_conf.cmpl_rng_sz_idx);
   (cmpt_ctxt.desc_sz, q queue_conf.cmpl_desc_sz);
   (cmpt_ctxt.valid, 1);
   (cmpt_ctxt.ovf_chk_dis, q queue_conf.cmpl_ovf_chk_dis);
   (cmpt_ctxt.vec, u16 (intr_vector x d));
   (cmpt_ctxt.int_aggr, Z.b2z (intr_rings (drv_mode x)));
   (cmpt_ctxt.pidx, 0); (cmpt_ctxt.cidx, 0); (cmpt_ctxt.in_st, 0); (cmpt_ctxt.err, 0);
   (cmpt_ctxt.user_trig_pend, 0); (cmpt_ctxt.timer_running, 0); (cmpt_ctxt.at_, 0);
   (cmpt_ctxt.dis_intr_on_vf, 0); (cmpt_ctxt.vio, 0); (cmpt_ctxt.dir_c2h, 0); (cmpt_ctxt.host_id, 0);
   (cmpt_ctxt.pasid, 0); (cmpt_ctxt.pasid_en, 0); (cmpt_ctxt.vio_eop, 0); (cmpt_ctxt.sh_cmpt, 0)].

(** What only the physical function sets. *)
Definition sw_pf_spec : list (cfield * Z) :=
  [(sw_ctxt.mm_chn, if negb (bypass_64b (conf d)) && negb (is_st (conf d)) then u8 (channel d) else 0);
   (sw_ctxt.mrkr_dis, Z.b2z (negb (flag queue_conf.desc_bypass (conf d)) &&
                             (negb (is_st (conf d)) || (type_of (conf d) =? Q_H2C))));
   (sw_ctxt.frcd_en, if negb (bypass_64b (conf d)) && is_st (conf d) && ((type_of (conf d) =? Q_C2H) || (type_of (conf d) =? Q_H2C))
                     then q queue_conf.fetch_credit else 0)].

(** The same members, for a virtual function. *)
Definition sw_vf_spec : list (cfield * Z) :=
  [(sw_ctxt.mm_chn, 0); (sw_ctxt.mrkr_dis, 0);
   (sw_ctxt.frcd_en, if negb (bypass_64b (conf d)) && is_st (conf d) && (type_of (conf d) =? Q_C2H)
                     then q queue_conf.fetch_credit else 0)].

Lemma type_range : 0 <= type_of (conf d) < 4.
Proof. apply (fld_range queue_conf.q_type). layout_side. Qed.

Lemma sw_context_holds : holds (make_sw_context x d) (sw_spec ++ sw_pf_spec).
Proof. unfold holds, sw_spec, sw_pf_spec, make_sw_context. cbn [app]. each. all: members; unfold unless_st_c2h; cases. Qed.

Lemma prefetch_context_holds : holds (make_prefetch_context d) pfetch_spec.
Proof. unfold holds, pfetch_spec, make_prefetch_context. each. all: members; unfold unless_st_c2h; cases. Qed.

Lemma cmpt_context_holds :
  holds (make_cmpt_context x d) (cmpt_spec ++ [(cmpt_ctxt.full_upd, q queue_conf.adaptive_rx)]).
Proof. unfold holds, cmpt_spec, make_cmpt_context. cbn [app]. each. all: members; unfold unless_st_c2h; cases. Qed.
End contents.

(** ** The same contexts for a virtual function *)

Section virtual_function.
Context (x : xlnx_dma_dev) (csr : global_csr_conf) (d : qdma_descq).
Abbreviation q f := (fld f (conf d)).
Context (Hty : type_of (conf d) < 2) (Hvec : 0 <= intr_vector x d < 2048).

Definition vf_members : list (cfield * Z) :=
  [(descq_conf.ring_bs_addr, u64 (desc_bus d));
   (descq_conf.cmpt_ring_bs_addr, u64 (desc_cmpt_bus d));
   (descq_conf.en_bypass, q queue_conf.desc_bypass);
   (descq_conf.irq_arm, q queue_conf.irq_en);
   (descq_conf.wbi_intvl_en, q queue_conf.cmpl_status_acc_en);
   (descq_conf.wbi_chk, q queue_conf.cmpl_status_pend_chk);
   (descq_conf.wbk_en, q queue_conf.wb_status_en);
   (descq_conf.irq_en, q queue_conf.irq_en);
   (descq_conf.pfch_en, q queue_conf.pfetch_en);
   (descq_conf.en_bypass_prefetch, q queue_conf.pfetch_bypass);
   (descq_conf.dis_overflow_check, q queue_conf.cmpl_ovf_chk_dis);
   (descq_conf.cmpt_int_en, q queue_conf.cmpl_en_intr);
   (descq_conf.cmpl_stat_en, q queue_conf.cmpl_stat_en);
   (descq_conf.desc_sz, desc_sz_of (conf d));
   (descq_conf.forced_en, if negb (bypass_64b (conf d)) && is_st (conf d) && (type_of (conf d) =? Q_C2H)
                          then q queue_conf.fetch_credit else 0);
   (descq_conf.cmpt_desc_sz, q queue_conf.cmpl_desc_sz);
   (descq_conf.triggermode, q queue_conf.cmpl_trig_mode);
   (descq_conf.intr_id, intr_vector x d);
   (descq_conf.intr_aggr, Z.b2z (intr_rings (drv_mode x)))].

Lemma vf_conf_holds : holds (vf_descq_conf x csr d) vf_members.
Proof.
  assert (type_of (conf d) = 0 \/ type_of (conf d) = 1) as Ht by (pose proof (type_range d); lia).
  unfold holds, vf_members, vf_descq_conf. change (q queue_conf.q_type) with (type_of (conf d)). each.
  all: members; try (progress cases).
  - unfold desc_sz_of. destruct Ht as [-> | ->]; cases.
  - destruct Ht as [-> | ->]; cases.
  - unfold intr_vector in *. destruct (intr_rings (drv_mode x)); [|by apply Z.mod_small].
    change 4095 with (Z.ones 12). rewrite Z.land_ones by done. rewrite (Z.mod_small _ (2 ^ 12)) by lia. by apply Z.mod_small.
Qed.

(** What the physical function reads in the request. *)
Context (m : Z).
Context (Hm : forall f, field_ok f -> apart f descq_conf.func_id -> within f (bytes_at 0 32) ->
  fld (MboxMsg.conf f) m = fld f (vf_descq_conf x csr d)).
Context (Hfunc : fld (MboxMsg.conf descq_conf.func_id) m = func_id x).
Context (Hst : fld qctxt.st m = q queue_conf.st) (Hc2h : fld qctxt.c2h m = type_of (conf d)).

Lemma holds_in c spec f v : holds c spec -> (f, v) ∈ spec -> fld f c = v.
Proof. unfold holds. rewrite Forall_forall. by intros H1 H2%H1. Qed.

(** A member of the request. *)
Lemma request_member f v :
  (f, v) ∈ vf_members -> fld (MboxMsg.conf f) m = v.
Proof.
  intros Hin. rewrite Hm; [by apply (holds_in _ vf_members); [apply vf_conf_holds|]|..].
  all: assert (Forall (fun g => field_ok g /\ apart g descq_conf.func_id /\ within g (bytes_at 0 32)) vf_members.*1) as Hall
    by (unfold vf_members; cbn [fmap list_fmap fst]; repeat (apply Forall_cons; split); [..|apply Forall_nil; exact I]; layout_side).
  all: rewrite Forall_forall in Hall; apply (Hall f), list_elem_of_fmap; by exists (f, v).
Qed.

Lemma st_c2h_request : MboxPf.is_st_c2h (fld qctxt.st m) (fld qctxt.c2h m) = conf_st_c2h (conf d).
Proof.
  unfold MboxPf.is_st_c2h, conf_st_c2h, st_c2h, is_st, flag. rewrite Hst, Hc2h.
  assert (type_of (conf d) = 0 \/ type_of (conf d) = 1) as [-> | ->] by (pose proof (type_range d); lia); done.
Qed.

Ltac in_list := repeat first [apply list_elem_of_here|apply list_elem_of_further].

Ltac request :=
  repeat match goal with |- context [fld (MboxMsg.conf ?f) m] =>
    first [rewrite Hfunc | erewrite (request_member f) by (unfold vf_members; in_list)] end;
  rewrite ?Hst, ?st_c2h_request.

(** What the physical function writes for a virtual one is what it would write for itself,
    but for three members of the software context. *)
Lemma vf_sw_context_holds :
  holds (MboxPf.sw_ctxt_of (q queue_conf.desc_rng_sz_idx) m)
    (sw_spec x d ++ sw_vf_spec d).
Proof.
  unfold holds, sw_spec, sw_vf_spec, MboxPf.sw_ctxt_of. cbv zeta.
  fold (MboxPf.is_st_c2h (fld qctxt.st m) (fld qctxt.c2h m)). rewrite st_c2h_request.
  destruct (conf_st_c2h (conf d)) eqn:Ec; cbn [app]; each.
  all: members; request; unfold unless_st_c2h; rewrite ?Ec; cases.
Qed.
Lemma vf_prefetch_context_holds : holds (MboxPf.pfetch_ctxt_of (q queue_conf.c2h_buf_sz_idx) m) (pfetch_spec d).
Proof. unfold holds, pfetch_spec, MboxPf.pfetch_ctxt_of. each. all: members; request; cases. Qed.

Lemma vf_cmpt_context_holds :
  holds (MboxPf.cmpt_ctxt_of (q queue_conf.cmpl_cnt_th_idx) (q queue_conf.cmpl_timer_idx) (q queue_conf.cmpl_rng_sz_idx) m)
    (cmpt_spec x d ++ [(cmpt_ctxt.full_upd, 0)]).
Proof.
  unfold holds, cmpt_spec, MboxPf.cmpt_ctxt_of. cbv zeta. cbn [app]. each.
  all: members; request; cases.
Qed.
End virtual_function.

(** ** Setting a queue up *)

(** All members of the contexts of a queue with the configuration of [d]; [own] and
    [full_upd] are those in which the physical function and a virtual one differ. *)
Definition contexts_of (x : xlnx_dma_dev) (d : qdma_descq) (own : list (cfield * Z)) (full_upd : Z) (sw pf cm : Z) : Prop :=
  holds sw (sw_spec x d ++ own) /\
  (conf_st_c2h (conf d) = true -> holds pf (pfetch_spec d)) /\
  (conf_has_cmpt (conf d) = true -> holds cm (cmpt_spec x d ++ [(cmpt_ctxt.full_upd, full_upd)])).

(** A structure that has been copied into a larger one. *)
Lemma holds_mod c spec w :
  0 <= w -> Forall (fun f => field_ok f /\ f_bit f + f_width f <= w) spec.*1 -> holds c spec -> holds (c mod 2 ^ w) spec.
Proof.
  intros Hw Hf. unfold holds. rewrite !Forall_forall. intros Hc [f v] Hin. pose proof (Hc _ Hin) as E. cbn beta iota in *.
  rewrite Forall_forall in Hf. destruct (Hf f) as [Hok Hfit]; [apply list_elem_of_fmap; by exists (f, v)|].
  rewrite <- Z.land_ones by done. change (Z.land c (Z.ones w)) with (fld (mk_field 0 w) c).
  rewrite fld_inside by (done || (split; simpl; lia)). unfold inside. destruct f; exact E.
Qed.

Ltac inside_all := repeat (apply Forall_cons; split); [..|apply Forall_nil; exact I]; vm_compute; repeat split; discriminate.

Section setup.
Context (x : xlnx_dma_dev) (d : qdma_descq) (Hty : type_of (conf d) < 2).

Lemma not_cmpt : (type_of (conf d) =? Q_CMPT) = false.
Proof. apply Z.eqb_neq. unfold Q_CMPT. lia. Qed.

Lemma has_cmpt_st_c2h : conf_has_cmpt (conf d) = conf_st_c2h (conf d).
Proof. unfold conf_has_cmpt, has_cmpt_ring, mm_cmpt. by rewrite not_cmpt, andb_false_r, orb_false_r. Qed.

(** The contexts, as the object with all of them has them. *)
Lemma contexts_in_object :
  let context := make_context x d in
  holds (fld descq_ctxt.sw context) (sw_spec x d ++ sw_pf_spec d) /\
  (conf_st_c2h (conf d) = true -> holds (fld descq_ctxt.pfetch context) (pfetch_spec d)) /\
  (conf_has_cmpt (conf d) = true ->
     holds (fld descq_ctxt.cmpt context) (cmpt_spec x d ++ [(cmpt_ctxt.full_upd, fld queue_conf.adaptive_rx (conf d))])).
Proof.
  cbv zeta. unfold make_context. rewrite has_cmpt_st_c2h, not_cmpt. cbn [negb andb]. split_and!.
  - members. apply holds_mod; [done| |apply sw_context_holds].
    unfold sw_spec, sw_pf_spec. cbn [app fmap list_fmap fst]. inside_all.
  - intros ->. members. apply holds_mod; [done| |apply prefetch_context_holds].
    unfold pfetch_spec. cbn [fmap list_fmap fst]. inside_all.
  - intros ->. members. apply holds_mod; [done| |apply cmpt_context_holds].
    unfold cmpt_spec. cbn [app fmap list_fmap fst]. inside_all.
Qed.
End setup.

(** The calls of the driver, where the hardware has no map of queues to vectors to fill in, are
    those that the physical function makes for a request. *)
Lemma setup_calls_eq x qid_hw st ty context :
  0 <= ty < 2 -> flag dev_attributes.qid2vec_ctx (dev_cap x) && negb (bool_decide (drv_mode x = POLL_MODE)) = false ->
  write_calls x qid_hw st ty context ++ clear_calls qid_hw st ty CLEAR =
  Hw <$> MboxFlows.setup_calls ty (u16 qid_hw) (st_c2h st ty) (has_cmpt_ring st ty)
           (fld descq_ctxt.sw context) (fld descq_ctxt.pfetch context) (fld descq_ctxt.cmpt context).
Proof.
  intros Ht Hv. unfold write_calls, clear_calls, MboxFlows.setup_calls. rewrite Hv.
  assert (ty = 0 \/ ty = 1) as [-> | ->] by lia; by destruct st.
Qed.

Section end_to_end.
Context {S : Type} `{HasCalls S} `{DrvAccess} `{MboxPf.HwAccess}.
Context (x : xlnx_dma_dev) (csrs : global_csr_conf) (d : qdma_descq) (csr : qdma_global_csr_type -> Z).

(** The indices in the configuration stand for its sizes and thresholds. *)
Definition indices_agree : Prop :=
  let q f := Z.to_nat (fld f (conf d)) in
  MboxFlows.csr_indices csr (fun f => fld f (vf_descq_conf x csrs d)) (q queue_conf.desc_rng_sz_idx)
    (q queue_conf.c2h_buf_sz_idx) (q queue_conf.cmpl_cnt_th_idx) (q queue_conf.cmpl_timer_idx) (q queue_conf.cmpl_rng_sz_idx).

Lemma index_of f : field_ok f -> Z.of_nat (Z.to_nat (fld f (conf d))) = fld f (conf d).
Proof. intros Hf. pose proof (fld_range f (conf d) Hf). by rewrite Z2Nat.id by lia. Qed.

Abbreviation c := (conf d).
Abbreviation set_up sw pf cm :=
  (MboxFlows.setup_calls (type_of c) (qidx_hw d) (conf_st_c2h c) (conf_has_cmpt c) sw pf cm).

Lemma vf_cmpt_type :
  type_of c < 2 ->
  vf_cmpt_ctxt_type (is_st c) (type_of c) <> QDMA_MBOX_CMPT_CTXT_ONLY /\
  MboxPf.has_cmpt (vf_cmpt_ctxt_type (is_st c) (type_of c)) = conf_has_cmpt c.
Proof.
  intros Ht. unfold vf_cmpt_ctxt_type, conf_has_cmpt, has_cmpt_ring, st_c2h, mm_cmpt. rewrite (not_cmpt d) by done.
  destruct (is_st c); cbn [negb andb orb]; [|done]. by destruct (type_of c =? Q_C2H).
Qed.

(** On the physical function. *)
Lemma driver_sets_up (s : S) :
  drv_healthy -> type_of c < 2 -> is_u16 (qidx_hw d) ->
  flag dev_attributes.qid2vec_ctx (dev_cap x) && negb (bool_decide (drv_mode x = POLL_MODE)) = false ->
  exists sw pf cm, qdma_descq_context_setup x d s = Ret 0 (after_calls (Hw <$> set_up sw pf cm) s) /\
    contexts_of x d (sw_pf_spec d) (fld queue_conf.adaptive_rx c) sw pf cm.
Proof.
  intros Hok Hty Hq Hv. destruct (contexts_in_object x d Hty) as (Hsw & Hpf & Hcm).
  eexists _, _, _. split; [|by split_and!].
    unfold qdma_descq_context_setup. rewrite program_run by done.
    rewrite setup_calls_eq by (done || (pose proof (type_range d); lia)).
    assert (u16 (qidx_hw d) = qidx_hw d) as -> by (unfold is_u16 in Hq; by unwrap_ints). reflexivity.
Qed.

(** Behind the mailbox. *)
Lemma request_sets_up idx func_id st resp calls m2 :
  MboxFlows.healthy csr -> indices_agree ->
  type_of c < 2 -> 0 <= intr_vector x d < 2048 -> is_u16 (qidx_hw d) -> is_u16 (DrvData.func_id x) ->
  qdma_dev_is_queue_in_range idx (DrvData.func_id x) (qidx_hw d) st = QDMA_DEV_Q_IN_RANGE ->
  fld raw_words m2 = fld raw_words (put hdr.src_func_id (DrvData.func_id x) (raw (vf_setup_request x csrs d))) ->
  exists sw pf cm reads s2,
    MboxPf.qdma_mbox_pf_rcv_msg_handler idx func_id (Some m2) resp st calls = Ret 0 s2 /\
    qdma_mbox_vf_response_status (MboxPf.resp_msg s2) = 0 /\
    MboxPf.hw_calls s2 = set_up sw pf cm ++ reads ++ calls /\
    Forall (fun r => exists t, r = MboxPf.csr_call t) reads /\ contexts_of x d (sw_vf_spec d) 0 sw pf cm.
Proof.
  intros Hhw Hi Hty Hvec Hq Hf Hin Hm2.
  assert (0 <= type_of c < 2) as Htr by (pose proof (type_range d); lia).
  pose proof (fld_range queue_conf.st c ltac:(layout_side)) as Hst.
  assert (u16 (qidx_hw d) = qidx_hw d) as Eq by (unfold is_u16 in Hq; by unwrap_ints).
  set (m1 := raw (vf_setup_request x csrs d)) in *.
  assert (qdma_mbox_compose_vf_qctxt_write (DrvData.func_id x) (qidx_hw d) (fld queue_conf.st c) (type_of c)
    (vf_cmpt_ctxt_type (is_st c) (type_of c)) (vf_descq_conf x csrs d) (Some 0) = (0, Some m1)) as Hm1
    by (unfold m1, vf_setup_request; by rewrite Eq).
  destruct (MboxFlows.qctxt_received _ _ _ _ _ _ _ _ _ _ Hm1 Hm2 Hq Hf Hst Htr)
    as (Ho & Hsrc & Eqid & Est & Ec & Et & Ef & Hdc).
  set (m3 := put (MboxMsg.conf descq_conf.func_id) (DrvData.func_id x) m2) in *.
  destruct (vf_cmpt_type Hty) as [Hnot Hhas].
  edestruct (MboxFlows.write_run idx csr Hhw m3 (Z.to_nat (fld queue_conf.desc_rng_sz_idx c))
    (Z.to_nat (fld queue_conf.c2h_buf_sz_idx c)) (Z.to_nat (fld queue_conf.cmpl_cnt_th_idx c))
    (Z.to_nat (fld queue_conf.cmpl_timer_idx c)) (Z.to_nat (fld queue_conf.cmpl_rng_sz_idx c)))
    with (s := MboxPf.mk_pf st calls m3 resp) as (reads & Hreads & Hrun).
  - destruct Hi as [I1 I2 I3 I4 I5]. split; cbn beta; rewrite Hdc; try done; layout_side.
  - by rewrite Eqid, Ef.
  - by rewrite Et.
  - pose proof (MboxFlows.wrt_run idx func_id m2 _ resp st calls _ _ Ho Hsrc Hrun eq_refl eq_refl) as Hh.
    rewrite !index_of in Hh by layout_side.
    eexists _, _, _, reads, _. split; [exact Hh|]. cbn [MboxPf.hw_calls MboxPf.resp_msg].
    split; [by apply MboxFlows.response_status|]. split; [|split; [exact Hreads|]].
    + rewrite Eqid, Ec, Et, Hhas, <- (st_c2h_request d Hty m3 Est Ec), Ec. reflexivity.
    + split_and!; [by apply (vf_sw_context_holds x csrs d Hty Hvec m3)|
        intros _; by apply (vf_prefetch_context_holds x csrs d)|
        intros _; by apply (vf_cmpt_context_holds x csrs d Hty Hvec m3)].
Qed.

(** C10. A queue of a virtual function is set up like a queue of the physical function.  For
    the same configuration, on hardware on which nothing fails, the driver of the physical
    function and the physical function that handles the request of a virtual function make
    the same calls in the same order, first clearing the contexts and then writing them; and
    every member of the contexts they write has the same value, but for four: the channel, the
    disabling of markers and the forced credits of the software context, which are those of [sw_pf_spec] and
    [sw_vf_spec], and the full updates of the completion status, which a virtual function
    does not get ([virtual_function_loses_adaptive_rx] in DrvLimits).  The queue is one of either
    direction, in range for the function; its indices stand for the sizes and thresholds in the card's
    global registers, its vector fits eleven bits, and the hardware has no map of queues to vectors
    in use (which only the physical function would write). *)
Theorem vf_queue_set_up_like_pf idx func_id st resp calls m2 (s : S) :
  let c := conf d in
  drv_healthy -> MboxFlows.healthy csr -> indices_agree ->
  type_of c < 2 -> 0 <= intr_vector x d < 2048 -> is_u16 (qidx_hw d) -> is_u16 (DrvData.func_id x) ->
  flag dev_attributes.qid2vec_ctx (dev_cap x) && negb (bool_decide (drv_mode x = POLL_MODE)) = false ->
  qdma_dev_is_queue_in_range idx (DrvData.func_id x) (qidx_hw d) st = QDMA_DEV_Q_IN_RANGE ->
  fld raw_words m2 = fld raw_words (put hdr.src_func_id (DrvData.func_id x) (raw (vf_setup_request x csrs d))) ->
  let set_up sw pf cm := MboxFlows.setup_calls (type_of c) (qidx_hw d) (conf_st_c2h c) (conf_has_cmpt c) sw pf cm in
  exists sw pf cm sw' pf' cm' reads s2,
    qdma_descq_context_setup x d s = Ret 0 (after_calls (Hw <$> set_up sw pf cm) s) /\
    MboxPf.qdma_mbox_pf_rcv_msg_handler idx func_id (Some m2) resp st calls = Ret 0 s2 /\
    qdma_mbox_vf_response_status (MboxPf.resp_msg s2) = 0 /\
    MboxPf.hw_calls s2 = set_up sw' pf' cm' ++ reads ++ calls /\
    Forall (fun r => exists t, r = MboxPf.csr_call t) reads /\
    contexts_of x d (sw_pf_spec d) (fld queue_conf.adaptive_rx c) sw pf cm /\
    contexts_of x d (sw_vf_spec d) 0 sw' pf' cm'.
Proof.
  intros c Hok Hhw Hi Hty Hvec Hq Hf Hv Hin Hm2 set_up.
  destruct (driver_sets_up s Hok Hty Hq Hv) as (sw & pf & cm & Hrun & Hc).
  destruct (request_sets_up idx func_id st resp calls m2) as (sw' & pf' & cm' & reads & s2 & Hh & Hs & Hcs & Hr & Hc'); [done..|].
  by exists sw, pf, cm, sw', pf', cm', reads, s2.
Qed.
End end_to_end.

(** ** Concrete runs *)

(** Calls that all succeed and leave their objects alone. *)
Definition sample_drv : DrvAccess := {| drv_code _ _ := 0; drv_output _ _ old := old |}.

Definition sample_xdev : xlnx_dma_dev :=
  mk_xdev QDMA_SOFT 0 0 6 (put dev_attributes.st_en 1 (put dev_attributes.mm_en 1 (put dev_attributes.mm_cmpt_en 1 0)))
    POLL_MODE true 0 8 110 20 0 0 1 [].

(** A streaming queue to the host. *)
Definition sample_st_c2h : Z := assign
  [(queue_conf.qidx, 0); (queue_conf.st, 1); (queue_conf.q_type, Q_C2H); (queue_conf.desc_rng_sz_idx, 2);
   (queue_conf.c2h_buf_sz_idx, 5); (queue_conf.cmpl_cnt_th_idx, 1); (queue_conf.cmpl_timer_idx, 2);
   (queue_conf.cmpl_rng_sz_idx, 6); (queue_conf.wb_status_en, 1); (queue_conf.pfetch_en, 1);
   (queue_conf.rngsz, 66); (queue_conf.c2h_bufsz, 70); (queue_conf.rngsz_cmpt, 70)] 0.

Definition sample_csrs : global_csr_conf :=
  let row v := replicate QDMA_GLOBAL_CSR_ARRAY_SZ v in mk_csr (row 0) (row 67) (row 66) (row 0) 0.

Definition idle_descq (conf qidx_hw : Z) : qdma_descq :=
  mk_descq conf 0 Q_STATE_DISABLED qidx_hw 0 false 0 None 0 [] 0 [] false false 0 0 0 0 0 0 0 0 0 0 0 0 0 0 0 0 0 0 0 0.

Lemma vf_queue_set_up_like_pf_witness :
  let d := idle_descq sample_st_c2h 110 in
  let m := put hdr.src_func_id 6 (raw (vf_setup_request sample_xdev sample_csrs d)) in
  exists (s' : list drv_call) s2,
    @qdma_descq_context_setup _ _ sample_drv sample_xdev d [] = Ret 0 s' /\ length s' = 8%nat /\
    @MboxPf.qdma_mbox_pf_rcv_msg_handler MboxProps.sample_hw 0 1 (Some m) 0 ResourceProps.sample_state [] = Ret 0 s2.
Proof.
  intros d m.
  destruct (@vf_queue_set_up_like_pf (list drv_call) _ sample_drv MboxProps.sample_hw sample_xdev sample_csrs d
    MboxProps.sample_csr 0 1 ResourceProps.sample_state 0 [] m [])
    as (sw & pf & cm & sw' & pf' & cm' & reads & s2 & Hrun & Hh & _).
  - intros ??. reflexivity.
  - exact MboxFlows.sample_healthy.
  - split; by vm_compute.
  - by vm_compute.
  - by vm_compute.
  - by vm_compute.
  - by vm_compute.
  - reflexivity.
  - by vm_compute.
  - reflexivity.
  - eexists _, s2. split; [exact Hrun|]. split; [reflexivity|exact Hh].
Defined.
