(* ===== verification/DrvThread.v ===== *)
(** * DrvThread: sharing queues out to processors and threads ([qdma_thread.c])

    With interrupts, the work of a queue is done on the processor that has the fewest
    queues; without, by one of the threads that poll for completions.  A queue is its
    number in the array of queues of the device. *)

From S2P Require Import Prelude Mmio DrvData.
From S2P Require Descq.
Import Descq(q_state_t(..), qdma_drv_mode(..)).
Local Open Scope Z_scope.

(** [struct qdma_kthread]: the queues it polls, and how many it takes them to be. *)
Record qdma_kthread := mk_kthread { thread_work_list : list nat; work_cnt : Z }.

(** The global variables: a number of queues for each processor, and the threads. *)
Record cpu_threads := mk_threads {
  per_cpu_qcnt : list Z;
  cs_threads : list qdma_kthread }.

Definition set_per_cpu_qcnt (l : list Z) (t : cpu_threads) : cpu_threads := mk_threads l (cs_threads t).
Definition set_cs_threads (l : list qdma_kthread) (t : cpu_threads) : cpu_threads := mk_threads (per_cpu_qcnt t) l.

(** ** Choosing a processor *)

(** The loop down from the processor before last: where it stands, what it has chosen and the
    number of queues there. *)
Fixpoint cpu_loop (qcnt : list Z) (i : nat) (idx : nat) (v : Z) : nat :=
  match i with
  | O => idx
  | S i' =>
      if v =? 0 then idx
      else let c := nth i' qcnt 0 in
           if c <? v then cpu_loop qcnt i' i' c else cpu_loop qcnt i' idx v
  end.

Definition pick_cpu (qcnt : list Z) : nat :=
  let idx := (length qcnt - 1)%nat in cpu_loop qcnt idx idx (nth idx qcnt 0).

(** ** Choosing a thread *)

(** [idx] is [None] before the first thread; [v] is assigned to there only. *)
Fixpoint thread_loop (cnts : list Z) (i : nat) (idx : option nat) (v : Z) : option nat :=
  match cnts with
  | [] => idx
  | c :: cnts' =>
      match idx with
      | None => thread_loop cnts' (S i) (Some i) c
      | Some j =>
          if c =? 0 then Some i
          else if c <? v then thread_loop cnts' (S i) (Some i) v
          else thread_loop cnts' (S i) (Some j) v
      end
  end.

Definition pick_thread (cnts : list Z) : option nat := thread_loop cnts 0 None 0.

(** ** Adding and removing a queue *)

(** [None] when there is no thread to choose. *)
Definition qdma_thread_add_work (mode : qdma_drv_mode) (q : nat) (t : cpu_threads) (d : qdma_descq) :
    option (cpu_threads * qdma_descq) :=
  if negb (bool_decide (mode = POLL_MODE)) then
    let idx := pick_cpu (per_cpu_qcnt t) in
    Some (set_per_cpu_qcnt (alter (fun c => u32 (c + 1)) idx (per_cpu_qcnt t)) t,
          set_cpu_assigned true (set_intr_work_cpu (Z.of_nat idx) d))
  else
    idx ← pick_thread (work_cnt <$> cs_threads t);
    Some (set_cs_threads (alter (fun th => mk_kthread (thread_work_list th ++ [q]) (u32 (work_cnt th + 1))) idx (cs_threads t)) t,
          set_cmplthp (Some idx) (set_intr_work_cpu (Z.of_nat idx) d)).

Definition qdma_thread_remove_work (q : nat) (t : cpu_threads) (d : qdma_descq) : cpu_threads * qdma_descq :=
  let cpu_idx := if cpu_assigned d then intr_work_cpu d else Z.of_nat (length (per_cpu_qcnt t)) in
  let t := if cpu_idx <? Z.of_nat (length (per_cpu_qcnt t))
           then set_per_cpu_qcnt (alter (fun c => u32 (c - 1)) (Z.to_nat cpu_idx) (per_cpu_qcnt t)) t else t in
  let t := match cmplthp d with
           | Some idx =>
               set_cs_threads (alter (fun th => mk_kthread (filter (fun q' => q' <> q) (thread_work_list th)) (u32 (work_cnt th - 1)))
                                 idx (cs_threads t)) t
           | None => t
           end in
  (t, set_cpu_assigned false (set_cmplthp None d)).

(** Whether a queue has anything to do ([qdma_thread_cmpl_status_pend]). *)
Definition qdma_thread_cmpl_status_pend (d : qdma_descq) : bool :=
  negb (bool_decide (pend_list d = [])) || negb (bool_decide (work_list d = [])).

(** ** What is chosen *)

Lemma cpu_loop_min qcnt i idx v :
  (i <= length qcnt)%nat -> qcnt !! idx = Some v -> Forall (fun c => 0 <= c) qcnt ->
  (forall k c, (i <= k)%nat -> qcnt !! k = Some c -> v <= c) ->
  exists m, qcnt !! cpu_loop qcnt i idx v = Some m /\ forall k c, qcnt !! k = Some c -> m <= c.
Proof.
  revert idx v. induction i as [|i IH]; intros idx v Hi Hv H0 Hle; cbn [cpu_loop].
  { exists v. split; [done|]. intros k c. apply Hle. lia. }
  destruct (Z.eqb_spec v 0) as [-> | Hnz].
  { exists 0. split; [done|]. intros k c Hk. rewrite Forall_lookup in H0. by apply (H0 k). }
  destruct (lookup_lt_is_Some_2 qcnt i) as [ci Hci]; [lia|]. rewrite (nth_lookup_Some _ _ _ _ Hci).
  destruct (Z.ltb_spec ci v); (apply IH; [lia|done|done|]); intros k c Hk Hc;
    (destruct (decide (k = i)) as [-> | ]; [rewrite Hci in Hc; injection Hc as <-; lia|]);
    assert (v <= c) by (apply (Hle k); [lia|done]); lia.
Qed.

(** The processor chosen has the fewest queues. *)
Lemma pick_cpu_least qcnt :
  qcnt <> [] -> Forall (fun c => 0 <= c) qcnt ->
  exists m, qcnt !! pick_cpu qcnt = Some m /\ forall k c, qcnt !! k = Some c -> m <= c.
Proof.
  intros Hne H0. unfold pick_cpu. assert (0 < length qcnt)%nat by (destruct qcnt; [done|simpl; lia]).
  destruct (lookup_lt_is_Some_2 qcnt (length qcnt - 1)) as [v Hv]; [lia|]. rewrite (nth_lookup_Some _ _ _ _ Hv).
  apply cpu_loop_min; [lia|done|done|]. intros k c Hk Hc. pose proof (lookup_lt_Some _ _ _ Hc).
  replace k with (length qcnt - 1)%nat in Hc by lia. rewrite Hv in Hc. by injection Hc as <-.
Qed.

(** The thread chosen need not: the number compared with is always the first thread's. *)
Lemma pick_thread_not_least :
  pick_thread [3; 1; 2] = Some 2%nat.
Proof. reflexivity. Qed.

Lemma thread_loop_range cnts i idx v n :
  (forall j, idx = Some j -> (j < n)%nat) -> (i + length cnts = n)%nat ->
  forall j, thread_loop cnts i idx v = Some j -> (j < n)%nat.
Proof.
  revert i idx v. induction cnts as [|c cnts IH]; intros i idx v Hj Hn j; cbn [thread_loop length] in *; [by apply Hj|].
  destruct idx as [k|].
  - case_match; [intros [= <-]; lia|]. case_match; apply IH; (lia || (intros ? [= <-]; first [lia|by apply Hj])).
  - apply IH; [intros ? [= <-]; lia|lia].
Qed.

Lemma pick_thread_range cnts j : pick_thread cnts = Some j -> (j < length cnts)%nat.
Proof. by apply thread_loop_range. Qed.

(** Two changes to an entry that cancel each other out. *)
Lemma alter_undo {A} (f g : A -> A) (i : nat) (l : list A) :
  (forall a, l !! i = Some a -> g (f a) = a) -> alter g i (alter f i l) = l.
Proof.
  intros Hi. apply list_eq. intros j. destruct (decide (i = j)) as [<- | Hj].
  - rewrite !list_lookup_alter_eq. destruct (l !! i) as [a|] eqn:E; [|done]. cbn. by rewrite Hi.
  - by rewrite !list_lookup_alter_ne.
Qed.

Lemma u32_undo c : is_u32 c -> u32 (u32 (c + 1) - 1) = c.
Proof.
  intros Hc. unfold u32, is_u32 in *. rewrite Zminus_mod_idemp_l. replace (c + 1 - 1) with c by lia. by apply Z.mod_small.
Qed.

(** Removing a queue that has just been added restores the counts and the lists. *)
Lemma remove_added mode q t d t' d' :
  cmplthp d = None -> cpu_assigned d = false -> per_cpu_qcnt t <> [] ->
  Forall is_u32 (per_cpu_qcnt t) -> Forall (fun th => is_u32 (work_cnt th) /\ q ∉ thread_work_list th) (cs_threads t) ->
  qdma_thread_add_work mode q t d = Some (t', d') ->
  (qdma_thread_remove_work q t' d').1 = t.
Proof.
  intros Hc Ha Hne Hq Hth. unfold qdma_thread_add_work. rewrite Forall_lookup in Hq. rewrite Forall_lookup in Hth. destruct (bool_decide _) eqn:E; cbn [negb].
  - destruct (pick_thread _) as [idx|] eqn:Ep; [|done]. intros [= <- <-].
    unfold qdma_thread_remove_work. destruct d; cbn in *. subst. rewrite Z.ltb_irrefl. destruct t as [qc ths]; cbn in *.
    unfold set_cs_threads; cbn. f_equal. apply alter_undo. intros [wl wc] Hl. cbn.
    destruct (Hth _ _ Hl) as [Hu Hn]. cbn in *. rewrite u32_undo by done. f_equal.
    rewrite filter_app. cbn. rewrite decide_False by tauto. rewrite app_nil_r.
    clear -Hn. induction wl as [|x wl IH]; [done|]. cbn. rewrite not_elem_of_cons in Hn. rewrite decide_True by (intros ->; tauto).
    f_equal. tauto.
  - intros [= <- <-]. unfold qdma_thread_remove_work. destruct d; cbn in *. subst. destruct t as [qc ths]; cbn in *.
    rewrite length_alter, Nat2Z.id. rewrite (proj2 (Z.ltb_lt _ _)).
    + cbn. unfold set_per_cpu_qcnt; cbn. f_equal. apply alter_undo. intros c Hl. apply u32_undo. by apply (Hq _ _ Hl).
    + apply inj_lt, lookup_lt_is_Some_1. destruct (pick_cpu_least qc) as (m & Hm & _); [done| |by exists m].
      rewrite Forall_lookup. intros i c Hi. apply (Hq _ _ Hi).
Qed.
