(* ===== verification/DrvQueue.v ===== *)
(** * DrvQueue: the state of the driver, and what it computes from a queue
    ([libqdma_export.c], [qdma_device.h], [qdma_descq.c])

    The state of a device and of the global variables of the driver, what the driver asks of the
    kernel, and the parts of the operations on queues (DrvLife) that are functions of a queue's
    data.  A pointer to a queue is its index in the array of the device, in which the queues to the
    card come first, then those to the host, then completion queues. *)

From S2P Require Import Prelude QdmaErrors ResourceMgmt Mmio CLayout Contexts Text MboxMsg CsrProps DrvData DrvCtxt DrvThread.
From S2P Require MboxPf Descq C2h HwTable.
Import Descq(Q_H2C, Q_C2H, Q_CMPT, q_state_t(..), qdma_drv_mode(..)).
Local Open Scope Z_scope.
Local Open Scope drv_scope.

(** ** The kernel, and the buffers of streaming queues *)

Definition ENXIO : Z := 6.
Definition ERANGE : Z := 34.

(** What the driver asks of the kernel, and what becomes of requests. *)
Inductive kernel_event :=
| DmaAlloc (len ptr bus : Z)
| DmaFree (len ptr bus : Z)
| Kalloc (ptr : Z)
| Kfree (ptr : Z)
| RequestIrq (rv : Z)
| FreeIrq
| IntrTeardown                        (* [intr_teardown] *)
| Finished (req : nat) (status : Z)   (* [fp_done] is called *)
| Woken (req : nat) (status : Z).     (* the thread that waits for the request is woken up *)

(** What the kernel answers, after what has happened so far: the address of memory for the
    device, for the driver and for the device; an address, 0 for none; a code. *)
Class DrvKernel := {
  dma_alloc_coherent : list kernel_event -> Z -> option (Z * Z);  (* [None] for [NULL] *)
  kcalloc : list kernel_event -> Z -> Z;
  request_threaded_irq : list kernel_event -> Z;
  (* what other threads do to a queue while one waits for its requests *)
  while_waiting : qdma_descq -> qdma_descq }.

(** The buffers of a streaming queue to the host (C2h): as they are at first; they are allocated
    for a ring size and a buffer size, and freed. *)
Class FreeList (F : Type) := {
  flq_none : F;
  flq_alloc : Z -> Z -> M F Z;
  flq_free : M F unit }.

(** ** State *)

(** [struct intr_info_t]: the queues whose interrupts a vector serves, and how many it takes them
    to be. *)
Record intr_info := mk_intr { intr_list : list nat; intr_list_cnt : Z }.

(** [struct qdma_dev].  The three pointers into the array of queues are [0], [c2h_descq] and
    [cmpt_descq]. *)
Record qdma_dev (F : Type) := mk_qdev {
  init_qrange : bool;
  qmax : Z;
  qbase : Z;
  c2h_descq : nat;
  cmpt_descq : nat;
  descqs : list qdma_descq;
  flqs : list F }.
Arguments mk_qdev {F}.
Arguments init_qrange {F}. Arguments qmax {F}. Arguments qbase {F}. Arguments c2h_descq {F}.
Arguments cmpt_descq {F}. Arguments descqs {F}. Arguments flqs {F}.

(** The device, with the global variables of the driver. *)
Record drv (F : Type) := mk_drv {
  xdev : xlnx_dma_dev;
  csr_info : global_csr_conf;
  sorted_c2h_cntr_idxs : list Z;
  qdev : option (qdma_dev F);
  dev_intr_info_list : list intr_info;
  legacy_intr_q_list : list nat;
  threads : cpu_threads;
  drv_rm : rm_state;
  drv_calls : list drv_call;        (* the newest first *)
  kernel : list kernel_event }.     (* the newest first *)
Arguments mk_drv {F}.
Arguments xdev {F}. Arguments csr_info {F}. Arguments sorted_c2h_cntr_idxs {F}. Arguments qdev {F}.
Arguments dev_intr_info_list {F}. Arguments legacy_intr_q_list {F}. Arguments threads {F}.
Arguments drv_rm {F}. Arguments drv_calls {F}. Arguments kernel {F}.

Section drv.
Context {F : Type}.
Implicit Types s : drv F.

Definition set_csr_info v s : drv F := mk_drv (xdev s) v (sorted_c2h_cntr_idxs s) (qdev s) (dev_intr_info_list s)
  (legacy_intr_q_list s) (threads s) (drv_rm s) (drv_calls s) (kernel s).
Definition set_sorted v s : drv F := mk_drv (xdev s) (csr_info s) v (qdev s) (dev_intr_info_list s)
  (legacy_intr_q_list s) (threads s) (drv_rm s) (drv_calls s) (kernel s).
Definition set_qdev v s : drv F := mk_drv (xdev s) (csr_info s) (sorted_c2h_cntr_idxs s) v (dev_intr_info_list s)
  (legacy_intr_q_list s) (threads s) (drv_rm s) (drv_calls s) (kernel s).
Definition set_vectors v s : drv F := mk_drv (xdev s) (csr_info s) (sorted_c2h_cntr_idxs s) (qdev s) v
  (legacy_intr_q_list s) (threads s) (drv_rm s) (drv_calls s) (kernel s).
Definition set_legacy v s : drv F := mk_drv (xdev s) (csr_info s) (sorted_c2h_cntr_idxs s) (qdev s)
  (dev_intr_info_list s) v (threads s) (drv_rm s) (drv_calls s) (kernel s).
Definition set_threads v s : drv F := mk_drv (xdev s) (csr_info s) (sorted_c2h_cntr_idxs s) (qdev s)
  (dev_intr_info_list s) (legacy_intr_q_list s) v (drv_rm s) (drv_calls s) (kernel s).
Definition set_rm v s : drv F := mk_drv (xdev s) (csr_info s) (sorted_c2h_cntr_idxs s) (qdev s)
  (dev_intr_info_list s) (legacy_intr_q_list s) (threads s) v (drv_calls s) (kernel s).
Definition set_calls v s : drv F := mk_drv (xdev s) (csr_info s) (sorted_c2h_cntr_idxs s) (qdev s)
  (dev_intr_info_list s) (legacy_intr_q_list s) (threads s) (drv_rm s) v (kernel s).
Definition set_kernel v s : drv F := mk_drv (xdev s) (csr_info s) (sorted_c2h_cntr_idxs s) (qdev s)
  (dev_intr_info_list s) (legacy_intr_q_list s) (threads s) (drv_rm s) (drv_calls s) v.
End drv.

#[export] Instance drv_has_calls {F} : HasCalls (drv F).
Proof. by refine {| calls_of := drv_calls; with_calls := set_calls |}; intros; destruct s. Defined.

Definition set_init_qrange {F} (v : bool) (q : qdma_dev F) : qdma_dev F :=
  mk_qdev v (qmax q) (qbase q) (c2h_descq q) (cmpt_descq q) (descqs q) (flqs q).
Definition set_descqs {F} (v : list qdma_descq) (q : qdma_dev F) : qdma_dev F :=
  mk_qdev (init_qrange q) (qmax q) (qbase q) (c2h_descq q) (cmpt_descq q) v (flqs q).
Definition set_flqs {F} (v : list F) (q : qdma_dev F) : qdma_dev F :=
  mk_qdev (init_qrange q) (qmax q) (qbase q) (c2h_descq q) (cmpt_descq q) (descqs q) v.

(** ** What is computed from the data of a queue *)

(** A string in a member of an array of characters, with its final NUL. *)
Definition put_string (f : cfield) (str : string) (m : Z) : Z :=
  let chars := (fun c => Z.of_N (Ascii.N_of_ascii c)) <$> String.list_ascii_of_string str in
  foldl (fun m '(i, c) => put (inside f (bytes_at (Z.of_nat i) 1)) c m) m
    (zip (seq 0 (length chars + 1)) (chars ++ [0])).

(** "%05x" *)
Definition hex5 (n : Z) : string :=
  let h := hex n in
  String.concat "" (replicate (5 - String.length h) "0"%string ++ [h]).

Definition queue_name (x : xlnx_dma_dev) (c : Z) : string :=
  ("qdma" +:+ hex5 (bdf x) +:+ "-" +:+ (if is_st c then "ST" else "MM") +:+ "-" +:+ dec (fld queue_conf.qidx c))%string.

(** [dst->f = src->f] *)
Definition copy_member (src : Z) (dst : Z) (f : cfield) : Z := put f (fld f src) dst.

(** The members that are copied when a queue is configured again; the channel follows on the hard
    QDMA only. *)
Definition reconfigured : list cfield :=
  [queue_conf.wb_status_en; queue_conf.cmpl_status_acc_en; queue_conf.cmpl_status_pend_chk;
   queue_conf.cmpl_stat_en; queue_conf.cmpl_trig_mode; queue_conf.cmpl_timer_idx; queue_conf.fetch_credit;
   queue_conf.cmpl_cnt_th_idx; queue_conf.desc_bypass; queue_conf.pfetch_bypass; queue_conf.pfetch_en;
   queue_conf.cmpl_udd_en; queue_conf.cmpl_desc_sz; queue_conf.sw_desc_sz; queue_conf.cmpl_ovf_chk_dis;
   queue_conf.adaptive_rx; queue_conf.ping_pong_en; queue_conf.aperture_size; queue_conf.pidx_acc].

Definition qdma_descq_config (x : xlnx_dma_dev) (qconf : Z) (reconfig : bool) (d : qdma_descq) : qdma_descq :=
  if negb reconfig then
    let c := put_string queue_conf.name (queue_name x qconf) qconf in
    set_conf (copy_member qconf (copy_member qconf c queue_conf.st) queue_conf.q_type) d
  else
    let c := foldl (copy_member qconf) (conf d)
      [queue_conf.desc_rng_sz_idx; queue_conf.cmpl_rng_sz_idx; queue_conf.c2h_buf_sz_idx] in
    let irq := Z.b2z (negb (bool_decide (drv_mode x = POLL_MODE))) in
    let c := assign [(queue_conf.irq_en, irq); (queue_conf.cmpl_en_intr, irq)] c in
    let d := set_conf (foldl (copy_member qconf) c reconfigured) d in
    if bool_decide (ip_type x = QDMA_S80) then set_channel (fld queue_conf.mm_channel qconf) d else d.

(** The loop that looks for the next larger ring size: the index found so far. *)
Fixpoint best_fit (sizes : list Z) (i : nat) (v : Z) (best : option (nat * Z)) : option (nat * Z) :=
  match sizes with
  | [] => best
  | n :: sizes' =>
      best_fit sizes' (S i) v
        (if v <? n then match best with
                        | None => Some (i, n)
                        | Some (j, b) => if n <? b then Some (i, n) else Some (j, b)
                        end
         else best)
  end.

(** The adaptive threshold of a queue with a completion ring. *)
Definition complete_threshold (csr : global_csr_conf) (sorted : list Z) (d : qdma_descq) : qdma_descq :=
  let th k := nth (Z.to_nat k) (c2h_cnt_th csr) 0 in
  let idx := fld queue_conf.cmpl_cnt_th_idx (conf d) in
  let avg := th idx in
  let si := match find_pos (fun k => idx =? k) (take QDMA_GLOBAL_CSR_ARRAY_SZ sorted) with
            | Some i => Z.of_nat i
            | None => sorted_c2h_cntr_idx d
            end in
  let hi_idx := if si =? Z.of_nat QDMA_GLOBAL_CSR_ARRAY_SZ - 1 then si else si + 1 in
  let low_idx := if si =? 0 then 0 else si - 1 in
  let thr k := Z.shiftr (u32 (avg + th (nth (Z.to_nat k) sorted 0))) 1 in
  set_cmpt_entry_len (u8 (Z.shiftl 8 (fld queue_conf.cmpl_desc_sz (conf d))))
    (set_c2h_pend_pkt_moving_avg avg (set_sorted_c2h_cntr_idx si
      (set_c2h_pend_pkt_avg_thr_hi (thr hi_idx) (set_c2h_pend_pkt_avg_thr_lo (thr low_idx) d)))).

Definition qdma_descq_config_complete (csr : global_csr_conf) (sorted : list Z) (d : qdma_descq) : qdma_descq :=
  let at_idx f l c := nth (Z.to_nat (fld f c)) l 0 in
  let c := conf d in
  let c := put queue_conf.rngsz (u32 (at_idx queue_conf.desc_rng_sz_idx (ring_sz csr) c - 1)) c in
  let has_cmpt := conf_has_cmpt c in
  let c :=
    if has_cmpt then
      let c := match best_fit (take QDMA_GLOBAL_CSR_ARRAY_SZ (ring_sz csr)) 0 (at_idx queue_conf.cmpl_rng_sz_idx (ring_sz csr) c) None with
               | Some (i, _) => put queue_conf.cmpl_rng_sz_idx (Z.of_nat i) c
               | None => c
               end in
      let c := put queue_conf.rngsz_cmpt (u32 (at_idx queue_conf.cmpl_rng_sz_idx (ring_sz csr) c - 1)) c in
      put queue_conf.c2h_bufsz (at_idx queue_conf.c2h_buf_sz_idx (c2h_buf_sz csr) c) c
    else c in
  let q f := fld f c in
  let d := set_conf c d in
  let d := if has_cmpt then
             set_cmpt_cidx_info (assign
               [(cmpt_cidx_info.irq_en, q queue_conf.cmpl_en_intr); (cmpt_cidx_info.trig_mode, q queue_conf.cmpl_trig_mode);
                (cmpt_cidx_info.timer_idx, q queue_conf.cmpl_timer_idx); (cmpt_cidx_info.counter_idx, q queue_conf.cmpl_cnt_th_idx);
                (cmpt_cidx_info.wrb_en, q queue_conf.cmpl_stat_en)] (DrvData.cmpt_cidx_info d)) d
           else d in
  let d := set_pidx_info (put pidx_info.irq_en (if conf_st_c2h c then 0 else q queue_conf.irq_en) (DrvData.pidx_info d)) d in
  let d := set_avail (u32 (q queue_conf.rngsz - 1)) (set_pend_list_empty true (set_pidx 0 (set_cidx 0 (set_cidx_cmpt 0
             (set_pidx_cmpt 0 (set_credit 0 (set_work_req_pend 0 d))))))) in
  if has_cmpt then complete_threshold csr sorted d else d.

(** The sizes of a descriptor and of the status at the end of a ring, in bytes. *)
Definition get_desc_size (c : Z) : Z :=
  if flag queue_conf.desc_bypass c && (fld queue_conf.sw_desc_sz c =? DESC_SZ_64B) then 64
  else if negb (is_st c) then 32 else if type_of c =? Q_C2H then 8 else 16.
Definition get_desc_cmpl_status_size : Z := 8.
Definition sizeof_c2h_cmpt_cmpl_status : Z := 8.

Definition ring_len (ring_sz desc_sz cs_sz : Z) : Z := u32 (ring_sz * desc_sz + cs_sz).

(** [qdma_descq_init]: everything is zero but a few members. *)
Definition descq_zero : qdma_descq :=
  mk_descq 0 0 Q_STATE_DISABLED 0 0 false 0 None 0 [] 0 [] false false 0 0 0 0 0 0 0 0 0 0 0 0 0 0 0 0 0 0 0 0.

Definition qdma_descq_init (qbase idx_hw idx_sw : Z) : qdma_descq :=
  set_qidx_hw (u32 (qbase + idx_hw)) (set_conf (put queue_conf.qidx idx_sw 0) descq_zero).

(** *** Whether a configuration, and a place for a queue, will do *)

Definition qdma_validate_qconfig (x : xlnx_dma_dev) (c : Z) : Z :=
  if TRIG_MODE_COMBO <? fld queue_conf.cmpl_trig_mode c then - EINVAL
  else if bool_decide (ip_type x = QDMA_S80) &&
          ((fld queue_conf.cmpl_desc_sz c =? CMPT_DESC_SZ_64B) || (fld queue_conf.sw_desc_sz c =? DESC_SZ_64B)) then - EINVAL
  else if bool_decide (ip_type x = QDMA_S80) && (fld queue_conf.cmpl_trig_mode c =? TRIG_MODE_COMBO) then - EINVAL
  else 0.

Definition Q_PRESENT_H2C_MASK : Z := Z.shiftl 1 Q_H2C.
Definition Q_PRESENT_C2H_MASK : Z := Z.shiftl 1 Q_C2H.
Definition Q_PRESENT_CMPT_MASK : Z := Z.shiftl 1 Q_CMPT.
Definition Q_MODE_SHIFT : Z := 3.
Definition Q_MODE_MASK : Z := Z.shiftl 1 Q_MODE_SHIFT.

Definition enabled (d : qdma_descq) : bool := negb (bool_decide (q_state d = Q_STATE_DISABLED)).

(** What there is already: a bit for each kind of queue, and one for the streaming mode. *)
Definition refmask_of (h2c c2h cmpt : qdma_descq) : Z :=
  let with_mode d bit m := if enabled d then Z.lor (Z.lor m bit) (if is_st (conf d) then Q_MODE_MASK else 0) else m in
  let m := with_mode c2h Q_PRESENT_C2H_MASK (with_mode h2c Q_PRESENT_H2C_MASK 0) in
  if enabled cmpt then Z.lor m Q_PRESENT_CMPT_MASK else m.

Definition is_usable_queue (h2c c2h cmpt : qdma_descq) (q_type : Z) (st : bool) : Z :=
  let refmask := refmask_of h2c c2h cmpt in
  let has m := negb (Z.land refmask m =? 0) in
  let c2hq_chkmask := Z.lor Q_PRESENT_C2H_MASK Q_MODE_MASK in
  let h2cq_chkmask := Z.lor Q_PRESENT_H2C_MASK Q_MODE_MASK in
  let reject :=
    if q_type =? Q_CMPT then has (Z.lor Q_PRESENT_CMPT_MASK Q_MODE_MASK)
    else if q_type =? Q_H2C then
      (st && has Q_PRESENT_CMPT_MASK) ||
      (st && has Q_PRESENT_C2H_MASK && (Z.land refmask c2hq_chkmask =? Q_PRESENT_C2H_MASK)) ||
      (negb st && has Q_PRESENT_C2H_MASK && (Z.land refmask c2hq_chkmask =? c2hq_chkmask)) ||
      has Q_PRESENT_H2C_MASK
    else
      (st && has Q_PRESENT_CMPT_MASK) ||
      (st && has Q_PRESENT_H2C_MASK && (Z.land refmask h2cq_chkmask =? Q_PRESENT_H2C_MASK)) ||
      (negb st && has Q_PRESENT_H2C_MASK && (Z.land refmask h2cq_chkmask =? h2cq_chkmask)) ||
      has Q_PRESENT_C2H_MASK in
  if reject then -1 else 0.
