(* ===== verification/DrvLife.v ===== *)
(** * DrvLife: the life of a queue ([libqdma_export.c], [qdma_device.c], [qdma_descq.c], [qdma_intr.c], [qdma_regs.c])

    A queue is added, configured, started, stopped and removed by the functions that the driver
    exports; they work on the array of queues of the device, on the resource manager's counts, on
    the contexts (DrvCtxt), on memory for rings and on the lists of interrupts and threads.
    Modelled is the driver of a physical function.  The text that the functions leave in the
    caller's buffer is not modelled, nor is the debug file system. *)

From S2P Require Import Prelude QdmaErrors ResourceMgmt Mmio CLayout Contexts MboxMsg CsrProps DrvData DrvCtxt DrvThread DrvQueue.
From S2P Require MboxPf Descq C2h HwTable.
Import Descq(Q_H2C, Q_C2H, Q_CMPT, q_state_t(..), qdma_drv_mode(..)).
Local Open Scope Z_scope.
Local Open Scope drv_scope.

Definition QDMA_VIVADO_2020_2 : Z := 4.
Definition QDMA_DESC_ENG_BYPASS_ONLY : Z := 1.
Definition QDMA_DESC_ENG_INTERNAL_ONLY : Z := 2.

(** What a caller passes besides a queue: whether there is a buffer, its length, whether the handle
    is not null, and whether [xdev_check_hndl] accepts it. *)
Record api_args := mk_args { buf : bool; buflen : Z; dev_hndl : bool; hndl_checks : bool }.

Definition args_ok (a : api_args) : bool := buf a && negb (buflen a =? 0) && dev_hndl a && hndl_checks a.

Section driver.
Context {F : Type} `{DrvKernel} `{FreeList F} `{DrvAccess}.

Abbreviation D := (M (drv F)).

(** ** Access to the state *)

Definition the_qdev : D (qdma_dev F) := deref qdev.
Definition on_qdev (f : qdma_dev F -> qdma_dev F) : D unit := modify (fun s => set_qdev (f <$> qdev s) s).

(** A queue that is not there is memory outside the array. *)
Definition at_descq (i : nat) : D qdma_descq := q ← the_qdev; deref (fun _ => descqs q !! i).
Definition on_descq (i : nat) (f : qdma_descq -> qdma_descq) : D unit :=
  _ ← at_descq i; on_qdev (fun q => set_descqs (alter f i (descqs q)) q).

Definition happens (e : kernel_event) : D unit := modify (fun s => set_kernel (e :: kernel s) s).

(** An operation on the resource manager. *)
Definition on_rm (f : rm_state -> Z * rm_state) : D Z := fun s =>
  let '(rv, rm) := f (drv_rm s) in Ret rv (set_rm rm s).

(** An operation on the buffers of a queue. *)
Definition put_flq (i : nat) (f : F) (s : drv F) : drv F :=
  set_qdev ((fun q => set_flqs (<[i := f]> (flqs q)) q) <$> qdev s) s.

Definition on_flq {A} (i : nat) (m : M F A) : D A := fun s =>
  match qdev s ≫= fun q => flqs q !! i with
  | None => Crash s
  | Some f =>
      match m f with
      | Ret a f' => Ret a (put_flq i f' s)
      | Exit f' => Exit (put_flq i f' s)
      | Crash f' => Crash (put_flq i f' s)
      | Hang f' => Hang (put_flq i f' s)
      end
  end.

(** Linked lists: adding an entry that is in the list already breaks it; removing one that is in
    no list is taken to do nothing. *)
Definition list_add_tail (i : nat) (l : list nat) : option (list nat) :=
  if bool_decide (i ∈ l) then None else Some (l ++ [i]).
Definition list_del (i : nat) (l : list nat) : list nat := filter (fun j => j <> i) l.

(** ** Finding queues *)

Definition qdma_device_get_descq_by_id (idx : Z) (init : bool) : D (option nat) :=
  dev ← gets qdev;
  match dev with
  | None => mret None
  | Some q =>
      let found :=
        if idx <? qmax q then Some (Z.to_nat idx)
        else if idx - qmax q <? qmax q then Some (c2h_descq q + Z.to_nat (idx - qmax q))%nat
        else if idx - qmax q - qmax q <? qmax q then Some (cmpt_descq q + Z.to_nat (idx - qmax q - qmax q))%nat
        else None in
      match found with
      | None => mret None
      | Some i =>
          if init then d ← at_descq i; mret (if enabled d then Some i else None) else mret (Some i)
      end
  end.

(** From the start of the array for its type the queue is looked for in [2 * qmax] places. *)
Definition qdma_device_get_id_from_descq (i : nat) : D Z :=
  dev ← gets qdev;
  match dev with
  | None => mret (- EINVAL)
  | Some q =>
      d ← at_descq i;
      let ty := type_of (conf d) in
      let '(first, idx) :=
        if ty =? Q_H2C then (0%nat, 0)
        else if ty =? Q_C2H then (c2h_descq q, qmax q)
        else (cmpt_descq q, 2 * qmax q) in
      mret (match find_pos (fun k => bool_decide (k = i)) (seq first (Z.to_nat (2 * qmax q))) with
            | Some k => idx + Z.of_nat k
            | None => - EINVAL
            end)
  end.

Definition qdma_device_get_descq_by_hw_qid (qidx_hw : Z) (c2h : bool) : D (option nat) :=
  dev ← gets qdev;
  match dev with
  | None => mret None
  | Some q =>
      let qidx_sw := u64 (qidx_hw - qbase q) in
      mret (Some ((if c2h then c2h_descq q else 0) + Z.to_nat qidx_sw)%nat)
  end.

(** ** The registers that all functions share *)

Definition csr_array (ty : qdma_global_csr_type) (old : list Z) : D (Z * list Z) :=
  '(rv, o) ← call_fill (Hw (MboxPf.qdma_global_csr_conf 0 QDMA_GLOBAL_CSR_ARRAY_SZ ty READ)) (HwTable.words_object old 0);
  mret (rv, MboxPf.csr_words o).

Definition on_csr (f : global_csr_conf -> global_csr_conf) : D unit := modify (fun s => set_csr_info (f (csr_info s)) s).

(** A feature that the hardware does not have is passed over. *)
Definition unless_missing (rv : Z) (k : D Z) : D Z :=
  if (rv <? 0) && negb (rv =? neg QDMA_ERR_HWACC_FEATURE_NOT_SUPPORTED) then qdma_get_error_code rv else k.

Definition set_ring_sz l c := mk_csr l (c2h_timer_cnt c) (c2h_cnt_th c) (c2h_buf_sz c) (wb_intvl c).
Definition set_timer_cnt l c := mk_csr (ring_sz c) l (c2h_cnt_th c) (c2h_buf_sz c) (wb_intvl c).
Definition set_cnt_th l c := mk_csr (ring_sz c) (c2h_timer_cnt c) l (c2h_buf_sz c) (wb_intvl c).
Definition set_buf_sz l c := mk_csr (ring_sz c) (c2h_timer_cnt c) (c2h_cnt_th c) l (wb_intvl c).
Definition set_wb_intvl w c := mk_csr (ring_sz c) (c2h_timer_cnt c) (c2h_cnt_th c) (c2h_buf_sz c) w.

Definition qdma_csr_read : D Z :=
  csr ← gets csr_info;
  '(rv, l) ← csr_array QDMA_CSR_RING_SZ (ring_sz csr); on_csr (set_ring_sz l);;
  if rv <? 0 then qdma_get_error_code rv
  else
    '(rv, w) ← call_fill (qdma_global_writeback_interval_conf READ) (wb_intvl csr); on_csr (set_wb_intvl w);;
    unless_missing rv (
    '(rv, l) ← csr_array QDMA_CSR_BUF_SZ (c2h_buf_sz csr); on_csr (set_buf_sz l);;
    unless_missing rv (
    '(rv, l) ← csr_array QDMA_CSR_TIMER_CNT (c2h_timer_cnt csr); on_csr (set_timer_cnt l);;
    unless_missing rv (
    '(rv, l) ← csr_array QDMA_CSR_CNT_TH (c2h_cnt_th csr); on_csr (set_cnt_th l);;
    unless_missing rv (
    modify (fun s => set_sorted (C2h.qdma_sort_c2h_cntr_th_values (c2h_cnt_th (csr_info s))) s);;
    mret 0)))).

Definition device_set_qrange : D Z :=
  s ← gets id;
  match qdev s with
  | None => mret (- EINVAL)
  | Some q =>
      rv ← call (Hw (MboxPf.qdma_fmap_conf (func_id (xdev s)) (qbase q) (qmax q) WRITE));
      if rv <? 0 then qdma_get_error_code rv else on_qdev (set_init_qrange true);; mret rv
  end.

Definition qdma_device_prep_q_resource : D Z :=
  q ← the_qdev;
  if init_qrange q then mret 0
  else qdma_csr_read ;? device_set_qrange.

(** ** Interrupts *)

Definition qdma_legacy_intr_conf (enable : bool) : D Z := call (DrvData.qdma_legacy_intr_conf (Z.b2z enable)).

Definition intr_legacy_clear (i : nat) : D unit :=
  modify (fun s => set_legacy (list_del i (legacy_intr_q_list s)) s);;
  l ← gets legacy_intr_q_list;
  if bool_decide (l = []) then
    _ ← qdma_legacy_intr_conf false; happens FreeIrq
  else mret tt.

Definition legacy_add (i : nat) : D unit :=
  l ← deref (fun s => list_add_tail i (legacy_intr_q_list s));
  modify (set_legacy l).

Definition intr_legacy_setup (i : nat) : D Z :=
  l ← gets legacy_intr_q_list;
  if bool_decide (l = []) then
    rv ← qdma_legacy_intr_conf false;
    if negb (rv =? 0) then mret (- EINVAL)
    else
      k ← gets kernel;
      let rv := request_threaded_irq k in
      happens (RequestIrq rv);;
      if rv <? 0 then mret rv
      else
        legacy_add i;;
        rv ← qdma_legacy_intr_conf true;
        mret (if negb (rv =? 0) then - EINVAL else 0)
  else legacy_add i;; mret 1.

(** The vector with the fewest queues, from [dvec_start_idx] on. *)
Fixpoint least_vector (infos : list intr_info) (vecs : list Z) (idx min : Z) : option Z :=
  match vecs with
  | [] => Some idx
  | i :: vecs' =>
      info ← infos !! Z.to_nat i;
      let cnt := intr_list_cnt info in
      if cnt =? 0 then Some i
      else
        let min := if min <? 0 then cnt else min in
        if cnt <? min then least_vector infos vecs' i cnt else least_vector infos vecs' idx min
  end.

Definition desc_alloc_irq (i : nat) : D unit :=
  s ← gets id;
  let x := xdev s in
  let start := dvec_start_idx x in
  if num_vecs x =? 0 then mret tt
  else
    idx ← (if bool_decide (drv_mode x = DIRECT_INTR_MODE)
           then deref (fun _ => least_vector (dev_intr_info_list s) (seqZ start (data_msix_qvec_max x - start)) start (-1))
           else mret start);
    on_descq i (set_intr_id idx).

(** ** Memory for rings *)

Definition desc_ring_alloc (len : Z) : D (option (Z * Z)) :=
  k ← gets kernel;
  match dma_alloc_coherent k len with
  | None => mret None
  | Some (ptr, bus) => happens (DmaAlloc len ptr bus);; mret (Some (ptr, bus))
  end.

(** The length is computed at 64 bits. *)
Definition desc_ring_free (ring_sz desc_sz cs_sz ptr bus : Z) : D unit :=
  happens (DmaFree (u64 (i32 ring_sz * desc_sz + cs_sz)) ptr bus).

Definition kfree (ptr : Z) : D unit := if ptr =? 0 then mret tt else happens (Kfree ptr).

Definition qdma_descq_free_resource (i : nat) : D unit :=
  d ← at_descq i;
  let c := conf d in
  (if negb (desc d =? 0) then
     (if conf_st_c2h c then on_flq i flq_free else kfree (desc_list d));;
     desc_ring_free (fld queue_conf.rngsz c) (get_desc_size c) get_desc_cmpl_status_size (desc d) (desc_bus d);;
     on_descq i (fun d => set_desc_bus 0 (set_desc 0 d))
   else mret tt);;
  if negb (desc_cmpt d =? 0) then
    desc_ring_free (fld queue_conf.rngsz_cmpt c) (cmpt_entry_len d) sizeof_c2h_cmpt_cmpl_status (desc_cmpt d) (desc_cmpt_bus d);;
    on_descq i (fun d => set_desc_cmpt_bus 0 (set_desc_cmpt 0 d))
  else mret tt.

(** When there is room for a ring [f] puts its addresses into the queue; if not, everything is freed
    again. *)
Definition out_of_memory (i : nat) : D Z := qdma_descq_free_resource i;; mret (- ENOMEM).

Definition with_ring (i : nat) (len : Z) (f : Z -> Z -> qdma_descq -> qdma_descq) (null : qdma_descq -> qdma_descq)
    (k : D Z) : D Z :=
  r ← desc_ring_alloc len;
  match r with
  | None => on_descq i null;; out_of_memory i
  | Some (ptr, bus) =>
      on_descq i (f ptr bus);; k
  end.

(** [kcalloc] of the list of descriptors, for which a client of bypass mode asks. *)
Definition alloc_desc_list (i : nat) (k : D Z) : D Z :=
  ev ← gets kernel;
  d ← at_descq i;
  let ptr := kcalloc ev (fld queue_conf.rngsz (conf d)) in
  on_descq i (set_desc_list ptr);;
  if ptr =? 0 then out_of_memory i else happens (Kalloc ptr);; k.

(** The ring for completions, the last one; [d] is the queue as it was at first. *)
Definition alloc_cmpt_ring (i : nat) (d : qdma_descq) : D Z :=
  let finish := desc_alloc_irq i;; mret 0 in
  if conf_has_cmpt (conf d) then
    on_descq i (set_color 1);;
    with_ring i (ring_len (fld queue_conf.rngsz_cmpt (conf d)) (cmpt_entry_len d) sizeof_c2h_cmpt_cmpl_status)
      (fun p b d => set_desc_cmpt_bus b (set_desc_cmpt p d)) (set_desc_cmpt 0) finish
  else finish.

(** The buffers of a streaming queue to the host, or the list for bypass mode. *)
Definition alloc_lists (i : nat) (d : qdma_descq) : D Z :=
  let c := conf d in
  if conf_st_c2h c then
    rv ← on_flq i (flq_alloc (fld queue_conf.rngsz c) (fld queue_conf.c2h_bufsz c));
    if rv <? 0 then out_of_memory i else alloc_cmpt_ring i d
  else if flag queue_conf.desc_bypass c && flag queue_conf.fp_bypass_desc_fill c then
    alloc_desc_list i (alloc_cmpt_ring i d)
  else alloc_cmpt_ring i d.

Definition qdma_descq_alloc_resource (i : nat) : D Z :=
  d ← at_descq i;
  let c := conf d in
  if negb (type_of c =? Q_CMPT) then
    with_ring i (ring_len (fld queue_conf.rngsz c) (get_desc_size c) get_desc_cmpl_status_size)
      (fun p b d => set_desc_bus b (set_desc p d)) (set_desc 0) (alloc_lists i d)
  else alloc_lists i d.

(** ** Contexts and registers of a queue *)

(** What follows when the contexts have been set up. *)
Definition init_cmpt_cidx (i : nat) (d : qdma_descq) (k : D Z) : D Z :=
  let info := put cmpt_cidx_info.wrb_cidx 0 (DrvData.cmpt_cidx_info d) in
  on_descq i (set_cmpt_cidx_info info);;
  rv ← call (DrvData.qdma_queue_cmpt_cidx_update (u16 (fld queue_conf.qidx (conf d))) info);
  if rv <? 0 then mret (- EINVAL)
  else if type_of (conf d) =? Q_CMPT then mret rv
  else k.

Definition init_pidx (i : nat) (d : qdma_descq) : D Z :=
  let c := conf d in
  let info := put pidx_info.pidx (u32 (fld queue_conf.rngsz c - 1)) (DrvData.pidx_info d) in
  on_descq i (set_pidx_info info);;
  rv ← call (DrvData.qdma_queue_pidx_update (u16 (fld queue_conf.qidx c)) (u8 (type_of c)) info);
  mret (if rv <? 0 then - EINVAL else rv).

Definition qdma_descq_prog_hw (i : nat) : D Z :=
  x ← gets xdev;
  d ← at_descq i;
  rv ← qdma_descq_context_setup x d;
  if rv <? 0 then mret rv
  else if conf_has_cmpt (conf d) && negb (flag queue_conf.init_pidx_dis (conf d))
  then init_cmpt_cidx i d (init_pidx i d)
  else mret rv.

(** ** Threads and vectors that serve a queue *)

Definition thread_add_work (i : nat) : D unit :=
  s ← gets id;
  d ← at_descq i;
  '(t, d) ← deref (fun _ => qdma_thread_add_work (drv_mode (xdev s)) i (threads s) d);
  modify (set_threads t);; on_descq i (fun _ => d).

Definition thread_remove_work (i : nat) : D unit :=
  s ← gets id;
  d ← at_descq i;
  let '(t, d) := qdma_thread_remove_work i (threads s) d in
  modify (set_threads t);; on_descq i (fun _ => d).

(** The entry of a vector that is not there is memory outside the list. *)
Definition on_vector (v : Z) (f : intr_info -> option intr_info) : D unit :=
  info ← deref (fun s => if v <? 0 then None else dev_intr_info_list s !! Z.to_nat v);
  info ← deref (fun _ => f info);
  modify (fun s => set_vectors (<[Z.to_nat v := info]> (dev_intr_info_list s)) s).

Definition join_vector (i : nat) (info : intr_info) : option intr_info :=
  l ← list_add_tail i (intr_list info); Some (mk_intr l (i32 (intr_list_cnt info + 1))).
Definition leave_vector (i : nat) (info : intr_info) : option intr_info :=
  Some (mk_intr (list_del i (intr_list info)) (i32 (intr_list_cnt info - 1))).

(** ** Adding a queue *)

(** Whether a queue can be added at an index of the arrays. *)
Definition usable_at (idx : nat) (q_type : Z) (st : bool) : D Z :=
  q ← the_qdev;
  h ← at_descq idx;
  c ← at_descq (c2h_descq q + idx);
  w ← at_descq (cmpt_descq q + idx);
  mret (is_usable_queue h c w q_type st).

(** The loop that looks for an index; [n] of them are left. *)
Fixpoint find_usable (n idx : nat) (q_type : Z) (st : bool) : D (option nat) :=
  match n with
  | O => mret None
  | S n' =>
      rv ← usable_at idx q_type st;
      if rv <? 0 then find_usable n' (S idx) q_type st else mret (Some idx)
  end.

(** Which queue is enabled, and with what configuration; or a code.  In the loop the pointer has
    been advanced to the index when it is advanced by the index once more. *)
Definition claim_index (qconf : Z) : D (Z + nat * Z) :=
  q ← the_qdev;
  let ty := type_of qconf in
  let st := is_st qconf in
  let first := if ty =? Q_C2H then c2h_descq q else if ty =? Q_H2C then 0%nat else cmpt_descq q in
  if fld queue_conf.qidx qconf =? QDMA_QUEUE_IDX_INVALID then
    found ← find_usable (Z.to_nat (qmax q)) 0 ty st;
    match found with
    | None => mret (inl (- EPERM))
    | Some idx =>
        let i := (first + idx + idx)%nat in
        on_descq i (set_q_state Q_STATE_ENABLED);;
        mret (inr (i, put queue_conf.qidx (Z.of_nat idx) qconf))
    end
  else
    let idx := Z.to_nat (fld queue_conf.qidx qconf) in
    rv ← usable_at idx ty st;
    if rv <? 0 then mret (inl (- EPERM))
    else
      let i := (first + idx)%nat in
      on_descq i (set_q_state Q_STATE_ENABLED);;
      mret (inr (i, qconf)).

(** The legacy interrupt serves one queue only. *)
Definition add_legacy (i : nat) : D Z :=
  x ← gets xdev;
  if bool_decide (drv_mode x = LEGACY_INTR_MODE) then
    rv ← intr_legacy_setup i;
    if 0 <? rv then intr_legacy_clear i;; on_descq i (set_q_state Q_STATE_DISABLED);; mret (- EINVAL)
    else if rv <? 0 then on_descq i (set_q_state Q_STATE_DISABLED);; mret (- EINVAL)
    else mret 0
  else mret 0.

Definition inc_active (ty : qdma_dev_q_type) : D Z :=
  x ← gets xdev; on_rm (qdma_dev_increment_active_queue (dma_device_index x) (func_id x) ty).
Definition dec_active (ty : qdma_dev_q_type) : D Z :=
  x ← gets xdev; on_rm (qdma_dev_decrement_active_queue (dma_device_index x) (func_id x) ty).

(** A streaming queue to the host counts as a completion queue too; when the second count fails the
    first is taken back. *)
Definition count_in (qconf : Z) : D Z :=
  let ty := q_type_of (type_of qconf) in
  inc_active ty ;?
  if conf_st_c2h qconf then
    rv ← inc_active QDMA_DEV_Q_TYPE_CMPT;
    if rv <? 0 then _ ← dec_active ty; mret rv else mret 0
  else mret 0.

Definition count_out (qconf : Z) : D Z :=
  let ty := q_type_of (type_of qconf) in
  dec_active ty ;?
  if conf_st_c2h qconf then
    rv ← dec_active QDMA_DEV_Q_TYPE_CMPT;
    if rv <? 0 then _ ← inc_active ty; mret rv else mret 0
  else mret 0.

(** The types of queue that are refused. *)
Definition bad_type (x : xlnx_dma_dev) (qconf : Z) : bool :=
  let ty := type_of qconf in
  (Q_CMPT <? ty) || (is_st qconf && (ty =? Q_CMPT)) ||
  ((ty =? Q_CMPT) && negb (flag dev_attributes.mm_cmpt_en (dev_cap x))).

Definition mode_missing (x : xlnx_dma_dev) (st : bool) : bool :=
  (st && negb (flag dev_attributes.st_en (dev_cap x))) || (negb st && negb (flag dev_attributes.mm_en (dev_cap x))).

(** The handle that the caller gets for a queue. *)
Definition handle_of (q : qdma_dev F) (ty idx : Z) : Z :=
  u64 (idx + (if ty =? Q_C2H then qmax q else 0) + (if ty =? Q_CMPT then 2 * qmax q else 0)).

Definition active_count (x : xlnx_dma_dev) (ty : qdma_dev_q_type) (rm : rm_state) : Z :=
  u32 (qdma_get_device_active_queue_count (dma_device_index x) (func_id x) ty rm).

(** Once a queue has been enabled: the code, [*qconf] and [*qhndl]. *)
Definition add_claimed (x : xlnx_dma_dev) (q : qdma_dev F) (ty : Z) (i : nat) (qconf : Z) : D (Z * Z * Z) :=
  let fail rv := mret (rv, qconf, QDMA_QUEUE_IDX_INVALID) in
  rv ← (qdma_device_prep_q_resource ;? add_legacy i);
  if rv <? 0 then fail rv
  else
    on_descq i (qdma_descq_config x qconf false);;
    rv ← count_in qconf;
    if rv <? 0 then fail rv
    else
      d ← at_descq i;
      let qconf := copy_member (conf d) qconf queue_conf.name in
      let qhndl := handle_of q ty (fld queue_conf.qidx (conf d)) in
      on_descq i (set_q_hndl qhndl);;
      mret (0, qconf, qhndl).

(** Once the arguments have been checked: the code, [*qconf] and [*qhndl]. *)
Definition add_queue (qconf : Z) : D (Z * Z * Z) :=
  s ← gets id;
  let x := xdev s in
  let fail rv qconf := mret (rv, qconf, QDMA_QUEUE_IDX_INVALID) in
  let ty := type_of qconf in
  if mode_missing x (is_st qconf) then fail (- EINVAL) qconf
  else if qdma_validate_qconfig x qconf <? 0 then fail (qdma_validate_qconfig x qconf) qconf
  else
    q ← the_qdev;
    let idx := fld queue_conf.qidx qconf in
    if negb (idx =? QDMA_QUEUE_IDX_INVALID) && (qmax q <=? idx) then fail (- EINVAL) qconf
    else if qmax q <=? active_count x (q_type_of ty) (drv_rm s) then fail (- EIO) qconf
    else
      claimed ← claim_index qconf;
      match claimed with
      | inl rv => fail rv qconf
      | inr (i, qconf) => add_claimed x q ty i qconf
      end.

(** [None] stands for a null pointer, of which nothing is left. *)
Definition qdma_queue_add (a : api_args) (qconf qhndl : option Z) : D (Z * Z * Z) :=
  x ← gets xdev;
  let fail := mret (- EINVAL, default 0 qconf, default 0 qhndl) in
  if negb (args_ok a) then fail
  else match qconf, qhndl with
       | Some c, Some _ => if bad_type x c then fail else add_queue c
       | _, _ => fail
       end.

(** ** Configuring, starting, stopping and removing *)

(** The calls that take a queue by its handle: without one of the right state they fail. *)
Definition with_queue (a : api_args) (id : Z) (init : bool) (k : nat -> D Z) : D Z :=
  if negb (args_ok a) then mret (- EINVAL)
  else
    found ← qdma_device_get_descq_by_id id init;
    match found with None => mret (- EINVAL) | Some i => k i end.

Definition with_state (st : q_state_t) (i : nat) (k : qdma_descq -> D Z) : D Z :=
  d ← at_descq i;
  if bool_decide (q_state d = st) then k d else mret (- EINVAL).

Definition config_queue (qconf : Z) (i : nat) : D Z :=
  x ← gets xdev;
  let rv := qdma_validate_qconfig x qconf in
  if negb (rv =? 0) then mret rv
  else on_descq i (qdma_descq_config x qconf true);; mret 0.

Definition qdma_queue_config (a : api_args) (qid qconf : Z) : D Z :=
  with_queue a qid false (fun i => with_state Q_STATE_ENABLED i (fun _ => config_queue qconf i)).

(** What an EQDMA may not support, and the sizes of aperture that are refused. *)
Definition bad_engine (x : xlnx_dma_dev) (c : Z) : bool :=
  bool_decide (ip_type x = EQDMA) && (QDMA_VIVADO_2020_2 <=? vivado_release x) &&
  ((fld dev_attributes.desc_eng_mode (dev_cap x) =? QDMA_DESC_ENG_BYPASS_ONLY) ||
   (flag queue_conf.desc_bypass c && (fld dev_attributes.desc_eng_mode (dev_cap x) =? QDMA_DESC_ENG_INTERNAL_ONLY))).

Definition bad_aperture (c : Z) : bool :=
  let n := fld queue_conf.aperture_size c in negb (n =? 0) && negb (Z.land n (u32 (n - 1)) =? 0).

Definition start_queue (i : nat) : D Z :=
  s ← gets id;
  on_descq i (qdma_descq_config_complete (csr_info s) (sorted_c2h_cntr_idxs s));;
  rv ← qdma_descq_alloc_resource i;
  if rv <? 0 then mret rv
  else
    rv ← qdma_descq_prog_hw i;
    d ← at_descq i;
    if rv <? 0 then
      _ ← qdma_descq_context_clear (qidx_hw d) (is_st (conf d)) (type_of (conf d)) true;
      qdma_descq_free_resource i;;
      mret rv
    else
      x ← gets xdev;
      (if num_vecs x =? 0 then mret tt else on_vector (intr_id d) (join_vector i));;
      thread_add_work i;;
      on_descq i (set_q_state Q_STATE_ONLINE);;
      mret 0.

Definition check_and_start (i : nat) (d : qdma_descq) : D Z :=
  x ← gets xdev;
  if bad_engine x (conf d) then mret (- EINVAL)
  else if bad_aperture (conf d) then mret (- ERANGE)
  else start_queue i.

Definition qdma_queue_start (a : api_args) (id : Z) : D Z :=
  with_queue a id true (fun i => with_state Q_STATE_ENABLED i (check_and_start i)).

(** Every request that waits is finished with an error: one with a callback leaves the list. *)
Definition finish_all (l : list drv_request) : D unit :=
  for_each l (fun r => happens (if fp_done r then Finished (req_id r) (- ENXIO) else Woken (req_id r) (- ENXIO))).
Definition unfinished (l : list drv_request) : list drv_request := filter (fun r => fp_done r = false) l.

Definition flush_requests (d : qdma_descq) : qdma_descq :=
  set_work_req_pend (u32 (work_req_pend d - (Z.of_nat (length (work_list d)) - Z.of_nat (length (unfinished (work_list d))))))
    (set_work_list (unfinished (work_list d)) (set_pend_list (unfinished (pend_list d)) d)).

(** A queue that is online, [d] when it has been found. *)
Definition stop_queue (i : nat) (d : qdma_descq) : D Z :=
  on_descq i (set_q_stop_wait true);;
  (if pend_list_empty d then mret tt else on_descq i while_waiting);;
  on_descq i (fun d => set_q_stop_wait false (set_q_state Q_STATE_ENABLED d));;
  d ← at_descq i;
  finish_all (pend_list d);; finish_all (work_list d);; on_descq i flush_requests;;
  thread_remove_work i;;
  _ ← qdma_descq_context_clear (qidx_hw d) (is_st (conf d)) (type_of (conf d)) false;
  x ← gets xdev;
  (if bool_decide (drv_mode x = POLL_MODE) || bool_decide (drv_mode x = LEGACY_INTR_MODE) then mret tt
   else on_vector (intr_id d) (leave_vector i));;
  qdma_descq_free_resource i;;
  on_descq i (set_total_cmpl_descs 0);;
  mret 0.

Definition qdma_queue_stop (a : api_args) (id : Z) : D Z :=
  with_queue a id true (fun i => with_state Q_STATE_ONLINE i (stop_queue i)).

Definition remove_queue (i : nat) (d : qdma_descq) : D Z :=
  count_out (conf d) ;?
  on_descq i (set_q_state Q_STATE_DISABLED);;
  x ← gets xdev;
  (if bool_decide (drv_mode x = LEGACY_INTR_MODE) then intr_legacy_clear i else mret tt);;
  mret 0.

Definition qdma_queue_remove (a : api_args) (id : Z) : D Z :=
  with_queue a id true (fun i => with_state Q_STATE_ENABLED i (remove_queue i)).

(** ** What callers ask about queues *)

(** The code and the configuration of a queue. *)
Definition qdma_queue_get_config (a : api_args) (id : Z) : D (Z * option Z) :=
  if negb (args_ok a) then mret (- EINVAL, None)
  else
    found ← qdma_device_get_descq_by_id id false;
    match found with
    | None => mret (- EINVAL, None)
    | Some i => d ← at_descq i; mret (0, Some (conf d))
    end.

(** [struct qdma_q_state] *)
Record qdma_q_state := mk_q_state { qs_st : Z; qs_q_type : Z; qs_qidx : Z; qs_state : q_state_t }.

Definition qdma_get_queue_state (a : api_args) (id : Z) (given : bool) : D (Z * option qdma_q_state) :=
  if negb (args_ok a) then mret (- EINVAL, None)
  else
    found ← qdma_device_get_descq_by_id id true;
    match found with
    | None => mret (- EINVAL, None)
    | Some i =>
        if negb given then mret (- EINVAL, None)
        else
          d ← at_descq i;
          let c := conf d in
          mret (0, Some (mk_q_state (fld queue_conf.st c) (type_of c) (fld queue_conf.qidx c) (q_state d)))
    end.

(** The numbers of queues to the card, to the host and for completions; [None] for [-EINVAL]. *)
Definition qdma_get_queue_count (a : api_args) (given : bool) : D (option (Z * Z * Z)) :=
  s ← gets id;
  let n ty := active_count (xdev s) ty (drv_rm s) in
  mret (if buf a && negb (buflen a =? 0) && given && dev_hndl a
        then Some (n QDMA_DEV_Q_TYPE_H2C, n QDMA_DEV_Q_TYPE_C2H, n QDMA_DEV_Q_TYPE_CMPT) else None).

(** ** The device *)

Definition no_queues : qdma_dev F := mk_qdev false 0 0 0 0 [] [].

(** The queues of a device with [qmax] of each kind. *)
Definition fresh_qdev (qmax qbase : Z) : qdma_dev F :=
  let one i := qdma_descq_init qbase (Z.of_nat i) (Z.of_nat i) in
  let n := Z.to_nat qmax in
  mk_qdev false qmax qbase n (2 * n) (concat (replicate 3 (one <$> seq 0 n))) (replicate (3 * n) flq_none).

Definition qdma_device_init : D Z :=
  s ← gets id;
  let x := xdev s in
  let p := kcalloc (kernel s) (3 * qsets_max x) in
  if p =? 0 then happens IntrTeardown;; mret (- ENOMEM)
  else
    happens (Kalloc p);;
    modify (set_qdev (Some no_queues));;
    when (master_pf x) (call qdma_init_ctxt_memory) ;!
    modify (set_qdev (Some (fresh_qdev (u16 (qsets_max x)) (u16 (qsets_base x)))));;
    _ ← call qdma_set_default_global_csr;
    for_each (seqZ 0 (fld dev_attributes.mm_channel_max (dev_cap x))) (fun i =>
      _ ← call (qdma_mm_channel_conf i 1 1);
      _ ← call (qdma_mm_channel_conf i 0 1);
      mret tt);;
    mret 0.

(** The queues of an array that are in a state are given to an operation, by their handles. *)
Definition clean_up (first : nat) (base n : Z) (st : q_state_t) (f : Z -> D Z) : D unit :=
  for_each (seqZ 0 n) (fun i =>
    d ← at_descq (first + Z.to_nat i);
    if bool_decide (q_state d = st) then _ ← f (base + i); mret tt else mret tt).

(** Completion queues are left as they are. *)
Definition qdma_device_cleanup (p : Z) : D unit :=
  dev ← gets qdev;
  match dev with
  | None => mret tt
  | Some q =>
      let ok := mk_args true 256 true true in
      clean_up 0 0 (qmax q) Q_STATE_ONLINE (qdma_queue_stop ok);;
      clean_up (c2h_descq q) (qmax q) (qmax q) Q_STATE_ONLINE (qdma_queue_stop ok);;
      clean_up 0 0 (qmax q) Q_STATE_ENABLED (qdma_queue_remove ok);;
      clean_up (c2h_descq q) (qmax q) (qmax q) Q_STATE_ENABLED (qdma_queue_remove ok);;
      modify (set_qdev None);;
      happens (Kfree p)
  end.
End driver.

(** ** The buffers of streaming queues, as C2h models them *)

(** A queue of C2h with the sizes of the configuration; its ring is empty at first. *)
Definition c2h_free_list `{C2h.C2hEngine} (none : C2h.c2h_descq) : FreeList C2h.c2h_descq :=
  {| flq_none := none;
     flq_alloc n bufsz :=
       modify (fun s => C2h.set_conf (C2h.set_rngsz n (C2h.set_c2h_bufsz bufsz (C2h.conf s))) s);;
       C2h.c2h_alloc_resource (replicate (Z.to_nat n) 0);
     flq_free := C2h.descq_flq_free_resource;; C2h.descq_flq_free_page_resource |}.
