(* ===== verification/DrvRings.v ===== *)
(** * DrvRings: the memory of rings, and the states of queues

    Whatever the hardware and the kernel answer, the rings that are allocated are those of the
    queues that have been started, each once, and a queue goes from state to state as its
    interface says.  The history of allocations is a ledger; the operations are specified by triples
    over what matters of each queue. *)

From S2P Require Import Prelude QdmaErrors ResourceMgmt Mmio CLayout Contexts MboxMsg CsrProps DrvData DrvCtxt DrvThread DrvQueue DrvLife.
From S2P Require MboxPf Descq.
Import Descq(Q_H2C, Q_C2H, Q_CMPT, q_state_t(..), qdma_drv_mode(..)).
Local Open Scope Z_scope.
Local Open Scope drv_scope.

(** ** The ledger *)

(** Length, address for the driver, address for the device. *)
Definition ring : Type := Z * Z * Z.

Definition take_back (r : ring) (l : list ring) : option (list ring) :=
  '(k, _) ← list_find (fun r' => r' = r) l; Some (delete k l).

(** What is allocated, the newest events being first; [None] once something has been freed that was
    not allocated, or with another length. *)
Fixpoint outstanding (evs : list kernel_event) : option (list ring) :=
  match evs with
  | [] => Some []
  | DmaAlloc len ptr bus :: evs' => l ← outstanding evs'; Some ((len, ptr, bus) :: l)
  | DmaFree len ptr bus :: evs' => outstanding evs' ≫= take_back (len, ptr, bus)
  | _ :: evs' => outstanding evs'
  end.

Lemma take_back_perm r l l' : r :: l' ≡ₚ l -> exists l'', take_back r l = Some l'' /\ l'' ≡ₚ l'.
Proof.
  intros Hp. unfold take_back. destruct (list_find_elem_of (fun r' => r' = r) l r) as [[k r'] E]; [|done|].
  { rewrite <- Hp. apply list_elem_of_here. }
  rewrite E. pose proof E as (Hk & -> & _)%list_find_Some. eexists. split; [done|].
  apply (Permutation_cons_inv (a := r)). rewrite Hp. symmetry. by apply delete_Permutation.
Qed.

(** ** What matters of a queue *)

Record core := mk_core {
  k_state : q_state_t;
  k_conf : Z;
  k_desc : Z;
  k_desc_bus : Z;
  k_cmpt : Z;
  k_cmpt_bus : Z;
  k_len : Z }.

Definition core_of (d : qdma_descq) : core :=
  mk_core (q_state d) (conf d) (desc d) (desc_bus d) (desc_cmpt d) (desc_cmpt_bus d) (cmpt_entry_len d).

Definition free_len (ring_sz desc_sz cs_sz : Z) : Z := u64 (i32 ring_sz * desc_sz + cs_sz).
Definition desc_len (c : Z) : Z := free_len (fld queue_conf.rngsz c) (get_desc_size c) get_desc_cmpl_status_size.
Definition cmpt_len (k : core) : Z := free_len (fld queue_conf.rngsz_cmpt (k_conf k)) (k_len k) sizeof_c2h_cmpt_cmpl_status.

(** The rings that a queue holds. *)
Definition held (k : core) : list ring :=
  (if k_desc k =? 0 then [] else [(desc_len (k_conf k), k_desc k, k_desc_bus k)]) ++
  (if k_cmpt k =? 0 then [] else [(cmpt_len k, k_cmpt k, k_cmpt_bus k)]).

Definition idle (k : core) : Prop := k_state k <> Q_STATE_ONLINE -> held k = [].

(** Ring sizes as the registers can hold them. *)
Definition sizes_ok (l : list Z) : Prop := length l = QDMA_GLOBAL_CSR_ARRAY_SZ /\ Forall (fun n => 0 < n <= 65536) l.

(** ** The sizes that a queue is given when it is started *)

Lemma size_at l (f : cfield) c :
  sizes_ok l -> field_ok f -> f_width f = 4 -> 0 < nth (Z.to_nat (fld f c)) l 0 <= 65536.
Proof.
  intros [Hl Hf] Hok Hw. pose proof (fld_range f c Hok) as Hr. rewrite Hw in Hr. rewrite Forall_lookup in Hf.
  destruct (lookup_lt_is_Some_2 l (Z.to_nat (fld f c))) as [n Hn]; [rewrite Hl; unfold QDMA_GLOBAL_CSR_ARRAY_SZ; lia|].
  rewrite (nth_lookup_Some _ _ _ _ Hn). by apply (Hf _ _ Hn).
Qed.

Lemma ring_size_range n : 0 < n <= 65536 -> 0 <= u32 (n - 1) mod 2 ^ 32 < 65536.
Proof. intros Hn. rewrite u32_small by (unfold is_u32; lia). rewrite Z.mod_small; lia. Qed.

(** The configuration that is computed. *)
Definition completed_conf (csr : global_csr_conf) (c : Z) : Z :=
  let at_idx f l c := nth (Z.to_nat (fld f c)) l 0 in
  let c := put queue_conf.rngsz (u32 (at_idx queue_conf.desc_rng_sz_idx (ring_sz csr) c - 1)) c in
  if conf_has_cmpt c then
    let c := match best_fit (take QDMA_GLOBAL_CSR_ARRAY_SZ (ring_sz csr)) 0 (at_idx queue_conf.cmpl_rng_sz_idx (ring_sz csr) c) None with
             | Some (i, _) => put queue_conf.cmpl_rng_sz_idx (Z.of_nat i) c
             | None => c
             end in
    let c := put queue_conf.rngsz_cmpt (u32 (at_idx queue_conf.cmpl_rng_sz_idx (ring_sz csr) c - 1)) c in
    put queue_conf.c2h_bufsz (at_idx queue_conf.c2h_buf_sz_idx (c2h_buf_sz csr) c) c
  else c.

Lemma has_cmpt_put f v c :
  field_ok f -> apart queue_conf.st f -> apart queue_conf.q_type f -> conf_has_cmpt (put f v c) = conf_has_cmpt c.
Proof.
  intros Hf H1 H2. unfold conf_has_cmpt, is_st, type_of, flag.
  by rewrite !fld_put_apart by (done || layout_side).
Qed.

Lemma completed_has_cmpt csr c : conf_has_cmpt (completed_conf csr c) = conf_has_cmpt c.
Proof.
  unfold completed_conf. set (c1 := put queue_conf.rngsz _ c).
  assert (conf_has_cmpt c1 = conf_has_cmpt c) as E by (apply has_cmpt_put; layout_side).
  destruct (conf_has_cmpt c1) eqn:E1; [|by rewrite E1]. rewrite !has_cmpt_put by layout_side.
  destruct (best_fit _ _ _ _) as [[i ?]|]; [rewrite has_cmpt_put by layout_side|]; by rewrite E1.
Qed.

Lemma core_of_complete csr sorted d :
  core_of (qdma_descq_config_complete csr sorted d) =
  mk_core (q_state d) (completed_conf csr (conf d)) (desc d) (desc_bus d) (desc_cmpt d) (desc_cmpt_bus d)
    (if conf_has_cmpt (conf d)
     then u8 (Z.shiftl 8 (fld queue_conf.cmpl_desc_sz (completed_conf csr (conf d)))) else cmpt_entry_len d).
Proof.
  unfold qdma_descq_config_complete, completed_conf. cbn zeta.
  rewrite (has_cmpt_put queue_conf.rngsz) by layout_side. by destruct (conf_has_cmpt (conf d)), d.
Qed.

Lemma ring_size_put l (f g : cfield) c c' :
  sizes_ok l -> field_ok g -> f_width g = 4 -> field_ok f -> f_width f = 32 ->
  0 <= fld f (put f (u32 (nth (Z.to_nat (fld g c)) l 0 - 1)) c') < 65536.
Proof. intros Hs Hg Hw Hf Hwf. rewrite fld_put_same, Hwf by done. by apply ring_size_range, size_at. Qed.

(** The configuration of a queue that can be started. *)
Definition fits (k : core) : Prop :=
  0 <= fld queue_conf.rngsz (k_conf k) < 65536 /\
  (conf_has_cmpt (k_conf k) = true -> 0 <= fld queue_conf.rngsz_cmpt (k_conf k) < 65536 /\ 0 <= k_len k <= 64).

Lemma entry_len_range c : 0 <= u8 (Z.shiftl 8 (fld queue_conf.cmpl_desc_sz c)) <= 64.
Proof.
  pose proof (fld_range queue_conf.cmpl_desc_sz c ltac:(layout_side)) as Hr. change (2 ^ f_width queue_conf.cmpl_desc_sz) with 4 in Hr.
  assert (fld queue_conf.cmpl_desc_sz c = 0 \/ fld queue_conf.cmpl_desc_sz c = 1 \/ fld queue_conf.cmpl_desc_sz c = 2 \/
          fld queue_conf.cmpl_desc_sz c = 3) as [-> | [-> | [-> | ->]]] by lia; vm_compute; split; discriminate.
Qed.

Lemma complete_fits csr sorted d : sizes_ok (ring_sz csr) -> fits (core_of (qdma_descq_config_complete csr sorted d)).
Proof.
  intros Hs. rewrite core_of_complete. unfold fits. cbn [k_conf k_len]. rewrite completed_has_cmpt.
  unfold completed_conf. cbn zeta. rewrite (has_cmpt_put queue_conf.rngsz) by layout_side.
  destruct (conf_has_cmpt (conf d)); (split; [|done || (intros _; split)]).
  - rewrite !(fld_put_apart queue_conf.rngsz) by layout_side. destruct (best_fit _ _ _ _) as [[i ?]|];
      rewrite ?(fld_put_apart queue_conf.rngsz) by layout_side; apply ring_size_put; (done || layout_side).
  - rewrite (fld_put_apart queue_conf.rngsz_cmpt) by layout_side. apply ring_size_put; (done || layout_side).
  - apply entry_len_range.
  - apply ring_size_put; (done || layout_side).
Qed.

(** ** Where a queue can be added *)

(** Its place must be free; a queue of the other direction must have the same mode; and a completion
    queue of its own goes with memory-mapped queues only. *)
Definition compatible (h c w : qdma_descq) (ty : Z) (st : bool) : bool :=
  let same d := negb (enabled d) || eqb (is_st (conf d)) st in
  let no_streams d := negb (enabled d && is_st (conf d)) in
  if ty =? Q_CMPT then negb (enabled w) && no_streams h && no_streams c
  else (if ty =? Q_H2C then negb (enabled h) && same c else negb (enabled c) && same h) && (negb st || negb (enabled w)).

(** C21. The bit masks of [is_usable_queue] accept a new queue at an index exactly when the queues
    that are there already are compatible with it. *)
Theorem usable_iff_compatible h c w ty st :
  is_usable_queue h c w ty st = if compatible h c w ty st then 0 else -1.
Proof.
  unfold is_usable_queue, refmask_of, compatible.
  generalize (enabled h) (enabled c) (enabled w) (is_st (conf h)) (is_st (conf c)). intros eh ec ew sh sc.
  destruct (ty =? Q_CMPT), (ty =? Q_H2C), st, eh, ec, ew, sh, sc; reflexivity.
Qed.

(** The place itself is free. *)
Lemma usable_free h c w ty st :
  0 <= is_usable_queue h c w ty st -> enabled (if ty =? Q_CMPT then w else if ty =? Q_H2C then h else c) = false.
Proof.
  unfold is_usable_queue, refmask_of. destruct (ty =? Q_CMPT), (ty =? Q_H2C);
    generalize (enabled h) (enabled c) (enabled w) (is_st (conf h)) (is_st (conf c)); intros [] [] [] [] []; destruct st;
    (reflexivity || (intros Hr; exfalso; by apply Hr)).
Qed.

(** ** Triples *)

Definition triple {S A} (P : S -> Prop) (m : M S A) (Q : A -> S -> Prop) : Prop :=
  forall s a s', P s -> m s = Ret a s' -> Q a s'.

Section triples.
Context {S : Type}.
Implicit Types P : S -> Prop.

Lemma triple_bind {A B} P (m : M S A) (k : A -> M S B) (Q : A -> S -> Prop) R :
  triple P m Q -> (forall a, triple (Q a) (k a) R) -> triple P (m ≫= k) R.
Proof.
  intros Hm Hk s b s' HP. unfold mbind, M_bind. destruct (m s) as [a s1|?|?|?] eqn:E; try done.
  apply Hk. by apply (Hm s).
Qed.

Lemma triple_ret {A} P (a : A) : triple P (mret a) (fun a' s => P s /\ a' = a).
Proof. by intros s b s' HP [= <- <-]. Qed.

Lemma triple_gets {A} P (f : S -> A) : triple P (gets f) (fun a s => P s /\ a = f s).
Proof. by intros s a s' HP [= <- <-]. Qed.

Lemma triple_deref {A} P (f : S -> option A) : triple P (deref f) (fun a s => P s /\ f s = Some a).
Proof. intros s a s' HP. unfold deref. destruct (f s) eqn:E; [|done]. by intros [= -> <-]. Qed.

Lemma triple_crash {A} P Q : triple P (crash : M S A) Q.
Proof. by intros ????. Qed.

Lemma triple_conseq {A} P P' (m : M S A) (Q Q' : A -> S -> Prop) :
  (forall s, P s -> P' s) -> (forall a s, Q' a s -> Q a s) -> triple P' m Q' -> triple P m Q.
Proof. intros HP HQ Hm s a s' Hs E. eapply HQ, Hm; eauto. Qed.

Lemma triple_post {A} P (m : M S A) (Q Q' : A -> S -> Prop) :
  (forall a s, Q' a s -> Q a s) -> triple P m Q' -> triple P m Q.
Proof. intros HQ. by apply triple_conseq. Qed.

(** A fact that does not depend on the state. *)
Lemma triple_pure {A} (X : Prop) P (m : M S A) Q : (X -> triple P m Q) -> triple (fun s => P s /\ X) m Q.
Proof. intros Hm s a s' [HP HX]. by apply Hm. Qed.

Lemma triple_state {A} P (m : M S A) Q : (forall s0, P s0 -> triple (fun s => s = s0) m Q) -> triple P m Q.
Proof. intros Hm s a s' HP. by apply (Hm s HP). Qed.

Lemma triple_for_each {A} P (l : list A) (f : A -> M S unit) :
  (forall a, triple P (f a) (fun _ => P)) -> triple P (for_each l f) (fun _ => P).
Proof.
  intros Hf. induction l as [|a l IH]; [by intros s b s' HP [= _ <-]|].
  cbn [for_each]. eapply triple_bind; [apply Hf|done].
Qed.
End triples.

(** ** What the parts of the operations leave as it is *)

Create HintDb quiet.

Section rings.
Context {F : Type} `{DrvKernel} `{FreeList F} `{DrvAccess}.

(** Whatever the card answers, the sizes of rings that it gives are ones the registers can hold. *)
Definition sizes_read : Prop := forall log old,
  sizes_ok (MboxPf.csr_words
    (drv_output log (Hw (MboxPf.qdma_global_csr_conf 0 QDMA_GLOBAL_CSR_ARRAY_SZ QDMA_CSR_RING_SZ READ)) old)).

(** An address of memory is not null. *)
Definition memory_not_null : Prop := forall evs len p bus, dma_alloc_coherent evs len = Some (p, bus) -> p <> 0.

(** Other threads do not reconfigure, start or stop a queue that one waits for. *)
Definition others_keep_queue : Prop := forall d, core_of (while_waiting d) = core_of d.

Context (Hsizes : sizes_read) (Hptr : memory_not_null) (Hwait : others_keep_queue).
Context (base : list ring).

Definition shape_of (q : qdma_dev F) : Z * nat * nat := (qmax q, c2h_descq q, cmpt_descq q).

(** The device has queues [l], and the rings of these are allocated, besides [base]. *)
Definition view (sh : Z * nat * nat) (l : list core) (s : drv F) : Prop :=
  exists q L, qdev s = Some q /\ shape_of q = sh /\ core_of <$> descqs q = l /\
    outstanding (kernel s) = Some L /\ L ≡ₚ base ++ (l ≫= held) /\ sizes_ok (ring_sz (csr_info s)).

Definition quiet {A} (m : M (drv F) A) : Prop := forall sh l, triple (view sh l) m (fun _ => view sh l).

Lemma quiet_ret {A} (a : A) : quiet (mret a).
Proof. by intros sh l s b s' HP [= _ <-]. Qed.

Lemma quiet_bind {A B} (m : M (drv F) A) (k : A -> M (drv F) B) : quiet m -> (forall a, quiet (k a)) -> quiet (m ≫= k).
Proof. intros Hm Hk sh l. eapply triple_bind; [apply Hm|]. intros a. apply Hk. Qed.

Lemma quiet_then {A B} sh l (m : M (drv F) A) (k : A -> M (drv F) B) R :
  quiet m -> (forall a, triple (view sh l) (k a) R) -> triple (view sh l) (m ≫= k) R.
Proof. intros Hm Hk. eapply triple_bind; [apply Hm|exact Hk]. Qed.

Lemma quiet_gets {A} (f : drv F -> A) : quiet (gets f).
Proof. by intros sh l s a s' HP [= _ <-]. Qed.

Lemma quiet_deref {A} (f : drv F -> option A) : quiet (deref f).
Proof. intros sh l s a s' HP. unfold deref. by destruct (f s); [intros [= _ <-]|]. Qed.

Lemma quiet_crash {A} : quiet (crash : M (drv F) A).
Proof. by intros sh l ????. Qed.

Lemma quiet_for_each {A} (l : list A) (f : A -> M (drv F) unit) : (forall a, quiet (f a)) -> quiet (for_each l f).
Proof. intros Hf sh k. apply triple_for_each. intros a. apply Hf. Qed.

Lemma quiet_modify (f : drv F -> drv F) :
  (forall s, qdev (f s) = qdev s /\ kernel (f s) = kernel s /\ csr_info (f s) = csr_info s) -> quiet (modify f).
Proof.
  intros Hf sh l s a s' (q & L & Hq & Hv) [= _ <-]. destruct (Hf s) as (E1 & E2 & E3).
  exists q, L. by rewrite E1, E2, E3.
Qed.

Lemma quiet_call c : quiet (call c).
Proof. intros sh l s a s' (q & L & Hv) [= _ <-]. by exists q, L. Qed.

Lemma quiet_call_fill c old : quiet (call_fill c old).
Proof. intros sh l s a s' (q & L & Hv) [= _ <-]. by exists q, L. Qed.

Lemma quiet_happens e :
  match e with DmaAlloc _ _ _ | DmaFree _ _ _ => False | _ => True end -> quiet (happens e).
Proof. intros He sh l s a s' (q & L & Hv) [= _ <-]. exists q, L. by destruct e. Qed.

Lemma quiet_on_rm f : quiet (on_rm f).
Proof.
  intros sh l s a s' (q & L & Hv). unfold on_rm. destruct (f (drv_rm s)) as [rv rm]. intros [= _ <-]. by exists q, L.
Qed.

Lemma quiet_on_flq {A} i (m : M F A) : quiet (on_flq i m).
Proof.
  intros sh l s a s' (q & L & Hq & Hv). unfold on_flq. rewrite Hq. cbn [mbind option_bind].
  destruct (flqs q !! i) as [f|]; [|done]. destruct (m f); try done. intros [= _ <-].
  exists (set_flqs (<[i:=s0]> (flqs q)) q), L. unfold put_flq. cbn. by rewrite Hq.
Qed.

Lemma quiet_the_qdev : quiet the_qdev.
Proof. apply quiet_deref. Qed.

Lemma quiet_at_descq i : quiet (at_descq i).
Proof. apply quiet_bind; [apply quiet_the_qdev|intros; apply quiet_deref]. Qed.

Lemma quiet_csr (f : global_csr_conf -> global_csr_conf) :
  (forall c, sizes_ok (ring_sz c) -> sizes_ok (ring_sz (f c))) -> quiet (on_csr f).
Proof.
  intros Hf sh l s a s' (q & L & Hq & Hs & Hl & Ho & HL & Hz) [= _ <-]. exists q, L. cbn. repeat split; try done; by apply Hf.
Qed.

Lemma quiet_get_error_code rv : quiet (qdma_get_error_code rv).
Proof. unfold qdma_get_error_code. destruct (qdma_get_err_code rv); [apply quiet_ret|apply quiet_crash]. Qed.

(** What is known of a queue that is looked at. *)
Lemma triple_at_descq i sh l :
  triple (view sh l) (at_descq i) (fun d s => view sh l s /\ l !! i = Some (core_of d)).
Proof.
  intros s d s' Hv. pose proof Hv as (q & L & Hq & _ & Hl & _). unfold at_descq, the_qdev, mbind, M_bind, deref. rewrite Hq.
  destruct (descqs q !! i) as [d'|] eqn:Ed; [|done]. intros [= <- <-]. split; [done|].
  rewrite <- Hl, list_lookup_fmap. by rewrite Ed.
Qed.

(** Changing a queue. *)
Lemma held_at (l : list core) i k : l !! i = Some k -> (l ≫= held) ≡ₚ held k ++ (delete i l ≫= held).
Proof. intros Hi. by rewrite (delete_Permutation l i k Hi) at 1. Qed.

Lemma held_swap (l : list core) i k k' : l !! i = Some k -> (<[i := k']> l ≫= held) ++ held k ≡ₚ (l ≫= held) ++ held k'.
Proof.
  intros Hi. assert (i < length l)%nat by (by eapply lookup_lt_Some).
  assert (<[i := k']> l ≡ₚ k' :: delete i l) as E.
  { rewrite <- (delete_of_insert l i k'). apply delete_Permutation. by apply list_lookup_insert_eq. }
  rewrite E, (held_at l i k Hi). cbn. generalize (delete i l ≫= held). intros r. rewrite <- app_assoc, (Permutation_app_comm r), app_assoc, (Permutation_app_comm _ (held k)), <- !app_assoc.
  by rewrite (Permutation_app_comm r).
Qed.

Lemma on_descq_run i f (s : drv F) u s' :
  on_descq i f s = Ret u s' ->
  exists q d, qdev s = Some q /\ descqs q !! i = Some d /\
    s' = set_qdev (Some (set_descqs (<[i := f d]> (descqs q)) q)) s.
Proof.
  unfold on_descq, at_descq, the_qdev, on_qdev, mbind, M_bind, deref, modify. destruct (qdev s) as [q|] eqn:Hq; [|done].
  destruct (descqs q !! i) as [d|] eqn:Hd; [|done]. intros [= _ <-]. exists q, d. split; [done|]. split; [done|].
  rewrite Hq. cbn. by rewrite (alter_as_insert _ _ _ _ Hd).
Qed.

Lemma triple_on_descq i f g sh l k :
  (forall d, core_of d = k -> core_of (f d) = g k) -> l !! i = Some k -> held (g k) = held k ->
  triple (view sh l) (on_descq i f) (fun _ => view sh (<[i := g k]> l)).
Proof.
  intros Hf Hi Hh s u s' (q & L & Hq & Hs & Hl & Ho & HL & Hz) Hrun.
  destruct (on_descq_run _ _ _ _ _ Hrun) as (q0 & d & Hq0 & Hd & ->). rewrite Hq in Hq0. injection Hq0 as <-.
  exists (set_descqs (<[i := f d]> (descqs q)) q), L. cbn. repeat split; try done; try apply Hz.
  - rewrite list_fmap_insert, Hl. f_equal. apply Hf. rewrite <- Hl, list_lookup_fmap, Hd in Hi. by injection Hi.
  - pose proof (held_swap l i k (g k) Hi) as Hw. rewrite Hh in Hw. apply Permutation_app_inv_r in Hw. by rewrite Hw.
Qed.

Lemma quiet_on_descq i f : (forall d, core_of (f d) = core_of d) -> quiet (on_descq i f).
Proof.
  intros Hf sh l s u s' Hv Hrun. pose proof Hv as (q & L & Hq & Hs & Hl & Ho & HL & Hz).
  destruct (on_descq_run _ _ _ _ _ Hrun) as (q0 & d & Hq0 & Hd & ->). rewrite Hq in Hq0. injection Hq0 as <-.
  exists (set_descqs (<[i := f d]> (descqs q)) q), L. cbn. repeat split; try done; try apply Hz.
  rewrite list_fmap_insert, Hl, Hf. apply list_insert_id. rewrite <- Hl, list_lookup_fmap. by rewrite Hd.
Qed.

(** One step at a time, with a case analysis where the code makes one. *)
Ltac quiet_step :=
  lazymatch goal with
  | |- quiet (mret _) => apply quiet_ret
  | |- quiet (_ ≫= _) => apply quiet_bind; [|intros ?]
  | |- quiet (gets _) => apply quiet_gets
  | |- quiet (deref _) => apply quiet_deref
  | |- quiet crash => apply quiet_crash
  | |- quiet (call _) => apply quiet_call
  | |- quiet (call_fill _ _) => apply quiet_call_fill
  | |- quiet (on_rm _) => apply quiet_on_rm
  | |- quiet (on_flq _ _) => apply quiet_on_flq
  | |- quiet the_qdev => apply quiet_the_qdev
  | |- quiet (at_descq _) => apply quiet_at_descq
  | |- quiet (for_each _ _) => apply quiet_for_each; intros ?
  | |- quiet (qdma_get_error_code _) => apply quiet_get_error_code
  | |- quiet (happens _) => apply quiet_happens; try exact I
  | |- quiet (modify _) => apply quiet_modify; intros ?; by split_and!
  | |- quiet (on_descq _ _) => apply quiet_on_descq; intros []; reflexivity
  | |- quiet (or_error _ _) => unfold or_error
  | |- quiet (or_return _ _) => unfold or_return
  | |- quiet (when _ _) => unfold when
  | |- quiet (if ?b then _ else _) => destruct b
  | |- quiet (match ?x with _ => _ end) => destruct x
  end.
Ltac quietly := repeat (quiet_step || eauto with quiet).

Lemma quiet_context_clear qid_hw st ty clr : quiet (qdma_descq_context_clear qid_hw st ty clr).
Proof. unfold qdma_descq_context_clear, sw_ctx_conf, hw_ctx_conf, credit_ctx_conf, pfetch_ctx_conf, cmpt_ctx_conf. quietly. Qed.
Hint Resolve quiet_context_clear : quiet.

Lemma quiet_context_setup x d : quiet (qdma_descq_context_setup x d).
Proof.
  unfold qdma_descq_context_setup, qdma_descq_context_program, sw_ctx_conf, pfetch_ctx_conf, cmpt_ctx_conf. quietly.
Qed.
Hint Resolve quiet_context_setup : quiet.

Lemma quiet_prog_hw i : quiet (qdma_descq_prog_hw i).
Proof. unfold qdma_descq_prog_hw, init_cmpt_cidx, init_pidx. quietly. Qed.

Lemma quiet_alloc_irq i : quiet (desc_alloc_irq i).
Proof. unfold desc_alloc_irq. quietly. Qed.

Lemma quiet_on_vector v f : quiet (on_vector v f).
Proof. unfold on_vector. quietly. Qed.

Lemma quiet_csr_read : quiet qdma_csr_read.
Proof.
  unfold qdma_csr_read. apply quiet_bind; [apply quiet_gets|]. intros csr.
  intros sh l. eapply triple_bind with (Q := fun rl s => view sh l s /\ sizes_ok rl.2).
  { intros s [rv rl] s' Hv. unfold csr_array, mbind, M_bind, call_fill, mret, M_ret. intros [= <- <- <-]. split; [|apply Hsizes].
    destruct Hv as (q & L & Hv). by exists q, L. }
  intros [rv rl]. apply triple_pure. intros Hok. cbn in Hok. lazymatch goal with |- triple _ ?m _ => enough (quiet m) as Hm by apply Hm end.
  apply quiet_bind; [apply quiet_csr; done|]. intros _. unfold unless_missing, csr_array. quietly; by apply quiet_csr.
Qed.
Hint Resolve quiet_csr_read : quiet.

Lemma quiet_on_qdev (f : qdma_dev F -> qdma_dev F) :
  (forall q, shape_of (f q) = shape_of q /\ descqs (f q) = descqs q) -> quiet (on_qdev f).
Proof.
  intros Hf sh l s u s' (q & L & Hq & Hs & Hl & Hr) [= _ <-]. destruct (Hf q) as [E1 E2]. exists (f q), L. cbn. rewrite Hq. cbn.
  by rewrite E1, E2.
Qed.

Lemma quiet_prep : quiet qdma_device_prep_q_resource.
Proof. unfold qdma_device_prep_q_resource, device_set_qrange. quietly. by apply quiet_on_qdev. Qed.

Lemma quiet_legacy_clear i : quiet (intr_legacy_clear i).
Proof. unfold intr_legacy_clear, qdma_legacy_intr_conf. quietly. Qed.

Lemma quiet_legacy_setup i : quiet (intr_legacy_setup i).
Proof. unfold intr_legacy_setup, qdma_legacy_intr_conf, legacy_add. quietly. Qed.

Lemma quiet_count_in c : quiet (count_in c).
Proof. unfold count_in, inc_active, dec_active. quietly. Qed.

Lemma quiet_count_out c : quiet (count_out c).
Proof. unfold count_out, inc_active, dec_active. quietly. Qed.

Lemma quiet_kfree p : quiet (kfree p).
Proof. unfold kfree. quietly. Qed.

Lemma quiet_get_descq idx init : quiet (qdma_device_get_descq_by_id idx init).
Proof. unfold qdma_device_get_descq_by_id. quietly. Qed.

Lemma quiet_usable_at idx ty st : quiet (usable_at idx ty st).
Proof. unfold usable_at. quietly. Qed.

(** A queue is given to a thread, or taken from it. *)
Lemma core_of_add mode i t d t' d' : qdma_thread_add_work mode i t d = Some (t', d') -> core_of d' = core_of d.
Proof.
  unfold qdma_thread_add_work. destruct (negb _); [intros [= _ <-]; by destruct d|].
  destruct (pick_thread _); [|done]. intros [= _ <-]. by destruct d.
Qed.

Lemma core_of_remove i t d : core_of (qdma_thread_remove_work i t d).2 = core_of d.
Proof. unfold qdma_thread_remove_work. by destruct d. Qed.

(** ** Freeing and allocating rings *)

(** Putting another core in the place of one is only a matter of the ledger. *)
Lemma triple_exchange i f g sh l k e :
  l !! i = Some k -> (forall d, core_of d = k -> core_of (f d) = g) ->
  (forall evs L, outstanding evs = Some L -> L ≡ₚ base ++ (l ≫= held) ->
     exists L', outstanding (e :: evs) = Some L' /\ L' ++ held k ≡ₚ L ++ held g) ->
  triple (view sh l) (happens e;; on_descq i f) (fun _ => view sh (<[i := g]> l)).
Proof.
  intros Hi Hf He. apply triple_state. intros s (q & L & Hq & Hs & Hl & Ho & HL & Hz).
  destruct (He _ _ Ho HL) as (L' & Ho' & HL').
  eapply triple_bind with (Q := fun _ s1 => s1 = set_kernel (e :: kernel s) s); [by intros ?? s1 -> [= _ <-]|].
  intros _ ? u s' -> Hrun. destruct (on_descq_run _ _ _ _ _ Hrun) as (q0 & d & Hq0 & Hd & ->).
  change (qdev s = Some q0) in Hq0. rewrite Hq in Hq0. injection Hq0 as <-.
  eexists _, L'. split; [reflexivity|]. repeat split; try done; try apply Hz.
  - cbn. rewrite list_fmap_insert, Hl. f_equal. apply Hf. rewrite <- Hl, list_lookup_fmap, Hd in Hi. by injection Hi.
  - apply (Permutation_app_inv_r (held k)). rewrite HL', HL. rewrite <- !app_assoc. f_equiv. symmetry. by apply held_swap.
Qed.

Lemma triple_free_ring i f g sh l k len ptr bus :
  l !! i = Some k -> (forall d, core_of d = k -> core_of (f d) = g) -> held k ≡ₚ (len, ptr, bus) :: held g ->
  triple (view sh l) (happens (DmaFree len ptr bus);; on_descq i f) (fun _ => view sh (<[i := g]> l)).
Proof.
  intros Hi Hf Hk. apply (triple_exchange i f g sh l k); [done..|]. intros evs L Ho HL.
  rewrite (held_at l i k Hi), Hk in HL. generalize dependent (delete i l ≫= held). intros r HL.
  destruct (take_back_perm (len, ptr, bus) L (base ++ held g ++ r)) as (L' & E & HL').
  { rewrite HL. by apply Permutation_middle. }
  exists L'. cbn. rewrite Ho. split; [exact E|]. rewrite HL', HL, Hk. cbn. rewrite <- !app_assoc.
  f_equiv. cbn. by rewrite (app_assoc (held g)), <- Permutation_middle.
Qed.

Lemma triple_alloc_ring i f g sh l k len ptr bus :
  l !! i = Some k -> (forall d, core_of d = k -> core_of (f d) = g) -> held g ≡ₚ (len, ptr, bus) :: held k ->
  triple (view sh l) (happens (DmaAlloc len ptr bus);; on_descq i f) (fun _ => view sh (<[i := g]> l)).
Proof.
  intros Hi Hf Hk. apply (triple_exchange i f g sh l k); [done..|]. intros evs L Ho HL.
  eexists. cbn. rewrite Ho. split; [reflexivity|]. rewrite Hk. cbn. by rewrite <- Permutation_middle.
Qed.

Definition drop_desc (k : core) : core :=
  if k_desc k =? 0 then k else mk_core (k_state k) (k_conf k) 0 0 (k_cmpt k) (k_cmpt_bus k) (k_len k).
Definition drop_cmpt (k : core) : core :=
  if k_cmpt k =? 0 then k else mk_core (k_state k) (k_conf k) (k_desc k) (k_desc_bus k) 0 0 (k_len k).
Definition drop (k : core) : core := drop_cmpt (drop_desc k).

Lemma held_drop k : held (drop k) = [].
Proof.
  destruct k as [st c p b pc bc n]. unfold drop, drop_cmpt, drop_desc. cbn [k_desc].
  destruct (p =? 0) eqn:E1; cbn [k_cmpt]; destruct (pc =? 0) eqn:E2; unfold held; cbn; by rewrite ?E1, ?E2.
Qed.

Lemma drop_nothing k : held k = [] -> drop k = k.
Proof.
  destruct k as [st c p b pc bc n]. unfold held. cbn. destruct (p =? 0) eqn:E1, (pc =? 0) eqn:E2; try done.
  intros _. unfold drop, drop_cmpt, drop_desc. cbn. by rewrite E1; cbn; rewrite E2.
Qed.

Lemma state_drop k : k_state (drop k) = k_state k /\ k_conf (drop k) = k_conf k.
Proof. unfold drop, drop_cmpt, drop_desc. by repeat case_match. Qed.

Lemma triple_free_resource i sh l k :
  l !! i = Some k -> triple (view sh l) (qdma_descq_free_resource i) (fun _ => view sh (<[i := drop k]> l)).
Proof.
  intros Hi. assert (i < length l)%nat as Hlt by (by eapply lookup_lt_Some). unfold qdma_descq_free_resource.
  eapply triple_bind; [apply triple_at_descq|]. intros d. apply triple_pure. intros Hd.
  rewrite Hi in Hd. injection Hd as ->.
  eapply triple_bind with (Q := fun _ => view sh (<[i := drop_desc (core_of d)]> l)).
  - unfold drop_desc. cbn [k_desc core_of]. destruct (desc d =? 0) eqn:E; cbn [negb].
    { rewrite list_insert_id by done. apply quiet_ret. }
    eapply triple_bind with (Q := fun _ => view sh l).
    { lazymatch goal with |- triple _ ?m _ => enough (quiet m) as Hm by apply Hm end. unfold kfree. quietly. }
    intros _. apply (triple_free_ring i _ _ sh l (core_of d)); [done| |].
    + intros d' Hd'. injection Hd' as E1 E2 E3 E4 E5 E6 E7. destruct d'. cbn in *. by subst.
    + unfold held. cbn. by rewrite E.
  - intros _. set (l1 := <[i := drop_desc (core_of d)]> l).
    assert (l1 !! i = Some (drop_desc (core_of d))) as Hi1 by (by apply list_lookup_insert_eq).
    assert (<[i := drop (core_of d)]> l = <[i := drop (core_of d)]> l1) as -> by (unfold l1; by rewrite list_insert_insert_eq).
    unfold drop, drop_cmpt. assert (k_cmpt (drop_desc (core_of d)) = desc_cmpt d) as -> by (unfold drop_desc; by case_match).
    destruct (desc_cmpt d =? 0) eqn:E; cbn [negb].
    { rewrite list_insert_id by done. apply quiet_ret. }
    apply (triple_free_ring i _ _ sh l1 (drop_desc (core_of d))); [done| |].
    + intros d' Hd'. unfold drop_desc in *. cbn in *. destruct (desc d =? 0); injection Hd' as E1 E2 E3 E4 E5 E6 E7; destruct d'; cbn in *; by subst.
    + unfold held, drop_desc, cmpt_len. cbn. destruct (desc d =? 0) eqn:E'; cbn; rewrite ?E', E; reflexivity.
Qed.

Definition with_desc (p b : Z) (k : core) : core := mk_core (k_state k) (k_conf k) p b (k_cmpt k) (k_cmpt_bus k) (k_len k).
Definition with_cmpt (p b : Z) (k : core) : core := mk_core (k_state k) (k_conf k) (k_desc k) (k_desc_bus k) p b (k_len k).

Lemma held_nil k : held k = [] <-> k_desc k = 0 /\ k_cmpt k = 0.
Proof. unfold held. destruct (Z.eqb_spec (k_desc k) 0), (Z.eqb_spec (k_cmpt k) 0); simpl; split; naive_solver. Qed.

Lemma held_with_desc p b k : p <> 0 -> k_desc k = 0 -> held (with_desc p b k) ≡ₚ (desc_len (k_conf k), p, b) :: held k.
Proof. intros Hp Hk. unfold held. rewrite Hk. cbn. by rewrite (proj2 (Z.eqb_neq p 0)). Qed.

Lemma held_with_cmpt p b k : p <> 0 -> k_cmpt k = 0 -> held (with_cmpt p b k) ≡ₚ (cmpt_len k, p, b) :: held k.
Proof.
  intros Hp Hk. unfold held. rewrite Hk. cbn. rewrite (proj2 (Z.eqb_neq p 0)) by done. rewrite app_nil_r. symmetry. apply Permutation_cons_append.
Qed.

(** A ring is freed with the length it was allocated with. *)
Lemma free_len_alloc n sz : 0 <= n < 65536 -> 0 <= sz <= 64 -> ring_len n sz 8 = free_len n sz 8.
Proof. intros Hn Hs. unfold ring_len, free_len. rewrite i32_small, u32_small, u64_small; unfold is_i32, is_u32, is_u64; nia. Qed.

Lemma desc_size_range c : 0 <= get_desc_size c <= 64.
Proof. unfold get_desc_size. repeat case_match; lia. Qed.

Lemma triple_out_of_memory i sh l k :
  l !! i = Some k -> triple (view sh l) (out_of_memory i) (fun rv s => view sh (<[i := drop k]> l) s /\ rv = - ENOMEM).
Proof. intros Hi. eapply triple_bind; [by apply triple_free_resource|]. intros ?. apply triple_ret. Qed.

Lemma triple_with_ring i len f null (m : M (drv F) Z) sh l k g Q :
  l !! i = Some k ->
  (forall p b d, core_of d = k -> core_of (f p b d) = g p b) ->
  (forall p b, p <> 0 -> held (g p b) ≡ₚ (len, p, b) :: held k) ->
  (forall d, core_of d = k -> core_of (null d) = k) ->
  (forall p b, p <> 0 -> triple (view sh (<[i := g p b]> l)) m Q) ->
  triple (view sh l) (out_of_memory i) Q ->
  triple (view sh l) (with_ring i len f null m) Q.
Proof.
  intros Hi Hf Hg Hn Hm Ho s rv s' Hv. unfold with_ring, desc_ring_alloc, gets, mbind, M_bind.
  destruct (dma_alloc_coherent (kernel s) len) as [[p b]|] eqn:E; intros Hrun.
  - pose proof (Hptr _ _ _ _ E) as Hp.
    assert (triple (view sh l) ((happens (DmaAlloc len p b);; on_descq i (f p b));; m) Q) as Ht.
    { eapply triple_bind; [by apply (triple_alloc_ring i _ (g p b) sh l k); auto|]. intros ?. by apply Hm. }
    by apply (Ht s rv s').
  - assert (triple (view sh l) (on_descq i null;; out_of_memory i) Q) as Ht.
    { eapply triple_bind; [|intros ?; exact Ho]. pose proof (triple_on_descq i null (fun k => k) sh l k Hn Hi eq_refl) as Hq.
      by rewrite list_insert_id in Hq. }
    by apply (Ht s rv s').
Qed.

(** What becomes of a queue to which rings are allocated. *)
Definition same_queue (k k' : core) : Prop := k_state k' = k_state k /\ k_conf k' = k_conf k /\ k_len k' = k_len k.

Definition allocated sh l i k (rv : Z) (s : drv F) : Prop :=
  exists k', view sh (<[i := k']> l) s /\ same_queue k k' /\ (rv < 0 -> held k' = []).

Lemma same_drop k : same_queue k (drop k).
Proof. unfold same_queue, drop, drop_cmpt, drop_desc. by repeat case_match. Qed.

Lemma same_trans k1 k2 k3 : same_queue k1 k2 -> same_queue k2 k3 -> same_queue k1 k3.
Proof. intros (?&?&?) (?&?&?). unfold same_queue. repeat split; congruence. Qed.

(** The ends of [qdma_descq_alloc_resource], when the queue has become [k']. *)
Section ends.
Context (sh : Z * nat * nat) (l : list core) (i : nat) (k k' : core) (Hi : l !! i = Some k) (Hs : same_queue k k').

Lemma at_i : <[i := k']> l !! i = Some k'.
Proof. apply list_lookup_insert_eq. by eapply lookup_lt_Some. Qed.

Lemma ends_badly : triple (view sh (<[i := k']> l)) (out_of_memory i) (allocated sh l i k).
Proof.
  eapply triple_post; [|apply triple_out_of_memory, at_i]. intros rv s [Hv ->]. exists (drop k'). rewrite list_insert_insert_eq in Hv.
  split; [done|]. split; [by eapply same_trans, same_drop|]. intros _. apply held_drop.
Qed.

Lemma ends_well : triple (view sh (<[i := k']> l)) (desc_alloc_irq i;; mret 0) (allocated sh l i k).
Proof.
  apply quiet_then; [apply quiet_alloc_irq|]. intros ?. eapply triple_post; [|apply triple_ret]. intros rv s [Hv ->].
  exists k'. split; [done|]. split; [done|lia].
Qed.

Lemma ends_with_cmpt (d : qdma_descq) :
  k_cmpt k' = 0 -> fits k -> conf d = k_conf k -> cmpt_entry_len d = k_len k ->
  triple (view sh (<[i := k']> l))
    (alloc_cmpt_ring i d) (allocated sh l i k).
Proof.
  intros Hc Hf Ec El. unfold alloc_cmpt_ring. destruct (conf_has_cmpt (conf d)) eqn:Eh; [|apply ends_well].
  apply quiet_then; [quietly|]. intros ?. destruct Hs as (Hs1 & Hs2 & Hs3).
  apply (triple_with_ring i _ _ _ _ sh _ k' (fun p b => with_cmpt p b k')); [apply at_i|..].
  - intros p b d' <-. by destruct d'.
  - intros p b Hp. rewrite held_with_cmpt by done. unfold cmpt_len. rewrite Ec, El, Hs2, Hs3.
    rewrite <- free_len_alloc by (apply Hf; by rewrite <- Ec). done.
  - intros d' <-. destruct d'. cbn in *. by subst.
  - intros p b Hp. rewrite list_insert_insert_eq. apply quiet_then; [apply quiet_alloc_irq|]. intros ?.
    eapply triple_post; [|apply triple_ret]. intros rv s [Hv ->]. exists (with_cmpt p b k'). split; [done|]. by split; [|lia].
  - apply ends_badly.
Qed.
End ends.

Lemma triple_alloc_resource i sh l k :
  l !! i = Some k -> held k = [] -> fits k ->
  triple (view sh l) (qdma_descq_alloc_resource i) (allocated sh l i k).
Proof.
  intros Hi Hk Hf. apply held_nil in Hk as [Hd Hc]. unfold qdma_descq_alloc_resource.
  eapply triple_bind; [apply triple_at_descq|]. intros d. apply triple_pure. intros Ed. rewrite Hi in Ed. injection Ed as ->.
  assert (forall k', same_queue (core_of d) k' -> k_cmpt k' = 0 ->
    triple (view sh (<[i := k']> l)) (alloc_lists i d) (allocated sh l i (core_of d))) as Hlists.
  { intros k' Hs Hc'. unfold alloc_lists. destruct (conf_st_c2h (conf d)).
    - apply quiet_then; [apply quiet_on_flq|]. intros rv. destruct (rv <? 0); [by apply ends_badly|by apply ends_with_cmpt].
    - destruct (_ && _); [|by apply ends_with_cmpt]. unfold alloc_desc_list.
      do 2 (apply quiet_then; [quietly|]; intros ?). apply quiet_then; [quietly|]. intros ?. destruct (_ =? 0); [by apply ends_badly|].
      apply quiet_then; [quietly|]. intros ?. by apply ends_with_cmpt. }
  destruct (negb _).
  - apply (triple_with_ring i _ _ _ _ sh l (core_of d) (fun p b => with_desc p b (core_of d))); [done|..].
    + intros p b d' <-. by destruct d'.
    + intros p b Hp. rewrite held_with_desc by done. unfold desc_len, get_desc_cmpl_status_size.
      rewrite free_len_alloc; [done|apply Hf|apply desc_size_range].
    + intros d' E. destruct d, d'. cbn in *. injection E as -> -> -> -> -> -> ->. by subst.
    + intros p b Hp. by apply Hlists.
    + rewrite <- (list_insert_id l i (core_of d)) at 1 by done. by apply ends_badly.
  - rewrite <- (list_insert_id l i (core_of d)) at 1 by done. by apply Hlists.
Qed.

(** ** Operations on a queue *)

Context (sh : Z * nat * nat) (l : list core) (Hidle : Forall idle l).

Definition set_state (b : q_state_t) (k : core) : core :=
  mk_core b (k_conf k) (k_desc k) (k_desc_bus k) (k_cmpt k) (k_cmpt_bus k) (k_len k).

(** An operation that refused, or one queue that changed, its state as [tr] says. *)
Definition result (tr : Z -> q_state_t -> q_state_t -> Prop) (rv : Z) (s : drv F) : Prop :=
  exists l', view sh l' s /\
    ((l' = l /\ rv < 0) \/
     exists i k k', l !! i = Some k /\ l' = <[i := k']> l /\ idle k' /\ tr rv (k_state k) (k_state k')).

Lemma result_refused tr rv s : view sh l s -> rv < 0 -> result tr rv s.
Proof. intros Hv Hrv. exists l. auto. Qed.

Lemma result_moved (tr : Z -> q_state_t -> q_state_t -> Prop) rv s i k k' :
  l !! i = Some k -> view sh (<[i := k']> l) s -> idle k' -> tr rv (k_state k) (k_state k') -> result tr rv s.
Proof. intros Hi Hv Hk Ht. exists (<[i := k']> l). split; [done|]. right. by exists i, k, k'. Qed.

Lemma triple_refuse tr rv : rv < 0 -> triple (view sh l) (mret rv) (result tr).
Proof. intros Hrv. eapply triple_post; [|apply triple_ret]. intros rv' s [Hv ->]. by apply result_refused. Qed.

(** A queue that has been put in the place of another. *)
Section at_queue.
Context (i : nat) (k : core) (Hi : l !! i = Some k).

Lemma triple_end (tr : Z -> q_state_t -> q_state_t -> Prop) k' rv :
  idle k' -> tr rv (k_state k) (k_state k') -> triple (view sh (<[i := k']> l)) (mret rv) (result tr).
Proof.
  intros Hk Ht. eapply triple_post; [|apply triple_ret]. intros rv' s [Hv ->]. by apply (result_moved _ _ _ i k k').
Qed.

Lemma at_i' k' : <[i := k']> l !! i = Some k'.
Proof. apply list_lookup_insert_eq. by eapply lookup_lt_Some. Qed.

Lemma triple_change {B} k' k'' f (m : unit -> M (drv F) B) R :
  (forall d, core_of d = k' -> core_of (f d) = k'') -> held k'' = held k' ->
  triple (view sh (<[i := k'']> l)) (m tt) R -> triple (view sh (<[i := k']> l)) (on_descq i f ≫= m) R.
Proof.
  intros Hf Hh Hm. eapply triple_bind; [apply (triple_on_descq i f (fun _ => k'') sh _ k'); [done|apply at_i'|done]|].
  intros []. cbn. by rewrite list_insert_insert_eq.
Qed.

Lemma triple_look {B} k' (m : qdma_descq -> M (drv F) B) R :
  (forall d, core_of d = k' -> triple (view sh (<[i := k']> l)) (m d) R) ->
  triple (view sh (<[i := k']> l)) (at_descq i ≫= m) R.
Proof.
  intros Hm. eapply triple_bind; [apply triple_at_descq|]. intros d. apply triple_pure. intros Hd. rewrite at_i' in Hd.
  injection Hd as Hd. by apply Hm.
Qed.

Lemma triple_join {B} k' (m : unit -> M (drv F) B) R :
  triple (view sh (<[i := k']> l)) (m tt) R -> triple (view sh (<[i := k']> l)) (thread_add_work i ≫= m) R.
Proof.
  intros Hm. eapply triple_bind with (Q := fun _ => view sh (<[i := k']> l)); [|by intros []].
  unfold thread_add_work. apply quiet_then; [quietly|]. intros s. apply triple_look. intros d Hd.
  eapply triple_bind; [apply triple_deref|]. intros [t d']. apply triple_pure. intros Ea.
  apply quiet_then; [quietly|]. intros ?.
  eapply triple_post; [|apply (triple_on_descq i _ (fun _ => k') sh _ k'); [|apply at_i'|done]].
  - cbn. intros _ s'. by rewrite list_insert_insert_eq.
  - intros _ _. rewrite <- Hd. by apply core_of_add in Ea.
Qed.

Lemma triple_leave {B} k' (m : unit -> M (drv F) B) R :
  triple (view sh (<[i := k']> l)) (m tt) R -> triple (view sh (<[i := k']> l)) (thread_remove_work i ≫= m) R.
Proof.
  intros Hm. eapply triple_bind with (Q := fun _ => view sh (<[i := k']> l)); [|by intros []].
  unfold thread_remove_work. apply quiet_then; [quietly|]. intros s. apply triple_look. intros d Hd.
  pose proof (core_of_remove i (threads s) d) as Er. destruct (qdma_thread_remove_work _ _ _) as [t d'].
  apply quiet_then; [quietly|]. intros ?.
  eapply triple_post; [|apply (triple_on_descq i _ (fun _ => k') sh _ k'); [|apply at_i'|done]].
  - cbn. intros _ s'. by rewrite list_insert_insert_eq.
  - intros _ _. cbn in Er. congruence.
Qed.

Lemma triple_free {B} k' (m : unit -> M (drv F) B) R :
  triple (view sh (<[i := drop k']> l)) (m tt) R -> triple (view sh (<[i := k']> l)) (qdma_descq_free_resource i ≫= m) R.
Proof.
  intros Hm. eapply triple_bind; [apply triple_free_resource, at_i'|]. intros []. cbn. by rewrite list_insert_insert_eq.
Qed.

(** *** Starting *)

Definition start_moves (rv : Z) (a b : q_state_t) : Prop :=
  a = Q_STATE_ENABLED /\ ((rv = 0 /\ b = Q_STATE_ONLINE) \/ (rv < 0 /\ b = Q_STATE_ENABLED)).

Definition complete_core (csr : global_csr_conf) (k : core) : core :=
  mk_core (k_state k) (completed_conf csr (k_conf k)) (k_desc k) (k_desc_bus k) (k_cmpt k) (k_cmpt_bus k)
    (if conf_has_cmpt (k_conf k) then u8 (Z.shiftl 8 (fld queue_conf.cmpl_desc_sz (completed_conf csr (k_conf k)))) else k_len k).

Lemma complete_core_fits csr k0 : sizes_ok (ring_sz csr) -> fits (complete_core csr k0).
Proof.
  intros Hs. pose proof (complete_fits csr [] (set_conf (k_conf k0) descq_zero) Hs) as Hf. rewrite core_of_complete in Hf.
  unfold fits, complete_core in *. cbn [k_conf k_len conf set_conf] in *. rewrite completed_has_cmpt in *.
  destruct Hf as [Hf1 Hf2]. split; [done|]. by destruct (conf_has_cmpt (k_conf k0)).
Qed.

Lemma triple_allocate_at k' :
  held k' = [] -> fits k' -> k_state k' = Q_STATE_ENABLED ->
  triple (view sh (<[i := k']> l)) (qdma_descq_alloc_resource i)
    (fun rv s => exists k2, view sh (<[i := k2]> l) s /\ k_state k2 = Q_STATE_ENABLED /\ (rv < 0 -> held k2 = [])).
Proof.
  intros Hh Hf Hst. eapply triple_post; [|by apply (triple_alloc_resource i sh _ k' (at_i' k'))].
  intros rv s (k2 & Hv & (Hs & _) & Hk). exists k2. rewrite list_insert_insert_eq in Hv. split; [done|]. split; [congruence|done].
Qed.

Lemma triple_exists {A X} (P : X -> drv F -> Prop) (m : M (drv F) A) Q :
  (forall x, triple (P x) m Q) -> triple (fun s => exists x, P x s) m Q.
Proof. intros Hm s a s' [x Hx]. by apply (Hm x). Qed.

Lemma triple_start :
  k_state k = Q_STATE_ENABLED -> held k = [] -> triple (view sh l) (start_queue i) (result start_moves).
Proof.
  intros Hst Hh. unfold start_queue. eapply triple_bind with (Q := fun s0 s => view sh l s /\ sizes_ok (ring_sz (csr_info s0))).
  { intros s s0 s' Hv [= <- <-]. split; [done|]. by destruct Hv as (? & ? & _ & _ & _ & _ & _ & Hz). }
  intros s0. apply triple_pure. intros Hz. rewrite <- (list_insert_id l i k) by done.
  pose proof Hh as [Hd0 Hc0]%held_nil. set (k1 := complete_core (csr_info s0) k).
  assert (held k1 = []) as Hh1 by (by apply held_nil).
  apply (triple_change k k1); [intros d <-; apply core_of_complete|congruence|].
  eapply triple_bind; [apply (triple_allocate_at k1); [done|by apply complete_core_fits|done]|].
  intros rv. apply triple_exists. intros k2. destruct (Z.ltb_spec rv 0) as [Hrv|Hrv].
  { intros s a s' (Hv & Hs2 & Hk2) [= <- <-]. apply (result_moved _ _ _ i k k2); [done|done|intros _; auto|].
    split; [done|]. right. by rewrite Hs2. }
  apply (triple_conseq _ (fun s => view sh (<[i := k2]> l) s /\ k_state k2 = Q_STATE_ENABLED) _ _ (result start_moves)); [tauto|done|].
  apply triple_pure. intros Hs2. clear rv Hrv. apply quiet_then; [apply quiet_prog_hw|]. intros rv.
  apply triple_look. intros d Hd. destruct (Z.ltb_spec rv 0) as [Hrv|Hrv].
  - apply quiet_then; [apply quiet_context_clear|]. intros ?. apply triple_free. destruct (state_drop k2) as [Hs3 _].
    apply (triple_end _ (drop k2)); [intros _; apply held_drop|]. split; [done|]. right. split; [done|congruence].
  - apply quiet_then; [quietly|]. intros x. apply quiet_then; [case_match; [quietly|apply quiet_on_vector]|]. intros ?.
    apply triple_join. apply (triple_change k2 (set_state Q_STATE_ONLINE k2)); [by intros [] <-|done|].
    apply triple_end; [by intros []|]. split; [done|]. by left.
Qed.

(** *** Stopping *)

Definition stop_moves (rv : Z) (a b : q_state_t) : Prop := a = Q_STATE_ONLINE /\ b = Q_STATE_ENABLED /\ rv = 0.

Lemma quiet_finish_all rs : quiet (finish_all rs).
Proof. unfold finish_all. apply quiet_for_each. intros r. apply quiet_happens. by destruct (fp_done r). Qed.

Lemma triple_stop d : k_state k = Q_STATE_ONLINE -> triple (view sh l) (stop_queue i d) (result stop_moves).
Proof.
  intros Hst. unfold stop_queue. apply quiet_then; [quietly|]. intros ?.
  apply quiet_then; [case_match; [quietly|by apply quiet_on_descq]|]. intros ?. rewrite <- (list_insert_id l i k) by done.
  apply (triple_change k (set_state Q_STATE_ENABLED k)); [by intros [] <-|done|]. apply triple_look. intros d1 Hd1.
  do 2 (apply quiet_then; [apply quiet_finish_all|]; intros ?). apply quiet_then; [quietly|]. intros ?.
  apply triple_leave. apply quiet_then; [apply quiet_context_clear|]. intros ?. apply quiet_then; [quietly|]. intros x.
  apply quiet_then; [case_match; [quietly|apply quiet_on_vector]|]. intros ?. apply triple_free.
  apply quiet_then; [quietly|]. intros ?. destruct (state_drop (set_state Q_STATE_ENABLED k)) as [Hs _].
  apply triple_end; [intros _; apply held_drop|]. by rewrite Hs.
Qed.

(** *** Removing *)

Definition remove_moves (rv : Z) (a b : q_state_t) : Prop :=
  a = Q_STATE_ENABLED /\ ((rv = 0 /\ b = Q_STATE_DISABLED) \/ (rv < 0 /\ b = Q_STATE_ENABLED)).

Lemma triple_remove d :
  k_state k = Q_STATE_ENABLED -> held k = [] -> triple (view sh l) (remove_queue i d) (result remove_moves).
Proof.
  intros Hst Hh. unfold remove_queue, or_return. rewrite <- (list_insert_id l i k) by done.
  apply quiet_then; [apply quiet_count_out|]. intros rv. destruct (Z.ltb_spec rv 0) as [Hrv|Hrv].
  - apply triple_end; [by intros _|]. split; [done|by right].
  - apply (triple_change k (set_state Q_STATE_DISABLED k)); [by intros [] <-|done|]. apply quiet_then; [quietly|]. intros x.
    apply quiet_then; [case_match; [apply quiet_legacy_clear|quietly]|]. intros ?.
    apply triple_end; [by intros _|]. split; [done|by left].
Qed.

(** *** Configuring *)

Definition config_moves (rv : Z) (a b : q_state_t) : Prop := a = Q_STATE_ENABLED /\ b = Q_STATE_ENABLED.

Definition with_conf (c : Z) (k : core) : core :=
  mk_core (k_state k) c (k_desc k) (k_desc_bus k) (k_cmpt k) (k_cmpt_bus k) (k_len k).

Lemma held_with_conf c k' : held k' = [] -> held (with_conf c k') = [].
Proof. intros [Hh1 Hh2]%held_nil. by apply held_nil. Qed.

Lemma core_set_conf c d : core_of (set_conf c d) = with_conf c (core_of d).
Proof. done. Qed.
Lemma core_set_channel c d : core_of (set_channel c d) = core_of d.
Proof. done. Qed.
Lemma conf_set_conf c d : conf (set_conf c d) = c.
Proof. done. Qed.
Lemma conf_set_channel c d : conf (set_channel c d) = conf d.
Proof. done. Qed.

Definition config_conf (x : xlnx_dma_dev) (qconf : Z) (reconfig : bool) (c : Z) : Z :=
  conf (qdma_descq_config x qconf reconfig (set_conf c descq_zero)).

Lemma core_of_config x qconf reconfig d :
  core_of (qdma_descq_config x qconf reconfig d) = with_conf (config_conf x qconf reconfig (conf d)) (core_of d).
Proof.
  unfold config_conf, qdma_descq_config. cbv zeta. destruct reconfig; cbn [negb].
  - destruct (bool_decide _); by rewrite ?core_set_channel, ?conf_set_channel, core_set_conf, !conf_set_conf.
  - by rewrite core_set_conf, conf_set_conf.
Qed.

Lemma triple_configure x qconf reconfig {B} k' (m : unit -> M (drv F) B) R :
  held k' = [] -> (forall c, triple (view sh (<[i := with_conf c k']> l)) (m tt) R) ->
  triple (view sh (<[i := k']> l)) (on_descq i (qdma_descq_config x qconf reconfig) ≫= m) R.
Proof.
  intros Hh Hm. apply (triple_change k' (with_conf (config_conf x qconf reconfig (k_conf k')) k'));
    [|by rewrite held_with_conf|auto].
  intros d <-. apply core_of_config.
Qed.

Lemma triple_config qconf :
  k_state k = Q_STATE_ENABLED -> held k = [] -> triple (view sh l) (config_queue qconf i) (result config_moves).
Proof.
  intros Hst Hh. unfold config_queue. apply quiet_then; [quietly|]. intros x. rewrite <- (list_insert_id l i k) by done.
  destruct (negb _); [by apply triple_end; [intros _|]|].
  apply triple_configure; [done|]. intros c. apply triple_end; [|done]. intros _. by apply held_with_conf.
Qed.

Lemma triple_check_start d :
  k_state k = Q_STATE_ENABLED -> held k = [] -> triple (view sh l) (check_and_start i d) (result start_moves).
Proof.
  intros Hst Hh. unfold check_and_start. apply quiet_then; [quietly|]. intros x.
  destruct (bad_engine _ _); [by apply triple_refuse|]. destruct (bad_aperture _); [by apply triple_refuse|]. by apply triple_start.
Qed.

(** *** Adding *)

(** What may become of a queue that has been claimed. *)
Definition add_moves (rv : Z) (a b : q_state_t) : Prop :=
  a = Q_STATE_DISABLED /\ ((rv = 0 /\ b = Q_STATE_ENABLED) \/ (rv < 0 /\ b <> Q_STATE_ONLINE)).

(** The queue is as it was, or the request has failed. *)
Definition prepared k' (rv : Z) (s : drv F) : Prop :=
  (0 <= rv /\ view sh (<[i := k']> l) s) \/
  (rv < 0 /\ exists b, b <> Q_STATE_ONLINE /\ view sh (<[i := set_state b k']> l) s).

Lemma triple_legacy k' : k_state k' = Q_STATE_ENABLED -> triple (view sh (<[i := k']> l)) (add_legacy i) (prepared k').
Proof.
  intros Hs. unfold add_legacy. apply quiet_then; [quietly|]. intros x. destruct (bool_decide _).
  2: { eapply triple_post; [|apply triple_ret]. intros rv s [Hv ->]. left. split; [lia|done]. }
  apply quiet_then; [apply quiet_legacy_setup|]. intros rv.
  assert (triple (view sh (<[i := k']> l)) (on_descq i (set_q_state Q_STATE_DISABLED);; mret (- EINVAL)) (prepared k')) as Hd.
  { apply (triple_change k' (set_state Q_STATE_DISABLED k')); [by intros [] <-|done|].
    eapply triple_post; [|apply triple_ret]. intros rv' s [Hv ->]. right. split; [done|]. by exists Q_STATE_DISABLED. }
  destruct (0 <? rv); [apply quiet_then; [apply quiet_legacy_clear|]; by intros ?|].
  destruct (rv <? 0); [done|]. eapply triple_post; [|apply triple_ret]. intros rv' s [Hv ->]. left. split; [lia|done].
Qed.

Lemma triple_prepare k' :
  k_state k' = Q_STATE_ENABLED ->
  triple (view sh (<[i := k']> l)) (qdma_device_prep_q_resource ;? add_legacy i) (prepared k').
Proof.
  intros Hs. unfold or_return. apply quiet_then; [apply quiet_prep|]. intros rv. destruct (Z.ltb_spec rv 0); [|by apply triple_legacy].
  eapply triple_post; [|apply triple_ret]. intros rv' s [Hv ->]. right. split; [done|]. exists Q_STATE_ENABLED. split; [done|].
  by destruct k'; cbn in *; subst.
Qed.

Definition add_result (r : Z * Z * Z) : drv F -> Prop := result add_moves r.1.1.

Lemma triple_claimed x q ty qconf :
  k_state k = Q_STATE_DISABLED -> held k = [] ->
  triple (view sh (<[i := set_state Q_STATE_ENABLED k]> l)) (add_claimed x q ty i qconf) add_result.
Proof.
  intros Hs Hh. unfold add_claimed. eapply triple_bind; [by apply triple_prepare|]. intros rv.
  intros s r s' [[Hrv Hv] | (Hrv & b & Hb & Hv)].
  - rewrite (proj2 (Z.ltb_ge rv 0) Hrv). revert s r s' Hv.
    lazymatch goal with |- forall s r s', _ -> ?m s = _ -> _ =>
      enough (triple (view sh (<[i := set_state Q_STATE_ENABLED k]> l)) m add_result) as Hm by (intros s r s' Hv; by apply Hm) end.
    apply triple_configure; [done|]. intros c. set (k' := with_conf c _).
    assert (held k' = []) as Hk' by (by apply held_with_conf).
    apply quiet_then; [apply quiet_count_in|]. intros rv'. destruct (Z.ltb_spec rv' 0) as [Hrv'|_].
    + intros s1 r s2 Hv [= <- <-]. apply (result_moved _ _ _ i k k'); [done|done|by intros _|]. split; [done|]. by right.
    + apply triple_look. intros d Hd. apply quiet_then; [quietly|]. intros ?.
      intros s1 r s2 Hv [= <- <-]. apply (result_moved _ _ _ i k k'); [done|done|by intros _|]. split; [done|]. by left.
  - rewrite (proj2 (Z.ltb_lt rv 0) Hrv). intros [= <- <-].
    apply (result_moved _ _ _ i k (set_state b k)); [done|done|by intros _|]. split; [done|]. by right.
Qed.
End at_queue.

(** Every queue that is not online holds no rings. *)
Lemma idle_at i k : l !! i = Some k -> idle k.
Proof. rewrite Forall_lookup in Hidle. apply Hidle. Qed.

(** The place in the arrays of a queue of a type. *)
Definition place (ty : Z) (idx : nat) : nat :=
  let first := if ty =? Q_C2H then sh.1.2 else if ty =? Q_H2C then 0%nat else sh.2 in (first + idx)%nat.

Lemma triple_the_qdev : triple (view sh l) the_qdev (fun q s => view sh l s /\ shape_of q = sh).
Proof.
  intros s q s' Hv. pose proof Hv as (q0 & L & Hq & Hs & _). unfold the_qdev, deref. rewrite Hq. by intros [= <- <-].
Qed.

Lemma triple_usable idx ty st :
  0 <= ty < 3 ->
  triple (view sh l) (usable_at idx ty st)
    (fun rv s => view sh l s /\ (0 <= rv -> exists k, l !! place ty idx = Some k /\ k_state k = Q_STATE_DISABLED)).
Proof.
  intros Hty. unfold usable_at. eapply triple_bind; [apply triple_the_qdev|]. intros q. apply triple_pure. intros Hq.
  eapply triple_bind; [apply triple_at_descq|]. intros h. apply triple_pure. intros Hh.
  eapply triple_bind; [apply triple_at_descq|]. intros c. apply triple_pure. intros Hc.
  eapply triple_bind; [apply triple_at_descq|]. intros w. apply triple_pure. intros Hw.
  eapply triple_post; [|apply triple_ret]. intros rv s [Hv ->]. split; [done|]. intros Hrv. apply usable_free in Hrv.
  unfold place. rewrite <- Hq. cbn.
  assert (forall d, enabled d = false -> k_state (core_of d) = Q_STATE_DISABLED) as He.
  { intros d. unfold enabled. by destruct (bool_decide_reflect (q_state d = Q_STATE_DISABLED)). }
  assert (ty = Q_H2C \/ ty = Q_C2H \/ ty = Q_CMPT) as [-> | [-> | ->]] by (unfold Q_H2C, Q_C2H, Q_CMPT; lia);
    cbn in Hrv |- *; eauto.
Qed.

Lemma triple_claim qconf :
  0 <= type_of qconf < 3 -> fld queue_conf.qidx qconf <> QDMA_QUEUE_IDX_INVALID ->
  triple (view sh l) (claim_index qconf) (fun r s =>
    match r with
    | inl rv => view sh l s /\ rv < 0
    | inr (i, c) => exists k, l !! i = Some k /\ k_state k = Q_STATE_DISABLED /\ view sh (<[i := set_state Q_STATE_ENABLED k]> l) s
    end).
Proof.
  intros Hty Hidx. unfold claim_index. eapply triple_bind; [apply triple_the_qdev|]. intros q. apply triple_pure. intros Hq.
  rewrite (proj2 (Z.eqb_neq _ _) Hidx). eapply triple_bind; [by apply triple_usable|]. intros rv. apply triple_pure. intros Hfree.
  destruct (Z.ltb_spec rv 0) as [Hrv|Hrv]; [eapply triple_post; [|apply triple_ret]; by intros r s [Hv ->]|].
  destruct (Hfree Hrv) as (k & Hk & Hs). clear Hfree.
  assert (place (type_of qconf) (Z.to_nat (fld queue_conf.qidx qconf)) =
    ((if (type_of qconf =? Q_C2H)%Z then c2h_descq q else if (type_of qconf =? Q_H2C)%Z then 0 else cmpt_descq q) +
     Z.to_nat (fld queue_conf.qidx qconf))%nat) as <- by (unfold place; by rewrite <- Hq).
  generalize dependent (place (type_of qconf) (Z.to_nat (fld queue_conf.qidx qconf))). intros i Hk.
  eapply triple_bind.
  - apply (triple_on_descq i (set_q_state Q_STATE_ENABLED) (fun k => set_state Q_STATE_ENABLED k) sh l k); [by intros [] <-|done|done].
  - intros ?. eapply triple_post; [|apply triple_ret]. intros r s [Hv ->]. by exists k.
Qed.

Lemma triple_add_queue qconf :
  0 <= type_of qconf < 3 -> fld queue_conf.qidx qconf <> QDMA_QUEUE_IDX_INVALID ->
  triple (view sh l) (add_queue qconf) add_result.
Proof.
  intros Hty Hidx. assert (forall rv c, rv < 0 -> triple (view sh l) (mret (rv, c, QDMA_QUEUE_IDX_INVALID)) add_result) as Hfail.
  { intros rv c Hrv s r s' Hv [= <- <-]. by apply result_refused. }
  unfold add_queue. apply quiet_then; [quietly|]. intros s0. destruct (mode_missing _ _); [by apply Hfail|].
  destruct (Z.ltb_spec (qdma_validate_qconfig (xdev s0) qconf) 0); [by apply Hfail|].
  apply quiet_then; [quietly|]. intros q. destruct (_ && _); [by apply Hfail|]. destruct (_ <=? _); [by apply Hfail|].
  eapply triple_bind; [by apply triple_claim|]. intros [rv | [i c]].
  - intros s r s' [Hv Hrv]. by apply Hfail.
  - apply triple_exists. intros k s r s' (Hk & Hs & Hv). assert (held k = []) as Hh by (apply (idle_at i k Hk); by rewrite Hs).
    by apply (triple_claimed i k Hk (xdev s0) q (type_of qconf) c Hs Hh s r s').
Qed.

(** ** The calls *)

Lemma triple_with_queue a id init (op : nat -> qdma_descq -> M (drv F) Z) st tr :
  (forall i k d, l !! i = Some k -> k_state k = st -> triple (view sh l) (op i d) (result tr)) ->
  triple (view sh l) (with_queue a id init (fun i => with_state st i (op i))) (result tr).
Proof.
  intros Hop. unfold with_queue. destruct (negb _); [by apply triple_refuse|].
  apply quiet_then; [apply quiet_get_descq|]. intros [i|]; [|by apply triple_refuse]. unfold with_state.
  eapply triple_bind; [apply triple_at_descq|]. intros d. apply triple_pure. intros Hd.
  destruct (bool_decide_reflect (q_state d = st)) as [Hs|]; [|by apply triple_refuse]. by apply (Hop i (core_of d)).
Qed.

(** A call of the interface on queues; a queue is added at an index that the caller gives. *)
Inductive api_call :=
| Add (qconf qhndl : option Z)
| Config (id qconf : Z)
| Start (id : Z)
| Stop (id : Z)
| Remove (id : Z).

Definition run_api (a : api_args) (c : api_call) : M (drv F) Z :=
  match c with
  | Add qconf qhndl => '(rv, _, _) ← qdma_queue_add a qconf qhndl; mret rv
  | Config id qconf => qdma_queue_config a id qconf
  | Start id => qdma_queue_start a id
  | Stop id => qdma_queue_stop a id
  | Remove id => qdma_queue_remove a id
  end.

Definition index_given (c : api_call) : Prop :=
  match c with Add (Some qconf) _ => fld queue_conf.qidx qconf <> QDMA_QUEUE_IDX_INVALID | _ => True end.

Definition moves_of (c : api_call) : Z -> q_state_t -> q_state_t -> Prop :=
  match c with
  | Add _ _ => add_moves | Config _ _ => config_moves | Start _ => start_moves | Stop _ => stop_moves
  | Remove _ => remove_moves
  end.

Lemma triple_api a c : index_given c -> triple (view sh l) (run_api a c) (result (moves_of c)).
Proof.
  assert (forall i k, l !! i = Some k -> k_state k = Q_STATE_ENABLED -> held k = []) as Hheld.
  { intros i k Hi Hs. apply (idle_at i k Hi). by rewrite Hs. }
  intros Hc. destruct c as [qconf qhndl|id qconf|id|id|id]; cbn [run_api moves_of].
  - eapply triple_bind with (Q := add_result); [|intros [[rv ?] ?]; intros s r s' Hr [= <- <-]; exact Hr].
    unfold qdma_queue_add. apply quiet_then; [quietly|]. intros x.
    assert (triple (view sh l) (mret (- EINVAL, default 0 qconf, default 0 qhndl)) add_result) as Hfail.
    { intros s r s' Hv [= <- <-]. by apply result_refused. }
    destruct (negb _); [done|]. destruct qconf as [qconf|]; [|done]. destruct qhndl as [qhndl|]; [|done].
    destruct (bad_type x qconf) eqn:Hb; [done|]. apply triple_add_queue; [|done].
    unfold bad_type in Hb. apply orb_false_elim in Hb as [[Hb _]%orb_false_elim _]. unfold Q_CMPT in Hb.
    pose proof (fld_range queue_conf.q_type qconf ltac:(layout_side)). unfold type_of in *. lia.
  - apply (triple_with_queue a id false (fun i _ => config_queue qconf i)). intros i k _ Hi Hs. apply (triple_config i k Hi); eauto.
  - apply triple_with_queue. intros i k d Hi Hs. apply (triple_check_start i k Hi); eauto.
  - apply triple_with_queue. intros i k d Hi Hs. by apply (triple_stop i k Hi).
  - apply triple_with_queue. intros i k d Hi Hs. apply (triple_remove i k Hi); eauto.
Qed.
End rings.
