(* ===== verification/DrvStates.v ===== *)
(** * DrvStates: what the queue interface guarantees

    The theorems on the life of queues that follow from DrvRings, handles, and the limits of the
    code. *)

From S2P Require Import Prelude QdmaErrors ResourceMgmt Mmio CLayout Contexts MboxMsg CsrProps DrvData DrvCtxt DrvThread DrvQueue DrvLife DrvRings.
From S2P Require MboxPf Descq HwTable ResourceProps.
Import Descq(Q_H2C, Q_C2H, Q_CMPT, q_state_t(..), qdma_drv_mode(..)).
Local Open Scope Z_scope.

(** ** Memory and states *)

(** The rings of a queue. *)
Definition rings_of (d : qdma_descq) : list ring := held (core_of d).

Section states.
Context {F : Type} `{DrvKernel} `{FreeList F} `{DrvAccess}.

Definition online (d : qdma_descq) : bool := bool_decide (q_state d = Q_STATE_ONLINE).

(** What is allocated, besides [base], is the rings of the queues that are online, each once. *)
Definition rings_in_order (base : list ring) (s : drv F) : Prop :=
  exists q L, qdev s = Some q /\ outstanding (kernel s) = Some L /\ sizes_ok (ring_sz (csr_info s)) /\
    L ≡ₚ base ++ (descqs q ≫= fun d => if online d then rings_of d else []) /\
    Forall (fun d => online d = false -> rings_of d = []) (descqs q).

(** One call, with whatever arguments. *)
Definition api_step (s s' : drv F) : Prop := exists a c rv, index_given c /\ run_api a c s = Ret rv s'.

Definition sample_args : api_args := mk_args true 256 true true.

(** Calls one after another, and their codes. *)
Fixpoint run_all (cs : list api_call) : M (drv F) (list Z) :=
  match cs with
  | [] => mret []
  | c :: cs' => rv ← run_api sample_args c; rvs ← run_all cs'; mret (rv :: rvs)
  end.

Lemma in_order_view base s :
  rings_in_order base s <-> exists sh l, view base sh l s /\ Forall idle l.
Proof.
  assert (forall ds, Forall (fun d => online d = false -> rings_of d = []) ds ->
    (ds ≫= fun d => if online d then rings_of d else []) = ((core_of <$> ds) ≫= held)) as Hheld.
  { induction 1 as [|d ds Hd _ IH]; [done|]. cbn. rewrite IH. f_equal. destruct (online d); [done|]. symmetry. by apply Hd. }
  assert (forall d, (online d = false -> rings_of d = []) <-> idle (core_of d)) as Hone.
  { intros d. unfold idle, online, rings_of. cbn. by rewrite bool_decide_eq_false. }
  split.
  - intros (q & L & Hq & Ho & Hz & HL & Hi). rewrite Hheld in HL by done. exists (shape_of q), (core_of <$> descqs q). split.
    + by exists q, L.
    + apply Forall_fmap. eapply Forall_impl; [done|]. intros d. apply Hone.
  - intros (sh & l & (q & L & Hq & _ & <- & Ho & HL & Hz) & Hi). rewrite Forall_fmap in Hi.
    assert (Forall (fun d => online d = false -> rings_of d = []) (descqs q)) as Hf.
    { eapply Forall_impl; [done|]. intros d. apply Hone. }
    exists q, L. by rewrite Hheld.
Qed.

(** C15. Through any history of calls that add (at a given index), configure, start, stop and remove queues,
    whatever the hardware, the kernel and the resource manager answer, the memory for rings that is
    allocated is that of the queues that are online: nothing leaks when a call fails, and every ring is
    freed once, with the length it was allocated with.  The conditions: an add gives the index
    ([index_given]; without it, see [added_without_index_is_elsewhere] in DrvLimits), memory that is
    allocated is not at address zero, the card's table of ring sizes holds sizes its registers can hold, and
    while a queue that is being stopped waits, nobody else changes its state, configuration or rings. *)
Theorem rings_accounted base (s s' : drv F) :
  sizes_read -> memory_not_null -> others_keep_queue ->
  star api_step s s' -> rings_in_order base s -> rings_in_order base s'.
Proof.
  intros Hsz Hp Hw Hstar. apply (star_invariant api_step); [|done]. clear s s' Hstar.
  intros s s' (sh & l & Hv & Hi)%in_order_view (a & c & rv & Hc & Hrun). apply in_order_view.
  destruct (triple_api Hsz Hp Hw base sh l Hi a c Hc s rv s' Hv Hrun) as (l' & Hv' & [[-> _] | (i & k & k' & _ & -> & Hk & _)]).
  - by exists sh, l.
  - exists sh, (<[i := k']> l). split; [done|]. by apply Forall_insert.
Qed.

(** C16. A call changes the state of at most one queue, and along the arrow of that call only: a queue is
    added to a place that is free, started and removed when it is enabled, stopped when it is online; it is
    online exactly when starting it has succeeded, and when a call fails otherwise the queue is where it
    was.  The conditions are those of [rings_accounted]; above all an add gives the index: without it
    another queue may be enabled, even one that is online ([added_without_index_is_elsewhere] in DrvLimits).
    *)
Theorem call_moves_one_queue base a c rv (s s' : drv F) :
  sizes_read -> memory_not_null -> others_keep_queue -> index_given c ->
  rings_in_order base s -> run_api a c s = Ret rv s' ->
  exists q q', qdev s = Some q /\ qdev s' = Some q' /\
    let states := q_state <$> descqs q in
    let states' := q_state <$> descqs q' in
    (states' = states /\ rv < 0) \/
    exists i st st', states !! i = Some st /\ states' = <[i := st']> states /\ moves_of c rv st st'.
Proof.
  intros Hsz Hp Hw Hc (sh & l & Hv & Hi)%in_order_view Hrun.
  destruct (triple_api Hsz Hp Hw base sh l Hi a c Hc s rv s' Hv Hrun) as (l' & Hv' & Hm).
  destruct Hv as (q & _ & Hq & _ & Hl & _), Hv' as (q' & _ & Hq' & _ & Hl' & _). exists q, q'. do 2 (split; [done|]).
  assert (forall ds, q_state <$> ds = k_state <$> (core_of <$> ds)) as E by (intros ds; by rewrite <- list_fmap_compose).
  rewrite !E, Hl, Hl'. destruct Hm as [[-> Hrv] | (i & k & k' & Hk & -> & _ & Hm)]; [by left|]. right.
  exists i, (k_state k), (k_state k'). split; [by rewrite list_lookup_fmap, Hk|]. split; [apply list_fmap_insert|done].
Qed.
End states.

(** ** A device to run *)

#[local] Instance sample_kernel : DrvKernel := {|
  dma_alloc_coherent evs _ := Some (4096 * Z.of_nat (S (length evs)), 65536 * Z.of_nat (S (length evs)));
  kcalloc _ _ := 64; request_threaded_irq _ := 0; while_waiting d := d |}.

(** The buffers of streaming queues are always there. *)
#[local] Instance sample_flq : FreeList unit := {| flq_none := tt; flq_alloc _ _ := mret 0; flq_free := mret tt |}.

(** Every call succeeds, and registers hold the size of rings. *)
#[local] Instance sample_hw : DrvAccess := {|
  drv_code _ _ := 0; drv_output _ _ _ := HwTable.words_object (replicate QDMA_GLOBAL_CSR_ARRAY_SZ 67) 0 |}.

Definition sample_device (x : xlnx_dma_dev) (q : qdma_dev unit) (rm : rm_state) : drv unit :=
  let row v := replicate QDMA_GLOBAL_CSR_ARRAY_SZ v in
  mk_drv x (mk_csr (row 67) (row 1) (row 2) (row 4096) 0) (C2h.qdma_sort_c2h_cntr_th_values (row 2)) (Some q)
    [mk_intr [] 0] [] (mk_threads [0] [mk_kthread [] 0]) rm [] [].

Definition poll_xdev : xlnx_dma_dev :=
  mk_xdev QDMA_SOFT 0 0 6 (put dev_attributes.st_en 1 (put dev_attributes.mm_en 1 (put dev_attributes.mm_cmpt_en 1 0)))
    POLL_MODE true 0 8 0 4 0 0 0 [].

Definition sample_start : drv unit := sample_device poll_xdev (fresh_qdev 4 0) ResourceProps.sample_state.

(** A streaming queue to the host at index 1. *)
Definition sample_conf : Z :=
  assign [(queue_conf.qidx, 1); (queue_conf.st, 1); (queue_conf.q_type, Q_C2H); (queue_conf.fetch_credit, 1)] 0.

Lemma sizes_67 : sizes_ok (replicate QDMA_GLOBAL_CSR_ARRAY_SZ 67).
Proof. split; [reflexivity|]. apply Forall_replicate. lia. Qed.

(** Any history that starts here is accounted for; and there is one in which a queue is online. *)
Lemma sample_in_order : rings_in_order [] sample_start.
Proof.
  eexists _, []. split; [reflexivity|]. split; [reflexivity|]. split; [apply sizes_67|].
  split; [vm_compute; reflexivity|]. apply Forall_forall. intros d Hd _.
  assert (Forall (fun d => rings_of d = []) (descqs (fresh_qdev (F := unit) 4 0))) as Hf; [|by rewrite Forall_forall in Hf; apply Hf].
  repeat (apply Forall_cons; split; [reflexivity|]). apply Forall_nil. exact I.
Qed.

Lemma sample_sizes : sizes_read.
Proof.
  intros log old.
  assert (MboxPf.csr_words (HwTable.words_object (replicate QDMA_GLOBAL_CSR_ARRAY_SZ 67) 0) = replicate QDMA_GLOBAL_CSR_ARRAY_SZ 67) as E
    by (by vm_compute).
  unfold drv_output, sample_hw. rewrite E. apply sizes_67.
Qed.

Lemma sample_memory : memory_not_null.
Proof. intros evs len p bus [= <- _]. lia. Qed.

Lemma sample_others : others_keep_queue.
Proof. done. Qed.

Lemma run_all_star cs (s s' : drv unit) rvs : Forall index_given cs -> run_all cs s = Ret rvs s' -> star api_step s s'.
Proof.
  revert s rvs s'. induction cs as [|c cs IH] using rev_ind; intros s rvs s' Hcs.
  { intros [= _ <-]. apply star_refl. }
  apply Forall_app in Hcs as [Hcs [Hc _]%Forall_cons].
  assert (forall s rvs, run_all (cs ++ [c]) s = Ret rvs s' ->
    exists rvs1 s1 rv, run_all cs s = Ret rvs1 s1 /\ run_api sample_args c s1 = Ret rv s') as Hsplit.
  { clear. induction cs as [|c1 cs IH]; intros s rvs; cbn [app run_all].
    - unfold mbind, M_bind. destruct (run_api sample_args c s) as [rv s1|?|?|?] eqn:E; try done. intros [= _ <-]. by exists [], s, rv.
    - unfold mbind at 1, M_bind at 1. destruct (run_api sample_args c1 s) as [rv s1|?|?|?] eqn:E; try done.
      unfold mbind at 1, M_bind at 1. destruct (run_all (cs ++ [c]) s1) as [rvs1 s2|?|?|?] eqn:E1; try done. intros [= _ <-].
      destruct (IH s1 rvs1 E1) as (r & s3 & rv' & E2 & E3). eexists _, s3, rv'. split; [|done].
      cbn [run_all]. unfold mbind, M_bind. rewrite E, E2. reflexivity. }
  intros (rvs1 & s1 & rv & E1 & E2)%Hsplit. eapply star_step; [by eapply IH|]. by exists sample_args, c, rv.
Qed.

Definition sample_calls : list api_call := [Add (Some sample_conf) (Some 0); Start 5; Stop 5; Start 5; Config 5 sample_conf].

Lemma rings_accounted_witness :
  exists s', run_all sample_calls sample_start = Ret [0; 0; 0; 0; - EINVAL] s' /\ rings_in_order [] s' /\
    length <$> outstanding (kernel s') = Some 2%nat.
Proof.
  destruct (run_all sample_calls sample_start) as [rvs s'|?|?|?] eqn:E; [|by vm_compute in E..].
  exists s'. pose proof E as E'. vm_compute in E'. injection E' as <- Es. rewrite <- E, E. split; [done|]. split.
  - apply (rings_accounted [] sample_start s' sample_sizes sample_memory sample_others); [|apply sample_in_order].
    eapply run_all_star; [|exact E]. apply Forall_cons; split; [vm_compute; discriminate|].
    repeat (apply Forall_cons; split; [exact I|]). by apply Forall_nil.
  - by rewrite <- Es.
Defined.

Lemma call_moves_one_queue_witness :
  exists s' q q', run_api sample_args (Add (Some sample_conf) (Some 0)) sample_start = Ret 0 s' /\
    qdev sample_start = Some q /\ qdev s' = Some q' /\
    exists i, (q_state <$> descqs q) !! i = Some Q_STATE_DISABLED /\ (q_state <$> descqs q') !! i = Some Q_STATE_ENABLED.
Proof.
  destruct (run_api sample_args (Add (Some sample_conf) (Some 0)) sample_start) as [rv s'|?|?|?] eqn:E; [|by vm_compute in E..].
  assert (rv = 0) as -> by (by vm_compute in E; injection E as <- _).
  destruct (call_moves_one_queue [] sample_args (Add (Some sample_conf) (Some 0)) 0 sample_start s' sample_sizes sample_memory sample_others)
    as (q & q' & Hq & Hq' & Hm); [vm_compute; discriminate|apply sample_in_order|exact E|].
  exists s', q, q'. do 3 (split; [done|]). destruct Hm as [[_ ?] | (i & st & st' & Hi & Hs & -> & Hst')]; [done|].
  exists i. split; [done|]. rewrite Hs. destruct Hst' as [[_ ->] | [? _]]; [|done].
  apply list_lookup_insert_eq. by eapply lookup_lt_Some.
Defined.

(** ** Handles *)

Section handles.
Context {F : Type} `{DrvKernel} `{FreeList F} `{DrvAccess}.

(** The arrays of a device follow each other. *)
Definition well_shaped (q : qdma_dev F) : Prop :=
  0 <= qmax q < 65536 /\ c2h_descq q = Z.to_nat (qmax q) /\ cmpt_descq q = (2 * Z.to_nat (qmax q))%nat /\
  length (descqs q) = (3 * Z.to_nat (qmax q))%nat.

Lemma fresh_well_shaped n b : 0 <= n < 65536 -> well_shaped (fresh_qdev n b).
Proof. intros Hn. split; [done|]. split; [done|]. split; [done|]. cbn. rewrite !length_app, length_fmap, length_seq. cbn. lia. Qed.

Lemma at_descq_Ret (s : drv F) q i d : qdev s = Some q -> descqs q !! i = Some d -> at_descq i s = Ret d s.
Proof. intros Hq Hd. unfold at_descq, the_qdev, deref, mbind, M_bind. by rewrite Hq, Hd. Qed.

Lemma find_pos_seq first n idx :
  (idx < n)%nat -> find_pos (fun k => bool_decide (k = first + idx)%nat) (seq first n) = Some idx.
Proof.
  intros Hi. destruct (find_pos_is_Some (fun k => bool_decide (k = first + idx)%nat) (seq first n) (first + idx)%nat) as [j Hj].
  { apply elem_of_seq. lia. } { by apply bool_decide_eq_true. }
  rewrite Hj. f_equal. apply find_pos_Some in Hj as (x & Hx & ->%bool_decide_eq_true & _).
  apply lookup_seq in Hx. lia.
Qed.

(** C22. The handle that the caller gets for a queue leads back to the queue of that type and index,
    and the queue to the handle. *)
Theorem handle_roundtrip (s : drv F) q d ty idx :
  qdev s = Some q -> well_shaped q -> 0 <= ty < 3 -> 0 <= idx < qmax q ->
  descqs q !! place (shape_of q) ty (Z.to_nat idx) = Some d -> type_of (conf d) = ty ->
  qdma_device_get_descq_by_id (handle_of q ty idx) false s = Ret (Some (place (shape_of q) ty (Z.to_nat idx))) s /\
  qdma_device_get_id_from_descq (place (shape_of q) ty (Z.to_nat idx)) s = Ret (handle_of q ty idx) s.
Proof.
  intros Hq (Hm & Hc & Hw & Hl) Hty Hidx Hd Ht. unfold handle_of. rewrite u64_small.
  2: { unfold is_u64, Q_C2H, Q_CMPT. repeat case_match; lia. }
  split.
  - unfold qdma_device_get_descq_by_id, gets, mbind, M_bind. rewrite Hq.
    assert (ty = Q_H2C \/ ty = Q_C2H \/ ty = Q_CMPT) as [-> | [-> | ->]] by (unfold Q_H2C, Q_C2H, Q_CMPT; lia); cbn.
    + rewrite (proj2 (Z.ltb_lt _ _)) by lia. cbn. by rewrite !Z.add_0_r.
    + rewrite (proj2 (Z.ltb_ge _ _)), (proj2 (Z.ltb_lt _ _)) by lia. cbn. do 3 f_equal. lia.
    + rewrite (proj2 (Z.ltb_ge _ _)), (proj2 (Z.ltb_ge _ _)), (proj2 (Z.ltb_lt _ _)) by lia. cbn. do 3 f_equal. lia.
  - unfold qdma_device_get_id_from_descq, gets. unfold mbind at 1, M_bind at 1. rewrite Hq.
    rewrite (bind_Ret _ _ _ _ _ (at_descq_Ret s q _ d Hq Hd)), Ht.
    assert (ty = Q_H2C \/ ty = Q_C2H \/ ty = Q_CMPT) as [-> | [-> | ->]] by (unfold Q_H2C, Q_C2H, Q_CMPT; lia); 
      unfold place, shape_of; cbn;
      (first [rewrite find_pos_seq by lia
             |pose proof (find_pos_seq 0 (Z.to_nat (2 * qmax q)) (Z.to_nat idx) ltac:(lia)) as E; cbn in E; rewrite E]);
      unfold mret, M_ret; f_equal; lia.
Qed.
End handles.

Lemma handle_roundtrip_witness :
  handle_of (fresh_qdev (F := unit) 4 0) Q_H2C 3 = 3 /\
  qdma_device_get_descq_by_id 3 false sample_start = Ret (Some 3%nat) sample_start /\
  qdma_device_get_id_from_descq 3 sample_start = Ret 3 sample_start.
Proof.
  split; [reflexivity|].
  apply (handle_roundtrip sample_start (fresh_qdev 4 0) (qdma_descq_init 0 3 3) Q_H2C 3);
    [reflexivity|by apply fresh_well_shaped|done|done|reflexivity|reflexivity].
Defined.
