(* ===== verification/DrvStart.v ===== *)
(** * DrvStart: a queue that can be started is

    When the hardware and the kernel grant what they are asked for, starting a queue that polling
    threads serve succeeds, and the calls it makes clear and write the contexts of the queue as it
    then is, and give the card the first indices. *)

From S2P Require Import Prelude QdmaErrors ResourceMgmt Mmio CLayout Contexts MboxMsg CsrProps DrvData DrvCtxt DrvCtxtProps DrvThread DrvQueue DrvLife DrvRings DrvStates.
From S2P Require MboxPf Descq HwTable ResourceProps.
Import Descq(Q_H2C, Q_C2H, Q_CMPT, q_state_t(..), qdma_drv_mode(..)).
Local Open Scope Z_scope.
Local Open Scope drv_scope.

(** The calls that give the card the first indices of a queue, the newest first: 0 for the ring of
    completions, and the number of buffers that are ready for the ring of descriptors. *)
Definition index_calls (d : qdma_descq) : list drv_call :=
  let c := conf d in
  let qid := u16 (fld queue_conf.qidx c) in
  let filled := u32 (fld queue_conf.rngsz c - 1) in
  if conf_has_cmpt c && negb (flag queue_conf.init_pidx_dis c) then
    (if type_of c =? Q_CMPT then []
     else [qdma_queue_pidx_update qid (u8 (type_of c)) (put pidx_info.pidx filled (pidx_info d))]) ++
    [qdma_queue_cmpt_cidx_update qid (put cmpt_cidx_info.wrb_cidx 0 (DrvData.cmpt_cidx_info d))]
  else [].

Definition start_calls (x : xlnx_dma_dev) (d : qdma_descq) : list drv_call :=
  let c := conf d in
  index_calls d ++ write_calls x (qidx_hw d) (is_st c) (type_of c) (make_context x d) ++
  clear_calls (qidx_hw d) (is_st c) (type_of c) CLEAR.

(** What the contexts of a queue are made from. *)
Definition same_contexts (d d' : qdma_descq) : Prop :=
  conf d' = conf d /\ channel d' = channel d /\ qidx_hw d' = qidx_hw d /\ intr_id d' = intr_id d /\
  desc_bus d' = desc_bus d /\ desc_cmpt_bus d' = desc_cmpt_bus d.

Lemma make_context_same x d d' : same_contexts d d' -> make_context x d' = make_context x d.
Proof.
  intros (E1 & E2 & E3 & E4 & E5 & E6). unfold make_context, make_sw_context, make_qid2vec_context, make_prefetch_context, make_cmpt_context.
  by rewrite E1, E2, E4, E5, E6.
Qed.

Section start.
Context {F : Type} `{DrvKernel} `{FreeList F} `{DrvAccess}.

(** Everything that is asked for is granted. *)
Record granted : Prop := {
  g_calls : drv_healthy;
  g_memory : forall evs len, is_Some (dma_alloc_coherent evs len);
  g_list : forall evs n, kcalloc evs n <> 0;
  g_flq : forall n b (f : F), exists f', flq_alloc n b f = Ret 0 f' }.

Context (Hg : granted) (i : nat) (x : xlnx_dma_dev).

(** Queue [i] is [d], and the calls [cs] have been made. *)
Definition stands (d : qdma_descq) (cs : list drv_call) (s : drv F) : Prop :=
  exists q, qdev s = Some q /\ descqs q !! i = Some d /\ is_Some (flqs q !! i) /\ xdev s = x /\ drv_calls s = cs /\
    cs_threads (threads s) <> [].

Implicit Types (m : M (drv F) Z).

Lemma stands_at d cs s : stands d cs s -> at_descq i s = Ret d s.
Proof. intros (q & Hq & Hd & _). by eapply at_descq_Ret. Qed.

Lemma stands_look {A} d cs s (k : qdma_descq -> M (drv F) A) Q :
  stands d cs s -> returns (k d) s Q -> returns (at_descq i ≫= k) s Q.
Proof. intros Hs Hk. unfold returns. by rewrite (bind_Ret _ _ _ _ _ (stands_at _ _ _ Hs)). Qed.

Lemma stands_set d cs s f : stands d cs s -> exists s', on_descq i f s = Ret tt s' /\ stands (f d) cs s'.
Proof.
  intros Hs. pose proof Hs as (q & Hq & Hd & Hf & Hx & Hc & Ht). unfold on_descq.
  eexists. rewrite (bind_Ret _ _ _ _ _ (stands_at _ _ _ Hs)). unfold on_qdev, modify. rewrite Hq. split; [reflexivity|].
  eexists. split; [reflexivity|]. repeat split; try done. cbn. rewrite list_lookup_alter_eq. by rewrite Hd.
Qed.

Lemma stands_change {A} d cs s f (k : unit -> M (drv F) A) Q :
  stands d cs s -> (forall s', stands (f d) cs s' -> returns (k tt) s' Q) -> returns (on_descq i f ≫= k) s Q.
Proof. intros Hs Hk. destruct (stands_set d cs s f Hs) as (s' & E & Hs'). unfold returns. rewrite (bind_Ret _ _ _ _ _ E). by apply Hk. Qed.

Lemma stands_happens {A} d cs s e (k : unit -> M (drv F) A) Q :
  stands d cs s -> (forall s', stands d cs s' -> returns (k tt) s' Q) -> returns (happens e ≫= k) s Q.
Proof. intros Hs Hk. apply Hk. destruct Hs as (q & Hs). by exists q. Qed.

Lemma stands_call {A} d cs s c (k : Z -> M (drv F) A) Q :
  stands d cs s -> (forall s', stands d (c :: cs) s' -> returns (k 0) s' Q) -> returns (call c ≫= k) s Q.
Proof.
  intros Hs Hk. unfold returns, mbind, M_bind, call. rewrite (g_calls Hg). apply Hk.
  destruct Hs as (q & Hq & Hd & Hf & Hx & Hc & Ht). exists q. repeat split; try done. cbn. by rewrite Hc.
Qed.

Lemma gets_then {A B} (f : drv F -> A) (k : A -> M (drv F) B) s Q : returns (k (f s)) s Q -> returns (gets f ≫= k) s Q.
Proof. done. Qed.

Lemma stands_ret d cs s (Q : qdma_descq -> Prop) :
  stands d cs s -> Q d -> returns (mret 0) s (fun rv s' => rv = 0 /\ exists d', Q d' /\ stands d' cs s').
Proof. intros Hs HQ. split; [done|]. by exists d. Qed.

(** A ring is allocated. *)
Lemma stands_ring len f null (k : M (drv F) Z) d cs s Q :
  stands d cs s -> (forall p b s', stands (f p b d) cs s' -> returns k s' Q) -> returns (with_ring i len f null k) s Q.
Proof.
  intros Hs Hk. unfold with_ring, desc_ring_alloc, gets. apply returns_bind. unfold returns at 1, mbind, M_bind.
  destruct (g_memory Hg (kernel s) len) as [[p b] E]. rewrite E. cbn.
  apply (stands_change d cs); [destruct Hs as (q & Hs); by exists q|]. intros s' Hs'. by apply (Hk p b).
Qed.

(** The resources of a queue that is served by polling. *)
Context (Hx : drv_mode x = POLL_MODE) (Hv : num_vecs x = 0).

Definition has_resources d cs (rv : Z) (s : drv F) : Prop := rv = 0 /\ exists d', conf d' = conf d /\ stands d' cs s.

Lemma no_vector d d0 cs s : stands d cs s -> conf d = conf d0 -> returns (desc_alloc_irq i;; mret 0) s (has_resources d0 cs).
Proof.
  intros Hs Hc. pose proof Hs as (q & _ & _ & _ & Ex & _). apply returns_bind. unfold desc_alloc_irq. apply gets_then. cbn zeta. unfold id.
  rewrite Ex, Hv. by apply (stands_ret d cs s (fun d' => conf d' = conf d0)).
Qed.

Lemma cmpt_ring_there d0 d cs s : stands d cs s -> conf d = conf d0 -> returns (alloc_cmpt_ring i d0) s (has_resources d0 cs).
Proof.
  intros Hs Hc. unfold alloc_cmpt_ring. destruct (conf_has_cmpt _); [|by eapply no_vector].
  apply (stands_change d cs); [done|]. intros s' Hs'. apply (stands_ring _ _ _ _ _ _ _ _ Hs'). intros p b s2 Hs2. by eapply no_vector.
Qed.

Lemma lists_there d0 d cs s : stands d cs s -> conf d = conf d0 -> returns (alloc_lists i d0) s (has_resources d0 cs).
Proof.
  intros Hs Hc. unfold alloc_lists. destruct (conf_st_c2h _).
  - pose proof Hs as (q & Hq & Hd & [f Hf] & Hr). apply returns_bind. unfold returns, on_flq. rewrite Hq. cbn [mbind option_bind]. rewrite Hf.
    destruct (g_flq Hg (fld queue_conf.rngsz (conf d0)) (fld queue_conf.c2h_bufsz (conf d0)) f) as [f' ->]. cbn [Z.ltb].
    apply (cmpt_ring_there d0 d cs); [|done]. exists (set_flqs (<[i := f']> (flqs q)) q). unfold put_flq. rewrite Hq.
    split; [done|]. split; [done|]. split; [|done]. cbn. rewrite list_lookup_insert_eq; [done|]. by eapply lookup_lt_Some.
  - destruct (_ && _); [|by apply (cmpt_ring_there d0 d)]. unfold alloc_desc_list. apply gets_then.
    apply (stands_look d cs); [done|]. apply (stands_change d cs); [done|]. intros s1 Hs1.
    rewrite (proj2 (Z.eqb_neq _ _) (g_list Hg _ _)). apply (stands_happens _ _ _ _ _ _ Hs1). intros s2 Hs2. by eapply cmpt_ring_there.
Qed.

Lemma resources_there d cs s : stands d cs s -> returns (qdma_descq_alloc_resource i) s (has_resources d cs).
Proof.
  intros Hs. apply (stands_look d cs); [done|]. cbv beta zeta.
  destruct (negb (type_of (conf d) =? Q_CMPT)); [|by apply (lists_there d d)].
  apply (stands_ring _ _ _ _ _ _ _ _ Hs). intros p b s2 Hs2. by eapply lists_there.
Qed.

(** The contexts are written and the first indices given. *)
Lemma programmed d cs s :
  stands d cs s ->
  returns (qdma_descq_prog_hw i) s (fun rv s' => rv = 0 /\ exists d',
    conf d' = conf d /\ stands d' (start_calls x d' ++ cs) s').
Proof.
  intros Hs. unfold qdma_descq_prog_hw. apply gets_then.
  pose proof Hs as (q & _ & _ & _ & Ex & _). rewrite Ex. apply (stands_look d cs); [done|].
  apply returns_bind. unfold returns at 1, qdma_descq_context_setup. rewrite (program_run (g_calls Hg)).
  set (cs1 := write_calls x (qidx_hw d) (is_st (conf d)) (type_of (conf d)) (make_context x d) ++
    clear_calls (qidx_hw d) (is_st (conf d)) (type_of (conf d)) CLEAR). cbn [Z.ltb Z.compare].
  assert (stands d (cs1 ++ cs) (after_calls cs1 s)) as Hs1.
  { destruct Hs as (q1 & Hq1 & Hd & Hf & Hx1 & Hc & Ht). exists q1. repeat split; try done. cbn. by rewrite Hc. }
  assert (forall d', same_contexts d d' -> start_calls x d' = index_calls d' ++ cs1) as Hcs.
  { intros d' Hsame. unfold start_calls, cs1. rewrite (make_context_same x d d' Hsame). by destruct Hsame as (-> & _ & -> & _). }
  destruct (conf_has_cmpt (conf d) && negb (flag queue_conf.init_pidx_dis (conf d))) eqn:Eb.
  - unfold init_cmpt_cidx. apply (stands_change _ _ _ _ _ _ Hs1). intros s2 Hs2.
    apply (stands_call _ _ _ _ _ _ Hs2). intros s3 Hs3. cbn [Z.ltb Z.compare].
    destruct (type_of (conf d) =? Q_CMPT) eqn:Et.
    + set (d1 := set_cmpt_cidx_info _ d) in Hs3. split; [done|]. exists d1. split; [done|]. rewrite (Hcs d1) by done.
      unfold index_calls. change (conf d1) with (conf d). rewrite Eb, Et. cbn. by rewrite put_put by by vm_compute.
    + unfold init_pidx. apply (stands_change _ _ _ _ _ _ Hs3). intros s4 Hs4.
      apply (stands_call _ _ _ _ _ _ Hs4). intros s5 Hs5. cbn [Z.ltb Z.compare].
      set (d1 := set_pidx_info _ _) in Hs5. split; [done|]. exists d1. split; [done|]. rewrite (Hcs d1) by done.
      unfold index_calls. change (conf d1) with (conf d). rewrite Eb, Et. cbn. by rewrite !put_put by by vm_compute.
  - split; [done|]. exists d. split; [done|]. rewrite Hcs by done. unfold index_calls. by rewrite Eb.
Qed.

Lemma pick_thread_some cnts : cnts <> [] -> exists idx, pick_thread cnts = Some idx.
Proof.
  assert (forall cnts k idx v, exists idx', thread_loop cnts k (Some idx) v = Some idx') as Hl.
  { clear. induction cnts as [|c cnts IH]; intros k idx v; cbn; [by exists idx|]. repeat case_match; eauto. }
  destruct cnts as [|c cnts]; [done|]. intros _. apply Hl.
Qed.

Lemma thread_there {A} d cs s (k : unit -> M (drv F) A) Q :
  stands d cs s ->
  (forall d' s', same_contexts d d' -> index_calls d' = index_calls d -> stands d' cs s' -> returns (k tt) s' Q) ->
  returns (thread_add_work i ≫= k) s Q.
Proof.
  intros Hs Hk. pose proof Hs as (q & Hq & Hd & Hf & Ex & Hc & Ht). apply returns_bind. unfold thread_add_work. apply gets_then.
  apply (stands_look d cs); [done|]. unfold id. rewrite Ex. unfold qdma_thread_add_work. rewrite Hx.
  destruct (pick_thread_some (work_cnt <$> cs_threads (threads s))) as [idx E].
  { intros E. apply Ht. by apply fmap_nil_inv in E. }
  cbn [negb bool_decide decide_rel]. rewrite bool_decide_true by done. cbn [negb]. rewrite E. cbn [mbind option_bind].
  set (t := set_cs_threads _ _). set (d' := set_cmplthp _ _). apply returns_bind. unfold deref, returns at 1. apply returns_bind.
  unfold modify, returns at 1. set (s1 := set_threads t s).
  assert (stands d cs s1) as Hs1.
  { exists q. repeat split; try done. cbn. intros E'. apply Ht. apply (f_equal length) in E'. rewrite length_alter in E'. by apply nil_length_inv. }
  destruct (stands_set d cs s1 (fun _ => d') Hs1) as (s2 & E2 & Hs2). unfold returns at 1. rewrite E2. by apply (Hk d').
Qed.

(** Starting, once the queue has been found and checked. *)
Lemma start_runs d cs s :
  stands d cs s ->
  returns (start_queue i) s (fun rv s' => rv = 0 /\ exists d',
    conf d' = completed_conf (csr_info s) (conf d) /\ q_state d' = Q_STATE_ONLINE /\ stands d' (start_calls x d' ++ cs) s').
Proof.
  intros Hs. unfold start_queue. apply gets_then. unfold id. apply (stands_change d cs); [done|]. intros s1 Hs1.
  set (d1 := qdma_descq_config_complete _ _ d) in Hs1.
  assert (conf d1 = completed_conf (csr_info s) (conf d)) as Ec1.
  { pose proof (core_of_complete (csr_info s) (sorted_c2h_cntr_idxs s) d) as E. by apply (f_equal k_conf) in E. }
  apply returns_bind. eapply returns_mono; [|by apply (resources_there d1 cs)]. intros rv s2 (-> & d2 & Ec2 & Hs2).
  cbn [Z.ltb Z.compare]. apply returns_bind. eapply returns_mono; [|by apply (programmed d2 cs)].
  intros rv s3 (-> & d3 & Ec3 & Hs3). apply (stands_look _ _ _ _ _ Hs3). cbn [Z.ltb Z.compare]. apply gets_then.
  assert (xdev s3 = x) as -> by (by destruct Hs3 as (? & _ & _ & _ & ? & _)). rewrite Hv. cbn [Z.eqb].
  apply returns_bind. unfold mret, M_ret, returns at 1. apply (thread_there d3 _ _ _ _ Hs3). intros d4 s4 Hsame Hi Hs4.
  apply (stands_change _ _ _ _ _ _ Hs4). intros s5 Hs5. split; [done|]. exists (set_q_state Q_STATE_ONLINE d4).
  split; [destruct Hsame as (E & _); cbn; congruence|]. split; [done|].
  assert (start_calls x (set_q_state Q_STATE_ONLINE d4) = start_calls x d3) as ->; [|done].
  assert (same_contexts d3 (set_q_state Q_STATE_ONLINE d4)) as Hsame' by done.
  unfold start_calls. rewrite (make_context_same x d3 _ Hsame'). destruct Hsame' as (-> & _ & -> & _). f_equal.
  by change (index_calls (set_q_state Q_STATE_ONLINE d4)) with (index_calls d4).
Qed.

(** C17. Starting a queue that is enabled, on a device that is polled and has no vectors, succeeds when
    memory and calls are granted: it is online then, with the configuration completed from the card's
    registers, and the calls made are exactly these: its contexts are cleared, then written, as its
    configuration and its rings ask for, and the card is given the first indices of its rings.  The
    arguments are those the interface asks for, the engine and the aperture of the configuration are ones
    the device accepts, and there are threads to serve the queue. *)
Theorem start_brings_online a id q d s :
  args_ok a = true -> qdma_device_get_descq_by_id id true s = Ret (Some i) s ->
  qdev s = Some q -> descqs q !! i = Some d -> is_Some (flqs q !! i) -> q_state d = Q_STATE_ENABLED ->
  xdev s = x -> bad_engine x (conf d) = false -> bad_aperture (conf d) = false -> cs_threads (threads s) <> [] ->
  exists s' q' d', qdma_queue_start a id s = Ret 0 s' /\ qdev s' = Some q' /\ descqs q' !! i = Some d' /\
    q_state d' = Q_STATE_ONLINE /\ conf d' = completed_conf (csr_info s) (conf d) /\
    drv_calls s' = start_calls x d' ++ drv_calls s.
Proof.
  intros Ha Hid Hq Hd Hf Hst Ex He Hap Ht.
  assert (stands d (drv_calls s) s) as Hs by (by exists q).
  assert (qdma_queue_start a id s = start_queue i s) as ->.
  { unfold qdma_queue_start, with_queue. rewrite Ha. cbn [negb]. rewrite (bind_Ret _ _ _ _ _ Hid). unfold with_state.
    rewrite (bind_Ret _ _ _ _ _ (stands_at _ _ _ Hs)), (bool_decide_true _ Hst). unfold check_and_start, gets, mbind, M_bind.
    by rewrite Ex, He, Hap. }
  pose proof (start_runs d (drv_calls s) s Hs) as Hr. unfold returns in Hr. destruct (start_queue i s) as [rv s'|?|?|?]; try done.
  destruct Hr as (-> & d' & Hc & Hon & q' & Hq' & Hd' & _ & _ & Hcalls & _). by exists s', q', d'.
Qed.
End start.

#[local] Existing Instances sample_kernel sample_flq sample_hw.

Lemma sample_granted : granted (F := unit).
Proof.
  split.
  - by intros log c.
  - intros evs len. by eexists.
  - by intros evs n.
  - intros n b []. by exists tt.
Qed.

(** A memory-mapped queue to the card, that has been added at index 1. *)
Definition sample_mm : Z := assign [(queue_conf.qidx, 1); (queue_conf.q_type, Q_H2C)] 0.

Lemma start_brings_online_witness :
  exists s s' q' d', run_api sample_args (Add (Some sample_mm) (Some 0)) sample_start = Ret 0 s /\
    qdma_queue_start sample_args 1 s = Ret 0 s' /\ qdev s' = Some q' /\ descqs q' !! 1%nat = Some d' /\
    q_state d' = Q_STATE_ONLINE /\ length (start_calls poll_xdev d') = 4%nat.
Proof.
  destruct (run_api sample_args (Add (Some sample_mm) (Some 0)) sample_start) as [rv s|?|?|?] eqn:E; [|by vm_compute in E..].
  vm_compute in E. injection E as <- <-. lazymatch goal with |- context [Ret 0 ?s0 = Ret 0 _] => set (s := s0) end.
  destruct (start_brings_online sample_granted 1%nat poll_xdev eq_refl eq_refl sample_args 1
    (default (fresh_qdev 4 0) (qdev s)) (default descq_zero (qdev s ≫= fun q => descqs q !! 1%nat)) s)
    as (s' & q' & d' & Hrun & Hq' & Hd' & Hon & Hc & _); try reflexivity; [by eexists|by vm_compute|].
  exists s, s', q', d'. split; [reflexivity|]. split; [exact Hrun|]. split; [exact Hq'|]. split; [exact Hd'|]. split; [exact Hon|].
  unfold start_calls. rewrite !length_app.
  assert (conf_has_cmpt (conf d') = false /\ (type_of (conf d') =? Q_CMPT) = false /\ is_st (conf d') = false) as (E1 & E2 & E3)
    by (rewrite Hc; clear; split_and!; vm_compute; reflexivity).
  unfold index_calls, write_calls, clear_calls, conf_has_cmpt in *. rewrite E1, E2. unfold st_c2h. rewrite E3. reflexivity.
Defined.
