(* ===== verification/DrvLimits.v ===== *)
(** * DrvLimits: where the driver's interface does not keep what it promises

    Each lemma runs the operations of DrvLife and DrvCtxt on a concrete device. *)

From S2P Require Import Prelude QdmaErrors ResourceMgmt Mmio CLayout Contexts MboxMsg CsrProps DrvData DrvCtxt DrvVf DrvThread DrvQueue DrvLife DrvRings DrvStates.
From S2P Require MboxPf Descq HwTable ResourceProps.
Import Descq(Q_H2C, Q_C2H, Q_CMPT, q_state_t(..), qdma_drv_mode(..)).
Local Open Scope Z_scope.
#[local] Existing Instances sample_kernel sample_flq.

Definition states (s : drv unit) : list q_state_t := default [] ((fun q => q_state <$> descqs q) <$> qdev s).
Definition conf_of (ty idx : Z) : Z := assign [(queue_conf.qidx, idx); (queue_conf.q_type, ty)] 0.

(** What is left of a run. *)
Definition sees {S A B} (f : A -> S -> B) (o : outcome S A) : option B := match o with Ret a s => Some (f a s) | _ => None end.

Section healthy.
#[local] Existing Instance sample_hw.

(** Without an index a second queue is wanted: the caller gets the handle of queue 1, which is
    disabled, while queue 2 has been enabled: [descq], which the loop has advanced to the queue, is
    advanced by the index once more. *)
Lemma added_without_index_is_elsewhere :
  let any := Some (conf_of Q_H2C QDMA_QUEUE_IDX_INVALID) in
  sees (fun '(rv, _, hndl) s => (rv, hndl, take 4 (states s)))
    ((_ ← qdma_queue_add sample_args any (Some 0); qdma_queue_add sample_args any (Some 0)) sample_start) =
  Some (0, 1, [Q_STATE_ENABLED; Q_STATE_DISABLED; Q_STATE_ENABLED; Q_STATE_DISABLED]).
Proof. by vm_compute. Qed.

(** The list for bypass mode is freed when the queue is stopped, but the pointer stays: when the
    queue is started again without bypass, stopping it frees the list once more. *)
Lemma descriptor_list_freed_twice :
  let c b := assign [(queue_conf.desc_bypass, b); (queue_conf.fp_bypass_desc_fill, 77)] (conf_of Q_H2C 1) in
  sees (fun rvs s => (rvs, List.filter (fun e => match e with Kalloc _ | Kfree _ => true | _ => false end) (kernel s)))
    (run_all [Add (Some (c 1)) (Some 0); Start 1; Stop 1; Config 1 (c 0); Start 1; Stop 1] sample_start) =
  Some ([0; 0; 0; 0; 0; 0], [Kfree 64; Kfree 64; Kalloc 64]).
Proof. by vm_compute. Qed.

(** In direct interrupt mode without vectors a queue is started, since no vector is looked for, but
    stopping it follows the null pointer to the list of vectors. *)
Lemma stop_without_vectors_crashes :
  let x := mk_xdev QDMA_SOFT 0 0 6 (dev_cap poll_xdev) DIRECT_INTR_MODE true 0 8 0 4 0 0 0 [] in
  let s := set_vectors [] (sample_device x (fresh_qdev 4 0) ResourceProps.sample_state) in
  exists s1 s2, run_all [Add (Some (conf_of Q_H2C 1)) (Some 0); Start 1] s = Ret [0; 0] s1 /\
    run_api sample_args (Stop 1) s1 = Crash s2.
Proof.
  intros x s. destruct (run_all [Add (Some (conf_of Q_H2C 1)) (Some 0); Start 1] s) as [rvs s1|?|?|?] eqn:E; [|by vm_compute in E..].
  vm_compute in E. injection E as <- <-. eexists _, _. split; [reflexivity|]. vm_compute. reflexivity.
Qed.

(** Removing the device neither stops nor removes completion queues: the ring of one stays allocated
    while the queue itself is gone. *)
Lemma cleanup_forgets_completion_queues :
  sees (fun _ s => (length <$> outstanding (kernel s), bool_decide (states s = [])))
    ((_ ← run_all [Add (Some (conf_of Q_CMPT 1)) (Some 0); Start 9]; qdma_device_cleanup 64) sample_start) =
  Some (Some 1%nat, true).
Proof. by vm_compute. Qed.

(** A request that a thread waits for is woken up when the queue is stopped, and stays in its list. *)
Lemma stopped_queue_keeps_requests :
  let d := set_work_req_pend 2 (set_work_list [mk_drv_request 7 false; mk_drv_request 8 true] descq_zero) in
  work_list (flush_requests d) = [mk_drv_request 7 false] /\ work_req_pend (flush_requests d) = 1.
Proof. by vm_compute. Qed.
End healthy.

(** Hardware on which one kind of call fails. *)
Definition failing (f : drv_call -> bool) (code : Z) : DrvAccess :=
  {| drv_code _ c := if f c then code else 0; drv_output := @drv_output sample_hw |}.

Definition sets_fmap (c : drv_call) : bool := match c with Hw (MboxPf.qdma_fmap_conf _ _ _ _) => true | _ => false end.
Definition clears_sw (c : drv_call) : bool := match c with Hw (MboxPf.qdma_sw_ctx_conf _ _ _ CLEAR) => true | _ => false end.

(** When the range of queues cannot be set the queue is not added, but it stays enabled: its place
    cannot be used again, and it can be started. *)
Lemma failed_add_leaves_queue_enabled :
  let add := Add (Some (conf_of Q_H2C 1)) (Some 0) in
  sees (fun rvs s => (rvs, take 2 (states s)))
    (@run_all _ _ _ (failing sets_fmap (neg QDMA_ERR_HWACC_BUSY_TIMEOUT)) [add; add] sample_start) =
  Some ([- EBUSY; - EPERM], [Q_STATE_DISABLED; Q_STATE_ENABLED]).
Proof. by vm_compute. Qed.

(** The code of a context that cannot be cleared has been translated when it is translated again: as
    an error of the library 16 is another one. *)
Lemma clear_error_translated_twice :
  let hw := failing clears_sw (neg QDMA_ERR_HWACC_BUSY_TIMEOUT) in
  sees (fun rv _ => rv) (@qdma_descq_context_clear (list drv_call) _ hw 1 false Q_H2C true []) = Some (- EBUSY) /\
  sees (fun rv _ => rv) (@qdma_descq_context_setup (list drv_call) _ hw poll_xdev (set_conf (conf_of Q_H2C 1) descq_zero) []) =
    Some (- EINVAL).
Proof. by vm_compute. Qed.

(** ** Virtual functions *)

(** A mailbox whose state is the number of messages that are allocated. *)
Definition counting (send : Z -> Z * Z) : VfMailbox nat :=
  {| qdma_mbox_msg_alloc n := Ret true (S n); qdma_mbox_msg_send m n := Ret (send m) n;
     qdma_mbox_msg_free n := Ret tt (pred n) |}.

(** When the request cannot be sent, reading an interrupt context succeeds, with the request itself
    for the context. *)
Lemma unsent_read_succeeds :
  sees (fun r n => (r.1, n)) (@vf_intr_context_read nat (counting (fun m => (- EIO, m))) poll_xdev 3 0 0%nat) = Some (0, 0%nat).
Proof. by vm_compute. Qed.

(** Asking for the number of queues leaves the message allocated when it succeeds. *)
Lemma queue_count_keeps_message :
  sees (fun r n => (r.1, n)) (@qdma_dev_get_active_qcnt nat (counting (fun m => (0, m))) poll_xdev 0%nat) = Some (0, 1%nat).
Proof. by vm_compute. Qed.

(** A streaming queue with an adaptive timer is set up by a physical function with full updates of
    the completion status; the request of a virtual function asks for none. *)
Lemma virtual_function_loses_adaptive_rx :
  let d := set_conf (assign [(queue_conf.st, 1); (queue_conf.q_type, Q_C2H); (queue_conf.adaptive_rx, 1)] 0) descq_zero in
  fld cmpt_ctxt.full_upd (make_cmpt_context poll_xdev d) = 1 /\
  fld descq_conf.cmpt_full_upd (vf_descq_conf poll_xdev (csr_info sample_start) d) = 0.
Proof. by vm_compute. Qed.
